(* ===== verification/_CoqProject ===== *)
-Q . S2P
Prelude.v
CFloat.v
Wire.v
Config.v
Structs.v
Payload.v
UdpTile.v
Dispatch.v
Buffer.v
Frame.v
TcpNet.v
TileGrid.v
Selection.v
AudioRing.v
FramePacing.v
Bandwidth.v
TilePolicy.v
VideoTransition.v
StreamPolicy.v
StreamSession.v
DirtyScheduler.v
RenderPlanning.v
ClientOwnership.v
PresentQueue.v
ClientState.v
ContentOrder.v
TileReassembly.v
ClientRepair.v
ClientConfig.v
ClientReceive.v
ClientVideo.v
KeyframeRecovery.v
TileServer.v
TileSend.v
TileTransport.v
WireGrid.v
TileEncode.v
TileSummary.v
TileQueues.v
TilePass.v
