(* ===== verification/Prelude.v ===== *)
(** * WayDisplay: a verification library (root file)

    ** The program

    WayDisplay shows the screen of a wlroots compositor (the server,
    src/server) in an SDL window on another machine (the client, src/client).
    Control, input, selections, video and audio travel as framed messages over
    several TCP connections; the screen travels either as square tiles in UDP
    datagrams or as an encoded video stream, and the server changes between
    the two during a session.  src/common and include/waydisplay hold what both
    sides share: the protocol's structures, its message registry, framing,
    buffers, the tile grid and the selection codec.

    On the server the frame worker finds the base tiles that changed, queues
    them by region, encodes regions on worker threads, and hands the fragments
    of each tile to an asynchronous UDP sender within a byte budget; a policy
    decides from the client's reports between tiles and video, and a content
    epoch says which of the two owns the display.  On the client datagrams are
    reassembled to tiles, missing ones are asked for again, and an ownership
    word shared by the threads keeps stale content off the screen.

    ** Files

    Shared:
    - Prelude: machine integers, arrays, tactics, hint databases; this file.
    - CFloat: C floating point.  Wire: packed little-endian structures, the
      interface [WireStruct] and its codec.  Config: constants of wd_config.h
      and the enumerators of the protocol.
    - Structs, Payload, UdpTile: include/waydisplay/wd_protocol.h, the
      structures, the payload validators, the tile packet codec.
    - Dispatch: wd_protocol_dispatch.c, wd_protocol_codec.c.
    - Buffer: wd_buffer.c.  Frame: wd_frame.c.  TcpNet: wd_net.c.  TileGrid: wd_tile.c.
      Selection: wd_selection.c.
    Server:
    - AudioRing: wd_audio_ring.c.
    - FramePacing, Bandwidth, TilePolicy, VideoTransition, DirtyScheduler: the
      files wd_frame_pacing.c, wd_bandwidth_plan.c, wd_tile_policy.c,
      wd_video_transition.c and wd_dirty_region_scheduler.c.
    - StreamPolicy: the policy half of wd_stream.c (rates, modes, frame rate,
      health).  StreamSession: the events of a session that drive it
      (wd_stream_controller.c, wd_stream_video.c, the refresh parts of
      wd_stream.c, the feedback handler of wd_server_net.c).
    - WireGrid: the display geometry of wd_server.c and how tiles of the four
      wire sizes lie over base tiles.
    - TileServer: the tile queues of wd_stream.c.  TileEncode: the encode jobs
      of wd_stream.c, wd_tile_work_snapshot.c, the compressor of wd_zstd.c.
      TileSend: byte budgets and the fragmenting sender of wd_stream.c.
    - TileSummary: the generation summaries of wd_stream.c.  TileQueues: what
      the network thread does to the tile queues (delivery reports, repair
      requests, summaries, the start of a session in wd_server_net.c), resizes
      (wd_server.c), and the queues' invariant.  TilePass: the send pass of
      wd_stream.c, which ties queues, encoder and sender together.
    Client:
    - RenderPlanning: render_planning.cpp.  PresentQueue:
      tile_present_queue.cpp, video_present_queue.cpp and the frame buffers of
      video_decoder.hpp.
    - ClientState: the receiver's part of client_state.hpp.  ContentOrder:
      content_order.cpp, tile_upload_epoch.hpp.  ClientRepair: the timers,
      summaries and repair requests of client_net.cpp and the book-keeping of
      completed tiles in client_receive.cpp.  ClientConfig:
      client_config_validation.cpp, the configuration messages and connection
      tables of client_net.cpp, [apply_pending_server_config] of sdl_viewer.cpp.
      ClientReceive: the datagram path and the rounds of client_receive.cpp.
    - TileReassembly: tile_reassembly.cpp, the decompressor of wd_zstd.c.
    - ClientOwnership: stream_ownership.c.  KeyframeRecovery:
      video_keyframe_recovery.c.  ClientVideo: video_transition.c,
      video_decode_queue_policy.c, video_packet_validation.c,
      audio_video_sync.c, wd_media_clock.h, [enqueue_video_message] of
      client_net.cpp.
    Both ends:
    - TileTransport: the server's sender composed with the client's
      reassembler.

    ** How the model corresponds to the code

    A structure is a [Record] under its C name with the fields of the C
    structure under a prefix, an enumeration an [Inductive] or, on the wire, an
    integer constant; a function is a definition under its C name.  Integers
    are [Z] with the wrap-around of their C type written out ([u8], [u16],
    [u32], [u64], ...); bytes are [Z] too.  A pointer the code tests for NULL is
    a [ptr]; an array that may be unallocated is a list, empty when it is not.
    State is passed explicitly, out-parameters are results, failures are [None]
    or a [bool].  Where an access of the code could leave its object, or an
    operation be undefined, the definition returns [None] and a theorem shows
    that it does not.  The operating system, the allocator, the clock, the zstd
    library and the asynchronous sender are arguments: scripts of answers,
    booleans, times and functions.  Code that runs under a lock is one step;
    ClientOwnership models lock-free code at the granularity of single atomic
    accesses, AudioRing at that of one copied frame.  Logging and counters that only telemetry reads are left out
    unless a file says otherwise.

    ** What the theorems show

    - Transport of messages: [tcp_message_delivered], [frame_lifetime_enforced]
      (TcpNet), [wrapped_buffer_released_once]
      (Buffer), [frame_resources_balanced] (Frame), [selection_text_valid_iff_utf8]
      (Selection).
    - Tiles from framebuffer to window: [tiles_transferred] (TileGrid),
      [region_encoded] (TileEncode), [udp_tile_decode_encode],
      [udp_tile_encode_decode] (UdpTile),
      [tile_transport] (TileTransport), [reassembled_tiles_sent] and
      [reassembler_memory_safe] (TileReassembly), [delivery_reported_once] (TilePolicy).
    - The server's tile pipeline: [tile_queues_consistent] and
      [cleared_tiles_sent] (TilePass).  The pass releases its lock while jobs
      are encoded; what other threads do meanwhile is a list of [tile_op]s
      given with each completion, and the theorems hold for every such list.
    - Repair of lost tiles: [announced_tiles_requested], an announced tile stays
      tracked until it is received or requested, and [due_tile_requested], when
      its time has come it is requested (ClientRepair).
    - The client's receiver as a whole: [configuration_well_formed]
      (ClientConfig), the type of its state; [client_memory_safe] and
      [presented_tiles_current] (ClientReceive) over any history of rounds,
      messages and configurations.  Where a round of the receive thread or the
      renderer's [apply_pending_server_config] releases a lock, what the other
      threads do there is part of the step's input; the two sections of the
      content lock in [process_udp_datagram] are modelled apart.
    - From received tile to screen: [present_queue_newest] and
      [video_frames_conserved] (PresentQueue),
      [dirty_area_exact], [upload_covers_damage] and
      [generation_updates_conserved] (RenderPlanning).
    - The audio ring: [audio_ring_linearizable] (AudioRing), the unlocked ring of
      captured frames is a queue under every interleaving of its two threads.
    - Fairness: [scheduler_implements_queue] (DirtyScheduler) refines the lazy
      heap and bitmap to an abstract waiting queue.
    - Who owns the display: [epoch_owner_unique],
      [queued_frame_epoch_committed], [video_waits_for_bootstrap],
      [video_recovery_bounded] (StreamSession) on the server;
      [ownership_linearizable], [ownership_token_expires] (ClientOwnership) on
      the client.
    - The video stream on the client: [decoder_input_chained]
      (ClientVideo), [annexb_keyframe_verdict], [av1_keyframe_verdict],
      [keyframe_validation_safe] (KeyframeRecovery).
    - Rates and budgets: [capture_rate_bounded] (FramePacing).
    - Three flaws: [client_report_divides_by_zero] (StreamSession) runs a session
      in which a client's report makes the server divide by zero;
      [newer_configuration_dropped] (ClientConfig) loses a configuration that
      arrives while the renderer applies an older one; [torn_tile_completed]
      (TileReassembly) completes a tile of two contents, which a tile sent in part
      allows the server to send under one generation.

    ** Fuel and bounds

    Loops that are not structural take fuel, always enough for the loop to end
    by itself: the number of scripted answers of a socket (TcpNet), the size of
    the packet (KeyframeRecovery, every iteration advances) and eleven bytes
    for an AV1 length, the size of the heap or bitmap (DirtyScheduler), four
    levels for the recursion over tile sizes (TileEncode, as there are four
    sizes), the number of fragments of a tile (TileSend), the number of waiting regions
    (TilePass; [take_jobs_ends]), the length of the due queue (ClientRepair;
    [promote_loop_ends]).  Loops of the pass that wait for other threads
    run over the list of what those threads did.  Theorems that a
    result is produced are stated with these values, not under the assumption
    that the fuel suffices.

    ** Not modelled

    The compositor side of the server (wd_scene*.c, wd_xwayland*, wd_pointer.c,
    wd_keyboard*.c, wd_cursor.c, wd_xdg_*.c, wd_readback.c, wd_gpu_capture.c,
    wd_wlroots_backend.c and most of wd_server.c) and the SDL viewer of the
    client mostly call wlroots, EGL and SDL; the video and audio encoders,
    decoders and devices mostly call FFmpeg, Opus and PipeWire.  The
    asynchronous senders and receivers (wd_async_tcp.c, wd_async_udp.c,
    client_async_tcp.cpp, client_async_udp.cpp) are rings over io_uring and
    appear as scripts of answers.  Of wd_stream.c the encoder pool
    and the lifecycle of threads, of wd_server_net.c and client_net.cpp the
    handshake and most message handlers are not modelled.  Telemetry, command lines and process
    launching are left aside. *)
From stdpp Require Export base option list numbers.
From Stdlib Require Export ZArith Lia.

#[global] Open Scope Z_scope.
#[global] Set Default Goal Selector "!".

(** ** Machine integers

    A [uintN_t] is a [Z]; every operation that can leave the type's range is
    followed by the conversion of its result type ([u8], [u16], [u32], [u64],
    [i32]), which reduces modulo the width as C does for unsigned types. *)

Definition UINT8_MAX : Z := 255.
Definition UINT16_MAX : Z := 65535.
Definition UINT32_MAX : Z := 4294967295.
Definition UINT64_MAX : Z := 18446744073709551615.
Definition INT_MAX : Z := 2147483647.
Definition INT64_MAX : Z := 9223372036854775807.
Definition SIZE_MAX : Z := UINT64_MAX.

Definition u8 (x : Z) : Z := x mod 256.
Definition u16 (x : Z) : Z := x mod 65536.
Definition u32 (x : Z) : Z := x mod 4294967296.
Definition u64 (x : Z) : Z := x mod 18446744073709551616.

(** The conversion to [int]: two's complement on 32 bits. *)
Definition i32 (x : Z) : Z :=
  let y := u32 x in if y <=? INT_MAX then y else y - 4294967296.

(** The conversion to [int64_t]. *)
Definition i64 (x : Z) : Z :=
  let y := u64 x in if y <=? INT64_MAX then y else y - 18446744073709551616.

Definition i32_ok (x : Z) : Prop := - 2147483648 <= x <= INT_MAX.
Definition i64_ok (x : Z) : Prop := - 9223372036854775808 <= x <= INT64_MAX.

Definition u8_ok (x : Z) : Prop := 0 <= x <= UINT8_MAX.
Definition u16_ok (x : Z) : Prop := 0 <= x <= UINT16_MAX.
Definition u32_ok (x : Z) : Prop := 0 <= x <= UINT32_MAX.
Definition u64_ok (x : Z) : Prop := 0 <= x <= UINT64_MAX.

(** ** Automation *)

Create HintDb wd discriminated.

(** [wd_bounds] exposes the width constants to [lia]. *)
Ltac wd_bounds :=
  unfold u8_ok, u16_ok, u32_ok, u64_ok, i32_ok, i64_ok, UINT8_MAX, UINT16_MAX, UINT32_MAX,
    SIZE_MAX, UINT64_MAX, INT_MAX, INT64_MAX in *.

(** [mlia]: linear arithmetic after the width constants are unfolded. *)
Ltac mlia := wd_bounds; lia.

(** [bool_cases] turns boolean tests over [Z] into the propositions they
    decide, in the goal and the hypotheses. *)
Ltac bool_step :=
  match goal with
  | H : (_ && _)%bool = true |- _ => apply andb_true_iff in H; destruct H
  | H : (_ || _)%bool = false |- _ => apply orb_false_iff in H; destruct H
  | H : negb _ = true |- _ => apply negb_true_iff in H
  | H : negb _ = false |- _ => apply negb_false_iff in H
  | H : (_ =? _) = true |- _ => apply Z.eqb_eq in H
  | H : (_ =? _) = false |- _ => apply Z.eqb_neq in H
  | H : (_ <? _) = true |- _ => apply Z.ltb_lt in H
  | H : (_ <? _) = false |- _ => apply Z.ltb_ge in H
  | H : (_ <=? _) = true |- _ => apply Z.leb_le in H
  | H : (_ <=? _) = false |- _ => apply Z.leb_gt in H
  | H : (_ >? _) = true |- _ => rewrite Z.gtb_ltb in H; apply Z.ltb_lt in H
  | H : (_ >? _) = false |- _ => rewrite Z.gtb_ltb in H; apply Z.ltb_ge in H
  | H : (_ >=? _) = true |- _ => rewrite Z.geb_leb in H; apply Z.leb_le in H
  | H : (_ >=? _) = false |- _ => rewrite Z.geb_leb in H; apply Z.leb_gt in H
  end.
Ltac bool_cases := repeat bool_step.

(** [case_if] splits on the first conditional of the goal; [case_if_in] on
    the first conditional of a hypothesis. *)
Ltac case_if :=
  match goal with
  | |- context [if ?b then _ else _] =>
      lazymatch b with
      | context [if _ then _ else _] => fail
      | _ => let E := fresh "E" in destruct b eqn:E
      end
  end.
Ltac case_if_in H :=
  match type of H with
  | context [if ?b then _ else _] =>
      lazymatch b with
      | context [if _ then _ else _] => fail
      | _ => let E := fresh "E" in destruct b eqn:E
      end
  end.
Ltac crush_if := repeat (case_if; bool_cases).

(** ** Bit masks

    [flag x m] is the C test [(x & m) != 0]; [outside x m] is
    [(x & ~m) != 0], some bit of [x] outside the mask. *)
Definition flag (x m : Z) : bool := negb (Z.land x m =? 0).
Definition outside (x m : Z) : bool := negb (Z.land x (Z.lnot m) =? 0).

(** ** Generic integer lemmas *)

Lemma outside_land x m : outside x m = false -> Z.land x m = x.
Proof.
  unfold outside. intros H. bool_cases. apply Z.bits_inj'. intros n Hn.
  apply (f_equal (fun z => Z.testbit z n)) in H.
  rewrite Z.land_spec, Z.lnot_spec, Z.bits_0 in H by done.
  rewrite Z.land_spec. by destruct (Z.testbit x n), (Z.testbit m n).
Qed.

Lemma outside_ones x k : 0 <= k -> outside x (Z.ones k) = false -> 0 <= x < 2 ^ k.
Proof.
  intros Hk H. apply outside_land in H. rewrite Z.land_ones in H by done.
  rewrite <- H. apply Z.mod_pos_bound. by apply Z.pow_pos_nonneg.
Qed.

Lemma u8_small x : u8_ok x -> u8 x = x.
Proof. unfold u8. intros. apply Z.mod_small. mlia. Qed.
Lemma u16_small x : u16_ok x -> u16 x = x.
Proof. unfold u16. intros. apply Z.mod_small. mlia. Qed.
Lemma u32_small x : u32_ok x -> u32 x = x.
Proof. unfold u32. intros. apply Z.mod_small. mlia. Qed.
Lemma u64_small x : u64_ok x -> u64 x = x.
Proof. unfold u64. intros. apply Z.mod_small. mlia. Qed.

Lemma u8_range x : u8_ok (u8 x).
Proof. unfold u8. pose proof (Z.mod_pos_bound x 256). mlia. Qed.
Lemma u16_range x : u16_ok (u16 x).
Proof. unfold u16. pose proof (Z.mod_pos_bound x 65536). mlia. Qed.
Lemma u32_range x : u32_ok (u32 x).
Proof. unfold u32. pose proof (Z.mod_pos_bound x 4294967296). mlia. Qed.
Lemma u64_range x : u64_ok (u64 x).
Proof. unfold u64. pose proof (Z.mod_pos_bound x 18446744073709551616). mlia. Qed.
#[export] Hint Resolve u8_range u16_range u32_range u64_range : wd.

Lemma i32_small x : 0 <= x <= INT_MAX -> i32 x = x.
Proof.
  intros. unfold i32. rewrite u32_small by mlia.
  destruct (Z.leb_spec x INT_MAX); lia.
Qed.

(** A negative residue of a value above [- M]. *)
Lemma mod_neg M x : 0 < M -> - M <= x < 0 -> x mod M = x + M.
Proof. intros. symmetry. apply Z.mod_unique with (q := -1); lia. Qed.

Lemma i32_u32 x : i32_ok x -> i32 (u32 x) = x.
Proof.
  intros H. unfold i32. rewrite (u32_small (u32 x)) by auto with wd.
  unfold u32. destruct (Z.leb_spec 0 x);
    [rewrite Z.mod_small by mlia | rewrite mod_neg by mlia]; crush_if; mlia.
Qed.

Lemma u32_i32 y : u32_ok y -> u32 (i32 y) = y /\ i32_ok (i32 y).
Proof.
  intros H. unfold i32. rewrite (u32_small y) by done. crush_if.
  - rewrite (u32_small y) by done. mlia.
  - unfold u32. rewrite mod_neg by mlia. mlia.
Qed.

Lemma i64_u64 x : i64_ok x -> i64 (u64 x) = x.
Proof.
  intros H. unfold i64. rewrite (u64_small (u64 x)) by auto with wd.
  unfold u64. destruct (Z.leb_spec 0 x);
    [rewrite Z.mod_small by mlia | rewrite mod_neg by mlia]; crush_if; mlia.
Qed.

Lemma u64_i64 y : u64_ok y -> u64 (i64 y) = y /\ i64_ok (i64 y).
Proof.
  intros H. unfold i64. rewrite (u64_small y) by done. crush_if.
  - rewrite (u64_small y) by done. mlia.
  - unfold u64. rewrite mod_neg by mlia. mlia.
Qed.

(** The ceiling division the C code writes as [(a + b - 1) / b]. *)
Definition cdiv (a b : Z) : Z := (a + b - 1) / b.

Lemma cdiv_spec a b q :
  0 < b -> cdiv a b = q <-> (q - 1) * b < a <= q * b.
Proof.
  intros Hb. unfold cdiv. split.
  - intros <-. pose proof (Z.div_mod (a + b - 1) b ltac:(lia)).
    pose proof (Z.mod_pos_bound (a + b - 1) b Hb). nia.
  - intros H. symmetry. apply Z.div_unique with (r := a + b - 1 - b * q); nia.
Qed.

Lemma cdiv_pos a b : 0 < a -> 0 < b -> 0 < cdiv a b.
Proof.
  intros. unfold cdiv. apply Z.div_str_pos. lia.
Qed.

Lemma div_lt_cdiv a b x : 0 < b -> 0 <= x < a -> x / b < cdiv a b.
Proof.
  intros Hb Hx. pose proof (proj1 (cdiv_spec a b _ Hb) eq_refl).
  apply Z.div_lt_upper_bound; nia.
Qed.

(** ** Structure update: [s <| field := v |>]

    A structure with an [Eta] instance (the structure rebuilt from its fields)
    gets a setter for every field, found by abstracting the field in the
    rebuilt term. *)

Class Eta (R : Type) := eta : R -> R.
Class FieldSetter {R T : Type} (f : R -> T) := set_field : T -> R -> R.
Arguments set_field {R T} f {_} v r : simpl nomatch.

Ltac derive_setter :=
  match goal with
  | |- @FieldSetter ?R ?T ?f =>
      let i := constr:(_ : Eta R) in
      let e := eval hnf in i in
      let p := eval pattern f in e in
      match p with
      | ?g _ => exact (fun (v : T) (r : R) => g (fun _ => v) r)
      end
  end.
#[export] Hint Extern 1 (FieldSetter _) => derive_setter : typeclass_instances.

Declare Scope wd_scope.
Delimit Scope wd_scope with wd.
Notation "s <| f := v |>" := (set_field f v s)
  (at level 1, left associativity, format "s  <| f  :=  v |>") : wd_scope.
#[global] Open Scope wd_scope.

(** ** Pointers

    [ptr A] is a C pointer to an [A] that the callee tests against [NULL]. *)
Abbreviation ptr := option.
Abbreviation NULL := None.

(** ** Arrays

    Reading and writing a C array at a [Z] index. *)
Definition aget {A} (d : A) (l : list A) (i : Z) : A := nth (Z.to_nat i) l d.
Definition aset {A} (l : list A) (i : Z) (v : A) : list A := <[Z.to_nat i := v]> l.
Definition zlen {A} (l : list A) : Z := Z.of_nat (length l).

(** [!array] of an array that may be unallocated, or [empty()]. *)
Definition null {A} (l : list A) : bool := match l with [] => true | _ => false end.

Lemma zlen_nonneg {A} (l : list A) : 0 <= zlen l.
Proof. unfold zlen. lia. Qed.
#[export] Hint Resolve zlen_nonneg : wd.

Lemma zlen_app {A} (l k : list A) : zlen (l ++ k) = zlen l + zlen k.
Proof. unfold zlen. rewrite length_app. lia. Qed.

Lemma zlen_cons {A} (x : A) l : zlen (x :: l) = 1 + zlen l.
Proof. unfold zlen. cbn [length]. lia. Qed.

Lemma aget_replicate {A} (d : A) n i : aget d (replicate n d) i = d.
Proof.
  unfold aget. rewrite nth_lookup. destruct (replicate n d !! Z.to_nat i) as [x|] eqn:E; [| done].
  apply lookup_replicate_1 in E as [-> _]. done.
Qed.

Lemma zlen_aset {A} (l : list A) i v : zlen (aset l i v) = zlen l.
Proof. unfold zlen, aset. by rewrite length_insert. Qed.

Lemma aget_aset_eq {A} (d : A) l i v :
  0 <= i < zlen l -> aget d (aset l i v) i = v.
Proof.
  unfold aget, aset, zlen. intros H.
  rewrite nth_lookup, list_lookup_insert_eq; [done | lia].
Qed.

Lemma aget_aset_ne {A} (d : A) l i j v :
  0 <= i -> 0 <= j -> i <> j -> aget d (aset l i v) j = aget d l j.
Proof.
  unfold aget, aset. intros. rewrite !nth_lookup, list_lookup_insert_ne; [done | lia].
Qed.

Lemma aget_app_l {A} (d : A) l k i :
  0 <= i < zlen l -> aget d (l ++ k) i = aget d l i.
Proof. unfold aget, zlen. intros. rewrite app_nth1; [done | lia]. Qed.

Lemma aget_app_r {A} (d : A) l k i :
  zlen l <= i -> aget d (l ++ k) i = aget d k (i - zlen l).
Proof.
  unfold aget, zlen. intros. rewrite app_nth2 by lia. f_equal. lia.
Qed.

Lemma aget_In {A} (d : A) l i : 0 <= i < zlen l -> In (aget d l i) l.
Proof. unfold aget, zlen. intros. apply nth_In. lia. Qed.

Lemma In_aget {A} (d : A) l x : In x l -> exists i, 0 <= i < zlen l /\ aget d l i = x.
Proof.
  intros H. destruct (In_nth l x d H) as (n & Hn & E).
  exists (Z.of_nat n). unfold zlen, aget. rewrite Nat2Z.id. split; [lia | done].
Qed.

Lemma aget_ext {A} (d : A) l k :
  zlen l = zlen k -> (forall i, 0 <= i < zlen l -> aget d l i = aget d k i) -> l = k.
Proof.
  unfold zlen, aget. intros Hlen H. apply nth_ext with (d := d) (d' := d); [lia |].
  intros n Hn. specialize (H (Z.of_nat n) ltac:(lia)). by rewrite Nat2Z.id in H.
Qed.

Lemma aset_same {A} (d : A) l i : 0 <= i -> aset l i (aget d l i) = l.
Proof.
  intros Hi. apply (aget_ext d); rewrite zlen_aset; [done |]. intros j Hj.
  destruct (Z.eq_dec j i) as [->|]; [by rewrite aget_aset_eq | by rewrite aget_aset_ne by lia].
Qed.

Lemma aset_aset {A} (l : list A) i v w : aset (aset l i v) i w = aset l i w.
Proof. apply list_insert_insert_eq. Qed.

(** A slice [l[off .. off+len)]. *)
Definition slice {A} (off len : Z) (l : list A) : list A :=
  take (Z.to_nat len) (drop (Z.to_nat off) l).

Lemma zlen_slice {A} off len (l : list A) :
  0 <= off -> 0 <= len -> off + len <= zlen l -> zlen (slice off len l) = len.
Proof. unfold zlen, slice. intros. rewrite length_take, length_drop. lia. Qed.

(** The loop counters [0 .. n-1] of a [for] loop. *)
Definition zseq (n : Z) : list Z := Z.of_nat <$> seq 0 (Z.to_nat n).

Lemma elem_of_zseq n i : In i (zseq n) <-> 0 <= i < n.
Proof.
  unfold zseq. rewrite in_map_iff. setoid_rewrite in_seq. split.
  - intros (k & <- & H). lia.
  - intros H. exists (Z.to_nat i). lia.
Qed.

Lemma NoDup_zseq n : NoDup (zseq n).
Proof.
  unfold zseq. apply NoDup_fmap_2; [intros ? ?; lia |]. apply NoDup_ListNoDup, seq_NoDup.
Qed.

Lemma zlen_zseq n : 0 <= n -> zlen (zseq n) = n.
Proof. intros. unfold zlen, zseq. rewrite length_fmap, length_seq. lia. Qed.

Lemma zseq_lookup n i : 0 <= i < n -> zseq n !! Z.to_nat i = Some i.
Proof.
  intros Hi. unfold zseq. rewrite list_lookup_fmap, lookup_seq_lt by lia. cbn. f_equal. lia.
Qed.

Lemma zlen_fmap {A B} (f : A -> B) l : zlen (f <$> l) = zlen l.
Proof. unfold zlen. by rewrite length_fmap. Qed.

Lemma zlen_bind_const {A B} (f : A -> list B) l n : (forall x, zlen (f x) = n) -> zlen (l ≫= f) = zlen l * n.
Proof.
  intros Hf. induction l as [|x l IH]; [done |]. change ((x :: l) ≫= f) with (f x ++ (l ≫= f)).
  rewrite zlen_app, zlen_cons, Hf, IH. ring.
Qed.

(** [memcpy] into an array at an offset (the copied values [bs] must fit). *)
Definition write_at (off : Z) (bs mem : list Z) : list Z :=
  take (Z.to_nat off) mem ++ bs ++ drop (Z.to_nat off + length bs) mem.

Lemma zlen_write_at off bs mem :
  0 <= off -> off + zlen bs <= zlen mem -> zlen (write_at off bs mem) = zlen mem.
Proof. unfold zlen, write_at. intros. rewrite !length_app, length_take, length_drop. lia. Qed.

Lemma aget_write_at_in off bs mem i :
  0 <= off -> off + zlen bs <= zlen mem -> off <= i < off + zlen bs ->
  aget 0 (write_at off bs mem) i = aget 0 bs (i - off).
Proof.
  unfold zlen, write_at, aget. intros. rewrite app_nth2; rewrite length_take; [| lia].
  rewrite app_nth1 by lia. f_equal. lia.
Qed.

Lemma aget_write_at_out off bs mem i :
  0 <= off -> off + zlen bs <= zlen mem -> 0 <= i -> (i < off \/ off + zlen bs <= i) ->
  aget 0 (write_at off bs mem) i = aget 0 mem i.
Proof.
  unfold zlen, write_at, aget. intros H1 H2 H3 [H|H].
  - rewrite app_nth1 by (rewrite length_take; lia). by rewrite !nth_lookup, lookup_take_lt by lia.
  - rewrite !app_nth2; rewrite ?length_take; try lia.
    rewrite !nth_lookup, lookup_drop. do 2 f_equal. lia.
Qed.

(** A [for] loop that copies one row per iteration into an array. *)
Definition copy_rows (n : Z) (off : Z -> Z) (row : Z -> list Z) (mem : list Z) : list Z :=
  fold_left (fun m y => write_at (off y) (row y) m) (zseq n) mem.

Lemma zseq_succ n : 0 <= n -> zseq (n + 1) = zseq n ++ [n].
Proof.
  intros Hn. unfold zseq. replace (Z.to_nat (n + 1)) with (S (Z.to_nat n)) by lia.
  rewrite seq_S, fmap_app. cbn. repeat f_equal. lia.
Qed.

(** Disjoint rows inside the array: each can be read back, the rest of the
    array keeps its contents. *)
Lemma copy_rows_spec n off row mem :
  0 <= n ->
  (forall y, 0 <= y < n -> 0 <= off y /\ off y + zlen (row y) <= zlen mem) ->
  (forall y z, 0 <= y -> y < z < n -> off y + zlen (row y) <= off z) ->
  zlen (copy_rows n off row mem) = zlen mem /\
  (forall y i, 0 <= y < n -> 0 <= i < zlen (row y) ->
     aget 0 (copy_rows n off row mem) (off y + i) = aget 0 (row y) i) /\
  (forall p, 0 <= p -> (forall y, 0 <= y < n -> p < off y \/ off y + zlen (row y) <= p) ->
     aget 0 (copy_rows n off row mem) p = aget 0 mem p).
Proof.
  intros Hn. pattern n. apply natlike_ind; [| | exact Hn].
  - intros _ _. split_and!; [done | lia | done].
  - clear n Hn. intros n Hn IH Hin Hdis. unfold copy_rows in *.
    rewrite <- Z.add_1_r in *. rewrite zseq_succ, fold_left_app by done. cbn [fold_left].
    destruct IH as (IH1 & IH2 & IH3); [intros; apply Hin; lia | intros; apply Hdis; lia |].
    set (m := fold_left _ (zseq n) mem) in *. destruct (Hin n ltac:(lia)) as [Ho He].
    split_and!.
    + rewrite zlen_write_at; rewrite ?IH1; done.
    + intros y i Hy Hi. destruct (Z.eq_dec y n) as [->|].
      * rewrite aget_write_at_in; rewrite ?IH1; [f_equal; lia | done | done | lia].
      * pose proof (Hdis y n ltac:(lia) ltac:(lia)). destruct (Hin y Hy).
        rewrite aget_write_at_out; rewrite ?IH1; [apply IH2; lia | done | done | lia | lia].
    + intros p Hp Hout. rewrite aget_write_at_out; rewrite ?IH1; [| done | done | done |].
      * apply IH3; [done |]. intros; apply Hout; lia.
      * apply Hout. lia.
Qed.

Lemma aget_slice {A} (d : A) off len l i :
  0 <= off -> 0 <= i < len -> aget d (slice off len l) i = aget d l (off + i).
Proof.
  unfold aget, slice. intros. rewrite !nth_lookup, lookup_take_lt, lookup_drop by lia.
  do 2 f_equal. lia.
Qed.

(** ** Sums *)

Definition zsum (l : list Z) : Z := fold_right Z.add 0 l.

Lemma zsum_app l k : zsum (l ++ k) = zsum l + zsum k.
Proof. induction l as [|x l IH]; cbn; [done |]. unfold zsum in *. lia. Qed.

(** ** Flags: how many are set *)

Definition n_queued (l : list bool) : Z := fold_right (fun b n => Z.b2z b + n) 0 l.

Lemma n_queued_range l : 0 <= n_queued l <= zlen l.
Proof. unfold zlen, n_queued. induction l as [|[] l IH]; cbn [fold_right length Z.b2z] in *; lia. Qed.

Lemma n_queued_aset l i b :
  0 <= i < zlen l -> n_queued (aset l i b) = n_queued l - Z.b2z (aget false l i) + Z.b2z b.
Proof.
  unfold zlen, aset, aget. intros Hi. assert (Z.to_nat i < length l)%nat as Hn by lia. clear Hi.
  revert Hn. generalize (Z.to_nat i). induction l as [|a l IH]; intros n Hn; [cbn in Hn; lia |].
  unfold n_queued in *. destruct n as [|n]; cbn [fold_right insert list_insert nth length] in *; [lia |].
  rewrite IH by lia. lia.
Qed.

Lemma n_queued_zero l : n_queued l = 0 <-> forall i, 0 <= i < zlen l -> aget false l i = false.
Proof.
  split.
  - intros H i Hi. destruct (aget false l i) eqn:E; [| done].
    pose proof (n_queued_aset l i false Hi) as Hs. rewrite E in Hs. cbn in Hs.
    pose proof (n_queued_range (aset l i false)). lia.
  - intros H. induction l as [|a l IH]; [done |].
    pose proof (H 0 ltac:(unfold zlen; cbn [length]; lia)) as H0.
    change (a = false) in H0. subst a. change (n_queued l = 0).
    apply IH. intros i Hi. specialize (H (i + 1) ltac:(unfold zlen in *; cbn [length]; lia)).
    unfold aget in *. replace (Z.to_nat (i + 1)) with (S (Z.to_nat i)) in H by lia. exact H.
Qed.

Lemma n_queued_pos l i : 0 <= i < zlen l -> aget false l i = true -> 0 < n_queued l.
Proof.
  intros Hi Ha. pose proof (n_queued_range l). destruct (Z.eq_dec (n_queued l) 0) as [E|?]; [| lia].
  apply n_queued_zero with (i := i) in E; [congruence | done].
Qed.
