(* ===== verification/CFloat.v ===== *)
(** * C floating point

    [double] is IEEE binary64 and [long double] the x87 extended format (64-bit
    significand), as on the platforms the program is built for, through the
    executable [SpecFloat]: every operation rounds to nearest, ties to even. *)
From Stdlib Require Export Floats.SpecFloat.
From S2P Require Import Prelude.

Definition double_prec : Z := 53.
Definition double_emax : Z := 1024.
Definition ld_prec : Z := 64.
Definition ld_emax : Z := 16384.

(** The conversions from an integer. *)
Definition double_of_Z (x : Z) : spec_float := binary_normalize double_prec double_emax x 0 false.
Definition ld_of_Z (x : Z) : spec_float := binary_normalize ld_prec ld_emax x 0 false.

Definition double_add := SFadd double_prec double_emax.
Definition double_sub := SFsub double_prec double_emax.
Definition double_mul := SFmul double_prec double_emax.
Definition double_div := SFdiv double_prec double_emax.
Definition ld_mul := SFmul ld_prec ld_emax.
Definition ld_div := SFdiv ld_prec ld_emax.

(** [(uint64_t)x] for a non-negative [x] below [2^64]: truncation. *)
Definition float_to_u64 (x : spec_float) : Z :=
  match x with
  | S754_finite false m e => u64 (Z.shiftl (Z.pos m) e)
  | _ => 0
  end.
