(* ===== verification/Wire.v ===== *)
(** * Packed little-endian structures

    Protocol v2 sends one-byte-packed C structures with [memcpy]
    (include/waydisplay/wd_protocol.h, src/common/wd_protocol_codec.c).  This
    file states once what such a copy does: a structure is its list of fields,
    each of a width in bytes, and its image in memory is the concatenation of
    the little-endian images of the fields.  [WireStruct] is the interface a
    structure implements; the codec and its two round trips are proved against
    the interface. *)
From S2P Require Import Prelude.

(** Bytes are integers in [0, 255]. *)
Definition byte_ok (b : Z) : Prop := 0 <= b < 256.
Definition bytes_ok (bs : list Z) : Prop := Forall byte_ok bs.

(** The little-endian image of [v] on [n] bytes, and the value of an image. *)
Fixpoint le_bytes (n : nat) (v : Z) : list Z :=
  match n with
  | O => []
  | S n => v mod 256 :: le_bytes n (v / 256)
  end.

Fixpoint le_value (bs : list Z) : Z :=
  match bs with
  | [] => 0
  | b :: bs => b + 256 * le_value bs
  end.

(** A value that fits a field of [w] bytes. *)
Definition fits (w : nat) (v : Z) : Prop := 0 <= v < 256 ^ Z.of_nat w.

(** Reading consecutive fields of the given widths. *)
Fixpoint split_fields (ws : list nat) (bs : list Z) : list Z :=
  match ws with
  | [] => []
  | w :: ws => le_value (take w bs) :: split_fields ws (drop w bs)
  end.

Fixpoint join_fields (ws : list nat) (vs : list Z) : list Z :=
  match ws, vs with
  | w :: ws, v :: vs => le_bytes w v ++ join_fields ws vs
  | _, _ => []
  end.

(** The [i]-th field of a list of field values. *)
Definition fld (l : list Z) (i : nat) : Z := nth i l 0.
Arguments fld : simpl never.

Class WireStruct (A : Type) := {
  ws_widths : list nat;
  ws_fields : A -> list Z;
  ws_of_fields : list Z -> A;
  (** what the C type of a field guarantees beyond its width (signed fields,
      array lengths) *)
  ws_extra : A -> Prop;
  ws_iso : forall a, ws_extra a -> ws_of_fields (ws_fields a) = a;
  ws_inv : forall l, Forall2 fits ws_widths l ->
    ws_fields (ws_of_fields l) = l /\ ws_extra (ws_of_fields l);
}.

(** [sizeof], the bytes [memcpy(dst, &s, sizeof(s))] writes, and the structure
    [memcpy(&s, src, sizeof(s))] reads; reading needs [sizeof] bytes. *)
Definition sizeof (A : Type) `{WireStruct A} : Z := Z.of_nat (sum_list ws_widths).

Definition encode `{WireStruct A} (a : A) : list Z := join_fields ws_widths (ws_fields a).

Definition decode `{WireStruct A} (bs : list Z) : option A :=
  if zlen bs <? sizeof A then None else Some (ws_of_fields (split_fields ws_widths bs)).

Definition ws_ok `{WireStruct A} (a : A) : Prop :=
  Forall2 fits ws_widths (ws_fields a) /\ ws_extra a.

(** ** Lemmas *)

Lemma le_bytes_length n v : length (le_bytes n v) = n.
Proof. revert v; induction n; intros; simpl; congruence. Qed.

Lemma le_bytes_ok n v : bytes_ok (le_bytes n v).
Proof.
  revert v; induction n; intros; simpl; constructor; [| apply IHn].
  unfold byte_ok. apply Z.mod_pos_bound. lia.
Qed.
#[export] Hint Resolve le_bytes_ok : wd.

Lemma pow256_succ w : 256 ^ Z.of_nat (S w) = 256 * 256 ^ Z.of_nat w.
Proof. rewrite Nat2Z.inj_succ, Z.pow_succ_r by lia. done. Qed.

Lemma le_value_bytes n v : fits n v -> le_value (le_bytes n v) = v.
Proof.
  revert v; induction n as [|n IH]; intros v Hv.
  - unfold fits in Hv. cbn in *. lia.
  - cbn [le_bytes le_value]. rewrite IH; [pose proof (Z.div_mod v 256); lia |].
    unfold fits in *. rewrite pow256_succ in Hv. split.
    + apply Z.div_pos; lia.
    + apply Z.div_lt_upper_bound; lia.
Qed.

Lemma le_value_fits bs : bytes_ok bs -> fits (length bs) (le_value bs).
Proof.
  induction 1 as [|b bs Hb _ IH]; unfold fits in *.
  - cbn. lia.
  - cbn [le_value length]. rewrite pow256_succ. unfold byte_ok in Hb. lia.
Qed.

Lemma le_bytes_value bs : bytes_ok bs -> le_bytes (length bs) (le_value bs) = bs.
Proof.
  induction 1 as [|b bs Hb _ IH]; [done |].
  cbn [length le_bytes le_value]. unfold byte_ok in Hb.
  replace (b + 256 * le_value bs) with (b + le_value bs * 256) by lia.
  rewrite Z.mod_add, Z.div_add, Z.mod_small, Z.div_small by lia.
  rewrite Z.add_0_l. by rewrite IH.
Qed.

Lemma join_fields_length ws vs :
  length ws = length vs -> length (join_fields ws vs) = sum_list ws.
Proof.
  revert vs; induction ws as [|w ws IH]; intros [|v vs] H; simpl in *; try done.
  rewrite length_app, le_bytes_length, IH by lia. done.
Qed.

Lemma join_fields_ok ws vs : bytes_ok (join_fields ws vs).
Proof.
  revert vs; induction ws as [|w ws IH]; intros [|v vs]; simpl;
    try by constructor.
  apply Forall_app. split; [apply le_bytes_ok | apply IH].
Qed.

Lemma split_join ws vs rest :
  Forall2 fits ws vs -> split_fields ws (join_fields ws vs ++ rest) = vs.
Proof.
  induction 1 as [|w v ws vs Hv _ IH]; [done |].
  cbn [join_fields split_fields]. rewrite <- app_assoc.
  rewrite take_app_length' by by rewrite le_bytes_length.
  rewrite drop_app_length' by by rewrite le_bytes_length.
  rewrite le_value_bytes by done. by rewrite IH.
Qed.

Lemma split_fields_length ws bs : length (split_fields ws bs) = length ws.
Proof. revert bs; induction ws; intros; simpl; f_equal; auto. Qed.

Lemma split_fields_fit ws bs :
  bytes_ok bs -> (sum_list ws <= length bs)%nat -> Forall2 fits ws (split_fields ws bs).
Proof.
  revert bs; induction ws as [|w ws IH]; intros bs Hbs Hlen; simpl in *; constructor.
  - rewrite <- (length_take_le bs w) at 1 by lia.
    apply le_value_fits. by apply Forall_take.
  - apply IH; [by apply Forall_drop | rewrite length_drop; lia].
Qed.

Lemma join_split ws bs :
  bytes_ok bs -> (sum_list ws <= length bs)%nat ->
  join_fields ws (split_fields ws bs) = take (sum_list ws) bs.
Proof.
  revert bs; induction ws as [|w ws IH]; intros bs Hbs Hlen; [done |].
  replace (sum_list (w :: ws)) with (w + sum_list ws)%nat in * by done.
  cbn [split_fields join_fields].
  rewrite IH; [| by apply Forall_drop | rewrite length_drop; lia].
  assert (le_bytes w (le_value (take w bs)) = take w bs) as ->.
  { rewrite <- (length_take_le bs w) at 1 by lia.
    apply le_bytes_value. by apply Forall_take. }
  by rewrite take_take_drop.
Qed.

Section codec.
Context {A : Type} `{WireStruct A}.

Lemma sizeof_nonneg : 0 <= sizeof A.
Proof. unfold sizeof. lia. Qed.

Lemma ws_ok_length (a : A) : ws_ok a -> length ws_widths = length (ws_fields a).
Proof. intros [Hf _]. by apply Forall2_length in Hf. Qed.

Lemma encode_length (a : A) : ws_ok a -> zlen (encode a) = sizeof A.
Proof.
  intros Ha. unfold zlen, encode, sizeof.
  by rewrite join_fields_length by by apply ws_ok_length.
Qed.

Lemma encode_ok (a : A) : bytes_ok (encode a).
Proof. apply join_fields_ok. Qed.

(** Reading back a structure that was copied out, whatever follows it. *)
Lemma decode_encode (a : A) rest :
  ws_ok a -> decode (encode a ++ rest) = Some a.
Proof.
  intros Ha. unfold decode. rewrite zlen_app, encode_length by done.
  pose proof (zlen_nonneg rest).
  replace (_ <? _) with false by (symmetry; apply Z.ltb_ge; lia).
  unfold encode. rewrite split_join by apply Ha. f_equal. apply ws_iso, Ha.
Qed.

(** Copying out a structure that was read gives back its bytes. *)
Lemma encode_decode bs (a : A) :
  bytes_ok bs -> decode bs = Some a ->
  encode a = take (Z.to_nat (sizeof A)) bs /\ ws_ok a.
Proof.
  intros Hbs. unfold decode. case_if; [done |]. bool_cases. intros [= <-].
  unfold sizeof, zlen in *.
  pose proof (split_fields_fit ws_widths bs Hbs ltac:(lia)) as Hfit.
  destruct (ws_inv _ Hfit) as [Hf Hx].
  unfold encode, ws_ok. rewrite Hf, Nat2Z.id. split; [| done].
  apply join_split; [done | lia].
Qed.

Lemma decode_total bs : sizeof A <= zlen bs -> is_Some (decode (A := A) bs).
Proof.
  intros Hl. unfold decode. replace (_ <? _) with false by (symmetry; apply Z.ltb_ge; lia).
  by eexists.
Qed.
End codec.

Lemma fld_all n l : length l = n -> map (fld l) (seq 0 n) = l.
Proof.
  intros <-. unfold fld. induction l as [|x l IH]; [done |].
  simpl. f_equal. rewrite <- seq_shift, map_map. apply IH.
Qed.

Lemma fld_fits ws l k w : Forall2 fits ws l -> ws !! k = Some w -> fits w (fld l k).
Proof.
  intros Hf Hk. destruct (Forall2_lookup_l _ _ _ _ _ Hf Hk) as (v & Hv & Hfit).
  unfold fld. by rewrite nth_lookup, Hv.
Qed.

(** [wire_struct] discharges the laws of a structure whose fields are all
    unsigned scalars. *)
Ltac wire_struct :=
  first
  [ intros []; reflexivity
  | let l := fresh "l" in let Hf := fresh "Hf" in
    intros l Hf; split; [| exact I]; apply Forall2_length in Hf;
    exact (fld_all _ l (eq_sym Hf)) ].

(** [wire_struct_signed k fwd bwd]: the same for a structure whose [k]-th field
    is signed; [fwd] and [bwd] are the two conversion lemmas of its type. *)
Ltac wire_struct_signed k fwd bwd :=
  first
  [ let H := fresh "H" in intros [] H; cbn in *; unfold fld; cbn; by rewrite fwd
  | let l := fresh "l" in let Hf := fresh "Hf" in let Hk := fresh "Hk" in
    let Ha := fresh "Ha" in let Hb := fresh "Hb" in
    intros l Hf; pose proof (fld_fits _ _ k _ Hf eq_refl) as Hk; cbn;
    destruct (bwd (fld l k)) as [Ha Hb];
    [unfold fits in Hk; simpl in Hk; mlia |];
    rewrite Ha; split; [| exact Hb];
    apply Forall2_length in Hf; exact (fld_all _ l (eq_sym Hf)) ].
