(* ===== verification/Config.v ===== *)
(** * Build-time constants and protocol enumerators

    The macros of include/waydisplay/wd_config.h and wd_time.h and the
    enumerators of include/waydisplay/wd_protocol.h that the components use,
    under their C names.  An enumerator that travels on the wire is the
    integer it stands for. *)
From S2P Require Import Prelude.


(** ** include/waydisplay/wd_time.h *)

Definition WD_USEC_PER_MSEC : Z := 1000.
Definition WD_MSEC_PER_SEC : Z := 1000.
Definition WD_NSEC_PER_USEC : Z := 1000.
Definition WD_NSEC_PER_MSEC : Z := (WD_NSEC_PER_USEC * WD_USEC_PER_MSEC).
Definition WD_NSEC_PER_SEC : Z := (WD_NSEC_PER_MSEC * WD_MSEC_PER_SEC).

(** ** include/waydisplay/wd_config.h *)

Definition WD_DISPLAY_WIDTH : Z := 800.
Definition WD_DISPLAY_HEIGHT : Z := 600.
Definition WD_MAX_RENDER_WIDTH : Z := 4096.
Definition WD_MAX_RENDER_HEIGHT : Z := 2160.
Definition WD_VIDEO_CODED_ALIGNMENT_MAX : Z := 64.
Definition WD_MAX_VIDEO_CODED_WIDTH : Z := ((((WD_MAX_RENDER_WIDTH) + WD_VIDEO_CODED_ALIGNMENT_MAX - 1) / WD_VIDEO_CODED_ALIGNMENT_MAX) * WD_VIDEO_CODED_ALIGNMENT_MAX).
Definition WD_MAX_VIDEO_CODED_HEIGHT : Z := ((((WD_MAX_RENDER_HEIGHT) + WD_VIDEO_CODED_ALIGNMENT_MAX - 1) / WD_VIDEO_CODED_ALIGNMENT_MAX) * WD_VIDEO_CODED_ALIGNMENT_MAX).
Definition WD_TILE_WIDTH : Z := 16.
Definition WD_TILE_HEIGHT : Z := 16.
Definition WD_BASE_TILE_WIDTH : Z := 16.
Definition WD_BASE_TILE_HEIGHT : Z := 16.
Definition WD_TILES_X : Z := (((WD_DISPLAY_WIDTH) + (WD_TILE_WIDTH) - 1) / (WD_TILE_WIDTH)).
Definition WD_TILES_Y : Z := (((WD_DISPLAY_HEIGHT) + (WD_TILE_HEIGHT) - 1) / (WD_TILE_HEIGHT)).
Definition WD_TOTAL_TILES : Z := (WD_TILES_X * WD_TILES_Y).
Definition WD_BYTES_PER_PIXEL : Z := 4.
Definition WD_TCP_MAX_PAYLOAD_SIZE : Z := (2 * 1024 * 1024).
Definition WD_UDP_PAYLOAD_TARGET : Z := 1400.
Definition WD_MIN_PROBED_UDP_PAYLOAD : Z := 512.
Definition WD_CLIENT_TILE_REASSEMBLY_MAX_RECYCLED_ENTRIES : Z := 64.
Definition WD_CLIENT_TILE_REASSEMBLY_MAX_RECYCLED_BUFFERS : Z := 8.
Definition WD_CLIENT_UDP_RECV_SLACK_BYTES : Z := 512.
Definition WD_NET_CLIENT_GAP_GRACE_NS : Z := (50 * WD_NSEC_PER_MSEC).
Definition WD_NET_CLIENT_REPAIR_RETRY_MIN_NS : Z := (10 * WD_NSEC_PER_MSEC).
Definition WD_STATS_SAMPLE_INTERVAL_NS : Z := WD_NSEC_PER_SEC.
Definition WD_LOG_RATE_LIMIT_INTERVAL_NS : Z := WD_STATS_SAMPLE_INTERVAL_NS.
Definition WD_CLIENT_SUMMARY_PROMOTE_INTERVAL_NS : Z := (10 * 1000 * 1000).
Definition WD_GENERATION_SUMMARY_CLEAN_DELTA_INTERVAL_NS : Z := 200000000.
Definition WD_LINK_RTT_MAX_NS : Z := 800000000.
Definition WD_LINK_SUMMARY_GRACE_MIN_NS : Z := 150000000.
Definition WD_LINK_SUMMARY_GRACE_DEFAULT_NS : Z := 150000000.
Definition WD_LINK_SUMMARY_GRACE_MAX_NS : Z := 1200000000.
Definition WD_LINK_RETRANSMIT_REQUEST_INTERVAL_MIN_NS : Z := 250000000.
Definition WD_LINK_RETRANSMIT_REQUEST_INTERVAL_DEFAULT_NS : Z := 250000000.
Definition WD_LINK_RETRANSMIT_REQUEST_INTERVAL_MAX_NS : Z := 1200000000.
Definition WD_LINK_RETRANSMIT_INFLIGHT_MIN_NS : Z := 250000000.
Definition WD_LINK_RETRANSMIT_INFLIGHT_DEFAULT_NS : Z := 250000000.
Definition WD_LINK_RETRANSMIT_INFLIGHT_MAX_NS : Z := 1200000000.
Definition WD_LINK_TILE_REASSEMBLY_MIN_NS : Z := 150000000.
Definition WD_LINK_TILE_REASSEMBLY_DEFAULT_NS : Z := 250000000.
Definition WD_LINK_TILE_REASSEMBLY_MAX_NS : Z := 900000000.
Definition WD_LINK_CLEAN_SUMMARY_INTERVAL_MIN_NS : Z := 200000000.
Definition WD_LINK_CLEAN_SUMMARY_INTERVAL_DEFAULT_NS : Z := WD_GENERATION_SUMMARY_CLEAN_DELTA_INTERVAL_NS.
Definition WD_LINK_CLEAN_SUMMARY_INTERVAL_MAX_NS : Z := WD_NSEC_PER_SEC.
Definition WD_LINK_RUNTIME_GAP_PRESSURE_MIN_NS : Z := 50000000.
Definition WD_LINK_LARGE_SUMMARY_REPAIR_PERCENT : Z := 25.
Definition WD_LINK_LARGE_SUMMARY_REPAIR_LOSS_SIGNAL_NS : Z := 2000000000.
Definition WD_LINK_LARGE_SUMMARY_REPAIR_COOLDOWN_NS : Z := WD_NSEC_PER_SEC.
Definition WD_CLIENT_REPAIR_PRESSURE_PERCENT : Z := 25.
Definition WD_CLIENT_REPAIR_PRESSURE_MAX_QUEUE_TILES : Z := 2048.
Definition WD_CLIENT_TILE_REASSEMBLY_TIMEOUT_SLACK_NS : Z := (50 * WD_NSEC_PER_MSEC).
Definition WD_CLIENT_TILE_REASSEMBLY_EWMA_OLD_NUMERATOR : Z := 7.
Definition WD_CLIENT_TILE_REASSEMBLY_EWMA_DENOMINATOR : Z := 8.
Definition WD_CLIENT_TILE_REASSEMBLY_DEVIATION_OLD_NUMERATOR : Z := 3.
Definition WD_CLIENT_TILE_REASSEMBLY_DEVIATION_DENOMINATOR : Z := 4.
Definition WD_CLIENT_TILE_REASSEMBLY_INITIAL_DEVIATION_DIVISOR : Z := 2.
Definition WD_CLIENT_TILE_REASSEMBLY_DEVIATION_MULTIPLIER : Z := 2.
Definition WD_CLIENT_TILE_REASSEMBLY_LOSS_DECAY_PERCENT : Z := 75.
Definition WD_CLIENT_RETRANSMIT_JITTER_INITIAL_DEVIATION_DIVISOR : Z := 4.
Definition WD_AUDIO_SAMPLE_RATE_DEFAULT : Z := 48000.
Definition WD_AUDIO_TARGET_LATENCY_MS_MIN : Z := 10.
Definition WD_AUDIO_TARGET_LATENCY_MS_MAX : Z := 400.
Definition WD_VIDEO_MIN_DIRTY_PERCENT_DEFAULT : Z := 30.
Definition WD_VIDEO_MIN_DIRTY_PERCENT_MAX : Z := 100.
Definition WD_VIDEO_ENTER_SECONDS_DEFAULT : Z := 3.
Definition WD_VIDEO_ENTER_SECONDS_MAX : Z := 60.
Definition WD_VIDEO_EXIT_DIRTY_PERCENT_DEFAULT : Z := 15.
Definition WD_VIDEO_EXIT_DIRTY_PERCENT_MAX : Z := 100.
Definition WD_VIDEO_EXIT_SECONDS_DEFAULT : Z := 30.
Definition WD_VIDEO_EXIT_SECONDS_MAX : Z := 300.
Definition WD_CLIENT_VIDEO_AUDIO_EARLY_MS : Z := 15.
Definition WD_CLIENT_VIDEO_AUDIO_LATE_MS : Z := 30.
Definition WD_CLIENT_VIDEO_AUDIO_MAX_RETRY_MS : Z := 20.
Definition WD_DEFAULT_SESSION_FPS : Z := 60.
Definition WD_MAX_SESSION_FPS : Z := 240.
Definition WD_STREAM_TOKEN_BURST_DIVISOR : Z := 4.
Definition WD_UDP_RATE_DEFAULT_BYTES_PER_SECOND : Z := (1024 * 1024).
Definition WD_UDP_RATE_MIN_BYTES_PER_SECOND : Z := (25 * 1024).
Definition WD_UDP_RATE_MAX_BYTES_PER_SECOND : Z := (1000 * 1024 * 1024 * 1024).
Definition WD_VIDEO_DEFAULT_BITRATE_KIB_PER_SECOND : Z := 8192.
Definition WD_VIDEO_DERIVED_BITRATE_MAX_KIB_PER_SECOND : Z := 100000.
Definition WD_WIRE_TILE_MAX_WIDTH : Z := 128.
Definition WD_WIRE_TILE_MAX_HEIGHT : Z := 64.
Definition WD_STREAM_LINK_LOSS_SECONDS_TO_DECREASE : Z := 2.
Definition WD_STREAM_LINK_GOOD_SECONDS_TO_INCREASE : Z := 4.
Definition WD_STREAM_RATE_PRESSURE_DECREASE_PERCENT : Z := 65.
Definition WD_STREAM_RATE_INCREASE_PERCENT : Z := 125.
Definition WD_STREAM_RATE_INCREASE_MIN_BYTES : Z := (64 * 1024).
Definition WD_STREAM_CLIENT_COMPLETION_MIN_PACKETS : Z := 4.
Definition WD_STREAM_CLIENT_COMPLETION_LOSS_PERCENT : Z := 35.
Definition WD_STREAM_CLIENT_RENDER_FPS_PRESSURE_PERCENT : Z := 85.
Definition WD_STREAM_CLIENT_RENDER_PRESSURE_SECONDS_TO_DECREASE : Z := 5.
Definition WD_STREAM_MULTIPACKET_LOSS_COOLDOWN_SECONDS : Z := 2.
Definition WD_STREAM_TILE_RECOVERY_TIMEOUT_SECONDS : Z := 5.
Definition WD_STREAM_VIDEO_RETRY_COOLDOWN_SECONDS : Z := 5.
Definition WD_STREAM_FPS_MIN : Z := 5.
Definition WD_STREAM_HIDDEN_CLIENT_FPS : Z := 5.
Definition WD_STREAM_FPS_DECREASE_PERCENT : Z := 65.
Definition WD_STREAM_FPS_PRESSURE_DECREASE_PERCENT : Z := 70.
Definition WD_STREAM_FPS_INCREASE_PERCENT : Z := 140.
Definition WD_STREAM_FPS_GOOD_SECONDS_TO_INCREASE : Z := 3.
Definition WD_STREAM_ENCODER_QUEUE_WAVES : Z := 4.
Definition WD_STREAM_ENCODER_MAX_RESULTS_PER_JOB : Z := 32.
Definition WD_STREAM_DIRTY_REGION_STARVATION_NS : Z := (100 * WD_NSEC_PER_MSEC).
Definition WD_STREAM_TILE_COMPRESSION_MIN_SAVINGS_BYTES : Z := 64.
Definition WD_STREAM_TILE_COMPRESSION_MIN_SAVINGS_PERCENT : Z := 3.
Definition WD_STREAM_TILE_PREDICTOR_MIN_SAMPLES : Z := 4.
Definition WD_STREAM_TILE_PREDICTOR_SKIP_MARGIN_PERCENT : Z := 125.
Definition WD_STREAM_TILE_PREDICTOR_PROBE_INTERVAL : Z := 8.
Definition WD_STREAM_TILE_PREDICTOR_EWMA_NEW_NUMERATOR : Z := 1.
Definition WD_STREAM_TILE_PREDICTOR_EWMA_DENOMINATOR : Z := 4.
Definition WD_STREAM_VIDEO_CLIENT_FAILURE_SECONDS : Z := 4.
Definition WD_STREAM_VIDEO_RECOVERY_TIMEOUT_SECONDS : Z := 4.
Definition WD_STREAM_VIDEO_RECOVERY_MAX_ATTEMPTS : Z := 3.
Definition WD_STREAM_VIDEO_DECODE_HEADROOM_PERCENT : Z := 85.
Definition WD_STREAM_VIDEO_DECODE_EWMA_NEW_NUMERATOR : Z := 1.
Definition WD_STREAM_VIDEO_DECODE_EWMA_DENOMINATOR : Z := 4.
Definition WD_STREAM_VIDEO_FPS_DEADBAND : Z := 3.
Definition WD_STREAM_VIDEO_OVERLOAD_DECREASE_PERCENT : Z := 90.
Definition WD_STREAM_VIDEO_FPS_INCREASE_STEP : Z := 3.
Definition WD_STREAM_VIDEO_FPS_GOOD_SECONDS_TO_INCREASE : Z := 15.
Definition WD_BANDWIDTH_VIDEO_PERCENT : Z := 75.
Definition WD_BANDWIDTH_TILE_FRESH_PERCENT : Z := 70.
Definition WD_BANDWIDTH_TILE_REPAIR_PERCENT : Z := 5.
Definition WD_BANDWIDTH_AUDIO_PERCENT : Z := 10.
Definition WD_BANDWIDTH_CONTROL_PERCENT : Z := 10.
Definition WD_BANDWIDTH_OVERHEAD_PERCENT : Z := 5.
Definition WD_BANDWIDTH_AUDIO_TRANSPORT_ALLOWANCE_PERCENT : Z := 20.
Definition WD_TILE_SIZE_LARGE_WIDTH : Z := 128.
Definition WD_TILE_SIZE_LARGE_HEIGHT : Z := 64.
Definition WD_TILE_SIZE_MEDIUM_WIDTH : Z := 64.
Definition WD_TILE_SIZE_MEDIUM_HEIGHT : Z := 64.
Definition WD_TILE_SIZE_SMALL_WIDTH : Z := 32.
Definition WD_TILE_SIZE_SMALL_HEIGHT : Z := 32.
Definition WD_TILE_SIZE_BASE_WIDTH : Z := 16.
Definition WD_TILE_SIZE_BASE_HEIGHT : Z := 16.
Definition WD_WIRE_TILE_MAX_BASE_TILES : Z := ((WD_WIRE_TILE_MAX_WIDTH / WD_BASE_TILE_WIDTH) * (WD_WIRE_TILE_MAX_HEIGHT / WD_BASE_TILE_HEIGHT)).
Definition WD_TILE_ADVISOR_ENTROPY_SAMPLE_COUNT : Z := 64.
Definition WD_TILE_ADVISOR_SMALL_PAYLOAD_PIXELS : Z := 16.
Definition WD_TILE_ADVISOR_MAX_UNIQUE_NUMERATOR : Z := 7.
Definition WD_TILE_ADVISOR_MAX_UNIQUE_DENOMINATOR : Z := 8.
Definition WD_TILE_ADVISOR_MIN_ADJACENT_REPEATS : Z := 2.
Definition WD_TILE_ADVISOR_REPEATED_DELTA_DIVISOR : Z := 8.
Definition WD_TILE_ADVISOR_BYPASS_PROBE_INTERVAL : Z := 16.
Definition WD_TILE_ADVISOR_POOR_STREAK_LIMIT : Z := 8.
Definition WD_TILE_ADVISOR_BYPASS_ATTEMPTS : Z := 64.
Definition WD_TILE_AUTO_ENTRY_MIN_DIRTY_PERCENT_DEFAULT : Z := WD_VIDEO_MIN_DIRTY_PERCENT_DEFAULT.
Definition WD_TILE_AUTO_ENTRY_CHANGED_FRAMES_PERCENT : Z := 25.
Definition WD_TILE_AUTO_ENTRY_WIRE_PRESSURE_PERCENT : Z := 85.
Definition WD_TILE_AUTO_ENTRY_FPS_PRESSURE_PERCENT : Z := 85.
Definition WD_CLIENT_AUDIO_VIDEO_STARTUP_HOLD_MAX_MS : Z := 1000.
Definition WD_CLIENT_AUDIO_VIDEO_PLAYING_HOLD_MAX_MS : Z := 2000.
Definition WD_CLIENT_DIRTY_RECT_FULL_UPLOAD_THRESHOLD : Z := 256.
Definition WD_CLIENT_DIRTY_RECT_FULL_UPLOAD_PERCENT : Z := 60.
Definition WD_CLIENT_RENDER_COST_MIN_SAMPLES : Z := 4.
Definition WD_CLIENT_RENDER_DEFAULT_PIXEL_COST_Q16 : Z := (Z.shiftl 1 16).
Definition WD_CLIENT_RENDER_DEFAULT_SNAPSHOT_COST_Q16 : Z := (Z.shiftl 1 16).
Definition WD_CLIENT_TEXTURE_UPDATE_CALL_COST_NS : Z := 16384.
Definition WD_CLIENT_TEXTURE_LOCK_CALL_COST_NS : Z := 131072.
Definition WD_CLIENT_RENDER_COST_EWMA_OLD_NUMERATOR : Z := 7.
Definition WD_CLIENT_RENDER_COST_EWMA_DENOMINATOR : Z := 8.
Definition WD_CLIENT_RENDER_COST_SAMPLE_CLAMP_DIVISOR : Z := 4.
Definition WD_CLIENT_RENDER_COST_MIN_PIXEL_SAMPLE : Z := (64 * 1024).
Definition WD_CLIENT_RENDER_COST_MIN_Q16 : Z := (Z.shiftl 1 8).
Definition WD_CLIENT_RENDER_COST_MAX_Q16 : Z := (Z.shiftl 1000 16).
Definition WD_CLIENT_BOUNDS_UPLOAD_MIN_SAVINGS_PERCENT : Z := 15.
Definition WD_CLIENT_FULL_UPLOAD_MIN_SAVINGS_PERCENT : Z := 20.
Definition WD_CLIENT_MAX_FRAMEBUFFER_BYTES : Z := (512 * 1024 * 1024).
Definition WD_CLIENT_FRAMEBUFFER_CLEAR_XRGB : Z := 0xff202020.
Definition WD_CLIENT_MAX_IDLE_WAIT_NS : Z := (50 * WD_NSEC_PER_MSEC).
Definition WD_CLIENT_CONFIG_SYNC_WAIT_NS : Z := (10 * WD_NSEC_PER_MSEC).
Definition WD_SERVER_FRAME_SERVICE_MIN_INTERVAL_MS : Z := 1.
Definition WD_SERVER_FRAME_SERVICE_MAX_INTERVAL_MS : Z := 8.
Definition WD_SERVER_DIRTY_REGION_HEAP_INITIAL_CAPACITY : Z := 16.
Definition WD_SERVER_DIRTY_REGION_HEAP_GROWTH_MULTIPLIER : Z := 2.

(** ** include/waydisplay/wd_protocol.h *)

Definition WD_PROTOCOL_VERSION : Z := 2.
Definition WD_TCP_MAGIC : Z := 0x54434457.
Definition WD_TCP_HEADER_WIRE_SIZE : Z := 12.
Definition WD_UDP_TILE_ID_MTU_PROBE : Z := 0xffff.
Definition WD_UDP_TILE_ID_THROUGHPUT_PROBE : Z := 0xfffe.
Definition WD_MSG_CLIENT_HELLO : Z := 1.
Definition WD_MSG_SERVER_CONFIG : Z := 2.
Definition WD_MSG_TILE_GENERATION_SUMMARY : Z := 3.
Definition WD_MSG_TILE_REPAIR_REQUEST : Z := 4.
Definition WD_MSG_KEYBOARD_KEY : Z := 5.
Definition WD_MSG_POINTER_EVENT : Z := 6.
Definition WD_MSG_MTU_PROBE_START : Z := 7.
Definition WD_MSG_MTU_PROBE_RESULT : Z := 8.
Definition WD_MSG_CLIPBOARD_SET : Z := 9.
Definition WD_MSG_CLIPBOARD_REQUEST : Z := 10.
Definition WD_MSG_PRIMARY_SET : Z := 11.
Definition WD_MSG_PRIMARY_REQUEST : Z := 12.
Definition WD_MSG_CURSOR_SHAPE : Z := 13.
Definition WD_MSG_DISPLAY_RESIZE : Z := 14.
Definition WD_MSG_THROUGHPUT_PROBE_START : Z := 15.
Definition WD_MSG_THROUGHPUT_PROBE_RESULT : Z := 16.
Definition WD_MSG_INPUT_CHANNEL_HELLO : Z := 17.
Definition WD_MSG_SELECTION_CHANNEL_HELLO : Z := 18.
Definition WD_MSG_CLIENT_STATS : Z := 19.
Definition WD_MSG_LINK_PROBE_PING : Z := 20.
Definition WD_MSG_LINK_PROBE_PONG : Z := 21.
Definition WD_MSG_VIDEO_CHANNEL_HELLO : Z := 22.
Definition WD_MSG_VIDEO_FRAME : Z := 23.
Definition WD_MSG_CONFIG_APPLIED : Z := 24.
Definition WD_MSG_AUDIO_CHANNEL_HELLO : Z := 25.
Definition WD_MSG_AUDIO_CONFIG : Z := 26.
Definition WD_MSG_AUDIO_PACKET : Z := 27.
Definition WD_MSG_VIDEO_FEEDBACK : Z := 28.
Definition WD_MSG_LAUNCH_COMMAND : Z := 29.
Definition WD_MSG_CLIPBOARD_PASTE : Z := 30.
Definition WD_MSG_PRIMARY_PASTE : Z := 31.
Definition WD_POINTER_EVENT_MOTION : Z := 1.
Definition WD_POINTER_EVENT_BUTTON : Z := 2.
Definition WD_POINTER_EVENT_AXIS : Z := 3.
Definition WD_POINTER_BUTTON_PRESSED : Z := 1.
Definition WD_POINTER_AXIS_HORIZONTAL : Z := 1.
Definition WD_PIXEL_FORMAT_XRGB8888 : Z := 1.
Definition WD_COMPRESSION_ZSTD : Z := 1.
Definition WD_CLIENT_CAP_VIDEO_STREAM : Z := Z.shiftl 1 0.
Definition WD_CLIENT_CAP_AUDIO_STREAM : Z := Z.shiftl 1 1.
Definition WD_CLIENT_CAP_VIDEO_FEEDBACK : Z := Z.shiftl 1 2.
Definition WD_CLIENT_CAP_MASK : Z := Z.lor WD_CLIENT_CAP_VIDEO_STREAM (Z.lor WD_CLIENT_CAP_AUDIO_STREAM WD_CLIENT_CAP_VIDEO_FEEDBACK).
Definition WD_VIDEO_CODEC_H265 : Z := Z.shiftl 1 0.
Definition WD_VIDEO_CODEC_H264 : Z := Z.shiftl 1 1.
Definition WD_VIDEO_CODEC_AV1 : Z := Z.shiftl 1 2.
Definition WD_VIDEO_CODEC_MASK : Z := Z.lor WD_VIDEO_CODEC_H265 (Z.lor WD_VIDEO_CODEC_H264 WD_VIDEO_CODEC_AV1).
Definition WD_VIDEO_TRANSPORT_TCP : Z := 1.
Definition WD_AUDIO_CODEC_OPUS : Z := Z.shiftl 1 0.
Definition WD_AUDIO_CODEC_MASK : Z := WD_AUDIO_CODEC_OPUS.
Definition WD_AUDIO_TRANSPORT_TCP : Z := 1.
Definition WD_AUDIO_CHANNELS_MAX : Z := 2.
Definition WD_AUDIO_PACKET_MAX_PAYLOAD_BYTES : Z := 16384.
Definition WD_AUDIO_PACKET_DISCONTINUITY : Z := Z.shiftl 1 0.
Definition WD_AUDIO_PACKET_END_OF_STREAM : Z := Z.shiftl 1 1.
Definition WD_AUDIO_PACKET_FLAG_MASK : Z := Z.lor WD_AUDIO_PACKET_DISCONTINUITY WD_AUDIO_PACKET_END_OF_STREAM.
Definition WD_VIDEO_MODE_AUTO : Z := 0.
Definition WD_VIDEO_MODE_OFF : Z := 1.
Definition WD_VIDEO_MODE_FORCE : Z := 2.
Definition WD_VIDEO_FEEDBACK_NEEDS_KEYFRAME : Z := Z.shiftl 1 0.
Definition WD_VIDEO_FEEDBACK_DECODE_OVERLOAD : Z := Z.shiftl 1 1.
Definition WD_VIDEO_FEEDBACK_DECODE_FAILURE : Z := Z.shiftl 1 2.
Definition WD_VIDEO_FEEDBACK_PUBLISH_FAILURE : Z := Z.shiftl 1 3.
Definition WD_VIDEO_FEEDBACK_PRESENTATION_STALL : Z := Z.shiftl 1 4.
Definition WD_VIDEO_FEEDBACK_AUDIO_SYNC_HOLD : Z := Z.shiftl 1 5.
Definition WD_VIDEO_FEEDBACK_FLAG_MASK : Z := Z.lor WD_VIDEO_FEEDBACK_NEEDS_KEYFRAME (Z.lor WD_VIDEO_FEEDBACK_DECODE_OVERLOAD (Z.lor WD_VIDEO_FEEDBACK_DECODE_FAILURE (Z.lor WD_VIDEO_FEEDBACK_PUBLISH_FAILURE (Z.lor WD_VIDEO_FEEDBACK_PRESENTATION_STALL WD_VIDEO_FEEDBACK_AUDIO_SYNC_HOLD)))).
Definition WD_VIDEO_DECODER_PHASE_TILES : Z := 0.
Definition WD_VIDEO_DECODER_PHASE_RECOVERING : Z := 3.
Definition WD_VIDEO_FRAME_CONFIG : Z := Z.shiftl 1 0.
Definition WD_VIDEO_FRAME_KEYFRAME : Z := Z.shiftl 1 1.
Definition WD_VIDEO_FRAME_RESIZE : Z := Z.shiftl 1 2.
Definition WD_VIDEO_FRAME_END_OF_STREAM : Z := Z.shiftl 1 3.
Definition WD_VIDEO_FRAME_FLAG_MASK : Z := Z.lor WD_VIDEO_FRAME_CONFIG (Z.lor WD_VIDEO_FRAME_KEYFRAME (Z.lor WD_VIDEO_FRAME_RESIZE WD_VIDEO_FRAME_END_OF_STREAM)).
Definition WD_SERVER_CAP_VIDEO_STREAM : Z := Z.shiftl 1 0.
Definition WD_SERVER_CAP_AUDIO_STREAM : Z := Z.shiftl 1 1.
Definition WD_SERVER_CAP_VIDEO_FEEDBACK : Z := Z.shiftl 1 2.
Definition WD_SERVER_CAP_MASK : Z := Z.lor WD_SERVER_CAP_VIDEO_STREAM (Z.lor WD_SERVER_CAP_AUDIO_STREAM WD_SERVER_CAP_VIDEO_FEEDBACK).
Definition WD_TILE_SUMMARY_DELTA : Z := Z.shiftl 1 0.
Definition WD_TILE_SUMMARY_FLAG_MASK : Z := WD_TILE_SUMMARY_DELTA.
Definition WD_CLIENT_AUDIO_PLAYBACK_BUFFERING : Z := 1.
Definition WD_CLIENT_AUDIO_PLAYBACK_PLAYING : Z := 2.
Definition WD_VIDEO_FRAME_MAX_PAYLOAD_BYTES : Z := (64 * 1024 * 1024).
Definition WD_UDP_TILE_FLAG_COMPRESSED : Z := Z.shiftl 1 0.
Definition WD_UDP_TILE_FLAG_INPUT_SEQUENCE : Z := Z.shiftl 1 1.
Definition WD_UDP_TILE_FLAG_MASK : Z := Z.lor WD_UDP_TILE_FLAG_COMPRESSED WD_UDP_TILE_FLAG_INPUT_SEQUENCE.
Definition WD_TILE_128x64 : Z := 0.
Definition WD_TILE_64x64 : Z := 1.
Definition WD_TILE_32x32 : Z := 2.
Definition WD_TILE_16x16 : Z := 3.
Definition WD_IPV4_UDP_PAYLOAD_MAX : Z := 65507.
Definition WD_SELECTION_MIME_TEXT_UTF8 : Z := 1.
Definition WD_SELECTION_MIME_TEXT_PLAIN : Z := 2.
Definition WD_SELECTION_MAX_TEXT_BYTES : Z := (1024 * 1024).
