(* ===== verification/Structs.v ===== *)
(** * The packed wire structures of protocol v2

    include/waydisplay/wd_protocol.h.  Each record is the C structure with its
    fields in declaration order; the [WireStruct] instance lists the field
    widths.  [wire_sizes] is the header's block of static assertions. *)
From S2P Require Import Prelude Wire Config.

Record wd_tcp_header := mk_wd_tcp_header {
  th_magic : Z;
  th_protocol_version : Z;
  th_message_type : Z;
  th_payload_size : Z;
}.

#[export] Program Instance wd_tcp_header_wire : WireStruct wd_tcp_header := {|
  ws_widths := [4; 2; 2; 4]%nat;
  ws_fields s := [
    s.(th_magic); s.(th_protocol_version); s.(th_message_type); s.(th_payload_size)];
  ws_of_fields l := mk_wd_tcp_header
    (fld l 0) (fld l 1) (fld l 2) (fld l 3);
  ws_extra s := True;
|}.
Solve All Obligations with wire_struct.

Record wd_client_hello_payload := mk_wd_client_hello_payload {
  ch_client_udp_port : Z;
  ch_requested_session_fps : Z;
  ch_desired_width : Z;
  ch_desired_height : Z;
  ch_link_cap_kib_per_second : Z;
  ch_capabilities : Z;
  ch_video_codecs : Z;
  ch_video_transport : Z;
  ch_video_mode : Z;
  ch_video_min_dirty_percent : Z;
  ch_video_enter_seconds : Z;
  ch_video_bitrate_kib_per_second : Z;
  ch_video_exit_dirty_percent : Z;
  ch_video_reserved : Z;
  ch_video_exit_seconds : Z;
  ch_audio_codecs : Z;
  ch_audio_transport : Z;
  ch_audio_max_channels : Z;
  ch_audio_reserved : Z;
  ch_audio_target_latency_ms : Z;
}.

#[export] Program Instance wd_client_hello_payload_wire : WireStruct wd_client_hello_payload := {|
  ws_widths := [2; 2; 2; 2; 4; 4; 4; 2; 1; 1; 2; 4; 1; 1; 2; 4; 2; 1; 1; 2]%nat;
  ws_fields s := [
    s.(ch_client_udp_port); s.(ch_requested_session_fps); s.(ch_desired_width); s.(ch_desired_height);
    s.(ch_link_cap_kib_per_second); s.(ch_capabilities); s.(ch_video_codecs); s.(ch_video_transport);
    s.(ch_video_mode); s.(ch_video_min_dirty_percent); s.(ch_video_enter_seconds);
    s.(ch_video_bitrate_kib_per_second); s.(ch_video_exit_dirty_percent); s.(ch_video_reserved);
    s.(ch_video_exit_seconds); s.(ch_audio_codecs); s.(ch_audio_transport); s.(ch_audio_max_channels);
    s.(ch_audio_reserved); s.(ch_audio_target_latency_ms)];
  ws_of_fields l := mk_wd_client_hello_payload
    (fld l 0) (fld l 1) (fld l 2) (fld l 3) (fld l 4) (fld l 5) (fld l 6) (fld l 7) (fld l 8)
    (fld l 9) (fld l 10) (fld l 11) (fld l 12) (fld l 13) (fld l 14) (fld l 15) (fld l 16)
    (fld l 17) (fld l 18) (fld l 19);
  ws_extra s := True;
|}.
Solve All Obligations with wire_struct.

Record wd_server_config_payload := mk_wd_server_config_payload {
  sc_session_id : Z;
  sc_connection_token : Z;
  sc_config_epoch : Z;
  sc_content_epoch : Z;
  sc_server_udp_port : Z;
  sc_width : Z;
  sc_height : Z;
  sc_tile_width : Z;
  sc_tile_height : Z;
  sc_tiles_x : Z;
  sc_tiles_y : Z;
  sc_total_tiles : Z;
  sc_pixel_format : Z;
  sc_compression_mode : Z;
  sc_zstd_level : Z;
  sc_udp_payload_target : Z;
  sc_capabilities : Z;
  sc_video_codecs : Z;
  sc_video_transport : Z;
  sc_media_clock_id : Z;
  sc_audio_codec : Z;
  sc_audio_transport : Z;
  sc_audio_sample_rate : Z;
  sc_audio_channels : Z;
  sc_audio_reserved : Z;
  sc_audio_frame_samples : Z;
  sc_audio_target_latency_ms : Z;
  sc_audio_bitrate : Z;
  sc_link_rtt_ms : Z;
  sc_summary_retransmit_grace_ms : Z;
  sc_retransmit_request_interval_ms : Z;
  sc_retransmit_inflight_grace_ms : Z;
  sc_tile_reassembly_timeout_ms : Z;
  sc_active_summary_interval_ms : Z;
  sc_clean_summary_interval_ms : Z;
}.

#[export] Program Instance wd_server_config_payload_wire : WireStruct wd_server_config_payload := {|
  ws_widths := [1; 8; 8; 8; 2; 2; 2; 2; 2; 2; 2; 2; 2; 2; 2; 2; 4; 4; 2; 8; 4; 2; 4; 1; 1; 2; 2; 4; 2; 2; 2; 2; 2; 2; 2]%nat;
  ws_fields s := [
    s.(sc_session_id); s.(sc_connection_token); s.(sc_config_epoch); s.(sc_content_epoch);
    s.(sc_server_udp_port); s.(sc_width); s.(sc_height); s.(sc_tile_width); s.(sc_tile_height);
    s.(sc_tiles_x); s.(sc_tiles_y); s.(sc_total_tiles); s.(sc_pixel_format); s.(sc_compression_mode);
    s.(sc_zstd_level); s.(sc_udp_payload_target); s.(sc_capabilities); s.(sc_video_codecs);
    s.(sc_video_transport); s.(sc_media_clock_id); s.(sc_audio_codec); s.(sc_audio_transport);
    s.(sc_audio_sample_rate); s.(sc_audio_channels); s.(sc_audio_reserved); s.(sc_audio_frame_samples);
    s.(sc_audio_target_latency_ms); s.(sc_audio_bitrate); s.(sc_link_rtt_ms);
    s.(sc_summary_retransmit_grace_ms); s.(sc_retransmit_request_interval_ms);
    s.(sc_retransmit_inflight_grace_ms); s.(sc_tile_reassembly_timeout_ms); s.(sc_active_summary_interval_ms);
    s.(sc_clean_summary_interval_ms)];
  ws_of_fields l := mk_wd_server_config_payload
    (fld l 0) (fld l 1) (fld l 2) (fld l 3) (fld l 4) (fld l 5) (fld l 6) (fld l 7) (fld l 8)
    (fld l 9) (fld l 10) (fld l 11) (fld l 12) (fld l 13) (fld l 14) (fld l 15) (fld l 16)
    (fld l 17) (fld l 18) (fld l 19) (fld l 20) (fld l 21) (fld l 22) (fld l 23) (fld l 24)
    (fld l 25) (fld l 26) (fld l 27) (fld l 28) (fld l 29) (fld l 30) (fld l 31) (fld l 32)
    (fld l 33) (fld l 34);
  ws_extra s := True;
|}.
Solve All Obligations with wire_struct.

Record wd_link_probe_payload := mk_wd_link_probe_payload {
  lp_session_id : Z;
  lp_connection_token : Z;
  lp_sequence : Z;
  lp_timestamp_ns : Z;
}.

#[export] Program Instance wd_link_probe_payload_wire : WireStruct wd_link_probe_payload := {|
  ws_widths := [1; 8; 4; 8]%nat;
  ws_fields s := [
    s.(lp_session_id); s.(lp_connection_token); s.(lp_sequence); s.(lp_timestamp_ns)];
  ws_of_fields l := mk_wd_link_probe_payload
    (fld l 0) (fld l 1) (fld l 2) (fld l 3);
  ws_extra s := True;
|}.
Solve All Obligations with wire_struct.

Record wd_tile_generation_entry := mk_wd_tile_generation_entry {
  tg_tile_id : Z;
  tg_tile_generation : Z;
}.

#[export] Program Instance wd_tile_generation_entry_wire : WireStruct wd_tile_generation_entry := {|
  ws_widths := [2; 8]%nat;
  ws_fields s := [
    s.(tg_tile_id); s.(tg_tile_generation)];
  ws_of_fields l := mk_wd_tile_generation_entry
    (fld l 0) (fld l 1);
  ws_extra s := True;
|}.
Solve All Obligations with wire_struct.

Record wd_tile_summary_payload_header := mk_wd_tile_summary_payload_header {
  ts_session_id : Z;
  ts_connection_token : Z;
  ts_content_epoch : Z;
  ts_server_timestamp_ns : Z;
  ts_tile_count : Z;
  ts_flags : Z;
}.

#[export] Program Instance wd_tile_summary_payload_header_wire : WireStruct wd_tile_summary_payload_header := {|
  ws_widths := [1; 8; 8; 8; 2; 1]%nat;
  ws_fields s := [
    s.(ts_session_id); s.(ts_connection_token); s.(ts_content_epoch); s.(ts_server_timestamp_ns);
    s.(ts_tile_count); s.(ts_flags)];
  ws_of_fields l := mk_wd_tile_summary_payload_header
    (fld l 0) (fld l 1) (fld l 2) (fld l 3) (fld l 4) (fld l 5);
  ws_extra s := True;
|}.
Solve All Obligations with wire_struct.

Record wd_tile_repair_request_payload_header := mk_wd_tile_repair_request_payload_header {
  rr_session_id : Z;
  rr_connection_token : Z;
  rr_content_epoch : Z;
  rr_request_count : Z;
}.

#[export] Program Instance wd_tile_repair_request_payload_header_wire : WireStruct wd_tile_repair_request_payload_header := {|
  ws_widths := [1; 8; 8; 2]%nat;
  ws_fields s := [
    s.(rr_session_id); s.(rr_connection_token); s.(rr_content_epoch); s.(rr_request_count)];
  ws_of_fields l := mk_wd_tile_repair_request_payload_header
    (fld l 0) (fld l 1) (fld l 2) (fld l 3);
  ws_extra s := True;
|}.
Solve All Obligations with wire_struct.

Record wd_tile_repair_entry := mk_wd_tile_repair_entry {
  re_tile_id : Z;
  re_requested_generation : Z;
}.

#[export] Program Instance wd_tile_repair_entry_wire : WireStruct wd_tile_repair_entry := {|
  ws_widths := [2; 8]%nat;
  ws_fields s := [
    s.(re_tile_id); s.(re_requested_generation)];
  ws_of_fields l := mk_wd_tile_repair_entry
    (fld l 0) (fld l 1);
  ws_extra s := True;
|}.
Solve All Obligations with wire_struct.

Record wd_client_stats_payload := mk_wd_client_stats_payload {
  cs_session_id : Z;
  cs_connection_token : Z;
  cs_flags : Z;
  cs_udp_packets_rx : Z;
  cs_udp_bytes_rx : Z;
  cs_udp_tiles_completed : Z;
  cs_udp_completed_packets : Z;
  cs_partial_tiles_timed_out : Z;
  cs_udp_ignored_old_generation : Z;
  cs_retx_requests_tx : Z;
  cs_udp_interarrival_samples : Z;
  cs_udp_interarrival_sum_ns : Z;
  cs_udp_interarrival_jitter_samples : Z;
  cs_udp_interarrival_jitter_sum_ns : Z;
  cs_udp_interarrival_max_ns : Z;
  cs_render_frames : Z;
  cs_present_samples : Z;
  cs_present_sum_ns : Z;
  cs_present_max_ns : Z;
  cs_input_present_samples : Z;
  cs_input_present_sum_ns : Z;
  cs_video_frames_rx : Z;
  cs_video_bytes_rx : Z;
  cs_video_frames_decoded : Z;
  cs_video_frames_presented : Z;
  cs_video_decode_failed : Z;
  cs_video_publish_failed : Z;
  cs_video_control_frames_rx : Z;
  cs_video_need_keyframe_drops : Z;
  cs_video_decoder_resets : Z;
  cs_video_decode_samples : Z;
  cs_video_decode_sum_ns : Z;
  cs_video_messages_rx : Z;
  cs_video_data_frames_rx : Z;
  cs_video_invalid_frames_rx : Z;
  cs_video_stale_frames_dropped : Z;
  cs_video_last_frame_id_rx : Z;
  cs_video_last_frame_id_presented : Z;
  cs_video_present_latency_samples : Z;
  cs_video_present_latency_sum_ns : Z;
  cs_audio_messages_rx : Z;
  cs_audio_packets_rx : Z;
  cs_audio_bytes_rx : Z;
  cs_audio_decode_failed : Z;
  cs_audio_discontinuities : Z;
  cs_audio_late_drops : Z;
  cs_audio_underflows : Z;
  cs_audio_video_sync_holds : Z;
  cs_audio_video_sync_drops : Z;
  cs_video_queue_overflow_drops : Z;
  cs_video_queue_depth : Z;
  cs_video_queue_depth_max : Z;
  cs_video_oldest_pts_usec : Z;
  cs_audio_video_delta_samples : Z;
  cs_tile_frames_presented : Z;
  cs_tile_content_epoch_presented : Z;
  cs_video_content_epoch_presented : Z;
  cs_video_decode_queue_drops : Z;
  cs_audio_video_startup_timeouts : Z;
  cs_audio_video_startup_hold_ms : Z;
  cs_audio_playback_state : Z;
  cs_video_last_frame_id_decoded : Z;
  cs_video_decode_queue_depth : Z;
  cs_video_decode_queue_depth_max : Z;
  cs_video_decode_queue_capacity : Z;
  cs_video_decoder_phase : Z;
  cs_video_waiting_keyframe : Z;
  cs_audio_video_sync_hold_current_ms : Z;
  cs_audio_video_sync_hold_max_ms : Z;
  cs_video_gpu_frames_presented : Z;
  cs_video_gpu_present_failures : Z;
  cs_video_gpu_present_fallbacks : Z;
  cs_tile_present_direct : Z;
  cs_tile_present_overflow_fallbacks : Z;
  cs_tile_present_queue_depth_max : Z;
  cs_lock_wait_samples : Z;
  cs_lock_wait_sum_ns : Z;
  cs_lock_wait_max_ns : Z;
}.

#[export] Program Instance wd_client_stats_payload_wire : WireStruct wd_client_stats_payload := {|
  ws_widths := [1; 8; 4; 8; 8; 8; 8; 8; 8; 8; 8; 8; 8; 8; 8; 8; 8; 8; 8; 8; 8; 8; 8; 8; 8; 8; 8; 8; 8; 8; 8; 8; 8; 8; 8; 8; 8; 8; 8; 8; 8; 8; 8; 8; 8; 8; 8; 8; 8; 8; 4; 4; 8; 8; 8; 8; 8; 8; 8; 4; 1; 8; 4; 4; 2; 1; 1; 4; 4; 8; 8; 8; 8; 8; 4; 8; 8; 8]%nat;
  ws_fields s := [
    s.(cs_session_id); s.(cs_connection_token); s.(cs_flags); s.(cs_udp_packets_rx); s.(cs_udp_bytes_rx);
    s.(cs_udp_tiles_completed); s.(cs_udp_completed_packets); s.(cs_partial_tiles_timed_out);
    s.(cs_udp_ignored_old_generation); s.(cs_retx_requests_tx); s.(cs_udp_interarrival_samples);
    s.(cs_udp_interarrival_sum_ns); s.(cs_udp_interarrival_jitter_samples);
    s.(cs_udp_interarrival_jitter_sum_ns); s.(cs_udp_interarrival_max_ns); s.(cs_render_frames);
    s.(cs_present_samples); s.(cs_present_sum_ns); s.(cs_present_max_ns); s.(cs_input_present_samples);
    s.(cs_input_present_sum_ns); s.(cs_video_frames_rx); s.(cs_video_bytes_rx); s.(cs_video_frames_decoded);
    s.(cs_video_frames_presented); s.(cs_video_decode_failed); s.(cs_video_publish_failed);
    s.(cs_video_control_frames_rx); s.(cs_video_need_keyframe_drops); s.(cs_video_decoder_resets);
    s.(cs_video_decode_samples); s.(cs_video_decode_sum_ns); s.(cs_video_messages_rx);
    s.(cs_video_data_frames_rx); s.(cs_video_invalid_frames_rx); s.(cs_video_stale_frames_dropped);
    s.(cs_video_last_frame_id_rx); s.(cs_video_last_frame_id_presented); s.(cs_video_present_latency_samples);
    s.(cs_video_present_latency_sum_ns); s.(cs_audio_messages_rx); s.(cs_audio_packets_rx);
    s.(cs_audio_bytes_rx); s.(cs_audio_decode_failed); s.(cs_audio_discontinuities); s.(cs_audio_late_drops);
    s.(cs_audio_underflows); s.(cs_audio_video_sync_holds); s.(cs_audio_video_sync_drops);
    s.(cs_video_queue_overflow_drops); s.(cs_video_queue_depth); s.(cs_video_queue_depth_max);
    s.(cs_video_oldest_pts_usec); u64 s.(cs_audio_video_delta_samples); s.(cs_tile_frames_presented);
    s.(cs_tile_content_epoch_presented); s.(cs_video_content_epoch_presented);
    s.(cs_video_decode_queue_drops); s.(cs_audio_video_startup_timeouts); s.(cs_audio_video_startup_hold_ms);
    s.(cs_audio_playback_state); s.(cs_video_last_frame_id_decoded); s.(cs_video_decode_queue_depth);
    s.(cs_video_decode_queue_depth_max); s.(cs_video_decode_queue_capacity); s.(cs_video_decoder_phase);
    s.(cs_video_waiting_keyframe); s.(cs_audio_video_sync_hold_current_ms);
    s.(cs_audio_video_sync_hold_max_ms); s.(cs_video_gpu_frames_presented); s.(cs_video_gpu_present_failures);
    s.(cs_video_gpu_present_fallbacks); s.(cs_tile_present_direct); s.(cs_tile_present_overflow_fallbacks);
    s.(cs_tile_present_queue_depth_max); s.(cs_lock_wait_samples); s.(cs_lock_wait_sum_ns);
    s.(cs_lock_wait_max_ns)];
  ws_of_fields l := mk_wd_client_stats_payload
    (fld l 0) (fld l 1) (fld l 2) (fld l 3) (fld l 4) (fld l 5) (fld l 6) (fld l 7) (fld l 8)
    (fld l 9) (fld l 10) (fld l 11) (fld l 12) (fld l 13) (fld l 14) (fld l 15) (fld l 16)
    (fld l 17) (fld l 18) (fld l 19) (fld l 20) (fld l 21) (fld l 22) (fld l 23) (fld l 24)
    (fld l 25) (fld l 26) (fld l 27) (fld l 28) (fld l 29) (fld l 30) (fld l 31) (fld l 32)
    (fld l 33) (fld l 34) (fld l 35) (fld l 36) (fld l 37) (fld l 38) (fld l 39) (fld l 40)
    (fld l 41) (fld l 42) (fld l 43) (fld l 44) (fld l 45) (fld l 46) (fld l 47) (fld l 48)
    (fld l 49) (fld l 50) (fld l 51) (fld l 52) (i64 (fld l 53)) (fld l 54) (fld l 55) (fld l 56)
    (fld l 57) (fld l 58) (fld l 59) (fld l 60) (fld l 61) (fld l 62) (fld l 63) (fld l 64)
    (fld l 65) (fld l 66) (fld l 67) (fld l 68) (fld l 69) (fld l 70) (fld l 71) (fld l 72)
    (fld l 73) (fld l 74) (fld l 75) (fld l 76) (fld l 77);
  ws_extra s := i64_ok s.(cs_audio_video_delta_samples);
|}.
Solve All Obligations with wire_struct_signed 53%nat i64_u64 u64_i64.

Record wd_input_channel_hello_payload := mk_wd_input_channel_hello_payload {
  ih_session_id : Z;
  ih_connection_token : Z;
}.

#[export] Program Instance wd_input_channel_hello_payload_wire : WireStruct wd_input_channel_hello_payload := {|
  ws_widths := [1; 8]%nat;
  ws_fields s := [
    s.(ih_session_id); s.(ih_connection_token)];
  ws_of_fields l := mk_wd_input_channel_hello_payload
    (fld l 0) (fld l 1);
  ws_extra s := True;
|}.
Solve All Obligations with wire_struct.

Record wd_selection_channel_hello_payload := mk_wd_selection_channel_hello_payload {
  sh_session_id : Z;
  sh_connection_token : Z;
}.

#[export] Program Instance wd_selection_channel_hello_payload_wire : WireStruct wd_selection_channel_hello_payload := {|
  ws_widths := [1; 8]%nat;
  ws_fields s := [
    s.(sh_session_id); s.(sh_connection_token)];
  ws_of_fields l := mk_wd_selection_channel_hello_payload
    (fld l 0) (fld l 1);
  ws_extra s := True;
|}.
Solve All Obligations with wire_struct.

Record wd_video_channel_hello_payload := mk_wd_video_channel_hello_payload {
  vh_session_id : Z;
  vh_connection_token : Z;
  vh_video_codecs : Z;
  vh_video_transport : Z;
}.

#[export] Program Instance wd_video_channel_hello_payload_wire : WireStruct wd_video_channel_hello_payload := {|
  ws_widths := [1; 8; 4; 2]%nat;
  ws_fields s := [
    s.(vh_session_id); s.(vh_connection_token); s.(vh_video_codecs); s.(vh_video_transport)];
  ws_of_fields l := mk_wd_video_channel_hello_payload
    (fld l 0) (fld l 1) (fld l 2) (fld l 3);
  ws_extra s := True;
|}.
Solve All Obligations with wire_struct.

Record wd_audio_channel_hello_payload := mk_wd_audio_channel_hello_payload {
  ah_session_id : Z;
  ah_connection_token : Z;
  ah_audio_codecs : Z;
  ah_audio_transport : Z;
}.

#[export] Program Instance wd_audio_channel_hello_payload_wire : WireStruct wd_audio_channel_hello_payload := {|
  ws_widths := [1; 8; 4; 2]%nat;
  ws_fields s := [
    s.(ah_session_id); s.(ah_connection_token); s.(ah_audio_codecs); s.(ah_audio_transport)];
  ws_of_fields l := mk_wd_audio_channel_hello_payload
    (fld l 0) (fld l 1) (fld l 2) (fld l 3);
  ws_extra s := True;
|}.
Solve All Obligations with wire_struct.

Record wd_audio_config_payload := mk_wd_audio_config_payload {
  ac_session_id : Z;
  ac_connection_token : Z;
  ac_audio_epoch : Z;
  ac_media_clock_id : Z;
  ac_codec : Z;
  ac_sample_rate : Z;
  ac_channels : Z;
  ac_reserved : Z;
  ac_frame_samples : Z;
  ac_codec_delay_samples : Z;
  ac_target_bitrate : Z;
}.

#[export] Program Instance wd_audio_config_payload_wire : WireStruct wd_audio_config_payload := {|
  ws_widths := [1; 8; 8; 8; 4; 4; 1; 1; 2; 2; 4]%nat;
  ws_fields s := [
    s.(ac_session_id); s.(ac_connection_token); s.(ac_audio_epoch); s.(ac_media_clock_id); s.(ac_codec);
    s.(ac_sample_rate); s.(ac_channels); s.(ac_reserved); s.(ac_frame_samples); s.(ac_codec_delay_samples);
    s.(ac_target_bitrate)];
  ws_of_fields l := mk_wd_audio_config_payload
    (fld l 0) (fld l 1) (fld l 2) (fld l 3) (fld l 4) (fld l 5) (fld l 6) (fld l 7) (fld l 8)
    (fld l 9) (fld l 10);
  ws_extra s := True;
|}.
Solve All Obligations with wire_struct.

Record wd_audio_packet_payload_header := mk_wd_audio_packet_payload_header {
  ap_session_id : Z;
  ap_connection_token : Z;
  ap_audio_epoch : Z;
  ap_media_clock_id : Z;
  ap_sequence : Z;
  ap_pts_samples : Z;
  ap_duration_samples : Z;
  ap_flags : Z;
  ap_data_size : Z;
}.

#[export] Program Instance wd_audio_packet_payload_header_wire : WireStruct wd_audio_packet_payload_header := {|
  ws_widths := [1; 8; 8; 8; 8; 8; 2; 2; 4]%nat;
  ws_fields s := [
    s.(ap_session_id); s.(ap_connection_token); s.(ap_audio_epoch); s.(ap_media_clock_id); s.(ap_sequence);
    s.(ap_pts_samples); s.(ap_duration_samples); s.(ap_flags); s.(ap_data_size)];
  ws_of_fields l := mk_wd_audio_packet_payload_header
    (fld l 0) (fld l 1) (fld l 2) (fld l 3) (fld l 4) (fld l 5) (fld l 6) (fld l 7) (fld l 8);
  ws_extra s := True;
|}.
Solve All Obligations with wire_struct.

Record wd_video_frame_payload_header := mk_wd_video_frame_payload_header {
  vf_session_id : Z;
  vf_connection_token : Z;
  vf_content_epoch : Z;
  vf_codec : Z;
  vf_flags : Z;
  vf_frame_id : Z;
  vf_pts_usec : Z;
  vf_width : Z;
  vf_height : Z;
  vf_coded_width : Z;
  vf_coded_height : Z;
  vf_data_size : Z;
}.

#[export] Program Instance wd_video_frame_payload_header_wire : WireStruct wd_video_frame_payload_header := {|
  ws_widths := [1; 8; 8; 4; 2; 8; 8; 2; 2; 2; 2; 4]%nat;
  ws_fields s := [
    s.(vf_session_id); s.(vf_connection_token); s.(vf_content_epoch); s.(vf_codec); s.(vf_flags);
    s.(vf_frame_id); s.(vf_pts_usec); s.(vf_width); s.(vf_height); s.(vf_coded_width); s.(vf_coded_height);
    s.(vf_data_size)];
  ws_of_fields l := mk_wd_video_frame_payload_header
    (fld l 0) (fld l 1) (fld l 2) (fld l 3) (fld l 4) (fld l 5) (fld l 6) (fld l 7) (fld l 8)
    (fld l 9) (fld l 10) (fld l 11);
  ws_extra s := True;
|}.
Solve All Obligations with wire_struct.

Record wd_keyboard_event_payload := mk_wd_keyboard_event_payload {
  kb_session_id : Z;
  kb_connection_token : Z;
  kb_client_timestamp_ns : Z;
  kb_input_sequence : Z;
  kb_evdev_key_code : Z;
  kb_pressed : Z;
}.

#[export] Program Instance wd_keyboard_event_payload_wire : WireStruct wd_keyboard_event_payload := {|
  ws_widths := [1; 8; 8; 8; 2; 1]%nat;
  ws_fields s := [
    s.(kb_session_id); s.(kb_connection_token); s.(kb_client_timestamp_ns); s.(kb_input_sequence);
    s.(kb_evdev_key_code); s.(kb_pressed)];
  ws_of_fields l := mk_wd_keyboard_event_payload
    (fld l 0) (fld l 1) (fld l 2) (fld l 3) (fld l 4) (fld l 5);
  ws_extra s := True;
|}.
Solve All Obligations with wire_struct.

Record wd_pointer_event_payload := mk_wd_pointer_event_payload {
  pe_session_id : Z;
  pe_connection_token : Z;
  pe_client_timestamp_ns : Z;
  pe_input_sequence : Z;
  pe_event_type : Z;
  pe_x : Z;
  pe_y : Z;
  pe_button : Z;
  pe_button_state : Z;
  pe_axis : Z;
  pe_axis_value : Z;
  pe_modifiers : Z;
}.

#[export] Program Instance wd_pointer_event_payload_wire : WireStruct wd_pointer_event_payload := {|
  ws_widths := [1; 8; 8; 8; 2; 2; 2; 2; 1; 1; 4; 2]%nat;
  ws_fields s := [
    s.(pe_session_id); s.(pe_connection_token); s.(pe_client_timestamp_ns); s.(pe_input_sequence);
    s.(pe_event_type); s.(pe_x); s.(pe_y); s.(pe_button); s.(pe_button_state); s.(pe_axis); u32
    s.(pe_axis_value); s.(pe_modifiers)];
  ws_of_fields l := mk_wd_pointer_event_payload
    (fld l 0) (fld l 1) (fld l 2) (fld l 3) (fld l 4) (fld l 5) (fld l 6) (fld l 7) (fld l 8)
    (fld l 9) (i32 (fld l 10)) (fld l 11);
  ws_extra s := i32_ok s.(pe_axis_value);
|}.
Solve All Obligations with wire_struct_signed 10%nat i32_u32 u32_i32.

Record wd_udp_tile_packet_header := mk_wd_udp_tile_packet_header {
  ut_session_id : Z;
  ut_connection_token : Z;
  ut_content_epoch : Z;
  ut_flags : Z;
  ut_tile_size : Z;
  ut_tile_pkt_id : Z;
  ut_tile_id : Z;
  ut_tile_pkt_count : Z;
  ut_reserved : Z;
  ut_payload_size : Z;
  ut_tile_payload_size : Z;
  ut_tile_generation : Z;
}.

#[export] Program Instance wd_udp_tile_packet_header_wire : WireStruct wd_udp_tile_packet_header := {|
  ws_widths := [1; 8; 8; 1; 1; 1; 2; 1; 1; 2; 2; 8]%nat;
  ws_fields s := [
    s.(ut_session_id); s.(ut_connection_token); s.(ut_content_epoch); s.(ut_flags); s.(ut_tile_size);
    s.(ut_tile_pkt_id); s.(ut_tile_id); s.(ut_tile_pkt_count); s.(ut_reserved); s.(ut_payload_size);
    s.(ut_tile_payload_size); s.(ut_tile_generation)];
  ws_of_fields l := mk_wd_udp_tile_packet_header
    (fld l 0) (fld l 1) (fld l 2) (fld l 3) (fld l 4) (fld l 5) (fld l 6) (fld l 7) (fld l 8)
    (fld l 9) (fld l 10) (fld l 11);
  ws_extra s := True;
|}.
Solve All Obligations with wire_struct.

Record wd_udp_tile_input_sequence_extension := mk_wd_udp_tile_input_sequence_extension {
  ix_input_sequence : Z;
}.

#[export] Program Instance wd_udp_tile_input_sequence_extension_wire : WireStruct wd_udp_tile_input_sequence_extension := {|
  ws_widths := [8]%nat;
  ws_fields s := [
    s.(ix_input_sequence)];
  ws_of_fields l := mk_wd_udp_tile_input_sequence_extension
    (fld l 0);
  ws_extra s := True;
|}.
Solve All Obligations with wire_struct.

(** Host-side decoded representation; not part of the wire ABI. *)
Record wd_udp_tile_packet_decoded := mk_wd_udp_tile_packet_decoded {
  ud_session_id : Z;
  ud_connection_token : Z;
  ud_content_epoch : Z;
  ud_flags : Z;
  ud_tile_size : Z;
  ud_tile_pkt_id : Z;
  ud_tile_id : Z;
  ud_tile_pkt_count : Z;
  ud_payload_size : Z;
  ud_tile_payload_size : Z;
  ud_tile_generation : Z;
  ud_input_sequence : Z;
  ud_header_size : Z;
}.

Record wd_mtu_probe_start_payload := mk_wd_mtu_probe_start_payload {
  ms_session_id : Z;
  ms_connection_token : Z;
  ms_probe_count : Z;
}.

#[export] Program Instance wd_mtu_probe_start_payload_wire : WireStruct wd_mtu_probe_start_payload := {|
  ws_widths := [1; 8; 2]%nat;
  ws_fields s := [
    s.(ms_session_id); s.(ms_connection_token); s.(ms_probe_count)];
  ws_of_fields l := mk_wd_mtu_probe_start_payload
    (fld l 0) (fld l 1) (fld l 2);
  ws_extra s := True;
|}.
Solve All Obligations with wire_struct.

Record wd_mtu_probe_result_payload := mk_wd_mtu_probe_result_payload {
  mr_session_id : Z;
  mr_connection_token : Z;
  mr_max_udp_payload_received : Z;
}.

#[export] Program Instance wd_mtu_probe_result_payload_wire : WireStruct wd_mtu_probe_result_payload := {|
  ws_widths := [1; 8; 2]%nat;
  ws_fields s := [
    s.(mr_session_id); s.(mr_connection_token); s.(mr_max_udp_payload_received)];
  ws_of_fields l := mk_wd_mtu_probe_result_payload
    (fld l 0) (fld l 1) (fld l 2);
  ws_extra s := True;
|}.
Solve All Obligations with wire_struct.

Record wd_throughput_probe_start_payload := mk_wd_throughput_probe_start_payload {
  ps_session_id : Z;
  ps_connection_token : Z;
  ps_probe_count : Z;
  ps_payload_size : Z;
  ps_duration_ms : Z;
}.

#[export] Program Instance wd_throughput_probe_start_payload_wire : WireStruct wd_throughput_probe_start_payload := {|
  ws_widths := [1; 8; 2; 2; 2]%nat;
  ws_fields s := [
    s.(ps_session_id); s.(ps_connection_token); s.(ps_probe_count); s.(ps_payload_size); s.(ps_duration_ms)];
  ws_of_fields l := mk_wd_throughput_probe_start_payload
    (fld l 0) (fld l 1) (fld l 2) (fld l 3) (fld l 4);
  ws_extra s := True;
|}.
Solve All Obligations with wire_struct.

Record wd_throughput_probe_result_payload := mk_wd_throughput_probe_result_payload {
  pr_session_id : Z;
  pr_connection_token : Z;
  pr_bytes_received : Z;
  pr_packets_received : Z;
  pr_duration_ms : Z;
}.

#[export] Program Instance wd_throughput_probe_result_payload_wire : WireStruct wd_throughput_probe_result_payload := {|
  ws_widths := [1; 8; 8; 4; 2]%nat;
  ws_fields s := [
    s.(pr_session_id); s.(pr_connection_token); s.(pr_bytes_received); s.(pr_packets_received);
    s.(pr_duration_ms)];
  ws_of_fields l := mk_wd_throughput_probe_result_payload
    (fld l 0) (fld l 1) (fld l 2) (fld l 3) (fld l 4);
  ws_extra s := True;
|}.
Solve All Obligations with wire_struct.

Record wd_selection_payload_header := mk_wd_selection_payload_header {
  sp_session_id : Z;
  sp_connection_token : Z;
  sp_mime_type : Z;
  sp_data_size : Z;
}.

#[export] Program Instance wd_selection_payload_header_wire : WireStruct wd_selection_payload_header := {|
  ws_widths := [1; 8; 2; 4]%nat;
  ws_fields s := [
    s.(sp_session_id); s.(sp_connection_token); s.(sp_mime_type); s.(sp_data_size)];
  ws_of_fields l := mk_wd_selection_payload_header
    (fld l 0) (fld l 1) (fld l 2) (fld l 3);
  ws_extra s := True;
|}.
Solve All Obligations with wire_struct.

Record wd_cursor_shape_payload := mk_wd_cursor_shape_payload {
  cu_session_id : Z;
  cu_connection_token : Z;
  cu_shape : Z;
}.

#[export] Program Instance wd_cursor_shape_payload_wire : WireStruct wd_cursor_shape_payload := {|
  ws_widths := [1; 8; 2]%nat;
  ws_fields s := [
    s.(cu_session_id); s.(cu_connection_token); s.(cu_shape)];
  ws_of_fields l := mk_wd_cursor_shape_payload
    (fld l 0) (fld l 1) (fld l 2);
  ws_extra s := True;
|}.
Solve All Obligations with wire_struct.

Record wd_display_resize_payload := mk_wd_display_resize_payload {
  dr_session_id : Z;
  dr_connection_token : Z;
  dr_width : Z;
  dr_height : Z;
}.

#[export] Program Instance wd_display_resize_payload_wire : WireStruct wd_display_resize_payload := {|
  ws_widths := [1; 8; 2; 2]%nat;
  ws_fields s := [
    s.(dr_session_id); s.(dr_connection_token); s.(dr_width); s.(dr_height)];
  ws_of_fields l := mk_wd_display_resize_payload
    (fld l 0) (fld l 1) (fld l 2) (fld l 3);
  ws_extra s := True;
|}.
Solve All Obligations with wire_struct.

Record wd_launch_command_payload := mk_wd_launch_command_payload {
  lc_session_id : Z;
  lc_connection_token : Z;
  lc_command : list Z;
}.

Record wd_video_feedback_payload := mk_wd_video_feedback_payload {
  vb_session_id : Z;
  vb_connection_token : Z;
  vb_content_epoch : Z;
  vb_sequence : Z;
  vb_flags : Z;
  vb_decoder_phase : Z;
  vb_reserved : list Z;
  vb_last_frame_id_rx : Z;
  vb_last_frame_id_decoded : Z;
  vb_last_frame_id_presented : Z;
  vb_decode_queue_depth : Z;
  vb_decode_queue_capacity : Z;
  vb_present_queue_depth : Z;
  vb_present_queue_capacity : Z;
  vb_presentation_stall_ms : Z;
  vb_audio_sync_hold_ms : Z;
}.

Record wd_config_applied_payload := mk_wd_config_applied_payload {
  ca_session_id : Z;
  ca_connection_token : Z;
  ca_config_epoch : Z;
}.

#[export] Program Instance wd_config_applied_payload_wire : WireStruct wd_config_applied_payload := {|
  ws_widths := [1; 8; 8]%nat;
  ws_fields s := [
    s.(ca_session_id); s.(ca_connection_token); s.(ca_config_epoch)];
  ws_of_fields l := mk_wd_config_applied_payload
    (fld l 0) (fld l 1) (fld l 2);
  ws_extra s := True;
|}.
Solve All Obligations with wire_struct.

(** The two structures with an array member: the array is the list of its
    bytes, of the declared length. *)
#[export] Program Instance wd_launch_command_payload_wire : WireStruct wd_launch_command_payload := {|
  ws_widths := [1; 8]%nat ++ replicate 256 1%nat;
  ws_fields s := [s.(lc_session_id); s.(lc_connection_token)] ++ s.(lc_command);
  ws_of_fields l := mk_wd_launch_command_payload (fld l 0) (fld l 1) (drop 2 l);
  ws_extra s := length s.(lc_command) = 256%nat;
|}.
Next Obligation. intros [] _. reflexivity. Qed.
Next Obligation.
  intros l Hf. apply Forall2_length in Hf. rewrite length_app, length_replicate in Hf.
  destruct l as [|x [|y l]]; try discriminate Hf.
  split; [done |]. change (length l = 256%nat).
  change (2 + 256 = 2 + length l)%nat in Hf. lia.
Qed.

#[export] Program Instance wd_video_feedback_payload_wire : WireStruct wd_video_feedback_payload := {|
  ws_widths := [1; 8; 8; 8; 4; 1; 1; 1; 1; 8; 8; 8; 2; 2; 2; 2; 4; 4]%nat;
  ws_fields s :=
    [s.(vb_session_id); s.(vb_connection_token); s.(vb_content_epoch); s.(vb_sequence); s.(vb_flags);
     s.(vb_decoder_phase)] ++ s.(vb_reserved) ++
    [s.(vb_last_frame_id_rx); s.(vb_last_frame_id_decoded); s.(vb_last_frame_id_presented);
     s.(vb_decode_queue_depth); s.(vb_decode_queue_capacity); s.(vb_present_queue_depth);
     s.(vb_present_queue_capacity); s.(vb_presentation_stall_ms); s.(vb_audio_sync_hold_ms)];
  ws_of_fields l := mk_wd_video_feedback_payload
    (fld l 0) (fld l 1) (fld l 2) (fld l 3) (fld l 4) (fld l 5) [fld l 6; fld l 7; fld l 8]
    (fld l 9) (fld l 10) (fld l 11) (fld l 12) (fld l 13) (fld l 14) (fld l 15) (fld l 16)
    (fld l 17);
  ws_extra s := length s.(vb_reserved) = 3%nat;
|}.
Next Obligation.
  intros [] H. simpl in *.
  match goal with r : list Z |- _ => destruct r as [|? [|? [|? [|]]]]; simplify_eq/= end. done.
Qed.
Next Obligation.
  intros l Hf. split; [| done]. apply Forall2_length in Hf. exact (fld_all _ l (eq_sym Hf)).
Qed.

(** ** Structure sizes *)

Definition WD_UDP_TILE_HEADER_MIN_SIZE : Z := u16 (sizeof wd_udp_tile_packet_header).
Definition WD_UDP_TILE_HEADER_MAX_SIZE : Z :=
  u16 (sizeof wd_udp_tile_packet_header + sizeof wd_udp_tile_input_sequence_extension).
Definition WD_UDP_TILE_PAYLOAD_MAX : Z := u16 (WD_IPV4_UDP_PAYLOAD_MAX - WD_UDP_TILE_HEADER_MAX_SIZE).

(** The sizes the header asserts at compile time. *)
Lemma wire_sizes :
  sizeof wd_tcp_header = WD_TCP_HEADER_WIRE_SIZE /\ sizeof wd_udp_tile_packet_header = 36 /\
  WD_UDP_TILE_HEADER_MAX_SIZE = 44 /\ sizeof wd_client_hello_payload = 44 /\
  sizeof wd_server_config_payload = 101 /\ sizeof wd_tile_generation_entry = 10 /\
  sizeof wd_tile_summary_payload_header = 28 /\ sizeof wd_tile_repair_request_payload_header = 19 /\
  sizeof wd_keyboard_event_payload = 28 /\ sizeof wd_pointer_event_payload = 41 /\
  sizeof wd_mtu_probe_start_payload = 11 /\ sizeof wd_mtu_probe_result_payload = 11 /\
  sizeof wd_throughput_probe_start_payload = 15 /\ sizeof wd_throughput_probe_result_payload = 23 /\
  sizeof wd_link_probe_payload = 21 /\ sizeof wd_tile_repair_entry = 10 /\
  sizeof wd_client_stats_payload = 554 /\ sizeof wd_input_channel_hello_payload = 9 /\
  sizeof wd_selection_channel_hello_payload = 9 /\ sizeof wd_video_channel_hello_payload = 15 /\
  sizeof wd_audio_channel_hello_payload = 15 /\ sizeof wd_audio_config_payload = 43 /\
  sizeof wd_audio_packet_payload_header = 49 /\ sizeof wd_video_frame_payload_header = 51 /\
  sizeof wd_selection_payload_header = 15 /\ sizeof wd_cursor_shape_payload = 11 /\
  sizeof wd_launch_command_payload = 265 /\ sizeof wd_display_resize_payload = 13 /\
  sizeof wd_video_feedback_payload = 73 /\ sizeof wd_config_applied_payload = 17.
Proof. vm_compute. tauto. Qed.
