(* ===== verification/Payload.v ===== *)
(** * Payload validators

    The inline predicates at the end of include/waydisplay/wd_protocol.h that
    decide whether a received payload may be used.  A structure pointer that
    the code tests for NULL is a [ptr]; the byte count of the payload is the
    [payload_size] the TCP header announced. *)
From S2P Require Import Prelude Wire Config Structs.

(** ** Launch command *)

(** The body of the [for] loop over [command], from index [i]. *)
Fixpoint launch_scan (command : list Z) (i : nat) (has_nonspace : bool) : bool :=
  match command with
  | [] => false
  | c :: rest =>
      if c =? 0 then has_nonspace || (i =? 0)%nat
      else if (c <? 32) || (c =? 127) then false
      else launch_scan rest (S i) (has_nonspace || negb (c =? 32))
  end.

Definition wd_launch_command_payload_valid (launch : ptr wd_launch_command_payload) : bool :=
  match launch with
  | NULL => false
  | Some launch =>
      if (launch.(lc_session_id) =? 0) || (launch.(lc_connection_token) =? 0) then false
      else launch_scan launch.(lc_command) 0 false
  end.

Definition wd_launch_command_payload_matches (launch : ptr wd_launch_command_payload)
    (session_id connection_token : Z) : bool :=
  wd_launch_command_payload_valid launch &&
  match launch with
  | NULL => false
  | Some l => (l.(lc_session_id) =? session_id) && (l.(lc_connection_token) =? connection_token)
  end.

Definition wd_config_applied_matches (applied : ptr wd_config_applied_payload)
    (session_id connection_token config_epoch : Z) : bool :=
  match applied with
  | NULL => false
  | Some a =>
      negb (session_id =? 0) && negb (connection_token =? 0) && negb (config_epoch =? 0) &&
      (a.(ca_session_id) =? session_id) && (a.(ca_connection_token) =? connection_token) &&
      (a.(ca_config_epoch) =? config_epoch)
  end.

(** ** Sizes and counts *)

Definition wd_fixed_payload_size_is_valid (payload_size expected_size : Z) : bool :=
  payload_size =? expected_size.

Definition wd_counted_payload_size_is_valid (payload_size header_size count entry_size : Z) : bool :=
  if negb (entry_size =? 0) && (u64 (SIZE_MAX - header_size) / entry_size <? count) then false
  else payload_size =? u64 (header_size + u64 (count * entry_size)).

Definition wd_selection_payload_size_is_valid (header : ptr wd_selection_payload_header)
    (payload_size : Z) : bool :=
  match header with
  | NULL => false
  | Some h =>
      (h.(sp_data_size) <=? WD_SELECTION_MAX_TEXT_BYTES) &&
      wd_counted_payload_size_is_valid payload_size (sizeof wd_selection_payload_header)
        h.(sp_data_size) 1
  end.

Definition wd_tile_summary_count_is_valid (flags tile_count total_tiles : Z) : bool :=
  negb (total_tiles =? 0) && (tile_count <=? total_tiles) &&
  (flag flags WD_TILE_SUMMARY_DELTA || (tile_count =? total_tiles)).

Definition wd_tile_repair_count_is_valid (request_count total_tiles : Z) : bool :=
  negb (total_tiles =? 0) && negb (request_count =? 0) && (request_count <=? total_tiles).

(** ** Input events *)

Definition wd_keyboard_event_payload_is_valid (key : ptr wd_keyboard_event_payload)
    (payload_size : Z) : bool :=
  match key with
  | NULL => false
  | Some k =>
      wd_fixed_payload_size_is_valid payload_size (sizeof wd_keyboard_event_payload) &&
      negb (k.(kb_session_id) =? 0) && negb (k.(kb_connection_token) =? 0) &&
      negb (k.(kb_client_timestamp_ns) =? 0) && negb (k.(kb_input_sequence) =? 0) &&
      negb (k.(kb_evdev_key_code) =? 0) && (k.(kb_pressed) <=? 1)
  end.

Definition wd_pointer_event_payload_is_valid (pointer : ptr wd_pointer_event_payload)
    (payload_size : Z) : bool :=
  match pointer with
  | NULL => false
  | Some p =>
      if negb (wd_fixed_payload_size_is_valid payload_size (sizeof wd_pointer_event_payload)) ||
         (p.(pe_session_id) =? 0) || (p.(pe_connection_token) =? 0) ||
         (p.(pe_client_timestamp_ns) =? 0) || (p.(pe_input_sequence) =? 0) ||
         outside p.(pe_modifiers) 15
      then false
      else if p.(pe_event_type) =? WD_POINTER_EVENT_MOTION then
        (p.(pe_button) =? 0) && (p.(pe_button_state) =? 0) && (p.(pe_axis) =? 0) &&
        (p.(pe_axis_value) =? 0)
      else if p.(pe_event_type) =? WD_POINTER_EVENT_BUTTON then
        negb (p.(pe_button) =? 0) && (p.(pe_button_state) <=? WD_POINTER_BUTTON_PRESSED) &&
        (p.(pe_axis) =? 0) && (p.(pe_axis_value) =? 0)
      else if p.(pe_event_type) =? WD_POINTER_EVENT_AXIS then
        (p.(pe_button) =? 0) && (p.(pe_button_state) =? 0) &&
        (p.(pe_axis) <=? WD_POINTER_AXIS_HORIZONTAL) && negb (p.(pe_axis_value) =? 0)
      else false
  end.

(** ** Client hello *)

Definition wd_client_hello_payload_is_valid (hello : ptr wd_client_hello_payload)
    (payload_size : Z) : bool :=
  match hello with
  | NULL => false
  | Some h =>
      if negb (wd_fixed_payload_size_is_valid payload_size (sizeof wd_client_hello_payload)) ||
         outside h.(ch_capabilities) WD_CLIENT_CAP_MASK ||
         outside h.(ch_video_codecs) WD_VIDEO_CODEC_MASK || negb (h.(ch_video_reserved) =? 0) ||
         outside h.(ch_audio_codecs) WD_AUDIO_CODEC_MASK || negb (h.(ch_audio_reserved) =? 0) ||
         (h.(ch_video_mode) >? WD_VIDEO_MODE_FORCE) ||
         (h.(ch_video_min_dirty_percent) >? WD_VIDEO_MIN_DIRTY_PERCENT_MAX) ||
         (h.(ch_video_exit_dirty_percent) >? WD_VIDEO_EXIT_DIRTY_PERCENT_MAX) ||
         (h.(ch_video_enter_seconds) >? WD_VIDEO_ENTER_SECONDS_MAX) ||
         (h.(ch_video_exit_seconds) >? WD_VIDEO_EXIT_SECONDS_MAX) ||
         negb (Bool.eqb (h.(ch_desired_width) =? 0) (h.(ch_desired_height) =? 0)) ||
         (h.(ch_desired_width) >? WD_MAX_RENDER_WIDTH) ||
         (h.(ch_desired_height) >? WD_MAX_RENDER_HEIGHT)
      then false
      else
        let video := flag h.(ch_capabilities) WD_CLIENT_CAP_VIDEO_STREAM in
        let audio := flag h.(ch_capabilities) WD_CLIENT_CAP_AUDIO_STREAM in
        if flag h.(ch_capabilities) WD_CLIENT_CAP_VIDEO_FEEDBACK && negb video then false
        else if (if video
                 then (h.(ch_video_codecs) =? 0) ||
                      negb (h.(ch_video_transport) =? WD_VIDEO_TRANSPORT_TCP)
                 else negb (h.(ch_video_codecs) =? 0) || negb (h.(ch_video_transport) =? 0))
        then false
        else if audio then
          negb (h.(ch_audio_codecs) =? 0) && (h.(ch_audio_transport) =? WD_AUDIO_TRANSPORT_TCP) &&
          negb (h.(ch_audio_max_channels) =? 0) &&
          (h.(ch_audio_max_channels) <=? WD_AUDIO_CHANNELS_MAX) &&
          ((h.(ch_audio_target_latency_ms) =? 0) ||
           ((h.(ch_audio_target_latency_ms) >=? WD_AUDIO_TARGET_LATENCY_MS_MIN) &&
            (h.(ch_audio_target_latency_ms) <=? WD_AUDIO_TARGET_LATENCY_MS_MAX)))
        else
          (h.(ch_audio_codecs) =? 0) && (h.(ch_audio_transport) =? 0) &&
          (h.(ch_audio_max_channels) =? 0) && (h.(ch_audio_target_latency_ms) =? 0)
  end.

(** ** Audio *)

Definition wd_audio_frame_samples_is_valid (frame_samples : Z) : bool :=
  (frame_samples =? 120) || (frame_samples =? 240) || (frame_samples =? 480) ||
  (frame_samples =? 960) || (frame_samples =? 1920) || (frame_samples =? 2880).

Definition wd_audio_config_payload_is_valid (config : ptr wd_audio_config_payload)
    (payload_size : Z) : bool :=
  match config with
  | NULL => false
  | Some c =>
      wd_fixed_payload_size_is_valid payload_size (sizeof wd_audio_config_payload) &&
      negb (c.(ac_session_id) =? 0) && negb (c.(ac_connection_token) =? 0) &&
      negb (c.(ac_audio_epoch) =? 0) && negb (c.(ac_media_clock_id) =? 0) &&
      (c.(ac_codec) =? WD_AUDIO_CODEC_OPUS) &&
      (c.(ac_sample_rate) =? WD_AUDIO_SAMPLE_RATE_DEFAULT) && negb (c.(ac_channels) =? 0) &&
      (c.(ac_channels) <=? WD_AUDIO_CHANNELS_MAX) && (c.(ac_reserved) =? 0) &&
      wd_audio_frame_samples_is_valid c.(ac_frame_samples) &&
      (c.(ac_codec_delay_samples) <=? c.(ac_frame_samples)) && negb (c.(ac_target_bitrate) =? 0)
  end.

Definition wd_audio_packet_payload_size_is_valid (header : ptr wd_audio_packet_payload_header)
    (tcp_payload_size : Z) : bool :=
  match header with
  | NULL => false
  | Some h =>
      if (tcp_payload_size <? sizeof wd_audio_packet_payload_header) ||
         (h.(ap_session_id) =? 0) || (h.(ap_connection_token) =? 0) || (h.(ap_audio_epoch) =? 0) ||
         (h.(ap_media_clock_id) =? 0) || (h.(ap_sequence) =? 0) ||
         outside h.(ap_flags) WD_AUDIO_PACKET_FLAG_MASK
      then false
      else
        let expected_data_size := u32 (tcp_payload_size - sizeof wd_audio_packet_payload_header) in
        if negb (h.(ap_data_size) =? expected_data_size) ||
           (h.(ap_data_size) >? WD_AUDIO_PACKET_MAX_PAYLOAD_BYTES)
        then false
        else if flag h.(ap_flags) WD_AUDIO_PACKET_END_OF_STREAM then
          (h.(ap_flags) =? WD_AUDIO_PACKET_END_OF_STREAM) && (h.(ap_data_size) =? 0) &&
          (h.(ap_duration_samples) =? 0)
        else
          negb (h.(ap_data_size) =? 0) && wd_audio_frame_samples_is_valid h.(ap_duration_samples)
  end.

(** ** Video *)

Definition wd_video_frame_payload_size_is_valid (header : ptr wd_video_frame_payload_header)
    (tcp_payload_size : Z) : bool :=
  match header with
  | NULL => false
  | Some h =>
      if (tcp_payload_size <? sizeof wd_video_frame_payload_header) ||
         (h.(vf_session_id) =? 0) || (h.(vf_connection_token) =? 0) ||
         (h.(vf_content_epoch) =? 0) || outside h.(vf_flags) WD_VIDEO_FRAME_FLAG_MASK ||
         (h.(vf_codec) =? 0) || outside h.(vf_codec) WD_VIDEO_CODEC_MASK ||
         flag h.(vf_codec) (u32 (h.(vf_codec) - 1))
      then false
      else
        let expected_data_size := u32 (tcp_payload_size - sizeof wd_video_frame_payload_header) in
        if negb (h.(vf_data_size) =? expected_data_size) ||
           (h.(vf_data_size) >? WD_VIDEO_FRAME_MAX_PAYLOAD_BYTES)
        then false
        else
          let end_of_stream := flag h.(vf_flags) WD_VIDEO_FRAME_END_OF_STREAM in
          let resize := flag h.(vf_flags) WD_VIDEO_FRAME_RESIZE in
          let control := end_of_stream || resize in
          if control then
            (h.(vf_data_size) =? 0) && (h.(vf_frame_id) =? 0) && negb (h.(vf_width) =? 0) &&
            negb (h.(vf_height) =? 0) && (h.(vf_coded_width) =? h.(vf_width)) &&
            (h.(vf_coded_height) =? h.(vf_height)) && (negb resize || end_of_stream) &&
            negb (flag h.(vf_flags) (Z.lor WD_VIDEO_FRAME_CONFIG WD_VIDEO_FRAME_KEYFRAME))
          else
            negb (h.(vf_data_size) =? 0) && negb (h.(vf_frame_id) =? 0) && negb (h.(vf_width) =? 0) &&
            negb (h.(vf_height) =? 0) && (h.(vf_coded_width) >=? h.(vf_width)) &&
            (h.(vf_coded_height) >=? h.(vf_height)) &&
            (negb (flag h.(vf_flags) WD_VIDEO_FRAME_CONFIG) ||
             flag h.(vf_flags) WD_VIDEO_FRAME_KEYFRAME)
  end.

(** The pointer to the data after the header is the rest of the payload. *)
Definition wd_video_frame_payload_data (payload : ptr (list Z)) (tcp_payload_size : Z)
    : ptr (list Z) :=
  match payload with
  | NULL => NULL
  | Some bytes =>
      if tcp_payload_size <? sizeof wd_video_frame_payload_header then NULL
      else
        let header := decode (A := wd_video_frame_payload_header) bytes in
        if negb (wd_video_frame_payload_size_is_valid header tcp_payload_size) then NULL
        else Some (drop (Z.to_nat (sizeof wd_video_frame_payload_header)) bytes)
  end.

(** ** What the validators guarantee *)

(** A command the server may launch: NUL-terminated within the array, only
    printable characters before the terminator, and either empty or with a
    character other than a space. *)
Definition launch_command_spec (l : wd_launch_command_payload) : Prop :=
  l.(lc_session_id) <> 0 /\ l.(lc_connection_token) <> 0 /\
  exists text rest,
    l.(lc_command) = text ++ 0 :: rest /\
    Forall (fun c => c <> 0 /\ 32 <= c /\ c <> 127) text /\
    (text = [] \/ Exists (fun c => c <> 32) text).

Lemma launch_scan_spec command i b :
  launch_scan command i b = true <->
  exists text rest,
    command = text ++ 0 :: rest /\
    Forall (fun c => c <> 0 /\ 32 <= c /\ c <> 127) text /\
    (b = true \/ (i = 0%nat /\ text = []) \/ Exists (fun c => c <> 32) text).
Proof.
  revert i b; induction command as [|c command IH]; intros i b; cbn [launch_scan].
  - split; [done |]. intros (text & rest & E & _). by destruct text.
  - destruct (Z.eqb_spec c 0) as [->|Hc].
    + rewrite orb_true_iff, Nat.eqb_eq. split.
      * intros H. exists [], command. split_and!; [done | constructor | naive_solver].
      * intros ([|x text] & rest & E & HF & Hx).
        -- destruct Hx as [Hb|[[Hi _]|Hx]]; [by left | by right | by inversion Hx].
        -- injection E as <- _. apply Forall_cons_iff in HF as [[] _]. done.
    + case_if.
      * split; [done |]. intros ([|x text] & rest & Eq & HF & _); injection Eq as -> _; [done |].
        apply Forall_cons_iff in HF as [(_ & Hlo & Hhi) _].
        apply orb_true_iff in E as [E|E]; bool_cases; lia.
      * bool_cases. rewrite IH. split.
        -- intros (text & rest & -> & HF & Hb). exists (c :: text), rest.
           split_and!; [done | constructor; [lia | done] |].
           destruct Hb as [Hb|[[Hi _]|Hb]]; [| lia | by right; right; constructor 2].
           apply orb_true_iff in Hb as [Hb|Hb]; [by left | bool_cases].
           right; right. by constructor 1.
        -- intros ([|x text] & rest & Eq & HF & Hb); injection Eq as -> ->; [done |].
           exists text, rest. apply Forall_cons_iff in HF as [_ HF]. split_and!; [done | done |].
           rewrite orb_true_iff, negb_true_iff, Z.eqb_neq.
           destruct Hb as [Hb|[[_ Hb]|Hb]]; [tauto | done |].
           apply Exists_cons in Hb. tauto.
Qed.

(** The server accepts exactly the launch payloads that meet the
    contract: an authenticated sender, a NUL-terminated printable command, empty
    or not blank. *)
Theorem launch_command_valid_iff l :
  wd_launch_command_payload_valid (Some l) = true <-> launch_command_spec l.
Proof.
  unfold wd_launch_command_payload_valid, launch_command_spec.
  destruct (Z.eqb_spec l.(lc_session_id) 0); [naive_solver |].
  destruct (Z.eqb_spec l.(lc_connection_token) 0); [naive_solver |]. simpl.
  rewrite launch_scan_spec. split.
  - intros (text & rest & E & HF & H). do 2 (split; [done |]). exists text, rest.
    split_and!; [done | done |]. destruct H as [H|[[_ H]|H]]; [done | by left | by right].
  - intros (_ & _ & text & rest & E & HF & H). exists text, rest.
    split_and!; [done | done |]. destruct H as [H|H]; [right; by left | right; by right].
Qed.

(** For a header and an entry size that fit in memory the size test
    of a counted payload is the exact equation; no product or sum wraps. *)
Theorem counted_payload_size_exact payload_size header_size count entry_size :
  u32_ok payload_size -> u32_ok count -> u32_ok header_size -> u32_ok entry_size ->
  wd_counted_payload_size_is_valid payload_size header_size count entry_size = true <->
  payload_size = header_size + count * entry_size.
Proof.
  intros Hp Hc Hh He. unfold wd_counted_payload_size_is_valid.
  assert (0 <= count * entry_size <= UINT32_MAX * UINT32_MAX) by (wd_bounds; nia).
  assert (UINT32_MAX * UINT32_MAX + UINT32_MAX < UINT64_MAX) by done.
  rewrite (u64_small (SIZE_MAX - header_size)) by mlia.
  rewrite (u64_small (count * entry_size)), u64_small by mlia.
  case_if; [| by rewrite Z.eqb_eq].
  bool_cases. split; [done |]. intros _. exfalso.
  assert (SIZE_MAX - header_size < count * entry_size) as Hlt; [| mlia].
  eapply Z.lt_le_trans; [apply (Z.mul_succ_div_gt _ entry_size); mlia |].
  rewrite (Z.mul_comm count). apply Z.mul_le_mono_nonneg_l; mlia.
Qed.

Lemma counted_payload_size_exact_witness :
  wd_counted_payload_size_is_valid 59 19 4 10 = true <-> 59 = 19 + 4 * 10.
Proof. apply (counted_payload_size_exact 59 19 4 10); mlia. Defined.

(** What a decoder relies on for an accepted video message. *)
Record video_frame_promise (h : wd_video_frame_payload_header) (data_size : Z) : Prop := {
  vp_data : h.(vf_data_size) = data_size;
  vp_codec : In h.(vf_codec) [WD_VIDEO_CODEC_H265; WD_VIDEO_CODEC_H264; WD_VIDEO_CODEC_AV1];
  vp_size : 0 < h.(vf_width) <= h.(vf_coded_width) /\ 0 < h.(vf_height) <= h.(vf_coded_height);
  vp_frame : h.(vf_frame_id) = 0 <-> data_size = 0;
  vp_control : data_size = 0 <-> flag h.(vf_flags) WD_VIDEO_FRAME_END_OF_STREAM = true;
  vp_config : flag h.(vf_flags) WD_VIDEO_FRAME_CONFIG = true ->
    flag h.(vf_flags) WD_VIDEO_FRAME_KEYFRAME = true /\ data_size <> 0;
}.

(** A non-zero codec within the mask and without a second bit is one codec. *)
Lemma single_codec c :
  c <> 0 -> outside c WD_VIDEO_CODEC_MASK = false -> flag c (u32 (c - 1)) = false ->
  In c [WD_VIDEO_CODEC_H265; WD_VIDEO_CODEC_H264; WD_VIDEO_CODEC_AV1].
Proof.
  intros Hc Ho Hf. change WD_VIDEO_CODEC_MASK with (Z.ones 3) in Ho.
  apply outside_ones in Ho; [| lia]. bool_cases.
  assert (In c [1; 2; 3; 4; 5; 6; 7]) as Hin by (simpl; lia).
  simpl in Hin. destruct_or! Hin; subst; try done; vm_compute; tauto.
Qed.

(** No flag of a mask is set when none of a larger mask is. *)
Lemma flag_sub x m k : Z.land k m = m -> flag x k = false -> flag x m = false.
Proof.
  unfold flag. intros Hm H. bool_cases. apply negb_false_iff, Z.eqb_eq.
  rewrite <- Hm, Z.land_assoc, H. apply Z.land_0_l.
Qed.

Lemma video_frame_valid_promise h size :
  ws_ok h -> u32_ok size ->
  wd_video_frame_payload_size_is_valid (Some h) size = true ->
  video_frame_promise h (size - sizeof wd_video_frame_payload_header).
Proof.
  intros Hok Hsz. unfold wd_video_frame_payload_size_is_valid.
  change (sizeof wd_video_frame_payload_header) with 51 in *.
  case_if; [done |]. bool_cases.
  rewrite u32_small by mlia. case_if; [done |]. bool_cases.
  destruct Hok as [Hok _]. unfold ws_widths, ws_fields in Hok. simpl in Hok.
  repeat (apply Forall2_cons_1 in Hok as [? Hok]). unfold fits in *.
  case_if; intros Hv; bool_cases.
  - split; try (by apply single_codec); try lia.
    + match goal with H : negb _ || _ = true |- _ => rename H into Hr end.
      destruct (flag _ WD_VIDEO_FRAME_END_OF_STREAM) eqn:?; [split; [done | lia] |].
      simpl in *. destruct (flag _ WD_VIDEO_FRAME_RESIZE); done.
    + intros Hc. exfalso. match goal with H : flag _ (Z.lor _ _) = false |- _ =>
        apply (flag_sub _ WD_VIDEO_FRAME_CONFIG) in H; [congruence | done] end.
  - split; try (by apply single_codec); try lia.
    + split; [lia | congruence].
    + intros Hc. rewrite Hc in *. simpl in *. split; [done | lia].
Qed.

(** Of a video message built from a header and its data the client's
    accessor returns exactly the data when the header is accepted, and NULL
    otherwise; an accepted header announces the data's size, one known codec,
    a non-empty picture inside the coded picture, and data exactly on
    non-control frames. *)
Theorem video_frame_payload_data_exact h data :
  ws_ok h -> sizeof wd_video_frame_payload_header + zlen data <= UINT32_MAX ->
  let payload := encode h ++ data in
  wd_video_frame_payload_data (Some payload) (zlen payload) =
    (if wd_video_frame_payload_size_is_valid (Some h) (zlen payload) then Some data else NULL) /\
  (wd_video_frame_payload_size_is_valid (Some h) (zlen payload) = true ->
   video_frame_promise h (zlen data)).
Proof.
  intros Hok Hlen payload. pose proof (zlen_nonneg data).
  assert (zlen payload = sizeof wd_video_frame_payload_header + zlen data) as Hp.
  { subst payload. by rewrite zlen_app, encode_length. }
  pose proof (sizeof_nonneg (A := wd_video_frame_payload_header)). split.
  - unfold wd_video_frame_payload_data, payload. rewrite decode_encode by done.
    fold payload. replace (zlen payload <? _) with false by (symmetry; apply Z.ltb_ge; lia).
    destruct (wd_video_frame_payload_size_is_valid _ _); [simpl | done].
    f_equal.
  - intros Hv. apply video_frame_valid_promise in Hv; [| done | mlia].
    rewrite Hp in Hv. replace (zlen data) with (sizeof wd_video_frame_payload_header + zlen data -
      sizeof wd_video_frame_payload_header) by lia. done.
Qed.

Definition sample_video_header (n : Z) : wd_video_frame_payload_header :=
  mk_wd_video_frame_payload_header 1 77 5 WD_VIDEO_CODEC_H264
    (Z.lor WD_VIDEO_FRAME_CONFIG WD_VIDEO_FRAME_KEYFRAME) 9 1000 800 600 800 608 n.

Lemma video_frame_payload_data_exact_witness :
  wd_video_frame_payload_data (Some (encode (sample_video_header 3) ++ [0; 0; 1]))
    (zlen (encode (sample_video_header 3) ++ [0; 0; 1])) = Some [0; 0; 1] /\
  video_frame_promise (sample_video_header 3) 3.
Proof.
  destruct (video_frame_payload_data_exact (sample_video_header 3) [0; 0; 1]) as [H1 H2].
  - split; [| exact I]. repeat constructor; vm_compute; congruence.
  - vm_compute. congruence.
  - split; [exact H1 | apply H2; vm_compute; reflexivity].
Defined.
