(* ===== verification/UdpTile.v ===== *)
(** * UDP tile packets

    The tile-packet codec and the fragment layout test of
    include/waydisplay/wd_protocol.h.  A packet is the list of its bytes;
    [wd_udp_tile_packet_encode_header] returns the bytes it writes at the start
    of the destination, [None] when it returns false. *)
From S2P Require Import Prelude Wire Config Structs.

Definition wd_udp_tile_packet_is_compressed (header : ptr wd_udp_tile_packet_decoded) : bool :=
  match header with
  | NULL => false
  | Some h => flag h.(ud_flags) WD_UDP_TILE_FLAG_COMPRESSED
  end.

Definition wd_udp_tile_packet_has_input_sequence (header : ptr wd_udp_tile_packet_decoded) : bool :=
  match header with
  | NULL => false
  | Some h => flag h.(ud_flags) WD_UDP_TILE_FLAG_INPUT_SEQUENCE
  end.

Definition wd_udp_tile_header_size_for_flags (flags : Z) : Z :=
  if outside flags WD_UDP_TILE_FLAG_MASK then 0
  else u16 (sizeof wd_udp_tile_packet_header +
            (if flag flags WD_UDP_TILE_FLAG_INPUT_SEQUENCE
             then sizeof wd_udp_tile_input_sequence_extension else 0)).

Definition wd_tile_size_code_for_dimensions (width height : Z) : option Z :=
  if (width =? 128) && (height =? 64) then Some WD_TILE_128x64
  else if (width =? 64) && (height =? 64) then Some WD_TILE_64x64
  else if (width =? 32) && (height =? 32) then Some WD_TILE_32x32
  else if (width =? 16) && (height =? 16) then Some WD_TILE_16x16
  else None.

Definition wd_tile_dimensions_for_size_code (tile_size : Z) : option (Z * Z) :=
  if tile_size =? WD_TILE_128x64 then Some (128, 64)
  else if tile_size =? WD_TILE_64x64 then Some (64, 64)
  else if tile_size =? WD_TILE_32x32 then Some (32, 32)
  else if tile_size =? WD_TILE_16x16 then Some (16, 16)
  else None.

Definition some_dimensions (tile_size : Z) : bool :=
  match wd_tile_dimensions_for_size_code tile_size with Some _ => true | None => false end.

Definition wd_udp_tile_packet_encode_header (destination_size : Z)
    (header : ptr wd_udp_tile_packet_decoded) : option (list Z) :=
  match header with
  | NULL => None
  | Some h =>
      if (h.(ud_session_id) =? 0) || (h.(ud_connection_token) =? 0) ||
         (h.(ud_content_epoch) =? 0) || (h.(ud_tile_pkt_count) =? 0) ||
         (h.(ud_tile_pkt_id) >=? h.(ud_tile_pkt_count)) || (h.(ud_payload_size) =? 0) ||
         (h.(ud_tile_payload_size) =? 0) || (h.(ud_payload_size) >? h.(ud_tile_payload_size)) ||
         (h.(ud_tile_generation) =? 0) || negb (some_dimensions h.(ud_tile_size))
      then None
      else
        let header_size := wd_udp_tile_header_size_for_flags h.(ud_flags) in
        if (header_size =? 0) || (destination_size <? header_size) ||
           (flag h.(ud_flags) WD_UDP_TILE_FLAG_INPUT_SEQUENCE &&
            (negb (h.(ud_tile_pkt_id) =? 0) || (h.(ud_input_sequence) =? 0)))
        then None
        else
          let wire := mk_wd_udp_tile_packet_header h.(ud_session_id) h.(ud_connection_token)
            h.(ud_content_epoch) h.(ud_flags) h.(ud_tile_size) h.(ud_tile_pkt_id) h.(ud_tile_id)
            h.(ud_tile_pkt_count) 0 h.(ud_payload_size) h.(ud_tile_payload_size)
            h.(ud_tile_generation) in
          Some (encode wire ++
                (if flag h.(ud_flags) WD_UDP_TILE_FLAG_INPUT_SEQUENCE
                 then encode (mk_wd_udp_tile_input_sequence_extension h.(ud_input_sequence))
                 else []))
  end.

Definition wd_udp_tile_packet_decode (packet : list Z) : option wd_udp_tile_packet_decoded :=
  let packet_size := zlen packet in
  match decode (A := wd_udp_tile_packet_header) packet with
  | None => None    (* shorter than the base header *)
  | Some wire =>
      let header_size := wd_udp_tile_header_size_for_flags wire.(ut_flags) in
      if (header_size =? 0) || (packet_size <? header_size) || (wire.(ut_session_id) =? 0) ||
         (wire.(ut_connection_token) =? 0) || (wire.(ut_content_epoch) =? 0) ||
         negb (wire.(ut_reserved) =? 0) || (wire.(ut_tile_pkt_count) =? 0) ||
         (wire.(ut_tile_pkt_id) >=? wire.(ut_tile_pkt_count)) || (wire.(ut_payload_size) =? 0) ||
         (wire.(ut_tile_payload_size) =? 0) ||
         (wire.(ut_payload_size) >? wire.(ut_tile_payload_size)) ||
         (wire.(ut_tile_generation) =? 0) || negb (some_dimensions wire.(ut_tile_size))
      then None
      else
        let out input_sequence := mk_wd_udp_tile_packet_decoded wire.(ut_session_id)
          wire.(ut_connection_token) wire.(ut_content_epoch) wire.(ut_flags) wire.(ut_tile_size)
          wire.(ut_tile_pkt_id) wire.(ut_tile_id) wire.(ut_tile_pkt_count)
          wire.(ut_payload_size) wire.(ut_tile_payload_size) wire.(ut_tile_generation)
          input_sequence header_size in
        let finish input_sequence :=
          if header_size + wire.(ut_payload_size) =? packet_size
          then Some (out input_sequence) else None in
        if flag wire.(ut_flags) WD_UDP_TILE_FLAG_INPUT_SEQUENCE then
          if negb (wire.(ut_tile_pkt_id) =? 0) then None
          else
            match decode (A := wd_udp_tile_input_sequence_extension)
                    (drop (Z.to_nat (sizeof wd_udp_tile_packet_header)) packet) with
            | None => None
            | Some extension =>
                if extension.(ix_input_sequence) =? 0 then None
                else finish extension.(ix_input_sequence)
            end
        else finish 0
  end.

Definition wd_udp_tile_fragment_layout_valid (header : ptr wd_udp_tile_packet_decoded)
    (packet_size udp_payload_target total_payload_size : Z) : bool :=
  match header with
  | NULL => false
  | Some h =>
      if (udp_payload_target =? 0) || (total_payload_size =? 0) ||
         negb (total_payload_size =? h.(ud_tile_payload_size))
      then false
      else if negb (h.(ud_header_size) + h.(ud_payload_size) =? packet_size) then false
      else
        let expected_packet_count :=
          u32 (u32 (total_payload_size + udp_payload_target) - 1) / udp_payload_target in
        if (expected_packet_count =? 0) || (expected_packet_count >? UINT8_MAX) ||
           negb (h.(ud_tile_pkt_count) =? expected_packet_count) ||
           (h.(ud_tile_pkt_id) >=? expected_packet_count)
        then false
        else
          let offset := u32 (h.(ud_tile_pkt_id) * udp_payload_target) in
          let remaining := u32 (total_payload_size - offset) in
          let expected_payload_size :=
            u16 (if remaining >? udp_payload_target then udp_payload_target else remaining) in
          h.(ud_payload_size) =? expected_payload_size
  end.

(** ** Lemmas *)

(** The field ranges of a decoded header, as its C types give them. *)
Definition decoded_ok (h : wd_udp_tile_packet_decoded) : Prop :=
  u8_ok h.(ud_session_id) /\ u64_ok h.(ud_connection_token) /\ u64_ok h.(ud_content_epoch) /\
  u8_ok h.(ud_flags) /\ u8_ok h.(ud_tile_size) /\ u8_ok h.(ud_tile_pkt_id) /\
  u16_ok h.(ud_tile_id) /\ u8_ok h.(ud_tile_pkt_count) /\ u16_ok h.(ud_payload_size) /\
  u16_ok h.(ud_tile_payload_size) /\ u64_ok h.(ud_tile_generation) /\
  u64_ok h.(ud_input_sequence) /\ u16_ok h.(ud_header_size).

Definition wire_of (h : wd_udp_tile_packet_decoded) : wd_udp_tile_packet_header :=
  mk_wd_udp_tile_packet_header h.(ud_session_id) h.(ud_connection_token)
    h.(ud_content_epoch) h.(ud_flags) h.(ud_tile_size) h.(ud_tile_pkt_id) h.(ud_tile_id)
    h.(ud_tile_pkt_count) 0 h.(ud_payload_size) h.(ud_tile_payload_size) h.(ud_tile_generation).

Lemma wire_of_ok h : decoded_ok h -> ws_ok (wire_of h).
Proof.
  unfold decoded_ok. intros H. destruct_and! H. split; [| exact I].
  repeat constructor; cbn; mlia.
Qed.

Lemma extension_ok h :
  decoded_ok h -> ws_ok (mk_wd_udp_tile_input_sequence_extension h.(ud_input_sequence)).
Proof.
  unfold decoded_ok. intros H. destruct_and! H. split; [| exact I].
  repeat constructor; cbn; mlia.
Qed.

Lemma header_size_cases flags :
  outside flags WD_UDP_TILE_FLAG_MASK = false ->
  wd_udp_tile_header_size_for_flags flags =
    if flag flags WD_UDP_TILE_FLAG_INPUT_SEQUENCE then 44 else 36.
Proof.
  intros E. unfold wd_udp_tile_header_size_for_flags. rewrite E. by case_if.
Qed.

Lemma header_size_nonzero flags :
  (wd_udp_tile_header_size_for_flags flags =? 0) = false ->
  outside flags WD_UDP_TILE_FLAG_MASK = false.
Proof.
  unfold wd_udp_tile_header_size_for_flags. by destruct (outside _ _).
Qed.

Definition with_wire_size (h : wd_udp_tile_packet_decoded) : wd_udp_tile_packet_decoded :=
  mk_wd_udp_tile_packet_decoded h.(ud_session_id) h.(ud_connection_token) h.(ud_content_epoch)
    h.(ud_flags) h.(ud_tile_size) h.(ud_tile_pkt_id) h.(ud_tile_id) h.(ud_tile_pkt_count)
    h.(ud_payload_size) h.(ud_tile_payload_size) h.(ud_tile_generation)
    (if flag h.(ud_flags) WD_UDP_TILE_FLAG_INPUT_SEQUENCE then h.(ud_input_sequence) else 0)
    (wd_udp_tile_header_size_for_flags h.(ud_flags)).

(** The bytes a successful encoder call writes. *)
Lemma encode_header_inv n h hdr :
  wd_udp_tile_packet_encode_header n (Some h) = Some hdr ->
  h.(ud_session_id) <> 0 /\ h.(ud_connection_token) <> 0 /\ h.(ud_content_epoch) <> 0 /\
  h.(ud_tile_pkt_id) < h.(ud_tile_pkt_count) /\ h.(ud_tile_pkt_count) <> 0 /\
  h.(ud_payload_size) <> 0 /\ h.(ud_tile_payload_size) <> 0 /\
  h.(ud_payload_size) <= h.(ud_tile_payload_size) /\ h.(ud_tile_generation) <> 0 /\
  some_dimensions h.(ud_tile_size) = true /\
  outside h.(ud_flags) WD_UDP_TILE_FLAG_MASK = false /\
  (flag h.(ud_flags) WD_UDP_TILE_FLAG_INPUT_SEQUENCE = true ->
   h.(ud_tile_pkt_id) = 0 /\ h.(ud_input_sequence) <> 0) /\
  hdr = encode (wire_of h) ++
    (if flag h.(ud_flags) WD_UDP_TILE_FLAG_INPUT_SEQUENCE
     then encode (mk_wd_udp_tile_input_sequence_extension h.(ud_input_sequence)) else []).
Proof.
  unfold wd_udp_tile_packet_encode_header. case_if; [done |]. case_if; [done |].
  intros [= <-].
  match goal with H : _ || (flag _ _ && _) = false |- _ =>
    apply orb_false_iff in H as [E1 E2] end.
  bool_cases. split_and!; try done; try lia.
  - by apply header_size_nonzero, Z.eqb_neq.
  - intros Hf. rewrite Hf in E2. simpl in E2. bool_cases. done.
Qed.

(** A packet is accepted when its fields pass the decoder's tests. *)
Lemma decode_wire h rest :
  decoded_ok h ->
  h.(ud_session_id) <> 0 -> h.(ud_connection_token) <> 0 -> h.(ud_content_epoch) <> 0 ->
  h.(ud_tile_pkt_id) < h.(ud_tile_pkt_count) -> h.(ud_payload_size) <> 0 ->
  h.(ud_payload_size) <= h.(ud_tile_payload_size) -> h.(ud_tile_generation) <> 0 ->
  some_dimensions h.(ud_tile_size) = true ->
  outside h.(ud_flags) WD_UDP_TILE_FLAG_MASK = false ->
  zlen rest + 36 = wd_udp_tile_header_size_for_flags h.(ud_flags) + h.(ud_payload_size) ->
  wd_udp_tile_packet_decode (encode (wire_of h) ++ rest) =
    if flag h.(ud_flags) WD_UDP_TILE_FLAG_INPUT_SEQUENCE then
      if negb (h.(ud_tile_pkt_id) =? 0) then None
      else
        match decode (A := wd_udp_tile_input_sequence_extension) rest with
        | None => None
        | Some x =>
            if x.(ix_input_sequence) =? 0 then None
            else Some (mk_wd_udp_tile_packet_decoded h.(ud_session_id) h.(ud_connection_token)
              h.(ud_content_epoch) h.(ud_flags) h.(ud_tile_size) h.(ud_tile_pkt_id)
              h.(ud_tile_id) h.(ud_tile_pkt_count) h.(ud_payload_size) h.(ud_tile_payload_size)
              h.(ud_tile_generation) x.(ix_input_sequence)
              (wd_udp_tile_header_size_for_flags h.(ud_flags)))
        end
    else Some (with_wire_size h).
Proof.
  intros Hok. intros. pose proof (wire_of_ok h Hok) as Hw.
  unfold wd_udp_tile_packet_decode. rewrite decode_encode by done.
  rewrite zlen_app, encode_length by done.
  change (sizeof wd_udp_tile_packet_header) with 36.
  rewrite drop_app_length' by (pose proof (encode_length _ Hw) as E; unfold zlen in E;
    change (sizeof wd_udp_tile_packet_header) with 36 in E; lia).
  cbn [wire_of ut_session_id ut_connection_token ut_content_epoch ut_flags ut_tile_size
    ut_tile_pkt_id ut_tile_id ut_tile_pkt_count ut_reserved ut_payload_size
    ut_tile_payload_size ut_tile_generation].
  pose proof (header_size_cases _ ltac:(eassumption)) as Hsz.
  unfold decoded_ok in Hok. destruct_and! Hok.
  rewrite (Z.add_comm 36). replace (zlen rest + 36) with
    (wd_udp_tile_header_size_for_flags (ud_flags h) + ud_payload_size h) by lia.
  rewrite !Z.eqb_refl. case_if.
  - exfalso.
    assert (0 < wd_udp_tile_header_size_for_flags (ud_flags h)) by (rewrite Hsz; by case_if).
    repeat apply orb_true_iff in E as [E|E]; bool_cases; first [mlia | congruence].
  - unfold with_wire_size. destruct (flag _ _); reflexivity.
Qed.

(** A packet built from an accepted header decodes to its fields. *)
Lemma udp_tile_decode_encode_fields n h hdr payload :
  decoded_ok h -> wd_udp_tile_packet_encode_header n (Some h) = Some hdr ->
  zlen payload = h.(ud_payload_size) ->
  wd_udp_tile_packet_decode (hdr ++ payload) = Some (with_wire_size h).
Proof.
  intros Hok Henc Hlen. apply encode_header_inv in Henc. destruct_and! Henc.
  subst hdr. rewrite <- app_assoc.
  pose proof (extension_ok h Hok) as Hx.
  match goal with H : outside _ _ = false |- _ => pose proof (header_size_cases _ H) as Hsz end.
  rewrite decode_wire; try done.
  - destruct (flag _ _) eqn:Hf; [| done].
    match goal with H : true = true -> _ |- _ => destruct (H eq_refl) as [Hid Hseq] end.
    rewrite Hid. cbn [negb Z.eqb]. rewrite decode_encode by done. cbn [ix_input_sequence].
    apply Z.eqb_neq in Hseq. rewrite Hseq. unfold with_wire_size. by rewrite Hf, Hid.
  - rewrite Hsz, zlen_app. destruct (flag _ _).
    + rewrite encode_length by done.
      change (sizeof wd_udp_tile_input_sequence_extension) with 8. lia.
    + unfold zlen at 1. simpl. lia.
Qed.

(** C33: a tile packet the server builds (a header its encoder accepts,
    followed by the announced number of payload bytes) is decoded by the client
    to that header; the decoder fills in the header size, and a zero input
    sequence when the extension is absent. *)
Theorem udp_tile_decode_encode n h hdr payload :
  decoded_ok h -> wd_udp_tile_packet_encode_header n (Some h) = Some hdr ->
  zlen payload = h.(ud_payload_size) ->
  wd_udp_tile_packet_decode (hdr ++ payload) = Some (with_wire_size h).
Proof. apply udp_tile_decode_encode_fields. Qed.

Definition sample_tile : wd_udp_tile_packet_decoded :=
  mk_wd_udp_tile_packet_decoded 3 99 7 2 WD_TILE_16x16 0 41 2 3 5 12 6 0.

Lemma udp_tile_decode_encode_witness :
  exists hdr, wd_udp_tile_packet_encode_header 44 (Some sample_tile) = Some hdr /\
    wd_udp_tile_packet_decode (hdr ++ [1; 2; 3]) = Some (with_wire_size sample_tile).
Proof.
  eexists. split; [vm_compute; reflexivity |].
  apply (udp_tile_decode_encode 44); [| vm_compute; reflexivity | reflexivity].
  repeat split; vm_compute; congruence.
Defined.

(** The tests an accepted packet passed. *)
Lemma decode_inv packet h :
  bytes_ok packet -> wd_udp_tile_packet_decode packet = Some h ->
  exists wire, decode packet = Some wire /\ ws_ok wire /\ wire = wire_of h /\ decoded_ok h /\
  h.(ud_session_id) <> 0 /\ h.(ud_connection_token) <> 0 /\ h.(ud_content_epoch) <> 0 /\
  h.(ud_tile_pkt_count) <> 0 /\ h.(ud_tile_pkt_id) < h.(ud_tile_pkt_count) /\
  h.(ud_payload_size) <> 0 /\ h.(ud_tile_payload_size) <> 0 /\
  h.(ud_payload_size) <= h.(ud_tile_payload_size) /\ h.(ud_tile_generation) <> 0 /\
  some_dimensions h.(ud_tile_size) = true /\
  outside h.(ud_flags) WD_UDP_TILE_FLAG_MASK = false /\
  h.(ud_header_size) = wd_udp_tile_header_size_for_flags h.(ud_flags) /\
  h.(ud_header_size) + h.(ud_payload_size) = zlen packet /\
  (if flag h.(ud_flags) WD_UDP_TILE_FLAG_INPUT_SEQUENCE then
     h.(ud_tile_pkt_id) = 0 /\ h.(ud_input_sequence) <> 0 /\
     decode (drop 36 packet) =
       Some (mk_wd_udp_tile_input_sequence_extension h.(ud_input_sequence))
   else h.(ud_input_sequence) = 0).
Proof.
  intros Hb. unfold wd_udp_tile_packet_decode.
  destruct (decode packet) as [wire|] eqn:Hd; [| done].
  destruct (encode_decode packet wire Hb Hd) as [_ Hw]. case_if; [done |]. bool_cases.
  assert (outside (ut_flags wire) WD_UDP_TILE_FLAG_MASK = false) as Hm
    by by apply header_size_nonzero, Z.eqb_neq.
  pose proof (header_size_cases _ Hm) as Hsz.
  intros Hr. exists wire.
  assert (forall q, u64_ok q -> decoded_ok (mk_wd_udp_tile_packet_decoded wire.(ut_session_id)
          wire.(ut_connection_token) wire.(ut_content_epoch) wire.(ut_flags) wire.(ut_tile_size)
          wire.(ut_tile_pkt_id) wire.(ut_tile_id) wire.(ut_tile_pkt_count)
          wire.(ut_payload_size) wire.(ut_tile_payload_size) wire.(ut_tile_generation)
          q (wd_udp_tile_header_size_for_flags wire.(ut_flags)))) as Hok.
  { intros q Hq. destruct Hw as [Hf _]. cbn in Hf.
    repeat apply Forall2_cons_1 in Hf as [? Hf]. unfold fits in *. cbn in *.
    unfold decoded_ok. cbn. rewrite Hsz. split_and!; try mlia; case_if; mlia. }
  assert (wire = mk_wd_udp_tile_packet_header wire.(ut_session_id)
          wire.(ut_connection_token) wire.(ut_content_epoch) wire.(ut_flags) wire.(ut_tile_size)
          wire.(ut_tile_pkt_id) wire.(ut_tile_id) wire.(ut_tile_pkt_count) 0
          wire.(ut_payload_size) wire.(ut_tile_payload_size) wire.(ut_tile_generation)) as Hrec.
  { destruct wire. cbn in *. congruence. }
  destruct (flag (ut_flags wire) _) eqn:Hf.
  - case_if_in Hr; [done |]. bool_cases.
    destruct (decode (drop _ _)) as [[q]|] eqn:Hx; [cbn [ix_input_sequence] in Hr | done].
    case_if_in Hr; [done |]. case_if_in Hr; [| done]. bool_cases. injection Hr as <-.
    assert (u64_ok q).
    { destruct (encode_decode _ _ (Forall_drop _ _ _ Hb) Hx) as [_ [Hq _]]. cbn in Hq.
      apply Forall2_cons_1 in Hq as [Hq _]. unfold fits in Hq. cbn in Hq. mlia. }
    split_and!; cbn; try done; try lia; [by apply Hok |]. rewrite Hf. done.
  - case_if_in Hr; [| done]. bool_cases. injection Hr as <-.
    split_and!; cbn; try done; try lia; [by apply Hok |]. by rewrite Hf.
Qed.

(** C34: the decoder accepts only the canonical image of a header: encoding
    what was decoded gives back the header bytes of the packet, and what follows
    them is exactly the announced payload. *)
Theorem udp_tile_encode_decode packet h :
  bytes_ok packet -> wd_udp_tile_packet_decode packet = Some h ->
  wd_udp_tile_packet_encode_header (zlen packet) (Some h) =
    Some (take (Z.to_nat h.(ud_header_size)) packet) /\
  zlen (drop (Z.to_nat h.(ud_header_size)) packet) = h.(ud_payload_size).
Proof.
  intros Hb Hdec. destruct (decode_inv packet h Hb Hdec) as (wire & Hd & Hw & -> & Hok & Hrest).
  destruct_and! Hrest.
  destruct (encode_decode packet _ Hb Hd) as [Hbytes _].
  match goal with H : outside _ _ = false |- _ => pose proof (header_size_cases _ H) as Hsz end.
  unfold decoded_ok in Hok. destruct_and! Hok. split.
  - unfold wd_udp_tile_packet_encode_header. case_if.
    { exfalso. repeat apply orb_true_iff in E as [E|E]; bool_cases; first [mlia | congruence]. }
    case_if.
    { exfalso. repeat apply orb_true_iff in E0 as [E0|E0]; bool_cases;
        [by case_if_in Hsz; lia | mlia |].
      match goal with H : flag _ _ = true |- _ => rewrite H in * end.
      match goal with H : _ || _ = true |- _ => apply orb_true_iff in H as [?|?] end;
        bool_cases; naive_solver. }
    f_equal. fold (wire_of h). rewrite Hbytes.
    change (Z.to_nat (sizeof wd_udp_tile_packet_header)) with 36%nat.
    destruct (flag _ _) eqn:Hf.
    + match goal with H : _ /\ _ /\ decode _ = _ |- _ => destruct H as (_ & _ & Hx) end.
      destruct (encode_decode _ _ (Forall_drop _ _ _ Hb) Hx) as [-> _].
      change (Z.to_nat (sizeof wd_udp_tile_input_sequence_extension)) with 8%nat.
      rewrite take_take_drop. f_equal. lia.
    + rewrite app_nil_r. f_equal. lia.
  - unfold zlen in *. rewrite length_drop. mlia.
Qed.

Definition sample_packet : list Z :=
  default [] (wd_udp_tile_packet_encode_header 44 (Some sample_tile)) ++ [1; 2; 3].

Lemma udp_tile_encode_decode_witness :
  wd_udp_tile_packet_decode sample_packet = Some (with_wire_size sample_tile) /\
  wd_udp_tile_packet_encode_header (zlen sample_packet) (Some (with_wire_size sample_tile)) =
    Some (take 44 sample_packet).
Proof.
  split; [vm_compute; reflexivity |].
  apply (udp_tile_encode_decode sample_packet (with_wire_size sample_tile));
    [| vm_compute; reflexivity].
  vm_compute.
  repeat constructor; vm_compute; congruence.
Defined.

(** ** Fragmentation *)

(** The part of the tile payload a fragment carries. *)
Definition fragment_bytes (target : Z) (data : list Z) (h : wd_udp_tile_packet_decoded) : list Z :=
  slice (h.(ud_tile_pkt_id) * target) h.(ud_payload_size) data.

(** What the layout test establishes about one fragment. *)
Lemma layout_valid_inv h size target total :
  decoded_ok h -> u16_ok target -> u32_ok total ->
  wd_udp_tile_fragment_layout_valid (Some h) size target total = true ->
  0 < target /\ 0 < total /\ h.(ud_tile_payload_size) = total /\
  h.(ud_tile_pkt_count) = cdiv total target /\ h.(ud_tile_pkt_id) < cdiv total target /\
  h.(ud_payload_size) = Z.min target (total - h.(ud_tile_pkt_id) * target).
Proof.
  intros Hok Ht Htot. unfold wd_udp_tile_fragment_layout_valid, decoded_ok in *.
  destruct_and! Hok. case_if; [done |]. case_if; [done |]. bool_cases.
  rewrite (u32_small (total + target)), u32_small by mlia.
  fold (cdiv total target). case_if; [done |]. bool_cases. intros Hs.
  pose proof (proj1 (cdiv_spec total target (cdiv total target) ltac:(mlia)) eq_refl).
  assert (0 <= ud_tile_pkt_id h * target < total) by (wd_bounds; nia).
  rewrite (u32_small (ud_tile_pkt_id h * target)) in Hs by mlia.
  rewrite u32_small in Hs by mlia.
  split_and!; try mlia.
  case_if_in Hs; bool_cases; rewrite u16_small in Hs by mlia; lia.
Qed.

Lemma concat_fragments target data (hs : list wd_udp_tile_packet_decoded) k :
  0 < target ->
  (forall i h, hs !! i = Some h -> h.(ud_tile_pkt_id) = Z.of_nat (k + i) /\
    h.(ud_payload_size) = Z.min target (zlen data - Z.of_nat (k + i) * target) /\
    Z.of_nat (k + i) * target < zlen data) ->
  zlen data <= Z.of_nat (k + length hs) * target ->
  concat (fragment_bytes target data <$> hs) = drop (Z.to_nat (Z.of_nat k * target)) data.
Proof.
  intros Ht. revert k; induction hs as [|h hs IH]; intros k Hh Hlen.
  - simpl in *. symmetry. apply drop_ge. unfold zlen in Hlen. lia.
  - destruct (Hh 0%nat h eq_refl) as (Hid & Hps & Hlt). rewrite Nat.add_0_r in *.
    cbn [fmap list_fmap concat]. rewrite (IH (S k)).
    + unfold fragment_bytes, slice. rewrite Hid, Hps.
      destruct (Z.le_gt_cases target (zlen data - Z.of_nat k * target)).
      * rewrite Z.min_l by lia. rewrite <- (take_drop (Z.to_nat target) (drop _ data)) at 2.
        f_equal. rewrite drop_drop. f_equal. lia.
      * rewrite Z.min_r by lia. rewrite (drop_ge _ (Z.to_nat (Z.of_nat (S k) * target)))
          by (unfold zlen in *; lia).
        rewrite app_nil_r. apply take_ge. rewrite length_drop. unfold zlen in *. lia.
    + intros i x Hx. specialize (Hh (S i) x Hx). rewrite Nat.add_succ_r in Hh. exact Hh.
    + simpl in Hlen. rewrite Nat.add_succ_r in Hlen. exact Hlen.
Qed.

(** When every fragment of a tile passes the client's layout test, one
    for each packet id, the fragments cut the tile payload into consecutive
    pieces: concatenated in id order they are the payload, with no gap and no
    overlap. *)
Theorem udp_fragments_partition target data (hs : list wd_udp_tile_packet_decoded) sizes :
  u16_ok target -> u32_ok (zlen data) -> length sizes = length hs ->
  (forall i h size, hs !! i = Some h -> sizes !! i = Some size ->
     decoded_ok h /\ h.(ud_tile_pkt_id) = Z.of_nat i /\ h.(ud_tile_pkt_count) = zlen hs /\
     wd_udp_tile_fragment_layout_valid (Some h) size target (zlen data) = true) ->
  hs <> [] -> concat (fragment_bytes target data <$> hs) = data.
Proof.
  intros Ht Hd Hsz Hh Hne.
  assert (forall i h, hs !! i = Some h -> exists size, sizes !! i = Some size) as Hs.
  { intros i h Hi. apply lookup_lt_is_Some_2. rewrite Hsz. by eapply lookup_lt_Some. }
  assert (forall i h, hs !! i = Some h ->
    0 < target /\ zlen hs = cdiv (zlen data) target /\ h.(ud_tile_pkt_id) = Z.of_nat i /\
    h.(ud_payload_size) = Z.min target (zlen data - Z.of_nat i * target) /\
    Z.of_nat i * target < zlen data) as Hinv.
  { intros i h Hi. destruct (Hs i h Hi) as [size Hsize].
    destruct (Hh i h size Hi Hsize) as (Hok & Hid & Hcnt & Hv).
    apply layout_valid_inv in Hv as (? & ? & ? & Hc & Hlt & Hp); try done.
    pose proof (proj1 (cdiv_spec (zlen data) target _ ltac:(eassumption)) eq_refl).
    rewrite Hid in *. split_and!; [done | congruence | done | done | nia]. }
  destruct hs as [|h0 hs0] eqn:Ehs; [done |]. rewrite <- Ehs in *.
  destruct (Hinv 0%nat h0) as (Htp & Hcnt & _); [by subst |].
  rewrite (concat_fragments target data hs 0); [by rewrite drop_0 | done | |].
  - intros i h Hi. destruct (Hinv i h Hi) as (_ & _ & ? & ? & ?). done.
  - pose proof (proj1 (cdiv_spec (zlen data) target _ Htp) eq_refl).
    rewrite <- Hcnt in *. unfold zlen in *. simpl. lia.
Qed.

Definition sample_fragment (i n : Z) : wd_udp_tile_packet_decoded :=
  mk_wd_udp_tile_packet_decoded 3 99 7 0 WD_TILE_16x16 i 41 2 n 5 12 0 36.

Lemma udp_fragments_partition_witness :
  concat (fragment_bytes 3 [10; 20; 30; 40; 50] <$> [sample_fragment 0 3; sample_fragment 1 2]) =
  [10; 20; 30; 40; 50].
Proof.
  apply (udp_fragments_partition 3 [10; 20; 30; 40; 50] _ [39; 38]); try mlia; [| done | |done].
  - vm_compute. split; congruence.
  - intros [|[|i]] h size Hi Hs; simplify_eq/=;
      (split; [repeat split; vm_compute; congruence | vm_compute; auto]).
Defined.

(** The size code and the dimensions of a tile determine each other. *)
Lemma tile_size_code_roundtrip code w h :
  wd_tile_dimensions_for_size_code code = Some (w, h) <->
  wd_tile_size_code_for_dimensions w h = Some code.
Proof.
  unfold wd_tile_dimensions_for_size_code, wd_tile_size_code_for_dimensions. split.
  - intros H. repeat case_if_in H; bool_cases; simplify_eq; reflexivity.
  - intros H. repeat case_if_in H; bool_cases; simplify_eq; reflexivity.
Qed.
