(* ===== verification/Dispatch.v ===== *)
(** * Message registry and routing

    include/waydisplay/wd_protocol_dispatch.h, src/common/wd_protocol_dispatch.c
    and src/common/wd_protocol_codec.c.  The channel, phase and direction
    enumerators are bit masks; [wd_message_descriptors] is the table of the
    source, one row for each message type. *)
From stdpp Require Import strings.
From S2P Require Import Prelude Wire Config Structs.

Definition WD_PROTOCOL_CHANNEL_CONTROL : Z := Z.shiftl 1 0.
Definition WD_PROTOCOL_CHANNEL_INPUT : Z := Z.shiftl 1 1.
Definition WD_PROTOCOL_CHANNEL_SELECTION : Z := Z.shiftl 1 2.
Definition WD_PROTOCOL_CHANNEL_VIDEO : Z := Z.shiftl 1 3.
Definition WD_PROTOCOL_CHANNEL_AUDIO : Z := Z.shiftl 1 4.
Definition WD_PROTOCOL_CHANNEL_AUX_HANDSHAKE : Z := Z.shiftl 1 5.

Definition WD_PROTOCOL_PHASE_NEGOTIATION : Z := Z.shiftl 1 0.
Definition WD_PROTOCOL_PHASE_ESTABLISHED : Z := Z.shiftl 1 1.

Definition WD_PROTOCOL_CLIENT_TO_SERVER : Z := Z.shiftl 1 0.
Definition WD_PROTOCOL_SERVER_TO_CLIENT : Z := Z.shiftl 1 1.

Inductive wd_protocol_payload_kind :=
  | WD_PROTOCOL_PAYLOAD_EMPTY
  | WD_PROTOCOL_PAYLOAD_FIXED
  | WD_PROTOCOL_PAYLOAD_OPAQUE_TAIL
  | WD_PROTOCOL_PAYLOAD_REPEATED.

Record wd_protocol_message_descriptor := mk_descriptor {
  md_message_type : Z;
  md_name : string;
  md_channels : Z;
  md_phases : Z;
  md_directions : Z;
  md_payload_kind : wd_protocol_payload_kind;
  md_payload_prefix_size : Z;
  md_repeated_entry_size : Z;
  md_minimum_payload_size : Z;
  md_maximum_payload_size : Z;
}.

(** The row constructors of the table; a payload type stands for its size. *)
Definition WD_FIXED type name channel phase direction (payload_type : Type)
    `{WireStruct payload_type} : wd_protocol_message_descriptor :=
  mk_descriptor type name channel phase direction WD_PROTOCOL_PAYLOAD_FIXED
    (sizeof payload_type) 0 (sizeof payload_type) (sizeof payload_type).
Definition WD_EMPTY type name channel phase direction : wd_protocol_message_descriptor :=
  mk_descriptor type name channel phase direction WD_PROTOCOL_PAYLOAD_EMPTY 0 0 0 0.
Definition WD_OPAQUE type name channel phase direction (payload_type : Type)
    `{WireStruct payload_type} maximum : wd_protocol_message_descriptor :=
  mk_descriptor type name channel phase direction WD_PROTOCOL_PAYLOAD_OPAQUE_TAIL
    (sizeof payload_type) 0 (sizeof payload_type) maximum.
Definition WD_REPEAT type name channel phase direction (header_type entry_type : Type)
    `{WireStruct header_type} `{WireStruct entry_type} maximum : wd_protocol_message_descriptor :=
  mk_descriptor type name channel phase direction WD_PROTOCOL_PAYLOAD_REPEATED
    (sizeof header_type) (sizeof entry_type) (sizeof header_type) maximum.

Definition wd_message_descriptors : list wd_protocol_message_descriptor := [
    WD_FIXED WD_MSG_CLIENT_HELLO "WD_MSG_CLIENT_HELLO"
      WD_PROTOCOL_CHANNEL_CONTROL WD_PROTOCOL_PHASE_NEGOTIATION WD_PROTOCOL_CLIENT_TO_SERVER wd_client_hello_payload;
    WD_FIXED WD_MSG_SERVER_CONFIG "WD_MSG_SERVER_CONFIG"
      WD_PROTOCOL_CHANNEL_CONTROL (Z.lor WD_PROTOCOL_PHASE_NEGOTIATION WD_PROTOCOL_PHASE_ESTABLISHED) WD_PROTOCOL_SERVER_TO_CLIENT wd_server_config_payload;
    WD_REPEAT WD_MSG_TILE_GENERATION_SUMMARY "WD_MSG_TILE_GENERATION_SUMMARY"
      WD_PROTOCOL_CHANNEL_CONTROL WD_PROTOCOL_PHASE_ESTABLISHED WD_PROTOCOL_SERVER_TO_CLIENT wd_tile_summary_payload_header wd_tile_generation_entry WD_TCP_MAX_PAYLOAD_SIZE;
    WD_REPEAT WD_MSG_TILE_REPAIR_REQUEST "WD_MSG_TILE_REPAIR_REQUEST"
      WD_PROTOCOL_CHANNEL_CONTROL WD_PROTOCOL_PHASE_ESTABLISHED WD_PROTOCOL_CLIENT_TO_SERVER wd_tile_repair_request_payload_header wd_tile_repair_entry WD_TCP_MAX_PAYLOAD_SIZE;
    WD_FIXED WD_MSG_KEYBOARD_KEY "WD_MSG_KEYBOARD_KEY"
      WD_PROTOCOL_CHANNEL_INPUT WD_PROTOCOL_PHASE_ESTABLISHED WD_PROTOCOL_CLIENT_TO_SERVER wd_keyboard_event_payload;
    WD_FIXED WD_MSG_POINTER_EVENT "WD_MSG_POINTER_EVENT"
      WD_PROTOCOL_CHANNEL_INPUT WD_PROTOCOL_PHASE_ESTABLISHED WD_PROTOCOL_CLIENT_TO_SERVER wd_pointer_event_payload;
    WD_FIXED WD_MSG_MTU_PROBE_START "WD_MSG_MTU_PROBE_START"
      WD_PROTOCOL_CHANNEL_CONTROL WD_PROTOCOL_PHASE_NEGOTIATION WD_PROTOCOL_SERVER_TO_CLIENT wd_mtu_probe_start_payload;
    WD_FIXED WD_MSG_MTU_PROBE_RESULT "WD_MSG_MTU_PROBE_RESULT"
      WD_PROTOCOL_CHANNEL_CONTROL WD_PROTOCOL_PHASE_NEGOTIATION WD_PROTOCOL_CLIENT_TO_SERVER wd_mtu_probe_result_payload;
    WD_OPAQUE WD_MSG_CLIPBOARD_SET "WD_MSG_CLIPBOARD_SET"
      WD_PROTOCOL_CHANNEL_SELECTION WD_PROTOCOL_PHASE_ESTABLISHED (Z.lor WD_PROTOCOL_CLIENT_TO_SERVER WD_PROTOCOL_SERVER_TO_CLIENT) wd_selection_payload_header (sizeof wd_selection_payload_header + WD_SELECTION_MAX_TEXT_BYTES);
    WD_EMPTY WD_MSG_CLIPBOARD_REQUEST "WD_MSG_CLIPBOARD_REQUEST"
      WD_PROTOCOL_CHANNEL_SELECTION WD_PROTOCOL_PHASE_ESTABLISHED WD_PROTOCOL_CLIENT_TO_SERVER;
    WD_OPAQUE WD_MSG_PRIMARY_SET "WD_MSG_PRIMARY_SET"
      WD_PROTOCOL_CHANNEL_SELECTION WD_PROTOCOL_PHASE_ESTABLISHED (Z.lor WD_PROTOCOL_CLIENT_TO_SERVER WD_PROTOCOL_SERVER_TO_CLIENT) wd_selection_payload_header (sizeof wd_selection_payload_header + WD_SELECTION_MAX_TEXT_BYTES);
    WD_EMPTY WD_MSG_PRIMARY_REQUEST "WD_MSG_PRIMARY_REQUEST"
      WD_PROTOCOL_CHANNEL_SELECTION WD_PROTOCOL_PHASE_ESTABLISHED WD_PROTOCOL_CLIENT_TO_SERVER;
    WD_FIXED WD_MSG_CURSOR_SHAPE "WD_MSG_CURSOR_SHAPE"
      WD_PROTOCOL_CHANNEL_CONTROL WD_PROTOCOL_PHASE_ESTABLISHED WD_PROTOCOL_SERVER_TO_CLIENT wd_cursor_shape_payload;
    WD_FIXED WD_MSG_DISPLAY_RESIZE "WD_MSG_DISPLAY_RESIZE"
      WD_PROTOCOL_CHANNEL_CONTROL WD_PROTOCOL_PHASE_ESTABLISHED WD_PROTOCOL_CLIENT_TO_SERVER wd_display_resize_payload;
    WD_FIXED WD_MSG_THROUGHPUT_PROBE_START "WD_MSG_THROUGHPUT_PROBE_START"
      WD_PROTOCOL_CHANNEL_CONTROL WD_PROTOCOL_PHASE_NEGOTIATION WD_PROTOCOL_SERVER_TO_CLIENT wd_throughput_probe_start_payload;
    WD_FIXED WD_MSG_THROUGHPUT_PROBE_RESULT "WD_MSG_THROUGHPUT_PROBE_RESULT"
      WD_PROTOCOL_CHANNEL_CONTROL WD_PROTOCOL_PHASE_NEGOTIATION WD_PROTOCOL_CLIENT_TO_SERVER wd_throughput_probe_result_payload;
    WD_FIXED WD_MSG_INPUT_CHANNEL_HELLO "WD_MSG_INPUT_CHANNEL_HELLO"
      WD_PROTOCOL_CHANNEL_AUX_HANDSHAKE WD_PROTOCOL_PHASE_NEGOTIATION WD_PROTOCOL_CLIENT_TO_SERVER wd_input_channel_hello_payload;
    WD_FIXED WD_MSG_SELECTION_CHANNEL_HELLO "WD_MSG_SELECTION_CHANNEL_HELLO"
      WD_PROTOCOL_CHANNEL_AUX_HANDSHAKE WD_PROTOCOL_PHASE_NEGOTIATION WD_PROTOCOL_CLIENT_TO_SERVER wd_selection_channel_hello_payload;
    WD_FIXED WD_MSG_CLIENT_STATS "WD_MSG_CLIENT_STATS"
      WD_PROTOCOL_CHANNEL_CONTROL WD_PROTOCOL_PHASE_ESTABLISHED WD_PROTOCOL_CLIENT_TO_SERVER wd_client_stats_payload;
    WD_FIXED WD_MSG_LINK_PROBE_PING "WD_MSG_LINK_PROBE_PING"
      WD_PROTOCOL_CHANNEL_CONTROL WD_PROTOCOL_PHASE_NEGOTIATION WD_PROTOCOL_SERVER_TO_CLIENT wd_link_probe_payload;
    WD_FIXED WD_MSG_LINK_PROBE_PONG "WD_MSG_LINK_PROBE_PONG"
      WD_PROTOCOL_CHANNEL_CONTROL WD_PROTOCOL_PHASE_NEGOTIATION WD_PROTOCOL_CLIENT_TO_SERVER wd_link_probe_payload;
    WD_FIXED WD_MSG_VIDEO_CHANNEL_HELLO "WD_MSG_VIDEO_CHANNEL_HELLO"
      WD_PROTOCOL_CHANNEL_AUX_HANDSHAKE WD_PROTOCOL_PHASE_NEGOTIATION WD_PROTOCOL_CLIENT_TO_SERVER wd_video_channel_hello_payload;
    WD_OPAQUE WD_MSG_VIDEO_FRAME "WD_MSG_VIDEO_FRAME"
      WD_PROTOCOL_CHANNEL_VIDEO WD_PROTOCOL_PHASE_ESTABLISHED WD_PROTOCOL_SERVER_TO_CLIENT wd_video_frame_payload_header (sizeof wd_video_frame_payload_header + WD_VIDEO_FRAME_MAX_PAYLOAD_BYTES);
    WD_FIXED WD_MSG_CONFIG_APPLIED "WD_MSG_CONFIG_APPLIED"
      WD_PROTOCOL_CHANNEL_CONTROL WD_PROTOCOL_PHASE_ESTABLISHED WD_PROTOCOL_CLIENT_TO_SERVER wd_config_applied_payload;
    WD_FIXED WD_MSG_AUDIO_CHANNEL_HELLO "WD_MSG_AUDIO_CHANNEL_HELLO"
      WD_PROTOCOL_CHANNEL_AUX_HANDSHAKE WD_PROTOCOL_PHASE_NEGOTIATION WD_PROTOCOL_CLIENT_TO_SERVER wd_audio_channel_hello_payload;
    WD_FIXED WD_MSG_AUDIO_CONFIG "WD_MSG_AUDIO_CONFIG"
      WD_PROTOCOL_CHANNEL_AUDIO WD_PROTOCOL_PHASE_ESTABLISHED WD_PROTOCOL_SERVER_TO_CLIENT wd_audio_config_payload;
    WD_OPAQUE WD_MSG_AUDIO_PACKET "WD_MSG_AUDIO_PACKET"
      WD_PROTOCOL_CHANNEL_AUDIO WD_PROTOCOL_PHASE_ESTABLISHED WD_PROTOCOL_SERVER_TO_CLIENT wd_audio_packet_payload_header (sizeof wd_audio_packet_payload_header + WD_AUDIO_PACKET_MAX_PAYLOAD_BYTES);
    WD_FIXED WD_MSG_VIDEO_FEEDBACK "WD_MSG_VIDEO_FEEDBACK"
      WD_PROTOCOL_CHANNEL_CONTROL WD_PROTOCOL_PHASE_ESTABLISHED WD_PROTOCOL_CLIENT_TO_SERVER wd_video_feedback_payload;
    WD_FIXED WD_MSG_LAUNCH_COMMAND "WD_MSG_LAUNCH_COMMAND"
      WD_PROTOCOL_CHANNEL_CONTROL WD_PROTOCOL_PHASE_ESTABLISHED WD_PROTOCOL_CLIENT_TO_SERVER wd_launch_command_payload;
    WD_EMPTY WD_MSG_CLIPBOARD_PASTE "WD_MSG_CLIPBOARD_PASTE"
      WD_PROTOCOL_CHANNEL_SELECTION WD_PROTOCOL_PHASE_ESTABLISHED WD_PROTOCOL_CLIENT_TO_SERVER;
    WD_FIXED WD_MSG_PRIMARY_PASTE "WD_MSG_PRIMARY_PASTE"
      WD_PROTOCOL_CHANNEL_SELECTION WD_PROTOCOL_PHASE_ESTABLISHED WD_PROTOCOL_CLIENT_TO_SERVER wd_pointer_event_payload
  ]%string.

Fixpoint find_descriptor (table : list wd_protocol_message_descriptor) (message_type : Z)
    : ptr wd_protocol_message_descriptor :=
  match table with
  | [] => NULL
  | d :: table =>
      if d.(md_message_type) =? message_type then Some d else find_descriptor table message_type
  end.

Definition wd_protocol_message_descriptor_find (message_type : Z)
    : ptr wd_protocol_message_descriptor :=
  find_descriptor wd_message_descriptors message_type.

Definition wd_protocol_descriptor_size_is_valid (descriptor : ptr wd_protocol_message_descriptor)
    (payload_size : Z) : bool :=
  match descriptor with
  | NULL => false
  | Some d =>
      if (payload_size <? d.(md_minimum_payload_size)) || (payload_size >? d.(md_maximum_payload_size))
      then false
      else
        match d.(md_payload_kind) with
        | WD_PROTOCOL_PAYLOAD_EMPTY => payload_size =? 0
        | WD_PROTOCOL_PAYLOAD_FIXED => payload_size =? d.(md_payload_prefix_size)
        | WD_PROTOCOL_PAYLOAD_OPAQUE_TAIL => payload_size >=? d.(md_payload_prefix_size)
        | WD_PROTOCOL_PAYLOAD_REPEATED =>
            (payload_size >=? d.(md_payload_prefix_size)) &&
            negb (d.(md_repeated_entry_size) =? 0) &&
            (u32 (payload_size - d.(md_payload_prefix_size)) mod d.(md_repeated_entry_size) =? 0)
        end
  end.

Definition wd_protocol_payload_size_is_valid (message_type payload_size : Z) : bool :=
  wd_protocol_descriptor_size_is_valid (wd_protocol_message_descriptor_find message_type)
    payload_size.

Definition wd_protocol_route_is_concrete (value allowed_mask : Z) : bool :=
  negb (value =? 0) && negb (outside value allowed_mask) && negb (flag value (u32 (value - 1))).

(** The masks both routing functions build. *)
Definition channel_mask : Z :=
  Z.lor WD_PROTOCOL_CHANNEL_CONTROL (Z.lor WD_PROTOCOL_CHANNEL_INPUT
    (Z.lor WD_PROTOCOL_CHANNEL_SELECTION (Z.lor WD_PROTOCOL_CHANNEL_VIDEO
      (Z.lor WD_PROTOCOL_CHANNEL_AUDIO WD_PROTOCOL_CHANNEL_AUX_HANDSHAKE)))).
Definition phase_mask : Z := Z.lor WD_PROTOCOL_PHASE_NEGOTIATION WD_PROTOCOL_PHASE_ESTABLISHED.
Definition direction_mask : Z := Z.lor WD_PROTOCOL_CLIENT_TO_SERVER WD_PROTOCOL_SERVER_TO_CLIENT.

Definition wd_protocol_message_allowed (message_type channel phase direction payload_size : Z)
    : bool :=
  if negb (wd_protocol_route_is_concrete channel channel_mask) ||
     negb (wd_protocol_route_is_concrete phase phase_mask) ||
     negb (wd_protocol_route_is_concrete direction direction_mask)
  then false
  else
    let descriptor := wd_protocol_message_descriptor_find message_type in
    match descriptor with
    | NULL => false
    | Some d =>
        flag d.(md_channels) channel && flag d.(md_phases) phase &&
        flag d.(md_directions) direction &&
        wd_protocol_descriptor_size_is_valid descriptor payload_size
    end.

Definition max_step (channel phase direction maximum : Z) (d : wd_protocol_message_descriptor) : Z :=
  if flag d.(md_channels) channel && flag d.(md_phases) phase &&
     flag d.(md_directions) direction && (d.(md_maximum_payload_size) >? maximum)
  then d.(md_maximum_payload_size) else maximum.

Definition wd_protocol_channel_max_payload (channel phase direction : Z) : Z :=
  if negb (wd_protocol_route_is_concrete channel channel_mask) ||
     negb (wd_protocol_route_is_concrete phase phase_mask) ||
     negb (wd_protocol_route_is_concrete direction direction_mask)
  then 0
  else fold_left (max_step channel phase direction) wd_message_descriptors 0.

Definition wd_protocol_message_name (message_type : Z) : string :=
  match wd_protocol_message_descriptor_find message_type with
  | NULL => "WD_MSG_UNKNOWN"
  | Some d => d.(md_name)
  end.

(** ** wd_protocol_codec.c *)

Definition wd_tcp_header_encode (header : ptr wd_tcp_header) : option (list Z) :=
  match header with NULL => None | Some h => Some (encode h) end.

Definition wd_tcp_header_decode (source : ptr (list Z)) : option wd_tcp_header :=
  match source with NULL => None | Some bytes => decode bytes end.

Definition wd_protocol_payload_validate (message_type : Z) (payload : ptr (list Z))
    (payload_size : Z) : bool :=
  if negb (payload_size =? 0) && negb (bool_decide (is_Some payload)) then false
  else wd_protocol_payload_size_is_valid message_type payload_size.

Definition wd_protocol_payload_wire_size (message_type : Z) (payload : ptr (list Z))
    (payload_size : Z) : option Z :=
  if negb (wd_protocol_payload_validate message_type payload payload_size) then None
  else Some payload_size.

(** ** Routing theorems *)

Lemma find_descriptor_In table t d :
  find_descriptor table t = Some d -> In d table /\ d.(md_message_type) = t.
Proof.
  induction table as [|x table IH]; simpl; [done |].
  destruct (Z.eqb_spec x.(md_message_type) t); [| naive_solver].
  intros [= <-]. split; [by left | done].
Qed.

Lemma descriptor_size_valid_bounds d n :
  wd_protocol_descriptor_size_is_valid (Some d) n = true ->
  n <= d.(md_maximum_payload_size).
Proof.
  unfold wd_protocol_descriptor_size_is_valid. case_if; [done |]. by bool_cases.
Qed.

(** The fold keeps the largest maximum of the routed rows. *)
Lemma fold_max_step c p d table m :
  m <= fold_left (max_step c p d) table m /\
  (forall x, In x table -> flag x.(md_channels) c = true -> flag x.(md_phases) p = true ->
     flag x.(md_directions) d = true ->
     x.(md_maximum_payload_size) <= fold_left (max_step c p d) table m).
Proof.
  revert m; induction table as [|x table IH]; intros m; [split; [done | naive_solver] |].
  cbn [fold_left]. destruct (IH (max_step c p d m x)) as [IH1 IH2].
  assert (m <= max_step c p d m x) by (unfold max_step; case_if; bool_cases; lia).
  split; [lia |]. intros y [->|Hy] H1 H2 H3; [| by apply IH2].
  etransitivity; [| apply IH1]. unfold max_step. rewrite H1, H2, H3.
  case_if; bool_cases; lia.
Qed.

(** The receive bound of a channel admits every message the
    dispatcher would accept there, so a reader that drops a message above the
    bound drops only messages that are invalid on that channel. *)
Theorem allowed_within_channel_max t c p d n :
  wd_protocol_message_allowed t c p d n = true ->
  n <= wd_protocol_channel_max_payload c p d.
Proof.
  unfold wd_protocol_message_allowed, wd_protocol_channel_max_payload.
  case_if; [done |].
  destruct (wd_protocol_message_descriptor_find t) as [x|] eqn:Hx; [| done].
  intros H. bool_cases. apply find_descriptor_In in Hx as [Hin _].
  etransitivity; [by eapply descriptor_size_valid_bounds |].
  by apply fold_max_step.
Qed.

Lemma allowed_within_channel_max_witness :
  wd_protocol_message_allowed WD_MSG_KEYBOARD_KEY WD_PROTOCOL_CHANNEL_INPUT
    WD_PROTOCOL_PHASE_ESTABLISHED WD_PROTOCOL_CLIENT_TO_SERVER 28 = true /\
  28 <= wd_protocol_channel_max_payload WD_PROTOCOL_CHANNEL_INPUT
    WD_PROTOCOL_PHASE_ESTABLISHED WD_PROTOCOL_CLIENT_TO_SERVER.
Proof.
  split; [vm_compute; reflexivity |].
  apply (allowed_within_channel_max WD_MSG_KEYBOARD_KEY). vm_compute. reflexivity.
Defined.

(** A concrete route is one of the single-bit values of its mask. *)
Lemma concrete_single k v :
  0 <= k <= 6 -> wd_protocol_route_is_concrete v (Z.ones k) = true ->
  exists i, 0 <= i < k /\ v = 2 ^ i.
Proof.
  intros Hk H. unfold wd_protocol_route_is_concrete in H. bool_cases.
  match goal with H : outside _ _ = false |- _ => apply outside_ones in H; [| lia] end.
  assert (v < 64) by (assert (2 ^ k <= 2 ^ 6) by (apply Z.pow_le_mono_r; lia); lia).
  assert (forall i, 0 <= i -> v = 2 ^ i -> v < 2 ^ k -> exists i, 0 <= i < k /\ v = 2 ^ i) as Hw.
  { intros i Hi -> Hlt. exists i. split; [| done]. split; [lia |].
    apply Z.pow_lt_mono_r_iff with 2; lia. }
  assert (In v [1; 2; 4; 8; 16; 32]) as Hin.
  { assert (In v (zseq 64)) as Hv by (apply elem_of_zseq; lia).
    vm_compute in Hv. repeat (destruct Hv as [<-|Hv]; [try done; vm_compute; tauto |]). done. }
  simpl in Hin. destruct_or! Hin; subst;
    [apply (Hw 0) | apply (Hw 1) | apply (Hw 2) | apply (Hw 3) | apply (Hw 4) | apply (Hw 5)];
    done || lia.
Qed.

(** Every row of the table is on one channel, in one of its directions. *)
Lemma table_channels_single :
  forallb (fun d => existsb (fun i => d.(md_channels) =? 2 ^ i) (zseq 6))
    wd_message_descriptors = true.
Proof. vm_compute. reflexivity. Qed.

Lemma flag_pow2 i j : 0 <= i -> 0 <= j -> flag (2 ^ i) (2 ^ j) = true -> i = j.
Proof.
  intros Hi Hj H. unfold flag in H. bool_cases.
  destruct (Z.eq_dec i j) as [|Hne]; [done |]. exfalso. apply H.
  apply Z.bits_inj'. intros n Hn. rewrite Z.land_spec, !Z.pow2_bits_eqb, Z.bits_0 by done.
  destruct (Z.eqb_spec i n), (Z.eqb_spec j n); simpl; congruence.
Qed.

(** A message type is accepted on at most one channel: whatever the
    phase, direction and size, a type accepted on two channels is accepted on
    the same one. *)
Theorem message_channel_unique t c1 p1 d1 n1 c2 p2 d2 n2 :
  wd_protocol_message_allowed t c1 p1 d1 n1 = true ->
  wd_protocol_message_allowed t c2 p2 d2 n2 = true -> c1 = c2.
Proof.
  unfold wd_protocol_message_allowed. case_if; [done |]. case_if; [done |].
  destruct (wd_protocol_message_descriptor_find t) as [x|] eqn:Hx; [| done].
  intros H1 H2. bool_cases. apply find_descriptor_In in Hx as [Hin _].
  pose proof table_channels_single as Ht. rewrite forallb_forall in Ht.
  specialize (Ht x Hin). apply existsb_exists in Ht as (i & Hi & Ex).
  apply elem_of_zseq in Hi. apply Z.eqb_eq in Ex. rewrite Ex in *.
  change channel_mask with (Z.ones 6) in *.
  assert (forall c, wd_protocol_route_is_concrete c (Z.ones 6) = true ->
    flag (2 ^ i) c = true -> c = 2 ^ i) as Hc.
  { intros c Hr Hf. destruct (concrete_single 6 c ltac:(lia) Hr) as (j & Hj & ->).
    f_equal. symmetry. apply flag_pow2; [lia | lia | done]. }
  rewrite (Hc c1), (Hc c2); done.
Qed.

Lemma message_channel_unique_witness :
  (fun c => wd_protocol_message_allowed WD_MSG_SERVER_CONFIG c WD_PROTOCOL_PHASE_ESTABLISHED
      WD_PROTOCOL_SERVER_TO_CLIENT 101 = true /\ WD_PROTOCOL_CHANNEL_CONTROL = c)
    WD_PROTOCOL_CHANNEL_CONTROL.
Proof.
  split; [vm_compute; reflexivity |].
  apply (message_channel_unique WD_MSG_SERVER_CONFIG _ WD_PROTOCOL_PHASE_NEGOTIATION
    WD_PROTOCOL_SERVER_TO_CLIENT 101 _ WD_PROTOCOL_PHASE_ESTABLISHED
    WD_PROTOCOL_SERVER_TO_CLIENT 101); vm_compute; reflexivity.
Defined.

(** The registry holds the message types 1 to 31, each once. *)
Lemma registry_complete t :
  is_Some (wd_protocol_message_descriptor_find t) <-> 1 <= t <= 31.
Proof.
  split.
  - intros [d Hd]. apply find_descriptor_In in Hd as [Hin <-].
    assert (forallb (fun d => (1 <=? d.(md_message_type)) && (d.(md_message_type) <=? 31))
      wd_message_descriptors = true) as Ht by (vm_compute; reflexivity).
    rewrite forallb_forall in Ht. specialize (Ht d Hin). by bool_cases.
  - intros Ht. assert (In t (Z.succ <$> zseq 31)) as Hin.
    { apply in_map_iff. exists (t - 1). rewrite elem_of_zseq. lia. }
    vm_compute in Hin. repeat (destruct Hin as [<-|Hin]; [by eexists |]). done.
Qed.
