(* ===== verification/Buffer.v ===== *)
(** * Reference-counted buffers

    src/common/wd_buffer.c.  The control block is a record; the result of the
    allocator is an argument ([alloc_ok]).  A buffer whose last reference is
    dropped is gone: [wd_buffer_release] returns the surviving control block, if
    any, and the release callback it invoked, if any.  The reference count is
    only changed by single atomic operations, so a concurrent execution is a
    sequence of the operations below. *)
From S2P Require Import Prelude.

(** [rf] stands for the release callback and its user data. *)
Record wd_buffer {rf : Type} := mk_wd_buffer {
  wb_refs : Z;
  wb_data : ptr (list Z);
  wb_size : Z;
  wb_capacity : Z;
  wb_release : ptr rf;
  wb_inline_storage : bool;
}.
Arguments wd_buffer : clear implicits.

(** [sizeof(struct wd_buffer)] on the supported 64-bit targets. *)
Definition sizeof_wd_buffer : Z := 56.

Section buffer.
Context {rf : Type}.

Definition wd_buffer_alloc_padded (alloc_ok : bool) (size padding : Z) : ptr (wd_buffer rf) :=
  if padding >? SIZE_MAX - size then NULL
  else
    let capacity := size + padding in
    if capacity >? SIZE_MAX - sizeof_wd_buffer then NULL
    else if negb alloc_ok then NULL
    else Some (mk_wd_buffer rf 1
           (if negb (capacity =? 0) then Some (replicate (Z.to_nat capacity) 0) else NULL)
           size capacity NULL true).

Definition wd_buffer_alloc (alloc_ok : bool) (size : Z) : ptr (wd_buffer rf) :=
  wd_buffer_alloc_padded alloc_ok size 0.

Definition wd_buffer_wrap (alloc_ok : bool) (data : ptr (list Z)) (size : Z) (release : ptr rf)
    : ptr (wd_buffer rf) :=
  if (negb (size =? 0) && negb (bool_decide (is_Some data))) || negb (bool_decide (is_Some release))
  then NULL
  else if negb alloc_ok then NULL
  else Some (mk_wd_buffer rf 1 data size size release false).

(** The compare-and-exchange loop as the one successful exchange it ends with. *)
Definition wd_buffer_retain (buffer : ptr (wd_buffer rf)) : ptr (wd_buffer rf) :=
  match buffer with
  | NULL => NULL
  | Some b =>
      if (b.(wb_refs) =? 0) || (b.(wb_refs) =? UINT32_MAX) then NULL
      else Some (mk_wd_buffer rf (b.(wb_refs) + 1) b.(wb_data) b.(wb_size) b.(wb_capacity)
             b.(wb_release) b.(wb_inline_storage))
  end.

Definition wd_buffer_release (buffer : ptr (wd_buffer rf))
    : ptr (wd_buffer rf) * option (rf * ptr (list Z) * Z) :=
  match buffer with
  | NULL => (NULL, None)
  | Some b =>
      if negb (b.(wb_refs) =? 1)
      then (Some (mk_wd_buffer rf (u32 (b.(wb_refs) - 1)) b.(wb_data) b.(wb_size) b.(wb_capacity)
              b.(wb_release) b.(wb_inline_storage)), None)
      else (NULL,
            if negb b.(wb_inline_storage)
            then match b.(wb_release) with
                 | NULL => None
                 | Some release => Some (release, b.(wb_data), b.(wb_size))
                 end
            else None)
  end.

Definition wd_buffer_data (buffer : ptr (wd_buffer rf)) : ptr (list Z) :=
  match buffer with NULL => NULL | Some b => b.(wb_data) end.

Definition wd_buffer_const_data (buffer : ptr (wd_buffer rf)) : ptr (list Z) :=
  match buffer with NULL => NULL | Some b => b.(wb_data) end.

Definition wd_buffer_size (buffer : ptr (wd_buffer rf)) : Z :=
  match buffer with NULL => 0 | Some b => b.(wb_size) end.

Definition wd_buffer_capacity (buffer : ptr (wd_buffer rf)) : Z :=
  match buffer with NULL => 0 | Some b => b.(wb_capacity) end.

Definition wd_buffer_range_valid (buffer : ptr (wd_buffer rf)) (offset size : Z) : bool :=
  match buffer with
  | NULL => false
  | Some b => (offset <=? b.(wb_size)) && (size <=? b.(wb_size) - offset)
  end.

(** ** Lifetime *)

Inductive buffer_op := Retain | Release.

(** A sequence of reference operations on a live buffer; the second component
    collects the callbacks invoked, in order. *)
Fixpoint run_ops (ops : list buffer_op) (b : ptr (wd_buffer rf))
    : ptr (wd_buffer rf) * list (rf * ptr (list Z) * Z) :=
  match ops with
  | [] => (b, [])
  | Retain :: ops =>
      match wd_buffer_retain b with NULL => run_ops ops b | Some b' => run_ops ops (Some b') end
  | Release :: ops =>
      let '(b', cb) := wd_buffer_release b in
      let '(b'', cbs) := run_ops ops b' in
      (b'', option_list cb ++ cbs)
  end.

(** References held after a prefix of operations that starts with [n]. *)
Fixpoint held (ops : list buffer_op) (n : Z) : Z :=
  match ops with
  | [] => n
  | Retain :: ops => held ops (n + 1)
  | Release :: ops => held ops (n - 1)
  end.

(** Every release gives up a reference that is held, and the count stays
    representable. *)
Fixpoint owned (ops : list buffer_op) (n : Z) : Prop :=
  0 <= n < UINT32_MAX /\
  match ops with
  | [] => True
  | Retain :: ops => 0 < n /\ owned ops (n + 1)
  | Release :: ops => 0 < n /\ owned ops (n - 1)
  end.

Lemma owned_zero ops : owned ops 0 -> ops = [].
Proof. destruct ops as [|[] ops]; simpl; [done | lia | lia]. Qed.

Lemma run_ops_null ops : run_ops ops NULL = (NULL, []).
Proof. induction ops as [|[] ops IH]; cbn; [done | by rewrite IH | by rewrite IH]. Qed.

(** A live wrapped buffer of [n] references under operations that only release
    held references. *)
Lemma run_ops_wrapped data size release n ops :
  0 < n -> owned ops n ->
  run_ops ops (Some (mk_wd_buffer rf n data size size (Some release) false)) =
    if 0 <? held ops n
    then (Some (mk_wd_buffer rf (held ops n) data size size (Some release) false), [])
    else (NULL, [(release, data, size)]).
Proof.
  revert n; induction ops as [|[] ops IH]; intros n Hn Ho; cbn [run_ops held].
  - replace (0 <? n) with true by (symmetry; apply Z.ltb_lt; lia). done.
  - destruct Ho as (? & ? & Ho). cbn [wd_buffer_retain wb_refs].
    replace ((n =? 0) || (n =? UINT32_MAX)) with false by
      (symmetry; apply orb_false_iff; split; apply Z.eqb_neq; lia).
    cbn. by rewrite IH by (try done; lia).
  - destruct Ho as (? & ? & Ho). cbn [wd_buffer_release wb_refs].
    destruct (Z.eqb_spec n 1) as [->|Hne]; cbn.
    + apply owned_zero in Ho. by subst.
    + rewrite u32_small by mlia. rewrite IH by (try done; lia). by case_if.
Qed.

(** C37: the bytes given to [wd_buffer_wrap] are handed back to their owner by
    one callback, at the release of the last reference and not before.  The
    buffer starts with the one reference of its creator; after any sequence of
    operations that only releases held references it is alive, with the
    owner's bytes and no callback made, while references remain, and gone with
    exactly one callback, on the owner's bytes, when none does.  When the
    wrap is refused (no callback, bytes announced and none given, no memory)
    nothing is ever called: the bytes stay with the caller. *)
Theorem wrapped_buffer_released_once (alloc_ok : bool) (data : ptr (list Z)) (size : Z) (release : ptr rf) ops :
  owned ops 1 ->
  run_ops ops (wd_buffer_wrap alloc_ok data size release) =
    match release with
    | NULL => (NULL, [])
    | Some fn =>
        if alloc_ok && ((size =? 0) || bool_decide (is_Some data)) then
          if 0 <? held ops 1
          then (Some (mk_wd_buffer rf (held ops 1) data size size (Some fn) false), [])
          else (NULL, [(fn, data, size)])
        else (NULL, [])
    end.
Proof.
  intros Ho. unfold wd_buffer_wrap.
  destruct release as [fn|].
  2: { replace (bool_decide (is_Some (@None rf))) with false by done. rewrite orb_true_r. apply run_ops_null. }
  replace (bool_decide (is_Some (Some fn))) with true by done. rewrite orb_false_r.
  destruct (size =? 0), (bool_decide (is_Some data)), alloc_ok; cbn [negb andb orb];
    (apply run_ops_null || by apply run_ops_wrapped).
Qed.
End buffer.

Lemma wrapped_buffer_released_once_witness :
  run_ops [Retain; Release; Retain; Release] (wd_buffer_wrap true (Some [7; 8]) 2 (Some 5%nat)) =
    (Some (mk_wd_buffer nat 1 (Some [7; 8]) 2 2 (Some 5%nat) false), []) /\
  run_ops [Retain; Release; Release] (wd_buffer_wrap true (Some [7; 8]) 2 (Some 5%nat)) =
    (NULL, [(5%nat, Some [7; 8], 2)]).
Proof.
  split.
  - apply (wrapped_buffer_released_once true (Some [7; 8]) 2 (Some 5%nat) [Retain; Release; Retain; Release]).
    simpl; mlia.
  - apply (wrapped_buffer_released_once true (Some [7; 8]) 2 (Some 5%nat) [Retain; Release; Release]).
    simpl; mlia.
Defined.
