(* ===== verification/Frame.v ===== *)
(** * Captured and decoded frames

    src/common/wd_frame.c: a frame holds a reference to a buffer or duplicated
    file descriptors of a DMA-BUF, and gives them up when it is reset or set
    again.  The process's resources are explicit: the open descriptors and the
    live buffers (Buffer).  Closing a descriptor that is not open, or touching a
    buffer that is gone, has no result; [frame_resources_balanced] shows that
    this never happens and that nothing leaks.  The two members of the frame's
    union are separate fields; the code reads a member only under its tag. *)
From stdpp Require Import gmap.
From S2P Require Import Prelude Buffer.

Definition WD_FRAME_MAX_PLANES : Z := 4.

Inductive wd_frame_storage :=
  | WD_FRAME_STORAGE_NONE
  | WD_FRAME_STORAGE_CPU_XRGB8888
  | WD_FRAME_STORAGE_DRM_PRIME.
#[export] Instance wd_frame_storage_eq_dec : EqDecision wd_frame_storage.
Proof. solve_decision. Defined.

Record wd_frame_drm_plane := mk_wd_frame_drm_plane {
  dp_fd : Z;
  dp_stride : Z;
  dp_offset : Z;
  dp_modifier : Z;
}.
#[export] Instance wd_frame_drm_plane_eq_dec : EqDecision wd_frame_drm_plane.
Proof. solve_decision. Defined.
#[export] Instance wd_frame_drm_plane_eta : Eta wd_frame_drm_plane := fun s =>
  mk_wd_frame_drm_plane s.(dp_fd) s.(dp_stride) s.(dp_offset) s.(dp_modifier).

(** A buffer is named by its address. *)
Record wd_frame := mk_wd_frame {
  fr_storage : wd_frame_storage;
  fr_width : Z;
  fr_height : Z;
  fr_fourcc : Z;
  fr_pts_usec : Z;
  fr_buffer : ptr positive;
  fr_offset : Z;
  fr_stride_bytes : Z;
  fr_plane_count : Z;
  fr_planes : list wd_frame_drm_plane;
}.
#[export] Instance wd_frame_eq_dec : EqDecision wd_frame.
Proof. solve_decision. Defined.
#[export] Instance wd_frame_eta : Eta wd_frame := fun s =>
  mk_wd_frame s.(fr_storage) s.(fr_width) s.(fr_height) s.(fr_fourcc) s.(fr_pts_usec) s.(fr_buffer)
    s.(fr_offset) s.(fr_stride_bytes) s.(fr_plane_count) s.(fr_planes).

(** What the process holds. *)
Record resources := mk_resources {
  re_fds : gset Z;
  re_buffers : gmap positive (wd_buffer unit);
}.
#[export] Instance resources_eta : Eta resources := fun s => mk_resources s.(re_fds) s.(re_buffers).

Definition close_fd (fd : Z) (r : resources) : option resources :=
  if bool_decide (fd ∈ r.(re_fds)) then Some (r <| re_fds := r.(re_fds) ∖ {[fd]} |>) else None.

Definition release_buffer (buffer : ptr positive) (r : resources) : option resources :=
  match buffer with
  | NULL => Some r
  | Some b =>
      c ← r.(re_buffers) !! b;
      Some (match (wd_buffer_release (Some c)).1 with
            | Some c => r <| re_buffers := <[b := c]> r.(re_buffers) |>
            | NULL => r <| re_buffers := base.delete b r.(re_buffers) |>
            end)
  end.

(** The result is [Some false] where [wd_buffer_retain] returns NULL. *)
Definition retain_buffer (b : positive) (r : resources) : option (resources * bool) :=
  c ← r.(re_buffers) !! b;
  Some (match wd_buffer_retain (Some c) with
        | Some c => (r <| re_buffers := <[b := c]> r.(re_buffers) |>, true)
        | NULL => (r, false)
        end).

(** [duplicate] is what the system call returns for [fd]: a descriptor not yet
    open, or a negative number. *)
Definition wd_frame_dup_cloexec (fd duplicate : Z) (r : resources) : Z * resources :=
  if fd <? 0 then (-1, r)
  else if duplicate <? 0 then (duplicate, r)
  else (duplicate, r <| re_fds := {[duplicate]} ∪ r.(re_fds) |>).

Definition no_plane : wd_frame_drm_plane := mk_wd_frame_drm_plane (-1) 0 0 0.

Definition wd_frame_init : wd_frame :=
  mk_wd_frame WD_FRAME_STORAGE_NONE 0 0 0 0 NULL 0 0 0 (replicate 4 no_plane).

Definition close_plane (r : resources) (plane : wd_frame_drm_plane) : option resources :=
  if plane.(dp_fd) >=? 0 then close_fd plane.(dp_fd) r else Some r.

Definition close_planes (planes : list wd_frame_drm_plane) (r : resources) : option resources :=
  fold_left (fun r plane => r ← r; close_plane r plane) planes (Some r).

Definition wd_frame_reset (frame : wd_frame) (r : resources) : option (wd_frame * resources) :=
  r ← match frame.(fr_storage) with
      | WD_FRAME_STORAGE_CPU_XRGB8888 => release_buffer frame.(fr_buffer) r
      | WD_FRAME_STORAGE_DRM_PRIME =>
          close_planes (take (Z.to_nat (Z.min frame.(fr_plane_count) WD_FRAME_MAX_PLANES)) frame.(fr_planes)) r
      | WD_FRAME_STORAGE_NONE => Some r
      end;
  Some (wd_frame_init, r).

Definition wd_frame_cpu_range_valid (size : ptr Z) (offset width height stride_bytes : Z) : bool :=
  match size with
  | NULL => false
  | Some size =>
      let row_bytes := width * 4 in
      if (width =? 0) || (height =? 0) || (row_bytes >? stride_bytes) then false
      else if (height >? 1) && (height - 1 >? (SIZE_MAX - row_bytes) / stride_bytes) then false
      else
        let bytes := (height - 1) * stride_bytes + row_bytes in
        (offset <=? size) && (bytes <=? u64 (size - offset))
  end.

(** [wd_buffer_size] of a frame's buffer; a buffer that is gone has none. *)
Definition buffer_size (buffer : ptr positive) (r : resources) : option (ptr Z) :=
  match buffer with
  | NULL => Some NULL
  | Some b => c ← r.(re_buffers) !! b; Some (Some (wd_buffer_size (Some c)))
  end.

Definition wd_frame_set_cpu_xrgb8888 (frame : wd_frame) (buffer : ptr positive)
    (offset width height stride_bytes fourcc pts_usec : Z) (r : resources) : option (wd_frame * resources * bool) :=
  size ← buffer_size buffer r;
  if negb (wd_frame_cpu_range_valid size offset width height stride_bytes) then Some (frame, r, false)
  else
    match buffer with
    | NULL => Some (frame, r, false)
    | Some b =>
        '(r, retained) ← retain_buffer b r;
        if negb retained then Some (frame, r, false)
        else
          '(frame, r) ← wd_frame_reset frame r;
          Some (frame <| fr_storage := WD_FRAME_STORAGE_CPU_XRGB8888 |> <| fr_width := width |>
                      <| fr_height := height |> <| fr_fourcc := fourcc |> <| fr_pts_usec := pts_usec |>
                      <| fr_buffer := Some b |> <| fr_offset := offset |> <| fr_stride_bytes := stride_bytes |>,
                r, true)
    end.

(** The loop over the planes; [duplicates] are the results of the system
    calls. *)
Fixpoint dup_planes (i : Z) (planes : list wd_frame_drm_plane) (duplicates : list Z) (temporary : wd_frame)
    (r : resources) : option (wd_frame * resources * bool) :=
  match planes with
  | [] => Some (temporary, r, true)
  | plane :: planes =>
      if (plane.(dp_fd) <? 0) || (plane.(dp_stride) =? 0) then
        '(temporary, r) ← wd_frame_reset temporary r; Some (temporary, r, false)
      else
        let '(fd, r) := wd_frame_dup_cloexec plane.(dp_fd) (hd (-1) duplicates) r in
        let temporary := temporary <| fr_planes := aset temporary.(fr_planes) i (plane <| dp_fd := fd |>) |> in
        if fd <? 0 then
          '(temporary, r) ← wd_frame_reset temporary r; Some (temporary, r, false)
        else dup_planes (i + 1) planes (tl duplicates) temporary r
  end.

Definition wd_frame_set_drm_prime_dup (frame : wd_frame) (width height fourcc pts_usec : Z)
    (planes : ptr (list wd_frame_drm_plane)) (plane_count : Z) (duplicates : list Z) (r : resources)
    : option (wd_frame * resources * bool) :=
  match planes with
  | NULL => Some (frame, r, false)
  | Some planes =>
      if (width =? 0) || (height =? 0) || (plane_count =? 0) || (plane_count >? WD_FRAME_MAX_PLANES)
      then Some (frame, r, false)
      else
        let temporary :=
          wd_frame_init <| fr_storage := WD_FRAME_STORAGE_DRM_PRIME |> <| fr_width := width |>
            <| fr_height := height |> <| fr_fourcc := fourcc |> <| fr_pts_usec := pts_usec |>
            <| fr_plane_count := plane_count |> in
        '(temporary, r, ok) ← dup_planes 0 (take (Z.to_nat plane_count) planes) duplicates temporary r;
        if negb ok then Some (frame, r, false)
        else '(_, r) ← wd_frame_reset frame r; Some (temporary, r, true)
  end.

Definition wd_frame_valid (frame : wd_frame) (r : resources) : option bool :=
  if (frame.(fr_width) =? 0) || (frame.(fr_height) =? 0) then Some false
  else
    match frame.(fr_storage) with
    | WD_FRAME_STORAGE_CPU_XRGB8888 =>
        size ← buffer_size frame.(fr_buffer) r;
        Some (wd_frame_cpu_range_valid size frame.(fr_offset) frame.(fr_width) frame.(fr_height)
                frame.(fr_stride_bytes))
    | WD_FRAME_STORAGE_DRM_PRIME =>
        Some (negb (frame.(fr_plane_count) =? 0) && (frame.(fr_plane_count) <=? WD_FRAME_MAX_PLANES) &&
              forallb (fun plane => (plane.(dp_fd) >=? 0) && negb (plane.(dp_stride) =? 0))
                (take (Z.to_nat frame.(fr_plane_count)) frame.(fr_planes)))
    | WD_FRAME_STORAGE_NONE => Some false
    end.

(** A clone of a frame into another one. *)
Definition wd_frame_clone (destination source : wd_frame) (duplicates : list Z) (r : resources)
    : option (wd_frame * resources * bool) :=
  valid ← wd_frame_valid source r;
  if negb valid then Some (destination, r, false)
  else
    match source.(fr_storage) with
    | WD_FRAME_STORAGE_CPU_XRGB8888 =>
        wd_frame_set_cpu_xrgb8888 destination source.(fr_buffer) source.(fr_offset) source.(fr_width)
          source.(fr_height) source.(fr_stride_bytes) source.(fr_fourcc) source.(fr_pts_usec) r
    | _ =>
        wd_frame_set_drm_prime_dup destination source.(fr_width) source.(fr_height) source.(fr_fourcc)
          source.(fr_pts_usec) (Some source.(fr_planes)) source.(fr_plane_count) duplicates r
    end.

(** The bytes from the frame's first pixel on. *)
Definition wd_frame_cpu_data (frame : wd_frame) (r : resources) : option (ptr (list Z)) :=
  match frame.(fr_storage) with
  | WD_FRAME_STORAGE_CPU_XRGB8888 =>
      valid ← wd_frame_valid frame r;
      if negb valid then Some NULL
      else
        match frame.(fr_buffer) with
        | NULL => Some NULL
        | Some b =>
            c ← r.(re_buffers) !! b;
            Some (drop (Z.to_nat frame.(fr_offset)) <$> wd_buffer_const_data (Some c))
        end
  | _ => Some NULL
  end.

(** ** Resource accounting *)

(** The descriptors and the buffer a frame answers for. *)
Definition held_planes (frame : wd_frame) : list wd_frame_drm_plane :=
  match frame.(fr_storage) with
  | WD_FRAME_STORAGE_DRM_PRIME =>
      take (Z.to_nat (Z.min frame.(fr_plane_count) WD_FRAME_MAX_PLANES)) frame.(fr_planes)
  | _ => []
  end.
Definition plane_fds (planes : list wd_frame_drm_plane) : list Z := filter (fun fd => 0 <= fd) (dp_fd <$> planes).
Definition held_fds (frame : wd_frame) : list Z := plane_fds (held_planes frame).
Definition held_buffer (frame : wd_frame) : ptr positive :=
  match frame.(fr_storage) with WD_FRAME_STORAGE_CPU_XRGB8888 => frame.(fr_buffer) | _ => NULL end.
Definition references (b : positive) (frames : list wd_frame) : Z :=
  zsum ((fun frame => Z.b2z (bool_decide (held_buffer frame = Some b))) <$> frames).

(** What the rest of the process holds: its descriptors, and for every buffer
    ever made its control block with the number of references held outside the
    frames, which may be none. *)
Record outside := mk_outside { ou_fds : gset Z; ou_buffers : gmap positive (wd_buffer unit) }.

Definition with_refs (n : Z) (c : wd_buffer unit) : wd_buffer unit :=
  mk_wd_buffer unit n c.(wb_data) c.(wb_size) c.(wb_capacity) c.(wb_release) c.(wb_inline_storage).

(** The buffers that are alive when the frames hold [n] references to each. *)
Definition live (n : positive -> Z) (buffers : gmap positive (wd_buffer unit)) (b : positive)
    : option (wd_buffer unit) :=
  c ← buffers !! b;
  let refs := c.(wb_refs) + n b in
  if refs =? 0 then None else Some (with_refs refs c).

Record balanced (o : outside) (frames : list wd_frame) (r : resources) : Prop := {
  bal_fds : r.(re_fds) = o.(ou_fds) ∪ list_to_set (frames ≫= held_fds);
  bal_disjoint : forall fd, fd ∈ frames ≫= held_fds -> fd ∉ o.(ou_fds);
  bal_unique : base.NoDup (frames ≫= held_fds);
  bal_live : forall b, r.(re_buffers) !! b = live (fun b => references b frames) o.(ou_buffers) b;
  bal_known : forall b, 0 < references b frames -> is_Some (o.(ou_buffers) !! b);
  bal_counts : forall b c, o.(ou_buffers) !! b = Some c ->
    0 <= c.(wb_refs) /\ c.(wb_refs) + references b frames <= UINT32_MAX;
}.

Lemma references_cons b frame frames :
  references b (frame :: frames) = Z.b2z (bool_decide (held_buffer frame = Some b)) + references b frames.
Proof. done. Qed.

Lemma references_nonneg b frames : 0 <= references b frames.
Proof. induction frames as [|f l IH]; [done |]. rewrite references_cons. destruct (bool_decide _); cbn [Z.b2z]; lia. Qed.

Lemma references_perm b frames frames' : frames ≡ₚ frames' -> references b frames = references b frames'.
Proof. induction 1; rewrite ?references_cons; lia. Qed.

Lemma balanced_perm o frames frames' r : frames ≡ₚ frames' -> balanced o frames r -> balanced o frames' r.
Proof.
  intros P [Hf Hd Hu Hl Hk Hc].
  assert (frames ≫= held_fds ≡ₚ frames' ≫= held_fds) as Pf by (by rewrite P).
  assert (forall b, references b frames = references b frames') as Pr by (intros; by apply references_perm).
  constructor.
  - rewrite Hf. apply leibniz_equiv. by rewrite Pf.
  - intros fd. rewrite <- Pf. apply Hd.
  - by rewrite <- Pf.
  - intros b. rewrite Hl. unfold live. by rewrite Pr.
  - intros b. rewrite <- Pr. apply Hk.
  - intros b c. rewrite <- Pr. apply Hc.
Qed.

(** A frame that holds nothing does not count. *)
Lemma balanced_idle o frame frames r :
  held_fds frame = [] -> held_buffer frame = NULL ->
  balanced o (frame :: frames) r <-> balanced o frames r.
Proof.
  intros Ef Eb.
  assert ((frame :: frames) ≫= held_fds = frames ≫= held_fds) as E by (cbn; by rewrite Ef).
  assert (forall b, references b (frame :: frames) = references b frames) as Er
    by (intros b; rewrite references_cons, Eb; done).
  split; intros [Hf Hd Hu Hl Hk Hc]; constructor;
    rewrite ?E in *; try done; intros b; rewrite ?Er in *; rewrite ?Hl; unfold live; rewrite ?Er;
    (try done); try (specialize (Hk b); by rewrite ?Er in * ); intros c Hb; specialize (Hc b c Hb);
    by rewrite ?Er in *.
Qed.

Lemma release_buffer_balanced o b c frames r :
  o.(ou_buffers) !! b = Some c -> 0 < c.(wb_refs) -> balanced o frames r ->
  exists r', release_buffer (Some b) r = Some r' /\
    balanced (mk_outside o.(ou_fds) (<[b := with_refs (c.(wb_refs) - 1) c]> o.(ou_buffers))) frames r'.
Proof.
  intros Hb Hpos [Hf Hd Hu Hl Hk Hc]. pose proof (references_nonneg b frames) as Hn.
  destruct (Hc b c Hb) as [_ Hmax].
  pose proof (Hl b) as Hlb. unfold live in Hlb. rewrite Hb in Hlb. cbn in Hlb.
  rewrite (proj2 (Z.eqb_neq _ 0)) in Hlb by lia.
  unfold release_buffer. rewrite Hlb. cbn [mbind option_bind].
  eexists. split; [reflexivity |].
  cbn [wd_buffer_release with_refs wb_refs wb_data wb_size wb_capacity wb_release wb_inline_storage].
  case_if; bool_cases.
  all: cbn [fst]; constructor; cbn [ou_fds ou_buffers re_fds re_buffers set_field]; [done | done | done | | |].
  all: try (intros b' Hb'; destruct (decide (b' = b)) as [->|]; [rewrite lookup_insert_eq; eauto
            | rewrite lookup_insert_ne by done; by apply Hk]).
  all: try (intros b' c'; destruct (decide (b' = b)) as [->|];
            [rewrite lookup_insert_eq; intros [= <-]; cbn [with_refs wb_refs]; mlia
            | rewrite lookup_insert_ne by done; apply Hc]).
  - intros b'. unfold live. destruct (decide (b' = b)) as [->|].
    + rewrite !lookup_insert_eq. cbn [mbind option_bind with_refs wb_refs].
      rewrite (proj2 (Z.eqb_neq _ 0)) by lia. unfold with_refs. rewrite u32_small by mlia. do 2 f_equal. cbn. lia.
    + rewrite !lookup_insert_ne by done. apply Hl.
  - intros b'. unfold live. destruct (decide (b' = b)) as [->|].
    + rewrite lookup_delete_eq, lookup_insert_eq. cbn [mbind option_bind with_refs wb_refs].
      rewrite (proj2 (Z.eqb_eq _ 0)); [done |]. lia.
    + rewrite lookup_delete_ne, lookup_insert_ne by done. apply Hl.
Qed.

Lemma plane_fds_app planes planes' : plane_fds (planes ++ planes') = plane_fds planes ++ plane_fds planes'.
Proof. unfold plane_fds. by rewrite fmap_app, list.filter_app. Qed.

Lemma plane_fds_cons plane planes :
  plane_fds (plane :: planes) = (if plane.(dp_fd) >=? 0 then [plane.(dp_fd)] else []) ++ plane_fds planes.
Proof. unfold plane_fds. rewrite fmap_cons, list.filter_cons. case_decide; case_if; bool_cases; (done || lia). Qed.

Lemma close_planes_spec planes r :
  base.NoDup (plane_fds planes) -> (forall fd, fd ∈ plane_fds planes -> fd ∈ r.(re_fds)) ->
  close_planes planes r = Some (r <| re_fds := r.(re_fds) ∖ list_to_set (plane_fds planes) |>).
Proof.
  unfold close_planes. revert r. induction planes as [|plane planes IH]; intros r Hu Hin.
  - cbn [fold_left]. change (list_to_set (plane_fds [])) with (∅ : gset Z).
    rewrite difference_empty_L. by destruct r.
  - cbn [fold_left mbind option_bind]. rewrite plane_fds_cons in *. unfold close_plane at 2.
    case_if; [| by apply IH]. cbn [app] in *. apply list.NoDup_cons in Hu as [Hnew Hu].
    unfold close_fd. rewrite bool_decide_eq_true_2 by (apply Hin; set_solver).
    cbn [mbind option_bind]. rewrite IH; [| done |].
    + cbn [list_to_set]. destruct r as [fds buffers]. f_equal.
      change (mk_resources (fds ∖ {[dp_fd plane]} ∖ list_to_set (plane_fds planes)) buffers =
              mk_resources (fds ∖ ({[dp_fd plane]} ∪ list_to_set (plane_fds planes))) buffers).
      f_equal. set_solver.
    + cbn [set_field re_fds]. intros fd Hfd. specialize (Hin fd). set_solver.
Qed.

(** A reference, or descriptors, pass between a frame and its surroundings. *)
Definition more_refs (n : Z) (b : positive) (c : wd_buffer unit) (o : outside) : outside :=
  mk_outside o.(ou_fds) (<[b := with_refs (c.(wb_refs) + n) c]> o.(ou_buffers)).

Lemma hand_over_buffer o b c frame frames r :
  held_fds frame = [] -> held_buffer frame = Some b -> o.(ou_buffers) !! b = Some c ->
  balanced o (frame :: frames) r <-> (balanced (more_refs 1 b c o) frames r /\ 0 <= c.(wb_refs)).
Proof.
  intros Ef Eb Hc.
  assert ((frame :: frames) ≫= held_fds = frames ≫= held_fds) as E by (cbn; by rewrite Ef).
  assert (forall b', references b' (frame :: frames) = references b' frames + Z.b2z (bool_decide (b' = b))) as Er.
  { intros b'. rewrite references_cons, Eb. rewrite Z.add_comm. do 2 f_equal.
    apply bool_decide_ext. split; congruence. }
  assert (forall b', live (fun b => references b (frame :: frames)) o.(ou_buffers) b' =
                     live (fun b => references b frames) (more_refs 1 b c o).(ou_buffers) b') as El.
  { intros b'. unfold live, more_refs. cbn [ou_buffers]. rewrite Er. destruct (decide (b' = b)) as [->|].
    - rewrite Hc, lookup_insert_eq, bool_decide_eq_true_2 by done. cbn [mbind option_bind with_refs wb_refs Z.b2z].
      replace (wb_refs c + (references b frames + 1)) with (wb_refs c + 1 + references b frames) by lia. done.
    - rewrite lookup_insert_ne, bool_decide_eq_false_2 by done. cbn [Z.b2z]. by rewrite Z.add_0_r. }
  split.
  - intros [Hf Hd Hu Hl Hk Hn]. rewrite E in *. destruct (Hn b c Hc) as [Hpos Hmax]. rewrite Er in Hmax.
    rewrite bool_decide_eq_true_2 in Hmax by done. cbn [Z.b2z] in Hmax.
    split; [| done]. constructor; unfold more_refs; cbn [ou_fds ou_buffers]; [done | done | done | | |].
    + intros b'. by rewrite Hl, El.
    + intros b' Hb'. destruct (decide (b' = b)) as [->|]; [rewrite lookup_insert_eq; eauto |].
      rewrite lookup_insert_ne by done. apply Hk. rewrite Er. destruct (bool_decide _); cbn [Z.b2z]; lia.
    + intros b' c'. destruct (decide (b' = b)) as [->|]; [rewrite lookup_insert_eq | rewrite lookup_insert_ne by done].
      * intros [= <-]. cbn [with_refs wb_refs]. lia.
      * intros Hb'. specialize (Hn b' c' Hb'). rewrite Er, bool_decide_eq_false_2 in Hn by done. cbn [Z.b2z] in Hn. lia.
  - intros [[Hf Hd Hu Hl Hk Hn] Hpos]. unfold more_refs in Hf, Hd, Hk, Hn. cbn [ou_fds ou_buffers] in *.
    constructor; rewrite ?E; [done | done | done | | |].
    + intros b'. by rewrite Hl, El.
    + intros b' Hb'. destruct (decide (b' = b)) as [->|]; [eauto |].
      specialize (Hk b'). rewrite lookup_insert_ne in Hk by done. apply Hk.
      rewrite Er, bool_decide_eq_false_2 in Hb' by done. cbn [Z.b2z] in Hb'. lia.
    + intros b' c' Hb'. rewrite Er. destruct (decide (b' = b)) as [->|].
      * simplify_eq. specialize (Hn b (with_refs (wb_refs c + 1) c) (lookup_insert_eq _ _ _)).
        cbn [with_refs wb_refs] in Hn. rewrite bool_decide_eq_true_2 by done. cbn [Z.b2z]. lia.
      * rewrite bool_decide_eq_false_2 by done. cbn [Z.b2z]. specialize (Hn b' c').
        rewrite lookup_insert_ne in Hn by done. specialize (Hn Hb'). lia.
Qed.

Lemma more_refs_inv b c o :
  o.(ou_buffers) !! b = Some c ->
  mk_outside o.(ou_fds) (<[b := with_refs (wb_refs (with_refs (c.(wb_refs) + 1) c) - 1) (with_refs (c.(wb_refs) + 1) c)]>
    (more_refs 1 b c o).(ou_buffers)) = o.
Proof.
  intros Hc. destruct o as [fds buffers], c as [refs ? ? ? ? ?]. unfold more_refs, with_refs in *. cbn in *. f_equal.
  rewrite insert_insert_eq. rewrite Z.add_simpl_r. by apply insert_id.
Qed.

Lemma reset_balanced o frame frames r :
  balanced o (frame :: frames) r ->
  exists r', wd_frame_reset frame r = Some (wd_frame_init, r') /\ balanced o frames r'.
Proof.
  intros Hbal. unfold wd_frame_reset.
  destruct frame as [[] width height fourcc pts buffer offset stride count planes];
    cbn [fr_storage fr_buffer fr_plane_count fr_planes] in *.
  - exists r. split; [done |]. by apply (balanced_idle o _ frames r) in Hbal.
  - destruct buffer as [b|].
    + destruct (bal_known _ _ _ Hbal b) as [c Hc].
      { rewrite references_cons, bool_decide_eq_true_2 by done. pose proof (references_nonneg b frames). cbn [Z.b2z]. lia. }
      eapply (hand_over_buffer o b c) in Hbal as [Hbal' Hpos]; [| done | done | done].
      destruct (release_buffer_balanced (more_refs 1 b c o) b (with_refs (c.(wb_refs) + 1) c) frames r) as (r' & E & Hb').
      * unfold more_refs. cbn [ou_buffers]. apply lookup_insert_eq.
      * cbn [with_refs wb_refs]. lia.
      * done.
      * exists r'. rewrite E. split; [done |]. pose proof (more_refs_inv b c o Hc) as Hi.
        unfold more_refs in Hb', Hi. cbn [ou_fds ou_buffers] in Hb', Hi. by rewrite Hi in Hb'.
    + exists r. split; [done |]. by apply (balanced_idle o _ frames r) in Hbal.
  - set (held := take _ planes). destruct Hbal as [Hf Hd Hu Hl Hk Hn].
    rewrite bind_cons in Hf, Hd, Hu.
    change (held_fds (mk_wd_frame WD_FRAME_STORAGE_DRM_PRIME width height fourcc pts buffer offset stride count planes))
      with (plane_fds held) in Hf, Hd, Hu.
    apply list.NoDup_app in Hu as (Hu1 & Hdis & Hu2).
    rewrite close_planes_spec; [| done | intros fd Hfd; rewrite Hf; set_solver].
    eexists. split; [reflexivity |].
    constructor; cbn [re_fds re_buffers set_field]; try done.
    + rewrite Hf. apply leibniz_equiv. intros fd.
      specialize (Hd fd). specialize (Hdis fd). rewrite elem_of_app in Hd.
      rewrite elem_of_difference, !elem_of_union, !elem_of_list_to_set, elem_of_app. tauto.
    + intros fd Hfd. apply Hd. set_solver.
Qed.

(** ** Every operation keeps the accounts balanced *)

Definition alive (b : positive) (o : outside) (frames : list wd_frame) : Prop :=
  exists c, o.(ou_buffers) !! b = Some c /\ 0 < c.(wb_refs) + references b frames.

Lemma alive_lookup b o frames r :
  alive b o frames -> balanced o frames r ->
  exists c, o.(ou_buffers) !! b = Some c /\ 0 <= c.(wb_refs) /\
    0 < c.(wb_refs) + references b frames <= UINT32_MAX /\
    r.(re_buffers) !! b = Some (with_refs (c.(wb_refs) + references b frames) c).
Proof.
  intros (c & Hc & Hpos) Hbal. destruct (bal_counts _ _ _ Hbal b c Hc). exists c. split_and!; try done; try lia.
  rewrite (bal_live _ _ _ Hbal). unfold live. rewrite Hc. cbn [mbind option_bind].
  by rewrite (proj2 (Z.eqb_neq _ 0)) by lia.
Qed.

Lemma retain_balanced b o frames r :
  alive b o frames -> balanced o frames r ->
  exists r' ok, retain_buffer b r = Some (r', ok) /\
    if ok then exists c, o.(ou_buffers) !! b = Some c /\ 0 <= c.(wb_refs) /\ balanced (more_refs 1 b c o) frames r'
    else r' = r.
Proof.
  intros Ha Hbal. destruct (alive_lookup b o frames r Ha Hbal) as (c & Hc & Hnn & Hn & Hl).
  unfold retain_buffer. rewrite Hl. cbn [mbind option_bind wd_buffer_retain with_refs wb_refs].
  rewrite (proj2 (Z.eqb_neq _ 0)) by lia. cbn [orb]. case_if; bool_cases; [by exists r, false |].
  eexists _, true. split; [reflexivity |]. exists c. split_and!; [done | done |].
  destruct Hbal as [Hf Hd Hu Hlv Hk Hcn].
  constructor; unfold more_refs; cbn [ou_fds ou_buffers re_fds re_buffers set_field]; [done | done | done | | |].
  - intros b'. unfold live. destruct (decide (b' = b)) as [->|].
    + rewrite !lookup_insert_eq. cbn [mbind option_bind with_refs wb_refs].
      rewrite (proj2 (Z.eqb_neq _ 0)) by lia. unfold with_refs. do 2 f_equal. lia.
    + rewrite !lookup_insert_ne by done. apply Hlv.
  - intros b' Hb'. destruct (decide (b' = b)) as [->|]; [rewrite lookup_insert_eq; eauto |].
    rewrite lookup_insert_ne by done. by apply Hk.
  - intros b' c'. destruct (decide (b' = b)) as [->|]; [rewrite lookup_insert_eq | rewrite lookup_insert_ne by done; apply Hcn].
    intros [= <-]. cbn [with_refs wb_refs]. mlia.
Qed.

(** What an operation does to the frame [frame] among [frames]. *)
Definition op_balanced (o : outside) (frames : list wd_frame) (result : option (wd_frame * resources * bool)) : Prop :=
  exists frame' r' ok, result = Some (frame', r', ok) /\ balanced o (frame' :: frames) r'.

Lemma set_cpu_balanced o frame frames b offset width height stride fourcc pts r :
  alive b o (frame :: frames) -> balanced o (frame :: frames) r ->
  op_balanced o frames (wd_frame_set_cpu_xrgb8888 frame (Some b) offset width height stride fourcc pts r).
Proof.
  intros Ha Hbal. destruct (alive_lookup b o _ r Ha Hbal) as (c & _ & _ & _ & Hl).
  unfold wd_frame_set_cpu_xrgb8888, buffer_size. rewrite Hl. cbn [mbind option_bind].
  case_if; [by exists frame, r, false |].
  destruct (retain_balanced b o _ r Ha Hbal) as (r' & ok & Er & Hok). rewrite Er. cbn [mbind option_bind].
  destruct ok; cbn [negb]; [| subst r'; by exists frame, r, false].
  destruct Hok as (c' & Hc' & Hnn & Hbal').
  destruct (reset_balanced _ _ _ _ Hbal') as (r'' & Er' & Hbal''). rewrite Er'. cbn [mbind option_bind].
  eexists _, r'', true. split; [reflexivity |]. by apply (hand_over_buffer o b c').
Qed.

Definition fresh (duplicates : list Z) (r : resources) : Prop :=
  base.NoDup (filter (fun fd => 0 <= fd) duplicates) /\
  Forall (fun fd => 0 <= fd -> fd ∉ r.(re_fds)) duplicates.

Definition opened (fd : Z) : list Z := if fd >=? 0 then [fd] else [].

Lemma plane_fds_insert planes i plane old :
  planes !! i = Some old -> old.(dp_fd) < 0 ->
  plane_fds (<[i := plane]> planes) ≡ₚ opened plane.(dp_fd) ++ plane_fds planes.
Proof.
  intros Hi Hold. rewrite <- (take_drop_middle planes i old Hi) at 2.
  rewrite insert_take_drop by (by eapply lookup_lt_Some).
  rewrite !plane_fds_app, !plane_fds_cons. fold (opened (dp_fd plane)).
  destruct (Z.geb_spec (dp_fd old) 0); [lia |]. cbn [app]. by rewrite Permutation_app_swap_app.
Qed.

(** The temporary frame after the planes before [i] have been duplicated. *)
Definition filling (i : Z) (temporary : wd_frame) : Prop :=
  temporary.(fr_storage) = WD_FRAME_STORAGE_DRM_PRIME /\ temporary.(fr_plane_count) <= WD_FRAME_MAX_PLANES /\
  length temporary.(fr_planes) = 4%nat /\
  forall j, i <= j < 4 -> (aget no_plane temporary.(fr_planes) j).(dp_fd) < 0.

Lemma filling_step i fd plane temporary :
  0 <= i < temporary.(fr_plane_count) -> filling i temporary ->
  let temporary' := temporary <| fr_planes := aset temporary.(fr_planes) i (plane <| dp_fd := fd |>) |> in
  filling (i + 1) temporary' /\ held_fds temporary' ≡ₚ opened fd ++ held_fds temporary /\
  held_buffer temporary' = NULL /\ held_buffer temporary = NULL.
Proof.
  intros Hi (Hs & Hc & Hlen & Hfree) temporary'.
  destruct temporary as [storage width height fourcc pts buffer offset stride count planes].
  cbn [fr_storage fr_plane_count fr_planes] in *. subst storage. unfold WD_FRAME_MAX_PLANES in *.
  split_and!; [| | done | done].
  - unfold filling, temporary'. cbn [fr_storage fr_plane_count fr_planes set_field]. split_and!; [done | done | |].
    + unfold aset. by rewrite length_insert.
    + intros j Hj. rewrite aget_aset_ne by lia. apply Hfree. lia.
  - unfold held_fds, held_planes, temporary'. cbn [fr_storage fr_plane_count fr_planes set_field].
    unfold WD_FRAME_MAX_PLANES. rewrite Z.min_l by lia. unfold aset. rewrite take_insert_lt by lia.
    specialize (Hfree i ltac:(lia)). unfold aget in Hfree. rewrite nth_lookup in Hfree.
    destruct (planes !! Z.to_nat i) as [old|] eqn:El; [| apply lookup_ge_None in El; lia].
    refine (plane_fds_insert _ _ (plane <| dp_fd := fd |>) old _ _); [by rewrite lookup_take_lt by lia | done].
Qed.

(** Newly opened descriptors become a frame's. *)
Lemma balanced_open o frame frame' frames fds r :
  held_fds frame' ≡ₚ fds ++ held_fds frame -> held_buffer frame' = held_buffer frame ->
  base.NoDup fds -> (forall fd, fd ∈ fds -> fd ∉ r.(re_fds)) -> balanced o (frame :: frames) r ->
  balanced o (frame' :: frames) (r <| re_fds := list_to_set fds ∪ r.(re_fds) |>).
Proof.
  intros Ef Eb Hnd Hnew [Hf Hd Hu Hl Hk Hc].
  assert ((frame' :: frames) ≫= held_fds ≡ₚ fds ++ ((frame :: frames) ≫= held_fds)) as P
    by (by rewrite !bind_cons, Ef, app_assoc).
  assert (forall b, references b (frame' :: frames) = references b (frame :: frames)) as Er
    by (intros b; by rewrite !references_cons, Eb).
  rewrite Hf in Hnew.
  constructor; cbn [re_fds re_buffers set_field].
  - rewrite Hf. apply leibniz_equiv. rewrite P. rewrite list_to_set_app. set_solver.
  - intros fd'. rewrite P. intros [Hin|Hin]%elem_of_app; [specialize (Hnew _ Hin); set_solver | by apply Hd].
  - rewrite P. apply list.NoDup_app. split_and!; [done | | done]. intros fd' Hin. specialize (Hnew _ Hin). set_solver.
  - intros b. rewrite Hl. unfold live. by rewrite Er.
  - intros b. rewrite Er. apply Hk.
  - intros b c. rewrite Er. apply Hc.
Qed.

Lemma fresh_step fd duplicates r :
  0 <= fd -> fresh (fd :: duplicates) r ->
  fd ∉ r.(re_fds) /\ fresh duplicates (r <| re_fds := {[fd]} ∪ r.(re_fds) |>).
Proof.
  intros Hfd [Hu Hn]. rewrite list.filter_cons in Hu. case_decide; [| lia].
  apply list.NoDup_cons in Hu as [Hnew Hu]. apply list.Forall_cons in Hn as [Hfd' Hn].
  split; [by apply Hfd' |]. split; [done |]. rewrite list.Forall_forall in *.
  cbn [re_fds set_field]. intros fd' Hin Hpos. apply not_elem_of_union. split; [| by apply Hn].
  intros ->%elem_of_singleton. apply Hnew. by apply list_elem_of_filter.
Qed.

Lemma dup_planes_balanced o frames planes :
  forall i duplicates temporary r,
  0 <= i -> (planes <> [] -> i + zlen planes <= temporary.(fr_plane_count)) -> filling i temporary -> fresh duplicates r ->
  balanced o (temporary :: frames) r ->
  exists temporary' r' ok, dup_planes i planes duplicates temporary r = Some (temporary', r', ok) /\
    balanced o (if ok : bool then temporary' :: frames else frames) r'.
Proof.
  induction planes as [|plane planes IH]; intros i duplicates temporary r Hi Hn Hfill Hfresh Hbal; cbn [dup_planes].
  { by eexists _, _, true. }
  specialize (Hn ltac:(done)). rewrite zlen_cons in Hn. pose proof (zlen_nonneg planes).
  case_if; bool_cases.
  { destruct (reset_balanced _ _ _ _ Hbal) as (r' & Er & Hbal'). rewrite Er. by eexists _, r', false. }
  unfold wd_frame_dup_cloexec. destruct (Z.ltb_spec (dp_fd plane) 0); [lia |].
  set (fd := hd (-1) duplicates). destruct (filling_step i fd plane temporary) as (Hfill' & Hh & Hb' & Hb); [lia | done |].
  set (temporary' := temporary <| fr_planes := _ |>) in *. unfold opened in Hh.
  destruct (Z.ltb_spec fd 0) as [Hneg|Hpos]; cbv iota zeta.
  - rewrite (proj2 (Z.ltb_lt _ _)) by done. destruct (Z.geb_spec fd 0); [lia |].
    apply (balanced_open o temporary temporary' frames []) in Hbal; [| done | congruence | constructor | set_solver].
    cbn [list_to_set] in Hbal. rewrite union_empty_l_L in Hbal.
    destruct (reset_balanced _ _ _ _ Hbal) as (r' & Er & Hbal').
    replace (r <| re_fds := re_fds r |>) with r in Er by (by destruct r).
    fold temporary'. rewrite Er. by eexists _, r', false.
  - rewrite (proj2 (Z.ltb_ge _ _)) by done. destruct (Z.geb_spec fd 0); [| lia].
    destruct duplicates as [|fd' duplicates]; [unfold fd in Hpos; cbn in Hpos; lia |].
    destruct (fresh_step fd duplicates r Hpos Hfresh) as [Hnew Hfresh'].
    fold temporary'. cbn [tl]. apply IH; [lia | | done | done |].
    + change (fr_plane_count temporary') with (fr_plane_count temporary). lia.
    + apply (balanced_open o temporary temporary' frames [fd]) in Hbal; [| done | congruence | | ].
      * cbn [list_to_set] in Hbal. by rewrite union_empty_r_L in Hbal.
      * apply NoDup_singleton.
      * intros ? ->%list_elem_of_singleton. done.
Qed.

Lemma set_drm_balanced o frame frames width height fourcc pts planes count duplicates r :
  fresh duplicates r -> balanced o (frame :: frames) r ->
  op_balanced o frames (wd_frame_set_drm_prime_dup frame width height fourcc pts planes count duplicates r).
Proof.
  intros Hfresh Hbal. unfold wd_frame_set_drm_prime_dup.
  destruct planes as [planes|]; [| by exists frame, r, false].
  case_if; bool_cases; [by exists frame, r, false |].
  set (temporary := wd_frame_init <| fr_storage := _ |> <| fr_width := _ |> <| fr_height := _ |>
    <| fr_fourcc := _ |> <| fr_pts_usec := _ |> <| fr_plane_count := _ |>).
  assert (held_fds temporary = []) as Hh.
  { unfold temporary, held_fds, held_planes. cbn [fr_storage fr_plane_count fr_planes set_field wd_frame_init].
    generalize (Z.to_nat (Z.min count WD_FRAME_MAX_PLANES)). by intros [|[|[|[|[|?]]]]]. }
  destruct (dup_planes_balanced o (frame :: frames) (take (Z.to_nat count) planes) 0 duplicates temporary r)
    as (temporary' & r' & ok & Ed & Hbal').
  - lia.
  - change (fr_plane_count temporary) with count. unfold zlen. rewrite length_take.
    destruct (Z.to_nat count) eqn:Ec; [done | lia].
  - unfold filling, temporary. cbn [fr_storage fr_plane_count fr_planes set_field wd_frame_init]. split_and!; [done | done | done |].
    intros j Hj. change (dp_fd (aget no_plane (replicate 4 no_plane) j) < 0). by rewrite aget_replicate.
  - done.
  - by apply balanced_idle.
  - rewrite Ed. cbn [mbind option_bind]. destruct ok; cbn [negb]; [| by exists frame, r', false].
    apply (balanced_perm _ _ (frame :: temporary' :: frames)) in Hbal'; [| apply perm_swap].
    destruct (reset_balanced _ _ _ _ Hbal') as (r'' & Er & Hbal''). rewrite Er. cbn [mbind option_bind].
    by exists temporary', r'', true.
Qed.

Lemma held_alive b o frame frames r :
  held_buffer frame = Some b -> frame ∈ frames -> balanced o frames r -> alive b o frames.
Proof.
  intros Hh Hin Hbal. apply elem_of_Permutation in Hin as [frames' P].
  assert (0 < references b frames) as Hpos.
  { rewrite (references_perm b _ _ P), references_cons, bool_decide_eq_true_2 by done.
    pose proof (references_nonneg b frames'). cbn [Z.b2z]. lia. }
  destruct (bal_known _ _ _ Hbal b Hpos) as [c Hc]. destruct (bal_counts _ _ _ Hbal b c Hc).
  exists c. split; [done | lia].
Qed.

Lemma clone_balanced o destination source frames duplicates r :
  source ∈ frames -> fresh duplicates r -> balanced o (destination :: frames) r ->
  op_balanced o frames (wd_frame_clone destination source duplicates r).
Proof.
  intros Hin Hfresh Hbal. unfold wd_frame_clone, wd_frame_valid.
  case_if; [by exists destination, r, false |].
  destruct (fr_storage source) eqn:Es; cbn [mbind option_bind]; [by exists destination, r, false | |].
  - destruct (fr_buffer source) as [b|] eqn:Eb; cbn [mbind option_bind buffer_size wd_frame_cpu_range_valid negb];
      [| by exists destination, r, false].
    assert (alive b o (destination :: frames)) as Ha.
    { apply (held_alive b o source _ r); [unfold held_buffer; by rewrite Es | set_solver | done]. }
    destruct (alive_lookup b o _ r Ha Hbal) as (c & _ & _ & _ & Hl). rewrite Hl. cbn [mbind option_bind].
    case_if; [by exists destination, r, false |]. by apply set_cpu_balanced.
  - case_if; [by exists destination, r, false |]. by apply set_drm_balanced.
Qed.

(** ** A process with several frames *)

Inductive frame_op :=
  | Reset (i : nat)
  | SetCpu (i : nat) (buffer : positive) (offset width height stride_bytes fourcc pts_usec : Z)
  | SetDrm (i : nat) (width height fourcc pts_usec : Z) (planes : ptr (list wd_frame_drm_plane)) (plane_count : Z)
      (duplicates : list Z)
  | Clone (destination source : nat) (duplicates : list Z)
  | DropBuffer (buffer : positive).

Record process := mk_process { pr_outside : outside; pr_frames : list wd_frame; pr_resources : resources }.

Definition set_frame (p : process) (i : nat) (result : option (wd_frame * resources * bool)) : option process :=
  '(frame, r, _) ← result; Some (mk_process p.(pr_outside) (<[i := frame]> p.(pr_frames)) r).

Definition frame_step (op : frame_op) (p : process) : option process :=
  let r := p.(pr_resources) in
  match op with
  | Reset i =>
      frame ← p.(pr_frames) !! i;
      '(frame, r) ← wd_frame_reset frame r; set_frame p i (Some (frame, r, true))
  | SetCpu i b offset width height stride fourcc pts =>
      frame ← p.(pr_frames) !! i;
      set_frame p i (wd_frame_set_cpu_xrgb8888 frame (Some b) offset width height stride fourcc pts r)
  | SetDrm i width height fourcc pts planes count duplicates =>
      frame ← p.(pr_frames) !! i;
      set_frame p i (wd_frame_set_drm_prime_dup frame width height fourcc pts planes count duplicates r)
  | Clone i j duplicates =>
      destination ← p.(pr_frames) !! i; source ← p.(pr_frames) !! j;
      set_frame p i (wd_frame_clone destination source duplicates r)
  | DropBuffer b =>
      c ← p.(pr_outside).(ou_buffers) !! b;
      r ← release_buffer (Some b) r;
      Some (mk_process (more_refs (-1) b c p.(pr_outside)) p.(pr_frames) r)
  end.

(** The callers' side: frames exist, a buffer passed in is referenced by the
    caller, only references that are held are dropped, the system hands out
    descriptors that are not open. *)
Definition referenced (b : positive) (o : outside) : bool :=
  match o.(ou_buffers) !! b with Some c => 0 <? c.(wb_refs) | None => false end.

Definition frame_op_allowed (op : frame_op) (p : process) : bool :=
  let is_frame i := (i <? length p.(pr_frames))%nat in
  match op with
  | Reset i => is_frame i
  | SetCpu i b _ _ _ _ _ _ => is_frame i && referenced b p.(pr_outside)
  | SetDrm i _ _ _ _ _ _ duplicates => is_frame i && bool_decide (fresh duplicates p.(pr_resources))
  | Clone i j duplicates =>
      is_frame i && is_frame j && negb (i =? j)%nat && bool_decide (fresh duplicates p.(pr_resources))
  | DropBuffer b => referenced b p.(pr_outside)
  end.

Fixpoint run_frames (ops : list frame_op) (p : process) : option process :=
  match ops with
  | [] => Some p
  | op :: ops => p ← frame_step op p; run_frames ops p
  end.

Fixpoint frame_ops_allowed (ops : list frame_op) (p : process) : bool :=
  match ops with
  | [] => true
  | op :: ops =>
      frame_op_allowed op p &&
      match frame_step op p with Some p => frame_ops_allowed ops p | None => true end
  end.

Definition process_ok (p : process) : Prop := balanced p.(pr_outside) p.(pr_frames) p.(pr_resources).

Lemma set_frame_ok p i frame result :
  process_ok p -> p.(pr_frames) !! i = Some frame ->
  (balanced p.(pr_outside) (frame :: base.delete i p.(pr_frames)) p.(pr_resources) ->
   op_balanced p.(pr_outside) (base.delete i p.(pr_frames)) result) ->
  exists p', set_frame p i result = Some p' /\ process_ok p'.
Proof.
  intros Hok Hi Hop. destruct Hop as (frame' & r' & ok & -> & Hbal).
  { eapply balanced_perm; [| exact Hok]. by apply delete_Permutation. }
  eexists. split; [reflexivity |]. unfold process_ok. cbn [pr_outside pr_frames pr_resources].
  eapply balanced_perm; [| exact Hbal]. symmetry.
  rewrite (delete_Permutation (<[i := frame']> (pr_frames p)) i frame')
    by (apply list_lookup_insert_eq; by eapply lookup_lt_Some).
  f_equiv. rewrite !delete_take_drop, take_insert_ge, drop_insert_lt by lia. done.
Qed.

Lemma referenced_spec b o :
  referenced b o = true -> exists c, o.(ou_buffers) !! b = Some c /\ 0 < c.(wb_refs).
Proof. unfold referenced. destruct (_ !! b) as [c|]; [| done]. intros H. bool_cases. eauto. Qed.

Lemma frame_step_ok op p :
  process_ok p -> frame_op_allowed op p = true -> exists p', frame_step op p = Some p' /\ process_ok p'.
Proof.
  intros Hok Hall. destruct op as [i | i b | i | i j duplicates | b]; cbn [frame_op_allowed frame_step] in *;
    repeat setoid_rewrite andb_true_iff in Hall; rewrite ?negb_true_iff, ?Nat.ltb_lt, ?Nat.eqb_neq, ?bool_decide_eq_true in Hall.
  - rename Hall into Hi. destruct (lookup_lt_is_Some_2 _ _ Hi) as [frame Ef]. rewrite Ef. cbn [mbind option_bind].
    destruct (reset_balanced (pr_outside p) frame (base.delete i (pr_frames p)) (pr_resources p)) as (r' & Er & Hb).
    { eapply balanced_perm; [| exact Hok]. by apply delete_Permutation. }
    rewrite Er. cbn [mbind option_bind]. apply (set_frame_ok p i frame); [done | done |]. intros _.
    eexists _, r', true. split; [reflexivity |]. by apply balanced_idle.
  - destruct Hall as [Hi (c & Hc & Hpos)%referenced_spec]. destruct (lookup_lt_is_Some_2 _ _ Hi) as [frame Ef]. rewrite Ef. cbn [mbind option_bind].
    apply (set_frame_ok p i frame); [done | done |]. intros Hb. apply set_cpu_balanced; [| done].
    exists c. split; [done |]. pose proof (references_nonneg b (frame :: base.delete i (pr_frames p))). lia.
  - destruct Hall as [Hi Hfresh]. destruct (lookup_lt_is_Some_2 _ _ Hi) as [frame Ef]. rewrite Ef. cbn [mbind option_bind].
    apply (set_frame_ok p i frame); [done | done |]. intros Hb. by apply set_drm_balanced.
  - destruct Hall as (((Hi & Hj) & Hne) & Hfresh). destruct (lookup_lt_is_Some_2 _ _ Hi) as [frame Ef].
    destruct (lookup_lt_is_Some_2 _ _ Hj) as [source Es]. rewrite Ef, Es. cbn [mbind option_bind].
    apply (set_frame_ok p i frame); [done | done |]. intros Hb. apply clone_balanced; [| done | done].
    pose proof (delete_Permutation _ _ _ Ef) as P. apply list_elem_of_lookup_2 in Es as Hin.
    destruct (Nat.lt_ge_cases j i).
    + apply list_elem_of_lookup_2 with (i := j). by rewrite list_lookup_delete_lt.
    + apply list_elem_of_lookup_2 with (i := (j - 1)%nat). rewrite list_lookup_delete_ge by lia.
      by replace (S (j - 1)) with j by lia.
  - apply referenced_spec in Hall as (c & Hc & Hpos). rewrite Hc. cbn [mbind option_bind].
    destruct (release_buffer_balanced (pr_outside p) b c _ _ Hc Hpos Hok) as (r' & Er & Hb).
    rewrite Er. eexists. split; [reflexivity |]. exact Hb.
Qed.

Lemma run_frames_ok ops p :
  process_ok p -> frame_ops_allowed ops p = true -> exists p', run_frames ops p = Some p' /\ process_ok p'.
Proof.
  revert p. induction ops as [|op ops IH]; intros p Hok Hall; [by exists p |]. cbn [frame_ops_allowed] in Hall.
  apply andb_true_iff in Hall as [Hop Hops].
  destruct (frame_step_ok op p Hok Hop) as (p' & Es & Hok'). cbn [run_frames]. rewrite Es in *. cbn [mbind option_bind]. by apply IH.
Qed.

(** Every frame reset, as at the end of the frames' lives. *)
Definition reset_all (frames : list wd_frame) (r : resources) : option resources :=
  fold_left (fun r frame => r ← r; '(_, r) ← wd_frame_reset frame r; Some r) frames (Some r).

Lemma reset_all_ok o frames r :
  balanced o frames r -> exists r', reset_all frames r = Some r' /\ balanced o [] r'.
Proof.
  unfold reset_all. revert r. induction frames as [|frame frames IH]; intros r Hb; [by exists r |].
  destruct (reset_balanced _ _ _ _ Hb) as (r' & Er & Hb'). cbn [fold_left mbind option_bind]. rewrite Er.
  by apply IH.
Qed.

(** C32: frames neither lose nor over-release what they hold.  From a process
    whose open descriptors and reference counts are those of the rest of the
    process and of its frames, every admissible sequence of set, duplicate,
    clone and reset operations, also the ones that fail halfway, and of drops of
    references held elsewhere, runs to its end without closing a descriptor that
    is not open or touching a buffer that is gone, and when the frames are reset
    the open descriptors are exactly those of the rest of the process, and a
    buffer is alive exactly if the rest of the process references it, with that
    many references. *)
Theorem frame_resources_balanced ops p :
  process_ok p -> frame_ops_allowed ops p = true ->
  exists p' r,
    run_frames ops p = Some p' /\ reset_all p'.(pr_frames) p'.(pr_resources) = Some r /\
    p'.(pr_outside).(ou_fds) = p.(pr_outside).(ou_fds) /\
    r.(re_fds) = p.(pr_outside).(ou_fds) /\
    forall b, r.(re_buffers) !! b =
      (c ← p'.(pr_outside).(ou_buffers) !! b; if c.(wb_refs) =? 0 then None else Some c).
Proof.
  intros Hok Hall. destruct (run_frames_ok ops p Hok Hall) as (p' & Erun & Hok').
  destruct (reset_all_ok _ _ _ Hok') as (r & Er & Hb). exists p', r.
  assert (p'.(pr_outside).(ou_fds) = p.(pr_outside).(ou_fds)) as Efds.
  { clear - Erun. revert p Erun. induction ops as [|op ops IH]; intros p; cbn [run_frames]; [congruence |].
    destruct (frame_step op p) as [p1|] eqn:Es; cbn [mbind option_bind]; [| done]. intros E.
    rewrite (IH _ E). destruct op; cbn [frame_step] in Es; unfold set_frame in Es;
    repeat (case_match || (apply bind_Some in Es as (? & ? & Es))); simplify_eq/=; done. }
  split_and!; [done | done | done | |].
  - rewrite <- Efds, (bal_fds _ _ _ Hb). cbn. set_solver.
  - intros b. rewrite (bal_live _ _ _ Hb). unfold live. destruct (ou_buffers _ !! b) as [c|]; [| done].
    cbn [mbind option_bind]. change (references b []) with 0. rewrite Z.add_0_r. case_if; [done |]. by destruct c.
Qed.

Lemma process_start_ok o n :
  map_Forall (fun _ c => 0 < c.(wb_refs) <= UINT32_MAX) o.(ou_buffers) ->
  process_ok (mk_process o (replicate n wd_frame_init) (mk_resources o.(ou_fds) o.(ou_buffers))).
Proof.
  intros Hrefs. unfold process_ok. cbn [pr_outside pr_frames pr_resources].
  induction n as [|n IH]; cbn [replicate]; [| by apply balanced_idle].
  constructor; cbn [re_fds re_buffers mbind list_bind].
  - set_solver.
  - set_solver.
  - constructor.
  - intros b. unfold live. change (references b []) with 0. destruct (_ !! b) as [c|] eqn:Hc; [| done].
    cbn [mbind option_bind]. specialize (Hrefs b c Hc). cbn in Hrefs. rewrite Z.add_0_r, (proj2 (Z.eqb_neq _ 0)) by lia.
    by destruct c.
  - intros b Hb. change (references b []) with 0 in Hb. lia.
  - intros b c Hc. specialize (Hrefs b c Hc). cbn in Hrefs. change (references b []) with 0. lia.
Qed.

Definition demo_process : process :=
  let o := mk_outside {[0; 1; 2; 5]}
             {[1%positive := mk_wd_buffer unit 1 (Some (replicate 64 7)) 64 64 NULL true]} in
  mk_process o (replicate 3 wd_frame_init) (mk_resources o.(ou_fds) o.(ou_buffers)).

Definition demo_ops : list frame_op :=
  let planes := Some [mk_wd_frame_drm_plane 5 16 0 0; mk_wd_frame_drm_plane 5 16 64 0] in
  [SetCpu 0 1 0 4 4 16 0 0; SetDrm 1 4 4 0 0 planes 2 [6; -1]; SetDrm 1 4 4 0 0 planes 2 [6; 7];
   Clone 2 0 []; Clone 0 1 [8; 9]; DropBuffer 1; Clone 2 1 [10; 11]; Reset 1].

Lemma frame_resources_balanced_witness :
  frame_ops_allowed demo_ops demo_process = true /\
  exists p' r,
    run_frames demo_ops demo_process = Some p' /\ reset_all p'.(pr_frames) p'.(pr_resources) = Some r /\
    r.(re_fds) = {[0; 1; 2; 5]} /\ r.(re_buffers) !! 1%positive = None.
Proof.
  assert (frame_ops_allowed demo_ops demo_process = true) as Hall by (vm_compute; reflexivity).
  split; [exact Hall |].
  destruct (frame_resources_balanced demo_ops demo_process) as (p' & r & Erun & Er & _ & Ef & Eb); [| exact Hall |].
  - apply process_start_ok. apply map_Forall_singleton. cbn. mlia.
  - exists p', r. split; [exact Erun |]. split; [exact Er |]. split; [rewrite Ef; reflexivity |].
    rewrite Eb. vm_compute in Erun. injection Erun as <-. reflexivity.
Defined.
