(* ===== verification/TcpNet.v ===== *)
(** * Framed TCP messages

    src/common/wd_net.c.  The kernel's side of a socket is [sock]: the bytes
    that will be delivered, in order, and a script with the answer to each
    [recv] call (a chunk of at least one byte, EINTR, EAGAIN, an error, or end
    of file).  A non-blocking socket with an exhausted script answers EAGAIN.
    The payload pointer of the reader is a view of its payload buffer, so the
    bytes are kept once, in the buffer. *)
From S2P Require Import Prelude Wire Config Structs Dispatch Buffer.

Definition WD_TCP_PAYLOAD_PADDING_BYTES : Z := 64.

Inductive wd_tcp_reader_status :=
  | WD_TCP_READER_NEED_MORE
  | WD_TCP_READER_MESSAGE
  | WD_TCP_READER_PEER_CLOSED
  | WD_TCP_READER_INVALID_FRAME
  | WD_TCP_READER_IO_ERROR
  | WD_TCP_READER_TIMED_OUT
  | WD_TCP_READER_CANCELLED.

(** ** The socket *)

Inductive recv_event := Chunk (extra : nat) | Eintr | Eagain | RecvError | Eof.

Record sock := mk_sock { sk_rx : list Z; sk_script : list recv_event }.

(** [Chunk n] delivers up to [n + 1] bytes, never more than asked. *)
Definition chunk_size (extra : nat) (want : Z) : nat := Nat.min (S extra) (Z.to_nat want).

(** ** Reader state *)

Abbreviation buffer := (wd_buffer unit).

Record wd_tcp_message := mk_wd_tcp_message {
  tm_message_type : Z;
  tm_buffer : ptr buffer;
  tm_payload_size : Z;
}.

Record wd_tcp_reader := mk_wd_tcp_reader {
  rd_header_bytes : list Z;
  rd_header_size : Z;
  rd_payload_buffer : ptr buffer;
  rd_payload_size : Z;
  rd_payload_received : Z;
  rd_max_payload_size : Z;
  rd_message_type : Z;
  rd_idle_deadline_ns : Z;
  rd_frame_deadline_ns : Z;
  rd_header_decoded : bool;
}.

#[export] Instance wd_tcp_reader_eta : Eta wd_tcp_reader := fun r =>
  mk_wd_tcp_reader r.(rd_header_bytes) r.(rd_header_size) r.(rd_payload_buffer)
    r.(rd_payload_size) r.(rd_payload_received) r.(rd_max_payload_size) r.(rd_message_type)
    r.(rd_idle_deadline_ns) r.(rd_frame_deadline_ns) r.(rd_header_decoded).

(** [memset] to zero, [max_payload_size] set. *)
Definition zero_reader (max_payload_size : Z) : wd_tcp_reader :=
  mk_wd_tcp_reader (replicate (Z.to_nat WD_TCP_HEADER_WIRE_SIZE) 0) 0 NULL 0 0
    max_payload_size 0 0 0 false.

Definition zero_message : wd_tcp_message := mk_wd_tcp_message 0 NULL 0.

Definition wd_tcp_reader_clear_frame (reader : wd_tcp_reader) : wd_tcp_reader :=
  zero_reader reader.(rd_max_payload_size).

Definition wd_tcp_reader_init (reader : ptr wd_tcp_reader) (max_payload_size : Z)
    : ptr wd_tcp_reader :=
  match reader with NULL => NULL | Some _ => Some (zero_reader max_payload_size) end.

(** [wd_tcp_reader_reset]; the reader's reference to its buffer is released. *)
Definition wd_tcp_reader_reset (reader : ptr wd_tcp_reader) : ptr wd_tcp_reader * ptr buffer :=
  match reader with
  | NULL => (NULL, NULL)
  | Some r =>
      let '(rest, _) := wd_buffer_release r.(rd_payload_buffer) in
      (Some (wd_tcp_reader_clear_frame r), rest)
  end.

Definition wd_tcp_reader_destroy (reader : ptr wd_tcp_reader) : ptr wd_tcp_reader * ptr buffer :=
  wd_tcp_reader_reset reader.

Definition wd_tcp_reader_has_partial_frame (reader : ptr wd_tcp_reader) : bool :=
  match reader with
  | NULL => false
  | Some r =>
      negb (r.(rd_header_size) =? 0) || negb (r.(rd_payload_received) =? 0) ||
      negb (r.(rd_payload_size) =? 0)
  end.

Definition wd_tcp_reader_deadline_ns (reader : ptr wd_tcp_reader) : Z :=
  match reader with
  | NULL => 0
  | Some r =>
      if r.(rd_idle_deadline_ns) =? 0 then r.(rd_frame_deadline_ns)
      else if r.(rd_frame_deadline_ns) =? 0 then r.(rd_idle_deadline_ns)
      else if r.(rd_idle_deadline_ns) <? r.(rd_frame_deadline_ns) then r.(rd_idle_deadline_ns)
      else r.(rd_frame_deadline_ns)
  end.

Definition wd_tcp_message_release (message : ptr wd_tcp_message)
    : ptr wd_tcp_message * ptr buffer :=
  match message with
  | NULL => (NULL, NULL)
  | Some m => (Some zero_message, fst (wd_buffer_release m.(tm_buffer)))
  end.

Definition wd_tcp_message_take_buffer (message : ptr wd_tcp_message)
    : ptr wd_tcp_message * ptr buffer :=
  match message with
  | NULL => (NULL, NULL)
  | Some m =>
      match m.(tm_buffer) with
      | NULL => (message, NULL)
      | Some b => (Some (mk_wd_tcp_message m.(tm_message_type) NULL 0), Some b)
      end
  end.

Definition wd_tcp_deadline_after (now_ns timeout_ns : Z) : Z :=
  if timeout_ns =? 0 then 0
  else if UINT64_MAX - now_ns <? timeout_ns then UINT64_MAX else u64 (now_ns + timeout_ns).

Definition wd_tcp_reader_timed_out (reader : ptr wd_tcp_reader) (now_ns : Z) : bool :=
  match reader with
  | NULL => false
  | Some r =>
      (negb (r.(rd_idle_deadline_ns) =? 0) && (now_ns >=? r.(rd_idle_deadline_ns))) ||
      (negb (r.(rd_frame_deadline_ns) =? 0) && (now_ns >=? r.(rd_frame_deadline_ns)))
  end.

Definition wd_tcp_reader_note_progress (r : wd_tcp_reader)
    (now_ns idle_timeout_ns max_frame_lifetime_ns : Z) : wd_tcp_reader :=
  let r :=
    if r.(rd_frame_deadline_ns) =? 0
    then r <| rd_frame_deadline_ns := wd_tcp_deadline_after now_ns max_frame_lifetime_ns |>
    else r in
  r <| rd_idle_deadline_ns := wd_tcp_deadline_after now_ns idle_timeout_ns |>.

(** What [wd_tcp_reader_recv_bytes] returns after its loop. *)
Definition recv_finish (r : wd_tcp_reader) (destination : list Z) (received expected now_ns : Z)
    (s : sock) : wd_tcp_reader_status * wd_tcp_reader * list Z * Z * sock :=
  (if received =? expected then WD_TCP_READER_MESSAGE
   else if wd_tcp_reader_timed_out (Some r) now_ns then WD_TCP_READER_TIMED_OUT
   else WD_TCP_READER_NEED_MORE, r, destination, received, s).

(** The receive loop, by recursion on the socket's script.  [destination] and
    [received] are the array and the counter the caller passes by address. *)
Fixpoint recv_loop (r : wd_tcp_reader) (destination : list Z) (received expected : Z)
    (now_ns idle_timeout_ns max_frame_lifetime_ns : Z) (rx : list Z) (script : list recv_event)
    : wd_tcp_reader_status * wd_tcp_reader * list Z * Z * sock :=
  if negb (received <? expected)
  then recv_finish r destination received expected now_ns (mk_sock rx script)
  else
    match script with
    | [] => recv_finish r destination received expected now_ns (mk_sock rx [])
    | Chunk extra :: script =>
        match rx with
        | [] => recv_finish r destination received expected now_ns (mk_sock rx script)
        | _ =>
            let n := chunk_size extra (expected - received) in
            recv_loop (wd_tcp_reader_note_progress r now_ns idle_timeout_ns max_frame_lifetime_ns)
              (write_at received (take n rx) destination)
              (received + zlen (take n rx)) expected
              now_ns idle_timeout_ns max_frame_lifetime_ns (drop n rx) script
        end
    | Eof :: script => (WD_TCP_READER_PEER_CLOSED, r, destination, received, mk_sock rx script)
    | Eintr :: script =>
        recv_loop r destination received expected now_ns idle_timeout_ns max_frame_lifetime_ns
          rx script
    | Eagain :: script => recv_finish r destination received expected now_ns (mk_sock rx script)
    | RecvError :: script => (WD_TCP_READER_IO_ERROR, r, destination, received, mk_sock rx script)
    end.

Definition wd_tcp_reader_recv_bytes (r : wd_tcp_reader) (s : sock) (destination : list Z)
    (received expected now_ns idle_timeout_ns max_frame_lifetime_ns : Z) :=
  recv_loop r destination received expected now_ns idle_timeout_ns max_frame_lifetime_ns
    s.(sk_rx) s.(sk_script).

(** The payload view of the reader, and the buffer after its bytes changed. *)
Definition payload_bytes (r : wd_tcp_reader) : list Z :=
  default [] (wd_buffer_data r.(rd_payload_buffer)).

Definition set_data (b : buffer) (bytes : list Z) : buffer :=
  mk_wd_buffer unit b.(wb_refs) (Some bytes) b.(wb_size) b.(wb_capacity) b.(wb_release)
    b.(wb_inline_storage).

(** The header tests of [wd_tcp_reader_receive]. *)
Definition header_invalid (max_payload_size : Z) (header : wd_tcp_header) : bool :=
  negb (header.(th_magic) =? WD_TCP_MAGIC) ||
  negb (header.(th_protocol_version) =? WD_PROTOCOL_VERSION) ||
  (header.(th_payload_size) >? max_payload_size) ||
  negb (wd_protocol_payload_size_is_valid header.(th_message_type) header.(th_payload_size)).

(** The second half of [wd_tcp_reader_receive], once the header is decoded. *)
Definition receive_payload (r : wd_tcp_reader) (s : sock)
    (now_ns idle_timeout_ns max_frame_lifetime_ns : Z)
    : wd_tcp_reader_status * wd_tcp_message * wd_tcp_reader * sock :=
  let '(status, r, s) :=
    if negb (r.(rd_payload_size) =? 0) then
      let '(status, r, bytes, payload_received, s) :=
        wd_tcp_reader_recv_bytes r s (payload_bytes r) r.(rd_payload_received)
          r.(rd_payload_size) now_ns idle_timeout_ns max_frame_lifetime_ns in
      let r := r <| rd_payload_buffer := flip set_data bytes <$> r.(rd_payload_buffer) |> in
      (status, r <| rd_payload_received := u32 payload_received |>, s)
    else (WD_TCP_READER_MESSAGE, r, s) in
  match status with
  | WD_TCP_READER_MESSAGE =>
      if negb (wd_protocol_payload_validate r.(rd_message_type)
                 (wd_buffer_data r.(rd_payload_buffer)) r.(rd_payload_size))
      then (WD_TCP_READER_INVALID_FRAME, zero_message, r, s)
      else (WD_TCP_READER_MESSAGE,
            mk_wd_tcp_message r.(rd_message_type) r.(rd_payload_buffer) r.(rd_payload_size),
            wd_tcp_reader_clear_frame r, s)
  | status => (status, zero_message, r, s)
  end.

Definition wd_tcp_reader_receive (reader : wd_tcp_reader) (fd : Z) (alloc_ok : bool) (s : sock)
    (now_ns idle_timeout_ns max_frame_lifetime_ns : Z)
    : wd_tcp_reader_status * wd_tcp_message * wd_tcp_reader * sock :=
  if (fd <? 0) || (reader.(rd_max_payload_size) =? 0)
  then (WD_TCP_READER_IO_ERROR, zero_message, reader, s)
  else if wd_tcp_reader_has_partial_frame (Some reader) &&
          wd_tcp_reader_timed_out (Some reader) now_ns
  then (WD_TCP_READER_TIMED_OUT, zero_message, reader, s)
  else
    let '(status, r, bytes, header_size, s) :=
      wd_tcp_reader_recv_bytes reader s reader.(rd_header_bytes) reader.(rd_header_size)
        WD_TCP_HEADER_WIRE_SIZE now_ns idle_timeout_ns max_frame_lifetime_ns in
    let r := r <| rd_header_bytes := bytes |> <| rd_header_size := header_size |> in
    match status with
    | WD_TCP_READER_MESSAGE =>
        if negb r.(rd_header_decoded) then
          match wd_tcp_header_decode (Some r.(rd_header_bytes)) with
          | None => (WD_TCP_READER_INVALID_FRAME, zero_message, r, s)
          | Some header =>
              if header_invalid r.(rd_max_payload_size) header
              then (WD_TCP_READER_INVALID_FRAME, zero_message, r, s)
              else
                let r := r <| rd_message_type := header.(th_message_type) |>
                           <| rd_payload_size := header.(th_payload_size) |>
                           <| rd_header_decoded := true |> in
                if negb (r.(rd_payload_size) =? 0) then
                  match wd_buffer_alloc_padded alloc_ok r.(rd_payload_size)
                          WD_TCP_PAYLOAD_PADDING_BYTES with
                  | NULL => (WD_TCP_READER_IO_ERROR, zero_message, r, s)
                  | Some b =>
                      receive_payload (r <| rd_payload_buffer := Some b |>) s
                        now_ns idle_timeout_ns max_frame_lifetime_ns
                  end
                else receive_payload r s now_ns idle_timeout_ns max_frame_lifetime_ns
          end
        else receive_payload r s now_ns idle_timeout_ns max_frame_lifetime_ns
    | status => (status, zero_message, r, s)
    end.

(** ** Waiting for a message *)

(** What one iteration of the wait loop observes: the continuation callback
    (absent for [NULL]), the two clock readings, the allocator, and the results
    of the [poll] calls; [Some revents] is a successful poll. *)
Inductive poll_event := PollIntr | PollFail | PollOk (invalid_fd : bool).
Record wait_env := mk_wait_env {
  we_keep_waiting : ptr bool;
  we_now : Z;
  we_now_after : Z;
  we_alloc_ok : bool;
  we_poll : list poll_event;
}.

(** The poll timeout the loop computes, [None] when the deadline has passed. *)
Definition wait_timeout_ms (reader : wd_tcp_reader) (absolute_deadline_ns poll_slice_ms now_ns : Z)
    : option Z :=
  let frame_deadline_ns := wd_tcp_reader_deadline_ns (Some reader) in
  let deadline_ns :=
    if negb (frame_deadline_ns =? 0) &&
       ((absolute_deadline_ns =? 0) || (frame_deadline_ns <? absolute_deadline_ns))
    then frame_deadline_ns else absolute_deadline_ns in
  if negb (deadline_ns =? 0) then
    if deadline_ns <=? now_ns then None
    else
      let remaining_ns := u64 (deadline_ns - now_ns) in
      let remaining_ms := u64 (remaining_ns + 999999) / 1000000 in
      let remaining_ms := if remaining_ms =? 0 then 1 else remaining_ms in
      Some (if remaining_ms <? poll_slice_ms then u32 remaining_ms else poll_slice_ms)
  else Some poll_slice_ms.

(** The [do]/[while] around [poll]: true when the loop may continue. *)
Fixpoint poll_retry (events : list poll_event) : bool :=
  match events with
  | PollIntr :: events => poll_retry events
  | PollOk invalid_fd :: _ => negb invalid_fd
  | PollFail :: _ => false
  | [] => true
  end.

(** The loop consumes one [wait_env] per iteration; [None] when it still waits
    at the end of the list. *)
Fixpoint wait_loop (reader : wd_tcp_reader) (fd : Z) (s : sock)
    (idle_timeout_ns max_frame_lifetime_ns absolute_deadline_ns poll_slice_ms : Z)
    (envs : list wait_env)
    : option (wd_tcp_reader_status * wd_tcp_message * wd_tcp_reader * sock) :=
  match envs with
  | [] => None
  | env :: envs =>
      if bool_decide (env.(we_keep_waiting) = Some false)
      then Some (WD_TCP_READER_CANCELLED, zero_message, reader, s)
      else if negb (absolute_deadline_ns =? 0) && (env.(we_now) >=? absolute_deadline_ns)
      then Some (WD_TCP_READER_TIMED_OUT, zero_message, reader, s)
      else
        let '(status, message, reader, s) :=
          wd_tcp_reader_receive reader fd env.(we_alloc_ok) s env.(we_now) idle_timeout_ns
            max_frame_lifetime_ns in
        match status with
        | WD_TCP_READER_NEED_MORE =>
            match wait_timeout_ms reader absolute_deadline_ns poll_slice_ms env.(we_now_after) with
            | None =>
                wait_loop reader fd s idle_timeout_ns max_frame_lifetime_ns absolute_deadline_ns
                  poll_slice_ms envs
            | Some _ =>
                if poll_retry env.(we_poll)
                then wait_loop reader fd s idle_timeout_ns max_frame_lifetime_ns
                       absolute_deadline_ns poll_slice_ms envs
                else Some (WD_TCP_READER_IO_ERROR, message, reader, s)
            end
        | status => Some (status, message, reader, s)
        end
  end.

Definition wd_tcp_reader_wait_for_message (reader : wd_tcp_reader) (fd : Z) (s : sock)
    (idle_timeout_ns max_frame_lifetime_ns absolute_deadline_ns poll_slice_ms : Z)
    (envs : list wait_env)
    : option (wd_tcp_reader_status * wd_tcp_message * wd_tcp_reader * sock) :=
  if (fd <? 0) || (poll_slice_ms =? 0)
  then Some (WD_TCP_READER_IO_ERROR, zero_message, reader, s)
  else wait_loop reader fd s idle_timeout_ns max_frame_lifetime_ns absolute_deadline_ns
         poll_slice_ms envs.

(** ** Blocking calls

    The answers of [send] and [sendmsg]: [Sent n] accepts up to [n + 1] bytes.
    A blocking call on an exhausted script fails. *)
Inductive send_event := Sent (extra : nat) | SendEintr | SendError.

(** Returns the result and the bytes the kernel accepted, in order. *)
Fixpoint wd_send_all (data : list Z) (script : list send_event) : bool * list Z :=
  match data with
  | [] => (true, [])
  | _ =>
      match script with
      | [] => (false, [])
      | SendEintr :: script => wd_send_all data script
      | SendError :: _ => (false, [])
      | Sent extra :: script =>
          let '(ok, out) := wd_send_all (drop (S extra) data) script in
          (ok, take (S extra) data ++ out)
      end
  end.

(** The received bytes are returned; [recv] may block, so EAGAIN is an error. *)
Fixpoint recv_all (size : Z) (rx : list Z) (script : list recv_event) : bool * list Z * sock :=
  if negb (size >? 0) then (true, [], mk_sock rx script)
  else
    match script with
    | [] => (false, [], mk_sock rx [])
    | Eintr :: script => recv_all size rx script
    | Eof :: script | Eagain :: script | RecvError :: script => (false, [], mk_sock rx script)
    | Chunk extra :: script =>
        match rx with
        | [] => (false, [], mk_sock rx script)
        | _ =>
            let n := chunk_size extra size in
            let '(ok, data, s) := recv_all (size - zlen (take n rx)) (drop n rx) script in
            (ok, take n rx ++ data, s)
        end
    end.

Definition wd_recv_all (s : sock) (size : Z) : bool * list Z * sock :=
  recv_all size s.(sk_rx) s.(sk_script).

(** Skipping the bytes already written: whole vectors are dropped, the first
    remaining one is shortened. *)
Fixpoint iov_advance (iov : list (list Z)) (written : nat) : list (list Z) :=
  match iov with
  | [] => []
  | v :: iov =>
      if (length v <=? written)%nat then iov_advance iov (written - length v)
      else drop written v :: iov
  end.

Fixpoint wd_writev_all (iov : list (list Z)) (script : list send_event) : bool * list Z :=
  match iov with
  | [] => (true, [])
  | _ =>
      match script with
      | [] => (false, [])
      | SendEintr :: script => wd_writev_all iov script
      | SendError :: _ => (false, [])
      | Sent extra :: script =>
          let n := Nat.min (S extra) (length (concat iov)) in
          if (n =? 0)%nat then (false, [])
          else
            let '(ok, out) := wd_writev_all (iov_advance iov n) script in
            (ok, take n (concat iov) ++ out)
      end
  end.

Definition wd_send_tcp_message (message_type : Z) (payload : ptr (list Z)) (payload_size : Z)
    (script : list send_event) : bool * list Z :=
  match wd_protocol_payload_wire_size message_type payload payload_size with
  | None => (false, [])
  | Some wire_payload_size =>
      let header := mk_wd_tcp_header WD_TCP_MAGIC WD_PROTOCOL_VERSION message_type
                      wire_payload_size in
      match wd_tcp_header_encode (Some header) with
      | None => (false, [])
      | Some wire_header =>
          wd_writev_all
            (if wire_payload_size =? 0 then [wire_header]
             else [wire_header; take (Z.to_nat wire_payload_size) (default [] payload)])
            script
      end
  end.

(** Returns the message type and the payload ([NULL] when empty). *)
Definition wd_recv_tcp_message_limited (s : sock) (max_payload_size : Z) (alloc_ok : bool)
    : option (Z * ptr (list Z) * Z) * sock :=
  if max_payload_size =? 0 then (None, s)
  else
    let '(ok, wire_header, s) := wd_recv_all s WD_TCP_HEADER_WIRE_SIZE in
    if negb ok then (None, s)
    else
      match wd_tcp_header_decode (Some wire_header) with
      | None => (None, s)
      | Some header =>
          if header_invalid max_payload_size header then (None, s)
          else
            let '(wire_payload, s) :=
              if negb (header.(th_payload_size) =? 0) then
                if negb alloc_ok then (None, s)
                else
                  let '(ok, bytes, s) := wd_recv_all s header.(th_payload_size) in
                  (if ok then Some (Some bytes) else None, s)
              else (Some NULL, s) in
            match wire_payload with
            | None => (None, s)
            | Some wire_payload =>
                if negb (wd_protocol_payload_validate header.(th_message_type) wire_payload
                           header.(th_payload_size))
                then (None, s)
                else (Some (header.(th_message_type), wire_payload, header.(th_payload_size)), s)
            end
      end.

Definition wd_recv_tcp_message (s : sock) (alloc_ok : bool)
    : option (Z * ptr (list Z) * Z) * sock :=
  wd_recv_tcp_message_limited s WD_TCP_MAX_PAYLOAD_SIZE alloc_ok.

(** ** Sending *)

Lemma concat_iov_advance iov n :
  (n <= length (concat iov))%nat -> concat (iov_advance iov n) = drop n (concat iov).
Proof.
  revert n; induction iov as [|v iov IH]; intros n Hn; cbn [iov_advance concat] in *.
  - by destruct n.
  - rewrite length_app in Hn. destruct (Nat.leb_spec (length v) n).
    + rewrite IH by lia. rewrite drop_app_ge by lia. done.
    + cbn [concat]. rewrite drop_app_le by lia. done.
Qed.

(** A successful gathering write hands the kernel every byte, in order. *)
Lemma writev_all_complete iov script out :
  wd_writev_all iov script = (true, out) -> out = concat iov.
Proof.
  revert iov out; induction script as [|ev script IH]; intros iov out;
    cbn [wd_writev_all]; destruct iov as [|v iov]; try (by intros [= <-]); try done.
  destruct ev as [extra| |]; [| apply IH | done].
  set (n := Nat.min (S extra) _). case_if; [done |].
  destruct (wd_writev_all _ script) as [ok out'] eqn:E'. intros [= -> <-].
  apply IH in E' as ->. rewrite concat_iov_advance by lia. apply take_drop.
Qed.

Lemma send_all_complete data script out :
  wd_send_all data script = (true, out) -> out = data.
Proof.
  revert data out; induction script as [|ev script IH]; intros data out;
    cbn [wd_send_all]; destruct data as [|x data]; try (by intros [= <-]); try done.
  destruct ev as [extra| |]; [| apply IH | done].
  destruct (wd_send_all _ script) as [ok out'] eqn:E'. intros [= -> <-].
  apply IH in E' as ->. exact (take_drop (S extra) (x :: data)).
Qed.

(** The bytes of one message on the wire. *)
Definition message_header (message_type : Z) (payload : list Z) : wd_tcp_header :=
  mk_wd_tcp_header WD_TCP_MAGIC WD_PROTOCOL_VERSION message_type (zlen payload).
Definition frame (message_type : Z) (payload : list Z) : list Z :=
  encode (message_header message_type payload) ++ payload.

Lemma send_tcp_message_frame t payload script out :
  wd_send_tcp_message t (Some payload) (zlen payload) script = (true, out) ->
  out = frame t payload /\ wd_protocol_payload_size_is_valid t (zlen payload) = true.
Proof.
  unfold wd_send_tcp_message, wd_protocol_payload_wire_size, wd_protocol_payload_validate.
  rewrite bool_decide_eq_true_2 by by eexists. rewrite andb_false_r.
  destruct (wd_protocol_payload_size_is_valid t (zlen payload)) eqn:Hv; [| done]. cbn [negb].
  cbn [wd_tcp_header_encode]. intros H. apply writev_all_complete in H. split; [| done].
  unfold frame, message_header. case_if_in H; bool_cases; subst.
  - destruct payload; [| unfold zlen in *; simpl in *; lia]. cbn [concat]. done.
  - cbn [concat default]. rewrite app_nil_r. unfold zlen. rewrite Nat2Z.id, firstn_all.
    done.
Qed.

(** ** Receiving *)

(** An array of [cap] zero bytes into which the first [j] bytes of [src] were
    copied. *)
Definition filled (src : list Z) (j cap : nat) : list Z := take j src ++ replicate (cap - j) 0.

Lemma write_at_filled src j n cap :
  (j + n <= length src)%nat -> (length src <= cap)%nat ->
  write_at (Z.of_nat j) (take n (drop j src)) (filled src j cap) = filled src (j + n) cap.
Proof.
  intros Hn Hcap. unfold write_at, filled. rewrite Nat2Z.id.
  rewrite take_app_length' by (rewrite length_take; lia).
  rewrite length_take, length_drop.
  rewrite drop_app_ge by (rewrite length_take; lia).
  rewrite drop_replicate, length_take.
  rewrite app_assoc, take_take_drop. f_equal. f_equal. lia.
Qed.

(** Scripts of a peer that neither closes nor breaks the connection. *)
Definition healthy (script : list recv_event) : Prop :=
  Forall (fun ev => ev <> Eof /\ ev <> RecvError) script.

Fixpoint chunks (script : list recv_event) : nat :=
  match script with
  | [] => 0
  | Chunk _ :: script => S (chunks script)
  | _ :: script => chunks script
  end.

Definition with_deadlines (r : wd_tcp_reader) (idle frame : Z) : wd_tcp_reader :=
  r <| rd_idle_deadline_ns := idle |> <| rd_frame_deadline_ns := frame |>.

(** No deadline is armed. *)
Definition untimed (r : wd_tcp_reader) : Prop :=
  r.(rd_idle_deadline_ns) = 0 /\ r.(rd_frame_deadline_ns) = 0.

(** The outcome of the receive loop on a healthy socket that holds the rest of
    [src]: the array fills up to some [j'], and the status tells whether all of
    [src] arrived. *)
Record loop_result (r : wd_tcp_reader) (src : list Z) (cap j : nat) (rest : list Z)
    (script : list recv_event) (now idle life : Z) (st : wd_tcp_reader_status)
    (r' : wd_tcp_reader) (dest : list Z) (received : Z) (s : sock) (j' : nat) : Prop := {
  lr_range : (j <= j' <= length src)%nat;
  lr_dest : dest = filled src j' cap;
  lr_received : received = Z.of_nat j';
  lr_rx : s.(sk_rx) = drop j' src ++ rest;
  lr_reader : exists a b, r' = with_deadlines r a b;
  lr_healthy : healthy s.(sk_script);
  lr_chunks : (chunks script <= chunks s.(sk_script) + (j' - j))%nat;
  lr_shorter : (length s.(sk_script) <= length script)%nat;
  lr_status :
    (st = WD_TCP_READER_MESSAGE /\ j' = length src) \/
    ((st = WD_TCP_READER_NEED_MORE \/ st = WD_TCP_READER_TIMED_OUT) /\ (j' < length src)%nat /\
     (length s.(sk_script) < length script \/ script = [])%nat);
}.

Lemma with_deadlines_self r : r = with_deadlines r r.(rd_idle_deadline_ns) r.(rd_frame_deadline_ns).
Proof. by destruct r. Qed.

Lemma note_progress_deadlines r now idle life :
  exists a b, wd_tcp_reader_note_progress r now idle life = with_deadlines r a b.
Proof.
  set (r' := wd_tcp_reader_note_progress r now idle life).
  exists r'.(rd_idle_deadline_ns), r'.(rd_frame_deadline_ns).
  subst r'. unfold wd_tcp_reader_note_progress. destruct r. by case_if.
Qed.

Lemma note_progress_untimed r now : untimed r -> untimed (wd_tcp_reader_note_progress r now 0 0).
Proof.
  unfold untimed, wd_tcp_reader_note_progress. intros [_ H]. rewrite H. by destruct r.
Qed.

Lemma untimed_not_timed_out r now : untimed r -> wd_tcp_reader_timed_out (Some r) now = false.
Proof. intros [H1 H2]. cbn. by rewrite H1, H2. Qed.

Lemma recv_finish_untimed r dest received expected now s :
  untimed r ->
  let '(st, r', _, _, _) := recv_finish r dest received expected now s in
  untimed r' /\ st <> WD_TCP_READER_TIMED_OUT.
Proof.
  intros Hu. unfold recv_finish. rewrite (untimed_not_timed_out r now Hu). by case_if.
Qed.

(** With both timeouts zero no deadline is ever armed. *)
Lemma recv_loop_untimed r dest received expected now rx script :
  untimed r ->
  let '(st, r', _, _, _) := recv_loop r dest received expected now 0 0 rx script in
  untimed r' /\ st <> WD_TCP_READER_TIMED_OUT.
Proof.
  revert r dest received rx; induction script as [|ev script IH]; intros r dest received rx Hu;
    cbn [recv_loop]; destruct (negb (received <? expected)); try by apply recv_finish_untimed.
  destruct ev; try done.
  - destruct rx; [by apply recv_finish_untimed |]. by apply IH, note_progress_untimed.
  - by apply IH.
  - by apply recv_finish_untimed.
Qed.

Lemma recv_loop_done r dest received expected now i l rx script :
  expected <= received ->
  recv_loop r dest received expected now i l rx script =
  recv_finish r dest received expected now (mk_sock rx script).
Proof.
  intros H. apply Z.ltb_ge in H. destruct script; cbn [recv_loop]; by rewrite H.
Qed.

Lemma recv_finish_spec r src cap j rest script script' now idle life :
  healthy script' -> (j <= length src)%nat -> (chunks script <= chunks script')%nat ->
  (length script' <= length script)%nat ->
  (j = length src \/ length script' < length script \/ script = [])%nat ->
  exists st r' dest received s j',
    recv_finish r (filled src j cap) (Z.of_nat j) (Z.of_nat (length src)) now
      (mk_sock (drop j src ++ rest) script') = (st, r', dest, received, s) /\
    loop_result r src cap j rest script now idle life st r' dest received s j'.
Proof.
  intros Hh Hj Hc Hl Hp. unfold recv_finish. do 6 eexists. split; [reflexivity |].
  split with (j' := j); try done; cbn [sk_script]; try lia.
  - do 2 eexists. apply with_deadlines_self.
  - destruct (Z.eqb_spec (Z.of_nat j) (Z.of_nat (length src))); [left; split; [done | lia] |].
    right. split_and!; [case_if; [by right | by left] | lia |].
    destruct Hp as [|[|]]; [lia | by left | by right].
Qed.

Lemma loop_result_cons r r1 src cap j j1 rest ev script now idle life st r' dest received s j' :
  loop_result r1 src cap j1 rest script now idle life st r' dest received s j' ->
  (j <= j1)%nat -> (exists a b, r1 = with_deadlines r a b) ->
  (chunks (ev :: script) <= chunks script + (j1 - j))%nat ->
  loop_result r src cap j rest (ev :: script) now idle life st r' dest received s j'.
Proof.
  intros [] Hj (a & b & ->) Hc. split; try done; try lia.
  - cbn [length]. lia.
  - destruct lr_status0 as [|(? & ? & ?)]; [by left | right]. split_and!; [done | done |].
    left. cbn. lia.
Qed.

Lemma recv_loop_spec r src cap j rest script now idle life :
  healthy script -> (j <= length src)%nat -> (length src <= cap)%nat ->
  exists st r' dest received s j',
    recv_loop r (filled src j cap) (Z.of_nat j) (Z.of_nat (length src)) now idle life
      (drop j src ++ rest) script = (st, r', dest, received, s) /\
    loop_result r src cap j rest script now idle life st r' dest received s j'.
Proof.
  revert r j; induction script as [|ev script IH]; intros r j Hh Hj Hcap;
    cbn [recv_loop]; destruct (Z.ltb_spec (Z.of_nat j) (Z.of_nat (length src))) as [Hlt|Hge];
    cbn [negb]; [by apply recv_finish_spec; auto | by apply recv_finish_spec; auto | |
                 by apply recv_finish_spec; auto; left; lia].
  apply Forall_cons_iff in Hh as [[Hev1 Hev2] Hh].
  destruct ev as [extra| | | |]; try done.
  - set (n := chunk_size extra _).
    assert (1 <= n <= length src - j)%nat as Hn by (subst n; unfold chunk_size; lia).
    assert (take n (drop j src ++ rest) = take n (drop j src)) as Ht
      by (apply take_app_le; rewrite length_drop; lia).
    assert (drop n (drop j src ++ rest) = drop (j + n) src ++ rest) as Hd
      by (rewrite drop_app_le by (rewrite length_drop; lia); by rewrite drop_drop).
    destruct (drop j src ++ rest) as [|x0 rx0] eqn:Erx.
    { apply app_eq_nil in Erx as [Erx _]. apply (f_equal length) in Erx.
      rewrite length_drop in Erx. simpl in Erx. lia. }
    rewrite Ht, Hd. rewrite write_at_filled by lia.
    replace (Z.of_nat j + zlen (take n (drop j src))) with (Z.of_nat (j + n))
      by (unfold zlen; rewrite length_take, length_drop; lia).
    destruct (IH (wd_tcp_reader_note_progress r now idle life) (j + n)%nat)
      as (st & r' & dest & received & s & j' & E & Hr); [done | lia | done |].
    exists st, r', dest, received, s, j'. split; [exact E |].
    eapply loop_result_cons; [exact Hr | lia | apply note_progress_deadlines |
      cbn [chunks]; lia].
  - destruct (IH r j) as (st & r' & dest & received & s & j' & E & Hr); [done | done | done |].
    exists st, r', dest, received, s, j'. split; [exact E |].
    eapply loop_result_cons; [exact Hr | lia | do 2 eexists; apply with_deadlines_self |
      cbn; lia].
  - apply recv_finish_spec; [done | done | done | cbn; lia | right; left; cbn; lia].
Qed.

(** [reader_simpl] computes the fields of updated readers. *)
Ltac reader_simpl :=
  cbv [set_field with_deadlines rd_header_bytes rd_header_size rd_payload_buffer rd_payload_size
    rd_payload_received rd_max_payload_size rd_message_type rd_idle_deadline_ns
    rd_frame_deadline_ns rd_header_decoded].

(** ** One frame through the reader *)

Section one_frame.
Context (t : Z) (payload : list Z) (M : Z).
Context (Ht : u16_ok t) (HM : u32_ok M) (HM0 : M <> 0) (Hsize : zlen payload <= M).
Context (Hvalid : wd_protocol_payload_size_is_valid t (zlen payload) = true).

Definition hdr : list Z := encode (message_header t payload).

Definition payload_buffer (j : nat) : buffer :=
  mk_wd_buffer unit 1 (Some (filled payload j (length payload + 64))) (zlen payload)
    (zlen payload + WD_TCP_PAYLOAD_PADDING_BYTES) NULL true.

(** The message the reader hands out for the frame. *)
Definition frame_message : wd_tcp_message :=
  mk_wd_tcp_message t
    (if zlen payload =? 0 then NULL else Some (payload_buffer (length payload)))
    (zlen payload).

(** The reader after the first [k] bytes of the frame. *)
Inductive reader_at : nat -> wd_tcp_reader -> Prop :=
  | at_header k idle life :
      (k <= 12)%nat ->
      reader_at k (mk_wd_tcp_reader (filled hdr k 12) (Z.of_nat k) NULL 0 0 M 0 idle life false)
  | at_payload j idle life :
      payload <> [] -> (j <= length payload)%nat ->
      reader_at (12 + j) (mk_wd_tcp_reader hdr 12 (Some (payload_buffer j)) (zlen payload)
        (Z.of_nat j) M t idle life true).

Inductive receive_result (k : nat) (script : list recv_event) (rest : list Z)
    : wd_tcp_reader_status -> wd_tcp_message -> wd_tcp_reader -> sock -> Prop :=
  | recv_timed_out msg r s : receive_result k script rest WD_TCP_READER_TIMED_OUT msg r s
  | recv_message s :
      s.(sk_rx) = rest ->
      receive_result k script rest WD_TCP_READER_MESSAGE frame_message (zero_reader M) s
  | recv_more k' r s :
      (k <= k' < length (frame t payload))%nat -> reader_at k' r ->
      s.(sk_rx) = drop k' (frame t payload) ++ rest -> healthy s.(sk_script) ->
      (chunks script <= chunks s.(sk_script) + (k' - k))%nat ->
      (length s.(sk_script) < length script \/ script = [])%nat ->
      receive_result k script rest WD_TCP_READER_NEED_MORE zero_message r s.

Lemma header_ok : ws_ok (message_header t payload).
Proof.
  pose proof (zlen_nonneg payload). split; [| exact I].
  repeat constructor; cbn -[zlen]; unfold WD_TCP_MAGIC, WD_PROTOCOL_VERSION; mlia.
Qed.

Lemma hdr_length : length hdr = 12%nat.
Proof.
  pose proof (encode_length _ header_ok) as H.
  change (sizeof wd_tcp_header) with 12 in H. unfold zlen in H. unfold hdr. lia.
Qed.

Lemma frame_length : length (frame t payload) = (12 + length payload)%nat.
Proof. unfold frame. rewrite length_app. fold hdr. by rewrite hdr_length. Qed.

Lemma filled_full src cap : length src = cap -> filled src cap cap = src.
Proof. intros <-. unfold filled. rewrite firstn_all, Nat.sub_diag. apply app_nil_r. Qed.

Lemma hdr_decode : wd_tcp_header_decode (Some hdr) = Some (message_header t payload).
Proof.
  unfold wd_tcp_header_decode. rewrite <- (app_nil_r hdr). apply decode_encode, header_ok.
Qed.

Lemma header_accepted : header_invalid M (message_header t payload) = false.
Proof.
  unfold header_invalid, message_header. cbn [th_magic th_protocol_version th_payload_size
    th_message_type]. rewrite Hvalid, !Z.eqb_refl. cbn.
  rewrite Z.gtb_ltb, orb_false_r. apply Z.ltb_ge. done.
Qed.

Lemma payload_nonempty : payload <> [] -> (zlen payload =? 0) = false.
Proof. intros Hne. apply Z.eqb_neq. intros E. apply Hne, nil_length_inv. unfold zlen in E. lia. Qed.

Lemma payload_validated p :
  (payload <> [] -> is_Some p) -> wd_protocol_payload_validate t p (zlen payload) = true.
Proof.
  intros Hp. unfold wd_protocol_payload_validate. rewrite Hvalid.
  destruct (Z.eqb_spec (zlen payload) 0) as [|Hne]; [done |].
  rewrite bool_decide_eq_true_2; [by rewrite andb_false_r |].
  apply Hp. by intros ->.
Qed.

Lemma alloc_payload :
  wd_buffer_alloc_padded (rf := unit) true (zlen payload) WD_TCP_PAYLOAD_PADDING_BYTES =
  Some (payload_buffer 0).
Proof.
  unfold wd_buffer_alloc_padded, payload_buffer, filled, WD_TCP_PAYLOAD_PADDING_BYTES,
    sizeof_wd_buffer. pose proof (zlen_nonneg payload).
  rewrite !Z.gtb_ltb. do 2 (case_if; bool_cases; [mlia |]). cbn [negb take app].
  destruct (Z.eqb_spec (zlen payload + 64) 0); [lia |]. cbn [negb].
  by replace (Z.to_nat (zlen payload + 64)) with (length payload + 64 - 0)%nat
    by (unfold zlen; lia).
Qed.

(** Completing the payload part. *)
Lemma receive_payload_result j idle life k script rest now i l :
  payload <> [] -> (j <= length payload)%nat -> healthy script -> (k <= 12 + j)%nat ->
  forall script0, (chunks script0 <= chunks script + (12 + j - k))%nat ->
  (length script <= length script0)%nat ->
  let '(st, msg, r, s) :=
    receive_payload (mk_wd_tcp_reader hdr 12 (Some (payload_buffer j)) (zlen payload)
      (Z.of_nat j) M t idle life true) (mk_sock (drop j payload ++ rest) script) now i l in
  receive_result k script0 rest st msg r s.
Proof.
  intros Hne Hj Hh Hk script0 Hc Hl. unfold receive_payload.
  cbn [rd_payload_size rd_payload_received].
  rewrite payload_nonempty by done. cbn [negb].
  unfold wd_tcp_reader_recv_bytes, payload_bytes.
  cbn [rd_payload_buffer wd_buffer_data wb_data payload_buffer default from_option id sk_rx sk_script].
  match goal with |- context [recv_loop ?r _ _ _ _ _ _ _ _] =>
    destruct (recv_loop_spec r payload (length payload + 64) j rest script now i l)
      as (st & r' & dest & received & s & j' & E & [])
  end; try done; try lia.
  fold (zlen payload) in E. rewrite E.
  destruct lr_reader0 as (a & b & ->). subst dest received.
  destruct lr_status0 as [(-> & ->)|([->| ->] & Hlt & Hs)].
  - cbn [rd_message_type rd_payload_buffer rd_payload_size with_deadlines].
    rewrite payload_validated by by eexists.
    cbn [negb]. replace (mk_wd_tcp_message _ _ _) with frame_message.
    + constructor. by rewrite lr_rx0, drop_all.
    + unfold frame_message. by rewrite payload_nonempty.
  - change (receive_result k script0 rest WD_TCP_READER_NEED_MORE zero_message
      (mk_wd_tcp_reader hdr 12 (Some (payload_buffer j')) (zlen payload)
        (u32 (Z.of_nat j')) M t a b true) s).
    rewrite u32_small by (unfold zlen in *; mlia).
    apply recv_more with (k' := (12 + j')%nat); try done.
    + rewrite frame_length. lia.
    + constructor; [done | lia].
    + lia.
    + destruct Hs as [Hs| ->]; [left; lia |].
      destruct script0; [by right | left].
      destruct (sk_script s) eqn:Es; cbn in *; lia.
  - constructor.
Qed.

(** One call of the reader on a healthy socket that holds the rest of the
    frame: it completes the message, asks for more, or reports a deadline. *)
Lemma receive_step fd k r rest script now i l :
  0 <= fd -> reader_at k r -> healthy script ->
  let '(st, msg, r', s) :=
    wd_tcp_reader_receive r fd true (mk_sock (drop k (frame t payload) ++ rest) script) now i l in
  receive_result k script rest st msg r' s.
Proof.
  intros Hfd Hr Hh. unfold wd_tcp_reader_receive.
  assert (rd_max_payload_size r = M) as HrM by by destruct Hr.
  rewrite HrM. replace ((fd <? 0) || (M =? 0)) with false by
    (symmetry; apply orb_false_iff; split; [apply Z.ltb_ge | apply Z.eqb_neq]; lia).
  case_if; [constructor |]. unfold wd_tcp_reader_recv_bytes. cbn [sk_rx sk_script].
  destruct Hr as [k idle life Hk | j idle life Hne Hj];
    cbn [rd_header_bytes rd_header_size].
  - replace (drop k (frame t payload) ++ rest) with (drop k hdr ++ (payload ++ rest)).
    2:{ unfold frame. fold hdr. rewrite drop_app_le by (rewrite hdr_length; lia).
        by rewrite app_assoc. }
    match goal with |- context [recv_loop ?r _ _ _ _ _ _ _ _] =>
      destruct (recv_loop_spec r hdr 12 k (payload ++ rest) script now i l)
        as (st & r' & dest & received & s & k' & E' & [])
    end; try done; try (rewrite hdr_length; lia).
    rewrite hdr_length in E'. change (Z.of_nat 12) with WD_TCP_HEADER_WIRE_SIZE in E'.
    rewrite E'. rewrite hdr_length in *.
    destruct lr_reader0 as (a & b & ->). subst dest received.
    destruct lr_status0 as [(-> & ->)|([->| ->] & Hlt & Hs)].
    + rewrite (filled_full hdr 12 hdr_length).
      rewrite (drop_ge hdr 12) in lr_rx0 by (rewrite hdr_length; lia).
      reader_simpl. cbn [negb]. rewrite hdr_decode, header_accepted.
      unfold message_header. cbn [th_message_type th_payload_size].
      destruct (zlen payload =? 0) eqn:Hz; cbn [negb].
      * unfold receive_payload. reader_simpl. rewrite Hz. cbn [negb].
        rewrite payload_validated by (intros Hne; apply payload_nonempty in Hne; congruence).
        cbn [negb]. bool_cases. assert (payload = []) as Hp
          by (apply nil_length_inv; unfold zlen in *; lia).
        change (mk_wd_tcp_message t NULL (zlen payload)) with
          (mk_wd_tcp_message t (if true then NULL else Some (payload_buffer (length payload)))
             (zlen payload)).
        replace true with (zlen payload =? 0) at 1 by (by apply Z.eqb_eq).
        constructor. rewrite lr_rx0, Hp. done.
      * rewrite alloc_payload. destruct s as [rx script']. cbn in lr_rx0. subst rx.
        assert (payload <> []) as Hne by (intros Hp; rewrite Hp in Hz; done).
        pose proof (receive_payload_result 0 a b k script' rest now i l Hne ltac:(lia)
          lr_healthy0 ltac:(lia) script) as HR.
        rewrite drop_0 in HR. apply HR; cbn in *; lia.
    + apply recv_more with (k' := k'); try done.
      * rewrite frame_length. lia.
      * apply at_header. lia.
      * rewrite lr_rx0. unfold frame. fold hdr.
        rewrite drop_app_le by (rewrite hdr_length; lia). by rewrite app_assoc.
    + constructor.
  - rewrite recv_loop_done by done. unfold recv_finish.
    change (12 =? WD_TCP_HEADER_WIRE_SIZE) with true. cbv iota. reader_simpl. cbn [negb].
    replace (drop (12 + j) (frame t payload) ++ rest) with (drop j payload ++ rest).
    2: by f_equal.
    apply (receive_payload_result j idle life (12 + j) script rest now i l); done || lia.
Qed.

End one_frame.

Lemma receive_payload_untimed r s now st msg r' s' :
  untimed r -> receive_payload r s now 0 0 = (st, msg, r', s') ->
  untimed r' /\ st <> WD_TCP_READER_TIMED_OUT.
Proof.
  intros Hu. unfold receive_payload. destruct (rd_payload_size r =? 0); cbn [negb].
  - case_if; intros [= <- _ <- _]; done.
  - pose proof (recv_loop_untimed r (payload_bytes r) (rd_payload_received r) (rd_payload_size r)
      now (sk_rx s) (sk_script s) Hu) as H.
    unfold wd_tcp_reader_recv_bytes. destruct (recv_loop _ _ _ _ _ _ _ _ _) as [[[[st1 r1] d1] n1] s1].
    destruct H as [H Hst]. destruct st1; try case_if; intros [= <- _ <- _]; done.
Qed.

Lemma receive_untimed r fd alloc s now st msg r' s' :
  untimed r -> wd_tcp_reader_receive r fd alloc s now 0 0 = (st, msg, r', s') ->
  untimed r' /\ st <> WD_TCP_READER_TIMED_OUT.
Proof.
  intros Hu. unfold wd_tcp_reader_receive. case_if; [by intros [= <- _ <- _] |].
  rewrite (untimed_not_timed_out r now Hu), andb_false_r.
  pose proof (recv_loop_untimed r (rd_header_bytes r) (rd_header_size r) WD_TCP_HEADER_WIRE_SIZE
    now (sk_rx s) (sk_script s) Hu) as H.
  unfold wd_tcp_reader_recv_bytes. destruct (recv_loop _ _ _ _ _ _ _ _ _) as [[[[st1 r1] d1] n1] s1].
  destruct H as [H Hst].
  destruct st1; try (by intros [= <- _ <- _]).
  destruct (negb _); [| by apply receive_payload_untimed].
  destruct (wd_tcp_header_decode _); [| by intros [= <- _ <- _]].
  case_if; [by intros [= <- _ <- _] |].
  case_if; [| by apply receive_payload_untimed].
  destruct (wd_buffer_alloc_padded _ _ _); [by apply receive_payload_untimed |].
  by intros [= <- _ <- _].
Qed.

(** Calling the reader again while it asks for more, at the given clock
    readings; the socket keeps its state between the calls. *)
Fixpoint receive_until (fuel : nat) (r : wd_tcp_reader) (fd : Z) (s : sock) (clock : nat -> Z)
    (idle life : Z) : option (wd_tcp_reader_status * wd_tcp_message * wd_tcp_reader * sock) :=
  match fuel with
  | O => None
  | S fuel =>
      match wd_tcp_reader_receive r fd true s (clock fuel) idle life with
      | (WD_TCP_READER_NEED_MORE, _, r, s) => receive_until fuel r fd s clock idle life
      | result => Some result
      end
  end.

Lemma receive_until_frame t payload M fuel k r fd rest script clock :
  u16_ok t -> u32_ok M -> M <> 0 -> zlen payload <= M ->
  wd_protocol_payload_size_is_valid t (zlen payload) = true ->
  0 <= fd -> reader_at t payload M k r -> untimed r -> healthy script ->
  (length (frame t payload) <= chunks script + k)%nat -> (length script < fuel)%nat ->
  exists s', s'.(sk_rx) = rest /\
    receive_until fuel r fd (mk_sock (drop k (frame t payload) ++ rest) script) clock 0 0 =
      Some (WD_TCP_READER_MESSAGE, frame_message t payload, zero_reader M, s').
Proof.
  intros Ht HM HM0 Hsz Hv Hfd. revert k r script; induction fuel as [|fuel IH];
    intros k r script Hr Hu Hh Hc Hf; [lia |].
  cbn [receive_until].
  pose proof (receive_step t payload M Ht HM HM0 Hsz Hv fd k r rest script (clock fuel) 0 0
    Hfd Hr Hh) as Hstep.
  destruct (wd_tcp_reader_receive _ _ _ _ _ _ _) as [[[st msg] r'] s'] eqn:E.
  apply receive_untimed in E as [Hu' Hst]; [| done].
  destruct Hstep as [| s' Hs |k' r' [rx' script'] Hk Hr' Hrx Hh' Hc' Hl]; [done | by exists s' |].
  cbn in Hrx, Hh', Hc', Hl. subst rx'. apply IH; try done; [lia |].
  destruct Hl as [Hl| ->]; [lia |]. cbn in *. lia.
Qed.

(** C1: end to end, a message that [wd_send_tcp_message] sent is the message
    the reader returns, whatever partial writes and interruptions happened on
    the sending side and however the kernel splits the bytes on the receiving
    side; the bytes after the frame stay in the socket and the reader is ready
    for the next frame. *)
Theorem tcp_message_delivered t payload M sent wire rest fd script fuel clock :
  wd_send_tcp_message t (Some payload) (zlen payload) sent = (true, wire) ->
  0 < M <= UINT32_MAX -> zlen payload <= M -> 0 <= fd -> healthy script ->
  (length wire <= chunks script)%nat -> (length script < fuel)%nat ->
  exists m s',
    receive_until fuel (zero_reader M) fd (mk_sock (wire ++ rest) script) clock 0 0 =
      Some (WD_TCP_READER_MESSAGE, m, zero_reader M, s') /\
    m.(tm_message_type) = t /\ m.(tm_payload_size) = zlen payload /\
    take (length payload) (default [] (wd_buffer_data m.(tm_buffer))) = payload /\
    s'.(sk_rx) = rest.
Proof.
  intros Hsend HM Hsz Hfd Hh Hc Hf. apply send_tcp_message_frame in Hsend as [-> Hv].
  assert (1 <= t <= 31) as Ht.
  { apply registry_complete. unfold wd_protocol_payload_size_is_valid in Hv.
    destruct (wd_protocol_message_descriptor_find t); [by eexists | done]. }
  destruct (receive_until_frame t payload M fuel 0 (zero_reader M) fd rest script clock)
    as (s' & Hs & E); try done; try mlia.
  { apply (at_header t payload M 0 0 0). lia. }
  exists (frame_message t payload), s'. split_and!; try done.
  unfold frame_message. cbn [tm_buffer]. destruct (Z.eqb_spec (zlen payload) 0) as [Hz|Hz].
  - destruct payload; [done |]. unfold zlen in Hz. simpl in Hz. lia.
  - cbn [wd_buffer_data payload_buffer wb_data default from_option id]. unfold filled.
    rewrite firstn_all. apply take_app_length.
Qed.

Lemma tcp_message_delivered_witness :
  exists wire, wd_send_tcp_message WD_MSG_CURSOR_SHAPE (Some (replicate 11 1)) 11
    [Sent 4; SendEintr; Sent 100] = (true, wire) /\
  exists m s',
    receive_until 30 (zero_reader 64) 3 (mk_sock (wire ++ [9]) (Eagain :: replicate 23 (Chunk 0)))
      (fun _ => 0) 0 0 = Some (WD_TCP_READER_MESSAGE, m, zero_reader 64, s') /\
    m.(tm_message_type) = WD_MSG_CURSOR_SHAPE /\ m.(tm_payload_size) = 11 /\
    take 11 (default [] (wd_buffer_data m.(tm_buffer))) = replicate 11 1 /\ s'.(sk_rx) = [9].
Proof.
  eexists. split; [vm_compute; reflexivity |].
  apply (tcp_message_delivered WD_MSG_CURSOR_SHAPE (replicate 11 1) 64 [Sent 4; SendEintr; Sent 100]);
    [vm_compute; reflexivity | mlia | vm_compute; congruence | lia
    | repeat constructor; discriminate | cbn; lia | cbn; lia].
Defined.

(** ** Deadlines *)

(** Progress on a frame whose lifetime deadline is set does not move it. *)
Lemma recv_loop_keeps_deadline r dest received expected now i l rx script D :
  rd_frame_deadline_ns r = D -> D <> 0 ->
  let '(_, r', _, received', _) := recv_loop r dest received expected now i l rx script in
  rd_frame_deadline_ns r' = D /\ received <= received' /\
  (forall n, rd_header_size r = n -> rd_header_size r' = n).
Proof.
  revert r dest received rx; induction script as [|ev script IH];
    intros r dest received rx HD H0; cbn [recv_loop]; unfold recv_finish;
    destruct (negb (received <? expected)); try done.
  destruct ev; try done; [| by apply IH].
  destruct rx as [|x rx]; [done |].
  set (n := chunk_size extra _). set (bytes := take n (x :: rx)).
  specialize (IH (wd_tcp_reader_note_progress r now i l) (write_at received bytes dest)
    (received + zlen bytes) (drop n (x :: rx))).
  assert (wd_tcp_reader_note_progress r now i l =
    r <| rd_idle_deadline_ns := wd_tcp_deadline_after now i |>) as Hn.
  { unfold wd_tcp_reader_note_progress. destruct (Z.eqb_spec (rd_frame_deadline_ns r) 0); [congruence | done]. }
  rewrite Hn in *. destruct (recv_loop _ _ _ _ _ _ _ _ _) as [[[[st r'] d'] n'] s'].
  pose proof (zlen_nonneg bytes). destruct IH as (IH1 & IH2 & IH3); [done | done |].
  split_and!; [done | lia | exact IH3].
Qed.

(** The reader holds part of a frame whose lifetime ends at [D]. *)
Definition stalled (r : wd_tcp_reader) (D : Z) : Prop :=
  0 < rd_header_size r /\ rd_frame_deadline_ns r = D /\ D <> 0.

Lemma receive_payload_keeps_deadline r s now i l D msg r' s' :
  stalled r D -> receive_payload r s now i l = (WD_TCP_READER_NEED_MORE, msg, r', s') -> stalled r' D.
Proof.
  intros (Hh & HD & H0). unfold receive_payload.
  destruct (rd_payload_size r =? 0); cbn [negb]; [by case_if |].
  unfold wd_tcp_reader_recv_bytes.
  pose proof (recv_loop_keeps_deadline r (payload_bytes r) (rd_payload_received r)
    (rd_payload_size r) now i l (sk_rx s) (sk_script s) D HD H0) as H.
  destruct (recv_loop _ _ _ _ _ _ _ _ _) as [[[[st1 r1] d1] n1] s1].
  destruct H as (H1 & _ & H2). specialize (H2 _ eq_refl).
  destruct st1; try case_if; try done. intros [= _ <- _].
  unfold stalled. destruct r1. cbn in *. split_and!; [lia | done | done].
Qed.

Lemma receive_keeps_deadline r fd alloc s now i l D msg r' s' :
  stalled r D -> wd_tcp_reader_receive r fd alloc s now i l =
    (WD_TCP_READER_NEED_MORE, msg, r', s') -> stalled r' D.
Proof.
  intros (Hh & HD & H0). unfold wd_tcp_reader_receive. do 2 (case_if; [done |]).
  unfold wd_tcp_reader_recv_bytes.
  pose proof (recv_loop_keeps_deadline r (rd_header_bytes r) (rd_header_size r)
    WD_TCP_HEADER_WIRE_SIZE now i l (sk_rx s) (sk_script s) D HD H0) as H.
  destruct (recv_loop _ _ _ _ _ _ _ _ _) as [[[[st1 r1] d1] n1] s1].
  destruct H as (H1 & H2 & _).
  assert (forall a, stalled (r1 <| rd_header_bytes := a |> <| rd_header_size := n1 |>) D) as Hs.
  { intros a. unfold stalled. destruct r1. cbn in *. split_and!; [lia | done | done]. }
  destruct st1; try done; [intros [= _ <- _]; apply Hs |].
  specialize (Hs d1). destruct (negb _); [| by apply receive_payload_keeps_deadline].
  destruct (wd_tcp_header_decode _); [| done]. case_if; [done |].
  case_if; [destruct (wd_buffer_alloc_padded _ _ _); [| done] |];
    apply receive_payload_keeps_deadline; by destruct r1.
Qed.

(** Calls with arbitrary clocks, sockets and timeouts that all ask for more. *)
Inductive keeps_asking : wd_tcp_reader -> wd_tcp_reader -> Prop :=
  | asking_done r : keeps_asking r r
  | asking_call r r1 r2 fd alloc s s1 now i l msg :
      wd_tcp_reader_receive r fd alloc s now i l = (WD_TCP_READER_NEED_MORE, msg, r1, s1) ->
      keeps_asking r1 r2 -> keeps_asking r r2.

(** C35: a frame cannot be kept open past its lifetime by trickling
    bytes: once the deadline of a started frame is armed, no sequence of calls
    that ask for more moves it, and every call at or after the deadline reports
    a timeout and leaves the socket untouched. *)
Theorem frame_lifetime_enforced r r' D fd alloc s now i l :
  stalled r D -> keeps_asking r r' -> 0 <= fd -> rd_max_payload_size r' <> 0 -> D <= now ->
  wd_tcp_reader_receive r' fd alloc s now i l = (WD_TCP_READER_TIMED_OUT, zero_message, r', s).
Proof.
  intros Hs Hk Hfd HM Hnow.
  assert (stalled r' D) as (Hh & HD & H0).
  { induction Hk; [done |]. apply IHHk; [| done]. by eapply receive_keeps_deadline. }
  unfold wd_tcp_reader_receive.
  destruct (Z.ltb_spec fd 0); [lia |].
  destruct (Z.eqb_spec (rd_max_payload_size r') 0); [done |]. cbn [orb].
  unfold wd_tcp_reader_has_partial_frame, wd_tcp_reader_timed_out.
  destruct (Z.eqb_spec (rd_header_size r') 0); [lia |]. cbn [negb orb andb].
  rewrite HD. destruct (Z.eqb_spec D 0); [done |]. cbn [negb andb].
  replace (now >=? D) with true by (symmetry; apply Z.geb_le; lia). by rewrite orb_true_r.
Qed.

Lemma frame_lifetime_enforced_witness :
  let '(_, _, r, _) := wd_tcp_reader_receive (zero_reader 64) 3 true
    (mk_sock [1; 2] [Chunk 0]) 1000 50 200 in
  wd_tcp_reader_receive r 3 true (mk_sock [2] [Chunk 0]) 1200 50 200 =
    (WD_TCP_READER_TIMED_OUT, zero_message, r, mk_sock [2] [Chunk 0]).
Proof.
  cbn. eapply (frame_lifetime_enforced _ _ 1200); [| apply asking_done | lia | done | lia].
  repeat split; discriminate.
Defined.
