(* ===== verification/TileGrid.v ===== *)
(** * The tile grid

    src/common/wd_tile.c.  A framebuffer is the list of its 32-bit pixels in
    row order, a tile buffer the list of its bytes; copying pixels to bytes and
    back is little-endian, as on every supported host. *)
From stdpp Require Import sets.
From S2P Require Import Prelude Wire Config.

Definition wd_tiles_for_width_with_tile (width tile_width : Z) : Z :=
  if (width =? 0) || (tile_width =? 0) then 0
  else
    let count := u64 (u64 (width + tile_width) - 1) / tile_width in
    if (count =? 0) || (count >? UINT16_MAX) then 0 else u16 count.

Definition wd_tiles_for_height_with_tile (height tile_height : Z) : Z :=
  if (height =? 0) || (tile_height =? 0) then 0
  else
    let count := u64 (u64 (height + tile_height) - 1) / tile_height in
    if (count =? 0) || (count >? UINT16_MAX) then 0 else u16 count.

Definition wd_total_tiles_for_size_with_tile (width height tile_width tile_height : Z) : Z :=
  let tiles_x := wd_tiles_for_width_with_tile width tile_width in
  let tiles_y := wd_tiles_for_height_with_tile height tile_height in
  let total := u32 (tiles_x * tiles_y) in
  if (tiles_x =? 0) || (tiles_y =? 0) || (total =? 0) || (total >? UINT16_MAX) then 0
  else u16 total.

Definition wd_tiles_for_width (width : Z) : Z := wd_tiles_for_width_with_tile width WD_TILE_WIDTH.
Definition wd_tiles_for_height (height : Z) : Z :=
  wd_tiles_for_height_with_tile height WD_TILE_HEIGHT.
Definition wd_total_tiles_for_size (width height : Z) : Z :=
  wd_total_tiles_for_size_with_tile width height WD_TILE_WIDTH WD_TILE_HEIGHT.

Definition wd_tile_id_valid_for (tile_id total_tiles : Z) : bool := tile_id <? total_tiles.

Definition wd_tile_x_for (tile_id tiles_x : Z) : Z :=
  if tiles_x =? 0 then 0 else u16 (tile_id mod tiles_x).
Definition wd_tile_y_for (tile_id tiles_x : Z) : Z :=
  if tiles_x =? 0 then 0 else u16 (tile_id / tiles_x).

Definition wd_tile_start_x_for_tile (tile_id tiles_x tile_width : Z) : Z :=
  u32 (wd_tile_x_for tile_id tiles_x * tile_width).
Definition wd_tile_start_y_for_tile (tile_id tiles_x tile_height : Z) : Z :=
  u32 (wd_tile_y_for tile_id tiles_x * tile_height).

Definition wd_tile_visible_width_for_tile (display_width tile_id tiles_x tile_width : Z) : Z :=
  let start_x := wd_tile_start_x_for_tile tile_id tiles_x tile_width in
  if start_x >=? display_width then 0
  else
    let remaining := display_width - start_x in
    if remaining <? tile_width then remaining else tile_width.

Definition wd_tile_visible_height_for_tile (display_height tile_id tiles_x tile_height : Z) : Z :=
  let start_y := wd_tile_start_y_for_tile tile_id tiles_x tile_height in
  if start_y >=? display_height then 0
  else
    let remaining := display_height - start_y in
    if remaining <? tile_height then remaining else tile_height.

Definition wd_tile_id_for_pixel (x y tiles_x total_tiles tile_width tile_height : Z) : option Z :=
  if (tiles_x =? 0) || (total_tiles =? 0) || (tile_width =? 0) || (tile_height =? 0) then None
  else
    let tile_x := x / tile_width in
    let tile_y := y / tile_height in
    let tile_id := u64 (u64 (tile_y * tiles_x) + tile_x) in
    if (tile_x >=? tiles_x) || (tile_id >=? total_tiles) || (tile_id >? UINT16_MAX) then None
    else Some (u16 tile_id).

Definition wd_tile_start_x_for (tile_id tiles_x : Z) : Z :=
  wd_tile_start_x_for_tile tile_id tiles_x WD_TILE_WIDTH.
Definition wd_tile_start_y_for (tile_id tiles_x : Z) : Z :=
  wd_tile_start_y_for_tile tile_id tiles_x WD_TILE_HEIGHT.
Definition wd_tile_visible_width_for (display_width tile_id tiles_x : Z) : Z :=
  wd_tile_visible_width_for_tile display_width tile_id tiles_x WD_TILE_WIDTH.
Definition wd_tile_visible_height_for (display_height tile_id tiles_x : Z) : Z :=
  wd_tile_visible_height_for_tile display_height tile_id tiles_x WD_TILE_HEIGHT.

Definition wd_tile_layout_is_valid (framebuffer_width framebuffer_height tiles_x total_tiles tile_id
    tile_width tile_height : Z) : bool :=
  if (tile_width =? 0) || (tile_height =? 0) || negb (wd_tile_id_valid_for tile_id total_tiles) ||
     negb (tiles_x =? wd_tiles_for_width_with_tile framebuffer_width tile_width) ||
     negb (total_tiles =? wd_total_tiles_for_size_with_tile framebuffer_width framebuffer_height
             tile_width tile_height)
  then false
  else
    let tile_bytes := u64 (u64 (tile_width * tile_height) * WD_BYTES_PER_PIXEL) in
    let framebuffer_pixels := u64 (framebuffer_width * framebuffer_height) in
    (tile_bytes <=? UINT32_MAX) && (framebuffer_pixels <=? SIZE_MAX / 4).

(** ** Pixels and bytes *)

Definition pixel_bytes (pixels : list Z) : list Z := concat (le_bytes 4 <$> pixels).

Fixpoint bytes_pixels (bytes : list Z) : list Z :=
  match bytes with
  | a :: b :: c :: d :: bytes => le_value [a; b; c; d] :: bytes_pixels bytes
  | _ => []
  end.

(** The index of the first visible pixel of row [y] of a tile. *)
Definition row_index (framebuffer_width start_x start_y y : Z) : Z :=
  u64 (u64 (u32 (start_y + y) * framebuffer_width) + start_x).

(** ** Operations on pixels; [None] is a false result *)

Definition hash_pixel (h pixel : Z) : Z := u32 (Z.lxor h pixel * 16777619).

Definition wd_fnv1a_tile_hash_xrgb8888_for_tile (framebuffer_xrgb8888 : ptr (list Z))
    (framebuffer_width framebuffer_height tiles_x total_tiles tile_id tile_width tile_height : Z)
    : option Z :=
  match framebuffer_xrgb8888 with
  | NULL => None
  | Some fb =>
      if negb (wd_tile_layout_is_valid framebuffer_width framebuffer_height tiles_x total_tiles
                 tile_id tile_width tile_height)
      then None
      else
        let start_x := wd_tile_start_x_for_tile tile_id tiles_x tile_width in
        let start_y := wd_tile_start_y_for_tile tile_id tiles_x tile_height in
        let visible_width :=
          wd_tile_visible_width_for_tile framebuffer_width tile_id tiles_x tile_width in
        let visible_height :=
          wd_tile_visible_height_for_tile framebuffer_height tile_id tiles_x tile_height in
        Some (fold_left
          (fun h y =>
             let row := row_index framebuffer_width start_x start_y y in
             fold_left (fun h x => hash_pixel h (aget 0 fb (row + x))) (zseq visible_width) h)
          (zseq visible_height) 2166136261)
  end.

Definition wd_extract_tile_xrgb8888_for_tile_sized (framebuffer_xrgb8888 : ptr (list Z))
    (framebuffer_width framebuffer_height tiles_x total_tiles tile_id tile_width tile_height : Z)
    (out_tile_bytes : ptr (list Z)) (out_capacity : Z) : option (list Z) :=
  match framebuffer_xrgb8888, out_tile_bytes with
  | Some fb, Some out =>
      if negb (wd_tile_layout_is_valid framebuffer_width framebuffer_height tiles_x total_tiles
                 tile_id tile_width tile_height) ||
         (out_capacity <? u64 (u64 (tile_width * tile_height) * WD_BYTES_PER_PIXEL))
      then None
      else
        let start_x := wd_tile_start_x_for_tile tile_id tiles_x tile_width in
        let start_y := wd_tile_start_y_for_tile tile_id tiles_x tile_height in
        let visible_width :=
          wd_tile_visible_width_for_tile framebuffer_width tile_id tiles_x tile_width in
        let visible_height :=
          wd_tile_visible_height_for_tile framebuffer_height tile_id tiles_x tile_height in
        let tile_bytes := u32 (u32 (tile_width * tile_height) * WD_BYTES_PER_PIXEL) in
        let out := write_at 0 (replicate (Z.to_nat tile_bytes) 0) out in
        Some (copy_rows visible_height
          (fun y => u32 (u32 (y * tile_width) * WD_BYTES_PER_PIXEL))
          (fun y => take (Z.to_nat (u32 (visible_width * WD_BYTES_PER_PIXEL)))
             (pixel_bytes (slice (row_index framebuffer_width start_x start_y y)
                             visible_width fb)))
          out)
  | _, _ => None
  end.

Definition wd_blit_tile_xrgb8888_for_tile_sized (framebuffer_xrgb8888 : ptr (list Z))
    (framebuffer_width framebuffer_height tiles_x total_tiles tile_id tile_width tile_height : Z)
    (tile_bytes : ptr (list Z)) (tile_capacity : Z) : option (list Z) :=
  match framebuffer_xrgb8888, tile_bytes with
  | Some fb, Some bytes =>
      if negb (wd_tile_layout_is_valid framebuffer_width framebuffer_height tiles_x total_tiles
                 tile_id tile_width tile_height) ||
         (tile_capacity <? u64 (u64 (tile_width * tile_height) * WD_BYTES_PER_PIXEL))
      then None
      else
        let start_x := wd_tile_start_x_for_tile tile_id tiles_x tile_width in
        let start_y := wd_tile_start_y_for_tile tile_id tiles_x tile_height in
        let visible_width :=
          wd_tile_visible_width_for_tile framebuffer_width tile_id tiles_x tile_width in
        let visible_height :=
          wd_tile_visible_height_for_tile framebuffer_height tile_id tiles_x tile_height in
        Some (copy_rows visible_height
          (row_index framebuffer_width start_x start_y)
          (fun y => bytes_pixels
             (slice (u32 (u32 (y * tile_width) * WD_BYTES_PER_PIXEL))
                (u32 (visible_width * WD_BYTES_PER_PIXEL)) bytes))
          fb)
  | _, _ => None
  end.

Definition wd_extract_tile_xrgb8888_for_tile fb (framebuffer_width framebuffer_height tiles_x
    total_tiles tile_id tile_width tile_height : Z) out_tile_bytes : option (list Z) :=
  wd_extract_tile_xrgb8888_for_tile_sized fb framebuffer_width framebuffer_height tiles_x
    total_tiles tile_id tile_width tile_height out_tile_bytes
    (u64 (u64 (tile_width * tile_height) * WD_BYTES_PER_PIXEL)).

Definition wd_blit_tile_xrgb8888_for_tile fb (framebuffer_width framebuffer_height tiles_x
    total_tiles tile_id tile_width tile_height : Z) tile_bytes : option (list Z) :=
  wd_blit_tile_xrgb8888_for_tile_sized fb framebuffer_width framebuffer_height tiles_x
    total_tiles tile_id tile_width tile_height tile_bytes
    (u64 (u64 (tile_width * tile_height) * WD_BYTES_PER_PIXEL)).

Definition wd_fnv1a_tile_hash_xrgb8888_for fb (framebuffer_width framebuffer_height tiles_x
    total_tiles tile_id : Z) : option Z :=
  wd_fnv1a_tile_hash_xrgb8888_for_tile fb framebuffer_width framebuffer_height tiles_x
    total_tiles tile_id WD_TILE_WIDTH WD_TILE_HEIGHT.

Definition wd_extract_tile_xrgb8888_for fb (framebuffer_width framebuffer_height tiles_x
    total_tiles tile_id : Z) out_tile_bytes : option (list Z) :=
  wd_extract_tile_xrgb8888_for_tile fb framebuffer_width framebuffer_height tiles_x total_tiles
    tile_id WD_TILE_WIDTH WD_TILE_HEIGHT out_tile_bytes.

Definition wd_blit_tile_xrgb8888_for fb (framebuffer_width framebuffer_height tiles_x
    total_tiles tile_id : Z) tile_bytes : option (list Z) :=
  wd_blit_tile_xrgb8888_for_tile fb framebuffer_width framebuffer_height tiles_x total_tiles
    tile_id WD_TILE_WIDTH WD_TILE_HEIGHT tile_bytes.

Definition wd_tile_id_valid (tile_id : Z) : bool := wd_tile_id_valid_for tile_id WD_TOTAL_TILES.
Definition wd_tile_x (tile_id : Z) : Z := wd_tile_x_for tile_id WD_TILES_X.
Definition wd_tile_y (tile_id : Z) : Z := wd_tile_y_for tile_id WD_TILES_X.
Definition wd_tile_start_x (tile_id : Z) : Z := wd_tile_start_x_for tile_id WD_TILES_X.
Definition wd_tile_start_y (tile_id : Z) : Z := wd_tile_start_y_for tile_id WD_TILES_X.

Definition wd_fnv1a_tile_hash_xrgb8888 fb (tile_id : Z) : option Z :=
  wd_fnv1a_tile_hash_xrgb8888_for fb WD_DISPLAY_WIDTH WD_DISPLAY_HEIGHT WD_TILES_X WD_TOTAL_TILES
    tile_id.
Definition wd_extract_tile_xrgb8888 fb (tile_id : Z) out_tile_bytes : option (list Z) :=
  wd_extract_tile_xrgb8888_for fb WD_DISPLAY_WIDTH WD_DISPLAY_HEIGHT WD_TILES_X WD_TOTAL_TILES
    tile_id out_tile_bytes.
Definition wd_blit_tile_xrgb8888 fb (tile_id : Z) tile_bytes : option (list Z) :=
  wd_blit_tile_xrgb8888_for fb WD_DISPLAY_WIDTH WD_DISPLAY_HEIGHT WD_TILES_X WD_TOTAL_TILES
    tile_id tile_bytes.

(** ** Geometry *)

Lemma tiles_for_width_spec w t n :
  u32_ok w -> u16_ok t -> wd_tiles_for_width_with_tile w t = n -> n <> 0 ->
  0 < w /\ 0 < t /\ n = cdiv w t /\ 0 < n <= UINT16_MAX.
Proof.
  intros Hw Ht. unfold wd_tiles_for_width_with_tile. case_if; [naive_solver |]. bool_cases.
  rewrite (u64_small (w + t)), u64_small by mlia. fold (cdiv w t).
  assert (0 < cdiv w t) by (apply cdiv_pos; mlia).
  case_if; [naive_solver |]. bool_cases. rewrite u16_small by mlia. intros <- _. mlia.
Qed.

Lemma tiles_for_height_same : wd_tiles_for_height_with_tile = wd_tiles_for_width_with_tile.
Proof. reflexivity. Qed.

Record layout (W H tx tot id tw th : Z) : Prop := {
  ly_pos : 0 < W <= UINT32_MAX /\ 0 < H <= UINT32_MAX /\ 0 < tw <= UINT16_MAX /\ 0 < th <= UINT16_MAX;
  ly_x : tx = cdiv W tw /\ 0 < tx <= UINT16_MAX;
  ly_total : tot = tx * cdiv H th /\ 0 < cdiv H th <= UINT16_MAX /\ tot <= UINT16_MAX;
  ly_id : 0 <= id < tot;
  ly_bytes : tw * th * 4 <= UINT32_MAX;
  ly_pixels : W * H <= SIZE_MAX / 4;
}.

Lemma layout_of_valid W H tx tot id tw th :
  u32_ok W -> u32_ok H -> u16_ok tw -> u16_ok th -> 0 <= id ->
  wd_tile_layout_is_valid W H tx tot id tw th = true -> layout W H tx tot id tw th.
Proof.
  intros HW HH Htw Hth Hid. unfold wd_tile_layout_is_valid, wd_tile_id_valid_for.
  case_if; [done |]. bool_cases. intros Hv. bool_cases.
  rewrite (u64_small (tw * th)) in * by (wd_bounds; nia).
  rewrite (u64_small (tw * th * WD_BYTES_PER_PIXEL)) in *
    by (unfold WD_BYTES_PER_PIXEL; wd_bounds; nia).
  rewrite (u64_small (W * H)) in * by (wd_bounds; nia).
  match goal with H : tot = _ |- _ => unfold wd_total_tiles_for_size_with_tile in H; rename H into Ht end.
  rewrite tiles_for_height_same in Ht.
  match goal with H : tx = _ |- _ => rename H into Hx end. rewrite <- Hx in Ht.
  set (ty := wd_tiles_for_width_with_tile H th) in *.
  case_if_in Ht; [lia |]. bool_cases.
  destruct (tiles_for_width_spec W tw tx HW Htw) as (? & ? & ? & ?); [done | lia |].
  destruct (tiles_for_width_spec H th ty HH Hth eq_refl) as (? & ? & ? & ?); [lia |].
  rewrite (u32_small (tx * ty)) in * by (wd_bounds; nia).
  rewrite u16_small in Ht by (wd_bounds; nia).
  unfold WD_BYTES_PER_PIXEL in *.
  split; mlia.
Qed.

Section geometry.
Context (W H tx tot id tw th : Z) (L : layout W H tx tot id tw th).

Definition tile_left : Z := (id mod tx) * tw.
Definition tile_top : Z := (id / tx) * th.
Definition tile_vw : Z := Z.min tw (W - tile_left).
Definition tile_vh : Z := Z.min th (H - tile_top).

Lemma tile_column : 0 <= id mod tx < tx /\ 0 <= tile_left < W.
Proof.
  destruct L. destruct_and! ly_pos0. destruct_and! ly_x0.
  pose proof (Z.mod_pos_bound id tx ltac:(lia)).
  pose proof (proj1 (cdiv_spec W tw tx ltac:(lia)) ltac:(done)).
  unfold tile_left. nia.
Qed.

Lemma tile_row : 0 <= id / tx < cdiv H th /\ 0 <= tile_top < H.
Proof.
  destruct L. destruct_and! ly_pos0. destruct_and! ly_x0. destruct_and! ly_total0.
  assert (0 <= id / tx < cdiv H th) as Hr.
  { split; [apply Z.div_pos; lia |]. apply Z.div_lt_upper_bound; [lia |]. lia. }
  pose proof (proj1 (cdiv_spec H th _ ltac:(lia)) eq_refl).
  unfold tile_top. split; [done |]. nia.
Qed.

Lemma start_x_eq : wd_tile_start_x_for_tile id tx tw = tile_left.
Proof.
  pose proof tile_column. destruct L. destruct_and! ly_pos0. destruct_and! ly_x0.
  unfold wd_tile_start_x_for_tile, wd_tile_x_for, tile_left in *.
  destruct (Z.eqb_spec tx 0); [lia |]. rewrite u16_small by mlia. rewrite u32_small; [done | mlia].
Qed.

Lemma start_y_eq : wd_tile_start_y_for_tile id tx th = tile_top.
Proof.
  pose proof tile_row. destruct L. destruct_and! ly_pos0. destruct_and! ly_x0.
  destruct_and! ly_total0.
  unfold wd_tile_start_y_for_tile, wd_tile_y_for, tile_top in *.
  destruct (Z.eqb_spec tx 0); [lia |]. rewrite u16_small by mlia. rewrite u32_small; [done | mlia].
Qed.

Lemma visible_width_eq : wd_tile_visible_width_for_tile W id tx tw = tile_vw.
Proof.
  pose proof tile_column. unfold wd_tile_visible_width_for_tile. rewrite start_x_eq.
  unfold tile_vw. crush_if; lia.
Qed.

Lemma visible_height_eq : wd_tile_visible_height_for_tile H id tx th = tile_vh.
Proof.
  pose proof tile_row. unfold wd_tile_visible_height_for_tile. rewrite start_y_eq.
  unfold tile_vh. crush_if; lia.
Qed.

Lemma row_index_eq y : 0 <= y < tile_vh ->
  row_index W tile_left tile_top y = (tile_top + y) * W + tile_left /\
  0 <= (tile_top + y) * W + tile_left /\ (tile_top + y) * W + tile_left + tile_vw <= W * H.
Proof.
  intros Hy. pose proof tile_column. pose proof tile_row.
  assert (tile_vh <= H - tile_top) by (unfold tile_vh; lia).
  assert (tile_vw <= W - tile_left) by (unfold tile_vw; lia).
  assert ((tile_top + y) * W + W <= W * H) by nia.
  destruct L. destruct_and! ly_pos0.
  assert (W * H <= SIZE_MAX) by (etransitivity; [exact ly_pixels0 |]; vm_compute; congruence).
  unfold row_index. rewrite (u32_small (tile_top + y)) by mlia.
  rewrite (u64_small ((tile_top + y) * W)) by (wd_bounds; nia).
  rewrite u64_small by (wd_bounds; nia). nia.
Qed.

(** A pixel belongs to the tile exactly when it lies in its visible rectangle. *)
Lemma pixel_in_tile x y :
  0 <= x < W -> 0 <= y < H ->
  wd_tile_id_for_pixel x y tx tot tw th = Some id <->
  tile_left <= x < tile_left + tile_vw /\ tile_top <= y < tile_top + tile_vh.
Proof.
  intros Hx Hy. pose proof tile_column. pose proof tile_row.
  destruct L. destruct_and! ly_pos0. destruct_and! ly_x0. destruct_and! ly_total0.
  unfold wd_tile_id_for_pixel.
  replace ((tx =? 0) || (tot =? 0) || (tw =? 0) || (th =? 0)) with false by
    (symmetry; rewrite !orb_false_iff, !Z.eqb_neq; lia).
  pose proof (div_lt_cdiv W tw x ltac:(lia) Hx). pose proof (div_lt_cdiv H th y ltac:(lia) Hy).
  assert (0 <= x / tw) by (apply Z.div_pos; lia). assert (0 <= y / th) by (apply Z.div_pos; lia).
  assert (y / th * tx + x / tw < tot) by nia.
  rewrite (u64_small (y / th * tx)), u64_small by (wd_bounds; nia).
  case_if; [repeat apply orb_true_iff in E as [E|E]; bool_cases; mlia |].
  rewrite u16_small by (wd_bounds; nia).
  assert (y / th * tx + x / tw = id <-> x / tw = id mod tx /\ y / th = id / tx) as Hid.
  { split.
    - intros <-. split; [apply Z.mod_unique with (q := y / th); lia |].
      apply Z.div_unique with (r := x / tw); lia.
    - intros [-> ->]. pose proof (Z.div_mod id tx). lia. }
  assert (forall a b q, 0 < b -> (a / b = q <-> q * b <= a < q * b + b)) as Hdiv.
  { intros a b q Hb. split.
    - intros <-. pose proof (Z.div_mod a b). pose proof (Z.mod_pos_bound a b). lia.
    - intros Hq. symmetry. apply Z.div_unique with (r := a - q * b); lia. }
  split.
  - intros [= Hi]. apply Hid in Hi as [Ha Hb]. apply Hdiv in Ha, Hb; try lia.
    unfold tile_vw, tile_vh, tile_left, tile_top in *. lia.
  - intros [Ha Hb]. f_equal. apply Hid. rewrite !Hdiv by lia.
    unfold tile_vw, tile_vh, tile_left, tile_top in *. lia.
Qed.
End geometry.

(** ** Copying pixels *)

Lemma zlen_pixel_bytes l : zlen (pixel_bytes l) = 4 * zlen l.
Proof.
  unfold zlen, pixel_bytes. induction l as [|p l IH]; [done |].
  cbn [fmap list_fmap concat]. rewrite length_app, le_bytes_length. cbn [length]. lia.
Qed.

Lemma bytes_pixels_pixel_bytes l : Forall u32_ok l -> bytes_pixels (pixel_bytes l) = l.
Proof.
  induction 1 as [|p l Hp _ IH]; [done |].
  change (pixel_bytes (p :: l)) with (le_bytes 4 p ++ pixel_bytes l).
  pose proof (le_value_bytes 4 p ltac:(unfold fits; cbn; mlia)) as Hv.
  cbn [le_bytes app bytes_pixels]. cbn [le_bytes] in Hv. by rewrite Hv, IH.
Qed.

Lemma slice_ext (l k : list Z) off len :
  0 <= off -> zlen k = len -> off + len <= zlen l ->
  (forall i, 0 <= i < len -> aget 0 l (off + i) = aget 0 k i) -> slice off len l = k.
Proof.
  intros Ho Hk Hl He. pose proof (zlen_nonneg k). apply (aget_ext 0).
  - rewrite zlen_slice; lia.
  - intros i Hi. rewrite zlen_slice in Hi by lia. rewrite aget_slice by lia. by apply He.
Qed.

Lemma Forall_slice {A} (P : A -> Prop) off len l : Forall P l -> Forall P (slice off len l).
Proof. intros Hl. unfold slice. by apply Forall_take, Forall_drop. Qed.

Section copying.
Context (W H tx tot id tw th : Z) (L : layout W H tx tot id tw th).
Context (Hvalid : wd_tile_layout_is_valid W H tx tot id tw th = true).

Abbreviation left := (tile_left tx id tw).
Abbreviation top := (tile_top tx id th).
Abbreviation vw := (tile_vw W tx id tw).
Abbreviation vh := (tile_vh H tx id th).

Lemma visible_bounds : 0 < vw <= tw /\ 0 < vh <= th.
Proof.
  pose proof (tile_column W H tx tot id tw th L). pose proof (tile_row W H tx tot id tw th L).
  destruct L. unfold tile_vw, tile_vh. lia.
Qed.

Lemma tile_byte_offsets y : 0 <= y < vh ->
  u32 (u32 (y * tw) * WD_BYTES_PER_PIXEL) = y * tw * 4 /\ 0 <= y * tw * 4 /\
  y * tw * 4 + vw * 4 <= tw * th * 4 /\ u32 (vw * WD_BYTES_PER_PIXEL) = vw * 4.
Proof.
  intros Hy. pose proof visible_bounds. destruct L. destruct_and! ly_pos0.
  unfold WD_BYTES_PER_PIXEL.
  assert (y * tw + tw <= tw * th) by nia.
  rewrite (u32_small (y * tw)), u32_small, u32_small by (wd_bounds; nia). lia.
Qed.

Lemma tile_capacity : u64 (u64 (tw * th) * WD_BYTES_PER_PIXEL) = tw * th * 4 /\
  u32 (u32 (tw * th) * WD_BYTES_PER_PIXEL) = tw * th * 4.
Proof.
  destruct L. destruct_and! ly_pos0. unfold WD_BYTES_PER_PIXEL.
  assert (0 < tw * th) by nia.
  rewrite (u64_small (tw * th)), u64_small, (u32_small (tw * th)), u32_small by mlia. done.
Qed.

(** The extracted buffer holds the visible rows at the tile's own pitch. *)
Lemma extract_rows fb out cap :
  zlen fb = W * H -> tw * th * 4 <= zlen out -> tw * th * 4 <= cap ->
  exists out',
    wd_extract_tile_xrgb8888_for_tile_sized (Some fb) W H tx tot id tw th (Some out) cap =
      Some out' /\ zlen out' = zlen out /\
    forall y, 0 <= y < vh ->
      slice (y * tw * 4) (vw * 4) out' = pixel_bytes (slice ((top + y) * W + left) vw fb).
Proof.
  intros Hfb Hout Hcap. pose proof visible_bounds as Hb. pose proof tile_capacity as [Hc1 Hc2].
  unfold wd_extract_tile_xrgb8888_for_tile_sized. rewrite Hvalid, Hc1, Hc2.
  replace (cap <? tw * th * 4) with false by (symmetry; apply Z.ltb_ge; lia). cbn [negb orb].
  eexists. split; [reflexivity |].
  rewrite (start_x_eq W H tx tot id tw th L), (start_y_eq W H tx tot id tw th L),
    (visible_width_eq W H tx tot id tw th L), (visible_height_eq W H tx tot id tw th L).
  set (off := fun y => u32 (u32 (y * tw) * WD_BYTES_PER_PIXEL)).
  set (row := fun y => take (Z.to_nat (u32 (vw * WD_BYTES_PER_PIXEL)))
    (pixel_bytes (slice (row_index W left top y) vw fb))).
  set (out0 := write_at 0 (replicate (Z.to_nat (tw * th * 4)) 0) out).
  assert (zlen out0 = zlen out) as H0.
  { apply zlen_write_at; [lia |]. unfold zlen. rewrite length_replicate. unfold zlen in Hout. lia. }
  assert (forall y, 0 <= y < vh -> off y = y * tw * 4 /\ zlen (row y) = vw * 4 /\
    row y = pixel_bytes (slice ((top + y) * W + left) vw fb)) as Hrow.
  { intros y Hy. destruct (tile_byte_offsets y Hy) as (Ho & _ & _ & Hv).
    destruct (row_index_eq W H tx tot id tw th L y Hy) as (Hri & Hr0 & Hr1).
    assert (zlen (pixel_bytes (slice ((top + y) * W + left) vw fb)) = vw * 4) as Hl
      by (rewrite zlen_pixel_bytes, zlen_slice; lia).
    assert (row y = pixel_bytes (slice ((top + y) * W + left) vw fb)) as Hre.
    { unfold row. rewrite Hri, Hv. apply take_ge. unfold zlen in Hl. lia. }
    split_and!; [exact Ho | by rewrite Hre | exact Hre]. }
  destruct (copy_rows_spec vh off row out0) as (Hl & Hin & _).
  - lia.
  - intros y Hy. destruct (Hrow y Hy) as (-> & -> & _).
    destruct (tile_byte_offsets y Hy) as (_ & ? & ? & _). lia.
  - intros y z Hy Hz. destruct (Hrow y ltac:(lia)) as (-> & -> & _).
    destruct (Hrow z ltac:(lia)) as (-> & _). nia.
  - split; [by rewrite Hl |]. intros y Hy. destruct (Hrow y Hy) as (Ho & Hlen & Hre).
    destruct (tile_byte_offsets y Hy) as (_ & ? & ? & _).
    apply slice_ext; [lia | by rewrite <- Hre | rewrite Hl; lia |].
    intros i Hi. rewrite <- Hre, <- Ho. apply Hin; lia.
Qed.

(** Blitting writes the visible rows and nothing else. *)
Lemma blit_rows fb bytes cap (pixels : Z -> list Z) :
  zlen fb = W * H -> tw * th * 4 <= cap ->
  (forall y, 0 <= y < vh -> zlen (pixels y) = vw /\
     bytes_pixels (slice (y * tw * 4) (vw * 4) bytes) = pixels y) ->
  exists fb',
    wd_blit_tile_xrgb8888_for_tile_sized (Some fb) W H tx tot id tw th (Some bytes) cap =
      Some fb' /\ zlen fb' = W * H /\
    forall x y, 0 <= x < W -> 0 <= y < H ->
      aget 0 fb' (y * W + x) =
        if bool_decide (left <= x < left + vw /\ top <= y < top + vh)
        then aget 0 (pixels (y - top)) (x - left) else aget 0 fb (y * W + x).
Proof.
  intros Hfb Hcap Hpx. pose proof visible_bounds as Hb. pose proof tile_capacity as [Hc1 _].
  pose proof (tile_column W H tx tot id tw th L). pose proof (tile_row W H tx tot id tw th L).
  unfold wd_blit_tile_xrgb8888_for_tile_sized. rewrite Hvalid, Hc1.
  replace (cap <? tw * th * 4) with false by (symmetry; apply Z.ltb_ge; lia). cbn [negb orb].
  eexists. split; [reflexivity |].
  rewrite (start_x_eq W H tx tot id tw th L), (start_y_eq W H tx tot id tw th L),
    (visible_width_eq W H tx tot id tw th L), (visible_height_eq W H tx tot id tw th L).
  set (row := fun y => bytes_pixels _).
  assert (forall y, 0 <= y < vh -> row_index W left top y = (top + y) * W + left /\
    row y = pixels y /\ zlen (row y) = vw) as Hrow.
  { intros y Hy. destruct (tile_byte_offsets y Hy) as (Ho & _ & _ & Hv).
    destruct (row_index_eq W H tx tot id tw th L y Hy) as (Hri & _).
    destruct (Hpx y Hy) as [Hl He]. unfold row. rewrite Ho, Hv, He. done. }
  assert (vw <= W - left) by (unfold tile_vw; lia).
  assert (vh <= H - top) by (unfold tile_vh; lia).
  destruct (copy_rows_spec vh (row_index W left top) row fb) as (Hl & Hin & Hout).
  - lia.
  - intros y Hy. destruct (Hrow y Hy) as (-> & _ & ->).
    destruct (row_index_eq W H tx tot id tw th L y Hy) as (_ & ? & ?). lia.
  - intros y z Hy Hz. destruct (Hrow y ltac:(lia)) as (-> & _ & ->).
    destruct (Hrow z ltac:(lia)) as (-> & _). nia.
  - split; [lia |]. intros x y Hx Hy. case_bool_decide as Hd.
    + destruct (Hrow (y - top) ltac:(lia)) as (Hri & Hre & Hrl).
      specialize (Hin (y - top) (x - left) ltac:(lia) ltac:(lia)).
      rewrite Hri, Hre in Hin. rewrite <- Hin. f_equal. lia.
    + apply Hout; [nia |]. intros z Hz. destruct (Hrow z Hz) as (-> & _ & ->).
      destruct (Z.eq_dec (top + z) y) as [Hyz|Hyz]; [subst y; lia |].
      assert (top + z < y \/ y < top + z) as [?|?] by lia; nia.
Qed.
End copying.

Lemma extract_zlen_slice (fb : list Z) W H tx tot id tw th y :
  layout W H tx tot id tw th -> zlen fb = W * H -> 0 <= y < tile_vh H tx id th ->
  zlen (slice ((tile_top tx id th + y) * W + tile_left tx id tw) (tile_vw W tx id tw) fb) =
  tile_vw W tx id tw.
Proof.
  intros L Hfb Hy. pose proof (visible_bounds W H tx tot id tw th L).
  destruct (row_index_eq W H tx tot id tw th L y Hy) as (_ & ? & ?).
  apply zlen_slice; lia.
Qed.

(** One tile: the bytes extracted from the server's framebuffer and blitted
    into the client's make the pixels of the tile equal and keep the others. *)
Lemma tile_transfer W H tx tot id tw th (server client out : list Z) :
  u32_ok W -> u32_ok H -> u16_ok tw -> u16_ok th -> 0 <= id ->
  wd_tile_layout_is_valid W H tx tot id tw th = true ->
  zlen server = W * H -> zlen client = W * H -> Forall u32_ok server ->
  zlen out = tw * th * 4 ->
  exists bytes client',
    wd_extract_tile_xrgb8888_for_tile (Some server) W H tx tot id tw th (Some out) = Some bytes /\
    wd_blit_tile_xrgb8888_for_tile (Some client) W H tx tot id tw th (Some bytes) = Some client' /\
    zlen client' = W * H /\
    forall x y, 0 <= x < W -> 0 <= y < H ->
      aget 0 client' (y * W + x) =
        if bool_decide (wd_tile_id_for_pixel x y tx tot tw th = Some id)
        then aget 0 server (y * W + x) else aget 0 client (y * W + x).
Proof.
  intros HW HH Htw Hth Hid Hv Hs Hc Hpx Ho.
  pose proof (layout_of_valid W H tx tot id tw th HW HH Htw Hth Hid Hv) as L.
  pose proof (tile_capacity W H tx tot id tw th L) as [Hcap _].
  unfold wd_extract_tile_xrgb8888_for_tile, wd_blit_tile_xrgb8888_for_tile. rewrite Hcap.
  destruct (extract_rows W H tx tot id tw th L Hv server out (tw * th * 4))
    as (bytes & Eb & Hlb & Hrows); [done | lia | lia |].
  destruct (blit_rows W H tx tot id tw th L Hv client bytes (tw * th * 4)
    (fun y => slice ((tile_top tx id th + y) * W + tile_left tx id tw) (tile_vw W tx id tw) server))
    as (client' & Ec & Hl' & Hpix); [done | lia | |].
  { intros y Hy. split; [by eapply extract_zlen_slice |].
    rewrite Hrows by done. apply bytes_pixels_pixel_bytes. by apply Forall_slice. }
  exists bytes, client'. split_and!; [done | done | done |].
  intros x y Hx Hy. rewrite (Hpix x y Hx Hy).
  rewrite (bool_decide_ext _ _ (pixel_in_tile W H tx tot id tw th L x y Hx Hy)).
  case_bool_decide as Hd; [| done].
  pose proof (tile_column W H tx tot id tw th L). pose proof (tile_row W H tx tot id tw th L).
  rewrite aget_slice; [f_equal; lia | nia | lia].
Qed.

(** Every pixel of the framebuffer has a tile. *)
Lemma pixel_has_tile W H tx tot id tw th x y :
  layout W H tx tot id tw th -> 0 <= x < W -> 0 <= y < H ->
  exists i, wd_tile_id_for_pixel x y tx tot tw th = Some i /\ 0 <= i < tot.
Proof.
  intros [] Hx Hy. destruct_and! ly_pos0. destruct_and! ly_x0. destruct_and! ly_total0.
  pose proof (div_lt_cdiv W tw x ltac:(lia) Hx). pose proof (div_lt_cdiv H th y ltac:(lia) Hy).
  assert (0 <= x / tw) by (apply Z.div_pos; lia). assert (0 <= y / th) by (apply Z.div_pos; lia).
  assert (0 <= y / th * tx + x / tw < tot) by nia.
  unfold wd_tile_id_for_pixel.
  replace ((tx =? 0) || (tot =? 0) || (tw =? 0) || (th =? 0)) with false by
    (symmetry; rewrite !orb_false_iff, !Z.eqb_neq; lia).
  rewrite (u64_small (y / th * tx)), u64_small by (wd_bounds; nia).
  case_if; [repeat apply orb_true_iff in E as [E|E]; bool_cases; mlia |].
  rewrite u16_small by (wd_bounds; lia). eexists. split; [reflexivity | lia].
Qed.

(** Sending a list of tiles, one after the other, into the client's
    framebuffer. *)
Fixpoint transfer_tiles (server : list Z) (W H tx tot tw th : Z) (ids : list Z) (client : list Z)
    : option (list Z) :=
  match ids with
  | [] => Some client
  | id :: ids =>
      match wd_extract_tile_xrgb8888_for_tile (Some server) W H tx tot id tw th
              (Some (replicate (Z.to_nat (tw * th * 4)) 0)) with
      | None => None
      | Some bytes =>
          match wd_blit_tile_xrgb8888_for_tile (Some client) W H tx tot id tw th (Some bytes) with
          | None => None
          | Some client' => transfer_tiles server W H tx tot tw th ids client'
          end
      end
  end.

(** What a sequence of transfers leaves in the client's framebuffer. *)
Lemma transfer_tiles_pixels W H tx tot tw th (server : list Z) ids (client : list Z) :
  u32_ok W -> u32_ok H -> u16_ok tw -> u16_ok th ->
  (forall id, In id ids -> 0 <= id /\ wd_tile_layout_is_valid W H tx tot id tw th = true) ->
  zlen server = W * H -> zlen client = W * H -> Forall u32_ok server ->
  exists client',
    transfer_tiles server W H tx tot tw th ids client = Some client' /\ zlen client' = W * H /\
    forall x y i, 0 <= x < W -> 0 <= y < H -> wd_tile_id_for_pixel x y tx tot tw th = Some i ->
      aget 0 client' (y * W + x) =
        if bool_decide (i ∈ ids) then aget 0 server (y * W + x) else aget 0 client (y * W + x).
Proof.
  intros HW HH Htw Hth Hids Hs. revert client. induction ids as [|id ids IH]; intros client Hc Hpx.
  - exists client. split_and!; [done | done |]. intros. by rewrite bool_decide_eq_false_2 by set_solver.
  - destruct (Hids id (or_introl eq_refl)) as [Hid Hv]. cbn [transfer_tiles].
    destruct (tile_transfer W H tx tot id tw th server client
      (replicate (Z.to_nat (tw * th * 4)) 0)) as (bytes & c1 & -> & -> & Hl1 & Hp1); try done.
    { unfold zlen. rewrite length_replicate. wd_bounds. nia. }
    destruct (IH ltac:(intros; apply Hids; by right) c1 Hl1 Hpx) as (c2 & -> & Hl2 & Hp2).
    exists c2. split_and!; [done | done |]. intros x y i Hx Hy Hi.
    rewrite (Hp2 x y i Hx Hy Hi), (Hp1 x y Hx Hy), Hi.
    destruct (decide (i ∈ ids)) as [Hin|Hin].
    + rewrite !bool_decide_eq_true_2 by set_solver. done.
    + rewrite (bool_decide_eq_false_2 (i ∈ ids)) by done.
      destruct (decide (i = id)) as [->|Hne].
      * rewrite !bool_decide_eq_true_2 by set_solver. done.
      * rewrite !bool_decide_eq_false_2 by (set_solver || congruence). done.
Qed.

(** C2: streaming tiles. For every framebuffer geometry the layout test
    accepts, sending any list of tiles (extract on the server, blit on the
    client) succeeds and leaves the client with the server's pixel wherever the
    pixel's tile, as [wd_tile_id_for_pixel] computes it, was sent, and with its
    old pixel elsewhere; every pixel has a tile, so sending all of them makes the
    framebuffers equal. *)
Theorem tiles_transferred W H tx tot tw th (server : list Z) ids (client : list Z) :
  u32_ok W -> u32_ok H -> u16_ok tw -> u16_ok th ->
  (forall id, In id ids -> 0 <= id /\ wd_tile_layout_is_valid W H tx tot id tw th = true) ->
  zlen server = W * H -> zlen client = W * H -> Forall u32_ok server ->
  exists client',
    transfer_tiles server W H tx tot tw th ids client = Some client' /\ zlen client' = W * H /\
    (forall x y i, 0 <= x < W -> 0 <= y < H -> wd_tile_id_for_pixel x y tx tot tw th = Some i ->
      aget 0 client' (y * W + x) =
        if bool_decide (i ∈ ids) then aget 0 server (y * W + x) else aget 0 client (y * W + x)) /\
    (0 < tot -> (forall i, 0 <= i < tot -> i ∈ ids) -> client' = server).
Proof.
  intros HW HH Htw Hth Hids Hs Hc Hpx.
  destruct (transfer_tiles_pixels W H tx tot tw th server ids client)
    as (c & E & Hl & Hp); try done.
  exists c. split_and!; [done | done | done |]. intros Ht Hall. apply (aget_ext 0); [lia |].
  intros i Hi. rewrite Hl in Hi.
  destruct (Hids 0) as [_ Hv]; [apply list_elem_of_In, Hall; lia |].
  pose proof (layout_of_valid W H tx tot 0 tw th HW HH Htw Hth ltac:(lia) Hv) as L.
  assert (0 < W /\ 0 < H) as [HW0 HH0] by (destruct L; lia).
  pose proof (Z.mod_pos_bound i W HW0). pose proof (Z.div_mod i W ltac:(lia)).
  assert (0 <= i / W < H) by (split; [apply Z.div_pos; lia | apply Z.div_lt_upper_bound; lia]).
  destruct (pixel_has_tile W H tx tot 0 tw th (i mod W) (i / W) L) as (j & Hj & Hjr); [done | done |].
  specialize (Hp (i mod W) (i / W) j ltac:(done) ltac:(done) Hj).
  rewrite bool_decide_eq_true_2 in Hp by by apply Hall.
  replace (i / W * W + i mod W) with i in Hp by lia. done.
Qed.

Lemma tiles_transferred_witness :
  exists client',
    transfer_tiles (zseq 15) 5 3 3 6 2 2 [0; 1; 2; 3; 4; 5] (replicate 15 0) = Some client' /\
    client' = zseq 15.
Proof.
  destruct (tiles_transferred 5 3 3 6 2 2 (zseq 15) [0; 1; 2; 3; 4; 5] (replicate 15 0))
    as (c & E & _ & _ & Hall); try mlia; try reflexivity.
  - intros id Hid. simpl in Hid. destruct_or! Hid; subst; done.
  - apply Forall_forall. intros x Hx. apply elem_of_zseq in Hx. mlia.
  - exists c. split; [exact E |]. apply Hall; [lia |]. intros i Hi.
    assert (In i (zseq 6)) as Hin by (apply elem_of_zseq; lia). by apply list_elem_of_In.
Defined.
