(* ===== verification/Selection.v ===== *)
(** * Clipboard and primary selection payloads

    src/common/wd_selection.c.  Text is a possibly NULL byte array with its
    size; the validator walks it from the current index, here the list of the
    bytes from that index on. *)
From S2P Require Import Prelude Wire Config Structs Payload.

Definition wd_selection_mime_is_valid (mime_type : Z) : bool :=
  (mime_type =? WD_SELECTION_MIME_TEXT_UTF8) || (mime_type =? WD_SELECTION_MIME_TEXT_PLAIN).

Definition wd_utf8_continuation (byte : Z) : bool := Z.land byte 0xc0 =? 0x80.

Fixpoint text_loop (data : list Z) : bool :=
  match data with
  | [] => true
  | first :: data =>
      if first =? 0 then false
      else if first <=? 0x7f then text_loop data
      else if (first >=? 0xc2) && (first <=? 0xdf) then
        match data with
        | b1 :: data => if negb (wd_utf8_continuation b1) then false else text_loop data
        | [] => false
        end
      else if (first >=? 0xe0) && (first <=? 0xef) then
        match data with
        | b1 :: b2 :: data =>
            if negb (wd_utf8_continuation b1) || negb (wd_utf8_continuation b2) then false
            else if ((first =? 0xe0) && (b1 <? 0xa0)) || ((first =? 0xed) && (b1 >=? 0xa0)) then false
            else text_loop data
        | _ => false
        end
      else if (first >=? 0xf0) && (first <=? 0xf4) then
        match data with
        | b1 :: b2 :: b3 :: data =>
            if negb (wd_utf8_continuation b1) || negb (wd_utf8_continuation b2) ||
               negb (wd_utf8_continuation b3) then false
            else if ((first =? 0xf0) && (b1 <? 0x90)) || ((first =? 0xf4) && (b1 >? 0x8f)) then false
            else text_loop data
        | _ => false
        end
      else false
  end.

Definition wd_selection_text_is_valid (data : ptr (list Z)) (size : Z) : bool :=
  match data with
  | NULL => size =? 0
  | Some bytes => text_loop (take (Z.to_nat size) bytes)
  end.

(** The [while] that drops trailing NUL bytes; [size] counts down. *)
Fixpoint trim_nul (bytes : list Z) (size : nat) : nat :=
  match size with
  | O => O
  | S n => if aget 0 bytes (Z.of_nat n) =? 0 then trim_nul bytes n else size
  end.

Definition wd_selection_text_normalize_size (data : ptr (list Z)) (size : Z) : option Z :=
  match data with
  | NULL =>
      if negb (size =? 0) then None else Some 0
  | Some bytes =>
      let size := Z.of_nat (trim_nul bytes (Z.to_nat size)) in
      if (size >? WD_SELECTION_MAX_TEXT_BYTES) || negb (wd_selection_text_is_valid data size)
      then None else Some size
  end.

Record wd_selection_text_view := mk_wd_selection_text_view {
  sv_mime_type : Z;
  sv_data : list Z;
  sv_size : Z;
}.

Definition wd_selection_payload_decode (payload : ptr (list Z)) (payload_size expected_session_id
    expected_connection_token : Z) : option wd_selection_text_view :=
  match payload with
  | NULL => None
  | Some bytes =>
      if (expected_session_id =? 0) || (expected_connection_token =? 0) ||
         (payload_size <? sizeof wd_selection_payload_header)
      then None
      else
        match decode (A := wd_selection_payload_header) bytes with
        | None => None
        | Some header =>
            if negb (header.(sp_session_id) =? expected_session_id) ||
               negb (header.(sp_connection_token) =? expected_connection_token) ||
               negb (wd_selection_mime_is_valid header.(sp_mime_type)) ||
               negb (wd_selection_payload_size_is_valid (Some header) payload_size)
            then None
            else
              let text := drop (Z.to_nat (sizeof wd_selection_payload_header)) bytes in
              if negb (wd_selection_text_is_valid (Some text) header.(sp_data_size)) then None
              else Some (mk_wd_selection_text_view header.(sp_mime_type) text header.(sp_data_size))
        end
  end.

(** Returns the bytes written at the start of the payload buffer. *)
Definition wd_selection_payload_encode (session_id connection_token mime_type : Z)
    (text : ptr (list Z)) (text_size payload_capacity : Z) : option (list Z) :=
  if (session_id =? 0) || (connection_token =? 0) || negb (wd_selection_mime_is_valid mime_type) ||
     (text_size >? WD_SELECTION_MAX_TEXT_BYTES) || negb (wd_selection_text_is_valid text text_size)
  then None
  else
    let needed := u64 (sizeof wd_selection_payload_header + text_size) in
    if (needed >? payload_capacity) || (needed >? UINT32_MAX) then None
    else
      let header := mk_wd_selection_payload_header session_id connection_token mime_type text_size in
      Some (encode header ++
            (if negb (text_size =? 0) then take (Z.to_nat text_size) (default [] text) else [])).

(** ** What the text validator accepts *)

(** The Unicode scalar values other than NUL, and their UTF-8 encoding. *)
Definition scalar (c : Z) : Prop := 1 <= c < 0xd800 \/ 0xe000 <= c <= 0x10ffff.

Definition utf8 (c : Z) : list Z :=
  if c <? 0x80 then [c]
  else if c <? 0x800 then [0xc0 + c / 64; 0x80 + c mod 64]
  else if c <? 0x10000 then [0xe0 + c / 4096; 0x80 + c / 64 mod 64; 0x80 + c mod 64]
  else [0xf0 + c / 262144; 0x80 + c / 4096 mod 64; 0x80 + c / 64 mod 64; 0x80 + c mod 64].

Lemma continuation_spec b : byte_ok b -> wd_utf8_continuation b = true <-> 0x80 <= b < 0xc0.
Proof.
  intros Hb. assert (In b (zseq 256)) as Hin by (apply elem_of_zseq; exact Hb).
  assert (forallb (fun b => Bool.eqb (wd_utf8_continuation b) ((0x80 <=? b) && (b <? 0xc0)))
    (zseq 256) = true) as H by (vm_compute; reflexivity).
  rewrite forallb_forall in H. specialize (H b Hin). apply eqb_prop in H. rewrite H.
  rewrite andb_true_iff, Z.leb_le, Z.ltb_lt. done.
Qed.

(** Case analysis on the tests of the validator with the bytes in range. *)
Ltac utf8_tests :=
  repeat (case_if; bool_cases; try lia);
  repeat match goal with
  | H : _ || _ = true |- _ => apply orb_true_iff in H as [H|H]; bool_cases; try lia
  | H : wd_utf8_continuation _ = true |- _ => apply continuation_spec in H; [| unfold byte_ok; lia]
  | H : wd_utf8_continuation ?b = false |- _ =>
      let T := fresh in assert (wd_utf8_continuation b = true) as T
        by (apply continuation_spec; unfold byte_ok; lia); congruence
  end; try lia.

Lemma text_loop_utf8 c rest : scalar c -> text_loop (utf8 c ++ rest) = text_loop rest.
Proof.
  intros Hc. unfold scalar in Hc. unfold utf8.
  pose proof (Z.div_mod c 64 ltac:(lia)). pose proof (Z.mod_pos_bound c 64 ltac:(lia)).
  pose proof (Z.mod_pos_bound (c / 64) 64 ltac:(lia)).
  pose proof (Z.div_mod (c / 64) 64 ltac:(lia)).
  pose proof (Z.mod_pos_bound (c / 4096) 64 ltac:(lia)).
  pose proof (Z.div_mod (c / 4096) 64 ltac:(lia)).
  assert (c / 64 / 64 = c / 4096) as E1 by (rewrite Z.div_div by lia; done).
  assert (c / 4096 / 64 = c / 262144) as E2 by (rewrite Z.div_div by lia; done).
  rewrite E1, E2 in *.
  destruct (Z.ltb_spec c 0x80); [| destruct (Z.ltb_spec c 0x800);
    [| destruct (Z.ltb_spec c 0x10000)]]; cbn [app text_loop]; utf8_tests; done.
Qed.

(** The scalar value of a multi-byte sequence. *)
Lemma utf8_two a b : 0xc2 <= a <= 0xdf -> 0x80 <= b < 0xc0 ->
  let c := (a - 0xc0) * 64 + (b - 0x80) in scalar c /\ utf8 c = [a; b].
Proof.
  intros Ha Hb c.
  assert (c / 64 = a - 0xc0) as E1 by (symmetry; apply Z.div_unique with (r := b - 0x80); lia).
  assert (c mod 64 = b - 0x80) as E2 by (symmetry; apply Z.mod_unique with (q := a - 0xc0); lia).
  unfold scalar, utf8. rewrite E1, E2. subst c. split; [lia |].
  crush_if; try lia. f_equal; [lia | f_equal; lia].
Qed.

Lemma utf8_three a b d : 0xe0 <= a <= 0xef -> 0x80 <= b < 0xc0 -> 0x80 <= d < 0xc0 ->
  (a = 0xe0 -> 0xa0 <= b) -> (a = 0xed -> b < 0xa0) ->
  let c := (a - 0xe0) * 4096 + (b - 0x80) * 64 + (d - 0x80) in scalar c /\ utf8 c = [a; b; d].
Proof.
  intros Ha Hb Hd He Hs c.
  assert (c / 64 = (a - 0xe0) * 64 + (b - 0x80)) as E1
    by (symmetry; apply Z.div_unique with (r := d - 0x80); lia).
  assert (c mod 64 = d - 0x80) as E2
    by (symmetry; apply Z.mod_unique with (q := (a - 0xe0) * 64 + (b - 0x80)); lia).
  assert (c / 4096 = a - 0xe0) as E3
    by (symmetry; apply Z.div_unique with (r := (b - 0x80) * 64 + (d - 0x80)); lia).
  assert (((a - 0xe0) * 64 + (b - 0x80)) mod 64 = b - 0x80) as E4
    by (symmetry; apply Z.mod_unique with (q := a - 0xe0); lia).
  unfold scalar, utf8. rewrite E1, E2, E3, E4. subst c. split; [lia |].
  crush_if; try lia. f_equal; [lia | f_equal; [lia | f_equal; lia]].
Qed.

Lemma utf8_four a b d e : 0xf0 <= a <= 0xf4 -> 0x80 <= b < 0xc0 -> 0x80 <= d < 0xc0 ->
  0x80 <= e < 0xc0 -> (a = 0xf0 -> 0x90 <= b) -> (a = 0xf4 -> b <= 0x8f) ->
  let c := (a - 0xf0) * 262144 + (b - 0x80) * 4096 + (d - 0x80) * 64 + (e - 0x80) in
  scalar c /\ utf8 c = [a; b; d; e].
Proof.
  intros Ha Hb Hd He H0 H4 c.
  assert (c / 64 = (a - 0xf0) * 4096 + (b - 0x80) * 64 + (d - 0x80)) as E1
    by (symmetry; apply Z.div_unique with (r := e - 0x80); lia).
  assert (c mod 64 = e - 0x80) as E2 by (symmetry; apply Z.mod_unique with
    (q := (a - 0xf0) * 4096 + (b - 0x80) * 64 + (d - 0x80)); lia).
  assert (((a - 0xf0) * 4096 + (b - 0x80) * 64 + (d - 0x80)) mod 64 = d - 0x80) as E3
    by (symmetry; apply Z.mod_unique with (q := (a - 0xf0) * 64 + (b - 0x80)); lia).
  assert (c / 4096 = (a - 0xf0) * 64 + (b - 0x80)) as E4
    by (symmetry; apply Z.div_unique with (r := (d - 0x80) * 64 + (e - 0x80)); lia).
  assert (((a - 0xf0) * 64 + (b - 0x80)) mod 64 = b - 0x80) as E5
    by (symmetry; apply Z.mod_unique with (q := a - 0xf0); lia).
  assert (c / 262144 = a - 0xf0) as E6 by (symmetry; apply Z.div_unique with
    (r := (b - 0x80) * 4096 + (d - 0x80) * 64 + (e - 0x80)); lia).
  unfold scalar, utf8. rewrite E1, E2, E3, E4, E5, E6. subst c. split; [lia |].
  crush_if; try lia. f_equal; [lia | f_equal; [lia | f_equal; [lia | f_equal; lia]]].
Qed.

(** One step of the validator reads one encoded scalar value. *)
Lemma text_loop_step x data :
  bytes_ok (x :: data) -> text_loop (x :: data) = true ->
  exists c rest, scalar c /\ x :: data = utf8 c ++ rest /\ text_loop rest = true.
Proof.
  intros Hok. cbn [text_loop]. apply Forall_cons_iff in Hok as [Hx Hok]. unfold byte_ok in Hx.
  case_if; [done |]. case_if.
  { intros Ht. exists x, data. bool_cases. unfold scalar, utf8.
    destruct (Z.ltb_spec x 0x80); [| lia]. split_and!; [lia | done | done]. }
  case_if; [| case_if; [| case_if; [| done]]].
  - destruct data as [|b data]; [done |]. apply Forall_cons_iff in Hok as [Hb Hok].
    destruct (wd_utf8_continuation b) eqn:Cb; [cbn [negb] | done].
    rewrite continuation_spec in Cb by done. intros Ht. bool_cases.
    destruct (utf8_two x b) as [Hs Hu]; [lia | lia |].
    eexists _, data. split_and!; [exact Hs | by rewrite Hu | done].
  - destruct data as [|b [|d data]]; try done.
    apply Forall_cons_iff in Hok as [Hb Hok]. apply Forall_cons_iff in Hok as [Hd Hok].
    destruct (wd_utf8_continuation b) eqn:Cb; [cbn [negb orb] | done].
    destruct (wd_utf8_continuation d) eqn:Cd; [cbn [negb] | done].
    rewrite continuation_spec in Cb, Cd by done. case_if; [done |]. intros Ht.
    apply orb_false_iff in E3 as [E3 E4]. rewrite !andb_false_iff in E3, E4. bool_cases.
    destruct (utf8_three x b d) as [Hs Hu]; try lia.
    eexists _, data. split_and!; [exact Hs | by rewrite Hu | done].
  - destruct data as [|b [|d [|e data]]]; try done.
    apply Forall_cons_iff in Hok as [Hb Hok]. apply Forall_cons_iff in Hok as [Hd Hok].
    apply Forall_cons_iff in Hok as [He Hok].
    destruct (wd_utf8_continuation b) eqn:Cb; [cbn [negb orb] | done].
    destruct (wd_utf8_continuation d) eqn:Cd; [cbn [negb orb] | done].
    destruct (wd_utf8_continuation e) eqn:Ce; [cbn [negb] | done].
    rewrite continuation_spec in Cb, Cd, Ce by done. case_if; [done |]. intros Ht.
    apply orb_false_iff in E4 as [E4 E5]. rewrite !andb_false_iff in E4, E5. bool_cases.
    destruct (utf8_four x b d e) as [Hs Hu]; try lia.
    eexists _, data. split_and!; [exact Hs | by rewrite Hu | done].
Qed.

(** C36: the validator of clipboard text accepts a byte string exactly when
    it is the UTF-8 encoding of a sequence of Unicode scalar values without NUL:
    overlong forms, surrogates, values above U+10FFFF, truncated sequences and
    embedded NULs are all rejected, and no valid text is. *)
Theorem selection_text_valid_iff_utf8 data :
  bytes_ok data ->
  wd_selection_text_is_valid (Some data) (zlen data) = true <->
  exists cs, Forall scalar cs /\ data = concat (utf8 <$> cs).
Proof.
  intros Hok. unfold wd_selection_text_is_valid, zlen. rewrite Nat2Z.id, firstn_all. split.
  - revert Hok. induction data as [data IH] using (well_founded_induction
      (Wf_nat.well_founded_ltof _ (@length Z))). unfold Wf_nat.ltof in IH.
    intros Hok Ht. destruct data as [|x data]; [by exists [] |].
    destruct (text_loop_step x data Hok Ht) as (c & rest & Hc & E & Hr).
    destruct (IH rest) as (cs & Hcs & ->); [| | done |].
    + rewrite E, length_app. assert (length (utf8 c) <> 0)%nat; [| lia].
      unfold utf8. by repeat case_if.
    + rewrite E in Hok. by apply Forall_app in Hok as [_ Hok].
    + exists (c :: cs). split; [by constructor | done].
  - intros (cs & Hcs & ->). clear Hok. induction Hcs as [|c cs Hc _ IH]; [done |].
    cbn [fmap list_fmap concat]. rewrite text_loop_utf8 by done. apply IH.
Qed.

Lemma selection_text_valid_iff_utf8_witness :
  wd_selection_text_is_valid (Some [0x68; 0xc3; 0xa9; 0xf0; 0x9f; 0x98; 0x80]) 7 = true <->
  exists cs, Forall scalar cs /\
    [0x68; 0xc3; 0xa9; 0xf0; 0x9f; 0x98; 0x80] = concat (utf8 <$> cs).
Proof.
  apply (selection_text_valid_iff_utf8 [0x68; 0xc3; 0xa9; 0xf0; 0x9f; 0x98; 0x80]).
  repeat constructor; discriminate.
Defined.

(** ** Payload round trip *)

(** Text that one side encodes for a connection is decoded
    by the other side of the same connection to the same bytes and type; on any
    other connection the payload is refused. *)
Theorem selection_payload_roundtrip session token mime text capacity payload session' token' :
  u8_ok session -> u64_ok token -> u16_ok mime -> bytes_ok text ->
  wd_selection_payload_encode session token mime (Some text) (zlen text) capacity = Some payload ->
  wd_selection_payload_decode (Some payload) (zlen payload) session' token' =
    if (session' =? session) && (token' =? token)
    then Some (mk_wd_selection_text_view mime text (zlen text)) else None.
Proof.
  intros Hs Ht Hm Hb. unfold wd_selection_payload_encode. case_if; [done |]. bool_cases.
  pose proof (zlen_nonneg text) as Hn.
  assert (zlen text <= 1048576) as Hmax by done.
  change (sizeof wd_selection_payload_header) with 15.
  rewrite u64_small by mlia. case_if; [done |]. intros Hp. apply (inj Some) in Hp. subst payload.
  set (h := mk_wd_selection_payload_header session token mime (zlen text)).
  assert (ws_ok h) as Hok.
  { split; [| exact I]. repeat constructor; cbn -[zlen]; mlia. }
  match goal with |- context [encode h ++ ?t] => assert (t = text) as -> end.
  { unfold zlen. rewrite Nat2Z.id. cbn [default from_option id]. rewrite firstn_all.
    destruct text; [done |]. done. }
  assert (zlen (encode h ++ text) = 15 + zlen text) as Hl
    by (rewrite zlen_app, encode_length by done; done).
  unfold wd_selection_payload_decode. rewrite Hl, decode_encode by done.
  change (sizeof wd_selection_payload_header) with 15.
  replace (15 + zlen text <? 15) with false by (symmetry; apply Z.ltb_ge; lia).
  rewrite orb_false_r. subst h.
  cbn [sp_session_id sp_connection_token sp_mime_type sp_data_size].
  assert (wd_selection_payload_size_is_valid
    (Some (mk_wd_selection_payload_header session token mime (zlen text))) (15 + zlen text) = true)
    as Hsv.
  { unfold wd_selection_payload_size_is_valid, wd_counted_payload_size_is_valid.
    cbn [sp_data_size]. change (sizeof wd_selection_payload_header) with 15.
    rewrite Z.mul_1_r, Z.div_1_r, (u64_small (SIZE_MAX - 15)), (u64_small (zlen text)),
      u64_small by mlia.
    replace (zlen text <=? _) with true by (symmetry; apply Z.leb_le; done).
    replace (_ <? zlen text) with false by (symmetry; apply Z.ltb_ge; mlia).
    cbn. apply Z.eqb_refl. }
  rewrite Hsv. match goal with H : wd_selection_mime_is_valid _ = true |- _ => rewrite H end.
  cbn [negb]. rewrite !orb_false_r.
  change (Z.to_nat 15) with 15%nat.
  replace (drop 15 (encode _ ++ text)) with text by reflexivity.
  match goal with H : wd_selection_text_is_valid _ _ = true |- _ => rewrite H end. cbn [negb].
  rewrite (Z.eqb_sym session session'), (Z.eqb_sym token token').
  destruct (Z.eqb_spec session' session) as [->|], (Z.eqb_spec token' token) as [->|]; cbn;
    try (by case_if).
  replace ((session =? 0) || (token =? 0)) with false; [done |].
  symmetry. apply orb_false_iff. by rewrite !Z.eqb_neq.
Qed.

Lemma selection_payload_roundtrip_witness :
  exists payload,
    wd_selection_payload_encode 4 9 WD_SELECTION_MIME_TEXT_UTF8 (Some [0x68; 0xc3; 0xa9]) 3 64 =
      Some payload /\
    wd_selection_payload_decode (Some payload) (zlen payload) 4 9 =
      Some (mk_wd_selection_text_view WD_SELECTION_MIME_TEXT_UTF8 [0x68; 0xc3; 0xa9] 3).
Proof.
  eexists. split; [vm_compute; reflexivity |].
  apply (selection_payload_roundtrip 4 9 WD_SELECTION_MIME_TEXT_UTF8 [0x68; 0xc3; 0xa9] 64);
    try (vm_compute; split; congruence). repeat constructor; discriminate.
Defined.
