(* ===== verification/AudioRing.v ===== *)
(** * The ring of captured audio

    src/server/wd_audio_ring.c: a bounded ring of audio frames between the
    capture callback, its only producer, and the encoder thread, its only
    consumer, without a lock.  A frame is one sample per channel and a
    presentation time.

    The operations are modelled twice from the same pieces: as functions, and as
    threads that copy one frame per step and publish their cursor with a last
    step.  [audio_ring_linearizable]: whatever the schedule, what the threads do
    is a history of a first-in first-out queue, and no access leaves the arrays.
    The caller's buffers are lists; a read outside one gives [None]. *)
From S2P Require Import Prelude CFloat.

(** ** Samples *)

(** [float] is IEEE binary32. *)
Definition float_add := SFadd 24 128.
Definition float_mul := SFmul 24 128.
Definition float_zero : spec_float := S754_zero false.
Definition float_half : spec_float := S754_finite false 8388608 (-24).

Record wd_audio_pcm_ring := mk_wd_audio_pcm_ring {
  ar_samples : list spec_float;
  ar_pts_samples : list Z;
  ar_capacity_frames : Z;
  ar_channels : Z;
  ar_read_frame : Z;
  ar_write_frame : Z;
  ar_overruns : Z;
}.
#[export] Instance wd_audio_pcm_ring_eta : Eta wd_audio_pcm_ring := fun s =>
  mk_wd_audio_pcm_ring s.(ar_samples) s.(ar_pts_samples) s.(ar_capacity_frames) s.(ar_channels) s.(ar_read_frame)
    s.(ar_write_frame) s.(ar_overruns).

Definition empty_ring : wd_audio_pcm_ring := mk_wd_audio_pcm_ring [] [] 0 0 0 0 0.

Definition wd_audio_size_multiply (a b : Z) : option Z :=
  if negb (a =? 0) && (b >? SIZE_MAX / a) then None else Some (u64 (a * b)).

(** The two arrays are allocated or not. *)
Definition wd_audio_pcm_ring_init (ring : ptr wd_audio_pcm_ring) (capacity_frames channels : Z)
    (samples_allocated pts_allocated : bool) : ptr wd_audio_pcm_ring * bool :=
  match ring with
  | NULL => (NULL, false)
  | Some ring =>
      if (capacity_frames =? 0) || (channels =? 0) || (channels >? 2) then (Some ring, false)
      else
        match wd_audio_size_multiply capacity_frames channels with
        | None => (Some empty_ring, false)
        | Some sample_count =>
            match wd_audio_size_multiply sample_count 4, wd_audio_size_multiply capacity_frames 8 with
            | Some _, Some _ =>
                if negb samples_allocated || negb pts_allocated then (Some empty_ring, false)
                else
                  (Some (mk_wd_audio_pcm_ring (replicate (Z.to_nat sample_count) float_zero)
                           (replicate (Z.to_nat capacity_frames) 0) capacity_frames channels 0 0 0), true)
            | _, _ => (Some empty_ring, false)
            end
        end
  end.

Definition wd_audio_pcm_ring_finish (ring : ptr wd_audio_pcm_ring) : ptr wd_audio_pcm_ring :=
  match ring with NULL => NULL | Some _ => Some empty_ring end.

Definition wd_audio_pcm_ring_reset (ring : ptr wd_audio_pcm_ring) : ptr wd_audio_pcm_ring :=
  match ring with
  | NULL => NULL
  | Some ring => Some (ring <| ar_read_frame := 0 |> <| ar_write_frame := 0 |>)
  end.

Definition wd_audio_pcm_ring_drop_all (ring : ptr wd_audio_pcm_ring) : ptr wd_audio_pcm_ring :=
  match ring with
  | NULL => NULL
  | Some ring => Some (ring <| ar_read_frame := ring.(ar_write_frame) |>)
  end.

(** ** Frames *)

(** [n] samples at [off] of a buffer. *)
Definition read_samples (buffer : list spec_float) (off n : Z) : option (list spec_float) :=
  if (0 <=? off) && (off + n <=? zlen buffer) then Some (slice off n buffer) else None.

(** The frame of one sample per plane. *)
Fixpoint plane_samples (planes : list (list spec_float)) (frame : Z) : option (list spec_float) :=
  match planes with
  | [] => Some []
  | plane :: planes =>
      if frame <? zlen plane then rest ← plane_samples planes frame; Some (aget float_zero plane frame :: rest) else None
  end.

Definition slot_of (ring : wd_audio_pcm_ring) (cursor frame : Z) : Z := u32 (u64 (cursor + frame) mod ring.(ar_capacity_frames)).

Definition store_samples {A} (off : Z) (values mem : list A) : list A :=
  take (Z.to_nat off) mem ++ values ++ drop (Z.to_nat off + length values) mem.

Definition store_frame (ring : wd_audio_pcm_ring) (slot : Z) (values : list spec_float) (pts : Z) : option wd_audio_pcm_ring :=
  let off := u64 (slot * ring.(ar_channels)) in
  if (off + zlen values <=? zlen ring.(ar_samples)) && (slot <? zlen ring.(ar_pts_samples))
  then Some (ring <| ar_samples := store_samples off values ring.(ar_samples) |>
                  <| ar_pts_samples := aset ring.(ar_pts_samples) slot pts |>)
  else None.

(** The loop body of the three writers. *)
Definition copy_frame (source : Z -> option (list spec_float)) (first_pts_sample write : Z) (ring : wd_audio_pcm_ring) (frame : Z)
    : option wd_audio_pcm_ring :=
  values ← source frame;
  store_frame ring (slot_of ring write frame) values (u64 (first_pts_sample + frame)).

Definition copy_frames (source : Z -> option (list spec_float)) (first_pts_sample write frames : Z) (ring : wd_audio_pcm_ring)
    : option wd_audio_pcm_ring :=
  foldl (fun ring frame => ring ← ring; copy_frame source first_pts_sample write ring frame) (Some ring) (zseq frames).

(** The test for room. *)
Definition has_room (ring : wd_audio_pcm_ring) (write read frames : Z) : bool :=
  negb ((u64 (write - read) >? ring.(ar_capacity_frames)) ||
        (frames >? u32 (ring.(ar_capacity_frames) - u32 (u64 (write - read))))).

Definition write_frames (source : Z -> option (list spec_float)) (ring : wd_audio_pcm_ring) (frames first_pts_sample : Z)
    : option (wd_audio_pcm_ring * bool) :=
  let write := ring.(ar_write_frame) in
  let read := ring.(ar_read_frame) in
  if negb (has_room ring write read frames) then Some (ring <| ar_overruns := u64 (ring.(ar_overruns) + 1) |>, false)
  else
    ring ← copy_frames source first_pts_sample write frames ring;
    Some (ring <| ar_write_frame := u64 (write + frames) |>, true).

(** The guards all three writers begin with. *)
Definition not_writable (ring : wd_audio_pcm_ring) (frames : Z) : bool :=
  null ring.(ar_samples) || null ring.(ar_pts_samples) || (frames =? 0) || (frames >? ring.(ar_capacity_frames)).

Definition wd_audio_pcm_ring_write (ring : ptr wd_audio_pcm_ring) (samples : ptr (list spec_float)) (frames first_pts_sample : Z)
    : option (ptr wd_audio_pcm_ring * bool) :=
  match ring, samples with
  | Some ring, Some samples =>
      if not_writable ring frames then Some (Some ring, false)
      else
        '(ring, ok) ← write_frames (fun frame => read_samples samples (u64 (frame * ring.(ar_channels))) ring.(ar_channels))
                        ring frames first_pts_sample;
        Some (Some ring, ok)
  | _, _ => Some (ring, false)
  end.

(** The frame that [wd_audio_pcm_ring_write_capture] stores. *)
Definition capture_frame (channels source_channels : Z) (silent : bool) (samples : ptr (list spec_float)) (frame : Z)
    : option (list spec_float) :=
  if silent then Some (replicate (Z.to_nat channels) float_zero)
  else
    samples ← samples;
    if source_channels =? channels then read_samples samples (u64 (frame * source_channels)) channels
    else
      pair ← read_samples samples (u64 (frame * 2)) 2;
      Some [float_mul (float_add (aget float_zero pair 0) (aget float_zero pair 1)) float_half].

Definition wd_audio_pcm_ring_write_capture (ring : ptr wd_audio_pcm_ring) (samples : ptr (list spec_float))
    (frames source_channels : Z) (silent : bool) (first_pts_sample : Z) : option (ptr wd_audio_pcm_ring * bool) :=
  match ring with
  | NULL => Some (NULL, false)
  | Some ring =>
      if not_writable ring frames || (source_channels =? 0) || (source_channels >? 2) ||
         (negb silent && bool_decide (samples = NULL))
      then Some (Some ring, false)
      else if negb silent && negb (source_channels =? ring.(ar_channels)) &&
              negb ((source_channels =? 2) && (ring.(ar_channels) =? 1))
      then Some (Some ring, false)
      else
        '(ring, ok) ← write_frames (capture_frame ring.(ar_channels) source_channels silent samples) ring frames first_pts_sample;
        Some (Some ring, ok)
  end.

Definition wd_audio_pcm_ring_write_planar (ring : ptr wd_audio_pcm_ring) (planes : ptr (list (ptr (list spec_float))))
    (frames first_pts_sample : Z) : option (ptr wd_audio_pcm_ring * bool) :=
  match ring, planes with
  | Some ring, Some planes =>
      if not_writable ring frames then Some (Some ring, false)
      else if zlen planes <? ring.(ar_channels) then None
      else
        match mapM id (take (Z.to_nat ring.(ar_channels)) planes) with
        | None => Some (Some ring, false)
        | Some planes =>
            '(ring, ok) ← write_frames (plane_samples planes) ring frames first_pts_sample;
            Some (Some ring, ok)
        end
  | _, _ => Some (ring, false)
  end.

(** ** Reading *)

(** The variables of the reading loop; [rd_samples] is what was copied out. *)
Record read_loop := mk_read_loop {
  rd_samples : list spec_float;
  rd_first : Z;
  rd_previous : Z;
  rd_contiguous : bool;
}.

Definition start_read : read_loop := mk_read_loop [] 0 0 true.

Definition read_frame (read : Z) (ring : wd_audio_pcm_ring) (loop : read_loop) (frame : Z) : option read_loop :=
  let slot := slot_of ring read frame in
  values ← read_samples ring.(ar_samples) (u64 (slot * ring.(ar_channels))) ring.(ar_channels);
  if slot <? zlen ring.(ar_pts_samples) then
    let pts := aget 0 ring.(ar_pts_samples) slot in
    Some (mk_read_loop (loop.(rd_samples) ++ values) (if frame =? 0 then pts else loop.(rd_first)) pts
            (if frame =? 0 then loop.(rd_contiguous)
             else if negb (pts =? u64 (loop.(rd_previous) + 1)) then false else loop.(rd_contiguous)))
  else None.

Definition read_frames (ring : wd_audio_pcm_ring) (read frames : Z) : option read_loop :=
  foldl (fun loop frame => loop ← loop; read_frame read ring loop frame) (Some start_read) (zseq frames).

(** The number of frames read, the samples, the time of the first frame and
    whether the times are consecutive; [wanted] is whether the caller gave a
    buffer. *)
Definition wd_audio_pcm_ring_read (ring : ptr wd_audio_pcm_ring) (wanted : bool) (frames : Z)
    : option (ptr wd_audio_pcm_ring * Z * read_loop) :=
  match ring with
  | NULL => Some (NULL, 0, start_read)
  | Some ring =>
      if null ring.(ar_samples) || null ring.(ar_pts_samples) || negb wanted || (frames =? 0)
      then Some (Some ring, 0, start_read)
      else
        let read := ring.(ar_read_frame) in
        let write := ring.(ar_write_frame) in
        if u64 (write - read) <? frames then Some (Some ring, 0, start_read)
        else
          loop ← read_frames ring read frames;
          Some (Some (ring <| ar_read_frame := u64 (read + frames) |>), frames, loop)
  end.

Definition wd_audio_pcm_ring_queued_frames (ring : ptr wd_audio_pcm_ring) : Z :=
  match ring with
  | NULL => 0
  | Some ring =>
      let queued := if ring.(ar_write_frame) >=? ring.(ar_read_frame) then ring.(ar_write_frame) - ring.(ar_read_frame) else 0 in
      if queued >? UINT32_MAX then UINT32_MAX else queued
  end.

Definition wd_audio_pcm_ring_overruns (ring : ptr wd_audio_pcm_ring) : Z :=
  match ring with NULL => 0 | Some ring => ring.(ar_overruns) end.

(** ** The threads *)

Definition frame : Type := list spec_float * Z.

(** The producer inside a call: the block, its first time, the write cursor and
    the next frame to copy. *)
Record writing := mk_writing {
  wt_block : list (list spec_float);
  wt_first : Z;
  wt_write : Z;
  wt_next : Z;
}.

(** The consumer inside a call. *)
Inductive consuming :=
  | Reading (frames read next : Z) (loop : read_loop)
  | Dropping (write : Z).

(** What a call did, at the step that publishes its cursor. *)
Inductive ring_event :=
  | EvPublish (frames : list frame)
  | EvRead (frames : Z) (loop : read_loop)
  | EvDrop (frames : Z).

Record ring_system := mk_ring_system {
  sy_ring : wd_audio_pcm_ring;
  sy_writing : option writing;
  sy_consuming : option consuming;
  sy_log : list ring_event;
}.
#[export] Instance ring_system_eta : Eta ring_system := fun s =>
  mk_ring_system s.(sy_ring) s.(sy_writing) s.(sy_consuming) s.(sy_log).

Inductive ring_choice :=
  | StartWrite (block : list (list spec_float)) (first_pts_sample : Z)
  | Produce
  | StartRead (frames : Z)
  | StartDrop
  | Consume.

(** The frames of a block with their times. *)
Definition timed (block : list (list spec_float)) (first_pts_sample : Z) : list frame :=
  zip block ((fun k => u64 (first_pts_sample + k)) <$> zseq (zlen block)).

(** The producer's next step. *)
Definition produce (s : ring_system) (w : writing) : option ring_system :=
  if w.(wt_next) <? zlen w.(wt_block) then
    ring ← copy_frame (fun k => w.(wt_block) !! Z.to_nat k) w.(wt_first) w.(wt_write) s.(sy_ring) w.(wt_next);
    Some (s <| sy_ring := ring |>
            <| sy_writing := Some (mk_writing w.(wt_block) w.(wt_first) w.(wt_write) (w.(wt_next) + 1)) |>)
  else
    Some (s <| sy_ring := s.(sy_ring) <| ar_write_frame := u64 (w.(wt_write) + zlen w.(wt_block)) |> |>
            <| sy_writing := None |>
            <| sy_log := s.(sy_log) ++ [EvPublish (timed w.(wt_block) w.(wt_first))] |>).

(** The consumer's. *)
Definition consume (s : ring_system) (c : consuming) : option ring_system :=
  match c with
  | Reading frames read next loop =>
      if next <? frames then
        loop ← read_frame read s.(sy_ring) loop next;
        Some (s <| sy_consuming := Some (Reading frames read (next + 1) loop) |>)
      else
        Some (s <| sy_ring := s.(sy_ring) <| ar_read_frame := u64 (read + frames) |> |>
                <| sy_consuming := None |>
                <| sy_log := s.(sy_log) ++ [EvRead frames loop] |>)
  | Dropping write =>
      Some (s <| sy_ring := s.(sy_ring) <| ar_read_frame := write |> |>
              <| sy_consuming := None |>
              <| sy_log := s.(sy_log) ++ [EvDrop (write - s.(sy_ring).(ar_read_frame))] |>)
  end.

Definition ring_step (s : ring_system) (choice : ring_choice) : option ring_system :=
  let ring := s.(sy_ring) in
  match choice with
  | StartWrite block first_pts_sample =>
      if bool_decide (s.(sy_writing) <> None) || not_writable ring (zlen block) then Some s
      else if negb (has_room ring ring.(ar_write_frame) ring.(ar_read_frame) (zlen block))
      then Some (s <| sy_ring := ring <| ar_overruns := u64 (ring.(ar_overruns) + 1) |> |>)
      else Some (s <| sy_writing := Some (mk_writing block first_pts_sample ring.(ar_write_frame) 0) |>)
  | Produce => match s.(sy_writing) with None => Some s | Some w => produce s w end
  | StartRead frames =>
      if bool_decide (s.(sy_consuming) <> None) || (frames <=? 0) ||
         (u64 (ring.(ar_write_frame) - ring.(ar_read_frame)) <? frames)
      then Some s
      else Some (s <| sy_consuming := Some (Reading frames ring.(ar_read_frame) 0 start_read) |>)
  | StartDrop =>
      if bool_decide (s.(sy_consuming) <> None) then Some s
      else Some (s <| sy_consuming := Some (Dropping ring.(ar_write_frame)) |>)
  | Consume => match s.(sy_consuming) with None => Some s | Some c => consume s c end
  end.

Definition ring_run (ring : wd_audio_pcm_ring) (schedule : list ring_choice) : option ring_system :=
  foldl (fun s choice => s ← s; ring_step s choice) (Some (mk_ring_system ring None None [])) schedule.

(** ** The specification: a first-in first-out queue of frames *)

Fixpoint consecutive (frames : list frame) : bool :=
  match frames with
  | a :: (b :: _) as rest => (b.2 =? u64 (a.2 + 1)) && consecutive rest
  | _ => true
  end.

(** What a read of these frames returns. *)
Definition read_of (frames : list frame) : read_loop :=
  mk_read_loop (concat (fst <$> frames)) (default 0 (snd <$> head frames)) (default 0 (snd <$> list.last frames))
    (consecutive frames).

#[export] Instance spec_float_eq_dec : EqDecision spec_float.
Proof. solve_decision. Defined.
#[export] Instance read_loop_eq_dec : EqDecision read_loop.
Proof. solve_decision. Defined.

Definition fifo_step (queue : list frame) (event : ring_event) : option (list frame) :=
  match event with
  | EvPublish frames => Some (queue ++ frames)
  | EvRead n loop =>
      if (n <=? zlen queue) && bool_decide (loop = read_of (take (Z.to_nat n) queue)) then Some (drop (Z.to_nat n) queue) else None
  | EvDrop n => if (0 <=? n) && (n <=? zlen queue) then Some (drop (Z.to_nat n) queue) else None
  end.

Definition fifo_run (events : list ring_event) : option (list frame) :=
  foldl (fun queue event => queue ← queue; fifo_step queue event) (Some []) events.

(** ** The arrays *)

Record ring_shape (r : wd_audio_pcm_ring) : Prop := {
  rs_capacity : 0 < r.(ar_capacity_frames) <= UINT32_MAX;
  rs_channels : 0 < r.(ar_channels) <= 2;
  rs_samples : zlen r.(ar_samples) = r.(ar_capacity_frames) * r.(ar_channels);
  rs_pts : zlen r.(ar_pts_samples) = r.(ar_capacity_frames);
}.

Definition frame_at (r : wd_audio_pcm_ring) (slot : Z) : frame :=
  (slice (slot * r.(ar_channels)) r.(ar_channels) r.(ar_samples), aget 0 r.(ar_pts_samples) slot).

(** What the threads leave alone in each other's ring. *)
Definition same_size (r r' : wd_audio_pcm_ring) : Prop :=
  r'.(ar_capacity_frames) = r.(ar_capacity_frames) /\ r'.(ar_channels) = r.(ar_channels).

Lemma slice_store_same {A} off (values mem : list A) : 0 <= off -> off + zlen values <= zlen mem ->
  slice off (zlen values) (store_samples off values mem) = values.
Proof.
  unfold slice, store_samples, zlen. intros H0 H1.
  rewrite drop_app_length' by (rewrite length_take; lia). rewrite Nat2Z.id. apply take_app_length.
Qed.

Lemma slice_store_other {A} off n i (values mem : list A) : 0 <= off -> off + zlen values <= zlen mem ->
  0 <= i -> 0 <= n -> i + n <= off \/ off + zlen values <= i ->
  slice i n (store_samples off values mem) = slice i n mem.
Proof.
  unfold slice, store_samples, zlen. intros H0 H1 Hi Hn H. apply list_eq. intros k.
  destruct (decide (k < Z.to_nat n)%nat) as [Hk|Hk]; [| rewrite !lookup_take_ge by lia; done].
  rewrite !lookup_take_lt, !lookup_drop by lia. destruct H as [H|H].
  - rewrite lookup_app_l by (rewrite length_take; lia). by rewrite lookup_take_lt by lia.
  - rewrite lookup_app_r by (rewrite length_take; lia). rewrite length_take_le by lia.
    rewrite lookup_app_r by lia. rewrite lookup_drop. f_equal. lia.
Qed.

Lemma zlen_store_samples {A} off (values mem : list A) : 0 <= off -> off + zlen values <= zlen mem ->
  zlen (store_samples off values mem) = zlen mem.
Proof. unfold store_samples, zlen. intros. rewrite !length_app, length_take, length_drop. lia. Qed.

(** Distinct cursors within a capacity have distinct slots. *)
Lemma slots_differ cap a b : 0 < cap -> 0 <= a < b -> b - a < cap -> a mod cap <> b mod cap.
Proof.
  intros Hc Ha Hb E. pose proof (Z.div_mod a cap ltac:(lia)). pose proof (Z.div_mod b cap ltac:(lia)).
  assert (b - a = cap * (b / cap - a / cap)) as Hd by lia.
  destruct (Z_lt_le_dec 0 (b / cap - a / cap)); nia.
Qed.

Lemma slot_of_mod r cursor k : 0 < r.(ar_capacity_frames) <= UINT32_MAX -> 0 <= cursor -> 0 <= k -> cursor + k < 2 ^ 64 ->
  slot_of r cursor k = (cursor + k) mod r.(ar_capacity_frames).
Proof.
  intros Hc H0 H1 H2. unfold slot_of. rewrite u64_small by mlia.
  pose proof (Z.mod_pos_bound (cursor + k) r.(ar_capacity_frames) ltac:(lia)). apply u32_small. mlia.
Qed.

Lemma store_frame_ok r slot values pts : ring_shape r -> 0 <= slot < r.(ar_capacity_frames) -> zlen values = r.(ar_channels) ->
  exists r', store_frame r slot values pts = Some r' /\ ring_shape r' /\ same_size r r' /\
    r'.(ar_read_frame) = r.(ar_read_frame) /\ r'.(ar_write_frame) = r.(ar_write_frame) /\
    frame_at r' slot = (values, pts) /\
    (forall other, 0 <= other < r.(ar_capacity_frames) -> other <> slot -> frame_at r' other = frame_at r other).
Proof.
  intros S Hs Hv. pose proof S as [C1 C2 C3 C4]. unfold store_frame.
  assert (slot * ar_channels r + ar_channels r <= zlen (ar_samples r)) as Hend by (rewrite C3; nia).
  assert (0 <= slot * ar_channels r <= UINT32_MAX * 2) by (split; [nia | apply Z.mul_le_mono_nonneg; lia]).
  rewrite u64_small by mlia. rewrite Hv, (proj2 (Z.leb_le _ _)), (proj2 (Z.ltb_lt _ _)) by lia. cbn [andb].
  eexists. split; [done |]. split_and!; try done.
  - constructor; cbn [ar_capacity_frames ar_channels ar_samples ar_pts_samples set_field]; try done.
    + by rewrite zlen_store_samples by lia.
    + by rewrite zlen_aset.
  - unfold frame_at. cbn [ar_channels ar_samples ar_pts_samples set_field]. rewrite <- Hv, slice_store_same by lia.
    by rewrite aget_aset_eq by lia.
  - intros other Ho Hne. unfold frame_at. cbn [ar_channels ar_samples ar_pts_samples set_field].
    rewrite slice_store_other by nia. by rewrite aget_aset_ne by lia.
Qed.

Lemma read_frame_ok r slot_cursor loop k : ring_shape r -> 0 <= slot_cursor -> 0 <= k -> slot_cursor + k < 2 ^ 64 ->
  read_frame slot_cursor r loop k =
    let '(values, pts) := frame_at r ((slot_cursor + k) mod r.(ar_capacity_frames)) in
    Some (mk_read_loop (loop.(rd_samples) ++ values) (if k =? 0 then pts else loop.(rd_first)) pts
            (if k =? 0 then loop.(rd_contiguous)
             else if negb (pts =? u64 (loop.(rd_previous) + 1)) then false else loop.(rd_contiguous))).
Proof.
  intros [C1 C2 C3 C4] H0 H1 H2. unfold read_frame. rewrite slot_of_mod by done.
  pose proof (Z.mod_pos_bound (slot_cursor + k) r.(ar_capacity_frames) ltac:(lia)) as Hs.
  set (slot := (slot_cursor + k) mod _) in *. clearbody slot.
  assert (0 <= slot * ar_channels r <= UINT32_MAX * 2) by (split; [nia | apply Z.mul_le_mono_nonneg; lia]).
  rewrite (u64_small (slot * _)) by mlia. unfold read_samples.
  rewrite (proj2 (Z.leb_le _ _)), (proj2 (Z.leb_le _ _)), (proj2 (Z.ltb_lt _ _)) by nia. done.
Qed.

(** One more frame read. *)
Lemma consecutive_snoc frames f : consecutive (frames ++ [f]) =
  match list.last frames with None => true | Some g => (f.2 =? u64 (g.2 + 1)) && consecutive frames end.
Proof.
  induction frames as [|a [|b frames] IH]; [done | cbn; by rewrite andb_true_r |].
  change (consecutive ((a :: b :: frames) ++ [f])) with ((b.2 =? u64 (a.2 + 1)) && consecutive ((b :: frames) ++ [f])).
  change (consecutive (a :: b :: frames)) with ((b.2 =? u64 (a.2 + 1)) && consecutive (b :: frames)). rewrite IH.
  rewrite last_cons_cons. destruct (list.last (b :: frames)) as [g|] eqn:El; [| by apply last_None in El].
  destruct (b.2 =? u64 (a.2 + 1)), (f.2 =? u64 (g.2 + 1)); done.
Qed.

Lemma read_of_snoc frames f : read_of (frames ++ [f]) =
  let loop := read_of frames in
  mk_read_loop (loop.(rd_samples) ++ f.1) (if zlen frames =? 0 then f.2 else loop.(rd_first)) f.2
    (if zlen frames =? 0 then loop.(rd_contiguous)
     else if negb (f.2 =? u64 (loop.(rd_previous) + 1)) then false else loop.(rd_contiguous)).
Proof.
  unfold read_of. rewrite consecutive_snoc, last_snoc, fmap_app, concat_app. cbn [fmap list_fmap concat].
  destruct frames as [|a frames]; [by rewrite app_nil_r |]. cbv zeta. cbn [rd_samples rd_first rd_previous rd_contiguous].
  rewrite zlen_cons, (proj2 (Z.eqb_neq _ _)) by (pose proof (zlen_nonneg frames); lia).
  rewrite app_nil_r. f_equal. destruct (list.last (a :: frames)) as [g|] eqn:El; [| by apply last_None in El].
  cbn [option_fmap option_map fmap default from_option id]. by destruct (f.2 =? u64 (g.2 + 1)).
Qed.

(** ** The invariant *)

(** The slots from [cursor] on hold these frames. *)
Definition holds (r : wd_audio_pcm_ring) (cursor : Z) (frames : list frame) : Prop :=
  forall k, 0 <= k < zlen frames -> frames !! Z.to_nat k = Some (frame_at r ((cursor + k) mod r.(ar_capacity_frames))).

Definition block_ok (channels : Z) (block : list (list spec_float)) : Prop := Forall (fun values => zlen values = channels) block.

(** The block is the next one to be published; what has been copied is there. *)
Record producer_ok (r : wd_audio_pcm_ring) (w : writing) : Prop := {
  po_write : w.(wt_write) = r.(ar_write_frame);
  po_block : block_ok r.(ar_channels) w.(wt_block);
  po_next : 0 <= w.(wt_next) <= zlen w.(wt_block);
  po_room : r.(ar_write_frame) + zlen w.(wt_block) - r.(ar_read_frame) <= r.(ar_capacity_frames);
  po_copied : holds r r.(ar_write_frame) (take (Z.to_nat w.(wt_next)) (timed w.(wt_block) w.(wt_first)));
}.

Definition consumer_ok (r : wd_audio_pcm_ring) (queue : list frame) (c : consuming) : Prop :=
  match c with
  | Reading frames read next loop =>
      read = r.(ar_read_frame) /\ 0 < frames <= zlen queue /\ 0 <= next <= frames /\
      loop = read_of (take (Z.to_nat next) queue)
  | Dropping write => r.(ar_read_frame) <= write <= r.(ar_write_frame)
  end.

Definition in_flight (s : ring_system) : Z := match s.(sy_writing) with None => 0 | Some w => zlen w.(wt_block) end.

Record ring_inv (budget : Z) (s : ring_system) (queue : list frame) : Prop := {
  ri_shape : ring_shape s.(sy_ring);
  ri_read : 0 <= s.(sy_ring).(ar_read_frame);
  ri_queue : s.(sy_ring).(ar_write_frame) - s.(sy_ring).(ar_read_frame) = zlen queue;
  ri_capacity : zlen queue <= s.(sy_ring).(ar_capacity_frames);
  ri_held : holds s.(sy_ring) s.(sy_ring).(ar_read_frame) queue;
  ri_log : fifo_run s.(sy_log) = Some queue;
  ri_producer : forall w, s.(sy_writing) = Some w -> producer_ok s.(sy_ring) w;
  ri_consumer : forall c, s.(sy_consuming) = Some c -> consumer_ok s.(sy_ring) queue c;
  ri_budget : 0 <= budget /\ s.(sy_ring).(ar_write_frame) + in_flight s + budget < 2 ^ 64;
}.

Lemma zlen_timed block pts : zlen (timed block pts) = zlen block.
Proof. unfold timed, zlen. rewrite length_zip_with, length_fmap. pose proof (zlen_zseq (Z.of_nat (length block)) ltac:(lia)). unfold zlen in *. lia. Qed.

Lemma timed_lookup block pts k values : 0 <= k -> block !! Z.to_nat k = Some values ->
  timed block pts !! Z.to_nat k = Some (values, u64 (pts + k)).
Proof.
  intros Hk Hb. unfold timed. rewrite lookup_zip_with, Hb, list_lookup_fmap. cbn.
  apply lookup_lt_Some in Hb. rewrite zseq_lookup by (unfold zlen; lia). by cbn.
Qed.

Lemma fifo_run_snoc log queue event : fifo_run log = Some queue -> fifo_run (log ++ [event]) = fifo_step queue event.
Proof. unfold fifo_run. intros E. by rewrite foldl_app, E. Qed.

Lemma holds_app r cursor a b : holds r cursor a -> holds r (cursor + zlen a) b -> holds r cursor (a ++ b).
Proof.
  intros Ha Hb k Hk. rewrite zlen_app in Hk. destruct (decide (k < zlen a)).
  - rewrite lookup_app_l by (unfold zlen in *; lia). apply Ha. lia.
  - rewrite lookup_app_r by (unfold zlen in *; lia).
    replace (Z.to_nat k - length a)%nat with (Z.to_nat (k - zlen a)) by (unfold zlen in *; lia).
    rewrite Hb by lia. by replace (cursor + zlen a + (k - zlen a)) with (cursor + k) by lia.
Qed.

Lemma holds_drop r cursor frames n : 0 <= n -> holds r cursor frames -> holds r (cursor + n) (drop (Z.to_nat n) frames).
Proof.
  intros Hn H k Hk. rewrite lookup_drop. unfold zlen in Hk. rewrite length_drop in Hk.
  replace (Z.to_nat n + Z.to_nat k)%nat with (Z.to_nat (n + k)) by lia.
  rewrite H by (unfold zlen; lia). by rewrite Z.add_assoc.
Qed.

(** The frames stay where a step only writes elsewhere. *)
Lemma holds_same r r' cursor frames : same_size r r' ->
  (forall k, 0 <= k < zlen frames -> frame_at r' ((cursor + k) mod r.(ar_capacity_frames)) = frame_at r ((cursor + k) mod r.(ar_capacity_frames))) ->
  holds r cursor frames -> holds r' cursor frames.
Proof. intros [Hc _] Hs H k Hk. rewrite Hc, Hs by done. by apply H. Qed.

(** ** One step *)

Lemma take_next {A} (l : list A) k x : 0 <= k -> l !! Z.to_nat k = Some x ->
  take (Z.to_nat (k + 1)) l = take (Z.to_nat k) l ++ [x].
Proof. intros Hk Hl. replace (Z.to_nat (k + 1)) with (S (Z.to_nat k)) by lia. by apply take_S_r. Qed.

Lemma zlen_take_le {A} (l : list A) k : 0 <= k <= zlen l -> zlen (take (Z.to_nat k) l) = k.
Proof. unfold zlen. intros. rewrite length_take. lia. Qed.

Lemma zlen_drop_le {A} (l : list A) k : 0 <= k <= zlen l -> zlen (drop (Z.to_nat k) l) = zlen l - k.
Proof. unfold zlen. intros. rewrite length_drop. lia. Qed.

Lemma block_lookup channels block k : block_ok channels block -> 0 <= k < zlen block ->
  exists values, block !! Z.to_nat k = Some values /\ zlen values = channels.
Proof.
  unfold zlen. intros Hb Hk. destruct (lookup_lt_is_Some_2 block (Z.to_nat k)) as [values E]; [lia |].
  exists values. split; [done |]. by apply (Forall_lookup_1 _ _ _ _ Hb E).
Qed.

Ltac ring_simpl := cbn [sy_ring sy_writing sy_consuming sy_log set_field ar_samples ar_pts_samples ar_capacity_frames ar_channels
  ar_read_frame ar_write_frame ar_overruns wt_block wt_first wt_write wt_next] in *.

(** One frame copied. *)
Lemma produce_copies budget s w queue : ring_inv budget s queue -> s.(sy_writing) = Some w -> w.(wt_next) < zlen w.(wt_block) ->
  exists s', produce s w = Some s' /\ ring_inv budget s' queue.
Proof.
  intros I Hw Hn. destruct I as [S Hr Hq Hc Hh Hl Hp Hk Hb]. destruct (Hp w Hw) as [P1 P2 P3 P4 P5].
  pose proof S as [C1 C2 C3 C4]. unfold in_flight in Hb. rewrite Hw in Hb. pose proof (zlen_nonneg queue).
  destruct (block_lookup _ _ w.(wt_next) P2 ltac:(lia)) as (values & Ev & Hv).
  unfold produce. rewrite (proj2 (Z.ltb_lt _ _)) by done. unfold copy_frame. rewrite Ev. cbn [mbind option_bind].
  rewrite P1, slot_of_mod by lia.
  destruct (store_frame_ok s.(sy_ring) ((s.(sy_ring).(ar_write_frame) + w.(wt_next)) mod s.(sy_ring).(ar_capacity_frames)) values
              (u64 (w.(wt_first) + w.(wt_next))) S ltac:(apply Z.mod_pos_bound; lia) Hv)
    as (r & -> & S' & [Z1 Z2] & R & W & F & O). cbn [mbind option_bind].
  eexists. split; [done |]. constructor; ring_simpl; rewrite ?R, ?W, ?Z1, ?Z2; try done.
  - eapply holds_same; [done | | exact Hh]. intros k Hk'. apply O; [apply Z.mod_pos_bound; lia |].
    apply slots_differ; lia.
  - intros ? [= <-]. constructor; ring_simpl; rewrite ?R, ?W, ?Z1, ?Z2; try done; [lia |].
    rewrite (take_next _ _ (values, u64 (w.(wt_first) + w.(wt_next)))) by (try apply timed_lookup; lia || done).
    apply holds_app.
    + eapply holds_same; [done | | exact P5]. rewrite zlen_take_le by (rewrite zlen_timed; lia). intros k Hk'.
      apply O; [apply Z.mod_pos_bound; lia |]. apply slots_differ; lia.
    + rewrite zlen_take_le by (rewrite zlen_timed; lia). intros k Hk'. rewrite zlen_cons in Hk'. change (zlen []) with 0 in Hk'.
      replace k with 0 by lia. rewrite Z.add_0_r, Z1. cbn. by rewrite F.
  - intros c Ec. specialize (Hk c Ec). destruct c; cbn [consumer_ok] in *; rewrite ?R, ?W; done.
Qed.

Lemma consumer_ok_app r queue frames c : consumer_ok r queue c ->
  forall r', r'.(ar_read_frame) = r.(ar_read_frame) -> r.(ar_write_frame) <= r'.(ar_write_frame) -> consumer_ok r' (queue ++ frames) c.
Proof.
  intros H r' E L. destruct c as [n read next loop|write]; cbn [consumer_ok] in *; [| lia].
  destruct H as (-> & Hn & Hx & ->). rewrite zlen_app. pose proof (zlen_nonneg frames). split_and!; try lia.
  rewrite take_app_le; [done | unfold zlen in *; lia].
Qed.

(** The block published. *)
Lemma produce_publishes budget s w queue : ring_inv budget s queue -> s.(sy_writing) = Some w -> zlen w.(wt_block) <= w.(wt_next) ->
  exists s', produce s w = Some s' /\ ring_inv budget s' (queue ++ timed w.(wt_block) w.(wt_first)).
Proof.
  intros I Hw Hn. destruct I as [S Hr Hq Hc Hh Hl Hp Hk Hb]. destruct (Hp w Hw) as [P1 P2 P3 P4 P5].
  unfold in_flight in Hb. rewrite Hw in Hb. pose proof (zlen_nonneg queue). pose proof S as [C1 C2 C3 C4].
  unfold produce. rewrite (proj2 (Z.ltb_ge _ _)) by done. eexists. split; [done |].
  rewrite P1, u64_small by mlia. assert (zlen w.(wt_block) = w.(wt_next)) as En by lia.
  constructor; ring_simpl; try done; rewrite ?zlen_app, ?zlen_timed; try lia.
  - intros k Hk'. rewrite zlen_app, zlen_timed in Hk'.
    rewrite (holds_app s.(sy_ring) s.(sy_ring).(ar_read_frame) queue (timed w.(wt_block) w.(wt_first))); [done | done | |].
    + rewrite <- En, take_ge in P5 by (pose proof (zlen_timed w.(wt_block) w.(wt_first)); unfold zlen in *; lia).
      by replace (s.(sy_ring).(ar_read_frame) + zlen queue) with s.(sy_ring).(ar_write_frame) by lia.
    + by rewrite zlen_app, zlen_timed.
  - by rewrite (fifo_run_snoc _ _ _ Hl).
  - intros c Ec. eapply consumer_ok_app; [by apply Hk | done |]. ring_simpl. lia.
  - unfold in_flight. ring_simpl. lia.
Qed.

(** One frame read. *)
Lemma consume_copies budget s n read next loop queue : ring_inv budget s queue -> s.(sy_consuming) = Some (Reading n read next loop) ->
  next < n -> exists s', consume s (Reading n read next loop) = Some s' /\ ring_inv budget s' queue.
Proof.
  intros I Hw Hn. destruct I as [S Hr Hq Hc Hh Hl Hp Hk Hb]. destruct (Hk _ Hw) as (-> & K2 & K3 & ->).
  unfold in_flight in Hb. assert (0 <= in_flight s) by (unfold in_flight; destruct sy_writing; [apply zlen_nonneg | lia]).
  unfold in_flight in *. unfold consume. rewrite (proj2 (Z.ltb_lt _ _)) by done. rewrite read_frame_ok by (done || lia).
  pose proof (Hh next ltac:(lia)) as Ef. destruct (frame_at _ _) as [values pts]. cbn [mbind option_bind].
  eexists. split; [done |]. constructor; ring_simpl; try done. intros ? [= <-]. cbn [consumer_ok].
  split_and!; try lia. rewrite (take_next queue next _ (proj1 K3) Ef), read_of_snoc, zlen_take_le by lia. done.
Qed.

(** The reader or the dropper moves the cursor: [n] frames leave the queue. *)
Lemma cursor_advances budget s queue n event : ring_inv budget s queue -> 0 <= n <= zlen queue ->
  fifo_step queue event = Some (drop (Z.to_nat n) queue) ->
  ring_inv budget (s <| sy_ring := s.(sy_ring) <| ar_read_frame := s.(sy_ring).(ar_read_frame) + n |> |>
                     <| sy_consuming := None |> <| sy_log := s.(sy_log) ++ [event] |>) (drop (Z.to_nat n) queue).
Proof.
  intros [S Hr Hq Hc Hh Hl Hp Hk Hb] Hn Hs. constructor; ring_simpl; rewrite ?zlen_drop_le by done; try done; try lia.
  - destruct S. by constructor.
  - exact (holds_drop _ _ _ _ (proj1 Hn) Hh).
  - by rewrite (fifo_run_snoc _ _ _ Hl).
  - intros w Hw. destruct (Hp w Hw) as [P1 P2 P3 P4 P5]. constructor; ring_simpl; try done; lia.
Qed.

(** The most frames a choice hands to the producer. *)
Definition frames_started (choice : ring_choice) : Z := match choice with StartWrite block _ => zlen block | _ => 0 end.

Definition choice_ok (channels : Z) (choice : ring_choice) : Prop :=
  match choice with StartWrite block _ => block_ok channels block | _ => True end.

Lemma ring_inv_less budget budget' s queue : 0 <= budget' <= budget -> ring_inv budget s queue -> ring_inv budget' s queue.
Proof. intros H []. by constructor; try lia. Qed.

Lemma in_flight_nonneg s : 0 <= in_flight s.
Proof. unfold in_flight. destruct (sy_writing s); [apply zlen_nonneg | lia]. Qed.

(** Within the invariant, the test for room is exact. *)
Lemma has_room_exact budget s queue n : ring_inv budget s queue -> 0 <= n <= s.(sy_ring).(ar_capacity_frames) ->
  has_room s.(sy_ring) s.(sy_ring).(ar_write_frame) s.(sy_ring).(ar_read_frame) n = true ->
  zlen queue + n <= s.(sy_ring).(ar_capacity_frames).
Proof.
  intros [S Hr Hq Hc _ _ _ _ Hb] Hn. pose proof S as [C1 _ _ _]. pose proof (zlen_nonneg queue). unfold has_room.
  rewrite Hq, (u64_small (zlen queue)), (u32_small (zlen queue)), u32_small by mlia. intros H'. bool_cases; lia.
Qed.

Lemma write_starts budget s queue block pts : ring_inv (budget + zlen block) s queue -> block_ok s.(sy_ring).(ar_channels) block ->
  0 <= budget -> exists s', ring_step s (StartWrite block pts) = Some s' /\ ring_inv budget s' queue.
Proof.
  intros I Hok Hbud. pose proof (zlen_nonneg block). cbn [ring_step].
  assert (ring_inv budget s queue) as I' by (apply (ring_inv_less (budget + zlen block)); [lia | done]).
  destruct (bool_decide _ || not_writable _ _) eqn:Hg; [by exists s |].
  destruct (has_room _ _ _ _) eqn:Hroom; cbn [negb].
  - apply orb_false_iff in Hg as [Hn Hw]. apply bool_decide_eq_false in Hn. apply dec_stable in Hn.
    unfold not_writable in Hw. bool_cases. eapply has_room_exact in Hroom; [| exact I | lia].
    eexists. split; [done |]. destruct I as [S Hr Hq Hc Hh Hl Hp Hk Hb]. unfold in_flight in Hb. rewrite Hn in Hb.
    constructor; ring_simpl; try done; [| unfold in_flight; ring_simpl; lia]. intros ? [= <-]. constructor; ring_simpl; try done; try lia.
    intros k Hk'. change (0 <= k < 0) in Hk'. lia.
  - eexists. split; [done |]. destruct I'. constructor; ring_simpl; try done.
    + by destruct ri_shape0.
    + intros w Hw. by destruct (ri_producer0 w Hw).
Qed.

(** Every step is possible, touches the arrays within their bounds and keeps the
    invariant. *)
Lemma ring_step_ok budget s queue choice : ring_inv (budget + frames_started choice) s queue ->
  choice_ok s.(sy_ring).(ar_channels) choice -> 0 <= budget ->
  exists s' queue', ring_step s choice = Some s' /\ ring_inv budget s' queue'.
Proof.
  intros I Hok Hbud. destruct choice as [block pts| |n| |]; cbn [frames_started choice_ok] in *.
  - destruct (write_starts budget s queue block pts) as (s' & -> & I'); eauto.
  - rewrite Z.add_0_r in I. cbn [ring_step]. destruct (sy_writing s) as [w|] eqn:Ew; [| by exists s, queue].
    destruct (Z_lt_le_dec w.(wt_next) (zlen w.(wt_block))).
    + destruct (produce_copies budget s w queue) as (s' & -> & I'); eauto.
    + destruct (produce_publishes budget s w queue) as (s' & -> & I'); eauto.
  - rewrite Z.add_0_r in I. cbn [ring_step]. destruct (_ || _ || _) eqn:Hg; [by exists s, queue |].
    destruct I as [S Hr Hq Hc Hh Hl Hp Hk Hb]. pose proof (in_flight_nonneg s). pose proof (zlen_nonneg queue).
    rewrite Hq, u64_small in Hg by mlia. bool_cases.
    do 2 eexists. split; [done |]. constructor; ring_simpl; try done. intros ? [= <-]. cbn [consumer_ok].
    split_and!; try done; lia.
  - rewrite Z.add_0_r in I. cbn [ring_step]. case_bool_decide; [by exists s, queue |].
    do 2 eexists. split; [done |]. destruct I as [S Hr Hq Hc Hh Hl Hp Hk Hb]. pose proof (zlen_nonneg queue).
    constructor; ring_simpl; try done. intros ? [= <-]. cbn [consumer_ok]. lia.
  - rewrite Z.add_0_r in I. cbn [ring_step]. destruct (sy_consuming s) as [c|] eqn:Ec; [| by exists s, queue].
    pose proof (ri_consumer _ _ _ I c Ec) as Hc. pose proof (ri_queue _ _ _ I) as Hq. pose proof (ri_read _ _ _ I) as Hr.
    pose proof (ri_budget _ _ _ I) as Hb. pose proof (in_flight_nonneg s). destruct c as [n read next loop|write].
    + destruct Hc as (-> & Hn & Hx & ->). destruct (Z_lt_le_dec next n) as [Hlt|Hge].
      * destruct (consume_copies budget s n _ next _ queue I Ec Hlt) as (s' & -> & I'). eauto.
      * cbn [consume]. rewrite (proj2 (Z.ltb_ge _ _)), u64_small by mlia. replace next with n by lia.
        do 2 eexists. split; [done |]. apply cursor_advances; [done | lia |]. cbn [fifo_step].
        by rewrite (proj2 (Z.leb_le _ _)), bool_decide_true by (done || lia).
    + cbn [consume consumer_ok] in *. do 2 eexists. split; [done |].
      pose proof (cursor_advances budget s queue (write - s.(sy_ring).(ar_read_frame)) (EvDrop (write - s.(sy_ring).(ar_read_frame)))
                    I ltac:(lia)) as I'.
      cbn [fifo_step] in I'. rewrite !(proj2 (Z.leb_le _ _)) in I' by lia. specialize (I' eq_refl).
      by replace (s.(sy_ring).(ar_read_frame) + (write - s.(sy_ring).(ar_read_frame))) with write in I' by lia.
Qed.

(** ** Runs *)

Definition run_from (s : ring_system) (schedule : list ring_choice) : option ring_system :=
  foldl (fun s choice => s ← s; ring_step s choice) (Some s) schedule.

Lemma run_from_cons s choice schedule s' : ring_step s choice = Some s' -> run_from s (choice :: schedule) = run_from s' schedule.
Proof. unfold run_from. cbn [foldl mbind option_bind]. by intros ->. Qed.

Lemma ring_step_channels s choice s' : ring_step s choice = Some s' -> s'.(sy_ring).(ar_channels) = s.(sy_ring).(ar_channels).
Proof.
  destruct choice as [block pts| |n| |]; cbn [ring_step]; intros H.
  - repeat case_match; by simplify_eq.
  - destruct (sy_writing s) as [w|]; [| by simplify_eq]. unfold produce, copy_frame, store_frame in H. case_match; [| by simplify_eq].
    apply bind_Some in H as (r & H & [= <-]). apply bind_Some in H as (values & _ & H). case_match; by simplify_eq.
  - repeat case_match; by simplify_eq.
  - repeat case_match; by simplify_eq.
  - destruct (sy_consuming s) as [[n read next loop|write]|]; cbn [consume] in H; [| by simplify_eq..].
    case_match; [| by simplify_eq]. apply bind_Some in H as (l & _ & H). by simplify_eq.
Qed.

Definition total_frames (schedule : list ring_choice) : Z := zsum (frames_started <$> schedule).

Lemma frames_started_nonneg choice : 0 <= frames_started choice.
Proof. destruct choice; cbn [frames_started]; [apply zlen_nonneg | lia..]. Qed.

Lemma total_frames_nonneg schedule : 0 <= total_frames schedule.
Proof.
  induction schedule as [|choice schedule IH]; [done |]. unfold total_frames in *. cbn. unfold zsum in *.
  pose proof (frames_started_nonneg choice). lia.
Qed.

Lemma run_from_ok schedule : forall s queue, ring_inv (total_frames schedule) s queue ->
  Forall (choice_ok s.(sy_ring).(ar_channels)) schedule ->
  exists s' queue', run_from s schedule = Some s' /\ ring_inv 0 s' queue'.
Proof.
  induction schedule as [|choice schedule IH]; intros s queue I Hok; [by exists s, queue |].
  rewrite list.Forall_cons in Hok. destruct Hok as [Hc Hok]. change (total_frames (choice :: schedule)) with (frames_started choice + total_frames schedule) in I.
  rewrite Z.add_comm in I.
  destruct (ring_step_ok _ s queue choice I Hc (total_frames_nonneg _)) as (s1 & q1 & E1 & I1).
  rewrite (run_from_cons _ _ _ _ E1). apply (IH _ q1); [done |]. by rewrite (ring_step_channels _ _ _ E1).
Qed.

(** A step of a call that is not interrupted. *)
Lemma foldl_none {A B} (f : B -> A -> option B) l : foldl (fun acc x => acc ← acc; f acc x) None l = None.
Proof. induction l; [done |]. cbn. done. Qed.

Lemma run_copies block pts write c log m : forall a r, (a + m <= length block)%nat ->
  run_from (mk_ring_system r (Some (mk_writing block pts write (Z.of_nat a))) c log) (replicate m Produce) =
    (r' ← foldl (fun r frame => r ← r; copy_frame (fun k => block !! Z.to_nat k) pts write r frame) (Some r) (Z.of_nat <$> seq a m);
     Some (mk_ring_system r' (Some (mk_writing block pts write (Z.of_nat (a + m)))) c log)).
Proof.
  induction m as [|m IH]; intros a r Ha; [by rewrite Nat.add_0_r |]. cbn [replicate seq fmap list_fmap foldl]. unfold run_from.
  cbn [foldl mbind option_bind ring_step sy_writing]. unfold produce. ring_simpl.
  rewrite (proj2 (Z.ltb_lt _ _)) by (unfold zlen; lia). destruct (copy_frame _ _ _ _ _) as [r'|].
  - cbn [mbind option_bind]. ring_simpl. specialize (IH (S a) r' ltac:(lia)). unfold run_from in IH.
    replace (Z.of_nat a + 1) with (Z.of_nat (S a)) by lia. rewrite <- Nat.add_succ_comm. exact IH.
  - cbn [mbind option_bind]. by rewrite !foldl_none.
Qed.

(** [wd_audio_pcm_ring_write] and the other writers are the producer's steps in a
    row, *)
Lemma writer_is_run r c log block pts : not_writable r (zlen block) = false ->
  run_from (mk_ring_system r None c log) (StartWrite block pts :: replicate (S (length block)) Produce) =
    match write_frames (fun k => block !! Z.to_nat k) r (zlen block) pts with
    | None => None
    | Some (r', ok) => Some (mk_ring_system r' None c (if ok then log ++ [EvPublish (timed block pts)] else log))
    end.
Proof.
  intros Hw. unfold write_frames.
  destruct (has_room _ _ _ _) eqn:Hroom.
  - rewrite (run_from_cons _ _ _ (mk_ring_system r (Some (mk_writing block pts r.(ar_write_frame) 0)) c log))
      by (cbn [ring_step sy_writing sy_ring]; rewrite bool_decide_false by (intros Hn; by apply Hn); by rewrite Hw, Hroom).
    replace (S (length block)) with (length block + 1)%nat by lia. unfold run_from. rewrite replicate_add, foldl_app.
    pose proof (run_copies block pts r.(ar_write_frame) c log (length block) 0 r ltac:(lia)) as E. unfold run_from in E.
    change (Z.of_nat 0) with 0 in E. change (0 + length block)%nat with (length block) in E. cbn [negb]. unfold copy_frames, zseq.
    rewrite E. replace (Z.to_nat (zlen block)) with (length block) by (unfold zlen; lia). destruct (foldl _ (Some r) _) as [r'|]; [| done].
    cbn [mbind option_bind replicate foldl ring_step sy_writing]. unfold produce. ring_simpl.
    by rewrite (proj2 (Z.ltb_ge _ _)) by (unfold zlen; lia).
  - rewrite (run_from_cons _ _ _ (mk_ring_system (r <| ar_overruns := u64 (r.(ar_overruns) + 1) |>) None c log))
      by (cbn [ring_step sy_writing sy_ring]; rewrite bool_decide_false by (intros Hn; by apply Hn); by rewrite Hw, Hroom).
    cbn [negb mbind option_bind]. generalize (S (length block)). intros m. induction m as [|m IH]; [done |].
    cbn [replicate]. by erewrite run_from_cons.
Qed.

Lemma run_reads r w log n read m : forall a loop, Z.of_nat (a + m) <= n ->
  run_from (mk_ring_system r w (Some (Reading n read (Z.of_nat a) loop)) log) (replicate m Consume) =
    (loop' ← foldl (fun loop frame => loop ← loop; read_frame read r loop frame) (Some loop) (Z.of_nat <$> seq a m);
     Some (mk_ring_system r w (Some (Reading n read (Z.of_nat (a + m)) loop')) log)).
Proof.
  induction m as [|m IH]; intros a loop Ha; [by rewrite Nat.add_0_r |]. cbn [replicate seq fmap list_fmap foldl]. unfold run_from.
  cbn [foldl mbind option_bind ring_step sy_consuming]. unfold consume. ring_simpl.
  rewrite (proj2 (Z.ltb_lt _ _)) by lia. destruct (read_frame _ _ _ _) as [loop'|].
  - cbn [mbind option_bind]. ring_simpl. specialize (IH (S a) loop' ltac:(lia)). unfold run_from in IH.
    replace (Z.of_nat a + 1) with (Z.of_nat (S a)) by lia. rewrite <- Nat.add_succ_comm. exact IH.
  - cbn [mbind option_bind]. by rewrite !foldl_none.
Qed.

(** and [wd_audio_pcm_ring_read] the consumer's. *)
Lemma reader_is_run r w log n : null r.(ar_samples) || null r.(ar_pts_samples) = false -> 0 < n ->
  run_from (mk_ring_system r w None log) (StartRead n :: replicate (S (Z.to_nat n)) Consume) =
    match wd_audio_pcm_ring_read (Some r) true n with
    | None => None
    | Some (r', k, loop) => Some (mk_ring_system (default r r') w None (if k =? 0 then log else log ++ [EvRead k loop]))
    end.
Proof.
  intros Ha Hn. unfold wd_audio_pcm_ring_read. rewrite Ha, (proj2 (Z.eqb_neq n 0)) by lia. cbn [orb negb].
  destruct (_ <? n) eqn:Hroom.
  - rewrite (run_from_cons _ _ _ (mk_ring_system r w None log))
      by (cbn [ring_step sy_consuming sy_ring]; by rewrite Hroom, orb_true_r).
    cbn [default from_option Z.eqb]. generalize (S (Z.to_nat n)). intros m. induction m as [|m IH]; [done |].
    cbn [replicate]. by erewrite run_from_cons.
  - rewrite (run_from_cons _ _ _ (mk_ring_system r w (Some (Reading n r.(ar_read_frame) 0 start_read)) log))
      by (cbn [ring_step sy_consuming sy_ring]; rewrite bool_decide_false by (intros H; by apply H); rewrite Hroom;
          by rewrite (proj2 (Z.leb_gt _ _)) by lia).
    replace (S (Z.to_nat n)) with (Z.to_nat n + 1)%nat by lia. unfold run_from. rewrite replicate_add, foldl_app.
    pose proof (run_reads r w log n r.(ar_read_frame) (Z.to_nat n) 0 start_read ltac:(lia)) as E. unfold run_from in E.
    change (Z.of_nat 0) with 0 in E. change (0 + Z.to_nat n)%nat with (Z.to_nat n) in E. unfold read_frames, zseq.
    rewrite E. destruct (foldl _ (Some start_read) _) as [loop|]; [| done].
    cbn [mbind option_bind replicate foldl ring_step sy_consuming]. unfold consume. ring_simpl.
    rewrite (proj2 (Z.ltb_ge _ _)), Z2Nat.id by lia. by rewrite (proj2 (Z.eqb_neq n 0)) by lia.
Qed.

(** ** The claim *)

Lemma init_shape r0 capacity channels ring : 0 <= capacity <= UINT32_MAX ->
  0 <= channels -> wd_audio_pcm_ring_init (Some r0) capacity channels true true = (Some ring, true) ->
  ring_shape ring /\ ring.(ar_capacity_frames) = capacity /\ ring.(ar_channels) = channels /\
  ring.(ar_read_frame) = 0 /\ ring.(ar_write_frame) = 0.
Proof.
  intros Hc Hch. unfold wd_audio_pcm_ring_init, wd_audio_size_multiply. case_match eqn:Hg; [done |]. bool_cases.
  repeat (case_match; [done | ]; cbn). repeat case_match; try done. intros [= <-]. simplify_eq. cbn.
  assert (0 <= capacity * channels <= UINT32_MAX * 2) by (split; [nia | apply Z.mul_le_mono_nonneg; lia]).
  split_and!; try done. constructor; cbn; try lia; unfold zlen; rewrite length_replicate; [rewrite u64_small by mlia |]; lia.
Qed.

(** C31: The audio ring is a lock-free first-in first-out
    queue: from a ring that was just initialised, for every interleaving of the
    steps of the writer, which copies a block frame by frame and then publishes
    the write cursor, with those of the reader or dropper, which copies frames
    out and then publishes the read cursor, no access leaves the arrays, and the
    calls as they take effect are a history of a queue: each read returns exactly
    the oldest unread frames, their samples, the time of the first and whether
    the times follow each other; nothing is overwritten, torn, repeated or lost
    but by a drop.  What is queued is what lies between the two cursors, never
    more than the capacity.  (Blocks have one sample per channel in each frame,
    and fewer than 2^64 frames are written.) *)
Theorem audio_ring_linearizable r0 capacity channels ring schedule :
  0 <= capacity <= UINT32_MAX -> 0 <= channels ->
  wd_audio_pcm_ring_init (Some r0) capacity channels true true = (Some ring, true) ->
  Forall (choice_ok channels) schedule -> total_frames schedule < 2 ^ 64 ->
  exists s queue, ring_run ring schedule = Some s /\ fifo_run s.(sy_log) = Some queue /\
    s.(sy_ring).(ar_write_frame) - s.(sy_ring).(ar_read_frame) = zlen queue /\ zlen queue <= s.(sy_ring).(ar_capacity_frames) /\
    wd_audio_pcm_ring_queued_frames (Some s.(sy_ring)) = zlen queue.
Proof.
  intros Hc Hch Hi Hok Ht. destruct (init_shape _ _ _ _ Hc Hch Hi) as (S & Ec & Ech & Er & Ew).
  destruct (run_from_ok schedule (mk_ring_system ring None None []) []) as (s & queue & E & I).
  - constructor; ring_simpl; rewrite ?Er, ?Ew; try done; change (zlen []) with 0; try lia.
    + intros k Hk. change (0 <= k < 0) in Hk. lia.
    + unfold in_flight. ring_simpl. pose proof (total_frames_nonneg schedule). lia.
  - ring_simpl. by rewrite Ech.
  - exists s, queue. destruct I as [S' Hr Hq Hcap Hh Hl Hp Hk Hb]. split_and!; try done.
    unfold wd_audio_pcm_ring_queued_frames. pose proof (zlen_nonneg queue). pose proof (rs_capacity _ S').
    rewrite (proj2 (Z.geb_le _ _)), Hq by lia. rewrite Z.gtb_ltb, (proj2 (Z.ltb_ge _ _)) by lia. done.
Qed.

(** A ring of three mono frames: a block of two is read while one of two is
    being written around the end of the array; a third does not fit. *)
Definition sample_of (n : positive) : spec_float := S754_finite false n 0.
Definition ring_sample : wd_audio_pcm_ring := default empty_ring (fst (wd_audio_pcm_ring_init (Some empty_ring) 3 1 true true)).
Definition schedule_sample : list ring_choice :=
  [StartWrite [[sample_of 1]; [sample_of 2]] 100; Produce; Produce; StartRead 2; Produce; StartRead 2; Consume;
   StartWrite [[sample_of 3]; [sample_of 4]] 102; Consume; Consume; StartWrite [[sample_of 5]; [sample_of 6]] 110;
   Produce; StartDrop; Produce; Produce; StartWrite [[sample_of 7]; [sample_of 8]] 120; Consume; StartRead 2; Consume; Consume; Consume].

Example audio_ring_linearizable_witness :
  (exists s, ring_run ring_sample schedule_sample = Some s /\
     s.(sy_log) = [EvPublish [([sample_of 1], 100); ([sample_of 2], 101)];
                   EvRead 2 (mk_read_loop [sample_of 1; sample_of 2] 100 101 true);
                   EvPublish [([sample_of 5], 110); ([sample_of 6], 111)]; EvDrop 0;
                   EvRead 2 (mk_read_loop [sample_of 5; sample_of 6] 110 111 true)] /\
     s.(sy_ring).(ar_overruns) = 2) /\
  (exists s queue, ring_run ring_sample schedule_sample = Some s /\ fifo_run s.(sy_log) = Some queue /\
    s.(sy_ring).(ar_write_frame) - s.(sy_ring).(ar_read_frame) = zlen queue /\ zlen queue <= s.(sy_ring).(ar_capacity_frames) /\
    wd_audio_pcm_ring_queued_frames (Some s.(sy_ring)) = zlen queue).
Proof.
  split; [eexists; by vm_compute |].
  apply (audio_ring_linearizable empty_ring 3 1 ring_sample); [by vm_compute | lia | by vm_compute | | by vm_compute].
  repeat constructor.
Defined.
