(* ===== verification/FramePacing.v ===== *)
(** * Frame pacing

    src/server/wd_frame_pacing.c: the capture-rate gate.  [now_ns] is a reading
    of the monotonic clock. *)
From S2P Require Import Prelude Config.

Record wd_frame_pacing_state := mk_wd_frame_pacing_state {
  fp_next_deadline_ns : Z;
  fp_last_admitted_ns : Z;
  fp_capture_fps : Z;
}.

Definition wd_frame_rate_normalize_client_request (requested_fps : Z) : Z :=
  if requested_fps =? 0 then WD_DEFAULT_SESSION_FPS
  else if requested_fps >? WD_MAX_SESSION_FPS then WD_MAX_SESSION_FPS
  else requested_fps.

Definition wd_frame_service_interval_ms (capture_fps minimum_ms maximum_ms : Z) : Z :=
  let minimum_ms := if minimum_ms =? 0 then 1 else minimum_ms in
  let maximum_ms := if maximum_ms <? minimum_ms then minimum_ms else maximum_ms in
  let capture_fps := if capture_fps =? 0 then 1 else capture_fps in
  let interval_ms := 1000 / capture_fps in
  let interval_ms := if interval_ms <? minimum_ms then minimum_ms else interval_ms in
  if interval_ms >? maximum_ms then maximum_ms else interval_ms.

Definition wd_frame_pacing_reset (state : ptr wd_frame_pacing_state) : ptr wd_frame_pacing_state :=
  match state with NULL => NULL | Some _ => Some (mk_wd_frame_pacing_state 0 0 0) end.

Definition wd_frame_interval_ns (capture_fps : Z) : Z :=
  let capture_fps := if capture_fps =? 0 then 1 else capture_fps in
  u64 (u64 (WD_NSEC_PER_SEC + capture_fps) - 1) / capture_fps.

(** [t + interval], saturating. *)
Definition deadline_after (t interval_ns : Z) : Z :=
  if UINT64_MAX - t <? interval_ns then UINT64_MAX else u64 (t + interval_ns).

Definition wd_frame_pacing_due (state : ptr wd_frame_pacing_state) (now_ns capture_fps : Z)
    : bool * ptr wd_frame_pacing_state :=
  match state with
  | NULL => (false, NULL)
  | Some s =>
      let capture_fps := if capture_fps =? 0 then 1 else capture_fps in
      let interval_ns := wd_frame_interval_ns capture_fps in
      if s.(fp_last_admitted_ns) =? 0 then
        (true, Some (mk_wd_frame_pacing_state (deadline_after now_ns interval_ns)
                       (if negb (now_ns =? 0) then now_ns else 1) capture_fps))
      else
        let s :=
          if negb (s.(fp_capture_fps) =? capture_fps)
          then mk_wd_frame_pacing_state (deadline_after s.(fp_last_admitted_ns) interval_ns)
                 s.(fp_last_admitted_ns) capture_fps
          else s in
        if now_ns <? s.(fp_next_deadline_ns) then (false, Some s)
        else
          let lateness_ns := u64 (now_ns - s.(fp_next_deadline_ns)) in
          (true, Some (mk_wd_frame_pacing_state
             (if lateness_ns >=? interval_ns
              then deadline_after now_ns interval_ns
              else deadline_after s.(fp_next_deadline_ns) interval_ns)
             now_ns s.(fp_capture_fps)))
  end.

(** The clock readings at which the gate admits a frame, for a sequence of
    polls at one capture rate. *)
Fixpoint admissions (s : wd_frame_pacing_state) (fps : Z) (polls : list Z) : list Z :=
  match polls with
  | [] => []
  | now :: polls =>
      match wd_frame_pacing_due (Some s) now fps with
      | (true, Some s) => now :: admissions s fps polls
      | (false, Some s) => admissions s fps polls
      | (_, NULL) => []
      end
  end.

(** ** Lemmas *)

Lemma deadline_after_exact t i :
  0 <= t -> 0 <= i -> t + i <= UINT64_MAX -> deadline_after t i = t + i.
Proof.
  intros. unfold deadline_after. rewrite u64_small by mlia. case_if; bool_cases; lia.
Qed.

Lemma frame_interval_pos fps : 0 <= fps <= UINT16_MAX -> 0 < wd_frame_interval_ns fps <= 1000000000.
Proof.
  intros Hf. unfold wd_frame_interval_ns.
  set (f := if fps =? 0 then 1 else fps).
  assert (1 <= f <= UINT16_MAX) by (subst f; case_if; bool_cases; mlia).
  change WD_NSEC_PER_SEC with 1000000000.
  rewrite (u64_small (1000000000 + f)), u64_small by mlia. split.
  - apply Z.div_str_pos. lia.
  - apply Z.div_le_upper_bound; [lia |]. nia.
Qed.

(** The interval is the exact ceiling, so [fps] intervals span at least one
    second. *)
Lemma frame_interval_hard fps : 1 <= fps <= UINT16_MAX ->
  1000000000 <= fps * wd_frame_interval_ns fps.
Proof.
  intros Hf. unfold wd_frame_interval_ns. destruct (Z.eqb_spec fps 0); [lia |].
  change WD_NSEC_PER_SEC with 1000000000.
  rewrite (u64_small (1000000000 + fps)), u64_small by mlia.
  fold (cdiv 1000000000 fps). pose proof (proj1 (cdiv_spec 1000000000 fps _ ltac:(lia)) eq_refl).
  lia.
Qed.

(** A state that already admitted a frame at rate [fps]. *)
Definition paced (s : wd_frame_pacing_state) (fps : Z) : Prop :=
  s.(fp_last_admitted_ns) <> 0 /\ s.(fp_capture_fps) = fps /\ 0 <= s.(fp_next_deadline_ns).

Lemma due_paced s fps now :
  paced s fps -> 1 <= fps <= UINT16_MAX -> 0 < now -> now + wd_frame_interval_ns fps <= UINT64_MAX ->
  wd_frame_pacing_due (Some s) now fps =
    if now <? s.(fp_next_deadline_ns) then (false, Some s)
    else (true, Some (mk_wd_frame_pacing_state
           (if now - s.(fp_next_deadline_ns) >=? wd_frame_interval_ns fps
            then now + wd_frame_interval_ns fps
            else s.(fp_next_deadline_ns) + wd_frame_interval_ns fps) now fps)).
Proof.
  intros (Hl & Hf & Hd) Hfps Hnow Hi. pose proof (frame_interval_pos fps ltac:(lia)).
  unfold wd_frame_pacing_due. destruct (Z.eqb_spec fps 0); [lia |].
  apply Z.eqb_neq in Hl. rewrite Hl, Hf, Z.eqb_refl. cbn [negb].
  destruct (Z.ltb_spec now s.(fp_next_deadline_ns)); [done |].
  rewrite u64_small by mlia. rewrite Hf. rewrite !deadline_after_exact by lia. done.
Qed.

(** The deadline after [j] admissions is at least [j] intervals later. *)
Lemma admissions_spaced s fps polls j t :
  paced s fps -> 1 <= fps <= UINT16_MAX ->
  Forall (fun now => 0 < now /\ now + wd_frame_interval_ns fps <= UINT64_MAX) polls ->
  admissions s fps polls !! j = Some t ->
  s.(fp_next_deadline_ns) + Z.of_nat j * wd_frame_interval_ns fps <= t.
Proof.
  intros Hs Hfps. pose proof (frame_interval_pos fps ltac:(lia)).
  revert s j Hs; induction polls as [|now polls IH]; intros s j Hs Hp; [by destruct j |].
  apply Forall_cons_iff in Hp as [[Hn0 Hn] Hp]. cbn [admissions].
  rewrite due_paced by done.
  destruct (Z.ltb_spec now s.(fp_next_deadline_ns)); [by apply IH |].
  destruct j as [|j]; [intros [= <-]; lia |]. cbn. intros Hj.
  set (s' := mk_wd_frame_pacing_state _ now fps) in Hj.
  assert (paced s' fps) as Hs'.
  { destruct Hs as (? & ? & ?). subst s'. split_and!; cbn; [lia | done |]. case_if; lia. }
  pose proof (IH s' j Hs' Hp Hj) as IH'.
  assert (s.(fp_next_deadline_ns) + wd_frame_interval_ns fps <= s'.(fp_next_deadline_ns)).
  { subst s'. cbn. case_if; bool_cases; lia. }
  lia.
Qed.

(** The state after an admission: its deadline is after the admitted frame. *)
Lemma due_admitted s fps now s' :
  paced s fps -> 1 <= fps <= UINT16_MAX -> 0 < now -> now + wd_frame_interval_ns fps <= UINT64_MAX ->
  wd_frame_pacing_due (Some s) now fps = (true, Some s') ->
  paced s' fps /\ now <= s'.(fp_next_deadline_ns).
Proof.
  intros Hs Hfps Hn Hi. pose proof (frame_interval_pos fps ltac:(lia)).
  rewrite due_paced by done. case_if; [done |]. intros [= <-]. bool_cases.
  destruct Hs as (? & ? & ?). split; [split_and!; cbn; [lia | done |]; case_if; bool_cases; lia |].
  cbn. case_if; bool_cases; lia.
Qed.

(** Later admissions of a paced gate, from any admitted frame. *)
Lemma admissions_gap s fps polls i j ti tj :
  paced s fps -> 1 <= fps <= UINT16_MAX ->
  Forall (fun now => 0 < now /\ now + wd_frame_interval_ns fps <= UINT64_MAX) polls ->
  admissions s fps polls !! i = Some ti -> admissions s fps polls !! (i + S j)%nat = Some tj ->
  ti + Z.of_nat j * wd_frame_interval_ns fps <= tj.
Proof.
  intros Hs Hfps. revert s i Hs; induction polls as [|now polls IH]; intros s i Hs Hp;
    [by destruct i |].
  apply Forall_cons_iff in Hp as [[Hn0 Hn] Hp]. cbn [admissions].
  destruct (wd_frame_pacing_due (Some s) now fps) as [[] [s'|]] eqn:E; try done.
  - destruct (due_admitted s fps now s' Hs Hfps Hn0 Hn E) as [Hs' Hnext].
    destruct i as [|i]; cbn; [| by apply IH].
    intros [= <-] Hj. pose proof (admissions_spaced s' fps polls j tj Hs' Hfps Hp Hj). lia.
  - rewrite due_paced in E by done. case_if_in E; [| done]. injection E as <-. by apply IH.
Qed.

(** C38: the capture rate is a hard upper bound. Whatever the polling
    pattern, the j-th frame admitted after the first comes at least j intervals
    after it, each interval is at least 1/fps of a second, and from any later
    admitted frame the same holds up to one interval: no sequence of late
    wakeups makes the gate catch up by a burst. *)
Theorem capture_rate_bounded s fps first polls i j ti tj :
  s.(fp_last_admitted_ns) = 0 -> 1 <= fps <= UINT16_MAX ->
  Forall (fun now => 0 < now /\ now + wd_frame_interval_ns fps <= UINT64_MAX) (first :: polls) ->
  admissions s fps (first :: polls) !! i = Some ti ->
  admissions s fps (first :: polls) !! (i + S j)%nat = Some tj ->
  let interval := wd_frame_interval_ns fps in
  1000000000 <= fps * interval /\
  (i = 0%nat -> ti + (Z.of_nat j + 1) * interval <= tj) /\
  ti + Z.of_nat j * interval <= tj.
Proof.
  intros Hs Hfps Hp. pose proof (frame_interval_pos fps ltac:(lia)) as HI.
  apply Forall_cons_iff in Hp as [[Hn0 Hn] Hp]. cbn [admissions].
  unfold wd_frame_pacing_due. rewrite Hs. cbn [Z.eqb].
  destruct (Z.eqb_spec fps 0); [lia |]. destruct (Z.eqb_spec first 0); [lia |]. cbn [negb].
  rewrite deadline_after_exact by lia. set (s1 := mk_wd_frame_pacing_state _ first fps).
  assert (paced s1 fps) as Hs1 by (split_and!; cbn; [lia | done | lia]).
  intros Hi Hj. split; [by apply frame_interval_hard |].
  destruct i as [|i]; cbn in Hi, Hj.
  - injection Hi as <-. pose proof (admissions_spaced s1 fps polls j tj Hs1 Hfps Hp Hj).
    subst s1. cbn in *. nia.
  - split; [done |]. by eapply admissions_gap.
Qed.

Lemma capture_rate_bounded_witness :
  let polls := [1000; 5000000; 17000000; 32000000; 33400000; 51000000] in
  admissions (mk_wd_frame_pacing_state 0 0 0) 60 polls = [1000; 17000000; 33400000; 51000000] /\
  17000000 + 1 * wd_frame_interval_ns 60 <= 51000000.
Proof.
  split; [vm_compute; reflexivity |].
  apply (capture_rate_bounded (mk_wd_frame_pacing_state 0 0 0) 60 1000
    [5000000; 17000000; 32000000; 33400000; 51000000] 1 1); try reflexivity; [mlia |].
  repeat constructor; vm_compute; congruence.
Defined.
