(* ===== verification/Bandwidth.v ===== *)
(** * Bandwidth plan

    src/server/wd_bandwidth_plan.c: the shares of the link, the audio bitrate
    and the token buckets, which count in [double]. *)
From S2P Require Import Prelude CFloat Config.

Inductive wd_bandwidth_mode := WD_BANDWIDTH_MODE_TILES | WD_BANDWIDTH_MODE_VIDEO.

#[export] Instance wd_bandwidth_mode_eq_dec : EqDecision wd_bandwidth_mode.
Proof. solve_decision. Defined.

Record wd_bandwidth_plan := mk_wd_bandwidth_plan {
  bp_link_bytes_per_second : Z;
  bp_overhead_bytes_per_second : Z;
  bp_control_bytes_per_second : Z;
  bp_audio_required_bytes_per_second : Z;
  bp_audio_cap_bytes_per_second : Z;
  bp_audio_reserved_bytes_per_second : Z;
  bp_fresh_tile_bytes_per_second : Z;
  bp_repair_bytes_per_second : Z;
  bp_video_bytes_per_second : Z;
}.

Definition wd_percent_of_u64 (value percent : Z) : Z :=
  let whole := value / 100 in
  let rem := value mod 100 in
  u64 (u64 (whole * percent) + u64 (rem * percent) / 100).

Definition wd_bandwidth_audio_wire_bytes_per_second (bitrate_bits_per_second : Z) : Z :=
  if bitrate_bits_per_second =? 0 then 0
  else
    let payload := u64 (bitrate_bits_per_second + 7) / 8 in
    u64 (payload + wd_percent_of_u64 payload WD_BANDWIDTH_AUDIO_TRANSPORT_ALLOWANCE_PERCENT).

(** The [while] loop that lowers the bitrate in steps of 1000. *)
Fixpoint lower_bitrate (fuel : nat) (selected minimum cap : Z) : Z :=
  match fuel with
  | O => selected
  | S fuel =>
      if (selected >=? minimum) && (wd_bandwidth_audio_wire_bytes_per_second (u32 selected) >? cap)
      then lower_bitrate fuel (if selected >=? 1000 then selected - 1000 else 0) minimum cap
      else selected
  end.

Definition wd_bandwidth_audio_select_bitrate (link_bytes_per_second
    preferred_bitrate_bits_per_second minimum_bitrate_bits_per_second : Z) : Z :=
  if (link_bytes_per_second =? 0) || (preferred_bitrate_bits_per_second =? 0) ||
     (minimum_bitrate_bits_per_second =? 0) ||
     (minimum_bitrate_bits_per_second >? preferred_bitrate_bits_per_second)
  then 0
  else
    let cap := wd_percent_of_u64 link_bytes_per_second WD_BANDWIDTH_AUDIO_PERCENT in
    if wd_bandwidth_audio_wire_bytes_per_second minimum_bitrate_bits_per_second >? cap then 0
    else if wd_bandwidth_audio_wire_bytes_per_second preferred_bitrate_bits_per_second <=? cap
    then preferred_bitrate_bits_per_second
    else
      let allowance := 100 + WD_BANDWIDTH_AUDIO_TRANSPORT_ALLOWANCE_PERCENT in
      let scaled_cap := cap * 100 in
      let payload_bytes_per_second :=
        if negb (allowance =? 0) then u64 (scaled_cap / allowance) else 0 in
      let selected :=
        if payload_bytes_per_second >? UINT32_MAX / 8 then UINT32_MAX
        else payload_bytes_per_second * 8 in
      let selected :=
        if selected >? preferred_bitrate_bits_per_second then preferred_bitrate_bits_per_second
        else selected in
      let selected := selected - selected mod 1000 in
      let selected :=
        lower_bitrate (S (Z.to_nat (selected / 1000))) selected minimum_bitrate_bits_per_second cap in
      if selected >=? minimum_bitrate_bits_per_second then u32 selected else 0.

Definition wd_bandwidth_plan_build (link_bytes_per_second : Z) (mode : wd_bandwidth_mode)
    (audio_enabled : bool) (audio_bitrate_bits_per_second : Z) : wd_bandwidth_plan :=
  let audio_cap := wd_percent_of_u64 link_bytes_per_second WD_BANDWIDTH_AUDIO_PERCENT in
  let required :=
    if audio_enabled
    then wd_bandwidth_audio_wire_bytes_per_second audio_bitrate_bits_per_second else 0 in
  let video := bool_decide (mode = WD_BANDWIDTH_MODE_VIDEO) in
  mk_wd_bandwidth_plan link_bytes_per_second
    (wd_percent_of_u64 link_bytes_per_second WD_BANDWIDTH_OVERHEAD_PERCENT)
    (wd_percent_of_u64 link_bytes_per_second WD_BANDWIDTH_CONTROL_PERCENT)
    required audio_cap
    (if audio_enabled then if required <? audio_cap then required else audio_cap else 0)
    (if video then 0 else wd_percent_of_u64 link_bytes_per_second WD_BANDWIDTH_TILE_FRESH_PERCENT)
    (if video then 0 else wd_percent_of_u64 link_bytes_per_second WD_BANDWIDTH_TILE_REPAIR_PERCENT)
    (if video then wd_percent_of_u64 link_bytes_per_second WD_BANDWIDTH_VIDEO_PERCENT else 0).

Definition wd_bandwidth_plan_media_bytes (plan : ptr wd_bandwidth_plan) (mode : wd_bandwidth_mode)
    : Z :=
  match plan with
  | NULL => 0
  | Some p =>
      match mode with
      | WD_BANDWIDTH_MODE_VIDEO => p.(bp_video_bytes_per_second)
      | WD_BANDWIDTH_MODE_TILES =>
          u64 (p.(bp_fresh_tile_bytes_per_second) + p.(bp_repair_bytes_per_second))
      end
  end.

(** The sum is computed in 128 bits, so it is exact. *)
Definition wd_bandwidth_plan_is_valid (plan : ptr wd_bandwidth_plan) (mode : wd_bandwidth_mode)
    : bool :=
  match plan with
  | NULL => false
  | Some p =>
      if (p.(bp_audio_reserved_bytes_per_second) >? p.(bp_audio_cap_bytes_per_second)) ||
         negb (p.(bp_audio_reserved_bytes_per_second) =? p.(bp_audio_required_bytes_per_second))
      then false
      else
        let allocated := p.(bp_overhead_bytes_per_second) + p.(bp_control_bytes_per_second) +
                         p.(bp_audio_cap_bytes_per_second) in
        let allocated :=
          match mode with
          | WD_BANDWIDTH_MODE_VIDEO => allocated + p.(bp_video_bytes_per_second)
          | WD_BANDWIDTH_MODE_TILES =>
              allocated + (p.(bp_fresh_tile_bytes_per_second) + p.(bp_repair_bytes_per_second))
          end in
        allocated <=? p.(bp_link_bytes_per_second)
  end.

(** ** Token buckets *)

Record wd_bandwidth_bucket := mk_wd_bandwidth_bucket {
  bk_tokens : spec_float;
  bk_last_refill_ns : Z;
}.

Definition wd_bandwidth_bucket_reset (bucket : ptr wd_bandwidth_bucket) : ptr wd_bandwidth_bucket :=
  match bucket with
  | NULL => NULL
  | Some _ => Some (mk_wd_bandwidth_bucket (double_of_Z 0) 0)
  end.

(** [tokens] as a count of whole bytes, saturating. *)
Definition whole_tokens (tokens : spec_float) : Z :=
  if SFleb (double_of_Z UINT64_MAX) tokens then UINT64_MAX else float_to_u64 tokens.

Definition cap_tokens (tokens : spec_float) (burst_bytes : Z) : spec_float :=
  if SFltb (double_of_Z burst_bytes) tokens then double_of_Z burst_bytes else tokens.

Definition wd_bandwidth_bucket_available (bucket : ptr wd_bandwidth_bucket)
    (rate_bytes_per_second burst_bytes now_ns : Z) : Z * ptr wd_bandwidth_bucket :=
  match bucket with
  | NULL => (UINT64_MAX, NULL)
  | Some b =>
      if (rate_bytes_per_second =? 0) || (burst_bytes =? 0) then (0, bucket)
      else if (b.(bk_last_refill_ns) =? 0) || (now_ns <? b.(bk_last_refill_ns))
      then (0, Some (mk_wd_bandwidth_bucket (double_of_Z 0) now_ns))
      else
        let elapsed_ns := u64 (now_ns - b.(bk_last_refill_ns)) in
        let tokens :=
          cap_tokens
            (double_add b.(bk_tokens)
               (double_mul (double_div (double_of_Z elapsed_ns) (double_of_Z 1000000000))
                  (double_of_Z rate_bytes_per_second)))
            burst_bytes in
        (whole_tokens tokens, Some (mk_wd_bandwidth_bucket tokens now_ns))
  end.

Definition wd_bandwidth_bucket_consume (bucket : ptr wd_bandwidth_bucket) (bytes : Z)
    : Z * ptr wd_bandwidth_bucket :=
  match bucket with
  | NULL => (0, NULL)
  | Some b =>
      if bytes =? 0 then (0, bucket)
      else
        let available :=
          if SFleb b.(bk_tokens) (double_of_Z 0) then 0 else whole_tokens b.(bk_tokens) in
        let consumed := if bytes <? available then bytes else available in
        let tokens := double_sub b.(bk_tokens) (double_of_Z consumed) in
        let tokens := if SFltb tokens (double_of_Z 0) then double_of_Z 0 else tokens in
        (consumed, Some (mk_wd_bandwidth_bucket tokens b.(bk_last_refill_ns)))
  end.

Definition wd_bandwidth_bucket_refund (bucket : ptr wd_bandwidth_bucket) (bytes burst_bytes : Z)
    : ptr wd_bandwidth_bucket :=
  match bucket with
  | NULL => NULL
  | Some b =>
      if (bytes =? 0) || (burst_bytes =? 0) then bucket
      else
        Some (mk_wd_bandwidth_bucket
          (cap_tokens (double_add b.(bk_tokens) (double_of_Z bytes)) burst_bytes)
          b.(bk_last_refill_ns))
  end.

(** ** Lemmas *)

(** The split computation is the exact percentage, rounded down. *)
Lemma percent_exact value percent :
  u64_ok value -> 0 <= percent <= 100 -> wd_percent_of_u64 value percent = value * percent / 100.
Proof.
  intros Hv Hp. unfold wd_percent_of_u64.
  pose proof (Z.div_mod value 100 ltac:(lia)). pose proof (Z.mod_pos_bound value 100 ltac:(lia)).
  assert (0 <= value / 100) by (apply Z.div_pos; mlia).
  assert (value * percent / 100 = value / 100 * percent + value mod 100 * percent / 100) as E.
  { replace (value * percent) with (value mod 100 * percent + value / 100 * percent * 100) by nia.
    rewrite Z.div_add by lia. lia. }
  assert (0 <= value mod 100 * percent <= 9900) by nia.
  assert (0 <= value / 100 * percent <= value) by nia.
  assert (value * percent / 100 <= value) by (apply Z.div_le_upper_bound; nia).
  assert (0 <= value mod 100 * percent / 100) by (apply Z.div_pos; lia).
  rewrite (u64_small (value / 100 * percent)), (u64_small (value mod 100 * percent)) by mlia.
  rewrite u64_small by mlia. lia.
Qed.

Lemma wire_exact b : u32_ok b ->
  wd_bandwidth_audio_wire_bytes_per_second b = (b + 7) / 8 + (b + 7) / 8 * 20 / 100.
Proof.
  intros Hb. unfold wd_bandwidth_audio_wire_bytes_per_second.
  destruct (Z.eqb_spec b 0) as [->|]; [reflexivity |].
  rewrite (u64_small (b + 7)) by mlia.
  assert (0 <= (b + 7) / 8 <= b) by (split; [apply Z.div_pos; mlia |
    apply Z.div_le_upper_bound; mlia]).
  rewrite percent_exact by (split_and?; mlia || done).
  change WD_BANDWIDTH_AUDIO_TRANSPORT_ALLOWANCE_PERCENT with 20.
  assert (0 <= (b + 7) / 8 * 20 / 100 <= b) by (split; [apply Z.div_pos; lia |
    apply Z.div_le_upper_bound; lia]).
  rewrite u64_small; [done | mlia].
Qed.

(** A plan never promises more than the link: it is valid exactly when
    the requested audio fits its reserved share; the shares of overhead,
    control, audio and media always sum up to at most the link rate, in either
    mode and for every 64-bit rate. *)
Theorem bandwidth_plan_valid_iff link mode audio bitrate :
  u64_ok link -> u32_ok bitrate ->
  wd_bandwidth_plan_is_valid (Some (wd_bandwidth_plan_build link mode audio bitrate)) mode = true <->
  (audio = true -> wd_bandwidth_audio_wire_bytes_per_second bitrate <= link * 10 / 100).
Proof.
  intros Hl Hb. unfold wd_bandwidth_plan_is_valid, wd_bandwidth_plan_build.
  cbn [bp_link_bytes_per_second bp_overhead_bytes_per_second bp_control_bytes_per_second
    bp_audio_required_bytes_per_second bp_audio_cap_bytes_per_second
    bp_audio_reserved_bytes_per_second bp_fresh_tile_bytes_per_second bp_repair_bytes_per_second
    bp_video_bytes_per_second].
  rewrite !percent_exact by (done || vm_compute; split; congruence).
  change WD_BANDWIDTH_AUDIO_PERCENT with 10. change WD_BANDWIDTH_OVERHEAD_PERCENT with 5.
  change WD_BANDWIDTH_CONTROL_PERCENT with 10. change WD_BANDWIDTH_VIDEO_PERCENT with 75.
  change WD_BANDWIDTH_TILE_FRESH_PERCENT with 70. change WD_BANDWIDTH_TILE_REPAIR_PERCENT with 5.
  set (w := wd_bandwidth_audio_wire_bytes_per_second bitrate).
  assert (0 <= w).
  { subst w. rewrite wire_exact by done. assert (0 <= (bitrate + 7) / 8) by (apply Z.div_pos; mlia).
    assert (0 <= (bitrate + 7) / 8 * 20 / 100) by (apply Z.div_pos; lia). lia. }
  assert (forall p, 0 <= p -> 0 <= link * p / 100 /\ 100 * (link * p / 100) <= link * p) as Hp.
  { intros p Hp0. wd_bounds. split; [apply Z.div_pos; nia | apply Z.mul_div_le; lia]. }
  pose proof (Hp 5 ltac:(lia)). pose proof (Hp 10 ltac:(lia)). pose proof (Hp 75 ltac:(lia)).
  pose proof (Hp 70 ltac:(lia)).
  destruct mode; cbn [bool_decide decide wd_bandwidth_mode_eq_dec wd_bandwidth_mode_rec
    wd_bandwidth_mode_rect]; destruct audio; crush_if; rewrite ?Z.leb_le; split; intros; try lia;
    try done.
Qed.

Lemma bandwidth_plan_valid_iff_witness :
  wd_bandwidth_plan_is_valid
    (Some (wd_bandwidth_plan_build 1048576 WD_BANDWIDTH_MODE_VIDEO true 128000))
    WD_BANDWIDTH_MODE_VIDEO = true <->
  (true = true -> wd_bandwidth_audio_wire_bytes_per_second 128000 <= 1048576 * 10 / 100).
Proof. apply (bandwidth_plan_valid_iff 1048576 WD_BANDWIDTH_MODE_VIDEO true 128000); mlia. Defined.

(** ** Audio bitrate selection *)

Lemma wire_mono a b : u32_ok a -> u32_ok b -> a <= b ->
  wd_bandwidth_audio_wire_bytes_per_second a <= wd_bandwidth_audio_wire_bytes_per_second b.
Proof.
  intros Ha Hb Hab. rewrite !wire_exact by done.
  assert ((a + 7) / 8 <= (b + 7) / 8) by (apply Z.div_le_mono; lia).
  assert ((a + 7) / 8 * 20 / 100 <= (b + 7) / 8 * 20 / 100) by (apply Z.div_le_mono; lia). lia.
Qed.

(** The lowering loop with enough fuel ends at a rate that fits, not below a
    fitting minimum that lies on the same grid of 1000. *)
Lemma lower_bitrate_spec fuel selected minimum cap :
  0 < minimum -> minimum mod 1000 = 0 -> selected mod 1000 = 0 -> minimum <= selected <= UINT32_MAX ->
  wd_bandwidth_audio_wire_bytes_per_second minimum <= cap ->
  (Z.to_nat (selected / 1000) < fuel)%nat ->
  let r := lower_bitrate fuel selected minimum cap in
  minimum <= r <= selected /\ wd_bandwidth_audio_wire_bytes_per_second r <= cap.
Proof.
  intros Hm0 Hm Hs Hr Hw. revert selected Hs Hr; induction fuel as [|fuel IH];
    intros selected Hs Hr Hf; [lia |]. cbn [lower_bitrate].
  rewrite u32_small by mlia.
  destruct (Z.geb_spec selected minimum); [cbn [andb] | lia].
  case_if; bool_cases; [| split; lia].
  assert (selected <> minimum) by (intros ->; lia).
  pose proof (Z.div_mod selected 1000 ltac:(lia)). pose proof (Z.div_mod minimum 1000 ltac:(lia)).
  assert (minimum <= selected - 1000) by lia.
  destruct (Z.geb_spec selected 1000); [| lia].
  assert ((selected - 1000) / 1000 = selected / 1000 - 1) as Hd.
  { replace (selected - 1000) with (selected + -1 * 1000) by lia. rewrite Z.div_add by lia. lia. }
  destruct (IH (selected - 1000)) as [? ?]; [| mlia | |].
  - replace (selected - 1000) with (selected + -1 * 1000) by lia. by rewrite Z.mod_add.
  - rewrite Hd. assert (0 < selected / 1000) by (apply Z.div_str_pos; lia). lia.
  - split; [lia | done].
Qed.

(** A minimum on the grid whose wire rate fits is found by inverting the
    allowance. *)
Lemma grid_minimum_fits minimum cap :
  u32_ok minimum -> minimum mod 1000 = 0 ->
  wd_bandwidth_audio_wire_bytes_per_second minimum <= cap -> minimum <= cap * 100 / 120 * 8.
Proof.
  intros Hm Hg Hc. rewrite wire_exact in Hc by done.
  pose proof (Z.div_mod minimum 1000 ltac:(lia)). set (k := minimum / 1000) in *.
  assert ((minimum + 7) / 8 = 125 * k) as E1 by (symmetry; apply Z.div_unique with (r := 7); lia).
  rewrite E1 in Hc.
  assert (125 * k * 20 / 100 = 25 * k) as E2 by (symmetry; apply Z.div_unique with (r := 0); lia).
  assert (125 * k <= cap * 100 / 120) by (apply Z.div_le_lower_bound; lia). lia.
Qed.

(** With the minimum on the grid of 1000 bit/s, as configured,
    the selected bitrate is non-zero exactly when the minimum fits the audio
    share of the link; it then lies between minimum and preferred rate and fits
    the share with its transport allowance. The search loop terminates. *)
Theorem audio_bitrate_selected link preferred minimum :
  0 < link <= UINT64_MAX -> 0 < minimum <= preferred -> preferred <= UINT32_MAX ->
  minimum mod 1000 = 0 ->
  let cap := link * 10 / 100 in
  let r := wd_bandwidth_audio_select_bitrate link preferred minimum in
  if wd_bandwidth_audio_wire_bytes_per_second minimum <=? cap
  then minimum <= r <= preferred /\ wd_bandwidth_audio_wire_bytes_per_second r <= cap
  else r = 0.
Proof.
  intros Hl Hm Hp Hg cap. cbv zeta. unfold wd_bandwidth_audio_select_bitrate.
  rewrite percent_exact by (mlia || vm_compute; split; congruence).
  change (link * WD_BANDWIDTH_AUDIO_PERCENT / 100) with cap.
  replace ((link =? 0) || (preferred =? 0) || (minimum =? 0) || (minimum >? preferred))
    with false by (symmetry; rewrite !orb_false_iff, !Z.eqb_neq, Z.gtb_ltb, Z.ltb_ge; lia).
  rewrite Z.gtb_ltb.
  destruct (Z.leb_spec (wd_bandwidth_audio_wire_bytes_per_second minimum) cap) as [Hc|Hc].
  2: { destruct (Z.ltb_spec cap (wd_bandwidth_audio_wire_bytes_per_second minimum)); [done | lia]. }
  destruct (Z.ltb_spec cap (wd_bandwidth_audio_wire_bytes_per_second minimum)); [lia |].
  destruct (Z.leb_spec (wd_bandwidth_audio_wire_bytes_per_second preferred) cap);
    [split; [lia | done] |].
  change (100 + WD_BANDWIDTH_AUDIO_TRANSPORT_ALLOWANCE_PERCENT) with 120. cbn [negb Z.eqb].
  assert (0 <= cap <= UINT64_MAX).
  { subst cap. split; [apply Z.div_pos; lia | apply Z.div_le_upper_bound; mlia]. }
  assert (0 <= cap * 100 / 120 <= UINT64_MAX).
  { split; [apply Z.div_pos; lia | apply Z.div_le_upper_bound; mlia]. }
  rewrite (u64_small (cap * 100 / 120)) by done.
  pose proof (grid_minimum_fits minimum cap ltac:(mlia) Hg Hc) as Hmin.
  set (P := cap * 100 / 120) in *.
  set (s0 := if P >? UINT32_MAX / 8 then UINT32_MAX else P * 8).
  set (s1 := if s0 >? preferred then preferred else s0).
  assert (minimum <= s1 <= preferred) as Hs1.
  { subst s1 s0. change (UINT32_MAX / 8) with 536870911. crush_if; mlia. }
  pose proof (Z.mod_pos_bound s1 1000 ltac:(lia)). pose proof (Z.div_mod s1 1000 ltac:(lia)).
  pose proof (Z.div_mod minimum 1000 ltac:(lia)).
  destruct (lower_bitrate_spec (S (Z.to_nat ((s1 - s1 mod 1000) / 1000))) (s1 - s1 mod 1000)
    minimum cap) as [Hr Hw]; try done; try mlia.
  { replace (s1 - s1 mod 1000) with (s1 / 1000 * 1000) by lia. apply Z.mod_mul. lia. }
  set (r := lower_bitrate _ _ _ _) in *.
  destruct (Z.geb_spec r minimum); [| lia]. rewrite u32_small by mlia. split; [lia | done].
Qed.

Lemma audio_bitrate_selected_witness :
  let r := wd_bandwidth_audio_select_bitrate 100000 128000 24000 in
  r = 66000 /\ 24000 <= r <= 128000 /\ wd_bandwidth_audio_wire_bytes_per_second r <= 10000.
Proof.
  split; [vm_compute; reflexivity |].
  apply (audio_bitrate_selected 100000 128000 24000); try mlia. reflexivity.
Defined.
