(* ===== verification/TilePolicy.v ===== *)
(** * Tile policy

    src/server/wd_tile_policy.c: the packets a tile takes, when the server
    prefers video, whether compression is worth trying, the completion of a
    batch of packets and the choice of the next region to send. *)
From stdpp Require Import strings.
From S2P Require Import Prelude CFloat Wire Config.

(** ** Packets *)

Definition wd_tile_normalize_udp_payload_target (udp_payload_target default_target
    maximum_target : Z) : Z :=
  if maximum_target =? 0 then 0
  else
    let default_target :=
      if (default_target =? 0) || (default_target >? maximum_target) then maximum_target
      else default_target in
    if udp_payload_target <? WD_MIN_PROBED_UDP_PAYLOAD then default_target
    else if udp_payload_target >? maximum_target then maximum_target else udp_payload_target.

Definition wd_cap_periodic_capture_fps (capture_fps output_refresh_hz : Z) : Z :=
  let capture_fps := if capture_fps =? 0 then 1 else capture_fps in
  if negb (output_refresh_hz =? 0) && (capture_fps >? output_refresh_hz) then output_refresh_hz
  else capture_fps.

Definition wd_tile_encode_pipeline_capacity (available_jobs worker_count queue_waves : Z) : Z :=
  if available_jobs =? 0 then 0
  else
    let worker_count := if worker_count =? 0 then 1 else worker_count in
    let queue_waves := if queue_waves =? 0 then 1 else queue_waves in
    let capacity := u32 (worker_count * queue_waves) in
    let capacity := if capacity >? UINT16_MAX then UINT16_MAX else capacity in
    if available_jobs <? capacity then available_jobs else u16 capacity.

Definition wd_tile_packet_count_for_payload (payload_size udp_payload_target : Z) : Z :=
  if (payload_size =? 0) || (udp_payload_target =? 0) then 0
  else
    let count := u32 (u32 (payload_size + udp_payload_target) - 1) / udp_payload_target in
    if count >? UINT16_MAX then 0 else u16 count.

Definition wd_tile_wire_bytes_for_payload (payload_size udp_payload_target packet_header_size
    first_packet_header_size : Z) : Z :=
  let packet_count := wd_tile_packet_count_for_payload payload_size udp_payload_target in
  if (packet_count =? 0) || (packet_header_size =? 0) ||
     (first_packet_header_size <? packet_header_size)
  then 0
  else
    let wire_bytes :=
      u64 (u64 (payload_size + first_packet_header_size) +
           u64 (u32 (packet_count - 1) * packet_header_size)) in
    if wire_bytes >? UINT32_MAX then 0 else u32 wire_bytes.

(** ** Choosing video *)

Definition wd_percent_clamped (numerator denominator : Z) : Z :=
  if denominator =? 0 then 0
  else
    let percent :=
      if numerator >? UINT64_MAX / 100 then UINT64_MAX
      else u64 (numerator * 100) / denominator in
    if percent >? UINT16_MAX then UINT16_MAX else u16 percent.

Definition wd_tile_estimate_demand_bytes_per_second (frame_samples dirty_coverage_per_mille_sum
    chosen_wire_bytes covered_base_tiles total_base_tiles target_fps
    fallback_wire_bytes_per_base_tile : Z) : Z :=
  if (frame_samples =? 0) || (total_base_tiles =? 0) || (target_fps =? 0) then 0
  else
    let wire_per_base :=
      if negb (chosen_wire_bytes =? 0) && negb (covered_base_tiles =? 0)
      then ld_div (ld_of_Z chosen_wire_bytes) (ld_of_Z covered_base_tiles)
      else ld_of_Z fallback_wire_bytes_per_base_tile in
    let dirty_per_mille := ld_div (ld_of_Z dirty_coverage_per_mille_sum) (ld_of_Z frame_samples) in
    let demand :=
      ld_div
        (ld_mul (ld_mul (ld_mul wire_per_base (ld_of_Z total_base_tiles)) dirty_per_mille)
           (ld_of_Z target_fps))
        (ld_of_Z 1000) in
    if SFleb demand (ld_of_Z 0) then 0
    else if SFleb (ld_of_Z UINT64_MAX) demand then UINT64_MAX
    else float_to_u64 demand.

Record wd_video_auto_entry_metrics := mk_wd_video_auto_entry_metrics {
  em_frame_samples : Z;
  em_changed_frame_samples : Z;
  em_dirty_coverage_per_mille_sum : Z;
  em_dirty_coverage_per_mille_peak : Z;
  em_tile_wire_bytes : Z;
  em_estimated_tile_demand_bytes_per_second : Z;
  em_tile_budget_bytes_per_second : Z;
  em_send_pressure_events : Z;
  em_requested_session_fps : Z;
  em_adaptive_capture_fps : Z;
  em_minimum_dirty_percent : Z;
  em_selection_suppressed : bool;
}.

Record wd_video_auto_entry_result := mk_wd_video_auto_entry_result {
  er_candidate : bool;
  er_changed_frame_percent : Z;
  er_average_dirty_percent : Z;
  er_tile_budget_percent : Z;
  er_predicted_demand_percent : Z;
}.

Definition wd_video_auto_entry_evaluate (metrics : ptr wd_video_auto_entry_metrics)
    : wd_video_auto_entry_result :=
  match metrics with
  | NULL => mk_wd_video_auto_entry_result false 0 0 0 0
  | Some m =>
      if m.(em_frame_samples) =? 0 then mk_wd_video_auto_entry_result false 0 0 0 0
      else
        let changed := wd_percent_clamped m.(em_changed_frame_samples) m.(em_frame_samples) in
        let average :=
          wd_percent_clamped m.(em_dirty_coverage_per_mille_sum)
            (u64 (m.(em_frame_samples) * 1000)) in
        let budget :=
          wd_percent_clamped m.(em_tile_wire_bytes) m.(em_tile_budget_bytes_per_second) in
        let predicted :=
          wd_percent_clamped m.(em_estimated_tile_demand_bytes_per_second)
            m.(em_tile_budget_bytes_per_second) in
        let min_dirty :=
          if negb (m.(em_minimum_dirty_percent) =? 0) then m.(em_minimum_dirty_percent)
          else WD_TILE_AUTO_ENTRY_MIN_DIRTY_PERCENT_DEFAULT in
        let sustained_motion := changed >=? WD_TILE_AUTO_ENTRY_CHANGED_FRAMES_PERCENT in
        let high_turnover := average >=? min_dirty in
        let predicted_pressure :=
          negb (m.(em_tile_budget_bytes_per_second) =? 0) &&
          (predicted >=? WD_TILE_AUTO_ENTRY_WIRE_PRESSURE_PERCENT) in
        let observed_pressure :=
          negb (m.(em_tile_budget_bytes_per_second) =? 0) &&
          (budget >=? WD_TILE_AUTO_ENTRY_WIRE_PRESSURE_PERCENT) in
        let fps_suppressed :=
          negb (m.(em_requested_session_fps) =? 0) &&
          (u32 (m.(em_adaptive_capture_fps) * 100) <?
             u32 (m.(em_requested_session_fps) * WD_TILE_AUTO_ENTRY_FPS_PRESSURE_PERCENT)) in
        let queue_pressure := negb (m.(em_send_pressure_events) =? 0) in
        mk_wd_video_auto_entry_result
          (negb m.(em_selection_suppressed) && sustained_motion &&
           (high_turnover || predicted_pressure || observed_pressure || fps_suppressed ||
            queue_pressure))
          changed average budget predicted
  end.

(** ** Compression *)

Definition wd_tile_compression_is_worthwhile (compressed_size uncompressed_size udp_payload_target
    packet_header_size first_packet_header_size minimum_savings_bytes
    minimum_savings_percent : Z) : bool :=
  if (compressed_size =? 0) || (uncompressed_size =? 0) || (compressed_size >=? uncompressed_size)
  then false
  else
    let compressed_wire :=
      wd_tile_wire_bytes_for_payload compressed_size udp_payload_target packet_header_size
        first_packet_header_size in
    let uncompressed_wire :=
      wd_tile_wire_bytes_for_payload uncompressed_size udp_payload_target packet_header_size
        first_packet_header_size in
    if (compressed_wire =? 0) || (uncompressed_wire =? 0) || (compressed_wire >=? uncompressed_wire)
    then false
    else
      let saved := u32 (uncompressed_wire - compressed_wire) in
      if saved <? minimum_savings_bytes then false
      else if negb (minimum_savings_percent =? 0) &&
              (u64 (saved * 100) <? u64 (uncompressed_wire * minimum_savings_percent))
      then false
      else true.

(** The locals of the sampling loop. *)
Record color_scan := mk_color_scan {
  cs_colors : list Z;
  cs_adjacent_repeats : Z;
  cs_repeated_deltas : Z;
  cs_previous_color : Z;
  cs_previous_delta : Z;
  cs_have_previous : bool;
  cs_have_delta : bool;
}.

Definition scan_color (s : color_scan) (color : Z) : color_scan :=
  let colors :=
    if existsb (Z.eqb color) s.(cs_colors) then s.(cs_colors) else s.(cs_colors) ++ [color] in
  if s.(cs_have_previous) then
    let delta := u32 (color - s.(cs_previous_color)) in
    mk_color_scan colors
      (if color =? s.(cs_previous_color) then s.(cs_adjacent_repeats) + 1
       else s.(cs_adjacent_repeats))
      (if s.(cs_have_delta) && (delta =? s.(cs_previous_delta)) then s.(cs_repeated_deltas) + 1
       else s.(cs_repeated_deltas))
      color delta true true
  else
    mk_color_scan colors s.(cs_adjacent_repeats) s.(cs_repeated_deltas) color
      s.(cs_previous_delta) true s.(cs_have_delta).

Definition sampled_color (payload : list Z) (pixel_count samples i : Z) : Z :=
  let pixel_index :=
    if samples =? 1 then 0 else u32 (u64 (i * u32 (pixel_count - 1)) / u32 (samples - 1)) in
  Z.land (le_value (slice (pixel_index * 4) 4 payload)) 16777215.

Definition wd_tile_xrgb_payload_may_compress (payload : ptr (list Z)) (payload_size : Z) : bool :=
  let pixel_count := payload_size / 4 in
  match payload with
  | NULL => false
  | Some payload =>
      if pixel_count =? 0 then false
      else if pixel_count <=? WD_TILE_ADVISOR_SMALL_PAYLOAD_PIXELS then true
      else
        let samples :=
          if pixel_count <? WD_TILE_ADVISOR_ENTROPY_SAMPLE_COUNT then pixel_count
          else WD_TILE_ADVISOR_ENTROPY_SAMPLE_COUNT in
        let s :=
          fold_left (fun s i => scan_color s (sampled_color payload pixel_count samples i))
            (zseq samples) (mk_color_scan [] 0 0 0 0 false false) in
        (zlen s.(cs_colors) <=?
           samples * WD_TILE_ADVISOR_MAX_UNIQUE_NUMERATOR / WD_TILE_ADVISOR_MAX_UNIQUE_DENOMINATOR) ||
        (s.(cs_adjacent_repeats) >=? WD_TILE_ADVISOR_MIN_ADJACENT_REPEATS) ||
        (s.(cs_repeated_deltas) >=? samples / WD_TILE_ADVISOR_REPEATED_DELTA_DIVISOR)
  end.

Definition WD_TILE_COMPRESSION_BENCH_AUTO : Z := 0.
Definition WD_TILE_COMPRESSION_BENCH_OFF : Z := 1.
Definition WD_TILE_COMPRESSION_BENCH_ATTEMPT : Z := 2.
Definition WD_TILE_COMPRESSION_BENCH_FORCE : Z := 3.

Definition wd_tile_compression_benchmark_mode_parse (value : ptr string) : option Z :=
  match value with
  | NULL => None
  | Some value =>
      if String.eqb value "auto" then Some WD_TILE_COMPRESSION_BENCH_AUTO
      else if String.eqb value "off" then Some WD_TILE_COMPRESSION_BENCH_OFF
      else if String.eqb value "attempt" then Some WD_TILE_COMPRESSION_BENCH_ATTEMPT
      else if String.eqb value "force" then Some WD_TILE_COMPRESSION_BENCH_FORCE
      else None
  end.

Definition wd_tile_compression_benchmark_mode_name (mode : Z) : string :=
  if mode =? WD_TILE_COMPRESSION_BENCH_OFF then "off"
  else if mode =? WD_TILE_COMPRESSION_BENCH_ATTEMPT then "attempt"
  else if mode =? WD_TILE_COMPRESSION_BENCH_FORCE then "force"
  else "auto".

Definition wd_tile_compression_benchmark_should_attempt (mode : Z) (entropy_ok advisor_ok : bool)
    : bool :=
  if mode =? WD_TILE_COMPRESSION_BENCH_OFF then false
  else if (mode =? WD_TILE_COMPRESSION_BENCH_ATTEMPT) || (mode =? WD_TILE_COMPRESSION_BENCH_FORCE)
  then true
  else entropy_ok && advisor_ok.

Definition wd_tile_compression_benchmark_choose_compressed (mode : Z) (compression_ok worthwhile : bool)
    : bool :=
  if negb compression_ok then false
  else if mode =? WD_TILE_COMPRESSION_BENCH_FORCE then true else worthwhile.

Record wd_tile_compression_advisor := mk_wd_tile_compression_advisor {
  ca_poor_streak : Z;
  ca_bypass_remaining : Z;
}.

Definition wd_tile_compression_advisor_should_attempt (advisor : ptr wd_tile_compression_advisor)
    : bool * ptr wd_tile_compression_advisor :=
  match advisor with
  | NULL => (true, NULL)
  | Some a =>
      if a.(ca_bypass_remaining) =? 0 then (true, advisor)
      else
        let remaining := u16 (a.(ca_bypass_remaining) - 1) in
        (remaining mod WD_TILE_ADVISOR_BYPASS_PROBE_INTERVAL =? 0,
         Some (mk_wd_tile_compression_advisor a.(ca_poor_streak) remaining))
  end.

Definition wd_tile_compression_advisor_record (advisor : ptr wd_tile_compression_advisor)
    (worthwhile : bool) : ptr wd_tile_compression_advisor :=
  match advisor with
  | NULL => NULL
  | Some a =>
      if worthwhile then Some (mk_wd_tile_compression_advisor 0 0)
      else
        let poor_streak := u16 (a.(ca_poor_streak) + 1) in
        if poor_streak >=? WD_TILE_ADVISOR_POOR_STREAK_LIMIT
        then Some (mk_wd_tile_compression_advisor 0 WD_TILE_ADVISOR_BYPASS_ATTEMPTS)
        else Some (mk_wd_tile_compression_advisor poor_streak a.(ca_bypass_remaining))
  end.

Record wd_tile_payload_predictor := mk_wd_tile_payload_predictor {
  pp_payload_ratio_q16 : Z;
  pp_samples : Z;
  pp_skipped_candidates : Z;
}.

Definition wd_tile_payload_predictor_record (predictor : ptr wd_tile_payload_predictor)
    (payload_size uncompressed_size : Z) : ptr wd_tile_payload_predictor :=
  match predictor with
  | NULL => NULL
  | Some p =>
      if (payload_size =? 0) || (uncompressed_size =? 0) then predictor
      else
        let ratio_raw := u64 (Z.shiftl payload_size 16) / uncompressed_size in
        let ratio_q16 := if ratio_raw >? UINT32_MAX then UINT32_MAX else u32 ratio_raw in
        let ratio :=
          if p.(pp_samples) =? 0 then ratio_q16
          else
            let denominator := WD_STREAM_TILE_PREDICTOR_EWMA_DENOMINATOR in
            let new_weight := WD_STREAM_TILE_PREDICTOR_EWMA_NEW_NUMERATOR in
            let old_weight := if denominator >? new_weight then denominator - new_weight else 0 in
            u32 (u64 (u64 (p.(pp_payload_ratio_q16) * old_weight) + u64 (ratio_q16 * new_weight))
                 / denominator) in
        let samples :=
          if p.(pp_samples) <? UINT16_MAX then u16 (p.(pp_samples) + 1) else p.(pp_samples) in
        Some (mk_wd_tile_payload_predictor ratio samples 0)
  end.

Definition wd_tile_payload_predictor_predict (predictor : ptr wd_tile_payload_predictor)
    (uncompressed_size : Z) : Z :=
  if uncompressed_size =? 0 then 0
  else
    match predictor with
    | NULL => uncompressed_size
    | Some p =>
        if p.(pp_samples) =? 0 then uncompressed_size
        else
          let predicted :=
            Z.shiftr (u64 (u64 (uncompressed_size * p.(pp_payload_ratio_q16)) + Z.shiftl 1 15)) 16 in
          let predicted := if predicted =? 0 then 1 else predicted in
          if predicted >? UINT32_MAX then UINT32_MAX else u32 predicted
    end.

(** The result, [*out_probe] and the predictor after the call. *)
Definition wd_tile_payload_predictor_should_attempt (predictor : ptr wd_tile_payload_predictor)
    (uncompressed_size max_wire_bytes udp_payload_target packet_header_size
     first_packet_header_size : Z) : bool * bool * ptr wd_tile_payload_predictor :=
  match predictor with
  | NULL => (true, false, NULL)
  | Some p =>
      if (p.(pp_samples) <? WD_STREAM_TILE_PREDICTOR_MIN_SAMPLES) || (uncompressed_size =? 0) ||
         (max_wire_bytes =? 0)
      then (true, false, predictor)
      else
        let predicted_payload := wd_tile_payload_predictor_predict predictor uncompressed_size in
        let predicted_wire :=
          wd_tile_wire_bytes_for_payload predicted_payload udp_payload_target packet_header_size
            first_packet_header_size in
        if (predicted_wire =? 0) ||
           (u64 (predicted_wire * 100) <=?
              u64 (max_wire_bytes * WD_STREAM_TILE_PREDICTOR_SKIP_MARGIN_PERCENT))
        then (true, false, predictor)
        else
          let skipped := u16 (p.(pp_skipped_candidates) + 1) in
          let p := mk_wd_tile_payload_predictor p.(pp_payload_ratio_q16) p.(pp_samples) skipped in
          if negb (WD_STREAM_TILE_PREDICTOR_PROBE_INTERVAL =? 0) &&
             (skipped mod WD_STREAM_TILE_PREDICTOR_PROBE_INTERVAL =? 0)
          then (true, true, Some p)
          else (false, false, Some p)
  end.

(** ** Completion of a batch of packets

    [wd_tile_delivery_status_ready] and its callers return [Some failed] when
    they return true with [*out_failed = failed], [None] when they return
    false. *)

Record wd_tile_delivery_status := mk_wd_tile_delivery_status {
  ds_pending : Z;
  ds_sealed : bool;
  ds_failed : bool;
}.

Definition wd_tile_delivery_status_add (status : ptr wd_tile_delivery_status)
    : ptr wd_tile_delivery_status :=
  match status with
  | NULL => NULL
  | Some s => Some (mk_wd_tile_delivery_status (u32 (s.(ds_pending) + 1)) s.(ds_sealed) s.(ds_failed))
  end.

Definition wd_tile_delivery_status_ready (status : ptr wd_tile_delivery_status) : option bool :=
  match status with
  | NULL => None
  | Some s =>
      if negb s.(ds_sealed) || negb (s.(ds_pending) =? 0) then None else Some s.(ds_failed)
  end.

Definition wd_tile_delivery_status_complete (status : ptr wd_tile_delivery_status) (success : bool)
    : option bool * ptr wd_tile_delivery_status :=
  match status with
  | NULL => (None, NULL)
  | Some s =>
      if s.(ds_pending) =? 0 then (None, status)
      else
        let s := mk_wd_tile_delivery_status (u32 (s.(ds_pending) - 1)) s.(ds_sealed)
                   (s.(ds_failed) || negb success) in
        (wd_tile_delivery_status_ready (Some s), Some s)
  end.

Definition wd_tile_delivery_status_seal (status : ptr wd_tile_delivery_status)
    : option bool * ptr wd_tile_delivery_status :=
  match status with
  | NULL => (None, NULL)
  | Some s =>
      let s := mk_wd_tile_delivery_status s.(ds_pending) true s.(ds_failed) in
      (wd_tile_delivery_status_ready (Some s), Some s)
  end.

(** ** The next region *)

Definition wd_tile_region_distance (lhs rhs regions_x : Z) : Z :=
  if regions_x =? 0 then UINT32_MAX
  else
    let lhs_x := lhs mod regions_x in
    let lhs_y := lhs / regions_x in
    let rhs_x := rhs mod regions_x in
    let rhs_y := rhs / regions_x in
    let dx := if lhs_x >? rhs_x then u32 (lhs_x - rhs_x) else u32 (rhs_x - lhs_x) in
    let dy := if lhs_y >? rhs_y then u32 (lhs_y - rhs_y) else u32 (rhs_y - lhs_y) in
    u32 (dx + dy).

Section select_region.
Context (region_ids : list Z) (regions_x cursor_region_id : Z).
Context (region_enqueued_ns : ptr (list Z)) (region_capacity : Z).

Definition region_queued (id : Z) : Z :=
  match region_enqueued_ns with
  | NULL => 0
  | Some t => if id <? region_capacity then aget 0 t id else 0
  end.

Definition oldest_step (acc : Z * Z) (i : Z) : Z * Z :=
  let '(oldest_index, oldest_ns) := acc in
  let queued := region_queued (aget 0 region_ids i) in
  if negb (queued =? 0) && ((oldest_ns =? 0) || (queued <? oldest_ns)) then (i, queued)
  else (oldest_index, oldest_ns).

Definition nearest_step (acc : Z * Z) (i : Z) : Z * Z :=
  let '(best_index, best_distance) := acc in
  let region_id := aget 0 region_ids i in
  let distance := wd_tile_region_distance region_id cursor_region_id regions_x in
  if distance <? best_distance then (i, distance)
  else if distance =? best_distance then
    let best_id := aget 0 region_ids best_index in
    let best_queued := region_queued best_id in
    let queued := region_queued region_id in
    if (negb (queued =? 0) && ((best_queued =? 0) || (queued <? best_queued))) ||
       ((queued =? best_queued) && (region_id <? best_id))
    then (i, best_distance) else (best_index, best_distance)
  else (best_index, best_distance).
End select_region.

Definition wd_tile_select_local_region_index (region_ids : ptr (list Z)) (region_count regions_x
    cursor_region_id : Z) (region_enqueued_ns : ptr (list Z)) (region_capacity now_ns
    starvation_ns : Z) : Z :=
  match region_ids with
  | NULL => SIZE_MAX
  | Some ids =>
      if (region_count =? 0) || (regions_x =? 0) then SIZE_MAX
      else
        let rest := Z.succ <$> zseq (region_count - 1) in
        let '(oldest_index, oldest_ns) :=
          fold_left (oldest_step ids region_enqueued_ns region_capacity) rest
            (0, region_queued region_enqueued_ns region_capacity (aget 0 ids 0)) in
        if negb (starvation_ns =? 0) && negb (oldest_ns =? 0) && (now_ns >=? oldest_ns) &&
           (u64 (now_ns - oldest_ns) >=? starvation_ns)
        then oldest_index
        else
          fst (fold_left (nearest_step ids regions_x cursor_region_id region_enqueued_ns
                            region_capacity) rest
                 (0, wd_tile_region_distance (aget 0 ids 0) cursor_region_id regions_x))
  end.

(** ** Properties: packets *)

Lemma packet_count_spec payload target :
  1 <= payload -> payload + UINT16_MAX <= UINT32_MAX -> 1 <= target <= UINT16_MAX ->
  wd_tile_packet_count_for_payload payload target =
    if cdiv payload target <=? UINT16_MAX then cdiv payload target else 0.
Proof.
  intros Hp Hp2 Ht. unfold wd_tile_packet_count_for_payload.
  destruct (Z.eqb_spec payload 0), (Z.eqb_spec target 0); try lia. cbn [orb].
  rewrite (u32_small (payload + target)), (u32_small (payload + target - 1)) by mlia.
  fold (cdiv payload target). pose proof (cdiv_pos payload target ltac:(lia) ltac:(lia)).
  rewrite Z.gtb_ltb, Z.ltb_antisym. destruct (Z.leb_spec (cdiv payload target) UINT16_MAX); cbn [negb].
  - apply u16_small. mlia.
  - done.
Qed.

(** The [i]-th packet of a tile: its share of the payload and its header. *)
Definition packet_bytes (payload target header first_header i : Z) : Z :=
  Z.min target (payload - i * target) + (if i =? 0 then first_header else header).

Lemma packets_sum payload target header first_header n :
  0 < target -> 1 <= n -> (n - 1) * target < payload ->
  zsum (packet_bytes payload target header first_header <$> zseq n) =
    Z.min payload (n * target) + first_header + (n - 1) * header.
Proof.
  intros Ht Hn. assert (exists k, n = Z.of_nat k + 1) as [k ->] by (exists (Z.to_nat (n - 1)); lia).
  clear Hn. induction k as [|k IH]; intros Hk.
  - change (zseq (Z.of_nat 0 + 1)) with [0]. cbn [fmap list_fmap zsum fold_right].
    unfold packet_bytes. rewrite Z.eqb_refl. lia.
  - rewrite Nat2Z.inj_succ, <- Z.add_1_r in *.
    rewrite (zseq_succ (Z.of_nat k + 1)), fmap_app, zsum_app, IH by nia.
    cbn [fmap list_fmap zsum fold_right]. unfold packet_bytes.
    destruct (Z.eqb_spec (Z.of_nat k + 1) 0); [lia |].
    rewrite (Z.min_r payload ((Z.of_nat k + 1) * target)) by nia.
    destruct (Z.le_ge_cases ((Z.of_nat k + 1 + 1) * target) payload); nia.
Qed.

(** The number of bytes the bandwidth accounting charges for a tile is
    the number of bytes its packets put on the wire: the sum over the packets
    of each one's share of the payload and its header. *)
Theorem tile_wire_bytes_exact payload target header first_header n :
  1 <= payload -> payload + UINT16_MAX <= UINT32_MAX -> 1 <= target <= UINT16_MAX ->
  1 <= header -> header <= first_header <= UINT16_MAX ->
  n = cdiv payload target -> n <= UINT16_MAX ->
  zsum (packet_bytes payload target header first_header <$> zseq n) <= UINT32_MAX ->
  wd_tile_wire_bytes_for_payload payload target header first_header =
    zsum (packet_bytes payload target header first_header <$> zseq n).
Proof.
  intros Hp Hp2 Ht Hh Hf -> Hn Hfit.
  pose proof (proj1 (cdiv_spec payload target _ ltac:(lia)) eq_refl) as Hc.
  pose proof (cdiv_pos payload target ltac:(lia) ltac:(lia)) as Hpos.
  rewrite packets_sum in * by lia. rewrite Z.min_l in * by lia.
  unfold wd_tile_wire_bytes_for_payload. rewrite packet_count_spec by lia.
  rewrite (proj2 (Z.leb_le _ UINT16_MAX)) by lia. cbv zeta.
  set (n := cdiv payload target) in *. clearbody n.
  assert (0 <= (n - 1) * header) by nia.
  destruct (Z.eqb_spec n 0); [lia |]. destruct (Z.eqb_spec header 0); [lia |].
  destruct (Z.ltb_spec first_header header); [lia |]. cbn [orb].
  rewrite (u32_small (n - 1)) by mlia. rewrite (u64_small (payload + first_header)) by mlia.
  rewrite (u64_small ((n - 1) * header)) by mlia. rewrite u64_small by mlia.
  rewrite Z.gtb_ltb. destruct (Z.ltb_spec UINT32_MAX (payload + first_header + (n - 1) * header));
    [lia |]. apply u32_small. mlia.
Qed.

Lemma tile_wire_bytes_exact_witness :
  wd_tile_wire_bytes_for_payload 3000 1200 20 32 =
    zsum (packet_bytes 3000 1200 20 32 <$> zseq 3).
Proof.
  apply tile_wire_bytes_exact; unfold UINT16_MAX, UINT32_MAX; try lia; [reflexivity |].
  vm_compute. discriminate.
Defined.

(** ** Properties: completion of a batch *)

Inductive delivery_op := DeliveryAdd | DeliveryComplete (success : bool) | DeliverySeal.

(** The reports ([*out_failed]) a sequence of operations produces. *)
Fixpoint delivery_reports (ops : list delivery_op) (s : wd_tile_delivery_status) : list bool :=
  match ops with
  | [] => []
  | op :: ops =>
      let '(r, s') :=
        match op with
        | DeliveryAdd => (None, wd_tile_delivery_status_add (Some s))
        | DeliveryComplete success => wd_tile_delivery_status_complete (Some s) success
        | DeliverySeal => wd_tile_delivery_status_seal (Some s)
        end in
      match s' with
      | NULL => []
      | Some s' => match r with Some f => [f] | None => [] end ++ delivery_reports ops s'
      end
  end.

(** How the sender uses a batch: packets are added before the batch is sealed,
    once, and each added packet completes at most once.  [p] counts the packets
    in flight. *)
Fixpoint delivery_use (p : Z) (sealed : bool) (ops : list delivery_op) : Prop :=
  match ops with
  | [] => True
  | DeliveryAdd :: ops => sealed = false /\ p < UINT32_MAX /\ delivery_use (p + 1) sealed ops
  | DeliveryComplete _ :: ops => 0 < p /\ delivery_use (p - 1) sealed ops
  | DeliverySeal :: ops => sealed = false /\ delivery_use p true ops
  end.

(** Packets in flight and sealing at the end, and whether a packet failed. *)
Fixpoint delivery_final (p : Z) (sealed failed : bool) (ops : list delivery_op) : Z * bool * bool :=
  match ops with
  | [] => (p, sealed, failed)
  | DeliveryAdd :: ops => delivery_final (p + 1) sealed failed ops
  | DeliveryComplete success :: ops => delivery_final (p - 1) sealed (failed || negb success) ops
  | DeliverySeal :: ops => delivery_final p true failed ops
  end.

Lemma delivery_done failed ops : delivery_use 0 true ops -> ops = [] /\
  delivery_final 0 true failed ops = (0, true, failed).
Proof. destruct ops as [|[| |]]; cbn; [done | | |]; intros [? ?]; [done | lia | done]. Qed.

Lemma delivery_reports_gen ops p sealed failed :
  0 <= p <= UINT32_MAX -> sealed = false \/ 0 < p -> delivery_use p sealed ops ->
  delivery_reports ops (mk_wd_tile_delivery_status p sealed failed) =
    match delivery_final p sealed failed ops with
    | (0, true, f) => [f]
    | _ => []
    end.
Proof.
  revert p sealed failed; induction ops as [|op ops IH]; intros p sealed failed Hp Hs Hu.
  { cbn. destruct Hs as [->|Hs]; destruct p; try done; lia. }
  destruct op as [|success|]; cbn in Hu |- *.
  - destruct Hu as (-> & Hlt & Hu). rewrite u32_small by mlia. apply IH; [lia | by left | done].
  - destruct Hu as [Hp0 Hu]. destruct (Z.eqb_spec p 0); [lia |]. rewrite u32_small by mlia. cbn.
    destruct sealed; cbn.
    + destruct (Z.eqb_spec (p - 1) 0) as [E|]; cbn.
      * rewrite E in *. destruct (delivery_done (failed || negb success) ops Hu) as [-> ?]. done.
      * apply IH; [lia | right; lia | done].
    + apply IH; [lia | by left | done].
  - destruct Hu as [-> Hu]. destruct (Z.eqb_spec p 0) as [->|]; cbn.
    + destruct (delivery_done failed ops Hu) as [-> ?]. done.
    + apply IH; [lia | right; lia | done].
Qed.

(** C39: the completion of a batch of packets is reported exactly once:
    by the operation, a completion or the sealing, after which the batch is
    sealed and nothing is in flight; the report says whether some packet
    failed. Until then nothing is reported. *)
Theorem delivery_reported_once ops :
  delivery_use 0 false ops ->
  delivery_reports ops (mk_wd_tile_delivery_status 0 false false) =
    match delivery_final 0 false false ops with
    | (0, true, f) => [f]
    | _ => []
    end.
Proof. intros H. apply delivery_reports_gen; [mlia | by left | done]. Qed.

Lemma delivery_reported_once_witness :
  delivery_reports [DeliveryAdd; DeliveryAdd; DeliveryComplete false; DeliverySeal; DeliveryComplete true]
    (mk_wd_tile_delivery_status 0 false false) = [true].
Proof. apply delivery_reported_once. cbn. unfold UINT32_MAX. lia. Defined.

(** ** Properties: the predictor *)

(** The answers of consecutive queries, each with its own arguments. *)
Fixpoint predictor_answers (p : wd_tile_payload_predictor) (queries : list (Z * Z * Z * Z * Z))
    : list bool :=
  match queries with
  | [] => []
  | (uncompressed_size, max_wire, target, header, first_header) :: queries =>
      match wd_tile_payload_predictor_should_attempt (Some p) uncompressed_size max_wire target
              header first_header with
      | (answer, _, Some p') => answer :: predictor_answers p' queries
      | (answer, _, NULL) => [answer]
      end
  end.

Lemma predictor_refused p u w t h f :
  0 <= p.(pp_skipped_candidates) <= UINT16_MAX ->
  fst (fst (wd_tile_payload_predictor_should_attempt (Some p) u w t h f)) = false ->
  exists p', snd (wd_tile_payload_predictor_should_attempt (Some p) u w t h f) = Some p' /\
    0 <= p'.(pp_skipped_candidates) <= UINT16_MAX /\
    p'.(pp_skipped_candidates) mod 8 = p.(pp_skipped_candidates) mod 8 + 1.
Proof.
  intros Hs. unfold wd_tile_payload_predictor_should_attempt.
  case_if; [done |]. case_if; [done |].
  set (k := u16 (p.(pp_skipped_candidates) + 1)).
  change WD_STREAM_TILE_PREDICTOR_PROBE_INTERVAL with 8 in *. cbn [Z.eqb negb andb].
  destruct (Z.eqb_spec (k mod 8) 0); [done |]. intros _. eexists. split; [done |].
  cbn. pose proof (u16_range (p.(pp_skipped_candidates) + 1)). fold k in H. split; [mlia |].
  assert (k mod 8 = (p.(pp_skipped_candidates) + 1) mod 8) as Hk.
  { unfold k, u16. change 65536 with (8 * 8192).
    rewrite Z.rem_mul_r, (Z.mul_comm 8), Z.mod_add, Z.mod_mod by lia. done. }
  rewrite Hk in *. rewrite Z.add_mod in * by lia. change (1 mod 8) with 1 in *.
  pose proof (Z.mod_pos_bound p.(pp_skipped_candidates) 8 ltac:(lia)).
  destruct (Z.eq_dec (p.(pp_skipped_candidates) mod 8) 7) as [E7|]; [rewrite E7 in *; done |].
  rewrite Z.mod_small by lia. done.
Qed.

Lemma predictor_refusals p queries :
  0 <= p.(pp_skipped_candidates) <= UINT16_MAX ->
  Forall (eq false) (predictor_answers p queries) ->
  zlen queries + p.(pp_skipped_candidates) mod 8 <= 7.
Proof.
  revert p; induction queries as [|[[[[u w] t] h] f] queries IH]; intros p Hs Hf.
  { unfold zlen. cbn. pose proof (Z.mod_pos_bound p.(pp_skipped_candidates) 8). lia. }
  cbn [predictor_answers] in Hf.
  pose proof (predictor_refused p u w t h f Hs) as Hr.
  destruct (wd_tile_payload_predictor_should_attempt (Some p) u w t h f) as [[a pr] [p'|]]; cbn in Hr.
  - apply Forall_cons_iff in Hf as [<- Hf]. destruct (Hr eq_refl) as (p'' & [= <-] & Hs' & Hm).
    specialize (IH p' Hs' Hf). unfold zlen in *. cbn [length]. lia.
  - apply Forall_cons_iff in Hf as [<- _]. destruct (Hr eq_refl) as (p'' & ? & _). done.
Qed.

(** The predictor cannot suppress a tile size for good: of any
    eight consecutive candidates it lets at least one through, whatever was
    recorded and whatever the sizes and budgets are. *)
Theorem predictor_probes p queries :
  0 <= p.(pp_skipped_candidates) <= UINT16_MAX ->
  zlen queries = WD_STREAM_TILE_PREDICTOR_PROBE_INTERVAL ->
  In true (predictor_answers p queries).
Proof.
  intros Hs Hl. destruct (existsb (fun b => b) (predictor_answers p queries)) eqn:E.
  - apply existsb_exists in E as (b & ? & ->). done.
  - assert (Forall (eq false) (predictor_answers p queries)) as Hf.
    { apply Forall_forall. intros b Hin. destruct b; [| done].
      assert (existsb (fun b => b) (predictor_answers p queries) = true) by
        (apply existsb_exists; by exists true). congruence. }
    apply predictor_refusals in Hf; [| done]. change WD_STREAM_TILE_PREDICTOR_PROBE_INTERVAL with 8 in Hl.
    pose proof (Z.mod_pos_bound p.(pp_skipped_candidates) 8). lia.
Qed.

Lemma predictor_probes_witness :
  In true (predictor_answers (mk_wd_tile_payload_predictor 65536 4 0)
             (repeat (4096, 100, 1200, 20, 32) 8)) /\
  hd true (predictor_answers (mk_wd_tile_payload_predictor 65536 4 0)
             (repeat (4096, 100, 1200, 20, 32) 8)) = false.
Proof.
  split; [| vm_compute; reflexivity].
  apply predictor_probes; [cbn; unfold UINT16_MAX; lia | reflexivity].
Defined.

(** ** Properties: the next region *)

Section region_selection.
Context (ids : list Z) (regions_x cursor : Z) (enqueued : ptr (list Z)) (capacity : Z).

Abbreviation queued i := (region_queued enqueued capacity (aget 0 ids i)).
Abbreviation distance i := (wd_tile_region_distance (aget 0 ids i) cursor regions_x).

Lemma oldest_fold n :
  0 <= n -> (forall i, 0 <= queued i) ->
  let '(i, q) := fold_left (oldest_step ids enqueued capacity) (Z.succ <$> zseq n) (0, queued 0) in
  0 <= i <= n /\ q = queued i /\ forall j, 0 <= j <= n -> queued j <> 0 -> q <> 0 /\ q <= queued j.
Proof.
  intros Hn Hq. pattern n. apply natlike_ind; [| | exact Hn]; clear n Hn.
  - cbn. split_and!; [lia | lia | done |]. intros j Hj. assert (j = 0) as -> by lia. lia.
  - intros n Hn IH. rewrite <- Z.add_1_r, zseq_succ, fmap_app, fold_left_app by done.
    destruct (fold_left _ _ (0, queued 0)) as [i q]. destruct IH as (Hi & -> & Hmin).
    cbn [fmap list_fmap fold_left]. unfold oldest_step. rewrite <- Z.add_1_r.
    pose proof (Hq (n + 1)). case_if; bool_cases.
    + split_and!; [lia | lia | done |]. intros j Hj Hj0.
      destruct (Z.eq_dec j (n + 1)) as [->|]; [lia |].
      specialize (Hmin j ltac:(lia) Hj0). apply orb_true_iff in H1 as [H1|H1]; bool_cases; lia.
    + split_and!; [lia | lia | done |]. intros j Hj Hj0.
      destruct (Z.eq_dec j (n + 1)) as [->|]; [| apply Hmin; lia].
      apply andb_false_iff in E as [E|E]; bool_cases; [lia |]. lia.
Qed.

Lemma nearest_fold n :
  0 <= n ->
  let '(i, d) :=
    fold_left (nearest_step ids regions_x cursor enqueued capacity) (Z.succ <$> zseq n)
      (0, distance 0) in
  0 <= i <= n /\ d = distance i /\ forall j, 0 <= j <= n -> d <= distance j.
Proof.
  intros Hn. pattern n. apply natlike_ind; [| | exact Hn]; clear n Hn.
  - cbn. split_and!; [lia | lia | done |]. intros j Hj. assert (j = 0) as -> by lia. lia.
  - intros n Hn IH. rewrite <- Z.add_1_r, zseq_succ, fmap_app, fold_left_app by done.
    destruct (fold_left _ _ (0, distance 0)) as [i d]. destruct IH as (Hi & -> & Hmin).
    cbn [fmap list_fmap fold_left]. unfold nearest_step. rewrite <- Z.add_1_r.
    assert (forall d', d' <= distance (n + 1) -> d' <= distance i ->
      forall j, 0 <= j <= n + 1 -> d' <= distance j) as Hall.
    { intros d' H1 H2 j Hj. destruct (Z.eq_dec j (n + 1)) as [->|]; [done |].
      specialize (Hmin j ltac:(lia)). lia. }
    case_if; bool_cases; [| case_if; bool_cases; [case_if |]].
    + split_and!; [lia | lia | done |]. apply Hall; lia.
    + split_and!; [lia | lia | congruence |]. apply Hall; lia.
    + split_and!; [lia | lia | done |]. apply Hall; lia.
    + split_and!; [lia | lia | done |]. apply Hall; lia.
Qed.

(** The next region to send. The index returned is one of the
    queue's. If some region has waited for the starvation bound, the region
    returned is one that has waited longest; otherwise none is nearer to the
    cursor. *)
Theorem region_selected n now starvation :
  1 <= n <= SIZE_MAX -> zlen ids = n -> 1 <= regions_x -> u64_ok now -> 0 <= starvation ->
  (forall i, 0 <= queued i <= UINT64_MAX) ->
  let starving j := 0 <= j < n /\ starvation <> 0 /\ queued j <> 0 /\
                    queued j <= now /\ starvation <= now - queued j in
  let i := wd_tile_select_local_region_index (Some ids) n regions_x cursor enqueued capacity now
             starvation in
  0 <= i < n /\
  ((exists j, starving j) ->
     queued i <> 0 /\ forall j, 0 <= j < n -> queued j <> 0 -> queued i <= queued j) /\
  (~ (exists j, starving j) -> forall j, 0 <= j < n -> distance i <= distance j).
Proof.
  intros Hn Hlen Hx Hnow Hst Hq starving.
  unfold wd_tile_select_local_region_index.
  rewrite (proj2 (Z.eqb_neq n 0)), (proj2 (Z.eqb_neq regions_x 0)) by lia. cbn [orb].
  pose proof (oldest_fold (n - 1) ltac:(lia) (fun i => proj1 (Hq i))) as Ho.
  pose proof (nearest_fold (n - 1) ltac:(lia)) as Hd.
  destruct (fold_left (oldest_step _ _ _) _ _) as [o q].
  destruct (fold_left (nearest_step _ _ _ _ _) _ _) as [b d].
  destruct Ho as (Ho & -> & Hold). destruct Hd as (Hb & -> & Hnear). cbv zeta. cbn [fst].
  pose proof (Hq o). case_if; bool_cases.
  - rewrite u64_small in H1 by mlia. split; [lia |]. split.
    + intros _. split; [done |]. intros j Hj Hj0. apply Hold; lia.
    + intros Hno. exfalso. apply Hno. exists o. unfold starving. lia.
  - split; [lia |]. split.
    + intros (j & Hj & Hs0 & Hj0 & Hjn & Hjs). exfalso.
      destruct (Hold j ltac:(lia) Hj0) as [Ho0 Hoj].
      rewrite !andb_false_iff in E. rewrite u64_small in E by mlia.
      destruct E as [[[E|E]|E]|E]; bool_cases; lia.
    + intros _ j Hj. apply Hnear. lia.
Qed.
End region_selection.

Lemma region_selected_witness :
  let i := wd_tile_select_local_region_index (Some [3; 7; 9]) 3 4 8 NULL 0 100 50 in
  0 <= i < 3 /\ i = 2.
Proof.
  split; [| vm_compute; reflexivity].
  apply (region_selected [3; 7; 9] 4 8 NULL 0 3 100 50); unfold u64_ok, SIZE_MAX, UINT64_MAX;
    cbn; try lia; reflexivity.
Defined.
