(* ===== verification/VideoTransition.v ===== *)
(** * Decisions about the video stream on the server

    src/server/wd_video_transition.c: entry to video, recovery, health of the
    client's decoder and the cadence of the stream.  An enumeration is an
    inductive type with the enumerators as constructors; a division by zero,
    undefined in C, is [None]. *)
From stdpp Require Import strings.
From S2P Require Import Prelude Config.

Inductive wd_video_recovery_class :=
  | WD_VIDEO_RECOVERY_NONE
  | WD_VIDEO_RECOVERY_PLANNED
  | WD_VIDEO_RECOVERY_FAILURE.

Inductive wd_video_recovery_action :=
  | WD_VIDEO_RECOVERY_ACTION_WAIT
  | WD_VIDEO_RECOVERY_ACTION_PRESENTED
  | WD_VIDEO_RECOVERY_ACTION_RETRY_KEYFRAME
  | WD_VIDEO_RECOVERY_ACTION_FALLBACK_TILES.

Inductive wd_tile_recovery_action :=
  | WD_TILE_RECOVERY_WAIT
  | WD_TILE_RECOVERY_COMPLETE_PRESENTED
  | WD_TILE_RECOVERY_COMPLETE_TIMEOUT.

Inductive wd_tile_recovery_generation_action :=
  | WD_TILE_RECOVERY_GENERATION_WAIT
  | WD_TILE_RECOVERY_GENERATION_TRANSMITTED
  | WD_TILE_RECOVERY_GENERATION_STALE.

Inductive wd_planned_video_resume_action :=
  | WD_PLANNED_VIDEO_RESUME_WAIT
  | WD_PLANNED_VIDEO_RESUME_ENTER
  | WD_PLANNED_VIDEO_RESUME_CLEAR.

Inductive wd_client_video_health_class :=
  | WD_CLIENT_VIDEO_HEALTH_IDLE
  | WD_CLIENT_VIDEO_HEALTH_NORMAL
  | WD_CLIENT_VIDEO_HEALTH_AUDIO_WAIT
  | WD_CLIENT_VIDEO_HEALTH_DECODER_OVERLOADED
  | WD_CLIENT_VIDEO_HEALTH_AWAITING_KEYFRAME
  | WD_CLIENT_VIDEO_HEALTH_PIPELINE_STALL
  | WD_CLIENT_VIDEO_HEALTH_HARD_FAILURE.

Inductive wd_video_feedback_action :=
  | WD_VIDEO_FEEDBACK_ACTION_NONE
  | WD_VIDEO_FEEDBACK_ACTION_RECOVER_IN_VIDEO
  | WD_VIDEO_FEEDBACK_ACTION_FALLBACK_TILES.

#[export] Instance wd_video_recovery_class_eq_dec : EqDecision wd_video_recovery_class.
Proof. solve_decision. Defined.
#[export] Instance wd_tile_recovery_action_eq_dec : EqDecision wd_tile_recovery_action.
Proof. solve_decision. Defined.
#[export] Instance wd_planned_video_resume_action_eq_dec :
  EqDecision wd_planned_video_resume_action.
Proof. solve_decision. Defined.
#[export] Instance wd_client_video_health_class_eq_dec : EqDecision wd_client_video_health_class.
Proof. solve_decision. Defined.
#[export] Instance wd_video_feedback_action_eq_dec : EqDecision wd_video_feedback_action.
Proof. solve_decision. Defined.

Record wd_video_entry_plan := mk_wd_video_entry_plan {
  ep_source_content_epoch : Z;
  ep_frame_content_epoch : Z;
  ep_commit_on_queue : bool;
}.

Record wd_client_video_health_metrics := mk_wd_client_video_health_metrics {
  hm_server_frames_tx : Z;
  hm_client_reports : Z;
  hm_client_frames_seen : Z;
  hm_client_frames_decoded : Z;
  hm_client_frames_presented : Z;
  hm_client_decode_failures : Z;
  hm_client_publish_failures : Z;
  hm_client_need_keyframe_drops : Z;
  hm_client_audio_video_sync_holds : Z;
  hm_client_decode_queue_drops : Z;
  hm_client_audio_video_startup_timeouts : Z;
  hm_client_audio_video_startup_hold_ms : Z;
  hm_client_audio_playback_state : Z;
  hm_client_decode_queue_depth : Z;
  hm_client_decode_queue_depth_max : Z;
  hm_client_decode_queue_capacity : Z;
  hm_client_queue_depth : Z;
  hm_client_queue_depth_max : Z;
  hm_client_audio_video_sync_hold_current_ms : Z;
}.

Record wd_video_health_streak := mk_wd_video_health_streak {
  hs_health : wd_client_video_health_class;
  hs_seconds : Z;
}.

(** ** Recovery *)

Definition wd_video_recovery_decide (keyframe_queued : bool) (recovery_frame_id presented_frame_id
    wait_seconds timeout_seconds attempts maximum_attempts : Z) : wd_video_recovery_action :=
  if keyframe_queued && negb (recovery_frame_id =? 0) && (presented_frame_id >=? recovery_frame_id)
  then WD_VIDEO_RECOVERY_ACTION_PRESENTED
  else if (timeout_seconds =? 0) || (wait_seconds <? timeout_seconds)
  then WD_VIDEO_RECOVERY_ACTION_WAIT
  else if attempts <? maximum_attempts
  then WD_VIDEO_RECOVERY_ACTION_RETRY_KEYFRAME
  else WD_VIDEO_RECOVERY_ACTION_FALLBACK_TILES.

(** The three out-parameters are one: [None] when one of the pointers is
    [NULL], else the triple [(queued, frame_id, wait_seconds)] after the call. *)
Definition wd_video_recovery_track_keyframe (p : ptr (bool * Z * Z)) (newly_queued_frame_id : Z)
    : bool * ptr (bool * Z * Z) :=
  match p with
  | NULL => (false, NULL)
  | Some (queued, frame_id, wait_seconds) =>
      if queued || (newly_queued_frame_id =? 0) then (false, p)
      else (true, Some (true, newly_queued_frame_id, 0))
  end.

Definition wd_tile_recovery_decide (refresh_sent : bool) (required_content_epoch
    presented_content_epoch wait_seconds timeout_seconds : Z) : wd_tile_recovery_action :=
  if negb refresh_sent || (required_content_epoch =? 0) then WD_TILE_RECOVERY_WAIT
  else if presented_content_epoch >=? required_content_epoch
  then WD_TILE_RECOVERY_COMPLETE_PRESENTED
  else if negb (timeout_seconds =? 0) && (wait_seconds >=? timeout_seconds)
  then WD_TILE_RECOVERY_COMPLETE_TIMEOUT
  else WD_TILE_RECOVERY_WAIT.

Definition wd_tile_recovery_generation_decide (refresh_started refresh_sent : bool)
    (recovery_framebuffer_generation current_framebuffer_generation : Z)
    (recovery_queues_empty : bool) : wd_tile_recovery_generation_action :=
  if negb refresh_started || refresh_sent || (recovery_framebuffer_generation =? 0)
  then WD_TILE_RECOVERY_GENERATION_WAIT
  else if negb (recovery_framebuffer_generation =? current_framebuffer_generation)
  then WD_TILE_RECOVERY_GENERATION_STALE
  else if recovery_queues_empty then WD_TILE_RECOVERY_GENERATION_TRANSMITTED
  else WD_TILE_RECOVERY_GENERATION_WAIT.

(** ** Entry *)

Definition wd_video_entry_allowed (bootstrap_pending recovery_active : bool)
    (retry_cooldown_seconds : Z) (video_forced : bool) (recovery_class : wd_video_recovery_class)
    : bool :=
  if bootstrap_pending || recovery_active then false
  else if retry_cooldown_seconds =? 0 then true
  else video_forced && bool_decide (recovery_class = WD_VIDEO_RECOVERY_PLANNED).

Definition wd_video_session_bootstrap_required (requested_mode client_capabilities : Z) : bool :=
  negb (requested_mode =? WD_VIDEO_MODE_OFF) && (requested_mode <=? WD_VIDEO_MODE_FORCE) &&
  flag client_capabilities WD_CLIENT_CAP_VIDEO_STREAM.

Definition wd_video_control_allows_entry (requested_mode : Z) (video_negotiated
    video_channel_connected video_encoder_available : bool) : bool :=
  negb (requested_mode =? WD_VIDEO_MODE_OFF) && (requested_mode <=? WD_VIDEO_MODE_FORCE) &&
  video_negotiated && video_channel_connected && video_encoder_available.

Definition wd_video_auto_mode_wait_for_recovery (recovering : bool) (requested_mode : Z)
    (video_negotiated video_channel_connected video_encoder_available : bool) : bool :=
  recovering && wd_video_control_allows_entry requested_mode video_negotiated
    video_channel_connected video_encoder_available.

Definition wd_planned_video_resume_decide (resume_requested recovery_active bootstrap_pending : bool)
    (requested_mode : Z) (video_negotiated video_channel_connected video_encoder_available : bool)
    : wd_planned_video_resume_action :=
  if negb resume_requested then WD_PLANNED_VIDEO_RESUME_WAIT
  else if negb (wd_video_control_allows_entry requested_mode video_negotiated
                  video_channel_connected video_encoder_available)
  then WD_PLANNED_VIDEO_RESUME_CLEAR
  else if recovery_active || bootstrap_pending then WD_PLANNED_VIDEO_RESUME_WAIT
  else WD_PLANNED_VIDEO_RESUME_ENTER.

Definition wd_video_failure_resume_fps (requested_fps previous_video_fps : Z) : Z :=
  if negb (previous_video_fps =? 0) && (previous_video_fps <? requested_fps)
  then previous_video_fps else requested_fps.

Definition wd_next_nonzero_epoch (current_epoch : Z) : Z :=
  let current_epoch := u64 (current_epoch + 1) in
  if current_epoch =? 0 then 1 else current_epoch.

Definition wd_video_entry_plan_make (current_epoch : Z) (waiting_for_first_keyframe
    frame_is_keyframe : bool) : wd_video_entry_plan :=
  if waiting_for_first_keyframe && frame_is_keyframe
  then mk_wd_video_entry_plan current_epoch (wd_next_nonzero_epoch current_epoch) true
  else mk_wd_video_entry_plan current_epoch current_epoch false.

Definition wd_video_entry_plan_can_commit (plan : ptr wd_video_entry_plan) (current_epoch : Z)
    (queue_succeeded : bool) : bool :=
  match plan with
  | NULL => false
  | Some plan =>
      plan.(ep_commit_on_queue) && queue_succeeded &&
      (plan.(ep_source_content_epoch) =? current_epoch) &&
      (plan.(ep_frame_content_epoch) =? wd_next_nonzero_epoch current_epoch)
  end.

(** ** Client health *)

Definition wd_video_present_overflow_pressure (replaced frames_presented : Z) : bool :=
  (replaced >=? 4) && ((frames_presented =? 0) || (replaced >=? frames_presented / 20)).

Definition wd_video_decode_queue_pressure (peak_depth capacity : Z) : bool :=
  negb (capacity =? 0) && (peak_depth >=? capacity).

Definition wd_video_cadence_window_pressure (visible focused sustained_present_pressure
    decode_queue_peak decode_queue_drops : bool) : bool :=
  decode_queue_drops ||
  (visible && (sustained_present_pressure || (focused && decode_queue_peak))).

Definition wd_video_cadence_window_can_upshift (visible focused : bool) : bool :=
  visible && focused.

Definition wd_video_health_for_window (health : wd_client_video_health_class)
    (visible focused : bool) : wd_client_video_health_class :=
  if bool_decide (health = WD_CLIENT_VIDEO_HEALTH_PIPELINE_STALL) && (negb visible || negb focused)
  then WD_CLIENT_VIDEO_HEALTH_IDLE else health.

Definition wd_client_video_health_classify (metrics : ptr wd_client_video_health_metrics)
    : wd_client_video_health_class :=
  match metrics with
  | NULL => WD_CLIENT_VIDEO_HEALTH_IDLE
  | Some m =>
      if m.(hm_client_reports) =? 0 then WD_CLIENT_VIDEO_HEALTH_IDLE
      else if negb (m.(hm_client_decode_failures) =? 0) ||
              negb (m.(hm_client_publish_failures) =? 0)
      then WD_CLIENT_VIDEO_HEALTH_HARD_FAILURE
      else if negb (m.(hm_client_decode_queue_drops) =? 0)
      then WD_CLIENT_VIDEO_HEALTH_DECODER_OVERLOADED
      else if negb (m.(hm_client_need_keyframe_drops) =? 0)
      then WD_CLIENT_VIDEO_HEALTH_AWAITING_KEYFRAME
      else if m.(hm_server_frames_tx) =? 0 then WD_CLIENT_VIDEO_HEALTH_IDLE
      else if negb (m.(hm_client_frames_presented) =? 0) then WD_CLIENT_VIDEO_HEALTH_NORMAL
      else if negb (m.(hm_client_frames_decoded) =? 0) &&
              negb (m.(hm_client_audio_video_sync_holds) =? 0) &&
              ((m.(hm_client_audio_playback_state) =? WD_CLIENT_AUDIO_PLAYBACK_BUFFERING) ||
               (m.(hm_client_audio_playback_state) =? WD_CLIENT_AUDIO_PLAYBACK_PLAYING)) &&
              (m.(hm_client_audio_video_startup_hold_ms) <=?
                 WD_CLIENT_AUDIO_VIDEO_STARTUP_HOLD_MAX_MS) &&
              negb (m.(hm_client_audio_video_sync_hold_current_ms) =? 0) &&
              (m.(hm_client_audio_video_sync_hold_current_ms) <=?
                 WD_CLIENT_AUDIO_VIDEO_PLAYING_HOLD_MAX_MS) &&
              (negb (m.(hm_client_queue_depth) =? 0) || negb (m.(hm_client_queue_depth_max) =? 0))
      then WD_CLIENT_VIDEO_HEALTH_AUDIO_WAIT
      else if negb (m.(hm_client_frames_seen) =? 0) || negb (m.(hm_client_frames_decoded) =? 0)
      then WD_CLIENT_VIDEO_HEALTH_PIPELINE_STALL
      else WD_CLIENT_VIDEO_HEALTH_IDLE
  end.

Definition wd_video_health_streak_update (current : wd_video_health_streak)
    (sample : wd_client_video_health_class) : wd_video_health_streak :=
  if bool_decide (sample <> WD_CLIENT_VIDEO_HEALTH_PIPELINE_STALL) &&
     bool_decide (sample <> WD_CLIENT_VIDEO_HEALTH_HARD_FAILURE)
  then mk_wd_video_health_streak WD_CLIENT_VIDEO_HEALTH_IDLE 0
  else if bool_decide (current.(hs_health) <> sample) then mk_wd_video_health_streak sample 1
  else if negb (current.(hs_seconds) =? UINT32_MAX)
  then mk_wd_video_health_streak current.(hs_health) (u32 (current.(hs_seconds) + 1))
  else current.

Definition wd_video_feedback_action_classify (flags : Z) : wd_video_feedback_action :=
  if flag flags (Z.lor WD_VIDEO_FEEDBACK_DECODE_FAILURE WD_VIDEO_FEEDBACK_PUBLISH_FAILURE)
  then WD_VIDEO_FEEDBACK_ACTION_FALLBACK_TILES
  else if flag flags (Z.lor WD_VIDEO_FEEDBACK_DECODE_OVERLOAD WD_VIDEO_FEEDBACK_NEEDS_KEYFRAME)
  then WD_VIDEO_FEEDBACK_ACTION_RECOVER_IN_VIDEO
  else WD_VIDEO_FEEDBACK_ACTION_NONE.

Definition wd_client_video_health_name (health : wd_client_video_health_class) : string :=
  match health with
  | WD_CLIENT_VIDEO_HEALTH_IDLE => "idle"
  | WD_CLIENT_VIDEO_HEALTH_NORMAL => "normal"
  | WD_CLIENT_VIDEO_HEALTH_AUDIO_WAIT => "audio-wait"
  | WD_CLIENT_VIDEO_HEALTH_DECODER_OVERLOADED => "decoder-overloaded"
  | WD_CLIENT_VIDEO_HEALTH_AWAITING_KEYFRAME => "awaiting-keyframe"
  | WD_CLIENT_VIDEO_HEALTH_PIPELINE_STALL => "pipeline-stall"
  | WD_CLIENT_VIDEO_HEALTH_HARD_FAILURE => "hard-failure"
  end.

(** ** Cadence *)

Definition wd_video_safe_decode_fps (average_decode_ns requested_fps headroom_percent : Z)
    : option Z :=
  if requested_fps =? 0 then Some 0
  else if (average_decode_ns =? 0) || (headroom_percent =? 0) || (headroom_percent >? 100)
  then Some requested_fps
  else
    let numerator := u64 (1000000000 * headroom_percent) in
    let divisor := u64 (average_decode_ns * 100) in
    if divisor =? 0 then None
    else
      let fps := numerator / divisor in
      let fps := if fps =? 0 then 1 else fps in
      let fps := if fps >? requested_fps then requested_fps else fps in
      Some (u16 fps).

Definition wd_video_decode_ewma_update (current_ewma_ns sample_ns new_sample_numerator
    denominator : Z) : Z :=
  if sample_ns =? 0 then current_ewma_ns
  else if (current_ewma_ns =? 0) || (denominator =? 0) || (new_sample_numerator =? 0) ||
          (new_sample_numerator >=? denominator)
  then sample_ns
  else
    let old_weight := denominator - new_sample_numerator in
    u64 (u64 (current_ewma_ns * old_weight) + u64 (sample_ns * new_sample_numerator)) / denominator.

Definition wd_video_cadence_downshift_target (current_fps requested_fps safe_decode_fps : Z)
    (hard_overload : bool) (minimum_fps deadband_fps overload_percent : Z) : Z :=
  let current_fps := if current_fps =? 0 then requested_fps else current_fps in
  let minimum_fps := if minimum_fps =? 0 then 1 else minimum_fps in
  let target :=
    if hard_overload then
      let overload_percent :=
        if (overload_percent =? 0) || (overload_percent >=? 100) then 75 else overload_percent in
      let target := u32 (current_fps * overload_percent) / 100 in
      if negb (safe_decode_fps =? 0) && (safe_decode_fps <? target) then safe_decode_fps else target
    else if negb (safe_decode_fps =? 0) && (current_fps >? safe_decode_fps + deadband_fps)
    then safe_decode_fps
    else current_fps in
  let target := if target <? minimum_fps then minimum_fps else target in
  let target :=
    if negb (requested_fps =? 0) && (target >? requested_fps) then requested_fps else target in
  if target >=? current_fps then current_fps else u16 target.

Definition wd_video_cadence_upshift_target (current_fps requested_fps safe_decode_fps deadband_fps
    increase_step : Z) : Z :=
  if (current_fps =? 0) || (requested_fps =? 0) || (current_fps >=? requested_fps)
  then current_fps
  else if negb (safe_decode_fps =? 0) && (safe_decode_fps <? requested_fps) &&
          (u32 (current_fps + deadband_fps) >=? safe_decode_fps)
  then current_fps
  else
    let increase_step := if increase_step =? 0 then 1 else increase_step in
    let target := u32 (current_fps + increase_step) in
    let target :=
      if negb (safe_decode_fps =? 0) && (target >? safe_decode_fps) then safe_decode_fps
      else target in
    let target := if target >? requested_fps then requested_fps else target in
    u16 target.

(** ** Properties *)

Lemma next_nonzero_epoch_range e : u64_ok e -> 1 <= wd_next_nonzero_epoch e <= UINT64_MAX.
Proof.
  intros He. unfold wd_next_nonzero_epoch. pose proof (u64_range (e + 1)). crush_if; mlia.
Qed.

Lemma next_nonzero_epoch_ne e : u64_ok e -> wd_next_nonzero_epoch e <> e.
Proof.
  intros He. unfold wd_next_nonzero_epoch. destruct (Z.eq_dec e UINT64_MAX) as [->|].
  - vm_compute. done.
  - rewrite u64_small by mlia. crush_if; lia.
Qed.

(** A planned entry is committed exactly when it was made for a first keyframe,
    the frame was queued and the display did not change hands in between. *)
Lemma entry_plan_commits_iff e e' waiting keyframe queued :
  u64_ok e -> u64_ok e' ->
  wd_video_entry_plan_can_commit (Some (wd_video_entry_plan_make e waiting keyframe)) e' queued = true
    <-> waiting = true /\ keyframe = true /\ queued = true /\ e = e'.
Proof.
  intros He He'. unfold wd_video_entry_plan_make. case_if; cbn.
  - apply andb_true_iff in E as [-> ->]. rewrite !andb_true_iff, !Z.eqb_eq. split.
    + intros [[-> ->] _]. done.
    + intros (_ & _ & -> & ->). done.
  - split; [done |]. intros (-> & -> & _). done.
Qed.

(** A health streak of [n] seconds is [n] consecutive samples of one of the two
    failing classes. *)
Lemma streak_update_counts s sample :
  0 <= s.(hs_seconds) < UINT32_MAX ->
  (wd_video_health_streak_update s sample).(hs_seconds) <= s.(hs_seconds) + 1.
Proof.
  intros H. unfold wd_video_health_streak_update. crush_if; cbn; [lia | lia | | lia].
  rewrite u32_small by mlia. lia.
Qed.

Lemma downshift_le current requested safe hard minimum deadband percent :
  u16_ok requested -> u16_ok safe -> u16_ok minimum -> 0 < current <= UINT16_MAX ->
  wd_video_cadence_downshift_target current requested safe hard minimum deadband percent <= current.
Proof.
  intros Hr Hs Hm Hc. unfold wd_video_cadence_downshift_target.
  rewrite (proj2 (Z.eqb_neq current 0)) by lia. cbv zeta.
  match goal with |- context [if ?x <? (if minimum =? 0 then 1 else minimum) then _ else _] =>
    set (raw := x) end.
  match goal with |- (if ?b then _ else _) <= _ => destruct b eqn:E end; [lia |].
  rewrite Z.geb_leb, Z.leb_gt in E. rewrite u16_small; [lia |]. revert E. crush_if; mlia.
Qed.

(** The lower end of the cadence: what is returned is the current cadence or at
    least the minimum (or the request, when that is lower still). *)
Lemma downshift_ge current requested safe hard minimum deadband percent :
  u16_ok current -> u16_ok requested -> u16_ok safe -> u16_ok minimum ->
  0 < current -> 0 < minimum ->
  let t := wd_video_cadence_downshift_target current requested safe hard minimum deadband percent in
  t = current \/ minimum <= t \/ t = requested.
Proof.
  intros Hc Hr Hs Hm Hc0 Hm0. unfold wd_video_cadence_downshift_target.
  rewrite (proj2 (Z.eqb_neq current 0)), (proj2 (Z.eqb_neq minimum 0)) by lia. cbv zeta.
  match goal with |- context [if ?x <? minimum then _ else _] => set (raw := x) end.
  match goal with |- (if ?b then _ else _) = _ \/ _ => destruct b eqn:E end; [by left |]. right.
  rewrite Z.geb_leb, Z.leb_gt in E. revert E. crush_if; intros; rewrite ?u16_small by mlia; mlia.
Qed.

Lemma upshift_within current requested safe deadband step :
  u16_ok current -> u16_ok requested -> u16_ok safe -> u16_ok step -> 0 <= deadband ->
  current < requested ->
  current <= wd_video_cadence_upshift_target current requested safe deadband step \/
  (safe <> 0 /\ safe < current).
Proof.
  intros Hc Hr Hs Hst Hd Hlt. unfold wd_video_cadence_upshift_target.
  case_if; [lia |]. case_if; [lia |].
  match goal with |- context [u32 (current + ?s)] => assert (0 < s <= UINT16_MAX) as Hstep
    by (crush_if; mlia); rewrite (u32_small (current + s)) by mlia; set (st := s) in * end.
  assert (0 <= safe) by mlia.
  cbv zeta. repeat case_if; bool_cases; rewrite u16_small by mlia; lia.
Qed.

(** The stream's cadence does not oscillate. When the capacity of
    the client's decoder alone lowers the frame rate, the lowered rate is
    within the request and not below the minimum (unless the request is), and
    at the lowered rate, with the decoder unchanged, neither a further lowering
    nor a raise is asked for. *)
Theorem cadence_settles current requested safe minimum deadband percent step :
  u16_ok current -> u16_ok requested -> u16_ok safe -> u16_ok minimum -> u16_ok deadband ->
  u16_ok step -> 0 < requested -> 0 < minimum ->
  let t := wd_video_cadence_downshift_target current requested safe false minimum deadband percent in
  t < current ->
  (t <= requested /\ (minimum <= t \/ t = requested)) /\
  wd_video_cadence_downshift_target t requested safe false minimum deadband percent = t /\
  wd_video_cadence_upshift_target t requested safe deadband step = t.
Proof.
  intros Hc Hr Hs Hm Hd Hst Hr0 Hm0 t Ht.
  assert ((t = requested /\ (safe = 0 \/ requested <= safe + deadband)) \/
          (0 < safe /\ t = Z.min requested (Z.max minimum safe))) as Et.
  { subst t. revert Ht. unfold wd_video_cadence_downshift_target.
    rewrite (proj2 (Z.eqb_neq minimum 0)), (proj2 (Z.eqb_neq requested 0)) by lia. cbn [negb andb].
    destruct (Z.eqb_spec current 0) as [->|]; cbv zeta.
    - match goal with |- context [u16 ?x] => pose proof (u16_range x) end.
      match goal with |- (if ?b then _ else _) < _ -> _ => destruct b end; mlia.
    - destruct (Z.eqb_spec safe 0) as [->|]; cbn [negb andb];
        crush_if; intros; rewrite ?u16_small in * by mlia; mlia. }
  clearbody t. split; [lia |]. split.
  - unfold wd_video_cadence_downshift_target.
    rewrite (proj2 (Z.eqb_neq minimum 0)), (proj2 (Z.eqb_neq requested 0)),
      (proj2 (Z.eqb_neq t 0)) by mlia. cbn [negb andb].
    crush_if; rewrite ?u16_small by mlia; mlia.
  - unfold wd_video_cadence_upshift_target. case_if; [done |]. case_if; [done |].
    bool_cases. rewrite u32_small in E0 by mlia.
    apply andb_false_iff in E0 as [E0|E0]; [apply andb_false_iff in E0 as [E0|E0] |];
      bool_cases; mlia.
Qed.

Lemma cadence_settles_witness :
  let t := wd_video_cadence_downshift_target 60 60 24 false 5 3 75 in
  t = 24 /\ wd_video_cadence_upshift_target t 60 24 3 5 = t.
Proof.
  split; [reflexivity |].
  apply (cadence_settles 60 60 24 5 3 75 5); unfold u16_ok, UINT16_MAX; try lia. reflexivity.
Defined.

(** The frame rate derived from a decode time of [avg] nanoseconds.
    As long as [avg * 100] fits in 64 bits it is the largest rate, at least one
    frame and at most the request, whose decoding takes no more than the given
    share of a second; for a multiple of [2^62] the 64-bit product is zero and
    the division by it undefined. *)
Theorem safe_decode_fps_spec avg requested headroom :
  1 <= avg <= UINT64_MAX -> u16_ok requested -> 0 < requested -> 1 <= headroom <= 100 ->
  (avg * 100 <= UINT64_MAX ->
   exists fps, wd_video_safe_decode_fps avg requested headroom = Some fps /\
     1 <= fps <= requested /\
     (fps * (avg * 100) <= 1000000000 * headroom \/ fps = 1) /\
     (fps < requested -> 1000000000 * headroom < (fps + 1) * (avg * 100))) /\
  (wd_video_safe_decode_fps avg requested headroom = None <-> avg mod 2 ^ 62 = 0).
Proof.
  intros Ha Hr Hr0 Hh. unfold wd_video_safe_decode_fps.
  rewrite (proj2 (Z.eqb_neq requested 0)) by lia.
  replace ((avg =? 0) || (headroom =? 0) || (headroom >? 100)) with false.
  2: { symmetry. rewrite !orb_false_iff, !Z.eqb_neq, Z.gtb_ltb, Z.ltb_ge. lia. }
  rewrite (u64_small (1000000000 * headroom)) by mlia. cbv zeta. split.
  - intros Hfit. rewrite (u64_small (avg * 100)) by mlia.
    destruct (Z.eqb_spec (avg * 100) 0); [lia |].
    set (q := 1000000000 * headroom / (avg * 100)).
    assert (q * (avg * 100) <= 1000000000 * headroom < (q + 1) * (avg * 100)) as Hq.
    { pose proof (Z.div_mod (1000000000 * headroom) (avg * 100) ltac:(lia)).
      pose proof (Z.mod_pos_bound (1000000000 * headroom) (avg * 100) ltac:(lia)).
      fold q in H. lia. }
    assert (0 <= q) by (apply Z.div_pos; lia). clearbody q.
    exists (Z.min requested (Z.max 1 q)). split; [| split; [lia |]].
    { crush_if; rewrite ?u16_small by mlia; f_equal; lia. }
    split; [nia |]. intros Hlt. destruct (Z.eq_dec q 0) as [->|]; [nia |].
    replace (Z.min requested (Z.max 1 q)) with q by lia. lia.
  - unfold u64. change (2 ^ 62) with 4611686018427387904.
    assert ((avg * 100) mod 18446744073709551616 = 0 <-> avg mod 4611686018427387904 = 0) as Hz.
    { rewrite !Z.mod_divide by lia. split.
      - intros [k Hk]. assert (4611686018427387904 | avg * 25) as Hd by (exists k; lia).
        rewrite Z.mul_comm in Hd. apply Z.gauss in Hd; [done | reflexivity].
      - intros [k ->]. exists (k * 25). lia. }
    case_if; bool_cases; [tauto |]. split; [done |]. intros. tauto.
Qed.

Lemma safe_decode_fps_spec_witness :
  wd_video_safe_decode_fps 20000000 60 85 = Some 42 /\
  wd_video_safe_decode_fps 4611686018427387904 60 85 = None.
Proof.
  split; [reflexivity |].
  apply (safe_decode_fps_spec 4611686018427387904 60 85); unfold u16_ok, UINT16_MAX, UINT64_MAX;
    [lia | lia | lia | lia | reflexivity].
Defined.
