(* ===== verification/StreamPolicy.v ===== *)
(** * Stream policy

    The policy part of src/server/wd_stream.c: the rates a session uses, the
    mode of the stream (tiles or video, and the transitions between them), its
    frame rate and the reaction to what the client reports.

    A [uint8_t] field that holds an enumerator has the enumeration as its type.
    The policy and the statistics are always passed as addresses of members, so
    the functions take the structures and their tests for [NULL] have no
    counterpart; parameters and locals that only feed log messages are left
    out.  [wd_stats] has the counters that these functions and those of
    StreamSession.v read or write.  A result [None] is a division by zero. *)
From stdpp Require Import strings.
From S2P Require Import Prelude CFloat Wire Config Structs.
From S2P Require Import FramePacing Bandwidth TilePolicy VideoTransition.

Inductive wd_stream_mode :=
  | WD_STREAM_MODE_TILES
  | WD_STREAM_MODE_VIDEO_CANDIDATE
  | WD_STREAM_MODE_VIDEO_READY
  | WD_STREAM_MODE_VIDEO_ACTIVE
  | WD_STREAM_MODE_VIDEO_RECOVERING
  | WD_STREAM_MODE_TILE_RECOVERY.

#[export] Instance wd_stream_mode_eq_dec : EqDecision wd_stream_mode.
Proof. solve_decision. Defined.

Record wd_stream_policy := mk_wd_stream_policy {
  sp_requested_session_fps : Z;
  sp_adaptive_capture_fps : Z;
  sp_stream_mode : wd_stream_mode;
  sp_video_mode : Z;
  sp_video_min_dirty_percent : Z;
  sp_video_enter_seconds : Z;
  sp_video_exit_dirty_percent : Z;
  sp_video_exit_seconds : Z;
  sp_video_bitrate_kib_per_second : Z;
  sp_video_candidate_seconds : Z;
  sp_tile_recovery_seconds : Z;
  sp_video_client_failure_seconds : Z;
  sp_video_client_failure_class : wd_client_video_health_class;
  sp_video_frame_rate_good_seconds : Z;
  sp_video_failure_resume_fps : Z;
  sp_video_decode_ewma_ns : Z;
  sp_video_decode_safe_fps : Z;
  sp_video_encode_ewma_ns : Z;
  sp_video_encode_pacing_samples : Z;
  sp_video_recovery_attempts : Z;
  sp_video_recovery_wait_seconds : Z;
  sp_video_recovery_keyframe_queued : bool;
  sp_video_recovery_keyframe_id : Z;
  sp_video_feedback_pending : bool;
  sp_video_feedback_flags : Z;
  sp_video_feedback_sequence : Z;
  sp_video_feedback_last_frame_id_rx : Z;
  sp_video_feedback_last_frame_id_decoded : Z;
  sp_video_feedback_last_frame_id_presented : Z;
  sp_video_feedback_decode_queue_depth : Z;
  sp_video_feedback_decode_queue_capacity : Z;
  sp_video_feedback_present_queue_depth : Z;
  sp_video_feedback_present_queue_capacity : Z;
  sp_video_feedback_presentation_stall_ms : Z;
  sp_video_feedback_audio_sync_hold_ms : Z;
  sp_video_feedback_decoder_phase : Z;
  sp_tile_refresh_pending : bool;
  sp_tile_recovery_refresh_started : bool;
  sp_tile_recovery_refresh_sent : bool;
  sp_tile_recovery_wait_seconds : Z;
  sp_tile_recovery_framebuffer_generation : Z;
  sp_tile_recovery_live_damage_deferred : bool;
  sp_planned_recovery_resume_video : bool;
  sp_planned_recovery_source_mode : wd_stream_mode;
  sp_video_retry_cooldown_seconds : Z;
  sp_video_bootstrap_pending : bool;
  sp_video_bootstrap_refresh_started : bool;
  sp_video_bootstrap_refresh_sent : bool;
  sp_video_bootstrap_wait_seconds : Z;
  sp_video_bootstrap_content_epoch : Z;
  sp_tile_recovery_content_epoch : Z;
  sp_video_recovery_class : wd_video_recovery_class;
  sp_frame_rate_good_seconds : Z;
  sp_frame_pacing : wd_frame_pacing_state;
  sp_safe_link_bytes_per_second : Z;
  sp_recent_link_bytes_per_second : Z;
  sp_tile_fresh_bytes_per_second : Z;
  sp_adaptive_tile_fresh_bytes_per_second : Z;
  sp_tile_repair_bytes_per_second : Z;
  sp_video_bytes_per_second : Z;
  sp_control_bytes_per_second : Z;
  sp_audio_required_bytes_per_second : Z;
  sp_audio_cap_bytes_per_second : Z;
  sp_audio_reserved_bytes_per_second : Z;
  sp_overhead_bytes_per_second : Z;
  sp_bandwidth_audio_enabled : bool;
  sp_bandwidth_audio_bitrate : Z;
  sp_tile_media_bytes_per_second : Z;
  sp_tile_media_floor_bytes_per_second : Z;
  sp_tile_media_ceiling_bytes_per_second : Z;
  sp_link_good_seconds : Z;
  sp_link_loss_seconds : Z;
  sp_multipacket_loss_cooldown_seconds : Z;
  sp_client_render_pressure_seconds : Z;
  sp_client_render_visible : bool;
  sp_client_window_focused : bool;
  sp_fresh_tile_bucket : wd_bandwidth_bucket;
  sp_repair_bucket : wd_bandwidth_bucket;
  sp_control_bucket : wd_bandwidth_bucket;
}.

#[export] Instance wd_stream_policy_eta : Eta wd_stream_policy := fun s =>
  mk_wd_stream_policy
    (sp_requested_session_fps s) (sp_adaptive_capture_fps s) (sp_stream_mode s) (sp_video_mode s)
    (sp_video_min_dirty_percent s) (sp_video_enter_seconds s) (sp_video_exit_dirty_percent s)
    (sp_video_exit_seconds s) (sp_video_bitrate_kib_per_second s) (sp_video_candidate_seconds s)
    (sp_tile_recovery_seconds s) (sp_video_client_failure_seconds s)
    (sp_video_client_failure_class s) (sp_video_frame_rate_good_seconds s)
    (sp_video_failure_resume_fps s) (sp_video_decode_ewma_ns s) (sp_video_decode_safe_fps s)
    (sp_video_encode_ewma_ns s) (sp_video_encode_pacing_samples s) (sp_video_recovery_attempts s)
    (sp_video_recovery_wait_seconds s) (sp_video_recovery_keyframe_queued s)
    (sp_video_recovery_keyframe_id s) (sp_video_feedback_pending s) (sp_video_feedback_flags s)
    (sp_video_feedback_sequence s) (sp_video_feedback_last_frame_id_rx s)
    (sp_video_feedback_last_frame_id_decoded s) (sp_video_feedback_last_frame_id_presented s)
    (sp_video_feedback_decode_queue_depth s) (sp_video_feedback_decode_queue_capacity s)
    (sp_video_feedback_present_queue_depth s) (sp_video_feedback_present_queue_capacity s)
    (sp_video_feedback_presentation_stall_ms s) (sp_video_feedback_audio_sync_hold_ms s)
    (sp_video_feedback_decoder_phase s) (sp_tile_refresh_pending s)
    (sp_tile_recovery_refresh_started s) (sp_tile_recovery_refresh_sent s)
    (sp_tile_recovery_wait_seconds s) (sp_tile_recovery_framebuffer_generation s)
    (sp_tile_recovery_live_damage_deferred s) (sp_planned_recovery_resume_video s)
    (sp_planned_recovery_source_mode s) (sp_video_retry_cooldown_seconds s)
    (sp_video_bootstrap_pending s) (sp_video_bootstrap_refresh_started s)
    (sp_video_bootstrap_refresh_sent s) (sp_video_bootstrap_wait_seconds s)
    (sp_video_bootstrap_content_epoch s) (sp_tile_recovery_content_epoch s)
    (sp_video_recovery_class s) (sp_frame_rate_good_seconds s) (sp_frame_pacing s)
    (sp_safe_link_bytes_per_second s) (sp_recent_link_bytes_per_second s)
    (sp_tile_fresh_bytes_per_second s) (sp_adaptive_tile_fresh_bytes_per_second s)
    (sp_tile_repair_bytes_per_second s) (sp_video_bytes_per_second s)
    (sp_control_bytes_per_second s) (sp_audio_required_bytes_per_second s)
    (sp_audio_cap_bytes_per_second s) (sp_audio_reserved_bytes_per_second s)
    (sp_overhead_bytes_per_second s) (sp_bandwidth_audio_enabled s)
    (sp_bandwidth_audio_bitrate s) (sp_tile_media_bytes_per_second s)
    (sp_tile_media_floor_bytes_per_second s) (sp_tile_media_ceiling_bytes_per_second s)
    (sp_link_good_seconds s) (sp_link_loss_seconds s) (sp_multipacket_loss_cooldown_seconds s)
    (sp_client_render_pressure_seconds s) (sp_client_render_visible s)
    (sp_client_window_focused s) (sp_fresh_tile_bucket s) (sp_repair_bucket s)
    (sp_control_bucket s).

(** [memset] to zero. *)
Definition zero_policy : wd_stream_policy :=
  mk_wd_stream_policy
    0 0 WD_STREAM_MODE_TILES 0 0 0 0 0 0 0 0 0 WD_CLIENT_VIDEO_HEALTH_IDLE 0 0 0 0 0 0 0 0 false
    0 false 0 0 0 0 0 0 0 0 0 0 0 0 false false false 0 0 false false WD_STREAM_MODE_TILES 0
    false false false 0 0 0 WD_VIDEO_RECOVERY_NONE 0 (mk_wd_frame_pacing_state 0 0 0) 0 0 0 0 0 0
    0 0 0 0 0 false 0 0 0 0 0 0 0 0 false false (mk_wd_bandwidth_bucket (double_of_Z 0) 0)
    (mk_wd_bandwidth_bucket (double_of_Z 0) 0) (mk_wd_bandwidth_bucket (double_of_Z 0) 0).

Record wd_stats := mk_wd_stats {
  st_dirty_tiles : Z;
  st_udp_tiles_sent : Z;
  st_udp_fresh_tiles_sent : Z;
  st_udp_fresh_bytes_sent : Z;
  st_udp_send_pressure_drops : Z;
  st_tile_choice_chosen_wire_sum : Z;
  st_tile_choice_covered_base_tiles : Z;
  st_stream_mode_frame_samples : Z;
  st_stream_mode_changed_frame_samples : Z;
  st_stream_mode_dirty_coverage_per_mille_sum : Z;
  st_stream_mode_dirty_coverage_per_mille_peak : Z;
  st_stream_mode_budget_pressure_frames : Z;
  st_stream_mode_full_refresh_samples : Z;
  st_video_frames_tx : Z;
  st_client_stats_rx : Z;
  st_client_udp_packets_rx : Z;
  st_client_tiles_completed : Z;
  st_client_completed_packets : Z;
  st_client_partial_tiles_timed_out : Z;
  st_client_retx_requests_tx : Z;
  st_client_render_visible_reports : Z;
  st_client_render_hidden_reports : Z;
  st_client_window_focused_reports : Z;
  st_client_window_unfocused_reports : Z;
  st_client_render_frames : Z;
  st_client_video_frames_rx : Z;
  st_client_video_frames_decoded : Z;
  st_client_video_frames_presented : Z;
  st_client_video_decode_failed : Z;
  st_client_video_publish_failed : Z;
  st_client_video_need_keyframe_drops : Z;
  st_client_video_decode_samples : Z;
  st_client_video_decode_sum_ns : Z;
  st_client_video_data_frames_rx : Z;
  st_client_video_last_frame_id_presented : Z;
  st_client_audio_video_sync_holds : Z;
  st_client_video_decode_queue_drops : Z;
  st_client_video_decode_queue_depth : Z;
  st_client_video_decode_queue_depth_max : Z;
  st_client_video_decode_queue_capacity : Z;
  st_client_audio_video_sync_hold_current_ms : Z;
  st_client_audio_video_startup_timeouts : Z;
  st_client_audio_video_startup_hold_ms : Z;
  st_client_audio_playback_state : Z;
  st_client_video_queue_overflow_drops : Z;
  st_client_video_queue_depth : Z;
  st_client_video_queue_depth_max : Z;
  st_client_tile_content_epoch_presented : Z;
  st_rate_decreases : Z;
  st_rate_increases : Z;
  st_frame_rate_downshifts : Z;
  st_frame_rate_upshifts : Z;
  st_dirty_budget_blocked : Z;
  st_dirty_budget_blocked_full_refresh : Z;
}.

#[export] Instance wd_stats_eta : Eta wd_stats := fun s =>
  mk_wd_stats
    (st_dirty_tiles s) (st_udp_tiles_sent s) (st_udp_fresh_tiles_sent s)
    (st_udp_fresh_bytes_sent s) (st_udp_send_pressure_drops s) (st_tile_choice_chosen_wire_sum s)
    (st_tile_choice_covered_base_tiles s) (st_stream_mode_frame_samples s)
    (st_stream_mode_changed_frame_samples s) (st_stream_mode_dirty_coverage_per_mille_sum s)
    (st_stream_mode_dirty_coverage_per_mille_peak s) (st_stream_mode_budget_pressure_frames s)
    (st_stream_mode_full_refresh_samples s) (st_video_frames_tx s) (st_client_stats_rx s)
    (st_client_udp_packets_rx s) (st_client_tiles_completed s) (st_client_completed_packets s)
    (st_client_partial_tiles_timed_out s) (st_client_retx_requests_tx s)
    (st_client_render_visible_reports s) (st_client_render_hidden_reports s)
    (st_client_window_focused_reports s) (st_client_window_unfocused_reports s)
    (st_client_render_frames s) (st_client_video_frames_rx s) (st_client_video_frames_decoded s)
    (st_client_video_frames_presented s) (st_client_video_decode_failed s)
    (st_client_video_publish_failed s) (st_client_video_need_keyframe_drops s)
    (st_client_video_decode_samples s) (st_client_video_decode_sum_ns s)
    (st_client_video_data_frames_rx s) (st_client_video_last_frame_id_presented s)
    (st_client_audio_video_sync_holds s) (st_client_video_decode_queue_drops s)
    (st_client_video_decode_queue_depth s) (st_client_video_decode_queue_depth_max s)
    (st_client_video_decode_queue_capacity s) (st_client_audio_video_sync_hold_current_ms s)
    (st_client_audio_video_startup_timeouts s) (st_client_audio_video_startup_hold_ms s)
    (st_client_audio_playback_state s) (st_client_video_queue_overflow_drops s)
    (st_client_video_queue_depth s) (st_client_video_queue_depth_max s)
    (st_client_tile_content_epoch_presented s) (st_rate_decreases s) (st_rate_increases s)
    (st_frame_rate_downshifts s) (st_frame_rate_upshifts s) (st_dirty_budget_blocked s)
    (st_dirty_budget_blocked_full_refresh s).

Definition zero_stats : wd_stats :=
  mk_wd_stats 
    0 0 0 0 0 0 0 0 0 0 0 0 0 0 0 0 0 0 0 0 0 0 0 0 0 0 0 0 0 0 0 0 0 0 0 0 0 0 0 0 0 0 0 0 0 0 0
    0 0 0 0 0 0 0.

(** ** Rates *)

Definition wd_stream_coverage_per_mille (tiles total_tiles : Z) : Z :=
  if total_tiles =? 0 then 0
  else
    let tiles := if tiles >? total_tiles then total_tiles else tiles in
    u64 (tiles * 1000) / total_tiles.

Definition wd_stream_coverage_pct (per_mille : Z) : spec_float :=
  let per_mille := if per_mille >? 1000 then 1000 else per_mille in
  double_div (double_of_Z per_mille) (double_of_Z 10).

Definition wd_stream_byte_burst_cap_for_rate (bytes_per_second : Z) : Z :=
  if bytes_per_second =? 0 then 0
  else
    let cap := bytes_per_second / WD_STREAM_TOKEN_BURST_DIVISOR in
    let max_uncompressed_wire_tile :=
      u64 (u64 (u64 (WD_WIRE_TILE_MAX_WIDTH * WD_WIRE_TILE_MAX_HEIGHT) * WD_BYTES_PER_PIXEL) +
           WD_UDP_TILE_HEADER_MAX_SIZE) in
    let cap := if cap <? max_uncompressed_wire_tile then max_uncompressed_wire_tile else cap in
    if negb (cap =? 0) then cap else bytes_per_second.

Definition wd_stream_clamp_link_rate (bytes_per_second : Z) : Z :=
  let bytes_per_second :=
    if bytes_per_second =? 0 then WD_UDP_RATE_DEFAULT_BYTES_PER_SECOND else bytes_per_second in
  let bytes_per_second :=
    if bytes_per_second <? WD_UDP_RATE_MIN_BYTES_PER_SECOND then WD_UDP_RATE_MIN_BYTES_PER_SECOND
    else bytes_per_second in
  if bytes_per_second >? WD_UDP_RATE_MAX_BYTES_PER_SECOND then WD_UDP_RATE_MAX_BYTES_PER_SECOND
  else bytes_per_second.

Definition wd_stream_link_rate_from_kib (kib_per_second : Z) : Z :=
  if kib_per_second =? 0 then 0
  else
    let bytes_per_second := u64 (kib_per_second * 1024) in
    let bytes_per_second :=
      if negb (bytes_per_second / 1024 =? kib_per_second) then WD_UDP_RATE_MAX_BYTES_PER_SECOND
      else bytes_per_second in
    wd_stream_clamp_link_rate bytes_per_second.

Definition wd_stream_policy_rebuild_bandwidth_plan_locked (policy : wd_stream_policy)
    (mode : wd_bandwidth_mode) : wd_stream_policy :=
  let link_rate := policy.(sp_recent_link_bytes_per_second) in
  let link_rate := if link_rate =? 0 then policy.(sp_safe_link_bytes_per_second) else link_rate in
  let link_rate := if link_rate =? 0 then WD_UDP_RATE_DEFAULT_BYTES_PER_SECOND else link_rate in
  let link_rate := wd_stream_clamp_link_rate link_rate in
  let plan := wd_bandwidth_plan_build link_rate mode policy.(sp_bandwidth_audio_enabled)
                policy.(sp_bandwidth_audio_bitrate) in
  let policy := policy
    <| sp_safe_link_bytes_per_second :=
         if negb (policy.(sp_safe_link_bytes_per_second) =? 0)
         then policy.(sp_safe_link_bytes_per_second) else link_rate |>
    <| sp_recent_link_bytes_per_second := link_rate |>
    <| sp_tile_fresh_bytes_per_second := plan.(bp_fresh_tile_bytes_per_second) |>
    <| sp_tile_repair_bytes_per_second := plan.(bp_repair_bytes_per_second) |>
    <| sp_video_bytes_per_second := plan.(bp_video_bytes_per_second) |>
    <| sp_control_bytes_per_second := plan.(bp_control_bytes_per_second) |>
    <| sp_audio_required_bytes_per_second := plan.(bp_audio_required_bytes_per_second) |>
    <| sp_audio_cap_bytes_per_second := plan.(bp_audio_cap_bytes_per_second) |>
    <| sp_audio_reserved_bytes_per_second := plan.(bp_audio_reserved_bytes_per_second) |>
    <| sp_overhead_bytes_per_second := plan.(bp_overhead_bytes_per_second) |> in
  match mode with
  | WD_BANDWIDTH_MODE_TILES =>
      let tile_rate := wd_bandwidth_plan_media_bytes (Some plan) WD_BANDWIDTH_MODE_TILES in
      let fresh_floor :=
        if plan.(bp_fresh_tile_bytes_per_second) <? WD_UDP_RATE_MIN_BYTES_PER_SECOND
        then plan.(bp_fresh_tile_bytes_per_second) else WD_UDP_RATE_MIN_BYTES_PER_SECOND in
      policy
        <| sp_adaptive_tile_fresh_bytes_per_second := plan.(bp_fresh_tile_bytes_per_second) |>
        <| sp_tile_media_bytes_per_second := tile_rate |>
        <| sp_tile_media_floor_bytes_per_second :=
             u64 (plan.(bp_repair_bytes_per_second) + fresh_floor) |>
        <| sp_tile_media_ceiling_bytes_per_second := tile_rate |>
  | WD_BANDWIDTH_MODE_VIDEO => policy
  end.

(** [wd_frame_pacing_reset(&policy->frame_pacing)] and
    [wd_bandwidth_bucket_reset] on a member. *)
Definition reset_pacing (s : wd_frame_pacing_state) : wd_frame_pacing_state :=
  default s (wd_frame_pacing_reset (Some s)).
Definition reset_bucket (b : wd_bandwidth_bucket) : wd_bandwidth_bucket :=
  default b (wd_bandwidth_bucket_reset (Some b)).

Definition wd_stream_policy_reset_tokens (policy : wd_stream_policy) : wd_stream_policy :=
  policy
    <| sp_frame_pacing := reset_pacing policy.(sp_frame_pacing) |>
    <| sp_fresh_tile_bucket := reset_bucket policy.(sp_fresh_tile_bucket) |>
    <| sp_repair_bucket := reset_bucket policy.(sp_repair_bucket) |>
    <| sp_control_bucket := reset_bucket policy.(sp_control_bucket) |>.

(** ** Sessions *)

(** [memset] to zero; the assignments that repeat the zero are not repeated. *)
Definition wd_stream_policy_set_defaults (policy : wd_stream_policy) : wd_stream_policy :=
  let policy := zero_policy
    <| sp_requested_session_fps := WD_DEFAULT_SESSION_FPS |>
    <| sp_adaptive_capture_fps := WD_DEFAULT_SESSION_FPS |>
    <| sp_stream_mode := WD_STREAM_MODE_TILES |>
    <| sp_video_mode := WD_VIDEO_MODE_AUTO |>
    <| sp_video_min_dirty_percent := WD_VIDEO_MIN_DIRTY_PERCENT_DEFAULT |>
    <| sp_video_enter_seconds := WD_VIDEO_ENTER_SECONDS_DEFAULT |>
    <| sp_video_exit_dirty_percent := WD_VIDEO_EXIT_DIRTY_PERCENT_DEFAULT |>
    <| sp_video_exit_seconds := WD_VIDEO_EXIT_SECONDS_DEFAULT |>
    <| sp_video_client_failure_class := WD_CLIENT_VIDEO_HEALTH_IDLE |>
    <| sp_planned_recovery_source_mode := WD_STREAM_MODE_TILES |>
    <| sp_video_recovery_class := WD_VIDEO_RECOVERY_NONE |>
    <| sp_safe_link_bytes_per_second := WD_UDP_RATE_DEFAULT_BYTES_PER_SECOND |>
    <| sp_recent_link_bytes_per_second := WD_UDP_RATE_DEFAULT_BYTES_PER_SECOND |> in
  let policy := wd_stream_policy_rebuild_bandwidth_plan_locked policy WD_BANDWIDTH_MODE_TILES in
  let policy := policy
    <| sp_link_good_seconds := 0 |>
    <| sp_link_loss_seconds := 0 |>
    <| sp_multipacket_loss_cooldown_seconds := 0 |>
    <| sp_client_render_pressure_seconds := 0 |>
    <| sp_client_render_visible := true |>
    <| sp_client_window_focused := true |> in
  wd_stream_policy_reset_tokens policy.

(** A request or its default, capped. *)
Definition request_or (value default_value maximum : Z) : Z :=
  let v := if negb (value =? 0) then value else default_value in
  if v >? maximum then maximum else v.

(** The assignments of [wd_stream_policy_apply_client_hello], in three parts:
    what the client asks for and the video state ... *)
Definition hello_requests (policy : wd_stream_policy) (hello : wd_client_hello_payload)
    : wd_stream_policy :=
  let fps := wd_frame_rate_normalize_client_request hello.(ch_requested_session_fps) in
  policy
    <| sp_requested_session_fps := fps |>
    <| sp_adaptive_capture_fps := fps |>
    <| sp_video_encode_ewma_ns := 0 |>
    <| sp_video_encode_pacing_samples := 0 |>
    <| sp_stream_mode := WD_STREAM_MODE_TILES |>
    <| sp_video_mode :=
         if hello.(ch_video_mode) <=? WD_VIDEO_MODE_FORCE then hello.(ch_video_mode)
         else WD_VIDEO_MODE_AUTO |>
    <| sp_video_min_dirty_percent :=
         request_or hello.(ch_video_min_dirty_percent) WD_VIDEO_MIN_DIRTY_PERCENT_DEFAULT
           WD_VIDEO_MIN_DIRTY_PERCENT_MAX |>
    <| sp_video_enter_seconds :=
         request_or hello.(ch_video_enter_seconds) WD_VIDEO_ENTER_SECONDS_DEFAULT
           WD_VIDEO_ENTER_SECONDS_MAX |>
    <| sp_video_exit_dirty_percent :=
         request_or hello.(ch_video_exit_dirty_percent) WD_VIDEO_EXIT_DIRTY_PERCENT_DEFAULT
           WD_VIDEO_EXIT_DIRTY_PERCENT_MAX |>
    <| sp_video_exit_seconds :=
         request_or hello.(ch_video_exit_seconds) WD_VIDEO_EXIT_SECONDS_DEFAULT
           WD_VIDEO_EXIT_SECONDS_MAX |>
    <| sp_video_bitrate_kib_per_second := hello.(ch_video_bitrate_kib_per_second) |>
    <| sp_video_candidate_seconds := 0 |>
    <| sp_tile_recovery_seconds := 0 |>
    <| sp_video_client_failure_seconds := 0 |>
    <| sp_video_client_failure_class := WD_CLIENT_VIDEO_HEALTH_IDLE |>
    <| sp_video_frame_rate_good_seconds := 0 |>
    <| sp_video_failure_resume_fps := 0 |>
    <| sp_video_decode_ewma_ns := 0 |>
    <| sp_video_decode_safe_fps := 0 |>
    <| sp_video_feedback_pending := false |>
    <| sp_video_feedback_flags := 0 |>
    <| sp_video_feedback_sequence := 0 |>
    <| sp_video_feedback_last_frame_id_rx := 0 |>
    <| sp_video_feedback_last_frame_id_decoded := 0 |>
    <| sp_video_feedback_last_frame_id_presented := 0 |>
    <| sp_video_feedback_decode_queue_depth := 0 |>
    <| sp_video_feedback_decode_queue_capacity := 0 |>
    <| sp_video_feedback_present_queue_depth := 0 |>
    <| sp_video_feedback_present_queue_capacity := 0 |>
    <| sp_video_feedback_presentation_stall_ms := 0 |>
    <| sp_video_feedback_audio_sync_hold_ms := 0 |>
    <| sp_video_feedback_decoder_phase := WD_VIDEO_DECODER_PHASE_TILES |>
    <| sp_video_recovery_attempts := 0 |>
    <| sp_video_recovery_wait_seconds := 0 |>
    <| sp_video_recovery_keyframe_queued := false |>
    <| sp_video_recovery_keyframe_id := 0 |>.

(** ... the recovery, bootstrap and pressure state ... *)
Definition hello_resets (policy : wd_stream_policy) : wd_stream_policy :=
  policy
    <| sp_tile_refresh_pending := false |>
    <| sp_tile_recovery_refresh_started := false |>
    <| sp_tile_recovery_refresh_sent := false |>
    <| sp_tile_recovery_wait_seconds := 0 |>
    <| sp_tile_recovery_framebuffer_generation := 0 |>
    <| sp_tile_recovery_live_damage_deferred := false |>
    <| sp_planned_recovery_resume_video := false |>
    <| sp_planned_recovery_source_mode := WD_STREAM_MODE_TILES |>
    <| sp_video_retry_cooldown_seconds := 0 |>
    <| sp_video_bootstrap_pending := false |>
    <| sp_video_bootstrap_refresh_started := false |>
    <| sp_video_bootstrap_refresh_sent := false |>
    <| sp_video_bootstrap_wait_seconds := 0 |>
    <| sp_video_bootstrap_content_epoch := 0 |>
    <| sp_tile_recovery_content_epoch := 0 |>
    <| sp_video_recovery_class := WD_VIDEO_RECOVERY_NONE |>
    <| sp_frame_rate_good_seconds := 0 |>
    <| sp_link_good_seconds := 0 |>
    <| sp_link_loss_seconds := 0 |>
    <| sp_multipacket_loss_cooldown_seconds := 0 |>
    <| sp_client_render_pressure_seconds := 0 |>
    <| sp_client_render_visible := true |>
    <| sp_client_window_focused := true |>.

(** ... and the link rates, capped by the client's request. *)
Definition hello_link_rates (policy : wd_stream_policy) (hello : wd_client_hello_payload)
    : wd_stream_policy :=
  let policy :=
    if policy.(sp_safe_link_bytes_per_second) =? 0
    then policy <| sp_safe_link_bytes_per_second := WD_UDP_RATE_DEFAULT_BYTES_PER_SECOND |>
    else policy in
  let policy :=
    if policy.(sp_recent_link_bytes_per_second) =? 0
    then policy <| sp_recent_link_bytes_per_second := policy.(sp_safe_link_bytes_per_second) |>
    else policy in
  let requested_link_cap := wd_stream_link_rate_from_kib hello.(ch_link_cap_kib_per_second) in
  if negb (requested_link_cap =? 0) then
      let policy :=
        if policy.(sp_safe_link_bytes_per_second) >? requested_link_cap
        then policy <| sp_safe_link_bytes_per_second := requested_link_cap |> else policy in
      if policy.(sp_recent_link_bytes_per_second) >? requested_link_cap
      then policy <| sp_recent_link_bytes_per_second := requested_link_cap |> else policy
    else policy.

Definition wd_stream_policy_apply_client_hello (policy : wd_stream_policy)
    (hello : wd_client_hello_payload) : wd_stream_policy :=
  let policy := hello_link_rates (hello_resets (hello_requests policy hello)) hello in
  let policy := wd_stream_policy_rebuild_bandwidth_plan_locked policy WD_BANDWIDTH_MODE_TILES in
  wd_stream_policy_reset_tokens (policy <| sp_multipacket_loss_cooldown_seconds := 0 |>).

(** The bootstrap state of a new session. *)
Definition session_bootstrap (policy : wd_stream_policy) (video_bootstrap_required : bool)
    (bootstrap_content_epoch : Z) : wd_stream_policy :=
  policy
    <| sp_tile_refresh_pending := true |>
    <| sp_video_bootstrap_pending := video_bootstrap_required |>
    <| sp_video_bootstrap_refresh_started := false |>
    <| sp_video_bootstrap_refresh_sent := false |>
    <| sp_video_bootstrap_wait_seconds := 0 |>
    <| sp_video_bootstrap_content_epoch :=
         if video_bootstrap_required then bootstrap_content_epoch else 0 |>
    <| sp_tile_recovery_content_epoch := 0 |>
    <| sp_tile_recovery_framebuffer_generation := 0 |>
    <| sp_tile_recovery_live_damage_deferred := false |>
    <| sp_planned_recovery_resume_video := false |>
    <| sp_planned_recovery_source_mode := WD_STREAM_MODE_TILES |>
    <| sp_video_recovery_class := WD_VIDEO_RECOVERY_NONE |>.

Definition wd_stream_policy_begin_session (policy : wd_stream_policy)
    (hello : wd_client_hello_payload) (bootstrap_content_epoch : Z) : wd_stream_policy :=
  if bootstrap_content_epoch =? 0 then policy
  else
    session_bootstrap (wd_stream_policy_apply_client_hello policy hello)
      (wd_video_session_bootstrap_required hello.(ch_video_mode) hello.(ch_capabilities))
      bootstrap_content_epoch.

Definition wd_stream_policy_set_link_rate (policy : wd_stream_policy) (bytes_per_second : Z)
    (audio_enabled : bool) (audio_bitrate_bits_per_second : Z) : wd_stream_policy :=
  let rate := wd_stream_clamp_link_rate bytes_per_second in
  let policy := policy
    <| sp_safe_link_bytes_per_second := rate |>
    <| sp_recent_link_bytes_per_second := rate |>
    <| sp_bandwidth_audio_enabled := audio_enabled |>
    <| sp_bandwidth_audio_bitrate := if audio_enabled then audio_bitrate_bits_per_second else 0 |>
    <| sp_link_good_seconds := 0 |>
    <| sp_link_loss_seconds := 0 |> in
  let policy := wd_stream_policy_rebuild_bandwidth_plan_locked policy WD_BANDWIDTH_MODE_TILES in
  wd_stream_policy_reset_tokens policy.

(** ** Modes *)

Definition wd_stream_mode_name (mode : wd_stream_mode) : string :=
  match mode with
  | WD_STREAM_MODE_TILES => "tiles"
  | WD_STREAM_MODE_VIDEO_CANDIDATE => "video-candidate"
  | WD_STREAM_MODE_VIDEO_READY => "video-ready"
  | WD_STREAM_MODE_VIDEO_ACTIVE => "video-active"
  | WD_STREAM_MODE_VIDEO_RECOVERING => "video-recovering"
  | WD_STREAM_MODE_TILE_RECOVERY => "tile-recovery"
  end.

Definition wd_stream_mode_uses_video_frames (mode : wd_stream_mode) : bool :=
  match mode with
  | WD_STREAM_MODE_VIDEO_READY | WD_STREAM_MODE_VIDEO_ACTIVE | WD_STREAM_MODE_VIDEO_RECOVERING => true
  | _ => false
  end.

Definition wd_stream_mode_video_owns_display (mode : wd_stream_mode) : bool :=
  match mode with
  | WD_STREAM_MODE_VIDEO_ACTIVE | WD_STREAM_MODE_VIDEO_RECOVERING => true
  | _ => false
  end.

Definition wd_stream_mode_owner_name (mode : wd_stream_mode) : string :=
  if wd_stream_mode_video_owns_display mode then "video" else "tiles".

Definition wd_stream_policy_restore_requested_session_fps_locked (policy : wd_stream_policy)
    : wd_stream_policy :=
  let policy :=
    if policy.(sp_requested_session_fps) =? 0
    then policy <| sp_requested_session_fps := WD_DEFAULT_SESSION_FPS |> else policy in
  let old_fps :=
    if negb (policy.(sp_adaptive_capture_fps) =? 0) then policy.(sp_adaptive_capture_fps)
    else policy.(sp_requested_session_fps) in
  if old_fps =? policy.(sp_requested_session_fps) then
    policy
      <| sp_adaptive_capture_fps := policy.(sp_requested_session_fps) |>
      <| sp_frame_rate_good_seconds := 0 |>
  else
    policy
      <| sp_adaptive_capture_fps := policy.(sp_requested_session_fps) |>
      <| sp_frame_rate_good_seconds := 0 |>
      <| sp_client_render_pressure_seconds := 0 |>
      <| sp_frame_pacing := reset_pacing policy.(sp_frame_pacing) |>.

Definition wd_stream_policy_effective_fps_locked (policy : wd_stream_policy) : Z :=
  let fps := policy.(sp_adaptive_capture_fps) in
  let fps := if fps =? 0 then policy.(sp_requested_session_fps) else fps in
  let fps := if fps =? 0 then WD_DEFAULT_SESSION_FPS else fps in
  let fps := if fps <? WD_STREAM_FPS_MIN then WD_STREAM_FPS_MIN else fps in
  if fps >? WD_MAX_SESSION_FPS then WD_MAX_SESSION_FPS else fps.

Definition bandwidth_mode_of (mode : wd_stream_mode) : wd_bandwidth_mode :=
  if wd_stream_mode_uses_video_frames mode then WD_BANDWIDTH_MODE_VIDEO else WD_BANDWIDTH_MODE_TILES.

(** The steps of [wd_stream_policy_set_mode_locked], in order: the bandwidth
    plan of the new mode ... *)
Definition set_mode_bandwidth (policy : wd_stream_policy) (old_mode mode : wd_stream_mode)
    : wd_stream_policy :=
  let changed := bool_decide (bandwidth_mode_of old_mode <> bandwidth_mode_of mode) in
  let policy := policy <| sp_stream_mode := mode |> in
  let policy :=
    if changed then
      policy <| sp_video_encode_ewma_ns := 0 |> <| sp_video_encode_pacing_samples := 0 |>
    else policy in
  let policy :=
    wd_stream_policy_rebuild_bandwidth_plan_locked policy (bandwidth_mode_of mode) in
  if changed then
    wd_stream_policy_reset_tokens
      (policy
         <| sp_link_good_seconds := 0 |>
         <| sp_link_loss_seconds := 0 |>
         <| sp_frame_rate_good_seconds := 0 |>
         <| sp_client_render_pressure_seconds := 0 |>)
  else policy.

(** ... the state of a tile recovery ... *)
Definition set_mode_recovery (policy : wd_stream_policy) (old_mode mode : wd_stream_mode)
    (recovery_class : wd_video_recovery_class) : wd_stream_policy :=
  if bool_decide (mode = WD_STREAM_MODE_TILE_RECOVERY) then
    let policy := policy
      <| sp_tile_refresh_pending := true |>
      <| sp_tile_recovery_refresh_started := false |>
      <| sp_tile_recovery_refresh_sent := false |>
      <| sp_tile_recovery_wait_seconds := 0 |>
      <| sp_tile_recovery_framebuffer_generation := 0 |>
      <| sp_tile_recovery_live_damage_deferred := false |>
      <| sp_video_client_failure_seconds := 0 |>
      <| sp_tile_recovery_content_epoch := 0 |>
      <| sp_video_recovery_class := recovery_class |> in
    let policy :=
      if bool_decide (recovery_class = WD_VIDEO_RECOVERY_FAILURE) &&
         wd_stream_mode_video_owns_display old_mode
      then policy <| sp_video_failure_resume_fps := wd_stream_policy_effective_fps_locked policy |>
      else policy in
    if bool_decide (recovery_class <> WD_VIDEO_RECOVERY_PLANNED)
    then policy
      <| sp_planned_recovery_resume_video := false |>
      <| sp_planned_recovery_source_mode := WD_STREAM_MODE_TILES |>
    else policy
  else
    policy
      <| sp_tile_recovery_refresh_started := false |>
      <| sp_tile_recovery_refresh_sent := false |>
      <| sp_tile_recovery_wait_seconds := 0 |>
      <| sp_tile_recovery_framebuffer_generation := 0 |>
      <| sp_tile_recovery_live_damage_deferred := false |>.

(** ... and the cadence on entry to video. *)
Definition set_mode_cadence (policy : wd_stream_policy) (old_mode mode : wd_stream_mode)
    : wd_stream_policy :=
  if wd_stream_mode_uses_video_frames mode && negb (wd_stream_mode_uses_video_frames old_mode) then
    let policy := wd_stream_policy_restore_requested_session_fps_locked
                    (policy <| sp_video_recovery_class := WD_VIDEO_RECOVERY_NONE |>) in
    if negb (policy.(sp_video_failure_resume_fps) =? 0) then
      let resume_fps := wd_video_failure_resume_fps policy.(sp_requested_session_fps)
                          policy.(sp_video_failure_resume_fps) in
      let policy :=
        if negb (resume_fps =? policy.(sp_adaptive_capture_fps)) then
          policy
            <| sp_adaptive_capture_fps := resume_fps |>
            <| sp_frame_pacing := reset_pacing policy.(sp_frame_pacing) |>
        else policy in
      policy
        <| sp_video_failure_resume_fps := 0 |>
        <| sp_video_frame_rate_good_seconds := 0 |>
    else policy
  else policy.

Definition wd_stream_policy_set_mode_locked (policy : wd_stream_policy) (mode : wd_stream_mode)
    (recovery_class : wd_video_recovery_class) : wd_stream_policy :=
  let old_mode := policy.(sp_stream_mode) in
  if bool_decide (old_mode = mode) then policy
  else
    let policy := set_mode_bandwidth policy old_mode mode in
    let policy := set_mode_recovery policy old_mode mode recovery_class in
    let policy :=
      if wd_stream_mode_video_owns_display old_mode && negb (wd_stream_mode_video_owns_display mode)
      then policy <| sp_tile_refresh_pending := true |> else policy in
    set_mode_cadence policy old_mode mode.

(** ** Automatic mode selection *)

(** Waiting for the client to present the bootstrap refresh. *)
Definition update_bootstrap (policy : wd_stream_policy) (stats : wd_stats) : wd_stream_policy :=
  let policy := policy <| sp_video_candidate_seconds := 0 |> in
  if policy.(sp_video_bootstrap_refresh_sent) &&
     negb (policy.(sp_video_bootstrap_content_epoch) =? 0) &&
     (stats.(st_client_tile_content_epoch_presented) >=? policy.(sp_video_bootstrap_content_epoch))
  then
    policy
      <| sp_video_bootstrap_pending := false |>
      <| sp_video_bootstrap_refresh_started := false |>
      <| sp_video_bootstrap_refresh_sent := false |>
      <| sp_video_bootstrap_wait_seconds := 0 |>
  else if policy.(sp_video_bootstrap_refresh_sent) &&
          (policy.(sp_video_bootstrap_wait_seconds) <? UINT32_MAX)
  then policy
    <| sp_video_bootstrap_wait_seconds := u32 (policy.(sp_video_bootstrap_wait_seconds) + 1) |>
  else policy.

Definition auto_entry_metrics (policy : wd_stream_policy) (stats : wd_stats) (total_tiles : Z)
    : wd_video_auto_entry_metrics :=
  let min_dirty_pct :=
    if negb (policy.(sp_video_min_dirty_percent) =? 0) then policy.(sp_video_min_dirty_percent)
    else WD_VIDEO_MIN_DIRTY_PERCENT_DEFAULT in
  let fallback_wire_per_base :=
    u32 (WD_BASE_TILE_WIDTH * WD_BASE_TILE_HEIGHT * WD_BYTES_PER_PIXEL +
         WD_UDP_TILE_HEADER_MAX_SIZE) in
  let estimated_tile_demand :=
    wd_tile_estimate_demand_bytes_per_second stats.(st_stream_mode_frame_samples)
      stats.(st_stream_mode_dirty_coverage_per_mille_sum) stats.(st_tile_choice_chosen_wire_sum)
      stats.(st_tile_choice_covered_base_tiles) total_tiles policy.(sp_requested_session_fps)
      fallback_wire_per_base in
  mk_wd_video_auto_entry_metrics
    stats.(st_stream_mode_frame_samples)
    stats.(st_stream_mode_changed_frame_samples)
    stats.(st_stream_mode_dirty_coverage_per_mille_sum)
    stats.(st_stream_mode_dirty_coverage_per_mille_peak)
    stats.(st_udp_fresh_bytes_sent)
    estimated_tile_demand
    policy.(sp_adaptive_tile_fresh_bytes_per_second)
    stats.(st_udp_send_pressure_drops)
    policy.(sp_requested_session_fps)
    policy.(sp_adaptive_capture_fps)
    min_dirty_pct
    (negb (stats.(st_stream_mode_full_refresh_samples) =? 0)).

Definition low_dirty (policy : wd_stream_policy) (stats : wd_stats) : bool :=
  let sample_count :=
    if negb (stats.(st_stream_mode_frame_samples) =? 0) then stats.(st_stream_mode_frame_samples)
    else 1 in
  let dirty_avg_pct :=
    wd_stream_coverage_pct (stats.(st_stream_mode_dirty_coverage_per_mille_sum) / sample_count) in
  let exit_dirty_pct :=
    if negb (policy.(sp_video_exit_dirty_percent) =? 0) then policy.(sp_video_exit_dirty_percent)
    else WD_VIDEO_EXIT_DIRTY_PERCENT_DEFAULT in
  negb (stats.(st_stream_mode_frame_samples) =? 0) &&
  SFleb dirty_avg_pct (double_of_Z exit_dirty_pct).

(** Video is off or not available. *)
Definition leave_unavailable_video (policy : wd_stream_policy) : wd_stream_policy :=
  let policy :=
    policy <| sp_video_candidate_seconds := 0 |> <| sp_tile_recovery_seconds := 0 |> in
  if bool_decide (policy.(sp_stream_mode) <> WD_STREAM_MODE_TILES) then
    let owns := wd_stream_mode_video_owns_display policy.(sp_stream_mode) in
    wd_stream_policy_set_mode_locked policy
      (if owns then WD_STREAM_MODE_TILE_RECOVERY else WD_STREAM_MODE_TILES)
      (if owns then WD_VIDEO_RECOVERY_FAILURE else WD_VIDEO_RECOVERY_NONE)
  else policy.

(** Video would be better. *)
Definition approach_video (policy : wd_stream_policy) (video_forced : bool) : wd_stream_policy :=
  let policy := policy <| sp_tile_recovery_seconds := 0 |> in
  if bool_decide (policy.(sp_stream_mode) = WD_STREAM_MODE_VIDEO_ACTIVE) ||
     bool_decide (policy.(sp_stream_mode) = WD_STREAM_MODE_VIDEO_READY)
  then policy
  else
    let policy :=
      if policy.(sp_video_candidate_seconds) <? UINT32_MAX
      then policy <| sp_video_candidate_seconds := u32 (policy.(sp_video_candidate_seconds) + 1) |>
      else policy in
    let enter_seconds :=
      if negb (policy.(sp_video_enter_seconds) =? 0) then policy.(sp_video_enter_seconds)
      else WD_VIDEO_ENTER_SECONDS_DEFAULT in
    if video_forced || (policy.(sp_video_candidate_seconds) >=? enter_seconds)
    then wd_stream_policy_set_mode_locked policy WD_STREAM_MODE_VIDEO_READY WD_VIDEO_RECOVERY_NONE
    else wd_stream_policy_set_mode_locked policy WD_STREAM_MODE_VIDEO_CANDIDATE
           WD_VIDEO_RECOVERY_NONE.

(** Tiles would be better. *)
Definition retreat_from_video (policy : wd_stream_policy) (stats : wd_stats) (video_forced : bool)
    : wd_stream_policy :=
  let exit_seconds :=
    if negb (policy.(sp_video_exit_seconds) =? 0) then policy.(sp_video_exit_seconds)
    else WD_VIDEO_EXIT_SECONDS_DEFAULT in
  if bool_decide (policy.(sp_stream_mode) = WD_STREAM_MODE_TILES)
  then policy <| sp_video_candidate_seconds := 0 |> <| sp_tile_recovery_seconds := 0 |>
  else
    let low := low_dirty policy stats in
    let policy := policy <| sp_video_candidate_seconds := 0 |> in
    if video_forced then policy <| sp_tile_recovery_seconds := 0 |>
    else if negb low then policy <| sp_tile_recovery_seconds := 0 |>
    else
      let policy :=
        if policy.(sp_tile_recovery_seconds) <? UINT32_MAX
        then policy <| sp_tile_recovery_seconds := u32 (policy.(sp_tile_recovery_seconds) + 1) |>
        else policy in
      if policy.(sp_tile_recovery_seconds) >=? exit_seconds
      then
        (wd_stream_policy_set_mode_locked policy WD_STREAM_MODE_TILE_RECOVERY
           WD_VIDEO_RECOVERY_PLANNED) <| sp_tile_recovery_seconds := 0 |>
      else policy.

(** The choice once no recovery and no bootstrap is under way. *)
Definition select_mode (policy : wd_stream_policy) (stats : wd_stats) (total_tiles : Z)
    (cooldown_active video_negotiated video_channel_connected video_encoder_available : bool)
    : wd_stream_policy :=
  let auto_entry := wd_video_auto_entry_evaluate (Some (auto_entry_metrics policy stats total_tiles)) in
  let video_ready := wd_video_control_allows_entry policy.(sp_video_mode) video_negotiated
                       video_channel_connected video_encoder_available in
  let video_forced := policy.(sp_video_mode) =? WD_VIDEO_MODE_FORCE in
  let video_disabled := policy.(sp_video_mode) =? WD_VIDEO_MODE_OFF in
  let planned_resume_action :=
    wd_planned_video_resume_decide policy.(sp_planned_recovery_resume_video)
      (bool_decide (policy.(sp_stream_mode) = WD_STREAM_MODE_TILE_RECOVERY))
      policy.(sp_video_bootstrap_pending) policy.(sp_video_mode) video_negotiated
      video_channel_connected video_encoder_available in
  if bool_decide (planned_resume_action = WD_PLANNED_VIDEO_RESUME_ENTER) &&
     bool_decide (policy.(sp_stream_mode) = WD_STREAM_MODE_TILES)
  then
    wd_stream_policy_set_mode_locked
      (policy
         <| sp_planned_recovery_resume_video := false |>
         <| sp_planned_recovery_source_mode := WD_STREAM_MODE_TILES |>
         <| sp_video_candidate_seconds := 0 |>
         <| sp_tile_recovery_seconds := 0 |>
         <| sp_tile_refresh_pending := false |>
         <| sp_tile_recovery_live_damage_deferred := false |>)
      WD_STREAM_MODE_VIDEO_READY WD_VIDEO_RECOVERY_NONE
  else
    let policy :=
      if bool_decide (planned_resume_action = WD_PLANNED_VIDEO_RESUME_CLEAR)
      then policy
        <| sp_planned_recovery_resume_video := false |>
        <| sp_planned_recovery_source_mode := WD_STREAM_MODE_TILES |>
      else policy in
    let video_entry_candidate :=
      negb video_disabled &&
      wd_video_entry_allowed policy.(sp_video_bootstrap_pending) false
        (if cooldown_active then 1 else 0) video_forced policy.(sp_video_recovery_class) &&
      (video_forced || auto_entry.(er_candidate)) in
    if video_disabled || negb video_ready then leave_unavailable_video policy
    else if video_entry_candidate then approach_video policy video_forced
    else retreat_from_video policy stats video_forced.

Definition wd_stream_policy_update_mode_locked (policy : wd_stream_policy) (stats : wd_stats)
    (total_tiles : Z) (video_negotiated video_channel_connected video_encoder_available : bool)
    : wd_stream_policy :=
  if total_tiles =? 0 then policy
  else if bool_decide (policy.(sp_stream_mode) = WD_STREAM_MODE_TILE_RECOVERY)
  then policy <| sp_video_candidate_seconds := 0 |>
  else if wd_video_auto_mode_wait_for_recovery
            (bool_decide (policy.(sp_stream_mode) = WD_STREAM_MODE_VIDEO_RECOVERING))
            policy.(sp_video_mode) video_negotiated video_channel_connected video_encoder_available
  then policy <| sp_video_candidate_seconds := 0 |> <| sp_tile_recovery_seconds := 0 |>
  else if policy.(sp_video_bootstrap_pending) then update_bootstrap policy stats
  else
    let cooldown_active := negb (policy.(sp_video_retry_cooldown_seconds) =? 0) in
    let policy :=
      if cooldown_active
      then policy
        <| sp_video_retry_cooldown_seconds := u32 (policy.(sp_video_retry_cooldown_seconds) - 1) |>
      else policy in
    select_mode policy stats total_tiles cooldown_active video_negotiated video_channel_connected
      video_encoder_available.

(** ** Adaptation of the rates *)

Definition wd_stream_policy_tile_media_rate_floor (policy : wd_stream_policy) : Z :=
  let floor := policy.(sp_tile_media_floor_bytes_per_second) in
  wd_stream_clamp_link_rate (if floor =? 0 then WD_UDP_RATE_MIN_BYTES_PER_SECOND else floor).

Definition wd_stream_policy_tile_media_rate_ceiling (policy : wd_stream_policy) : Z :=
  let ceiling := policy.(sp_tile_media_ceiling_bytes_per_second) in
  wd_stream_clamp_link_rate (if ceiling =? 0 then WD_UDP_RATE_MAX_BYTES_PER_SECOND else ceiling).

Definition wd_stream_policy_set_tile_media_rate_locked (policy : wd_stream_policy) (rate : Z)
    : wd_stream_policy :=
  let floor := wd_stream_policy_tile_media_rate_floor policy in
  let ceiling := wd_stream_policy_tile_media_rate_ceiling policy in
  let rate := wd_stream_clamp_link_rate rate in
  let rate := if rate <? floor then floor else rate in
  let rate := if rate >? ceiling then ceiling else rate in
  if rate =? policy.(sp_tile_media_bytes_per_second) then policy
  else
    policy
      <| sp_tile_media_bytes_per_second := rate |>
      <| sp_adaptive_tile_fresh_bytes_per_second :=
           if rate >? policy.(sp_tile_repair_bytes_per_second)
           then u64 (rate - policy.(sp_tile_repair_bytes_per_second)) else 0 |>
      <| sp_fresh_tile_bucket := reset_bucket policy.(sp_fresh_tile_bucket) |>.

(** The pacing cap of video_encode_pacing.h. *)
Definition WD_VIDEO_ENCODE_PACING_WARMUP_SAMPLES : Z := 4.
Definition WD_VIDEO_ENCODE_PACING_HEADROOM_PERCENT : Z := 85.

Definition wd_video_encode_pacing_ewma (previous_ns sample_ns : Z) : Z :=
  if sample_ns =? 0 then previous_ns
  else if previous_ns =? 0 then sample_ns
  else if sample_ns >=? previous_ns then u64 (previous_ns + u64 (sample_ns - previous_ns) / 4)
  else u64 (previous_ns - u64 (previous_ns - sample_ns) / 4).

Definition wd_video_encode_pacing_cap (requested_fps avg_ns samples : Z) : Z :=
  if (requested_fps =? 0) || (avg_ns =? 0) || (samples <? WD_VIDEO_ENCODE_PACING_WARMUP_SAMPLES)
  then requested_fps
  else
    let safe_fps := u64 (1000000000 * WD_VIDEO_ENCODE_PACING_HEADROOM_PERCENT) / 100 / avg_ns in
    if safe_fps >=? requested_fps then requested_fps
    else if safe_fps =? 0 then 1 else u16 safe_fps.

Definition wd_stream_policy_capture_pacing_fps_locked (policy : wd_stream_policy)
    (output_refresh_hz : Z) : Z :=
  let fps := wd_stream_policy_effective_fps_locked policy in
  let fps :=
    if bool_decide (policy.(sp_stream_mode) = WD_STREAM_MODE_VIDEO_ACTIVE)
    then wd_video_encode_pacing_cap fps policy.(sp_video_encode_ewma_ns)
           policy.(sp_video_encode_pacing_samples)
    else fps in
  let fps :=
    if negb policy.(sp_client_render_visible) && (fps >? WD_STREAM_HIDDEN_CLIENT_FPS)
    then WD_STREAM_HIDDEN_CLIENT_FPS else fps in
  let fps := if fps <? WD_STREAM_FPS_MIN then WD_STREAM_FPS_MIN else fps in
  wd_cap_periodic_capture_fps fps output_refresh_hz.

Definition wd_stream_client_packet_loss_sample (stats : wd_stats) : bool :=
  if (stats.(st_client_stats_rx) =? 0) ||
     (stats.(st_client_udp_packets_rx) <? WD_STREAM_CLIENT_COMPLETION_MIN_PACKETS)
  then false
  else u64 (stats.(st_client_completed_packets) * 100) <?
       u64 (stats.(st_client_udp_packets_rx) * WD_STREAM_CLIENT_COMPLETION_LOSS_PERCENT).

Definition wd_stream_client_render_pressure_sample (policy : wd_stream_policy) (stats : wd_stats)
    : bool :=
  if stats.(st_client_stats_rx) =? 0 then false
  else if negb (stats.(st_client_render_hidden_reports) =? 0) ||
          (stats.(st_client_render_visible_reports) =? 0)
  then false
  else
    let effective_fps := wd_stream_policy_effective_fps_locked policy in
    if (effective_fps =? 0) || (stats.(st_stream_mode_changed_frame_samples) =? 0) then false
    else
      let report_capacity := u64 (effective_fps * stats.(st_client_stats_rx)) in
      let render_demand :=
        if stats.(st_stream_mode_changed_frame_samples) <? report_capacity
        then stats.(st_stream_mode_changed_frame_samples) else report_capacity in
      negb (render_demand =? 0) &&
      (u64 (stats.(st_client_render_frames) * 100) <?
         u64 (render_demand * WD_STREAM_CLIENT_RENDER_FPS_PRESSURE_PERCENT)).

Definition wd_stream_client_reporting_tile_loss_locked (policy : wd_stream_policy)
    (stats : wd_stats) : bool :=
  if negb (stats.(st_client_partial_tiles_timed_out) =? 0) ||
     negb (stats.(st_client_retx_requests_tx) =? 0) || wd_stream_client_packet_loss_sample stats
  then true
  else negb (policy.(sp_multipacket_loss_cooldown_seconds) =? 0).

(** The activity that lets the rates rise. *)
Definition useful_activity (stats : wd_stats) : bool :=
  negb (stats.(st_udp_tiles_sent) =? 0) || negb (stats.(st_dirty_tiles) =? 0) ||
  negb (stats.(st_client_tiles_completed) =? 0).

Definition lower_frame_rate (policy : wd_stream_policy) (stats : wd_stats) (old_fps : Z)
    (strong_pressure : bool) : wd_stream_policy * wd_stats :=
  let policy := policy <| sp_frame_rate_good_seconds := 0 |> in
  let decrease_percent :=
    if strong_pressure then WD_STREAM_FPS_PRESSURE_DECREASE_PERCENT
    else WD_STREAM_FPS_DECREASE_PERCENT in
  let new_fps := u32 (old_fps * decrease_percent) / 100 in
  let new_fps :=
    if (new_fps >=? old_fps) && (old_fps >? WD_STREAM_FPS_MIN) then u32 (old_fps - 1) else new_fps in
  let new_fps := if new_fps <? WD_STREAM_FPS_MIN then WD_STREAM_FPS_MIN else new_fps in
  if negb (u16 new_fps =? old_fps) then
    (policy
       <| sp_adaptive_capture_fps := u16 new_fps |>
       <| sp_frame_pacing := reset_pacing policy.(sp_frame_pacing) |>,
     stats <| st_frame_rate_downshifts := u64 (stats.(st_frame_rate_downshifts) + 1) |>)
  else (policy, stats).

Definition raise_frame_rate (policy : wd_stream_policy) (stats : wd_stats) (old_fps : Z)
    : wd_stream_policy * wd_stats :=
  let policy :=
    policy <| sp_frame_rate_good_seconds := u32 (policy.(sp_frame_rate_good_seconds) + 1) |> in
  if policy.(sp_frame_rate_good_seconds) <? WD_STREAM_FPS_GOOD_SECONDS_TO_INCREASE
  then (policy, stats)
  else
    let policy := policy <| sp_frame_rate_good_seconds := 0 |> in
    let percent_fps := u32 (old_fps * WD_STREAM_FPS_INCREASE_PERCENT) / 100 in
    let new_fps := if percent_fps >? old_fps then percent_fps else u32 (old_fps + 1) in
    let new_fps :=
      if new_fps >? policy.(sp_requested_session_fps) then policy.(sp_requested_session_fps)
      else new_fps in
    if negb (u16 new_fps =? old_fps) then
      (policy
         <| sp_adaptive_capture_fps := u16 new_fps |>
         <| sp_frame_pacing := reset_pacing policy.(sp_frame_pacing) |>,
       stats <| st_frame_rate_upshifts := u64 (stats.(st_frame_rate_upshifts) + 1) |>)
    else (policy, stats).

Definition wd_stream_policy_update_frame_rate_locked (policy : wd_stream_policy) (stats : wd_stats)
    (frame_pressure strong_pressure : bool) : wd_stream_policy * wd_stats :=
  let policy :=
    if policy.(sp_requested_session_fps) =? 0
    then policy <| sp_requested_session_fps := WD_DEFAULT_SESSION_FPS |> else policy in
  let policy :=
    if policy.(sp_adaptive_capture_fps) =? 0
    then policy <| sp_adaptive_capture_fps := policy.(sp_requested_session_fps) |> else policy in
  let old_fps := wd_stream_policy_effective_fps_locked policy in
  if frame_pressure then lower_frame_rate policy stats old_fps strong_pressure
  else if negb (useful_activity stats) then (policy <| sp_frame_rate_good_seconds := 0 |>, stats)
  else if old_fps >=? policy.(sp_requested_session_fps) then
    (policy
       <| sp_adaptive_capture_fps := policy.(sp_requested_session_fps) |>
       <| sp_frame_rate_good_seconds := 0 |>, stats)
  else raise_frame_rate policy stats old_fps.

Definition wd_stream_policy_update_tile_media_rate_locked (policy : wd_stream_policy)
    (stats : wd_stats) (rate_pressure : bool) : wd_stream_policy * wd_stats :=
  let old_rate := wd_stream_clamp_link_rate policy.(sp_tile_media_bytes_per_second) in
  if rate_pressure then
    let policy := policy <| sp_link_good_seconds := 0 |> in
    let policy :=
      if policy.(sp_link_loss_seconds) <? UINT32_MAX
      then policy <| sp_link_loss_seconds := u32 (policy.(sp_link_loss_seconds) + 1) |>
      else policy in
    if policy.(sp_link_loss_seconds) <? WD_STREAM_LINK_LOSS_SECONDS_TO_DECREASE then (policy, stats)
    else
      let policy := policy <| sp_link_loss_seconds := 0 |> in
      let new_rate := u64 (old_rate * WD_STREAM_RATE_PRESSURE_DECREASE_PERCENT) / 100 in
      let policy := wd_stream_policy_set_tile_media_rate_locked policy new_rate in
      (policy,
       if negb (policy.(sp_tile_media_bytes_per_second) =? old_rate)
       then stats <| st_rate_decreases := u64 (stats.(st_rate_decreases) + 1) |> else stats)
  else
    let policy := policy <| sp_link_loss_seconds := 0 |> in
    if negb (useful_activity stats) then (policy <| sp_link_good_seconds := 0 |>, stats)
    else
      let policy :=
        if policy.(sp_link_good_seconds) <? UINT32_MAX
        then policy <| sp_link_good_seconds := u32 (policy.(sp_link_good_seconds) + 1) |>
        else policy in
      if policy.(sp_link_good_seconds) <? WD_STREAM_LINK_GOOD_SECONDS_TO_INCREASE then (policy, stats)
      else
        let policy := policy <| sp_link_good_seconds := 0 |> in
        let percent_rate := u64 (old_rate * WD_STREAM_RATE_INCREASE_PERCENT) / 100 in
        let step_rate := u64 (old_rate + WD_STREAM_RATE_INCREASE_MIN_BYTES) in
        let new_rate := if percent_rate >? step_rate then percent_rate else step_rate in
        let policy := wd_stream_policy_set_tile_media_rate_locked policy new_rate in
        (policy,
         if negb (policy.(sp_tile_media_bytes_per_second) =? old_rate)
         then stats <| st_rate_increases := u64 (stats.(st_rate_increases) + 1) |> else stats).

(** The frame rate after the decoder's capacity is known. *)
Definition adapt_video_frame_rate (policy : wd_stream_policy) (stats : wd_stats)
    (health : wd_client_video_health_class) (current_fps safe_decode_fps : Z)
    : wd_stream_policy * wd_stats :=
  let sustained_present_pressure :=
    wd_video_present_overflow_pressure stats.(st_client_video_queue_overflow_drops)
      stats.(st_client_video_frames_presented) in
  let decode_queue_pressure :=
    wd_video_decode_queue_pressure stats.(st_client_video_decode_queue_depth_max)
      stats.(st_client_video_decode_queue_capacity) in
  let cadence_pressure :=
    wd_video_cadence_window_pressure policy.(sp_client_render_visible)
      policy.(sp_client_window_focused) sustained_present_pressure decode_queue_pressure
      (negb (stats.(st_client_video_decode_queue_drops) =? 0) ||
       bool_decide (health = WD_CLIENT_VIDEO_HEALTH_DECODER_OVERLOADED)) in
  let downshift_target :=
    wd_video_cadence_downshift_target current_fps policy.(sp_requested_session_fps) safe_decode_fps
      cadence_pressure WD_STREAM_FPS_MIN WD_STREAM_VIDEO_FPS_DEADBAND
      WD_STREAM_VIDEO_OVERLOAD_DECREASE_PERCENT in
  if downshift_target <? current_fps then
    (policy
       <| sp_video_frame_rate_good_seconds := 0 |>
       <| sp_adaptive_capture_fps := downshift_target |>
       <| sp_frame_pacing := reset_pacing policy.(sp_frame_pacing) |>,
     stats <| st_frame_rate_downshifts := u64 (stats.(st_frame_rate_downshifts) + 1) |>)
  else if negb (wd_video_cadence_window_can_upshift policy.(sp_client_render_visible)
                  policy.(sp_client_window_focused)) ||
          bool_decide (health <> WD_CLIENT_VIDEO_HEALTH_NORMAL) ||
          (stats.(st_client_video_frames_presented) =? 0) ||
          (current_fps >=? policy.(sp_requested_session_fps))
  then (policy <| sp_video_frame_rate_good_seconds := 0 |>, stats)
  else
    let policy := policy
      <| sp_video_frame_rate_good_seconds := u32 (policy.(sp_video_frame_rate_good_seconds) + 1) |> in
    if policy.(sp_video_frame_rate_good_seconds) <? WD_STREAM_VIDEO_FPS_GOOD_SECONDS_TO_INCREASE
    then (policy, stats)
    else
      let policy := policy <| sp_video_frame_rate_good_seconds := 0 |> in
      let next :=
        wd_video_cadence_upshift_target current_fps policy.(sp_requested_session_fps)
          safe_decode_fps WD_STREAM_VIDEO_FPS_DEADBAND WD_STREAM_VIDEO_FPS_INCREASE_STEP in
      if negb (next =? current_fps) then
        (policy
           <| sp_adaptive_capture_fps := next |>
           <| sp_frame_pacing := reset_pacing policy.(sp_frame_pacing) |>,
         stats <| st_frame_rate_upshifts := u64 (stats.(st_frame_rate_upshifts) + 1) |>)
      else (policy, stats).

Definition wd_stream_policy_update_video_frame_rate_locked (policy : wd_stream_policy)
    (stats : wd_stats) (health : wd_client_video_health_class)
    : option (wd_stream_policy * wd_stats) :=
  let current_fps := wd_stream_policy_effective_fps_locked policy in
  let average_decode_ns :=
    if negb (stats.(st_client_video_decode_samples) =? 0)
    then stats.(st_client_video_decode_sum_ns) / stats.(st_client_video_decode_samples) else 0 in
  let policy :=
    if negb (average_decode_ns =? 0)
    then policy
      <| sp_video_decode_ewma_ns :=
           wd_video_decode_ewma_update policy.(sp_video_decode_ewma_ns) average_decode_ns
             WD_STREAM_VIDEO_DECODE_EWMA_NEW_NUMERATOR WD_STREAM_VIDEO_DECODE_EWMA_DENOMINATOR |>
    else policy in
  safe_decode_fps ← wd_video_safe_decode_fps policy.(sp_video_decode_ewma_ns)
                       policy.(sp_requested_session_fps) WD_STREAM_VIDEO_DECODE_HEADROOM_PERCENT;
  Some (adapt_video_frame_rate (policy <| sp_video_decode_safe_fps := safe_decode_fps |>) stats
          health current_fps safe_decode_fps).

(** ** Reaction to the client's reports *)

(** The window state reported in the interval. *)
Definition note_window (policy : wd_stream_policy) (stats : wd_stats) : wd_stream_policy :=
  let policy :=
    if negb (stats.(st_client_render_hidden_reports) =? 0)
    then policy <| sp_client_render_visible := false |>
    else if negb (stats.(st_client_render_visible_reports) =? 0)
    then policy <| sp_client_render_visible := true |>
    else policy in
  if negb (stats.(st_client_window_unfocused_reports) =? 0)
  then policy <| sp_client_window_focused := false |>
  else if negb (stats.(st_client_window_focused_reports) =? 0)
  then policy <| sp_client_window_focused := true |>
  else policy.

(** A tile recovery is under way. *)
Definition tile_recovery_health (policy : wd_stream_policy) (stats : wd_stats) : wd_stream_policy :=
  let recovery_action :=
    wd_tile_recovery_decide policy.(sp_tile_recovery_refresh_sent)
      policy.(sp_tile_recovery_content_epoch) stats.(st_client_tile_content_epoch_presented)
      policy.(sp_tile_recovery_wait_seconds) WD_STREAM_TILE_RECOVERY_TIMEOUT_SECONDS in
  let policy :=
    if bool_decide (recovery_action <> WD_TILE_RECOVERY_WAIT) then
      let resume_planned_video :=
        bool_decide (recovery_action = WD_TILE_RECOVERY_COMPLETE_PRESENTED) &&
        bool_decide (policy.(sp_video_recovery_class) = WD_VIDEO_RECOVERY_PLANNED) &&
        policy.(sp_planned_recovery_resume_video) in
      let policy := policy
        <| sp_video_retry_cooldown_seconds :=
             if resume_planned_video then 0 else WD_STREAM_VIDEO_RETRY_COOLDOWN_SECONDS |> in
      let policy :=
        if bool_decide (recovery_action = WD_TILE_RECOVERY_COMPLETE_TIMEOUT)
        then policy
          <| sp_video_recovery_class := WD_VIDEO_RECOVERY_FAILURE |>
          <| sp_planned_recovery_resume_video := false |>
          <| sp_planned_recovery_source_mode := WD_STREAM_MODE_TILES |>
        else policy in
      let policy :=
        if policy.(sp_tile_recovery_live_damage_deferred)
        then policy <| sp_tile_refresh_pending := true |> else policy in
      wd_stream_policy_set_mode_locked policy WD_STREAM_MODE_TILES WD_VIDEO_RECOVERY_NONE
    else if policy.(sp_tile_recovery_refresh_sent) &&
            (policy.(sp_tile_recovery_wait_seconds) <? UINT32_MAX)
    then policy
      <| sp_tile_recovery_wait_seconds := u32 (policy.(sp_tile_recovery_wait_seconds) + 1) |>
    else policy in
  policy <| sp_video_client_failure_seconds := 0 |>.

(** The four fields of an in-video recovery. *)
Definition set_video_recovery (policy : wd_stream_policy) (attempts : Z) : wd_stream_policy :=
  policy
    <| sp_video_recovery_attempts := attempts |>
    <| sp_video_recovery_wait_seconds := 0 |>
    <| sp_video_recovery_keyframe_queued := false |>
    <| sp_video_recovery_keyframe_id := 0 |>.

(** An in-video recovery is under way. *)
Definition video_recovering_health (policy : wd_stream_policy) (stats : wd_stats)
    : wd_stream_policy :=
  let action :=
    wd_video_recovery_decide policy.(sp_video_recovery_keyframe_queued)
      policy.(sp_video_recovery_keyframe_id) stats.(st_client_video_last_frame_id_presented)
      policy.(sp_video_recovery_wait_seconds) WD_STREAM_VIDEO_RECOVERY_TIMEOUT_SECONDS
      policy.(sp_video_recovery_attempts) WD_STREAM_VIDEO_RECOVERY_MAX_ATTEMPTS in
  let policy :=
    match action with
    | WD_VIDEO_RECOVERY_ACTION_PRESENTED =>
        set_video_recovery
          (wd_stream_policy_set_mode_locked policy WD_STREAM_MODE_VIDEO_ACTIVE
             WD_VIDEO_RECOVERY_NONE) 0
    | WD_VIDEO_RECOVERY_ACTION_RETRY_KEYFRAME =>
        set_video_recovery policy (u32 (policy.(sp_video_recovery_attempts) + 1))
    | WD_VIDEO_RECOVERY_ACTION_FALLBACK_TILES =>
        (wd_stream_policy_set_mode_locked policy WD_STREAM_MODE_TILE_RECOVERY
           WD_VIDEO_RECOVERY_FAILURE)
          <| sp_video_recovery_attempts := 0 |>
          <| sp_video_recovery_wait_seconds := 0 |>
    | WD_VIDEO_RECOVERY_ACTION_WAIT =>
        if policy.(sp_video_recovery_wait_seconds) <? UINT32_MAX
        then policy
          <| sp_video_recovery_wait_seconds := u32 (policy.(sp_video_recovery_wait_seconds) + 1) |>
        else policy
    end in
  policy <| sp_video_client_failure_seconds := 0 |>.

Definition video_health_metrics (stats : wd_stats) : wd_client_video_health_metrics :=
  {| hm_server_frames_tx := stats.(st_video_frames_tx);
     hm_client_reports := stats.(st_client_stats_rx);
     hm_client_frames_seen :=
       u64 (stats.(st_client_video_data_frames_rx) + stats.(st_client_video_frames_rx));
     hm_client_frames_decoded := stats.(st_client_video_frames_decoded);
     hm_client_frames_presented := stats.(st_client_video_frames_presented);
     hm_client_decode_failures := stats.(st_client_video_decode_failed);
     hm_client_publish_failures := stats.(st_client_video_publish_failed);
     hm_client_need_keyframe_drops := stats.(st_client_video_need_keyframe_drops);
     hm_client_audio_video_sync_holds := stats.(st_client_audio_video_sync_holds);
     hm_client_decode_queue_drops := stats.(st_client_video_decode_queue_drops);
     hm_client_audio_video_startup_timeouts := stats.(st_client_audio_video_startup_timeouts);
     hm_client_audio_video_startup_hold_ms := stats.(st_client_audio_video_startup_hold_ms);
     hm_client_audio_playback_state := stats.(st_client_audio_playback_state);
     hm_client_decode_queue_depth := stats.(st_client_video_decode_queue_depth);
     hm_client_decode_queue_depth_max := stats.(st_client_video_decode_queue_depth_max);
     hm_client_decode_queue_capacity := stats.(st_client_video_decode_queue_capacity);
     hm_client_queue_depth := stats.(st_client_video_queue_depth);
     hm_client_queue_depth_max := stats.(st_client_video_queue_depth_max);
     hm_client_audio_video_sync_hold_current_ms :=
       stats.(st_client_audio_video_sync_hold_current_ms) |}.

(** The failure streak of a stream that is not recovering. *)
Definition video_failure_streak (policy : wd_stream_policy)
    (video_health : wd_client_video_health_class) : wd_stream_policy :=
  let failure_streak :=
    wd_video_health_streak_update
      (mk_wd_video_health_streak policy.(sp_video_client_failure_class)
         policy.(sp_video_client_failure_seconds)) video_health in
  let policy := policy
    <| sp_video_client_failure_class := failure_streak.(hs_health) |>
    <| sp_video_client_failure_seconds := failure_streak.(hs_seconds) |> in
  if policy.(sp_video_client_failure_seconds) >=? WD_STREAM_VIDEO_CLIENT_FAILURE_SECONDS
  then
    (wd_stream_policy_set_mode_locked policy WD_STREAM_MODE_TILE_RECOVERY WD_VIDEO_RECOVERY_FAILURE)
      <| sp_video_client_failure_seconds := 0 |>
      <| sp_video_client_failure_class := WD_CLIENT_VIDEO_HEALTH_IDLE |>
  else policy
    <| sp_multipacket_loss_cooldown_seconds := 0 |>
    <| sp_link_loss_seconds := 0 |>
    <| sp_link_good_seconds := 0 |>
    <| sp_client_render_pressure_seconds := 0 |>.

(** A mode that sends video frames. *)
Definition video_frame_health (policy : wd_stream_policy) (stats : wd_stats)
    : option (wd_stream_policy * wd_stats) :=
  let immediate_feedback_action :=
    wd_video_feedback_action_classify policy.(sp_video_feedback_flags) in
  let policy :=
    policy <| sp_video_feedback_pending := false |> <| sp_video_feedback_flags := 0 |> in
  let active := bool_decide (policy.(sp_stream_mode) = WD_STREAM_MODE_VIDEO_ACTIVE) in
  if active &&
     bool_decide (immediate_feedback_action = WD_VIDEO_FEEDBACK_ACTION_FALLBACK_TILES)
  then Some (wd_stream_policy_set_mode_locked policy WD_STREAM_MODE_TILE_RECOVERY
               WD_VIDEO_RECOVERY_FAILURE, stats)
  else if active &&
          bool_decide (immediate_feedback_action = WD_VIDEO_FEEDBACK_ACTION_RECOVER_IN_VIDEO)
  then
    '(policy, stats) ← wd_stream_policy_update_video_frame_rate_locked policy stats
                         WD_CLIENT_VIDEO_HEALTH_DECODER_OVERLOADED;
    Some (wd_stream_policy_set_mode_locked
            (set_video_recovery (policy <| sp_video_frame_rate_good_seconds := 0 |>) 1)
            WD_STREAM_MODE_VIDEO_RECOVERING WD_VIDEO_RECOVERY_FAILURE, stats)
  else if bool_decide (policy.(sp_stream_mode) = WD_STREAM_MODE_VIDEO_RECOVERING)
  then Some (video_recovering_health policy stats, stats)
  else
    let video_health :=
      wd_video_health_for_window
        (wd_client_video_health_classify (Some (video_health_metrics stats)))
        policy.(sp_client_render_visible) policy.(sp_client_window_focused) in
    '(policy, stats) ← wd_stream_policy_update_video_frame_rate_locked policy stats video_health;
    if bool_decide (video_health = WD_CLIENT_VIDEO_HEALTH_DECODER_OVERLOADED) ||
       bool_decide (video_health = WD_CLIENT_VIDEO_HEALTH_AWAITING_KEYFRAME)
    then
      Some ((wd_stream_policy_set_mode_locked (set_video_recovery policy 1)
               WD_STREAM_MODE_VIDEO_RECOVERING WD_VIDEO_RECOVERY_FAILURE)
              <| sp_video_client_failure_seconds := 0 |>
              <| sp_video_client_failure_class := WD_CLIENT_VIDEO_HEALTH_IDLE |>, stats)
    else Some (video_failure_streak policy video_health, stats).

(** A mode that sends tiles: loss, pressure and the rates. *)
Definition tile_health (policy : wd_stream_policy) (stats : wd_stats)
    (send_pressure budget_frame_pressure client_render_pressure client_render_pressure_warming : bool)
    : wd_stream_policy * wd_stats :=
  let client_packet_loss := wd_stream_client_packet_loss_sample stats in
  let client_tile_repair :=
    negb (stats.(st_client_partial_tiles_timed_out) =? 0) ||
    negb (stats.(st_client_retx_requests_tx) =? 0) in
  let policy :=
    if client_tile_repair || client_packet_loss
    then policy
      <| sp_multipacket_loss_cooldown_seconds := WD_STREAM_MULTIPACKET_LOSS_COOLDOWN_SECONDS |>
    else if negb (policy.(sp_multipacket_loss_cooldown_seconds) =? 0)
    then policy
      <| sp_multipacket_loss_cooldown_seconds :=
           u32 (policy.(sp_multipacket_loss_cooldown_seconds) - 1) |>
    else policy in
  let '(policy, stats) :=
    if client_render_pressure_warming && negb send_pressure && negb budget_frame_pressure
    then (policy <| sp_frame_rate_good_seconds := 0 |>, stats)
    else
      let tile_frame_pressure := send_pressure || budget_frame_pressure in
      wd_stream_policy_update_frame_rate_locked policy stats
        (tile_frame_pressure || client_render_pressure) tile_frame_pressure in
  wd_stream_policy_update_tile_media_rate_locked policy stats send_pressure.

Definition wd_stream_policy_update_health_locked (policy : wd_stream_policy) (stats : wd_stats)
    : option (wd_stream_policy * wd_stats) :=
  let policy := note_window policy stats in
  if bool_decide (policy.(sp_stream_mode) = WD_STREAM_MODE_TILE_RECOVERY)
  then Some (tile_recovery_health policy stats, stats)
  else
    let send_pressure := negb (stats.(st_udp_send_pressure_drops) =? 0) in
    let normal_dirty_budget_blocked :=
      if stats.(st_dirty_budget_blocked) >? stats.(st_dirty_budget_blocked_full_refresh)
      then u64 (stats.(st_dirty_budget_blocked) - stats.(st_dirty_budget_blocked_full_refresh))
      else 0 in
    let budget_frame_pressure :=
      negb (normal_dirty_budget_blocked =? 0) &&
      (negb (stats.(st_dirty_tiles) =? 0) || negb (stats.(st_udp_fresh_tiles_sent) =? 0)) in
    let client_render_pressure_sample := wd_stream_client_render_pressure_sample policy stats in
    let policy :=
      if negb policy.(sp_client_render_visible) || negb client_render_pressure_sample
      then policy <| sp_client_render_pressure_seconds := 0 |>
      else if policy.(sp_client_render_pressure_seconds) <? UINT32_MAX
      then policy
        <| sp_client_render_pressure_seconds :=
             u32 (policy.(sp_client_render_pressure_seconds) + 1) |>
      else policy in
    let client_render_pressure :=
      policy.(sp_client_render_pressure_seconds) >=?
        WD_STREAM_CLIENT_RENDER_PRESSURE_SECONDS_TO_DECREASE in
    let client_render_pressure_warming :=
      client_render_pressure_sample && negb client_render_pressure in
    if wd_stream_mode_uses_video_frames policy.(sp_stream_mode)
    then video_frame_health policy stats
    else Some (tile_health policy stats send_pressure budget_frame_pressure client_render_pressure
                 client_render_pressure_warming).

(** ** Lemmas: what the operations leave alone

    [boot_view] is the state of the bootstrap refresh, [rec_view] that of an
    in-video recovery. *)

Definition boot_view (p : wd_stream_policy) :=
  (p.(sp_video_bootstrap_pending), p.(sp_video_bootstrap_refresh_started),
   p.(sp_video_bootstrap_refresh_sent), p.(sp_video_bootstrap_content_epoch)).
Definition rec_view (p : wd_stream_policy) :=
  (p.(sp_video_recovery_attempts), p.(sp_video_recovery_wait_seconds),
   p.(sp_video_recovery_keyframe_queued), p.(sp_video_recovery_keyframe_id)).

(** [split_cases] splits every conditional of the goal; the branches of a
    policy operation then differ from their argument by known fields. *)
Ltac split_cases := repeat (case_if || case_match); try reflexivity; try done.

Lemma rebuild_mode p m :
  (wd_stream_policy_rebuild_bandwidth_plan_locked p m).(sp_stream_mode) = p.(sp_stream_mode).
Proof. unfold wd_stream_policy_rebuild_bandwidth_plan_locked. cbv zeta. destruct m; reflexivity. Qed.

Lemma rebuild_views p m :
  boot_view (wd_stream_policy_rebuild_bandwidth_plan_locked p m) = boot_view p /\
  rec_view (wd_stream_policy_rebuild_bandwidth_plan_locked p m) = rec_view p.
Proof. unfold wd_stream_policy_rebuild_bandwidth_plan_locked. cbv zeta. destruct m; split; reflexivity. Qed.

Lemma set_mode_bandwidth_keeps p old m :
  (set_mode_bandwidth p old m).(sp_stream_mode) = m /\
  boot_view (set_mode_bandwidth p old m) = boot_view p /\
  rec_view (set_mode_bandwidth p old m) = rec_view p.
Proof.
  unfold set_mode_bandwidth. destruct (bool_decide (bandwidth_mode_of old ≠ bandwidth_mode_of m)); cbv zeta.
  - set (q := _ <| sp_video_encode_pacing_samples := 0 |>).
    destruct (rebuild_views q (bandwidth_mode_of m)) as [E1 E2].
    split_and!; [apply (rebuild_mode q) | exact E1 | exact E2].
  - set (q := _ <| sp_stream_mode := m |>).
    destruct (rebuild_views q (bandwidth_mode_of m)) as [E1 E2].
    split_and!; [apply (rebuild_mode q) | exact E1 | exact E2].
Qed.

Lemma set_mode_recovery_keeps p old m c :
  (set_mode_recovery p old m c).(sp_stream_mode) = p.(sp_stream_mode) /\
  boot_view (set_mode_recovery p old m c) = boot_view p /\
  rec_view (set_mode_recovery p old m c) = rec_view p.
Proof. unfold set_mode_recovery. cbv zeta. split_and!; split_cases. Qed.

Lemma restore_fps_keeps p :
  (wd_stream_policy_restore_requested_session_fps_locked p).(sp_stream_mode) = p.(sp_stream_mode) /\
  boot_view (wd_stream_policy_restore_requested_session_fps_locked p) = boot_view p /\
  rec_view (wd_stream_policy_restore_requested_session_fps_locked p) = rec_view p.
Proof.
  unfold wd_stream_policy_restore_requested_session_fps_locked. cbv zeta.
  destruct (p.(sp_requested_session_fps) =? 0);
    (match goal with |- context [if ?b then _ else _] => destruct b end);
    (match goal with |- context [if ?b then _ else _] => destruct b | _ => idtac end);
    split_and!; reflexivity.
Qed.

Lemma set_mode_cadence_keeps p old m :
  (set_mode_cadence p old m).(sp_stream_mode) = p.(sp_stream_mode) /\
  boot_view (set_mode_cadence p old m) = boot_view p /\
  rec_view (set_mode_cadence p old m) = rec_view p.
Proof.
  unfold set_mode_cadence. destruct (_ && _); [| done]. cbv zeta.
  set (q := p <| sp_video_recovery_class := WD_VIDEO_RECOVERY_NONE |>).
  destruct (restore_fps_keeps q) as (E1 & E2 & E3).
  set (r := wd_stream_policy_restore_requested_session_fps_locked q) in *. clearbody r.
  destruct (negb (r.(sp_video_failure_resume_fps) =? 0)); [| done].
  destruct (negb (_ =? r.(sp_adaptive_capture_fps))); split_and!; first [exact E1 | exact E2 | exact E3].
Qed.

(** Entering a mode sets the mode and touches neither the bootstrap nor an
    in-video recovery. *)
Lemma set_mode_keeps p m c :
  (wd_stream_policy_set_mode_locked p m c).(sp_stream_mode) = m /\
  boot_view (wd_stream_policy_set_mode_locked p m c) = boot_view p /\
  rec_view (wd_stream_policy_set_mode_locked p m c) = rec_view p.
Proof.
  unfold wd_stream_policy_set_mode_locked. case_bool_decide as E; [by rewrite E |]. cbv zeta.
  set (old := p.(sp_stream_mode)).
  destruct (set_mode_bandwidth_keeps p old m) as (A1 & A2 & A3).
  set (q := set_mode_bandwidth p old m) in *. clearbody q.
  destruct (set_mode_recovery_keeps q old m c) as (B1 & B2 & B3).
  set (r := set_mode_recovery q old m c) in *. clearbody r.
  match goal with |- context [set_mode_cadence ?x old m] => set (s := x) end.
  assert (s.(sp_stream_mode) = r.(sp_stream_mode) /\ boot_view s = boot_view r /\
          rec_view s = rec_view r) as (C1 & C2 & C3) by (subst s; case_if; done).
  clearbody s. destruct (set_mode_cadence_keeps s old m) as (D1 & D2 & D3).
  split_and!; congruence.
Qed.

Lemma set_mode_mode p m c : (wd_stream_policy_set_mode_locked p m c).(sp_stream_mode) = m.
Proof. apply set_mode_keeps. Qed.
Lemma set_mode_boot p m c : boot_view (wd_stream_policy_set_mode_locked p m c) = boot_view p.
Proof. apply set_mode_keeps. Qed.
Lemma set_mode_rec p m c : rec_view (wd_stream_policy_set_mode_locked p m c) = rec_view p.
Proof. apply set_mode_keeps. Qed.
#[export] Hint Rewrite set_mode_mode set_mode_boot set_mode_rec : policy.

(** ** Lemmas: rates and health leave the mode to the transitions *)

Lemma set_media_rate_keeps p r :
  (wd_stream_policy_set_tile_media_rate_locked p r).(sp_stream_mode) = p.(sp_stream_mode) /\
  boot_view (wd_stream_policy_set_tile_media_rate_locked p r) = boot_view p /\
  rec_view (wd_stream_policy_set_tile_media_rate_locked p r) = rec_view p.
Proof.
  unfold wd_stream_policy_set_tile_media_rate_locked. cbv zeta.
  match goal with |- context [if ?b =? _ then p else _] => destruct (b =? p.(sp_tile_media_bytes_per_second)) end;
    done.
Qed.

Definition keeps (p q : wd_stream_policy) : Prop :=
  q.(sp_stream_mode) = p.(sp_stream_mode) /\ boot_view q = boot_view p /\ rec_view q = rec_view p.

#[export] Instance keeps_preorder : PreOrder keeps.
Proof. split; [done |]. intros p q r (? & ? & ?) (? & ? & ?). split_and!; congruence. Qed.

Lemma set_media_rate_keeps' p r : keeps p (wd_stream_policy_set_tile_media_rate_locked p r).
Proof. apply set_media_rate_keeps. Qed.

Lemma update_media_rate_keeps p s pressure :
  keeps p (wd_stream_policy_update_tile_media_rate_locked p s pressure).1.
Proof.
  unfold wd_stream_policy_update_tile_media_rate_locked. cbv zeta.
  repeat case_if; cbn [fst]; try done;
    (etrans; [| apply set_media_rate_keeps']); done.
Qed.

Lemma lower_rate_keeps p s old strong : keeps p (lower_frame_rate p s old strong).1.
Proof. unfold lower_frame_rate. cbv zeta. case_match; done. Qed.

Lemma raise_rate_keeps p s old : keeps p (raise_frame_rate p s old).1.
Proof. unfold raise_frame_rate. cbv zeta. case_match; [done |]. case_match; done. Qed.

Lemma update_frame_rate_keeps p s pressure strong :
  keeps p (wd_stream_policy_update_frame_rate_locked p s pressure strong).1.
Proof.
  unfold wd_stream_policy_update_frame_rate_locked. cbv zeta.
  match goal with |- context [if ?b then p <| sp_requested_session_fps := _ |> else p] =>
    set (q := if b then p <| sp_requested_session_fps := _ |> else p);
    assert (keeps p q) as Hq by (subst q; case_if; done) end.
  clearbody q. etrans; [exact Hq |]. clear Hq p.
  match goal with |- context [if ?b then q <| sp_adaptive_capture_fps := ?v |> else q] =>
    set (r := if b then q <| sp_adaptive_capture_fps := v |> else q);
    assert (keeps q r) as Hr by (subst r; case_if; done) end.
  clearbody r. etrans; [exact Hr |].
  destruct pressure; [apply lower_rate_keeps |]. case_if; [done |]. case_if; [done |].
  apply raise_rate_keeps.
Qed.

Lemma adapt_video_keeps p s h c d : keeps p (adapt_video_frame_rate p s h c d).1.
Proof. unfold adapt_video_frame_rate. cbv zeta. repeat case_match; done. Qed.

Lemma update_video_rate_keeps p s h q t :
  wd_stream_policy_update_video_frame_rate_locked p s h = Some (q, t) -> keeps p q.
Proof.
  unfold wd_stream_policy_update_video_frame_rate_locked. cbv zeta.
  match goal with |- context [if ?b then p <| sp_video_decode_ewma_ns := ?v |> else p] =>
    set (r := if b then p <| sp_video_decode_ewma_ns := v |> else p);
    assert (keeps p r) as Hr by (subst r; repeat case_if; done) end.
  clearbody r. destruct (wd_video_safe_decode_fps _ _ _) as [f|]; cbn; [| done].
  intros E. apply (inj Some) in E. etrans; [exact Hr |].
  etrans; [| exact (eq_ind _ (fun x => keeps _ x.1) (adapt_video_keeps _ _ _ _ _) _ E)]. done.
Qed.

Lemma note_window_keeps p s : keeps p (note_window p s).
Proof. unfold note_window. cbv zeta. repeat case_match; done. Qed.

Lemma tile_health_keeps p s a b c d : keeps p (tile_health p s a b c d).1.
Proof.
  unfold tile_health. cbv zeta.
  match goal with |- context [wd_stream_policy_update_frame_rate_locked ?x _ _ _] =>
    set (q := x); assert (keeps p q) as Hq by (subst q; repeat case_match; done) end.
  clearbody q. etrans; [exact Hq |]. clear Hq.
  destruct (d && negb a && negb b).
  - etrans; [| apply update_media_rate_keeps]. done.
  - destruct (wd_stream_policy_update_frame_rate_locked q s _ _) as [r t] eqn:E.
    etrans; [| apply update_media_rate_keeps].
    change r with (r, t).1. rewrite <- E. apply update_frame_rate_keeps.
Qed.

(** Inversion of [Some (a, b) = Some (x, y) -> ...]. *)
Ltac case_top :=
  match goal with |- (if ?b then _ else _) = _ -> _ => let E := fresh "E" in destruct b eqn:E end.
Ltac case_view :=
  match goal with |- boot_view (if ?b then _ else _) = _ /\ _ => let E := fresh "E" in destruct b eqn:E end.
Ltac inv_some :=
  let H := fresh in
  intros H; apply (inj Some) in H; apply pair_equal_spec in H; destruct H as [<- <-].

Lemma tile_recovery_health_mode p s :
  boot_view (tile_recovery_health p s) = boot_view p /\
  rec_view (tile_recovery_health p s) = rec_view p /\
  ((tile_recovery_health p s).(sp_stream_mode) = p.(sp_stream_mode) \/
   (tile_recovery_health p s).(sp_stream_mode) = WD_STREAM_MODE_TILES).
Proof.
  unfold tile_recovery_health. cbv zeta.
  match goal with |- context [bool_decide (?a ≠ WD_TILE_RECOVERY_WAIT)] => generalize a end.
  intros action. case_bool_decide as E.
  - match goal with |- context [wd_stream_policy_set_mode_locked ?x _ _] =>
      set (q := x); assert (boot_view q = boot_view p /\ rec_view q = rec_view p) as [B R] by
        (subst q; repeat case_match; done) end.
    clearbody q. destruct (set_mode_keeps q WD_STREAM_MODE_TILES WD_VIDEO_RECOVERY_NONE) as (M & B' & R').
    set (r := wd_stream_policy_set_mode_locked q _ _) in *. clearbody r.
    split_and!; [change (boot_view r = boot_view p); congruence |
      change (rec_view r = rec_view p); congruence | right; exact M].
  - case_if; split_and!; try done; by left.
Qed.

Lemma video_recovering_health_mode p s :
  boot_view (video_recovering_health p s) = boot_view p /\
  ((video_recovering_health p s).(sp_stream_mode) = p.(sp_stream_mode) \/
   (video_recovering_health p s).(sp_stream_mode) = WD_STREAM_MODE_VIDEO_ACTIVE \/
   (video_recovering_health p s).(sp_stream_mode) = WD_STREAM_MODE_TILE_RECOVERY).
Proof.
  unfold video_recovering_health. cbv zeta. case_match.
  - case_if; split; try done; by left.
  - split; [apply (set_mode_boot p) | right; left; apply (set_mode_mode p)].
  - split; [done | by left].
  - split; [apply (set_mode_boot p) | right; right; apply (set_mode_mode p)].
Qed.

Lemma video_failure_streak_mode p h :
  boot_view (video_failure_streak p h) = boot_view p /\
  ((video_failure_streak p h).(sp_stream_mode) = p.(sp_stream_mode) \/
   (video_failure_streak p h).(sp_stream_mode) = WD_STREAM_MODE_TILE_RECOVERY).
Proof.
  unfold video_failure_streak. cbv zeta.
  match goal with |- context [wd_stream_policy_set_mode_locked ?x _ _] => set (q := x) end.
  case_if.
  - split; [apply (set_mode_boot q) | right; apply (set_mode_mode q)].
  - split; [done | by left].
Qed.

(** What a mode that sends video frames can turn into when the client's
    reports are evaluated. *)
Definition video_successor (m m' : wd_stream_mode) : Prop :=
  m' = m \/ m' = WD_STREAM_MODE_TILE_RECOVERY \/ m' = WD_STREAM_MODE_VIDEO_RECOVERING \/
  (m = WD_STREAM_MODE_VIDEO_RECOVERING /\ m' = WD_STREAM_MODE_VIDEO_ACTIVE).

Lemma video_frame_health_mode p s q t :
  video_frame_health p s = Some (q, t) ->
  boot_view q = boot_view p /\ video_successor p.(sp_stream_mode) q.(sp_stream_mode).
Proof.
  unfold video_frame_health, video_successor. cbv zeta.
  set (p0 := p <| sp_video_feedback_pending := false |> <| sp_video_feedback_flags := 0 |>).
  assert (boot_view p0 = boot_view p /\ p0.(sp_stream_mode) = p.(sp_stream_mode)) as [B M] by done.
  rewrite <- B, <- M. clear B M. generalize (wd_video_feedback_action_classify p.(sp_video_feedback_flags)) as act.
  intros act. clearbody p0. case_top; [| case_top; [| case_top]].
  - inv_some. autorewrite with policy. auto.
  - destruct (wd_stream_policy_update_video_frame_rate_locked p0 s _) as [[r u]|] eqn:Hr; cbn; [| done].
    inv_some. autorewrite with policy.
    destruct (update_video_rate_keeps _ _ _ _ _ Hr) as (_ & Hb & _). split; [exact Hb | auto].
  - inv_some. destruct (video_recovering_health_mode p0 s) as (Hb & Hm). split; [exact Hb |].
    apply bool_decide_eq_true in E1. destruct Hm as [->|[->| ->]]; auto.
  - match goal with |- context [wd_video_health_for_window ?a ?b ?c] =>
      generalize (wd_video_health_for_window a b c) end. intros h.
    destruct (wd_stream_policy_update_video_frame_rate_locked p0 s _) as [[r u]|] eqn:Hr; cbn; [| done].
    destruct (update_video_rate_keeps _ _ _ _ _ Hr) as (Hm & Hb & _).
    case_top; inv_some.
    + set (w := set_video_recovery r 1).
      split; [etrans; [apply (set_mode_boot w) | exact Hb] | right; right; left; apply (set_mode_mode w)].
    + match goal with |- context [video_failure_streak r ?h] =>
        destruct (video_failure_streak_mode r h) as (Hb' & Hm') end.
      split; [congruence |]. destruct Hm' as [->| ->]; [left | auto]. done.
Qed.

(** Evaluating the reports never takes the display for video: it keeps the
    mode, moves between the video modes, or gives the display back to tiles.
    The bootstrap is not touched. *)
Lemma update_health_mode p s q t :
  wd_stream_policy_update_health_locked p s = Some (q, t) ->
  boot_view q = boot_view p /\
  (q.(sp_stream_mode) = p.(sp_stream_mode) \/
   (p.(sp_stream_mode) = WD_STREAM_MODE_TILE_RECOVERY /\ q.(sp_stream_mode) = WD_STREAM_MODE_TILES) \/
   (wd_stream_mode_uses_video_frames p.(sp_stream_mode) = true /\
    video_successor p.(sp_stream_mode) q.(sp_stream_mode))).
Proof.
  unfold wd_stream_policy_update_health_locked. cbv zeta.
  destruct (note_window_keeps p s) as (M & B & _).
  set (p0 := note_window p s) in *. clearbody p0. rewrite <- B, <- M. clear B M p.
  case_bool_decide as Em.
  - inv_some. destruct (tile_recovery_health_mode p0 s) as (Hb & _ & Hm). split; [exact Hb |].
    destruct Hm as [->| ->]; auto.
  - match goal with |- context [video_frame_health ?x s] =>
      set (p1 := x); assert (keeps p0 p1) as (M & B & _) by (subst p1; repeat case_match; done) end.
    clearbody p1. rewrite <- M, <- B. clear M B Em. case_top.
    + intros Hv. destruct (video_frame_health_mode _ _ _ _ Hv) as (Hb & Hm). auto.
    + match goal with |- context [tile_health p1 s ?a ?b ?c ?d] =>
        destruct (tile_health_keeps p1 s a b c d) as (Hm & Hb & _);
        destruct (tile_health p1 s a b c d) as [r u] end.
      inv_some. cbn [fst] in *. auto.
Qed.

Lemma update_bootstrap_spec p s :
  (update_bootstrap p s).(sp_stream_mode) = p.(sp_stream_mode) /\
  ((update_bootstrap p s).(sp_video_bootstrap_pending) = p.(sp_video_bootstrap_pending) \/
   (p.(sp_video_bootstrap_refresh_sent) = true /\ p.(sp_video_bootstrap_content_epoch) <> 0 /\
    p.(sp_video_bootstrap_content_epoch) <= s.(st_client_tile_content_epoch_presented))).
Proof.
  unfold update_bootstrap. cbv zeta. case_if.
  - split; [done |]. right. cbn in E. bool_cases. done.
  - case_if; split; try done; by left.
Qed.

(** Automatic selection: without a bootstrap under way it enters video only as
    far as VIDEO_READY, which does not own the display. *)
Lemma select_mode_spec p s n c v1 v2 v3 :
  boot_view (select_mode p s n c v1 v2 v3) = boot_view p /\
  ((select_mode p s n c v1 v2 v3).(sp_stream_mode) = p.(sp_stream_mode) \/
   wd_stream_mode_video_owns_display (select_mode p s n c v1 v2 v3).(sp_stream_mode) = false).
Proof.
  unfold select_mode. cbv zeta. case_view.
  { match goal with |- context [wd_stream_policy_set_mode_locked ?x _ _] => set (q := x) end.
    destruct (set_mode_keeps q WD_STREAM_MODE_VIDEO_READY WD_VIDEO_RECOVERY_NONE) as (M & B & _).
    split; [exact B | right; by rewrite M]. }
  match goal with |- context [leave_unavailable_video ?x] =>
    set (q := x); assert (keeps p q) as (M & B & _) by (subst q; case_if; done) end.
  clearbody q. rewrite <- M, <- B. case_view; [| case_view].
  - unfold leave_unavailable_video. cbv zeta. case_view; [| split; [done | by left]].
    match goal with |- context [wd_stream_policy_set_mode_locked ?x ?m ?k] =>
      destruct (set_mode_keeps x m k) as (M' & B' & _) end.
    split; [exact B' |]. right. rewrite M'. by case_if.
  - unfold approach_video. cbv zeta. case_view; [split; [done | by left] |].
    match goal with |- context [wd_stream_policy_set_mode_locked ?x WD_STREAM_MODE_VIDEO_READY _] =>
      set (r := x); assert (boot_view r = boot_view q) as B1 by (subst r; case_if; done) end.
    clearbody r. case_view.
    + split; [by rewrite set_mode_boot | right; by rewrite set_mode_mode].
    + split; [by rewrite set_mode_boot | right; by rewrite set_mode_mode].
  - unfold retreat_from_video. cbv zeta. case_view; [split; [done | by left] |].
    case_view; [split; [done | by left] |]. case_view; [split; [done | by left] |].
    match goal with |- context [wd_stream_policy_set_mode_locked ?x _ _] =>
      set (r := x); assert (keeps q r) as (M1 & B1 & _) by (subst r; case_if; done) end.
    clearbody r. case_view; [| split; [exact B1 | left; exact M1]].
    split; [etrans; [apply (set_mode_boot r) | exact B1] |].
    right. change (_ <| sp_tile_recovery_seconds := 0 |>).(sp_stream_mode) with
      (wd_stream_policy_set_mode_locked r WD_STREAM_MODE_TILE_RECOVERY WD_VIDEO_RECOVERY_PLANNED).(sp_stream_mode).
    by rewrite set_mode_mode.
Qed.

(** The mode update: the display is not taken; while a bootstrap is pending in
    tile mode the mode stays, and the bootstrap ends only when the client has
    presented its epoch. *)
Lemma update_mode_spec p s n v1 v2 v3 :
  let q := wd_stream_policy_update_mode_locked p s n v1 v2 v3 in
  (q.(sp_stream_mode) = p.(sp_stream_mode) \/
   wd_stream_mode_video_owns_display q.(sp_stream_mode) = false) /\
  (p.(sp_video_bootstrap_pending) = false -> q.(sp_video_bootstrap_pending) = false) /\
  (p.(sp_video_bootstrap_pending) = true -> p.(sp_stream_mode) = WD_STREAM_MODE_TILES ->
   q.(sp_stream_mode) = WD_STREAM_MODE_TILES /\
   (q.(sp_video_bootstrap_pending) = true \/
    (p.(sp_video_bootstrap_refresh_sent) = true /\ p.(sp_video_bootstrap_content_epoch) <> 0 /\
     p.(sp_video_bootstrap_content_epoch) <= s.(st_client_tile_content_epoch_presented)))).
Proof.
  unfold wd_stream_policy_update_mode_locked. case_if; [naive_solver |].
  case_if. { split_and!; [by left | done |]. intros Hp Hm. auto. }
  case_if. { split_and!; [by left | done |]. intros Hp Hm. auto. }
  case_if.
  - destruct (update_bootstrap_spec p s) as (M & B). split_and!; [by left | congruence |].
    intros Hp Hm. split; [congruence |]. destruct B as [B|B]; [left; congruence | by right].
  - match goal with |- context [select_mode ?x _ _ _ _ _ _] =>
      set (q := x); assert (keeps p q) as (M & B & _) by (subst q; case_if; done) end.
    clearbody q. match goal with |- context [select_mode q s n ?c v1 v2 v3] =>
      destruct (select_mode_spec q s n c v1 v2 v3) as (B' & M') end.
    rewrite B in B'. injection B' as B1 B2 B3 B4. split_and!; [by rewrite <- M | congruence | congruence].
Qed.

(** ** Lemmas: in-video recovery *)

Lemma select_mode_rec p s n c v1 v2 v3 : rec_view (select_mode p s n c v1 v2 v3) = rec_view p.
Proof.
  unfold select_mode. cbv zeta.
  match goal with |- rec_view (if ?b then _ else _) = _ => destruct b end; [by rewrite set_mode_rec |].
  match goal with |- context [leave_unavailable_video ?x] =>
    set (q := x); assert (keeps p q) as (_ & _ & R) by (subst q; case_if; done) end.
  clearbody q. rewrite <- R.
  match goal with |- rec_view (if ?b then _ else _) = _ => destruct b end;
    [| match goal with |- rec_view (if ?b then _ else _) = _ => destruct b end].
  - unfold leave_unavailable_video. cbv zeta. case_match; [by rewrite set_mode_rec | done].
  - unfold approach_video. cbv zeta.
    match goal with |- rec_view (if ?b then _ else _) = _ => destruct b end; [done |].
    match goal with |- context [wd_stream_policy_set_mode_locked ?x WD_STREAM_MODE_VIDEO_READY _] =>
      set (r := x); assert (rec_view r = rec_view q) as R1 by (subst r; case_if; done) end.
    clearbody r. match goal with |- rec_view (if ?b then _ else _) = _ => destruct b end;
      by rewrite set_mode_rec.
  - unfold retreat_from_video. cbv zeta.
    do 3 (match goal with |- rec_view (if ?b then _ else _) = _ => destruct b end; [done |]).
    match goal with |- context [wd_stream_policy_set_mode_locked ?x _ _] =>
      set (r := x); assert (keeps q r) as (_ & _ & R1) by (subst r; case_if; done) end.
    clearbody r. match goal with |- rec_view (if ?b then _ else _) = _ => destruct b end; [| exact R1].
    etrans; [apply (set_mode_rec r) | exact R1].
Qed.

Lemma update_mode_rec p s n v1 v2 v3 :
  rec_view (wd_stream_policy_update_mode_locked p s n v1 v2 v3) = rec_view p.
Proof.
  unfold wd_stream_policy_update_mode_locked.
  do 3 (match goal with |- rec_view (if ?b then _ else _) = _ => destruct b end; [done |]).
  match goal with |- rec_view (if ?b then _ else _) = _ => destruct b end.
  - unfold update_bootstrap. cbv zeta. repeat case_match; done.
  - cbv zeta. rewrite select_mode_rec. case_if; done.
Qed.

Lemma rec_view_failure p a b :
  rec_view (p <| sp_video_client_failure_seconds := a |> <| sp_video_client_failure_class := b |>) =
  rec_view p.
Proof. reflexivity. Qed.

(** A policy that evaluates its reports and ends up recovering was recovering
    and decided to go on, or has just begun its first attempt. *)
Lemma update_health_rec p s q t :
  wd_stream_policy_update_health_locked p s = Some (q, t) ->
  q.(sp_stream_mode) = WD_STREAM_MODE_VIDEO_RECOVERING ->
  (exists p', keeps p p' /\ p.(sp_stream_mode) = WD_STREAM_MODE_VIDEO_RECOVERING /\
     q = video_recovering_health p' s) \/
  (p.(sp_stream_mode) <> WD_STREAM_MODE_VIDEO_RECOVERING /\ rec_view q = (1, 0, false, 0)).
Proof.
  unfold wd_stream_policy_update_health_locked. cbv zeta.
  pose proof (note_window_keeps p s) as K.
  set (p0 := note_window p s) in *. clearbody p0. case_top.
  - inv_some. apply bool_decide_eq_true in E. destruct (tile_recovery_health_mode p0 s) as (_ & _ & Hm).
    intros Hq. destruct Hm as [Hm|Hm]; congruence.
  - match goal with |- context [video_frame_health ?x s] =>
      set (p1 := x); assert (keeps p0 p1) as K1 by (subst p1; repeat case_match; done) end.
    clearbody p1. assert (keeps p p1) as Kp by (by etrans). clear K K1. case_top.
    2: { match goal with |- context [tile_health p1 s ?a ?b ?c ?d] =>
        destruct (tile_health_keeps p1 s a b c d) as (Hm & _ & _);
        destruct (tile_health p1 s a b c d) as [r u] end.
      inv_some. cbn [fst] in Hm. intros Hq. rewrite <- Hm, Hq in E0. done. }
    unfold video_frame_health. cbv zeta.
    set (p2 := p1 <| sp_video_feedback_pending := false |> <| sp_video_feedback_flags := 0 |>).
    assert (keeps p p2) as K2 by (etrans; [exact Kp | done]).
    generalize (wd_video_feedback_action_classify p1.(sp_video_feedback_flags)) as act.
    intros act. clearbody p2. clear Kp. case_top; [| case_top; [| case_top]].
    + inv_some. by rewrite set_mode_mode.
    + destruct (wd_stream_policy_update_video_frame_rate_locked p2 s _) as [[r u]|]; cbn; [| done].
      inv_some. intros _. right. rewrite set_mode_rec. split; [| done].
      apply andb_true_iff in E2 as [E2 _]. apply bool_decide_eq_true in E2.
      destruct K2 as (M & _ & _). congruence.
    + inv_some. intros Hq. left. exists p2. apply bool_decide_eq_true in E3.
      split_and!; [done | | done]. destruct K2 as (M & _ & _). congruence.
    + match goal with |- context [wd_video_health_for_window ?a ?b ?c] =>
        generalize (wd_video_health_for_window a b c) end. intros h.
      destruct (wd_stream_policy_update_video_frame_rate_locked p2 s _) as [[r u]|] eqn:Hr; cbn; [| done].
      destruct (update_video_rate_keeps _ _ _ _ _ Hr) as (Hm & _ & _). case_top; inv_some; intros Hq.
      * right. rewrite rec_view_failure, set_mode_rec. split; [| reflexivity].
        apply bool_decide_eq_false in E3. destruct K2 as (M & _ & _). congruence.
      * exfalso. apply bool_decide_eq_false in E3.
        destruct (video_failure_streak_mode r h) as (_ & [Hm'|Hm']); congruence.
Qed.

(** The bounds of an in-video recovery. *)
Definition recovery_ok (p : wd_stream_policy) : Prop :=
  p.(sp_stream_mode) = WD_STREAM_MODE_VIDEO_RECOVERING ->
  1 <= p.(sp_video_recovery_attempts) <= WD_STREAM_VIDEO_RECOVERY_MAX_ATTEMPTS /\
  0 <= p.(sp_video_recovery_wait_seconds) <= WD_STREAM_VIDEO_RECOVERY_TIMEOUT_SECONDS.

(** What is left of a recovery, in ticks of the controller: the attempts not
    yet begun, the wait for the keyframe to be queued and the wait for the
    client to present it. *)
Definition recovery_budget (p : wd_stream_policy) : Z :=
  let T := WD_STREAM_VIDEO_RECOVERY_TIMEOUT_SECONDS in
  (WD_STREAM_VIDEO_RECOVERY_MAX_ATTEMPTS - p.(sp_video_recovery_attempts)) * (2 * (T + 1)) +
  (if p.(sp_video_recovery_keyframe_queued) then 0 else T + 1) +
  (T - p.(sp_video_recovery_wait_seconds)).

Lemma recovering_health_budget p s :
  1 <= p.(sp_video_recovery_attempts) <= WD_STREAM_VIDEO_RECOVERY_MAX_ATTEMPTS ->
  0 <= p.(sp_video_recovery_wait_seconds) <= WD_STREAM_VIDEO_RECOVERY_TIMEOUT_SECONDS ->
  p.(sp_stream_mode) = WD_STREAM_MODE_VIDEO_RECOVERING ->
  let q := video_recovering_health p s in
  q.(sp_stream_mode) = WD_STREAM_MODE_VIDEO_RECOVERING ->
  recovery_ok q /\ recovery_budget q < recovery_budget p.
Proof.
  intros Ha Hw Hm. cbv zeta. unfold video_recovering_health. cbv zeta.
  change WD_STREAM_VIDEO_RECOVERY_MAX_ATTEMPTS with 3 in *.
  change WD_STREAM_VIDEO_RECOVERY_TIMEOUT_SECONDS with 4 in *.
  destruct (wd_video_recovery_decide _ _ _ _ _ _ _) eqn:Ed; unfold wd_video_recovery_decide in Ed.
  - case_if_in Ed; [done |]. case_if_in Ed; [| case_if_in Ed; done]. bool_cases.
    apply orb_true_iff in E0 as [E0|E0]; bool_cases; [done |].
    rewrite (proj2 (Z.ltb_lt _ UINT32_MAX)) by mlia. intros _.
    unfold recovery_ok, recovery_budget.
    change WD_STREAM_VIDEO_RECOVERY_MAX_ATTEMPTS with 3.
    change WD_STREAM_VIDEO_RECOVERY_TIMEOUT_SECONDS with 4. cbn. rewrite u32_small by mlia.
    split; [intros _; lia | case_if; lia].
  - intros Hq. exfalso. revert Hq.
    change ((wd_stream_policy_set_mode_locked p WD_STREAM_MODE_VIDEO_ACTIVE WD_VIDEO_RECOVERY_NONE)
      .(sp_stream_mode) <> WD_STREAM_MODE_VIDEO_RECOVERING). by rewrite set_mode_mode.
  - case_if_in Ed; [done |]. case_if_in Ed; [done |]. case_if_in Ed; [| done]. bool_cases. intros _.
    unfold recovery_ok, recovery_budget.
    change WD_STREAM_VIDEO_RECOVERY_MAX_ATTEMPTS with 3.
    change WD_STREAM_VIDEO_RECOVERY_TIMEOUT_SECONDS with 4. cbn. rewrite u32_small by mlia.
    split; [intros _; lia | case_if; lia].
  - intros Hq. exfalso. revert Hq.
    change ((wd_stream_policy_set_mode_locked p WD_STREAM_MODE_TILE_RECOVERY WD_VIDEO_RECOVERY_FAILURE)
      .(sp_stream_mode) <> WD_STREAM_MODE_VIDEO_RECOVERING). by rewrite set_mode_mode.
Qed.

(** Evaluating the reports only counts adaptations; the epoch the client
    presented stays. *)
Definition same_presented (s t : wd_stats) : Prop :=
  t.(st_client_tile_content_epoch_presented) = s.(st_client_tile_content_epoch_presented).

Lemma video_rate_presented p s h q t :
  wd_stream_policy_update_video_frame_rate_locked p s h = Some (q, t) -> same_presented s t.
Proof.
  unfold wd_stream_policy_update_video_frame_rate_locked. cbv zeta.
  destruct (wd_video_safe_decode_fps _ _ _) as [f|]; cbn [mbind option_bind]; [| done].
  intros E. apply (inj Some) in E.
  assert (forall p c, same_presented s (adapt_video_frame_rate p s h c f).2) as Hp.
  { intros. unfold adapt_video_frame_rate. cbv zeta. repeat case_match; done. }
  match type of E with adapt_video_frame_rate ?p' _ _ ?c _ = _ => specialize (Hp p' c) end.
  by rewrite E in Hp.
Qed.

Lemma tile_health_presented p s a b c d : same_presented s (tile_health p s a b c d).2.
Proof.
  assert (forall p s pr, same_presented s (wd_stream_policy_update_tile_media_rate_locked p s pr).2) as H1.
  { intros. unfold wd_stream_policy_update_tile_media_rate_locked. cbv zeta. repeat case_match; done. }
  assert (forall p s pr st, same_presented s (wd_stream_policy_update_frame_rate_locked p s pr st).2) as H2.
  { intros. unfold wd_stream_policy_update_frame_rate_locked, lower_frame_rate, raise_frame_rate.
    cbv zeta. repeat case_match; done. }
  unfold tile_health. cbv zeta.
  match goal with |- context [wd_stream_policy_update_frame_rate_locked ?x _ _ _] => generalize x end.
  intros q. destruct (d && negb a && negb b); [apply H1 |].
  match goal with |- context [wd_stream_policy_update_frame_rate_locked q s ?x ?y] =>
    specialize (H2 q s x y); destruct (wd_stream_policy_update_frame_rate_locked q s x y) as [r t] end.
  unfold same_presented in *. rewrite H1. exact H2.
Qed.

Lemma update_health_presented p s q t :
  wd_stream_policy_update_health_locked p s = Some (q, t) -> same_presented s t.
Proof.
  unfold wd_stream_policy_update_health_locked. cbv zeta. generalize (note_window p s) as p0. intros p0.
  case_top; [inv_some; done |].
  match goal with |- context [video_frame_health ?x s] => generalize x end. intros p1.
  case_top.
  2: { match goal with |- context [tile_health p1 s ?a ?b ?c ?d] =>
         pose proof (tile_health_presented p1 s a b c d) as H; destruct (tile_health p1 s a b c d) as [r u] end.
       inv_some. exact H. }
  unfold video_frame_health. cbv zeta.
  set (p2 := p1 <| sp_video_feedback_pending := false |> <| sp_video_feedback_flags := 0 |>).
  generalize (wd_video_feedback_action_classify p1.(sp_video_feedback_flags)) as act. intros act.
  clearbody p2. case_top; [inv_some; done |]. case_top; [| case_top; [inv_some; done |]].
  - destruct (wd_stream_policy_update_video_frame_rate_locked p2 s _) as [[r u]|] eqn:Hr; cbn; [| done].
    inv_some. by eapply video_rate_presented.
  - match goal with |- context [wd_video_health_for_window ?a ?b ?c] =>
      generalize (wd_video_health_for_window a b c) end. intros h.
    destruct (wd_stream_policy_update_video_frame_rate_locked p2 s _) as [[r u]|] eqn:Hr; cbn; [| done].
    case_top; inv_some; by eapply video_rate_presented.
Qed.

Lemma hello_link_rates_mode p hello :
  (hello_link_rates p hello).(sp_stream_mode) = p.(sp_stream_mode).
Proof.
  unfold hello_link_rates.
  set (q := if p.(sp_safe_link_bytes_per_second) =? 0 then _ else p).
  assert (q.(sp_stream_mode) = p.(sp_stream_mode)) as Hq by (subst q; case_if; reflexivity).
  clearbody q.
  set (r := if q.(sp_recent_link_bytes_per_second) =? 0 then _ else q).
  assert (r.(sp_stream_mode) = q.(sp_stream_mode)) as Hr by (subst r; case_if; reflexivity).
  clearbody r. cbv zeta. case_match; [| congruence].
  set (w := if r.(sp_safe_link_bytes_per_second) >? _ then _ else r).
  assert (w.(sp_stream_mode) = r.(sp_stream_mode)) as Hw by (subst w; case_if; reflexivity).
  clearbody w. case_match; [| congruence]. etrans; [| etrans; [exact Hr | exact Hq]]. exact Hw.
Qed.

Lemma apply_hello_eq p hello :
  wd_stream_policy_apply_client_hello p hello =
  wd_stream_policy_reset_tokens
    ((wd_stream_policy_rebuild_bandwidth_plan_locked
        (hello_link_rates (hello_resets (hello_requests p hello)) hello) WD_BANDWIDTH_MODE_TILES)
       <| sp_multipacket_loss_cooldown_seconds := 0 |>).
Proof. reflexivity. Qed.

Lemma reset_tokens_mode p : (wd_stream_policy_reset_tokens p).(sp_stream_mode) = p.(sp_stream_mode).
Proof. reflexivity. Qed.
Lemma cooldown_mode p v :
  (p <| sp_multipacket_loss_cooldown_seconds := v |>).(sp_stream_mode) = p.(sp_stream_mode).
Proof. reflexivity. Qed.
Lemma hello_resets_mode p : (hello_resets p).(sp_stream_mode) = p.(sp_stream_mode).
Proof. reflexivity. Qed.
Lemma hello_requests_mode p hello : (hello_requests p hello).(sp_stream_mode) = WD_STREAM_MODE_TILES.
Proof. reflexivity. Qed.

Lemma apply_hello_mode p hello :
  (wd_stream_policy_apply_client_hello p hello).(sp_stream_mode) = WD_STREAM_MODE_TILES.
Proof.
  rewrite apply_hello_eq, reset_tokens_mode, cooldown_mode, rebuild_mode, hello_link_rates_mode,
    hello_resets_mode.
  apply hello_requests_mode.
Qed.

Lemma session_bootstrap_view p required epoch :
  (session_bootstrap p required epoch).(sp_stream_mode) = p.(sp_stream_mode) /\
  (session_bootstrap p required epoch).(sp_video_bootstrap_pending) = required.
Proof. split; reflexivity. Qed.

(** The mode right after a session began is tiles. *)
Lemma begin_session_spec p hello epoch :
  epoch <> 0 ->
  (wd_stream_policy_begin_session p hello epoch).(sp_stream_mode) = WD_STREAM_MODE_TILES /\
  (wd_stream_policy_begin_session p hello epoch).(sp_video_bootstrap_pending) =
    wd_video_session_bootstrap_required hello.(ch_video_mode) hello.(ch_capabilities).
Proof.
  intros He. unfold wd_stream_policy_begin_session. rewrite (proj2 (Z.eqb_neq epoch 0) He).
  match goal with |- context [session_bootstrap ?x ?r ?e] =>
    destruct (session_bootstrap_view x r e) as [-> ->] end.
  split; [apply apply_hello_mode | done].
Qed.

(** ** Properties: the frame rate *)

Lemma effective_fps_range p :
  WD_STREAM_FPS_MIN <= wd_stream_policy_effective_fps_locked p <= WD_MAX_SESSION_FPS.
Proof.
  unfold wd_stream_policy_effective_fps_locked. cbv zeta.
  change WD_STREAM_FPS_MIN with 5. change WD_MAX_SESSION_FPS with 240.
  match goal with |- context [if ?x <? 5 then _ else _] => generalize x end. intros x. crush_if; lia.
Qed.

(** With the adaptive rate in range, it is the effective rate. *)
Lemma effective_fps_adaptive p :
  WD_STREAM_FPS_MIN <= p.(sp_adaptive_capture_fps) <= WD_MAX_SESSION_FPS ->
  wd_stream_policy_effective_fps_locked p = p.(sp_adaptive_capture_fps).
Proof.
  unfold wd_stream_policy_effective_fps_locked. cbv zeta.
  change WD_STREAM_FPS_MIN with 5. change WD_MAX_SESSION_FPS with 240. intros H. crush_if; lia.
Qed.

(** The encoder's pacing only lowers a rate, and not to zero. *)
Lemma pacing_cap_range fps avg samples :
  1 <= fps <= UINT16_MAX -> 0 <= avg -> 1 <= wd_video_encode_pacing_cap fps avg samples <= fps.
Proof.
  intros Hf Ha. unfold wd_video_encode_pacing_cap. case_if; [lia |].
  rewrite !orb_false_iff in E. destruct E as [[E1 E2] E3]. bool_cases. cbv zeta.
  set (x := u64 _ / 100 / avg).
  assert (0 <= x) as Hx by (apply Z.div_pos; [vm_compute; discriminate | lia]).
  clearbody x. case_if; bool_cases; [lia |]. case_if; bool_cases; [lia |]. rewrite u16_small by mlia. lia.
Qed.

(** The rate at which the server captures is at least one frame and
    at most the session limit, never above the output's refresh rate, and
    while the client's window is hidden never above the hidden-window rate. *)
Theorem capture_rate_within_limits p refresh_hz :
  0 <= p.(sp_video_encode_ewma_ns) -> 0 <= refresh_hz ->
  let fps := wd_stream_policy_capture_pacing_fps_locked p refresh_hz in
  1 <= fps <= WD_MAX_SESSION_FPS /\
  (refresh_hz <> 0 -> fps <= refresh_hz) /\
  (p.(sp_client_render_visible) = false -> fps <= WD_STREAM_HIDDEN_CLIENT_FPS).
Proof.
  intros Ha Hr. unfold wd_stream_policy_capture_pacing_fps_locked, wd_cap_periodic_capture_fps. cbv zeta.
  pose proof (effective_fps_range p) as He.
  change WD_STREAM_FPS_MIN with 5 in *. change WD_MAX_SESSION_FPS with 240 in *.
  change WD_STREAM_HIDDEN_CLIENT_FPS with 5 in *.
  match goal with |- context [if ?c && (?x >? 5) then 5 else ?x] => set (f := x) end.
  assert (1 <= f <= 240) as Hf.
  { subst f. case_if; [| lia].
    pose proof (pacing_cap_range (wd_stream_policy_effective_fps_locked p) p.(sp_video_encode_ewma_ns)
      p.(sp_video_encode_pacing_samples) ltac:(mlia) Ha). lia. }
  clearbody f. destruct p.(sp_client_render_visible); cbn [negb andb]; crush_if; lia.
Qed.

Lemma capture_rate_within_limits_witness :
  wd_stream_policy_capture_pacing_fps_locked (wd_stream_policy_set_defaults zero_policy) 50 <= 50.
Proof. apply capture_rate_within_limits; vm_compute; discriminate. Defined.

(** Adaptation of the tile frame rate. For a request within the
    limits: under pressure the rate falls, strictly until the minimum; without
    pressure it does not fall and does not exceed the request. *)
Theorem frame_rate_adapts p s pressure strong :
  WD_STREAM_FPS_MIN <= p.(sp_requested_session_fps) <= WD_MAX_SESSION_FPS ->
  WD_STREAM_FPS_MIN <= p.(sp_adaptive_capture_fps) <= p.(sp_requested_session_fps) ->
  let old := wd_stream_policy_effective_fps_locked p in
  let q := (wd_stream_policy_update_frame_rate_locked p s pressure strong).1 in
  let new := wd_stream_policy_effective_fps_locked q in
  WD_STREAM_FPS_MIN <= q.(sp_adaptive_capture_fps) <= q.(sp_requested_session_fps) /\
  q.(sp_requested_session_fps) = p.(sp_requested_session_fps) /\
  (pressure = true -> new < old \/ (old = WD_STREAM_FPS_MIN /\ new = WD_STREAM_FPS_MIN)) /\
  (pressure = false -> old <= new).
Proof.
  intros Hr Ha. unfold wd_stream_policy_update_frame_rate_locked.
  rewrite (proj2 (Z.eqb_neq p.(sp_requested_session_fps) 0)) by (change WD_STREAM_FPS_MIN with 5 in *; lia).
  cbv zeta.
  rewrite (proj2 (Z.eqb_neq p.(sp_adaptive_capture_fps) 0)) by (change WD_STREAM_FPS_MIN with 5 in *; lia).
  rewrite (effective_fps_adaptive p) by lia.
  assert (forall q, q.(sp_requested_session_fps) = p.(sp_requested_session_fps) ->
    WD_STREAM_FPS_MIN <= q.(sp_adaptive_capture_fps) <= p.(sp_requested_session_fps) ->
    wd_stream_policy_effective_fps_locked q = q.(sp_adaptive_capture_fps)) as Heff
    by (intros q Hq Hb; apply effective_fps_adaptive; lia).
  destruct pressure.
  - unfold lower_frame_rate. cbv zeta.
    match goal with |- context [if negb (u16 ?x =? ?o) then _ else _] => set (f := x) end.
    assert (WD_STREAM_FPS_MIN <= f <= p.(sp_adaptive_capture_fps) /\
      (f = p.(sp_adaptive_capture_fps) -> f = WD_STREAM_FPS_MIN)) as [Hf Hf2].
    { subst f. change WD_STREAM_FPS_MIN with 5 in *. change WD_MAX_SESSION_FPS with 240 in *.
      change WD_STREAM_FPS_PRESSURE_DECREASE_PERCENT with 70. change WD_STREAM_FPS_DECREASE_PERCENT with 65.
      set (a := p.(sp_adaptive_capture_fps)) in *. clearbody a.
      assert (u32 (a * 70) / 100 < a) by (rewrite u32_small by mlia; apply Z.div_lt_upper_bound; lia).
      assert (u32 (a * 65) / 100 < a) by (rewrite u32_small by mlia; apply Z.div_lt_upper_bound; lia).
      destruct strong; crush_if; lia. }
    clearbody f. change WD_STREAM_FPS_MIN with 5 in *. change WD_MAX_SESSION_FPS with 240 in *.
    rewrite u16_small by mlia. case_if; bool_cases; cbn [fst].
    + rewrite Heff by (cbn; try done; lia). cbn. split_and!; [lia | lia | done | intros _; lia | done].
    + rewrite Heff by (cbn; try done; lia). cbn.
      split_and!; [lia | lia | done | intros _; right; lia | done].
  - destruct (negb (useful_activity s)); cbn [fst].
    { rewrite Heff by (cbn; try done; lia). cbn. split_and!; [lia | lia | done | done | lia]. }
    case_if; bool_cases; cbn [fst].
    { rewrite Heff by (cbn; try done; lia). cbn. split_and!; [lia | lia | done | done | lia]. }
    unfold raise_frame_rate. cbv zeta. case_if; cbn [fst].
    { rewrite Heff by (cbn; try done; lia). cbn. split_and!; [lia | lia | done | done | lia]. }
    match goal with |- context [if negb (u16 ?x =? ?o) then _ else _] => set (f := x) end.
    assert (p.(sp_adaptive_capture_fps) < f <= p.(sp_requested_session_fps)) as Hf.
    { subst f. change WD_STREAM_FPS_MIN with 5 in *. change WD_MAX_SESSION_FPS with 240 in *.
      cbn [sp_requested_session_fps set_field]. 
      change (sp_requested_session_fps (_ <| sp_frame_rate_good_seconds := 0 |>))
        with p.(sp_requested_session_fps). rewrite (u32_small (_ + 1)) by mlia.
      match goal with |- context [if ?x >? p.(sp_adaptive_capture_fps) then _ else _] => generalize x end.
      intros x. crush_if; lia. }
    clearbody f. change WD_STREAM_FPS_MIN with 5 in *. change WD_MAX_SESSION_FPS with 240 in *.
    rewrite u16_small by mlia. case_if; bool_cases; cbn [fst]; [| lia].
    rewrite Heff by (cbn; try done; lia). cbn. split_and!; [lia | lia | done | done | lia].
Qed.

Lemma frame_rate_adapts_witness :
  wd_stream_policy_effective_fps_locked
    (wd_stream_policy_update_frame_rate_locked (wd_stream_policy_set_defaults zero_policy) zero_stats
       true true).1 < 60.
Proof.
  destruct (frame_rate_adapts (wd_stream_policy_set_defaults zero_policy) zero_stats true true)
    as (_ & _ & H & _); [vm_compute; split; discriminate | vm_compute; split; discriminate |].
  destruct (H eq_refl) as [H1|[H1 _]]; [exact H1 | vm_compute in H1; discriminate].
Defined.

(** ** Properties: evaluation of the client's reports is defined *)

(** The largest decode time for which [ns * 100] fits in 64 bits. *)
Definition decode_limit : Z := UINT64_MAX / 100.

Lemma ewma_bounded cur sample :
  0 <= cur <= decode_limit -> 0 <= sample <= decode_limit ->
  0 <= wd_video_decode_ewma_update cur sample WD_STREAM_VIDEO_DECODE_EWMA_NEW_NUMERATOR
         WD_STREAM_VIDEO_DECODE_EWMA_DENOMINATOR <= decode_limit.
Proof.
  change decode_limit with 184467440737095516.
  change WD_STREAM_VIDEO_DECODE_EWMA_NEW_NUMERATOR with 1.
  change WD_STREAM_VIDEO_DECODE_EWMA_DENOMINATOR with 4.
  intros Hc Hs. unfold wd_video_decode_ewma_update. case_if; [lia |]. case_if; [lia |].
  rewrite (u64_small (cur * _)), (u64_small (sample * 1)) by mlia. rewrite u64_small by mlia.
  split; [apply Z.div_pos; lia | apply Z.div_le_upper_bound; lia].
Qed.

Lemma safe_decode_fps_defined avg requested headroom :
  0 <= avg <= decode_limit -> is_Some (wd_video_safe_decode_fps avg requested headroom).
Proof.
  change decode_limit with 184467440737095516. intros Ha. unfold wd_video_safe_decode_fps.
  case_if; [by eexists |]. case_if; [by eexists |]. rewrite !orb_false_iff in E0.
  destruct E0 as [[E0 _] _]. bool_cases. cbv zeta. rewrite (u64_small (avg * 100)) by mlia.
  destruct (Z.eqb_spec (avg * 100) 0); [lia |]. by eexists.
Qed.

Lemma video_rate_defined p s h :
  0 <= p.(sp_video_decode_ewma_ns) <= decode_limit ->
  (s.(st_client_video_decode_samples) <> 0 ->
   0 <= s.(st_client_video_decode_sum_ns) / s.(st_client_video_decode_samples) <= decode_limit) ->
  is_Some (wd_stream_policy_update_video_frame_rate_locked p s h).
Proof.
  intros Hp Hs. unfold wd_stream_policy_update_video_frame_rate_locked. cbv zeta.
  match goal with |- context [if ?b then p <| sp_video_decode_ewma_ns := ?v |> else p] =>
    set (r := if b then p <| sp_video_decode_ewma_ns := v |> else p);
    assert (0 <= r.(sp_video_decode_ewma_ns) <= decode_limit) as Hr end.
  { subst r. destruct (Z.eqb_spec s.(st_client_video_decode_samples) 0); cbn [negb Z.eqb]; [done |].
    case_if; [| done]. apply ewma_bounded; [done | by apply Hs]. }
  clearbody r.
  destruct (safe_decode_fps_defined r.(sp_video_decode_ewma_ns) r.(sp_requested_session_fps)
    WD_STREAM_VIDEO_DECODE_HEADROOM_PERCENT Hr) as [f ->]. by eexists.
Qed.

(** As long as the decode times the client reports stay within
    [2^64 / 100] nanoseconds (about six years a frame), the evaluation of its
    reports never divides by zero, in any mode and for any other content of the
    reports. *)
Theorem reports_evaluated p s :
  0 <= p.(sp_video_decode_ewma_ns) <= decode_limit ->
  (s.(st_client_video_decode_samples) <> 0 ->
   0 <= s.(st_client_video_decode_sum_ns) / s.(st_client_video_decode_samples) <= decode_limit) ->
  is_Some (wd_stream_policy_update_health_locked p s).
Proof.
  intros Hp Hs. unfold wd_stream_policy_update_health_locked. cbv zeta.
  set (p0 := note_window p s).
  assert (p0.(sp_video_decode_ewma_ns) = p.(sp_video_decode_ewma_ns)) as E0.
  { subst p0. unfold note_window. cbv zeta. repeat case_match; done. }
  clearbody p0. case_bool_decide; [by eexists |].
  match goal with |- context [video_frame_health ?x s] =>
    set (p1 := x); assert (p1.(sp_video_decode_ewma_ns) = p0.(sp_video_decode_ewma_ns)) as E1
      by (subst p1; repeat case_match; done) end.
  clearbody p1. match goal with |- is_Some (if ?b then _ else _) => destruct b end; [| by eexists].
  unfold video_frame_health. cbv zeta.
  set (p2 := p1 <| sp_video_feedback_pending := false |> <| sp_video_feedback_flags := 0 |>).
  assert (p2.(sp_video_decode_ewma_ns) = p1.(sp_video_decode_ewma_ns)) as E2 by done.
  clearbody p2. assert (forall h, is_Some (wd_stream_policy_update_video_frame_rate_locked p2 s h)) as Hd.
  { intros h. apply video_rate_defined; [congruence || (rewrite E2, E1, E0; done) | done]. }
  match goal with |- is_Some (if ?b then _ else _) => destruct b end; [by eexists |].
  match goal with |- is_Some (if ?b then _ else _) => destruct b end.
  { destruct (Hd WD_CLIENT_VIDEO_HEALTH_DECODER_OVERLOADED) as [[q t] ->]. by eexists. }
  match goal with |- is_Some (if ?b then _ else _) => destruct b end; [by eexists |].
  match goal with |- context [wd_video_health_for_window ?a ?b ?c] =>
    generalize (wd_video_health_for_window a b c) end. intros h.
  destruct (Hd h) as [[q t] ->]. cbn [mbind option_bind].
  match goal with |- is_Some (if ?b then _ else _) => destruct b end; by eexists.
Qed.

Lemma reports_evaluated_witness :
  is_Some (wd_stream_policy_update_health_locked
    ((wd_stream_policy_set_defaults zero_policy) <| sp_stream_mode := WD_STREAM_MODE_VIDEO_ACTIVE |>)
    (zero_stats <| st_client_video_decode_samples := 60 |>
                <| st_client_video_decode_sum_ns := 900000000 |>)).
Proof. apply reports_evaluated; [vm_compute; split; discriminate | intros _; vm_compute; split; discriminate]. Defined.
