(* ===== verification/StreamSession.v ===== *)
(** * A session's stream: who owns the display

    The parts of src/server that drive the stream policy during a session, each
    a transition of the network state under its lock: the controller's tick
    (wd_stream_controller.c), the hand-over of the first keyframe, the worker
    and the reset of the video stream (wd_stream_video.c), the start and the
    completion of a full tile refresh and the deferral of damage behind it (the
    frame worker in wd_stream.c), the client's immediate feedback and its
    acknowledgement of a configuration (wd_server_net.c).

    The encoder, the queue of the video channel and the compositor are outside:
    what they answer is an argument.  Counters that only telemetry reads are
    left out. *)
From S2P Require Import Prelude CFloat Wire Config Structs Payload.
From S2P Require Import FramePacing VideoTransition StreamPolicy.

Record wd_video_worker_job := mk_wd_video_worker_job {
  wj_session_id : Z;
  wj_connection_token : Z;
  wj_epoch : Z;
  wj_source_content_epoch : Z;
  wj_video_tcp_fd : Z;
  wj_request_keyframe : bool;
  wj_first_video_entry : bool;
}.

(** The members of [struct wd_net_state] and [struct wd_server] that take part.
    [net_video_pending_job] is the worker's mailbox: [pending] with
    [pending_job]. *)
Record wd_net_state := mk_wd_net_state {
  net_running : bool;
  net_client_connected : bool;
  net_config_update_pending : bool;
  net_session_id : Z;
  net_connection_token : Z;
  net_content_epoch : Z;
  net_input_correlation_inflight_sequence : Z;
  net_video_stream_negotiated : bool;
  net_video_feedback_negotiated : bool;
  net_video_tcp_fd : Z;
  net_video_tx : bool;
  net_video_worker : bool;
  net_video_worker_epoch : Z;
  net_video_pending_job : option wd_video_worker_job;
  net_stream_policy : wd_stream_policy;
  net_stats : wd_stats;
  net_total_tiles : Z;
  net_framebuffer_generation : Z;
  net_output_refresh_mhz : Z;
  net_scene_dirty : bool;
}.

#[export] Instance wd_net_state_eta : Eta wd_net_state := fun n =>
  mk_wd_net_state (net_running n) (net_client_connected n) (net_config_update_pending n)
    (net_session_id n) (net_connection_token n) (net_content_epoch n)
    (net_input_correlation_inflight_sequence n) (net_video_stream_negotiated n)
    (net_video_feedback_negotiated n) (net_video_tcp_fd n) (net_video_tx n) (net_video_worker n)
    (net_video_worker_epoch n) (net_video_pending_job n) (net_stream_policy n) (net_stats n)
    (net_total_tiles n) (net_framebuffer_generation n) (net_output_refresh_mhz n)
    (net_scene_dirty n).

Abbreviation mode_of n := (n.(net_stream_policy).(sp_stream_mode)).

Definition wd_stream_advance_content_epoch_locked (net : wd_net_state) : wd_net_state :=
  let epoch := u64 (net.(net_content_epoch) + 1) in
  net
    <| net_content_epoch := if epoch =? 0 then 1 else epoch |>
    <| net_input_correlation_inflight_sequence := 0 |>.

(** ** The controller *)

Definition wd_stream_controller_tick (net : wd_net_state) : option wd_net_state :=
  let video_owned_before := wd_stream_mode_video_owns_display (mode_of net) in
  '(policy, stats) ← wd_stream_policy_update_health_locked net.(net_stream_policy) net.(net_stats);
  let video_runtime_available := net.(net_video_stream_negotiated) && net.(net_video_worker) in
  let policy :=
    wd_stream_policy_update_mode_locked policy stats net.(net_total_tiles)
      net.(net_video_stream_negotiated) (0 <=? net.(net_video_tcp_fd)) video_runtime_available in
  let net := net <| net_stream_policy := policy |> <| net_stats := stats |> in
  let video_owned_after := wd_stream_mode_video_owns_display policy.(sp_stream_mode) in
  if negb (eqb video_owned_before video_owned_after) then
    let net := wd_stream_advance_content_epoch_locked net in
    if negb video_owned_after &&
       bool_decide (policy.(sp_stream_mode) = WD_STREAM_MODE_TILE_RECOVERY)
    then Some (net <| net_stream_policy :=
                 policy <| sp_tile_recovery_content_epoch := net.(net_content_epoch) |> |>)
    else Some net
  else Some net.

(** The frame clock of the compositor. *)
Definition output_refresh_hz (net : wd_net_state) : Z :=
  u16 (u32 (net.(net_output_refresh_mhz) + 500) / 1000).

Definition wd_stream_frame_service_interval_ms (net : wd_net_state) : Z :=
  wd_frame_service_interval_ms
    (wd_stream_policy_capture_pacing_fps_locked net.(net_stream_policy) (output_refresh_hz net))
    WD_SERVER_FRAME_SERVICE_MIN_INTERVAL_MS WD_SERVER_FRAME_SERVICE_MAX_INTERVAL_MS.

Definition wd_stream_policy_should_render_now (net : wd_net_state) (now_ns : Z)
    : bool * wd_net_state :=
  let policy := net.(net_stream_policy) in
  if negb net.(net_client_connected) || net.(net_config_update_pending) then (false, net)
  else if negb net.(net_scene_dirty) then (false, net)
  else
    let fps := wd_stream_policy_capture_pacing_fps_locked policy (output_refresh_hz net) in
    let '(should, pacing) := wd_frame_pacing_due (Some policy.(sp_frame_pacing)) now_ns fps in
    (should,
     net <| net_stream_policy :=
       policy <| sp_frame_pacing := default policy.(sp_frame_pacing) pacing |> |>).

(** ** The video stream *)

Definition wd_stream_video_bitrate_kib_locked (policy : ptr wd_stream_policy) : Z :=
  match policy with
  | NULL => WD_VIDEO_DEFAULT_BITRATE_KIB_PER_SECOND
  | Some policy =>
      if negb (policy.(sp_video_bitrate_kib_per_second) =? 0)
      then policy.(sp_video_bitrate_kib_per_second)
      else if policy.(sp_video_bytes_per_second) =? 0
      then WD_VIDEO_DEFAULT_BITRATE_KIB_PER_SECOND
      else
        let kib := policy.(sp_video_bytes_per_second) / 1024 in
        if kib =? 0 then WD_VIDEO_DEFAULT_BITRATE_KIB_PER_SECOND
        else u32 (if kib >? WD_VIDEO_DERIVED_BITRATE_MAX_KIB_PER_SECOND
                  then WD_VIDEO_DERIVED_BITRATE_MAX_KIB_PER_SECOND else kib)
  end.

Definition wd_stream_video_job_current_locked (net : wd_net_state) (job : wd_video_worker_job)
    : bool :=
  net.(net_running) && (net.(net_video_worker_epoch) =? job.(wj_epoch)) &&
  (net.(net_session_id) =? job.(wj_session_id)) &&
  (net.(net_connection_token) =? job.(wj_connection_token)) &&
  (net.(net_content_epoch) =? job.(wj_source_content_epoch)) &&
  (net.(net_video_tcp_fd) =? job.(wj_video_tcp_fd)) && net.(net_video_stream_negotiated) &&
  net.(net_video_tx) &&
  match mode_of net with
  | WD_STREAM_MODE_VIDEO_READY | WD_STREAM_MODE_VIDEO_ACTIVE | WD_STREAM_MODE_VIDEO_RECOVERING => true
  | _ => false
  end.

(** The job that [wd_stream_try_publish_video_snapshot_locked] puts into the
    worker's mailbox, once the snapshot has been checked. [pending_send] says
    that a video frame is still queued on the channel. *)
Definition publish_job (net : wd_net_state) (pending_send : bool) : option wd_video_worker_job :=
  if negb net.(net_video_worker) || negb (wd_stream_mode_uses_video_frames (mode_of net)) ||
     negb net.(net_video_stream_negotiated) || (net.(net_video_tcp_fd) <? 0) ||
     negb net.(net_video_tx)
  then None
  else if pending_send then None
  else
    let ready := bool_decide (mode_of net = WD_STREAM_MODE_VIDEO_READY) in
    Some (mk_wd_video_worker_job net.(net_session_id) net.(net_connection_token)
            net.(net_video_worker_epoch) net.(net_content_epoch) net.(net_video_tcp_fd)
            (ready ||
             (bool_decide (mode_of net = WD_STREAM_MODE_VIDEO_RECOVERING) &&
              negb net.(net_stream_policy).(sp_video_recovery_keyframe_queued)))
            ready).

Definition wd_stream_video_worker_discard_locked (net : wd_net_state) : wd_net_state :=
  let epoch := u64 (net.(net_video_worker_epoch) + 1) in
  let net := net <| net_video_worker_epoch := if epoch =? 0 then 1 else epoch |> in
  if negb net.(net_video_worker) then net else net <| net_video_pending_job := None |>.

Definition wd_stream_video_reset_locked (net : wd_net_state) (resize : bool) : wd_net_state :=
  let leaving_video := wd_stream_mode_video_owns_display (mode_of net) in
  let net := if resize || leaving_video then wd_stream_advance_content_epoch_locked net else net in
  let net := wd_stream_video_worker_discard_locked net in
  let policy := net.(net_stream_policy)
    <| sp_video_candidate_seconds := 0 |> <| sp_tile_recovery_seconds := 0 |> in
  let policy :=
    if resize then policy <| sp_video_decode_ewma_ns := 0 |> <| sp_video_decode_safe_fps := 0 |>
    else policy in
  let previous_mode := policy.(sp_stream_mode) in
  let previous_mode_selected_video := wd_stream_mode_uses_video_frames previous_mode in
  let policy :=
    if resize && net.(net_client_connected) &&
       (previous_mode_selected_video ||
        (bool_decide (previous_mode = WD_STREAM_MODE_TILE_RECOVERY) &&
         policy.(sp_planned_recovery_resume_video)))
    then
      let policy := policy <| sp_planned_recovery_resume_video := true |> in
      if previous_mode_selected_video
      then policy <| sp_planned_recovery_source_mode := previous_mode |> else policy
    else if negb resize
    then policy
      <| sp_planned_recovery_resume_video := false |>
      <| sp_planned_recovery_source_mode := WD_STREAM_MODE_TILES |>
    else policy in
  let policy :=
    if bool_decide (policy.(sp_stream_mode) <> WD_STREAM_MODE_TILES) then
      let policy :=
        if resize && bool_decide (policy.(sp_stream_mode) = WD_STREAM_MODE_TILE_RECOVERY) &&
           bool_decide (policy.(sp_video_recovery_class) = WD_VIDEO_RECOVERY_PLANNED)
        then policy
          <| sp_tile_refresh_pending := true |>
          <| sp_tile_recovery_refresh_started := false |>
          <| sp_tile_recovery_refresh_sent := false |>
          <| sp_tile_recovery_wait_seconds := 0 |>
          <| sp_tile_recovery_content_epoch := 0 |>
          <| sp_tile_recovery_framebuffer_generation := 0 |>
          <| sp_tile_recovery_live_damage_deferred := false |>
        else policy in
      wd_stream_policy_set_mode_locked policy
        (if net.(net_client_connected) then WD_STREAM_MODE_TILE_RECOVERY else WD_STREAM_MODE_TILES)
        (if net.(net_client_connected)
         then (if resize then WD_VIDEO_RECOVERY_PLANNED else WD_VIDEO_RECOVERY_FAILURE)
         else WD_VIDEO_RECOVERY_NONE)
    else policy in
  net <| net_stream_policy := policy |>.

(** An encoded frame: what the encoder and the channel answered. *)
Record encoded_frame := mk_encoded_frame {
  ef_flags : Z;
  ef_frame_id : Z;
  ef_encode_ns : Z;
  ef_software_av1 : bool;
  ef_pending_send : bool;   (* a video frame is still queued on the channel *)
  ef_queued : bool;         (* the channel accepted the frame *)
}.

Definition frame_entry_plan (job : wd_video_worker_job) (f : encoded_frame) : wd_video_entry_plan :=
  wd_video_entry_plan_make job.(wj_source_content_epoch)
    (job.(wj_first_video_entry) && job.(wj_request_keyframe)) (flag f.(ef_flags) WD_VIDEO_FRAME_KEYFRAME).

(** The second half of [wd_stream_video_worker_process], after the frame was
    encoded: the content epoch of the frame that went to the channel, if any,
    and the state. *)
Definition publish_encoded_frame (net : wd_net_state) (job : wd_video_worker_job) (f : encoded_frame)
    : option Z * wd_net_state :=
  let keyframe := flag f.(ef_flags) WD_VIDEO_FRAME_KEYFRAME in
  let entry_plan := frame_entry_plan job f in
  if negb (wd_stream_video_job_current_locked net job) then (None, net)
  else
    let policy := net.(net_stream_policy) in
    let policy :=
      if f.(ef_software_av1) && bool_decide (policy.(sp_stream_mode) = WD_STREAM_MODE_VIDEO_ACTIVE) &&
         negb keyframe && negb (f.(ef_encode_ns) =? 0)
      then
        let policy := policy
          <| sp_video_encode_ewma_ns :=
               wd_video_encode_pacing_ewma policy.(sp_video_encode_ewma_ns) f.(ef_encode_ns) |> in
        if policy.(sp_video_encode_pacing_samples) <? WD_VIDEO_ENCODE_PACING_WARMUP_SAMPLES
        then policy
          <| sp_video_encode_pacing_samples := u32 (policy.(sp_video_encode_pacing_samples) + 1) |>
        else policy
      else policy in
    let net := net <| net_stream_policy := policy |> in
    if f.(ef_pending_send) then (None, net)
    else if job.(wj_request_keyframe) && negb keyframe then (None, net)
    else if negb f.(ef_queued) then (None, wd_stream_video_reset_locked net false)
    else
      let net := net <| net_stats :=
        net.(net_stats) <| st_video_frames_tx := u64 (net.(net_stats).(st_video_frames_tx) + 1) |> |> in
      let policy := net.(net_stream_policy) in
      let policy :=
        if bool_decide (policy.(sp_stream_mode) = WD_STREAM_MODE_VIDEO_RECOVERING) && keyframe then
          match wd_video_recovery_track_keyframe
                  (Some (policy.(sp_video_recovery_keyframe_queued),
                         policy.(sp_video_recovery_keyframe_id),
                         policy.(sp_video_recovery_wait_seconds))) f.(ef_frame_id) with
          | (_, Some (queued, frame_id, wait_seconds)) =>
              policy
                <| sp_video_recovery_keyframe_queued := queued |>
                <| sp_video_recovery_keyframe_id := frame_id |>
                <| sp_video_recovery_wait_seconds := wait_seconds |>
          | (_, NULL) => policy
          end
        else policy in
      let net := net <| net_stream_policy := policy |> in
      if bool_decide (policy.(sp_stream_mode) = WD_STREAM_MODE_VIDEO_READY) &&
         wd_video_entry_plan_can_commit (Some entry_plan) net.(net_content_epoch) true
      then
        (Some entry_plan.(ep_frame_content_epoch),
         net
           <| net_content_epoch := entry_plan.(ep_frame_content_epoch) |>
           <| net_input_correlation_inflight_sequence := 0 |>
           <| net_stream_policy :=
                wd_stream_policy_set_mode_locked policy WD_STREAM_MODE_VIDEO_ACTIVE
                  WD_VIDEO_RECOVERY_NONE |>)
      else (Some entry_plan.(ep_frame_content_epoch), net).

(** ** Full refreshes by tiles *)

(** The start of a full refresh in the frame worker: [detect_new_damage] says
    that the pass has a captured frame, [full_refresh] that the frame's
    analysis covers every tile. *)
Definition start_tile_refresh (net : wd_net_state) (detect_new_damage full_refresh : bool)
    : wd_net_state :=
  let policy := net.(net_stream_policy) in
  if negb net.(net_client_connected) || net.(net_config_update_pending) then net
  else if policy.(sp_tile_refresh_pending) ||
          (bool_decide (policy.(sp_stream_mode) = WD_STREAM_MODE_TILE_RECOVERY) &&
           negb policy.(sp_tile_recovery_refresh_started))
  then
    if negb (detect_new_damage && full_refresh) then net
    else
      let recovering_from_video :=
        bool_decide (policy.(sp_stream_mode) = WD_STREAM_MODE_TILE_RECOVERY) in
      let bootstrap_refresh :=
        policy.(sp_video_bootstrap_pending) && negb policy.(sp_video_bootstrap_refresh_started) in
      let policy := policy
        <| sp_tile_refresh_pending := false |>
        <| sp_tile_recovery_refresh_started := recovering_from_video |>
        <| sp_tile_recovery_refresh_sent := false |>
        <| sp_tile_recovery_wait_seconds := 0 |> in
      let policy :=
        if recovering_from_video then policy
          <| sp_tile_recovery_content_epoch := net.(net_content_epoch) |>
          <| sp_tile_recovery_framebuffer_generation := net.(net_framebuffer_generation) |>
          <| sp_tile_recovery_live_damage_deferred := false |>
        else policy in
      let policy :=
        if bootstrap_refresh then policy
          <| sp_video_bootstrap_refresh_started := true |>
          <| sp_video_bootstrap_refresh_sent := false |>
          <| sp_video_bootstrap_wait_seconds := 0 |>
          <| sp_video_bootstrap_content_epoch := net.(net_content_epoch) |>
        else policy in
      net <| net_stream_policy := policy |>
  else net.

(** The end of a pass of the frame worker: [queues_empty] says that no dirty
    or retransmitted tile is left. *)
Definition finish_tile_refresh (net : wd_net_state) (queues_empty : bool) : wd_net_state :=
  let policy := net.(net_stream_policy) in
  let recovery_generation_action :=
    if bool_decide (policy.(sp_stream_mode) = WD_STREAM_MODE_TILE_RECOVERY)
    then wd_tile_recovery_generation_decide policy.(sp_tile_recovery_refresh_started)
           policy.(sp_tile_recovery_refresh_sent) policy.(sp_tile_recovery_framebuffer_generation)
           net.(net_framebuffer_generation) queues_empty
    else WD_TILE_RECOVERY_GENERATION_WAIT in
  let policy :=
    match recovery_generation_action with
    | WD_TILE_RECOVERY_GENERATION_STALE => policy
        <| sp_tile_refresh_pending := true |>
        <| sp_tile_recovery_refresh_started := false |>
        <| sp_tile_recovery_refresh_sent := false |>
        <| sp_tile_recovery_wait_seconds := 0 |>
        <| sp_tile_recovery_content_epoch := 0 |>
        <| sp_tile_recovery_framebuffer_generation := 0 |>
    | WD_TILE_RECOVERY_GENERATION_TRANSMITTED => policy
        <| sp_tile_recovery_refresh_sent := true |>
        <| sp_tile_recovery_wait_seconds := 0 |>
    | WD_TILE_RECOVERY_GENERATION_WAIT => policy
    end in
  let policy :=
    if policy.(sp_video_bootstrap_pending) && policy.(sp_video_bootstrap_refresh_started) &&
       negb policy.(sp_video_bootstrap_refresh_sent) && queues_empty
    then policy
      <| sp_video_bootstrap_refresh_sent := true |>
      <| sp_video_bootstrap_wait_seconds := 0 |>
    else policy in
  net <| net_stream_policy := policy |>.

(** ** Immediate feedback *)

Definition accept_video_feedback (net : wd_net_state) (feedback : wd_video_feedback_payload)
    : wd_net_state :=
  let policy := net.(net_stream_policy) in
  if net.(net_video_feedback_negotiated) && (feedback.(vb_session_id) =? net.(net_session_id)) &&
     (feedback.(vb_connection_token) =? net.(net_connection_token)) &&
     (feedback.(vb_content_epoch) =? net.(net_content_epoch)) &&
     negb (feedback.(vb_sequence) =? 0) &&
     (feedback.(vb_sequence) >? policy.(sp_video_feedback_sequence)) &&
     negb (feedback.(vb_flags) =? 0) && negb (outside feedback.(vb_flags) WD_VIDEO_FEEDBACK_FLAG_MASK) &&
     (feedback.(vb_decoder_phase) <=? WD_VIDEO_DECODER_PHASE_RECOVERING)
  then
    net <| net_stream_policy := policy
      <| sp_video_feedback_pending := true |>
      <| sp_video_feedback_flags := Z.lor policy.(sp_video_feedback_flags) feedback.(vb_flags) |>
      <| sp_video_feedback_sequence := feedback.(vb_sequence) |>
      <| sp_video_feedback_last_frame_id_rx := feedback.(vb_last_frame_id_rx) |>
      <| sp_video_feedback_last_frame_id_decoded := feedback.(vb_last_frame_id_decoded) |>
      <| sp_video_feedback_last_frame_id_presented := feedback.(vb_last_frame_id_presented) |>
      <| sp_video_feedback_decode_queue_depth := feedback.(vb_decode_queue_depth) |>
      <| sp_video_feedback_decode_queue_capacity := feedback.(vb_decode_queue_capacity) |>
      <| sp_video_feedback_present_queue_depth := feedback.(vb_present_queue_depth) |>
      <| sp_video_feedback_present_queue_capacity := feedback.(vb_present_queue_capacity) |>
      <| sp_video_feedback_presentation_stall_ms := feedback.(vb_presentation_stall_ms) |>
      <| sp_video_feedback_audio_sync_hold_ms := feedback.(vb_audio_sync_hold_ms) |>
      <| sp_video_feedback_decoder_phase := feedback.(vb_decoder_phase) |> |>
  else net.

(** ** Damage during a recovery, and an applied configuration *)

(** The recovery snapshot is a barrier: damage that a pass finds while its tiles
    drain is deferred. *)
Definition defer_live_damage (net : wd_net_state) (detect_new_damage recovery_refresh_started_this_pass : bool)
    : wd_net_state :=
  let policy := net.(net_stream_policy) in
  if detect_new_damage && bool_decide (policy.(sp_stream_mode) = WD_STREAM_MODE_TILE_RECOVERY) &&
     policy.(sp_tile_recovery_refresh_started) && negb recovery_refresh_started_this_pass
  then net <| net_stream_policy := policy <| sp_tile_recovery_live_damage_deferred := true |> |>
  else net.

(** The client's acknowledgement of a configuration: the pacing starts anew. *)
Definition accept_config_applied (net : wd_net_state) (config_epoch : Z) (applied : wd_config_applied_payload)
    : wd_net_state :=
  if net.(net_config_update_pending) &&
     wd_config_applied_matches (Some applied) net.(net_session_id) net.(net_connection_token) config_epoch
  then
    let policy := net.(net_stream_policy) in
    net <| net_config_update_pending := false |>
        <| net_stream_policy := policy
             <| sp_frame_pacing := reset_pacing policy.(sp_frame_pacing) |>
             <| sp_client_render_pressure_seconds := 0 |>
             <| sp_frame_rate_good_seconds := 0 |> |>
  else net.

(** ** Runs of a session

    The transitions in any order. [EvReports] is the arrival of an interval's
    statistics, [EvEnvironment] a change of the members that other threads
    own; a tick whose arithmetic is undefined has no successor. *)

Inductive stream_event :=
  | EvReports (stats : wd_stats)
  | EvTick
  | EvPublish (job : wd_video_worker_job) (f : encoded_frame)
  | EvReset (is_resize : bool)
  | EvStartRefresh (detect_new_damage full_refresh : bool)
  | EvFinishRefresh (queues_empty : bool)
  | EvFeedback (feedback : wd_video_feedback_payload)
  | EvRender (now_ns : Z)
  | EvDamage (detect_new_damage recovery_refresh_started_this_pass : bool)
  | EvConfigApplied (config_epoch : Z) (applied : wd_config_applied_payload)
  | EvEnvironment (running connected config_pending negotiated tx worker scene_dirty : bool)
      (fd generation mhz : Z).

Definition step (n : wd_net_state) (e : stream_event) : option wd_net_state :=
  match e with
  | EvReports stats => Some (n <| net_stats := stats |>)
  | EvTick => wd_stream_controller_tick n
  | EvPublish job f => Some (publish_encoded_frame n job f).2
  | EvReset is_resize => Some (wd_stream_video_reset_locked n is_resize)
  | EvStartRefresh d full => Some (start_tile_refresh n d full)
  | EvFinishRefresh empty => Some (finish_tile_refresh n empty)
  | EvFeedback feedback => Some (accept_video_feedback n feedback)
  | EvRender now => Some (wd_stream_policy_should_render_now n now).2
  | EvDamage d started => Some (defer_live_damage n d started)
  | EvConfigApplied epoch applied => Some (accept_config_applied n epoch applied)
  | EvEnvironment running connected config negotiated tx worker dirty fd generation mhz =>
      Some (n <| net_running := running |> <| net_client_connected := connected |>
              <| net_config_update_pending := config |>
              <| net_video_stream_negotiated := negotiated |> <| net_video_tx := tx |>
              <| net_video_worker := worker |> <| net_scene_dirty := dirty |>
              <| net_video_tcp_fd := fd |> <| net_framebuffer_generation := generation |>
              <| net_output_refresh_mhz := mhz |>)
  end.

Fixpoint run (n : wd_net_state) (es : list stream_event) : option wd_net_state :=
  match es with
  | [] => Some n
  | e :: es => n' ← step n e; run n' es
  end.

(** The start of a session. *)
Definition session_start (n : wd_net_state) (hello : wd_client_hello_payload) (link_rate : Z)
    (audio : bool) (audio_bitrate : Z) : wd_net_state :=
  n <| net_stream_policy :=
    wd_stream_policy_begin_session
      (wd_stream_policy_set_link_rate n.(net_stream_policy) link_rate audio audio_bitrate) hello
      n.(net_content_epoch) |>.

Definition owns (n : wd_net_state) : bool := wd_stream_mode_video_owns_display (mode_of n).

Lemma run_app n es fs : run n (es ++ fs) = n' ← run n es; run n' fs.
Proof.
  revert n; induction es as [|e es IH]; intros n; cbn [app run]; [done |].
  destruct (step n e) as [n'|]; cbn; [apply IH | done].
Qed.

(** *** What a step does to the epoch and the owner *)

Lemma advance_epoch n :
  (wd_stream_advance_content_epoch_locked n).(net_content_epoch) =
    wd_next_nonzero_epoch n.(net_content_epoch) /\
  (wd_stream_advance_content_epoch_locked n).(net_stream_policy) = n.(net_stream_policy).
Proof. split; reflexivity. Qed.

(** Each step keeps epoch and owner, or moves to the next epoch. *)
Definition epoch_step (n n' : wd_net_state) : Prop :=
  (n'.(net_content_epoch) = n.(net_content_epoch) /\ owns n' = owns n) \/
  n'.(net_content_epoch) = wd_next_nonzero_epoch n.(net_content_epoch).

Lemma tick_spec n n' :
  wd_stream_controller_tick n = Some n' ->
  exists q t q' , wd_stream_policy_update_health_locked n.(net_stream_policy) n.(net_stats) = Some (q, t) /\
    q' = wd_stream_policy_update_mode_locked q t n.(net_total_tiles) n.(net_video_stream_negotiated)
           (0 <=? n.(net_video_tcp_fd)) (n.(net_video_stream_negotiated) && n.(net_video_worker)) /\
    mode_of n' = q'.(sp_stream_mode) /\ boot_view n'.(net_stream_policy) = boot_view q' /\
    rec_view n'.(net_stream_policy) = rec_view q' /\
    ((n'.(net_content_epoch) = n.(net_content_epoch) /\ owns n' = owns n) \/
     (n'.(net_content_epoch) = wd_next_nonzero_epoch n.(net_content_epoch) /\ owns n' <> owns n)).
Proof.
  unfold wd_stream_controller_tick. cbv zeta.
  destruct (wd_stream_policy_update_health_locked _ _) as [[q t]|]; cbn [mbind option_bind]; [| done].
  set (q' := wd_stream_policy_update_mode_locked _ _ _ _ _ _).
  intros H. exists q, t, q'. split; [done |]. split; [reflexivity |]. clearbody q'.
  destruct (eqb _ _) eqn:E; cbn [negb] in H.
  - apply (inj Some) in H as <-. apply eqb_prop in E.
    split_and!; try reflexivity. left. split; [reflexivity | symmetry; exact E].
  - apply eqb_false_iff in E.
    destruct (_ && _); apply (inj Some) in H as <-;
      split_and!; try reflexivity; right; (split; [reflexivity | intros Ho; apply E; symmetry; exact Ho]).
Qed.

Lemma discard_keeps n :
  (wd_stream_video_worker_discard_locked n).(net_content_epoch) = n.(net_content_epoch) /\
  (wd_stream_video_worker_discard_locked n).(net_stream_policy) = n.(net_stream_policy) /\
  (wd_stream_video_worker_discard_locked n).(net_client_connected) = n.(net_client_connected).
Proof. unfold wd_stream_video_worker_discard_locked. cbv zeta. case_match; done. Qed.

(** A reset leaves the display to the tiles. *)
Lemma reset_spec n resize :
  let n' := wd_stream_video_reset_locked n resize in
  boot_view n'.(net_stream_policy) = boot_view n.(net_stream_policy) /\
  owns n' = false /\
  (mode_of n = WD_STREAM_MODE_TILES -> mode_of n' = WD_STREAM_MODE_TILES) /\
  mode_of n' <> WD_STREAM_MODE_VIDEO_RECOVERING /\
  n'.(net_content_epoch) =
    if resize || owns n then wd_next_nonzero_epoch n.(net_content_epoch) else n.(net_content_epoch).
Proof.
  cbv zeta. unfold wd_stream_video_reset_locked, owns. cbv zeta.
  set (n0 := if resize || wd_stream_mode_video_owns_display (mode_of n)
             then wd_stream_advance_content_epoch_locked n else n).
  assert (n0.(net_stream_policy) = n.(net_stream_policy) /\ n0.(net_content_epoch) =
    if resize || wd_stream_mode_video_owns_display (mode_of n)
    then wd_next_nonzero_epoch n.(net_content_epoch) else n.(net_content_epoch)) as [P0 E0]
    by (subst n0; case_if; split; reflexivity).
  clearbody n0. destruct (discard_keeps n0) as (E1 & P1 & _).
  set (n1 := wd_stream_video_worker_discard_locked n0) in *. clearbody n1.
  rewrite <- E0, <- E1, <- P0, <- P1. clear E0 E1 P0 P1.
  set (p := n1.(net_stream_policy)). change (mode_of n1) with p.(sp_stream_mode).
  match goal with |- context [bool_decide (sp_stream_mode ?x <> WD_STREAM_MODE_TILES)] =>
    set (q := x); assert (keeps p q) as (M & B & _) by (subst q; repeat case_if; done) end.
  clearbody q. clearbody p. rewrite <- B, <- M. clear B M p.
  case_bool_decide as Em.
  - match goal with |- context [wd_stream_policy_set_mode_locked ?x ?m ?c] =>
      set (r := x); assert (boot_view r = boot_view q) as B by (subst r; repeat case_match; done);
      clearbody r; set (md := m); destruct (set_mode_keeps r md c) as (M1 & B1 & _);
      set (w := wd_stream_policy_set_mode_locked r md c) in *; clearbody w;
      assert (md = WD_STREAM_MODE_TILE_RECOVERY \/ md = WD_STREAM_MODE_TILES) as Hmd
        by (subst md; case_if; auto) end.
    cbn. clearbody md. split_and!; [congruence | | done | | done];
      rewrite M1; destruct Hmd as [->| ->]; done.
  - assert (q.(sp_stream_mode) = WD_STREAM_MODE_TILES) as Eq by (destruct (q.(sp_stream_mode)); naive_solver).
    cbn. rewrite Eq. done.
Qed.

(** The recovery state after a frame was queued: the first keyframe of an
    attempt is latched. *)
Definition rec_tracked (p q : wd_stream_policy) : Prop :=
  rec_view q = rec_view p \/
  (p.(sp_video_recovery_keyframe_queued) = false /\
   q.(sp_video_recovery_attempts) = p.(sp_video_recovery_attempts) /\
   q.(sp_video_recovery_wait_seconds) = 0 /\ q.(sp_video_recovery_keyframe_queued) = true).

(** The outcomes of handing an encoded frame to the channel. *)
Inductive published (n : wd_net_state) (job : wd_video_worker_job) (f : encoded_frame)
    : option Z -> wd_net_state -> Prop :=
  | published_dropped n' :
      keeps n.(net_stream_policy) n'.(net_stream_policy) ->
      n'.(net_content_epoch) = n.(net_content_epoch) -> published n job f None n'
  | published_reset m :
      keeps n.(net_stream_policy) m.(net_stream_policy) ->
      m.(net_content_epoch) = n.(net_content_epoch) ->
      published n job f None (wd_stream_video_reset_locked m false)
  | published_entry n' :
      mode_of n = WD_STREAM_MODE_VIDEO_READY ->
      wd_video_entry_plan_can_commit (Some (frame_entry_plan job f)) n.(net_content_epoch) true = true ->
      n'.(net_content_epoch) = (frame_entry_plan job f).(ep_frame_content_epoch) ->
      mode_of n' = WD_STREAM_MODE_VIDEO_ACTIVE ->
      boot_view n'.(net_stream_policy) = boot_view n.(net_stream_policy) ->
      published n job f (Some (frame_entry_plan job f).(ep_frame_content_epoch)) n'
  | published_frame n' :
      wd_stream_video_job_current_locked n job = true ->
      (job.(wj_request_keyframe) = true -> flag f.(ef_flags) WD_VIDEO_FRAME_KEYFRAME = true) ->
      (mode_of n = WD_STREAM_MODE_VIDEO_READY ->
       wd_video_entry_plan_can_commit (Some (frame_entry_plan job f)) n.(net_content_epoch) true = false) ->
      mode_of n' = mode_of n ->
      boot_view n'.(net_stream_policy) = boot_view n.(net_stream_policy) ->
      rec_tracked n.(net_stream_policy) n'.(net_stream_policy) ->
      n'.(net_content_epoch) = n.(net_content_epoch) ->
      published n job f (Some (frame_entry_plan job f).(ep_frame_content_epoch)) n'.

Lemma publish_cases n job f :
  published n job f (publish_encoded_frame n job f).1 (publish_encoded_frame n job f).2.
Proof.
  unfold publish_encoded_frame. cbv zeta.
  destruct (wd_stream_video_job_current_locked n job) eqn:Ej; cbn [negb]; [| by apply published_dropped].
  match goal with |- context [n <| net_stream_policy := ?x |>] =>
    set (p := x); assert (keeps n.(net_stream_policy) p) as K by (subst p; repeat case_match; done) end.
  clearbody p. destruct f.(ef_pending_send); [by apply published_dropped |].
  destruct (job.(wj_request_keyframe) && negb _) eqn:Ek; [by apply published_dropped |].
  destruct f.(ef_queued); cbn [negb]; [| by apply published_reset].
  set (m := n <| net_stream_policy := p |> <| net_stats := _ |>).
  assert (m.(net_stream_policy) = p /\ m.(net_content_epoch) = n.(net_content_epoch)) as [Hp He] by done.
  clearbody m. rewrite Hp. destruct K as (M & B & R).
  match goal with |- context [m <| net_stream_policy := ?x |>] =>
    set (q := x); assert (q.(sp_stream_mode) = p.(sp_stream_mode) /\ boot_view q = boot_view p /\
      rec_tracked p q) as (M1 & B1 & R1) end.
  { subst q. destruct (bool_decide _ && _); [| split_and!; [done | done | by left]].
    unfold wd_video_recovery_track_keyframe.
    destruct (p.(sp_video_recovery_keyframe_queued)) eqn:Eq, (f.(ef_frame_id) =? 0); cbn [orb];
      (split_and!; [done | done |]); first [left; unfold rec_view; rewrite <- Eq; reflexivity | right; by rewrite Eq]. }
  clearbody q.
  assert (rec_tracked n.(net_stream_policy) q) as R2.
  { unfold rec_tracked in *. pose proof R as R0. injection R0 as R2 R3 R4 R5. destruct R1 as [R1|R1].
    - left. by rewrite R1.
    - right. rewrite <- R4, <- R2. exact R1. }
  destruct (bool_decide _ && _) eqn:Ec; cbn [fst snd].
  - apply andb_true_iff in Ec as [Ec1 Ec2]. apply bool_decide_eq_true in Ec1.
    change (m <| net_stream_policy := q |>).(net_content_epoch) with m.(net_content_epoch) in Ec2.
    apply published_entry; [congruence | by rewrite <- He | done | |].
    + apply (set_mode_mode q).
    + etrans; [apply (set_mode_boot q) | congruence].
  - change (m <| net_stream_policy := q |>).(net_content_epoch) with m.(net_content_epoch) in Ec.
    apply published_frame; [done | | | | | exact R2 | exact He].
    + intros Hk. rewrite Hk in Ek. cbn in Ek. by destruct (flag _ _).
    + intros Hm. rewrite <- He. apply andb_false_iff in Ec as [Ec|Ec]; [| done].
      apply bool_decide_eq_false in Ec. congruence.
    + change (q.(sp_stream_mode) = mode_of n). congruence.
    + change (boot_view q = boot_view n.(net_stream_policy)). congruence.
Qed.

Lemma start_refresh_keeps n d full :
  (start_tile_refresh n d full).(net_content_epoch) = n.(net_content_epoch) /\
  mode_of (start_tile_refresh n d full) = mode_of n /\
  (start_tile_refresh n d full).(net_stream_policy).(sp_video_bootstrap_pending) =
    n.(net_stream_policy).(sp_video_bootstrap_pending) /\
  rec_view (start_tile_refresh n d full).(net_stream_policy) = rec_view n.(net_stream_policy).
Proof. unfold start_tile_refresh. cbv zeta. repeat case_match; done. Qed.

Lemma finish_refresh_keeps n b :
  (finish_tile_refresh n b).(net_content_epoch) = n.(net_content_epoch) /\
  mode_of (finish_tile_refresh n b) = mode_of n /\
  (finish_tile_refresh n b).(net_stream_policy).(sp_video_bootstrap_pending) =
    n.(net_stream_policy).(sp_video_bootstrap_pending) /\
  rec_view (finish_tile_refresh n b).(net_stream_policy) = rec_view n.(net_stream_policy).
Proof. unfold finish_tile_refresh. cbv zeta. repeat case_match; done. Qed.

Lemma feedback_keeps n fb :
  (accept_video_feedback n fb).(net_content_epoch) = n.(net_content_epoch) /\
  keeps n.(net_stream_policy) (accept_video_feedback n fb).(net_stream_policy).
Proof. unfold accept_video_feedback. cbv zeta. case_match; done. Qed.

Lemma render_keeps n now :
  (wd_stream_policy_should_render_now n now).2.(net_content_epoch) = n.(net_content_epoch) /\
  keeps n.(net_stream_policy) (wd_stream_policy_should_render_now n now).2.(net_stream_policy).
Proof.
  unfold wd_stream_policy_should_render_now. cbv zeta.
  destruct (_ || _); [done |]. destruct (negb _); [done |].
  destruct (wd_frame_pacing_due _ _ _) as [b p]. done.
Qed.

(** The steps that are neither a tick, a publication nor a reset keep the
    epoch, the mode, the pending bootstrap and the recovery. *)
Lemma quiet_step n e n' :
  step n e = Some n' ->
  match e with EvTick | EvPublish _ _ | EvReset _ => False | _ => True end ->
  n'.(net_content_epoch) = n.(net_content_epoch) /\ mode_of n' = mode_of n /\
  n'.(net_stream_policy).(sp_video_bootstrap_pending) =
    n.(net_stream_policy).(sp_video_bootstrap_pending) /\
  rec_view n'.(net_stream_policy) = rec_view n.(net_stream_policy).
Proof.
  assert (forall p q, keeps p q -> q.(sp_stream_mode) = p.(sp_stream_mode) /\
    q.(sp_video_bootstrap_pending) = p.(sp_video_bootstrap_pending) /\ rec_view q = rec_view p) as Hk.
  { intros p q (? & B & ?). by injection B. }
  destruct e; cbn [step]; try done; intros H _; apply (inj Some) in H as <-; try done.
  - destruct (start_refresh_keeps n detect_new_damage full_refresh) as (? & ? & ? & ?). done.
  - destruct (finish_refresh_keeps n queues_empty) as (? & ? & ? & ?). done.
  - destruct (feedback_keeps n feedback) as (? & K). destruct (Hk _ _ K) as (? & ? & ?). done.
  - destruct (render_keeps n now_ns) as (? & K). destruct (Hk _ _ K) as (? & ? & ?). done.
  - unfold defer_live_damage. by case_match.
  - unfold accept_config_applied. by case_match.
Qed.

Lemma step_epoch n e n' : step n e = Some n' -> epoch_step n n'.
Proof.
  intros H. unfold epoch_step.
  assert (match e with EvTick | EvPublish _ _ | EvReset _ => False | _ => True end \/
          match e with EvTick | EvPublish _ _ | EvReset _ => True | _ => False end) as [Hq|Hq]
    by (destruct e; auto).
  - destruct (quiet_step n e n' H Hq) as (E & M & _ & _). left. unfold owns. by rewrite M.
  - destruct e; try done; cbn [step] in H.
    + destruct (tick_spec _ _ H) as (q & t & q' & _ & _ & _ & _ & _ & E). naive_solver.
    + apply (inj Some) in H as <-. pose proof (publish_cases n job f) as Hp. inversion Hp as
        [n1 (M & _ & _) E|m (M & _ & _) E|n1 Hm Hc E M B|n1 Hj Hk Hc M B R E]; subst.
      * left. unfold owns. by rewrite M.
      * destruct (reset_spec m false) as (_ & Ho & _ & _ & Ee). rewrite Ee, Ho, E. cbn [orb].
        destruct (owns m) eqn:Em; [by right |]. left. unfold owns in *. rewrite M in Em. done.
      * right. rewrite E. unfold wd_video_entry_plan_can_commit in Hc. bool_cases. done.
      * left. unfold owns. by rewrite M.
    + apply (inj Some) in H as <-. destruct (reset_spec n is_resize) as (_ & Ho & _ & _ & Ee).
      rewrite Ee, Ho. destruct (owns n) eqn:En; [right; by rewrite orb_true_r |].
      destruct is_resize; [by right | by left].
Qed.

(** Along a run whose epochs do not wrap, the epoch does not decrease, and if
    it is the same at the end the owner is the same. *)
Lemma run_epoch es n n' :
  0 <= n.(net_content_epoch) -> n.(net_content_epoch) + zlen es <= UINT64_MAX ->
  run n es = Some n' ->
  n.(net_content_epoch) <= n'.(net_content_epoch) <= n.(net_content_epoch) + zlen es /\
  (n'.(net_content_epoch) = n.(net_content_epoch) -> owns n' = owns n).
Proof.
  revert n; induction es as [|e es IH]; intros n H0 Hl; cbn [run].
  { intros H. apply (inj Some) in H as <-. unfold zlen. cbn. split; [lia | done]. }
  destruct (step n e) as [m|] eqn:E; cbn; [| done]. intros H.
  assert (zlen (e :: es) = zlen es + 1) as El by (unfold zlen; cbn [length]; lia).
  pose proof (zlen_nonneg es). rewrite El in *.
  destruct (step_epoch _ _ _ E) as [[Em Ho]|Em].
  - destruct (IH m ltac:(lia) ltac:(lia) H) as [Hr Hw]. split; [lia |]. intros Ee. rewrite <- Ho. apply Hw. lia.
  - assert (m.(net_content_epoch) = n.(net_content_epoch) + 1) as E1.
    { rewrite Em. unfold wd_next_nonzero_epoch. rewrite u64_small by mlia.
      destruct (Z.eqb_spec (n.(net_content_epoch) + 1) 0); lia. }
    destruct (IH m ltac:(lia) ltac:(lia) H) as [Hr _]. split; [lia |]. intros Ee. lia.
Qed.

(** *** Concrete states for the witnesses *)

Definition sample_hello : wd_client_hello_payload :=
  mk_wd_client_hello_payload 5000 60 800 600 0 WD_CLIENT_CAP_VIDEO_STREAM 1 1 WD_VIDEO_MODE_FORCE
    0 0 0 0 0 0 0 0 0 0 0.

Definition sample_start : wd_net_state :=
  mk_wd_net_state true true false 1 7 1 0 true true 4 true true 1 None
    (wd_stream_policy_set_defaults zero_policy) zero_stats 400 1 60000 true.

Definition sample_net : wd_net_state := session_start sample_start sample_hello 4000000 false 0.

(** Bootstrap refresh, its presentation, entry to video by force and the first
    keyframe. *)
Definition sample_job : wd_video_worker_job := mk_wd_video_worker_job 1 7 1 1 4 true true.
Definition sample_keyframe (id : Z) : encoded_frame :=
  mk_encoded_frame WD_VIDEO_FRAME_KEYFRAME id 1000 false false true.
Definition presented_stats : wd_stats := zero_stats <| st_client_tile_content_epoch_presented := 1 |>.
Definition sample_entry : list stream_event :=
  [EvStartRefresh true true; EvFinishRefresh true; EvReports presented_stats; EvTick; EvTick;
   EvPublish sample_job (sample_keyframe 1)].

(** A client that dropped frames, which starts a recovery. *)
Definition overloaded_stats : wd_stats :=
  zero_stats <| st_client_stats_rx := 1 |> <| st_client_video_decode_queue_drops := 1 |>
             <| st_video_frames_tx := 1 |>.
Definition sample_recovery : list stream_event := sample_entry ++ [EvReports overloaded_stats; EvTick].

(** ** Properties *)

(** C3: the display has one owner per content epoch. If the content epoch
    is the same at two moments of a session, tiles own the display at both or
    video does, whatever happened in between (an epoch is 64 bits and does not
    wrap within a session). Every frame and every tile carries the epoch, so
    the client can tell whose pixels it may show. *)
Theorem epoch_owner_unique n es n' :
  0 <= n.(net_content_epoch) -> n.(net_content_epoch) + zlen es <= UINT64_MAX ->
  run n es = Some n' ->
  n'.(net_content_epoch) = n.(net_content_epoch) -> owns n' = owns n.
Proof. intros H0 Hl Hr He. by apply (run_epoch es n n'). Qed.

Lemma epoch_owner_unique_witness :
  match run sample_net (take 5 sample_entry) with
  | Some n => net_content_epoch n = net_content_epoch sample_net /\ owns n = owns sample_net
  | None => False
  end.
Proof.
  assert (option_map net_content_epoch (run sample_net (take 5 sample_entry)) = Some 1) as E
    by (vm_compute; reflexivity).
  destruct (run sample_net (take 5 sample_entry)) as [n|] eqn:Er; [| discriminate].
  apply (inj Some) in E. split; [exact E |].
  apply (epoch_owner_unique sample_net (take 5 sample_entry) n);
    [vm_compute; discriminate | vm_compute; discriminate | exact Er | exact E].
Defined.

(** C4: the server never sends a video frame with an epoch it has not
    committed to. Take any moment at which a frame is captured for the encoder,
    any run of the session from there, and the moment its encoding completes:
    if the frame goes out, its content epoch is the server's content epoch from
    then on. *)
Theorem queued_frame_epoch_committed n0 pending job es n f e n' :
  publish_job n0 pending = Some job ->
  u64_ok n0.(net_content_epoch) -> n0.(net_content_epoch) + zlen es <= UINT64_MAX ->
  run n0 es = Some n ->
  publish_encoded_frame n job f = (Some e, n') -> e = n'.(net_content_epoch).
Proof.
  intros Hj H0 Hl Hr Hp. pose proof (publish_cases n job f) as Hc. rewrite Hp in Hc. cbn [fst snd] in Hc.
  inversion Hc as [| |n1 Hm Hcc E M B|n1 Hcur Hk Hcc M B R E]; subst; [done |].
  assert (job.(wj_source_content_epoch) = n.(net_content_epoch)) as Es.
  { unfold wd_stream_video_job_current_locked in Hcur. bool_cases. done. }
  unfold publish_job in Hj. case_if_in Hj; [done |]. destruct pending; [done |].
  apply (inj Some) in Hj. subst job. cbn in Es.
  destruct (run_epoch es n0 n ltac:(mlia) Hl Hr) as [_ Ho]. specialize (Ho ltac:(done)).
  rewrite E. unfold frame_entry_plan, wd_video_entry_plan_make in *.
  cbn [wj_first_video_entry wj_request_keyframe wj_source_content_epoch] in *.
  case_bool_decide as Eready; cbn [andb orb] in *; [| done].
  rewrite Hk in * by done. cbn in Hcc |- *. exfalso.
  assert (mode_of n = WD_STREAM_MODE_VIDEO_READY) as Hm.
  { unfold owns in Ho. rewrite Eready in Ho. unfold wd_stream_video_job_current_locked in Hcur.
    bool_cases. destruct (mode_of n); done. }
  specialize (Hcc Hm). rewrite Es, !Z.eqb_refl in Hcc. done.
Qed.

Lemma queued_frame_epoch_committed_witness :
  match run sample_net (take 5 sample_entry) with
  | Some n =>
      match publish_encoded_frame n sample_job (sample_keyframe 1) with
      | (Some e, n') => e = net_content_epoch n' /\ e = 2
      | _ => False
      end
  | None => False
  end.
Proof.
  assert (option_map net_content_epoch (run sample_net (take 5 sample_entry)) = Some 1) as E1
    by (vm_compute; reflexivity).
  assert (option_map (fun n => (publish_encoded_frame n sample_job (sample_keyframe 1)).1)
      (run sample_net (take 5 sample_entry)) = Some (Some 2)) as E2 by (vm_compute; reflexivity).
  assert (option_map (fun n => publish_job n false)
      (run sample_net (take 5 sample_entry)) = Some (Some sample_job)) as E3 by (vm_compute; reflexivity).
  destruct (run sample_net (take 5 sample_entry)) as [n|] eqn:Er; [| discriminate].
  apply (inj Some) in E1. apply (inj Some) in E2. apply (inj Some) in E3.
  destruct (publish_encoded_frame n sample_job (sample_keyframe 1)) as [r n'] eqn:Ep.
  change (r = Some 2) in E2. subst r. split; [| reflexivity].
  apply (queued_frame_epoch_committed n false sample_job [] n (sample_keyframe 1) 2 n');
    [exact E3 | | | reflexivity | exact Ep];
    rewrite E1; unfold u64_ok, zlen, UINT64_MAX; cbn; lia.
Defined.

(** *** Bootstrap *)

(** While the bootstrap is pending the stream is in tile mode. *)
Definition boot_ok (n : wd_net_state) : Prop :=
  n.(net_stream_policy).(sp_video_bootstrap_pending) = true -> mode_of n = WD_STREAM_MODE_TILES.

(** The client has presented the bootstrap's epoch. *)
Definition bootstrap_presented (n : wd_net_state) : Prop :=
  n.(net_stream_policy).(sp_video_bootstrap_refresh_sent) = true /\
  n.(net_stream_policy).(sp_video_bootstrap_content_epoch) <> 0 /\
  n.(net_stream_policy).(sp_video_bootstrap_content_epoch) <=
    n.(net_stats).(st_client_tile_content_epoch_presented).

Lemma tick_boot n n' :
  boot_ok n -> wd_stream_controller_tick n = Some n' ->
  boot_ok n' /\
  (n.(net_stream_policy).(sp_video_bootstrap_pending) = true ->
   n'.(net_stream_policy).(sp_video_bootstrap_pending) = true \/ bootstrap_presented n).
Proof.
  intros Hok Ht. destruct (tick_spec _ _ Ht) as (q & t & q' & Hh & Eq' & M & B & _ & _).
  destruct (update_health_mode _ _ _ _ Hh) as (Bq & Mq).
  pose proof (update_health_presented _ _ _ _ Hh) as Hp.
  pose proof (update_mode_spec q t n.(net_total_tiles) n.(net_video_stream_negotiated)
    (0 <=? n.(net_video_tcp_fd)) (n.(net_video_stream_negotiated) && n.(net_video_worker))) as Hm.
  cbv zeta in Hm. rewrite <- Eq' in Hm. destruct Hm as (_ & Hf & Hb).
  injection B as B1 _ _ _. injection Bq as Q1 Q2 Q3 Q4. clear Eq' Hh Ht.
  destruct (n.(net_stream_policy).(sp_video_bootstrap_pending)) eqn:En.
  - assert (q.(sp_stream_mode) = WD_STREAM_MODE_TILES) as Hq.
    { pose proof (Hok En) as E0. rewrite E0 in Mq. destruct Mq as [->|[[? ?]|[? ?]]]; done. }
    destruct (Hb ltac:(congruence) Hq) as [Hm' Hs]. split; [intros _; congruence |]. intros _.
    destruct Hs as [Hs|(H1 & H2 & H3)]; [left; congruence | right].
    unfold bootstrap_presented. rewrite <- Q3, <- Q4. unfold same_presented in Hp. rewrite <- Hp. done.
  - split; [| done]. unfold boot_ok. rewrite B1, Hf by congruence. done.
Qed.

Lemma boot_view_pending p q :
  boot_view p = boot_view q -> p.(sp_video_bootstrap_pending) = q.(sp_video_bootstrap_pending).
Proof. unfold boot_view. congruence. Qed.

Lemma step_boot n e n' :
  boot_ok n -> step n e = Some n' ->
  boot_ok n' /\
  (n.(net_stream_policy).(sp_video_bootstrap_pending) = true ->
   n'.(net_stream_policy).(sp_video_bootstrap_pending) = true \/ (e = EvTick /\ bootstrap_presented n)).
Proof.
  intros Hok H.
  assert (match e with EvTick | EvPublish _ _ | EvReset _ => False | _ => True end \/
          match e with EvTick | EvPublish _ _ | EvReset _ => True | _ => False end) as [Hq|Hq]
    by (destruct e; auto).
  { destruct (quiet_step n e n' H Hq) as (_ & M & B & _). unfold boot_ok. rewrite M, B. auto. }
  destruct e; try done; cbn [step] in H.
  - destruct (tick_boot n n' Hok H) as [H1 H2]. naive_solver.
  - apply (inj Some) in H as <-. pose proof (publish_cases n job f) as Hp.
    inversion Hp as [n1 (M & B & _) _|m (M & B & _) _|n1 Hm Hc _ M B|n1 Hj _ _ M B _ _]; subst.
    + apply boot_view_pending in B. unfold boot_ok. rewrite M, B. auto.
    + destruct (reset_spec m false) as (B' & _ & Hm & _ & _).
      apply boot_view_pending in B. apply boot_view_pending in B'. unfold boot_ok. rewrite B', B.
      split; [| auto]. intros Hb. apply Hm. rewrite M. by apply Hok.
    + apply boot_view_pending in B. unfold boot_ok. rewrite B. split; [| auto].
      intros Hb. specialize (Hok Hb). congruence.
    + apply boot_view_pending in B. unfold boot_ok. rewrite M, B. auto.
  - apply (inj Some) in H as <-. destruct (reset_spec n is_resize) as (B & _ & Hm & _ & _).
    apply boot_view_pending in B. unfold boot_ok. rewrite B. auto.
Qed.

Lemma run_boot es n n' :
  boot_ok n -> n.(net_stream_policy).(sp_video_bootstrap_pending) = true ->
  run n es = Some n' -> mode_of n' <> WD_STREAM_MODE_TILES ->
  exists es1 m es2, es = es1 ++ EvTick :: es2 /\ run n es1 = Some m /\ bootstrap_presented m.
Proof.
  revert n; induction es as [|e es IH]; intros n Hok Hp; cbn [run].
  { intros H Ho. apply (inj Some) in H as <-. by rewrite (Hok Hp) in Ho. }
  destruct (step n e) as [m|] eqn:E; cbn; [| done]. intros Hr Ho.
  destruct (step_boot n e m Hok E) as [Hok' Hs]. destruct (Hs Hp) as [Hp'|[-> Hb]].
  - destruct (IH m Hok' Hp' Hr Ho) as (es1 & k & es2 & -> & Hk & Hb).
    exists (e :: es1), k, es2. split_and!; [done | cbn; by rewrite E | done].
  - by exists [], n, es.
Qed.

Lemma net_policy_set n p : (n <| net_stream_policy := p |>).(net_stream_policy) = p.
Proof. reflexivity. Qed.

Lemma session_start_boot n hello rate audio bitrate :
  n.(net_content_epoch) <> 0 ->
  mode_of (session_start n hello rate audio bitrate) = WD_STREAM_MODE_TILES /\
  (session_start n hello rate audio bitrate).(net_stream_policy).(sp_video_bootstrap_pending) =
    wd_video_session_bootstrap_required hello.(ch_video_mode) hello.(ch_capabilities).
Proof. intros He. unfold session_start. rewrite net_policy_set. by apply begin_session_spec. Qed.

(** C5: the first picture comes from tiles. In a session of a client
    that asks for video, the stream leaves tile mode only after a tick at which
    the client had reported the presentation of the bootstrap refresh: the
    refresh was sent and its content epoch, which is not zero, presented. *)
Theorem video_waits_for_bootstrap n hello rate audio bitrate es n' :
  n.(net_content_epoch) <> 0 ->
  wd_video_session_bootstrap_required hello.(ch_video_mode) hello.(ch_capabilities) = true ->
  run (session_start n hello rate audio bitrate) es = Some n' ->
  mode_of n' <> WD_STREAM_MODE_TILES ->
  exists es1 m es2, es = es1 ++ EvTick :: es2 /\
    run (session_start n hello rate audio bitrate) es1 = Some m /\ bootstrap_presented m.
Proof.
  intros He Hreq Hr Ho. destruct (session_start_boot n hello rate audio bitrate He) as [Hm Hb].
  apply (run_boot es _ n'); [by intros _ | congruence | done | done].
Qed.

Lemma video_waits_for_bootstrap_witness :
  match run sample_net sample_entry with
  | Some n' => mode_of n' = WD_STREAM_MODE_VIDEO_ACTIVE /\
      exists es1 m es2, sample_entry = es1 ++ EvTick :: es2 /\
        run sample_net es1 = Some m /\ bootstrap_presented m
  | None => False
  end.
Proof.
  assert (option_map (fun n => mode_of n) (run sample_net sample_entry) = Some WD_STREAM_MODE_VIDEO_ACTIVE)
    as E by (vm_compute; reflexivity).
  destruct (run sample_net sample_entry) as [n'|] eqn:Er; [| discriminate].
  apply (inj Some) in E. split; [exact E |].
  apply (video_waits_for_bootstrap sample_start sample_hello 4000000 false 0 sample_entry n');
    [discriminate | reflexivity | exact Er | rewrite E; discriminate].
Defined.

(** *** Recovery in video *)

Definition recovering (n : wd_net_state) : bool :=
  bool_decide (mode_of n = WD_STREAM_MODE_VIDEO_RECOVERING).

Lemma recovery_ok_view p q :
  rec_view q = rec_view p -> q.(sp_stream_mode) = p.(sp_stream_mode) -> recovery_ok p -> recovery_ok q.
Proof. unfold recovery_ok. intros R M H. injection R as R1 R2 _ _. rewrite R1, R2, M. done. Qed.

Lemma recovery_budget_view p q : rec_view q = rec_view p -> recovery_budget q = recovery_budget p.
Proof. unfold recovery_budget. intros R. injection R as -> -> -> _. done. Qed.

(** One step of a session whose stream is recovering afterwards: the bounds
    hold, and if it was recovering before, a tick uses up the budget and
    nothing restores it. *)
Lemma step_recovery n e n' :
  recovery_ok n.(net_stream_policy) -> step n e = Some n' ->
  recovery_ok n'.(net_stream_policy) /\
  (recovering n = true -> recovering n' = true ->
   recovery_budget n'.(net_stream_policy) + (match e with EvTick => 1 | _ => 0 end) <=
     recovery_budget n.(net_stream_policy)).
Proof.
  intros Hok H. unfold recovering. rewrite !bool_decide_eq_true.
  assert (match e with EvTick | EvPublish _ _ | EvReset _ => False | _ => True end \/
          match e with EvTick | EvPublish _ _ | EvReset _ => True | _ => False end) as [Hq|Hq]
    by (destruct e; auto).
  { destruct (quiet_step n e n' H Hq) as (_ & M & _ & R). split; [by eapply recovery_ok_view |].
    intros _ _. rewrite (recovery_budget_view _ _ R). destruct e; done || lia. }
  destruct e; try done; cbn [step] in H.
  - destruct (tick_spec _ _ H) as (q & t & q' & Hh & Eq' & M & _ & R & _).
    pose proof (update_mode_rec q t n.(net_total_tiles) n.(net_video_stream_negotiated)
      (0 <=? n.(net_video_tcp_fd)) (n.(net_video_stream_negotiated) && n.(net_video_worker))) as Ru.
    destruct (update_mode_spec q t n.(net_total_tiles) n.(net_video_stream_negotiated)
      (0 <=? n.(net_video_tcp_fd)) (n.(net_video_stream_negotiated) && n.(net_video_worker))) as (Mu & _).
    rewrite <- Eq' in Ru, Mu. clear Eq' H. rewrite Ru in R.
    destruct (decide (mode_of n' = WD_STREAM_MODE_VIDEO_RECOVERING)) as [Hn'|Hn'];
      [| split; [intros Hx; done | done]].
    assert (q.(sp_stream_mode) = WD_STREAM_MODE_VIDEO_RECOVERING) as Hq'.
    { rewrite M in Hn'. destruct Mu as [Mu|Mu]; [congruence | by rewrite Hn' in Mu]. }
    destruct (update_health_rec _ _ _ _ Hh Hq') as [(p' & (Kp & _ & Kr) & Hr & ->)|Hr].
    + rewrite <- Kp in Hr. unfold recovery_ok in Hok. rewrite <- Kp in Hok. destruct (Hok Hr) as [Ha Hw].
      pose proof Kr as Kr'. injection Kr' as K1 K2 _ _. rewrite <- K1 in Ha. rewrite <- K2 in Hw.
      destruct (recovering_health_budget p' n.(net_stats) Ha Hw Hr Hq') as [Hok' Hbud].
      rewrite <- (recovery_budget_view _ _ Kr), (recovery_budget_view _ _ R).
      split; [| intros; lia]. apply (recovery_ok_view _ _ R); [congruence | done].
    + destruct Hr as [Hn Hr]. split; [| done].
      intros _. rewrite Hr in R. injection R as -> -> _ _. vm_compute. done.
  - apply (inj Some) in H as <-. pose proof (publish_cases n job f) as Hp.
    inversion Hp as [n1 (M & _ & R) _|m _ _|n1 Hm Hc _ M _|n1 Hj _ _ M _ R _]; subst.
    + split; [by eapply recovery_ok_view |]. intros _ _. rewrite (recovery_budget_view _ _ R). lia.
    + destruct (reset_spec m false) as (_ & _ & _ & Hm & _). split; [intros Hx; done | done].
    + split; [intros Hx; congruence | congruence].
    + destruct R as [R|(R1 & R2 & R3 & R4)].
      * split; [by eapply recovery_ok_view |]. intros _ _. rewrite (recovery_budget_view _ _ R). lia.
      * split.
        -- unfold recovery_ok in *. rewrite M, R2, R3. intros Hx. destruct (Hok Hx). split; [done |].
           vm_compute; done.
        -- intros Hn _. destruct (Hok Hn) as [_ Hw]. unfold recovery_budget. rewrite R1, R2, R3, R4. lia.
  - apply (inj Some) in H as <-. destruct (reset_spec n is_resize) as (_ & _ & _ & Hm & _).
    split; [intros Hx; done | done].
Qed.

(** A run during which the stream is recovering all the time. *)
Fixpoint stays_recovering (n : wd_net_state) (es : list stream_event) : option wd_net_state :=
  if negb (recovering n) then None
  else
    match es with
    | [] => Some n
    | e :: es => n' ← step n e; stays_recovering n' es
    end.

Fixpoint ticks (es : list stream_event) : Z :=
  match es with
  | [] => 0
  | EvTick :: es => ticks es + 1
  | _ :: es => ticks es
  end.

Lemma stays_recovering_first n es n' : stays_recovering n es = Some n' -> recovering n = true.
Proof. destruct es; cbn [stays_recovering]; destruct (recovering n); done. Qed.

Lemma stays_recovering_last n es n' : stays_recovering n es = Some n' -> recovering n' = true.
Proof.
  revert n; induction es as [|e es IH]; intros n; cbn [stays_recovering];
    destruct (recovering n) eqn:Er; cbn [negb]; try done.
  - intros H. by apply (inj Some) in H as <-.
  - destruct (step n e) as [m|]; cbn [mbind option_bind]; [apply IH | done].
Qed.

Lemma run_recovery_ok es n n' :
  recovery_ok n.(net_stream_policy) -> run n es = Some n' -> recovery_ok n'.(net_stream_policy).
Proof.
  revert n; induction es as [|e es IH]; intros n Hok; cbn [run].
  { intros H. by apply (inj Some) in H as <-. }
  destruct (step n e) as [m|] eqn:E; cbn [mbind option_bind]; [| done].
  apply IH. by apply (step_recovery n e m).
Qed.

Lemma stays_recovering_budget es n n' :
  recovery_ok n.(net_stream_policy) -> stays_recovering n es = Some n' ->
  recovery_ok n'.(net_stream_policy) /\
  recovery_budget n'.(net_stream_policy) + ticks es <= recovery_budget n.(net_stream_policy).
Proof.
  revert n; induction es as [|e es IH]; intros n Hok Hs.
  { cbn [stays_recovering] in Hs. case_if_in Hs; [done |]. apply (inj Some) in Hs as <-. cbn. split; [done | lia]. }
  pose proof (stays_recovering_first _ _ _ Hs) as Hn. cbn [stays_recovering] in Hs.
  rewrite Hn in Hs. cbn [negb] in Hs.
  destruct (step n e) as [m|] eqn:E; cbn [mbind option_bind] in Hs; [| done].
  pose proof (stays_recovering_first _ _ _ Hs) as Hm.
  destruct (step_recovery n e m Hok E) as [Hok' Hb]. specialize (Hb Hn Hm).
  destruct (IH m Hok' Hs) as [Hok'' Hb']. split; [done |]. destruct e; cbn [ticks]; lia.
Qed.

(** C6: an in-video recovery ends. In any session, however the frames,
    reports and resets interleave, the stream cannot stay in VIDEO_RECOVERING
    for as many ticks of the controller as the attempts allow (each attempt at
    most waits for its keyframe to be queued and then for the client to present
    it): by then it is back in video or falls back to tiles. *)
Theorem video_recovery_bounded n hello rate audio bitrate es0 n1 es n2 :
  n.(net_content_epoch) <> 0 ->
  run (session_start n hello rate audio bitrate) es0 = Some n1 ->
  stays_recovering n1 es = Some n2 ->
  ticks es < WD_STREAM_VIDEO_RECOVERY_MAX_ATTEMPTS * (2 * (WD_STREAM_VIDEO_RECOVERY_TIMEOUT_SECONDS + 1)).
Proof.
  intros He Hr Hs. destruct (session_start_boot n hello rate audio bitrate He) as [Hm _].
  assert (recovery_ok n1.(net_stream_policy)) as Hok1.
  { eapply run_recovery_ok; [| exact Hr]. unfold recovery_ok. rewrite Hm. done. }
  destruct (stays_recovering_budget es n1 n2 Hok1 Hs) as [Hok2 Hb].
  pose proof (stays_recovering_first _ _ _ Hs) as H1. pose proof (stays_recovering_last _ _ _ Hs) as H2.
  unfold recovering in H1, H2. rewrite bool_decide_eq_true in H1, H2.
  destruct (Hok1 H1) as [Ha1 Hw1]. destruct (Hok2 H2) as [Ha2 Hw2]. unfold recovery_budget in Hb.
  change WD_STREAM_VIDEO_RECOVERY_MAX_ATTEMPTS with 3 in *.
  change WD_STREAM_VIDEO_RECOVERY_TIMEOUT_SECONDS with 4 in *.
  destruct (sp_video_recovery_keyframe_queued (net_stream_policy n1)),
    (sp_video_recovery_keyframe_queued (net_stream_policy n2)); lia.
Qed.

Lemma video_recovery_bounded_witness :
  match run sample_net sample_recovery with
  | Some n1 =>
      match stays_recovering n1 (repeat EvTick 14) with
      | Some n2 => ticks (repeat EvTick 14) < 30
      | None => False
      end
  | None => False
  end.
Proof.
  assert (option_map (fun n1 => match stays_recovering n1 (repeat EvTick 14) with
      Some _ => true | None => false end) (run sample_net sample_recovery) = Some true) as E
    by (vm_compute; reflexivity).
  destruct (run sample_net sample_recovery) as [n1|] eqn:Er; [| discriminate].
  apply (inj Some) in E.
  destruct (stays_recovering n1 (repeat EvTick 14)) as [n2|] eqn:Es; [| discriminate].
  apply (video_recovery_bounded sample_start sample_hello 4000000 false 0 sample_recovery n1
           (repeat EvTick 14) n2); [discriminate | exact Er | exact Es].
Defined.

(** A report of one decoded frame that took [2^62] nanoseconds. *)
Definition hostile_stats : wd_stats :=
  zero_stats <| st_client_stats_rx := 1 |> <| st_client_video_decode_samples := 1 |>
             <| st_client_video_decode_sum_ns := 2 ^ 62 |> <| st_video_frames_tx := 1 |>.

(** C40: a client can make the server divide by zero. In a session that
    reached video, a report of one frame decoded in [2^62] nanoseconds leaves
    the controller's next tick undefined, while the tick is defined when the
    frame took one nanosecond less. *)
Theorem client_report_divides_by_zero :
  run sample_net (sample_entry ++ [EvReports hostile_stats; EvTick]) = None /\
  is_Some (run sample_net
    (sample_entry ++ [EvReports (hostile_stats <| st_client_video_decode_sum_ns := 2 ^ 62 - 1 |>);
                      EvTick])).
Proof.
  assert (forall A (o : option A), match o with Some _ => true | None => false end = true -> is_Some o)
    as Hsome by (intros A [a|] H; [by exists a | discriminate]).
  split; [vm_compute; reflexivity | apply Hsome; vm_compute; reflexivity].
Qed.
