(* ===== verification/DirtyScheduler.v ===== *)
(** * The scheduler of dirty regions

    src/server/wd_dirty_region_scheduler.c: the queue of tile regions that wait
    to be sent.  The scheduler keeps for every region the time since when it
    waits, a bitmap of the queued regions, and a binary heap ordered by waiting
    time from which entries are not removed when a region leaves the queue:
    such entries are recognised by their serial number and dropped when they
    reach the top.  An array is a list; [realloc] leaves the new entries
    unspecified (here zero) and its success is the argument [alloc_ok].  The
    loops run on fuel: a sift on the index or the size of the heap, the pruning
    on the size of the heap, the bitmap scan on the number of words. *)
From S2P Require Import Prelude Config.

Record wd_dirty_region_heap_entry := mk_wd_dirty_region_heap_entry {
  he_enqueued_ns : Z;
  he_serial : Z;
  he_region_id : Z;
}.

Record wd_dirty_region_scheduler := mk_wd_dirty_region_scheduler {
  ds_capacity : Z;
  ds_regions_x : Z;
  ds_count : Z;
  ds_starvation_ns : Z;
  ds_queued : list bool;
  ds_enqueued_ns : list Z;
  ds_serial : list Z;
  ds_queued_bits : list Z;
  ds_bit_word_count : Z;
  ds_heap : list wd_dirty_region_heap_entry;
  ds_heap_count : Z;
  ds_heap_capacity : Z;
}.
#[export] Instance wd_dirty_region_scheduler_eta : Eta wd_dirty_region_scheduler :=
  fun s => mk_wd_dirty_region_scheduler s.(ds_capacity) s.(ds_regions_x) s.(ds_count)
    s.(ds_starvation_ns) s.(ds_queued) s.(ds_enqueued_ns) s.(ds_serial) s.(ds_queued_bits)
    s.(ds_bit_word_count) s.(ds_heap) s.(ds_heap_count) s.(ds_heap_capacity).

Definition entry0 : wd_dirty_region_heap_entry := mk_wd_dirty_region_heap_entry 0 0 0.

(** ** The heap *)

Definition heap_entry_less (lhs rhs : wd_dirty_region_heap_entry) : bool :=
  if negb (lhs.(he_enqueued_ns) =? rhs.(he_enqueued_ns))
  then lhs.(he_enqueued_ns) <? rhs.(he_enqueued_ns)
  else lhs.(he_region_id) <? rhs.(he_region_id).

Definition heap_swap (heap : list wd_dirty_region_heap_entry) (lhs rhs : Z)
    : list wd_dirty_region_heap_entry :=
  let tmp := aget entry0 heap lhs in
  aset (aset heap lhs (aget entry0 heap rhs)) rhs tmp.

Fixpoint heap_sift_up (fuel : nat) (heap : list wd_dirty_region_heap_entry) (index : Z)
    : list wd_dirty_region_heap_entry :=
  match fuel with
  | O => heap
  | S fuel =>
      if negb (index =? 0) then
        let parent := (index - 1) / 2 in
        if negb (heap_entry_less (aget entry0 heap index) (aget entry0 heap parent)) then heap
        else heap_sift_up fuel (heap_swap heap index parent) parent
      else heap
  end.

Fixpoint heap_sift_down (fuel : nat) (heap : list wd_dirty_region_heap_entry)
    (heap_count index : Z) : list wd_dirty_region_heap_entry :=
  match fuel with
  | O => heap
  | S fuel =>
      let left := index * 2 + 1 in
      let right := left + 1 in
      let smallest := index in
      let smallest :=
        if (left <? heap_count) && heap_entry_less (aget entry0 heap left) (aget entry0 heap smallest)
        then left else smallest in
      let smallest :=
        if (right <? heap_count) &&
           heap_entry_less (aget entry0 heap right) (aget entry0 heap smallest)
        then right else smallest in
      if smallest =? index then heap
      else heap_sift_down fuel (heap_swap heap index smallest) heap_count smallest
  end.

Definition heap_reserve (alloc_ok : bool) (s : wd_dirty_region_scheduler) (capacity : Z)
    : bool * wd_dirty_region_scheduler :=
  if s.(ds_heap_capacity) >=? capacity then (true, s)
  else
    let next_capacity :=
      if negb (s.(ds_heap_capacity) =? 0)
      then u64 (s.(ds_heap_capacity) * WD_SERVER_DIRTY_REGION_HEAP_GROWTH_MULTIPLIER)
      else WD_SERVER_DIRTY_REGION_HEAP_INITIAL_CAPACITY in
    let next_capacity := if next_capacity <? capacity then capacity else next_capacity in
    if negb alloc_ok then (false, s)
    else (true, s
      <| ds_heap := s.(ds_heap) ++
           replicate (Z.to_nat (next_capacity - s.(ds_heap_capacity))) entry0 |>
      <| ds_heap_capacity := next_capacity |>).

Definition heap_push (alloc_ok : bool) (s : wd_dirty_region_scheduler) (region_id : Z)
    : bool * wd_dirty_region_scheduler :=
  match heap_reserve alloc_ok s (s.(ds_heap_count) + 1) with
  | (false, s) => (false, s)
  | (true, s) =>
      let entry := mk_wd_dirty_region_heap_entry (aget 0 s.(ds_enqueued_ns) region_id)
        (aget 0 s.(ds_serial) region_id) region_id in
      let heap := aset s.(ds_heap) s.(ds_heap_count) entry in
      (true, s
        <| ds_heap := heap_sift_up (Z.to_nat s.(ds_heap_count)) heap s.(ds_heap_count) |>
        <| ds_heap_count := s.(ds_heap_count) + 1 |>)
  end.

Definition heap_pop (s : wd_dirty_region_scheduler) : wd_dirty_region_scheduler :=
  if s.(ds_heap_count) =? 0 then s
  else
    let s := s <| ds_heap_count := s.(ds_heap_count) - 1 |> in
    if negb (s.(ds_heap_count) =? 0) then
      let heap := aset s.(ds_heap) 0 (aget entry0 s.(ds_heap) s.(ds_heap_count)) in
      s <| ds_heap := heap_sift_down (Z.to_nat s.(ds_heap_count)) heap s.(ds_heap_count) 0 |>
    else s.

Definition heap_entry_current (s : wd_dirty_region_scheduler) (entry : wd_dirty_region_heap_entry)
    : bool :=
  (entry.(he_region_id) <? s.(ds_capacity)) && aget false s.(ds_queued) entry.(he_region_id) &&
  (aget 0 s.(ds_serial) entry.(he_region_id) =? entry.(he_serial)) &&
  (aget 0 s.(ds_enqueued_ns) entry.(he_region_id) =? entry.(he_enqueued_ns)).

Fixpoint prune_loop (fuel : nat) (s : wd_dirty_region_scheduler) : wd_dirty_region_scheduler :=
  match fuel with
  | O => s
  | S fuel =>
      if negb (s.(ds_heap_count) =? 0) && negb (heap_entry_current s (aget entry0 s.(ds_heap) 0))
      then prune_loop fuel (heap_pop s)
      else s
  end.

Definition heap_prune (s : wd_dirty_region_scheduler) : wd_dirty_region_scheduler :=
  prune_loop (Z.to_nat s.(ds_heap_count)) s.

(** ** The bitmap *)

Definition bit_set (s : wd_dirty_region_scheduler) (region_id : Z) : wd_dirty_region_scheduler :=
  s <| ds_queued_bits := aset s.(ds_queued_bits) (region_id / 64)
    (Z.lor (aget 0 s.(ds_queued_bits) (region_id / 64)) (Z.shiftl 1 (region_id mod 64))) |>.

Definition bit_clear (s : wd_dirty_region_scheduler) (region_id : Z) : wd_dirty_region_scheduler :=
  s <| ds_queued_bits := aset s.(ds_queued_bits) (region_id / 64)
    (Z.land (aget 0 s.(ds_queued_bits) (region_id / 64))
       (UINT64_MAX - Z.shiftl 1 (region_id mod 64))) |>.

(** [__builtin_ctzll]: the position of the lowest set bit. *)
Definition ctzll (bits : Z) : Z := default 0 (find (fun i => Z.testbit bits i) (zseq 64)).

Fixpoint scan_words (fuel : nat) (s : wd_dirty_region_scheduler) (word last_word stop bits : Z)
    : option Z :=
  match fuel with
  | O => None
  | S fuel =>
      let bits :=
        if (word =? last_word) && negb (stop mod 64 =? 0)
        then Z.land bits (Z.shiftl 1 (stop mod 64) - 1) else bits in
      let id := word * 64 + ctzll bits in
      if negb (bits =? 0) && (id <? s.(ds_capacity)) then Some id
      else
        let word := word + 1 in
        if word >? last_word then None
        else scan_words fuel s word last_word stop (aget 0 s.(ds_queued_bits) word)
  end.

(** One pass of [find_next_queued] over the regions [begin .. stop-1]. *)
Definition scan_pass (s : wd_dirty_region_scheduler) (begin stop : Z) : option Z :=
  if begin >=? stop then None
  else
    let word := begin / 64 in
    let last_word := (stop - 1) / 64 in
    scan_words (Z.to_nat (last_word - word + 1)) s word last_word stop
      (Z.land (aget 0 s.(ds_queued_bits) word) (u64 (Z.shiftl UINT64_MAX (begin mod 64)))).

Definition find_next_queued (s : wd_dirty_region_scheduler) (cursor_region_id : Z) : Z :=
  if s.(ds_count) =? 0 then UINT16_MAX
  else
    let start := (cursor_region_id + 1) mod s.(ds_capacity) in
    match scan_pass s start s.(ds_capacity) with
    | Some id => u16 id
    | None =>
        match scan_pass s 0 start with
        | Some id => u16 id
        | None => UINT16_MAX
        end
    end.

(** ** The operations *)

Definition wd_dirty_region_scheduler_create (alloc_ok : bool) (capacity regions_x starvation_ns : Z)
    : ptr wd_dirty_region_scheduler :=
  if (capacity =? 0) || (regions_x =? 0) then NULL
  else if negb alloc_ok then NULL
  else
    let bit_word_count := (capacity + 63) / 64 in
    Some (mk_wd_dirty_region_scheduler capacity regions_x 0 starvation_ns
      (replicate (Z.to_nat capacity) false) (replicate (Z.to_nat capacity) 0)
      (replicate (Z.to_nat capacity) 0) (replicate (Z.to_nat bit_word_count) 0) bit_word_count
      [] 0 0).

Definition wd_dirty_region_scheduler_reset (s : wd_dirty_region_scheduler)
    : wd_dirty_region_scheduler :=
  s <| ds_queued := replicate (Z.to_nat s.(ds_capacity)) false |>
    <| ds_enqueued_ns := replicate (Z.to_nat s.(ds_capacity)) 0 |>
    <| ds_queued_bits := replicate (Z.to_nat s.(ds_bit_word_count)) 0 |>
    <| ds_count := 0 |>
    <| ds_heap_count := 0 |>.

Definition wd_dirty_region_scheduler_enqueue (alloc_ok : bool) (s : wd_dirty_region_scheduler)
    (region_id now_ns : Z) : bool * wd_dirty_region_scheduler :=
  if region_id >=? s.(ds_capacity) then (false, s)
  else if aget false s.(ds_queued) region_id then (true, s)
  else
    let had_age := negb (aget 0 s.(ds_enqueued_ns) region_id =? 0) in
    let s :=
      if negb had_age
      then s <| ds_enqueued_ns :=
             aset s.(ds_enqueued_ns) region_id (if negb (now_ns =? 0) then now_ns else 1) |>
      else s in
    let serial := u32 (aget 0 s.(ds_serial) region_id + 1) in
    let s := s <| ds_serial := aset s.(ds_serial) region_id (if serial =? 0 then 1 else serial) |> in
    let s := s <| ds_queued := aset s.(ds_queued) region_id true |> in
    let s := bit_set s region_id in
    let s := s <| ds_count := u16 (s.(ds_count) + 1) |> in
    match heap_push alloc_ok s region_id with
    | (true, s) => (true, s)
    | (false, s) =>
        let s := s <| ds_count := u16 (s.(ds_count) - 1) |> in
        let s := s <| ds_queued := aset s.(ds_queued) region_id false |> in
        let s := bit_clear s region_id in
        (false,
         if negb had_age then s <| ds_enqueued_ns := aset s.(ds_enqueued_ns) region_id 0 |> else s)
    end.

(** The region a [take] selects, after the pruning. *)
Definition select_region (s : wd_dirty_region_scheduler) (cursor_region_id now_ns : Z) : Z :=
  let selected :=
    if negb (s.(ds_heap_count) =? 0) && negb (s.(ds_starvation_ns) =? 0) then
      let oldest := aget entry0 s.(ds_heap) 0 in
      if (now_ns >=? oldest.(he_enqueued_ns)) &&
         (now_ns - oldest.(he_enqueued_ns) >=? s.(ds_starvation_ns))
      then oldest.(he_region_id) else UINT16_MAX
    else UINT16_MAX in
  if selected =? UINT16_MAX then find_next_queued s cursor_region_id else selected.

Definition wd_dirty_region_scheduler_take (s : wd_dirty_region_scheduler)
    (cursor_region_id now_ns : Z) : option Z * wd_dirty_region_scheduler :=
  if s.(ds_count) =? 0 then (None, s)
  else
    let s := heap_prune s in
    let selected := select_region s cursor_region_id now_ns in
    if (selected =? UINT16_MAX) || negb (aget false s.(ds_queued) selected) then (None, s)
    else
      let s := s <| ds_queued := aset s.(ds_queued) selected false |> in
      let s := bit_clear s selected in
      (Some selected, s <| ds_count := u16 (s.(ds_count) - 1) |>).

Definition wd_dirty_region_scheduler_forget (s : wd_dirty_region_scheduler) (region_id : Z)
    : wd_dirty_region_scheduler :=
  if region_id >=? s.(ds_capacity) then s
  else
    let s :=
      if aget false s.(ds_queued) region_id then
        let s := s <| ds_queued := aset s.(ds_queued) region_id false |> in
        let s := bit_clear s region_id in
        if negb (s.(ds_count) =? 0) then s <| ds_count := u16 (s.(ds_count) - 1) |> else s
      else s in
    let s := s <| ds_enqueued_ns := aset s.(ds_enqueued_ns) region_id 0 |> in
    s <| ds_serial := aset s.(ds_serial) region_id (u32 (aget 0 s.(ds_serial) region_id + 1)) |>.

Definition wd_dirty_region_scheduler_contains (s : wd_dirty_region_scheduler) (region_id : Z)
    : bool :=
  (region_id <? s.(ds_capacity)) && aget false s.(ds_queued) region_id.

Definition wd_dirty_region_scheduler_count (s : wd_dirty_region_scheduler) : Z := s.(ds_count).

Definition wd_dirty_region_scheduler_enqueued_ns (s : wd_dirty_region_scheduler) (region_id : Z)
    : Z :=
  if region_id <? s.(ds_capacity) then aget 0 s.(ds_enqueued_ns) region_id else 0.

#[local] Arguments aget : simpl never.
#[local] Arguments aset : simpl never.

(** ** Heap order *)

Definition entry_le (a b : wd_dirty_region_heap_entry) : Prop := heap_entry_less b a = false.

Lemma entry_le_spec a b :
  entry_le a b <->
  a.(he_enqueued_ns) < b.(he_enqueued_ns) \/
  (a.(he_enqueued_ns) = b.(he_enqueued_ns) /\ a.(he_region_id) <= b.(he_region_id)).
Proof. unfold entry_le, heap_entry_less. crush_if; split; intros; bool_cases; try lia; apply Z.ltb_ge; lia. Qed.

Lemma entry_le_refl a : entry_le a a.
Proof. rewrite entry_le_spec. lia. Qed.
Lemma entry_le_trans a b c : entry_le a b -> entry_le b c -> entry_le a c.
Proof. rewrite !entry_le_spec. lia. Qed.
Lemma entry_less_le a b : heap_entry_less a b = true -> entry_le a b.
Proof.
  rewrite entry_le_spec. unfold heap_entry_less. intros H. case_if_in H; bool_cases; lia.
Qed.
#[local] Hint Resolve entry_le_refl entry_less_le : core.

Abbreviation hget := (aget entry0).

Definition parent (i : Z) : Z := (i - 1) / 2.

Lemma parent_spec i p : 0 < i -> parent i = p <-> i = 2 * p + 1 \/ i = 2 * p + 2.
Proof.
  intros Hi. unfold parent. split.
  - intros <-. pose proof (Z.div_mod (i - 1) 2 ltac:(lia)). pose proof (Z.mod_pos_bound (i - 1) 2). lia.
  - intros H. symmetry.
    destruct H; [apply Z.div_unique with (r := 0) | apply Z.div_unique with (r := 1)]; lia.
Qed.

Lemma parent_bounds i : 0 < i -> 0 <= parent i < i.
Proof. intros Hi. pose proof (proj1 (parent_spec i _ Hi) eq_refl). lia. Qed.

Definition heap_ordered (h : list wd_dirty_region_heap_entry) (n : Z) : Prop :=
  forall j, 0 < j < n -> entry_le (hget h (parent j)) (hget h j).

(** The entries of the first [n] places. *)
Definition in_heap (h : list wd_dirty_region_heap_entry) (n : Z) (e : wd_dirty_region_heap_entry)
    : Prop := exists i, 0 <= i < n /\ hget h i = e.

Lemma zlen_heap_swap h a b : zlen (heap_swap h a b) = zlen h.
Proof. unfold heap_swap. by rewrite !zlen_aset. Qed.

Lemma hget_swap h a b k :
  0 <= a < zlen h -> 0 <= b < zlen h -> 0 <= k ->
  hget (heap_swap h a b) k = if k =? b then hget h a else if k =? a then hget h b else hget h k.
Proof.
  intros Ha Hb Hk. unfold heap_swap. destruct (Z.eqb_spec k b) as [->|].
  { rewrite aget_aset_eq; [done | by rewrite zlen_aset]. }
  rewrite aget_aset_ne by lia. destruct (Z.eqb_spec k a) as [->|].
  { by rewrite aget_aset_eq. }
  by rewrite aget_aset_ne by lia.
Qed.

Lemma in_heap_swap_1 h n a b e :
  0 <= a < n -> 0 <= b < n -> n <= zlen h -> in_heap h n e -> in_heap (heap_swap h a b) n e.
Proof.
  intros Ha Hb Hn (i & Hi & <-).
  exists (if i =? a then b else if i =? b then a else i).
  split; [crush_if; lia |]. rewrite hget_swap by (crush_if; lia).
  destruct (Z.eqb_spec i a) as [->|]; [by rewrite Z.eqb_refl |].
  destruct (Z.eqb_spec i b) as [->|].
  - rewrite Z.eqb_refl. destruct (Z.eqb_spec a b); congruence.
  - destruct (Z.eqb_spec i b), (Z.eqb_spec i a); congruence.
Qed.

Lemma in_heap_swap h n a b e :
  0 <= a < n -> 0 <= b < n -> n <= zlen h -> in_heap (heap_swap h a b) n e <-> in_heap h n e.
Proof.
  intros Ha Hb Hn. split; [| by apply in_heap_swap_1].
  intros H. apply (in_heap_swap_1 _ _ a b) in H; [| lia | lia | by rewrite zlen_heap_swap].
  destruct H as (i & Hi & <-). exists i. split; [done |].
  rewrite !hget_swap by (rewrite ?zlen_heap_swap; lia).
  destruct (Z.eqb_spec i b) as [->|]; [destruct (Z.eqb_spec a b) as [->|]; [done | by rewrite Z.eqb_refl] |].
  destruct (Z.eqb_spec i a) as [->|]; [by rewrite Z.eqb_refl | done].
Qed.

(** [heap_sift_up] restores the order when only the entry at [i] may be smaller
    than its parent. *)
Lemma sift_up_spec fuel h n i :
  (Z.to_nat i <= fuel)%nat -> 0 <= i < n -> n <= zlen h ->
  (forall j, 0 < j < n -> j <> i -> entry_le (hget h (parent j)) (hget h j)) ->
  (forall j, 0 < j < n -> parent j = i -> 0 < i -> entry_le (hget h (parent i)) (hget h j)) ->
  zlen (heap_sift_up fuel h i) = zlen h /\ heap_ordered (heap_sift_up fuel h i) n /\
  (forall e, in_heap (heap_sift_up fuel h i) n e <-> in_heap h n e).
Proof.
  revert h i. induction fuel as [|fuel IH]; intros h i Hf Hi Hn Ho Hg; cbn [heap_sift_up].
  { split_and!; [done | | done]. intros j Hj. apply Ho; lia. }
  destruct (Z.eqb_spec i 0) as [->|Hi0]; cbn [negb].
  { split_and!; [done | | done]. intros j Hj. apply Ho; lia. }
  pose proof (parent_bounds i ltac:(lia)) as Hp. change ((i - 1) / 2) with (parent i).
  destruct (heap_entry_less (hget h i) (hget h (parent i))) eqn:El; cbn [negb].
  2: { split_and!; [done | | done]. intros j Hj. destruct (Z.eq_dec j i) as [->|]; [exact El | by apply Ho]. }
  apply entry_less_le in El. set (p := parent i) in *.
  destruct (IH (heap_swap h i p) p) as (IH1 & IH2 & IH3); [lia | lia | by rewrite zlen_heap_swap | | |].
  - intros j Hj Hjp. pose proof (parent_bounds j ltac:(lia)).
    rewrite !hget_swap by lia. destruct (Z.eqb_spec j p); [done |].
    destruct (Z.eqb_spec j i) as [->|Hji].
    + fold p. rewrite Z.eqb_refl. done.
    + destruct (Z.eqb_spec (parent j) p) as [Ej|].
      * eapply entry_le_trans; [exact El |]. rewrite <- Ej. by apply Ho.
      * destruct (Z.eqb_spec (parent j) i); [by apply Hg; [lia | | lia] |]. by apply Ho.
  - intros j Hj Hjp Hp0. pose proof (parent_bounds p Hp0). rewrite !hget_swap by lia.
    destruct (Z.eqb_spec (parent p) p); [lia |]. destruct (Z.eqb_spec (parent p) i); [lia |].
    pose proof (Ho p ltac:(lia) ltac:(lia)) as Hpp.
    destruct (Z.eqb_spec j p) as [->|]; [lia |]. destruct (Z.eqb_spec j i); [done |].
    eapply entry_le_trans; [exact Hpp |]. rewrite <- Hjp. by apply Ho.
  - rewrite IH1, zlen_heap_swap. split_and!; [done | done |].
    intros e. rewrite IH3. apply in_heap_swap; [lia | lia | done].
Qed.

(** [heap_sift_down] restores the order when only the entry at [i] may be larger
    than its children. *)
Lemma sift_down_spec fuel h n i :
  (Z.to_nat (n - i) <= fuel)%nat -> 0 <= i < n -> n <= zlen h ->
  (forall j, 0 < j < n -> parent j <> i -> entry_le (hget h (parent j)) (hget h j)) ->
  (forall j, 0 < j < n -> parent j = i -> 0 < i -> entry_le (hget h (parent i)) (hget h j)) ->
  zlen (heap_sift_down fuel h n i) = zlen h /\ heap_ordered (heap_sift_down fuel h n i) n /\
  (forall e, in_heap (heap_sift_down fuel h n i) n e <-> in_heap h n e).
Proof.
  revert h i. induction fuel as [|fuel IH]; intros h i Hf Hi Hn Ho Hg; cbn [heap_sift_down]; [lia |].
  set (l := i * 2 + 1). set (r := l + 1).
  set (m := if (l <? n) && heap_entry_less (hget h l) (hget h i) then l else i).
  set (m' := if (r <? n) && heap_entry_less (hget h r) (hget h m) then r else m).
  assert ((m' = i \/ (m' = l /\ l < n) \/ (m' = r /\ r < n)) /\ entry_le (hget h m') (hget h i) /\
    (l < n -> entry_le (hget h m') (hget h l)) /\ (r < n -> entry_le (hget h m') (hget h r)))
    as (Hm & Hmi & Hml & Hmr).
  { assert ((m = i \/ (m = l /\ l < n)) /\ entry_le (hget h m) (hget h i) /\
      (l < n -> entry_le (hget h m) (hget h l))) as (M1 & M2 & M3).
    { subst m. destruct (Z.ltb_spec l n); cbn [andb]; [| split_and!; [auto | auto | lia]].
      destruct (heap_entry_less (hget h l) (hget h i)) eqn:E; split_and!; auto. }
    clearbody m. subst m'. destruct (Z.ltb_spec r n); cbn [andb]; [| split_and!; [tauto | auto | auto | lia]].
    destruct (heap_entry_less (hget h r) (hget h m)) eqn:E; [| split_and!; [tauto | auto | auto | auto]].
    apply entry_less_le in E. split_and!; [tauto | | | auto]; [by eapply entry_le_trans |].
    intros Hl. eapply entry_le_trans; [exact E | auto]. }
  clearbody m'. clear m.
  assert (forall j, 0 < j < n -> parent j = i -> entry_le (hget h m') (hget h j)) as Hch.
  { intros j Hj Hjp. apply parent_spec in Hjp; [| lia].
    destruct Hjp as [->| ->]; [replace (2 * i + 1) with l in * by lia | replace (2 * i + 2) with r in * by lia];
      [apply Hml | apply Hmr]; lia. }
  destruct (Z.eqb_spec m' i) as [->|Hne].
  { split_and!; [done | | done]. intros j Hj. destruct (Z.eq_dec (parent j) i) as [E|]; [| by apply Ho].
    rewrite E. by apply Hch. }
  assert (i < m' < n /\ parent m' = i) as [Hm'n Hpm].
  { rewrite parent_spec by lia. lia. }
  destruct (IH (heap_swap h i m') m') as (IH1 & IH2 & IH3); [lia | lia | by rewrite zlen_heap_swap | | |].
  - intros j Hj Hjp. pose proof (parent_bounds j ltac:(lia)). rewrite !hget_swap by lia.
    destruct (Z.eqb_spec (parent j) m'); [lia |].
    destruct (Z.eqb_spec j m') as [->|].
    + rewrite Hpm, Z.eqb_refl. done.
    + destruct (Z.eqb_spec (parent j) i) as [E|].
      * destruct (Z.eqb_spec j i); [lia |]. by apply Hch.
      * destruct (Z.eqb_spec j i) as [->|]; [| by apply Ho].
        apply Hg; [lia | done | lia].
  - intros j Hj Hjp _. pose proof (parent_bounds j ltac:(lia)). rewrite !hget_swap by lia. rewrite Hpm.
    destruct (Z.eqb_spec i m'); [lia |]. rewrite Z.eqb_refl.
    destruct (Z.eqb_spec j m'); [lia |]. destruct (Z.eqb_spec j i); [lia |].
    rewrite <- Hjp. apply Ho; lia.
  - rewrite IH1, zlen_heap_swap. split_and!; [done | done |].
    intros e. rewrite IH3. apply in_heap_swap; [lia | lia | done].
Qed.

(** The top of an ordered heap is a smallest entry. *)
Lemma heap_top_least h n e : heap_ordered h n -> in_heap h n e -> entry_le (hget h 0) e.
Proof.
  intros Ho (i & Hi & <-). assert (0 <= i) as Hi0 by lia. revert Hi. pattern i.
  apply Z_lt_induction; [| exact Hi0]. clear i Hi0. intros i IH Hi. destruct (Z.eq_dec i 0) as [->|]; [done |].
  pose proof (parent_bounds i ltac:(lia)).
  eapply entry_le_trans; [apply (IH (parent i)); lia | apply Ho; lia].
Qed.

(** ** Searches and bits *)

Lemma find_app {A} (p : A -> bool) l k :
  find p (l ++ k) = match find p l with Some x => Some x | None => find p k end.
Proof. induction l as [|a l IH]; cbn; [done |]. by destruct (p a). Qed.

Lemma find_zseq_some p n i :
  0 <= n -> find p (zseq n) = Some i -> 0 <= i < n /\ p i = true /\ forall j, 0 <= j < i -> p j = false.
Proof.
  intros Hn. revert i. pattern n. apply natlike_ind; [done | | exact Hn]. clear n Hn. intros n Hn IH i.
  rewrite <- Z.add_1_r, zseq_succ by done. rewrite find_app. destruct (find p (zseq n)) as [k|] eqn:E.
  - intros [= ->]. destruct (IH i eq_refl) as (? & ? & ?). split_and!; [lia | lia | done | done].
  - cbn. destruct (p n) eqn:Ep; [| done]. intros [= <-]. split_and!; [lia | lia | done |].
    intros j Hj. apply (find_none _ _ E j). by apply elem_of_zseq.
Qed.

Lemma find_zseq_none p n j : find p (zseq n) = None -> 0 <= j < n -> p j = false.
Proof. intros H Hj. apply (find_none _ _ H j). by apply elem_of_zseq. Qed.

Lemma testbit_high x n : u64_ok x -> 64 <= n -> Z.testbit x n = false.
Proof.
  intros Hx Hn. destruct (Z.eq_dec x 0) as [->|]; [apply Z.bits_0 |].
  apply Z.bits_above_log2; [mlia |].
  assert (Z.log2 x < 64) by (apply Z.log2_lt_pow2; mlia). lia.
Qed.

Lemma ctzll_spec bits :
  u64_ok bits -> bits <> 0 ->
  0 <= ctzll bits < 64 /\ Z.testbit bits (ctzll bits) = true /\
  forall j, 0 <= j < ctzll bits -> Z.testbit bits j = false.
Proof.
  intros Hb Hnz. unfold ctzll.
  destruct (find (fun i => Z.testbit bits i) (zseq 64)) as [i|] eqn:E; cbn [default].
  - apply find_zseq_some in E; [exact E | lia].
  - contradict Hnz. apply Z.bits_inj'. intros n Hn. rewrite Z.bits_0.
    destruct (Z.lt_ge_cases n 64); [apply (find_zseq_none _ _ n E); lia | by apply testbit_high].
Qed.

Lemma u64_land x y : 0 <= x -> u64_ok y -> u64_ok (Z.land x y).
Proof.
  intros Hx Hy. split; [apply Z.land_nonneg; auto |].
  destruct (Z.eq_dec (Z.land x y) 0) as [->|Hne]; [mlia |].
  assert (0 <= Z.land x y) by (apply Z.land_nonneg; auto).
  assert (Z.land x y < 2 ^ 64); [| mlia]. apply Z.log2_lt_pow2; [lia |].
  assert (y <> 0) by (intros ->; by rewrite Z.land_0_r in Hne).
  pose proof (Z.log2_land x y ltac:(lia) ltac:(mlia)).
  assert (Z.log2 y < 64) by (apply Z.log2_lt_pow2; mlia). lia.
Qed.

Lemma u64_lor x y : u64_ok x -> u64_ok y -> u64_ok (Z.lor x y).
Proof.
  intros Hx Hy. assert (0 <= Z.lor x y) by (apply Z.lor_nonneg; mlia). split; [done |].
  destruct (Z.eq_dec (Z.lor x y) 0) as [->|Hne]; [mlia |].
  assert (Z.lor x y < 2 ^ 64); [| mlia]. apply Z.log2_lt_pow2; [lia |].
  rewrite Z.log2_lor by mlia. destruct (Z.eq_dec x 0) as [->|], (Z.eq_dec y 0) as [->|]; try done;
    apply Z.max_lub_lt; try done; apply Z.log2_lt_pow2; mlia.
Qed.

Lemma testbit_shift1 k n : 0 <= k -> 0 <= n -> Z.testbit (Z.shiftl 1 k) n = (n =? k).
Proof.
  intros Hk Hn. rewrite Z.shiftl_1_l. destruct (Z.eqb_spec n k) as [->|].
  - by apply Z.pow2_bits_true.
  - apply Z.pow2_bits_false. lia.
Qed.

Lemma shift1_ok k : 0 <= k < 64 -> u64_ok (Z.shiftl 1 k).
Proof.
  intros Hk. rewrite Z.shiftl_1_l. pose proof (Z.pow_pos_nonneg 2 k ltac:(lia) ltac:(lia)).
  pose proof (Z.pow_le_mono_r 2 k 63 ltac:(lia) ltac:(lia)). mlia.
Qed.

Lemma testbit_all_but k n :
  0 <= k < 64 -> 0 <= n < 64 -> Z.testbit (UINT64_MAX - Z.shiftl 1 k) n = negb (n =? k).
Proof.
  intros Hk Hn. change UINT64_MAX with (Z.ones 64). rewrite Z.sub_nocarry_ldiff.
  - rewrite Z.ldiff_spec, Z.ones_spec_low by lia. by rewrite testbit_shift1 by lia.
  - apply Z.bits_inj'. intros m Hm. rewrite Z.ldiff_spec, testbit_shift1, Z.bits_0 by lia.
    destruct (Z.eqb_spec m k) as [->|]; [by rewrite Z.ones_spec_low by lia | done].
Qed.

Lemma testbit_below k n : 0 <= k -> 0 <= n -> Z.testbit (Z.shiftl 1 k - 1) n = (n <? k).
Proof.
  intros Hk Hn. rewrite Z.shiftl_1_l. replace (2 ^ k - 1) with (Z.ones k) by (rewrite Z.ones_equiv; lia).
  destruct (Z.ltb_spec n k); [apply Z.ones_spec_low | apply Z.ones_spec_high]; lia.
Qed.

Lemma testbit_from k n :
  0 <= k < 64 -> 0 <= n < 64 -> Z.testbit (u64 (Z.shiftl UINT64_MAX k)) n = (k <=? n).
Proof.
  intros Hk Hn. unfold u64. change 18446744073709551616 with (2 ^ 64).
  rewrite Z.mod_pow2_bits_low, Z.shiftl_spec by lia.
  destruct (Z.leb_spec k n); [apply (Z.ones_spec_low 64); lia | apply Z.testbit_neg_r; lia].
Qed.


(** ** The invariant *)

Definition entry_of (s : wd_dirty_region_scheduler) (r : Z) : wd_dirty_region_heap_entry :=
  mk_wd_dirty_region_heap_entry (aget 0 s.(ds_enqueued_ns) r) (aget 0 s.(ds_serial) r) r.

Definition bit_of (s : wd_dirty_region_scheduler) (r : Z) : bool :=
  Z.testbit (aget 0 s.(ds_queued_bits) (r / 64)) (r mod 64).

(** The shape of the arrays. *)
Record sched_shape (s : wd_dirty_region_scheduler) : Prop := {
  sh_capacity : 0 < s.(ds_capacity) <= UINT16_MAX;
  sh_starvation : 0 <= s.(ds_starvation_ns);
  sh_queued : zlen s.(ds_queued) = s.(ds_capacity);
  sh_enqueued : zlen s.(ds_enqueued_ns) = s.(ds_capacity);
  sh_serial : zlen s.(ds_serial) = s.(ds_capacity);
  sh_words : s.(ds_bit_word_count) = cdiv s.(ds_capacity) 64;
  sh_bits : zlen s.(ds_queued_bits) = s.(ds_bit_word_count);
  sh_bits_ok : forall w, u64_ok (aget 0 s.(ds_queued_bits) w);
  sh_heap : 0 <= s.(ds_heap_count) <= s.(ds_heap_capacity) /\ zlen s.(ds_heap) = s.(ds_heap_capacity);
}.

(** The heap is ordered and has the entry of every queued region. *)
Definition heap_covers (s : wd_dirty_region_scheduler) : Prop :=
  heap_ordered s.(ds_heap) s.(ds_heap_count) /\
  forall r, 0 <= r < s.(ds_capacity) -> aget false s.(ds_queued) r = true ->
    in_heap s.(ds_heap) s.(ds_heap_count) (entry_of s r).

Definition ids_nonneg (s : wd_dirty_region_scheduler) : Prop :=
  forall e, in_heap s.(ds_heap) s.(ds_heap_count) e -> 0 <= e.(he_region_id).

Record sched_ok (s : wd_dirty_region_scheduler) : Prop := {
  ok_shape : sched_shape s;
  ok_heap : heap_covers s;
  ok_ids : ids_nonneg s;
  ok_bits : forall r, 0 <= r < s.(ds_capacity) -> bit_of s r = aget false s.(ds_queued) r;
  ok_count : s.(ds_count) = n_queued s.(ds_queued);
}.

(** *** The bitmap scan *)

Lemma div64_unique id w b : id = w * 64 + b -> 0 <= b < 64 -> id / 64 = w /\ id mod 64 = b.
Proof.
  intros -> Hb. split; symmetry; [apply Z.div_unique with (r := b) | apply Z.mod_unique with (q := w)]; lia.
Qed.

Lemma div64_split id : id = id / 64 * 64 + id mod 64 /\ 0 <= id mod 64 < 64.
Proof. pose proof (Z.div_mod id 64 ltac:(lia)). pose proof (Z.mod_pos_bound id 64). lia. Qed.

(** What a search of the regions [lo .. hi-1] must answer. *)
Definition first_in (p : Z -> bool) (lo hi : Z) (o : option Z) : Prop :=
  match o with
  | Some id => lo <= id < hi /\ p id = true /\ forall j, lo <= j < id -> p j = false
  | None => forall j, lo <= j < hi -> p j = false
  end.

(** The mask of the last word removes exactly the regions from [stop] on. *)
Lemma mask_last_spec stop word bits (p : Z -> bool) :
  0 < stop -> 0 <= word <= (stop - 1) / 64 -> u64_ok bits ->
  (forall b, 0 <= b < 64 -> Z.testbit bits b = p b) ->
  let masked := if (word =? (stop - 1) / 64) && negb (stop mod 64 =? 0)
                then Z.land bits (Z.shiftl 1 (stop mod 64) - 1) else bits in
  u64_ok masked /\
  forall b, 0 <= b < 64 -> Z.testbit masked b = (word * 64 + b <? stop) && p b.
Proof.
  intros Hstop Hw Hb Hp. destruct (div64_split (stop - 1)) as [El Hl].
  destruct (div64_split stop) as [Es Hs64]. set (last := (stop - 1) / 64) in *.
  destruct ((word =? last) && negb (stop mod 64 =? 0)) eqn:E; cbv zeta.
  - bool_cases. assert (stop / 64 = last) as Eq
      by (symmetry; apply (div64_unique (stop - 1) (stop / 64) (stop mod 64 - 1)); lia).
    split; [apply u64_land; [mlia |]; pose proof (shift1_ok (stop mod 64) Hs64);
            rewrite Z.shiftl_1_l in *; pose proof (Z.pow_pos_nonneg 2 (stop mod 64)); mlia |].
    intros b Hb64. rewrite Z.land_spec, Hp, testbit_below by lia.
    replace (word * 64 + b <? stop) with (b <? stop mod 64)
      by (destruct (Z.ltb_spec b (stop mod 64)), (Z.ltb_spec (word * 64 + b) stop); lia).
    apply andb_comm.
  - split; [done |]. intros b Hb64. rewrite Hp by done.
    rewrite (proj2 (Z.ltb_lt (word * 64 + b) stop)); [done |].
    apply andb_false_iff in E. destruct E as [E|E]; bool_cases; [lia |].
    assert (last = stop / 64 - 1); [| lia]. apply (div64_unique (stop - 1) (stop / 64 - 1) 63); lia.
Qed.

Lemma scan_words_spec s lo stop fuel word bits :
  sched_shape s -> 0 <= lo -> 0 < stop <= s.(ds_capacity) ->
  let last := (stop - 1) / 64 in
  (Z.to_nat (last - word) < fuel)%nat -> 0 <= word <= last -> u64_ok bits ->
  lo < (word + 1) * 64 ->
  (forall b, 0 <= b < 64 -> Z.testbit bits b =
     (lo <=? word * 64 + b) && Z.testbit (aget 0 s.(ds_queued_bits) word) b) ->
  first_in (bit_of s) (Z.max lo (word * 64)) stop (scan_words fuel s word last stop bits).
Proof.
  intros Hs Hlo Hstop last. revert word bits. induction fuel as [|fuel IH]; [lia |].
  intros word bits Hf Hw Hb Hlow Hbits. cbn [scan_words].
  destruct (div64_split (stop - 1)) as [El Hl]. fold last in El.
  destruct (mask_last_spec stop word bits _ ltac:(lia) Hw Hb Hbits) as [Hm Hmb]. fold last in Hm, Hmb.
  set (masked := if (word =? last) && negb (stop mod 64 =? 0)
                 then Z.land bits (Z.shiftl 1 (stop mod 64) - 1) else bits) in *.
  clearbody masked. clear Hb Hbits bits.
  assert (forall j, Z.max lo (word * 64) <= j < Z.min stop ((word + 1) * 64) ->
    bit_of s j = Z.testbit masked (j - word * 64)) as Hj.
  { intros j Hj. unfold bit_of.
    destruct (div64_unique j word (j - word * 64) ltac:(lia) ltac:(lia)) as [-> ->].
    rewrite Hmb by lia. rewrite (proj2 (Z.ltb_lt _ _)), (proj2 (Z.leb_le _ _)) by lia. done. }
  destruct (Z.eqb_spec masked 0) as [->|Hne]; cbn [negb andb].
  - assert (forall j, Z.max lo (word * 64) <= j < Z.min stop ((word + 1) * 64) -> bit_of s j = false)
      as Hz by (intros j Hj'; rewrite Hj by done; apply Z.bits_0).
    destruct (Z.gtb_spec (word + 1) last) as [Hgt|Hle].
    { cbn [first_in]. intros j Hj'. apply Hz. lia. }
    pose proof (IH (word + 1) (aget 0 s.(ds_queued_bits) (word + 1)) ltac:(lia) ltac:(lia)
      (sh_bits_ok s Hs _) ltac:(lia)) as H.
    rewrite (Z.max_r lo) in H by lia.
    assert (forall o, first_in (bit_of s) ((word + 1) * 64) stop o ->
      first_in (bit_of s) (Z.max lo (word * 64)) stop o) as Hext.
    { intros [id|]; cbn [first_in].
      - intros ((? & ?) & ? & Hbefore). split_and!; [lia | lia | done |]. intros j Hj'.
        destruct (Z.lt_ge_cases j ((word + 1) * 64)); [apply Hz | apply Hbefore]; lia.
      - intros Hbefore j Hj'. destruct (Z.lt_ge_cases j ((word + 1) * 64)); [apply Hz | apply Hbefore]; lia. }
    apply Hext, H. intros b Hb. rewrite (proj2 (Z.leb_le lo _)) by lia. done.
  - destruct (ctzll_spec masked Hm Hne) as (Hc & Hct & Hcb). pose proof Hct as Hct'.
    rewrite Hmb in Hct' by done. bool_cases.
    rewrite (proj2 (Z.ltb_lt _ _)) by lia. cbn [first_in]. split_and!; [lia | lia | |].
    + rewrite Hj by lia. rewrite <- Hct. f_equal. lia.
    + intros j Hj'. rewrite Hj by lia. apply Hcb. lia.
Qed.

Lemma scan_pass_spec s lo stop :
  sched_shape s -> 0 <= lo -> stop <= s.(ds_capacity) -> first_in (bit_of s) lo stop (scan_pass s lo stop).
Proof.
  intros Hs Hlo Hstop. unfold scan_pass. destruct (Z.geb_spec lo stop); [cbn; lia |].
  destruct (div64_split lo) as [El Hl]. cbv zeta.
  assert (lo / 64 <= (stop - 1) / 64) by (apply Z.div_le_mono; lia).
  assert (0 <= lo / 64) by (apply Z.div_pos; lia).
  pose proof (scan_words_spec s lo stop (Z.to_nat ((stop - 1) / 64 - lo / 64 + 1)) (lo / 64)
    (Z.land (aget 0 s.(ds_queued_bits) (lo / 64)) (u64 (Z.shiftl UINT64_MAX (lo mod 64))))
    Hs Hlo ltac:(lia)) as Hw. cbv zeta in Hw. rewrite (Z.max_l lo) in Hw by lia.
  apply Hw; [lia | lia | | lia |].
  - apply u64_land; [pose proof (sh_bits_ok s Hs (lo / 64)); mlia | apply u64_range].
  - intros b Hb. rewrite Z.land_spec, testbit_from by lia. rewrite andb_comm. f_equal.
    destruct (Z.leb_spec (lo mod 64) b), (Z.leb_spec lo (lo / 64 * 64 + b)); lia.
Qed.

(** The distance from the region after the cursor, around the grid. *)
Definition ahead (capacity cursor r : Z) : Z := (r - (cursor + 1) mod capacity) mod capacity.

Lemma ahead_spec cap cursor r :
  0 < cap -> 0 <= r < cap ->
  let start := (cursor + 1) mod cap in
  ahead cap cursor r = if start <=? r then r - start else r - start + cap.
Proof.
  intros Hc Hr start. pose proof (Z.mod_pos_bound (cursor + 1) cap Hc). unfold ahead. fold start.
  destruct (Z.leb_spec start r); [apply Z.mod_small; lia | apply mod_neg; lia].
Qed.

Lemma find_next_queued_spec s cursor :
  sched_ok s -> s.(ds_count) <> 0 ->
  let r := find_next_queued s cursor in
  0 <= r < s.(ds_capacity) /\ aget false s.(ds_queued) r = true /\
  forall r', 0 <= r' < s.(ds_capacity) -> aget false s.(ds_queued) r' = true ->
    ahead s.(ds_capacity) cursor r <= ahead s.(ds_capacity) cursor r'.
Proof.
  intros Hok Hc. pose proof (ok_shape s Hok) as Hs. pose proof (sh_capacity s Hs) as Hcap.
  unfold find_next_queued. rewrite (proj2 (Z.eqb_neq _ 0)) by done. cbv zeta.
  set (start := (cursor + 1) mod s.(ds_capacity)).
  pose proof (Z.mod_pos_bound (cursor + 1) s.(ds_capacity) ltac:(lia)) as Hst. fold start in Hst.
  pose proof (scan_pass_spec s start s.(ds_capacity) Hs ltac:(lia) ltac:(lia)) as H1.
  pose proof (scan_pass_spec s 0 start Hs ltac:(lia) ltac:(lia)) as H2.
  assert (forall r, 0 <= r < s.(ds_capacity) -> ahead s.(ds_capacity) cursor r =
     if start <=? r then r - start else r - start + s.(ds_capacity)) as Ha
    by (intros; apply ahead_spec; lia).
  destruct (scan_pass s start s.(ds_capacity)) as [id|]; cbn [first_in] in H1.
  { destruct H1 as (Hid & Hq & Hb). rewrite u16_small by mlia. rewrite ok_bits in Hq by (done || lia).
    split_and!; [lia | lia | done |]. intros r' Hr' Hq'. rewrite !Ha by lia.
    destruct (Z.leb_spec start id); [| lia]. destruct (Z.leb_spec start r'); [| lia].
    destruct (Z.lt_ge_cases r' id); [| lia]. rewrite <- ok_bits, Hb in Hq' by (done || lia). done. }
  destruct (scan_pass s 0 start) as [id|]; cbn [first_in] in H2.
  { destruct H2 as (Hid & Hq & Hb). rewrite u16_small by mlia. rewrite ok_bits in Hq by (done || lia).
    split_and!; [lia | lia | done |]. intros r' Hr' Hq'. rewrite !Ha by lia.
    destruct (Z.leb_spec start id); [lia |]. destruct (Z.leb_spec start r').
    - rewrite <- ok_bits, H1 in Hq' by (done || lia). done.
    - destruct (Z.lt_ge_cases r' id); [| lia]. rewrite <- ok_bits, Hb in Hq' by (done || lia). done. }
  exfalso. apply Hc. rewrite ok_count by done. apply n_queued_zero. rewrite sh_queued by done.
  intros r Hr. rewrite <- ok_bits by done. destruct (Z.lt_ge_cases r start); [apply H2 | apply H1]; lia.
Qed.

(** *** The heap operations *)

Lemma heap_pop_spec s :
  sched_shape s -> heap_ordered s.(ds_heap) s.(ds_heap_count) -> s.(ds_heap_count) <> 0 ->
  exists h, heap_pop s = s <| ds_heap := h |> <| ds_heap_count := s.(ds_heap_count) - 1 |> /\
    zlen h = zlen s.(ds_heap) /\ heap_ordered h (s.(ds_heap_count) - 1) /\
    (forall e, in_heap h (s.(ds_heap_count) - 1) e -> in_heap s.(ds_heap) s.(ds_heap_count) e) /\
    (forall e, in_heap s.(ds_heap) s.(ds_heap_count) e -> e <> hget s.(ds_heap) 0 ->
       in_heap h (s.(ds_heap_count) - 1) e).
Proof.
  intros Hs Ho Hn. destruct (sh_heap s Hs) as [Hc Hl]. unfold heap_pop.
  rewrite (proj2 (Z.eqb_neq _ 0)) by done.
  set (n := s.(ds_heap_count)) in *. set (h := s.(ds_heap)) in *. cbv zeta. cbn [ds_heap_count ds_heap set_field].
  destruct (Z.eqb_spec (n - 1) 0) as [E|E]; cbn [negb].
  { exists h. split_and!; [by destruct s | done | intros j Hj; lia | intros e (i & Hi & _); lia |].
    intros e (i & Hi & <-) Hne. replace i with 0 in Hne by lia. done. }
  set (h1 := aset h 0 (hget h (n - 1))).
  assert (forall k, 0 <= k -> hget h1 k = if k =? 0 then hget h (n - 1) else hget h k) as Hg.
  { intros k Hk. subst h1. destruct (Z.eqb_spec k 0) as [->|]; [apply aget_aset_eq | apply aget_aset_ne]; lia. }
  assert (zlen h1 = zlen h) as Hl1 by apply zlen_aset.
  destruct (sift_down_spec (Z.to_nat (n - 1)) h1 (n - 1) 0) as (D1 & D2 & D3); [lia | lia | lia | | lia |].
  - intros j Hj Hp. pose proof (parent_bounds j ltac:(lia)). rewrite !Hg by lia.
    rewrite (proj2 (Z.eqb_neq (parent j) 0)), (proj2 (Z.eqb_neq j 0)) by lia. apply Ho. lia.
  - exists (heap_sift_down (Z.to_nat (n - 1)) h1 (n - 1) 0).
    split_and!; [done | lia | done | |]; intros e; rewrite D3.
    + intros (i & Hi & <-). rewrite Hg by lia. destruct (Z.eqb_spec i 0); [exists (n - 1) | exists i]; (split; [lia | done]).
    + intros (i & Hi & <-) Hne. assert (i <> 0) by congruence.
      destruct (Z.eq_dec i (n - 1)) as [->|].
      * exists 0. split; [lia |]. by rewrite Hg by lia.
      * exists i. split; [lia |]. rewrite Hg by lia. by rewrite (proj2 (Z.eqb_neq i 0)).
Qed.

Lemma entry_of_current s r :
  0 <= r < s.(ds_capacity) -> aget false s.(ds_queued) r = true ->
  heap_entry_current s (entry_of s r) = true.
Proof.
  intros Hr Hq. unfold heap_entry_current, entry_of. cbn. rewrite Hq, !Z.eqb_refl.
  by rewrite (proj2 (Z.ltb_lt _ _)) by lia.
Qed.

Lemma prune_loop_spec fuel s :
  sched_shape s -> heap_covers s -> ids_nonneg s -> (Z.to_nat s.(ds_heap_count) <= fuel)%nat ->
  exists h n, let s' := s <| ds_heap := h |> <| ds_heap_count := n |> in
    prune_loop fuel s = s' /\ sched_shape s' /\ heap_covers s' /\ ids_nonneg s' /\
    (n <> 0 -> heap_entry_current s' (hget h 0) = true).
Proof.
  revert s. induction fuel as [|fuel IH]; intros s Hs Hc Hi Hf; cbn [prune_loop].
  { exists s.(ds_heap), s.(ds_heap_count). destruct (sh_heap s Hs) as [? _].
    split_and!; [by destruct s | by destruct s | by destruct s | by destruct s | intros; lia]. }
  destruct (Z.eqb_spec s.(ds_heap_count) 0) as [E0|E0]; cbn [negb andb].
  { exists s.(ds_heap), s.(ds_heap_count).
    split_and!; [by destruct s | by destruct s | by destruct s | by destruct s | done]. }
  destruct (heap_entry_current s (hget s.(ds_heap) 0)) eqn:Ec; cbn [negb].
  { exists s.(ds_heap), s.(ds_heap_count).
    split_and!; [by destruct s | by destruct s | by destruct s | by destruct s | by destruct s]. }
  destruct Hc as [Ho Hc]. destruct (heap_pop_spec s Hs Ho E0) as (h & -> & Hl & Ho' & Hin & Hout).
  destruct (sh_heap s Hs) as [Hn Hz].
  edestruct (IH (s <| ds_heap := h |> <| ds_heap_count := s.(ds_heap_count) - 1 |>))
    as (h' & n' & E' & Hs' & Hc' & Hi' & Ht').
  - destruct Hs; constructor; cbn in *; try done; lia.
  - split; [done |]. cbn. intros r Hr Hq. apply Hout; [by apply Hc |].
    intros E. assert (heap_entry_current s (hget s.(ds_heap) 0) = true)
      by (rewrite <- E; exact (entry_of_current s r Hr Hq)). congruence.
  - intros e He. apply Hi, Hin, He.
  - cbn. lia.
  - exists h', n'. split_and!; [exact E' | exact Hs' | exact Hc' | exact Hi' | exact Ht'].
Qed.

Lemma heap_push_spec alloc_ok s r :
  sched_shape s -> heap_ordered s.(ds_heap) s.(ds_heap_count) -> 0 <= r ->
  match heap_push alloc_ok s r with
  | (true, s') => exists h c,
      s' = s <| ds_heap := h |> <| ds_heap_capacity := c |> <| ds_heap_count := s.(ds_heap_count) + 1 |> /\
      s.(ds_heap_count) + 1 <= c /\ zlen h = c /\ heap_ordered h (s.(ds_heap_count) + 1) /\
      (forall e, in_heap h (s.(ds_heap_count) + 1) e <->
         e = entry_of s r \/ in_heap s.(ds_heap) s.(ds_heap_count) e)
  | (false, s') => s' = s /\ alloc_ok = false
  end.
Proof.
  intros Hs Ho Hr. destruct (sh_heap s Hs) as [Hn Hz]. unfold heap_push.
  assert (match heap_reserve alloc_ok s (s.(ds_heap_count) + 1) with
    | (true, s') => exists h0 c, s' = s <| ds_heap := s.(ds_heap) ++ h0 |> <| ds_heap_capacity := c |> /\
        s.(ds_heap_count) + 1 <= c /\ zlen (s.(ds_heap) ++ h0) = c
    | (false, s') => s' = s /\ alloc_ok = false end) as Hres.
  { unfold heap_reserve. destruct (Z.geb_spec s.(ds_heap_capacity) (s.(ds_heap_count) + 1)).
    - exists [], s.(ds_heap_capacity). rewrite app_nil_r. split_and!; [by destruct s | lia | lia].
    - destruct alloc_ok; cbn [negb]; [| done].
      match goal with |- context [if ?x <? _ then _ else _] => generalize x end. intros x.
      eexists (replicate _ entry0), _. split_and!; [reflexivity | crush_if; lia |].
      rewrite zlen_app. unfold zlen at 2. rewrite length_replicate. crush_if; lia. }
  destruct (heap_reserve alloc_ok s (s.(ds_heap_count) + 1)) as [[] s1]; [| done].
  destruct Hres as (h0 & c & -> & Hc & Hl). cbn [ds_heap_count ds_heap ds_enqueued_ns ds_serial set_field].
  set (n := s.(ds_heap_count)) in *. fold (entry_of s r). set (h := s.(ds_heap)) in *.
  set (h1 := aset (h ++ h0) n (entry_of s r)).
  assert (zlen h1 = c) as Hl1 by (subst h1; rewrite zlen_aset; done).
  assert (forall k, 0 <= k <= n -> hget h1 k = if k =? n then entry_of s r else hget h k) as Hg.
  { intros k Hk. subst h1. destruct (Z.eqb_spec k n) as [->|]; [apply aget_aset_eq; lia |].
    rewrite aget_aset_ne by lia. apply aget_app_l. lia. }
  destruct (sift_up_spec (Z.to_nat n) h1 (n + 1) n) as (U1 & U2 & U3); [lia | lia | lia | | |].
  - intros j Hj Hjn. pose proof (parent_bounds j ltac:(lia)). rewrite !Hg by lia.
    rewrite (proj2 (Z.eqb_neq (parent j) n)), (proj2 (Z.eqb_neq j n)) by lia. apply Ho. lia.
  - intros j Hj Hjp _. pose proof (parent_bounds j ltac:(lia)). lia.
  - exists (heap_sift_up (Z.to_nat n) h1 n), c. split_and!; [done | done | lia | done |].
    intros e. rewrite U3. split.
    + intros (i & Hi & <-). rewrite Hg by lia. destruct (Z.eqb_spec i n); [by left | right].
      exists i. split; [lia | done].
    + intros [->|(i & Hi & <-)]; [exists n | exists i]; (split; [lia |]); rewrite Hg by lia;
        [by rewrite Z.eqb_refl | by rewrite (proj2 (Z.eqb_neq i n)) by lia].
Qed.

(** ** The queue the scheduler promises

    The abstract state: for every region the time since when it waits (zero
    when it does not wait) and whether it is queued.  A region that was taken
    keeps its time until it is forgotten, so that a region queued again keeps
    its place. *)

Record queue := mk_queue {
  q_age : list Z;
  q_queued : list bool;
}.

Inductive request :=
  | Enqueue (alloc_ok : bool) (region_id now_ns : Z)
  | Take (cursor_region_id now_ns : Z)
  | Forget (region_id : Z)
  | Reset.

Inductive reply :=
  | Accepted (b : bool)
  | Region (r : option Z)
  | Done.

Section queue.
Context (capacity starvation_ns : Z).

Definition waiting (q : queue) (r : Z) : Prop :=
  0 <= r < capacity /\ aget false q.(q_queued) r = true.

Definition age (q : queue) (r : Z) : Z := aget 0 q.(q_age) r.

Definition starving (q : queue) (now_ns r : Z) : Prop :=
  waiting q r /\ starvation_ns <> 0 /\ age q r + starvation_ns <= now_ns.

Definition older (q : queue) (r r' : Z) : Prop :=
  age q r < age q r' \/ (age q r = age q r' /\ r <= r').

Definition dequeue (q : queue) (r : Z) : queue := mk_queue q.(q_age) (aset q.(q_queued) r false).

Inductive queue_step (q : queue) : request -> reply -> queue -> Prop :=
  | enqueue_out_of_range ok r now :
      capacity <= r -> queue_step q (Enqueue ok r now) (Accepted false) q
  | enqueue_again ok r now :
      waiting q r -> queue_step q (Enqueue ok r now) (Accepted true) q
  | enqueue_new ok r now :
      0 <= r < capacity -> aget false q.(q_queued) r = false ->
      queue_step q (Enqueue ok r now) (Accepted true)
        (mk_queue (if age q r =? 0 then aset q.(q_age) r (Z.max 1 now) else q.(q_age))
           (aset q.(q_queued) r true))
  | enqueue_no_memory r now :
      0 <= r < capacity -> aget false q.(q_queued) r = false ->
      queue_step q (Enqueue false r now) (Accepted false) q
  | take_none cursor now :
      (forall r, ~ waiting q r) -> queue_step q (Take cursor now) (Region None) q
  | take_starving cursor now r :
      starving q now r -> (forall r', waiting q r' -> older q r r') ->
      queue_step q (Take cursor now) (Region (Some r)) (dequeue q r)
  | take_next cursor now r :
      waiting q r -> (forall r', ~ starving q now r') ->
      (forall r', waiting q r' -> ahead capacity cursor r <= ahead capacity cursor r') ->
      queue_step q (Take cursor now) (Region (Some r)) (dequeue q r)
  | forget_out_of_range r :
      capacity <= r -> queue_step q (Forget r) Done q
  | forget_region r :
      0 <= r < capacity ->
      queue_step q (Forget r) Done (mk_queue (aset q.(q_age) r 0) (aset q.(q_queued) r false))
  | reset_queue :
      queue_step q Reset Done
        (mk_queue (replicate (Z.to_nat capacity) 0) (replicate (Z.to_nat capacity) false)).

Inductive queue_run : queue -> list request -> list reply -> queue -> Prop :=
  | queue_run_nil q : queue_run q [] [] q
  | queue_run_cons q m q' req rep reqs reps :
      queue_step q req rep m -> queue_run m reqs reps q' -> queue_run q (req :: reqs) (rep :: reps) q'.

End queue.

(** The arguments of a request are in the range of their types. *)
Definition request_ok (req : request) : Prop :=
  match req with
  | Enqueue _ r now => u16_ok r /\ u64_ok now
  | Take cursor now => u16_ok cursor /\ u64_ok now
  | Forget r => u16_ok r
  | Reset => True
  end.

Definition perform (s : wd_dirty_region_scheduler) (req : request)
    : reply * wd_dirty_region_scheduler :=
  match req with
  | Enqueue ok r now => let '(b, s) := wd_dirty_region_scheduler_enqueue ok s r now in (Accepted b, s)
  | Take cursor now => let '(r, s) := wd_dirty_region_scheduler_take s cursor now in (Region r, s)
  | Forget r => (Done, wd_dirty_region_scheduler_forget s r)
  | Reset => (Done, wd_dirty_region_scheduler_reset s)
  end.

Fixpoint perform_all (s : wd_dirty_region_scheduler) (reqs : list request)
    : list reply * wd_dirty_region_scheduler :=
  match reqs with
  | [] => ([], s)
  | req :: reqs =>
      let '(rep, s) := perform s req in
      let '(reps, s) := perform_all s reqs in (rep :: reps, s)
  end.

Definition queue_of (s : wd_dirty_region_scheduler) : queue := mk_queue s.(ds_enqueued_ns) s.(ds_queued).

(** *** Changes to the bitmap *)

Lemma word_in_range s r :
  sched_shape s -> 0 <= r < s.(ds_capacity) -> 0 <= r / 64 < zlen s.(ds_queued_bits).
Proof.
  intros Hs Hr. rewrite sh_bits, sh_words by done. split; [apply Z.div_pos; lia |].
  apply div_lt_cdiv; lia.
Qed.

Lemma word_aset (l : list Z) w v :
  (forall i, u64_ok (aget 0 l i)) -> u64_ok v -> 0 <= w < zlen l -> forall i, u64_ok (aget 0 (aset l w v) i).
Proof.
  intros Hl Hv Hw i. destruct (Z.lt_ge_cases i 0).
  - replace (aget 0 (aset l w v) i) with (aget 0 (aset l w v) 0) by (unfold aget; f_equal; lia).
    destruct (Z.eq_dec w 0) as [->|]; [by rewrite aget_aset_eq | rewrite aget_aset_ne by lia; apply Hl].
  - destruct (Z.eq_dec w i) as [->|]; [by rewrite aget_aset_eq | rewrite aget_aset_ne by lia; apply Hl].
Qed.

(** Changing the word of region [r] by a function that affects one bit. *)
Lemma bit_of_aset s r v b r' :
  sched_shape s -> 0 <= r < s.(ds_capacity) -> 0 <= r' < s.(ds_capacity) ->
  (forall k, 0 <= k < 64 -> Z.testbit v k =
     if k =? r mod 64 then b else Z.testbit (aget 0 s.(ds_queued_bits) (r / 64)) k) ->
  bit_of (s <| ds_queued_bits := aset s.(ds_queued_bits) (r / 64) v |>) r' =
    if r' =? r then b else bit_of s r'.
Proof.
  intros Hs Hr Hr' Hv. pose proof (word_in_range s r Hs Hr). unfold bit_of. cbn [ds_queued_bits set_field].
  destruct (div64_split r) as [E1 B1], (div64_split r') as [E2 B2].
  destruct (Z.eq_dec (r' / 64) (r / 64)) as [E|].
  - rewrite E, aget_aset_eq, Hv by done. rewrite E in E2.
    destruct (Z.eqb_spec (r' mod 64) (r mod 64)), (Z.eqb_spec r' r); try done; lia.
  - rewrite aget_aset_ne by (try apply Z.div_pos; lia).
    destruct (Z.eqb_spec r' r) as [->|]; done.
Qed.

Lemma bit_set_spec s r :
  sched_shape s -> 0 <= r < s.(ds_capacity) ->
  exists w, bit_set s r = s <| ds_queued_bits := aset s.(ds_queued_bits) (r / 64) w |> /\ u64_ok w /\
    forall r', 0 <= r' < s.(ds_capacity) -> bit_of (bit_set s r) r' = if r' =? r then true else bit_of s r'.
Proof.
  intros Hs Hr. destruct (div64_split r) as [E1 B1]. eexists. split_and!; [reflexivity | |].
  - apply u64_lor; [apply (sh_bits_ok s Hs) | by apply shift1_ok].
  - intros r' Hr'. apply bit_of_aset; [done | done | done |]. intros k Hk.
    rewrite Z.lor_spec, testbit_shift1 by lia.
    destruct (Z.eqb_spec k (r mod 64)); [apply orb_true_r | apply orb_false_r].
Qed.

Lemma bit_clear_spec s r :
  sched_shape s -> 0 <= r < s.(ds_capacity) ->
  exists w, bit_clear s r = s <| ds_queued_bits := aset s.(ds_queued_bits) (r / 64) w |> /\ u64_ok w /\
    forall r', 0 <= r' < s.(ds_capacity) -> bit_of (bit_clear s r) r' = if r' =? r then false else bit_of s r'.
Proof.
  intros Hs Hr. destruct (div64_split r) as [E1 B1]. eexists. split_and!; [reflexivity | |].
  - apply u64_land; [pose proof (sh_bits_ok s Hs (r / 64)); mlia |].
    pose proof (shift1_ok (r mod 64) B1). mlia.
  - intros r' Hr'. apply bit_of_aset; [done | done | done |]. intros k Hk.
    rewrite Z.land_spec, testbit_all_but by lia.
    destruct (Z.eqb_spec k (r mod 64)); [apply andb_false_r | apply andb_true_r].
Qed.

(** *** Every operation keeps the invariant *)

(** An array cell of another region. *)
Lemma entry_of_other s r r' e v :
  r' <> r -> 0 <= r -> 0 <= r' ->
  entry_of (s <| ds_enqueued_ns := aset s.(ds_enqueued_ns) r e |>
              <| ds_serial := aset s.(ds_serial) r v |>) r' = entry_of s r'.
Proof. intros. unfold entry_of. cbn. by rewrite !aget_aset_ne by lia. Qed.

(** The invariant but for the heap entry of one region. *)
Record sched_ok_but (s : wd_dirty_region_scheduler) (r : Z) : Prop := {
  but_shape : sched_shape s;
  but_order : heap_ordered s.(ds_heap) s.(ds_heap_count);
  but_covers : forall r', 0 <= r' < s.(ds_capacity) -> aget false s.(ds_queued) r' = true -> r' <> r ->
    in_heap s.(ds_heap) s.(ds_heap_count) (entry_of s r');
  but_ids : ids_nonneg s;
  but_bits : forall r', 0 <= r' < s.(ds_capacity) -> bit_of s r' = aget false s.(ds_queued) r';
  but_count : s.(ds_count) = n_queued s.(ds_queued);
}.

Lemma sched_ok_weaken s r : sched_ok s -> sched_ok_but s r.
Proof. intros [? [? ?] ? ? ?]. constructor; auto. Qed.

(** A region leaves the queue: the common part of [take], [forget] and of an
    [enqueue] that fails. *)
Lemma unqueue_ok s r :
  sched_ok_but s r -> 0 <= r < s.(ds_capacity) -> aget false s.(ds_queued) r = true ->
  sched_ok ((bit_clear (s <| ds_queued := aset s.(ds_queued) r false |>) r)
              <| ds_count := u16 (s.(ds_count) - 1) |>).
Proof.
  intros [Hs Ho Hc Hids Hbits Hcnt] Hr Hq.
  set (s1 := s <| ds_queued := aset s.(ds_queued) r false |>).
  assert (sched_shape s1) as Hs1.
  { destruct Hs; constructor; cbn; rewrite ?zlen_aset; done. }
  destruct (bit_clear_spec s1 r Hs1 Hr) as (w & Ew & Hw & Hb). rewrite Ew in *.
  pose proof (word_in_range s r Hs Hr) as Hwr.
  pose proof (n_queued_aset s.(ds_queued) r false ltac:(by rewrite sh_queued by done)) as Hnq.
  pose proof (n_queued_range (aset s.(ds_queued) r false)) as Hnr.
  rewrite zlen_aset, (sh_queued s Hs) in Hnr. pose proof (sh_capacity s Hs).
  rewrite Hq in Hnq. cbn [Z.b2z] in Hnq. constructor.
  - destruct Hs1; constructor; cbn in *; rewrite ?zlen_aset in *; try done. by apply word_aset.
  - split; [exact Ho |]. cbn. intros r' Hr' Hq'. destruct (Z.eq_dec r' r) as [->|].
    + rewrite aget_aset_eq in Hq' by (by rewrite sh_queued by done). done.
    + rewrite aget_aset_ne in Hq' by lia. by apply (Hc r' Hr' Hq').
  - exact Hids.
  - intros r' Hr'. change (0 <= r' < s.(ds_capacity)) in Hr'.
    transitivity (if r' =? r then false else bit_of s1 r'); [exact (Hb r' Hr') |].
    change ((if r' =? r then false else bit_of s1 r') = aget false (aset s.(ds_queued) r false) r').
    destruct (Z.eqb_spec r' r) as [->|].
    + by rewrite aget_aset_eq by (by rewrite sh_queued by done).
    + rewrite aget_aset_ne by lia. exact (Hbits r' Hr').
  - change (u16 (s.(ds_count) - 1) = n_queued (aset s.(ds_queued) r false)).
    rewrite u16_small by mlia. lia.
Qed.

(** The time and serial number of a region outside the queue are free. *)
Lemma unqueued_cells_ok s r e v :
  sched_ok s -> 0 <= r < s.(ds_capacity) -> aget false s.(ds_queued) r = false ->
  sched_ok (s <| ds_enqueued_ns := aset s.(ds_enqueued_ns) r e |>
              <| ds_serial := aset s.(ds_serial) r v |>).
Proof.
  intros Hok Hr Hq. destruct (ok_heap s Hok) as [Ho Hc]. constructor.
  - destruct (ok_shape s Hok); constructor; cbn; rewrite ?zlen_aset; done.
  - split; [exact Ho |]. cbn. intros r' Hr' Hq'. assert (r' <> r) by congruence.
    rewrite entry_of_other by lia. by apply Hc.
  - exact (ok_ids s Hok).
  - exact (ok_bits s Hok).
  - exact (ok_count s Hok).
Qed.

Lemma unqueued_age_ok s r e :
  sched_ok s -> 0 <= r < s.(ds_capacity) -> aget false s.(ds_queued) r = false ->
  sched_ok (s <| ds_enqueued_ns := aset s.(ds_enqueued_ns) r e |>).
Proof.
  intros Hok Hr Hq. pose proof (unqueued_cells_ok s r e (aget 0 s.(ds_serial) r) Hok Hr Hq) as H.
  rewrite aset_same in H by lia. exact H.
Qed.

Lemma forget_ok s r :
  sched_ok s -> 0 <= r ->
  sched_ok (wd_dirty_region_scheduler_forget s r) /\
  queue_step s.(ds_capacity) s.(ds_starvation_ns) (queue_of s) (Forget r) Done
    (queue_of (wd_dirty_region_scheduler_forget s r)).
Proof.
  intros Hok Hr. pose proof (ok_shape s Hok) as Hs. unfold wd_dirty_region_scheduler_forget.
  destruct (Z.geb_spec r s.(ds_capacity)); [split; [done | by apply forget_out_of_range] |]. cbv zeta.
  destruct (aget false s.(ds_queued) r) eqn:Eq.
  - assert (s.(ds_count) <> 0) as Hc.
    { rewrite (ok_count s Hok). intros E. rewrite (proj1 (n_queued_zero _) E) in Eq; [done |].
      rewrite sh_queued by done. lia. }
    pose proof (unqueue_ok s r (sched_ok_weaken s r Hok) ltac:(lia) Eq) as Hu.
    change (ds_count (bit_clear (s <| ds_queued := aset s.(ds_queued) r false |>) r)) with s.(ds_count).
    rewrite (proj2 (Z.eqb_neq _ 0)) by done. cbn [negb]. split.
    + refine (unqueued_cells_ok _ r 0 _ Hu _ _); [cbn; lia |].
      change (aget false (aset s.(ds_queued) r false) r = false).
      by rewrite aget_aset_eq by (rewrite sh_queued by done; lia).
    + apply (forget_region _ _ (queue_of s) r). lia.
  - split; [refine (unqueued_cells_ok s r 0 _ Hok _ Eq); lia |].
    pose proof (forget_region s.(ds_capacity) s.(ds_starvation_ns) (queue_of s) r ltac:(lia)) as F.
    cbn [queue_of q_queued q_age] in F. rewrite <- Eq, aset_same in F by done. exact F.
Qed.

Lemma empty_ok cap rx starvation serial heap hcap :
  0 < cap <= UINT16_MAX -> 0 <= starvation -> zlen serial = cap -> 0 <= hcap -> zlen heap = hcap ->
  sched_ok (mk_wd_dirty_region_scheduler cap rx 0 starvation (replicate (Z.to_nat cap) false)
    (replicate (Z.to_nat cap) 0) serial (replicate (Z.to_nat (cdiv cap 64)) 0) (cdiv cap 64)
    heap 0 hcap).
Proof.
  intros Hc Hst Hs Hh Hl. pose proof (cdiv_pos cap 64 ltac:(lia) ltac:(lia)). constructor.
  - constructor; cbn; unfold zlen in *; rewrite ?length_replicate; try lia; try done.
    intros w. rewrite aget_replicate. mlia.
  - split; [intros j Hj; cbn in Hj; lia |]. cbn. intros r _. by rewrite aget_replicate.
  - intros e (i & Hi & _). cbn in Hi. lia.
  - intros r _. unfold bit_of. cbn. rewrite !aget_replicate. apply Z.bits_0.
  - cbn. symmetry. apply n_queued_zero. intros i _. apply aget_replicate.
Qed.

Lemma reset_ok s :
  sched_ok s ->
  sched_ok (wd_dirty_region_scheduler_reset s) /\
  queue_step s.(ds_capacity) s.(ds_starvation_ns) (queue_of s) Reset Done
    (queue_of (wd_dirty_region_scheduler_reset s)).
Proof.
  intros Hok. pose proof (ok_shape s Hok) as Hs. split; [| apply reset_queue].
  unfold wd_dirty_region_scheduler_reset.
  pose proof (empty_ok s.(ds_capacity) s.(ds_regions_x) s.(ds_starvation_ns) s.(ds_serial) s.(ds_heap)
    s.(ds_heap_capacity) (sh_capacity s Hs) (sh_starvation s Hs) (sh_serial s Hs)) as H.
  destruct (sh_heap s Hs). specialize (H ltac:(lia) ltac:(lia)).
  rewrite <- (sh_words s Hs) in H. exact H.
Qed.

(** A region enters the queue: the state before the heap is told. *)
Definition queue_in (s : wd_dirty_region_scheduler) (r e v : Z) : wd_dirty_region_scheduler :=
  (bit_set (s <| ds_enqueued_ns := aset s.(ds_enqueued_ns) r e |>
              <| ds_serial := aset s.(ds_serial) r v |>
              <| ds_queued := aset s.(ds_queued) r true |>) r)
    <| ds_count := u16 (s.(ds_count) + 1) |>.

Lemma queue_in_spec s r e v :
  sched_ok s -> 0 <= r < s.(ds_capacity) -> aget false s.(ds_queued) r = false ->
  let s' := queue_in s r e v in
  sched_shape s' /\ s'.(ds_count) = n_queued s'.(ds_queued) /\
  (forall r', 0 <= r' < s.(ds_capacity) -> bit_of s' r' = aget false s'.(ds_queued) r') /\
  (forall r', 0 <= r' < s.(ds_capacity) -> aget false s'.(ds_queued) r' = true ->
     r' = r \/ in_heap s.(ds_heap) s.(ds_heap_count) (entry_of s' r')).
Proof.
  intros Hok Hr Hq s'. pose proof (ok_shape s Hok) as Hs.
  pose proof (unqueued_cells_ok s r e v Hok Hr Hq) as Hok1.
  set (s1 := s <| ds_enqueued_ns := aset s.(ds_enqueued_ns) r e |>
               <| ds_serial := aset s.(ds_serial) r v |> <| ds_queued := aset s.(ds_queued) r true |>).
  assert (sched_shape s1) as Hs1.
  { destruct (ok_shape _ Hok1); constructor; cbn in *; rewrite ?zlen_aset in *; done. }
  destruct (bit_set_spec s1 r Hs1 Hr) as (w & Ew & Hw & Hb).
  pose proof (word_in_range s r Hs Hr) as Hwr.
  pose proof (n_queued_aset s.(ds_queued) r true ltac:(by rewrite sh_queued by done)) as Hnq.
  pose proof (n_queued_range (aset s.(ds_queued) r true)) as Hnr.
  rewrite zlen_aset, (sh_queued s Hs) in Hnr. pose proof (sh_capacity s Hs).
  rewrite Hq in Hnq. cbn [Z.b2z] in Hnq. pose proof (ok_count s Hok) as Hcnt.
  assert (s' = s1 <| ds_queued_bits := aset s1.(ds_queued_bits) (r / 64) w |>
                  <| ds_count := u16 (s.(ds_count) + 1) |>) as E'.
  { subst s'. unfold queue_in. fold s1. by rewrite Ew. }
  split_and!.
  - rewrite E'. destruct Hs1; constructor; cbn in *; rewrite ?zlen_aset in *; try done. by apply word_aset.
  - rewrite E'. change (u16 (s.(ds_count) + 1) = n_queued (aset s.(ds_queued) r true)).
    rewrite u16_small by mlia. lia.
  - intros r' Hr'. transitivity (if r' =? r then true else bit_of s1 r'); [exact (Hb r' Hr') |].
    change ((if r' =? r then true else bit_of s1 r') = aget false (aset s.(ds_queued) r true) r').
    destruct (Z.eqb_spec r' r) as [->|].
    + by rewrite aget_aset_eq by (by rewrite sh_queued by done).
    + rewrite aget_aset_ne by lia. exact (ok_bits s Hok r' Hr').
  - intros r' Hr' Hq'. destruct (Z.eq_dec r' r) as [->|]; [by left | right].
    change (aget false (aset s.(ds_queued) r true) r' = true) in Hq'. rewrite aget_aset_ne in Hq' by lia.
    exact (proj2 (ok_heap _ Hok1) r' Hr' Hq').
Qed.

Lemma enqueue_ok ok s r now :
  sched_ok s -> 0 <= r -> 0 <= now ->
  let '(b, s') := wd_dirty_region_scheduler_enqueue ok s r now in
  sched_ok s' /\ s'.(ds_capacity) = s.(ds_capacity) /\ s'.(ds_starvation_ns) = s.(ds_starvation_ns) /\
  queue_step s.(ds_capacity) s.(ds_starvation_ns) (queue_of s) (Enqueue ok r now) (Accepted b)
    (queue_of s').
Proof.
  intros Hok Hr Hnow. pose proof (ok_shape s Hok) as Hs. destruct (ok_heap s Hok) as [Ho Hc].
  unfold wd_dirty_region_scheduler_enqueue.
  destruct (Z.geb_spec r s.(ds_capacity)); [split_and!; [done | done | done | by apply enqueue_out_of_range] |].
  destruct (aget false s.(ds_queued) r) eqn:Eq.
  { split_and!; [done | done | done |]. apply enqueue_again. split; [lia | done]. }
  cbv zeta. set (a := aget 0 s.(ds_enqueued_ns) r).
  set (e := if a =? 0 then Z.max 1 now else a).
  set (v := if u32 (aget 0 s.(ds_serial) r + 1) =? 0 then 1 else u32 (aget 0 s.(ds_serial) r + 1)).
  match goal with |- context [heap_push ok ?x r] => replace x with (queue_in s r e v) end.
  2: { unfold queue_in. subst e. destruct (Z.eqb_spec a 0) as [E|E]; cbn [negb].
       - by replace (Z.max 1 now) with (if negb (now =? 0) then now else 1) by (crush_if; cbn in *; bool_cases; lia).
       - subst a. rewrite aset_same by done. by destruct s. }
  destruct (queue_in_spec s r e v Hok ltac:(lia) Eq) as (Hs1 & Hn1 & Hb1 & Hc1).
  set (s1 := queue_in s r e v) in *.
  pose proof (heap_push_spec ok s1 r Hs1 Ho Hr) as Hp. destruct (heap_push ok s1 r) as [[] s2].
  - destruct Hp as (h & c & -> & Hc2 & Hl2 & Ho2 & Hin2). split_and!; [| done | done |].
    + constructor.
      * destruct Hs1; constructor; cbn in *; try done. lia.
      * split; [exact Ho2 |]. intros r' Hr' Hq'. apply Hin2.
        destruct (Hc1 r' Hr' Hq') as [->|Hin]; [by left | right; exact Hin].
      * intros e' He'. apply Hin2 in He' as [->|He']; [exact Hr | exact (ok_ids s Hok e' He')].
      * exact Hb1.
      * exact Hn1.
    + pose proof (enqueue_new s.(ds_capacity) s.(ds_starvation_ns) (queue_of s) ok r now ltac:(lia) Eq) as F.
      unfold age in F. cbn [queue_of q_queued q_age] in F. fold a in F.
      replace (if a =? 0 then aset s.(ds_enqueued_ns) r (Z.max 1 now) else s.(ds_enqueued_ns))
        with (aset s.(ds_enqueued_ns) r e) in F; [exact F |].
      subst e. destruct (a =? 0); [done | subst a; by rewrite aset_same].
  - destruct Hp as [-> ->].
    assert (0 <= r < zlen s.(ds_queued)) as Hrq by (rewrite sh_queued by done; lia).
    assert (aget false s1.(ds_queued) r = true) as Eq1 by exact (aget_aset_eq false _ _ _ Hrq).
    assert (sched_ok ((bit_clear (s1 <| ds_queued := aset s1.(ds_queued) r false |>) r)
              <| ds_count := u16 (s1.(ds_count) - 1) |>)) as Hu.
    { apply unqueue_ok; [| cbn; lia | exact Eq1]. constructor; [done | exact Ho | | exact (ok_ids s Hok) | done | done].
      intros r' Hr' Hq' Hne. destruct (Hc1 r' Hr' Hq') as [?|Hin]; [done | exact Hin]. }
    assert (aget false (aset (aset s.(ds_queued) r true) r false) r = false) as Eq2
      by (apply aget_aset_eq; by rewrite zlen_aset).
    assert (aset (aset s.(ds_queued) r true) r false = s.(ds_queued)) as Eq3
      by (rewrite aset_aset, <- Eq; by apply aset_same).
    pose proof (enqueue_no_memory s.(ds_capacity) s.(ds_starvation_ns) (queue_of s) r now ltac:(lia) Eq) as F.
    assert (forall q : queue, q = queue_of s ->
      queue_step s.(ds_capacity) s.(ds_starvation_ns) (queue_of s) (Enqueue false r now) (Accepted false) q)
      as F' by (intros q ->; exact F).
    subst e. destruct (Z.eqb_spec a 0) as [Ea|Ea]; cbn [negb]; (split_and!; [| done | done |]).
    + exact (unqueued_age_ok _ r 0 Hu ltac:(cbn; lia) Eq2).
    + apply F'. unfold queue_of.
      change (mk_queue (aset (aset s.(ds_enqueued_ns) r (Z.max 1 now)) r 0)
                (aset (aset s.(ds_queued) r true) r false) = mk_queue s.(ds_enqueued_ns) s.(ds_queued)).
      rewrite Eq3, aset_aset. f_equal. transitivity (aset s.(ds_enqueued_ns) r a); [by rewrite Ea |].
      by apply aset_same.
    + exact Hu.
    + apply F'. unfold queue_of.
      change (mk_queue (aset s.(ds_enqueued_ns) r a)
                (aset (aset s.(ds_queued) r true) r false) = mk_queue s.(ds_enqueued_ns) s.(ds_queued)).
      rewrite Eq3. subst a. by rewrite aset_same.
Qed.

Lemma prune_ok s :
  sched_ok s ->
  exists h n, let s' := s <| ds_heap := h |> <| ds_heap_count := n |> in
    heap_prune s = s' /\ sched_ok s' /\ (n <> 0 -> heap_entry_current s' (hget h 0) = true).
Proof.
  intros Hok. destruct (prune_loop_spec (Z.to_nat s.(ds_heap_count)) s (ok_shape s Hok) (ok_heap s Hok)
    (ok_ids s Hok) ltac:(lia)) as (h & n & E & Hs & Hc & Hi & Ht).
  exists h, n. split_and!; [exact E | | exact Ht].
  constructor; [exact Hs | exact Hc | exact Hi | exact (ok_bits s Hok) | exact (ok_count s Hok)].
Qed.

(** What the selection promises, on a pruned scheduler. *)
Lemma select_region_spec s cursor now :
  sched_ok s -> s.(ds_count) <> 0 -> u64_ok now ->
  (s.(ds_heap_count) <> 0 -> heap_entry_current s (hget s.(ds_heap) 0) = true) ->
  let r := select_region s cursor now in
  waiting s.(ds_capacity) (queue_of s) r /\
  queue_step s.(ds_capacity) s.(ds_starvation_ns) (queue_of s) (Take cursor now) (Region (Some r))
    (dequeue (queue_of s) r).
Proof.
  intros Hok Hc Hnow Htop. pose proof (ok_shape s Hok) as Hs. pose proof (sh_capacity s Hs) as Hcap.
  destruct (ok_heap s Hok) as [Ho Hcov].
  destruct (find_next_queued_spec s cursor Hok Hc) as (Hr & Hq & Hnext).
  destruct (Hcov _ Hr Hq) as (i & Hi & _). specialize (Htop ltac:(lia)).
  assert (forall r', waiting s.(ds_capacity) (queue_of s) r' -> entry_le (hget s.(ds_heap) 0) (entry_of s r')) as Hle
    by (intros r' [Hr' Hq']; apply (heap_top_least _ s.(ds_heap_count)); [done | by apply Hcov]).
  assert (0 <= he_region_id (hget s.(ds_heap) 0)) as Hid.
  { apply (ok_ids s Hok). exists 0. split; [lia | done]. }
  unfold heap_entry_current in Htop. unfold select_region. cbv zeta. set (top := hget s.(ds_heap) 0) in *. clearbody top.
  destruct top as [tns tser tid]. cbn [he_enqueued_ns he_serial he_region_id] in *. bool_cases.
  rewrite (proj2 (Z.eqb_neq s.(ds_heap_count) 0)) by lia. cbn [negb andb].
  assert (waiting s.(ds_capacity) (queue_of s) tid) as Hw by (split; [lia | done]).
  assert (forall r', starving s.(ds_capacity) s.(ds_starvation_ns) (queue_of s) now r' ->
    s.(ds_starvation_ns) <> 0 /\ tns + s.(ds_starvation_ns) <= now) as Hstarve.
  { intros r' (Hw' & Hst & Hage). specialize (Hle r' Hw'). rewrite entry_le_spec in Hle.
    unfold age, queue_of, entry_of in *. cbn [he_enqueued_ns he_region_id q_age] in *. lia. }
  assert (forall b : bool, (b = false -> forall r', ~ starving s.(ds_capacity) s.(ds_starvation_ns) (queue_of s) now r') ->
    (b = true -> s.(ds_starvation_ns) <> 0 /\ tns + s.(ds_starvation_ns) <= now) ->
    let r := if (if b then tid else UINT16_MAX) =? UINT16_MAX then find_next_queued s cursor
             else if b then tid else UINT16_MAX in
    waiting s.(ds_capacity) (queue_of s) r /\
    queue_step s.(ds_capacity) s.(ds_starvation_ns) (queue_of s) (Take cursor now) (Region (Some r))
      (dequeue (queue_of s) r)) as Hsel.
  { intros [] Hf Ht; cbv zeta.
    - rewrite (proj2 (Z.eqb_neq tid UINT16_MAX)) by mlia. split; [done |]. destruct (Ht eq_refl).
      assert (age (queue_of s) tid = tns) as Ea by done.
      apply take_starving; [split_and!; [done | done | lia] |]. intros r' Hw'.
      pose proof (Hle r' Hw') as Hl. rewrite entry_le_spec in Hl. unfold older. rewrite Ea. exact Hl.
    - rewrite Z.eqb_refl. split; [by split |].
      apply take_next; [by split | by apply Hf | intros r' []; by apply Hnext]. }
  destruct (Z.eqb_spec s.(ds_starvation_ns) 0) as [E0|E0]; cbn [negb].
  { apply (Hsel false); [| done]. intros _ r' H'. by destruct (Hstarve r' H'). }
  apply Hsel; intros Eb; [intros r' H'; destruct (Hstarve r' H') | bool_cases; split; [done | lia]].
  destruct (Z.geb_spec now tns), (Z.geb_spec (now - tns) s.(ds_starvation_ns)); cbn in Eb; try done; pose proof (sh_starvation s Hs); mlia.
Qed.

Lemma take_ok s cursor now :
  sched_ok s -> u64_ok now ->
  let '(o, s') := wd_dirty_region_scheduler_take s cursor now in
  sched_ok s' /\ s'.(ds_capacity) = s.(ds_capacity) /\ s'.(ds_starvation_ns) = s.(ds_starvation_ns) /\
  queue_step s.(ds_capacity) s.(ds_starvation_ns) (queue_of s) (Take cursor now) (Region o) (queue_of s').
Proof.
  intros Hok Hnow. unfold wd_dirty_region_scheduler_take.
  destruct (Z.eqb_spec s.(ds_count) 0) as [E|E].
  { split_and!; [done | done | done |]. apply take_none. intros r [Hr Hq]. rewrite (ok_count s Hok) in E.
    change (aget false s.(ds_queued) r = true) in Hq.
    rewrite (proj1 (n_queued_zero _) E r) in Hq; [done |]. by rewrite (sh_queued s (ok_shape s Hok)). }
  destruct (prune_ok s Hok) as (h & n & -> & Hok1 & Htop). cbv zeta.
  set (s1 := s <| ds_heap := h |> <| ds_heap_count := n |>) in *.
  destruct (select_region_spec s1 cursor now Hok1 E Hnow Htop) as [[Hr Hq] Hstep].
  set (r := select_region s1 cursor now) in *. clearbody r. pose proof (sh_capacity s1 (ok_shape s1 Hok1)).
  rewrite (proj2 (Z.eqb_neq r UINT16_MAX)) by mlia.
  change (aget false s1.(ds_queued) r = true) in Hq. rewrite Hq. cbn [orb negb].
  split_and!; [| done | done | exact Hstep].
  exact (unqueue_ok s1 r (sched_ok_weaken s1 r Hok1) Hr Hq).
Qed.

Lemma forget_const s r :
  (wd_dirty_region_scheduler_forget s r).(ds_capacity) = s.(ds_capacity) /\
  (wd_dirty_region_scheduler_forget s r).(ds_starvation_ns) = s.(ds_starvation_ns).
Proof. unfold wd_dirty_region_scheduler_forget. repeat case_if; done. Qed.

Lemma perform_ok s req :
  sched_ok s -> request_ok req ->
  let '(rep, s') := perform s req in
  sched_ok s' /\ s'.(ds_capacity) = s.(ds_capacity) /\ s'.(ds_starvation_ns) = s.(ds_starvation_ns) /\
  queue_step s.(ds_capacity) s.(ds_starvation_ns) (queue_of s) req rep (queue_of s').
Proof.
  intros Hok Hreq. destruct req as [ok r now|cursor now|r|]; cbn [perform request_ok] in *.
  - pose proof (enqueue_ok ok s r now Hok ltac:(mlia) ltac:(mlia)) as H.
    destruct (wd_dirty_region_scheduler_enqueue ok s r now). done.
  - pose proof (take_ok s cursor now Hok (proj2 Hreq)) as H.
    destruct (wd_dirty_region_scheduler_take s cursor now). done.
  - destruct (forget_ok s r Hok ltac:(mlia)), (forget_const s r). done.
  - destruct (reset_ok s Hok). done.
Qed.

Lemma perform_all_ok s reqs :
  sched_ok s -> Forall request_ok reqs ->
  let '(reps, s') := perform_all s reqs in
  sched_ok s' /\ queue_run s.(ds_capacity) s.(ds_starvation_ns) (queue_of s) reqs reps (queue_of s').
Proof.
  revert s. induction reqs as [|req reqs IH]; intros s Hok Hr; cbn [perform_all].
  { split; [done | constructor]. }
  inversion Hr as [|? ? H1 H2]; subst. pose proof (perform_ok s req Hok H1) as Hp.
  destruct (perform s req) as [rep s1]. destruct Hp as (Hok1 & Ec & Es & Hstep).
  specialize (IH s1 Hok1 H2). destruct (perform_all s1 reqs) as [reps s2]. rewrite Ec, Es in IH.
  destruct IH as [IH1 IH2]. split; [done | by eapply queue_run_cons].
Qed.

(** ** Properties *)

(** C13: the scheduler of dirty regions implements its queue. Whatever
    sequence of requests it serves, its replies are those of the abstract queue:
    a region is in the queue exactly once however often it is queued; a region
    is handed out whenever one waits; if a region has waited for the starvation
    bound, the one that waits longest is handed out, otherwise the first one
    after the cursor; and the counter is the number of queued regions. The heap
    with its outdated entries, the serial numbers and the bitmap never show. *)
Theorem scheduler_implements_queue capacity regions_x starvation_ns s reqs :
  u16_ok capacity -> u64_ok starvation_ns -> Forall request_ok reqs ->
  wd_dirty_region_scheduler_create true capacity regions_x starvation_ns = Some s ->
  let '(replies, s') := perform_all s reqs in
  queue_run capacity starvation_ns
    (mk_queue (replicate (Z.to_nat capacity) 0) (replicate (Z.to_nat capacity) false))
    reqs replies (queue_of s') /\
  wd_dirty_region_scheduler_count s' = n_queued (q_queued (queue_of s')).
Proof.
  intros Hc Hst Hreqs. unfold wd_dirty_region_scheduler_create. case_if; [done |]. bool_cases. cbn [negb].
  intros Es. apply (inj Some) in Es.
  assert (sched_ok s) as Hok.
  { subst s. replace ((capacity + 63) / 64) with (cdiv capacity 64) by (unfold cdiv; f_equal; lia).
    apply empty_ok; [mlia | mlia | unfold zlen; rewrite length_replicate; mlia | lia | done]. }
  pose proof (perform_all_ok s reqs Hok Hreqs) as Hp. destruct (perform_all s reqs) as [reps s'].
  destruct Hp as [Hok' Hrun]. split; [| exact (ok_count s' Hok')]. subst s. exact Hrun.
Qed.

(** Region 5 waits since time 10, region 2 since time 20; at time 200 region 5
    starves and comes first although region 2 is next to the cursor. *)
Lemma scheduler_implements_queue_witness :
  match wd_dirty_region_scheduler_create true 100 10 150 with
  | Some s =>
      let reqs := [Enqueue true 5 10; Enqueue true 2 20; Enqueue true 5 30; Take 1 200; Take 1 200; Take 1 200] in
      (perform_all s reqs).1 =
        [Accepted true; Accepted true; Accepted true; Region (Some 5); Region (Some 2); Region None] /\
      wd_dirty_region_scheduler_count (perform_all s reqs).2 =
        n_queued (q_queued (queue_of (perform_all s reqs).2))
  | NULL => False
  end.
Proof.
  destruct (wd_dirty_region_scheduler_create true 100 10 150) as [s|] eqn:E; [| discriminate].
  pose proof (scheduler_implements_queue 100 10 150 s
    [Enqueue true 5 10; Enqueue true 2 20; Enqueue true 5 30; Take 1 200; Take 1 200; Take 1 200]) as H.
  split; [apply (inj Some) in E; subst s; vm_compute; reflexivity |].
  destruct (perform_all s _) as [reps s'].
  apply H; [mlia | mlia | repeat constructor; cbn; mlia | exact E].
Defined.
