(* ===== verification/RenderPlanning.v ===== *)
(** * What the client's renderer uploads

    src/client/render_planning.cpp: the grid of dirty tiles and the rectangles
    made of it, the choice between uploading rectangles, their bounds or the
    whole frame, the book-keeping of presented generations and the index of
    tiles a summary announced; src/client/tile_present_queue.cpp and
    video_present_queue.cpp: the queues between the network and the renderer.
    [take_rects_exact]: the rectangles taken from the grid cover every visible
    pixel of every dirty tile exactly once and nothing else. *)
From stdpp Require Import sorting.
From S2P Require Import Prelude Config.

Record ClientDirtyRect := mk_ClientDirtyRect {
  cr_x : Z;
  cr_y : Z;
  cr_w : Z;
  cr_h : Z;
}.
#[export] Instance ClientDirtyRect_eta : Eta ClientDirtyRect := fun s =>
  mk_ClientDirtyRect s.(cr_x) s.(cr_y) s.(cr_w) s.(cr_h).
#[export] Instance ClientDirtyRect_eq_dec : EqDecision ClientDirtyRect.
Proof. solve_decision. Defined.

Definition dirty_rect_pixel_count (rects : list ClientDirtyRect) : Z :=
  fold_left (fun pixels rect => u64 (pixels + rect.(cr_w) * rect.(cr_h))) rects 0.

Definition clamp_dirty_rect (rect : ClientDirtyRect) (frame_width frame_height : Z) : option ClientDirtyRect :=
  if (rect.(cr_w) =? 0) || (rect.(cr_h) =? 0) || (frame_width >? UINT16_MAX) || (frame_height >? UINT16_MAX) ||
     (rect.(cr_x) >=? frame_width) || (rect.(cr_y) >=? frame_height)
  then None
  else
    let visible_width := Z.min rect.(cr_w) (u32 (frame_width - rect.(cr_x))) in
    let visible_height := Z.min rect.(cr_h) (u32 (frame_height - rect.(cr_y))) in
    if (visible_width =? 0) || (visible_height =? 0) || (visible_width >? UINT16_MAX) || (visible_height >? UINT16_MAX)
    then None
    else Some (mk_ClientDirtyRect rect.(cr_x) rect.(cr_y) visible_width visible_height).

(** ** The grid of dirty tiles *)

Record RowRun := mk_RowRun {
  rr_start : Z;
  rr_end : Z;
  rr_rect_index : Z;
}.

(** [dirty_tiles_] holds 0 or 1. *)
Record ClientDirtyTileGrid := mk_ClientDirtyTileGrid {
  dg_frame_width : Z;
  dg_frame_height : Z;
  dg_tile_width : Z;
  dg_tile_height : Z;
  dg_tiles_x : Z;
  dg_tiles_y : Z;
  dg_dirty_tile_count : Z;
  dg_dirty_tiles : list bool;
}.
#[export] Instance ClientDirtyTileGrid_eta : Eta ClientDirtyTileGrid := fun s =>
  mk_ClientDirtyTileGrid s.(dg_frame_width) s.(dg_frame_height) s.(dg_tile_width) s.(dg_tile_height)
    s.(dg_tiles_x) s.(dg_tiles_y) s.(dg_dirty_tile_count) s.(dg_dirty_tiles).

Definition grid_clear (grid : ClientDirtyTileGrid) : ClientDirtyTileGrid :=
  grid <| dg_dirty_tiles := (fun _ => false) <$> grid.(dg_dirty_tiles) |>
       <| dg_dirty_tile_count := 0 |>.

Definition grid_reset (grid : ClientDirtyTileGrid) (frame_width frame_height tile_width tile_height : Z)
    : ClientDirtyTileGrid * bool :=
  if (frame_width =? 0) || (frame_height =? 0) || (frame_width >? UINT16_MAX) || (frame_height >? UINT16_MAX) ||
     (tile_width =? 0) || (tile_height =? 0)
  then (mk_ClientDirtyTileGrid 0 0 0 0 0 0 0 [], false)
  else
    let tiles_x := u32 (frame_width + tile_width - 1) / tile_width in
    let tiles_y := u32 (frame_height + tile_height - 1) / tile_height in
    let total_tiles := u64 (tiles_x * tiles_y) in
    if (tiles_x =? 0) || (tiles_y =? 0) || (total_tiles >? SIZE_MAX) then (grid, false)
    else (mk_ClientDirtyTileGrid frame_width frame_height tile_width tile_height tiles_x tiles_y 0
            (replicate (Z.to_nat total_tiles) false), true).

Definition configure_client_dirty_tile_grid := grid_reset.

Definition dirty_tile_count (grid : ClientDirtyTileGrid) : Z := grid.(dg_dirty_tile_count).

(** The integers from [a] to [b], both included. *)
Definition zrange (a b : Z) : list Z := (fun k => a + k) <$> zseq (b - a + 1).

Definition mark_tile (grid : ClientDirtyTileGrid) (tile_y tile_x : Z) : ClientDirtyTileGrid :=
  let index := tile_y * grid.(dg_tiles_x) + tile_x in
  if aget false grid.(dg_dirty_tiles) index then grid
  else grid <| dg_dirty_tiles := aset grid.(dg_dirty_tiles) index true |>
            <| dg_dirty_tile_count := u64 (grid.(dg_dirty_tile_count) + 1) |>.

Definition mark_rect (grid : ClientDirtyTileGrid) (rect : ClientDirtyRect) : ClientDirtyTileGrid * bool :=
  if null grid.(dg_dirty_tiles) then (grid, false)
  else
    match clamp_dirty_rect rect grid.(dg_frame_width) grid.(dg_frame_height) with
    | None => (grid, false)
    | Some visible =>
        let tile_x0 := visible.(cr_x) / grid.(dg_tile_width) in
        let tile_y0 := visible.(cr_y) / grid.(dg_tile_height) in
        let tile_x1 := u32 (visible.(cr_x) + visible.(cr_w) - 1) / grid.(dg_tile_width) in
        let tile_y1 := u32 (visible.(cr_y) + visible.(cr_h) - 1) / grid.(dg_tile_height) in
        (fold_left (fun grid tile_y =>
             fold_left (fun grid tile_x => mark_tile grid tile_y tile_x)
               (zrange tile_x0 (Z.min tile_x1 (grid.(dg_tiles_x) - 1))) grid)
           (zrange tile_y0 (Z.min tile_y1 (grid.(dg_tiles_y) - 1))) grid, true)
    end.

(** The loops of [take_rects].  [k] is what is left of the row. *)
Section take_rects.
Context (grid : ClientDirtyTileGrid).

(** The end of a run: its tiles are taken off the grid. *)
Fixpoint take_run (k : nat) (row tile_x : Z) (dirty : list bool) (count : Z) : list bool * Z * Z :=
  match k with
  | O => (dirty, count, tile_x)
  | S k =>
      if aget false dirty (row + tile_x)
      then take_run k row (tile_x + 1) (aset dirty (row + tile_x) false) (u64 (count - 1))
      else (dirty, count, tile_x)
  end.

Fixpoint skip_runs (run_start : Z) (previous_runs : list RowRun) : list RowRun :=
  match previous_runs with
  | run :: rest => if run.(rr_start) <? run_start then skip_runs run_start rest else previous_runs
  | [] => []
  end.

(** The rectangle of a run: the one of the run above if they are as wide, or a
    new one. *)
Definition place_run (tile_y run_start run_end : Z) (previous_runs : list RowRun) (rects : list ClientDirtyRect)
    : list ClientDirtyRect * Z :=
  let new_rect :=
    let x := u32 (run_start * grid.(dg_tile_width)) in
    let right := Z.min grid.(dg_frame_width) (u32 (run_end * grid.(dg_tile_width))) in
    let y := u32 (tile_y * grid.(dg_tile_height)) in
    let bottom := Z.min grid.(dg_frame_height) (u32 (y + grid.(dg_tile_height))) in
    (rects ++ [mk_ClientDirtyRect (u16 x) (u16 y) (u16 (right - x)) (u16 (bottom - y))], zlen rects) in
  match previous_runs with
  | run :: _ =>
      if (run.(rr_start) =? run_start) && (run.(rr_end) =? run_end) then
        let rect := aget (mk_ClientDirtyRect 0 0 0 0) rects run.(rr_rect_index) in
        let bottom := Z.min grid.(dg_frame_height) (u32 ((tile_y + 1) * grid.(dg_tile_height))) in
        (aset rects run.(rr_rect_index) (rect <| cr_h := u16 (bottom - rect.(cr_y)) |>), run.(rr_rect_index))
      else new_rect
  | [] => new_rect
  end.

Fixpoint take_row (k : nat) (tile_y tile_x : Z) (previous_runs current_runs : list RowRun)
    (dirty : list bool) (count : Z) (rects : list ClientDirtyRect)
    : list RowRun * list bool * Z * list ClientDirtyRect :=
  match k with
  | O => (current_runs, dirty, count, rects)
  | S k =>
      let row := tile_y * grid.(dg_tiles_x) in
      if tile_x <? grid.(dg_tiles_x) then
        if aget false dirty (row + tile_x) then
          let '(dirty, count, run_end) := take_run (Z.to_nat (grid.(dg_tiles_x) - tile_x)) row tile_x dirty count in
          let previous_runs := skip_runs tile_x previous_runs in
          let '(rects, rect_index) := place_run tile_y tile_x run_end previous_runs rects in
          take_row k tile_y run_end previous_runs (current_runs ++ [mk_RowRun tile_x run_end rect_index])
            dirty count rects
        else take_row k tile_y (tile_x + 1) previous_runs current_runs dirty count rects
      else (current_runs, dirty, count, rects)
  end.

Definition take_rects : list ClientDirtyRect * ClientDirtyTileGrid :=
  if (grid.(dg_dirty_tile_count) =? 0) || null grid.(dg_dirty_tiles) then ([], grid)
  else
    let '(_, dirty, count, rects) :=
      fold_left (fun '(previous_runs, dirty, count, rects) tile_y =>
          take_row (Z.to_nat grid.(dg_tiles_x)) tile_y 0 previous_runs [] dirty count rects)
        (zseq grid.(dg_tiles_y)) ([], grid.(dg_dirty_tiles), grid.(dg_dirty_tile_count), []) in
    (rects, grid <| dg_dirty_tiles := dirty |> <| dg_dirty_tile_count := count |>).

End take_rects.

(** ** Rectangles *)

Definition bounding_dirty_rect (rects : list ClientDirtyRect) : ClientDirtyRect :=
  let '(min_x, min_y, max_x, max_y) :=
    fold_left (fun '(min_x, min_y, max_x, max_y) rect =>
        (Z.min min_x rect.(cr_x), Z.min min_y rect.(cr_y),
         Z.max max_x (u32 (rect.(cr_x) + rect.(cr_w))), Z.max max_y (u32 (rect.(cr_y) + rect.(cr_h)))))
      rects (UINT32_MAX, UINT32_MAX, 0, 0) in
  if (min_x =? UINT32_MAX) || (min_y =? UINT32_MAX) || (max_x <=? min_x) || (max_y <=? min_y)
  then mk_ClientDirtyRect 0 0 0 0
  else mk_ClientDirtyRect (u16 min_x) (u16 min_y) (u16 (Z.min (max_x - min_x) UINT16_MAX))
         (u16 (Z.min (max_y - min_y) UINT16_MAX)).

(** The order of the two calls of [std::sort]. *)
Definition row_less (a b : ClientDirtyRect) : bool :=
  if negb (a.(cr_y) =? b.(cr_y)) then a.(cr_y) <? b.(cr_y)
  else if negb (a.(cr_h) =? b.(cr_h)) then a.(cr_h) <? b.(cr_h)
  else a.(cr_x) <? b.(cr_x).

Definition column_less (a b : ClientDirtyRect) : bool :=
  if negb (a.(cr_x) =? b.(cr_x)) then a.(cr_x) <? b.(cr_x)
  else if negb (a.(cr_w) =? b.(cr_w)) then a.(cr_w) <? b.(cr_w)
  else a.(cr_y) <? b.(cr_y).

(** A rectangle joins the last one of [rects], kept first here, when they are
    in the same rows and touch. *)
Definition join_row (rects : list ClientDirtyRect) (rect : ClientDirtyRect) : list ClientDirtyRect :=
  match rects with
  | prev :: rest =>
      let prev_end_x := u32 (prev.(cr_x) + prev.(cr_w)) in
      let rect_end_x := u32 (rect.(cr_x) + rect.(cr_w)) in
      if (prev.(cr_y) =? rect.(cr_y)) && (prev.(cr_h) =? rect.(cr_h)) && (rect.(cr_x) <=? prev_end_x)
      then prev <| cr_w := u16 (Z.min (u32 (Z.max prev_end_x rect_end_x - prev.(cr_x))) UINT16_MAX) |> :: rest
      else rect :: rects
  | [] => [rect]
  end.

Definition join_column (rects : list ClientDirtyRect) (rect : ClientDirtyRect) : list ClientDirtyRect :=
  match rects with
  | prev :: rest =>
      let prev_end_y := u32 (prev.(cr_y) + prev.(cr_h)) in
      let rect_end_y := u32 (rect.(cr_y) + rect.(cr_h)) in
      if (prev.(cr_x) =? rect.(cr_x)) && (prev.(cr_w) =? rect.(cr_w)) && (rect.(cr_y) <=? prev_end_y)
      then prev <| cr_h := u16 (Z.min (u32 (Z.max prev_end_y rect_end_y - prev.(cr_y))) UINT16_MAX) |> :: rest
      else rect :: rects
  | [] => [rect]
  end.

(** [sort less] is [std::sort], which leaves the order of equal elements
    open. *)
Definition coalesce_dirty_texture_rects
    (sort : (ClientDirtyRect -> ClientDirtyRect -> bool) -> list ClientDirtyRect -> list ClientDirtyRect)
    (rects : list ClientDirtyRect) (frame_width frame_height : Z) : list ClientDirtyRect :=
  match rects with
  | [] => []
  | _ =>
      let clamped := omap (fun rect => clamp_dirty_rect rect frame_width frame_height) rects in
      if null clamped then []
      else
        let rects := rev (fold_left join_row (sort row_less clamped) []) in
        if 1 <? zlen rects then rev (fold_left join_column (sort column_less rects) []) else rects
  end.

(** ** The cost of an upload *)

Inductive DirtyTextureUploadMode := Upload_Rects | Upload_Bounds | Upload_Full.

Record DirtyTextureUploadPlan := mk_DirtyTextureUploadPlan {
  pl_mode : DirtyTextureUploadMode;
  pl_bounds : ClientDirtyRect;
  pl_source_pixels : Z;
}.
#[export] Instance DirtyTextureUploadPlan_eta : Eta DirtyTextureUploadPlan := fun s =>
  mk_DirtyTextureUploadPlan s.(pl_mode) s.(pl_bounds) s.(pl_source_pixels).

Record ClientTextureUploadCostModel := mk_ClientTextureUploadCostModel {
  cm_pixel_cost_q16 : Z;
  cm_update_call_cost_ns : Z;
  cm_lock_call_cost_ns : Z;
  cm_snapshot_pixel_cost_q16 : Z;
  cm_update_samples : Z;
  cm_lock_samples : Z;
  cm_pixel_samples : Z;
  cm_snapshot_samples : Z;
}.
#[export] Instance ClientTextureUploadCostModel_eta : Eta ClientTextureUploadCostModel := fun s =>
  mk_ClientTextureUploadCostModel s.(cm_pixel_cost_q16) s.(cm_update_call_cost_ns) s.(cm_lock_call_cost_ns)
    s.(cm_snapshot_pixel_cost_q16) s.(cm_update_samples) s.(cm_lock_samples) s.(cm_pixel_samples)
    s.(cm_snapshot_samples).

Definition default_cost_model : ClientTextureUploadCostModel :=
  mk_ClientTextureUploadCostModel 65536 WD_CLIENT_TEXTURE_UPDATE_CALL_COST_NS WD_CLIENT_TEXTURE_LOCK_CALL_COST_NS
    65536 0 0 0 0.

Definition scaled_pixel_cost_ns (cost_q16 pixels : Z) : Z :=
  let ns := Z.shiftr (pixels * cost_q16) 16 in
  if ns >? UINT64_MAX then UINT64_MAX else ns.

Definition texture_pixel_cost_ns (costs : ClientTextureUploadCostModel) (pixels : Z) : Z :=
  scaled_pixel_cost_ns
    (if costs.(cm_pixel_samples) >=? WD_CLIENT_RENDER_COST_MIN_SAMPLES
     then costs.(cm_pixel_cost_q16) else WD_CLIENT_RENDER_DEFAULT_PIXEL_COST_Q16) pixels.

Definition snapshot_pixel_cost_ns (costs : ClientTextureUploadCostModel) (pixels : Z) : Z :=
  scaled_pixel_cost_ns
    (if costs.(cm_snapshot_samples) >=? WD_CLIENT_RENDER_COST_MIN_SAMPLES
     then costs.(cm_snapshot_pixel_cost_q16) else WD_CLIENT_RENDER_DEFAULT_SNAPSHOT_COST_Q16) pixels.

Definition update_call_cost_ns (costs : ClientTextureUploadCostModel) : Z :=
  if costs.(cm_update_samples) >=? WD_CLIENT_RENDER_COST_MIN_SAMPLES
  then costs.(cm_update_call_cost_ns) else WD_CLIENT_TEXTURE_UPDATE_CALL_COST_NS.

Definition lock_call_cost_ns (costs : ClientTextureUploadCostModel) : Z :=
  if costs.(cm_lock_samples) >=? WD_CLIENT_RENDER_COST_MIN_SAMPLES
  then costs.(cm_lock_call_cost_ns) else WD_CLIENT_TEXTURE_LOCK_CALL_COST_NS.

Definition saturating_add (a b : Z) : Z := if a >? UINT64_MAX - b then UINT64_MAX else a + b.

Definition saturating_multiply (a b : Z) : Z :=
  if (a =? 0) || (b =? 0) then 0 else if a >? UINT64_MAX / b then UINT64_MAX else a * b.

Definition bounded_ewma (current sample samples : Z) : Z :=
  if samples =? 0 then sample
  else
    let sample :=
      if (samples >=? WD_CLIENT_RENDER_COST_MIN_SAMPLES) && negb (current =? 0) then
        let low := Z.max 1 (current / WD_CLIENT_RENDER_COST_SAMPLE_CLAMP_DIVISOR) in
        let high := if current >? UINT64_MAX / WD_CLIENT_RENDER_COST_SAMPLE_CLAMP_DIVISOR then UINT64_MAX
                    else current * WD_CLIENT_RENDER_COST_SAMPLE_CLAMP_DIVISOR in
        Z.max low (Z.min high sample)
      else sample in
    u64 (u64 (current * WD_CLIENT_RENDER_COST_EWMA_OLD_NUMERATOR) + sample) / WD_CLIENT_RENDER_COST_EWMA_DENOMINATOR.

Definition upload_path_cost (costs : ClientTextureUploadCostModel) (pixels fixed_call_cost_ns call_count : Z) : Z :=
  saturating_add (saturating_add (texture_pixel_cost_ns costs pixels) (snapshot_pixel_cost_ns costs pixels))
    (saturating_multiply call_count fixed_call_cost_ns).

Definition materially_cheaper (candidate current required_saving_percent : Z) : bool :=
  if current =? 0 then candidate =? 0
  else candidate * 100 <=? current * u32 (100 - required_saving_percent).

Definition add_sample (samples : Z) : Z := if samples =? UINT32_MAX then samples else samples + 1.

Definition clamp_q16 (sample_q16 : Z) : Z :=
  Z.max WD_CLIENT_RENDER_COST_MIN_Q16 (Z.min WD_CLIENT_RENDER_COST_MAX_Q16 sample_q16).

Definition observe_texture_upload_call (model : ClientTextureUploadCostModel) (texture_lock : bool)
    (elapsed_ns pixels : Z) : ClientTextureUploadCostModel :=
  let old_call_cost := if texture_lock then model.(cm_lock_call_cost_ns) else model.(cm_update_call_cost_ns) in
  let call_samples := if texture_lock then model.(cm_lock_samples) else model.(cm_update_samples) in
  let pixel_cost := scaled_pixel_cost_ns model.(cm_pixel_cost_q16) pixels in
  let fixed_sample := if elapsed_ns >? pixel_cost then elapsed_ns - pixel_cost else 0 in
  let call_cost := bounded_ewma old_call_cost fixed_sample call_samples in
  let model :=
    if texture_lock
    then model <| cm_lock_call_cost_ns := call_cost |> <| cm_lock_samples := add_sample call_samples |>
    else model <| cm_update_call_cost_ns := call_cost |> <| cm_update_samples := add_sample call_samples |> in
  if (pixels >=? WD_CLIENT_RENDER_COST_MIN_PIXEL_SAMPLE) && (elapsed_ns >? old_call_cost) then
    let variable_ns := elapsed_ns - old_call_cost in
    let sample_q16 := clamp_q16 (u64 (Z.shiftl variable_ns 16 / pixels)) in
    model <| cm_pixel_cost_q16 := bounded_ewma model.(cm_pixel_cost_q16) sample_q16 model.(cm_pixel_samples) |>
          <| cm_pixel_samples := add_sample model.(cm_pixel_samples) |>
  else model.

Definition observe_framebuffer_snapshot (model : ClientTextureUploadCostModel) (elapsed_ns pixels : Z)
    : ClientTextureUploadCostModel :=
  if pixels =? 0 then model
  else
    let sample_q16 := clamp_q16 (u64 (Z.shiftl elapsed_ns 16 / pixels)) in
    model <| cm_snapshot_pixel_cost_q16 :=
               bounded_ewma model.(cm_snapshot_pixel_cost_q16) sample_q16 model.(cm_snapshot_samples) |>
          <| cm_snapshot_samples := add_sample model.(cm_snapshot_samples) |>.

Definition plan_dirty_texture_upload (rects : list ClientDirtyRect) (frame_width frame_height : Z)
    (costs : ClientTextureUploadCostModel) : DirtyTextureUploadPlan :=
  let source_pixels := dirty_rect_pixel_count rects in
  let plan := mk_DirtyTextureUploadPlan Upload_Rects (mk_ClientDirtyRect 0 0 0 0) source_pixels in
  let frame_pixels := u64 (frame_width * frame_height) in
  if null rects || (frame_pixels =? 0) then plan <| pl_mode := Upload_Full |>
  else if (zlen rects >=? WD_CLIENT_DIRTY_RECT_FULL_UPLOAD_THRESHOLD) ||
          (u64 (source_pixels * 100) >=? u64 (frame_pixels * WD_CLIENT_DIRTY_RECT_FULL_UPLOAD_PERCENT))
  then plan <| pl_mode := Upload_Full |>
  else
    let best_cost := upload_path_cost costs source_pixels (update_call_cost_ns costs) (zlen rects) in
    let bounds := bounding_dirty_rect rects in
    let bounds_cost := upload_path_cost costs (bounds.(cr_w) * bounds.(cr_h)) (lock_call_cost_ns costs) 1 in
    let '(plan, best_cost) :=
      if negb (bounds.(cr_w) =? 0) && negb (bounds.(cr_h) =? 0) &&
         materially_cheaper bounds_cost best_cost WD_CLIENT_BOUNDS_UPLOAD_MIN_SAVINGS_PERCENT
      then (plan <| pl_mode := Upload_Bounds |> <| pl_bounds := bounds |>, bounds_cost)
      else (plan, best_cost) in
    let full_cost := upload_path_cost costs frame_pixels (lock_call_cost_ns costs) 1 in
    if materially_cheaper full_cost best_cost WD_CLIENT_FULL_UPLOAD_MIN_SAVINGS_PERCENT
    then plan <| pl_mode := Upload_Full |> else plan.

(** ** Presented generations *)

Record ClientTileGenerationUpdate := mk_ClientTileGenerationUpdate {
  gu_tile_id : Z;
  gu_generation : Z;
}.

Definition claim_tile (presented : list Z) : list Z * list ClientTileGenerationUpdate -> Z ->
    list Z * list ClientTileGenerationUpdate :=
  fun '(pending, updates) tile_id =>
    if tile_id >=? zlen pending then (pending, updates)
    else
      let generation := aget 0 pending tile_id in
      (if generation =? 0 then pending else aset pending tile_id 0,
       updates ++ (if generation >? aget 0 presented tile_id
                   then [mk_ClientTileGenerationUpdate (u16 tile_id) generation] else [])).

Definition claim_pending_tile_generations (pending presented tile_ids : list Z)
    : list Z * list ClientTileGenerationUpdate :=
  if negb (zlen pending =? zlen presented) then (pending, [])
  else fold_left (claim_tile presented) tile_ids (pending, []).

Definition claim_all_pending_tile_generations (pending presented : list Z)
    : list Z * list ClientTileGenerationUpdate :=
  if negb (zlen pending =? zlen presented) then (pending, [])
  else fold_left (claim_tile presented) (zseq (zlen pending)) (pending, []).

Definition raise_generations (generations : list Z) (updates : list ClientTileGenerationUpdate) : list Z :=
  fold_left (fun generations update =>
      if (update.(gu_tile_id) <? zlen generations) &&
         (aget 0 generations update.(gu_tile_id) <? update.(gu_generation))
      then aset generations update.(gu_tile_id) update.(gu_generation) else generations) updates generations.

Definition requeue_tile_generation_updates := raise_generations.
Definition commit_tile_generation_updates := raise_generations.

(** ** The index of announced tiles *)

Definition summary_pending_index_add (active_tiles positions : list Z) (tile_id : Z)
    : list Z * list Z * bool :=
  if tile_id >=? zlen positions then (active_tiles, positions, false)
  else if negb (aget 0 positions tile_id =? UINT32_MAX) then (active_tiles, positions, true)
  else if zlen active_tiles >=? UINT32_MAX then (active_tiles, positions, false)
  else (active_tiles ++ [tile_id], aset positions tile_id (u32 (zlen active_tiles)), true).

Definition summary_pending_index_remove (active_tiles positions : list Z) (tile_id : Z)
    : list Z * list Z * bool :=
  if tile_id >=? zlen positions then (active_tiles, positions, false)
  else
    let position := aget 0 positions tile_id in
    if position =? UINT32_MAX then (active_tiles, positions, true)
    else if position >=? zlen active_tiles then (active_tiles, positions, false)
    else
      let moved_tile := aget 0 active_tiles (zlen active_tiles - 1) in
      (removelast (aset active_tiles position moved_tile),
       aset (aset positions moved_tile position) tile_id UINT32_MAX, true).

(** ** Decisions *)

Definition should_collect_pending_tile_dirty (texture_needs_full_upload video_frame_pending : bool) : bool :=
  negb texture_needs_full_upload && negb video_frame_pending.

Definition should_clear_pending_tile_dirty (full_framebuffer_uploaded video_frame_uploaded : bool) : bool :=
  full_framebuffer_uploaded && negb video_frame_uploaded.

Inductive ClientRenderSurfaceHandoff := Handoff_KeepCurrent | Handoff_CommitNew.

Definition client_render_surface_handoff_decide (new_surface_uploaded ownership_current presentation_succeeded : bool)
    : ClientRenderSurfaceHandoff :=
  if new_surface_uploaded && ownership_current && presentation_succeeded then Handoff_CommitNew else Handoff_KeepCurrent.

Definition client_tile_frame_complete (received_generations : list Z) : bool :=
  if null received_generations then false else forallb (fun generation => negb (generation =? 0)) received_generations.

(** ** The rectangles of the dirty tiles *)

Definition contains (px py : Z) (r : ClientDirtyRect) : bool :=
  (r.(cr_x) <=? px) && (px <? r.(cr_x) + r.(cr_w)) && (r.(cr_y) <=? py) && (py <? r.(cr_y) + r.(cr_h)).

(** How many rectangles a pixel lies in. *)
Definition covers (rects : list ClientDirtyRect) (px py : Z) : Z := n_queued (contains px py <$> rects).

Definition no_rect : ClientDirtyRect := mk_ClientDirtyRect 0 0 0 0.

Lemma n_queued_app l k : n_queued (l ++ k) = n_queued l + n_queued k.
Proof. unfold n_queued. induction l as [|b l IH]; cbn [app fold_right]; lia. Qed.

Lemma covers_snoc rects r px py : covers (rects ++ [r]) px py = covers rects px py + Z.b2z (contains px py r).
Proof. unfold covers. rewrite fmap_app, n_queued_app. cbn. lia. Qed.

Lemma aget_fmap {A B} (f : A -> B) d l i : 0 <= i < zlen l -> aget (f d) (f <$> l) i = f (aget d l i).
Proof. unfold aget. intros. apply map_nth. Qed.

Lemma contains_none px py : contains px py no_rect = false.
Proof.
  unfold contains, no_rect. cbn [cr_x cr_y cr_w cr_h].
  destruct (Z.leb_spec 0 px), (Z.ltb_spec px (0 + 0)); try done. lia.
Qed.

Lemma covers_aset rects i r px py : 0 <= i < zlen rects ->
  covers (aset rects i r) px py =
  covers rects px py - Z.b2z (contains px py (aget no_rect rects i)) + Z.b2z (contains px py r).
Proof.
  intros Hi. unfold covers, aset. rewrite list_fmap_insert. fold (aset (contains px py <$> rects) i (contains px py r)).
  rewrite n_queued_aset by (by rewrite zlen_fmap). do 3 f_equal.
  rewrite <- (aget_fmap (contains px py) no_rect rects i Hi), contains_none. done.
Qed.

Lemma le_div d q p : 0 < d -> q <= p / d <-> q * d <= p.
Proof.
  intros Hd. pose proof (Z.div_mod p d ltac:(lia)). pose proof (Z.mod_pos_bound p d Hd). split; intros; nia.
Qed.

Record dirty_grid_ok (g : ClientDirtyTileGrid) : Prop := {
  dk_width : 0 < g.(dg_frame_width) <= UINT16_MAX;
  dk_height : 0 < g.(dg_frame_height) <= UINT16_MAX;
  dk_tile_width : 0 < g.(dg_tile_width) <= UINT16_MAX;
  dk_tile_height : 0 < g.(dg_tile_height) <= UINT16_MAX;
  dk_tiles_x : g.(dg_tiles_x) = cdiv g.(dg_frame_width) g.(dg_tile_width);
  dk_tiles_y : g.(dg_tiles_y) = cdiv g.(dg_frame_height) g.(dg_tile_height);
  dk_length : zlen g.(dg_dirty_tiles) = g.(dg_tiles_x) * g.(dg_tiles_y);
  dk_count : g.(dg_dirty_tile_count) = n_queued g.(dg_dirty_tiles);
}.

(** Whether the tile of a pixel is dirty. *)
Definition pixel_dirty (g : ClientDirtyTileGrid) (dirty : list bool) (px py : Z) : bool :=
  (px <? g.(dg_frame_width)) && (py <? g.(dg_frame_height)) &&
  aget false dirty (py / g.(dg_tile_height) * g.(dg_tiles_x) + px / g.(dg_tile_width)).

Lemma tiles_bound w t : 0 < w <= UINT16_MAX -> 0 < t -> 0 < cdiv w t <= w.
Proof. intros Hw Ht. pose proof (proj1 (cdiv_spec w t _ Ht) eq_refl). split; [apply cdiv_pos; lia | nia]. Qed.

Section exact.
Context (g : ClientDirtyTileGrid) (G : dirty_grid_ok g).
#[local] Notation FW := g.(dg_frame_width).
#[local] Notation FH := g.(dg_frame_height).
#[local] Notation tw := g.(dg_tile_width).
#[local] Notation th := g.(dg_tile_height).
#[local] Notation nx := g.(dg_tiles_x).
#[local] Notation ny := g.(dg_tiles_y).

Lemma dk_bounds : 0 < nx <= 65535 /\ 0 < ny <= 65535 /\ (nx - 1) * tw < FW <= nx * tw /\ (ny - 1) * th < FH <= ny * th /\
  nx * tw <= 131070 /\ ny * th <= 131070.
Proof.
  destruct G as [A B C D -> -> _ _]. pose proof (tiles_bound FW tw A ltac:(lia)). pose proof (tiles_bound FH th B ltac:(lia)).
  pose proof (proj1 (cdiv_spec FW tw _ ltac:(lia)) eq_refl). pose proof (proj1 (cdiv_spec FH th _ ltac:(lia)) eq_refl).
  mlia.
Qed.

Lemma take_run_spec k : forall row x dirty count, 0 <= row -> 0 <= x -> row + x + Z.of_nat k <= zlen dirty ->
  zlen dirty <= nx * ny -> count = n_queued dirty ->
  let '(dirty', count', e) := take_run k row x dirty count in
  x <= e <= x + Z.of_nat k /\ zlen dirty' = zlen dirty /\ count' = n_queued dirty' /\
  (forall i, 0 <= i -> aget false dirty' i = aget false dirty i && negb ((row + x <=? i) && (i <? row + e))) /\
  (forall i, row + x <= i < row + e -> aget false dirty i = true) /\
  (k <> O -> aget false dirty (row + x) = true -> x < e).
Proof.
  induction k as [|k IH]; intros row x dirty count Hr Hx Hl Hm Hc; cbn [take_run].
  - split_and!; [lia | lia | done | done | | lia | done]. intros i Hi.
    replace ((row + x <=? i) && (i <? row + x)) with false by (destruct (row + x <=? i) eqn:E1, (i <? row + x) eqn:E2; bool_cases; cbn; [lia | done ..]).
    by rewrite andb_true_r.
  - destruct (aget false dirty (row + x)) eqn:Ed.
    2:{ split_and!; [lia | lia | done | done | | lia | done]. intros i Hi.
        replace ((row + x <=? i) && (i <? row + x)) with false by (destruct (row + x <=? i) eqn:E1, (i <? row + x) eqn:E2; bool_cases; cbn; [lia | done ..]).
        by rewrite andb_true_r. }
    pose proof (n_queued_aset dirty (row + x) false ltac:(lia)) as Hn. rewrite Ed in Hn. cbn [Z.b2z] in Hn.
    pose proof (n_queued_range (aset dirty (row + x) false)) as Hn0. pose proof dk_bounds as B.
    assert (u64 (count - 1) = n_queued (aset dirty (row + x) false)) as Hc'.
    { assert (nx * ny <= 65535 * 65535) by nia. pose proof (n_queued_range dirty). rewrite u64_small by mlia. lia. }
    specialize (IH row (x + 1) (aset dirty (row + x) false) (u64 (count - 1)) Hr ltac:(lia)).
    rewrite zlen_aset in IH. specialize (IH ltac:(lia) Hm Hc').
    destruct (take_run k row (x + 1) _ _) as [[dirty' count'] e]. destruct IH as (I1 & I2 & I3 & I4 & I5 & _).
    split_and!; [lia | lia | done | done | | | lia].
    + intros i Hi. rewrite I4 by done. destruct (Z.eq_dec i (row + x)) as [->|Hne].
      * rewrite aget_aset_eq by lia. cbn [andb]. rewrite Ed.
        replace (row + x <=? row + x) with true by (symmetry; apply Z.leb_refl).
        by rewrite (proj2 (Z.ltb_lt (row + x) (row + e))) by lia.
      * rewrite aget_aset_ne by lia. f_equal. f_equal. f_equal.
        destruct (Z.leb_spec (row + (x + 1)) i), (Z.leb_spec (row + x) i); try done; lia.
    + intros i Hi. destruct (Z.eq_dec i (row + x)) as [->|Hne]; [done |].
      rewrite <- (I5 i) by lia. by rewrite aget_aset_ne by lia.
Qed.

(** The pixels of a run in one row of tiles. *)
Definition band (s e y px py : Z) : bool :=
  (s * tw <=? px) && (px <? Z.min FW (e * tw)) && (y * th <=? py) && (py <? Z.min FH ((y + 1) * th)).

Lemma band_spec s e y px py : 0 <= px -> 0 <= py ->
  band s e y px py = true <-> (px < FW /\ s <= px / tw < e) /\ (py < FH /\ py / th = y).
Proof.
  intros Hx Hy. unfold band. pose proof (dk_tile_width _ G). pose proof (dk_tile_height _ G).
  rewrite !andb_true_iff, !Z.leb_le, !Z.ltb_lt.
  pose proof (le_div tw s px ltac:(lia)). pose proof (le_div tw e px ltac:(lia)).
  pose proof (le_div th y py ltac:(lia)). pose proof (le_div th (y + 1) py ltac:(lia)). lia.
Qed.

(** A run whose rectangle ends with the row of tiles above [y]. *)
Definition run_at (y : Z) (rects : list ClientDirtyRect) (run : RowRun) : Prop :=
  let r := aget no_rect rects run.(rr_rect_index) in
  0 <= run.(rr_start) < run.(rr_end) /\ run.(rr_end) <= nx /\ 0 <= run.(rr_rect_index) < zlen rects /\
  r.(cr_x) = run.(rr_start) * tw /\ r.(cr_x) + r.(cr_w) = Z.min FW (run.(rr_end) * tw) /\
  0 <= r.(cr_y) < y * th /\ r.(cr_y) + r.(cr_h) = Z.min FH (y * th).

Definition rect_ok (r : ClientDirtyRect) : Prop :=
  0 <= r.(cr_x) /\ 0 < r.(cr_w) /\ r.(cr_x) + r.(cr_w) <= FW /\ 0 <= r.(cr_y) /\ 0 < r.(cr_h) /\ r.(cr_y) + r.(cr_h) <= FH.

Lemma run_at_app y rects r run : run_at y rects run -> run_at y (rects ++ [r]) run.
Proof.
  intros (A & B & C & D). unfold run_at. rewrite aget_app_l by lia. split; [done |]. split; [done |].
  split; [| done]. rewrite zlen_app. pose proof (zlen_nonneg [r]). lia.
Qed.

Lemma run_at_aset y rects i r run : 0 <= i -> i <> run.(rr_rect_index) -> run_at y rects run ->
  run_at y (aset rects i r) run.
Proof. intros Hi Hne (A & B & C & D). unfold run_at. rewrite aget_aset_ne by lia. rewrite zlen_aset. done. Qed.

Lemma place_run_spec y s e previous rects : 0 <= y < ny -> 0 <= s < e -> e <= nx ->
  (forall p, p ∈ previous -> p.(rr_start) = s -> run_at y rects p) -> Forall rect_ok rects ->
  let '(rects', i) := place_run g y s e previous rects in
  run_at (y + 1) rects' (mk_RowRun s e i) /\ Forall rect_ok rects' /\ zlen rects <= zlen rects' /\
  (forall px py, 0 <= px -> 0 <= py -> covers rects' px py = covers rects px py + Z.b2z (band s e y px py)) /\
  ((i = zlen rects /\ rects' = rects ++ [aget no_rect rects' i]) \/
   exists p, p ∈ previous /\ p.(rr_start) = s /\ p.(rr_rect_index) = i /\ rects' = aset rects i (aget no_rect rects' i)).
Proof.
  intros Hy Hs He Hp Hr. pose proof dk_bounds as (B1 & B2 & B3 & B4 & B5 & B6).
  pose proof (dk_width _ G) as HW. pose proof (dk_height _ G) as HH. pose proof (dk_tile_width _ G). pose proof (dk_tile_height _ G).
  assert (s * tw < FW /\ 0 <= s * tw) as HsW by nia. assert (y * th < FH /\ 0 <= y * th) as HyH by nia.
  assert (e * tw <= 131070) as HeT by nia. assert ((y + 1) * th <= 131070) as HyT by nia.
  assert (s * tw < e * tw) as Hse by nia. assert (y * th < (y + 1) * th) as Hyy by nia.
  assert (place_run g y s e previous rects =
    (rects ++ [mk_ClientDirtyRect (s * tw) (y * th) (Z.min FW (e * tw) - s * tw) (Z.min FH ((y + 1) * th) - y * th)],
     zlen rects) \/
    exists p rest, previous = p :: rest /\ p.(rr_start) = s /\ p.(rr_end) = e) as [Ep|(p & rest & -> & Es & Ee)].
  { assert (place_run g y s e [] rects =
      (rects ++ [mk_ClientDirtyRect (s * tw) (y * th) (Z.min FW (e * tw) - s * tw) (Z.min FH ((y + 1) * th) - y * th)],
       zlen rects)) as Enew.
    { unfold place_run. rewrite !(u32_small (s * tw)), !(u32_small (e * tw)), !(u32_small (y * th)) by mlia.
      replace (y * th + th) with ((y + 1) * th) by lia. rewrite (u32_small ((y + 1) * th)) by mlia.
      by rewrite !u16_small by mlia. }
    destruct previous as [|p rest]; [by left |].
    destruct ((p.(rr_start) =? s) && (p.(rr_end) =? e)) eqn:E.
    - bool_cases. right. by exists p, rest.
    - left. rewrite <- Enew. unfold place_run. by rewrite E. }
  - rewrite Ep. set (r := mk_ClientDirtyRect _ _ _ _) in *.
    assert (aget no_rect (rects ++ [r]) (zlen rects) = r) as Er by (rewrite aget_app_r by lia; by rewrite Z.sub_diag).
    split_and!.
    + unfold run_at. cbn [rr_start rr_end rr_rect_index]. rewrite Er. cbn [cr_x cr_y cr_w cr_h r].
      rewrite zlen_app. pose proof (zlen_nonneg rects). change (zlen [r]) with 1. mlia.
    + apply list.Forall_app. split; [done |]. constructor; [| constructor]. unfold rect_ok. subst r. cbn. mlia.
    + rewrite zlen_app. change (zlen [r]) with 1. lia.
    + intros px py Hpx Hpy. rewrite covers_snoc. do 2 f_equal. unfold contains, band, r. cbn [cr_x cr_y cr_w cr_h].
      by rewrite !Zplus_minus.
    + left. split; [done |]. by rewrite Er.
  - destruct (Hp p ltac:(by left) Es) as (R1 & R2 & R3 & R4 & R5 & R6 & R7).
    unfold place_run. rewrite Es, Ee, !Z.eqb_refl. cbn [andb].
    rewrite (u32_small ((y + 1) * th)) by mlia. fold no_rect. set (r := aget no_rect rects p.(rr_rect_index)) in *.
    assert (Z.min FH (y * th) = y * th) as Em by lia. rewrite Em in R7.
    rewrite (u16_small (Z.min FH ((y + 1) * th) - r.(cr_y))) by mlia.
    set (r' := r <| cr_h := _ |>). assert (aget no_rect (aset rects p.(rr_rect_index) r') p.(rr_rect_index) = r') as Er
      by (by rewrite aget_aset_eq).
    rewrite Es, Ee in *.
    split_and!.
    + unfold run_at. cbn [rr_start rr_end rr_rect_index]. rewrite Er, zlen_aset. subst r'. cbn [cr_x cr_y cr_w cr_h set_field].
      mlia.
    + apply Forall_insert; [done |]. unfold rect_ok. subst r'. cbn [cr_x cr_y cr_w cr_h set_field]. mlia.
    + by rewrite zlen_aset.
    + intros px py Hpx Hpy. rewrite covers_aset by done. fold r.
      assert (Z.b2z (contains px py r') = Z.b2z (contains px py r) + Z.b2z (band s e y px py)) as ->; [| lia].
      unfold contains, band. subst r'. cbn [cr_x cr_y cr_w cr_h set_field]. rewrite R5, R7, R4, Zplus_minus.
      destruct (Z.leb_spec (s * tw) px), (Z.ltb_spec px (Z.min FW (e * tw))), (Z.leb_spec r.(cr_y) py),
        (Z.ltb_spec py (y * th)), (Z.leb_spec (y * th) py), (Z.ltb_spec py (Z.min FH ((y + 1) * th))); cbn; try done; lia.
    + right. exists p. split; [by left |]. split; [done |]. split; [done |]. by rewrite Er.
Qed.

(** What holds when a row of tiles is done up to column [x]. *)
Record row_state (dirty0 : list bool) (y x : Z) (previous current : list RowRun) (dirty : list bool)
    (count : Z) (rects : list ClientDirtyRect) : Prop := {
  ro_column : 0 <= x <= nx;
  ro_length : zlen dirty = nx * ny;
  ro_count : count = n_queued dirty;
  ro_dirty : forall i, 0 <= i -> aget false dirty i = aget false dirty0 i && (y * nx + x <=? i);
  ro_covers : forall px py, 0 <= px -> 0 <= py ->
    covers rects px py = Z.b2z (pixel_dirty g dirty0 px py && (py / th * nx + px / tw <? y * nx + x));
  ro_rects : Forall rect_ok rects;
  ro_previous : forall p, p ∈ previous -> x <= p.(rr_start) ->
    run_at y rects p /\ p.(rr_rect_index) ∉ rr_rect_index <$> current;
  ro_distinct : NoDup (rr_rect_index <$> previous);
  ro_current : Forall (run_at (y + 1) rects) current;
  ro_current_distinct : NoDup (rr_rect_index <$> current);
}.

Lemma skip_runs_suffix s previous : exists dropped, previous = dropped ++ skip_runs s previous /\
  forall p rest, skip_runs s previous = p :: rest -> s <= p.(rr_start).
Proof.
  induction previous as [|p previous (dropped & IH & IHs)]; cbn [skip_runs]; [by exists [] |].
  case_if; bool_cases.
  - exists (p :: dropped). split; [cbn; by f_equal | done].
  - exists []. split; [done |]. intros ? ? [= <- <-]. lia.
Qed.

Lemma skip_runs_sublist s previous : skip_runs s previous ⊆ previous /\
  (NoDup (rr_rect_index <$> previous) -> NoDup (rr_rect_index <$> skip_runs s previous)).
Proof.
  destruct (skip_runs_suffix s previous) as (dropped & E & _). split.
  - intros p Hp. rewrite E. apply elem_of_app. by right.
  - rewrite E at 1. rewrite fmap_app. by intros (_ & _ & ?)%list.NoDup_app.
Qed.

Lemma pixel_cell px py : 0 <= px -> px < FW -> 0 <= py -> py < FH ->
  0 <= px / tw < nx /\ 0 <= py / th < ny.
Proof.
  intros. pose proof (dk_tile_width _ G). pose proof (dk_tile_height _ G). rewrite (dk_tiles_x _ G), (dk_tiles_y _ G).
  split; (split; [apply Z.div_pos; lia | apply div_lt_cdiv; lia]).
Qed.

(** Taking the run [x, e) of row [y]. *)
Lemma covers_run dirty0 y x e px py : 0 <= px -> 0 <= py -> 0 <= y -> 0 <= x < e -> e <= nx ->
  (forall i, y * nx + x <= i < y * nx + e -> aget false dirty0 i = true) ->
  Z.b2z (pixel_dirty g dirty0 px py && (py / th * nx + px / tw <? y * nx + x)) + Z.b2z (band x e y px py) =
  Z.b2z (pixel_dirty g dirty0 px py && (py / th * nx + px / tw <? y * nx + e)).
Proof.
  intros Hpx Hpy Hy Hx He Hd. pose proof (band_spec x e y px py Hpx Hpy) as Hb. unfold pixel_dirty.
  destruct (Z.ltb_spec px FW) as [Hw|Hw], (Z.ltb_spec py FH) as [Hh|Hh]; cbn [andb Z.b2z];
    try (destruct (band x e y px py); [lia | done]).
  destruct (pixel_cell px py Hpx Hw Hpy Hh) as [Cx Cy].
  set (cell := py / th * nx + px / tw) in *.
  destruct (band x e y px py).
  - destruct (proj1 Hb eq_refl) as [[_ Hc] [_ Hrow]].
    assert (cell = y * nx + px / tw) as -> by (unfold cell; by rewrite Hrow). rewrite Hd by lia.
    by rewrite (proj2 (Z.ltb_ge _ _)), (proj2 (Z.ltb_lt _ (y * nx + e))) by lia.
  - assert (~ (x <= px / tw < e /\ py / th = y)) as Hn.
    { intros [? ?]. assert (false = true) by (apply Hb; lia). done. }
    destruct (aget false dirty0 cell); [| done]. cbn [andb].
    destruct (Z.ltb_spec cell (y * nx + x)), (Z.ltb_spec cell (y * nx + e)); cbn; try lia.
    exfalso. apply Hn. assert (py / th = y) as Hr by (subst cell; nia). subst cell. rewrite Hr in *. lia.
Qed.

Lemma NoDup_fmap_inj {A B} (f : A -> B) l a b : NoDup (f <$> l) -> a ∈ l -> b ∈ l -> f a = f b -> a = b.
Proof.
  induction l as [|x l IH]; [by intros _ ?%elem_of_nil |]. rewrite fmap_cons, list.NoDup_cons. intros [Hx Hl].
  rewrite !list.elem_of_cons. intros [->|Ha] [->|Hb] E; [done | | | by apply IH]; exfalso; apply Hx.
  - rewrite E. by apply list_elem_of_fmap_2.
  - rewrite <- E. by apply list_elem_of_fmap_2.
Qed.

(** What a placed run leaves of the other runs. *)
Lemma place_run_keeps y rects rects' i previous x e current :
  zlen rects <= zlen rects' -> x < e ->
  ((i = zlen rects /\ rects' = rects ++ [aget no_rect rects' i]) \/
   exists p, p ∈ previous /\ p.(rr_start) = x /\ p.(rr_rect_index) = i /\ rects' = aset rects i (aget no_rect rects' i)) ->
  (forall p, p ∈ previous -> x <= p.(rr_start) -> run_at y rects p /\ p.(rr_rect_index) ∉ rr_rect_index <$> current) ->
  NoDup (rr_rect_index <$> previous) -> Forall (run_at (y + 1) rects) current ->
  i ∉ rr_rect_index <$> current /\ Forall (run_at (y + 1) rects') current /\
  (forall p, p ∈ previous -> e <= p.(rr_start) ->
     run_at y rects' p /\ p.(rr_rect_index) ∉ rr_rect_index <$> current ++ [mk_RowRun x e i]).
Proof.
  intros Hle Hxe [[-> Er]|(p & Hp & Es & Ei & Er)] Hprev Hdist Hcur.
  - split_and!.
    + intros (c & Hi & Hc)%list_elem_of_fmap. rewrite list.Forall_forall in Hcur. destruct (Hcur c Hc) as (_ & _ & ? & _). lia.
    + rewrite Er. apply (list.Forall_impl _ _ _ Hcur). intros c Hc. by apply run_at_app.
    + intros p Hp Hs. destruct (Hprev p Hp ltac:(lia)) as [Ra Hn]. split; [rewrite Er; by apply run_at_app |].
      rewrite fmap_app, elem_of_app. intros [?|Hi%list_elem_of_singleton]; [done |].
      destruct Ra as (_ & _ & ? & _). cbn in Hi. lia.
  - destruct (Hprev p Hp ltac:(lia)) as [Ra Hn]. rewrite Ei in Hn. assert (0 <= i) as Hi0 by (destruct Ra as (_ & _ & ? & _); lia).
    split_and!; [done | |].
    + rewrite Er, list.Forall_forall in *. intros c Hc. apply run_at_aset; [done | | by apply Hcur].
      intros ->. apply Hn. apply list_elem_of_fmap. by exists c.
    + intros p' Hp' Hs'. destruct (Hprev p' Hp' ltac:(lia)) as [Ra' Hn'].
      assert (i <> p'.(rr_rect_index)) as Hne.
      { intros E. assert (p = p') as <- by (apply (NoDup_fmap_inj rr_rect_index previous); [done .. | congruence]). lia. }
      split; [rewrite Er; by apply run_at_aset |].
      rewrite fmap_app, elem_of_app. intros [?|Hi%list_elem_of_singleton]; [done |]. by apply Hne.
Qed.

Lemma take_row_spec dirty0 y : 0 <= y < ny -> forall k x previous current dirty count rects,
  nx - x <= Z.of_nat k -> row_state dirty0 y x previous current dirty count rects ->
  let '(current', dirty', count', rects') := take_row g k y x previous current dirty count rects in
  exists previous', row_state dirty0 y nx previous' current' dirty' count' rects'.
Proof.
  intros Hy. induction k as [|k IH]; intros x previous current dirty count rects Hk R; cbn [take_row].
  { exists previous. by replace nx with x by (destruct (ro_column _ _ _ _ _ _ _ _ R); lia). }
  destruct (Z.ltb_spec x nx) as [Hx|Hx].
  2:{ exists previous. by replace nx with x by (destruct (ro_column _ _ _ _ _ _ _ _ R); lia). }
  pose proof dk_bounds as (B1 & B2 & _). destruct R as [R1 R2 R3 R4 R5 R6 R7 R8 R9 R10].
  destruct (aget false dirty (y * nx + x)) eqn:Ed.
  - pose proof (take_run_spec (Z.to_nat (nx - x)) (y * nx) x dirty count ltac:(nia) ltac:(lia)) as T.
    destruct (take_run _ _ _ _ _) as [[dirty' count'] e].
    destruct T as (T1 & T2 & T3 & T4 & T5 & T6); [rewrite R2; nia | lia | done |]. specialize (T6 ltac:(lia) Ed).
    pose proof (skip_runs_sublist x previous) as [Hsub Hdist]. specialize (Hdist R8).
    pose proof (place_run_spec y x e (skip_runs x previous) rects Hy ltac:(lia) ltac:(lia)) as P.
    destruct (place_run g y x e (skip_runs x previous) rects) as [rects' i].
    destruct P as (P1 & P2 & P3 & P4 & P5); [intros p Hp Es; apply R7; [by apply Hsub | lia] | done |].
    destruct (place_run_keeps y rects rects' i (skip_runs x previous) x e current P3 T6 P5
      ltac:(intros p Hp Hs; apply R7; [by apply Hsub | done]) Hdist R9) as (K1 & K2 & K3).
    apply IH; [lia |]. split; try done.
    + lia.
    + by rewrite T2.
    + intros j Hj. rewrite T4, R4 by done. destruct (aget false dirty0 j); [| done]. cbn [andb].
      destruct (Z.leb_spec (y * nx + x) j), (Z.ltb_spec j (y * nx + e)), (Z.leb_spec (y * nx + e) j); cbn; try done; lia.
    + intros px py Hpx Hpy. rewrite P4, R5 by done. apply covers_run; try lia.
      intros j Hj. pose proof (T5 j Hj) as E. rewrite R4 in E by nia. by apply andb_true_iff in E as [? _].
    + apply list.Forall_app. split; [done | by constructor].
    + rewrite fmap_app. apply list.NoDup_app. split_and!; [done | | apply NoDup_singleton].
      intros j Hj ->%list_elem_of_singleton. done.
  - apply IH; [lia |]. split; try done.
    + lia.
    + intros j Hj. rewrite R4 by done. destruct (Z.eq_dec j (y * nx + x)) as [->|Hne].
      * rewrite R4 in Ed by nia. rewrite (proj2 (Z.leb_le _ _)) in Ed by lia. rewrite andb_true_r in Ed. by rewrite Ed.
      * f_equal. destruct (Z.leb_spec (y * nx + x) j), (Z.leb_spec (y * nx + (x + 1)) j); try done; lia.
    + intros px py Hpx Hpy. rewrite R5 by done. f_equal. unfold pixel_dirty.
      destruct (Z.eq_dec (py / th * nx + px / tw) (y * nx + x)) as [->|Hne].
      * rewrite R4 in Ed by nia. rewrite (proj2 (Z.leb_le _ _)) in Ed by lia. rewrite andb_true_r in Ed. rewrite Ed.
        by rewrite !andb_false_r.
      * f_equal. destruct (Z.ltb_spec (py / th * nx + px / tw) (y * nx + x)), (Z.ltb_spec (py / th * nx + px / tw) (y * nx + (x + 1)));
          try done; lia.
    + intros p Hp Hs. apply R7; [done | lia].
Qed.

Lemma take_rects_ok : let '(rects, g') := take_rects g in
  (forall px py, 0 <= px -> 0 <= py -> covers rects px py = Z.b2z (pixel_dirty g g.(dg_dirty_tiles) px py)) /\
  Forall rect_ok rects /\
  g' = g <| dg_dirty_tiles := g'.(dg_dirty_tiles) |> <| dg_dirty_tile_count := 0 |> /\
  zlen g'.(dg_dirty_tiles) = nx * ny /\ (forall i, 0 <= i -> aget false g'.(dg_dirty_tiles) i = false).
Proof.
  unfold take_rects. pose proof dk_bounds as (B1 & B2 & _). pose proof (dk_length _ G) as Hl.
  destruct ((g.(dg_dirty_tile_count) =? 0) || null g.(dg_dirty_tiles)) eqn:E.
  { assert (n_queued g.(dg_dirty_tiles) = 0) as Hz.
    { apply orb_true_iff in E as [E|E]; [bool_cases; by rewrite <- (dk_count _ G) |].
      destruct (dg_dirty_tiles g); [done |]. done. }
    assert (forall i, 0 <= i -> aget false g.(dg_dirty_tiles) i = false) as Hnone.
    { intros i Hi. destruct (Z.lt_ge_cases i (zlen g.(dg_dirty_tiles))) as [Hlt|Hge]; [by apply n_queued_zero |].
      unfold aget. apply nth_overflow. unfold zlen in Hge. lia. }
    split_and!; try done.
    - intros px py Hx Hy. unfold pixel_dirty. rewrite Hnone; [by rewrite !andb_false_r |].
      pose proof (dk_tile_width _ G). pose proof (dk_tile_height _ G).
      assert (0 <= px / tw) by (apply Z.div_pos; lia). assert (0 <= py / th) by (apply Z.div_pos; lia). nia.
    - destruct G as [_ _ _ _ _ _ _ Hc]. rewrite Hz in Hc. destruct g. cbn in *. by rewrite Hc. }
  match goal with |- context [fold_left ?f _ ?a] => set (step := f); set (start := a) end.
  assert (forall n, 0 <= n <= ny -> let '(previous, dirty, count, rects) := fold_left step (zseq n) start in
    row_state g.(dg_dirty_tiles) n 0 previous [] dirty count rects) as Hrows.
  { intros n Hn. destruct Hn as [Hn0 Hn]. revert Hn. pattern n. apply natlike_ind; [| | done]; clear n Hn0.
    - intros _. cbn [fold_left zseq seq fmap list_fmap start]. split; try done; try apply base.NoDup_nil_2; try apply list.Forall_nil_2.
      + lia.
      + apply G.
      + intros i Hi. rewrite (proj2 (Z.leb_le _ _)) by lia. by rewrite andb_true_r.
      + intros px py Hx Hy. unfold pixel_dirty. destruct (Z.ltb_spec px FW) as [Hw|Hw], (Z.ltb_spec py FH) as [Hh|Hh]; try done.
        destruct (pixel_cell px py Hx Hw Hy Hh) as [Cx Cy]. rewrite (proj2 (Z.ltb_ge _ _)) by nia. by rewrite andb_false_r.
      + by intros p ?%elem_of_nil.
    - intros n Hn IH Hle. rewrite <- Z.add_1_r, zseq_succ, fold_left_app by done. cbn [fold_left]. specialize (IH ltac:(lia)).
      destruct (fold_left step (zseq n) start) as [[[previous dirty] count] rects]. unfold step.
      pose proof (take_row_spec g.(dg_dirty_tiles) n ltac:(lia) (Z.to_nat nx) 0 previous [] dirty count rects ltac:(lia) IH) as T.
      destruct (take_row _ _ _ _ _ _ _ _ _) as [[[current dirty'] count'] rects'].
      destruct T as (previous' & [R1 R2 R3 R4 R5 R6 R7 R8 R9 R10]).
      split; try done; try apply base.NoDup_nil_2; try apply list.Forall_nil_2.
      + lia.
      + intros i Hi. rewrite R4 by done. do 2 f_equal. lia.
      + intros px py Hx Hy. rewrite R5 by done. do 2 f_equal. f_equal. lia.
      + intros p Hp _. split; [| by intros ?%elem_of_nil]. rewrite list.Forall_forall in R9. by apply R9.
    }
  specialize (Hrows ny ltac:(lia)).
  destruct (fold_left step (zseq ny) start) as [[[previous dirty] count] rects]. cbn [fst snd].
  destruct Hrows as [R1 R2 R3 R4 R5 R6 R7 R8 R9 R10].
  assert (forall i, 0 <= i -> aget false dirty i = false) as Hnone.
  { intros i Hi. destruct (Z.lt_ge_cases i (zlen dirty)) as [Hlt|Hge].
    - rewrite R4 by done. rewrite (proj2 (Z.leb_gt _ _)) by nia. by rewrite andb_false_r.
    - unfold aget. apply nth_overflow. unfold zlen in Hge. lia. }
  split_and!; try done.
  - intros px py Hx Hy. rewrite R5 by done. unfold pixel_dirty.
    destruct (Z.ltb_spec px FW) as [Hw|Hw], (Z.ltb_spec py FH) as [Hh|Hh]; try done.
    destruct (pixel_cell px py Hx Hw Hy Hh) as [Cx Cy]. rewrite (proj2 (Z.ltb_lt _ _)) by nia. by rewrite andb_true_r.
  - cbn [dg_dirty_tiles set_field]. rewrite R3. f_equal. apply n_queued_zero. intros i Hi. apply Hnone. lia.
Qed.

End exact.

(** *** Marking *)

Definition dims (g : ClientDirtyTileGrid) : Z * Z * Z * Z * Z * Z :=
  (g.(dg_frame_width), g.(dg_frame_height), g.(dg_tile_width), g.(dg_tile_height), g.(dg_tiles_x), g.(dg_tiles_y)).

Lemma elem_of_zrange a b x : 0 <= b - a + 1 -> x ∈ zrange a b <-> a <= x <= b.
Proof.
  intros Hab. unfold zrange. rewrite list_elem_of_fmap. split.
  - intros (k & -> & Hk%list_elem_of_In%elem_of_zseq). lia.
  - intros Hx. exists (x - a). split; [lia |]. apply list_elem_of_In, elem_of_zseq. lia.
Qed.

Lemma mark_tile_ok g ty tx : dirty_grid_ok g -> 0 <= ty < g.(dg_tiles_y) -> 0 <= tx < g.(dg_tiles_x) ->
  let g' := mark_tile g ty tx in
  dirty_grid_ok g' /\ dims g' = dims g /\
  forall i, 0 <= i -> aget false g'.(dg_dirty_tiles) i = true <->
    aget false g.(dg_dirty_tiles) i = true \/ i = ty * g.(dg_tiles_x) + tx.
Proof.
  intros G Hy Hx. cbv zeta. unfold mark_tile. pose proof (dk_bounds g G) as (B1 & B2 & _).
  set (c := ty * g.(dg_tiles_x) + tx). pose proof (dk_length _ G) as Hl.
  assert (0 <= c < zlen g.(dg_dirty_tiles)) as Hc by (subst c; nia).
  destruct (aget false g.(dg_dirty_tiles) c) eqn:E.
  { split_and!; [done | done |]. intros i Hi. split; [by left | intros [? | ->]; done]. }
  pose proof (n_queued_aset _ c true Hc) as Hn. rewrite E in Hn. cbn [Z.b2z] in Hn.
  pose proof (n_queued_range (aset g.(dg_dirty_tiles) c true)) as Hr. rewrite zlen_aset in Hr.
  pose proof (n_queued_range g.(dg_dirty_tiles)) as Hr0.
  split; [| split; [done |]].
  - destruct G as [A1 A2 A3 A4 A5 A6 A7 A8]. split; cbn [dg_frame_width dg_frame_height dg_tile_width dg_tile_height dg_tiles_x dg_tiles_y dg_dirty_tile_count dg_dirty_tiles set_field]; try done.
    + by rewrite zlen_aset.
    + assert (dg_tiles_x g * dg_tiles_y g <= 65535 * 65535) by nia. rewrite A8, Hn, u64_small by mlia. lia.
  - intros i Hi. cbn [dg_dirty_tiles set_field]. destruct (Z.eq_dec i c) as [->|Hne].
    + rewrite aget_aset_eq by done. split; [by right | done].
    + rewrite aget_aset_ne by lia. split; [by left | intros [?|?]; [done | lia]].
Qed.

(** A loop that marks tiles. *)
Lemma fold_mark_ok {A} (step : ClientDirtyTileGrid -> A -> ClientDirtyTileGrid) (P : A -> Prop) (adds : A -> Z -> Prop) g0 :
  (forall g a, P a -> dirty_grid_ok g -> dims g = dims g0 -> let g' := step g a in
     dirty_grid_ok g' /\ dims g' = dims g0 /\
     forall i, 0 <= i -> aget false g'.(dg_dirty_tiles) i = true <-> aget false g.(dg_dirty_tiles) i = true \/ adds a i) ->
  forall l g, Forall P l -> dirty_grid_ok g -> dims g = dims g0 -> let g' := fold_left step l g in
    dirty_grid_ok g' /\ dims g' = dims g0 /\
    forall i, 0 <= i -> aget false g'.(dg_dirty_tiles) i = true <->
      aget false g.(dg_dirty_tiles) i = true \/ exists a, a ∈ l /\ adds a i.
Proof.
  intros Hstep. induction l as [|a l IH]; intros g Hl G D; cbn [fold_left].
  - split_and!; [done | done |]. intros i Hi. split; [by left |]. intros [?|(a & Ha & _)]; [done | by apply elem_of_nil in Ha].
  - apply list.Forall_cons in Hl as [Ha Hl]. destruct (Hstep g a Ha G D) as (G1 & D1 & E1). destruct (IH (step g a) Hl G1 D1) as (G2 & D2 & E2).
    split_and!; [done | done |]. intros i Hi. rewrite E2, E1 by done. setoid_rewrite list.elem_of_cons. split.
    + intros [[?|?]|(b & ? & ?)]; [by left | right; exists a; split; [by left | done] | right; exists b; split; [by right | done]].
    + intros [?|(b & [->|?] & ?)]; [by do 2 left | left; by right | right; by exists b].
Qed.

(** Whether the tile of a pixel touches the part of [r] in the frame. *)
Definition touches (W H tw th : Z) (px py : Z) (r : ClientDirtyRect) : bool :=
  negb (r.(cr_w) =? 0) && negb (r.(cr_h) =? 0) && (r.(cr_x) <? W) && (r.(cr_y) <? H) &&
  (px / tw * tw <? r.(cr_x) + r.(cr_w)) && (r.(cr_x) <? (px / tw + 1) * tw) &&
  (py / th * th <? r.(cr_y) + r.(cr_h)) && (r.(cr_y) <? (py / th + 1) * th).

Definition rect_u16 (r : ClientDirtyRect) : Prop :=
  u16_ok r.(cr_x) /\ u16_ok r.(cr_y) /\ u16_ok r.(cr_w) /\ u16_ok r.(cr_h).

Lemma clamp_spec r w h : rect_u16 r -> 0 < w <= UINT16_MAX -> 0 < h <= UINT16_MAX ->
  clamp_dirty_rect r w h =
    if (r.(cr_w) =? 0) || (r.(cr_h) =? 0) || (r.(cr_x) >=? w) || (r.(cr_y) >=? h) then None
    else Some (mk_ClientDirtyRect r.(cr_x) r.(cr_y) (Z.min r.(cr_w) (w - r.(cr_x))) (Z.min r.(cr_h) (h - r.(cr_y)))).
Proof.
  intros (Hx & Hy & Hw & Hh) W H. unfold clamp_dirty_rect.
  replace (w >? UINT16_MAX) with false by (symmetry; rewrite Z.gtb_ltb; apply Z.ltb_ge; lia).
  replace (h >? UINT16_MAX) with false by (symmetry; rewrite Z.gtb_ltb; apply Z.ltb_ge; lia).
  rewrite !orb_false_r. case_if; [done |]. bool_cases. rewrite !u32_small by mlia.
  match goal with |- (if ?c then _ else _) = _ => replace c with false; [done |] end.
  symmetry. rewrite !orb_false_iff, !Z.eqb_neq, !Z.gtb_ltb, !Z.ltb_ge. mlia.
Qed.

(** An interval of tile indices. *)
Lemma tile_interval t x w W p : 0 < t -> 0 <= x -> x < W -> 0 < w -> 0 <= p < W ->
  x / t <= p / t <= Z.min ((x + Z.min w (W - x) - 1) / t) (cdiv W t - 1) <->
  (p / t * t <? x + w) && (x <? (p / t + 1) * t) = true.
Proof.
  intros Ht Hx HxW Hw Hp. rewrite andb_true_iff, !Z.ltb_lt.
  pose proof (le_div t (p / t) (x + Z.min w (W - x) - 1) Ht). pose proof (le_div t (p / t + 1) x Ht).
  pose proof (le_div t (p / t) p Ht). pose proof (div_lt_cdiv W t p Ht ltac:(lia)).
  pose proof (Z.min_spec ((x + Z.min w (W - x) - 1) / t) (cdiv W t - 1)). lia.
Qed.

Lemma cell_inj n p q a b : 0 <= a < n -> 0 <= b < n -> p * n + a = q * n + b -> p = q /\ a = b.
Proof. intros Ha Hb E. apply (Z.div_mod_unique n); lia. Qed.

Lemma mark_rect_ok g r : dirty_grid_ok g -> rect_u16 r ->
  let g' := (mark_rect g r).1 in
  dirty_grid_ok g' /\ dims g' = dims g /\
  forall px py, 0 <= px < g.(dg_frame_width) -> 0 <= py < g.(dg_frame_height) ->
    pixel_dirty g' g'.(dg_dirty_tiles) px py =
    pixel_dirty g g.(dg_dirty_tiles) px py ||
      touches g.(dg_frame_width) g.(dg_frame_height) g.(dg_tile_width) g.(dg_tile_height) px py r.
Proof.
  intros G R. cbv zeta. pose proof (dk_bounds g G) as (B1 & B2 & B3 & B4 & B5 & B6). unfold mark_rect.
  pose proof (dk_width _ G) as HW. pose proof (dk_height _ G) as HH.
  pose proof (dk_tile_width _ G) as Htw. pose proof (dk_tile_height _ G) as Hth.
  destruct (null g.(dg_dirty_tiles)) eqn:En.
  { pose proof (dk_length _ G) as Hl. destruct (dg_dirty_tiles g); [| done]. unfold zlen in Hl. cbn in Hl. nia. }
  rewrite (clamp_spec r _ _ R HW HH). destruct R as (Rx & Ry & Rw & Rh).
  destruct ((r.(cr_w) =? 0) || (r.(cr_h) =? 0) || (r.(cr_x) >=? g.(dg_frame_width)) || (r.(cr_y) >=? g.(dg_frame_height))) eqn:Ev.
  { split_and!; [done | done |]. intros px py _ _. cbn [fst]. unfold touches.
    destruct (Z.eqb_spec r.(cr_w) 0); cbn [negb andb orb] in *; [by rewrite orb_false_r |].
    destruct (Z.eqb_spec r.(cr_h) 0); cbn [negb andb orb] in *; [by rewrite orb_false_r |].
    rewrite !Z.geb_leb, orb_true_iff, !Z.leb_le in Ev.
    destruct (Z.ltb_spec r.(cr_x) g.(dg_frame_width)), (Z.ltb_spec r.(cr_y) g.(dg_frame_height)); cbn [andb];
      try (by rewrite orb_false_r). lia. }
  bool_cases. cbn [fst cr_x cr_y cr_w cr_h].
  rewrite !u32_small by mlia.
  set (x0 := r.(cr_x) / g.(dg_tile_width)). set (x1 := Z.min ((cr_x r + Z.min (cr_w r) (dg_frame_width g - cr_x r) - 1) / dg_tile_width g) (dg_tiles_x g - 1)).
  set (y0 := r.(cr_y) / g.(dg_tile_height)). set (y1 := Z.min ((cr_y r + Z.min (cr_h r) (dg_frame_height g - cr_y r) - 1) / dg_tile_height g) (dg_tiles_y g - 1)).
  assert (0 <= x0 /\ 0 <= x1 - x0 + 1 /\ x1 < g.(dg_tiles_x)) as (Hx0 & Hx1 & Hx2).
  { split; [apply Z.div_pos; mlia |]. split; [| lia].
    assert (x0 <= x1); [| lia]. subst x0 x1. apply Z.min_glb; [apply Z.div_le_mono; mlia |].
    pose proof (div_lt_cdiv g.(dg_frame_width) g.(dg_tile_width) r.(cr_x)). rewrite (dk_tiles_x _ G). mlia. }
  assert (0 <= y0 /\ 0 <= y1 - y0 + 1 /\ y1 < g.(dg_tiles_y)) as (Hy0 & Hy1 & Hy2).
  { split; [apply Z.div_pos; mlia |]. split; [| lia].
    assert (y0 <= y1); [| lia]. subst y0 y1. apply Z.min_glb; [apply Z.div_le_mono; mlia |].
    pose proof (div_lt_cdiv g.(dg_frame_height) g.(dg_tile_height) r.(cr_y)). rewrite (dk_tiles_y _ G). mlia. }
  assert (forall g1, dims g1 = dims g -> g1.(dg_tiles_x) = g.(dg_tiles_x) /\ g1.(dg_tiles_y) = g.(dg_tiles_y)) as Hd
    by (by intros g1 [= _ _ _ _ -> ->]).
  assert (forall a b n, 0 <= a -> 0 <= b - a + 1 -> b < n -> Forall (fun t => 0 <= t < n) (zrange a b)) as Hrange.
  { intros a b n Ha Hab Hn. apply list.Forall_forall. intros t Ht%elem_of_zrange; lia. }
  destruct (fold_mark_ok (fun grid tile_y => fold_left (fun grid tile_x => mark_tile grid tile_y tile_x)
      (zrange x0 (Z.min ((cr_x r + Z.min (cr_w r) (dg_frame_width g - cr_x r) - 1) / dg_tile_width g) (dg_tiles_x grid - 1))) grid)
    (fun ty => 0 <= ty < g.(dg_tiles_y))
    (fun ty i => exists tx, tx ∈ zrange x0 x1 /\ i = ty * g.(dg_tiles_x) + tx) g)
    with (l := zrange y0 y1) (g := g) as (G' & D' & E'); [| by apply Hrange | done | done |].
  { intros g1 ty Hty G1 D1. destruct (Hd g1 D1) as [Ex Ey]. rewrite Ex. fold x1.
    apply (fold_mark_ok (fun grid tile_x => mark_tile grid ty tile_x) (fun tx => 0 <= tx < g.(dg_tiles_x))
      (fun tx i => i = ty * g.(dg_tiles_x) + tx) g); [| by apply Hrange | done | done].
    intros g2 tx Htx G2 D2. destruct (Hd g2 D2) as [Ex2 Ey2]. rewrite <- Ex2, <- D2.
    apply mark_tile_ok; [done | by rewrite Ey2 | by rewrite Ex2]. }
  split_and!; [done | done |]. intros px py Hpx Hpy.
  set (g' := fold_left _ _ g) in *. clearbody g'. injection D' as D1 D2 D3 D4 D5 D6.
  unfold pixel_dirty. rewrite D1, D2, D3, D4, D5.
  destruct (pixel_cell g G px py) as [Cx Cy]; [lia .. |].
  rewrite !(proj2 (Z.ltb_lt _ _)) by lia. cbn [andb].
  set (i := py / g.(dg_tile_height) * g.(dg_tiles_x) + px / g.(dg_tile_width)).
  assert (0 <= i) as Hi by (subst i; nia). specialize (E' i Hi).
  assert (touches (dg_frame_width g) (dg_frame_height g) (dg_tile_width g) (dg_tile_height g) px py r = true <->
    exists ty, ty ∈ zrange y0 y1 /\ exists tx, tx ∈ zrange x0 x1 /\ i = ty * g.(dg_tiles_x) + tx) as Ht.
  { unfold touches. rewrite !(proj2 (Z.ltb_lt _ _)) by lia. rewrite !(proj2 (Z.eqb_neq _ _)) by done. cbn [negb andb].
    pose proof (tile_interval g.(dg_tile_width) r.(cr_x) r.(cr_w) g.(dg_frame_width) px) as Tx.
    pose proof (tile_interval g.(dg_tile_height) r.(cr_y) r.(cr_h) g.(dg_frame_height) py) as Ty.
    rewrite <- (dk_tiles_x _ G) in Tx. rewrite <- (dk_tiles_y _ G) in Ty. fold x0 x1 in Tx. fold y0 y1 in Ty.
    rewrite <- !andb_assoc, andb_assoc, andb_true_iff, <- Tx, <- Ty by mlia. split.
    - intros [Ix Iy]. exists (py / dg_tile_height g). split; [by apply elem_of_zrange |].
      exists (px / dg_tile_width g). split; [by apply elem_of_zrange | done].
    - intros (ty & Hty%elem_of_zrange & tx & Htx%elem_of_zrange & E); [| lia | lia].
      destruct (cell_inj g.(dg_tiles_x) (py / dg_tile_height g) ty (px / dg_tile_width g) tx) as [<- <-]; [lia | lia | exact E | done]. }
  rewrite <- Ht in E'. apply eq_true_iff_eq. by rewrite orb_true_iff.
Qed.

Lemma grid_reset_ok g0 w h tw th g : u16_ok tw -> u16_ok th -> 0 <= w -> 0 <= h ->
  grid_reset g0 w h tw th = (g, true) ->
  dirty_grid_ok g /\ dims g = (w, h, tw, th, cdiv w tw, cdiv h th) /\
  (forall i, aget false g.(dg_dirty_tiles) i = false).
Proof.
  intros Htw Hth Hw Hh. unfold grid_reset. case_if; [done |]. bool_cases.
  rewrite !(u32_small (_ - 1)) by mlia. fold (cdiv w tw) (cdiv h th).
  pose proof (tiles_bound w tw ltac:(mlia) ltac:(mlia)). pose proof (tiles_bound h th ltac:(mlia) ltac:(mlia)).
  rewrite u64_small by (split; [nia |]; assert (cdiv w tw * cdiv h th <= 65535 * 65535) by (apply Z.mul_le_mono_nonneg; mlia); mlia).
  case_if; [done |]. intros [= <-]. split_and!; [| done | by apply aget_replicate].
  split; cbn [dg_frame_width dg_frame_height dg_tile_width dg_tile_height dg_tiles_x dg_tiles_y dg_dirty_tile_count dg_dirty_tiles];
    try done; try mlia.
  - unfold zlen. rewrite length_replicate. lia.
  - symmetry. apply n_queued_zero. intros i _. apply aget_replicate.
Qed.

Definition mark_rects (rs : list ClientDirtyRect) (g : ClientDirtyTileGrid) : ClientDirtyTileGrid :=
  fold_left (fun g r => (mark_rect g r).1) rs g.

Lemma mark_rects_ok rs : forall g, Forall rect_u16 rs -> dirty_grid_ok g ->
  let g' := mark_rects rs g in
  dirty_grid_ok g' /\ dims g' = dims g /\
  forall px py, 0 <= px < g.(dg_frame_width) -> 0 <= py < g.(dg_frame_height) ->
    pixel_dirty g' g'.(dg_dirty_tiles) px py =
    pixel_dirty g g.(dg_dirty_tiles) px py ||
      existsb (touches g.(dg_frame_width) g.(dg_frame_height) g.(dg_tile_width) g.(dg_tile_height) px py) rs.
Proof.
  induction rs as [|r rs IH]; intros g Hrs G; cbn [mark_rects fold_left existsb].
  { split_and!; [done | done |]. intros. by rewrite orb_false_r. }
  apply list.Forall_cons in Hrs as [Hr Hrs]. destruct (mark_rect_ok g r G Hr) as (G1 & D1 & E1).
  destruct (IH (mark_rect g r).1 Hrs G1) as (G2 & D2 & E2). unfold mark_rects in *.
  split_and!; [done | by rewrite D2, D1 |].
  intros px py Hx Hy. injection D1 as A1 A2 A3 A4 A5 A6. rewrite A1, A2, A3, A4 in E2.
  by rewrite E2, E1, orb_assoc by done.
Qed.

(** C20: the client uploads the changed part of the frame, all of
    it, each pixel once. For every frame and tile size and every sequence of
    rectangles marked in a fresh grid, the rectangles taken from it lie in the
    frame, none is empty, and a pixel lies in exactly one of them when its tile
    touches the visible part of a marked rectangle, and in none otherwise; the
    grid is clean afterwards. *)
Theorem dirty_area_exact g0 w h tw th g rs : u16_ok tw -> u16_ok th -> 0 <= w -> 0 <= h ->
  Forall rect_u16 rs -> grid_reset g0 w h tw th = (g, true) ->
  let '(rects, g') := take_rects (mark_rects rs g) in
  (forall px py, 0 <= px -> 0 <= py -> covers rects px py =
     Z.b2z ((px <? w) && (py <? h) && existsb (touches w h tw th px py) rs)) /\
  Forall (fun r => 0 <= r.(cr_x) /\ 0 < r.(cr_w) /\ r.(cr_x) + r.(cr_w) <= w /\
                   0 <= r.(cr_y) /\ 0 < r.(cr_h) /\ r.(cr_y) + r.(cr_h) <= h) rects /\
  take_rects g' = ([], g') /\ dirty_tile_count g' = 0.
Proof.
  intros Htw Hth Hw Hh Hrs E. destruct (grid_reset_ok g0 w h tw th g Htw Hth Hw Hh E) as (G & D & Hclean).
  destruct (mark_rects_ok rs g Hrs G) as (G1 & D1 & E1). injection D as A1 A2 A3 A4 A5 A6.
  injection D1 as B1 B2 B3 B4 B5 B6. rewrite A1, A2, A3, A4 in E1.
  pose proof (take_rects_ok (mark_rects rs g) G1) as T. destruct (take_rects (mark_rects rs g)) as [rects g'].
  destruct T as (T1 & T2 & T3 & T4 & T5). split_and!.
  - intros px py Hx Hy. rewrite T1 by done. f_equal.
    destruct (Z.ltb_spec px w) as [Hpx|Hpx], (Z.ltb_spec py h) as [Hpy|Hpy]; cbn [andb];
      try (unfold pixel_dirty; rewrite B1, B2, A1, A2;
           destruct (Z.ltb_spec px w), (Z.ltb_spec py h); try done; lia).
    rewrite E1 by lia. unfold pixel_dirty. by rewrite Hclean, andb_false_r.
  - apply (list.Forall_impl _ _ _ T2). intros r. unfold rect_ok. by rewrite B1, B2, A1, A2.
  - unfold take_rects. by rewrite T3.
  - by rewrite T3.
Qed.

Lemma dirty_area_exact_witness :
  let rs := [mk_ClientDirtyRect 3 0 14 20; mk_ClientDirtyRect 40 25 8 7] in
  covers (take_rects (mark_rects rs (grid_reset (mk_ClientDirtyTileGrid 0 0 0 0 0 0 0 []) 50 30 16 16).1)).1 40 20 = 1.
Proof.
  cbv zeta. set (rs := [_; _]). set (g := (grid_reset _ _ _ _ _).1).
  pose proof (dirty_area_exact (mk_ClientDirtyTileGrid 0 0 0 0 0 0 0 []) 50 30 16 16 g rs ltac:(mlia) ltac:(mlia)
    ltac:(lia) ltac:(lia)) as T.
  destruct (take_rects (mark_rects rs g)) as [rects g']. cbn [fst].
  destruct T as (H & _); [repeat constructor; cbn; mlia | reflexivity |].
  exact (H 40 20 ltac:(lia) ltac:(lia)).
Defined.

(** ** Joining rectangles and choosing the upload *)

Definition covered (rects : list ClientDirtyRect) (px py : Z) : Prop := exists r, r ∈ rects /\ contains px py r = true.

Lemma covered_cons r rects px py : covered (r :: rects) px py <-> contains px py r = true \/ covered rects px py.
Proof. unfold covered. setoid_rewrite list.elem_of_cons. naive_solver. Qed.

Lemma covered_perm rects rects' px py : rects ≡ₚ rects' -> covered rects px py <-> covered rects' px py.
Proof. intros E. unfold covered. by setoid_rewrite E. Qed.

Lemma contains_spec px py r : contains px py r = true <->
  r.(cr_x) <= px < r.(cr_x) + r.(cr_w) /\ r.(cr_y) <= py < r.(cr_y) + r.(cr_h).
Proof. unfold contains. rewrite !andb_true_iff, !Z.leb_le, !Z.ltb_lt. lia. Qed.

Definition in_frame (w h : Z) (r : ClientDirtyRect) : Prop :=
  0 <= r.(cr_x) /\ 0 < r.(cr_w) /\ r.(cr_x) + r.(cr_w) <= w /\ 0 <= r.(cr_y) /\ 0 < r.(cr_h) /\ r.(cr_y) + r.(cr_h) <= h.

Section joins.
Context (w h : Z) (Hw : w <= UINT16_MAX) (Hh : h <= UINT16_MAX).

(** A join of two passes: [less] sorts, [join] merges into the head. *)
Record join_ok (less : ClientDirtyRect -> ClientDirtyRect -> bool)
    (join : list ClientDirtyRect -> ClientDirtyRect -> list ClientDirtyRect) : Prop := {
  jn_nil : forall r, join [] r = [r];
  jn_cons : forall prev rest r, in_frame w h prev -> in_frame w h r -> less r prev = false ->
    join (prev :: rest) r = r :: prev :: rest \/
    exists merged, join (prev :: rest) r = merged :: rest /\ in_frame w h merged /\
      (forall px py, contains px py merged = true <-> contains px py prev = true \/ contains px py r = true) /\
      (forall r', less r' merged = less r' prev);
}.

Lemma fold_join_ok less join : join_ok less join -> forall rects acc,
  Forall (in_frame w h) rects -> Forall (in_frame w h) acc ->
  StronglySorted (fun a b => less b a = false) rects ->
  (forall prev rest, acc = prev :: rest -> Forall (fun r => less r prev = false) rects) ->
  let out := fold_left join rects acc in
  Forall (in_frame w h) out /\ forall px py, covered out px py <-> covered acc px py \/ covered rects px py.
Proof.
  intros J. induction rects as [|r rects IH]; intros acc Hr Ha Hs Hhead; cbn [fold_left].
  { split; [done |]. intros px py. split; [by left |]. by intros [?|(? & ?%elem_of_nil & _)]. }
  apply list.Forall_cons in Hr as [Hr Hrs]. apply StronglySorted_inv in Hs as [Hs Hall].
  assert (Forall (in_frame w h) (join acc r) /\
    (forall px py, covered (join acc r) px py <-> contains px py r = true \/ covered acc px py) /\
    forall prev rest, join acc r = prev :: rest -> Forall (fun r => less r prev = false) rects) as (A & C & Hd).
  { destruct acc as [|prev rest].
    - rewrite (jn_nil _ _ J). split_and!; [by constructor | intros; by rewrite covered_cons | by intros ? ? [= <- <-]].
    - pose proof Ha as [Hp Hrest]%list.Forall_cons. pose proof (Hhead prev rest eq_refl) as [Hlt Hlts]%list.Forall_cons.
      destruct (jn_cons _ _ J prev rest r Hp Hr Hlt) as [->|(m & -> & Hm & Hc & Hl)].
      + split_and!; [by constructor | intros; by rewrite covered_cons | by intros ? ? [= <- <-]].
      + split_and!; [by constructor | intros px py; rewrite !covered_cons, Hc; tauto |].
        intros ? ? [= <- <-]. apply (list.Forall_impl _ _ _ Hlts). intros r' Hr'. by rewrite Hl. }
  destruct (IH (join acc r) Hrs A Hs Hd) as [I1 I2]. split; [done |]. intros px py. rewrite I2, C, covered_cons. tauto.
Qed.

Lemma join_row_ok : join_ok row_less join_row.
Proof.
  split; [done |]. intros prev rest r (P1 & P2 & P3 & P4 & P5 & P6) (R1 & R2 & R3 & R4 & R5 & R6) Hlt.
  cbn [join_row]. rewrite !(u32_small (_ + _)) by mlia. case_if; [| by left]. right. bool_cases.
  unfold row_less in Hlt. rewrite !(proj2 (Z.eqb_eq _ _)) in Hlt by done. cbn [negb] in Hlt. bool_cases.
  rewrite (u32_small (_ - _)), u16_small by mlia. eexists. split; [done |]. cbn [cr_x cr_y cr_w cr_h set_field].
  split; [unfold in_frame; cbn [cr_x cr_y cr_w cr_h set_field]; mlia |]. split; [| done].
  intros px py. rewrite !contains_spec. cbn [cr_x cr_y cr_w cr_h set_field]. mlia.
Qed.

Lemma join_column_ok : join_ok column_less join_column.
Proof.
  split; [done |]. intros prev rest r (P1 & P2 & P3 & P4 & P5 & P6) (R1 & R2 & R3 & R4 & R5 & R6) Hlt.
  cbn [join_column]. rewrite !(u32_small (_ + _)) by mlia. case_if; [| by left]. right. bool_cases.
  unfold column_less in Hlt. rewrite !(proj2 (Z.eqb_eq _ _)) in Hlt by done. cbn [negb] in Hlt. bool_cases.
  rewrite (u32_small (_ - _)), u16_small by mlia. eexists. split; [done |]. cbn [cr_x cr_y cr_w cr_h set_field].
  split; [unfold in_frame; cbn [cr_x cr_y cr_w cr_h set_field]; mlia |]. split; [| done].
  intros px py. rewrite !contains_spec. cbn [cr_x cr_y cr_w cr_h set_field]. mlia.
Qed.

Context (sort : (ClientDirtyRect -> ClientDirtyRect -> bool) -> list ClientDirtyRect -> list ClientDirtyRect).
(** What [std::sort] promises for the two orders. *)
Context (sort_spec : forall less, less = row_less \/ less = column_less -> forall l,
  sort less l ≡ₚ l /\ StronglySorted (fun a b => less b a = false) (sort less l)).

Lemma sorted_join_ok less join l : less = row_less \/ less = column_less -> join_ok less join ->
  Forall (in_frame w h) l ->
  let out := rev (fold_left join (sort less l) []) in
  Forall (in_frame w h) out /\ forall px py, covered out px py <-> covered l px py.
Proof.
  intros Hless J Hl. destruct (sort_spec less Hless l) as [Ep Hs].
  destruct (fold_join_ok less join J (sort less l) []) as [A C]; [by rewrite Ep | constructor | done | done |].
  split; [by apply Forall_rev |]. intros px py.
  rewrite (covered_perm _ (fold_left join (sort less l) [])) by (symmetry; apply Permutation_rev).
  rewrite C, (covered_perm _ _ _ _ Ep). split; [| by right]. intros [(? & ?%elem_of_nil & _)|?]; done.
Qed.

Lemma clamp_in_frame r v : rect_u16 r -> 0 < w -> 0 < h -> clamp_dirty_rect r w h = Some v ->
  in_frame w h v /\ forall px py, px < w -> py < h -> contains px py v = contains px py r.
Proof.
  intros R Hw0 Hh0. rewrite clamp_spec by (done || mlia). case_if; [done |]. bool_cases. destruct R as (? & ? & ? & ?).
  intros [= <-]. split; [unfold in_frame; cbn; mlia |]. intros px py Hx Hy. apply eq_true_iff_eq.
  rewrite !contains_spec. cbn. mlia.
Qed.

Lemma coalesce_covers rects : Forall rect_u16 rects -> 0 < w -> 0 < h ->
  let out := coalesce_dirty_texture_rects sort rects w h in
  Forall (in_frame w h) out /\
  forall px py, px < w -> py < h -> covered out px py <-> covered rects px py.
Proof.
  intros Hr Hw0 Hh0. unfold coalesce_dirty_texture_rects. destruct rects as [|r0 rects0]; [by split; [constructor |] |].
  set (rects := r0 :: rects0) in *. clearbody rects. set (clamped := omap _ rects).
  assert (Forall (in_frame w h) clamped /\
    forall px py, px < w -> py < h -> covered clamped px py <-> covered rects px py) as [Hc Ec].
  { subst clamped. clear sort_spec. induction Hr as [|r rects Hr _ [IH1 IH2]]; [by split |]. cbn [omap list_omap].
    destruct (clamp_dirty_rect r w h) as [v|] eqn:Ev.
    - destruct (clamp_in_frame r v Hr Hw0 Hh0 Ev) as [Hv Ec]. split; [by constructor |]. intros px py Hx Hy.
      rewrite !covered_cons, Ec, IH2 by done. done.
    - split; [done |]. intros px py Hx Hy. rewrite covered_cons, IH2 by done. split; [by right |]. intros [H|?]; [| done].
      exfalso. rewrite clamp_spec in Ev by (done || mlia). case_if_in Ev; [| done]. apply contains_spec in H.
      destruct Hr as (? & ? & ? & ?). destruct (Z.eqb_spec r.(cr_w) 0), (Z.eqb_spec r.(cr_h) 0); mlia. }
  clearbody clamped. destruct (null clamped) eqn:En.
  { split; [constructor |]. intros px py Hx Hy. rewrite <- Ec by done. by destruct clamped. }
  destruct (sorted_join_ok row_less join_row clamped ltac:(by left) join_row_ok Hc) as [A1 C1]. case_if.
  - destruct (sorted_join_ok column_less join_column _ ltac:(by right) join_column_ok A1) as [A2 C2].
    split; [done |]. intros px py Hx Hy. by rewrite C2, C1, Ec.
  - split; [done |]. intros px py Hx Hy. by rewrite C1, Ec.
Qed.

Lemma bounding_covers rects px py : Forall (in_frame w h) rects -> covered rects px py ->
  contains px py (bounding_dirty_rect rects) = true.
Proof.
  intros Hr (r & Hin & Hc). unfold bounding_dirty_rect.
  match goal with |- context [fold_left ?f rects ?a] => set (step := f) end.
  assert (forall l x0 y0 x1 y1, Forall (in_frame w h) l -> 0 <= x0 -> 0 <= y0 -> 0 <= x1 <= w -> 0 <= y1 <= h ->
    let '(a, b, c, d) := fold_left step l (x0, y0, x1, y1) in
    0 <= a <= x0 /\ 0 <= b <= y0 /\ x1 <= c <= w /\ y1 <= d <= h /\
    Forall (fun r => a <= r.(cr_x) /\ b <= r.(cr_y) /\ r.(cr_x) + r.(cr_w) <= c /\ r.(cr_y) + r.(cr_h) <= d) l) as Hf.
  { induction l as [|q l IH]; intros x0 y0 x1 y1 Hl Hx0 Hy0 Hx1 Hy1; cbn [fold_left].
    { split_and!; try lia. constructor. }
    apply list.Forall_cons in Hl as [(Q1 & Q2 & Q3 & Q4 & Q5 & Q6) Hl]. unfold step at 2. rewrite !u32_small by mlia.
    specialize (IH (Z.min x0 (cr_x q)) (Z.min y0 (cr_y q)) (Z.max x1 (cr_x q + cr_w q)) (Z.max y1 (cr_y q + cr_h q)) Hl
      ltac:(lia) ltac:(lia) ltac:(lia) ltac:(lia)).
    destruct (fold_left step l _) as [[[a b] c] d]. destruct IH as (I1 & I2 & I3 & I4 & I5). split_and!; try lia.
    constructor; [lia | done]. }
  assert (in_frame w h r) as (Q1 & Q2 & Q3 & Q4 & Q5 & Q6) by (by rewrite list.Forall_forall in Hr; apply Hr).
  specialize (Hf rects UINT32_MAX UINT32_MAX 0 0 Hr ltac:(mlia) ltac:(mlia) ltac:(lia) ltac:(lia)).
  destruct (fold_left step rects _) as [[[a b] c] d]. destruct Hf as (F1 & F2 & F3 & F4 & F5).
  rewrite list.Forall_forall in F5. destruct (F5 r Hin) as (G1 & G2 & G3 & G4). apply contains_spec in Hc.
  rewrite !(proj2 (Z.eqb_neq _ _)), !(proj2 (Z.leb_gt _ _)) by mlia. cbn [orb].
  rewrite !u16_small by mlia. apply contains_spec. cbn. mlia.
Qed.

(** The part of the frame an upload plan writes. *)
Definition uploaded (plan : DirtyTextureUploadPlan) (rects : list ClientDirtyRect) (px py : Z) : Prop :=
  match plan.(pl_mode) with
  | Upload_Full => True
  | Upload_Bounds => contains px py plan.(pl_bounds) = true
  | Upload_Rects => covered rects px py
  end.

(** C21: whatever the costs measured so far, the upload the
    renderer plans for a list of dirty rectangles (clamped, sorted and joined
    first) writes every pixel of the frame that lies in one of them. *)
Theorem upload_covers_damage rects costs px py : Forall rect_u16 rects -> 0 < w -> 0 < h -> px < w -> py < h ->
  covered rects px py ->
  let joined := coalesce_dirty_texture_rects sort rects w h in
  uploaded (plan_dirty_texture_upload joined w h costs) joined px py.
Proof.
  intros Hr Hw0 Hh0 Hx Hy Hc. cbv zeta. destruct (coalesce_covers rects Hr Hw0 Hh0) as [A C].
  apply (C px py Hx Hy) in Hc. set (joined := coalesce_dirty_texture_rects sort rects w h) in *. clearbody joined.
  pose proof (bounding_covers joined px py A Hc) as Hb.
  unfold uploaded, plan_dirty_texture_upload. case_if; [done |]. case_if; [done |].
  destruct (negb _ && _ && _); case_if; done.
Qed.

End joins.

Definition rect_le (less : ClientDirtyRect -> ClientDirtyRect -> bool) (a b : ClientDirtyRect) : Prop :=
  less b a = false.
#[export] Instance rect_le_dec less : RelDecision (rect_le less).
Proof. intros a b. unfold rect_le. apply bool_eq_dec. Defined.

(** One outcome of [std::sort]. *)
Definition rect_sort (less : ClientDirtyRect -> ClientDirtyRect -> bool) (l : list ClientDirtyRect) : list ClientDirtyRect :=
  merge_sort (rect_le less) l.

Lemma rect_sort_spec less : less = row_less \/ less = column_less -> forall l,
  rect_sort less l ≡ₚ l /\ StronglySorted (fun a b => less b a = false) (rect_sort less l).
Proof.
  intros Hless l. unfold rect_sort. fold (rect_le less). split; [apply merge_sort_Permutation |].
  assert (Transitive (rect_le less) /\ Total (rect_le less)) as [T1 T2].
  { destruct Hless as [-> | ->]; (split; [intros a b c | intros a b]); unfold rect_le, row_less, column_less;
      repeat match goal with |- context [?x =? ?y] => destruct (Z.eqb_spec x y) end; cbn [negb];
      rewrite ?Z.ltb_ge; lia. }
  by apply StronglySorted_merge_sort.
Qed.

Lemma upload_covers_damage_witness :
  let rects := [mk_ClientDirtyRect 10 4 8 4; mk_ClientDirtyRect 2 4 8 4; mk_ClientDirtyRect 2 8 16 60] in
  let joined := coalesce_dirty_texture_rects rect_sort rects 400 300 in
  joined = [mk_ClientDirtyRect 2 4 16 64] /\
  uploaded (plan_dirty_texture_upload joined 400 300 default_cost_model) joined 11 50.
Proof.
  cbv zeta. split; [vm_compute; reflexivity |].
  apply (upload_covers_damage 400 300 ltac:(mlia) ltac:(mlia) rect_sort rect_sort_spec); [| lia .. |].
  - repeat constructor; cbn; mlia.
  - eexists. split; [right; right; left |]. reflexivity.
Defined.

(** ** The index of announced tiles is a set *)

(** [positions] inverts [active_tiles]. *)
Record index_ok (active_tiles positions : list Z) : Prop := {
  ix_length : zlen positions <= 65536;
  ix_range : Forall (fun t => 0 <= t < zlen positions) active_tiles;
  ix_distinct : NoDup active_tiles;
  ix_position : forall t, 0 <= t < zlen positions ->
    (aget 0 positions t = UINT32_MAX /\ t ∉ active_tiles) \/
    (0 <= aget 0 positions t < zlen active_tiles /\ active_tiles !! Z.to_nat (aget 0 positions t) = Some t);
}.

Lemma NoDup_range l n : 0 <= n -> Forall (fun t => 0 <= t < n) l -> NoDup l -> zlen l <= n.
Proof.
  intros Hn Hl Hd. rewrite <- (zlen_zseq n Hn). unfold zlen. apply inj_le, submseteq_length, NoDup_submseteq; [done |].
  intros x Hx. rewrite list.Forall_forall in Hl. by apply list_elem_of_In, elem_of_zseq, Hl.
Qed.

Lemma index_add_ok active positions t : index_ok active positions -> 0 <= t < zlen positions ->
  let '(active', positions', ok) := summary_pending_index_add active positions t in
  index_ok active' positions' /\ ok = true /\ zlen positions' = zlen positions /\
  forall u, u ∈ active' <-> u = t \/ u ∈ active.
Proof.
  intros I Ht. pose proof I as [X1 X2 X3 X4]. unfold summary_pending_index_add.
  pose proof (NoDup_range active (zlen positions) ltac:(lia) X2 X3) as Hlen.
  rewrite Z.geb_leb, (proj2 (Z.leb_gt _ _)) by lia. destruct (X4 t Ht) as [[Ep Hn]|[Hp Hl]].
  2:{ rewrite (proj2 (Z.eqb_neq _ _)) by mlia. cbn [negb]. split_and!; [done | done | done |].
      intros u. split; [by right |]. intros [->|?]; [| done]. by apply list_elem_of_lookup_2 in Hl. }
  rewrite Ep, Z.eqb_refl. cbn [negb]. rewrite Z.geb_leb, (proj2 (Z.leb_gt _ _)) by mlia.
  pose proof (zlen_nonneg active) as Hz. rewrite u32_small by mlia. split_and!; [| done | by rewrite zlen_aset |].
  2:{ intros u. rewrite elem_of_app, list_elem_of_singleton. tauto. }
  split; rewrite ?zlen_aset; try done.
  - apply list.Forall_app. split; [done | by constructor].
  - apply list.NoDup_app. split_and!; [done | | apply NoDup_singleton]. by intros u Hu ->%list_elem_of_singleton.
  - intros u Hu. rewrite zlen_app. change (zlen [t]) with 1. destruct (Z.eq_dec t u) as [<-|Hne].
    + right. rewrite aget_aset_eq by lia. split; [lia |]. unfold zlen. rewrite Nat2Z.id.
      by rewrite lookup_app_r, Nat.sub_diag by lia.
    + rewrite aget_aset_ne by lia. destruct (X4 u Hu) as [[? ?]|[? ?]]; [left | right].
      * split; [done |]. rewrite elem_of_app, list_elem_of_singleton. intros [?|?]; congruence.
      * split; [lia |]. by apply lookup_app_l_Some.
Qed.

Lemma index_remove_ok active positions t : index_ok active positions -> 0 <= t < zlen positions ->
  let '(active', positions', ok) := summary_pending_index_remove active positions t in
  index_ok active' positions' /\ ok = true /\ zlen positions' = zlen positions /\
  forall u, u ∈ active' <-> u <> t /\ u ∈ active.
Proof.
  intros I Ht. pose proof I as [X1 X2 X3 X4]. unfold summary_pending_index_remove.
  pose proof (NoDup_range active (zlen positions) ltac:(lia) X2 X3) as Hlen.
  rewrite Z.geb_leb, (proj2 (Z.leb_gt _ _)) by lia. destruct (X4 t Ht) as [[Ep Hn]|[Hp Hl]].
  { rewrite Ep, Z.eqb_refl. split_and!; [done | done | done |]. intros u. split; [| by intros [_ ?]].
    intros Hu. split; [by intros -> | done]. }
  rewrite (proj2 (Z.eqb_neq _ _)) by mlia. rewrite Z.geb_leb, (proj2 (Z.leb_gt _ _)) by lia.
  set (p := aget 0 positions t) in *. clearbody p.
  destruct (exists_last (l := active)) as (init & m & ->); [by intros ->; unfold zlen in Hp; cbn in Hp; lia |].
  rewrite zlen_app in *. change (zlen [m]) with 1 in *.
  assert (aget 0 (init ++ [m]) (zlen init + 1 - 1) = m) as -> by (rewrite aget_app_r by lia; by rewrite Z.add_simpl_r, Z.sub_diag).
  apply list.NoDup_app in X3 as (N1 & N2 & _). apply list.Forall_app in X2 as [R1 [R2 _]%list.Forall_cons].
  assert (m ∉ init) as Hm by (intros Hm; apply (N2 m Hm); by left).
  assert (removelast (aset (init ++ [m]) p m) = aset init p m) as Er.
  { unfold aset. destruct (Z.lt_ge_cases p (zlen init)) as [Hlt|Hge].
    - rewrite insert_app_l by (unfold zlen in *; lia). apply removelast_last.
    - assert (Z.to_nat p = length init) as -> by (unfold zlen in *; lia).
      rewrite list_insert_id by (by rewrite lookup_app_r, Nat.sub_diag by lia).
      rewrite removelast_last, list_insert_ge by lia. done. }
  rewrite Er. assert (forall i u, aset init p m !! i = Some u <-> (i = Z.to_nat p /\ u = m /\ p < zlen init) \/ (i <> Z.to_nat p /\ init !! i = Some u)) as Hlk.
  { intros i u. unfold aset, zlen. rewrite list_lookup_insert_Some. split; naive_solver lia. }
  assert (forall i u, init !! i = Some u -> (i < length init)%nat) as Hlt by (intros i u; apply lookup_lt_Some).
  assert (forall i u, (init ++ [m]) !! i = Some u -> init !! i = Some u \/ (i = length init /\ u = m)) as Happ.
  { intros i u. rewrite lookup_app_Some. intros [?|[? Hs%list_lookup_singleton_Some]]; [by left | right]. lia. }
  assert (forall u, u ∈ aset init p m <-> u <> t /\ u ∈ init ++ [m]) as Hmem.
  { intros u. rewrite elem_of_app, list_elem_of_singleton. split.
    - intros (i & Hi)%list_elem_of_lookup_1. apply Hlk in Hi as [(-> & -> & Hp')|[Hne Hi]].
      + split; [| by right]. intros ->. apply Happ in Hl as [Hl|[? _]]; [| unfold zlen in *; lia].
        apply Hm. by apply list_elem_of_lookup_2 in Hl.
      + split; [| left; by apply list_elem_of_lookup_2 in Hi]. intros ->. apply Happ in Hl as [Hl|[_ ->]].
        * apply Hne. eapply (proj1 (NoDup_alt init)); done.
        * apply Hm. by apply list_elem_of_lookup_2 in Hi.
    - intros [Hne [Hin|Hin]].
      + apply list_elem_of_lookup_1 in Hin as (i & Hi). apply (list_elem_of_lookup_2 _ i). apply Hlk. right. split; [| done].
        intros ->. apply Hne. apply Happ in Hl as [Hl|[E _]]; [congruence |]. apply Hlt in Hi. lia.
      + subst u. apply (list_elem_of_lookup_2 _ (Z.to_nat p)). apply Hlk. left. split_and!; [done | done |].
        apply Happ in Hl as [Hl%Hlt|[_ ?]]; [unfold zlen; lia | done]. }
  split_and!; [| done | by rewrite !zlen_aset | done].
  split; rewrite ?zlen_aset; try done.
  - apply list.Forall_forall. intros u [_ Hu]%Hmem. apply elem_of_app in Hu as [Hu | ->%list_elem_of_singleton]; [| exact R2].
    rewrite list.Forall_forall in R1. by apply R1.
  - apply NoDup_alt. intros i j u Hi Hj. apply Hlk in Hi as [(-> & -> & _)|[? Hi]], Hj as [(-> & Eu & _)|[? Hj]]; [done | | |].
    + exfalso. apply Hm. by apply list_elem_of_lookup_2 in Hj.
    + subst u. exfalso. apply Hm. by apply list_elem_of_lookup_2 in Hi.
    + eapply (proj1 (NoDup_alt init)); done.
  - intros u Hu. destruct (Z.eq_dec t u) as [<-|Hne].
    { left. rewrite aget_aset_eq by (by rewrite zlen_aset). split; [done |]. by intros [? _]%Hmem. }
    rewrite aget_aset_ne by lia. destruct (Z.eq_dec m u) as [<-|Hnm].
    { rewrite aget_aset_eq by done. right. assert (p < zlen init) as Hpi.
      { apply Happ in Hl as [Hl%Hlt|[_ ?]]; [unfold zlen; lia | congruence]. }
      split; [lia |]. apply Hlk. by left. }
    rewrite aget_aset_ne by lia. destruct (X4 u Hu) as [[E Hn]|[Hq Hq']]; [left | right].
    + split; [done |]. by intros [_ ?]%Hmem.
    + apply Happ in Hq' as [Hq'|[_ ?]]; [| congruence]. split; [apply Hlt in Hq'; unfold zlen; lia |]. apply Hlk. right.
      split; [| done]. intros Eq. rewrite Eq in Hq'. apply Hne. apply Happ in Hl as [Hl|[El _]]; [congruence |].
      apply Hlt in Hq'. lia.
Qed.

(** ** What is presented *)

(** The newest generation of a tile among the updates. *)
Definition newest (updates : list ClientTileGenerationUpdate) (t : Z) : Z :=
  fold_right (fun u n => if u.(gu_tile_id) =? t then Z.max u.(gu_generation) n else n) 0 updates.

Definition update_ok (n : Z) (u : ClientTileGenerationUpdate) : Prop :=
  0 <= u.(gu_tile_id) < n /\ 0 <= u.(gu_generation).

Lemma newest_app updates updates' t : newest (updates ++ updates') t = Z.max (newest updates t) (newest updates' t).
Proof.
  assert (forall us, 0 <= newest us t) as Hn.
  { intros us. induction us as [|u us IH]; cbn; [done |]. case_if; unfold newest in *; lia. }
  pose proof (Hn updates'). induction updates as [|u updates IH]; cbn; [unfold newest in *; lia |].
  unfold newest in *. case_if; lia.
Qed.

Lemma raise_generations_spec updates generations t :
  Forall (update_ok (zlen generations)) updates -> 0 <= t < zlen generations -> 0 <= aget 0 generations t ->
  zlen (raise_generations generations updates) = zlen generations /\
  aget 0 (raise_generations generations updates) t = Z.max (aget 0 generations t) (newest updates t).
Proof.
  unfold raise_generations. revert generations.
  induction updates as [|u updates IH]; intros generations Hok Ht Hpos; cbn [fold_left newest fold_right].
  - split; [done | lia].
  - apply list.Forall_cons in Hok as [[Hid Hgen] Hok]. fold (newest updates t).
    rewrite (proj2 (Z.ltb_lt _ _)) by lia. cbn [andb].
    destruct (Z.ltb_spec (aget 0 generations (gu_tile_id u)) (gu_generation u)) as [Hlt|Hge].
    + assert (aget 0 (aset generations (gu_tile_id u) (gu_generation u)) t =
              if gu_tile_id u =? t then gu_generation u else aget 0 generations t) as E.
      { destruct (Z.eqb_spec (gu_tile_id u) t) as [<-|]; [by rewrite aget_aset_eq | by rewrite aget_aset_ne by lia]. }
      rewrite <- (zlen_aset generations (gu_tile_id u) (gu_generation u)) in Hok, Ht |- *.
      destruct (IH _ Hok Ht) as [IHl IHt].
      { rewrite E. case_if; lia. }
      split; [by rewrite IHl, !zlen_aset | rewrite IHt, E]. case_if; bool_cases; subst; lia.
    + destruct (IH generations Hok Ht Hpos) as [IHl IHt]. split; [done |]. rewrite IHt.
      case_if; bool_cases; subst; lia.
Qed.

Definition generations_ok (n : Z) (generations : list Z) : Prop :=
  zlen generations = n /\ Forall (fun g => 0 <= g) generations.

Lemma generations_ok_aget n l t : generations_ok n l -> 0 <= t < n -> 0 <= aget 0 l t.
Proof.
  intros [Hl Hf] Ht. rewrite list.Forall_forall in Hf. apply Hf. apply list_elem_of_In, aget_In. lia.
Qed.

Lemma generations_ok_aset n l t g : generations_ok n l -> 0 <= g -> generations_ok n (aset l t g).
Proof. intros [Hl Hf] Hg. split; [by rewrite zlen_aset |]. by apply Forall_insert. Qed.

(** What the claimed updates and the remaining pending generations add up to. *)
Lemma claim_tile_spec presented tile_ids n pending updates pending' updates' :
  n <= 65536 -> generations_ok n pending -> generations_ok n presented -> Forall (fun t => 0 <= t) tile_ids ->
  Forall (update_ok n) updates ->
  fold_left (claim_tile presented) tile_ids (pending, updates) = (pending', updates') ->
  generations_ok n pending' /\ Forall (update_ok n) updates' /\
  (forall t, 0 <= t < n ->
     Z.max (aget 0 presented t) (Z.max (aget 0 pending' t) (newest updates' t)) =
     Z.max (aget 0 presented t) (Z.max (aget 0 pending t) (newest updates t))) /\
  (forall t, 0 <= t < n -> aget 0 pending' t = aget 0 pending t \/ aget 0 pending' t = 0) /\
  (forall t, 0 <= t < n -> In t tile_ids -> aget 0 pending' t = 0).
Proof.
  intros Hn Hp Hpr. revert pending updates Hp.
  induction tile_ids as [|i tile_ids IH]; intros pending updates Hp Hids Hu; cbn [fold_left].
  { intros [= <- <-]. split_and!; auto. intros ? ? []. }
  apply list.Forall_cons in Hids as [Hi Hids]. cbn [claim_tile]. pose proof (proj1 Hp) as Hlen.
  pose proof Hp as Hp'.
  destruct (Z.geb_spec i (zlen pending)) as [Hge|Hlt].
  { intros E. destruct (IH pending updates Hp' Hids Hu E) as (A & B & C & D & F). split_and!; auto.
    intros t Ht [<-|Hin]; [lia | by apply F]. }
  set (pending1 := if aget 0 pending i =? 0 then pending else aset pending i 0). intros E.
  assert (0 <= aget 0 pending i) as Hgen by (apply (generations_ok_aget n); [done | lia]).
  assert (generations_ok n pending1) as Hp1.
  { unfold pending1. case_if; [done |]. by apply generations_ok_aset. }
  assert (aget 0 pending1 i = 0 /\ forall t, 0 <= t -> t <> i -> aget 0 pending1 t = aget 0 pending t) as [H0 Hne].
  { unfold pending1. case_if; bool_cases; [done |]. split; [by rewrite aget_aset_eq by lia |].
    intros. by rewrite aget_aset_ne by lia. }
  assert (u16 i = i) as Eu by (apply u16_small; mlia).
  set (extra := if aget 0 pending i >? aget 0 presented i
          then [mk_ClientTileGenerationUpdate (u16 i) (aget 0 pending i)] else []) in E.
  assert (Forall (update_ok n) (updates ++ extra)) as Hu1.
  { apply Forall_app. split; [done |]. unfold extra. case_if; [| constructor]. constructor; [| constructor].
    unfold update_ok. cbn. rewrite Eu. lia. }
  destruct (IH pending1 _ Hp1 Hids Hu1 E) as (A & B & C & D & F).
  split_and!; [done | done | | |].
  - intros t Ht. rewrite (C t Ht), newest_app. destruct (Z.eq_dec t i) as [->|].
    + rewrite H0. unfold extra. case_if; bool_cases; cbn [newest fold_right gu_tile_id gu_generation];
        rewrite ?Eu, ?Z.eqb_refl; lia.
    + rewrite Hne by lia. assert (newest extra t = 0) as ->.
      { unfold extra. case_if; [| done]. cbn. rewrite Eu. by rewrite (proj2 (Z.eqb_neq i t)) by lia. }
      assert (0 <= aget 0 pending t) by (by apply (generations_ok_aget n)). lia.
  - intros t Ht. destruct (Z.eq_dec t i) as [->|]; [| rewrite <- Hne by lia; by apply D].
    destruct (D i Ht) as [Hd|Hd]; [rewrite H0 in Hd; auto | auto].
  - intros t Ht [<-|Hin]; [| by apply F]. destruct (D i Ht) as [Hd|Hd]; [by rewrite Hd | done].
Qed.

(** C22: no presented tile is reported twice or lost.  The renderer
    claims the pending generations of the tiles it uploads; when the frame is
    presented it commits them, otherwise it puts them back, while the receiver
    may have added newer ones.  Committed, every claimed tile is presented at the
    newest of its pending and presented generation and the others stay pending;
    put back, every tile is pending or presented at the newest generation it had. *)
Theorem generation_updates_conserved n pending presented tile_ids pending' updates arrived :
  n <= 65536 -> generations_ok n pending -> generations_ok n presented -> Forall (fun t => 0 <= t) tile_ids ->
  Forall (update_ok n) arrived ->
  claim_pending_tile_generations pending presented tile_ids = (pending', updates) ->
  let pending2 := requeue_tile_generation_updates pending' arrived in
  let presented' := commit_tile_generation_updates presented updates in
  let pending3 := requeue_tile_generation_updates pending2 updates in
  forall t, 0 <= t < n ->
    (In t tile_ids -> aget 0 pending' t = 0) /\
    Z.max (aget 0 presented' t) (aget 0 pending2 t) =
      Z.max (newest arrived t) (Z.max (aget 0 presented t) (aget 0 pending t)) /\
    Z.max (aget 0 presented t) (aget 0 pending3 t) =
      Z.max (newest arrived t) (Z.max (aget 0 presented t) (aget 0 pending t)).
Proof.
  intros Hn Hp Hpr Hids Harr Hclaim pending2 presented' pending3 t Ht.
  unfold claim_pending_tile_generations in Hclaim.
  rewrite (proj1 Hp), (proj1 Hpr), Z.eqb_refl in Hclaim. cbn [negb] in Hclaim.
  destruct (claim_tile_spec presented tile_ids n pending [] pending' updates Hn Hp Hpr Hids) as (A & B & C & D & F);
    [constructor | done |]. specialize (C t Ht). cbn [newest fold_right] in C.
  destruct Hp as [Hlen _], Hpr as [Hlenp Hpp]. pose proof (generations_ok_aget n presented t (conj Hlenp Hpp) Ht).
  pose proof (generations_ok_aget n pending' t A Ht). destruct A as [HA _].
  unfold pending3, presented', pending2, requeue_tile_generation_updates, commit_tile_generation_updates.
  destruct (raise_generations_spec arrived pending' t) as [L1 E1]; [by rewrite HA | lia | done |].
  destruct (raise_generations_spec updates presented t) as [_ E2]; [by rewrite Hlenp | lia | done |].
  destruct (raise_generations_spec updates (raise_generations pending' arrived) t) as [_ E3];
    [by rewrite L1, HA | lia | lia |].
  rewrite E3, E2, E1. split; [by apply F | lia].
Qed.

Lemma generation_updates_conserved_witness :
  let '(pending', updates) := claim_pending_tile_generations [5; 0; 7] [4; 2; 8] [0; 2; 9] in
  updates = [mk_ClientTileGenerationUpdate 0 5] /\
  Z.max (aget 0 (commit_tile_generation_updates [4; 2; 8] updates) 0)
    (aget 0 (requeue_tile_generation_updates pending' [mk_ClientTileGenerationUpdate 0 6]) 0) = 6.
Proof.
  pose proof (generation_updates_conserved 3 [5; 0; 7] [4; 2; 8] [0; 2; 9] _ _ [mk_ClientTileGenerationUpdate 0 6]
    ltac:(lia) ltac:(split; [done | repeat constructor; lia]) ltac:(split; [done | repeat constructor; lia])
    ltac:(repeat constructor; lia) ltac:(repeat constructor; cbn; lia) eq_refl 0 ltac:(lia)) as (_ & H & _).
  split; [vm_compute; reflexivity |]. etransitivity; [exact H | vm_compute; reflexivity].
Defined.
