(* ===== verification/ClientOwnership.v ===== *)
(** * Ownership of the client's display

    src/client/stream_ownership.c: one 64-bit word, the content epoch and its
    owner, shared by the client's network, decoder and presentation threads
    and changed by compare-and-exchange loops.  A thread's step is one atomic
    access to the word followed by the thread's own computation up to its next
    access; the exchange is the weak one, which may also fail spuriously.  An
    execution is any interleaving of such steps.  [replay] is the
    specification: each operation at once. *)
From S2P Require Import Prelude.

Inductive wd_client_content_owner :=
  | WD_CLIENT_CONTENT_OWNER_TILES
  | WD_CLIENT_CONTENT_OWNER_VIDEO.
#[export] Instance wd_client_content_owner_eq_dec : EqDecision wd_client_content_owner.
Proof. solve_decision. Defined.

Definition owner_value (owner : wd_client_content_owner) : Z :=
  match owner with WD_CLIENT_CONTENT_OWNER_TILES => 0 | WD_CLIENT_CONTENT_OWNER_VIDEO => 1 end.

Definition owner_of (bit : Z) : wd_client_content_owner :=
  if bit =? 0 then WD_CLIENT_CONTENT_OWNER_TILES else WD_CLIENT_CONTENT_OWNER_VIDEO.

Record wd_client_content_ownership_snapshot := mk_wd_client_content_ownership_snapshot {
  os_epoch : Z;
  os_owner : wd_client_content_owner;
}.

Definition WD_CLIENT_STREAM_OWNERSHIP_INITIAL_STATE : Z := 2.

Definition wd_client_stream_ownership_pack (epoch : Z) (owner : wd_client_content_owner) : Z :=
  Z.lor (u64 (Z.shiftl epoch 1)) (owner_value owner).

Definition wd_client_stream_ownership_init (ownership : ptr Z) : ptr Z :=
  match ownership with
  | NULL => NULL
  | Some _ => Some WD_CLIENT_STREAM_OWNERSHIP_INITIAL_STATE
  end.

Definition wd_client_stream_ownership_snapshot (ownership : ptr Z)
    : wd_client_content_ownership_snapshot :=
  match ownership with
  | NULL => mk_wd_client_content_ownership_snapshot 0 WD_CLIENT_CONTENT_OWNER_TILES
  | Some packed =>
      mk_wd_client_content_ownership_snapshot (Z.shiftr packed 1) (owner_of (Z.land packed 1))
  end.

Definition wd_client_stream_ownership_is_current (ownership : ptr Z) (epoch : Z)
    (owner : wd_client_content_owner) : bool :=
  let current := wd_client_stream_ownership_snapshot ownership in
  (current.(os_epoch) =? epoch) && bool_decide (current.(os_owner) = owner).

(** ** The two loops, an access at a time *)

Inductive ownership_op :=
  | TransitionTo (owner : wd_client_content_owner)
  | Advance (owner : wd_client_content_owner).

Definition wd_client_stream_ownership_begin_video_stream : ownership_op :=
  TransitionTo WD_CLIENT_CONTENT_OWNER_VIDEO.
Definition wd_client_stream_ownership_end_video_stream : ownership_op :=
  TransitionTo WD_CLIENT_CONTENT_OWNER_TILES.
Definition wd_client_stream_ownership_reset_to_video : ownership_op :=
  Advance WD_CLIENT_CONTENT_OWNER_VIDEO.
Definition wd_client_stream_ownership_reset_to_tiles : ownership_op :=
  Advance WD_CLIENT_CONTENT_OWNER_TILES.

Inductive ownership_thread :=
  | Start (op : ownership_op)
  | Looping (op : ownership_op) (current : Z)   (* before its compare-and-exchange *)
  | Returned (op : ownership_op) (epoch : Z).

Definition op_owner (op : ownership_op) : wd_client_content_owner :=
  match op with TransitionTo owner | Advance owner => owner end.

Definition next_epoch (current : Z) : Z := u64 (Z.shiftr current 1 + 1).

(** The top of the loop of [wd_client_stream_ownership_transition_to], which
    returns when the owner is right already, and of
    [wd_client_stream_ownership_advance]. *)
Definition loop_top (op : ownership_op) (current : Z) : ownership_thread :=
  match op with
  | TransitionTo owner =>
      if bool_decide (owner_of (Z.land current 1) = owner) then Returned op (Z.shiftr current 1)
      else Looping op current
  | Advance _ => Looping op current
  end.

(** One access of a thread: the loaded or exchanged word and the thread's new
    state. *)
Definition thread_step (spurious : bool) (packed : Z) (t : ownership_thread) : Z * ownership_thread :=
  match t with
  | Start op => (packed, loop_top op packed)
  | Looping op current =>
      if (packed =? current) && negb spurious then
        (wd_client_stream_ownership_pack (next_epoch current) (op_owner op),
         Returned op (next_epoch current))
      else (packed, loop_top op packed)
  | Returned op epoch => (packed, t)
  end.

Definition returned (t : ownership_thread) : bool :=
  match t with Returned _ _ => true | _ => false end.

(** The record of the returns: thread, operation, result. *)
Record ownership_system := mk_ownership_system {
  sys_packed : Z;
  sys_threads : list ownership_thread;
  sys_log : list (nat * ownership_op * Z);
}.

Definition system_step (s : ownership_system) (choice : nat * bool) : ownership_system :=
  match s.(sys_threads) !! choice.1 with
  | None => s
  | Some t =>
      let '(packed, t') := thread_step choice.2 s.(sys_packed) t in
      mk_ownership_system packed (<[choice.1 := t']> s.(sys_threads))
        (match t' with
         | Returned op epoch =>
             if returned t then s.(sys_log) else s.(sys_log) ++ [(choice.1, op, epoch)]
         | _ => s.(sys_log)
         end)
  end.

Definition system_run (packed : Z) (ops : list ownership_op) (schedule : list (nat * bool))
    : ownership_system :=
  fold_left system_step schedule (mk_ownership_system packed (Start <$> ops) []).

(** ** The specification: an operation at once *)

Definition atomically (op : ownership_op) (packed : Z) : Z * Z :=
  match op with
  | TransitionTo owner =>
      if bool_decide (owner_of (Z.land packed 1) = owner) then (Z.shiftr packed 1, packed)
      else (next_epoch packed, wd_client_stream_ownership_pack (next_epoch packed) owner)
  | Advance owner => (next_epoch packed, wd_client_stream_ownership_pack (next_epoch packed) owner)
  end.

Fixpoint replay (ops : list ownership_op) (packed : Z) : list Z * Z :=
  match ops with
  | [] => ([], packed)
  | op :: ops =>
      let '(epoch, packed) := atomically op packed in
      let '(epochs, packed) := replay ops packed in (epoch :: epochs, packed)
  end.

Lemma replay_app ops op packed :
  let '(epochs, packed1) := replay ops packed in
  replay (ops ++ [op]) packed =
    (epochs ++ [(atomically op packed1).1], (atomically op packed1).2).
Proof.
  revert packed. induction ops as [|o ops IH]; intros packed; cbn [replay app].
  - by destruct (atomically op packed).
  - destruct (atomically o packed) as [e p1]. specialize (IH p1).
    destruct (replay ops p1) as [es p2]. by rewrite IH.
Qed.

(** ** The invariant of an execution *)

(** A thread is looping only when it must change the word it read. *)
Definition thread_ok (t : ownership_thread) : Prop :=
  match t with
  | Looping (TransitionTo owner) current => owner_of (Z.land current 1) <> owner
  | _ => True
  end.

Lemma loop_top_ok op current : thread_ok (loop_top op current).
Proof. destruct op; cbn; [case_bool_decide; done | done]. Qed.

Definition thread_op (t : ownership_thread) : ownership_op :=
  match t with Start op | Looping op _ | Returned op _ => op end.

(** One access: either the operation takes effect, with the result the
    specification gives, or it neither changes the word nor returns. *)
Lemma thread_step_cases spurious packed t packed' t' :
  thread_ok t -> thread_step spurious packed t = (packed', t') ->
  thread_ok t' /\ thread_op t' = thread_op t /\
  ((returned t = true /\ packed' = packed /\ t' = t) \/
   (returned t = false /\ returned t' = false /\ packed' = packed) \/
   (returned t = false /\ exists epoch, t' = Returned (thread_op t) epoch /\
      atomically (thread_op t) packed = (epoch, packed'))).
Proof.
  intros Hok. assert (forall op, returned (loop_top op packed) = false \/
    exists epoch, loop_top op packed = Returned op epoch /\ atomically op packed = (epoch, packed)) as Htop.
  { intros [owner|owner]; cbn; [| by left]. case_bool_decide; [right; by eexists | by left]. }
  assert (forall op, thread_op (loop_top op packed) = op) as Hop
    by (intros [owner|owner]; cbn; [by case_bool_decide | done]).
  destruct t as [op|op current|op epoch]; cbn [thread_step returned thread_op].
  - intros [= <- <-]. split_and!; [apply loop_top_ok | apply Hop |]. right.
    destruct (Htop op) as [?|(e & -> & ?)]; [by left | right; split; [done | by eexists]].
  - destruct ((packed =? current) && negb spurious) eqn:E; intros [= <- <-].
    + bool_cases. subst current. split_and!; [done | done |]. right; right. split; [done |]. eexists. split; [done |].
      destruct op; cbn in *; [by rewrite bool_decide_false | done].
    + split_and!; [apply loop_top_ok | apply Hop |]. right.
      destruct (Htop op) as [?|(e & -> & ?)]; [by left | right; split; [done | by eexists]].
  - intros [= <- <-]. split_and!; [done | done |]. by left.
Qed.

Record system_ok (packed0 : Z) (ops : list ownership_op) (s : ownership_system) : Prop := {
  sy_replay : replay (snd ∘ fst <$> s.(sys_log)) packed0 = (snd <$> s.(sys_log), s.(sys_packed));
  sy_threads : Forall thread_ok s.(sys_threads);
  sy_ops : thread_op <$> s.(sys_threads) = ops;
  sy_log : forall i op epoch, In (i, op, epoch) s.(sys_log) <-> s.(sys_threads) !! i = Some (Returned op epoch);
  sy_once : NoDup (fst ∘ fst <$> s.(sys_log));
}.

Lemma system_step_ok packed0 ops s choice :
  system_ok packed0 ops s -> system_ok packed0 ops (system_step s choice).
Proof.
  intros Hs. unfold system_step. destruct choice as [i spurious]. cbn [fst snd].
  destruct (s.(sys_threads) !! i) as [t|] eqn:Et; [| done].
  destruct (thread_step spurious s.(sys_packed) t) as [p' t'] eqn:Est.
  destruct Hs as [Hr Ht Ho Hl Hn].
  pose proof (Forall_lookup_1 _ _ _ _ Ht Et) as Hok.
  destruct (thread_step_cases _ _ _ _ _ Hok Est) as (Hok' & Hop & Hcase).
  assert (Forall thread_ok (<[i := t']> s.(sys_threads))) as Ht' by (by apply Forall_insert).
  assert (thread_op <$> <[i := t']> s.(sys_threads) = ops) as Ho'.
  { rewrite list_fmap_insert, Hop, list_insert_id; [done |]. by rewrite list_lookup_fmap, Et. }
  pose proof (lookup_lt_Some _ _ _ Et) as Hi.
  destruct Hcase as [(Ert & -> & ->)|[(Ert & Ert' & ->)|(Ert & epoch & -> & Eat)]].
  - rewrite list_insert_id by done. destruct t as [| |op epoch]; done.
  - assert (forall op epoch, t' <> Returned op epoch) as Hne by (intros op epoch ->; done).
    assert (match t' with
      | Returned op epoch => if returned t then s.(sys_log) else s.(sys_log) ++ [(i, op, epoch)]
      | _ => s.(sys_log) end = s.(sys_log)) as -> by (destruct t'; done).
    constructor; cbn [sys_packed sys_threads sys_log]; [done | done | done | | done].
    intros j op epoch. rewrite Hl. destruct (decide (j = i)) as [->|].
    + rewrite list_lookup_insert_eq by done. rewrite Et.
      split; intros E; apply (inj Some) in E; [by rewrite E in Ert | by destruct (Hne op epoch)].
    + by rewrite list_lookup_insert_ne by done.
  - rewrite Ert. assert (forall op e, ~ In (i, op, e) s.(sys_log)) as Hni.
    { intros op e Hin. apply Hl in Hin. rewrite Et in Hin. apply (inj Some) in Hin as ->. done. }
    constructor; cbn [sys_packed sys_threads sys_log]; [| done | done | |].
    + rewrite !fmap_app. cbn. pose proof (replay_app (snd ∘ fst <$> s.(sys_log)) (thread_op t) packed0) as Ha.
      rewrite Hr in Ha. rewrite Eat in Ha. exact Ha.
    + intros j op e. rewrite in_app_iff, Hl. cbn. destruct (decide (j = i)) as [->|].
      * rewrite list_lookup_insert_eq by done. rewrite Et. split.
        -- intros [[= ->]|[[= <- <-]|[]]]; done.
        -- intros [= <- <-]. right; by left.
      * rewrite list_lookup_insert_ne by done. naive_solver.
    + rewrite fmap_app. apply list.NoDup_app. split_and!; [done | | apply NoDup_singleton].
      intros k Hk. cbn. rewrite list_elem_of_singleton. intros ->.
      apply list_elem_of_fmap in Hk as ([[k op] e] & -> & Hin). apply list_elem_of_In in Hin. by eapply Hni.
Qed.

Lemma system_run_ok packed ops schedule : system_ok packed ops (system_run packed ops schedule).
Proof.
  unfold system_run. assert (system_ok packed ops (mk_ownership_system packed (Start <$> ops) [])) as H.
  { constructor; cbn; [done | | | | constructor].
    - apply Forall_fmap, Forall_true. done.
    - rewrite <- list_fmap_compose. apply list_fmap_id.
    - intros i op epoch. rewrite list_lookup_fmap. split; [done |]. by destruct (ops !! i). }
  revert H. generalize (mk_ownership_system packed (Start <$> ops) []).
  induction schedule as [|c schedule IH]; intros s Hs; cbn [fold_left]; [done |].
  by apply IH, system_step_ok.
Qed.

(** ** Epochs *)

Definition epoch_of (packed : Z) : Z := Z.shiftr packed 1.

Lemma pack_value epoch owner :
  0 <= epoch < 2 ^ 63 ->
  wd_client_stream_ownership_pack epoch owner = 2 * epoch + owner_value owner.
Proof.
  intros He. unfold wd_client_stream_ownership_pack. rewrite Z.shiftl_mul_pow2, u64_small by (try done; mlia).
  change (2 ^ 1) with 2. rewrite Z.mul_comm.
  destruct owner; cbn [owner_value]; [rewrite Z.lor_0_r; lia |].
  destruct epoch as [|p|p]; [reflexivity | reflexivity | lia].
Qed.

Lemma pack_unpack epoch owner :
  0 <= epoch < 2 ^ 63 ->
  epoch_of (wd_client_stream_ownership_pack epoch owner) = epoch /\
  owner_of (Z.land (wd_client_stream_ownership_pack epoch owner) 1) = owner.
Proof.
  intros He. rewrite pack_value by done. unfold epoch_of. rewrite Z.shiftr_div_pow2 by done.
  change (Z.land (2 * epoch + owner_value owner) 1)
    with (Z.land (2 * epoch + owner_value owner) (Z.ones 1)). rewrite Z.land_ones by done.
  change (2 ^ 1) with 2.
  assert ((2 * epoch + owner_value owner) / 2 = epoch) as ->
    by (symmetry; apply Z.div_unique with (r := owner_value owner); destruct owner; cbn [owner_value]; lia).
  split; [done |].
  replace ((2 * epoch + owner_value owner) mod 2) with (owner_value owner)
    by (apply Z.mod_unique with (q := epoch); destruct owner; cbn [owner_value]; lia).
  by destruct owner.
Qed.

(** What one operation does to the epoch: nothing, or the next one. *)
Lemma atomically_epoch op packed epoch packed' :
  0 <= epoch_of packed -> epoch_of packed + 1 < 2 ^ 63 ->
  atomically op packed = (epoch, packed') ->
  epoch_of packed' = epoch /\
  (packed' = packed \/ epoch = epoch_of packed + 1) /\
  (forall owner, op = Advance owner -> epoch = epoch_of packed + 1).
Proof.
  intros H0 H1. assert (next_epoch packed = epoch_of packed + 1) as En
    by (unfold next_epoch; apply u64_small; unfold epoch_of in *; mlia).
  destruct op as [owner|owner]; cbn [atomically]; rewrite En; [case_bool_decide |]; intros [= <- <-].
  - split_and!; [done | by left | done].
  - split_and!; [apply pack_unpack; lia | by right | done].
  - split_and!; [apply pack_unpack; lia | by right | done].
Qed.

(** How an execution goes on from [s] to [s']. *)
Record epochs_advance (s s' : ownership_system) : Prop := {
  ea_order : epoch_of s.(sys_packed) <= epoch_of s'.(sys_packed);
  ea_same : epoch_of s'.(sys_packed) = epoch_of s.(sys_packed) -> s'.(sys_packed) = s.(sys_packed);
  ea_log : exists new, s'.(sys_log) = s.(sys_log) ++ new /\
    forall i owner epoch, In (i, Advance owner, epoch) new -> epoch_of s.(sys_packed) < epoch;
}.

Lemma epochs_advance_step packed0 ops s choice :
  system_ok packed0 ops s -> 0 <= epoch_of s.(sys_packed) -> epoch_of s.(sys_packed) + 1 < 2 ^ 63 ->
  epochs_advance s (system_step s choice) /\
  epoch_of (system_step s choice).(sys_packed) <= epoch_of s.(sys_packed) + 1.
Proof.
  intros Hs H0 H1. unfold system_step. destruct choice as [i spurious]. cbn [fst snd].
  assert (forall threads, epochs_advance s (mk_ownership_system s.(sys_packed) threads s.(sys_log))) as Hid
    by (intros threads; constructor; [cbn; lia | done | exists []; split; [by rewrite app_nil_r | done]]).
  destruct (s.(sys_threads) !! i) as [t|] eqn:Et.
  2: { split; [| lia]. specialize (Hid s.(sys_threads)). by destruct s. }
  destruct (thread_step spurious s.(sys_packed) t) as [p' t'] eqn:Est.
  pose proof (Forall_lookup_1 _ _ _ _ (sy_threads _ _ _ Hs) Et) as Hok.
  destruct (thread_step_cases _ _ _ _ _ Hok Est) as (_ & _ & Hcase).
  destruct Hcase as [(Ert & -> & ->)|[(Ert & Ert' & ->)|(Ert & epoch & -> & Eat)]].
  - destruct t; try done. cbn [returned]. split; [apply Hid | cbn; lia].
  - destruct t'; try done; (split; [apply Hid | cbn; lia]).
  - rewrite Ert. destruct (atomically_epoch _ _ _ _ H0 H1 Eat) as (E1 & E2 & E3).
    split; [constructor; cbn [sys_packed sys_log] |].
    + destruct E2 as [->|]; lia.
    + intros E. destruct E2 as [->|]; [done | lia].
    + eexists. split; [done |]. intros j owner e [[= <- Eop <-]|[]]. rewrite (E3 owner Eop). lia.
    + cbn [sys_packed]. destruct E2 as [->|]; lia.
Qed.

Lemma epochs_advance_trans a b c : epochs_advance a b -> epochs_advance b c -> epochs_advance a c.
Proof.
  intros [o1 s1 (n1 & l1 & f1)] [o2 s2 (n2 & l2 & f2)]. constructor; [lia | |].
  - intros E. rewrite s2, s1 by lia. done.
  - exists (n1 ++ n2). split; [by rewrite l2, l1, app_assoc |].
    intros i owner e. rewrite in_app_iff. intros [Hin|Hin]; [by eapply f1 | apply f2 in Hin; lia].
Qed.

Lemma epochs_advance_run packed0 ops s schedule :
  system_ok packed0 ops s -> 0 <= epoch_of s.(sys_packed) ->
  epoch_of s.(sys_packed) + zlen schedule < 2 ^ 63 ->
  epochs_advance s (fold_left system_step schedule s) /\
  epoch_of (fold_left system_step schedule s).(sys_packed) <= epoch_of s.(sys_packed) + zlen schedule.
Proof.
  revert s. induction schedule as [|c schedule IH]; intros s Hs H0 H1; cbn [fold_left].
  { split; [constructor; [lia | done | exists []; split; [by rewrite app_nil_r | done]] | unfold zlen; cbn [length]; lia]. }
  assert (zlen (c :: schedule) = zlen schedule + 1) as Hl by (unfold zlen; cbn [length]; lia).
  assert (epoch_of s.(sys_packed) + 1 + zlen schedule < 2 ^ 63) as H1'
    by lia.
  pose proof (zlen_nonneg schedule).
  destruct (epochs_advance_step packed0 ops s c Hs H0 ltac:(lia)) as [Ha Hb].
  pose proof (ea_order _ _ Ha).
  destruct (IH (system_step s c) (system_step_ok _ _ _ _ Hs) ltac:(lia) ltac:(lia)) as [Hc Hd].
  split; [by eapply epochs_advance_trans | lia].
Qed.

Lemma is_current_spec packed epoch owner :
  wd_client_stream_ownership_is_current (Some packed) epoch owner = true <->
  epoch_of packed = epoch /\ owner_of (Z.land packed 1) = owner.
Proof.
  unfold wd_client_stream_ownership_is_current, wd_client_stream_ownership_snapshot.
  cbn [os_epoch os_owner]. rewrite andb_true_iff, Z.eqb_eq, bool_decide_eq_true. done.
Qed.

(** ** Properties *)

(** C14: the ownership word is linearizable. In every interleaving of any
    number of threads, with any spurious failures of the exchange, the
    operations that returned took effect at once and in the order of the log,
    with the results they returned: replaying them one after the other from the
    initial word gives the same results and the same word. Each thread is in
    the log once, if it returned, and a thread that is not disturbed returns
    after at most two more accesses. *)
Theorem ownership_linearizable packed ops schedule :
  let s := system_run packed ops schedule in
  replay (snd ∘ fst <$> s.(sys_log)) packed = (snd <$> s.(sys_log), s.(sys_packed)) /\
  NoDup (fst ∘ fst <$> s.(sys_log)) /\
  (forall i op epoch,
     In (i, op, epoch) s.(sys_log) <-> s.(sys_threads) !! i = Some (Returned op epoch)) /\
  (forall i op, ops !! i = Some op ->
     exists epoch, (system_run packed ops (schedule ++ [(i, false); (i, false)])).(sys_threads) !! i =
       Some (Returned op epoch)).
Proof.
  intros s. pose proof (system_run_ok packed ops schedule) as Hs. fold s in Hs.
  split_and!; [apply Hs | apply Hs | apply Hs |]. intros i op Hi.
  unfold system_run. rewrite fold_left_app. fold (system_run packed ops schedule). fold s.
  assert (exists t, s.(sys_threads) !! i = Some t /\ thread_op t = op) as (t & Et & <-).
  { rewrite <- (sy_ops _ _ _ Hs), list_lookup_fmap in Hi. destruct (s.(sys_threads) !! i); naive_solver. }
  pose proof (lookup_lt_Some _ _ _ Et) as Hlt. cbn [fold_left].
  assert (forall u, u.(sys_threads) !! i = Some (loop_top (thread_op t) u.(sys_packed)) ->
    exists epoch, (system_step u (i, false)).(sys_threads) !! i = Some (Returned (thread_op t) epoch)) as Hdone.
  { intros u Eu. pose proof (lookup_lt_Some _ _ _ Eu). unfold system_step. cbn [fst snd]. rewrite Eu.
    destruct (thread_op t) as [o|o]; cbn [loop_top].
    - case_bool_decide; cbn [thread_step sys_threads]; rewrite ?Z.eqb_refl; cbn [andb negb sys_threads];
        eexists; by rewrite list_lookup_insert_eq.
    - cbn [thread_step]. rewrite Z.eqb_refl. cbn [andb negb sys_threads]. eexists. by rewrite list_lookup_insert_eq. }
  unfold system_step at 2. cbn [fst snd]. rewrite Et.
  destruct t as [op|op current|op epoch]; cbn [thread_step thread_op] in *.
  - apply Hdone. cbn [sys_threads sys_packed]. by rewrite list_lookup_insert_eq.
  - destruct ((s.(sys_packed) =? current) && negb false); cbn [returned].
    + unfold system_step. cbn [fst snd sys_threads]. rewrite list_lookup_insert_eq by done.
      cbn [thread_step sys_threads]. eexists. by rewrite list_lookup_insert_eq by (by rewrite length_insert).
    + apply Hdone. cbn [sys_threads sys_packed]. by rewrite list_lookup_insert_eq.
  - unfold system_step. cbn [fst snd sys_threads]. rewrite list_lookup_insert_eq by done.
    cbn [thread_step sys_threads]. eexists. by rewrite list_lookup_insert_eq by (by rewrite length_insert).
Qed.

(** C15: a token does not come back. Between two moments of an execution
    (short of [2^63] accesses) the epoch does not fall; if it is the same, so
    is the owner, so content stamped with an epoch is shown by that epoch's
    owner only and, once the epoch moved on, never again; and a reset in
    between returns an epoch that nobody had before. *)
Theorem ownership_token_expires packed ops schedule more epoch owner :
  0 <= epoch_of packed -> epoch_of packed + zlen (schedule ++ more) < 2 ^ 63 ->
  let s := system_run packed ops schedule in
  let s' := system_run packed ops (schedule ++ more) in
  wd_client_stream_ownership_is_current (Some s.(sys_packed)) epoch owner = true ->
  let now := wd_client_stream_ownership_snapshot (Some s'.(sys_packed)) in
  epoch <= now.(os_epoch) /\
  (now.(os_epoch) = epoch -> now.(os_owner) = owner) /\
  exists new, s'.(sys_log) = s.(sys_log) ++ new /\
    forall i o e, In (i, Advance o, e) new -> epoch < e.
Proof.
  intros H0 H1 s s'. rewrite is_current_spec. intros [He Ho].
  rewrite zlen_app in H1. pose proof (zlen_nonneg schedule). pose proof (zlen_nonneg more).
  destruct (epochs_advance_run packed ops (mk_ownership_system packed (Start <$> ops) []) schedule)
    as [Ha Hb]; [apply (system_run_ok packed ops []) | done | cbn [sys_packed]; lia |].
  fold (system_run packed ops schedule) in Ha, Hb. fold s in Ha, Hb. pose proof (ea_order _ _ Ha) as Hc.
  cbn [sys_packed] in Hb, Hc.
  destruct (epochs_advance_run packed ops s more) as [[Hd He' Hf] _];
    [apply system_run_ok | lia | lia |].
  assert (fold_left system_step more s = s') as E'
    by (subst s s'; unfold system_run; by rewrite fold_left_app).
  rewrite E' in *. cbn [wd_client_stream_ownership_snapshot os_epoch os_owner].
  fold (epoch_of s'.(sys_packed)). rewrite <- He. split_and!; [done | | done].
  intros E. by rewrite (He' E).
Qed.

(** Two threads race for the display: one begins the video stream, the other
    resets to tiles. *)
Lemma ownership_token_expires_witness :
  let ops := [wd_client_stream_ownership_begin_video_stream; wd_client_stream_ownership_reset_to_tiles] in
  let s' := system_run WD_CLIENT_STREAM_OWNERSHIP_INITIAL_STATE ops
              ([] ++ [(0%nat, false); (1%nat, false); (1%nat, false); (0%nat, true); (0%nat, false)]) in
  1 <= os_epoch (wd_client_stream_ownership_snapshot (Some s'.(sys_packed))) /\
  s'.(sys_log) = [(1%nat, Advance WD_CLIENT_CONTENT_OWNER_TILES, 2);
                  (0%nat, TransitionTo WD_CLIENT_CONTENT_OWNER_VIDEO, 3)].
Proof.
  split; [| vm_compute; reflexivity].
  apply (ownership_token_expires WD_CLIENT_STREAM_OWNERSHIP_INITIAL_STATE
    [wd_client_stream_ownership_begin_video_stream; wd_client_stream_ownership_reset_to_tiles] []
    [(0%nat, false); (1%nat, false); (1%nat, false); (0%nat, true); (0%nat, false)] 1
    WD_CLIENT_CONTENT_OWNER_TILES); [vm_compute; discriminate | vm_compute; reflexivity | vm_compute; reflexivity].
Defined.
