(* ===== verification/PresentQueue.v ===== *)
(** * Queues between the network and the renderer

    src/client/tile_present_queue.cpp and video_present_queue.cpp: completed
    tiles and decoded video frames wait here for the viewer's render thread.
    [present_queue_newest]: the tile queue keeps within its limits and holds
    the last accepted upload for each target, in the order of completion. *)
From S2P Require Import Prelude Buffer Frame RenderPlanning.

(** ** Tiles waiting for the renderer (tile_present_queue.cpp) *)

Record ClientTileUpload := mk_ClientTileUpload {
  tu_rect : ClientDirtyRect;
  tu_ownership_epoch : Z;
  tu_generation : Z;
  tu_source_pitch : Z;
  tu_pixels : list Z;
}.

Definition byte_size (upload : ClientTileUpload) : Z := zlen upload.(tu_pixels).

Definition upload_valid (upload : ClientTileUpload) : bool :=
  let rect := upload.(tu_rect) in
  negb (rect.(cr_w) =? 0) && negb (rect.(cr_h) =? 0) && (upload.(tu_source_pitch) >=? u32 (rect.(cr_w) * 4)) &&
  (zlen upload.(tu_pixels) >=? u64 (upload.(tu_source_pitch) * rect.(cr_h))).

Inductive ClientTilePresentPushResult := Push_Queued | Push_Superseded | Push_Rejected.

Record ClientTilePresentQueue := mk_ClientTilePresentQueue {
  pq_max_items : Z;
  pq_max_bytes : Z;
  pq_bytes : Z;
  pq_uploads : list ClientTileUpload;
}.
#[export] Instance ClientTilePresentQueue_eta : Eta ClientTilePresentQueue := fun s =>
  mk_ClientTilePresentQueue s.(pq_max_items) s.(pq_max_bytes) s.(pq_bytes) s.(pq_uploads).

Definition new_ClientTilePresentQueue (max_items max_bytes : Z) : ClientTilePresentQueue :=
  mk_ClientTilePresentQueue (if max_items =? 0 then 1 else max_items) (if max_bytes =? 0 then 1 else max_bytes) 0 [].

Definition same_target (a b : ClientTileUpload) : bool :=
  bool_decide (a.(tu_rect) = b.(tu_rect)) && (a.(tu_ownership_epoch) =? b.(tu_ownership_epoch)).

(** The last upload for the same rectangle, and its place. *)
Definition find_target (upload : ClientTileUpload) (uploads : list ClientTileUpload) : option (nat * ClientTileUpload) :=
  fold_left (fun found '(i, u) => if same_target u upload then Some (i, u) else found)
    (zip (seq 0 (length uploads)) uploads) None.

Definition present_queue_push (queue : ClientTilePresentQueue) (upload : ClientTileUpload)
    : ClientTilePresentQueue * ClientTilePresentPushResult :=
  let size := byte_size upload in
  if negb (upload_valid upload) || (size >? queue.(pq_max_bytes)) then (queue, Push_Rejected)
  else
    match find_target upload queue.(pq_uploads) with
    | Some (i, old) =>
        if upload.(tu_generation) <? old.(tu_generation) then (queue, Push_Superseded)
        else if u64 (queue.(pq_bytes) - byte_size old) >? u64 (queue.(pq_max_bytes) - size) then (queue, Push_Rejected)
        else (queue <| pq_bytes := u64 (u64 (queue.(pq_bytes) - byte_size old) + size) |>
                    <| pq_uploads := delete i queue.(pq_uploads) ++ [upload] |>, Push_Queued)
    | None =>
        if (zlen queue.(pq_uploads) >=? queue.(pq_max_items)) ||
           (queue.(pq_bytes) >? u64 (queue.(pq_max_bytes) - size))
        then (queue, Push_Rejected)
        else (queue <| pq_bytes := u64 (queue.(pq_bytes) + size) |>
                    <| pq_uploads := queue.(pq_uploads) ++ [upload] |>, Push_Queued)
    end.

Definition present_queue_drain (queue : ClientTilePresentQueue) : list ClientTileUpload * ClientTilePresentQueue :=
  (queue.(pq_uploads), queue <| pq_uploads := [] |> <| pq_bytes := 0 |>).

Definition present_queue_clear (queue : ClientTilePresentQueue) : ClientTilePresentQueue :=
  queue <| pq_uploads := [] |> <| pq_bytes := 0 |>.

(** ** The queue of tiles for the renderer *)

(** Within its limits, its size exact, one upload for each target. *)
Record present_queue_ok (q : ClientTilePresentQueue) : Prop := {
  pk_limits : 0 < q.(pq_max_items) /\ 0 < q.(pq_max_bytes) <= SIZE_MAX;
  pk_items : zlen q.(pq_uploads) <= q.(pq_max_items);
  pk_bytes : q.(pq_bytes) = zsum (byte_size <$> q.(pq_uploads)) /\ q.(pq_bytes) <= q.(pq_max_bytes);
  pk_valid : Forall (fun u => upload_valid u = true) q.(pq_uploads);
  pk_distinct : NoDup ((fun u => (u.(tu_rect), u.(tu_ownership_epoch))) <$> q.(pq_uploads));
}.

Lemma new_queue_ok items bytes : 0 <= items -> 0 <= bytes <= SIZE_MAX ->
  present_queue_ok (new_ClientTilePresentQueue items bytes).
Proof.
  intros Hi Hb. unfold new_ClientTilePresentQueue.
  split; cbn [pq_max_items pq_max_bytes pq_bytes pq_uploads fmap list_fmap]; try constructor.
  all: change (zlen (@nil ClientTileUpload)) with 0; change (zsum (byte_size <$> [])) with 0; try done; crush_if; mlia.
Qed.

Lemma same_target_spec a b :
  same_target a b = true <-> (a.(tu_rect), a.(tu_ownership_epoch)) = (b.(tu_rect), b.(tu_ownership_epoch)).
Proof.
  unfold same_target. rewrite andb_true_iff, bool_decide_eq_true, Z.eqb_eq. split; [by intros [-> ->] | by intros [= -> ->]].
Qed.

Lemma find_target_spec upload uploads :
  match find_target upload uploads with
  | Some (i, old) => uploads !! i = Some old /\ same_target old upload = true
  | None => forall u, u ∈ uploads -> same_target u upload = false
  end.
Proof.
  induction uploads as [|u l IH] using rev_ind; [by intros ? ?%elem_of_nil |].
  unfold find_target in *. rewrite length_app. cbn [length]. rewrite Nat.add_1_r, seq_S.
  rewrite zip_with_app by (by rewrite length_seq). rewrite fold_left_app. cbn [zip_with fold_left plus].
  destruct (same_target u upload) eqn:E.
  - rewrite lookup_app_r, Nat.sub_diag by lia. done.
  - match type of IH with match ?f with _ => _ end => destruct f as [[i old]|] end.
    + destruct IH as [IH1 IH2]. split; [| done]. by apply lookup_app_l_Some.
    + intros v [Hv|Hv%list_elem_of_singleton]%elem_of_app; [by apply IH | by subst].
Qed.

Lemma zsum_delete l i x : l !! i = Some x -> zsum (delete i l) = zsum l - x.
Proof.
  revert i. induction l as [|y l IH]; intros [|i]; cbn; try done.
  - intros [= ->]. unfold zsum. lia.
  - intros Hi. specialize (IH i Hi). unfold zsum, delete in *. lia.
Qed.

Lemma zsum_sizes_nonneg l : 0 <= zsum (byte_size <$> l).
Proof. induction l as [|u l IH]; cbn; [done |]. unfold byte_size, zlen, zsum in *. lia. Qed.

Lemma fmap_delete {A B} (f : A -> B) (l : list A) (i : nat) : f <$> delete i l = delete i (f <$> l).
Proof. revert i. induction l as [|x l IH]; intros [|i]; cbn; try done. f_equal. apply IH. Qed.

(** *** The queue the renderer is promised *)

(** The pending uploads of other targets, then the newer one. *)
Definition replace_target (waiting : list ClientTileUpload) (upload : ClientTileUpload) : list ClientTileUpload :=
  List.filter (fun u => negb (same_target u upload)) waiting ++ [upload].

(** Pushing onto a queue of [items] uploads and [bytes] bytes, as a function of
    the uploads that wait alone. *)
Definition reference_push (items bytes : Z) (waiting : list ClientTileUpload) (upload : ClientTileUpload)
    : list ClientTileUpload * ClientTilePresentPushResult :=
  if negb (upload_valid upload) || (bytes <? byte_size upload) then (waiting, Push_Rejected)
  else if existsb (fun u => same_target u upload && (upload.(tu_generation) <? u.(tu_generation))) waiting
  then (waiting, Push_Superseded)
  else if (items <? zlen (replace_target waiting upload)) ||
          (bytes <? zsum (byte_size <$> replace_target waiting upload))
  then (waiting, Push_Rejected)
  else (replace_target waiting upload, Push_Queued).

Inductive tile_queue_op := Tile_push (upload : ClientTileUpload) | Tile_drain | Tile_clear.

(** What an operation answers its caller. *)
Inductive tile_queue_answer := Pushed (result : ClientTilePresentPushResult) | Drained (uploads : list ClientTileUpload) | Cleared.

Definition tile_queue_step (queue : ClientTilePresentQueue) (op : tile_queue_op)
    : ClientTilePresentQueue * tile_queue_answer :=
  match op with
  | Tile_push upload => let '(queue', result) := present_queue_push queue upload in (queue', Pushed result)
  | Tile_drain => let '(uploads, queue') := present_queue_drain queue in (queue', Drained uploads)
  | Tile_clear => (present_queue_clear queue, Cleared)
  end.

Definition reference_step (items bytes : Z) (waiting : list ClientTileUpload) (op : tile_queue_op)
    : list ClientTileUpload * tile_queue_answer :=
  match op with
  | Tile_push upload => let '(waiting', result) := reference_push items bytes waiting upload in (waiting', Pushed result)
  | Tile_drain => ([], Drained waiting)
  | Tile_clear => ([], Cleared)
  end.

Fixpoint run_ops_of {S} (step : S -> tile_queue_op -> S * tile_queue_answer) (s : S) (ops : list tile_queue_op)
    : S * list tile_queue_answer :=
  match ops with
  | [] => (s, [])
  | op :: ops =>
      let '(s, answer) := step s op in
      let '(s, answers) := run_ops_of step s ops in
      (s, answer :: answers)
  end.

(** The uploads whose push was answered [Push_Queued] since the queue was last
    emptied, in the order of their completion ([before]: those of an earlier part
    of the history). *)
Fixpoint accepted (before : list ClientTileUpload) (ops : list tile_queue_op) (answers : list tile_queue_answer)
    : list ClientTileUpload :=
  match ops, answers with
  | Tile_push upload :: ops, Pushed Push_Queued :: answers => accepted (before ++ [upload]) ops answers
  | Tile_push _ :: ops, _ :: answers => accepted before ops answers
  | _ :: ops, _ :: answers => accepted [] ops answers
  | _, _ => before
  end.

(** Of a list of uploads the last one for each target, in the order of the
    list. *)
Fixpoint last_per_target (uploads : list ClientTileUpload) : list ClientTileUpload :=
  match uploads with
  | [] => []
  | u :: uploads =>
      if existsb (fun v => same_target u v) uploads then last_per_target uploads else u :: last_per_target uploads
  end.

(** *** Its implementation *)

(** In a list without a second upload for the target, removing the one found is
    keeping the others. *)
Lemma delete_target uploads i old upload :
  NoDup ((fun u => (u.(tu_rect), u.(tu_ownership_epoch))) <$> uploads) ->
  uploads !! i = Some old -> same_target old upload = true ->
  delete i uploads = List.filter (fun u => negb (same_target u upload)) uploads.
Proof.
  intros Hd Hi Ht. revert i Hi. induction uploads as [|u l IH]; intros [|i] Hi; cbn in Hi; try done.
  - injection Hi as ->. cbn. rewrite Ht. cbn. rewrite fmap_cons, list.NoDup_cons in Hd. destruct Hd as [Hn _].
    symmetry. apply forallb_filter_id. apply forallb_forall. intros v Hv%list_elem_of_In. apply negb_true_iff.
    apply not_true_iff_false. intros Hv'. apply same_target_spec in Hv', Ht. apply Hn. rewrite Ht, <- Hv'.
    apply (list_elem_of_fmap_2 (fun u => (u.(tu_rect), u.(tu_ownership_epoch)))), Hv.
  - rewrite fmap_cons, list.NoDup_cons in Hd. destruct Hd as [Hn Hd]. cbn.
    replace (same_target u upload) with false; [cbn; f_equal; by apply IH |].
    symmetry. apply not_true_iff_false. intros Hu. apply same_target_spec in Hu, Ht. apply Hn. rewrite Hu, <- Ht.
    apply (list_elem_of_fmap_2 (fun u => (u.(tu_rect), u.(tu_ownership_epoch)))), (list_elem_of_lookup_2 _ _ _ Hi).
Qed.

Lemma filter_targets uploads upload : (forall u, u ∈ uploads -> same_target u upload = false) ->
  List.filter (fun u => negb (same_target u upload)) uploads = uploads.
Proof.
  intros H. apply forallb_filter_id, forallb_forall. intros v Hv%list_elem_of_In. by rewrite (H v Hv).
Qed.

(** Another upload for a pending target: the one found decides. *)
Lemma found_newer uploads i old upload :
  NoDup ((fun u => (u.(tu_rect), u.(tu_ownership_epoch))) <$> uploads) ->
  uploads !! i = Some old -> same_target old upload = true ->
  existsb (fun u => same_target u upload && (upload.(tu_generation) <? u.(tu_generation))) uploads =
    (upload.(tu_generation) <? old.(tu_generation)).
Proof.
  intros Hd Hi Ht. apply eq_true_iff_eq. rewrite existsb_exists. split.
  - intros (u & Hu%list_elem_of_In & [Eu Hg]%andb_true_iff). enough (u = old) by congruence.
    apply list_elem_of_lookup in Hu as [j Hj]. enough (j = i) by congruence.
    apply (NoDup_lookup _ _ _ ((fun u => (u.(tu_rect), u.(tu_ownership_epoch))) old) Hd); rewrite list_lookup_fmap.
    + rewrite Hj. cbn. f_equal. apply same_target_spec in Eu, Ht. congruence.
    + by rewrite Hi.
  - intros Hg. exists old. split; [by apply list_elem_of_In, (list_elem_of_lookup_2 _ _ _ Hi) | by rewrite Ht, Hg].
Qed.

(** A queue after a push that stores the upload. *)
Lemma stored_ok queue upload bytes : present_queue_ok queue ->
  let waiting := replace_target queue.(pq_uploads) upload in
  upload_valid upload = true -> zlen waiting <= queue.(pq_max_items) ->
  bytes = zsum (byte_size <$> waiting) -> bytes <= queue.(pq_max_bytes) ->
  present_queue_ok (queue <| pq_bytes := bytes |> <| pq_uploads := waiting |>).
Proof.
  intros [K1 K3 K4 K6 K7] waiting Hv Hi Hb Hm. subst waiting. unfold replace_target in *.
  assert (forall u, u ∈ List.filter (fun u => negb (same_target u upload)) queue.(pq_uploads) ->
    u ∈ queue.(pq_uploads) /\ same_target u upload = false) as Hf.
  { intros u [Hu Hn%negb_true_iff]%list_elem_of_In%filter_In. split; [by apply list_elem_of_In | done]. }
  split; cbn [pq_max_items pq_max_bytes pq_bytes pq_uploads set_field]; try done.
  - apply list.Forall_app. split; [| by constructor]. apply list.Forall_forall. intros u [Hu _]%Hf.
    rewrite list.Forall_forall in K6. by apply K6.
  - rewrite fmap_app. apply list.NoDup_app. split_and!; [| | apply NoDup_singleton].
    + eapply sublist_NoDup; [exact K7 |].
      clear. induction (pq_uploads queue) as [|u l IH]; cbn; [constructor |]. destruct (negb _); cbn; by constructor.
    + intros k (u & -> & [_ Hu]%Hf)%list_elem_of_fmap Hk%list_elem_of_singleton. apply same_target_spec in Hk. congruence.
Qed.

(** The code's push is the reference's. *)
Lemma present_queue_push_ref queue upload : present_queue_ok queue ->
  let '(queue', result) := present_queue_push queue upload in
  present_queue_ok queue' /\
  (queue'.(pq_max_items), queue'.(pq_max_bytes)) = (queue.(pq_max_items), queue.(pq_max_bytes)) /\
  (result <> Push_Queued -> queue' = queue) /\
  (queue'.(pq_uploads), result) = reference_push queue.(pq_max_items) queue.(pq_max_bytes) queue.(pq_uploads) upload.
Proof.
  intros Q. pose proof Q as [[K1 K2] K3 [K4 K5] K6 K7]. unfold present_queue_push, reference_push.
  assert (0 <= byte_size upload) as Hs by apply zlen_nonneg.
  pose proof (zsum_sizes_nonneg queue.(pq_uploads)) as Hb.
  rewrite (Z.gtb_ltb (byte_size upload)).
  destruct (negb (upload_valid upload) || (pq_max_bytes queue <? byte_size upload)) eqn:Ev; [done |].
  apply orb_false_iff in Ev as [Ev ?%Z.ltb_ge]. apply negb_false_iff in Ev.
  rewrite (u64_small (pq_max_bytes queue - byte_size upload)) by mlia.
  pose proof (find_target_spec upload queue.(pq_uploads)) as F. destruct (find_target upload _) as [[i old]|].
  - destruct F as [F1 F2]. rewrite (found_newer _ _ _ _ K7 F1 F2).
    destruct (tu_generation upload <? tu_generation old); [done |].
    assert (replace_target queue.(pq_uploads) upload = delete i queue.(pq_uploads) ++ [upload]) as Er
      by (unfold replace_target; by rewrite (delete_target _ _ _ _ K7 F1 F2)).
    assert (zsum (byte_size <$> delete i queue.(pq_uploads)) = pq_bytes queue - byte_size old) as Ed
      by (rewrite fmap_delete, K4; apply zsum_delete; by rewrite list_lookup_fmap, F1).
    assert (0 <= byte_size old) by apply zlen_nonneg. pose proof (zsum_sizes_nonneg (delete i queue.(pq_uploads))).
    assert (zsum (byte_size <$> replace_target queue.(pq_uploads) upload) = pq_bytes queue - byte_size old + byte_size upload) as Eb
      by (rewrite Er, fmap_app, zsum_app, Ed; cbn; lia).
    assert (zlen (replace_target queue.(pq_uploads) upload) <= pq_max_items queue) as Hl.
    { rewrite Er, zlen_app. change (zlen [upload]) with 1. unfold zlen in *.
      pose proof (length_delete (pq_uploads queue) i ltac:(by exists old)). pose proof (lookup_lt_Some _ _ _ F1). lia. }
    rewrite (u64_small (pq_bytes queue - byte_size old)) by mlia. rewrite Eb, (proj2 (Z.ltb_ge _ _) Hl). cbn [orb].
    replace (pq_bytes queue - byte_size old >? pq_max_bytes queue - byte_size upload)
      with (pq_max_bytes queue <? pq_bytes queue - byte_size old + byte_size upload)
      by (rewrite Z.gtb_ltb; apply eq_true_iff_eq; rewrite !Z.ltb_lt; lia).
    case_if; bool_cases; [done |]. rewrite <- Er. rewrite u64_small by mlia.
    split; [apply stored_ok; (done || lia) | done].
  - assert (existsb (fun u => same_target u upload && (upload.(tu_generation) <? u.(tu_generation))) queue.(pq_uploads) = false) as Hnone.
    { apply not_true_iff_false. rewrite existsb_exists. intros (u & Hu%list_elem_of_In & [Eu _]%andb_true_iff).
      by rewrite (F u Hu) in Eu. }
    rewrite Hnone. clear Hnone.
    assert (replace_target queue.(pq_uploads) upload = queue.(pq_uploads) ++ [upload]) as Er
      by (unfold replace_target; by rewrite filter_targets).
    assert (zsum (byte_size <$> replace_target queue.(pq_uploads) upload) = pq_bytes queue + byte_size upload) as Eb
      by (rewrite Er, fmap_app, zsum_app; cbn; lia).
    assert (zlen (replace_target queue.(pq_uploads) upload) = zlen queue.(pq_uploads) + 1) as El
      by (rewrite Er; apply zlen_app).
    rewrite Eb, El.
    replace ((zlen (pq_uploads queue) >=? pq_max_items queue) || (pq_bytes queue >? pq_max_bytes queue - byte_size upload))
      with ((pq_max_items queue <? zlen (pq_uploads queue) + 1) || (pq_max_bytes queue <? pq_bytes queue + byte_size upload))
      by (rewrite Z.gtb_ltb, Z.geb_leb; f_equal; apply eq_true_iff_eq; rewrite ?Z.ltb_lt, ?Z.leb_le; lia).
    case_if; bool_cases; [done |]. rewrite <- Er. rewrite u64_small by mlia.
    split; [apply stored_ok; (done || lia) | done].
Qed.

(** What a push does, by its result. *)
Lemma present_queue_push_ok queue upload : present_queue_ok queue ->
  let '(queue', result) := present_queue_push queue upload in
  present_queue_ok queue' /\
  match result with
  | Push_Queued => queue'.(pq_uploads) = replace_target queue.(pq_uploads) upload
  | _ => queue' = queue
  end.
Proof.
  intros Q. pose proof (present_queue_push_ref queue upload Q) as H.
  destruct (present_queue_push queue upload) as [queue' result]. destruct H as (Q' & _ & Hsame & Er).
  split; [done |]. destruct result; [| by apply Hsame ..].
  unfold reference_push in Er. repeat case_match; congruence.
Qed.

Lemma elem_of_replace_target u waiting upload : u ∈ replace_target waiting upload -> u ∈ waiting \/ u = upload.
Proof.
  unfold replace_target. rewrite elem_of_app, list_elem_of_singleton.
  intros [[Hu _]%list_elem_of_In%filter_In|]; [left | by right]. by apply list_elem_of_In.
Qed.

Lemma last_per_target_snoc uploads u :
  last_per_target (uploads ++ [u]) = replace_target (last_per_target uploads) u.
Proof.
  unfold replace_target. induction uploads as [|v l IH]; [done |]. cbn [app last_per_target].
  rewrite existsb_app, IH. cbn [existsb]. rewrite orb_false_r.
  destruct (existsb (fun w => same_target v w) l); cbn [orb]; [done |].
  cbn [List.filter]. by destruct (same_target v u).
Qed.

Lemma emptied_ok q : present_queue_ok q -> present_queue_ok (q <| pq_uploads := [] |> <| pq_bytes := 0 |>).
Proof.
  intros [[K1 K2] K3 K4 K5 K6].
  split; cbn [pq_max_items pq_max_bytes pq_bytes pq_uploads set_field fmap list_fmap]; try constructor; try done;
    change (zlen (@nil ClientTileUpload)) with 0; change (zsum []) with 0; lia.
Qed.

(** One operation of the code is one of the reference, on the uploads accepted
    so far. *)
Lemma tile_queue_step_ref queue op before : present_queue_ok queue ->
  queue.(pq_uploads) = last_per_target before ->
  let '(queue', answer) := tile_queue_step queue op in
  present_queue_ok queue' /\
  (queue'.(pq_max_items), queue'.(pq_max_bytes)) = (queue.(pq_max_items), queue.(pq_max_bytes)) /\
  (queue'.(pq_uploads), answer) = reference_step queue.(pq_max_items) queue.(pq_max_bytes) queue.(pq_uploads) op /\
  queue'.(pq_uploads) = last_per_target (accepted before [op] [answer]).
Proof.
  intros Q Eb. destruct op as [upload| |]; cbn [tile_queue_step reference_step].
  - pose proof (present_queue_push_ref queue upload Q) as H. pose proof (present_queue_push_ok queue upload Q) as H'.
    destruct (present_queue_push queue upload) as [queue' result]. destruct H as (Q' & Hm & Hsame & <-).
    split_and!; [done | done | done |]. destruct H' as [_ H']. destruct result; cbn [accepted].
    + by rewrite H', Eb, last_per_target_snoc.
    + by rewrite H'.
    + by rewrite H'.
  - split_and!; [by apply emptied_ok | done ..].
  - split_and!; [by apply emptied_ok | done ..].
Qed.

Lemma tile_queue_run_ref ops queue before : present_queue_ok queue ->
  queue.(pq_uploads) = last_per_target before ->
  let '(queue', answers) := run_ops_of tile_queue_step queue ops in
  present_queue_ok queue' /\
  (queue'.(pq_uploads), answers) =
    run_ops_of (reference_step queue.(pq_max_items) queue.(pq_max_bytes)) queue.(pq_uploads) ops /\
  queue'.(pq_uploads) = last_per_target (accepted before ops answers).
Proof.
  revert queue before. induction ops as [|op ops IH]; intros queue before Q Eb; cbn [run_ops_of]; [done |].
  pose proof (tile_queue_step_ref queue op before Q Eb) as H.
  destruct (tile_queue_step queue op) as [queue1 answer]. destruct H as (Q1 & [= Hi Hm] & Es & Ew). rewrite <- Es.
  pose proof (IH queue1 _ Q1 Ew) as H. rewrite Hi, Hm in H.
  destruct (run_ops_of tile_queue_step queue1 ops) as [queue2 answers]. destruct H as (Q2 & <- & Ew2).
  split_and!; [done | done |]. rewrite Ew2. destruct op, answer as [[]| |]; done.
Qed.

(** C30: the tile queue between the network and the
    renderer is the queue its comment promises, through any history of
    completed tiles, drains by the render thread and clears.  It stays within
    its limits of items and bytes and counts its bytes exactly; every answer
    and every drained list is that of the reference, which refuses an upload
    that is malformed or would not fit, answers [Push_Superseded] when a newer
    generation waits for the same rectangle and ownership epoch, and otherwise
    removes what waits for that target and appends the upload.  So what waits is
    exactly, for each target, the last upload accepted since the queue was last
    emptied, in the order of completion, and a drain hands over exactly that. *)
Theorem present_queue_newest (items bytes : Z) (ops : list tile_queue_op) :
  0 <= items -> 0 <= bytes <= SIZE_MAX ->
  let '(queue, answers) := run_ops_of tile_queue_step (new_ClientTilePresentQueue items bytes) ops in
  present_queue_ok queue /\
  (queue.(pq_uploads), answers) = run_ops_of (reference_step (Z.max 1 items) (Z.max 1 bytes)) [] ops /\
  queue.(pq_uploads) = last_per_target (accepted [] ops answers) /\
  present_queue_drain queue =
    (last_per_target (accepted [] ops answers), queue <| pq_uploads := [] |> <| pq_bytes := 0 |>).
Proof.
  intros Hi Hb. pose proof (tile_queue_run_ref ops _ [] (new_queue_ok items bytes Hi Hb) eq_refl) as H.
  destruct (run_ops_of tile_queue_step _ ops) as [queue answers]. destruct H as (Q & E & Ew).
  split_and!; [done | | done | unfold present_queue_drain; by rewrite Ew].
  rewrite E. cbn [pq_max_items pq_max_bytes pq_uploads new_ClientTilePresentQueue]. f_equal. f_equal; case_if; bool_cases; lia.
Qed.

Definition small_upload (x generation : Z) : ClientTileUpload :=
  mk_ClientTileUpload (mk_ClientDirtyRect x 0 2 1) 3 generation 8 (replicate 8 0).

Lemma present_queue_newest_witness :
  let ops := [Tile_push (small_upload 0 4); Tile_push (small_upload 2 5); Tile_push (small_upload 0 7);
              Tile_push (small_upload 2 3); Tile_push (small_upload 4 1)] in
  let '(queue, answers) := run_ops_of tile_queue_step (new_ClientTilePresentQueue 2 20) ops in
  answers = [Pushed Push_Queued; Pushed Push_Queued; Pushed Push_Queued; Pushed Push_Superseded; Pushed Push_Rejected] /\
  present_queue_ok queue /\
  present_queue_drain queue =
    ([small_upload 2 5; small_upload 0 7], queue <| pq_uploads := [] |> <| pq_bytes := 0 |>).
Proof.
  cbv zeta. pose proof (present_queue_newest 2 20
    [Tile_push (small_upload 0 4); Tile_push (small_upload 2 5); Tile_push (small_upload 0 7);
     Tile_push (small_upload 2 3); Tile_push (small_upload 4 1)] ltac:(lia) ltac:(mlia)) as H.
  destruct (run_ops_of tile_queue_step _ _) as [queue answers]. destruct H as (Q & E & _ & D).
  vm_compute in E. injection E as _ ->. split_and!; [reflexivity | exact Q |]. rewrite D. reflexivity.
Defined.

(** ** Decoded video frames *)

Inductive ClientVideoPixelFormat := Format_None | Format_IYUV | Format_DRMPrime.
#[export] Instance ClientVideoPixelFormat_eq_dec : EqDecision ClientVideoPixelFormat.
Proof. solve_decision. Defined.

Record ClientVideoFrameBuffer := mk_ClientVideoFrameBuffer {
  vb_format : ClientVideoPixelFormat;
  vb_width : Z;
  vb_height : Z;
  vb_y_pitch : Z;
  vb_uv_pitch : Z;
  vb_u_offset : Z;
  vb_v_offset : Z;
  vb_bytes : list Z;
  vb_gpu_frame : wd_frame;
}.

(** The default constructor, and what a buffer is after it has been moved from
    or cleared. *)
Definition empty_buffer : ClientVideoFrameBuffer :=
  mk_ClientVideoFrameBuffer Format_None 0 0 0 0 0 0 [] wd_frame_init.

Definition cpu_valid (buffer : ClientVideoFrameBuffer) : bool :=
  if negb (bool_decide (buffer.(vb_format) = Format_IYUV)) || (buffer.(vb_width) =? 0) || (buffer.(vb_height) =? 0) ||
     (buffer.(vb_y_pitch) <? buffer.(vb_width)) || (buffer.(vb_uv_pitch) <? u32 (buffer.(vb_width) + 1) / 2)
  then false
  else
    let y_size := u64 (buffer.(vb_y_pitch) * buffer.(vb_height)) in
    let uv_height := u32 (buffer.(vb_height) + 1) / 2 in
    let uv_size := u64 (buffer.(vb_uv_pitch) * uv_height) in
    let size := zlen buffer.(vb_bytes) in
    (buffer.(vb_u_offset) =? y_size) && (buffer.(vb_v_offset) =? u64 (y_size + uv_size)) &&
    (buffer.(vb_v_offset) <=? size) && (uv_size <=? size - buffer.(vb_v_offset)).

(** [wd_frame_valid] of a frame over descriptors; it reads no buffer. *)
Definition gpu_valid (buffer : ClientVideoFrameBuffer) : bool :=
  let frame := buffer.(vb_gpu_frame) in
  bool_decide (buffer.(vb_format) = Format_DRMPrime) &&
  bool_decide (frame.(fr_storage) = WD_FRAME_STORAGE_DRM_PRIME) &&
  default false (wd_frame_valid frame (mk_resources ∅ ∅)) &&
  (frame.(fr_width) =? buffer.(vb_width)) && (frame.(fr_height) =? buffer.(vb_height)).

Definition buffer_valid (buffer : ClientVideoFrameBuffer) : bool := cpu_valid buffer || gpu_valid buffer.

Record ClientQueuedVideoFrame := mk_ClientQueuedVideoFrame {
  qf_buffer : ClientVideoFrameBuffer;
  qf_width : Z;
  qf_height : Z;
  qf_frame_id : Z;
  qf_pts_usec : Z;
  qf_epoch : Z;
}.

Record ClientVideoPresentQueue := mk_ClientVideoPresentQueue {
  vq_capacity : Z;
  vq_frames : list ClientQueuedVideoFrame;
  vq_recycle : ClientVideoFrameBuffer;
}.
#[export] Instance ClientVideoPresentQueue_eta : Eta ClientVideoPresentQueue := fun s =>
  mk_ClientVideoPresentQueue s.(vq_capacity) s.(vq_frames) s.(vq_recycle).

Definition new_ClientVideoPresentQueue (capacity : Z) : ClientVideoPresentQueue :=
  mk_ClientVideoPresentQueue (if capacity =? 0 then 1 else capacity) [] empty_buffer.

(** The operations also return the frames they reset ([wd_frame_reset] in the
    assignment, [clear] and the destructor of a buffer). *)
Definition take_decode_buffer (queue : ClientVideoPresentQueue)
    : ClientVideoPresentQueue * ClientVideoFrameBuffer * bool :=
  match list.last queue.(vq_frames) with
  | Some newest =>
      if zlen queue.(vq_frames) >=? queue.(vq_capacity)
      then (queue <| vq_frames := removelast queue.(vq_frames) |>, newest.(qf_buffer), true)
      else (queue <| vq_recycle := empty_buffer |>, queue.(vq_recycle), false)
  | None => (queue <| vq_recycle := empty_buffer |>, queue.(vq_recycle), false)
  end.

Definition recycle (queue : ClientVideoPresentQueue) (buffer : ClientVideoFrameBuffer)
    : ClientVideoPresentQueue * list wd_frame :=
  (queue <| vq_recycle := buffer |>, [queue.(vq_recycle).(vb_gpu_frame)]).

Definition push_decoded (queue : ClientVideoPresentQueue) (buffer : ClientVideoFrameBuffer)
    (width height frame_id pts_usec epoch : Z) : ClientVideoPresentQueue * list wd_frame * bool :=
  if negb (buffer_valid buffer) || negb (buffer.(vb_width) =? width) || negb (buffer.(vb_height) =? height) ||
     (epoch =? 0) || (zlen queue.(vq_frames) >=? queue.(vq_capacity))
  then (recycle queue buffer, false)
  else (queue <| vq_frames := queue.(vq_frames) ++
          [mk_ClientQueuedVideoFrame buffer width height frame_id pts_usec epoch] |>, [], true).

Definition video_queue_front (queue : ClientVideoPresentQueue) : ptr ClientQueuedVideoFrame :=
  head queue.(vq_frames).

Definition video_queue_pop_front (queue : ClientVideoPresentQueue)
    : ClientVideoPresentQueue * ClientQueuedVideoFrame :=
  match queue.(vq_frames) with
  | [] => (queue, mk_ClientQueuedVideoFrame empty_buffer 0 0 0 0 0)
  | frame :: frames => (queue <| vq_frames := frames |>, frame)
  end.

Definition video_queue_clear (queue : ClientVideoPresentQueue) : ClientVideoPresentQueue * list wd_frame :=
  (queue <| vq_frames := [] |> <| vq_recycle := empty_buffer |>,
   ((fun frame => frame.(qf_buffer).(vb_gpu_frame)) <$> queue.(vq_frames)) ++ [queue.(vq_recycle).(vb_gpu_frame)]).

(** *** The decoder and the renderer on the queue *)

Inductive video_queue_op :=
  | Take
  | Push (buffer : ClientVideoFrameBuffer) (width height frame_id pts_usec epoch : Z)
  | Pop
  | Recycle (buffer : ClientVideoFrameBuffer)
  | Clear.

(** What passed over the queue's edge: frames given in, frames handed out,
    frames reset; the sequence of frames queued and of frames presented. *)
Record video_queue_log := mk_video_queue_log {
  vl_given : list wd_frame;
  vl_taken : list wd_frame;
  vl_reset : list wd_frame;
  vl_pushed : list ClientQueuedVideoFrame;
  vl_popped : list ClientQueuedVideoFrame;
}.

Definition video_queue_step (state : ClientVideoPresentQueue * video_queue_log) (op : video_queue_op)
    : ClientVideoPresentQueue * video_queue_log :=
  let '(q, mk_video_queue_log given taken reset pushed popped) := state in
  match op with
  | Take =>
      let '(q, buffer, _) := take_decode_buffer q in
      (q, mk_video_queue_log given (taken ++ [buffer.(vb_gpu_frame)]) reset pushed popped)
  | Push buffer width height frame_id pts_usec epoch =>
      let '(q, released, ok) := push_decoded q buffer width height frame_id pts_usec epoch in
      (q, mk_video_queue_log (given ++ [buffer.(vb_gpu_frame)]) taken (reset ++ released)
            (pushed ++ if (ok : bool) then [mk_ClientQueuedVideoFrame buffer width height frame_id pts_usec epoch] else [])
            popped)
  | Pop =>
      let '(q', frame) := video_queue_pop_front q in
      (q', mk_video_queue_log given (taken ++ [frame.(qf_buffer).(vb_gpu_frame)]) reset pushed
             (popped ++ if null q.(vq_frames) then [] else [frame]))
  | Recycle buffer =>
      let '(q, released) := recycle q buffer in
      (q, mk_video_queue_log (given ++ [buffer.(vb_gpu_frame)]) taken (reset ++ released) pushed popped)
  | Clear =>
      let '(q, released) := video_queue_clear q in
      (q, mk_video_queue_log given taken (reset ++ released) pushed popped)
  end.

Definition occurrences (frame : wd_frame) (frames : list wd_frame) : Z :=
  zsum ((fun f => Z.b2z (bool_decide (f = frame))) <$> frames).
Definition queue_frames (q : ClientVideoPresentQueue) : list wd_frame :=
  ((fun frame => frame.(qf_buffer).(vb_gpu_frame)) <$> q.(vq_frames)) ++ [q.(vq_recycle).(vb_gpu_frame)].

Record video_queue_ok (q : ClientVideoPresentQueue) (log : video_queue_log) : Prop := {
  vo_capacity : 0 < q.(vq_capacity);
  vo_bound : zlen q.(vq_frames) <= q.(vq_capacity);
  vo_frames : Forall (fun f => buffer_valid f.(qf_buffer) = true /\ f.(qf_epoch) <> 0) q.(vq_frames);
  vo_order : sublist (log.(vl_popped) ++ q.(vq_frames)) log.(vl_pushed);
  vo_conserved : forall frame, frame.(fr_storage) <> WD_FRAME_STORAGE_NONE ->
    occurrences frame log.(vl_given) =
    occurrences frame (queue_frames q) + occurrences frame log.(vl_taken) + occurrences frame log.(vl_reset);
}.

Lemma occurrences_app frame l k : occurrences frame (l ++ k) = occurrences frame l + occurrences frame k.
Proof. unfold occurrences. by rewrite fmap_app, zsum_app. Qed.

Lemma occurrences_empty frame :
  frame.(fr_storage) <> WD_FRAME_STORAGE_NONE -> occurrences frame [wd_frame_init] = 0.
Proof. intros H. unfold occurrences. cbn. rewrite bool_decide_eq_false_2; [done |]. by intros <-. Qed.

Lemma queue_frames_occurrences frame capacity frames recycled :
  occurrences frame (queue_frames (mk_ClientVideoPresentQueue capacity frames recycled)) =
  occurrences frame ((fun f => f.(qf_buffer).(vb_gpu_frame)) <$> frames) + occurrences frame [recycled.(vb_gpu_frame)].
Proof. unfold queue_frames. by rewrite occurrences_app. Qed.

Lemma fmap_cons_app {A B} (f : A -> B) x l : f <$> x :: l = [f x] ++ (f <$> l).
Proof. done. Qed.

(** [conserve]: both sides of the account, frame by frame. *)
Ltac conserve Hp :=
  let f := fresh "f" in let Hf := fresh "Hf" in
  intros f Hf; specialize (Hp f Hf); rewrite ?queue_frames_occurrences in *;
  rewrite ?fmap_app, ?fmap_cons_app, ?fmap_nil, ?app_nil_r, ?occurrences_app in *; cbn [qf_buffer] in *;
  change (occurrences f []) with 0 in *;
  change (vb_gpu_frame empty_buffer) with wd_frame_init in *; rewrite ?(occurrences_empty f Hf); lia.

Lemma video_queue_step_ok q log op :
  video_queue_ok q log ->
  video_queue_ok (video_queue_step (q, log) op).1 (video_queue_step (q, log) op).2.
Proof.
  destruct log as [given taken reset pushed popped], q as [capacity frames recycled].
  intros [Hc Hb Hf Ho Hp]. cbn [vq_capacity vq_frames vq_recycle vl_given vl_taken vl_reset vl_pushed vl_popped] in *.
  destruct op as [| buffer width height id pts epoch | | buffer |]; cbn [video_queue_step].
  - unfold take_decode_buffer. cbn [vq_frames vq_capacity vq_recycle].
    destruct (list.last frames) as [newest|] eqn:El; [destruct (Z.geb_spec (zlen frames) capacity) |].
    1: apply last_Some in El as [front ->]; rewrite removelast_last.
    all: unfold set_field; constructor;
      cbn [fst snd vq_capacity vq_frames vq_recycle vl_given vl_taken vl_reset vl_pushed vl_popped]; try done.
    all: try (conserve Hp).
    + rewrite zlen_app in Hb. pose proof (zlen_nonneg [newest]). lia.
    + by apply list.Forall_app in Hf as [? _].
    + etransitivity; [| exact Ho]. rewrite app_assoc. by apply sublist_inserts_r.
  - unfold push_decoded, recycle, set_field. cbn [vq_frames vq_capacity vq_recycle].
    case_if; bool_cases; constructor;
      cbn [fst snd vq_capacity vq_frames vq_recycle vl_given vl_taken vl_reset vl_pushed vl_popped]; try done.
    all: try (conserve Hp).
    + by rewrite app_nil_r.
    + rewrite zlen_app. change (zlen [_]) with 1. lia.
    + apply list.Forall_app. split; [done |]. by repeat constructor.
    + rewrite app_assoc. by apply sublist_app.
  - unfold video_queue_pop_front, set_field. cbn [vq_frames vq_capacity vq_recycle].
    destruct frames as [|frame frames]; cbn [null]; constructor;
      cbn [fst snd vq_capacity vq_frames vq_recycle vl_given vl_taken vl_reset vl_pushed vl_popped qf_buffer]; try done.
    all: try (conserve Hp).
    + rewrite app_nil_r. exact Ho.
    + rewrite zlen_cons in Hb. lia.
    + by apply list.Forall_cons in Hf as [_ ?].
    + by rewrite <- app_assoc.
  - unfold recycle, set_field. cbn [vq_frames vq_capacity vq_recycle]. constructor;
      cbn [fst snd vq_capacity vq_frames vq_recycle vl_given vl_taken vl_reset vl_pushed vl_popped]; try done.
    conserve Hp.
  - unfold video_queue_clear, set_field. cbn [vq_frames vq_capacity vq_recycle]. constructor;
      cbn [fst snd vq_capacity vq_frames vq_recycle vl_given vl_taken vl_reset vl_pushed vl_popped]; try done.
    + change (zlen (@nil ClientQueuedVideoFrame)) with 0. lia.
    + rewrite app_nil_r. etransitivity; [| exact Ho]. by apply sublist_inserts_r.
    + conserve Hp.
Qed.

Lemma video_queue_step_capacity q log op : (video_queue_step (q, log) op).1.(vq_capacity) = q.(vq_capacity).
Proof.
  destruct log, op; cbn [video_queue_step]; unfold push_decoded.
  - unfold take_decode_buffer. destruct (list.last _); [by case_if | done].
  - by case_if.
  - unfold video_queue_pop_front. by destruct (vq_frames q).
  - done.
  - done.
Qed.

(** C29: the queue of decoded frames never loses a GPU frame or
    releases it twice.  From an empty queue, whatever the decoder and the
    renderer do, a frame holding descriptors that was given to the queue is
    still in it, was handed out, or was reset, each exactly as often as it was
    given; the queue holds at most its capacity of frames, all of them valid, and
    hands them out in the order in which they were queued. *)
Theorem video_frames_conserved capacity ops :
  0 <= capacity ->
  let '(q, log) :=
    fold_left video_queue_step ops (new_ClientVideoPresentQueue capacity, mk_video_queue_log [] [] [] [] []) in
  zlen q.(vq_frames) <= Z.max 1 capacity /\
  Forall (fun f => buffer_valid f.(qf_buffer) = true /\ f.(qf_epoch) <> 0) q.(vq_frames) /\
  sublist (log.(vl_popped) ++ q.(vq_frames)) log.(vl_pushed) /\
  forall frame, frame.(fr_storage) <> WD_FRAME_STORAGE_NONE ->
    occurrences frame log.(vl_given) =
    occurrences frame (queue_frames q) + occurrences frame log.(vl_taken) + occurrences frame log.(vl_reset).
Proof.
  intros Hcap.
  assert (forall q log, video_queue_ok q log ->
    let '(q', log') := fold_left video_queue_step ops (q, log) in
    q'.(vq_capacity) = q.(vq_capacity) /\ video_queue_ok q' log') as Hrun.
  { induction ops as [|op ops IH]; intros q log Hok; cbn [fold_left]; [by split |].
    pose proof (video_queue_step_ok q log op Hok) as Hok'.
    assert ((video_queue_step (q, log) op).1.(vq_capacity) = q.(vq_capacity)) as Ec.
    { by apply video_queue_step_capacity. }
    destruct (video_queue_step (q, log) op) as [q1 log1]. cbn [fst snd] in *. specialize (IH q1 log1 Hok').
    destruct (fold_left _ ops _) as [q' log']. destruct IH as [-> ?]. done. }
  specialize (Hrun (new_ClientVideoPresentQueue capacity) (mk_video_queue_log [] [] [] [] [])).
  destruct (fold_left _ ops _) as [q log]. destruct Hrun as [Ec [Hc Hb Hf Ho Hp]].
  - unfold new_ClientVideoPresentQueue. constructor;
      cbn [vq_capacity vq_frames vq_recycle vl_given vl_taken vl_reset vl_pushed vl_popped]; try done.
    + case_if; bool_cases; lia.
    + change (zlen (@nil ClientQueuedVideoFrame)) with 0. case_if; bool_cases; lia.
    + intros f Hf. rewrite queue_frames_occurrences. change (vb_gpu_frame empty_buffer) with wd_frame_init.
      by rewrite occurrences_empty.
  - split_and!; try done. rewrite Ec in Hb. unfold new_ClientVideoPresentQueue in Hb. cbn [vq_capacity] in Hb.
    case_if_in Hb; bool_cases; lia.
Qed.

Definition gpu_buffer (fd : Z) : ClientVideoFrameBuffer :=
  mk_ClientVideoFrameBuffer Format_DRMPrime 64 32 0 0 0 0 []
    (mk_wd_frame WD_FRAME_STORAGE_DRM_PRIME 64 32 0 0 NULL 0 0 1 [mk_wd_frame_drm_plane fd 256 0 0]).

Definition demo_video_ops : list video_queue_op :=
  [Push (gpu_buffer 7) 64 32 1 0 2; Push (gpu_buffer 8) 64 32 2 0 2; Push (gpu_buffer 9) 64 32 3 0 2;
   Take; Pop; Push (gpu_buffer 10) 64 32 4 0 0; Clear].

Lemma video_frames_conserved_witness :
  exists q log,
    fold_left video_queue_step demo_video_ops (new_ClientVideoPresentQueue 2, mk_video_queue_log [] [] [] [] []) = (q, log) /\
    zlen q.(vq_frames) <= 2 /\ dp_fd <$> (log.(vl_reset) ≫= fr_planes) = [-1; -1; -1; -1; 9; 10].
Proof.
  pose proof (video_frames_conserved 2 demo_video_ops ltac:(lia)) as H.
  destruct (fold_left _ _ _) as [q log] eqn:E. exists q, log. destruct H as [Hb _].
  split; [done |]. split; [exact Hb |]. vm_compute in E. injection E as <- <-. vm_compute. reflexivity.
Defined.
