(* ===== verification/ClientState.v ===== *)
(** * State of the client's receiver

    The part of [ClientState] (src/client/client_state.hpp) that tile
    reassembly, tile repair, the content order and the receive thread read and
    change.  Every mutex-protected operation is one step on this record; the
    atomics are its fields. *)
From S2P Require Import Prelude CFloat Structs RenderPlanning Buffer Frame ClientOwnership PresentQueue.

(** The counters of [ClientStats] that these operations change. *)
Record ClientStats := mk_ClientStats {
  st_udp_ignored_invalid : Z;
  st_udp_invalid_short : Z;
  st_udp_invalid_header : Z;
  st_udp_invalid_geometry : Z;
  st_udp_invalid_fragment : Z;
  st_udp_ignored_stale_session : Z;
  st_udp_ignored_stale_epoch : Z;
  st_udp_ignored_old_generation : Z;
  st_udp_tiles_completed : Z;
  st_udp_completed_compressed_bytes : Z;
  st_udp_completed_packets : Z;
  st_partial_tiles_timed_out : Z;
  st_reassembly_budget_evictions : Z;
  st_reassembly_budget_drops : Z;
  st_tile_decompress_failures : Z;
  st_tile_fragment_conflicts : Z;
  st_partial_tile_missing_packets : Z;
  st_partial_tile_retx_queued : Z;
  st_retx_response_samples : Z;
  st_retx_response_sum_ns : Z;
  st_tile_reassembly_timeout_updates : Z;
  st_tcp_retx_requests_tx : Z;
  st_summary_retx_tiles_queued : Z;
  st_summary_retx_tiles_deferred : Z;
  st_summary_retx_tiles_throttled : Z;
  st_summary_retx_tiles_stale_dropped : Z;
  st_summary_retx_pressure_dropped : Z;
  st_summary_promote_passes : Z;
  st_summary_promote_scanned : Z;
  st_summary_promote_candidates : Z;
  st_summary_to_retx_samples : Z;
  st_summary_to_retx_sum_ns : Z;
  st_udp_invalid_blit : Z;
  st_udp_invalid_dirty_grid : Z;
  st_udp_ignored_probe : Z;
  st_tile_present_overflow_fallbacks : Z;
  st_tile_content_epoch_presented : Z;
  st_video_content_epoch_presented : Z;
  st_video_last_frame_id_rx : Z;
  st_video_last_frame_id_decoded : Z;
  st_video_last_frame_id_presented : Z;
}.
#[export] Instance ClientStats_eta : Eta ClientStats := fun s =>
  mk_ClientStats
    s.(st_udp_ignored_invalid) s.(st_udp_invalid_short) s.(st_udp_invalid_header)
    s.(st_udp_invalid_geometry) s.(st_udp_invalid_fragment) s.(st_udp_ignored_stale_session)
    s.(st_udp_ignored_stale_epoch) s.(st_udp_ignored_old_generation) s.(st_udp_tiles_completed)
    s.(st_udp_completed_compressed_bytes) s.(st_udp_completed_packets)
    s.(st_partial_tiles_timed_out) s.(st_reassembly_budget_evictions)
    s.(st_reassembly_budget_drops) s.(st_tile_decompress_failures)
    s.(st_tile_fragment_conflicts) s.(st_partial_tile_missing_packets)
    s.(st_partial_tile_retx_queued) s.(st_retx_response_samples) s.(st_retx_response_sum_ns)
    s.(st_tile_reassembly_timeout_updates) s.(st_tcp_retx_requests_tx)
    s.(st_summary_retx_tiles_queued) s.(st_summary_retx_tiles_deferred)
    s.(st_summary_retx_tiles_throttled) s.(st_summary_retx_tiles_stale_dropped)
    s.(st_summary_retx_pressure_dropped) s.(st_summary_promote_passes)
    s.(st_summary_promote_scanned) s.(st_summary_promote_candidates)
    s.(st_summary_to_retx_samples) s.(st_summary_to_retx_sum_ns)
    s.(st_udp_invalid_blit) s.(st_udp_invalid_dirty_grid) s.(st_udp_ignored_probe)
    s.(st_tile_present_overflow_fallbacks) s.(st_tile_content_epoch_presented) s.(st_video_content_epoch_presented)
    s.(st_video_last_frame_id_rx) s.(st_video_last_frame_id_decoded) s.(st_video_last_frame_id_presented).

Definition zero_stats : ClientStats :=
  mk_ClientStats 0 0 0 0 0 0 0 0 0 0 0 0 0 0 0 0 0 0 0 0 0 0 0 0 0 0 0 0 0 0 0 0 0 0 0 0 0 0 0 0 0.

(** The fields that say which content the display shows and what waits to be
    presented.  [remote_content_*] mirror the server's content epoch;
    [stream_ownership] is the packed word of ClientOwnership. *)
Record ClientContent := mk_ClientContent {
  cc_remote_content_epoch : Z;
  cc_remote_content_owner : wd_client_content_owner;
  cc_stream_ownership : Z;
  cc_framebuffer : list Z;
  cc_pending_dirty_tiles : ClientDirtyTileGrid;
  cc_pending_dirty_rect_count : Z;
  cc_pending_dirty_epoch : Z;
  cc_pending_present_generation : list Z;
  cc_presented_generation : list Z;
  cc_tile_present_queue : ClientTilePresentQueue;
  cc_pending_tile_upload_count : Z;
  cc_video_present_queue : ClientVideoPresentQueue;
  cc_pending_video_frame_dirty : bool;
}.
#[export] Instance ClientContent_eta : Eta ClientContent := fun s =>
  mk_ClientContent
    s.(cc_remote_content_epoch) s.(cc_remote_content_owner) s.(cc_stream_ownership) s.(cc_framebuffer)
    s.(cc_pending_dirty_tiles) s.(cc_pending_dirty_rect_count) s.(cc_pending_dirty_epoch)
    s.(cc_pending_present_generation) s.(cc_presented_generation) s.(cc_tile_present_queue)
    s.(cc_pending_tile_upload_count) s.(cc_video_present_queue) s.(cc_pending_video_frame_dirty).

Definition no_content : ClientContent :=
  mk_ClientContent 0 WD_CLIENT_CONTENT_OWNER_TILES WD_CLIENT_STREAM_OWNERSHIP_INITIAL_STATE []
    (mk_ClientDirtyTileGrid 0 0 0 0 0 0 0 []) 0 0 [] [] (new_ClientTilePresentQueue 1024 33554432) 0
    (new_ClientVideoPresentQueue 0) false.

Record ClientSummaryRepairDue := mk_ClientSummaryRepairDue {
  rd_tile_id : Z;
  rd_generation : Z;
  rd_due_ns : Z;
}.

(** The receiver's fields of [ClientState]. *)
Record ClientState := mk_ClientState {
  cs_config : wd_server_config_payload;
  cs_received_generation : list Z;
  cs_retx_queue : list Z;
  cs_retx_queued_generation : list Z;
  cs_retx_last_requested_generation : list Z;
  cs_retx_last_request_ns : list Z;
  cs_retx_inflight_generation : list Z;
  cs_retx_inflight_since_ns : list Z;
  cs_retx_summary_pending_generation : list Z;
  cs_retx_summary_pending_since_ns : list Z;
  cs_retx_summary_pending_tiles : list Z;
  cs_retx_summary_pending_position : list Z;
  cs_retx_summary_due_queue : list ClientSummaryRepairDue;
  cs_retx_inflight_grace_ns : Z;
  cs_summary_retransmit_grace_ns : Z;
  cs_retransmit_request_interval_ns : Z;
  cs_retx_summary_pending_count : Z;
  cs_summary_large_repair_not_before_ns : Z;
  cs_summary_repair_loss_signal_until_ns : Z;
  cs_tile_reassembly_ewma_ns : spec_float;
  cs_tile_reassembly_deviation_ns : spec_float;
  cs_tile_reassembly_timeout_ns : Z;
  cs_tile_reassembly_floor_ns : Z;
  cs_udp_gap_pressure_ns : Z;
  cs_next_summary_promote_ns : Z;
  cs_pending_config : wd_server_config_payload;
  cs_pending_config_valid : bool;
  cs_client_config_generation : Z;
  cs_session_running : bool;
  cs_media_clock_id : Z;
  cs_media_clock_local_origin_ns : Z;
  cs_udp_recv_buffer : list Z;
  cs_content : ClientContent;
  cs_stats : ClientStats;
}.
#[export] Instance ClientState_eta : Eta ClientState := fun s =>
  mk_ClientState
    s.(cs_config) s.(cs_received_generation) s.(cs_retx_queue) s.(cs_retx_queued_generation)
    s.(cs_retx_last_requested_generation) s.(cs_retx_last_request_ns)
    s.(cs_retx_inflight_generation) s.(cs_retx_inflight_since_ns)
    s.(cs_retx_summary_pending_generation) s.(cs_retx_summary_pending_since_ns)
    s.(cs_retx_summary_pending_tiles) s.(cs_retx_summary_pending_position)
    s.(cs_retx_summary_due_queue) s.(cs_retx_inflight_grace_ns)
    s.(cs_summary_retransmit_grace_ns) s.(cs_retransmit_request_interval_ns)
    s.(cs_retx_summary_pending_count) s.(cs_summary_large_repair_not_before_ns)
    s.(cs_summary_repair_loss_signal_until_ns) s.(cs_tile_reassembly_ewma_ns)
    s.(cs_tile_reassembly_deviation_ns) s.(cs_tile_reassembly_timeout_ns)
    s.(cs_tile_reassembly_floor_ns) s.(cs_udp_gap_pressure_ns) s.(cs_next_summary_promote_ns)
    s.(cs_pending_config) s.(cs_pending_config_valid) s.(cs_client_config_generation)
    s.(cs_session_running) s.(cs_media_clock_id)
    s.(cs_media_clock_local_origin_ns) s.(cs_udp_recv_buffer) s.(cs_content) s.(cs_stats).

(** What belongs to the session as a whole; tile repair and reassembly leave it
    alone. *)
Definition session_setup (state : ClientState) :=
  (state.(cs_content), state.(cs_pending_config), state.(cs_pending_config_valid), state.(cs_udp_recv_buffer)).

(** [state.stats.counter.fetch_add(n)]. *)
Definition fetch_add (counter : ClientStats -> Z) `{!FieldSetter counter} (n : Z)
    (state : ClientState) : ClientState :=
  state <| cs_stats := state.(cs_stats) <| counter := u64 (counter state.(cs_stats) + n) |> |>.

(** [assign(total, v)] when the size differs. *)
Definition ensure_size (total v : Z) (l : list Z) : list Z :=
  if zlen l =? total then l else replicate (Z.to_nat total) v.

Lemma zlen_ensure_size total v l : 0 <= total -> zlen (ensure_size total v l) = total.
Proof.
  intros H. unfold ensure_size. case_if; bool_cases; [done |].
  unfold zlen. rewrite length_replicate. lia.
Qed.

Lemma ensure_size_id total v l : zlen l = total -> ensure_size total v l = l.
Proof. intros <-. unfold ensure_size. by rewrite Z.eqb_refl. Qed.
