(* ===== verification/ContentOrder.v ===== *)
(** * The order of content on the client

    src/client/content_order.cpp: the client follows the server's content epoch.
    An epoch is accepted once, from the first message that carries it, and
    everything received for older ones and not yet presented is given up; the
    local ownership epoch (ClientOwnership) moves on with it, which fences the
    uploads already on their way to the screen.  The functions run under the
    client's content lock; here they are steps.  Telemetry and the wake-up of the
    renderer are left out. *)
From S2P Require Import Prelude RenderPlanning ClientOwnership PresentQueue ClientState.

Inductive ClientContentEpochDecision := Stale | Current | Advanced.
#[export] Instance ClientContentEpochDecision_eq_dec : EqDecision ClientContentEpochDecision.
Proof. solve_decision. Defined.

Definition reset_operation (owner : wd_client_content_owner) : ownership_op :=
  match owner with
  | WD_CLIENT_CONTENT_OWNER_VIDEO => wd_client_stream_ownership_reset_to_video
  | WD_CLIENT_CONTENT_OWNER_TILES => wd_client_stream_ownership_reset_to_tiles
  end.

(** The GPU frames of the cleared video queue are reset (PresentQueue). *)
Definition reset_pending_content_locked (content : ClientContent) (owner : wd_client_content_owner) : ClientContent :=
  let '(local_epoch, packed) := atomically (reset_operation owner) content.(cc_stream_ownership) in
  content
    <| cc_pending_dirty_tiles := grid_clear content.(cc_pending_dirty_tiles) |>
    <| cc_pending_dirty_rect_count := 0 |>
    <| cc_pending_present_generation := (fun _ => 0) <$> content.(cc_pending_present_generation) |>
    <| cc_video_present_queue := (video_queue_clear content.(cc_video_present_queue)).1 |>
    <| cc_pending_video_frame_dirty := false |>
    <| cc_stream_ownership := packed |>
    <| cc_pending_dirty_epoch := local_epoch |>.

(** The frame ids of a new video epoch start over. *)
Definition forget_video_frame_ids (owner : wd_client_content_owner) (stats : ClientStats) : ClientStats :=
  match owner with
  | WD_CLIENT_CONTENT_OWNER_VIDEO =>
      stats <| st_video_last_frame_id_rx := 0 |> <| st_video_last_frame_id_decoded := 0 |>
            <| st_video_last_frame_id_presented := 0 |>
  | WD_CLIENT_CONTENT_OWNER_TILES => stats
  end.

Definition take_content (state : ClientState) (content_epoch : Z) (owner : wd_client_content_owner) : ClientState :=
  state
    <| cs_content := (reset_pending_content_locked state.(cs_content) owner)
         <| cc_remote_content_epoch := content_epoch |> <| cc_remote_content_owner := owner |> |>
    <| cs_stats := forget_video_frame_ids owner state.(cs_stats) |>.

Definition client_accept_content_epoch (state : ClientState) (content_epoch : Z) (owner : wd_client_content_owner)
    : ClientState * ClientContentEpochDecision :=
  let content := state.(cs_content) in
  if content_epoch =? 0 then (state, Stale)
  else if (content_epoch <? content.(cc_remote_content_epoch)) ||
          ((content_epoch =? content.(cc_remote_content_epoch)) &&
           negb (bool_decide (owner = content.(cc_remote_content_owner))))
  then (state, Stale)
  else if content_epoch =? content.(cc_remote_content_epoch) then (state, Current)
  else (take_content state content_epoch owner, Advanced).

Definition client_reset_content_epoch (state : ClientState) (content_epoch : Z) (owner : wd_client_content_owner)
    : ClientState * bool :=
  if content_epoch =? 0 then (state, false)
  else
    let state := state <| cs_stats := state.(cs_stats) <| st_tile_content_epoch_presented := 0 |>
                                                       <| st_video_content_epoch_presented := 0 |> |> in
    (take_content state content_epoch owner, true).

(** ** tile_upload_epoch.hpp *)

Definition client_tile_upload_epoch (ownership : wd_client_content_ownership_snapshot) : Z := ownership.(os_epoch).

Definition client_tile_upload_matches_ownership (upload : ClientTileUpload)
    (ownership : wd_client_content_ownership_snapshot) : bool :=
  bool_decide (ownership.(os_owner) = WD_CLIENT_CONTENT_OWNER_TILES) &&
  (upload.(tu_ownership_epoch) =? ownership.(os_epoch)).

Definition ownership_of (content : ClientContent) : wd_client_content_ownership_snapshot :=
  wd_client_stream_ownership_snapshot (Some content.(cc_stream_ownership)).

(** ** Lemmas *)

Lemma accept_cases state epoch owner :
  let '(state', decision) := client_accept_content_epoch state epoch owner in
  match decision with
  | Stale => state' = state
  | Current => state' = state /\ epoch = state.(cs_content).(cc_remote_content_epoch) /\
      owner = state.(cs_content).(cc_remote_content_owner)
  | Advanced => state' = take_content state epoch owner /\ state.(cs_content).(cc_remote_content_epoch) < epoch
  end.
Proof.
  unfold client_accept_content_epoch. case_if; [done |].
  destruct (Z.ltb_spec epoch (cc_remote_content_epoch (cs_content state))) as [|Hge]; [done |].
  destruct (Z.eqb_spec epoch (cc_remote_content_epoch (cs_content state))) as [->|Hne]; cbn [orb andb].
  - by case_bool_decide; cbn [negb].
  - split; [done | lia].
Qed.

(** The ownership epoch after new content was taken. *)
Lemma take_content_epoch state epoch owner :
  let word := state.(cs_content).(cc_stream_ownership) in
  0 <= epoch_of word -> epoch_of word + 1 < 2 ^ 63 ->
  let content := (take_content state epoch owner).(cs_content) in
  epoch_of content.(cc_stream_ownership) = epoch_of word + 1 /\
  (ownership_of content).(os_owner) = owner /\
  content.(cc_remote_content_epoch) = epoch /\ content.(cc_remote_content_owner) = owner /\
  content.(cc_tile_present_queue) = state.(cs_content).(cc_tile_present_queue).
Proof.
  intros word H0 H1. unfold take_content, reset_pending_content_locked. cbn [cs_content set_field].
  destruct (atomically (reset_operation owner) (cc_stream_ownership (cs_content state))) as [local packed] eqn:E.
  destruct (atomically_epoch _ _ _ _ H0 H1 E) as (He & _ & Hadv).
  specialize (Hadv owner ltac:(by destruct owner)). unfold ownership_of.
  cbn [cc_stream_ownership cc_remote_content_epoch cc_remote_content_owner cc_tile_present_queue set_field
    wd_client_stream_ownership_snapshot os_owner].
  split_and!; [by rewrite He | | done | done | done].
  assert (packed = wd_client_stream_ownership_pack (next_epoch word) owner) as ->
    by (destruct owner; injection E as <- <-; done).
  apply pack_unpack. unfold next_epoch. rewrite u64_small; unfold epoch_of, word in *; [lia | mlia].
Qed.
