(* ===== verification/TileReassembly.v ===== *)
(** * Tile reassembly on the client

    src/client/tile_reassembly.cpp: validation of a received tile packet, the
    table of partially received tiles with its budgets and timeouts, and the
    repair requests for tiles given up; with the decompression wrapper of
    src/common/wd_zstd.c.

    An operation that accesses memory without a test of its own returns an
    [option]: [None] is an access outside the object.  Each call of the clock
    is a parameter: [now_ns] at the start of a packet, [done_ns] when a tile
    is complete, [repair_ns] the last sample taken by [queue_entry_repair]
    (every sample overwrites the deadline the previous one stored).  A
    [std::vector] that is recycled keeps its capacity: [vec].  The zstd
    library is a parameter: its size bound and its decompressor. *)
From S2P Require Import Prelude CFloat Wire Config Structs UdpTile TileGrid ClientState.

(** ** Data *)

Record vec := mk_vec { vec_data : list Z; vec_capacity : Z }.

Definition vec_empty : vec := mk_vec [] 0.
Definition vec_clear (v : vec) : vec := mk_vec [] v.(vec_capacity).
Definition vec_assign (n x : Z) (v : vec) : vec :=
  mk_vec (replicate (Z.to_nat n) x) (Z.max v.(vec_capacity) n).

Inductive TilePacketValidationResult := Valid | Identity | Geometry | Fragment.

Record CompletedTile := mk_CompletedTile {
  ct_valid : bool;
  ct_tile_id : Z;
  ct_tile_width : Z;
  ct_tile_height : Z;
  ct_generation : Z;
  ct_content_epoch : Z;
  ct_input_sequence : Z;
  ct_first_packet_ns : Z;
  ct_completed_timestamp_ns : Z;
  ct_compressed_size : Z;
  ct_packet_count : Z;
  ct_tile_bytes : vec;
}.

Definition no_tile : CompletedTile := mk_CompletedTile false 0 0 0 0 0 0 0 0 0 0 vec_empty.

Record Entry := mk_Entry {
  en_tile_id : Z;
  en_tile_size : Z;
  en_tile_width : Z;
  en_tile_height : Z;
  en_generation : Z;
  en_content_epoch : Z;
  en_input_sequence : Z;
  en_first_fragment_metadata_seen : bool;
  en_packet_count : Z;
  en_compressed_size : Z;
  en_compressed_payload : bool;
  en_first_packet_ns : Z;
  en_compressed : vec;
  en_received_bitmap : list Z;
  en_received_count : Z;
}.
#[export] Instance Entry_eta : Eta Entry := fun s =>
  mk_Entry s.(en_tile_id) s.(en_tile_size) s.(en_tile_width) s.(en_tile_height) s.(en_generation)
    s.(en_content_epoch) s.(en_input_sequence) s.(en_first_fragment_metadata_seen)
    s.(en_packet_count) s.(en_compressed_size) s.(en_compressed_payload) s.(en_first_packet_ns)
    s.(en_compressed) s.(en_received_bitmap) s.(en_received_count).

Definition empty_bitmap : list Z := [0; 0; 0; 0].

Definition new_entry : Entry :=
  mk_Entry 0 WD_TILE_16x16 0 0 0 0 0 false 0 0 true 0 vec_empty empty_bitmap 0.

Record TileReassembler := mk_TileReassembler {
  tr_entry_slots_by_size : list (list Z);
  tr_active_entries : list Entry;
  tr_recycled_entries : list Entry;
  tr_recycled_completed_buffers : list vec;
  tr_entry_frame_width : Z;
  tr_entry_frame_height : Z;
  tr_active_payload_bytes : Z;
  tr_max_active_entries : Z;
  tr_max_active_payload_bytes : Z;
}.
#[export] Instance TileReassembler_eta : Eta TileReassembler := fun s =>
  mk_TileReassembler s.(tr_entry_slots_by_size) s.(tr_active_entries) s.(tr_recycled_entries)
    s.(tr_recycled_completed_buffers) s.(tr_entry_frame_width) s.(tr_entry_frame_height)
    s.(tr_active_payload_bytes) s.(tr_max_active_entries) s.(tr_max_active_payload_bytes).

Definition INVALID_ENTRY_INDEX : Z := UINT32_MAX.

(** The constructor. *)
Definition new_TileReassembler (max_active_entries max_active_payload_bytes : Z) : TileReassembler :=
  mk_TileReassembler [[]; []; []; []] [] [] [] 0 0 0
    (Z.max 1 max_active_entries) (Z.max 1 max_active_payload_bytes).

(** ** Timeouts *)

Definition TILE_REASSEMBLY_TIMEOUT_MIN_NS : Z := WD_LINK_TILE_REASSEMBLY_MIN_NS.
Definition TILE_REASSEMBLY_TIMEOUT_DEFAULT_NS : Z := WD_LINK_TILE_REASSEMBLY_DEFAULT_NS.
Definition TILE_REASSEMBLY_TIMEOUT_MAX_NS : Z := WD_LINK_TILE_REASSEMBLY_MAX_NS.

Definition tile_reassembly_floor_ns (state : ClientState) : Z :=
  let floor_ns := state.(cs_tile_reassembly_floor_ns) in
  let floor_ns := if floor_ns =? 0 then TILE_REASSEMBLY_TIMEOUT_MIN_NS else floor_ns in
  Z.max TILE_REASSEMBLY_TIMEOUT_MIN_NS (Z.min TILE_REASSEMBLY_TIMEOUT_MAX_NS floor_ns).

Definition clamp_tile_reassembly_timeout_ns (state : ClientState) (ns : Z) : Z :=
  Z.max (tile_reassembly_floor_ns state) (Z.min TILE_REASSEMBLY_TIMEOUT_MAX_NS ns).

Definition clamp_retransmit_inflight_grace_ns (ns : Z) : Z :=
  Z.max WD_LINK_RETRANSMIT_INFLIGHT_MIN_NS (Z.min WD_LINK_RETRANSMIT_INFLIGHT_MAX_NS ns).

Definition current_tile_reassembly_timeout_ns (state : ClientState) : Z :=
  let timeout_ns := state.(cs_tile_reassembly_timeout_ns) in
  if timeout_ns =? 0 then Z.max (tile_reassembly_floor_ns state) TILE_REASSEMBLY_TIMEOUT_DEFAULT_NS
  else clamp_tile_reassembly_timeout_ns state timeout_ns.

Definition store_timeout (state : ClientState) (old_ns target_ns : Z) : ClientState :=
  if negb (old_ns =? target_ns) then
    fetch_add st_tile_reassembly_timeout_updates 1
      (state <| cs_tile_reassembly_timeout_ns := target_ns |>)
  else state.

Definition update_tile_reassembly_timeout (state : ClientState) (sample_ns : Z)
    (response_sample : bool) : ClientState :=
  if (sample_ns =? 0) || response_sample then state
  else
    let sample := double_of_Z sample_ns in
    let ewma := state.(cs_tile_reassembly_ewma_ns) in
    let deviation := state.(cs_tile_reassembly_deviation_ns) in
    let '(ewma, deviation) :=
      if SFleb ewma (double_of_Z 0) then
        (sample,
         double_div sample (double_of_Z WD_CLIENT_TILE_REASSEMBLY_INITIAL_DEVIATION_DIVISOR))
      else
        let delta := double_sub sample ewma in
        (double_add ewma
           (double_mul
              (double_div
                 (double_of_Z (WD_CLIENT_TILE_REASSEMBLY_EWMA_DENOMINATOR -
                               WD_CLIENT_TILE_REASSEMBLY_EWMA_OLD_NUMERATOR))
                 (double_of_Z WD_CLIENT_TILE_REASSEMBLY_EWMA_DENOMINATOR)) delta),
         double_add deviation
           (double_mul
              (double_div
                 (double_of_Z (WD_CLIENT_TILE_REASSEMBLY_DEVIATION_DENOMINATOR -
                               WD_CLIENT_TILE_REASSEMBLY_DEVIATION_OLD_NUMERATOR))
                 (double_of_Z WD_CLIENT_TILE_REASSEMBLY_DEVIATION_DENOMINATOR))
              (double_sub (SFabs delta) deviation))) in
    let state := state <| cs_tile_reassembly_ewma_ns := ewma |>
                       <| cs_tile_reassembly_deviation_ns := deviation |> in
    let jittered_tile_ns :=
      double_add
        (double_add ewma
           (double_mul (double_of_Z WD_CLIENT_TILE_REASSEMBLY_DEVIATION_MULTIPLIER) deviation))
        (double_of_Z WD_CLIENT_TILE_REASSEMBLY_TIMEOUT_SLACK_NS) in
    let target_ns := clamp_tile_reassembly_timeout_ns state (float_to_u64 jittered_tile_ns) in
    let old_ns := current_tile_reassembly_timeout_ns state in
    store_timeout state old_ns target_ns.

Definition reduce_tile_reassembly_timeout_after_loss (state : ClientState) : ClientState :=
  let old_ns := current_tile_reassembly_timeout_ns state in
  let target_ns := u64 (old_ns * WD_CLIENT_TILE_REASSEMBLY_LOSS_DECAY_PERCENT) / 100 in
  let target_ns :=
    if (old_ns >? TILE_REASSEMBLY_TIMEOUT_DEFAULT_NS) &&
       (target_ns >? TILE_REASSEMBLY_TIMEOUT_DEFAULT_NS)
    then TILE_REASSEMBLY_TIMEOUT_DEFAULT_NS else target_ns in
  let target_ns := clamp_tile_reassembly_timeout_ns state target_ns in
  let target := double_of_Z target_ns in
  let half := double_div target (double_of_Z WD_CLIENT_TILE_REASSEMBLY_INITIAL_DEVIATION_DIVISOR) in
  let state :=
    if SFltb target state.(cs_tile_reassembly_ewma_ns)
    then state <| cs_tile_reassembly_ewma_ns := target |> else state in
  let state :=
    if SFltb half state.(cs_tile_reassembly_deviation_ns)
    then state <| cs_tile_reassembly_deviation_ns := half |> else state in
  store_timeout state old_ns target_ns.

(** ** Repair requests *)

Definition clear_retx_inflight (state : ClientState) (tile_id generation : Z) : ClientState :=
  let total := state.(cs_config).(sc_total_tiles) in
  let inflight := state.(cs_retx_inflight_generation) in
  if (zlen inflight =? total) && (zlen state.(cs_retx_inflight_since_ns) =? total) &&
     (tile_id <? zlen inflight) && (aget 0 inflight tile_id =? generation)
  then state <| cs_retx_inflight_generation := aset inflight tile_id 0 |>
             <| cs_retx_inflight_since_ns := aset state.(cs_retx_inflight_since_ns) tile_id 0 |>
  else state.

Definition enqueue_retx_for_partial_timeout (state : ClientState) (tile_id generation : Z)
    : ClientState * bool :=
  let total_tiles := state.(cs_config).(sc_total_tiles) in
  if (total_tiles =? 0) || (tile_id >=? total_tiles) ||
     negb (zlen state.(cs_received_generation) =? total_tiles)
  then (state, false)
  else if aget 0 state.(cs_received_generation) tile_id >=? generation then (state, false)
  else
    let queued := ensure_size total_tiles 0 state.(cs_retx_queued_generation) in
    let inflight := ensure_size total_tiles 0 state.(cs_retx_inflight_generation) in
    let since := ensure_size total_tiles 0 state.(cs_retx_inflight_since_ns) in
    let was := aget 0 queued tile_id in
    let clear := aget 0 inflight tile_id =? generation in
    (state
       <| cs_retx_last_requested_generation :=
            ensure_size total_tiles 0 state.(cs_retx_last_requested_generation) |>
       <| cs_retx_last_request_ns := ensure_size total_tiles 0 state.(cs_retx_last_request_ns) |>
       <| cs_retx_queue := state.(cs_retx_queue) ++ (if was =? 0 then [tile_id] else []) |>
       <| cs_retx_queued_generation :=
            if was <? generation then aset queued tile_id generation else queued |>
       <| cs_retx_inflight_generation := if clear then aset inflight tile_id 0 else inflight |>
       <| cs_retx_inflight_since_ns := if clear then aset since tile_id 0 else since |>, true).

Definition tile_dimensions_from_header (header : wd_udp_tile_packet_decoded) : option (Z * Z) :=
  wd_tile_dimensions_for_size_code header.(ud_tile_size).

(** The base tiles [for_each_base_tile_covered] visits, in order. *)
Definition base_tiles_covered (tile_size tile_id : Z) (config : wd_server_config_payload) : list Z :=
  match wd_tile_dimensions_for_size_code tile_size with
  | None => []
  | Some (tile_width, tile_height) =>
      if (config.(sc_tile_width) =? 0) || (config.(sc_tile_height) =? 0) then []
      else
        let tiles_x := wd_tiles_for_width_with_tile config.(sc_width) tile_width in
        if tiles_x =? 0 then []
        else
          let x := wd_tile_start_x_for_tile tile_id tiles_x tile_width in
          let y := wd_tile_start_y_for_tile tile_id tiles_x tile_height in
          let w := wd_tile_visible_width_for_tile config.(sc_width) tile_id tiles_x tile_width in
          let h := wd_tile_visible_height_for_tile config.(sc_height) tile_id tiles_x tile_height in
          if (w =? 0) || (h =? 0) then []
          else
            let bx0 := x / config.(sc_tile_width) in
            let by0 := y / config.(sc_tile_height) in
            let bx1 := u32 (u32 (x + w) - 1) / config.(sc_tile_width) in
            let by1 := u32 (u32 (y + h) - 1) / config.(sc_tile_height) in
            let bx1 := if bx1 >=? config.(sc_tiles_x) then u32 (config.(sc_tiles_x) - 1) else bx1 in
            let by1 := if by1 >=? config.(sc_tiles_y) then u32 (config.(sc_tiles_y) - 1) else by1 in
            List.filter (fun base_id => base_id <? config.(sc_total_tiles))
              (by' ← (fun k => by0 + k) <$> zseq (by1 - by0 + 1);
               (fun k => u32 (u32 (by' * config.(sc_tiles_x)) + (bx0 + k))) <$> zseq (bx1 - bx0 + 1))
  end.

Definition for_each_base_tile_covered {A} (tile_size tile_id : Z) (config : wd_server_config_payload)
    (fn : A -> Z -> A) (a : A) : A :=
  fold_left fn (base_tiles_covered tile_size tile_id config) a.

Definition clear_entry_retx_inflight (state : ClientState) (tile_id tile_size generation : Z)
    : ClientState :=
  for_each_base_tile_covered tile_size tile_id state.(cs_config)
    (fun state base_id => clear_retx_inflight state base_id generation) state.

Definition queue_entry_repair (state : ClientState) (entry : Entry) (repair_ns : Z) : ClientState :=
  let state := state <| cs_summary_repair_loss_signal_until_ns :=
                          u64 (repair_ns + WD_LINK_LARGE_SUMMARY_REPAIR_LOSS_SIGNAL_NS) |> in
  let '(state, queued_any) :=
    for_each_base_tile_covered entry.(en_tile_size) entry.(en_tile_id) state.(cs_config)
      (fun '(state, queued_any) base_id =>
         let '(state, queued) := enqueue_retx_for_partial_timeout state base_id entry.(en_generation) in
         if queued then (state, true)
         else (clear_retx_inflight state base_id entry.(en_generation), queued_any))
      (state, false) in
  if queued_any then fetch_add st_partial_tile_retx_queued 1 state else state.

(** ** Decompression (src/common/wd_zstd.c) *)

Section zstd.
Context (ZSTD_compressBound : Z -> Z) (ZSTD_decompress : list Z -> Z -> option (list Z)).

Definition wd_zstd_compress_bound (src_size : Z) : Z := ZSTD_compressBound src_size.

(** The destination after a call that returns true. *)
Definition wd_zstd_decompress (src dst : list Z) (expected_decompressed_size : Z)
    : option (list Z) :=
  if (zlen src =? 0) || (zlen dst =? 0) then None
  else
    match ZSTD_decompress src (zlen dst) with
    | None => None
    | Some result =>
        if zlen result =? expected_decompressed_size then Some (write_at 0 result dst) else None
    end.

(** ** Packet validation *)

Definition packet_header_validation_result (header : wd_udp_tile_packet_decoded) (packet_size
    udp_payload_target : Z) (config : wd_server_config_payload) : TilePacketValidationResult :=
  if negb (header.(ud_session_id) =? config.(sc_session_id)) ||
     negb (header.(ud_connection_token) =? config.(sc_connection_token)) then Identity
  else
    match tile_dimensions_from_header header with
    | None => Geometry
    | Some (tile_width, tile_height) =>
        let packet_tiles_x := wd_tiles_for_width_with_tile config.(sc_width) tile_width in
        let packet_tiles_y := wd_tiles_for_height_with_tile config.(sc_height) tile_height in
        let packet_total_tiles := u32 (packet_tiles_x * packet_tiles_y) in
        if (packet_tiles_x =? 0) || (packet_tiles_y =? 0) ||
           (header.(ud_tile_id) >=? packet_total_tiles) || (packet_total_tiles >? UINT16_MAX)
        then Geometry
        else if (header.(ud_tile_pkt_count) =? 0) ||
                (header.(ud_tile_pkt_id) >=? header.(ud_tile_pkt_count)) ||
                (header.(ud_payload_size) =? 0) || (header.(ud_tile_payload_size) =? 0)
        then Fragment
        else
          let uncompressed_tile_bytes := u64 (u64 (tile_width * tile_height) * WD_BYTES_PER_PIXEL) in
          if (if wd_udp_tile_packet_is_compressed (Some header)
              then header.(ud_tile_payload_size) >? wd_zstd_compress_bound uncompressed_tile_bytes
              else negb (header.(ud_tile_payload_size) =? uncompressed_tile_bytes))
          then Fragment
          else if negb (wd_udp_tile_fragment_layout_valid (Some header) packet_size
                          udp_payload_target header.(ud_tile_payload_size))
          then Fragment
          else Valid
    end.

Definition validate_tile_packet_header (header : wd_udp_tile_packet_decoded) (packet_size
    udp_payload_target : Z) (config : wd_server_config_payload) : TilePacketValidationResult :=
  packet_header_validation_result header packet_size udp_payload_target config.

Definition max_tile_bytes : Z := WD_WIRE_TILE_MAX_WIDTH * WD_WIRE_TILE_MAX_HEIGHT * WD_BYTES_PER_PIXEL.

Definition max_recycled_compressed_capacity : Z := wd_zstd_compress_bound max_tile_bytes.

(** ** The table of partial tiles *)

(** [entry_slots_by_size_[tile_size][tile_id] = v], an unchecked access. *)
Definition set_slot (slots : list (list Z)) (tile_size tile_id v : Z) : option (list (list Z)) :=
  row ← slots !! Z.to_nat tile_size;
  if (0 <=? tile_size) && (0 <=? tile_id) && (tile_id <? zlen row)
  then Some (aset slots tile_size (aset row tile_id v)) else None.

(** The guard [tile_size < 4 && tile_id < slots[tile_size].size()]. *)
Definition slot_exists (slots : list (list Z)) (tile_size tile_id : Z) : bool :=
  (tile_size <? zlen slots) && (tile_id <? zlen (aget [] slots tile_size)).

Definition recycle_entry (tr : TileReassembler) (entry : Entry) : TileReassembler :=
  let compressed := vec_clear entry.(en_compressed) in
  let compressed :=
    if compressed.(vec_capacity) >? max_recycled_compressed_capacity then vec_empty else compressed in
  let entry := entry <| en_compressed := compressed |> <| en_received_bitmap := empty_bitmap |> in
  if zlen tr.(tr_recycled_entries) <? WD_CLIENT_TILE_REASSEMBLY_MAX_RECYCLED_ENTRIES
  then tr <| tr_recycled_entries := tr.(tr_recycled_entries) ++ [entry] |> else tr.

Definition remove_entry (tr : TileReassembler) (entry_index : Z) : option TileReassembler :=
  let entries := tr.(tr_active_entries) in
  if entry_index >=? zlen entries then Some tr
  else
    retired ← entries !! Z.to_nat entry_index;
    let size := zlen retired.(en_compressed).(vec_data) in
    let bytes := if tr.(tr_active_payload_bytes) >=? size then tr.(tr_active_payload_bytes) - size else 0 in
    slots ← (if slot_exists tr.(tr_entry_slots_by_size) retired.(en_tile_size) retired.(en_tile_id)
             then set_slot tr.(tr_entry_slots_by_size) retired.(en_tile_size) retired.(en_tile_id)
                    INVALID_ENTRY_INDEX
             else Some tr.(tr_entry_slots_by_size));
    let last_index := zlen entries - 1 in
    moved ← (if negb (entry_index =? last_index) then
               moved ← entries !! Z.to_nat last_index;
               slots ← set_slot slots moved.(en_tile_size) moved.(en_tile_id) (u32 entry_index);
               Some (aset entries entry_index moved, slots)
             else Some (entries, slots));
    Some (recycle_entry
            (tr <| tr_active_payload_bytes := bytes |>
                <| tr_entry_slots_by_size := snd moved |>
                <| tr_active_entries := take (Z.to_nat last_index) (fst moved) |>) retired).

(** [while (!active_entries_.empty()) remove_entry(size - 1)]: one entry less
    per round. *)
Fixpoint remove_all (fuel : nat) (tr : TileReassembler) : option TileReassembler :=
  match fuel with
  | O => Some tr
  | S fuel =>
      if zlen tr.(tr_active_entries) =? 0 then Some tr
      else tr ← remove_entry tr (zlen tr.(tr_active_entries) - 1); remove_all fuel tr
  end.

Definition remove_all_entries (tr : TileReassembler) : option TileReassembler :=
  remove_all (length tr.(tr_active_entries)) tr.

Definition reset (tr : TileReassembler) : option TileReassembler :=
  tr ← remove_all_entries tr;
  Some (tr <| tr_entry_slots_by_size := (fun _ => []) <$> tr.(tr_entry_slots_by_size) |>
           <| tr_entry_frame_width := 0 |> <| tr_entry_frame_height := 0 |>
           <| tr_active_payload_bytes := 0 |>).

(** The slot vector of one tile size, [None] where the loop returns false. *)
Definition new_slots (config : wd_server_config_payload) (tile_size : Z) : option (list Z) :=
  match wd_tile_dimensions_for_size_code tile_size with
  | None => None
  | Some (tile_width, tile_height) =>
      let tiles_x := wd_tiles_for_width_with_tile config.(sc_width) tile_width in
      let tiles_y := wd_tiles_for_height_with_tile config.(sc_height) tile_height in
      let total_tiles := u32 (tiles_x * tiles_y) in
      if (tiles_x =? 0) || (tiles_y =? 0) || (total_tiles >? UINT16_MAX) then None
      else Some (replicate (Z.to_nat total_tiles) INVALID_ENTRY_INDEX)
  end.

Definition configure_entry_slots (tr : TileReassembler) (config : wd_server_config_payload)
    : option (TileReassembler * bool) :=
  if (tr.(tr_entry_frame_width) =? config.(sc_width)) &&
     (tr.(tr_entry_frame_height) =? config.(sc_height)) && negb (tr.(tr_entry_frame_width) =? 0)
  then Some (tr, true)
  else
    match mapM (new_slots config) [WD_TILE_128x64; WD_TILE_64x64; WD_TILE_32x32; WD_TILE_16x16] with
    | None => Some (tr, false)
    | Some slots =>
        tr ← remove_all_entries tr;
        Some (tr <| tr_entry_slots_by_size := slots |>
                 <| tr_entry_frame_width := config.(sc_width) |>
                 <| tr_entry_frame_height := config.(sc_height) |>, true)
    end.

Definition find_entry_index (tr : TileReassembler) (tile_size tile_id : Z) : Z :=
  if negb (slot_exists tr.(tr_entry_slots_by_size) tile_size tile_id) then SIZE_MAX
  else
    let entry_index := aget 0 (aget [] tr.(tr_entry_slots_by_size) tile_size) tile_id in
    if entry_index =? INVALID_ENTRY_INDEX then SIZE_MAX else entry_index.

Definition activate_entry (tr : TileReassembler) (tile_size tile_id : Z)
    : option (TileReassembler * Z) :=
  if negb (slot_exists tr.(tr_entry_slots_by_size) tile_size tile_id) ||
     (zlen tr.(tr_active_entries) >=? INVALID_ENTRY_INDEX)
  then Some (tr, SIZE_MAX)
  else
    let entry_index := zlen tr.(tr_active_entries) in
    let '(entry, recycled) :=
      match list.last tr.(tr_recycled_entries) with
      | None => (new_entry, tr.(tr_recycled_entries))
      | Some entry => (entry, removelast tr.(tr_recycled_entries))
      end in
    let entry := mk_Entry tile_id tile_size 0 0 0 0 0 entry.(en_first_fragment_metadata_seen) 0 0
                   true 0 (vec_clear entry.(en_compressed)) empty_bitmap 0 in
    slots ← set_slot tr.(tr_entry_slots_by_size) tile_size tile_id (u32 entry_index);
    Some (tr <| tr_active_entries := tr.(tr_active_entries) ++ [entry] |>
             <| tr_recycled_entries := recycled |> <| tr_entry_slots_by_size := slots |>, entry_index).

Definition acquire_completed_tile_buffer (tr : TileReassembler) (size : Z) : TileReassembler * vec :=
  let '(tr, buffer) :=
    match list.last tr.(tr_recycled_completed_buffers) with
    | None => (tr, vec_empty)
    | Some buffer =>
        (tr <| tr_recycled_completed_buffers := removelast tr.(tr_recycled_completed_buffers) |>, buffer)
    end in
  (tr, vec_assign size 0 buffer).

Definition recycle_completed_tile_buffer (tr : TileReassembler) (buffer : vec) : TileReassembler :=
  let buffer := vec_clear buffer in
  if (buffer.(vec_capacity) >? max_tile_bytes) ||
     (zlen tr.(tr_recycled_completed_buffers) >=? WD_CLIENT_TILE_REASSEMBLY_MAX_RECYCLED_BUFFERS)
  then tr
  else tr <| tr_recycled_completed_buffers := tr.(tr_recycled_completed_buffers) ++ [buffer] |>.

Definition active_entry_count (tr : TileReassembler) : Z := zlen tr.(tr_active_entries).
Definition slot_count (tr : TileReassembler) : Z :=
  fold_left (fun total slots => total + zlen slots) tr.(tr_entry_slots_by_size) 0.

(** [received_bitmap[id >> 6] & (1 << (id & 63))]. *)
Definition bitmap_mask (packet_id : Z) : Z := u64 (Z.shiftl 1 (Z.land packet_id 63)).
Definition bitmap_word (packet_id : Z) : Z := Z.shiftr packet_id 6.
Definition bit_received (bitmap : list Z) (packet_id : Z) : bool :=
  negb (Z.land (aget 0 bitmap (bitmap_word packet_id)) (bitmap_mask packet_id) =? 0).

Definition count_missing_packets (entry : Entry) : Z :=
  fold_left (fun missing packet_id =>
      if negb (bit_received entry.(en_received_bitmap) packet_id) then missing + 1 else missing)
    (zseq entry.(en_packet_count)) 0.

Definition expire_entry (state : ClientState) (tr : TileReassembler) (entry_index repair_ns : Z)
    : option (ClientState * TileReassembler) :=
  if entry_index >=? zlen tr.(tr_active_entries) then Some (state, tr)
  else
    entry ← tr.(tr_active_entries) !! Z.to_nat entry_index;
    let missing_packets := count_missing_packets entry in
    let state := fetch_add st_partial_tiles_timed_out 1 state in
    let state := fetch_add st_partial_tile_missing_packets missing_packets state in
    let state := reduce_tile_reassembly_timeout_after_loss state in
    let state := queue_entry_repair state entry repair_ns in
    tr ← remove_entry tr entry_index;
    Some (state, tr).

Definition evict_entry_for_budget (state : ClientState) (tr : TileReassembler)
    (entry_index repair_ns : Z) : option (ClientState * TileReassembler) :=
  if entry_index >=? zlen tr.(tr_active_entries) then Some (state, tr)
  else
    entry ← tr.(tr_active_entries) !! Z.to_nat entry_index;
    let state := queue_entry_repair state entry repair_ns in
    let state := fetch_add st_reassembly_budget_evictions 1 state in
    tr ← remove_entry tr entry_index;
    Some (state, tr).

Definition over_budget (tr : TileReassembler) (payload_size : Z) : bool :=
  (zlen tr.(tr_active_entries) >=? tr.(tr_max_active_entries)) ||
  (u64 (tr.(tr_active_payload_bytes) + payload_size) >? tr.(tr_max_active_payload_bytes)).

(** The index of the entry whose first packet is the oldest. *)
Definition oldest_entry (entries : list Entry) : Z :=
  fold_left (fun oldest i =>
      if (aget new_entry entries i).(en_first_packet_ns) <?
         (aget new_entry entries oldest).(en_first_packet_ns)
      then i else oldest)
    ((fun i => i + 1) <$> zseq (zlen entries - 1)) 0.

(** The eviction loop; each round removes an entry. *)
Fixpoint evict_oldest (fuel : nat) (state : ClientState) (tr : TileReassembler)
    (payload_size repair_ns : Z) : option (ClientState * TileReassembler) :=
  match fuel with
  | O => Some (state, tr)
  | S fuel =>
      if negb (zlen tr.(tr_active_entries) =? 0) && over_budget tr payload_size then
        '(state, tr) ← evict_entry_for_budget state tr (oldest_entry tr.(tr_active_entries)) repair_ns;
        evict_oldest fuel state tr payload_size repair_ns
      else Some (state, tr)
  end.

Definition ensure_budget (state : ClientState) (tr : TileReassembler) (payload_size repair_ns : Z)
    : option (ClientState * TileReassembler * bool) :=
  if payload_size >? tr.(tr_max_active_payload_bytes)
  then Some (fetch_add st_reassembly_budget_drops 1 state, tr, false)
  else
    '(state, tr) ← evict_oldest (length tr.(tr_active_entries)) state tr payload_size repair_ns;
    if over_budget tr payload_size
    then Some (fetch_add st_reassembly_budget_drops 1 state, tr, false)
    else Some (state, tr, true).

Definition next_expiry_deadline_ns (tr : TileReassembler) (state : ClientState) : Z :=
  let timeout_ns := current_tile_reassembly_timeout_ns state in
  fold_left (fun deadline_ns entry =>
      let first := entry.(en_first_packet_ns) in
      if first =? 0 then deadline_ns
      else
        let candidate := if first >? UINT64_MAX - timeout_ns then UINT64_MAX else first + timeout_ns in
        if (deadline_ns =? 0) || (candidate <? deadline_ns) then candidate else deadline_ns)
    tr.(tr_active_entries) 0.

Definition entry_stale (state : ClientState) (now_ns : Z) (entry : Entry) : bool :=
  negb (entry.(en_first_packet_ns) =? 0) &&
  (u64 (now_ns - entry.(en_first_packet_ns)) >? current_tile_reassembly_timeout_ns state).

(** The scan of [expire_stale_entries]: a round removes the entry at
    [entry_index] or steps over it. *)
Fixpoint expire_from (fuel : nat) (state : ClientState) (tr : TileReassembler)
    (entry_index now_ns repair_ns : Z) : option (ClientState * TileReassembler) :=
  match fuel with
  | O => Some (state, tr)
  | S fuel =>
      if entry_index <? zlen tr.(tr_active_entries) then
        entry ← tr.(tr_active_entries) !! Z.to_nat entry_index;
        if entry_stale state now_ns entry then
          '(state, tr) ← expire_entry state tr entry_index repair_ns;
          expire_from fuel state tr entry_index now_ns repair_ns
        else expire_from fuel state tr (entry_index + 1) now_ns repair_ns
      else Some (state, tr)
  end.

Definition expire_stale_entries (state : ClientState) (tr : TileReassembler) (now_ns repair_ns : Z)
    : option (ClientState * TileReassembler) :=
  expire_from (length tr.(tr_active_entries)) state tr 0 now_ns repair_ns.

(** ** Receiving a packet *)

(** Whether some covered base tile is older than the packet and none newer. *)
Definition generation_wanted (state : ClientState) (header : wd_udp_tile_packet_decoded) : bool :=
  let received := state.(cs_received_generation) in
  let '(covered_any, covered_newer, covered_older) :=
    for_each_base_tile_covered header.(ud_tile_size) header.(ud_tile_id) state.(cs_config)
      (fun '(any, newer, older) base_id =>
         if base_id >=? zlen received then (any, newer, older)
         else
           let r := aget 0 received base_id in
           (true, newer || (r >? header.(ud_tile_generation)), older || (r <? header.(ud_tile_generation))))
      (false, false, false) in
  negb (negb covered_any || covered_newer || negb covered_older).

(** The retransmission book-keeping of a new entry: the response time of the
    request the packet answers, and the base tiles marked as in flight. *)
Definition note_retx_response (state : ClientState) (header : wd_udp_tile_packet_decoded)
    (generation first_packet_ns now_ns : Z) : ClientState :=
  let total := state.(cs_config).(sc_total_tiles) in
  let '(state, retx_response_ns) :=
    for_each_base_tile_covered header.(ud_tile_size) header.(ud_tile_id) state.(cs_config)
      (fun '(state, response) base_id =>
         if base_id >=? total then (state, response)
         else
           let requested := state.(cs_retx_last_requested_generation) in
           let request_ns := state.(cs_retx_last_request_ns) in
           let response :=
             if (zlen requested =? total) && (zlen request_ns =? total) &&
                negb (aget 0 requested base_id =? 0) && (aget 0 requested base_id <=? generation) &&
                negb (aget 0 request_ns base_id =? 0) && (now_ns >=? aget 0 request_ns base_id)
             then
               let sample_ns := now_ns - aget 0 request_ns base_id in
               if (response =? 0) || (sample_ns <? response) then sample_ns else response
             else response in
           let state :=
             if (zlen state.(cs_retx_inflight_generation) =? total) &&
                (zlen state.(cs_retx_inflight_since_ns) =? total)
             then state <| cs_retx_inflight_generation :=
                             aset state.(cs_retx_inflight_generation) base_id generation |>
                        <| cs_retx_inflight_since_ns :=
                             aset state.(cs_retx_inflight_since_ns) base_id first_packet_ns |>
             else state in
           (state, response)) (state, 0) in
  if negb (retx_response_ns =? 0) then
    let state := state <| cs_retx_inflight_grace_ns :=
      clamp_retransmit_inflight_grace_ns (u64 (retx_response_ns + retx_response_ns / 2)) |> in
    let state := fetch_add st_retx_response_samples 1 state in
    let state := fetch_add st_retx_response_sum_ns retx_response_ns state in
    update_tile_reassembly_timeout state retx_response_ns true
  else state.

Definition set_entry (tr : TileReassembler) (entry_index : Z) (entry : Entry) : TileReassembler :=
  tr <| tr_active_entries := aset tr.(tr_active_entries) entry_index entry |>.

(** The entry a tile's first packet opens; the flag is false where
    [process_udp_packet] returns. *)
Definition open_entry (state : ClientState) (tr : TileReassembler)
    (header : wd_udp_tile_packet_decoded) (tile_width tile_height now_ns repair_ns : Z)
    : option (ClientState * TileReassembler * Z * bool) :=
  '(state, tr, within) ← ensure_budget state tr header.(ud_tile_payload_size) repair_ns;
  if negb within then Some (state, tr, SIZE_MAX, false)
  else
    '(tr, entry_index) ← activate_entry tr header.(ud_tile_size) header.(ud_tile_id);
    if entry_index =? SIZE_MAX then
      Some (fetch_add st_udp_ignored_invalid 1 state, tr, entry_index, false)
    else
      entry ← tr.(tr_active_entries) !! Z.to_nat entry_index;
      let state := note_retx_response state header header.(ud_tile_generation) now_ns now_ns in
      let compressed := vec_assign header.(ud_tile_payload_size) 0 entry.(en_compressed) in
      let entry := mk_Entry entry.(en_tile_id) entry.(en_tile_size) tile_width tile_height
        header.(ud_tile_generation) header.(ud_content_epoch)
        (if header.(ud_tile_pkt_id) =? 0 then header.(ud_input_sequence) else 0)
        (header.(ud_tile_pkt_id) =? 0) header.(ud_tile_pkt_count) header.(ud_tile_payload_size)
        (wd_udp_tile_packet_is_compressed (Some header)) now_ns compressed empty_bitmap 0 in
      Some (state,
            (set_entry tr entry_index entry)
              <| tr_active_payload_bytes :=
                   u64 (tr.(tr_active_payload_bytes) + zlen compressed.(vec_data)) |>,
            entry_index, true).

(** A conflicting fragment: the tile is given up and asked for again. *)
Definition drop_conflict (state : ClientState) (tr : TileReassembler) (entry : Entry)
    (entry_index repair_ns : Z) : option (CompletedTile * ClientState * TileReassembler) :=
  let state := fetch_add st_tile_fragment_conflicts 1 state in
  let state := fetch_add st_udp_ignored_invalid 1 state in
  let state := queue_entry_repair state entry repair_ns in
  tr ← remove_entry tr entry_index;
  Some (no_tile, state, tr).

(** A complete tile: its bytes decompressed or copied out, its entry removed. *)
Definition finish_entry (state : ClientState) (tr : TileReassembler) (entry : Entry)
    (entry_index uncompressed_tile_bytes repair_ns done_ns : Z)
    : option (CompletedTile * ClientState * TileReassembler) :=
  let '(tr, buffer) := acquire_completed_tile_buffer tr uncompressed_tile_bytes in
  let data := entry.(en_compressed).(vec_data) in
  let '(state, out) :=
    if entry.(en_compressed_payload) then
      match wd_zstd_decompress data buffer.(vec_data) uncompressed_tile_bytes with
      | None => (fetch_add st_tile_decompress_failures 1 state, None)
      | Some out => (state, Some out)
      end
    else if negb (zlen data =? uncompressed_tile_bytes) then
      (fetch_add st_udp_ignored_invalid 1 state, None)
    else (state, Some (take (Z.to_nat uncompressed_tile_bytes) data)) in
  match out with
  | None =>
      let state := queue_entry_repair state entry repair_ns in
      let tr := recycle_completed_tile_buffer tr buffer in
      tr ← remove_entry tr entry_index;
      Some (no_tile, state, tr)
  | Some bytes =>
      let completed := mk_CompletedTile true entry.(en_tile_id) entry.(en_tile_width)
        entry.(en_tile_height) entry.(en_generation) entry.(en_content_epoch)
        entry.(en_input_sequence) entry.(en_first_packet_ns) done_ns entry.(en_compressed_size)
        entry.(en_packet_count) (mk_vec bytes buffer.(vec_capacity)) in
      let state :=
        if done_ns >=? entry.(en_first_packet_ns)
        then update_tile_reassembly_timeout state (done_ns - entry.(en_first_packet_ns)) false
        else state in
      let state := clear_entry_retx_inflight state entry.(en_tile_id) entry.(en_tile_size)
                     entry.(en_generation) in
      tr ← remove_entry tr entry_index;
      Some (completed, state, tr)
  end.

(** [memcpy]/[memcmp] operands: [len] bytes at [off], [None] outside. *)
Definition read_bytes (mem : list Z) (off len : Z) : option (list Z) :=
  if (0 <=? off) && (0 <=? len) && (off + len <=? zlen mem) then Some (slice off len mem) else None.

(** The fragment stored in its entry. *)
Definition store_fragment (state : ClientState) (tr : TileReassembler)
    (header : wd_udp_tile_packet_decoded) (packet : list Z) (udp_payload_target entry_index
    uncompressed_tile_bytes repair_ns done_ns : Z)
    : option (CompletedTile * ClientState * TileReassembler) :=
  entry ← tr.(tr_active_entries) !! Z.to_nat entry_index;
  if (header.(ud_tile_pkt_id) =? 0) && entry.(en_first_fragment_metadata_seen) &&
     negb (entry.(en_input_sequence) =? header.(ud_input_sequence))
  then drop_conflict state tr entry entry_index repair_ns
  else
    let entry :=
      if header.(ud_tile_pkt_id) =? 0
      then entry <| en_first_fragment_metadata_seen := true |>
                 <| en_input_sequence := header.(ud_input_sequence) |>
      else entry in
    let tr := set_entry tr entry_index entry in
    if negb (entry.(en_packet_count) =? header.(ud_tile_pkt_count)) ||
       negb (entry.(en_compressed_size) =? header.(ud_tile_payload_size)) ||
       negb (Bool.eqb entry.(en_compressed_payload) (wd_udp_tile_packet_is_compressed (Some header)))
    then Some (no_tile, fetch_add st_udp_ignored_invalid 1 state, tr)
    else
      let offset := u32 (header.(ud_tile_pkt_id) * udp_payload_target) in
      let data := entry.(en_compressed).(vec_data) in
      word ← entry.(en_received_bitmap) !! Z.to_nat (bitmap_word header.(ud_tile_pkt_id));
      payload ← read_bytes packet header.(ud_header_size) header.(ud_payload_size);
      old ← read_bytes data offset header.(ud_payload_size);
      if Z.land word (bitmap_mask header.(ud_tile_pkt_id)) =? 0 then
        let entry :=
          entry <| en_compressed := mk_vec (write_at offset payload data) entry.(en_compressed).(vec_capacity) |>
                <| en_received_bitmap := aset entry.(en_received_bitmap) (bitmap_word header.(ud_tile_pkt_id))
                     (Z.lor word (bitmap_mask header.(ud_tile_pkt_id))) |>
                <| en_received_count := u16 (entry.(en_received_count) + 1) |> in
        let tr := set_entry tr entry_index entry in
        if negb (entry.(en_received_count) =? entry.(en_packet_count)) then Some (no_tile, state, tr)
        else finish_entry state tr entry entry_index uncompressed_tile_bytes repair_ns done_ns
      else if negb (bool_decide (old = payload)) then
        drop_conflict state tr entry entry_index repair_ns
      else if negb (entry.(en_received_count) =? entry.(en_packet_count)) then Some (no_tile, state, tr)
      else finish_entry state tr entry entry_index uncompressed_tile_bytes repair_ns done_ns.

Definition ignore (counters : list (ClientState -> ClientState)) (state : ClientState)
    (tr : TileReassembler) : option (CompletedTile * ClientState * TileReassembler) :=
  Some (no_tile, fold_left (fun state f => f state) counters state, tr).

Definition is_entry (tr : TileReassembler) (entry_index : Z) (test : Entry -> bool) : option bool :=
  if entry_index =? SIZE_MAX then Some false
  else entry ← tr.(tr_active_entries) !! Z.to_nat entry_index; Some (test entry).

(** The packet that passed validation, after the slot table is configured. *)
Definition receive_fragment (state : ClientState) (tr : TileReassembler)
    (header : wd_udp_tile_packet_decoded) (packet : list Z) (udp_payload_target tile_width tile_height
    uncompressed_tile_bytes now_ns repair_ns done_ns : Z)
    : option (CompletedTile * ClientState * TileReassembler) :=
  let entry_index := find_entry_index tr header.(ud_tile_size) header.(ud_tile_id) in
  let same_epoch entry := entry.(en_content_epoch) =? header.(ud_content_epoch) in
  older ← is_entry tr entry_index (fun entry =>
    same_epoch entry && (header.(ud_tile_generation) <? entry.(en_generation)));
  if (older : bool) then ignore [fetch_add st_udp_ignored_old_generation 1] state tr
  else
    expired ← is_entry tr entry_index (fun entry =>
      same_epoch entry && (entry.(en_generation) =? header.(ud_tile_generation)) &&
      entry_stale state now_ns entry);
    '(state, tr, entry_index) ←
      (if (expired : bool) then
         '(state, tr) ← expire_entry state tr entry_index repair_ns; Some (state, tr, SIZE_MAX)
       else Some (state, tr, entry_index));
    current ← is_entry tr entry_index (fun entry =>
      same_epoch entry && (entry.(en_generation) =? header.(ud_tile_generation)));
    '(state, tr, entry_index, go_on) ←
      (if (current : bool) then Some (state, tr, entry_index, true)
       else
         '(state, tr) ←
           (if negb (entry_index =? SIZE_MAX) then
              old_entry ← tr.(tr_active_entries) !! Z.to_nat entry_index;
              let state := clear_entry_retx_inflight state old_entry.(en_tile_id)
                             old_entry.(en_tile_size) old_entry.(en_generation) in
              tr ← remove_entry tr entry_index;
              Some (state, tr)
            else Some (state, tr));
         open_entry state tr header tile_width tile_height now_ns repair_ns);
    if (go_on : bool) then
      store_fragment state tr header packet udp_payload_target entry_index uncompressed_tile_bytes
        repair_ns done_ns
    else Some (no_tile, state, tr).

Definition process_udp_packet (state : ClientState) (tr : TileReassembler) (packet : ptr (list Z))
    (now_ns repair_ns done_ns : Z) : option (CompletedTile * ClientState * TileReassembler) :=
  let invalid counter `{!FieldSetter counter} :=
    [fetch_add st_udp_ignored_invalid 1; fetch_add counter 1] in
  match packet with
  | NULL => ignore (invalid st_udp_invalid_short) state tr
  | Some packet =>
      if zlen packet <? WD_UDP_TILE_HEADER_MIN_SIZE then
        ignore (invalid st_udp_invalid_short) state tr
      else
        match wd_udp_tile_packet_decode packet with
        | None => ignore (invalid st_udp_invalid_header) state tr
        | Some header =>
            let udp_payload_target :=
              if state.(cs_config).(sc_udp_payload_target) =? 0 then WD_UDP_PAYLOAD_TARGET
              else state.(cs_config).(sc_udp_payload_target) in
            match tile_dimensions_from_header header with
            | None => ignore (invalid st_udp_invalid_geometry) state tr
            | Some (tile_width, tile_height) =>
                let uncompressed_tile_bytes :=
                  u64 (u64 (tile_width * tile_height) * WD_BYTES_PER_PIXEL) in
                match validate_tile_packet_header header (zlen packet) udp_payload_target
                        state.(cs_config) with
                | Identity => ignore [fetch_add st_udp_ignored_stale_session 1] state tr
                | Geometry => ignore (invalid st_udp_invalid_geometry) state tr
                | Fragment => ignore (invalid st_udp_invalid_fragment) state tr
                | Valid =>
                    if negb (generation_wanted state header) then
                      ignore [fetch_add st_udp_ignored_old_generation 1] state tr
                    else
                      '(tr, configured) ← configure_entry_slots tr state.(cs_config);
                      if negb configured then ignore [fetch_add st_udp_ignored_invalid 1] state tr
                      else receive_fragment state tr header packet udp_payload_target tile_width
                             tile_height uncompressed_tile_bytes now_ns repair_ns done_ns
                end
            end
        end
  end.

(** ** The slot table and the active entries

    [table_ok]: the slot of every active entry holds its index, and every
    other slot is free; so a slot never points outside the array, and no two
    entries stand for the same tile. *)

Definition slot_at (slots : list (list Z)) (s t : Z) : option Z :=
  if (0 <=? s) && (0 <=? t) then row ← slots !! Z.to_nat s; row !! Z.to_nat t else None.

Record table_ok (slots : list (list Z)) (active : list Entry) : Prop := {
  tb_size : length slots = 4%nat;
  tb_count : zlen active <= UINT32_MAX;
  tb_entry : forall i e, active !! i = Some e ->
    slot_at slots e.(en_tile_size) e.(en_tile_id) = Some (Z.of_nat i);
  tb_slot : forall s t v, slot_at slots s t = Some v -> v <> INVALID_ENTRY_INDEX ->
    exists i e, v = Z.of_nat i /\ active !! i = Some e /\ e.(en_tile_size) = s /\ e.(en_tile_id) = t;
}.

Lemma slot_at_range slots s t v : slot_at slots s t = Some v -> 0 <= s /\ 0 <= t.
Proof. unfold slot_at. case_if; [bool_cases; done | done]. Qed.

Lemma slot_exists_iff slots s t : 0 <= s -> 0 <= t ->
  slot_exists slots s t = true <-> is_Some (slot_at slots s t).
Proof.
  intros Hs Ht. unfold slot_exists, slot_at, aget.
  rewrite (proj2 (Z.leb_le 0 s) Hs), (proj2 (Z.leb_le 0 t) Ht). cbn [andb].
  rewrite nth_lookup. destruct (slots !! Z.to_nat s) as [row|] eqn:Er; cbn [from_option mbind option_bind]; unfold id.
  - apply lookup_lt_Some in Er. split.
    + intros H. bool_cases. apply lookup_lt_is_Some_2. unfold zlen in *. lia.
    + intros H%lookup_lt_is_Some. apply andb_true_iff. rewrite !Z.ltb_lt. unfold zlen. lia.
  - apply lookup_ge_None in Er. split; [| by intros [? ?]].
    intros H. bool_cases. unfold zlen in *. lia.
Qed.

Lemma aget_slot slots s t v : slot_at slots s t = Some v -> aget 0 (aget [] slots s) t = v.
Proof.
  unfold slot_at, aget. case_if; [| done]. rewrite !nth_lookup.
  destruct (slots !! Z.to_nat s); cbn; [| done]. intros E'. by rewrite E'.
Qed.

Lemma set_slot_spec slots s t v :
  is_Some (slot_at slots s t) -> exists slots', set_slot slots s t v = Some slots' /\
    length slots' = length slots /\ slot_at slots' s t = Some v /\
    (forall s' t', (s', t') <> (s, t) -> slot_at slots' s' t' = slot_at slots s' t') /\
    (forall k, zlen (aget [] slots' k) = zlen (aget [] slots k)).
Proof.
  intros [w Hw]. pose proof (slot_at_range _ _ _ _ Hw) as [Hs Ht].
  unfold slot_at in Hw. case_if_in Hw; [| done].
  destruct (slots !! Z.to_nat s) as [row|] eqn:Er; cbn in Hw; [| done].
  pose proof (lookup_lt_Some _ _ _ Hw) as Hlt. pose proof (lookup_lt_Some _ _ _ Er) as Hlr.
  unfold set_slot. rewrite Er. cbn [mbind option_bind].
  rewrite (proj2 (Z.leb_le 0 s) Hs), (proj2 (Z.leb_le 0 t) Ht), (proj2 (Z.ltb_lt t (zlen row)))
    by (unfold zlen; lia). cbn [andb].
  eexists. split; [done |]. unfold aset. split; [by rewrite length_insert |].
  split; [| split].
  - unfold slot_at. rewrite (proj2 (Z.leb_le 0 s) Hs), (proj2 (Z.leb_le 0 t) Ht). cbn [andb].
    rewrite list_lookup_insert_eq by lia. cbn. by rewrite list_lookup_insert_eq by lia.
  - intros s' t' Hne. unfold slot_at. destruct ((0 <=? s') && (0 <=? t')) eqn:Eb; [| done].
    bool_cases. destruct (decide (s' = s)) as [->|].
    + rewrite list_lookup_insert_eq, Er by lia. cbn.
      rewrite list_lookup_insert_ne; [done |]. intros Heq. apply Hne. f_equal. lia.
    + rewrite list_lookup_insert_ne by lia. done.
  - intros k. unfold aget. rewrite !nth_lookup.
    destruct (decide (Z.to_nat k = Z.to_nat s)) as [->|].
    + rewrite list_lookup_insert_eq, Er by lia. cbn. unfold zlen. by rewrite length_insert.
    + by rewrite list_lookup_insert_ne by lia.
Qed.

(** *** Removal by moving the last element into the hole *)

Definition swap_remove {A} (l : list A) (i : nat) : list A :=
  match list.last l with
  | Some x => take (length l - 1) (<[i := x]> l)
  | None => l
  end.

Lemma lookup_last {A} (l : list A) : list.last l = l !! (length l - 1)%nat.
Proof. rewrite last_lookup. f_equal. lia. Qed.

Lemma swap_remove_lookup {A} (l : list A) i j x : (i < length l)%nat ->
  swap_remove l i !! j = Some x <->
  (j < length l - 1)%nat /\
  (if decide (j = i) then l !! (length l - 1)%nat = Some x else l !! j = Some x).
Proof.
  intros Hi. unfold swap_remove. rewrite lookup_last.
  destruct (l !! (length l - 1)%nat) as [y|] eqn:El.
  2:{ apply lookup_ge_None in El. lia. }
  destruct (decide (j < length l - 1)%nat) as [Hj|Hj].
  - rewrite lookup_take_lt by lia. case_decide; subst.
    + rewrite list_lookup_insert_eq by lia. naive_solver.
    + rewrite list_lookup_insert_ne by done. naive_solver.
  - rewrite lookup_take_ge by lia. split; [done | lia].
Qed.

Lemma swap_remove_length {A} (l : list A) i : (i < length l)%nat ->
  length (swap_remove l i) = (length l - 1)%nat.
Proof.
  intros Hi. unfold swap_remove. rewrite lookup_last.
  destruct (l !! (length l - 1)%nat) eqn:El; [| apply lookup_ge_None in El; lia].
  rewrite length_take, length_insert. lia.
Qed.

Lemma insert_last {A} (l : list A) (x : A) i : (i < length l)%nat ->
  <[i := x]> (l ++ [x]) = <[i := x]> l ++ [x].
Proof. intros. by rewrite insert_app_l. Qed.

Lemma swap_remove_perm {A} (l : list A) i x : l !! i = Some x -> l ≡ₚ x :: swap_remove l i.
Proof.
  intros Hi. pose proof (lookup_lt_Some _ _ _ Hi) as Hlt.
  destruct l as [|y l' _] using rev_ind; [done |]. unfold swap_remove. rewrite last_snoc.
  rewrite length_app in *. cbn [length] in *. rewrite Nat.add_sub.
  destruct (decide (i = length l')) as [->|Hne].
  - rewrite list_lookup_middle in Hi by done. injection Hi as ->.
    rewrite insert_app_r_alt, Nat.sub_diag by lia. cbn.
    rewrite take_app_length. by rewrite Permutation_app_comm.
  - rewrite lookup_app_l in Hi by lia. rewrite insert_last by lia.
    rewrite take_app_length' by (rewrite length_insert; lia).
    rewrite <- (take_drop_middle l' i x Hi) at 1. rewrite insert_take_drop by lia.
    rewrite <- !app_assoc. cbn. rewrite <- Permutation_middle. constructor.
    apply Permutation_app_head. rewrite Permutation_app_comm. done.
Qed.

Lemma slot_row_length (slots : list (list Z)) k : (k < length slots)%nat -> exists row, slots !! k = Some row.
Proof. intros H. apply lookup_lt_is_Some_2 in H as [row ?]. by exists row. Qed.

(** Two active entries of the same tile are the same entry. *)
Lemma table_unique slots active i j e e' : table_ok slots active ->
  active !! i = Some e -> active !! j = Some e' ->
  e.(en_tile_size) = e'.(en_tile_size) -> e.(en_tile_id) = e'.(en_tile_id) -> i = j.
Proof.
  intros T Hi Hj Hs Ht. pose proof (tb_entry _ _ T i e Hi) as Hx.
  pose proof (tb_entry _ _ T j e' Hj) as Hy. rewrite Hs, Ht in Hx. rewrite Hx in Hy.
  injection Hy. lia.
Qed.

(** The table after an entry is removed: its slot is freed, the slot of the
    entry moved into its place follows it. *)
Lemma table_remove slots active i e : table_ok slots active -> active !! i = Some e ->
  exists slots1, set_slot slots e.(en_tile_size) e.(en_tile_id) INVALID_ENTRY_INDEX = Some slots1 /\
  (forall k, zlen (aget [] slots1 k) = zlen (aget [] slots k)) /\
  if decide (i = (length active - 1)%nat) then table_ok slots1 (swap_remove active i)
  else exists m slots2, active !! (length active - 1)%nat = Some m /\
    set_slot slots1 m.(en_tile_size) m.(en_tile_id) (Z.of_nat i) = Some slots2 /\
    table_ok slots2 (swap_remove active i) /\
    (forall k, zlen (aget [] slots2 k) = zlen (aget [] slots k)).
Proof.
  intros T Hi. pose proof (lookup_lt_Some _ _ _ Hi) as Hlt.
  pose proof (tb_entry _ _ T _ _ Hi) as Hslot.
  destruct (set_slot_spec slots e.(en_tile_size) e.(en_tile_id) INVALID_ENTRY_INDEX
    ltac:(by eexists)) as (slots1 & Hset1 & Hlen1 & Hat1 & Hne1 & Hrow1).
  exists slots1. split; [done |]. split; [done |].
  assert (forall j e', active !! j = Some e' -> j <> i ->
    (e'.(en_tile_size), e'.(en_tile_id)) <> (e.(en_tile_size), e.(en_tile_id))) as Hdiff.
  { intros j e' Hj Hji [= Hs Ht]. apply Hji. by eapply table_unique. }
  assert (zlen (swap_remove active i) <= UINT32_MAX) as Hcnt.
  { pose proof (tb_count _ _ T). unfold zlen in *. rewrite swap_remove_length by done. lia. }
  case_decide as Hlast.
  - split; [by rewrite Hlen1, (tb_size _ _ T) | done | |].
    + intros j e' [Hj Hl]%swap_remove_lookup; [| done]. rewrite decide_False in Hl by lia.
      rewrite Hne1 by (apply (Hdiff j); [done | lia]). by apply (tb_entry _ _ T).
    + intros s t v Hv Hinv. destruct (decide ((s, t) = (e.(en_tile_size), e.(en_tile_id)))) as [[= -> ->]|Hd].
      { rewrite Hat1 in Hv. congruence. }
      rewrite Hne1 in Hv by done. destruct (tb_slot _ _ T _ _ _ Hv Hinv) as (j & e' & -> & Hj & <- & <-).
      exists j, e'. split_and!; try done. apply swap_remove_lookup; [done |].
      pose proof (lookup_lt_Some _ _ _ Hj).
      assert (j <> i) by (intros ->; rewrite Hi in Hj; injection Hj as ->; done).
      split; [lia |]. by rewrite decide_False.
  - destruct (lookup_lt_is_Some_2 active (length active - 1)) as [m Hm]; [lia |].
    pose proof (tb_entry _ _ T _ _ Hm) as Hmslot.
    assert (is_Some (slot_at slots1 m.(en_tile_size) m.(en_tile_id))) as Hsm.
    { rewrite Hne1 by (apply (Hdiff (length active - 1)%nat); [done | lia]). by eexists. }
    destruct (set_slot_spec slots1 _ _ (Z.of_nat i) Hsm) as (slots2 & Hset2 & Hlen2 & Hat2 & Hne2 & Hrow2).
    exists m, slots2. split; [done |]. split; [done |].
    split; [| by intros; rewrite Hrow2].
    split; [by rewrite Hlen2, Hlen1, (tb_size _ _ T) | done | |].
    + intros j e' [Hj Hl]%swap_remove_lookup; [| done]. case_decide as Hji.
      * rewrite Hm in Hl. injection Hl as <-. subst. done.
      * rewrite Hne2, Hne1; [by apply (tb_entry _ _ T) | by apply (Hdiff j) |].
        intros [= Hs Ht]. assert (j = (length active - 1)%nat) by (by eapply table_unique). lia.
    + intros s t v Hv Hinv. destruct (decide ((s, t) = (m.(en_tile_size), m.(en_tile_id)))) as [[= -> ->]|Hd].
      { rewrite Hat2 in Hv. injection Hv as <-. exists i, m. split_and!; try done.
        apply swap_remove_lookup; [done |]. rewrite decide_True by done. split; [lia | done]. }
      rewrite Hne2 in Hv by done.
      destruct (decide ((s, t) = (e.(en_tile_size), e.(en_tile_id)))) as [[= -> ->]|Hd'].
      { rewrite Hat1 in Hv. congruence. }
      rewrite Hne1 in Hv by done. destruct (tb_slot _ _ T _ _ _ Hv Hinv) as (j & e' & -> & Hj & <- & <-).
      exists j, e'. split_and!; try done. apply swap_remove_lookup; [done |].
      pose proof (lookup_lt_Some _ _ _ Hj).
      assert (j <> i) by (intros ->; rewrite Hi in Hj; injection Hj as ->; done).
      assert (j <> (length active - 1)%nat) by (intros ->; rewrite Hm in Hj; injection Hj as ->; done).
      split; [lia |]. by rewrite decide_False.
Qed.

(** ** The received-packet bitmap *)

Lemma bitmap_mask_pow k : 0 <= k < 256 -> bitmap_mask k = 2 ^ (k mod 64).
Proof.
  intros Hk. unfold bitmap_mask. change 63 with (Z.ones 6). rewrite Z.land_ones by lia.
  pose proof (Z.mod_pos_bound k (2 ^ 6) ltac:(lia)) as Hb. change (2 ^ 6) with 64 in *.
  rewrite Z.shiftl_1_l. apply u64_small. assert (2 ^ (k mod 64) <= 2 ^ 63) by (apply Z.pow_le_mono_r; lia).
  assert (0 < 2 ^ (k mod 64)) by (apply Z.pow_pos_nonneg; lia). mlia.
Qed.

Lemma bitmap_word_div k : bitmap_word k = k / 64.
Proof. unfold bitmap_word. by rewrite Z.shiftr_div_pow2. Qed.

Lemma land_pow2_zero w k : 0 <= k -> (Z.land w (2 ^ k) =? 0) = negb (Z.testbit w k).
Proof.
  intros Hk. destruct (Z.testbit w k) eqn:Et; cbn [negb].
  - apply Z.eqb_neq. intros H. apply (f_equal (fun z => Z.testbit z k)) in H.
    rewrite Z.land_spec, Et, Z.pow2_bits_true, Z.bits_0 in H by done. done.
  - apply Z.eqb_eq. apply Z.bits_inj'. intros n Hn.
    rewrite Z.land_spec, Z.bits_0, Z.pow2_bits_eqb by done.
    destruct (Z.eqb_spec k n) as [->|]; [by rewrite Et | apply andb_false_r].
Qed.

Lemma bit_received_testbit bm k : 0 <= k < 256 ->
  bit_received bm k = Z.testbit (aget 0 bm (k / 64)) (k mod 64).
Proof.
  intros Hk. unfold bit_received. rewrite bitmap_mask_pow, bitmap_word_div by done.
  rewrite land_pow2_zero by (apply Z.mod_pos_bound; lia). by rewrite negb_involutive.
Qed.

(** Marking a packet as received changes its own bit only. *)
Lemma bit_received_set bm word i j : length bm = 4%nat -> 0 <= i < 256 -> 0 <= j < 256 ->
  aget 0 bm (bitmap_word i) = word ->
  bit_received (aset bm (bitmap_word i) (Z.lor word (bitmap_mask i))) j =
    (j =? i) || bit_received bm j.
Proof.
  intros Hlen Hi Hj Hw. rewrite !bit_received_testbit by done.
  rewrite bitmap_word_div in *. rewrite bitmap_mask_pow by done.
  pose proof (Z.div_lt_upper_bound i 64 4 ltac:(lia) ltac:(lia)).
  pose proof (Z.div_pos i 64 ltac:(lia) ltac:(lia)). pose proof (Z.div_pos j 64 ltac:(lia) ltac:(lia)).
  pose proof (Z.mod_pos_bound i 64 ltac:(lia)). pose proof (Z.mod_pos_bound j 64 ltac:(lia)).
  pose proof (Z.div_mod i 64 ltac:(lia)). pose proof (Z.div_mod j 64 ltac:(lia)).
  destruct (Z.eq_dec (j / 64) (i / 64)) as [Ed|Ed].
  - rewrite Ed, aget_aset_eq by (unfold zlen; lia). rewrite Z.lor_spec, Z.pow2_bits_eqb, Hw by lia.
    destruct (Z.eqb_spec (i mod 64) (j mod 64)), (Z.eqb_spec j i); subst; try lia;
      rewrite ?orb_false_r, ?orb_true_r; done.
  - rewrite aget_aset_ne by lia. destruct (Z.eqb_spec j i); [subst; lia | done].
Qed.

Lemma empty_bits k : 0 <= k < 256 -> bit_received empty_bitmap k = false.
Proof.
  intros Hk. rewrite bit_received_testbit by done. unfold aget, empty_bitmap.
  pose proof (Z.div_lt_upper_bound k 64 4 ltac:(lia) ltac:(lia)).
  destruct (Z.to_nat (k / 64)) as [|[|[|[|[|]]]]]; cbn [nth]; apply Z.testbit_0_l.
Qed.

(** The packets received so far. *)
Definition received_packets (e : Entry) : list Z :=
  List.filter (bit_received e.(en_received_bitmap)) (zseq e.(en_packet_count)).

Lemma filter_one_more {A} (f g : A -> bool) (x : A) l : NoDup l -> In x l -> f x = false ->
  (forall y, In y l -> g y = true <-> y = x \/ f y = true) ->
  zlen (List.filter g l) = zlen (List.filter f l) + 1.
Proof.
  induction l as [|a l IH]; intros Hnd Hin Hf Hg; [done |].
  apply list.NoDup_cons in Hnd as [Ha Hnd]. rewrite list_elem_of_In in Ha.
  cbn [List.filter]. destruct Hin as [->|Hin].
  - rewrite Hf, (proj2 (Hg x (or_introl eq_refl))) by auto. rewrite zlen_cons.
    rewrite (filter_ext_in g f); [lia |]. intros y Hy.
    pose proof (Hg y (or_intror Hy)) as Hgy. assert (y <> x) by (by intros ->).
    destruct (g y), (f y); try done; [by destruct (proj1 Hgy eq_refl) |].
    by specialize (proj2 Hgy (or_intror eq_refl)).
  - assert (a <> x) by (by intros ->).
    assert (zlen (List.filter g l) = zlen (List.filter f l) + 1) as IH'.
    { apply IH; auto. intros y Hy. apply Hg. by right. }
    pose proof (Hg a (or_introl eq_refl)) as Hga.
    destruct (g a), (f a); rewrite ?zlen_cons; naive_solver lia.
Qed.

(** ** The invariant of the table *)

Definition entry_bytes (e : Entry) : Z := zlen e.(en_compressed).(vec_data).

Record entry_ok (e : Entry) : Prop := {
  eo_bytes : entry_bytes e = e.(en_compressed_size);
  eo_size : 0 < e.(en_compressed_size) <= UINT16_MAX;
  eo_packets : 0 < e.(en_packet_count) <= UINT8_MAX;
  eo_bitmap : length e.(en_received_bitmap) = 4%nat;
  eo_received : e.(en_received_count) = zlen (received_packets e);
}.

Definition entry_partial (e : Entry) : Prop :=
  entry_ok e /\ e.(en_received_count) < e.(en_packet_count).

(** Slots for every tile of the frame the table was configured for. *)
Definition slots_for (slots : list (list Z)) (width height : Z) : Prop :=
  forall code w h, wd_tile_dimensions_for_size_code code = Some (w, h) ->
    zlen (aget [] slots code) = wd_tiles_for_width_with_tile width w * wd_tiles_for_height_with_tile height h.

Record shape_ok (tr : TileReassembler) : Prop := {
  sh_table : table_ok tr.(tr_entry_slots_by_size) tr.(tr_active_entries);
  sh_bytes : tr.(tr_active_payload_bytes) = zsum (entry_bytes <$> tr.(tr_active_entries));
  sh_entries : zlen tr.(tr_active_entries) <= tr.(tr_max_active_entries);
  sh_payload : tr.(tr_active_payload_bytes) <= tr.(tr_max_active_payload_bytes);
  sh_limits : 1 <= tr.(tr_max_active_entries) /\
    1 <= tr.(tr_max_active_payload_bytes) <= SIZE_MAX - UINT16_MAX;
  sh_frame : tr.(tr_entry_frame_width) <> 0 ->
    slots_for tr.(tr_entry_slots_by_size) tr.(tr_entry_frame_width) tr.(tr_entry_frame_height);
  sh_pool : zlen tr.(tr_recycled_entries) <= WD_CLIENT_TILE_REASSEMBLY_MAX_RECYCLED_ENTRIES /\
    zlen tr.(tr_recycled_completed_buffers) <= WD_CLIENT_TILE_REASSEMBLY_MAX_RECYCLED_BUFFERS;
}.

Definition reasm_ok (tr : TileReassembler) : Prop :=
  shape_ok tr /\ Forall entry_partial tr.(tr_active_entries).

(** What no operation on the entries changes. *)
Definition same_setup (tr tr' : TileReassembler) : Prop :=
  tr'.(tr_entry_frame_width) = tr.(tr_entry_frame_width) /\
  tr'.(tr_entry_frame_height) = tr.(tr_entry_frame_height) /\
  tr'.(tr_max_active_entries) = tr.(tr_max_active_entries) /\
  tr'.(tr_max_active_payload_bytes) = tr.(tr_max_active_payload_bytes) /\
  (forall k, zlen (aget [] tr'.(tr_entry_slots_by_size) k) = zlen (aget [] tr.(tr_entry_slots_by_size) k)).

#[local] Instance same_setup_preorder : PreOrder same_setup.
Proof.
  split; [by intros ? |]. intros a b c (? & ? & ? & ? & ?) (? & ? & ? & ? & ?).
  split_and!; congruence.
Qed.

Lemma zsum_nonneg l : Forall (fun x => 0 <= x) l -> 0 <= zsum l.
Proof. induction 1; unfold zsum in *; cbn; lia. Qed.

Lemma zsum_perm l k : l ≡ₚ k -> zsum l = zsum k.
Proof. induction 1; unfold zsum in *; cbn; lia. Qed.

Lemma entry_bytes_nonneg es : 0 <= zsum (entry_bytes <$> es).
Proof. apply zsum_nonneg. induction es; cbn; constructor; auto with wd. apply zlen_nonneg. Qed.

Lemma slots_for_rows slots slots' w h :
  (forall k, zlen (aget [] slots' k) = zlen (aget [] slots k)) ->
  slots_for slots w h -> slots_for slots' w h.
Proof. intros Hr Hs code a b Hd. rewrite Hr. by apply Hs. Qed.

(** [remove_entry] never leaves the arrays and keeps the table consistent. *)
Lemma remove_entry_ok tr i e : shape_ok tr -> tr.(tr_active_entries) !! i = Some e ->
  exists tr', remove_entry tr (Z.of_nat i) = Some tr' /\ shape_ok tr' /\ same_setup tr tr' /\
    tr'.(tr_active_entries) = swap_remove tr.(tr_active_entries) i.
Proof.
  intros S Hi. pose proof (lookup_lt_Some _ _ _ Hi) as Hlt.
  destruct (table_remove _ _ _ _ (sh_table _ S) Hi) as (slots1 & Hset & Hrow & Hrest).
  pose proof (tb_entry _ _ (sh_table _ S) _ _ Hi) as Hslot.
  pose proof (slot_at_range _ _ _ _ Hslot) as [Hs Ht].
  pose proof (proj2 (slot_exists_iff _ _ _ Hs Ht) ltac:(by eexists)) as Hex.
  pose proof (swap_remove_perm _ _ _ Hi) as Hperm.
  assert (zsum (entry_bytes <$> tr.(tr_active_entries)) =
    entry_bytes e + zsum (entry_bytes <$> swap_remove tr.(tr_active_entries) i)) as Hsum.
  { rewrite (zsum_perm _ _ (fmap_Permutation entry_bytes _ _ Hperm)). done. }
  pose proof (entry_bytes_nonneg (swap_remove tr.(tr_active_entries) i)) as Hnn.
  unfold remove_entry.
  destruct (Z.of_nat i >=? zlen (tr_active_entries tr)) eqn:Eg; [bool_cases; unfold zlen in *; lia |].
  rewrite Nat2Z.id, Hi. cbn [mbind option_bind]. rewrite Hex, Hset. cbn [mbind option_bind].
  fold (entry_bytes e).
  rewrite (proj2 (Z.geb_le (tr_active_payload_bytes tr) (entry_bytes e)))
    by (rewrite (sh_bytes _ S), Hsum; lia).
  assert (forall slots', table_ok slots' (swap_remove (tr_active_entries tr) i) ->
    (forall k, zlen (aget [] slots' k) = zlen (aget [] (tr_entry_slots_by_size tr) k)) ->
    let tr0 := tr <| tr_active_payload_bytes := tr.(tr_active_payload_bytes) - entry_bytes e |>
                  <| tr_entry_slots_by_size := slots' |>
                  <| tr_active_entries := swap_remove (tr_active_entries tr) i |> in
    let tr' := recycle_entry tr0 e in
    shape_ok tr' /\ same_setup tr tr' /\
    tr'.(tr_active_entries) = swap_remove tr.(tr_active_entries) i) as Hfin.
  { intros slots' HT HR tr0 tr'.
    assert (tr'.(tr_active_entries) = tr0.(tr_active_entries) /\
      tr'.(tr_entry_slots_by_size) = tr0.(tr_entry_slots_by_size) /\
      tr'.(tr_active_payload_bytes) = tr0.(tr_active_payload_bytes) /\ same_setup tr0 tr' /\
      zlen tr'.(tr_recycled_entries) <= WD_CLIENT_TILE_REASSEMBLY_MAX_RECYCLED_ENTRIES /\
      tr'.(tr_recycled_completed_buffers) = tr.(tr_recycled_completed_buffers))
      as (E1 & E2 & E3 & E4 & E5 & E6).
    { subst tr'. unfold recycle_entry. case_if; bool_cases; split_and!; try done; cbn.
      - rewrite zlen_app. change (zlen [_]) with 1. cbn in E. lia.
      - apply (sh_pool _ S). }
    assert (same_setup tr tr0) as E7 by (split_and!; done).
    split_and!; [| by etrans; [exact E7 | exact E4] | by rewrite E1].
    destruct E4 as (F1 & F2 & F3 & F4 & _). cbn in F1, F2, F3, F4, E1, E2, E3.
    split; rewrite ?E1, ?E2, ?E3, ?F1, ?F2, ?F3, ?F4, ?E6; try done.
    - rewrite (sh_bytes _ S), Hsum. lia.
    - pose proof (sh_entries _ S). unfold zlen in *. rewrite swap_remove_length by done. lia.
    - pose proof (sh_payload _ S). pose proof (zlen_nonneg (vec_data (en_compressed e))).
      unfold entry_bytes. lia.
    - apply (sh_limits _ S).
    - intros Hw. eapply slots_for_rows; [exact HR | by apply (sh_frame _ S)].
    - split; [done | apply (sh_pool _ S)]. }
  case_decide as Hlast.
  - replace (Z.of_nat i =? zlen (tr_active_entries tr) - 1) with true
      by (symmetry; apply Z.eqb_eq; unfold zlen; lia).
    cbn [negb mbind option_bind fst snd]. eexists. split; [done |].
    replace (take _ _) with (swap_remove (tr_active_entries tr) i); [by apply Hfin |].
    unfold swap_remove. rewrite lookup_last, <- Hlast, Hi. rewrite list_insert_id by done.
    f_equal. unfold zlen. lia.
  - destruct Hrest as (m & slots2 & Hm & Hset2 & HT2 & HR2).
    replace (Z.of_nat i =? zlen (tr_active_entries tr) - 1) with false
      by (symmetry; apply Z.eqb_neq; unfold zlen; lia).
    cbn [negb]. replace (Z.to_nat (zlen (tr_active_entries tr) - 1)) with (length (tr_active_entries tr) - 1)%nat
      by (unfold zlen; lia).
    rewrite Hm. cbn [mbind option_bind].
    rewrite u32_small by (pose proof (tb_count _ _ (sh_table _ S)); unfold zlen in *; mlia).
    rewrite Hset2. cbn [mbind option_bind fst snd]. eexists. split; [done |].
    replace (take _ _) with (swap_remove (tr_active_entries tr) i); [by apply Hfin |].
    unfold swap_remove. rewrite lookup_last, Hm. unfold aset. by rewrite Nat2Z.id.
Qed.

(** [shrinks tr tr']: entries were only removed and the table stayed
    consistent. *)
Record shrinks (tr tr' : TileReassembler) : Prop := {
  sk_shape : shape_ok tr';
  sk_setup : same_setup tr tr';
  sk_sub : forall e, e ∈ tr'.(tr_active_entries) -> e ∈ tr.(tr_active_entries);
}.

Lemma shrinks_refl tr : shape_ok tr -> shrinks tr tr.
Proof. intros S. by split. Qed.

Lemma shrinks_trans a b c : shrinks a b -> shrinks b c -> shrinks a c.
Proof. intros [] []. split; [done | by etrans | auto]. Qed.

Lemma shrinks_entries P tr tr' : shrinks tr tr' ->
  Forall P tr.(tr_active_entries) -> Forall P tr'.(tr_active_entries).
Proof.
  intros [_ _ Hs] HF. rewrite !list.Forall_forall in *. auto.
Qed.

Lemma remove_shrinks tr i e : shape_ok tr -> tr.(tr_active_entries) !! i = Some e ->
  exists tr', remove_entry tr (Z.of_nat i) = Some tr' /\ shrinks tr tr' /\
    tr'.(tr_active_entries) = swap_remove tr.(tr_active_entries) i.
Proof.
  intros S Hi. destruct (remove_entry_ok tr i e S Hi) as (tr' & Hr & S' & Hu & Ha).
  exists tr'. split_and!; [done | split; try done | done].
  intros x. rewrite Ha. intros Hx. rewrite (swap_remove_perm _ _ _ Hi). by constructor.
Qed.

Lemma remove_all_ok fuel tr : shape_ok tr -> (length tr.(tr_active_entries) <= fuel)%nat ->
  exists tr', remove_all fuel tr = Some tr' /\ shrinks tr tr' /\ tr'.(tr_active_entries) = [].
Proof.
  revert tr; induction fuel as [|fuel IH]; intros tr S Hl; cbn [remove_all].
  - exists tr. split_and!; [done | by apply shrinks_refl |]. apply nil_length_inv. lia.
  - case_if; bool_cases.
    { exists tr. split_and!; [done | by apply shrinks_refl |].
      apply nil_length_inv. unfold zlen in *. lia. }
    destruct (lookup_lt_is_Some_2 tr.(tr_active_entries) (length tr.(tr_active_entries) - 1)) as [e He].
    { unfold zlen in *. lia. }
    destruct (remove_shrinks tr _ e S He) as (tr1 & Hr & Hk & Ha).
    replace (zlen (tr_active_entries tr) - 1) with (Z.of_nat (length (tr_active_entries tr) - 1))
      by (unfold zlen in *; lia).
    rewrite Hr. cbn [mbind option_bind].
    destruct (IH tr1) as (tr' & Hr' & Hk' & Hn); [apply Hk | | ].
    { rewrite Ha, swap_remove_length; unfold zlen in *; lia. }
    exists tr'. split_and!; [done | by eapply shrinks_trans | done].
Qed.

Lemma remove_all_entries_ok tr : shape_ok tr ->
  exists tr', remove_all_entries tr = Some tr' /\ shrinks tr tr' /\ tr'.(tr_active_entries) = [].
Proof. intros S. by apply remove_all_ok. Qed.

(** A table without entries whose slots are all free. *)
Lemma empty_table slots : length slots = 4%nat ->
  Forall (fun row => Forall (fun v => v = INVALID_ENTRY_INDEX) row) slots -> table_ok slots [].
Proof.
  intros Hl HF. split; [done | unfold zlen; cbn; mlia | done |].
  intros s t v Hv Hne. exfalso. unfold slot_at in Hv. case_if_in Hv; [| done].
  destruct (slots !! Z.to_nat s) as [row|] eqn:Er; cbn in Hv; [| done].
  rewrite list.Forall_lookup in HF. specialize (HF _ _ Er). rewrite list.Forall_lookup in HF.
  by specialize (HF _ _ Hv).
Qed.

Lemma new_shape entries bytes : 1 <= bytes <= SIZE_MAX - UINT16_MAX ->
  reasm_ok (new_TileReassembler entries bytes).
Proof.
  intros Hb. split; [| constructor].
  split; cbn [new_TileReassembler tr_entry_slots_by_size tr_active_entries tr_active_payload_bytes
    tr_max_active_entries tr_max_active_payload_bytes tr_entry_frame_width tr_recycled_entries
    tr_recycled_completed_buffers fmap list_fmap]; try (change (zlen []) with 0); try done; try lia.
  - apply empty_table; [done |]. repeat constructor.
Qed.

Lemma reassembler_reset_ok tr : shape_ok tr ->
  exists tr', reset tr = Some tr' /\ reasm_ok tr' /\ tr'.(tr_active_entries) = [].
Proof.
  intros S. destruct (remove_all_entries_ok tr S) as (tr1 & Hr & [S1 Hu _] & Hn).
  unfold reset. rewrite Hr. cbn [mbind option_bind]. eexists. split; [done |].
  split; [| done]. split; [| cbn; by rewrite Hn].
  split; cbn; rewrite ?Hn; try done; try apply S1.
  - apply empty_table.
    + rewrite length_fmap. apply (tb_size _ _ (sh_table _ S1)).
    + apply list.Forall_fmap, list.Forall_true. intros; constructor.
  - unfold zlen. cbn. pose proof (sh_limits _ S1). lia.
  - pose proof (sh_limits _ S1). lia.
Qed.

(** *** Giving up entries *)

(** What a repair may change: requests are queued, none is taken back, and
    the marks of what is in flight move. *)
Record repair_view := mk_repair_view {
  rv_total : Z;
  rv_queue : list Z;
  rv_queued : list Z;
  rv_requested : list Z * list Z;
  rv_inflight : list Z * list Z;
}.

Definition repair_view_of (s : ClientState) : repair_view :=
  mk_repair_view s.(cs_config).(sc_total_tiles) s.(cs_retx_queue) s.(cs_retx_queued_generation)
    (s.(cs_retx_last_requested_generation), s.(cs_retx_last_request_ns))
    (s.(cs_retx_inflight_generation), s.(cs_retx_inflight_since_ns)).

Definition view_sized (v : repair_view) : Prop :=
  zlen v.(rv_queued) = v.(rv_total) /\ zlen v.(rv_requested).1 = v.(rv_total) /\
  zlen v.(rv_requested).2 = v.(rv_total) /\ zlen v.(rv_inflight).1 = v.(rv_total) /\
  zlen v.(rv_inflight).2 = v.(rv_total).

Record requests_kept (v v' : repair_view) : Prop := {
  rk_total : v'.(rv_total) = v.(rv_total);
  rk_sized : view_sized v';
  rk_requested : v'.(rv_requested) = v.(rv_requested);
  rk_queue : exists extra, v'.(rv_queue) = v.(rv_queue) ++ extra /\ Forall (Z.le 0) extra;
  rk_queued : forall t, 0 <= t < v.(rv_total) ->
    aget 0 v.(rv_queued) t <= aget 0 v'.(rv_queued) t /\
    (aget 0 v'.(rv_queued) t <> 0 -> aget 0 v.(rv_queued) t <> 0 \/ In t v'.(rv_queue));
}.

Definition repairs (v v' : repair_view) : Prop := view_sized v -> requests_kept v v'.

#[export] Instance repairs_preorder : PreOrder repairs.
Proof.
  split.
  - intros v Hs. constructor; try done; [exists []; by rewrite app_nil_r |]. intros t Ht. split; [lia | by left].
  - intros a b c Hab Hbc Hs. destruct (Hab Hs) as [T1 S1 R1 [e1 [E1 P1]] G1]. destruct (Hbc S1) as [T2 S2 R2 [e2 [E2 P2]] G2].
    constructor; [congruence | done | congruence | exists (e1 ++ e2); split; [rewrite E2, E1; by rewrite app_assoc | by apply Forall_app] |].
    intros t Ht. destruct (G1 t Ht) as [L1 N1]. destruct (G2 t ltac:(by rewrite T1)) as [L2 N2].
    split; [lia |]. intros Hn. destruct (N2 Hn) as [Hn1 | Hin]; [| by right]. destruct (N1 Hn1) as [? | Hin]; [by left |].
    right. rewrite E2. apply in_or_app. by left.
Qed.

(** The state a repair leaves alone: what later packets are tested against,
    the content, the announced tiles; and the requests it keeps. *)
Definition announced (s : ClientState) :=
  (s.(cs_retx_summary_pending_generation), s.(cs_retx_summary_pending_since_ns), s.(cs_retx_summary_pending_tiles),
   s.(cs_retx_summary_pending_position), s.(cs_retx_summary_due_queue), s.(cs_retx_summary_pending_count)).

Definition same_view (s s' : ClientState) : Prop :=
  s'.(cs_config) = s.(cs_config) /\ s'.(cs_received_generation) = s.(cs_received_generation) /\
  session_setup s' = session_setup s /\ announced s' = announced s /\
  repairs (repair_view_of s) (repair_view_of s').

#[export] Instance same_view_preorder : PreOrder same_view.
Proof.
  split; [by intros ? |]. intros a b c (? & ? & ? & ? & ?) (? & ? & ? & ? & ?).
  split_and!; [congruence | congruence | congruence | congruence | by etrans].
Qed.

Ltac view_simpl :=
  unfold view_sized in *;
  cbn [repair_view_of rv_queued rv_total rv_queue rv_requested rv_inflight fst snd
    cs_config cs_retx_queue cs_retx_queued_generation cs_retx_last_requested_generation cs_retx_last_request_ns
    cs_retx_inflight_generation cs_retx_inflight_since_ns set_field] in *.

Lemma set_inflight_view s t g ns :
  same_view s (s <| cs_retx_inflight_generation := aset s.(cs_retx_inflight_generation) t g |>
                 <| cs_retx_inflight_since_ns := aset s.(cs_retx_inflight_since_ns) t ns |>).
Proof.
  split_and!; try done. intros (? & ? & ? & ? & ?). constructor; try done.
  - view_simpl. by rewrite !zlen_aset.
  - exists []. by rewrite app_nil_r.
  - intros u Hu. split; [reflexivity | by left].
Qed.

Lemma clear_retx_inflight_view s t g : same_view s (clear_retx_inflight s t g).
Proof. unfold clear_retx_inflight. case_if; [apply set_inflight_view | done]. Qed.

Lemma enqueue_retx_view s t g : 0 <= t -> same_view s (fst (enqueue_retx_for_partial_timeout s t g)).
Proof.
  intros Ht. unfold enqueue_retx_for_partial_timeout. case_if; [done |]. case_if; [done |]. cbn [fst].
  split_and!; try done. intros (Q & R1 & R2 & I1 & I2).
  bool_cases. constructor; view_simpl; rewrite ?ensure_size_id by done; try done.
  - split_and!; try done; by case_if; rewrite ?zlen_aset.
  - eexists. split; [reflexivity |]. case_if; by repeat constructor.
  - intros u Hu. set (was := aget 0 (cs_retx_queued_generation s) t).
    destruct (Z.ltb_spec was g) as [Hlt|Hge].
    + destruct (Z.eq_dec u t) as [->|Hne].
      * rewrite aget_aset_eq by lia. split; [lia |]. intros _. destruct (Z.eqb_spec was 0) as [Ew|Hn]; [right | by left].
        apply in_or_app. right. by left.
      * rewrite aget_aset_ne by lia. split; [lia | by left].
    + split; [lia | by left].
Qed.

Lemma fold_view {A} (f : ClientState * A -> Z -> ClientState * A) l s a :
  (forall s a x, In x l -> same_view s (fst (f (s, a) x))) -> same_view s (fst (fold_left f l (s, a))).
Proof.
  revert s a; induction l as [|x l IH]; intros s a Hf; [done |]. cbn [fold_left].
  pose proof (Hf s a x (or_introl eq_refl)) as H1. destruct (f (s, a) x) as [s1 a1]. cbn in H1.
  etrans; [exact H1 |]. apply IH. intros; apply Hf. by right.
Qed.

Lemma base_tiles_nonneg z t config x : In x (base_tiles_covered z t config) -> 0 <= x.
Proof.
  unfold base_tiles_covered. destruct (wd_tile_dimensions_for_size_code z) as [[w h]|]; [| done].
  case_if; [done |]. case_if; [done |]. case_if; [done |]. intros [Hin _]%filter_In.
  apply in_flat_map in Hin as (y & _ & (k & <- & _)%in_map_iff). apply u32_range.
Qed.

Lemma queue_entry_repair_view s e ns : same_view s (queue_entry_repair s e ns).
Proof.
  unfold queue_entry_repair, for_each_base_tile_covered.
  match goal with |- context [fold_left ?f ?l ?a] =>
    pose proof (fold_view f l (fst a) (snd a)) as Hv; destruct (fold_left f l a) as [s1 q] eqn:E end.
  cbn [fst snd] in Hv. rewrite E in Hv. cbn in Hv.
  assert (same_view s s1) as H1.
  { etrans; [| apply Hv]; [done |]. intros s2 a x Hx.
    pose proof (enqueue_retx_view s2 x e.(en_generation) (base_tiles_nonneg _ _ _ _ Hx)) as Hq.
    destruct (enqueue_retx_for_partial_timeout s2 x e.(en_generation)) as [s3 [|]]; cbn in *; [done |].
    etrans; [exact Hq | apply clear_retx_inflight_view]. }
  case_if; [etrans; [exact H1 | done] | done].
Qed.

Lemma clear_entry_view s t z g : same_view s (clear_entry_retx_inflight s t z g).
Proof.
  unfold clear_entry_retx_inflight, for_each_base_tile_covered.
  generalize (base_tiles_covered z t (cs_config s)); intros l. revert s.
  induction l as [|x l IH]; intros s; [done |]. cbn [fold_left].
  etrans; [apply (clear_retx_inflight_view s x g) | apply IH].
Qed.

Lemma reduce_timeout_view s : same_view s (reduce_tile_reassembly_timeout_after_loss s).
Proof.
  unfold reduce_tile_reassembly_timeout_after_loss, store_timeout. cbv zeta.
  repeat case_if; done.
Qed.

Lemma update_view s n b : same_view s (update_tile_reassembly_timeout s n b).
Proof.
  unfold update_tile_reassembly_timeout, store_timeout. case_if; [done |]. cbv zeta.
  destruct (SFleb _ _); cbn match beta; by case_if.
Qed.

Lemma expire_entry_ok s tr i e ns : shape_ok tr -> tr.(tr_active_entries) !! i = Some e ->
  exists s' tr', expire_entry s tr (Z.of_nat i) ns = Some (s', tr') /\ shrinks tr tr' /\ same_view s s' /\ tr'.(tr_active_entries) = swap_remove tr.(tr_active_entries) i.
Proof.
  intros S Hi. pose proof (lookup_lt_Some _ _ _ Hi).
  destruct (remove_shrinks tr i e S Hi) as (tr' & Hr & Hk & Ha).
  unfold expire_entry. destruct (_ >=? _) eqn:Eg; [bool_cases; unfold zlen in *; lia |].
  rewrite Nat2Z.id, Hi. cbn [mbind option_bind]. rewrite Hr. cbn [mbind option_bind].
  do 2 eexists. split_and!; [done | done | | done].
  etrans; [| apply queue_entry_repair_view]. etrans; [| apply reduce_timeout_view]. done.
Qed.

Lemma evict_entry_ok s tr i e ns : shape_ok tr -> tr.(tr_active_entries) !! i = Some e ->
  exists s' tr', evict_entry_for_budget s tr (Z.of_nat i) ns = Some (s', tr') /\ shrinks tr tr' /\ same_view s s' /\ tr'.(tr_active_entries) = swap_remove tr.(tr_active_entries) i.
Proof.
  intros S Hi. pose proof (lookup_lt_Some _ _ _ Hi).
  destruct (remove_shrinks tr i e S Hi) as (tr' & Hr & Hk & Ha).
  unfold evict_entry_for_budget. destruct (_ >=? _) eqn:Eg; [bool_cases; unfold zlen in *; lia |].
  rewrite Nat2Z.id, Hi. cbn [mbind option_bind]. rewrite Hr. cbn [mbind option_bind].
  do 2 eexists. split_and!; [done | done | | done].
  etrans; [apply (queue_entry_repair_view s e ns) | done].
Qed.

Lemma oldest_entry_range es : es <> [] -> exists i e, oldest_entry es = Z.of_nat i /\ es !! i = Some e.
Proof.
  intros Hne. unfold oldest_entry.
  assert (forall l a, (forall x, In x l -> 0 <= x < zlen es) -> 0 <= a < zlen es ->
    0 <= fold_left (fun oldest i => if (aget new_entry es i).(en_first_packet_ns) <?
         (aget new_entry es oldest).(en_first_packet_ns) then i else oldest) l a < zlen es) as Hf.
  { induction l as [|x l IH]; intros a Hl Ha; [done |]. cbn [fold_left].
    apply IH; [intros; apply Hl; by right |]. case_if; [apply Hl; by left | done]. }
  match goal with |- context [fold_left ?f ?l ?a] => specialize (Hf l a) end.
  match type of Hf with _ -> _ -> 0 <= ?x < _ =>
    exists (Z.to_nat x); destruct (lookup_lt_is_Some_2 es (Z.to_nat x)) as [e He] end.
  - destruct Hf as [H1 H2].
    + intros x (y & <- & Hy)%in_map_iff. apply elem_of_zseq in Hy. lia.
    + destruct es; [done |]. unfold zlen. cbn [length]. lia.
    + unfold zlen in *. lia.
  - exists e. split; [| done]. rewrite Z2Nat.id; [done |]. apply Hf.
    + intros x (y & <- & Hy)%in_map_iff. apply elem_of_zseq in Hy. lia.
    + destruct es; [done |]. unfold zlen. cbn [length]. lia.
Qed.

Lemma evict_oldest_ok fuel s tr n ns : shape_ok tr -> (length tr.(tr_active_entries) <= fuel)%nat ->
  exists s' tr', evict_oldest fuel s tr n ns = Some (s', tr') /\ shrinks tr tr' /\ same_view s s' /\ (tr'.(tr_active_entries) = [] \/ over_budget tr' n = false) /\ (over_budget tr n = false -> s' = s /\ tr' = tr).
Proof.
  revert s tr; induction fuel as [|fuel IH]; intros s tr S Hl; cbn [evict_oldest].
  - exists s, tr. split_and!; [done | by apply shrinks_refl | done | | done].
    left. apply nil_length_inv. lia.
  - destruct (over_budget tr n) eqn:Eo.
    2:{ rewrite andb_false_r. exists s, tr. split_and!; auto using shrinks_refl. done. }
    destruct (zlen (tr_active_entries tr) =? 0) eqn:Ez; bool_cases; cbn [negb andb].
    { exists s, tr. split_and!; [done | by apply shrinks_refl | done | | done]. left.
      apply nil_length_inv. unfold zlen in *. lia. }
    destruct (oldest_entry_range tr.(tr_active_entries)) as (i & e & -> & Hi).
    { intros Hn. rewrite Hn in Ez. done. }
    destruct (evict_entry_ok s tr i e ns S Hi) as (s1 & tr1 & -> & Hk & Hv & Ha).
    cbn [mbind option_bind].
    destruct (IH s1 tr1) as (s' & tr' & Hr & Hk' & Hv' & Hend & _); [apply Hk | |].
    { rewrite Ha, swap_remove_length by (by eapply lookup_lt_Some). lia. }
    exists s', tr'. split_and!; [done | by eapply shrinks_trans | by etrans | done | done].
Qed.

Lemma ensure_budget_ok s tr n ns : shape_ok tr -> 0 < n <= UINT16_MAX ->
  exists s' tr' within, ensure_budget s tr n ns = Some (s', tr', within) /\ shrinks tr tr' /\ same_view s s' /\ (within = true -> zlen tr'.(tr_active_entries) < tr.(tr_max_active_entries) /\ tr'.(tr_active_payload_bytes) + n <= tr.(tr_max_active_payload_bytes)) /\
    (n <= tr.(tr_max_active_payload_bytes) -> within = true) /\
    (n <= tr.(tr_max_active_payload_bytes) -> over_budget tr n = false -> s' = s /\ tr' = tr).
Proof.
  intros S Hn. unfold ensure_budget. case_if; bool_cases.
  { do 3 eexists. split_and!; [done | by apply shrinks_refl | done | done | lia | lia]. }
  destruct (evict_oldest_ok (length tr.(tr_active_entries)) s tr n ns S)
    as (s1 & tr1 & -> & Hk & Hv & Hend & Hsame); [done |].
  cbn [mbind option_bind]. destruct Hk as [S1 Hu Hs].
  assert (shrinks tr tr1) as Hk by by split.
  destruct Hu as (Hu1 & Hu2 & Hu3 & Hu4 & _).
  pose proof (sh_payload _ S1). pose proof (sh_bytes _ S1). pose proof (sh_limits _ S1).
  pose proof (entry_bytes_nonneg tr1.(tr_active_entries)).
  assert (over_budget tr1 n = false) as Ho.
  { destruct Hend as [Hnil|?]; [| done]. unfold over_budget. rewrite Hnil.
    assert (tr_active_payload_bytes tr1 = 0) as -> by (rewrite (sh_bytes _ S1), Hnil; done).
    change (zlen []) with 0. rewrite u64_small by mlia. apply orb_false_iff.
    rewrite Z.geb_leb, Z.leb_gt, Z.gtb_ltb, Z.ltb_ge. lia. }
  rewrite Ho. do 3 eexists. split_and!; [done | done | done | | done | auto].
  intros _. unfold over_budget in Ho. bool_cases. 
  match goal with H : u64 _ <= _ |- _ => rewrite u64_small in H by mlia end. lia.
Qed.

(** *** The slot table of a frame *)

Definition config_ranges (c : wd_server_config_payload) : Prop :=
  u16_ok c.(sc_width) /\ u16_ok c.(sc_height) /\ u16_ok c.(sc_udp_payload_target).

Lemma tiles_range w t : u16_ok (wd_tiles_for_width_with_tile w t).
Proof.
  unfold wd_tiles_for_width_with_tile. case_if; [mlia |]. case_if; [mlia |]. auto with wd.
Qed.

Lemma new_slots_spec c code row : new_slots c code = Some row ->
  exists w h, wd_tile_dimensions_for_size_code code = Some (w, h) /\
    wd_tiles_for_width_with_tile c.(sc_width) w <> 0 /\
    zlen row = wd_tiles_for_width_with_tile c.(sc_width) w *
               wd_tiles_for_height_with_tile c.(sc_height) h /\
    Forall (fun v => v = INVALID_ENTRY_INDEX) row.
Proof.
  unfold new_slots. destruct (wd_tile_dimensions_for_size_code code) as [[w h]|]; [| done].
  case_if; [done |]. bool_cases. intros [= <-]. exists w, h.
  pose proof (tiles_range c.(sc_width) w). pose proof (tiles_range c.(sc_height) h).
  rewrite tiles_for_height_same in *. split_and!; [done | lia | |].
  - unfold zlen. rewrite length_replicate. rewrite u32_small by (wd_bounds; nia). wd_bounds. nia.
  - apply list.Forall_replicate. done.
Qed.

Lemma configure_ok tr c : reasm_ok tr ->
  exists tr' ok, configure_entry_slots tr c = Some (tr', ok) /\ reasm_ok tr' /\
    (forall e, e ∈ tr'.(tr_active_entries) -> e ∈ tr.(tr_active_entries)) /\
    tr'.(tr_max_active_entries) = tr.(tr_max_active_entries) /\
    tr'.(tr_max_active_payload_bytes) = tr.(tr_max_active_payload_bytes) /\
    (ok = true -> slots_for tr'.(tr_entry_slots_by_size) c.(sc_width) c.(sc_height)).
Proof.
  intros [S HF]. unfold configure_entry_slots. case_if; bool_cases.
  { exists tr, true. split_and!; try done. intros _.
    match goal with H : tr_entry_frame_width tr = _ |- _ => rewrite <- H end.
    match goal with H : tr_entry_frame_height tr = _ |- _ => rewrite <- H end.
    by apply (sh_frame _ S). }
  destruct (mapM _ _) as [slots|] eqn:Em; [| by exists tr, false; split_and!].
  destruct (remove_all_entries_ok tr S) as (tr1 & -> & [S1 Hu Hs] & Hn). cbn [mbind option_bind].
  destruct Hu as (_ & _ & Hu3 & Hu4 & _).
  apply mapM_Some in Em.
  assert (slots_for slots c.(sc_width) c.(sc_height)) as Hfor.
  { intros code w h Hd.
    assert (exists row, slots !! Z.to_nat code = Some row /\ new_slots c code = Some row /\ 0 <= code)
      as (row & Hrow & Hnew & Hc).
    { do 4 (apply Forall2_cons_inv_l in Em as (? & ? & ? & Em & ->)).
      apply Forall2_nil_inv_l in Em as ->.
      unfold wd_tile_dimensions_for_size_code in Hd.
      repeat case_if_in Hd; bool_cases; subst; try done; by eexists. }
    destruct (new_slots_spec _ _ _ Hnew) as (w' & h' & Hd' & _ & Hz & _).
    unfold aget. rewrite nth_lookup, Hrow. cbn. rewrite Hz. rewrite Hd in Hd'. by injection Hd' as -> ->. }
  do 2 eexists. split; [done |]. split_and!; cbn; rewrite ?Hn; try done.
  2:{ by intros ? ?%elem_of_nil. }
  split; [| cbn; rewrite Hn; constructor].
  split; cbn; rewrite ?Hn; try done; try apply S1.
  - apply empty_table.
    + apply Forall2_length in Em. by rewrite <- Em.
    + apply Forall2_flip in Em. eapply Forall2_Forall_l in Em; [exact Em |].
      apply list.Forall_forall. intros code _ row Hrow.
      by destruct (new_slots_spec _ _ _ Hrow) as (? & ? & _ & _ & _ & ?).
  - rewrite (sh_bytes _ S1), Hn. done.
  - change (zlen []) with 0. pose proof (sh_limits _ S1). lia.
Qed.

(** *** A new entry *)

Lemma table_app slots active e : table_ok slots active ->
  slot_at slots e.(en_tile_size) e.(en_tile_id) = Some INVALID_ENTRY_INDEX ->
  zlen active < UINT32_MAX ->
  exists slots', set_slot slots e.(en_tile_size) e.(en_tile_id) (u32 (zlen active)) = Some slots' /\
    table_ok slots' (active ++ [e]) /\
    (forall k, zlen (aget [] slots' k) = zlen (aget [] slots k)).
Proof.
  intros T Hfree Hc. rewrite u32_small by (pose proof (zlen_nonneg active); mlia).
  destruct (set_slot_spec slots e.(en_tile_size) e.(en_tile_id) (zlen active)
    ltac:(by eexists)) as (slots' & Hset & Hlen & Hat & Hne & Hrow).
  exists slots'. split; [done |]. split; [| done].
  split; [by rewrite Hlen, (tb_size _ _ T) | rewrite zlen_app; change (zlen [e]) with 1; lia | |].
  - intros i e' [Hi|[Hi Hl]]%lookup_app_Some.
    + rewrite Hne; [by apply (tb_entry _ _ T) |]. intros [= Hs Ht].
      pose proof (tb_entry _ _ T _ _ Hi) as Hx. rewrite Hs, Ht, Hfree in Hx.
      apply lookup_lt_Some in Hi. injection Hx as Hx. unfold INVALID_ENTRY_INDEX, zlen in *. mlia.
    + apply list_lookup_singleton_Some in Hl as [Hl <-]. rewrite Hat. f_equal. unfold zlen. lia.
  - intros s t v Hv Hinv.
    destruct (decide ((s, t) = (e.(en_tile_size), e.(en_tile_id)))) as [[= -> ->]|Hd].
    + rewrite Hat in Hv. injection Hv as <-. exists (length active), e. split_and!; try done.
      by rewrite lookup_app_r, Nat.sub_diag.
    + rewrite Hne in Hv by done. destruct (tb_slot _ _ T _ _ _ Hv Hinv) as (i & e' & Hvi & Hi & Hes & Het).
      exists i, e'. split_and!; try done. by apply lookup_app_l_Some.
Qed.

(** A slot that holds no index of an active entry. *)
Lemma find_entry_cases tr s t : table_ok tr.(tr_entry_slots_by_size) tr.(tr_active_entries) ->
  0 <= s -> 0 <= t ->
  (find_entry_index tr s t = SIZE_MAX /\
   (forall e, e ∈ tr.(tr_active_entries) -> (e.(en_tile_size), e.(en_tile_id)) <> (s, t)) /\
   (slot_exists tr.(tr_entry_slots_by_size) s t = true ->
    slot_at tr.(tr_entry_slots_by_size) s t = Some INVALID_ENTRY_INDEX)) \/
  (exists i e, find_entry_index tr s t = Z.of_nat i /\ Z.of_nat i <> SIZE_MAX /\
   tr.(tr_active_entries) !! i = Some e /\ e.(en_tile_size) = s /\ e.(en_tile_id) = t).
Proof.
  intros T Hs Ht. unfold find_entry_index.
  destruct (slot_exists _ s t) eqn:Ex; cbn [negb].
  - pose proof (proj1 (slot_exists_iff _ _ _ Hs Ht) Ex) as [v Hv].
    rewrite (aget_slot _ _ _ _ Hv). case_if; bool_cases.
    + left. split_and!; [done | | intros _; by subst]. intros e [i Hi]%list_elem_of_lookup [= <- <-].
      pose proof (tb_entry _ _ T _ _ Hi) as Hx. rewrite Hv in Hx. injection Hx as Hx.
      apply lookup_lt_Some in Hi. pose proof (tb_count _ _ T).
      unfold INVALID_ENTRY_INDEX, zlen in *. mlia.
    + right. destruct (tb_slot _ _ T _ _ _ Hv E) as (i & e & -> & Hi & <- & <-).
      exists i, e. split_and!; try done. apply lookup_lt_Some in Hi as Hlt.
      pose proof (tb_count _ _ T). unfold zlen in *. mlia.
  - left. split_and!; [done | | done]. intros e [i Hi]%list_elem_of_lookup [= <- <-].
    pose proof (tb_entry _ _ T _ _ Hi) as Hx.
    rewrite (proj2 (slot_exists_iff _ _ _ Hs Ht)) in Ex by by eexists. done.
Qed.

(** The entry the first packet of a tile opens. *)
Definition fresh_entry (h : wd_udp_tile_packet_decoded) (w hh now cap : Z) : Entry :=
  mk_Entry h.(ud_tile_id) h.(ud_tile_size) w hh h.(ud_tile_generation) h.(ud_content_epoch)
    (if h.(ud_tile_pkt_id) =? 0 then h.(ud_input_sequence) else 0) (h.(ud_tile_pkt_id) =? 0)
    h.(ud_tile_pkt_count) h.(ud_tile_payload_size) (wd_udp_tile_packet_is_compressed (Some h)) now
    (mk_vec (replicate (Z.to_nat h.(ud_tile_payload_size)) 0) cap) empty_bitmap 0.

Lemma fresh_entry_partial h w hh now cap :
  0 < h.(ud_tile_payload_size) <= UINT16_MAX -> 0 < h.(ud_tile_pkt_count) <= UINT8_MAX ->
  entry_partial (fresh_entry h w hh now cap).
Proof.
  intros Hp Hc. assert (received_packets (fresh_entry h w hh now cap) = []) as Hr.
  { unfold received_packets. cbn [fresh_entry en_received_bitmap en_packet_count].
    rewrite (filter_ext_in _ (fun _ => false)).
    - induction (zseq _); [done | by cbn].
    - intros k Hk%elem_of_zseq. apply empty_bits. wd_bounds. lia. }
  split; [split |]; cbn [fresh_entry en_compressed_size en_packet_count en_received_count]; try done;
    try lia.
  - unfold entry_bytes, zlen. cbn. rewrite length_replicate. lia.
  - by rewrite Hr.
Qed.

Lemma note_retx_view s h g f n : same_view s (note_retx_response s h g f n).
Proof.
  unfold note_retx_response, for_each_base_tile_covered.
  match goal with |- context [fold_left ?f ?l ?a] =>
    pose proof (fold_view f l (fst a) (snd a)) as Hv; destruct (fold_left f l a) as [s1 q] eqn:E end.
  cbn [fst snd] in Hv. rewrite E in Hv. cbn [fst] in Hv.
  assert (same_view s s1) as H1.
  { apply Hv. intros s2 a x Hx. case_if; [done |]. cbn [fst].
    match goal with |- same_view _ (if ?b then _ else _) => destruct b; [apply set_inflight_view | done] end. }
  case_if; [| done]. etrans; [exact H1 |]. unfold update_tile_reassembly_timeout.
  rewrite orb_true_r. done.
Qed.

(** *** Opening an entry *)
Lemma open_entry_ok s tr h w hh now ns : shape_ok tr ->
  0 < h.(ud_tile_payload_size) <= UINT16_MAX ->
  slot_exists tr.(tr_entry_slots_by_size) h.(ud_tile_size) h.(ud_tile_id) = true ->
  0 <= h.(ud_tile_size) -> 0 <= h.(ud_tile_id) ->
  (forall e, e ∈ tr.(tr_active_entries) ->
     (e.(en_tile_size), e.(en_tile_id)) <> (h.(ud_tile_size), h.(ud_tile_id))) ->
  exists s' tr' i ok, open_entry s tr h w hh now ns = Some (s', tr', i, ok) /\
    shape_ok tr' /\ same_setup tr tr' /\ same_view s s' /\
    (ok = false -> shrinks tr tr') /\
    (ok = true -> exists tr1 cap, shrinks tr tr1 /\ i = zlen tr1.(tr_active_entries) /\
       tr'.(tr_active_entries) = tr1.(tr_active_entries) ++ [fresh_entry h w hh now cap]) /\
    (h.(ud_tile_payload_size) <= tr.(tr_max_active_payload_bytes) ->
     tr.(tr_max_active_entries) <= UINT32_MAX -> ok = true).
Proof.
  intros S Hp Hex Hs Ht Hnone. unfold open_entry.
  destruct (ensure_budget_ok s tr _ ns S Hp) as (s1 & tr1 & within & -> & Hk & Hv & Hw & Hgo & _).
  cbn [mbind option_bind]. destruct within; cbn [negb].
  2:{ do 4 eexists. split; [done |]. split_and!; try done; try apply Hk.
      intros Hx. by specialize (Hgo Hx). }
  destruct (Hw eq_refl) as [Hw1 Hw2]. pose proof (sk_shape _ _ Hk) as S1.
  destruct (sk_setup _ _ Hk) as (Hu1 & Hu2 & Hu3 & Hu4 & Hu5).
  pose proof (sh_table _ S1) as T1.
  assert (slot_exists (tr_entry_slots_by_size tr1) (ud_tile_size h) (ud_tile_id h) = true) as Hex1.
  { unfold slot_exists in *. rewrite Hu5. unfold zlen in *.
    by rewrite (tb_size _ _ T1), <- (tb_size _ _ (sh_table _ S)). }
  unfold activate_entry. rewrite Hex1. cbn [negb orb].
  destruct (zlen (tr_active_entries tr1) >=? INVALID_ENTRY_INDEX) eqn:Eg; bool_cases;
    cbn [mbind option_bind].
  { change (SIZE_MAX =? SIZE_MAX) with true. cbn match. do 4 eexists. split; [done |].
    split_and!; try done; try apply Hk. unfold INVALID_ENTRY_INDEX in *. lia. }
  destruct (find_entry_cases tr1 (ud_tile_size h) (ud_tile_id h) T1 Hs Ht)
    as [(_ & _ & Hfree)|(i & e & _ & _ & Hi & Hes & Het)].
  2:{ exfalso. apply (Hnone e); [| by rewrite Hes, Het]. apply (sk_sub _ _ Hk). by eapply list_elem_of_lookup_2. }
  destruct (match list.last (tr_recycled_entries tr1) with
            | Some entry => (entry, removelast (tr_recycled_entries tr1))
            | None => (new_entry, tr_recycled_entries tr1) end) as [e0 pool] eqn:Ep.
  assert (zlen pool <= zlen (tr_recycled_entries tr1)) as Hpool.
  { destruct (list.last _) eqn:El; injection Ep as <- <-; [| done].
    destruct (tr_recycled_entries tr1) as [|x l] using rev_ind; [done |].
    rewrite removelast_last, zlen_app. pose proof (zlen_nonneg [x]). lia. }
  set (cap := Z.max (vec_capacity (vec_clear (en_compressed e0))) (ud_tile_payload_size h)).
  destruct (table_app _ _ (fresh_entry h w hh now cap) T1 (Hfree Hex1) ltac:(unfold INVALID_ENTRY_INDEX in *; lia))
    as (slots & Hset & HT & Hrow). cbn [fresh_entry en_tile_size en_tile_id] in Hset.
  rewrite Hset. cbn [mbind option_bind].
  destruct (zlen (tr_active_entries tr1) =? SIZE_MAX) eqn:Ez; bool_cases.
  { unfold INVALID_ENTRY_INDEX in *. mlia. }
  cbn [tr_active_entries set_field]. rewrite lookup_app_r by (unfold zlen; lia).
  replace (Z.to_nat (zlen (tr_active_entries tr1)) - length (tr_active_entries tr1))%nat with 0%nat
    by (unfold zlen; lia).
  cbn [lookup list_lookup mbind option_bind]. do 4 eexists. split; [done |].
  assert (aset (tr_active_entries tr1 ++ [mk_Entry (ud_tile_id h) (ud_tile_size h) 0 0 0 0 0
      (en_first_fragment_metadata_seen e0) 0 0 true 0 (vec_clear (en_compressed e0)) empty_bitmap 0])
      (zlen (tr_active_entries tr1)) (fresh_entry h w hh now cap) =
    tr_active_entries tr1 ++ [fresh_entry h w hh now cap]) as Happ.
  { unfold aset, zlen. rewrite Nat2Z.id, insert_app_r_alt, Nat.sub_diag by lia. done. }
  unfold vec_assign. cbn [vec_data]. fold cap.
  match goal with |- context [set_entry _ _ ?e] => change e with (fresh_entry h w hh now cap) end.
  assert (zlen (replicate (Z.to_nat (ud_tile_payload_size h)) 0) = ud_tile_payload_size h) as Hrep.
  { unfold zlen. rewrite length_replicate. lia. }
  pose proof (sh_bytes _ S1) as Hb. pose proof (entry_bytes_nonneg (tr_active_entries tr1)).
  pose proof (sh_limits _ S) as Hl. pose proof (note_retx_view s1 h (ud_tile_generation h) now now).
  refine (conj _ (conj _ (conj _ (conj _ (conj _ _))))); [| | by etrans | done | | done].
  - unfold set_entry. split; cbn [tr_entry_slots_by_size tr_active_entries tr_active_payload_bytes
      tr_max_active_entries tr_max_active_payload_bytes tr_entry_frame_width tr_entry_frame_height
      tr_recycled_entries tr_recycled_completed_buffers set_field];
      rewrite ?Happ, ?Hrep, ?Hu3, ?Hu4; try done.
    + rewrite fmap_app, zsum_app. unfold zsum at 2. cbn [fmap list_fmap fold_right].
      unfold entry_bytes at 2. cbn [fresh_entry en_compressed vec_data].
      rewrite Hrep, u64_small by mlia. lia.
    + rewrite zlen_app. change (zlen [_]) with 1. lia.
    + rewrite u64_small by mlia. lia.
    + intros Hf. eapply slots_for_rows; [exact Hrow | by apply (sh_frame _ S1)].
    + pose proof (sh_pool _ S1). split; [lia | apply (sh_pool _ S1)].
  - split_and!; try done. intros k. unfold set_entry.
    cbn [tr_entry_slots_by_size set_field]. by rewrite Hrow, Hu5.
  - intros _. exists tr1, cap. split_and!; done.
Qed.

(** ** Storing a fragment *)

(** What validation establishes about a fragment. *)
Record fragment_ok (h : wd_udp_tile_packet_decoded) (packet : list Z) (target : Z) : Prop := {
  fr_header : decoded_ok h;
  fr_target : 0 < target <= UINT16_MAX;
  fr_count : h.(ud_tile_pkt_count) = cdiv h.(ud_tile_payload_size) target;
  fr_id : h.(ud_tile_pkt_id) < h.(ud_tile_pkt_count);
  fr_total : 0 < h.(ud_tile_payload_size);
  fr_size : h.(ud_payload_size) = Z.min target (h.(ud_tile_payload_size) - h.(ud_tile_pkt_id) * target);
  fr_packet : h.(ud_header_size) + h.(ud_payload_size) = zlen packet;
}.

Definition note_first (h : wd_udp_tile_packet_decoded) (e : Entry) : Entry :=
  if h.(ud_tile_pkt_id) =? 0
  then e <| en_first_fragment_metadata_seen := true |> <| en_input_sequence := h.(ud_input_sequence) |>
  else e.

Definition add_fragment (h : wd_udp_tile_packet_decoded) (target : Z) (payload : list Z) (e : Entry) : Entry :=
  e <| en_compressed := mk_vec (write_at (h.(ud_tile_pkt_id) * target) payload e.(en_compressed).(vec_data))
                          e.(en_compressed).(vec_capacity) |>
    <| en_received_bitmap := aset e.(en_received_bitmap) (bitmap_word h.(ud_tile_pkt_id))
         (Z.lor (aget 0 e.(en_received_bitmap) (bitmap_word h.(ud_tile_pkt_id)))
                (bitmap_mask h.(ud_tile_pkt_id))) |>
    <| en_received_count := e.(en_received_count) + 1 |>.

Definition entry_matches (h : wd_udp_tile_packet_decoded) (e : Entry) : Prop :=
  e.(en_packet_count) = h.(ud_tile_pkt_count) /\ e.(en_compressed_size) = h.(ud_tile_payload_size) /\
  e.(en_compressed_payload) = wd_udp_tile_packet_is_compressed (Some h).

(** The bytes of the tile once every fragment is there. *)
Definition tile_output (e : Entry) (n : Z) : option (list Z) :=
  let data := e.(en_compressed).(vec_data) in
  if e.(en_compressed_payload) then wd_zstd_decompress data (replicate (Z.to_nat n) 0) n
  else if zlen data =? n then Some (take (Z.to_nat n) data) else None.

(** The first fragment agrees with the metadata recorded from an earlier copy. *)
Definition first_agrees (h : wd_udp_tile_packet_decoded) (e : Entry) : Prop :=
  h.(ud_tile_pkt_id) = 0 -> e.(en_first_fragment_metadata_seen) = true ->
  e.(en_input_sequence) = h.(ud_input_sequence).

(** How a fragment changes its entry; [None] when the entry is removed. *)
Inductive stored (h : wd_udp_tile_packet_decoded) (payload : list Z) (target n : Z) (e : Entry)
    : CompletedTile -> option Entry -> Prop :=
  | stored_conflict :
      h.(ud_tile_pkt_id) = 0 -> e.(en_first_fragment_metadata_seen) = true ->
      e.(en_input_sequence) <> h.(ud_input_sequence) -> stored h payload target n e no_tile None
  | stored_mismatch : first_agrees h e -> ~ entry_matches h e -> stored h payload target n e no_tile (Some (note_first h e))
  | stored_differs :
      first_agrees h e -> entry_matches h e -> bit_received e.(en_received_bitmap) h.(ud_tile_pkt_id) = true ->
      slice (h.(ud_tile_pkt_id) * target) h.(ud_payload_size) e.(en_compressed).(vec_data) <> payload ->
      stored h payload target n e no_tile None
  | stored_duplicate :
      first_agrees h e -> entry_matches h e -> bit_received e.(en_received_bitmap) h.(ud_tile_pkt_id) = true ->
      stored h payload target n e no_tile (Some (note_first h e))
  | stored_more e' :
      first_agrees h e -> entry_matches h e -> bit_received e.(en_received_bitmap) h.(ud_tile_pkt_id) = false ->
      e' = add_fragment h target payload (note_first h e) ->
      e'.(en_received_count) < e'.(en_packet_count) -> stored h payload target n e no_tile (Some e')
  | stored_bad e' :
      first_agrees h e -> entry_matches h e -> bit_received e.(en_received_bitmap) h.(ud_tile_pkt_id) = false ->
      e' = add_fragment h target payload (note_first h e) ->
      e'.(en_received_count) = e'.(en_packet_count) -> tile_output e' n = None ->
      stored h payload target n e no_tile None
  | stored_done e' bytes done cap :
      first_agrees h e -> entry_matches h e -> bit_received e.(en_received_bitmap) h.(ud_tile_pkt_id) = false ->
      e' = add_fragment h target payload (note_first h e) ->
      e'.(en_received_count) = e'.(en_packet_count) -> tile_output e' n = Some bytes ->
      stored h payload target n e
        (mk_CompletedTile true e'.(en_tile_id) e'.(en_tile_width) e'.(en_tile_height)
           e'.(en_generation) e'.(en_content_epoch) e'.(en_input_sequence) e'.(en_first_packet_ns)
           done e'.(en_compressed_size) e'.(en_packet_count) (mk_vec bytes cap)) None.

Lemma note_first_fields h e :
  (note_first h e).(en_tile_id) = e.(en_tile_id) /\ (note_first h e).(en_tile_size) = e.(en_tile_size) /\
  (note_first h e).(en_packet_count) = e.(en_packet_count) /\
  (note_first h e).(en_compressed_size) = e.(en_compressed_size) /\
  (note_first h e).(en_compressed_payload) = e.(en_compressed_payload) /\
  (note_first h e).(en_compressed) = e.(en_compressed) /\
  (note_first h e).(en_received_bitmap) = e.(en_received_bitmap) /\
  (note_first h e).(en_received_count) = e.(en_received_count) /\
  (note_first h e).(en_generation) = e.(en_generation) /\
  (note_first h e).(en_content_epoch) = e.(en_content_epoch) /\
  (note_first h e).(en_tile_width) = e.(en_tile_width) /\
  (note_first h e).(en_tile_height) = e.(en_tile_height) /\
  (note_first h e).(en_first_packet_ns) = e.(en_first_packet_ns).
Proof. unfold note_first. by case_if. Qed.

Lemma note_first_ok h e : entry_ok e -> entry_ok (note_first h e).
Proof. unfold note_first. case_if; [| done]. intros []. by split. Qed.

(** Bounds of the bytes a fragment touches. *)
Lemma fragment_bounds h packet target : fragment_ok h packet target ->
  0 <= h.(ud_tile_pkt_id) < 256 /\ 0 <= h.(ud_tile_pkt_id) * target /\ 0 < h.(ud_payload_size) /\
  h.(ud_tile_pkt_id) * target + h.(ud_payload_size) <= h.(ud_tile_payload_size) /\
  u32 (h.(ud_tile_pkt_id) * target) = h.(ud_tile_pkt_id) * target /\
  h.(ud_tile_payload_size) <= UINT16_MAX /\ 0 < h.(ud_tile_pkt_count) <= UINT8_MAX /\
  0 <= h.(ud_header_size).
Proof.
  intros [Hok Ht Hc Hid Htot Hsz Hp]. unfold decoded_ok in Hok. destruct_and! Hok.
  pose proof (proj1 (cdiv_spec h.(ud_tile_payload_size) target _ ltac:(lia)) eq_refl) as Hq.
  rewrite <- Hc in Hq.
  assert (ud_tile_pkt_id h * target < ud_tile_payload_size h) by nia.
  assert (0 <= ud_tile_pkt_id h * target) by (wd_bounds; nia).
  rewrite u32_small by (wd_bounds; nia). wd_bounds. split_and!; lia.
Qed.

Lemma add_fragment_ok h packet target payload e : fragment_ok h packet target ->
  zlen payload = h.(ud_payload_size) -> entry_ok e -> entry_matches h e ->
  bit_received e.(en_received_bitmap) h.(ud_tile_pkt_id) = false ->
  entry_ok (add_fragment h target payload e) /\
  (forall k, 0 <= k < 256 -> bit_received (add_fragment h target payload e).(en_received_bitmap) k =
     (k =? h.(ud_tile_pkt_id)) || bit_received e.(en_received_bitmap) k).
Proof.
  intros F Hlen [Hb Hs Hp Hm Hr] (Hc & Hsz & Hcp) Hbit.
  destruct (fragment_bounds _ _ _ F) as (Hid & Hoff & Hpos & Hend & _ & Hmax & Hcnt & _).
  assert (forall k, 0 <= k < 256 -> bit_received (add_fragment h target payload e).(en_received_bitmap) k =
     (k =? h.(ud_tile_pkt_id)) || bit_received e.(en_received_bitmap) k) as Hbits.
  { intros k Hk. cbn [add_fragment en_received_bitmap set_field]. by apply bit_received_set. }
  split; [| done]. pose proof (fr_id _ _ _ F).
  split; cbn [add_fragment en_compressed en_compressed_size en_packet_count en_received_bitmap
    en_received_count set_field]; try done.
  - unfold entry_bytes in *. cbn [add_fragment en_compressed en_compressed_size vec_data set_field].
    rewrite zlen_write_at; rewrite ?Hlen, ?Hb; lia.
  - unfold aset. by rewrite length_insert.
  - rewrite Hr. unfold received_packets at 2. cbn [add_fragment en_packet_count set_field].
    rewrite (filter_one_more (bit_received e.(en_received_bitmap)) _ h.(ud_tile_pkt_id)); [done | | | done |].
    + apply NoDup_zseq.
    + apply elem_of_zseq. lia.
    + intros k Hk%elem_of_zseq. change (aset _ _ _) with (add_fragment h target payload e).(en_received_bitmap).
      rewrite Hbits by (wd_bounds; lia). rewrite orb_true_iff, Z.eqb_eq. done.
Qed.

Lemma set_entry_shape tr i e e' : shape_ok tr -> tr.(tr_active_entries) !! i = Some e ->
  e'.(en_tile_size) = e.(en_tile_size) -> e'.(en_tile_id) = e.(en_tile_id) ->
  entry_bytes e' = entry_bytes e ->
  shape_ok (set_entry tr (Z.of_nat i) e') /\ same_setup tr (set_entry tr (Z.of_nat i) e') /\
  (set_entry tr (Z.of_nat i) e').(tr_active_entries) = <[i := e']> tr.(tr_active_entries).
Proof.
  intros S Hi Hs Ht Hb. pose proof (lookup_lt_Some _ _ _ Hi).
  assert ((set_entry tr (Z.of_nat i) e').(tr_active_entries) = <[i := e']> tr.(tr_active_entries)) as Ha.
  { unfold set_entry, aset. cbn. by rewrite Nat2Z.id. }
  split_and!; try done. destruct S as [T Sb Se Sp Sl Sf Spool].
  split; rewrite ?Ha; try done.
  - destruct T as [T1 T2 T3 T4]. split; [done | unfold zlen in *; by rewrite length_insert | |].
    + intros j x [(<- & -> & _)|[Hne Hj]]%list_lookup_insert_Some; [| by apply T3].
      rewrite Hs, Ht. by apply T3.
    + intros s t v Hv Hinv. destruct (T4 s t v Hv Hinv) as (j & x & -> & Hj & <- & <-).
      destruct (decide (i = j)) as [->|].
      * exists j, e'. rewrite Hi in Hj. injection Hj as ->. split_and!; try done.
        by rewrite list_lookup_insert_eq.
      * exists j, x. split_and!; try done. by rewrite list_lookup_insert_ne.
  - cbn. rewrite Sb. rewrite list_fmap_insert.
    assert ((entry_bytes <$> tr_active_entries tr) !! i = Some (entry_bytes e')) as Hf
      by (rewrite list_lookup_fmap, Hi; cbn; by rewrite Hb).
    by rewrite list_insert_id.
  - unfold zlen in *. by rewrite length_insert.
Qed.

Lemma removelast_zlen {A} (l : list A) : zlen (removelast l) <= zlen l.
Proof.
  destruct l as [|x l] using rev_ind; [done |]. rewrite removelast_last, zlen_app.
  pose proof (zlen_nonneg [x]). lia.
Qed.

Lemma acquire_ok tr n tr' buf : shape_ok tr -> acquire_completed_tile_buffer tr n = (tr', buf) ->
  shape_ok tr' /\ same_setup tr tr' /\ tr'.(tr_active_entries) = tr.(tr_active_entries) /\
  vec_data buf = replicate (Z.to_nat n) 0.
Proof.
  intros S. unfold acquire_completed_tile_buffer. pose proof (sh_pool _ S) as [? Hp].
  destruct (list.last _) eqn:El; intros [= <- <-]; [| by split_and!].
  split_and!; try done. destruct S. split; cbn; try done. split; [done |].
  pose proof (removelast_zlen (tr_recycled_completed_buffers tr)). lia.
Qed.

Lemma recycle_buffer_ok tr buf : shape_ok tr ->
  shape_ok (recycle_completed_tile_buffer tr buf) /\
  same_setup tr (recycle_completed_tile_buffer tr buf) /\
  (recycle_completed_tile_buffer tr buf).(tr_active_entries) = tr.(tr_active_entries).
Proof.
  intros S. unfold recycle_completed_tile_buffer. case_if; bool_cases; [by split_and! |].
  split_and!; try done. destruct S as [? ? ? ? ? ? Hpool]. split; cbn; try done.
  split; [apply Hpool |]. rewrite zlen_app. change (zlen [_]) with 1.
  unfold WD_CLIENT_TILE_REASSEMBLY_MAX_RECYCLED_BUFFERS in *. lia.
Qed.

Lemma finish_entry_ok s tr i e n ns done : shape_ok tr -> tr.(tr_active_entries) !! i = Some e ->
  exists c s' tr', finish_entry s tr e (Z.of_nat i) n ns done = Some (c, s', tr') /\
    shape_ok tr' /\ same_setup tr tr' /\ same_view s s' /\
    tr'.(tr_active_entries) = swap_remove tr.(tr_active_entries) i /\
    match tile_output e n with
    | None => c = no_tile
    | Some bytes => exists cap, c = mk_CompletedTile true e.(en_tile_id) e.(en_tile_width)
        e.(en_tile_height) e.(en_generation) e.(en_content_epoch) e.(en_input_sequence)
        e.(en_first_packet_ns) done e.(en_compressed_size) e.(en_packet_count) (mk_vec bytes cap)
    end.
Proof.
  intros S Hi. unfold finish_entry.
  destruct (acquire_completed_tile_buffer tr n) as [tr1 buf] eqn:Eb.
  destruct (acquire_ok _ _ _ _ S Eb) as (S1 & Hu1 & Ha1 & Hd).
  destruct (recycle_buffer_ok tr1 buf S1) as (S2 & Hu2 & Ha2).
  rewrite Hd.
  match goal with |- context [let '(_, _) := ?p in _] =>
    assert (exists st, p = (st, tile_output e n) /\ same_view s st) as (st & -> & Hv) end.
  { unfold tile_output. destruct (en_compressed_payload e).
    - destruct (wd_zstd_decompress _ _ _); by eexists.
    - destruct (zlen _ =? n); by eexists. }
  destruct (tile_output e n) as [bytes|].
  - rewrite <- Ha1 in Hi. destruct (remove_entry_ok tr1 i e S1 Hi) as (tr' & -> & S' & Hu' & Ha').
    cbn [mbind option_bind]. do 3 eexists. split; [done |].
    split_and!; [done | by etrans | | by rewrite Ha', Ha1 | by eexists].
    etrans; [| apply clear_entry_view]. case_if; [| done]. etrans; [exact Hv | apply update_view].
  - rewrite <- Ha1, <- Ha2 in Hi.
    destruct (remove_entry_ok _ i e S2 Hi) as (tr' & -> & S' & Hu' & Ha').
    cbn [mbind option_bind]. do 3 eexists. split; [done |].
    split_and!; [done | by etrans; [| etrans]; [exact Hu1 | exact Hu2 |] | | by rewrite Ha', Ha2, Ha1 | done].
    etrans; [exact Hv | apply queue_entry_repair_view].
Qed.

Lemma drop_conflict_ok s tr i e ns : shape_ok tr -> tr.(tr_active_entries) !! i = Some e ->
  exists s' tr', drop_conflict s tr e (Z.of_nat i) ns = Some (no_tile, s', tr') /\
    shape_ok tr' /\ same_setup tr tr' /\ same_view s s' /\
    tr'.(tr_active_entries) = swap_remove tr.(tr_active_entries) i.
Proof.
  intros S Hi. unfold drop_conflict. destruct (remove_entry_ok tr i e S Hi) as (tr' & -> & S' & Hu & Ha).
  cbn [mbind option_bind]. do 2 eexists. split_and!; try done.
  etrans; [| apply queue_entry_repair_view]. done.
Qed.

Lemma swap_remove_insert {A} (l : list A) i x : (i < length l)%nat ->
  swap_remove (<[i := x]> l) i = swap_remove l i.
Proof.
  intros Hi. unfold swap_remove. rewrite !lookup_last, length_insert.
  destruct (decide (i = (length l - 1)%nat)) as [->|Hne].
  - rewrite list_lookup_insert_eq by lia.
    destruct (l !! (length l - 1)%nat) eqn:El; [| apply lookup_ge_None in El; lia].
    rewrite list_insert_insert_eq, !take_insert_ge by lia. done.
  - rewrite list_lookup_insert_ne by done.
    destruct (l !! (length l - 1)%nat) eqn:El; [| apply lookup_ge_None in El; lia].
    by rewrite list_insert_insert_eq.
Qed.

(** A fragment not seen before, of an entry it matches. *)
Lemma store_new_ok s tr h packet target payload i e n ns done :
  shape_ok tr -> tr.(tr_active_entries) !! i = Some e -> entry_ok e ->
  e.(en_received_count) < e.(en_packet_count) -> fragment_ok h packet target ->
  zlen payload = h.(ud_payload_size) -> entry_matches h e ->
  bit_received e.(en_received_bitmap) h.(ud_tile_pkt_id) = false ->
  let e2 := add_fragment h target payload e in
  let tr2 := set_entry tr (Z.of_nat i) e2 in
  exists c s' tr', (if negb (e2.(en_received_count) =? e2.(en_packet_count)) then Some (no_tile, s, tr2)
                    else finish_entry s tr2 e2 (Z.of_nat i) n ns done) = Some (c, s', tr') /\
    shape_ok tr' /\ same_setup tr tr' /\ same_view s s' /\
    ((e2.(en_received_count) < e2.(en_packet_count) /\ c = no_tile /\
      tr'.(tr_active_entries) = <[i := e2]> tr.(tr_active_entries)) \/
     (e2.(en_received_count) = e2.(en_packet_count) /\
      tr'.(tr_active_entries) = swap_remove tr.(tr_active_entries) i /\
      match tile_output e2 n with
      | None => c = no_tile
      | Some bytes => exists cap, c = mk_CompletedTile true e2.(en_tile_id) e2.(en_tile_width)
          e2.(en_tile_height) e2.(en_generation) e2.(en_content_epoch) e2.(en_input_sequence)
          e2.(en_first_packet_ns) done e2.(en_compressed_size) e2.(en_packet_count) (mk_vec bytes cap)
      end)).
Proof.
  intros S Hi Hok Hpart F Hpl M Hbit e2 tr2. pose proof (lookup_lt_Some _ _ _ Hi) as Hlt.
  destruct (add_fragment_ok h packet target payload e F Hpl Hok M Hbit) as [Hok2 _]. fold e2 in Hok2.
  destruct (set_entry_shape tr i e e2 S Hi) as (S2 & Hu2 & Ha2); [done | done | |].
  { rewrite (eo_bytes _ Hok2), (eo_bytes _ Hok). done. }
  fold tr2 in S2, Hu2, Ha2.
  destruct (en_received_count e2 =? en_packet_count e2) eqn:Ee; bool_cases; cbn [negb].
  - assert (tr2.(tr_active_entries) !! i = Some e2) as Hi2 by by rewrite Ha2, list_lookup_insert_eq.
    destruct (finish_entry_ok s tr2 i e2 n ns done S2 Hi2) as (c & s' & tr' & -> & S' & Hu & Hv & Ha & Ho).
    exists c, s', tr'. split_and!; [done | done | by etrans | done |].
    right. split_and!; [done | | done]. by rewrite Ha, Ha2, swap_remove_insert.
  - exists no_tile, s, tr2. split_and!; try done. left. split_and!; try done.
    change (en_received_count e2) with (en_received_count e + 1).
    change (en_packet_count e2) with (en_packet_count e) in *.
    change (en_received_count e2) with (en_received_count e + 1) in Ee. lia.
Qed.

(** [store_fragment] stays inside the packet, the entry and its bitmap, and
    does one of the things [stored] lists. *)
Lemma store_fragment_ok s tr h packet target i e n ns done :
  shape_ok tr -> tr.(tr_active_entries) !! i = Some e -> entry_partial e ->
  fragment_ok h packet target ->
  let payload := slice h.(ud_header_size) h.(ud_payload_size) packet in
  exists c s' tr' o, store_fragment s tr h packet target (Z.of_nat i) n ns done = Some (c, s', tr') /\
    stored h payload target n e c o /\ shape_ok tr' /\ same_setup tr tr' /\ same_view s s' /\
    tr'.(tr_active_entries) = match o with
      | None => swap_remove tr.(tr_active_entries) i
      | Some e' => <[i := e']> tr.(tr_active_entries)
      end.
Proof.
  intros S Hi [Hok Hpart] F payload. pose proof (lookup_lt_Some _ _ _ Hi) as Hlt.
  destruct (fragment_bounds _ _ _ F) as (Hid & Hoff & Hpos & Hend & Hu32 & Hmax & Hcnt & Hhs).
  unfold store_fragment. rewrite Nat2Z.id, Hi. cbn [mbind option_bind].
  destruct ((ud_tile_pkt_id h =? 0) && en_first_fragment_metadata_seen e &&
    negb (en_input_sequence e =? ud_input_sequence h)) eqn:Ec.
  { bool_cases. destruct (drop_conflict_ok s tr i e ns S Hi) as (s' & tr' & -> & S' & Hu & Hv & Ha).
    do 4 eexists. split; [done |]. split; [by apply stored_conflict | done]. }
  assert (first_agrees h e) as Hagree.
  { intros Hz Hseen. rewrite Hz, Hseen in Ec. cbn in Ec. by bool_cases. }
  fold (note_first h e). clear Ec.
  destruct (note_first_fields h e) as (Nid & Nsz & Npc & Ncs & Ncp & Ncd & Nbm & Nrc & _).
  destruct (set_entry_shape tr i e (note_first h e) S Hi Nsz Nid) as (S1 & Hu1 & Ha1).
  { unfold entry_bytes. by rewrite Ncd. }
  set (e1 := note_first h e) in *. set (tr1 := set_entry tr (Z.of_nat i) e1) in *.
  assert (tr1.(tr_active_entries) !! i = Some e1) as Hi1 by (by rewrite Ha1, list_lookup_insert_eq).
  match goal with |- context [if ?b then Some (no_tile, fetch_add _ _ s, _) else _] =>
    destruct b eqn:Em end.
  { exists no_tile, (fetch_add st_udp_ignored_invalid 1 s), tr1, (Some e1). split; [done |].
    split; [| by split_and!]. apply stored_mismatch; [done |]. intros (M1 & M2 & M3).
    rewrite Npc, Ncs, Ncp, M1, M2, M3, !Z.eqb_refl, Bool.eqb_reflx in Em. done. }
  bool_cases. rewrite Npc, Ncs, Ncp in *.
  match goal with H : Bool.eqb _ _ = true |- _ => apply eqb_prop in H end.
  assert (entry_matches h e) as M by by split_and!.
  assert (entry_ok e1) as Hok1 by by apply note_first_ok.
  rewrite Hu32, Ncd, Nbm in *. destruct Hok as [Hb Hsz Hpk Hbm Hrc].
  assert (0 <= bitmap_word (ud_tile_pkt_id h) < 4) as Hword.
  { rewrite bitmap_word_div. split; [apply Z.div_pos; lia | apply Z.div_lt_upper_bound; lia]. }
  destruct (lookup_lt_is_Some_2 e.(en_received_bitmap) (Z.to_nat (bitmap_word (ud_tile_pkt_id h))))
    as [word Hw]; [lia |].
  assert (aget 0 (en_received_bitmap e) (bitmap_word (ud_tile_pkt_id h)) = word) as Hag
    by (unfold aget; rewrite nth_lookup, Hw; done).
  rewrite Hw. cbn [mbind option_bind]. unfold read_bytes, entry_bytes in *.
  pose proof (fr_packet _ _ _ F) as Hpkt.
  rewrite (proj2 (Z.leb_le 0 (ud_header_size h))), (proj2 (Z.leb_le 0 (ud_payload_size h))),
    (proj2 (Z.leb_le (ud_header_size h + ud_payload_size h) (zlen packet))),
    (proj2 (Z.leb_le 0 (ud_tile_pkt_id h * target))),
    (proj2 (Z.leb_le (ud_tile_pkt_id h * target + ud_payload_size h) (zlen (vec_data (en_compressed e)))))
    by lia.
  cbn [andb mbind option_bind]. fold payload.
  assert (Z.land word (bitmap_mask (ud_tile_pkt_id h)) =? 0 =
    negb (bit_received (en_received_bitmap e) (ud_tile_pkt_id h))) as Hbit
    by (unfold bit_received; by rewrite Hag, negb_involutive).
  rewrite Hbit. destruct (bit_received (en_received_bitmap e) (ud_tile_pkt_id h)) eqn:Ebit; cbn [negb].
  - case_bool_decide as Hdata; cbn [negb].
    + rewrite Nrc, (proj2 (Z.eqb_neq _ _)) by lia. cbn [negb].
      exists no_tile, s, tr1, (Some e1). split; [done |]. split; [by apply stored_duplicate | by split_and!].
    + destruct (drop_conflict_ok s tr1 i e1 ns S1 Hi1) as (s' & tr' & -> & S' & Hu & Hv & Ha).
      exists no_tile, s', tr', None. split; [done |]. split; [by apply stored_differs |].
      split_and!; [done | by etrans | done |]. by rewrite Ha, Ha1, swap_remove_insert.
  - assert (zlen payload = ud_payload_size h) as Hpl by (apply zlen_slice; lia).
    assert (entry_matches h e1) as M1 by (unfold entry_matches; by rewrite Npc, Ncs, Ncp).
    destruct (store_new_ok s tr1 h packet target payload i e1 n ns done S1 Hi1 Hok1)
      as (c & s' & tr' & Hres & S' & Hu' & Hv' & Ho); try done; [by rewrite Nrc, Npc | by rewrite Nbm |].
    assert (u16 (en_received_count e1 + 1) = en_received_count e1 + 1) as H16.
    { pose proof (zlen_nonneg (received_packets e)). apply u16_small. rewrite Nrc. mlia. }
    rewrite H16.
    match goal with |- context [set_entry tr1 (Z.of_nat i) ?x] =>
      assert (x = add_fragment h target payload e1) as ->
        by (unfold add_fragment; by rewrite Ncd, Nbm, Hag) end.
    change (en_received_count e1 + 1) with (en_received_count (add_fragment h target payload e1)).
    change (en_packet_count e1) with (en_packet_count (add_fragment h target payload e1)).
    destruct Ho as [(Hc & -> & Ha)|(Hc & Ha & Hout)].
    + exists no_tile, s', tr', (Some (add_fragment h target payload e1)). split; [done |].
      split; [by eapply stored_more |]. split_and!; [done | by etrans | done |].
      by rewrite Ha, Ha1, list_insert_insert_eq.
    + exists c, s', tr', None. split; [done |]. split.
      * destruct (tile_output _ n) eqn:Eo; [destruct Hout as [cap ->]; by eapply stored_done |].
        subst c. by eapply stored_bad.
      * split_and!; [done | by etrans | done |]. by rewrite Ha, Ha1, swap_remove_insert.
Qed.

(** ** Receiving a fragment *)

Definition entry_current (h : wd_udp_tile_packet_decoded) (e : Entry) : Prop :=
  e.(en_tile_size) = h.(ud_tile_size) /\ e.(en_tile_id) = h.(ud_tile_id) /\
  e.(en_content_epoch) = h.(ud_content_epoch) /\ e.(en_generation) = h.(ud_tile_generation).

(** What a packet does to the table: nothing new, or one fragment stored, in
    an entry that is there already or one just opened. *)
Inductive received (h : wd_udp_tile_packet_decoded) (packet : list Z) (target w hh n now : Z)
    (active : list Entry) : CompletedTile -> list Entry -> Prop :=
  | received_nothing active' :
      (forall e, e ∈ active' -> e ∈ active) ->
      received h packet target w hh n now active no_tile active'
  | received_fragment active1 i e c o :
      active1 !! i = Some e -> entry_current h e -> entry_partial e ->
      (e ∈ active \/ exists cap, e = fresh_entry h w hh now cap) ->
      (forall x, x ∈ active1 -> x = e \/ x ∈ active) ->
      stored h (slice h.(ud_header_size) h.(ud_payload_size) packet) target n e c o ->
      received h packet target w hh n now active c
        (match o with None => swap_remove active1 i | Some e' => <[i := e']> active1 end).

Lemma stored_partial h packet payload target n e c e' : fragment_ok h packet target ->
  zlen payload = h.(ud_payload_size) -> entry_partial e ->
  stored h payload target n e c (Some e') -> entry_partial e'.
Proof.
  intros F Hl [Hok Hp] Hst. destruct (note_first_fields h e) as (? & ? & N1 & N2 & N3 & N4 & N5 & N6 & _).
  inversion Hst; subst.
  - split; [by apply note_first_ok | by rewrite N6, N1].
  - split; [by apply note_first_ok | by rewrite N6, N1].
  - split; [| done]. eapply add_fragment_ok; [done | done | by apply note_first_ok | | by rewrite N5].
    unfold entry_matches. by rewrite N1, N2, N3.
Qed.

Lemma elem_of_insert_inv {A} (l : list A) i x y : x ∈ <[i := y]> l -> x = y \/ x ∈ l.
Proof.
  intros [j Hj]%list_elem_of_lookup. apply list_lookup_insert_Some in Hj as [(_ & <- & _)|[_ Hj]];
    [by left | right; by eapply list_elem_of_lookup_2].
Qed.

Lemma received_partial h packet target w hh n now active c active' : fragment_ok h packet target ->
  Forall entry_partial active -> received h packet target w hh n now active c active' ->
  Forall entry_partial active'.
Proof.
  intros F HF Hr. destruct (fragment_bounds _ _ _ F) as (Hid & Hoff & Hpos & Hend & _ & Hmax & Hcnt & Hhs).
  rewrite list.Forall_forall in HF. inversion Hr as [? Hsub|active1 i e ? o Hi Hcur He Hsrc Hoth Hst]; subst;
    apply list.Forall_forall; [auto |].
  assert (forall x, x ∈ active1 -> entry_partial x) as H1.
  { intros x [->|Hx]%Hoth; auto. }
  destruct o as [e'|].
  - intros x [->|Hx]%elem_of_insert_inv; [| auto]. eapply stored_partial; try done.
    apply zlen_slice; pose proof (fr_packet _ _ _ F); lia.
  - intros x Hx. apply H1. rewrite (swap_remove_perm _ _ _ Hi). by constructor.
Qed.

(** The timeout is never below its minimum, so a fragment that follows the
    first within that time finds its entry. *)
Lemma current_timeout_min s : WD_LINK_TILE_REASSEMBLY_MIN_NS <= current_tile_reassembly_timeout_ns s.
Proof.
  unfold current_tile_reassembly_timeout_ns, clamp_tile_reassembly_timeout_ns, tile_reassembly_floor_ns,
    TILE_REASSEMBLY_TIMEOUT_MIN_NS. cbv zeta. crush_if; lia.
Qed.

(** A packet of the entry being filled is stored in it, unless it comes too
    late. *)
Lemma receive_current s tr h packet target w hh n now ns done i e :
  table_ok tr.(tr_entry_slots_by_size) tr.(tr_active_entries) ->
  tr.(tr_active_entries) !! i = Some e -> entry_current h e ->
  0 <= h.(ud_tile_size) -> 0 <= h.(ud_tile_id) -> entry_stale s now e = false ->
  receive_fragment s tr h packet target w hh n now ns done =
    store_fragment s tr h packet target (Z.of_nat i) n ns done.
Proof.
  intros T Hi (Hs & Ht & He & Hg) Hs0 Ht0 Hst. unfold receive_fragment.
  destruct (find_entry_cases tr h.(ud_tile_size) h.(ud_tile_id) T Hs0 Ht0)
    as [(_ & Hno & _)|(j & x & -> & Hne & Hj & Hsx & Htx)].
  { exfalso. apply (Hno e); [by eapply list_elem_of_lookup_2 | by rewrite Hs, Ht]. }
  assert (j = i) as -> by (eapply table_unique; [exact T | exact Hj | exact Hi | congruence | congruence]).
  rewrite Hi in Hj. injection Hj as <-.
  unfold is_entry. rewrite (proj2 (Z.eqb_neq _ _) Hne), Nat2Z.id, Hi. cbn [mbind option_bind].
  rewrite He, Hg, Z.eqb_refl, Z.ltb_irrefl, Hst.
  cbn [andb]. rewrite andb_false_r. cbn [mbind option_bind].
  rewrite (proj2 (Z.eqb_neq _ _) Hne), Nat2Z.id, Hi. cbn [mbind option_bind].
  by rewrite He, Hg, !Z.eqb_refl.
Qed.

Definition open_and_store (s : ClientState) (tr : TileReassembler) (h : wd_udp_tile_packet_decoded)
    (packet : list Z) (target w hh n now ns done : Z) : option (CompletedTile * ClientState * TileReassembler) :=
  '(s, tr, i, go_on) ← open_entry s tr h w hh now ns;
  if (go_on : bool) then store_fragment s tr h packet target i n ns done else Some (no_tile, s, tr).

(** How [receive_fragment] reaches the entry of its packet. *)
Lemma receive_cases s tr h packet target w hh n now ns done :
  shape_ok tr -> 0 <= h.(ud_tile_size) -> 0 <= h.(ud_tile_id) ->
  let r := receive_fragment s tr h packet target w hh n now ns done in
  (exists s', r = Some (no_tile, s', tr) /\ same_view s s') \/
  (exists i e, tr.(tr_active_entries) !! i = Some e /\ entry_current h e /\
     r = store_fragment s tr h packet target (Z.of_nat i) n ns done) \/
  (exists s' tr', shrinks tr tr' /\ same_view s s' /\
     (forall e, e ∈ tr'.(tr_active_entries) ->
        (e.(en_tile_size), e.(en_tile_id)) <> (h.(ud_tile_size), h.(ud_tile_id))) /\
     r = open_and_store s' tr' h packet target w hh n now ns done /\
     (find_entry_index tr h.(ud_tile_size) h.(ud_tile_id) = SIZE_MAX -> s' = s /\ tr' = tr)).
Proof.
  intros S Hs0 Ht0 r. pose proof (sh_table _ S) as T.
  destruct (find_entry_cases tr h.(ud_tile_size) h.(ud_tile_id) T Hs0 Ht0)
    as [(Hf & Hno & _)|(i & e & Hf & Hne & Hi & Hs & Ht)].
  { right; right. exists s, tr. split; [by apply shrinks_refl |]. split_and!; try done.
    subst r. unfold receive_fragment, is_entry. by rewrite Hf, Z.eqb_refl. }
  destruct (decide (e.(en_content_epoch) = h.(ud_content_epoch) /\ h.(ud_tile_generation) < e.(en_generation)))
    as [[He Hg]|Hnold].
  { left. subst r. unfold receive_fragment, is_entry. rewrite Hf, (proj2 (Z.eqb_neq _ _) Hne), Nat2Z.id, Hi.
    cbn [mbind option_bind]. rewrite He, Z.eqb_refl, (proj2 (Z.ltb_lt _ _) Hg). cbn [andb].
    by eexists. }
  assert ((e.(en_content_epoch) =? h.(ud_content_epoch)) && (h.(ud_tile_generation) <? e.(en_generation)) = false)
    as Hold by (apply not_true_iff_false; intros Hx; bool_cases; by apply Hnold).
  assert (forall tr', tr'.(tr_active_entries) = swap_remove tr.(tr_active_entries) i ->
    forall x, x ∈ tr'.(tr_active_entries) -> (x.(en_tile_size), x.(en_tile_id)) <> (h.(ud_tile_size), h.(ud_tile_id)))
    as Hgone.
  { intros tr' Ha x Hx [= Hxs Hxt]. rewrite Ha in Hx. apply list_elem_of_lookup in Hx as [j Hj].
    pose proof (lookup_lt_Some _ _ _ Hi). apply swap_remove_lookup in Hj as [Hj Hx]; [| done].
    case_decide as Hd.
    - assert (length (tr_active_entries tr) - 1 = i)%nat by (eapply table_unique; [exact T | exact Hx | exact Hi | congruence | congruence]).
      lia.
    - apply Hd. eapply table_unique; [exact T | exact Hx | exact Hi | congruence | congruence]. }
  destruct (decide (e.(en_content_epoch) = h.(ud_content_epoch) /\ e.(en_generation) = h.(ud_tile_generation)))
    as [[He Hg]|Hcur].
  - destruct (entry_stale s now e) eqn:Est.
    + right; right. destruct (expire_entry_ok s tr i e ns S Hi) as (s' & tr' & Hr & Hk & Hv & Ha).
      exists s', tr'. split_and!; try done; [by apply Hgone | | by rewrite Hf].
      subst r. unfold receive_fragment, is_entry. rewrite Hf, (proj2 (Z.eqb_neq _ _) Hne), Nat2Z.id, Hi.
      cbn [mbind option_bind]. rewrite Hold, Est, He, Hg, !Z.eqb_refl. cbn [andb].
      rewrite Hr. cbn [mbind option_bind]. by rewrite Z.eqb_refl.
    + right; left. exists i, e. split_and!; try done.
      by apply (receive_current s tr h packet target w hh n now ns done i e).
  - right; right. destruct (remove_shrinks tr i e S Hi) as (tr' & Hr & Hk & Ha).
    exists (clear_entry_retx_inflight s e.(en_tile_id) e.(en_tile_size) e.(en_generation)), tr'.
    split_and!; try done; [apply clear_entry_view | by apply Hgone | | by rewrite Hf].
    assert ((e.(en_content_epoch) =? h.(ud_content_epoch)) && (e.(en_generation) =? h.(ud_tile_generation)) = false)
      as Hc by (apply not_true_iff_false; intros Hx; bool_cases; by apply Hcur).
    subst r. unfold receive_fragment, is_entry. rewrite Hf, (proj2 (Z.eqb_neq _ _) Hne), Nat2Z.id, Hi.
    cbn [mbind option_bind]. rewrite Hold, Hc. cbn [andb mbind option_bind].
    rewrite (proj2 (Z.eqb_neq _ _) Hne), Nat2Z.id, Hi. cbn [mbind option_bind negb].
    rewrite Hc, Hr. cbn [mbind option_bind]. done.
Qed.

Lemma open_and_store_ok s tr h packet target w hh n now ns done : shape_ok tr ->
  fragment_ok h packet target ->
  slot_exists tr.(tr_entry_slots_by_size) h.(ud_tile_size) h.(ud_tile_id) = true ->
  0 <= h.(ud_tile_size) -> 0 <= h.(ud_tile_id) ->
  (forall e, e ∈ tr.(tr_active_entries) ->
     (e.(en_tile_size), e.(en_tile_id)) <> (h.(ud_tile_size), h.(ud_tile_id))) ->
  exists c s' tr', open_and_store s tr h packet target w hh n now ns done = Some (c, s', tr') /\
    shape_ok tr' /\ same_setup tr tr' /\ same_view s s' /\
    received h packet target w hh n now tr.(tr_active_entries) c tr'.(tr_active_entries).
Proof.
  intros S F Hex Hs0 Ht0 Hno. unfold open_and_store.
  destruct (fragment_bounds _ _ _ F) as (Hid & Hoff & Hpos & Hend & _ & Hmax & Hcnt & Hhs).
  pose proof (fr_total _ _ _ F).
  destruct (open_entry_ok s tr h w hh now ns S ltac:(lia) Hex Hs0 Ht0 Hno)
    as (s1 & tr1 & i & ok & -> & S1 & Hu1 & Hv1 & Hfail & Hopen & _).
  cbn [mbind option_bind]. destruct ok.
  - destruct (Hopen eq_refl) as (tr0 & cap & Hk & -> & Ha).
    set (e := fresh_entry h w hh now cap) in *.
    assert (entry_partial e) as He by (apply fresh_entry_partial; lia).
    assert (tr1.(tr_active_entries) !! length tr0.(tr_active_entries) = Some e) as Hi
      by (rewrite Ha, lookup_app_r, Nat.sub_diag by lia; done).
    unfold zlen. destruct (store_fragment_ok s1 tr1 h packet target _ e n ns done S1 Hi He F)
      as (c & s' & tr' & o & -> & Hst & S' & Hu' & Hv' & Ha').
    exists c, s', tr'. split_and!; [done | done | by etrans | by etrans |]. rewrite Ha'.
    eapply received_fragment; [exact Hi | done | done | right; by eexists | | exact Hst].
    intros x. rewrite Ha. intros [Hx|Hx]%elem_of_app; [right; by apply (sk_sub _ _ Hk) |].
    left. by apply list_elem_of_singleton in Hx.
  - exists no_tile, s1, tr1. split_and!; try done. apply received_nothing. by apply (sk_sub _ _ (Hfail eq_refl)).
Qed.

Lemma receive_fragment_ok s tr h packet target w hh n now ns done : reasm_ok tr ->
  fragment_ok h packet target ->
  slot_exists tr.(tr_entry_slots_by_size) h.(ud_tile_size) h.(ud_tile_id) = true ->
  0 <= h.(ud_tile_size) -> 0 <= h.(ud_tile_id) ->
  exists c s' tr', receive_fragment s tr h packet target w hh n now ns done = Some (c, s', tr') /\
    reasm_ok tr' /\ same_setup tr tr' /\ same_view s s' /\
    received h packet target w hh n now tr.(tr_active_entries) c tr'.(tr_active_entries).
Proof.
  intros [S HF] F Hex Hs0 Ht0.
  destruct (receive_cases s tr h packet target w hh n now ns done S Hs0 Ht0)
    as [(s' & -> & Hv)|[(i & e & Hi & Hcur & ->)|(s1 & tr1 & Hk & Hv & Hno & -> & _)]].
  - exists no_tile, s', tr. split_and!; try done. by apply received_nothing.
  - assert (entry_partial e) as He by (by eapply list.Forall_lookup_1).
    destruct (store_fragment_ok s tr h packet target i e n ns done S Hi He F)
      as (c & s' & tr' & o & -> & Hst & S' & Hu & Hv & Ha).
    exists c, s', tr'. assert (received h packet target w hh n now tr.(tr_active_entries) c tr'.(tr_active_entries)).
    { rewrite Ha. eapply received_fragment; try done; [left; by eapply list_elem_of_lookup_2 | by right]. }
    split_and!; try done. split; [done |]. by eapply received_partial.
  - pose proof (sk_setup _ _ Hk) as Hu. pose proof (sk_shape _ _ Hk) as S1.
    destruct (open_and_store_ok s1 tr1 h packet target w hh n now ns done S1 F)
      as (c & s' & tr' & -> & S' & Hu' & Hv' & Hrec); try done.
    { destruct Hu as (_ & _ & _ & _ & Hrows). unfold slot_exists in *. rewrite Hrows. unfold zlen in *.
      by rewrite (tb_size _ _ (sh_table _ S1)), <- (tb_size _ _ (sh_table _ S)). }
    assert (received h packet target w hh n now tr.(tr_active_entries) c tr'.(tr_active_entries)) as Hrec'.
    { inversion Hrec as [a1 Hsub|a1 i e c0 o H1 H2 H3 H4 H5 H6]; subst.
      - apply received_nothing. intros x Hx. by apply (sk_sub _ _ Hk), Hsub.
      - eapply received_fragment; try done.
        + destruct H4; [left; by apply (sk_sub _ _ Hk) | by right].
        + intros x [?|?]%H5; [by left | right; by apply (sk_sub _ _ Hk)]. }
    exists c, s', tr'. split_and!; [done | | by etrans | by etrans | done]. split; [done |].
    by eapply received_partial.
Qed.

(** ** Receiving a packet *)

Definition payload_target (s : ClientState) : Z :=
  if s.(cs_config).(sc_udp_payload_target) =? 0 then WD_UDP_PAYLOAD_TARGET
  else s.(cs_config).(sc_udp_payload_target).

Lemma payload_target_range s : config_ranges s.(cs_config) -> 0 < payload_target s <= UINT16_MAX.
Proof.
  intros (_ & _ & Ht). unfold payload_target, WD_UDP_PAYLOAD_TARGET. crush_if; mlia.
Qed.

(** What a valid packet satisfies. *)
Lemma validated s packet h :
  bytes_ok packet -> config_ranges s.(cs_config) -> wd_udp_tile_packet_decode packet = Some h ->
  validate_tile_packet_header h (zlen packet) (payload_target s) s.(cs_config) = Valid ->
  fragment_ok h packet (payload_target s) /\
  exists w hh, tile_dimensions_from_header h = Some (w, hh) /\
    0 <= h.(ud_tile_id) < wd_tiles_for_width_with_tile s.(cs_config).(sc_width) w *
                          wd_tiles_for_height_with_tile s.(cs_config).(sc_height) hh.
Proof.
  intros Hb Hc Hd. destruct (decode_inv packet h Hb Hd) as (wire & _ & _ & _ & Hok & Hrest).
  pose proof (payload_target_range s Hc) as Ht.
  unfold validate_tile_packet_header, packet_header_validation_result.
  case_if; [done |]. destruct (tile_dimensions_from_header h) as [[w hh]|] eqn:Edim; [| done].
  case_if; [done |]. case_if; [done |]. bool_cases.
  destruct (if wd_udp_tile_packet_is_compressed _ then _ else _); [done |].
  destruct (wd_udp_tile_fragment_layout_valid _ _ _ _) eqn:El; [| done]. intros _.
  pose proof Hok as Hok'. unfold decoded_ok in Hok'. destruct_and! Hok'.
  apply layout_valid_inv in El as (? & ? & ? & ? & ? & ?); [| done | mlia | mlia].
  destruct_and! Hrest. split.
  - split; try done; lia.
  - exists w, hh. split; [done |].
    pose proof (tiles_range s.(cs_config).(sc_width) w) as R1.
    pose proof (tiles_range s.(cs_config).(sc_height) hh) as R2.
    rewrite tiles_for_height_same in *.
    match goal with H : ud_tile_id h < u32 _ |- _ => rewrite u32_small in H by (wd_bounds; nia) end.
    mlia.
Qed.

Lemma code_range code w h : wd_tile_dimensions_for_size_code code = Some (w, h) -> 0 <= code < 4.
Proof.
  unfold wd_tile_dimensions_for_size_code. intros H. repeat case_if_in H; bool_cases; subst; try done;
    vm_compute; split; congruence.
Qed.

Lemma fetch_add_view counter `{!FieldSetter counter} n s : same_view s (fetch_add counter n s).
Proof. done. Qed.

Definition counting (fs : list (ClientState -> ClientState)) : Prop :=
  Forall (fun f => forall s, same_view s (f s)) fs.

Ltac counters := unfold counting; repeat (apply List.Forall_cons; [intros ?; reflexivity || done |]); apply List.Forall_nil.

Lemma ignore_view fs s : counting fs -> same_view s (fold_left (fun state f => f state) fs s).
Proof.
  intros Hf. revert s; induction Hf as [|f fs H1 _ IH]; intros s; [done |]. cbn [fold_left].
  etrans; [apply H1 | apply IH].
Qed.

(** The outcome of a call: nothing but counters changed, or the fragment of a
    validated packet was received. *)
Definition processed (s : ClientState) (tr : TileReassembler) (packet : ptr (list Z)) (now : Z)
    (c : CompletedTile) (s' : ClientState) (tr' : TileReassembler) : Prop :=
  reasm_ok tr' /\ same_view s s' /\
  tr'.(tr_max_active_entries) = tr.(tr_max_active_entries) /\
  tr'.(tr_max_active_payload_bytes) = tr.(tr_max_active_payload_bytes) /\
  ((c = no_tile /\ forall e, e ∈ tr'.(tr_active_entries) -> e ∈ tr.(tr_active_entries)) \/
   exists bytes h w hh active, packet = Some bytes /\ wd_udp_tile_packet_decode bytes = Some h /\
     tile_dimensions_from_header h = Some (w, hh) /\ fragment_ok h bytes (payload_target s) /\
     (forall e, e ∈ active -> e ∈ tr.(tr_active_entries)) /\
     received h bytes (payload_target s) w hh (u64 (u64 (w * hh) * WD_BYTES_PER_PIXEL)) now
       active c tr'.(tr_active_entries)).

Lemma ignore_ok s tr packet now fs tr1 : counting fs -> reasm_ok tr1 ->
  (forall e, e ∈ tr1.(tr_active_entries) -> e ∈ tr.(tr_active_entries)) ->
  tr1.(tr_max_active_entries) = tr.(tr_max_active_entries) ->
  tr1.(tr_max_active_payload_bytes) = tr.(tr_max_active_payload_bytes) ->
  exists c s' tr', ignore fs s tr1 = Some (c, s', tr') /\ processed s tr packet now c s' tr'.
Proof.
  intros Hf R1 H1 H2 H3. do 3 eexists. split; [done |]. split_and!; try done.
  - by apply ignore_view.
  - by left.
Qed.

Lemma process_ok s tr packet now ns done :
  reasm_ok tr -> config_ranges s.(cs_config) ->
  (forall bytes, packet = Some bytes -> bytes_ok bytes) ->
  exists c s' tr', process_udp_packet s tr packet now ns done = Some (c, s', tr') /\
    processed s tr packet now c s' tr'.
Proof.
  intros R Hc Hb. unfold process_udp_packet.
  destruct packet as [bytes|]; [| apply ignore_ok; try done; by counters].
  case_if; [apply ignore_ok; try done; by counters |].
  destruct (wd_udp_tile_packet_decode bytes) as [h|] eqn:Ed;
    [| apply ignore_ok; try done; by counters].
  destruct (tile_dimensions_from_header h) as [[w hh]|] eqn:Edim;
    [| apply ignore_ok; try done; by counters].
  fold (payload_target s).
  destruct (validate_tile_packet_header _ _ _ _) eqn:Ev;
    try (apply ignore_ok; try done; by counters).
  destruct (validated s bytes h (Hb _ eq_refl) Hc Ed Ev) as (F & w' & hh' & Hdim & Hid).
  rewrite Edim in Hdim. injection Hdim as <- <-.
  case_if; [apply ignore_ok; try done; by counters |].
  destruct (configure_ok tr s.(cs_config) R) as (tr1 & ok & -> & R1 & Hsub & Hm1 & Hm2 & Hslots).
  cbn [mbind option_bind]. destruct ok; cbn [negb]; [| apply ignore_ok; try done; by counters].
  pose proof (code_range _ _ _ Edim) as Hcode.
  assert (slot_exists tr1.(tr_entry_slots_by_size) h.(ud_tile_size) h.(ud_tile_id) = true) as Hex.
  { unfold slot_exists. rewrite (Hslots eq_refl _ _ _ Edim). unfold zlen.
    rewrite (tb_size _ _ (sh_table _ (proj1 R1))). apply andb_true_iff. rewrite !Z.ltb_lt. lia. }
  destruct (receive_fragment_ok s tr1 h bytes (payload_target s) w hh
    (u64 (u64 (w * hh) * WD_BYTES_PER_PIXEL)) now ns done R1 F Hex ltac:(lia) ltac:(lia))
    as (c & s' & tr' & -> & R' & (_ & _ & Hu3 & Hu4 & _) & Hv & Hrec).
  exists c, s', tr'. split; [done |]. split_and!; try done; try congruence.
  right. exists bytes, h, w, hh, tr1.(tr_active_entries). by split_and!.
Qed.

(** Expiry stops after one round per entry and only removes entries. *)
Lemma expire_from_ok fuel s tr k now ns : reasm_ok tr ->
  exists s' tr', expire_from fuel s tr (Z.of_nat k) now ns = Some (s', tr') /\ shrinks tr tr' /\
    same_view s s'.
Proof.
  revert s tr k; induction fuel as [|fuel IH]; intros s tr k [S HF]; cbn [expire_from].
  - exists s, tr. split_and!; [done | by apply shrinks_refl | done].
  - case_if; bool_cases; [| exists s, tr; split_and!; [done | by apply shrinks_refl | done]].
    destruct (lookup_lt_is_Some_2 tr.(tr_active_entries) k) as [e He]; [unfold zlen in *; lia |].
    rewrite Nat2Z.id, He. cbn [mbind option_bind]. case_if.
    + destruct (expire_entry_ok s tr k e ns S He) as (s1 & tr1 & -> & Hk & Hv & _).
      cbn [mbind option_bind].
      destruct (IH s1 tr1 k) as (s' & tr' & Hr & Hk' & Hv').
      { split; [apply Hk | by eapply shrinks_entries]. }
      exists s', tr'. split_and!; [done | by eapply shrinks_trans | by etrans].
    + destruct (IH s tr (Datatypes.S k)) as (s' & tr' & Hr & Hk' & Hv'); [done |].
      exists s', tr'. by replace (Z.of_nat k + 1) with (Z.of_nat (Datatypes.S k)) by lia.
Qed.

Lemma expire_stale_ok s tr now ns : reasm_ok tr ->
  exists s' tr', expire_stale_entries s tr now ns = Some (s', tr') /\ shrinks tr tr' /\ same_view s s'.
Proof. intros R. exact (expire_from_ok _ s tr 0 now ns R). Qed.

(** ** Any sequence of calls

    The network thread's calls, each with the client state it finds (other
    threads change it in between). *)
Inductive reasm_event :=
  | EvPacket (state : ClientState) (packet : ptr (list Z)) (now_ns repair_ns done_ns : Z)
  | EvExpire (state : ClientState) (now_ns repair_ns : Z)
  | EvRecycle (buffer : vec)
  | EvReset.

Definition reasm_step (tr : TileReassembler) (ev : reasm_event) : option (TileReassembler * list CompletedTile) :=
  match ev with
  | EvPacket state packet now_ns repair_ns done_ns =>
      '(c, _, tr) ← process_udp_packet state tr packet now_ns repair_ns done_ns;
      Some (tr, if c.(ct_valid) then [c] else [])
  | EvExpire state now_ns repair_ns =>
      '(_, tr) ← expire_stale_entries state tr now_ns repair_ns; Some (tr, [])
  | EvRecycle buffer => Some (recycle_completed_tile_buffer tr buffer, [])
  | EvReset => tr ← reset tr; Some (tr, [])
  end.

Fixpoint reasm_run (tr : TileReassembler) (evs : list reasm_event)
    : option (TileReassembler * list CompletedTile) :=
  match evs with
  | [] => Some (tr, [])
  | ev :: evs =>
      '(tr, done) ← reasm_step tr ev;
      '(tr, later) ← reasm_run tr evs;
      Some (tr, done ++ later)
  end.

(** Packets are bytes; configurations have passed the decoder. *)
Definition event_ok (ev : reasm_event) : Prop :=
  match ev with
  | EvPacket state packet _ _ _ =>
      config_ranges state.(cs_config) /\ forall bytes, packet = Some bytes -> bytes_ok bytes
  | _ => True
  end.

Lemma reasm_step_ok tr ev : reasm_ok tr -> event_ok ev ->
  exists tr' out, reasm_step tr ev = Some (tr', out) /\ reasm_ok tr' /\
    tr'.(tr_max_active_entries) = tr.(tr_max_active_entries) /\
    tr'.(tr_max_active_payload_bytes) = tr.(tr_max_active_payload_bytes).
Proof.
  intros R Hev. destruct ev as [s packet now ns done|s now ns|buf|]; cbn [reasm_step].
  - destruct Hev as [Hc Hb].
    destruct (process_ok s tr packet now ns done R Hc Hb) as (c & s' & tr' & -> & R' & _ & H1 & H2 & _).
    cbn [mbind option_bind]. by do 2 eexists.
  - destruct (expire_stale_ok s tr now ns R) as (s' & tr' & -> & Hk & _).
    cbn [mbind option_bind]. do 2 eexists. split; [done |].
    destruct (sk_setup _ _ Hk) as (_ & _ & ? & ? & _). split_and!; try done.
    split; [apply Hk | eapply shrinks_entries; [done | apply R]].
  - destruct R as [S HF]. destruct (recycle_buffer_ok tr buf S) as (S' & (_ & _ & ? & ? & _) & Ha).
    do 2 eexists. split; [done |]. split_and!; try done. split; [done | by rewrite Ha].
  - destruct R as [S HF]. destruct (remove_all_entries_ok tr S) as (tr1 & Hr & Hk & _).
    destruct (reassembler_reset_ok tr S) as (tr' & Hreset & R' & _). rewrite Hreset. cbn [mbind option_bind].
    do 2 eexists. split; [done |]. split; [done |].
    unfold reset in Hreset. rewrite Hr in Hreset. cbn [mbind option_bind] in Hreset.
    injection Hreset as <-. by destruct (sk_setup _ _ Hk) as (_ & _ & ? & ? & _).
Qed.

(** C12: whatever bytes arrive, in whatever order, and
    however they are interleaved with expiry, resets and reconfigurations, the
    reassembler never reads or writes outside its slot table, its entries,
    their bitmaps and their buffers; and the partial tiles never exceed the
    entry and byte budgets, nor the recycling pools theirs. *)
Theorem reassembler_memory_safe entries bytes evs :
  1 <= bytes <= SIZE_MAX - UINT16_MAX -> Forall event_ok evs ->
  exists tr done, reasm_run (new_TileReassembler entries bytes) evs = Some (tr, done) /\
    active_entry_count tr <= Z.max 1 entries /\
    tr.(tr_active_payload_bytes) = zsum (entry_bytes <$> tr.(tr_active_entries)) /\
    tr.(tr_active_payload_bytes) <= bytes /\
    zlen tr.(tr_recycled_entries) <= WD_CLIENT_TILE_REASSEMBLY_MAX_RECYCLED_ENTRIES /\
    zlen tr.(tr_recycled_completed_buffers) <= WD_CLIENT_TILE_REASSEMBLY_MAX_RECYCLED_BUFFERS.
Proof.
  intros Hb Hev.
  assert (exists tr done, reasm_run (new_TileReassembler entries bytes) evs = Some (tr, done) /\ reasm_ok tr /\
    tr.(tr_max_active_entries) = Z.max 1 entries /\ tr.(tr_max_active_payload_bytes) = Z.max 1 bytes)
    as (tr & done & Hr & [S _] & H1 & H2).
  { assert (reasm_ok (new_TileReassembler entries bytes)) as R0 by by apply new_shape.
    revert R0. change (Z.max 1 entries) with (tr_max_active_entries (new_TileReassembler entries bytes)).
    change (Z.max 1 bytes) with (tr_max_active_payload_bytes (new_TileReassembler entries bytes)).
    generalize (new_TileReassembler entries bytes). induction Hev as [|ev evs He _ IH]; intros tr R.
    - by do 2 eexists.
    - destruct (reasm_step_ok tr ev R He) as (tr1 & out & Hs & R1 & E1 & E2).
      destruct (IH tr1 R1) as (tr2 & out2 & Hr & R2 & E3 & E4). cbn [reasm_run]. rewrite Hs.
      cbn [mbind option_bind]. rewrite Hr. cbn [mbind option_bind].
      do 2 eexists. split; [done |]. split_and!; try done; congruence. }
  exists tr, done. pose proof (sh_entries _ S). pose proof (sh_payload _ S).
  split_and!; try done; try apply S; [unfold active_entry_count; lia | lia].
Qed.

(** ** The tiles that come out are tiles that were sent *)

(** A tile the server sent: its payload cut into packets of [target] bytes. *)
Record sent_tile := mk_sent_tile {
  sn_tile_size : Z;
  sn_tile_id : Z;
  sn_generation : Z;
  sn_content_epoch : Z;
  sn_input_sequence : Z;
  sn_compressed : bool;
  sn_payload : list Z;
}.

(** [carries target t h payload]: the header and bytes of one packet of [t]. *)
Definition carries (target : Z) (t : sent_tile) (h : wd_udp_tile_packet_decoded) (payload : list Z) : Prop :=
  h.(ud_tile_size) = t.(sn_tile_size) /\ h.(ud_tile_id) = t.(sn_tile_id) /\
  h.(ud_tile_generation) = t.(sn_generation) /\ h.(ud_content_epoch) = t.(sn_content_epoch) /\
  (h.(ud_tile_pkt_id) = 0 -> h.(ud_input_sequence) = t.(sn_input_sequence)) /\
  wd_udp_tile_packet_is_compressed (Some h) = t.(sn_compressed) /\
  h.(ud_tile_payload_size) = zlen t.(sn_payload) /\
  payload = slice (h.(ud_tile_pkt_id) * target) h.(ud_payload_size) t.(sn_payload).

(** The tile a sent tile becomes on the client. *)
Definition tile_bytes_of (t : sent_tile) (n : Z) : option (list Z) :=
  if t.(sn_compressed) then
    match ZSTD_decompress t.(sn_payload) n with
    | Some bytes => if zlen bytes =? n then Some bytes else None
    | None => None
    end
  else if zlen t.(sn_payload) =? n then Some t.(sn_payload) else None.

Definition delivers (t : sent_tile) (c : CompletedTile) : Prop :=
  c.(ct_tile_id) = t.(sn_tile_id) /\ c.(ct_generation) = t.(sn_generation) /\
  c.(ct_content_epoch) = t.(sn_content_epoch) /\ c.(ct_input_sequence) = t.(sn_input_sequence) /\
  wd_tile_dimensions_for_size_code t.(sn_tile_size) = Some (c.(ct_tile_width), c.(ct_tile_height)) /\
  c.(ct_compressed_size) = zlen t.(sn_payload) /\
  tile_bytes_of t (c.(ct_tile_width) * c.(ct_tile_height) * WD_BYTES_PER_PIXEL) =
    Some c.(ct_tile_bytes).(vec_data).

(** As many packets as there are is all of them. *)
Lemma all_received e : entry_ok e -> e.(en_received_count) = e.(en_packet_count) ->
  forall k, 0 <= k < e.(en_packet_count) -> bit_received e.(en_received_bitmap) k = true.
Proof.
  intros Hok Hall k Hk. pose proof (eo_received _ Hok) as Hr. rewrite Hall in Hr. unfold received_packets in Hr.
  rewrite <- (zlen_zseq e.(en_packet_count)) in Hr at 1 by lia.
  assert (Forall (fun k => bit_received e.(en_received_bitmap) k = true) (zseq e.(en_packet_count))) as HF.
  { clear -Hr. induction (zseq _) as [|x l IH]; [constructor |]. cbn [List.filter] in Hr.
    assert (zlen (List.filter (bit_received (en_received_bitmap e)) l) <= zlen l).
    { unfold zlen. pose proof (filter_length_le (bit_received (en_received_bitmap e)) l). lia. }
    rewrite zlen_cons in Hr. destruct (bit_received _ x) eqn:Ex; [| lia].
    rewrite zlen_cons in Hr. constructor; [done | apply IH; lia]. }
  rewrite List.Forall_forall in HF. by apply HF, elem_of_zseq.
Qed.

(** *** One tile's packets

    An entry that only ever met packets of one tile. *)
Section one_tile.
Context (target : Z).

Record genuine (t : sent_tile) (e : Entry) : Prop := {
  ge_size : e.(en_tile_size) = t.(sn_tile_size);
  ge_id : e.(en_tile_id) = t.(sn_tile_id);
  ge_generation : e.(en_generation) = t.(sn_generation);
  ge_epoch : e.(en_content_epoch) = t.(sn_content_epoch);
  ge_compressed : e.(en_compressed_payload) = t.(sn_compressed);
  ge_length : e.(en_compressed_size) = zlen t.(sn_payload);
  ge_packets : e.(en_packet_count) = cdiv (zlen t.(sn_payload)) target;
  ge_dims : wd_tile_dimensions_for_size_code t.(sn_tile_size) = Some (e.(en_tile_width), e.(en_tile_height));
  ge_input : e.(en_first_fragment_metadata_seen) = true -> e.(en_input_sequence) = t.(sn_input_sequence);
  ge_first : bit_received e.(en_received_bitmap) 0 = true -> e.(en_first_fragment_metadata_seen) = true;
  ge_data : forall k j, 0 <= k < e.(en_packet_count) -> bit_received e.(en_received_bitmap) k = true ->
    k * target <= j < Z.min ((k + 1) * target) (zlen t.(sn_payload)) ->
    aget 0 e.(en_compressed).(vec_data) j = aget 0 t.(sn_payload) j;
}.

Lemma fresh_genuine h packet w hh now cap t : fragment_ok h packet target ->
  carries target t h (slice h.(ud_header_size) h.(ud_payload_size) packet) ->
  wd_tile_dimensions_for_size_code h.(ud_tile_size) = Some (w, hh) ->
  genuine t (fresh_entry h w hh now cap).
Proof.
  intros F (C1 & C2 & C3 & C4 & C5 & C6 & C7 & C8) Hd.
  destruct (fragment_bounds _ _ _ F) as (_ & _ & _ & _ & _ & _ & Hcnt & _).
  split; cbn [fresh_entry en_tile_size en_tile_id en_generation en_content_epoch en_compressed_payload
    en_compressed_size en_packet_count en_tile_width en_tile_height en_first_fragment_metadata_seen
    en_input_sequence en_received_bitmap en_compressed]; try done.
  - rewrite <- C7. apply (fr_count _ _ _ F).
  - by rewrite <- C1.
  - intros Hz. rewrite Hz. bool_cases. auto.
  - intros k j Hk Hbit. rewrite empty_bits in Hbit by (wd_bounds; lia). done.
Qed.

Lemma note_first_genuine h packet t e : genuine t e -> carries target t h packet -> genuine t (note_first h e).
Proof.
  intros [] (_ & _ & _ & _ & C5 & _). unfold note_first. case_if; bool_cases; [| done].
  split; cbn [en_tile_size en_tile_id en_generation en_content_epoch en_compressed_payload
    en_compressed_size en_packet_count en_tile_width en_tile_height en_first_fragment_metadata_seen
    en_input_sequence en_received_bitmap en_compressed set_field]; try done.
  intros _. by apply C5.
Qed.

Lemma add_fragment_genuine h packet t e : fragment_ok h packet target ->
  entry_ok e -> genuine t e -> entry_matches h e ->
  (h.(ud_tile_pkt_id) = 0 -> e.(en_first_fragment_metadata_seen) = true) ->
  bit_received e.(en_received_bitmap) h.(ud_tile_pkt_id) = false ->
  let payload := slice h.(ud_header_size) h.(ud_payload_size) packet in
  payload = slice (h.(ud_tile_pkt_id) * target) h.(ud_payload_size) t.(sn_payload) ->
  genuine t (add_fragment h target payload e).
Proof.
  intros F Hok G M Hfirst Hbit payload Hpay.
  destruct (fragment_bounds _ _ _ F) as (Hid & Hoff & Hpos & Hend & _ & Hmax & Hcnt & Hhs).
  pose proof (fr_packet _ _ _ F). pose proof (fr_size _ _ _ F) as Hsize. pose proof (fr_target _ _ _ F) as Htgt.
  assert (zlen payload = h.(ud_payload_size)) as Hlen by (apply zlen_slice; lia).
  destruct (add_fragment_ok h packet target payload e F Hlen Hok M Hbit) as [_ Hbits].
  pose proof (eo_bytes _ Hok) as Heb. unfold entry_bytes in Heb. destruct M as (M1 & M2 & M3).
  pose proof (eo_packets _ Hok). destruct G as [G2 G3 G4 G5 G6 G7 G8 G9 G10 G11 G12].
  split; try done.
  - rewrite Hbits by lia. intros [Hz|Hz]%orb_true_iff; [| by apply G11]. bool_cases. by apply Hfirst.
  - intros k j Hk Hkb Hj. cbn [add_fragment en_compressed vec_data set_field en_packet_count] in *.
    rewrite Hbits in Hkb by (wd_bounds; lia). apply orb_true_iff in Hkb as [Hz|Hz].
    + bool_cases. subst k. rewrite aget_write_at_in; rewrite ?Hlen; try lia.
      rewrite Hpay, aget_slice by lia. f_equal. lia.
    + destruct (Z.eq_dec k h.(ud_tile_pkt_id)) as [->|Hne].
      { rewrite Hbit in Hz. done. }
      rewrite aget_write_at_out; rewrite ?Hlen; first [by apply (G12 k) | nia].
Qed.

(** An entry with every packet holds the whole payload. *)
Lemma genuine_complete t e : 0 < target -> entry_ok e -> genuine t e ->
  e.(en_received_count) = e.(en_packet_count) -> e.(en_compressed).(vec_data) = t.(sn_payload) /\
  e.(en_input_sequence) = t.(sn_input_sequence).
Proof.
  intros Ht Hok G Hall. pose proof (eo_packets _ Hok). pose proof (all_received e Hok Hall) as Hbits.
  split.
  - apply (aget_ext 0).
    + rewrite <- (ge_length _ _ G). apply (eo_bytes _ Hok).
    + intros j Hj. pose proof (eo_bytes _ Hok) as Heb. unfold entry_bytes in Heb.
      rewrite Heb, (ge_length _ _ G) in Hj.
      pose proof (proj1 (cdiv_spec (zlen t.(sn_payload)) target _ Ht) eq_refl) as Hq.
      pose proof (Z.div_mod j target ltac:(lia)). pose proof (Z.mod_pos_bound j target Ht).
      assert (0 <= j / target) by (apply Z.div_pos; lia).
      assert (j / target < e.(en_packet_count)) as Hlt.
      { rewrite (ge_packets _ _ G). by apply div_lt_cdiv. }
      apply (ge_data _ _ G (j / target)); [lia | by apply Hbits | nia].
  - apply (ge_input _ _ G), (ge_first _ _ G), Hbits. lia.
Qed.

End one_tile.

Lemma decompress_exact data n out : wd_zstd_decompress data (replicate (Z.to_nat n) 0) n = Some out ->
  0 <= n -> ZSTD_decompress data n = Some out /\ zlen out = n.
Proof.
  intros H Hn. unfold wd_zstd_decompress in H. case_if_in H; [done |].
  assert (zlen (replicate (Z.to_nat n) 0) = n) as Hz by (unfold zlen; rewrite length_replicate; lia).
  rewrite Hz in H. destruct (ZSTD_decompress data n) as [r|]; [| done]. case_if_in H; [| done]. bool_cases.
  injection H as <-. unfold write_at. cbn [take Z.to_nat app].
  rewrite drop_ge by (rewrite length_replicate; unfold zlen in *; lia). by rewrite app_nil_r.
Qed.

(** *** The packets of many tiles

    The key the client files fragments under is the tile, its generation and its
    content epoch; a fragment that differs in compression, length or already
    received bytes is refused.  Nothing else tells two contents apart. *)
Section sent.
Context (Sent : sent_tile -> Prop) (target : Z).

(** Tiles the client cannot tell apart by their headers. *)
Definition same_kind (t t' : sent_tile) : Prop :=
  t.(sn_tile_size) = t'.(sn_tile_size) /\ t.(sn_tile_id) = t'.(sn_tile_id) /\
  t.(sn_generation) = t'.(sn_generation) /\ t.(sn_content_epoch) = t'.(sn_content_epoch) /\
  t.(sn_compressed) = t'.(sn_compressed) /\ zlen t.(sn_payload) = zlen t'.(sn_payload).

(** The bytes of packet [k]. *)
Definition packet_bytes (payload : list Z) (k : Z) : list Z :=
  slice (k * target) (Z.min target (zlen payload - k * target)) payload.

(** Packet [k] of [t] was sent, as a packet of [t']. *)
Definition packet_of (t : sent_tile) (k : Z) (t' : sent_tile) : Prop :=
  Sent t' /\ same_kind t' t /\ packet_bytes t'.(sn_payload) k = packet_bytes t.(sn_payload) k /\
  (k = 0 -> t'.(sn_input_sequence) = t.(sn_input_sequence)).

(** Every packet of [t] was sent, with the metadata of the first. *)
Definition assembled (t : sent_tile) : Prop :=
  0 < zlen t.(sn_payload) /\
  forall k, 0 <= k < cdiv (zlen t.(sn_payload)) target -> exists t', packet_of t k t'.

(** The server sent one payload for the tile's generation. *)
Definition one_payload (t : sent_tile) : Prop :=
  forall a b, Sent a -> Sent b -> same_kind a t -> same_kind b t -> a.(sn_payload) = b.(sn_payload).

Lemma packets_ext l l' : 0 < target -> zlen l = zlen l' ->
  (forall k, 0 <= k < cdiv (zlen l) target -> packet_bytes l k = packet_bytes l' k) -> l = l'.
Proof.
  intros Ht Hl H. apply (aget_ext 0); [done |]. intros j Hj.
  pose proof (Z.div_mod j target ltac:(lia)). pose proof (Z.mod_pos_bound j target Ht).
  assert (0 <= j / target) by (apply Z.div_pos; lia).
  assert (j / target < cdiv (zlen l) target) as Hlt by (by apply div_lt_cdiv).
  specialize (H (j / target) ltac:(lia)). apply (f_equal (fun x => aget 0 x (j - j / target * target))) in H.
  unfold packet_bytes in H. rewrite <- Hl in H. rewrite !aget_slice in H by nia.
  replace (j / target * target + (j - j / target * target)) with j in H by lia. done.
Qed.

(** Under one payload, what is assembled is a tile that was sent. *)
Lemma assembled_sent t : 0 < target -> assembled t -> one_payload t -> Sent t.
Proof.
  intros Ht [Hp Ha] Hone. pose proof (div_lt_cdiv (zlen t.(sn_payload)) target 0 Ht ltac:(lia)) as Hc.
  rewrite Z.div_0_l in Hc by lia.
  destruct (Ha 0 ltac:(lia)) as (f & Sf & Kf & _ & If). enough (f = t) as -> by done.
  assert (f.(sn_payload) = t.(sn_payload)) as Ep.
  { apply packets_ext; [done | apply Kf |]. intros k Hk. pose proof Kf as (_ & _ & _ & _ & _ & El). rewrite El in Hk.
    destruct (Ha k Hk) as (t' & S' & K' & E' & _). by rewrite <- E', (Hone f t' Sf S' Kf K'). }
  specialize (If eq_refl). destruct Kf as (K1 & K2 & K3 & K4 & K5 & _). destruct f, t; cbn in *. congruence.
Qed.

(** The tile an entry would become. *)
Definition tile_of (e : Entry) : sent_tile :=
  mk_sent_tile e.(en_tile_size) e.(en_tile_id) e.(en_generation) e.(en_content_epoch) e.(en_input_sequence)
    e.(en_compressed_payload) e.(en_compressed).(vec_data).

(** Every packet an entry has received was sent. *)
Record pieced (e : Entry) : Prop := {
  pc_packets : e.(en_packet_count) = cdiv e.(en_compressed_size) target;
  pc_dims : wd_tile_dimensions_for_size_code e.(en_tile_size) = Some (e.(en_tile_width), e.(en_tile_height));
  pc_first : bit_received e.(en_received_bitmap) 0 = true -> e.(en_first_fragment_metadata_seen) = true;
  pc_chunks : forall k, 0 <= k < e.(en_packet_count) -> bit_received e.(en_received_bitmap) k = true ->
    exists t', packet_of (tile_of e) k t';
}.

Lemma fresh_pieced h packet w hh now cap : fragment_ok h packet target ->
  wd_tile_dimensions_for_size_code h.(ud_tile_size) = Some (w, hh) -> pieced (fresh_entry h w hh now cap).
Proof.
  intros F Hd. destruct (fragment_bounds _ _ _ F) as (_ & _ & _ & _ & _ & _ & Hcnt & _).
  assert (forall k, 0 <= k < h.(ud_tile_pkt_count) ->
    bit_received (fresh_entry h w hh now cap).(en_received_bitmap) k = false) as Hbits
    by (intros k Hk; apply empty_bits; wd_bounds; lia).
  split; [apply (fr_count _ _ _ F) | done | by rewrite Hbits by lia |].
  intros k Hk Hbit. by rewrite Hbits in Hbit.
Qed.

Lemma note_first_pieced h e : entry_ok e -> first_agrees h e -> pieced e -> pieced (note_first h e).
Proof.
  intros Hok Ha [P1 P2 P3 P4]. unfold note_first. case_if; bool_cases; [| done]. split; try done.
  intros k Hk Hbit. destruct (P4 k Hk Hbit) as (t' & S' & K' & E' & I'). exists t'. split_and!; try done.
  intros ->. rewrite (I' eq_refl). by apply (Ha E), P3.
Qed.

Lemma add_fragment_pieced h packet t e : fragment_ok h packet target ->
  entry_ok e -> pieced e -> entry_matches h e -> entry_current h e -> Sent t ->
  (h.(ud_tile_pkt_id) = 0 -> e.(en_first_fragment_metadata_seen) = true /\ e.(en_input_sequence) = h.(ud_input_sequence)) ->
  bit_received e.(en_received_bitmap) h.(ud_tile_pkt_id) = false ->
  let payload := slice h.(ud_header_size) h.(ud_payload_size) packet in
  carries target t h payload -> pieced (add_fragment h target payload e).
Proof.
  intros F Hok [P1 P2 P3 P4] M (U1 & U2 & U3 & U4) Ht Hfirst Hbit payload (C1 & C2 & C3 & C4 & C5 & C6 & C7 & C8).
  destruct (fragment_bounds _ _ _ F) as (Hid & Hoff & Hpos & Hend & _ & Hmax & Hcnt & Hhs).
  pose proof (fr_packet _ _ _ F). pose proof (fr_size _ _ _ F) as Hsize. pose proof (fr_target _ _ _ F) as Htgt.
  assert (zlen payload = h.(ud_payload_size)) as Hlen by (apply zlen_slice; lia).
  destruct (add_fragment_ok h packet target payload e F Hlen Hok M Hbit) as [Hok' Hbits].
  pose proof (eo_bytes _ Hok) as Heb. pose proof (eo_bytes _ Hok') as Heb'. unfold entry_bytes in Heb, Heb'.
  destruct M as (M1 & M2 & M3). pose proof (eo_packets _ Hok).
  set (e' := add_fragment h target payload e) in *.
  assert (zlen (tile_of e').(sn_payload) = h.(ud_tile_payload_size)) as Hlen'
    by (cbn [tile_of sn_payload]; rewrite Heb'; exact M2).
  assert (zlen (tile_of e).(sn_payload) = h.(ud_tile_payload_size)) as Hlen0
    by (cbn [tile_of sn_payload]; rewrite Heb; exact M2).
  assert (e'.(en_compressed).(vec_data) = write_at (h.(ud_tile_pkt_id) * target) payload e.(en_compressed).(vec_data)) as Hdata by done.
  split; try done.
  - unfold e'. rewrite Hbits by lia. intros [Hz|Hz]%orb_true_iff; [| by apply P3]. bool_cases. by apply Hfirst.
  - intros k Hk Hkb. change (en_packet_count e') with (en_packet_count e) in Hk.
    rewrite Hbits in Hkb by (wd_bounds; lia).
    assert (k < cdiv h.(ud_tile_payload_size) target) as Hkc by (rewrite <- M2, <- P1; lia).
    pose proof (proj1 (cdiv_spec h.(ud_tile_payload_size) target _ ltac:(lia)) eq_refl) as Hq.
    assert (k * target < h.(ud_tile_payload_size)) as Hkt by nia.
    destruct (Z.eq_dec k h.(ud_tile_pkt_id)) as [->|Hne].
    + exists t. split_and!; [done | | |].
      * unfold same_kind. cbn [tile_of sn_tile_size sn_tile_id sn_generation sn_content_epoch sn_compressed].
        rewrite Hlen', <- C7. change (en_tile_size e') with (en_tile_size e). change (en_tile_id e') with (en_tile_id e).
        change (en_generation e') with (en_generation e). change (en_content_epoch e') with (en_content_epoch e).
        change (en_compressed_payload e') with (en_compressed_payload e). split_and!; congruence.
      * unfold packet_bytes. rewrite Hlen', <- C7. rewrite <- Hsize, <- C8. symmetry.
        cbn [tile_of sn_payload]. rewrite Hdata.
        apply (aget_ext 0); rewrite zlen_slice by (rewrite ?zlen_write_at; rewrite ?Hlen; lia); [done |].
        intros j Hj. rewrite aget_slice by lia. rewrite aget_write_at_in by (rewrite ?Hlen; lia). f_equal. lia.
      * intros Hz. change (t.(sn_input_sequence) = e.(en_input_sequence)). destruct (Hfirst Hz) as [_ ->]. by rewrite C5.
    + apply orb_true_iff in Hkb as [Hz|Hz]; [by bool_cases |].
      destruct (P4 k Hk Hz) as (t' & S' & K' & E' & I'). exists t'. split_and!; [done | | | done].
      * destruct K' as (K1 & K2 & K3 & K4 & K5 & K6). split_and!; try done. by rewrite K6, Hlen', Hlen0.
      * rewrite E'. unfold packet_bytes. rewrite Hlen', Hlen0. cbn [tile_of sn_payload]. rewrite Hdata.
        apply (aget_ext 0); rewrite !zlen_slice by (rewrite ?zlen_write_at; rewrite ?Hlen; cbn in Hlen0; lia); [done |].
        intros j Hj. rewrite !aget_slice by lia. symmetry. apply aget_write_at_out; rewrite ?Hlen; nia.
Qed.

(** A complete entry is an assembled tile. *)
Lemma pieced_complete e n out : 0 < target -> entry_ok e -> pieced e ->
  e.(en_received_count) = e.(en_packet_count) -> 0 <= n -> tile_output e n = Some out ->
  assembled (tile_of e) /\ tile_bytes_of (tile_of e) n = Some out.
Proof.
  intros Ht Hok [P1 P2 P3 P4] Hall Hn Ho. pose proof (eo_size _ Hok). pose proof (all_received e Hok Hall) as Hbits.
  pose proof (eo_bytes _ Hok) as Heb. unfold entry_bytes in Heb. split.
  - unfold assembled. cbn [tile_of sn_payload]. rewrite Heb. split; [lia |]. rewrite <- P1.
    intros k Hk. apply P4; [done | by apply Hbits].
  - unfold tile_output in Ho. unfold tile_bytes_of. cbn [tile_of sn_compressed sn_payload].
    destruct (en_compressed_payload e).
    + apply decompress_exact in Ho as [-> Hz]; [| done]. by rewrite Hz, Z.eqb_refl.
    + case_if; [| done]. bool_cases. injection Ho as <-. f_equal. symmetry. apply take_ge. unfold zlen in *. lia.
Qed.

Lemma stored_pieced h packet n e c o t : fragment_ok h packet target ->
  entry_partial e -> pieced e -> entry_current h e -> Sent t ->
  carries target t h (slice h.(ud_header_size) h.(ud_payload_size) packet) ->
  stored h (slice h.(ud_header_size) h.(ud_payload_size) packet) target n e c o ->
  (forall e', o = Some e' -> pieced e') /\
  (c.(ct_valid) = true -> exists e' out, pieced e' /\ entry_ok e' /\ e'.(en_tile_size) = h.(ud_tile_size) /\
     e'.(en_received_count) = e'.(en_packet_count) /\ tile_output e' n = Some out /\
     c = mk_CompletedTile true e'.(en_tile_id) e'.(en_tile_width) e'.(en_tile_height) e'.(en_generation)
       e'.(en_content_epoch) e'.(en_input_sequence) e'.(en_first_packet_ns)
       c.(ct_completed_timestamp_ns) e'.(en_compressed_size) e'.(en_packet_count)
       (mk_vec out c.(ct_tile_bytes).(vec_capacity))).
Proof.
  intros F [Hok Hpart] P Hcur Ht C Hst.
  destruct (note_first_fields h e) as (N00 & N0 & N1 & N2 & N3 & N4 & N5 & N6 & N7 & N8 & _).
  assert (first_agrees h e -> pieced (note_first h e)) as Hnote by (intros Ha; by apply note_first_pieced).
  assert (first_agrees h e -> entry_matches h e ->
    bit_received e.(en_received_bitmap) h.(ud_tile_pkt_id) = false ->
    let e' := add_fragment h target (slice h.(ud_header_size) h.(ud_payload_size) packet) (note_first h e) in
    pieced e' /\ entry_ok e' /\ e'.(en_tile_size) = h.(ud_tile_size)) as Hadd.
  { intros Ha M Hbit e'. specialize (Hnote Ha).
    destruct (fragment_bounds _ _ _ F) as (? & ? & ? & ? & ? & ? & ? & ?).
    assert (entry_matches h (note_first h e)) as M' by (unfold entry_matches; by rewrite N1, N2, N3).
    assert (entry_current h (note_first h e)) as U' by (unfold entry_current; by rewrite N00, N0, N7, N8).
    split_and!; [| | cbn; rewrite N0; apply Hcur].
    - eapply add_fragment_pieced; try done; [by apply note_first_ok | | by rewrite N5].
      intros Hz. unfold note_first. by rewrite Hz.
    - eapply add_fragment_ok; try done; [| by apply note_first_ok | by rewrite N5].
      apply zlen_slice; pose proof (fr_packet _ _ _ F); lia. }
  inversion Hst; subst; (split; [intros x Hx; simplify_eq | try done]).
  - by apply Hnote.
  - by apply Hnote.
  - by apply Hadd.
  - intros _. destruct Hadd as (P2 & Hok2 & Hsz2); try done. do 2 eexists. by split_and!.
Qed.

(** A packet the network delivers is one of a sent tile's, or does not decode
    as a tile packet; every state uses the same payload target. *)
Definition event_honest (ev : reasm_event) : Prop :=
  match ev with
  | EvPacket state packet _ _ _ =>
      payload_target state = target /\
      forall bytes h, packet = Some bytes -> wd_udp_tile_packet_decode bytes = Some h ->
        exists t, Sent t /\ carries target t h (slice h.(ud_header_size) h.(ud_payload_size) bytes)
  | _ => True
  end.

Lemma dims_small code w h : wd_tile_dimensions_for_size_code code = Some (w, h) ->
  0 < w <= 128 /\ 0 < h <= 64 /\ u64 (u64 (w * h) * WD_BYTES_PER_PIXEL) = w * h * WD_BYTES_PER_PIXEL.
Proof.
  unfold wd_tile_dimensions_for_size_code. intros H.
  repeat case_if_in H; try done; injection H as <- <-; split_and!; try lia; reflexivity.
Qed.

(** What the reassembler may complete. *)
Definition tile_made (c : CompletedTile) : Prop :=
  exists t, assembled t /\ delivers t c /\ (one_payload t -> Sent t).

Lemma process_pieced s tr packet now ns done c s' tr' :
  reasm_ok tr -> Forall pieced tr.(tr_active_entries) ->
  event_ok (EvPacket s packet now ns done) -> event_honest (EvPacket s packet now ns done) ->
  process_udp_packet s tr packet now ns done = Some (c, s', tr') ->
  Forall pieced tr'.(tr_active_entries) /\ (c.(ct_valid) = true -> tile_made c).
Proof.
  intros R HG [Hc Hb] [Htgt Hh] Hrun.
  destruct (process_ok s tr packet now ns done R Hc Hb) as (c0 & s0 & tr0 & Hr & _ & _ & _ & _ & Hout).
  rewrite Hrun in Hr. injection Hr as <- <- <-. rewrite list.Forall_forall in HG.
  destruct Hout as [[-> Hsub]|(bytes & h & w & hh & active & -> & Hd & Hdim & F & Hsub & Hrec)].
  { split; [| done]. apply list.Forall_forall. auto. }
  rewrite Htgt in *. destruct (Hh bytes h eq_refl Hd) as (t & Ht & C).
  inversion Hrec as [a1 Hs1|a1 i e c1 o Hi Hcur Hp Hsrc Hoth Hst]; subst.
  { split; [apply list.Forall_forall; auto | done]. }
  assert (pieced e) as He by (destruct Hsrc as [?|[cap ->]]; [auto | by eapply fresh_pieced]).
  assert (forall x, x ∈ a1 -> pieced x) as Ha1 by (intros x [->|Hx]%Hoth; auto).
  destruct (stored_pieced h bytes _ e c o t F Hp He Hcur Ht C Hst) as [Ho Hdone]. split.
  - apply list.Forall_forall. destruct o as [e'|]; intros x Hx.
    + apply elem_of_insert_inv in Hx as [->|Hx]; [by apply Ho | auto].
    + apply Ha1. rewrite (swap_remove_perm _ _ _ Hi). by constructor.
  - intros Hv. destruct (Hdone Hv) as (e' & out & P & Hok & Hsz & Hall & Hout & ->).
    pose proof (fr_target _ _ _ F). destruct (dims_small _ _ _ Hdim) as (Hw & Hhh & Hn).
    pose proof (pc_dims _ P) as Hd'. rewrite Hsz in Hd'.
    unfold tile_dimensions_from_header in Hdim. rewrite Hdim in Hd'. injection Hd' as Ew Eh.
    assert (0 <= w * hh * WD_BYTES_PER_PIXEL) as Hnn by (unfold WD_BYTES_PER_PIXEL; nia). rewrite Hn in Hout.
    destruct (pieced_complete e' _ out (proj1 H) Hok P Hall Hnn Hout) as [HA HB].
    exists (tile_of e'). split_and!; [done | | intros Hone; apply assembled_sent; [lia | done | done]].
    pose proof (eo_bytes _ Hok) as Heb. unfold entry_bytes in Heb.
    unfold delivers. cbn [ct_tile_id ct_generation ct_content_epoch ct_input_sequence ct_tile_width ct_tile_height
      ct_compressed_size ct_tile_bytes vec_data tile_of sn_tile_id sn_generation sn_content_epoch sn_input_sequence sn_payload
      sn_tile_size].
    split_and!; try done; [apply P |]. by rewrite <- Ew, <- Eh.
Qed.

(** C11: whatever subset of the sent packets arrives, in whatever order and
    however often, mixed with packets that do not decode and with expiry,
    eviction and resets, every tile the reassembler completes is made of packets
    the server sent for that tile: each of its packets is, byte for byte and at its
    place, the packet of a sent tile of the same size code, tile, generation,
    content epoch, compression and payload length, the input sequence is that of
    the sent tile its first packet came from, and the pixels are what that payload
    stands for.  So where the server sent one payload for the generation the
    completed tile is a tile the server sent.  (The client cannot promise that
    alone: a tile that the server sent in part keeps its generation when changed
    pixels are sent next.  See [torn_tile_completed].) *)
Theorem reassembled_tiles_sent entries bytes evs tr done :
  1 <= bytes <= SIZE_MAX - UINT16_MAX ->
  Forall event_ok evs -> Forall event_honest evs ->
  reasm_run (new_TileReassembler entries bytes) evs = Some (tr, done) ->
  Forall (fun c => exists t, assembled t /\ delivers t c /\ (one_payload t -> Sent t)) done.
Proof.
  intros Hb Hok Hhon. change (reasm_run (new_TileReassembler entries bytes) evs = Some (tr, done) -> Forall tile_made done).
  assert (reasm_ok (new_TileReassembler entries bytes)) as R0 by by apply new_shape.
  assert (Forall pieced (new_TileReassembler entries bytes).(tr_active_entries)) as G0 by constructor.
  revert R0 G0. generalize (new_TileReassembler entries bytes). revert done.
  induction Hok as [|ev evs He Hok IH]; intros done tr0 R G Hrun; cbn [reasm_run] in Hrun.
  { injection Hrun as <- <-. constructor. }
  apply list.Forall_cons in Hhon as [Hh Hhon]. specialize (IH Hhon).
  destruct (reasm_step_ok tr0 ev R He) as (tr1 & out & Hs & R1 & _). rewrite Hs in Hrun.
  cbn [mbind option_bind] in Hrun. destruct (reasm_run tr1 evs) as [[tr2 out2]|] eqn:Er; [| done].
  cbn [mbind option_bind] in Hrun. injection Hrun as <- <-.
  assert (Forall pieced tr1.(tr_active_entries) /\ Forall tile_made out) as [G1 Ho].
  2:{ apply list.Forall_app. split; [done |]. by apply (IH out2 tr1). }
  destruct ev as [s packet now ns dn|s now ns|buf|]; cbn [reasm_step] in Hs.
  - destruct (process_udp_packet s tr0 packet now ns dn) as [[[c s'] tr']|] eqn:Ep; [| done].
    cbn [mbind option_bind] in Hs. injection Hs as <- <-.
    destruct (process_pieced s tr0 packet now ns dn c s' tr' R G He Hh Ep) as [G1 Hc].
    split; [done |]. destruct (ct_valid c); [| constructor]. by repeat constructor; auto.
  - destruct (expire_stale_ok s tr0 now ns R) as (s' & tr' & Hx & Hk & _). rewrite Hx in Hs.
    cbn [mbind option_bind] in Hs. injection Hs as <- <-. split; [by eapply shrinks_entries | constructor].
  - injection Hs as <- <-. destruct (recycle_buffer_ok tr0 buf (proj1 R)) as (_ & _ & ->). by split.
  - destruct (reassembler_reset_ok tr0 (proj1 R)) as (tr' & Hx & _ & Hn). rewrite Hx in Hs.
    cbn [mbind option_bind] in Hs. injection Hs as <- <-. rewrite Hn. by split.
Qed.

End sent.

End zstd.

(** ** Witnesses *)

(** A decompressor that knows no frame: raw tiles only. *)
Definition no_zstd (_ : list Z) (_ : Z) : option (list Z) := None.

Definition sample_config : wd_server_config_payload :=
  mk_wd_server_config_payload 3 99 1 7 0 64 32 16 16 4 2 8 0 0 0 600 0 0 0 0 0 0 0 0 0 0 0 0 0 0 0 0 0 0 0.

Definition sample_state : ClientState :=
  mk_ClientState sample_config (replicate 8 0) [] [] [] [] [] [] [] [] [] [] [] 0 0 0 0 0 0
    (double_of_Z 0) (double_of_Z 0) 0 0 0 0 sample_config false 0 true 0 0 [] no_content zero_stats.

Definition raw_tile : sent_tile :=
  mk_sent_tile WD_TILE_16x16 5 12 7 41 false ((fun i => i mod 251) <$> zseq 1024).

(** Other pixels for the same tile. *)
Definition changed_tile : sent_tile :=
  mk_sent_tile WD_TILE_16x16 5 12 7 41 false ((fun i => (i + 1) mod 251) <$> zseq 1024).

(** Packet [i] of a payload sent as that tile. *)
Definition tile_packet (payload : list Z) (i : Z) : list Z :=
  let size := Z.min 600 (1024 - i * 600) in
  let h := mk_wd_udp_tile_packet_decoded 3 99 7
    (if i =? 0 then WD_UDP_TILE_FLAG_INPUT_SEQUENCE else 0) WD_TILE_16x16 i 5 2 size 1024 12
    (if i =? 0 then 41 else 0) 0 in
  default [] (wd_udp_tile_packet_encode_header 44 (Some h)) ++ slice (i * 600) size payload.

Definition raw_packet (i : Z) : list Z := tile_packet raw_tile.(sn_payload) i.

(** The two packets of a tile out of order, one of them twice, and a stray
    datagram. *)
Definition raw_events : list reasm_event :=
  [EvPacket sample_state (Some (raw_packet 1)) 1000 0 0;
   EvPacket sample_state (Some [1; 2; 3]) 1100 0 0;
   EvPacket sample_state (Some (raw_packet 1)) 1200 0 0;
   EvExpire sample_state 1300 0;
   EvPacket sample_state (Some (raw_packet 0)) 1400 0 1500].

Lemma raw_events_ok : Forall event_ok raw_events.
Proof.
  repeat constructor; try (vm_compute; congruence);
    intros bytes [= <-]; eapply bool_decide_unpack; vm_compute; exact I.
Qed.

Lemma reassembler_memory_safe_witness :
  exists tr done, reasm_run (fun n => n) no_zstd (new_TileReassembler 1 4096) raw_events = Some (tr, done) /\
    active_entry_count tr <= 1.
Proof.
  destruct (reassembler_memory_safe (fun n => n) no_zstd 1 4096 raw_events)
    as (tr & done & H & Hc & _); [mlia | apply raw_events_ok |].
  exists tr, done. exact (conj H Hc).
Defined.

(** Tiles of the same kind as [raw_tile] whose packets may arrive. *)
Lemma tile_packet_honest (Sent : sent_tile -> Prop) t i now ns done : i = 0 \/ i = 1 -> Sent t ->
  t = raw_tile \/ t = changed_tile ->
  event_honest Sent 600 (EvPacket sample_state (Some (tile_packet t.(sn_payload) i)) now ns done).
Proof.
  intros Hi Ht Hcase. split; [by vm_compute |]. intros bytes h [= <-] Hd. exists t. split; [done |].
  destruct Hcase as [-> | ->], Hi as [-> | ->]; vm_compute in Hd; injection Hd as <-;
    split_and!; try (vm_compute; reflexivity); intros Hx; vm_compute in Hx |- *; congruence.
Qed.

Lemma raw_events_honest : Forall (event_honest (fun t => raw_tile = t) 600) raw_events.
Proof.
  assert (forall i now ns done, i = 0 \/ i = 1 ->
    event_honest (fun t => raw_tile = t) 600 (EvPacket sample_state (Some (raw_packet i)) now ns done)) as Hp.
  { intros i now ns done Hi. apply (tile_packet_honest _ raw_tile); [exact Hi | reflexivity | by left]. }
  unfold raw_events. rewrite !list.Forall_cons.
  split_and!; try exact I; try (apply Hp; lia); [| by constructor].
  split; [reflexivity |]. intros bytes h [= <-] Hd. by vm_compute in Hd.
Qed.

Lemma reassembled_tiles_sent_witness :
  exists tr c, reasm_run (fun n => n) no_zstd (new_TileReassembler 1 4096) raw_events = Some (tr, [c]) /\
    Forall (fun c => exists t, raw_tile = t /\ delivers no_zstd t c) [c].
Proof.
  do 2 eexists. split; [vm_compute; reflexivity |].
  eapply List.Forall_impl; cycle 1.
  - eapply (reassembled_tiles_sent (fun n => n) no_zstd (fun t => raw_tile = t) 600 1 4096 raw_events);
      [mlia | apply raw_events_ok | apply raw_events_honest | vm_compute; reflexivity].
  - intros c (t & _ & HD & Hone). exists t. split; [apply Hone; by intros a b <- <- | exact HD].
Defined.

(** Two contents sent as one generation of a tile, as when the first was only
    sent in part: the client completes a tile that is neither. *)
Lemma torn_tile_completed :
  same_kind changed_tile raw_tile /\
  Forall (event_honest (fun t => t = raw_tile \/ t = changed_tile) 600)
    [EvPacket sample_state (Some (tile_packet raw_tile.(sn_payload) 0)) 1000 0 0;
     EvPacket sample_state (Some (tile_packet changed_tile.(sn_payload) 1)) 1100 0 1500] /\
  exists tr c, reasm_run (fun n => n) no_zstd (new_TileReassembler 1 4096)
    [EvPacket sample_state (Some (tile_packet raw_tile.(sn_payload) 0)) 1000 0 0;
     EvPacket sample_state (Some (tile_packet changed_tile.(sn_payload) 1)) 1100 0 1500] = Some (tr, [c]) /\
    c.(ct_tile_bytes).(vec_data) = slice 0 600 raw_tile.(sn_payload) ++ slice 600 424 changed_tile.(sn_payload) /\
    c.(ct_tile_bytes).(vec_data) <> raw_tile.(sn_payload) /\ c.(ct_tile_bytes).(vec_data) <> changed_tile.(sn_payload).
Proof.
  split; [by split_and! |]. split.
  - constructor; [| constructor; [| constructor]].
    + apply (tile_packet_honest _ raw_tile); [by left | by left | by left].
    + apply (tile_packet_honest _ changed_tile); [by right | by right | by right].
  - do 2 eexists. split; [vm_compute; reflexivity |].
    split; [vm_compute; reflexivity |]. split; vm_compute; congruence.
Qed.
