(* ===== verification/ClientRepair.v ===== *)
(** * Repair of missing tiles on the client

    src/client/client_net.cpp (timers, [queue_retransmits_from_summary],
    [promote_deferred_summary_retransmits_locked],
    [client_flush_retransmit_requests]), client_receive.cpp (the book-keeping of
    completed tiles).  The server
    announces the generations of its tiles in summaries; a tile announced and not
    received waits a grace period in the pending table with an entry in the due
    queue, moves to the retransmit queue, and is requested by the next flush; a
    tile given up by the reassembler goes to the retransmit queue at once.

    Invariant: [repair_ok].  [announced_tiles_requested]: an announced tile stays
    tracked until it is received or requested.  [due_tile_requested]: when its
    time has come a tracked tile is requested.  The order of the due queue is that
    of insertion.  [sort_candidates] stands for [std::sort] with the comparison
    of age and tile id; only that it permutes its input is used. *)
From S2P Require Import Prelude CFloat Wire Config Structs Payload TileGrid RenderPlanning ClientOwnership PresentQueue ClientState ContentOrder UdpTile TileReassembly.

(** ** Timers *)

Definition ms_to_ns (ms fallback_ns : Z) : Z := if ms =? 0 then fallback_ns else ms * WD_NSEC_PER_MSEC.

Definition clamp_timer_ns (ns min_ns max_ns : Z) : Z := Z.max min_ns (Z.min max_ns ns).

Definition udp_gap_pressure_ns (state : ClientState) : Z :=
  clamp_timer_ns state.(cs_udp_gap_pressure_ns) 0 WD_LINK_RTT_MAX_NS.

Definition summary_retransmit_grace_ns (state : ClientState) : Z :=
  let grace_ns := clamp_timer_ns state.(cs_summary_retransmit_grace_ns) WD_LINK_SUMMARY_GRACE_MIN_NS
                    WD_LINK_SUMMARY_GRACE_MAX_NS in
  let gap_ns := udp_gap_pressure_ns state in
  if gap_ns >=? WD_LINK_RUNTIME_GAP_PRESSURE_MIN_NS then
    let gap_grace_ns := u64 (gap_ns + WD_NET_CLIENT_GAP_GRACE_NS) in
    Z.max grace_ns (clamp_timer_ns gap_grace_ns WD_LINK_SUMMARY_GRACE_MIN_NS WD_LINK_SUMMARY_GRACE_MAX_NS)
  else grace_ns.

Definition retransmit_request_interval_ns (state : ClientState) : Z :=
  let request_interval_ns := clamp_timer_ns state.(cs_retransmit_request_interval_ns)
    WD_LINK_RETRANSMIT_REQUEST_INTERVAL_MIN_NS WD_LINK_RETRANSMIT_REQUEST_INTERVAL_MAX_NS in
  let gap_ns := udp_gap_pressure_ns state in
  if gap_ns >=? WD_LINK_RUNTIME_GAP_PRESSURE_MIN_NS
  then Z.max request_interval_ns (clamp_timer_ns (u64 (gap_ns * 2)) WD_LINK_RETRANSMIT_REQUEST_INTERVAL_MIN_NS
         WD_LINK_RETRANSMIT_REQUEST_INTERVAL_MAX_NS)
  else request_interval_ns.

Definition retransmit_inflight_grace_ns_locked (state : ClientState) : Z :=
  let inflight_ns := clamp_timer_ns state.(cs_retx_inflight_grace_ns) WD_LINK_RETRANSMIT_INFLIGHT_MIN_NS
                       WD_LINK_RETRANSMIT_INFLIGHT_MAX_NS in
  let gap_ns := udp_gap_pressure_ns state in
  if gap_ns >=? WD_LINK_RUNTIME_GAP_PRESSURE_MIN_NS
  then Z.max inflight_ns (clamp_timer_ns (u64 (gap_ns * 2)) WD_LINK_RETRANSMIT_INFLIGHT_MIN_NS
         WD_LINK_RETRANSMIT_INFLIGHT_MAX_NS)
  else inflight_ns.

Definition summary_clean_interval_ns_locked (state : ClientState) : Z :=
  clamp_timer_ns (ms_to_ns state.(cs_config).(sc_clean_summary_interval_ms) WD_LINK_CLEAN_SUMMARY_INTERVAL_DEFAULT_NS)
    WD_LINK_CLEAN_SUMMARY_INTERVAL_MIN_NS WD_LINK_CLEAN_SUMMARY_INTERVAL_MAX_NS.

Definition large_summary_repair_grace_ns_locked (state : ClientState) : Z :=
  Z.max (Z.max (summary_retransmit_grace_ns state) (retransmit_request_interval_ns state))
    (summary_clean_interval_ns_locked state).

Definition recent_concrete_repair_loss_signal (state : ClientState) (now_ns : Z) : bool :=
  let until_ns := state.(cs_summary_repair_loss_signal_until_ns) in
  negb (until_ns =? 0) && (now_ns <? until_ns).

Definition large_summary_repair_batch_locked (state : ClientState) (total_tiles candidate_count min_candidate_age_ns
    now_ns : Z) (record_suppressed : bool) : ClientState * bool :=
  if (total_tiles =? 0) || (candidate_count =? 0) ||
     (u64 (candidate_count * 100) <? total_tiles * WD_LINK_LARGE_SUMMARY_REPAIR_PERCENT)
  then (state, false)
  else if recent_concrete_repair_loss_signal state now_ns then (state, false)
  else
    let large_grace_ns := large_summary_repair_grace_ns_locked state in
    let not_before := state.(cs_summary_large_repair_not_before_ns) in
    let blocked := (min_candidate_age_ns <? large_grace_ns) ||
                   (negb (not_before =? 0) && (now_ns <? not_before)) in
    if blocked then
      (if record_suppressed then fetch_add st_summary_retx_tiles_throttled candidate_count state else state, true)
    else
      let cooldown_ns := Z.max WD_LINK_LARGE_SUMMARY_REPAIR_COOLDOWN_NS (summary_clean_interval_ns_locked state) in
      (state <| cs_summary_large_repair_not_before_ns := u64 (now_ns + cooldown_ns) |>, false).

Definition apply_link_timers_from_config (state : ClientState) (config : wd_server_config_payload) : ClientState :=
  let summary_grace_ns :=
    clamp_timer_ns (ms_to_ns config.(sc_summary_retransmit_grace_ms) WD_LINK_SUMMARY_GRACE_DEFAULT_NS)
      WD_LINK_SUMMARY_GRACE_MIN_NS WD_LINK_SUMMARY_GRACE_MAX_NS in
  let request_interval_ns :=
    clamp_timer_ns (ms_to_ns config.(sc_retransmit_request_interval_ms) WD_LINK_RETRANSMIT_REQUEST_INTERVAL_DEFAULT_NS)
      WD_LINK_RETRANSMIT_REQUEST_INTERVAL_MIN_NS WD_LINK_RETRANSMIT_REQUEST_INTERVAL_MAX_NS in
  let inflight_ns :=
    clamp_timer_ns (ms_to_ns config.(sc_retransmit_inflight_grace_ms) WD_LINK_RETRANSMIT_INFLIGHT_DEFAULT_NS)
      WD_LINK_RETRANSMIT_INFLIGHT_MIN_NS WD_LINK_RETRANSMIT_INFLIGHT_MAX_NS in
  let reassembly_ns :=
    clamp_timer_ns (ms_to_ns config.(sc_tile_reassembly_timeout_ms) WD_LINK_TILE_REASSEMBLY_DEFAULT_NS)
      WD_LINK_TILE_REASSEMBLY_MIN_NS WD_LINK_TILE_REASSEMBLY_MAX_NS in
  let reassembly_floor_ns :=
    clamp_timer_ns (Z.max WD_LINK_TILE_REASSEMBLY_MIN_NS (reassembly_ns / 2))
      WD_LINK_TILE_REASSEMBLY_MIN_NS WD_LINK_TILE_REASSEMBLY_MAX_NS in
  let ewma := double_of_Z reassembly_ns in
  state <| cs_summary_retransmit_grace_ns := summary_grace_ns |>
        <| cs_retransmit_request_interval_ns := request_interval_ns |>
        <| cs_retx_inflight_grace_ns := inflight_ns |>
        <| cs_tile_reassembly_floor_ns := reassembly_floor_ns |>
        <| cs_tile_reassembly_timeout_ns := reassembly_ns |>
        <| cs_tile_reassembly_ewma_ns := ewma |>
        <| cs_tile_reassembly_deviation_ns :=
             double_div ewma (double_of_Z WD_CLIENT_RETRANSMIT_JITTER_INITIAL_DEVIATION_DIVISOR) |>.

(** ** The tables *)

Record SummaryRepairCandidate := mk_SummaryRepairCandidate {
  rc_tile_id : Z;
  rc_generation : Z;
  rc_pending_since_ns : Z;
}.

Definition ensure_retransmit_tracking_locked (state : ClientState) (total_tiles : Z) : ClientState :=
  let state :=
    state <| cs_retx_queued_generation := ensure_size total_tiles 0 state.(cs_retx_queued_generation) |>
          <| cs_retx_last_requested_generation := ensure_size total_tiles 0 state.(cs_retx_last_requested_generation) |>
          <| cs_retx_last_request_ns := ensure_size total_tiles 0 state.(cs_retx_last_request_ns) |>
          <| cs_retx_inflight_generation := ensure_size total_tiles 0 state.(cs_retx_inflight_generation) |>
          <| cs_retx_inflight_since_ns := ensure_size total_tiles 0 state.(cs_retx_inflight_since_ns) |> in
  let reset_summary_pending :=
    negb (zlen state.(cs_retx_summary_pending_generation) =? total_tiles) ||
    negb (zlen state.(cs_retx_summary_pending_since_ns) =? total_tiles) ||
    negb (zlen state.(cs_retx_summary_pending_position) =? total_tiles) in
  let state :=
    state <| cs_retx_summary_pending_generation := ensure_size total_tiles 0 state.(cs_retx_summary_pending_generation) |>
          <| cs_retx_summary_pending_since_ns := ensure_size total_tiles 0 state.(cs_retx_summary_pending_since_ns) |>
          <| cs_retx_summary_pending_position :=
               ensure_size total_tiles UINT32_MAX state.(cs_retx_summary_pending_position) |> in
  if reset_summary_pending
  then state <| cs_retx_summary_pending_tiles := [] |> <| cs_retx_summary_due_queue := [] |>
             <| cs_retx_summary_pending_count := 0 |>
  else state.

Definition set_pending_index (state : ClientState) (index : list Z * list Z * bool) : ClientState :=
  state <| cs_retx_summary_pending_tiles := index.1.1 |> <| cs_retx_summary_pending_position := index.1.2 |>.

Definition update_pending_count (state : ClientState) : ClientState :=
  state <| cs_retx_summary_pending_count := u32 (zlen state.(cs_retx_summary_pending_tiles)) |>.

(** The guard of the accesses to the three pending tables. *)
Definition pending_slot (state : ClientState) (tile_id : Z) : bool :=
  (tile_id <? zlen state.(cs_retx_summary_pending_generation)) &&
  (tile_id <? zlen state.(cs_retx_summary_pending_since_ns)) &&
  (tile_id <? zlen state.(cs_retx_summary_pending_position)).

Definition clear_summary_pending_locked (state : ClientState) (tile_id : Z) : ClientState :=
  if negb (pending_slot state tile_id) then state
  else
    let state := set_pending_index state (summary_pending_index_remove state.(cs_retx_summary_pending_tiles)
                   state.(cs_retx_summary_pending_position) tile_id) in
    update_pending_count
      (state <| cs_retx_summary_pending_generation := aset state.(cs_retx_summary_pending_generation) tile_id 0 |>
             <| cs_retx_summary_pending_since_ns := aset state.(cs_retx_summary_pending_since_ns) tile_id 0 |>).

Definition schedule_summary_pending_due_locked (state : ClientState) (tile_id generation due_ns : Z) : ClientState :=
  state <| cs_retx_summary_due_queue := state.(cs_retx_summary_due_queue) ++
             [mk_ClientSummaryRepairDue tile_id generation due_ns] |>.

Definition set_summary_pending_locked (state : ClientState) (tile_id generation now_ns : Z) : ClientState :=
  if (generation =? 0) || negb (pending_slot state tile_id) ||
     (aget 0 state.(cs_retx_summary_pending_generation) tile_id >=? generation)
  then state
  else
    let index := summary_pending_index_add state.(cs_retx_summary_pending_tiles)
                   state.(cs_retx_summary_pending_position) tile_id in
    if negb index.2 then state
    else
      let state := set_pending_index state index in
      let state :=
        state <| cs_retx_summary_pending_generation := aset state.(cs_retx_summary_pending_generation) tile_id generation |>
              <| cs_retx_summary_pending_since_ns := aset state.(cs_retx_summary_pending_since_ns) tile_id now_ns |> in
      let grace_ns := summary_retransmit_grace_ns state in
      update_pending_count
        (schedule_summary_pending_due_locked state tile_id generation
           (if now_ns >? UINT64_MAX - grace_ns then UINT64_MAX else now_ns + grace_ns)).

Definition client_repair_pressure_high_locked (state : ClientState) (total_tiles : Z) : bool :=
  if total_tiles =? 0 then false
  else
    let pressure_tiles := Z.max WD_CLIENT_REPAIR_PRESSURE_MAX_QUEUE_TILES
                            (total_tiles * WD_CLIENT_REPAIR_PRESSURE_PERCENT / 100) in
    (zlen state.(cs_retx_queue) >=? pressure_tiles) || (state.(cs_retx_summary_pending_count) >=? pressure_tiles).

Definition queue_retransmit_tile_locked (state : ClientState) (tile_id generation total_tiles : Z) : ClientState * bool :=
  if (tile_id >=? total_tiles) || (generation =? 0) then (state, false)
  else
    let state := ensure_retransmit_tracking_locked state total_tiles in
    let queued := state.(cs_retx_queued_generation) in
    (state <| cs_retx_queue := state.(cs_retx_queue) ++ (if aget 0 queued tile_id =? 0 then [tile_id] else []) |>
           <| cs_retx_queued_generation :=
                if aget 0 queued tile_id <? generation then aset queued tile_id generation else queued |>, true).

(** ** Announcements *)

Section sort.
Context (sort_candidates : list SummaryRepairCandidate -> list SummaryRepairCandidate).

(** The first result is what is kept, the second how many were deferred. *)
Definition limit_repair_candidates_under_pressure_locked (state : ClientState) (total_tiles : Z)
    (candidates : list SummaryRepairCandidate) : list SummaryRepairCandidate * Z :=
  if negb (client_repair_pressure_high_locked state total_tiles) ||
     (zlen candidates <=? WD_CLIENT_REPAIR_PRESSURE_MAX_QUEUE_TILES)
  then (candidates, 0)
  else (take (Z.to_nat WD_CLIENT_REPAIR_PRESSURE_MAX_QUEUE_TILES) (sort_candidates candidates),
        zlen candidates - WD_CLIENT_REPAIR_PRESSURE_MAX_QUEUE_TILES).

(** The state of the loop over the entries: the client's, the tiles newly
    pending, the candidates and the youngest candidate's age. *)
Definition summary_loop : Type := ClientState * Z * list SummaryRepairCandidate * Z.

Definition defer_announced (state : ClientState) (newly : Z) (entry : wd_tile_generation_entry) (now_ns : Z)
    : ClientState * Z :=
  let tile_id := entry.(tg_tile_id) in
  if aget 0 state.(cs_retx_summary_pending_generation) tile_id <? entry.(tg_tile_generation)
  then (set_summary_pending_locked state tile_id entry.(tg_tile_generation) now_ns, newly + 1)
  else (state, newly).

(** An elapsed time below [limit_ns] since a non-zero [since_ns], in the C
    code's unsigned arithmetic. *)
Definition within_ns (now_ns since_ns limit_ns : Z) : bool :=
  negb (since_ns =? 0) && (u64 (now_ns - since_ns) <? limit_ns).

Definition inflight_recently (state : ClientState) (tile_id generation now_ns : Z) : bool :=
  (aget 0 state.(cs_retx_inflight_generation) tile_id >=? generation) &&
  within_ns now_ns (aget 0 state.(cs_retx_inflight_since_ns) tile_id) (retransmit_inflight_grace_ns_locked state).

Definition requested_recently (state : ClientState) (tile_id generation now_ns : Z) : bool :=
  (aget 0 state.(cs_retx_last_requested_generation) tile_id >=? generation) &&
  within_ns now_ns (aget 0 state.(cs_retx_last_request_ns) tile_id) (retransmit_request_interval_ns state).

Definition summary_entry (now_ns : Z) : summary_loop -> wd_tile_generation_entry -> summary_loop :=
  fun '(state, newly, candidates, min_age) entry =>
    let tile_id := entry.(tg_tile_id) in
    let generation := entry.(tg_tile_generation) in
    if generation <=? aget 0 state.(cs_received_generation) tile_id then
      (clear_summary_pending_locked state tile_id, newly, candidates, min_age)
    else if inflight_recently state tile_id generation now_ns || requested_recently state tile_id generation now_ns then
      let '(state, newly) := defer_announced state newly entry now_ns in (state, newly, candidates, min_age)
    else if aget 0 state.(cs_retx_summary_pending_generation) tile_id <? generation then
      (set_summary_pending_locked state tile_id generation now_ns, newly + 1, candidates, min_age)
    else
      let pending_since_ns := aget 0 state.(cs_retx_summary_pending_since_ns) tile_id in
      if within_ns now_ns pending_since_ns (summary_retransmit_grace_ns state) then (state, newly, candidates, min_age)
      else
        let candidate_age_ns :=
          if negb (pending_since_ns =? 0) && (now_ns >=? pending_since_ns) then now_ns - pending_since_ns else 0 in
        (state, newly, candidates ++ [mk_SummaryRepairCandidate tile_id generation pending_since_ns],
         Z.min min_age candidate_age_ns).

(** The loop that queues the candidates; the counters are the tiles queued and
    the waiting times. *)
Definition queue_candidate (now_ns total_tiles : Z) (promote : bool)
    : ClientState * Z * Z * Z -> SummaryRepairCandidate -> ClientState * Z * Z * Z :=
  fun '(state, queued, sum_ns, samples) candidate =>
    let '(state, ok) := queue_retransmit_tile_locked state candidate.(rc_tile_id) candidate.(rc_generation) total_tiles in
    if negb ok then (state, queued, sum_ns, samples)
    else
      let since_ns := candidate.(rc_pending_since_ns) in
      let sampled := (promote || negb (since_ns =? 0)) && (now_ns >=? since_ns) in
      (clear_summary_pending_locked state candidate.(rc_tile_id), queued + 1,
       if sampled then u64 (sum_ns + (now_ns - since_ns)) else sum_ns, if sampled then samples + 1 else samples).

Definition queue_candidates (state : ClientState) (candidates : list SummaryRepairCandidate)
    (now_ns total_tiles : Z) (promote : bool) : ClientState :=
  let '(state, queued, sum_ns, samples) :=
    fold_left (queue_candidate now_ns total_tiles promote) candidates (state, 0, 0, 0) in
  if negb (queued =? 0) then
    let state := fetch_add st_summary_retx_tiles_queued queued state in
    if negb (samples =? 0)
    then fetch_add st_summary_to_retx_sum_ns sum_ns (fetch_add st_summary_to_retx_samples samples state)
    else state
  else state.

(** The part of [queue_retransmits_from_summary] under the generation and
    retransmit locks. *)
Definition announce_tiles (state : ClientState) (entries : list wd_tile_generation_entry) (total_tiles now_ns : Z)
    : ClientState :=
  if (total_tiles =? 0) || negb (zlen state.(cs_received_generation) =? total_tiles) then state
  else
    let state := ensure_retransmit_tracking_locked state total_tiles in
    let '(state, newly, candidates, min_age) :=
      fold_left (summary_entry now_ns) entries (state, 0, [], UINT64_MAX) in
    let state := if negb (newly =? 0) then fetch_add st_summary_retx_tiles_deferred newly state else state in
    if null candidates then state
    else
      let '(candidates, pressure_deferred) :=
        limit_repair_candidates_under_pressure_locked state total_tiles candidates in
      let state :=
        if negb (pressure_deferred =? 0) then fetch_add st_summary_retx_pressure_dropped pressure_deferred state
        else state in
      let '(state, large) :=
        large_summary_repair_batch_locked state total_tiles (zlen candidates) min_age now_ns true in
      if (large : bool) then state else queue_candidates state candidates now_ns total_tiles false.

(** The entry array behind the header. *)
Definition summary_payload_entries (payload : list Z) (count : Z) : list wd_tile_generation_entry :=
  omap (fun i => decode (slice (sizeof wd_tile_summary_payload_header + i * sizeof wd_tile_generation_entry)
                           (sizeof wd_tile_generation_entry) payload)) (zseq count).

Definition queue_retransmits_from_summary (state : ClientState) (payload : list Z) (now_ns : Z) : ClientState :=
  match decode (A := wd_tile_summary_payload_header) payload with
  | None => fetch_add st_udp_ignored_invalid 1 state
  | Some summary =>
      if negb (wd_counted_payload_size_is_valid (zlen payload) (sizeof wd_tile_summary_payload_header)
                 summary.(ts_tile_count) (sizeof wd_tile_generation_entry)) ||
         outside summary.(ts_flags) WD_TILE_SUMMARY_FLAG_MASK
      then fetch_add st_udp_ignored_invalid 1 state
      else if negb (summary.(ts_session_id) =? state.(cs_config).(sc_session_id)) ||
              negb (summary.(ts_connection_token) =? state.(cs_config).(sc_connection_token))
      then state
      else
        let total_tiles := state.(cs_config).(sc_total_tiles) in
        let entries := summary_payload_entries payload summary.(ts_tile_count) in
        if negb (wd_tile_summary_count_is_valid summary.(ts_flags) summary.(ts_tile_count) total_tiles)
        then fetch_add st_udp_ignored_invalid 1 state
        else if negb (forallb (fun entry => entry.(tg_tile_id) <? total_tiles) entries)
        then fetch_add st_udp_ignored_invalid 1 state
        else
          let '(state, decision) :=
            client_accept_content_epoch state summary.(ts_content_epoch) WD_CLIENT_CONTENT_OWNER_TILES in
          if bool_decide (decision = Stale) then state
          else announce_tiles state entries total_tiles now_ns
  end.

(** ** Promotion *)

(** [since + delay], saturating. *)
Definition due_after (since_ns delay_ns : Z) : Z :=
  if since_ns >? UINT64_MAX - delay_ns then UINT64_MAX else since_ns + delay_ns.

(** When a tile that is in flight or was requested may be asked for again. *)
Definition retry_due (state : ClientState) (tile_id generation : Z) : Z :=
  let retry_due_ns :=
    if (aget 0 state.(cs_retx_inflight_generation) tile_id >=? generation) &&
       negb (aget 0 state.(cs_retx_inflight_since_ns) tile_id =? 0)
    then due_after (aget 0 state.(cs_retx_inflight_since_ns) tile_id) (retransmit_inflight_grace_ns_locked state)
    else 0 in
  if (aget 0 state.(cs_retx_last_requested_generation) tile_id >=? generation) &&
     negb (aget 0 state.(cs_retx_last_request_ns) tile_id =? 0)
  then Z.max retry_due_ns
         (due_after (aget 0 state.(cs_retx_last_request_ns) tile_id) (retransmit_request_interval_ns state))
  else retry_due_ns.

(** An entry taken from the due queue. *)
Definition promote_due (total_tiles now_ns : Z) : ClientState * list SummaryRepairCandidate * Z ->
    ClientSummaryRepairDue -> ClientState * list SummaryRepairCandidate * Z :=
  fun '(state, candidates, min_age) due =>
    let tile_id := due.(rd_tile_id) in
    let generation := due.(rd_generation) in
    if (tile_id >=? total_tiles) ||
       negb (aget 0 state.(cs_retx_summary_pending_generation) tile_id =? generation)
    then (state, candidates, min_age)
    else
      let since_ns := aget 0 state.(cs_retx_summary_pending_since_ns) tile_id in
      if since_ns =? 0 then (state, candidates, min_age)
      else if aget 0 state.(cs_received_generation) tile_id >=? generation then
        (fetch_add st_summary_retx_tiles_stale_dropped 1 (clear_summary_pending_locked state tile_id), candidates, min_age)
      else
        let retry_due_ns := retry_due state tile_id generation in
        if retry_due_ns >? now_ns then
          (schedule_summary_pending_due_locked state tile_id generation retry_due_ns, candidates, min_age)
        else
          let candidate_age_ns := if now_ns >=? since_ns then now_ns - since_ns else 0 in
          (state, candidates ++ [mk_SummaryRepairCandidate tile_id generation since_ns], Z.min min_age candidate_age_ns).

(** The loop over the due queue.  An entry that is rescheduled goes to the back
    with a time later than now, where the loop ends; so there is at most a round
    for each entry of the queue, and [fuel] is their number
    ([promote_loop_ends]). *)
Fixpoint promote_loop (fuel : nat) (total_tiles now_ns scanned : Z) (state : ClientState)
    (candidates : list SummaryRepairCandidate) (min_age : Z) : ClientState * list SummaryRepairCandidate * Z * Z :=
  match fuel with
  | O => (state, candidates, min_age, scanned)
  | S fuel =>
      match state.(cs_retx_summary_due_queue) with
      | due :: rest =>
          if due.(rd_due_ns) <=? now_ns then
            let '(state, candidates, min_age) :=
              promote_due total_tiles now_ns (state <| cs_retx_summary_due_queue := rest |>, candidates, min_age) due in
            promote_loop fuel total_tiles now_ns (scanned + 1) state candidates min_age
          else (state, candidates, min_age, scanned)
      | [] => (state, candidates, min_age, scanned)
      end
  end.

Definition schedule_candidates (state : ClientState) (candidates : list SummaryRepairCandidate) (due_ns : Z) : ClientState :=
  fold_left (fun state candidate =>
      schedule_summary_pending_due_locked state candidate.(rc_tile_id) candidate.(rc_generation) due_ns) candidates state.

Definition promote_deferred_summary_retransmits_locked (state : ClientState) (now_ns : Z) : ClientState :=
  let total_tiles := state.(cs_config).(sc_total_tiles) in
  if (total_tiles =? 0) || negb (zlen state.(cs_received_generation) =? total_tiles) then state
  else
    let state := ensure_retransmit_tracking_locked state total_tiles in
    if (state.(cs_retx_summary_pending_count) =? 0) || null state.(cs_retx_summary_due_queue) then state
    else
      let state := fetch_add st_summary_promote_passes 1 state in
      let '(state, candidates, min_age, scanned) :=
        promote_loop (length state.(cs_retx_summary_due_queue)) total_tiles now_ns 0 state [] UINT64_MAX in
      let state := fetch_add st_summary_promote_scanned scanned state in
      if null candidates then state
      else
        let state := fetch_add st_summary_promote_candidates (zlen candidates) state in
        let '(state, candidates) :=
          if client_repair_pressure_high_locked state total_tiles &&
             (zlen candidates >? WD_CLIENT_REPAIR_PRESSURE_MAX_QUEUE_TILES)
          then
            let candidates := sort_candidates candidates in
            let keep := Z.to_nat WD_CLIENT_REPAIR_PRESSURE_MAX_QUEUE_TILES in
            let state := schedule_candidates state (drop keep candidates)
                           (u64 (now_ns + WD_NET_CLIENT_REPAIR_RETRY_MIN_NS)) in
            (fetch_add st_summary_retx_pressure_dropped
               (zlen candidates - WD_CLIENT_REPAIR_PRESSURE_MAX_QUEUE_TILES) state, take keep candidates)
          else (state, candidates) in
        let '(state, large) :=
          large_summary_repair_batch_locked state total_tiles (zlen candidates) min_age now_ns true in
        if (large : bool) then
          let retry_ns := Z.max (u64 (now_ns + WD_NET_CLIENT_REPAIR_RETRY_MIN_NS))
                            state.(cs_summary_large_repair_not_before_ns) in
          schedule_candidates state candidates retry_ns
        else queue_candidates state candidates now_ns total_tiles true.

Definition client_promote_deferred_summary_retransmits := promote_deferred_summary_retransmits_locked.

End sort.

(** ** Requests *)

Definition MAX_RETRANSMIT_ENTRIES_PER_MESSAGE : Z :=
  let cap := (WD_TCP_MAX_PAYLOAD_SIZE - sizeof wd_tile_repair_request_payload_header) / sizeof wd_tile_repair_entry in
  if cap >? UINT16_MAX then UINT16_MAX else cap.

(** The loop of [client_flush_retransmit_requests]: [pending_to_scan] rounds at
    most, each taking a tile off the queue.  [None] stands for an access outside
    the table of received generations. *)
Fixpoint flush_loop (pending_to_scan : nat) (now_ns : Z) (state : ClientState) (entries : list wd_tile_repair_entry)
    : option (ClientState * list wd_tile_repair_entry) :=
  match pending_to_scan with
  | O => Some (state, entries)
  | S pending_to_scan =>
      match state.(cs_retx_queue) with
      | [] => Some (state, entries)
      | tile_id :: rest =>
          if zlen entries >=? MAX_RETRANSMIT_ENTRIES_PER_MESSAGE then Some (state, entries)
          else
            let state := state <| cs_retx_queue := rest |> in
            if (tile_id >=? state.(cs_config).(sc_total_tiles)) || (tile_id >=? zlen state.(cs_retx_queued_generation))
            then flush_loop pending_to_scan now_ns state entries
            else
              let target_generation := aget 0 state.(cs_retx_queued_generation) tile_id in
              let state := state <| cs_retx_queued_generation := aset state.(cs_retx_queued_generation) tile_id 0 |> in
              if target_generation =? 0 then flush_loop pending_to_scan now_ns state entries
              else
                received ← state.(cs_received_generation) !! Z.to_nat tile_id;
                if received >=? target_generation then flush_loop pending_to_scan now_ns state entries
                else if inflight_recently state tile_id target_generation now_ns ||
                        requested_recently state tile_id target_generation now_ns then
                  flush_loop pending_to_scan now_ns
                    (state <| cs_retx_queued_generation :=
                                aset state.(cs_retx_queued_generation) tile_id target_generation |>
                           <| cs_retx_queue := state.(cs_retx_queue) ++ [tile_id] |>) entries
                else
                  flush_loop pending_to_scan now_ns
                    (state <| cs_retx_last_requested_generation :=
                                aset state.(cs_retx_last_requested_generation) tile_id target_generation |>
                           <| cs_retx_last_request_ns := aset state.(cs_retx_last_request_ns) tile_id now_ns |>)
                    (entries ++ [mk_wd_tile_repair_entry tile_id target_generation])
      end
  end.

(** The entries asked for, the message if one is made, and the function's
    result; [connected] is [control_fd >= 0], [sent] the answer of the sender. *)
Definition client_flush_retransmit_requests (state : ClientState) (connected sent : bool) (now_ns : Z)
    : option (ClientState * list wd_tile_repair_entry * ptr (list Z) * bool) :=
  if negb connected then Some (state, [], NULL, false)
  else
    let config := state.(cs_config) in
    let state := ensure_retransmit_tracking_locked state config.(sc_total_tiles) in
    '(state, entries) ← flush_loop (length state.(cs_retx_queue)) now_ns state [];
    if null entries then Some (state, entries, NULL, true)
    else
      let header := mk_wd_tile_repair_request_payload_header config.(sc_session_id) config.(sc_connection_token)
        state.(cs_content).(cc_remote_content_epoch) (u16 (zlen entries)) in
      let payload := encode header ++ (entries ≫= encode) in
      Some (if sent then fetch_add st_tcp_retx_requests_tx 1 state else state, entries, Some payload, sent).

(** ** Completed tiles (client_receive.cpp) *)

Definition forget_queued (state : ClientState) (base_id received : Z) : ClientState :=
  let queued := state.(cs_retx_queued_generation) in
  if (base_id <? zlen queued) && negb (aget 0 queued base_id =? 0) && (aget 0 queued base_id <=? received)
  then state <| cs_retx_queued_generation := aset queued base_id 0 |> else state.

Definition forget_inflight (state : ClientState) (base_id received : Z) : ClientState :=
  let inflight := state.(cs_retx_inflight_generation) in
  if (base_id <? zlen inflight) && negb (aget 0 inflight base_id =? 0) && (aget 0 inflight base_id <=? received)
  then
    state <| cs_retx_inflight_generation := aset inflight base_id 0 |>
          <| cs_retx_inflight_since_ns :=
               if base_id <? zlen state.(cs_retx_inflight_since_ns)
               then aset state.(cs_retx_inflight_since_ns) base_id 0 else state.(cs_retx_inflight_since_ns) |>
  else state.

Definition forget_requested (state : ClientState) (base_id received : Z) : ClientState :=
  let requested := state.(cs_retx_last_requested_generation) in
  if (base_id <? zlen requested) && negb (aget 0 requested base_id =? 0) && (aget 0 requested base_id <=? received)
  then
    state <| cs_retx_last_requested_generation := aset requested base_id 0 |>
          <| cs_retx_last_request_ns :=
               if base_id <? zlen state.(cs_retx_last_request_ns)
               then aset state.(cs_retx_last_request_ns) base_id 0 else state.(cs_retx_last_request_ns) |>
  else state.

Definition forget_pending (state : ClientState) (base_id received : Z) : ClientState :=
  let pending := state.(cs_retx_summary_pending_generation) in
  if (base_id <? zlen pending) && negb (aget 0 pending base_id =? 0) && (aget 0 pending base_id <=? received)
  then
    let state := set_pending_index state (summary_pending_index_remove state.(cs_retx_summary_pending_tiles)
                   state.(cs_retx_summary_pending_position) (u16 base_id)) in
    let state :=
      state <| cs_retx_summary_pending_generation := aset pending base_id 0 |>
            <| cs_retx_summary_pending_since_ns :=
                 if base_id <? zlen state.(cs_retx_summary_pending_since_ns)
                 then aset state.(cs_retx_summary_pending_since_ns) base_id 0
                 else state.(cs_retx_summary_pending_since_ns) |> in
    fetch_add st_summary_retx_tiles_stale_dropped 1 (update_pending_count state)
  else state.

Definition clear_completed_repair_tracking_locked (state : ClientState) (base_id : Z) : ClientState :=
  if base_id >=? zlen state.(cs_received_generation) then state
  else
    let received := aget 0 state.(cs_received_generation) base_id in
    forget_pending (forget_requested (forget_inflight (forget_queued state base_id received) base_id received)
      base_id received) base_id received.

(** The base tiles [for_each_completed_base_tile] visits, in order. *)
Definition completed_base_tiles (config : wd_server_config_payload) (completed : CompletedTile) : list Z :=
  if (config.(sc_tile_width) =? 0) || (config.(sc_tile_height) =? 0) || (completed.(ct_tile_width) =? 0) ||
     (completed.(ct_tile_height) =? 0)
  then []
  else
    let tiles_x := wd_tiles_for_width_with_tile config.(sc_width) completed.(ct_tile_width) in
    if tiles_x =? 0 then []
    else
      let id := completed.(ct_tile_id) in
      let x := wd_tile_start_x_for_tile id tiles_x completed.(ct_tile_width) in
      let y := wd_tile_start_y_for_tile id tiles_x completed.(ct_tile_height) in
      let w := wd_tile_visible_width_for_tile config.(sc_width) id tiles_x completed.(ct_tile_width) in
      let h := wd_tile_visible_height_for_tile config.(sc_height) id tiles_x completed.(ct_tile_height) in
      if (w =? 0) || (h =? 0) then []
      else
        let bx0 := x / config.(sc_tile_width) in
        let by0 := y / config.(sc_tile_height) in
        let bx1 := Z.min (u32 (u32 (x + w) - 1) / config.(sc_tile_width)) (u32 (config.(sc_tiles_x) - 1)) in
        let by1 := Z.min (u32 (u32 (y + h) - 1) / config.(sc_tile_height)) (u32 (config.(sc_tiles_y) - 1)) in
        u16 <$> List.filter (fun base_id => base_id <? config.(sc_total_tiles))
          (by' ← (fun k => by0 + k) <$> zseq (by1 - by0 + 1);
           (fun k => u32 (u32 (by' * config.(sc_tiles_x)) + (bx0 + k))) <$> zseq (bx1 - bx0 + 1)).

(** [l[i] = max(l[i], v)] with the size test of the code. *)
Definition raise_at (l : list Z) (i v : Z) : list Z :=
  if (i <? zlen l) && (v >? aget 0 l i) then aset l i v else l.

Definition mark_base_generation (generation : Z) (state : ClientState) (base_id : Z) : ClientState :=
  let content := state.(cs_content) in
  clear_completed_repair_tracking_locked
    (state <| cs_received_generation := raise_at state.(cs_received_generation) base_id generation |>
           <| cs_content := content <| cc_pending_present_generation :=
                raise_at content.(cc_pending_present_generation) base_id generation |> |>) base_id.

Definition mark_completed_base_generations (state : ClientState) (completed : CompletedTile) : ClientState :=
  fold_left (mark_base_generation completed.(ct_generation)) (completed_base_tiles state.(cs_config) completed) state.

(** ** The invariant of the tables *)

Record repair_tables := mk_repair_tables {
  rt_total : Z;
  rt_received : list Z;
  rt_queue : list Z;
  rt_queued : list Z;
  rt_requested : list Z * list Z;
  rt_inflight : list Z * list Z;
  rt_pending : list Z;
  rt_since : list Z;
  rt_tiles : list Z;
  rt_positions : list Z;
  rt_due : list ClientSummaryRepairDue;
  rt_count : Z;
}.

Definition tables (s : ClientState) : repair_tables :=
  mk_repair_tables s.(cs_config).(sc_total_tiles) s.(cs_received_generation) s.(cs_retx_queue)
    s.(cs_retx_queued_generation) (s.(cs_retx_last_requested_generation), s.(cs_retx_last_request_ns))
    (s.(cs_retx_inflight_generation), s.(cs_retx_inflight_since_ns)) s.(cs_retx_summary_pending_generation)
    s.(cs_retx_summary_pending_since_ns) s.(cs_retx_summary_pending_tiles) s.(cs_retx_summary_pending_position)
    s.(cs_retx_summary_due_queue) s.(cs_retx_summary_pending_count).

Definition due_pairs (due : list ClientSummaryRepairDue) : list (Z * Z) :=
  (fun d => (d.(rd_tile_id), d.(rd_generation))) <$> due.
Definition candidate_pairs (candidates : list SummaryRepairCandidate) : list (Z * Z) :=
  (fun c => (c.(rc_tile_id), c.(rc_generation))) <$> candidates.

(** [held] are the tiles a running promotion has taken off the due queue. *)
Record tables_ok (held : list (Z * Z)) (v : repair_tables) : Prop := {
  to_total : 0 <= v.(rt_total) <= UINT16_MAX;
  to_sizes : zlen v.(rt_received) = v.(rt_total) /\ zlen v.(rt_queued) = v.(rt_total) /\
    zlen v.(rt_requested).1 = v.(rt_total) /\ zlen v.(rt_requested).2 = v.(rt_total) /\
    zlen v.(rt_inflight).1 = v.(rt_total) /\ zlen v.(rt_inflight).2 = v.(rt_total) /\
    zlen v.(rt_pending) = v.(rt_total) /\ zlen v.(rt_since) = v.(rt_total) /\
    zlen v.(rt_positions) = v.(rt_total);
  to_index : index_ok v.(rt_tiles) v.(rt_positions);
  to_count : v.(rt_count) = zlen v.(rt_tiles);
  to_tiles : forall t, 0 <= t < v.(rt_total) ->
    0 <= aget 0 v.(rt_received) t /\ 0 <= aget 0 v.(rt_queued) t /\ 0 <= aget 0 v.(rt_pending) t;
  to_waiting : forall t, 0 <= t < v.(rt_total) -> aget 0 v.(rt_queued) t <> 0 -> In t v.(rt_queue);
  to_pending : forall t, 0 <= t < v.(rt_total) -> aget 0 v.(rt_pending) t <> 0 ->
    t ∈ v.(rt_tiles) /\ aget 0 v.(rt_since) t <> 0 /\
    In (t, aget 0 v.(rt_pending) t) (due_pairs v.(rt_due) ++ held);
  to_idle : forall t, t ∈ v.(rt_tiles) -> aget 0 v.(rt_pending) t <> 0;
  to_due : forall t g, In (t, g) (due_pairs v.(rt_due) ++ held) -> 0 <= t /\ 0 < g;
  to_queue : Forall (Z.le 0) v.(rt_queue);
}.

Definition repair_ok (s : ClientState) : Prop := tables_ok [] (tables s).

(** Tile [t] waits to be asked for in generation [g] or a newer one. *)
Definition tracked (v : repair_tables) (t g : Z) : Prop :=
  g <= aget 0 v.(rt_pending) t \/ g <= aget 0 v.(rt_queued) t.

Definition requests (entries : list wd_tile_repair_entry) (t g : Z) : Prop :=
  exists r, In r entries /\ r.(re_tile_id) = t /\ g <= r.(re_requested_generation).

(** From [v] to [v'] with the requests [entries]: no tracked tile is lost. *)
Record advances (v v' : repair_tables) (entries : list wd_tile_repair_entry) : Prop := {
  ad_total : v'.(rt_total) = v.(rt_total);
  ad_received : forall t, 0 <= t < v.(rt_total) -> aget 0 v.(rt_received) t <= aget 0 v'.(rt_received) t;
  ad_kept : forall t g, 0 <= t < v.(rt_total) -> 0 < g -> tracked v t g ->
    g <= aget 0 v'.(rt_received) t \/ tracked v' t g \/ requests entries t g;
}.

Lemma advances_same v v' :
  v'.(rt_total) = v.(rt_total) -> v'.(rt_received) = v.(rt_received) -> v'.(rt_pending) = v.(rt_pending) ->
  v'.(rt_queued) = v.(rt_queued) -> advances v v' [].
Proof.
  intros E1 E2 E3 E4. constructor; [done | intros; by rewrite E2 |]. intros. right. left. unfold tracked in *. by rewrite E3, E4.
Qed.

Lemma advances_refl v : advances v v [].
Proof. by apply advances_same. Qed.

Lemma requests_app a b t g : requests (a ++ b) t g <-> requests a t g \/ requests b t g.
Proof.
  unfold requests. split.
  - intros (r & [?|?]%in_app_or & ?); [left | right]; eauto.
  - intros [(r & ? & ?)|(r & ? & ?)]; exists r; (split; [apply in_or_app; auto | done]).
Qed.

Lemma advances_trans a b c r1 r2 : advances a b r1 -> advances b c r2 -> advances a c (r1 ++ r2).
Proof.
  intros [T1 R1 K1] [T2 R2 K2]. rewrite T1 in *. constructor; [congruence | |].
  - intros t Ht. etrans; [by apply R1 | by apply R2].
  - intros t g Ht Hg Htr. rewrite requests_app. destruct (K1 t g Ht Hg Htr) as [Hr|[Htr1|?]]; [| | auto].
    + left. etrans; [exact Hr | by apply R2].
    + destruct (K2 t g Ht Hg Htr1) as [?|[?|?]]; auto.
Qed.

Lemma advances_step a b c : advances a b [] -> advances b c [] -> advances a c [].
Proof. intros H1 H2. exact (advances_trans a b c [] [] H1 H2). Qed.

(** Received, or still tracked. *)
Definition accounted (v : repair_tables) (t g : Z) : Prop := g <= aget 0 v.(rt_received) t \/ tracked v t g.

Lemma accounted_advances v v' t g :
  advances v v' [] -> 0 <= t < v.(rt_total) -> 0 < g -> accounted v t g -> accounted v' t g.
Proof.
  intros [_ R K] Ht Hg [Hr|Htr]; [left; etrans; [exact Hr | by apply R] |].
  destruct (K t g Ht Hg Htr) as [?|[?|(r & [] & _)]]; [by left | by right].
Qed.

(** [tables_simpl] evaluates the tables of an updated state. *)
Ltac tables_simpl :=
  unfold schedule_summary_pending_due_locked, set_pending_index, update_pending_count, tables in *;
  cbn [rt_total rt_received rt_queue rt_queued rt_requested rt_inflight rt_pending rt_since rt_tiles rt_positions rt_due
    rt_count fst snd set_field cs_config cs_received_generation cs_retx_queue cs_retx_queued_generation
    cs_retx_last_requested_generation cs_retx_last_request_ns cs_retx_inflight_generation cs_retx_inflight_since_ns
    cs_retx_summary_pending_generation cs_retx_summary_pending_since_ns cs_retx_summary_pending_tiles
    cs_retx_summary_pending_position cs_retx_summary_due_queue cs_retx_summary_pending_count] in *.

(** Tile [u] of a table updated at [t]. *)
Ltac at_tile u t :=
  destruct (Z.eq_dec u t) as [->|?];
  [rewrite ?aget_aset_eq in * by lia | rewrite ?(aget_aset_ne _ _ t u) in * by lia].

Lemma ensure_sized held s :
  tables_ok held (tables s) -> ensure_retransmit_tracking_locked s s.(cs_config).(sc_total_tiles) = s.
Proof.
  intros [_ (S1 & S2 & S3 & S4 & S5 & S6 & S7 & S8 & S9) _ _ _ _ _ _ _ _]. tables_simpl.
  unfold ensure_retransmit_tracking_locked. cbn zeta.
  cbn [cs_retx_summary_pending_generation cs_retx_summary_pending_since_ns cs_retx_summary_pending_position set_field].
  rewrite S7, S8, S9, Z.eqb_refl. cbn [negb orb]. rewrite !ensure_size_id by done. by destruct s.
Qed.

(** What the operations on single tiles leave alone. *)
Definition repair_frame (s s' : ClientState) : Prop :=
  s'.(cs_config) = s.(cs_config) /\ s'.(cs_received_generation) = s.(cs_received_generation) /\
  s'.(cs_retx_inflight_generation) = s.(cs_retx_inflight_generation) /\
  s'.(cs_retx_inflight_since_ns) = s.(cs_retx_inflight_since_ns) /\
  s'.(cs_retx_last_requested_generation) = s.(cs_retx_last_requested_generation) /\
  s'.(cs_retx_last_request_ns) = s.(cs_retx_last_request_ns) /\
  s'.(cs_retx_inflight_grace_ns) = s.(cs_retx_inflight_grace_ns) /\
  s'.(cs_retransmit_request_interval_ns) = s.(cs_retransmit_request_interval_ns) /\
  s'.(cs_udp_gap_pressure_ns) = s.(cs_udp_gap_pressure_ns) /\ session_setup s' = session_setup s.

#[export] Instance repair_frame_preorder : PreOrder repair_frame.
Proof.
  split; [by intros ? |]. intros a b c Hab Hbc. unfold repair_frame in *. destruct_and!. split_and!; congruence.
Qed.

Lemma clear_pending_frame s t : repair_frame s (clear_summary_pending_locked s t).
Proof. unfold clear_summary_pending_locked. by case_if. Qed.

(** *** The operations on one tile *)

Lemma clear_pending_ok held s t g :
  tables_ok ((t, g) :: held) (tables s) -> 0 <= t < s.(cs_config).(sc_total_tiles) ->
  tables_ok held (tables (clear_summary_pending_locked s t)) /\
  (aget 0 s.(cs_retx_summary_pending_generation) t <= aget 0 s.(cs_received_generation) t \/
   aget 0 s.(cs_retx_summary_pending_generation) t <= aget 0 s.(cs_retx_queued_generation) t ->
   advances (tables s) (tables (clear_summary_pending_locked s t)) []) /\
  (forall u, u <> t -> 0 <= u -> aget 0 (clear_summary_pending_locked s t).(cs_retx_summary_pending_generation) u =
     aget 0 s.(cs_retx_summary_pending_generation) u) /\
  aget 0 (clear_summary_pending_locked s t).(cs_retx_summary_pending_generation) t = 0.
Proof.
  intros Hok Ht. destruct Hok as [T S I C P W Q Z0 D U]. pose proof S as (S1 & S2 & S3 & S4 & S5 & S6 & S7 & S8 & S9).
  unfold clear_summary_pending_locked, pending_slot. tables_simpl.
  rewrite (proj2 (Z.ltb_lt _ _)), (proj2 (Z.ltb_lt _ _)), (proj2 (Z.ltb_lt _ _)) by lia. cbn [andb negb].
  pose proof (index_remove_ok _ _ t I ltac:(by rewrite S9)) as Hrem.
  destruct (summary_pending_index_remove _ _ t) as [[tiles positions] ok]. destruct Hrem as (I' & _ & L' & M').
  tables_simpl. split_and!.
  - constructor; tables_simpl.
    + done.
    + rewrite !zlen_aset, L'. done.
    + done.
    + pose proof (NoDup_range tiles (zlen positions) ltac:(by auto with wd) (ix_range _ _ I') (ix_distinct _ _ I')).
      pose proof (zlen_nonneg tiles). apply u32_small. rewrite L' in *. mlia.
    + intros u Hu. specialize (P u Hu). at_tile u t; lia.
    + done.
    + intros u Hu. at_tile u t; [done |]. intros Hn. destruct (Q u Hu Hn) as (Q1 & Q2 & Q3). split_and!; [by apply M' | done |].
      apply in_app_or in Q3 as [?|[E|?]]; [apply in_or_app; by left | by simplify_eq | apply in_or_app; by right].
    + intros u [Hne Hu]%M'. pose proof (ix_range _ _ I) as Hr. rewrite list.Forall_forall in Hr. specialize (Hr u Hu).
      rewrite aget_aset_ne by lia. by apply Z0.
    + intros u g' Hin. apply D. rewrite in_app_iff in *. cbn [In]. tauto.
    + done.
  - intros Hcov. constructor; tables_simpl; [done | intros; lia |]. intros u g' Hu Hg Htr. unfold tracked in *. tables_simpl.
    at_tile u t.
    + destruct Htr as [Htr|?]; [| by right; left; right]. destruct Hcov; [left; lia | right; left; right; lia].
    + by right; left.
  - intros u Hne Hu. by rewrite aget_aset_ne by lia.
  - by rewrite aget_aset_eq by lia.
Qed.

Lemma held_drop held s t g :
  tables_ok ((t, g) :: held) (tables s) ->
  (0 <= t < s.(cs_config).(sc_total_tiles) -> aget 0 s.(cs_retx_summary_pending_generation) t <> g \/ g = 0) ->
  tables_ok held (tables s).
Proof.
  intros [T S I C P W Q Z0 D U] Hno. constructor; try done.
  - intros u Hu Hn. destruct (Q u Hu Hn) as (Q1 & Q2 & Q3). split_and!; [done | done |].
    apply in_app_or in Q3 as [?|[E|?]]; [apply in_or_app; by left | | apply in_or_app; by right].
    tables_simpl. injection E as E1 E2. subst t. destruct (Hno Hu) as [?|?]; congruence.
  - intros u g' Hin. apply D. rewrite in_app_iff in *. cbn [In]. tauto.
Qed.

Lemma held_mono held held' v :
  (forall x, In x held -> In x held') -> (forall x, In x held' -> In x held \/ (0 <= x.1 /\ 0 < x.2)) ->
  tables_ok held v -> tables_ok held' v.
Proof.
  intros Hsub Hnew [T S I C P W Q Z0 D U]. constructor; try done.
  - intros u Hu Hn. destruct (Q u Hu Hn) as (Q1 & Q2 & Q3).
    split_and!; [done | done |]. apply in_app_or in Q3 as [?|?]; apply in_or_app; auto.
  - intros u g Hin%in_app_or. destruct Hin as [Hin|Hin]; [apply D, in_or_app; by left |].
    destruct (Hnew _ Hin); [apply D, in_or_app; by right | done].
Qed.

Lemma schedule_ok held s t g ns :
  tables_ok ((t, g) :: held) (tables s) ->
  tables_ok held (tables (schedule_summary_pending_due_locked s t g ns)) /\
  advances (tables s) (tables (schedule_summary_pending_due_locked s t g ns)) [].
Proof.
  intros [T S I C P W Q Z0 D U]. split; [| by apply advances_same]. constructor; try done.
  - intros u Hu Hn. destruct (Q u Hu Hn) as (Q1 & Q2 & Q3). split_and!; [done | done |].
    tables_simpl. unfold due_pairs in *. rewrite fmap_app. cbn [fmap list_fmap].
    rewrite !in_app_iff in *. cbn [In rd_tile_id rd_generation] in *. tauto.
  - intros u g'. tables_simpl. unfold due_pairs in *. rewrite fmap_app. cbn [fmap list_fmap]. intros Hin. apply D.
    rewrite !in_app_iff in *. cbn [In rd_tile_id rd_generation] in *. tauto.
Qed.

Lemma set_pending_ok s t g now :
  repair_ok s -> 0 <= t < s.(cs_config).(sc_total_tiles) -> 0 <= g -> now <> 0 ->
  repair_ok (set_summary_pending_locked s t g now) /\
  advances (tables s) (tables (set_summary_pending_locked s t g now)) [] /\
  (forall u, u <> t -> 0 <= u -> aget 0 (set_summary_pending_locked s t g now).(cs_retx_summary_pending_generation) u =
     aget 0 s.(cs_retx_summary_pending_generation) u) /\
  aget 0 (set_summary_pending_locked s t g now).(cs_retx_summary_pending_generation) t =
    Z.max g (aget 0 s.(cs_retx_summary_pending_generation) t).
Proof.
  intros Hok Ht Hg Hnow. pose proof Hok as [T S I C P W Q Z0 D U]. pose proof S as (S1 & S2 & S3 & S4 & S5 & S6 & S7 & S8 & S9).
  unfold set_summary_pending_locked, pending_slot. tables_simpl. pose proof (P t Ht) as (P1 & P2 & P3).
  rewrite (proj2 (Z.ltb_lt _ _)), (proj2 (Z.ltb_lt _ _)), (proj2 (Z.ltb_lt _ _)) by lia. cbn [andb negb orb].
  destruct (Z.eqb_spec g 0) as [->|Hg0]; cbn [orb].
  { split_and!; [done | apply advances_refl | done | lia]. }
  destruct (Z.geb_spec (aget 0 (cs_retx_summary_pending_generation s) t) g) as [Hge|Hlt].
  { split_and!; [done | apply advances_refl | done | lia]. }
  pose proof (index_add_ok _ _ t I ltac:(by rewrite S9)) as Hadd.
  destruct (summary_pending_index_add _ _ t) as [[tiles positions] ok]. destruct Hadd as (I' & -> & L' & M').
  cbn [fst snd negb]. tables_simpl. split_and!.
  - constructor; tables_simpl.
    + done.
    + rewrite !zlen_aset, L'. done.
    + done.
    + pose proof (NoDup_range tiles (zlen positions) ltac:(by auto with wd) (ix_range _ _ I') (ix_distinct _ _ I')).
      pose proof (zlen_nonneg tiles). apply u32_small. rewrite L' in *. mlia.
    + intros u Hu. pose proof (P u Hu). at_tile u t; lia.
    + done.
    + intros u Hu. rewrite app_nil_r. unfold due_pairs. rewrite fmap_app, in_app_iff. cbn [fmap list_fmap In rd_tile_id rd_generation].
      at_tile u t.
      * intros _. split_and!; [apply M'; by left | done | by right; left].
      * intros Hn. destruct (Q u Hu Hn) as (Q1 & Q2 & Q3). rewrite app_nil_r in Q3.
        split_and!; [apply M'; by right | done | by left].
    + intros u Hu%M'. destruct (Z.eq_dec u t) as [->|Hne]; [by rewrite aget_aset_eq by lia |].
      destruct Hu as [?|Hu]; [done |]. pose proof (ix_range _ _ I) as Hr. rewrite list.Forall_forall in Hr. specialize (Hr u Hu).
      rewrite aget_aset_ne by lia. by apply Z0.
    + intros u g'. rewrite app_nil_r in *. unfold due_pairs. rewrite fmap_app, in_app_iff.
      cbn [fmap list_fmap In rd_tile_id rd_generation]. intros [?|[[= <- <-]|[]]]; [by apply D | lia].
    + done.
  - constructor; tables_simpl; [done | intros; lia |]. intros u g' Hu Hg' Htr. unfold tracked in *. tables_simpl. at_tile u t.
    + right. left. destruct Htr; [left; lia | by right].
    + by right; left.
  - intros u Hne Hu. by rewrite aget_aset_ne by lia.
  - rewrite aget_aset_eq by lia. lia.
Qed.

Lemma queue_tile_ok held s t g :
  tables_ok held (tables s) -> 0 <= t < s.(cs_config).(sc_total_tiles) -> 0 < g ->
  exists s', queue_retransmit_tile_locked s t g s.(cs_config).(sc_total_tiles) = (s', true) /\
  tables_ok held (tables s') /\ advances (tables s) (tables s') [] /\
  g <= aget 0 s'.(cs_retx_queued_generation) t /\ repair_frame s s' /\
  (forall u, 0 <= u -> aget 0 s.(cs_retx_queued_generation) u <= aget 0 s'.(cs_retx_queued_generation) u) /\
  s'.(cs_retx_summary_pending_generation) = s.(cs_retx_summary_pending_generation).
Proof.
  intros Hok Ht Hg. unfold queue_retransmit_tile_locked.
  rewrite Z.geb_leb, (proj2 (Z.leb_gt _ _)), (proj2 (Z.eqb_neq _ _)) by lia. cbn [orb].
  rewrite (ensure_sized held s Hok).
  pose proof Hok as [T S I C P W Q Z0 D U]. pose proof S as (S1 & S2 & S3 & S4 & S5 & S6 & S7 & S8 & S9).
  eexists. split; [reflexivity |]. set (was := aget 0 (cs_retx_queued_generation s) t). tables_simpl.
  assert (0 <= was) as Hwas by (by apply P).
  split_and!; [| | | done | | done].
  - constructor; tables_simpl; try done.
    + destruct (was <? g); rewrite ?zlen_aset; done.
    + intros u Hu. pose proof (P u Hu). destruct (was <? g); [| done]. at_tile u t; lia.
    + intros u Hu Hn. apply in_or_app. destruct (Z.eqb_spec was 0) as [Ew|Ew].
      * destruct (Z.eq_dec u t) as [->|Hne]; [by right; left |]. left. apply W; [done |].
        destruct (was <? g); [by rewrite aget_aset_ne in Hn by lia | done].
      * left. apply W; [done |]. destruct (was <? g); [| done]. by at_tile u t.
    + apply Forall_app. split; [done |]. case_if; repeat constructor. lia.
  - constructor; tables_simpl; [done | intros; lia |]. intros u g' Hu Hg' Htr. right. left. unfold tracked in *. tables_simpl.
    destruct Htr as [?|Htr]; [by left | right]. destruct (Z.ltb_spec was g); [| done]. at_tile u t; [| done]. fold was in Htr. lia.
  - destruct (Z.ltb_spec was g); [by rewrite aget_aset_eq by lia | fold was; lia].
  - intros u Hu. destruct (Z.ltb_spec was g); [| done]. destruct (Z.eq_dec u t) as [->|?].
    + rewrite aget_aset_eq by lia. fold was. lia.
    + by rewrite aget_aset_ne by lia.
Qed.

(** What a candidate must be, and that its generation covers what is pending for
    its tile. *)
Definition candidate_valid (s : ClientState) (c : SummaryRepairCandidate) : Prop :=
  0 <= c.(rc_tile_id) < s.(cs_config).(sc_total_tiles) /\ 0 < c.(rc_generation).

Definition candidate_covers (s : ClientState) (c : SummaryRepairCandidate) : Prop :=
  aget 0 s.(cs_retx_summary_pending_generation) c.(rc_tile_id) <= c.(rc_generation).

Lemma queue_candidate_ok held s c now promote queued sum samples :
  tables_ok ((c.(rc_tile_id), c.(rc_generation)) :: held) (tables s) -> candidate_valid s c ->
  exists s' queued' sum' samples',
    queue_candidate now s.(cs_config).(sc_total_tiles) promote (s, queued, sum, samples) c = (s', queued', sum', samples') /\
    tables_ok held (tables s') /\ repair_frame s s' /\
    (candidate_covers s c -> advances (tables s) (tables s') []) /\
    c.(rc_generation) <= aget 0 s'.(cs_retx_queued_generation) c.(rc_tile_id) /\
    (forall u, 0 <= u -> aget 0 s.(cs_retx_queued_generation) u <= aget 0 s'.(cs_retx_queued_generation) u) /\
    forall u, 0 <= u -> aget 0 s'.(cs_retx_summary_pending_generation) u <=
      Z.max 0 (aget 0 s.(cs_retx_summary_pending_generation) u).
Proof.
  intros Hok [Ht Hg]. unfold queue_candidate, candidate_covers.
  destruct (queue_tile_ok _ s c.(rc_tile_id) c.(rc_generation) Hok Ht Hg) as (s1 & E & Hok1 & A1 & Hq & Hf & Hm & Hp).
  pose proof (proj1 Hf) as Hc. rewrite E. cbn [negb]. rewrite <- Hc in Ht. rewrite <- Hp.
  destruct (clear_pending_ok held s1 c.(rc_tile_id) c.(rc_generation) Hok1 Ht) as (Hok2 & A2 & Hu & H0).
  do 4 eexists. split; [reflexivity |]. split_and!; [done | | | | |].
  - etrans; [exact Hf | apply clear_pending_frame].
  - intros Hle. eapply advances_step; [exact A1 | apply A2; lia].
  - unfold clear_summary_pending_locked. by case_if.
  - intros u Hu0. specialize (Hm u Hu0). unfold clear_summary_pending_locked. by case_if.
  - intros u Hu0. destruct (Z.eq_dec u c.(rc_tile_id)) as [->|Hne]; [rewrite H0; lia | rewrite Hu by done; lia].
Qed.

(** *** Candidates *)

Definition all_queued (s : ClientState) (candidates : list SummaryRepairCandidate) : Prop :=
  Forall (fun c => c.(rc_generation) <= aget 0 s.(cs_retx_queued_generation) c.(rc_tile_id)) candidates.

Lemma queue_candidates_loop now promote total candidates : forall s q u k,
  tables_ok (candidate_pairs candidates) (tables s) -> Forall (candidate_valid s) candidates ->
  s.(cs_config).(sc_total_tiles) = total ->
  exists s' q' u' k', fold_left (queue_candidate now total promote) candidates (s, q, u, k) = (s', q', u', k') /\
    repair_ok s' /\ repair_frame s s' /\ all_queued s' candidates /\
    (forall u, 0 <= u -> aget 0 s.(cs_retx_queued_generation) u <= aget 0 s'.(cs_retx_queued_generation) u) /\
    (Forall (candidate_covers s) candidates -> advances (tables s) (tables s') []).
Proof.
  induction candidates as [|c candidates IH]; intros s q u k Hok Hall Et; cbn [fold_left].
  { do 4 eexists. split; [reflexivity |]. split_and!; [exact Hok | done | constructor | done | intros _; apply advances_refl]. }
  apply list.Forall_cons in Hall as [Hv Hall].
  destruct (queue_candidate_ok (candidate_pairs candidates) s c now promote q u k Hok Hv)
    as (s1 & q1 & u1 & k1 & E & Hok1 & Hf1 & A1 & Hq1 & Hm1 & Hle).
  pose proof (proj1 Hf1) as Hc1.
  rewrite <- Et, E. destruct (IH s1 q1 u1 k1 Hok1) as (s2 & q2 & u2 & k2 & E2 & Hok2 & Hf2 & Hq2 & Hm2 & Hrest).
  - eapply list.Forall_impl; [exact Hall |]. intros d. unfold candidate_valid. by rewrite Hc1.
  - by rewrite Hc1.
  - rewrite Et. do 4 eexists. split; [exact E2 |]. destruct Hv. split_and!; [done | by etrans | | |].
    + constructor; [| done]. etrans; [exact Hq1 | apply Hm2; lia].
    + intros v Hv. etrans; [by apply Hm1 | by apply Hm2].
    + intros Hcov. apply list.Forall_cons in Hcov as [Hcov Hcovs]. eapply advances_step; [by apply A1 | apply Hrest].
      rewrite list.Forall_forall in *. intros d Hd. specialize (Hcovs d Hd). destruct (Hall d Hd). unfold candidate_covers in *.
      pose proof (Hle d.(rc_tile_id) ltac:(lia)). lia.
Qed.

Lemma queue_candidates_ok s candidates now promote :
  tables_ok (candidate_pairs candidates) (tables s) -> Forall (candidate_valid s) candidates ->
  let s' := queue_candidates s candidates now s.(cs_config).(sc_total_tiles) promote in
  repair_ok s' /\ repair_frame s s' /\ all_queued s' candidates /\
  (Forall (candidate_covers s) candidates -> advances (tables s) (tables s') []).
Proof.
  intros Hok Hall. unfold queue_candidates.
  destruct (queue_candidates_loop now promote _ candidates s 0 0 0 Hok Hall eq_refl)
    as (s1 & q1 & u1 & k1 & -> & Hok1 & Hc1 & Hq1 & _ & A1).
  repeat case_if; split_and!; assumption.
Qed.

Lemma large_batch_same s total n age now b :
  tables (large_summary_repair_batch_locked s total n age now b).1 = tables s /\
  (large_summary_repair_batch_locked s total n age now b).1.(cs_config) = s.(cs_config) /\
  repair_frame s (large_summary_repair_batch_locked s total n age now b).1.
Proof. unfold large_summary_repair_batch_locked. by repeat case_if. Qed.

(** *** Summaries *)

(** The entries of a summary the client looks at. *)
Definition summary_in_range (s : ClientState) (entries : list wd_tile_generation_entry) : Prop :=
  Forall (fun e => 0 <= e.(tg_tile_id) < s.(cs_config).(sc_total_tiles) /\ 0 <= e.(tg_tile_generation)) entries.

(** A summary that lists no tile twice, and none in an older generation than an
    earlier summary did. *)
Definition summary_current (s : ClientState) (entries : list wd_tile_generation_entry) : Prop :=
  base.NoDup (tg_tile_id <$> entries) /\
  Forall (fun e => aget 0 s.(cs_retx_summary_pending_generation) e.(tg_tile_id) <= e.(tg_tile_generation)) entries.

Definition entry_accounted (v : repair_tables) (e : wd_tile_generation_entry) : Prop :=
  0 < e.(tg_tile_generation) -> accounted v e.(tg_tile_id) e.(tg_tile_generation).

(** What the loop does with one entry. *)
Lemma summary_entry_ok now s newly candidates age e :
  repair_ok s -> now <> 0 -> 0 <= e.(tg_tile_id) < s.(cs_config).(sc_total_tiles) -> 0 <= e.(tg_tile_generation) ->
  exists s' newly' age' new,
    summary_entry now (s, newly, candidates, age) e = (s', newly', candidates ++ new, age') /\
    repair_ok s' /\ repair_frame s s' /\
    (forall c, In c new -> c.(rc_tile_id) = e.(tg_tile_id) /\ candidate_valid s' c) /\
    (forall u, u <> e.(tg_tile_id) -> 0 <= u -> aget 0 s'.(cs_retx_summary_pending_generation) u =
       aget 0 s.(cs_retx_summary_pending_generation) u) /\
    (aget 0 s.(cs_retx_summary_pending_generation) e.(tg_tile_id) <= e.(tg_tile_generation) ->
     advances (tables s) (tables s') [] /\ entry_accounted (tables s') e /\ Forall (candidate_covers s') new).
Proof.
  intros Hok Hnow Ht Hg. set (t := e.(tg_tile_id)) in *. set (g := e.(tg_tile_generation)) in *.
  assert (forall s0, advances (tables s0) (tables s0) []) as Hrefl by (intros; apply advances_refl).
  destruct (set_pending_ok s t g now Hok Ht Hg Hnow) as (Hok1 & A1 & Hu1 & Hp1).
  assert (repair_frame s (set_summary_pending_locked s t g now)) as Hc1.
  { unfold set_summary_pending_locked. by repeat case_if. }
  assert (entry_accounted (tables (set_summary_pending_locked s t g now)) e) as Hacc1.
  { intros _. right. left. tables_simpl. fold t g. rewrite Hp1. lia. }
  unfold summary_entry. fold t g.
  destruct (Z.leb_spec g (aget 0 (cs_received_generation s) t)) as [Hrec|Hmiss].
  { destruct (clear_pending_ok [] s t 1 (held_mono [] [(t, 1)] _ ltac:(by intros ? []) ltac:(intros ? [<-|[]]; right; cbn; lia) Hok) Ht)
      as (Hok2 & A2 & Hu2 & _).
    do 3 eexists. exists []. rewrite app_nil_r. split; [reflexivity |].
    pose proof (clear_pending_frame s t) as Hc2.
    split_and!; [done | done | by intros ? [] | done |]. intros Hle. assert (advances (tables s) _ []) as A3 by (apply A2; lia).
    split_and!; [exact A3 | | constructor]. intros Hpos. eapply accounted_advances; [exact A3 | done | done | by left]. }
  assert (forall s' n, (if aget 0 (cs_retx_summary_pending_generation s) t <? g
      then (set_summary_pending_locked s t g now, newly + 1) else (s, newly)) = (s', n) ->
    repair_ok s' /\ repair_frame s s' /\
    (forall u, u <> t -> 0 <= u -> aget 0 s'.(cs_retx_summary_pending_generation) u =
      aget 0 s.(cs_retx_summary_pending_generation) u) /\
    advances (tables s) (tables s') [] /\ entry_accounted (tables s') e) as Hdefer.
  { intros s' n. destruct (Z.ltb_spec (aget 0 (cs_retx_summary_pending_generation s) t) g); intros [= <- <-].
    - done.
    - split_and!; [done | done | done | done |]. intros _. right. left. tables_simpl. fold t g. lia. }
  case_if.
  { unfold defer_announced. fold t g. destruct (if _ <? _ then _ else _) as [s' n] eqn:Ed.
    destruct (Hdefer s' n eq_refl) as (? & ? & ? & ? & ?). do 3 eexists. exists []. rewrite app_nil_r.
    split; [reflexivity |]. split_and!; [done | done | by intros ? [] | done |]. intros _. split_and!; [done | done | constructor]. }
  destruct (Z.ltb_spec (aget 0 (cs_retx_summary_pending_generation s) t) g) as [Hlt|Hge].
  { do 3 eexists. exists []. rewrite app_nil_r. split; [reflexivity |].
    split_and!; [done | done | by intros ? [] | done |]. intros _. split_and!; [done | done | constructor]. }
  assert (entry_accounted (tables s) e) as Hacc by (intros _; right; left; tables_simpl; fold t g; lia).
  case_if.
  { do 3 eexists. exists []. rewrite app_nil_r. split; [reflexivity |].
    split_and!; [done | done | by intros ? [] | done |]. intros _. split_and!; [done | done | constructor]. }
  do 4 eexists. split; [reflexivity |]. pose proof (to_tiles _ _ Hok t Ht) as (? & ? & ?). tables_simpl.
  split_and!; [done | done | | done |].
  - intros c [<-|[]]. split; [done |]. unfold candidate_valid. cbn [rc_tile_id rc_generation]. lia.
  - intros Hle. split_and!; [done | done |]. repeat constructor. exact Hle.
Qed.

Lemma summary_loop_ok now entries : forall s newly candidates age,
  repair_ok s -> now <> 0 -> summary_in_range s entries -> Forall (candidate_valid s) candidates ->
  exists s' newly' candidates' age',
    fold_left (summary_entry now) entries (s, newly, candidates, age) = (s', newly', candidates', age') /\
    repair_ok s' /\ repair_frame s s' /\ Forall (candidate_valid s') candidates' /\
    (summary_current s entries -> Forall (candidate_covers s) candidates ->
     (forall c, In c candidates -> c.(rc_tile_id) ∉ (tg_tile_id <$> entries)) ->
     advances (tables s) (tables s') [] /\ Forall (entry_accounted (tables s')) entries /\
     Forall (candidate_covers s') candidates').
Proof.
  induction entries as [|e entries IH]; intros s newly candidates age Hok Hnow Hall Hc; cbn [fold_left].
  { do 4 eexists. split; [reflexivity |]. split_and!; [done | done | done |]. intros _ Hcov _.
    split_and!; [apply advances_refl | constructor | done]. }
  apply list.Forall_cons in Hall as [[E1 E2] Hall].
  destruct (summary_entry_ok now s newly candidates age e Hok Hnow E1 E2)
    as (s1 & n1 & a1 & new & -> & Hok1 & Hf1 & Hnew1 & Hu1 & Hcur1).
  pose proof (proj1 Hf1) as Hc1.
  destruct (IH s1 n1 (candidates ++ new) a1 Hok1 Hnow) as (s2 & n2 & c2 & a2 & -> & Hok2 & Hf2 & Hcand2 & Hcur2).
  - unfold summary_in_range. by rewrite Hc1.
  - apply Forall_app. split.
    + eapply list.Forall_impl; [exact Hc |]. intros d. unfold candidate_valid. by rewrite Hc1.
    + rewrite list.Forall_forall. intros c Hin. apply list_elem_of_In in Hin. by apply Hnew1.
  - do 4 eexists. split; [reflexivity |]. split_and!; [done | by etrans | done |]. intros [Hnd Hcur] Hcov Hdis.
    cbn [fmap list_fmap] in Hnd, Hdis. apply list.NoDup_cons in Hnd as [Hnew Hnd].
    apply list.Forall_cons in Hcur as [E3 Hcur]. destruct (Hcur1 E3) as (A1 & Hacc1 & Hcov1).
    assert (forall u, u ∈ (tg_tile_id <$> entries) \/ (exists c, In c candidates /\ u = c.(rc_tile_id)) ->
      0 <= u -> aget 0 s1.(cs_retx_summary_pending_generation) u = aget 0 s.(cs_retx_summary_pending_generation) u) as Hsame.
    { intros u Hu Hu0. apply Hu1; [| done]. intros ->. destruct Hu as [?|(c & Hin & Eq)]; [done |].
      apply (Hdis c Hin). rewrite Eq. by left. }
    destruct Hcur2 as (A2 & Hacc2 & Hcov2).
    + split; [done |]. rewrite list.Forall_forall in *. intros e' He'. destruct (Hall e' He').
      rewrite Hsame; [by apply Hcur | left; by apply list_elem_of_fmap_2 | lia].
    + apply Forall_app. split; [| done]. rewrite list.Forall_forall in *. intros c Hin. unfold candidate_covers.
      destruct (Hc c Hin). rewrite Hsame; [by apply Hcov | right; exists c; by rewrite <- list_elem_of_In | lia].
    + intros c [Hin|Hin]%in_app_or Hin'; [apply (Hdis c Hin); by right |].
      destruct (Hnew1 c Hin) as [Eq _]. apply Hnew. by rewrite <- Eq.
    + split_and!; [by eapply advances_step | | done]. constructor; [| done]. intros Hpos.
      eapply accounted_advances; [exact A2 | | done | by apply Hacc1]. tables_simpl. by rewrite Hc1.
Qed.

(** An announcement leaves every listed tile received or tracked. *)
Section sorted.
Context (sort_candidates : list SummaryRepairCandidate -> list SummaryRepairCandidate).
Hypothesis sort_permutes : forall l, sort_candidates l ≡ₚ l.

Lemma limit_candidates_sub s total candidates :
  forall c, In c (limit_repair_candidates_under_pressure_locked sort_candidates s total candidates).1 -> In c candidates.
Proof.
  unfold limit_repair_candidates_under_pressure_locked. case_if; cbn [fst]; [done |].
  intros c Hin. apply list_elem_of_In. rewrite <- (sort_permutes candidates).
  apply list_elem_of_In in Hin. apply elem_of_take in Hin as (i & Hi & _). by eapply list_elem_of_lookup_2.
Qed.

(** Candidates that are pending besides. *)
Lemma held_candidates s candidates :
  repair_ok s -> Forall (candidate_valid s) candidates -> tables_ok (candidate_pairs candidates) (tables s).
Proof.
  intros Hok Hall. apply (held_mono []); [by intros ? [] | | exact Hok].
  intros x Hx. apply in_map_iff in Hx as (c & <- & Hin). right. apply list_elem_of_In in Hin.
  rewrite list.Forall_forall in Hall. destruct (Hall c Hin). cbn [fst snd]. lia.
Qed.

Lemma announce_tiles_ok s entries now :
  repair_ok s -> now <> 0 -> s.(cs_config).(sc_total_tiles) <> 0 -> summary_in_range s entries ->
  let s' := announce_tiles sort_candidates s entries s.(cs_config).(sc_total_tiles) now in
  repair_ok s' /\ repair_frame s s' /\
  (summary_current s entries -> advances (tables s) (tables s') [] /\ Forall (entry_accounted (tables s')) entries).
Proof.
  intros Hok Hnow Htot Hrange. unfold announce_tiles. set (total := sc_total_tiles (cs_config s)) in *.
  assert (zlen (cs_received_generation s) = total) as -> by apply (to_sizes _ _ Hok).
  rewrite (proj2 (Z.eqb_neq _ _)), Z.eqb_refl by done. cbn [orb negb]. unfold total. rewrite (ensure_sized [] s Hok).
  destruct (summary_loop_ok now entries s 0 [] UINT64_MAX Hok Hnow Hrange) as
    (s1 & newly & candidates & age & E & Hok1 & Hf1 & Hcand & Hcur); [constructor |].
  pose proof (proj1 Hf1) as Hc1.
  rewrite E. fold total.
  assert (summary_current s entries -> advances (tables s) (tables s1) [] /\ Forall (entry_accounted (tables s1)) entries /\
    Forall (candidate_covers s1) candidates) as Hcur1 by (intros H; apply Hcur; [done | constructor | by intros ? []]).
  clear Hcur E.
  set (s2 := if negb (newly =? 0) then _ else s1).
  assert (tables s2 = tables s1 /\ s2.(cs_config) = s1.(cs_config) /\ repair_frame s1 s2) as (Et2 & Ec2 & F2)
    by (unfold s2; by case_if).
  assert (forall s0, tables s0 = tables s1 -> repair_frame s1 s0 ->
    repair_ok s0 /\ repair_frame s s0 /\
    (summary_current s entries -> advances (tables s) (tables s0) [] /\ Forall (entry_accounted (tables s0)) entries)) as Hdone.
  { intros s0 Et Ec. unfold repair_ok. rewrite Et. split_and!; [done | by etrans |]. intros H. by destruct (Hcur1 H) as (? & ? & _). }
  destruct candidates as [|c0 candidates0] eqn:Ecs; cbn [null]; [by apply Hdone |]. rewrite <- Ecs in *.
  pose proof (limit_candidates_sub s2 total candidates) as Hsub.
  destruct (limit_repair_candidates_under_pressure_locked sort_candidates s2 total candidates) as [kept n]. cbn [fst] in Hsub.
  set (s3 := if negb (n =? 0) then _ else s2).
  assert (tables s3 = tables s1 /\ s3.(cs_config) = s1.(cs_config) /\ repair_frame s1 s3) as (Et3 & Ec3 & F3).
  { split_and!; [unfold s3; case_if; by rewrite <- Et2 | unfold s3; case_if; by rewrite <- Ec2 |].
    etrans; [exact F2 |]. unfold s3. by case_if. }
  destruct (large_summary_repair_batch_locked s3 total (zlen kept) age now true) as [s4 large] eqn:Elarge.
  destruct (large_batch_same s3 total (zlen kept) age now true) as (Et4 & Ec4 & F4).
  rewrite Elarge in Et4, Ec4, F4. cbn [fst] in Et4, Ec4, F4. rewrite Et3 in Et4. rewrite Ec3 in Ec4.
  destruct (Hdone s4 Et4 ltac:(by etrans)) as (Hok4 & Hf4 & Hcur4). pose proof (proj1 Hf4) as Hc4. destruct large; [done |].
  assert (total = sc_total_tiles (cs_config s4)) as -> by (by rewrite Hc4).
  assert (Forall (candidate_valid s4) kept) as Hv4.
  { rewrite list.Forall_forall in *. intros c Hin. unfold candidate_valid. rewrite Ec4. apply Hcand.
    apply list_elem_of_In, Hsub. by apply list_elem_of_In. }
  destruct (queue_candidates_ok s4 kept now false (held_candidates s4 kept Hok4 Hv4) Hv4) as (Hok5 & Hf5 & _ & A5).
  split_and!; [done | by etrans |]. intros Hsc. destruct (Hcur4 Hsc) as [A4 Hacc4]. destruct (Hcur1 Hsc) as (_ & _ & Hcov).
  assert (Forall (candidate_covers s4) kept) as Hcov4.
  { rewrite list.Forall_forall in *. intros c Hin. unfold candidate_covers.
    replace (cs_retx_summary_pending_generation s4) with (cs_retx_summary_pending_generation s1)
      by (change (rt_pending (tables s1) = rt_pending (tables s4)); by rewrite Et4).
    apply Hcov, list_elem_of_In, Hsub. by apply list_elem_of_In. }
  specialize (A5 Hcov4). split; [by eapply advances_step |]. unfold summary_in_range in Hrange. rewrite list.Forall_forall in *.
  intros e He Hpos. destruct (Hrange e He) as (Hr & _).
  eapply accounted_advances; [exact A5 | | done | by apply Hacc4]. tables_simpl. by rewrite Hc4.
Qed.

(** *** Promotion *)

Lemma held_perm held held' v : (forall x, In x held <-> In x held') -> tables_ok held v -> tables_ok held' v.
Proof. intros Hiff. apply held_mono; intros x Hx; [by apply Hiff | left; by apply Hiff]. Qed.

Lemma due_after_later since_ns delay_ns now_ns :
  due_after since_ns delay_ns <= now_ns -> now_ns < UINT64_MAX ->
  since_ns + delay_ns <= now_ns.
Proof. unfold due_after. destruct (Z.gtb_spec since_ns (UINT64_MAX - delay_ns)); lia. Qed.

(** A tile whose announcement may be acted upon at [now]. *)
Definition tile_due (s : ClientState) (t g now_ns : Z) : Prop :=
  0 <= t < s.(cs_config).(sc_total_tiles) /\ 0 < g /\ aget 0 s.(cs_retx_summary_pending_generation) t = g /\
  aget 0 s.(cs_received_generation) t < g /\ retry_due s t g <= now_ns.

Lemma frame_retry_due s s' t g : repair_frame s s' -> retry_due s' t g = retry_due s t g.
Proof.
  intros (_ & _ & E1 & E2 & E3 & E4 & E5 & E6 & E7 & _). unfold retry_due, retransmit_inflight_grace_ns_locked,
    retransmit_request_interval_ns, udp_gap_pressure_ns. by rewrite E1, E2, E3, E4, E5, E6, E7.
Qed.

(** What holds while the loop runs, of the state it started from. *)
Record promoting (now_ns : Z) (s0 s : ClientState) (candidates : list SummaryRepairCandidate)
    (rest : list ClientSummaryRepairDue) : Prop := {
  pg_frame : repair_frame s0 s;
  pg_tables : tables_ok (candidate_pairs candidates) (tables s);
  pg_valid : Forall (candidate_valid s) candidates;
  pg_covers : Forall (candidate_covers s) candidates;
  pg_advances : advances (tables s0) (tables s) [];
  pg_count : zlen candidates + zlen rest <= zlen s0.(cs_retx_summary_due_queue);
  pg_queue : exists later, s.(cs_retx_summary_due_queue) = rest ++ later /\
    Forall (fun d => now_ns < d.(rd_due_ns)) later;
  pg_due : forall t g, tile_due s0 t g now_ns ->
    aget 0 s.(cs_retx_summary_pending_generation) t = g /\
    (In (t, g) (due_pairs rest) \/ In (t, g) (candidate_pairs candidates));
}.

Lemma promote_due_ok now s0 s candidates age d rest tail :
  promoting now s0 s candidates (d :: rest) -> s.(cs_retx_summary_due_queue) = d :: tail ->
  let '(s', candidates', age') := promote_due s0.(cs_config).(sc_total_tiles) now
    (s <| cs_retx_summary_due_queue := tail |>, candidates, age) d in
  promoting now s0 s' candidates' rest.
Proof.
  intros [F O V Cv A Cn (later & Eq & Hl) Du] Ed. rewrite Eq in Ed. injection Ed as <-.
  set (s1 := s <| cs_retx_summary_due_queue := rest ++ later |>).
  assert (s1.(cs_config) = s0.(cs_config)) as Hc1 by apply F.
  assert (s1.(cs_received_generation) = s0.(cs_received_generation)) as Hr1 by apply F.
  set (t := d.(rd_tile_id)). set (g := d.(rd_generation)).
  assert (tables_ok ((t, g) :: candidate_pairs candidates) (tables s1)) as O1.
  { destruct O as [T S I C P W Q Z0 D U]. constructor; try done.
    - intros u Hu Hn. destruct (Q u Hu Hn) as (Q1 & Q2 & Q3). split_and!; [done | done |].
      tables_simpl. rewrite Eq in Q3. unfold s1. cbn [cs_retx_summary_due_queue cs_retx_summary_pending_generation set_field].
      unfold due_pairs, t, g in *. cbn [fmap list_fmap app] in Q3. rewrite in_app_iff in *. cbn [In] in *. rewrite in_app_iff in *. tauto.
    - intros u g' Hin. apply D. unfold s1 in Hin. tables_simpl. rewrite Eq.
      unfold due_pairs, t, g in *. cbn [fmap list_fmap app]. rewrite in_app_iff in *. cbn [In] in *. rewrite in_app_iff in *. tauto. }
  assert (0 <= t /\ 0 < g) as [Ht0 Hg0] by (apply (to_due _ _ O1 t g), in_or_app; right; by left).
  assert (forall t' g', tile_due s0 t' g' now -> (t', g') <> (t, g) ->
    aget 0 s1.(cs_retx_summary_pending_generation) t' = g' /\
    (In (t', g') (due_pairs rest) \/ In (t', g') (candidate_pairs candidates))) as Hother.
  { intros t' g' Hd Hne. destruct (Du t' g' Hd) as [Hp Hin]. split; [done |].
    unfold due_pairs in *. cbn [fmap list_fmap In] in Hin. destruct Hin as [[Heq|?]|?]; [by destruct Hne | by left | by right]. }
  assert (forall s', repair_frame s1 s' -> repair_frame s0 s') as Hframe by (intros; by transitivity s1; [apply F |]).
  assert (forall s' : ClientState, repair_frame s1 s' -> Forall (candidate_valid s') candidates) as Hvalid.
  { intros s' Hf. eapply list.Forall_impl; [exact V |]. intros c. unfold candidate_valid. by rewrite (proj1 Hf). }
  assert (repair_frame s0 s1) as F1 by exact F.
  assert (Forall (candidate_valid s1) candidates) as V1 by exact V.
  assert (Forall (candidate_covers s1) candidates) as Cv1 by exact Cv.
  assert (advances (tables s0) (tables s1) []) as A1.
  { eapply advances_step; [exact A |]. by apply advances_same. }
  rewrite zlen_cons in Cn. pose proof (zlen_nonneg candidates).
  unfold promote_due. fold s1 t g.
  destruct (Z.geb_spec t (sc_total_tiles (cs_config s0))) as [Hout|Hin]; cbn [orb].
  { constructor; try done; [| lia | |].
    - eapply held_drop; [exact O1 |]. rewrite Hc1. lia.
    - by exists later.
    - intros t' g' Hd. apply Hother; [done |]. intros [= -> ->]. destruct Hd as [? _]. lia. }
  destruct (Z.eqb_spec (aget 0 (cs_retx_summary_pending_generation s1) t) g) as [Hp|Hp]; cbn [negb].
  2:{ constructor; try done; [| lia | |].
    - eapply held_drop; [exact O1 |]. intros _. by left.
    - by exists later.
    - intros t' g' Hd. apply Hother; [done |]. intros [= -> ->]. by destruct (Du t g Hd). }
  assert (0 <= t < sc_total_tiles (cs_config s1)) as Ht1 by (rewrite Hc1; lia).
  destruct (to_pending _ _ O1 t Ht1) as (_ & Hs & _); [tables_simpl; lia |]. tables_simpl.
  rewrite (proj2 (Z.eqb_neq _ _)) by done.
  destruct (Z.geb_spec (aget 0 (cs_received_generation s1) t) g) as [Hrec|Hrec].
  { destruct (clear_pending_ok _ s1 t g O1 Ht1) as (O2 & A2 & Hu2 & H02).
    pose proof (clear_pending_frame s1 t) as Hf. constructor.
    - by apply Hframe.
    - exact O2.
    - by apply Hvalid.
    - rewrite list.Forall_forall in *. intros c Hc. specialize (Cv c Hc). destruct (V c Hc). unfold candidate_covers in *.
      change (cs_retx_summary_pending_generation s) with (cs_retx_summary_pending_generation s1) in Cv.
      cbn [fetch_add cs_retx_summary_pending_generation set_field].
      destruct (Z.eq_dec c.(rc_tile_id) t) as [->|Hne]; [rewrite H02; lia | rewrite Hu2 by lia; done].
    - eapply advances_step; [exact A1 |]. apply A2. lia.
    - lia.
    - exists later. split; [| done]. cbn. unfold clear_summary_pending_locked. by case_if.
    - intros t' g' Hd. destruct (Z.eq_dec t' t) as [->|Hne].
      + destruct (Du t g' Hd) as [Hp' _]. destruct Hd as (? & ? & ? & ? & ?).
        change (cs_retx_summary_pending_generation s) with (cs_retx_summary_pending_generation s1) in Hp'.
        rewrite Hr1 in Hrec. lia.
      + destruct (Hother t' g' Hd) as [Hp' Hin']; [by intros [= ? ?] |]. split; [| done].
        cbn [fetch_add cs_retx_summary_pending_generation set_field]. rewrite Hu2 by (destruct Hd; lia). done. }
  assert (retry_due s1 t g = retry_due s0 t g) as Hret by (by apply frame_retry_due; apply F).
  destruct (Z.gtb_spec (retry_due s1 t g) now) as [Hlate|Hnow].
  { destruct (schedule_ok (candidate_pairs candidates) s1 t g (retry_due s1 t g) O1) as [O2 A2].
    constructor; try done; [| lia | |].
    - eapply advances_step; [exact A1 | exact A2].
    - exists (later ++ [mk_ClientSummaryRepairDue t g (retry_due s1 t g)]). split; [cbn; by rewrite app_assoc |].
      apply Forall_app. split; [done |]. by repeat constructor.
    - intros t' g' Hd. apply Hother; [done |]. intros [= -> ->]. destruct Hd as (_ & _ & _ & _ & ?). lia. }
  constructor; try done.
  - eapply held_perm; [| exact O1]. intros x. unfold candidate_pairs. rewrite fmap_app. cbn [fmap list_fmap].
    rewrite in_app_iff. cbn [In rc_tile_id rc_generation]. tauto.
  - apply Forall_app. split; [done |]. apply Forall_singleton. unfold candidate_valid. cbn [rc_tile_id rc_generation]. lia.
  - apply Forall_app. split; [done |]. apply Forall_singleton. unfold candidate_covers. cbn [rc_tile_id rc_generation].
    by apply Z.eq_le_incl.
  - rewrite zlen_app, zlen_cons. change (zlen []) with 0. lia.
  - by exists later.
  - intros t' g' Hd. unfold candidate_pairs. rewrite fmap_app, in_app_iff. cbn [fmap list_fmap In rc_tile_id rc_generation].
    destruct (decide ((t', g') = (t, g))) as [Heq|Hne]; [injection Heq as -> ->; auto |].
    destruct (Hother t' g' Hd Hne) as [? [?|?]]; auto.
Qed.

Lemma promote_loop_ok now s0 rest : forall s candidates age scanned,
  promoting now s0 s candidates rest ->
  exists s' candidates' age' scanned' rest',
    promote_loop (length rest) s0.(cs_config).(sc_total_tiles) now scanned s candidates age = (s', candidates', age', scanned') /\
    promoting now s0 s' candidates' rest' /\
    (forall d, In d rest' -> In d rest) /\
    match rest' with [] => True | d :: _ => now < d.(rd_due_ns) end.
Proof.
  induction rest as [|d rest IH]; intros s candidates age scanned Hp; cbn [length promote_loop].
  { do 5 eexists. split_and!; [reflexivity | exact Hp | done | done]. }
  pose proof (pg_queue _ _ _ _ _ Hp) as (later & Eq & _). rewrite Eq. cbn [app].
  destruct (Z.leb_spec d.(rd_due_ns) now) as [Hd|Hd].
  2:{ do 5 eexists. split_and!; [reflexivity | exact Hp | done | done]. }
  pose proof (promote_due_ok now s0 s candidates age d rest (rest ++ later) Hp Eq) as Hstep.
  destruct (promote_due _ _ _ d) as [[s1 c1] a1].
  destruct (IH s1 c1 a1 (scanned + 1) Hstep) as (s2 & c2 & a2 & n2 & rest' & -> & Hp2 & Hsub & Hend).
  do 5 eexists. split_and!; [reflexivity | exact Hp2 | | exact Hend]. intros x Hx. right. by apply Hsub.
Qed.

(** The loop takes everything that is due off the queue: its fuel is enough. *)
Lemma promote_loop_ends now s0 s candidates age scanned rest :
  promoting now s0 s candidates rest ->
  match (promote_loop (length rest) s0.(cs_config).(sc_total_tiles) now scanned s candidates age).1.1.1.(cs_retx_summary_due_queue) with
  | [] => True
  | d :: _ => now < d.(rd_due_ns)
  end.
Proof.
  intros Hp. destruct (promote_loop_ok now s0 rest s candidates age scanned Hp) as (s' & c' & a' & n' & rest' & -> & Hp' & _ & Hend).
  cbn [fst]. destruct (pg_queue _ _ _ _ _ Hp') as (later & -> & Hl). destruct rest' as [|d rest']; cbn [app]; [| exact Hend].
  destruct later as [|d later]; [done |]. by apply list.Forall_cons in Hl as [? _].
Qed.

Lemma schedule_candidates_ok s dropped kept due_ns :
  tables_ok (candidate_pairs (dropped ++ kept)) (tables s) ->
  tables_ok (candidate_pairs kept) (tables (schedule_candidates s dropped due_ns)) /\
  advances (tables s) (tables (schedule_candidates s dropped due_ns)) [] /\
  repair_frame s (schedule_candidates s dropped due_ns) /\
  (schedule_candidates s dropped due_ns).(cs_retx_summary_pending_generation) = s.(cs_retx_summary_pending_generation).
Proof.
  unfold schedule_candidates. revert s. induction dropped as [|c dropped IH]; intros s Hok; cbn [fold_left app] in *.
  { split_and!; [done | apply advances_refl | done | done]. }
  destruct (schedule_ok (candidate_pairs (dropped ++ kept)) s c.(rc_tile_id) c.(rc_generation) due_ns Hok) as [Hok1 A1].
  destruct (IH _ Hok1) as (Hok2 & A2 & F2 & P2). split_and!; [done | by eapply advances_step | by etrans; [| exact F2] | done].
Qed.

Definition covered (s : ClientState) (candidates : list SummaryRepairCandidate) : Prop :=
  tables_ok (candidate_pairs candidates) (tables s) /\ Forall (candidate_valid s) candidates /\
  Forall (candidate_covers s) candidates.

(** The candidates the pressure leaves, the rest back in the due queue. *)
Lemma pressure_ok s candidates due_ns keep :
  covered s candidates ->
  let s' := schedule_candidates s (drop keep (sort_candidates candidates)) due_ns in
  covered s' (take keep (sort_candidates candidates)) /\ advances (tables s) (tables s') [] /\ repair_frame s s'.
Proof.
  intros (Hok & Hv & Hc). rewrite <- (sort_permutes candidates) in Hv, Hc.
  assert (forall x, In x (candidate_pairs candidates) <->
    In x (candidate_pairs (drop keep (sort_candidates candidates) ++ take keep (sort_candidates candidates)))) as Hin.
  { intros x. rewrite <- !list_elem_of_In. unfold candidate_pairs.
    assert (drop keep (sort_candidates candidates) ++ take keep (sort_candidates candidates) ≡ₚ candidates) as ->; [| done].
    rewrite Permutation_app_comm, take_drop. apply sort_permutes. }
  destruct (schedule_candidates_ok s _ _ due_ns (held_perm _ _ _ Hin Hok)) as (Hok1 & A1 & F1 & P1).
  rewrite <- (take_drop keep (sort_candidates candidates)) in Hv, Hc.
  apply Forall_app in Hv as [Hv _]. apply Forall_app in Hc as [Hc _].
  split_and!; [split_and!; [exact Hok1 | |] | exact A1 | exact F1].
  - eapply list.Forall_impl; [exact Hv |]. intros c. unfold candidate_valid. by rewrite (proj1 F1).
  - eapply list.Forall_impl; [exact Hc |]. intros c. unfold candidate_covers. by rewrite P1.
Qed.

(** From the candidates of the loop to the end of promotion. *)
Lemma covered_same s s' candidates :
  tables s' = tables s -> s'.(cs_config) = s.(cs_config) -> covered s candidates -> covered s' candidates.
Proof.
  intros Et Ec (H1 & H2 & H3). unfold covered. rewrite Et. split_and!; [done | |].
  - eapply list.Forall_impl; [exact H2 |]. intros c. unfold candidate_valid. by rewrite Ec.
  - eapply list.Forall_impl; [exact H3 |]. intros c. unfold candidate_covers.
    change (cs_retx_summary_pending_generation s') with (rt_pending (tables s')). by rewrite Et.
Qed.

Lemma start_promoting now s : repair_ok s -> promoting now s s [] s.(cs_retx_summary_due_queue).
Proof.
  intros Hok. constructor; try done.
  - apply advances_refl.
  - exists []. by rewrite app_nil_r.
  - intros t g (Ht & Hg & Hp & _). split; [done |]. left.
    destruct (to_pending _ _ Hok t Ht) as (_ & _ & Hin); [tables_simpl; lia |].
    tables_simpl. by rewrite app_nil_r, Hp in Hin.
Qed.

(** Few tiles wait: neither the pressure of repairs nor the test for large
    batches holds them back. *)
Definition few_waiting (s : ClientState) : Prop :=
  zlen s.(cs_retx_summary_due_queue) <= WD_CLIENT_REPAIR_PRESSURE_MAX_QUEUE_TILES /\
  zlen s.(cs_retx_summary_due_queue) * 100 < s.(cs_config).(sc_total_tiles) * WD_LINK_LARGE_SUMMARY_REPAIR_PERCENT.

Lemma few_not_large s total n age now b :
  0 <= n -> n * 100 < total * WD_LINK_LARGE_SUMMARY_REPAIR_PERCENT -> total <= UINT16_MAX ->
  large_summary_repair_batch_locked s total n age now b = (s, false).
Proof.
  intros Hn Hfew Ht. unfold large_summary_repair_batch_locked, WD_LINK_LARGE_SUMMARY_REPAIR_PERCENT in *.
  rewrite u64_small by mlia. by rewrite (proj2 (Z.ltb_lt (n * 100) _)), orb_true_r.
Qed.

Definition promotes (now : Z) (s s' : ClientState) : Prop :=
  repair_ok s' /\ advances (tables s) (tables s') [] /\ repair_frame s s' /\
  (few_waiting s -> Forall (fun d => d.(rd_due_ns) <= now) s.(cs_retx_summary_due_queue) ->
   forall t g, tile_due s t g now -> g <= aget 0 s'.(cs_retx_queued_generation) t).

Lemma promote_rest_ok now s s1 candidates age total :
  total = s.(cs_config).(sc_total_tiles) -> promoting now s s1 candidates [] \/
    (exists d rest, promoting now s s1 candidates (d :: rest) /\ now < d.(rd_due_ns) /\ In d s.(cs_retx_summary_due_queue)) ->
  promotes now s
    (if null candidates then s1
     else
       let state := fetch_add st_summary_promote_candidates (zlen candidates) s1 in
       let '(state, candidates) :=
         if client_repair_pressure_high_locked state total &&
            (zlen candidates >? WD_CLIENT_REPAIR_PRESSURE_MAX_QUEUE_TILES)
         then
           let candidates := sort_candidates candidates in
           let keep := Z.to_nat WD_CLIENT_REPAIR_PRESSURE_MAX_QUEUE_TILES in
           let state := schedule_candidates state (drop keep candidates) (u64 (now + WD_NET_CLIENT_REPAIR_RETRY_MIN_NS)) in
           (fetch_add st_summary_retx_pressure_dropped
              (zlen candidates - WD_CLIENT_REPAIR_PRESSURE_MAX_QUEUE_TILES) state, take keep candidates)
         else (state, candidates) in
       let '(state, large) := large_summary_repair_batch_locked state total (zlen candidates) age now true in
       if (large : bool) then
         let retry_ns := Z.max (u64 (now + WD_NET_CLIENT_REPAIR_RETRY_MIN_NS)) state.(cs_summary_large_repair_not_before_ns) in
         schedule_candidates state candidates retry_ns
       else queue_candidates state candidates now total true).
Proof.
  intros -> Hend. set (total := sc_total_tiles (cs_config s)).
  assert (exists rest, promoting now s s1 candidates rest) as (rest & [F O V Cv A Cn _ _])
    by (destruct Hend as [?|(? & ? & ? & _)]; eauto).
  assert (Forall (fun d => d.(rd_due_ns) <= now) s.(cs_retx_summary_due_queue) ->
    forall t g, tile_due s t g now -> In (t, g) (candidate_pairs candidates)) as Hdue.
  { intros Hall t g Hd. destruct Hend as [Hp|(d & rest' & _ & Hlate & Hin)].
    - by destruct (pg_due _ _ _ _ _ Hp t g Hd) as [_ [[]|?]].
    - rewrite list.Forall_forall in Hall. apply list_elem_of_In in Hin. specialize (Hall d Hin). lia. }
  destruct candidates as [|c0 cs0] eqn:Ecs; cbn [null].
  { split_and!; [exact O | done | exact F |]. intros _ Hall t g Hd. by destruct (Hdue Hall t g Hd). }
  rewrite <- Ecs in *. clear Ecs c0 cs0.
  set (s2 := fetch_add _ _ s1). cbv zeta.
  set (limited := if client_repair_pressure_high_locked s2 total && _ then _ else _).
  assert (covered limited.1 limited.2 /\ advances (tables s) (tables limited.1) [] /\ repair_frame s limited.1 /\
    (few_waiting s -> limited = (s2, candidates))) as (Hcov & A3 & F3 & Hfew).
  { pose proof (conj O (conj V Cv) : covered s2 candidates) as Hc. unfold limited. case_if; cbn [fst snd].
    - destruct (pressure_ok s2 candidates (u64 (now + WD_NET_CLIENT_REPAIR_RETRY_MIN_NS))
        (Z.to_nat WD_CLIENT_REPAIR_PRESSURE_MAX_QUEUE_TILES) Hc) as (Hc3 & A3 & F3).
      split_and!; [exact Hc3 | eapply advances_step; [exact A | exact A3] | by etrans; [exact F |] |].
      intros [Hf _]. bool_cases. pose proof (zlen_nonneg rest). lia.
    - split_and!; [done | exact A | exact F | done]. }
  destruct limited as [s3 kept]. cbn [fst snd] in *. clear Hend.
  destruct (large_summary_repair_batch_locked s3 total (zlen kept) age now true) as [s4 large] eqn:Elarge.
  destruct (large_batch_same s3 total (zlen kept) age now true) as (Et4 & Ec4 & F4).
  rewrite Elarge in Et4, Ec4, F4. cbn [fst] in Et4, Ec4, F4. pose proof (covered_same s3 s4 kept Et4 Ec4 Hcov) as (O4 & V4 & C4).
  assert (few_waiting s -> s4 = s3 /\ large = false) as Hsmall.
  { intros [Hf1 Hf2]. rewrite few_not_large in Elarge; [by injection Elarge as <- <- | apply zlen_nonneg | |].
    - specialize (Hfew (conj Hf1 Hf2)). injection Hfew as -> ->. pose proof (zlen_nonneg rest). fold total in Hf2. lia.
    - pose proof (to_total _ _ O4) as Ht. tables_simpl. rewrite Ec4, (proj1 F3) in Ht. apply Ht. }
  assert (advances (tables s) (tables s4) []) as A4 by (by rewrite Et4).
  assert (s4.(cs_config) = s.(cs_config)) as Hc4 by (rewrite Ec4; apply F3).
  destruct large.
  - destruct (schedule_candidates_ok s4 kept [] (Z.max (u64 (now + WD_NET_CLIENT_REPAIR_RETRY_MIN_NS))
      (cs_summary_large_repair_not_before_ns s4))) as (O5 & A5 & F5 & _); [by rewrite app_nil_r |].
    split_and!; [exact O5 | by eapply advances_step | etrans; [exact F3 |]; by etrans |]. intros Hf. by destruct (Hsmall Hf).
  - assert (total = sc_total_tiles (cs_config s4)) as -> by (by rewrite Hc4).
    destruct (queue_candidates_ok s4 kept now true O4 V4) as (O5 & F5 & Q5 & A5).
    split_and!; [exact O5 | eapply advances_step; [exact A4 | by apply A5] | etrans; [exact F3 |]; by etrans |].
    intros Hf Hall t g Hd. destruct (Hsmall Hf) as [-> _]. specialize (Hfew Hf). injection Hfew as -> ->.
    specialize (Hdue Hall t g Hd). apply in_map_iff in Hdue as (c & [= <- <-] & Hin). unfold all_queued in Q5.
    rewrite list.Forall_forall in Q5. apply Q5. by apply list_elem_of_In.
Qed.

Lemma promote_ok s now :
  repair_ok s -> promotes now s (promote_deferred_summary_retransmits_locked sort_candidates s now).
Proof.
  intros Hok. unfold promote_deferred_summary_retransmits_locked.
  assert ((forall t g, tile_due s t g now -> s.(cs_config).(sc_total_tiles) <> 0 /\
    s.(cs_retx_summary_pending_count) <> 0 /\ s.(cs_retx_summary_due_queue) <> []) ) as Hsome.
  { intros t g (Ht & Hg & Hp & _). destruct (to_pending _ _ Hok t Ht) as (Hin & _ & Hdue); [tables_simpl; lia |].
    pose proof (to_count _ _ Hok) as Hc. tables_simpl. split_and!; [lia | | by intros E; rewrite E in Hdue].
    rewrite Hc. destruct (cs_retx_summary_pending_tiles s); [by apply not_elem_of_nil in Hin |]. rewrite zlen_cons.
    pose proof (zlen_nonneg l). lia. }
  assert (forall b : bool, (b = true -> forall t g, ~ tile_due s t g now) -> b = true -> promotes now s s) as Hskip.
  { intros b Hb Eb. split_and!; [done | apply advances_refl | done |]. intros _ _ t g Hd. by destruct (Hb Eb t g). }
  case_if.
  { eapply Hskip; [| exact E]. intros _ t g Hd. destruct (Hsome t g Hd) as (H1 & _).
    pose proof (proj1 (to_sizes _ _ Hok)) as Hz. tables_simpl. bool_cases; lia. }
  clear E. rewrite (ensure_sized [] s Hok). case_if.
  { eapply Hskip; [| exact E]. intros _ t g Hd. destruct (Hsome t g Hd) as (_ & H1 & H2).
    destruct (cs_retx_summary_due_queue s); cbn [null] in E; [done |]. rewrite orb_false_r in E. bool_cases; lia. }
  clear E. set (s0 := fetch_add st_summary_promote_passes 1 s).
  destruct (promote_loop_ok now s0 _ s0 [] UINT64_MAX 0 (start_promoting now s0 Hok))
    as (s1 & candidates & age & scanned & rest & E & Hp & Hsub & Hend).
  change (cs_config s0) with (cs_config s) in E. rewrite E. set (s2 := fetch_add st_summary_promote_scanned scanned s1).
  apply (promote_rest_ok now s s2 candidates age); [done |].
  assert (promoting now s s2 candidates rest) as Hp2 by (destruct Hp; constructor; assumption).
  destruct rest as [|d rest]; [by left | right]. exists d, rest. split_and!; [done | done |]. apply Hsub. by left.
Qed.

(** *** Requests *)

Lemma max_entries : MAX_RETRANSMIT_ENTRIES_PER_MESSAGE = UINT16_MAX.
Proof. by vm_compute. Qed.

(** The entries of a message are for distinct tiles which no longer wait; so a
    message has room for every tile. *)
Record asked (s : ClientState) (entries : list wd_tile_repair_entry) : Prop := {
  ak_distinct : base.NoDup (re_tile_id <$> entries);
  ak_tiles : Forall (fun r => 0 <= r.(re_tile_id) < s.(cs_config).(sc_total_tiles) /\
    aget 0 s.(cs_retx_queued_generation) r.(re_tile_id) = 0) entries;
}.

Lemma asked_room s entries t : repair_ok s -> asked s entries -> 0 <= t < s.(cs_config).(sc_total_tiles) ->
  aget 0 s.(cs_retx_queued_generation) t <> 0 -> zlen entries < MAX_RETRANSMIT_ENTRIES_PER_MESSAGE.
Proof.
  intros Hok [Hd Ht] Hr Hq. rewrite max_entries. pose proof (to_total _ _ Hok) as T. tables_simpl.
  assert (zlen (t :: (re_tile_id <$> entries)) <= sc_total_tiles (cs_config s)) as Hle.
  { apply NoDup_range; [lia | |].
    - constructor; [done |]. apply list.Forall_fmap. eapply list.Forall_impl; [exact Ht |]. by intros ? [? _].
    - apply list.NoDup_cons. split; [| done]. intros (r & -> & Hin)%list_elem_of_fmap.
      rewrite list.Forall_forall in Ht. by destruct (Ht r Hin). }
  rewrite zlen_cons in Hle. unfold zlen in *. rewrite length_fmap in Hle. lia.
Qed.

(** Time [now] is past the two waiting times of tile [t]. *)
Definition askable (s : ClientState) (t g now_ns : Z) : Prop :=
  aget 0 s.(cs_received_generation) t < g /\ inflight_recently s t g now_ns = false /\
  requested_recently s t g now_ns = false.

(** What one round does with the tile [t] taken from the queue. *)
Definition flush_tile (now_ns : Z) (state : ClientState) (entries : list wd_tile_repair_entry) (t : Z)
    : ClientState * list wd_tile_repair_entry :=
  let g := aget 0 state.(cs_retx_queued_generation) t in
  let taken := state <| cs_retx_queued_generation := aset state.(cs_retx_queued_generation) t 0 |> in
  if (t >=? state.(cs_config).(sc_total_tiles)) then (state, entries)
  else if (g =? 0) || (g <=? aget 0 state.(cs_received_generation) t) then (taken, entries)
  else if inflight_recently state t g now_ns || requested_recently state t g now_ns then
    (taken <| cs_retx_queued_generation := aset taken.(cs_retx_queued_generation) t g |>
           <| cs_retx_queue := taken.(cs_retx_queue) ++ [t] |>, entries)
  else
    (taken <| cs_retx_last_requested_generation := aset taken.(cs_retx_last_requested_generation) t g |>
           <| cs_retx_last_request_ns := aset taken.(cs_retx_last_request_ns) t now_ns |>,
     entries ++ [mk_wd_tile_repair_entry t g]).

Lemma flush_loop_step n now s entries t rest :
  repair_ok s -> s.(cs_retx_queue) = t :: rest -> 0 <= t -> zlen entries < MAX_RETRANSMIT_ENTRIES_PER_MESSAGE ->
  flush_loop (S n) now s entries =
  let '(s', entries') := flush_tile now (s <| cs_retx_queue := rest |>) entries t in flush_loop n now s' entries'.
Proof.
  intros Hok Eq Ht Hroom. cbn [flush_loop]. rewrite Eq, Z.geb_leb, (proj2 (Z.leb_gt _ _)) by done.
  unfold flush_tile. set (s1 := s <| cs_retx_queue := rest |>). change (cs_config s1) with (cs_config s).
  change (cs_retx_queued_generation s1) with (cs_retx_queued_generation s).
  change (cs_received_generation s1) with (cs_received_generation s).
  pose proof (to_sizes _ _ Hok) as (S1 & S2 & _). tables_simpl. rewrite S2, orb_diag.
  destruct (Z.geb_spec t (sc_total_tiles (cs_config s))) as [Hout|Hin]; [done |].
  set (g := aget 0 (cs_retx_queued_generation s) t).
  destruct (Z.eqb_spec g 0) as [|Hg]; cbn [orb]; [done |].
  change (cs_received_generation s1) with (cs_received_generation s).
  destruct (lookup_lt_is_Some_2 (cs_received_generation s) (Z.to_nat t)) as [received Er]; [unfold zlen in *; lia |].
  assert (aget 0 (cs_received_generation s) t = received) as -> by (unfold aget; by erewrite nth_lookup_Some).
  rewrite Er. cbn [mbind option_bind]. rewrite Z.geb_leb.
  destruct (Z.leb_spec g received); [done |].
  change (inflight_recently _ t g now) with (inflight_recently s1 t g now).
  change (requested_recently _ t g now) with (requested_recently s1 t g now).
  by destruct (inflight_recently s1 t g now || requested_recently s1 t g now).
Qed.

(** What decides whether tile [t] is asked for. *)
Definition request_view (s : ClientState) (t : Z) :=
  (aget 0 s.(cs_retx_queued_generation) t, aget 0 s.(cs_received_generation) t,
   (aget 0 s.(cs_retx_last_requested_generation) t, aget 0 s.(cs_retx_last_request_ns) t),
   (aget 0 s.(cs_retx_inflight_generation) t, aget 0 s.(cs_retx_inflight_since_ns) t),
   (s.(cs_retx_inflight_grace_ns), s.(cs_retransmit_request_interval_ns), s.(cs_udp_gap_pressure_ns))).

Lemma askable_view s s' t g now : request_view s' t = request_view s t -> askable s t g now -> askable s' t g now.
Proof.
  unfold request_view. intros [= E1 E2 E3 E4 E5 E6 E7 E8 E9] (H1 & H2 & H3). unfold askable, inflight_recently, requested_recently,
    retransmit_inflight_grace_ns_locked, retransmit_request_interval_ns, udp_gap_pressure_ns in *.
  rewrite E2, E3, E4, E5, E6, E7, E8, E9. done.
Qed.

Lemma flush_tile_ok now s entries t rest :
  repair_ok s -> asked s entries -> s.(cs_retx_queue) = t :: rest -> 
  exists s' new, flush_tile now (s <| cs_retx_queue := rest |>) entries t = (s', entries ++ new) /\
    repair_ok s' /\ asked s' (entries ++ new) /\ s'.(cs_config) = s.(cs_config) /\ session_setup s' = session_setup s /\
    advances (tables s) (tables s') new /\
    (exists back, s'.(cs_retx_queue) = rest ++ back) /\
    (forall u, 0 <= u -> request_view s' u = request_view s u \/ (u = t /\ aget 0 s'.(cs_retx_queued_generation) t = 0)) /\
    Forall (fun r => r.(re_tile_id) = t /\ r.(re_requested_generation) = aget 0 s.(cs_retx_queued_generation) t /\
      askable s t r.(re_requested_generation) now) new /\
    (t < s.(cs_config).(sc_total_tiles) -> aget 0 s.(cs_retx_queued_generation) t <> 0 ->
     askable s t (aget 0 s.(cs_retx_queued_generation) t) now ->
     requests new t (aget 0 s.(cs_retx_queued_generation) t)).
Proof.
  intros Hok Hak Eq. pose proof Hok as [T S I C P W Q Z0 D U]. pose proof S as (S1 & S2 & S3 & S4 & S5 & S6 & S7 & S8 & S9).
  tables_simpl. rewrite Eq in W, U. apply list.Forall_cons in U as [Ht0 U].
  set (g := aget 0 (cs_retx_queued_generation s) t).
  unfold flush_tile. set (s1 := s <| cs_retx_queue := rest |>). cbv zeta.
  change (cs_config s1) with (cs_config s). change (cs_retx_queued_generation s1) with (cs_retx_queued_generation s). fold g.
  change (cs_received_generation s1) with (cs_received_generation s).
  change (inflight_recently s1 t g now) with (inflight_recently s t g now).
  change (requested_recently s1 t g now) with (requested_recently s t g now).
  assert (forall u, In u (t :: rest) -> u <> t -> In u rest) as Hrest by (intros u [->|?] ?; done).
  destruct (Z.geb_spec t (sc_total_tiles (cs_config s))) as [Hout|Hin].
  { exists s1, []. rewrite app_nil_r. split; [reflexivity |]. split_and!; try done.
    - constructor; try done. tables_simpl. intros u Hu Hn. change (cs_config s1) with (cs_config s) in Hu. apply Hrest; [by apply W | lia].
    - destruct Hak; by constructor.
    - apply advances_same; done.
    - exists []. by rewrite app_nil_r.
    - by left.
    - lia. }
  assert (asked (s1 <| cs_retx_queued_generation := aset s.(cs_retx_queued_generation) t 0 |>) entries) as Hak1.
  { destruct Hak as [K1 K2]. constructor; [done |]. eapply list.Forall_impl; [exact K2 |]. intros r [R1 R2]. split; [done |].
    unfold s1. cbn [cs_retx_queued_generation set_field]. by at_tile r.(re_tile_id) t. }
  destruct (Z.eqb_spec g 0) as [Eg|Hg]; cbn [orb].
  { exists (s1 <| cs_retx_queued_generation := aset s.(cs_retx_queued_generation) t 0 |>), []. rewrite app_nil_r.
    assert (aset s.(cs_retx_queued_generation) t 0 = s.(cs_retx_queued_generation)) as Eset
      by (rewrite <- Eg; by apply aset_same).
    split; [reflexivity |]. split_and!; try done.
    - rewrite Eset. constructor; try done. tables_simpl. intros u Hu Hn. apply Hrest; [by apply W | by intros ->].
    - rewrite Eset. by apply advances_same.
    - exists []. by rewrite app_nil_r.
    - rewrite Eset. intros u Hu. by left. }
  pose proof (P t ltac:(lia)) as (P1 & P2 & P3). fold g in P2.
  assert (forall u, u <> t -> 0 <= u -> aget 0 (aset (cs_retx_queued_generation s) t 0) u = aget 0 (cs_retx_queued_generation s) u)
    as Hu by (intros; apply aget_aset_ne; lia).
  assert (aget 0 (aset (cs_retx_queued_generation s) t 0) t = 0) as Ht by (apply aget_aset_eq; lia).
  assert (forall u, 0 <= u < sc_total_tiles (cs_config s) -> aget 0 (aset (cs_retx_queued_generation s) t 0) u <> 0 -> In u rest) as Hw.
  { intros u Hr Hn. destruct (Z.eq_dec u t) as [->|Hne]; [done |]. apply Hrest; [| done]. apply W; [done |]. by rewrite <- Hu by lia. }
  assert (forall new, (forall g', g' <= g -> g' <= aget 0 (cs_received_generation s) t \/ requests new t g') ->
    forall u g', 0 <= u < sc_total_tiles (cs_config s) -> 0 < g' -> tracked (tables s) u g' ->
    g' <= aget 0 (cs_received_generation s) u \/
    (g' <= aget 0 (cs_retx_summary_pending_generation s) u \/ g' <= aget 0 (aset (cs_retx_queued_generation s) t 0) u) \/
    requests new u g') as Hkept.
  { intros new Hnew u g' Hr Hg' [Htr|Htr]; [by right; left; left |]. tables_simpl. destruct (Z.eq_dec u t) as [->|Hne].
    - destruct (Hnew g' Htr) as [?|?]; [by left | by right; right].
    - right. left. right. rewrite Hu by lia. done. }
  assert (forall s', cs_retx_queued_generation s' = aset (cs_retx_queued_generation s) t 0 ->
    (forall u, u <> t -> 0 <= u -> request_view s' u = request_view s u) ->
    forall u, 0 <= u -> request_view s' u = request_view s u \/ (u = t /\ aget 0 s'.(cs_retx_queued_generation) t = 0)) as Hview.
  { intros s' Eq' Hv u Hu0. destruct (Z.eq_dec u t) as [->|Hne]; [right; by rewrite Eq' | left; by apply Hv]. }
  destruct (Z.leb_spec g (aget 0 (cs_received_generation s) t)) as [Hrec|Hmiss].
  { exists (s1 <| cs_retx_queued_generation := aset s.(cs_retx_queued_generation) t 0 |>), []. rewrite app_nil_r.
    split; [reflexivity |]. split_and!; try done.
    - constructor; try done; unfold s1; tables_simpl.
      + by rewrite zlen_aset.
      + intros u Hr. specialize (P u Hr). destruct (Z.eq_dec u t) as [->|Hne]; [rewrite Ht; lia | rewrite Hu by lia; lia].
    - constructor; [done | intros; reflexivity |]. apply Hkept. intros; left; lia.
    - exists []. by rewrite app_nil_r.
    - apply Hview; [done |]. intros u Hne Hu0. unfold request_view, s1. tables_simpl. by rewrite Hu.
    - intros _ _ [? _]. lia. }
  destruct (inflight_recently s t g now || requested_recently s t g now) eqn:Erec.
  { eexists _, []. rewrite app_nil_r. split; [reflexivity |].
    assert (aset (aset (cs_retx_queued_generation s) t 0) t g = cs_retx_queued_generation s) as Eback
      by (rewrite aset_aset; by apply aset_same).
    split_and!; try done.
    - constructor; try done; unfold s1; tables_simpl; rewrite ?Eback; try done.
      + intros u Hr Hn. specialize (W u Hr Hn). apply in_or_app. destruct W as [->|?]; [right; by left | by left].
      + apply Forall_app. split; [done | by repeat constructor].
    - destruct Hak as [K1 K2]. constructor; [done |]. cbn. by rewrite Eback.
    - apply advances_same; done.
    - by eexists.
    - intros u Hu0. left. unfold request_view, s1. tables_simpl. by rewrite Eback.
    - intros _ _ (_ & Hi & Hr). rewrite Hi, Hr in Erec. done. }
  apply orb_false_iff in Erec as [Ei Er].
  eexists _, [_]. split; [reflexivity |]. split_and!; try done.
  - constructor; try done; unfold s1; tables_simpl.
    + rewrite !zlen_aset. done.
    + intros u Hr. specialize (P u Hr). destruct (Z.eq_dec u t) as [->|Hne]; [rewrite Ht; lia | rewrite Hu by lia; lia].
  - destruct Hak1 as [K1 K2]. destruct Hak as [_ K3]. constructor.
    + rewrite fmap_app. apply list.NoDup_app. split_and!; [done | | apply NoDup_singleton].
      intros u (r & -> & Hr)%list_elem_of_fmap Hr2. cbn in Hr2. apply list_elem_of_singleton in Hr2.
      rewrite list.Forall_forall in K3. destruct (K3 r Hr) as [_ K]. rewrite Hr2 in K. done.
    + apply Forall_app. split; [exact K2 |]. apply Forall_singleton. cbn. split; [lia | exact Ht].
  - constructor; [done | intros; reflexivity |]. apply Hkept. intros g' Hle. right. eexists. split; [by left | done].
  - exists []. by rewrite app_nil_r.
  - apply Hview; [done |]. intros u Hne Hu0. unfold request_view, s1. tables_simpl. rewrite Hu by done.
    by rewrite !aget_aset_ne by lia.
  - apply Forall_singleton. done.
  - intros _ _ _. eexists. split; [by left | done].
Qed.

(** Each round is one tile; [n] rounds ask for every askable tile among the
    first [n], and for nothing else. *)
Lemma flush_loop_ok now n : forall s entries,
  repair_ok s -> asked s entries -> (n <= length s.(cs_retx_queue))%nat ->
  exists s' new, flush_loop n now s entries = Some (s', entries ++ new) /\
    repair_ok s' /\ asked s' (entries ++ new) /\ s'.(cs_config) = s.(cs_config) /\ session_setup s' = session_setup s /\
    advances (tables s) (tables s') new /\
    Forall (fun r => r.(re_requested_generation) = aget 0 s.(cs_retx_queued_generation) r.(re_tile_id) /\
      askable s r.(re_tile_id) r.(re_requested_generation) now) new /\
    (forall t, In t (take n s.(cs_retx_queue)) -> t < s.(cs_config).(sc_total_tiles) ->
     aget 0 s.(cs_retx_queued_generation) t <> 0 -> askable s t (aget 0 s.(cs_retx_queued_generation) t) now ->
     requests new t (aget 0 s.(cs_retx_queued_generation) t)).
Proof.
  induction n as [|n IH]; intros s entries Hok Hak Hn.
  { exists s, []. rewrite app_nil_r. split_and!; try done. apply advances_refl. }
  destruct (cs_retx_queue s) as [|t rest] eqn:Eq; [cbn in Hn; lia |]. cbn [length] in Hn.
  assert (0 <= t) as Ht0.
  { pose proof (to_queue _ _ Hok) as U. tables_simpl. rewrite Eq in U. by apply list.Forall_cons in U as [? _]. }
  destruct (Z.ltb_spec (zlen entries) MAX_RETRANSMIT_ENTRIES_PER_MESSAGE) as [Hroom|Hfull].
  2:{ exists s, []. rewrite app_nil_r. split_and!; try done; [| apply advances_refl |].
    - cbn [flush_loop]. rewrite Eq, Z.geb_leb, (proj2 (Z.leb_le _ _)); done.
    - intros u Hu Hr Hq _. assert (0 <= u) as Hu0.
      { pose proof (to_queue _ _ Hok) as U. tables_simpl. rewrite Eq in U. rewrite list.Forall_forall in U. apply U.
        apply list_elem_of_In in Hu. apply elem_of_take in Hu as (i & Hi & _). by eapply list_elem_of_lookup_2. }
      pose proof (asked_room s entries u Hok Hak ltac:(lia) Hq). lia. }
  rewrite (flush_loop_step n now s entries t rest) by done.
  destruct (flush_tile_ok now s entries t rest Hok Hak Eq)
    as (s1 & new1 & -> & Hok1 & Hak1 & Hc1 & Hcc1 & A1 & (back & Eq1) & Hv1 & Hall1 & Hreq1).
  destruct (IH s1 (entries ++ new1) Hok1 Hak1) as (s2 & new2 & -> & Hok2 & Hak2 & Hc2 & Hcc2 & A2 & Hall2 & Hreq2).
  { rewrite Eq1, length_app. lia. }
  exists s2, (new1 ++ new2). rewrite app_assoc.
  assert (forall u, 0 <= u -> aget 0 s1.(cs_retx_queued_generation) u <> 0 -> request_view s1 u = request_view s u) as Hsame.
  { intros u Hu Hq. by destruct (Hv1 u Hu) as [?|[-> ?]]. }
  assert (forall u, request_view s1 u = request_view s u ->
    aget 0 s1.(cs_retx_queued_generation) u = aget 0 s.(cs_retx_queued_generation) u) as Hqueued
    by (intros u Hv; unfold request_view in Hv; congruence).
  split_and!; [done | done | done | congruence | congruence | by eapply advances_trans | |].
  - apply Forall_app. split.
    + eapply list.Forall_impl; [exact Hall1 |]. by intros r (-> & -> & ?).
    + pose proof (ak_tiles _ _ Hak2) as Hk. apply Forall_app in Hk as [_ Hk]. rewrite list.Forall_forall in *.
      intros r Hr. destruct (Hall2 r Hr) as [E1 E2]. destruct (Hk r Hr) as [K1 _].
      assert (request_view s1 r.(re_tile_id) = request_view s r.(re_tile_id)) as Hv.
      { apply Hsame; [lia |]. rewrite <- E1. destruct E2 as [E2 _].
        pose proof (to_tiles _ _ Hok1 r.(re_tile_id)) as Hp. tables_simpl. rewrite Hc1, <- Hc2, <- Hc1 in *. lia. }
      split; [rewrite E1; by apply Hqueued | by eapply askable_view; [symmetry; exact Hv |]].
  - intros u Hu Hr Hq Hask. cbn [take] in Hu. rewrite requests_app.
    destruct (Z.eq_dec u t) as [->|Hne]; [left; by apply Hreq1 |]. right.
    destruct Hu as [?|Hu]; [congruence |].
    assert (0 <= u) as Hu0.
    { pose proof (to_queue _ _ Hok) as U. tables_simpl. rewrite Eq in U. rewrite list.Forall_forall in U. apply U. right.
      apply list_elem_of_In in Hu. apply elem_of_take in Hu as (i & Hi & _). by eapply list_elem_of_lookup_2. }
    destruct (Hv1 u Hu0) as [Hv|[? _]]; [| done]. rewrite <- (Hqueued u Hv). apply Hreq2.
    + rewrite Eq1, take_app_le by lia. done.
    + by rewrite Hc1.
    + by rewrite (Hqueued u Hv).
    + rewrite (Hqueued u Hv). by eapply askable_view.
Qed.

(** What a flush answers: the message, if any, lists the entries. *)
Definition flushes (now : Z) (s s' : ClientState) (message : ptr (list Z)) (entries : list wd_tile_repair_entry) : Prop :=
  repair_ok s' /\ s'.(cs_config) = s.(cs_config) /\ session_setup s' = session_setup s /\
  advances (tables s) (tables s') entries /\
  message = (if null entries then NULL else
    Some (encode (mk_wd_tile_repair_request_payload_header s.(cs_config).(sc_session_id) s.(cs_config).(sc_connection_token)
      s.(cs_content).(cc_remote_content_epoch) (zlen entries)) ++ (entries ≫= encode))) /\
  base.NoDup (re_tile_id <$> entries) /\
  Forall (fun r => 0 <= r.(re_tile_id) < s.(cs_config).(sc_total_tiles) /\
    askable s r.(re_tile_id) r.(re_requested_generation) now) entries /\
  (forall t, 0 <= t < s.(cs_config).(sc_total_tiles) -> aget 0 s.(cs_retx_queued_generation) t <> 0 ->
   askable s t (aget 0 s.(cs_retx_queued_generation) t) now -> requests entries t (aget 0 s.(cs_retx_queued_generation) t)).

Lemma flush_ok s sent now :
  repair_ok s ->
  exists s' entries message,
    client_flush_retransmit_requests s true sent now = Some (s', entries, message, null entries || sent) /\
    flushes now s s' message entries.
Proof.
  intros Hok. unfold client_flush_retransmit_requests. cbn [negb]. rewrite (ensure_sized [] s Hok).
  destruct (flush_loop_ok now (length (cs_retx_queue s)) s [] Hok) as (s' & new & -> & Hok' & Hak & Hc & Hcc & A & Hall & Hreq);
    [by split; constructor | done |].
  cbn [mbind option_bind app] in *.
  assert (zlen new <= UINT16_MAX) as Hlen.
  { destruct Hak as [K1 K2]. pose proof (to_total _ _ Hok') as T. tables_simpl.
    assert (zlen (re_tile_id <$> new) <= sc_total_tiles (cs_config s')) as Hle.
    { apply NoDup_range; [lia | | done]. apply list.Forall_fmap. eapply list.Forall_impl; [exact K2 |]. by intros ? [? _]. }
    unfold zlen in *. rewrite length_fmap in Hle. lia. }
  assert (s'.(cs_content) = s.(cs_content)) as Hcontent by (unfold session_setup in Hcc; congruence).
  assert (forall s1 m, tables s1 = tables s' -> s1.(cs_config) = s'.(cs_config) -> session_setup s1 = session_setup s' ->
    m = (if null new then NULL else
      Some (encode (mk_wd_tile_repair_request_payload_header s.(cs_config).(sc_session_id) s.(cs_config).(sc_connection_token)
        s.(cs_content).(cc_remote_content_epoch) (zlen new)) ++ (new ≫= encode))) ->
    flushes now s s1 m new) as Hdone.
  { intros s1 m Et Ec Es Em. unfold flushes, repair_ok. rewrite Et, Ec, Es. split_and!; try done.
    - apply (ak_distinct _ _ Hak).
    - pose proof (ak_tiles _ _ Hak) as Hk. rewrite list.Forall_forall in *. intros r Hr.
      destruct (Hall r Hr) as [_ ?], (Hk r Hr) as [? _]. split; [by rewrite <- Hc | done].
    - intros t Ht Hq Hask. apply Hreq; [| lia | done | done]. rewrite firstn_all.
      apply (to_waiting _ _ Hok t Ht Hq). }
  destruct (null new) eqn:En.
  - do 3 eexists. split; [rewrite En; reflexivity |]. by apply Hdone.
  - do 3 eexists. split; [rewrite En; reflexivity |]. apply Hdone; [by destruct sent | by destruct sent | by destruct sent |].
    rewrite Hcontent, u16_small; [done |]. pose proof (zlen_nonneg new). split; lia.
Qed.

(** *** Completed tiles *)

(** [keeps s s']: the tables stay well formed and no tile is lost. *)
Definition keeps (s s' : ClientState) : Prop :=
  repair_ok s -> repair_ok s' /\ s'.(cs_config) = s.(cs_config) /\ advances (tables s) (tables s') [].

#[export] Instance keeps_preorder : PreOrder keeps.
Proof.
  split; [by intros s Hok; split_and!; [| | apply advances_refl] |]. intros a b c Hab Hbc Ha.
  destruct (Hab Ha) as (Hb & E1 & A1). destruct (Hbc Hb) as (Hc & E2 & A2).
  split_and!; [done | congruence | by eapply advances_step].
Qed.

Lemma keeps_same s s' : tables s' = tables s -> s'.(cs_config) = s.(cs_config) -> keeps s s'.
Proof. intros Et Ec Hok. unfold repair_ok. rewrite Et. split_and!; [done | done | apply advances_refl]. Qed.

Lemma raise_keeps s b g : 0 <= b -> keeps s (s <| cs_received_generation := raise_at s.(cs_received_generation) b g |>).
Proof.
  intros Hb [T S I C P W Q Z0 D U]. tables_simpl. unfold raise_at.
  destruct (Z.ltb_spec b (zlen (cs_received_generation s))) as [Hlt|]; cbn [andb];
    [| split_and!; [by constructor | done | by apply advances_same]].
  destruct (Z.gtb_spec g (aget 0 (cs_received_generation s) b)) as [Hg|];
    [| split_and!; [by constructor | done | by apply advances_same]].
  assert (forall u, 0 <= u -> aget 0 s.(cs_received_generation) u <= aget 0 (aset s.(cs_received_generation) b g) u) as Hle.
  { intros u Hu. at_tile u b; lia. }
  split_and!; [constructor; try done; tables_simpl | done | constructor; tables_simpl; [done | |]].
  - by rewrite zlen_aset.
  - intros u Hu. specialize (P u Hu). specialize (Hle u ltac:(lia)). lia.
  - intros u Hu. apply Hle. lia.
  - intros u g' Hu Hg' Htr. by right; left.
Qed.

Lemma forget_queued_keeps s b : 0 <= b < s.(cs_config).(sc_total_tiles) ->
  keeps s (forget_queued s b (aget 0 s.(cs_received_generation) b)).
Proof.
  intros Hb Hok. unfold forget_queued. case_if; [| by apply keeps_same]. bool_cases.
  destruct Hok as [T S I C P W Q Z0 D U]. tables_simpl.
  split_and!; [constructor; try done; tables_simpl | done | constructor; tables_simpl; [done | intros; lia |]].
  - by rewrite zlen_aset.
  - intros u Hu. pose proof (P u Hu). at_tile u b; lia.
  - intros u Hu. at_tile u b; [done |]. by apply W.
  - intros u g' Hu Hg' Htr. unfold tracked in *. tables_simpl. at_tile u b; [| by right; left].
    destruct Htr; [by right; left; left | left; lia].
Qed.

Lemma forget_marks_keep s b r : 0 <= b < s.(cs_config).(sc_total_tiles) ->
  keeps s (forget_inflight s b r) /\ keeps s (forget_requested s b r).
Proof.
  intros Hb. split; intros Hok; [unfold forget_inflight | unfold forget_requested]; (case_if; [| by apply keeps_same]);
    pose proof Hok as [T S I C P W Q Z0 D U]; tables_simpl; destruct_and!;
    (split_and!; [| done | by apply advances_same]); (constructor; try done; tables_simpl);
    rewrite (proj2 (Z.ltb_lt _ _)) by lia; rewrite !zlen_aset; split_and!; done.
Qed.

Lemma clear_slot s t :
  t < zlen s.(cs_retx_summary_pending_generation) -> t < zlen s.(cs_retx_summary_pending_since_ns) ->
  t < zlen s.(cs_retx_summary_pending_position) ->
  clear_summary_pending_locked s t =
  let s1 := set_pending_index s (summary_pending_index_remove s.(cs_retx_summary_pending_tiles)
              s.(cs_retx_summary_pending_position) t) in
  update_pending_count
    (s1 <| cs_retx_summary_pending_generation := aset s.(cs_retx_summary_pending_generation) t 0 |>
        <| cs_retx_summary_pending_since_ns := aset s.(cs_retx_summary_pending_since_ns) t 0 |>).
Proof.
  intros H1 H2 H3. unfold clear_summary_pending_locked, pending_slot.
  by rewrite (proj2 (Z.ltb_lt _ _) H1), (proj2 (Z.ltb_lt _ _) H2), (proj2 (Z.ltb_lt _ _) H3).
Qed.

Lemma counted_keeps counter `{!FieldSetter counter} n s : keeps s (fetch_add counter n s).
Proof. by apply keeps_same. Qed.

Lemma forget_pending_clears s b r :
  b < zlen s.(cs_retx_summary_pending_since_ns) -> b < zlen s.(cs_retx_summary_pending_position) -> u16 b = b ->
  forget_pending s b r =
  if (b <? zlen s.(cs_retx_summary_pending_generation)) && negb (aget 0 s.(cs_retx_summary_pending_generation) b =? 0) &&
     (aget 0 s.(cs_retx_summary_pending_generation) b <=? r)
  then fetch_add st_summary_retx_tiles_stale_dropped 1 (clear_summary_pending_locked s b) else s.
Proof.
  intros H1 H2 Hb. unfold forget_pending. cbv zeta. case_if; [| done]. bool_cases. rewrite Hb, clear_slot by lia.
  cbn [cs_retx_summary_pending_since_ns set_pending_index set_field]. by rewrite (proj2 (Z.ltb_lt _ _) H1).
Qed.

Lemma forget_pending_keeps s b : 0 <= b < s.(cs_config).(sc_total_tiles) ->
  keeps s (forget_pending s b (aget 0 s.(cs_received_generation) b)).
Proof.
  intros Hb Hok. pose proof (to_sizes _ _ Hok) as S. pose proof (to_total _ _ Hok) as T.
  cbn [tables rt_total rt_since rt_positions] in S, T. destruct_and!.
  rewrite forget_pending_clears by (rewrite ?u16_small; mlia).
  case_if; [| by apply keeps_same]. bool_cases.
  destruct (clear_pending_ok [] s b 1) as (Hok2 & A2 & _); [| done |].
  - apply (held_mono []); [by intros ? [] | | exact Hok]. intros ? [<-|[]]. right. cbn. lia.
  - destruct (counted_keeps st_summary_retx_tiles_stale_dropped 1 (clear_summary_pending_locked s b) Hok2) as (K1 & K2 & K3).
    split_and!; [done | etrans; [exact K2 | apply clear_pending_frame] |].
    eapply advances_step; [apply A2; lia | exact K3].
Qed.

Lemma mark_base_keeps s g b : 0 <= b < s.(cs_config).(sc_total_tiles) -> keeps s (mark_base_generation g s b).
Proof.
  intros Hb. unfold mark_base_generation. set (s1 := s <| cs_received_generation := _ |> <| cs_content := _ |>).
  assert (keeps s s1) as H1 by (etrans; [apply (raise_keeps s b g); lia | by apply keeps_same]).
  etrans; [exact H1 |]. change (cs_config s) with (cs_config s1) in Hb. clearbody s1. clear H1.
  unfold clear_completed_repair_tracking_locked. case_if; [done |].
  set (r := aget 0 (cs_received_generation s1) b).
  set (s2 := forget_queued s1 b r). set (s3 := forget_inflight s2 b r). set (s4 := forget_requested s3 b r).
  assert (cs_config s2 = cs_config s1 /\ cs_config s3 = cs_config s1 /\ cs_config s4 = cs_config s1 /\
    cs_received_generation s4 = cs_received_generation s1) as (E2 & E3 & E4 & Er).
  { unfold s4, s3, s2, forget_queued, forget_inflight, forget_requested. by repeat case_if. }
  transitivity s2; [by apply forget_queued_keeps |].
  transitivity s3; [by apply forget_marks_keep; rewrite E2 |].
  transitivity s4; [by apply forget_marks_keep; rewrite E3 |].
  unfold r. rewrite <- Er. apply forget_pending_keeps. by rewrite E4.
Qed.

Lemma completed_base_range config completed b : 0 <= config.(sc_total_tiles) <= UINT16_MAX ->
  In b (completed_base_tiles config completed) -> 0 <= b < config.(sc_total_tiles).
Proof.
  intros Ht. unfold completed_base_tiles. cbv zeta. do 3 (case_if; [by intros [] |]).
  rewrite <- list_elem_of_In. intros (v & -> & Hv)%list_elem_of_fmap. apply list_elem_of_In, filter_In in Hv as [Hin Hlt].
  bool_cases. assert (0 <= v) as Hv.
  { apply list_elem_of_In, list_elem_of_bind in Hin as (y & (x & -> & _)%list_elem_of_fmap & _). apply u32_range. }
  rewrite u16_small by mlia. lia.
Qed.

Lemma mark_completed_keeps s completed : keeps s (mark_completed_base_generations s completed).
Proof.
  intros Hok. unfold mark_completed_base_generations.
  assert (0 <= s.(cs_config).(sc_total_tiles) <= UINT16_MAX) as T by apply (to_total _ _ Hok).
  pose proof (fun b => completed_base_range s.(cs_config) completed b T) as Hr.
  revert Hok. change (keeps s (fold_left (mark_base_generation (ct_generation completed))
    (completed_base_tiles (cs_config s) completed) s)).
  remember (cs_config s) as config eqn:Ec. assert (cs_config s = config) as Ec' by done. clear Ec T.
  revert s Ec'. induction (completed_base_tiles config completed) as [|b l IH]; intros s Ec; cbn [fold_left]; [done |].
  assert (keeps s (mark_base_generation (ct_generation completed) s b)) as Hk
    by (apply mark_base_keeps; rewrite Ec; apply Hr; by left).
  intros Hok. destruct (Hk Hok) as (Hok1 & Ec1 & A1).
  destruct (IH (fun b' Hb' => Hr b' (or_intror Hb')) _ (eq_trans Ec1 Ec) Hok1) as (Hok2 & Ec2 & A2).
  split_and!; [done | congruence | by eapply advances_step].
Qed.

(** ** The history of the tables *)

(** The reassembler's part: it only adds requests. *)
Lemma reassembly_keeps s s' : same_view s s' -> keeps s s'.
Proof.
  intros (Ec & Er & _ & Ea & Hrep) Hok. pose proof Hok as [T S I C P W Q Z0 D U]. unfold announced in Ea.
  injection Ea as A1 A2 A3 A4 A5 A6. pose proof S as (S1 & S2 & S3 & S4 & S5 & S6 & S7 & S8 & S9).
  destruct Hrep as [K1 K2 K3 (extra & K4 & K5) K6]; [exact (conj S2 (conj S3 (conj S4 (conj S5 S6)))) |].
  unfold view_sized in K2. cbn [repair_view_of rv_total rv_queue rv_queued rv_requested rv_inflight] in *. tables_simpl.
  destruct K2 as (? & ? & ? & ? & ?). split_and!; [constructor; tables_simpl | done | constructor; tables_simpl].
  - by rewrite Ec.
  - rewrite Er, A1, A2, A4. rewrite Ec in *. by split_and!.
  - by rewrite A3, A4.
  - by rewrite A6, A3.
  - rewrite Ec, Er, A1. intros t Ht. destruct (P t Ht) as (? & ? & ?), (K6 t Ht). split_and!; lia.
  - rewrite Ec. intros t Ht Hn. destruct (K6 t Ht) as [_ K]. destruct (K Hn); [| done].
    rewrite K4. apply in_or_app. left. by apply W.
  - rewrite Ec, A1, A2, A3, A5. done.
  - rewrite A1, A3. done.
  - rewrite A5. done.
  - rewrite K4. by apply Forall_app.
  - by rewrite Ec.
  - rewrite Er. done.
  - intros t g Ht Hg. unfold tracked. tables_simpl. rewrite A1. destruct (K6 t Ht). intros [?|?]; right; left; [by left | right; lia].
Qed.

(** The entries of a summary that passes every test of the client. *)
Definition summary_accepted (s : ClientState) (payload : list Z) : option (list wd_tile_generation_entry) :=
  summary ← decode (A := wd_tile_summary_payload_header) payload;
  let total_tiles := s.(cs_config).(sc_total_tiles) in
  let entries := summary_payload_entries payload summary.(ts_tile_count) in
  if wd_counted_payload_size_is_valid (zlen payload) (sizeof wd_tile_summary_payload_header)
       summary.(ts_tile_count) (sizeof wd_tile_generation_entry) &&
     negb (outside summary.(ts_flags) WD_TILE_SUMMARY_FLAG_MASK) &&
     (summary.(ts_session_id) =? s.(cs_config).(sc_session_id)) &&
     (summary.(ts_connection_token) =? s.(cs_config).(sc_connection_token)) &&
     wd_tile_summary_count_is_valid summary.(ts_flags) summary.(ts_tile_count) total_tiles &&
     forallb (fun entry => entry.(tg_tile_id) <? total_tiles) entries &&
     negb (bool_decide ((client_accept_content_epoch s summary.(ts_content_epoch) WD_CLIENT_CONTENT_OWNER_TILES).2 = Stale))
  then Some entries else None.

Lemma summary_entries_range payload count entries :
  bytes_ok payload -> entries = summary_payload_entries payload count ->
  Forall (fun e => 0 <= e.(tg_tile_id) /\ 0 <= e.(tg_tile_generation)) entries.
Proof.
  intros Hb ->. unfold summary_payload_entries. rewrite list.Forall_forall. intros e (i & _ & Hd)%list_elem_of_omap.
  apply encode_decode in Hd as [_ [Hf _]]; [| unfold slice; by apply Forall_take, Forall_drop]. cbn in Hf.
  inversion_clear Hf as [| ? ? ? ? [? _] Hf']. by inversion_clear Hf' as [| ? ? ? ? [? _] _].
Qed.

(** A summary that is not accepted changes no table. *)
Lemma summary_handled s payload now :
  repair_ok s -> bytes_ok payload -> now <> 0 ->
  let s' := queue_retransmits_from_summary sort_candidates s payload now in
  repair_ok s' /\ s'.(cs_config) = s.(cs_config) /\
  match summary_accepted s payload with
  | None => advances (tables s) (tables s') []
  | Some entries => summary_current s entries ->
      advances (tables s) (tables s') [] /\
      Forall (fun e => 0 <= e.(tg_tile_id) < s.(cs_config).(sc_total_tiles) /\ entry_accounted (tables s') e) entries
  end.
Proof.
  intros Hok Hb Hnow. unfold queue_retransmits_from_summary, summary_accepted.
  assert (forall s0, tables s0 = tables s -> s0.(cs_config) = s.(cs_config) ->
    repair_ok s0 /\ s0.(cs_config) = s.(cs_config) /\ advances (tables s) (tables s0) []) as Hsame.
  { intros s0 Et Ec. by apply keeps_same. }
  destruct (decode payload) as [summary|]; cbn [mbind option_bind]; [| by apply Hsame].
  set (total := sc_total_tiles (cs_config s)). set (entries := summary_payload_entries payload _).
  pose proof (summary_entries_range _ _ entries Hb eq_refl) as Hrange.
  destruct (wd_counted_payload_size_is_valid _ _ _ _); cbn [negb orb andb]; [| by apply Hsame].
  destruct (outside _ _); cbn [negb orb andb]; [by apply Hsame |].
  destruct (_ =? sc_session_id _); cbn [negb orb andb]; [| by apply Hsame].
  destruct (_ =? sc_connection_token _); cbn [negb orb andb]; [| by apply Hsame].
  destruct (wd_tile_summary_count_is_valid _ _ _) eqn:Ecount; cbn [negb orb andb]; [| by apply Hsame].
  destruct (forallb _ entries) eqn:Eall; cbn [negb orb andb]; [| by apply Hsame].
  pose proof (accept_cases s summary.(ts_content_epoch) WD_CLIENT_CONTENT_OWNER_TILES) as Hcase.
  destruct (client_accept_content_epoch _ _ _) as [s1 decision]. cbn [snd].
  assert (tables s1 = tables s /\ s1.(cs_config) = s.(cs_config)) as [Et Ec].
  { destruct decision; [by subst s1 | by destruct Hcase as [-> _] | by destruct Hcase as [-> _]]. }
  case_bool_decide as Estale; cbn [negb]; [by apply Hsame |].
  assert (Forall (fun e => e.(tg_tile_id) < total) entries) as Hlt.
  { rewrite list.Forall_forall. intros e He. rewrite forallb_forall in Eall. apply Z.ltb_lt, Eall. by apply list_elem_of_In. }
  assert (summary_in_range s1 entries) as Hr1.
  { unfold summary_in_range. rewrite Ec. rewrite list.Forall_forall in *. intros e He. specialize (Hlt e He).
    destruct (Hrange e He). unfold total in *. lia. }
  assert (repair_ok s1) as Hok1 by (unfold repair_ok; by rewrite Et).
  destruct (Z.eq_dec total 0) as [Ez|Hnz].
  { assert (announce_tiles sort_candidates s1 entries total now = s1) as ->
      by (unfold announce_tiles; by rewrite Ez).
    destruct (Hsame s1 Et Ec) as (? & ? & ?). split_and!; [done | done |]. intros _. split; [done |].
    rewrite list.Forall_forall in *. intros e He. specialize (Hlt e He). destruct (Hrange e He). lia. }
  unfold total in *. rewrite <- Ec in Hnz |- *.
  destruct (announce_tiles_ok s1 entries now Hok1 Hnow Hnz Hr1) as (H1 & [H2 _] & H3).
  split_and!; [done | done |]. intros Hcur. rewrite <- Et.
  assert (summary_current s1 entries) as Hcur1.
  { unfold summary_current in *. change (cs_retx_summary_pending_generation s1) with (rt_pending (tables s1)). by rewrite Et. }
  destruct (H3 Hcur1) as [A Hacc]. split; [done |]. unfold summary_in_range in Hr1. rewrite list.Forall_forall in *. intros e He.
  split; [by apply Hr1 | by apply Hacc].
Qed.

(** A step of the receiver, with the entries it asked the server for.  Summaries
    list no tile twice and no generation older than the announced one.  A
    request that cannot be sent ends the session and is no step. *)
Inductive repair_step : ClientState -> ClientState -> list wd_tile_repair_entry -> Prop :=
  | step_summary s payload now :
      bytes_ok payload -> now <> 0 ->
      (forall entries, summary_accepted s payload = Some entries -> summary_current s entries) ->
      repair_step s (queue_retransmits_from_summary sort_candidates s payload now) []
  | step_promote s now :
      repair_step s (client_promote_deferred_summary_retransmits sort_candidates s now) []
  | step_flush s s' entries message now :
      client_flush_retransmit_requests s true true now = Some (s', entries, message, true) ->
      repair_step s s' entries
  | step_reassembly s s' : same_view s s' -> repair_step s s' []
  | step_completed s completed : repair_step s (mark_completed_base_generations s completed) [].

Inductive repair_run : ClientState -> ClientState -> list wd_tile_repair_entry -> Prop :=
  | run_nil s : repair_run s s []
  | run_step s1 s2 s3 r1 r2 : repair_step s1 s2 r1 -> repair_run s2 s3 r2 -> repair_run s1 s3 (r1 ++ r2).

Lemma repair_step_ok s s' r : repair_step s s' r ->
  repair_ok s -> repair_ok s' /\ s'.(cs_config) = s.(cs_config) /\ advances (tables s) (tables s') r.
Proof.
  intros Hs. destruct Hs as [s payload now Hb Hnow Hcur | s now | s s' entries message now Hf | s s' Hv | s completed]; intros Hok.
  - destruct (summary_handled s payload now Hok Hb Hnow) as (H1 & H2 & H3).
    destruct (summary_accepted s payload) as [entries|]; [| done]. by destruct (H3 (Hcur entries eq_refl)) as [? _].
  - destruct (promote_ok s now Hok) as (H1 & H2 & [H3 _] & _). done.
  - destruct (flush_ok s true now Hok) as (s2 & e2 & m2 & E & H1 & H2 & _ & H3 & _). rewrite Hf in E. by injection E as <- <- _ _.
  - by apply reassembly_keeps.
  - by apply mark_completed_keeps.
Qed.

Lemma repair_run_ok s s' r : repair_run s s' r ->
  repair_ok s -> repair_ok s' /\ s'.(cs_config) = s.(cs_config) /\ advances (tables s) (tables s') r.
Proof.
  induction 1 as [s | s1 s2 s3 r1 r2 Hs _ IH]; intros Hok; [split_and!; [done | done | apply advances_refl] |].
  destruct (repair_step_ok _ _ _ Hs Hok) as (Hok2 & E2 & A2). destruct (IH Hok2) as (Hok3 & E3 & A3).
  split_and!; [done | congruence | by eapply advances_trans].
Qed.

(** C23: Every tile a current summary lists is, after any further
    run of the receiver (summaries, promotions, flushed requests, reassembled
    packets, completed tiles), received in the listed generation, still tracked,
    or among the requests sent to the server; and the tables stay well formed. *)
Theorem announced_tiles_requested s payload now entries e s' sent :
  repair_ok s -> bytes_ok payload -> now <> 0 ->
  summary_accepted s payload = Some entries -> summary_current s entries -> e ∈ entries -> 0 < e.(tg_tile_generation) ->
  repair_run (queue_retransmits_from_summary sort_candidates s payload now) s' sent ->
  repair_ok s' /\
  (e.(tg_tile_generation) <= aget 0 s'.(cs_received_generation) e.(tg_tile_id) \/
   tracked (tables s') e.(tg_tile_id) e.(tg_tile_generation) \/
   requests sent e.(tg_tile_id) e.(tg_tile_generation)).
Proof.
  intros Hok Hb Hnow Hacc Hcur He Hg Hrun. destruct (summary_handled s payload now Hok Hb Hnow) as (Hok1 & Hc1 & H1).
  rewrite Hacc in H1. destruct (H1 Hcur) as [_ Hall]. rewrite list.Forall_forall in Hall. destruct (Hall e He) as [Hr Hent].
  destruct (repair_run_ok _ _ _ Hrun Hok1) as (Hok2 & _ & [At Ar Ak]). split; [done |].
  cbn [tables rt_total] in At, Ar, Ak. rewrite <- Hc1 in Hr.
  destruct (Hent Hg) as [Hrec|Htr]; [left | by apply Ak]. etrans; [exact Hrec | by apply Ar].
Qed.

Lemma not_within now since limit :
  0 <= since -> now < UINT64_MAX -> since <> 0 -> due_after since limit <= now -> within_ns now since limit = false.
Proof.
  intros H0 H1 H2 H3. pose proof (due_after_later _ _ _ H3 H1) as H4. unfold within_ns.
  rewrite (proj2 (Z.eqb_neq _ _)) by done. cbn [negb andb]. apply Z.ltb_ge.
  destruct (Z.le_gt_cases limit 0) as [|Hl]; [etrans; [eassumption | apply u64_range] |]. rewrite u64_small by mlia. lia.
Qed.

Lemma due_askable s t g q now :
  Forall (Z.le 0) s.(cs_retx_inflight_since_ns) -> Forall (Z.le 0) s.(cs_retx_last_request_ns) -> now < UINT64_MAX ->
  tile_due s t g now -> g <= q -> askable s t q now.
Proof.
  intros P1 P2 Hnow (Ht & Hg & _ & Hrec & Hdue) Hq. split; [lia |].
  assert (forall l, Forall (Z.le 0) l -> 0 <= aget 0 l t) as Hpos.
  { intros l Hl. unfold aget. destruct (nth_in_or_default (Z.to_nat t) l 0) as [Hin | ->]; [| done].
    rewrite list.Forall_forall in Hl. apply Hl. by apply list_elem_of_In. }
  unfold retry_due in Hdue. cbv zeta in Hdue. unfold inflight_recently, requested_recently.
  set (inf := aget 0 (cs_retx_inflight_generation s) t) in *. set (req := aget 0 (cs_retx_last_requested_generation s) t) in *.
  split.
  - destruct (Z.geb_spec inf q) as [Hi|]; [| done]. cbn [andb].
    destruct (Z.eq_dec (aget 0 (cs_retx_inflight_since_ns s) t) 0) as [E|E]; [unfold within_ns; by rewrite E |].
    apply not_within; [by apply Hpos | done | done |].
    rewrite (Z.geb_leb inf g), (proj2 (Z.leb_le g inf)), (proj2 (Z.eqb_neq _ _) E) in Hdue by lia. cbn [andb negb] in Hdue.
    case_if_in Hdue; lia.
  - destruct (Z.geb_spec req q) as [Hi|]; [| done]. cbn [andb].
    destruct (Z.eq_dec (aget 0 (cs_retx_last_request_ns s) t) 0) as [E|E]; [unfold within_ns; by rewrite E |].
    apply not_within; [by apply Hpos | done | done |].
    rewrite (Z.geb_leb req g), (proj2 (Z.leb_le g req)), (proj2 (Z.eqb_neq _ _) E) in Hdue by lia. cbn [andb negb] in Hdue. lia.
Qed.

(** C24: A tracked tile is asked for once its time has come: when
    few tiles wait and every entry of the due queue is due, promotion followed by
    a flush sends a message whose entries include every tile that is missing and
    past its waiting times, in the announced generation or a newer one. *)
Theorem due_tile_requested s t g now :
  repair_ok s -> now < UINT64_MAX ->
  Forall (Z.le 0) s.(cs_retx_inflight_since_ns) -> Forall (Z.le 0) s.(cs_retx_last_request_ns) ->
  few_waiting s -> Forall (fun d => d.(rd_due_ns) <= now) s.(cs_retx_summary_due_queue) -> tile_due s t g now ->
  exists s' entries message,
    client_flush_retransmit_requests (client_promote_deferred_summary_retransmits sort_candidates s now) true true now =
      Some (s', entries, Some message, true) /\
    message = encode (mk_wd_tile_repair_request_payload_header s.(cs_config).(sc_session_id) s.(cs_config).(sc_connection_token)
      (client_promote_deferred_summary_retransmits sort_candidates s now).(cs_content).(cc_remote_content_epoch) (zlen entries)) ++ (entries ≫= encode) /\
    requests entries t g.
Proof.
  intros Hok Hnow P1 P2 Hfew Hall Hdue. destruct (promote_ok s now Hok) as (Hok1 & _ & Hf & Hq).
  pose proof (proj1 Hf) as Hc1.
  fold (client_promote_deferred_summary_retransmits sort_candidates s now) in *.
  set (s1 := client_promote_deferred_summary_retransmits sort_candidates s now) in *. clearbody s1.
  pose proof (Hq Hfew Hall t g Hdue) as Hge. set (q := aget 0 (cs_retx_queued_generation s1) t) in *.
  assert (askable s1 t q now) as Hask.
  { pose proof (due_askable s t g q now P1 P2 Hnow Hdue Hge) as Hask. destruct Hf as (_ & E2 & E3 & E4 & E5 & E6 & E7 & E8 & E9 & _).
    unfold askable, inflight_recently, requested_recently, retransmit_inflight_grace_ns_locked,
      retransmit_request_interval_ns, udp_gap_pressure_ns in *. by rewrite E2, E3, E4, E5, E6, E7, E8, E9. }
  destruct (flush_ok s1 true now Hok1) as (s' & entries & message & Ef & _ & _ & _ & _ & Em & _ & _ & Hreq).
  destruct Hdue as (Ht & Hg & _). rewrite <- Hc1 in Ht.
  destruct (Hreq t Ht ltac:(fold q; lia) Hask) as (r & Hin & Er & Eg). fold q in Eg.
  destruct entries as [|e0 entries]; [done |]. cbn [null orb] in Ef, Em. exists s', (e0 :: entries). eexists. rewrite Ef, Em, Hc1.
  split_and!; [reflexivity | reflexivity |]. exists r. split_and!; [done | done | lia].
Qed.

End sorted.

(** *** A state without announcements *)

Lemma index_empty n : 0 <= n <= UINT16_MAX -> index_ok [] (replicate (Z.to_nat n) UINT32_MAX).
Proof.
  intros Hn. assert (zlen (replicate (Z.to_nat n) UINT32_MAX) = n) as Hz by (unfold zlen; rewrite length_replicate; lia).
  constructor; [rewrite Hz; mlia | constructor | apply base.NoDup_nil_2 |]. intros t Ht. left. split; [| by apply not_elem_of_nil].
  rewrite Hz in Ht. unfold aget. rewrite nth_lookup. by rewrite lookup_replicate_2 by lia.
Qed.

(** The tables as a new configuration leaves them; old entries of the due queue
    are harmless. *)
Lemma fresh_tables_ok s n :
  0 <= n <= UINT16_MAX -> n = s.(cs_config).(sc_total_tiles) ->
  let zeros := replicate (Z.to_nat n) 0 in
  s.(cs_received_generation) = zeros -> s.(cs_retx_queue) = [] -> s.(cs_retx_queued_generation) = zeros ->
  s.(cs_retx_last_requested_generation) = zeros -> s.(cs_retx_last_request_ns) = zeros ->
  s.(cs_retx_inflight_generation) = zeros -> s.(cs_retx_inflight_since_ns) = zeros ->
  s.(cs_retx_summary_pending_generation) = zeros -> s.(cs_retx_summary_pending_since_ns) = zeros ->
  s.(cs_retx_summary_pending_tiles) = [] -> s.(cs_retx_summary_pending_position) = replicate (Z.to_nat n) UINT32_MAX ->
  s.(cs_retx_summary_pending_count) = 0 ->
  Forall (fun d => 0 <= d.(rd_tile_id) /\ 0 < d.(rd_generation)) s.(cs_retx_summary_due_queue) -> repair_ok s.
Proof.
  intros Hn En zeros E1 E2 E3 E4 E5 E6 E7 E8 E9 E10 E11 E12 Hdue.
  assert (forall v : Z, zlen (replicate (Z.to_nat n) v) = n) as Hz by (intros; unfold zlen; rewrite length_replicate; lia).
  assert (forall t, aget 0 zeros t = 0) as H0 by (intros; apply aget_replicate).
  constructor; tables_simpl; rewrite <- ?En, ?E1, ?E2, ?E3, ?E4, ?E5, ?E6, ?E7, ?E8, ?E9, ?E10, ?E11, ?E12.
  - done.
  - unfold zeros. rewrite !Hz. by split_and!.
  - by apply index_empty.
  - done.
  - intros t _. by rewrite H0.
  - intros t _. by rewrite H0.
  - intros t _. by rewrite H0.
  - intros t Ht. by apply not_elem_of_nil in Ht.
  - rewrite app_nil_r. intros t g Hin. apply in_map_iff in Hin as (d & [= <- <-] & Hin).
    rewrite list.Forall_forall in Hdue. apply Hdue. by apply list_elem_of_In.
  - constructor.
Qed.

Definition demo_state : ClientState := ensure_retransmit_tracking_locked sample_state 8.
Definition demo_summary : list Z :=
  encode (mk_wd_tile_summary_payload_header 3 99 7 0 1 WD_TILE_SUMMARY_DELTA) ++ encode (mk_wd_tile_generation_entry 5 9).
Definition demo_no_sort (l : list SummaryRepairCandidate) : list SummaryRepairCandidate := l.
Definition demo_later : Z := 5000000000.

Local Notation demo_announced := (queue_retransmits_from_summary demo_no_sort demo_state demo_summary 1000).
Local Notation demo_promoted := (client_promote_deferred_summary_retransmits demo_no_sort demo_announced demo_later).

Definition demo_sent : bool :=
  match client_flush_retransmit_requests demo_promoted true true demo_later with
  | Some (_, _, _, ok) => ok
  | None => false
  end.

Lemma demo_flushes : exists s' entries message,
  client_flush_retransmit_requests demo_promoted true true demo_later = Some (s', entries, message, true).
Proof.
  assert (demo_sent = true) as Hs by (vm_compute; reflexivity). unfold demo_sent in Hs.
  destruct (client_flush_retransmit_requests _ _ _ _) as [[[[s' entries] message] ok]|]; [| done].
  subst ok. eauto.
Qed.

Lemma demo_state_ok : repair_ok demo_state.
Proof. by apply (fresh_tables_ok demo_state 8 ltac:(mlia)). Qed.

Lemma demo_summary_bytes : bytes_ok demo_summary.
Proof. unfold demo_summary, bytes_ok. apply Forall_app. split; apply encode_ok. Qed.

Lemma announced_tiles_requested_witness :
  exists s' sent, repair_run demo_no_sort demo_announced s' sent /\ repair_ok s' /\
  (9 <= aget 0 s'.(cs_received_generation) 5 \/ tracked (tables s') 5 9 \/ requests sent 5 9).
Proof.
  destruct demo_flushes as (s' & entries & message & E). exists s', ([] ++ entries ++ []).
  assert (repair_run demo_no_sort demo_announced s' ([] ++ entries ++ [])) as Hrun.
  { refine (run_step demo_no_sort _ _ s' [] _ (step_promote demo_no_sort _ demo_later) _).
    refine (run_step demo_no_sort _ s' s' entries [] (step_flush demo_no_sort _ s' entries message demo_later E) (run_nil _ s')). }
  split; [exact Hrun |].
  refine (announced_tiles_requested demo_no_sort (fun l => Permutation_refl l) demo_state demo_summary 1000
    [mk_wd_tile_generation_entry 5 9] (mk_wd_tile_generation_entry 5 9) s' _ demo_state_ok demo_summary_bytes _ _ _ _ _ Hrun).
  - lia.
  - vm_compute. reflexivity.
  - split; [apply NoDup_singleton | apply Forall_singleton; vm_compute; discriminate].
  - by left.
  - vm_compute. reflexivity.
Defined.

Lemma demo_announced_ok : repair_ok demo_announced.
Proof.
  destruct (summary_handled demo_no_sort (fun l => Permutation_refl l) demo_state demo_summary 1000 demo_state_ok demo_summary_bytes)
    as (H & _); [lia | exact H].
Qed.

Lemma demo_due : tile_due demo_announced 5 9 demo_later /\ few_waiting demo_announced.
Proof. unfold tile_due, few_waiting. split_and!; vm_compute; try reflexivity; discriminate. Qed.

Lemma due_tile_requested_witness :
  exists s' entries message,
  client_flush_retransmit_requests demo_promoted true true demo_later = Some (s', entries, Some message, true) /\
  requests entries 5 9.
Proof.
  destruct (due_tile_requested demo_no_sort (fun l => Permutation_refl l) demo_announced 5 9 demo_later)
    as (s' & entries & message & E & _ & Hr).
  - exact demo_announced_ok.
  - vm_compute. reflexivity.
  - eapply bool_decide_unpack. vm_compute. exact I.
  - eapply bool_decide_unpack. vm_compute. exact I.
  - apply demo_due.
  - eapply bool_decide_unpack. vm_compute. exact I.
  - apply demo_due.
  - exists s', entries, message. split; [exact E | exact Hr].
Defined.
