(* ===== verification/ClientConfig.v ===== *)
(** * The client's configuration

    src/client/client_config_validation.cpp, the configuration messages of
    client_net.cpp ([receive_server_config], [store_server_config_update], the
    tables of [client_connect]) and the state part of
    [apply_pending_server_config] in sdl_viewer.cpp.  The server's configuration
    says how large the display is and how it is tiled; every table of the
    receiver is sized by it.

    [session_ok] is the type of a session's state: the tables agree with a
    configuration that passed the validation.  [configuration_well_formed]: every
    way of taking over a configuration keeps it.  Textures, sockets and messages
    to the server are inputs that say whether the step worked; where the
    code releases its locks other threads may act, which function arguments stand
    for. *)
From S2P Require Import Prelude CFloat Wire Config Structs Payload TileGrid RenderPlanning ClientOwnership PresentQueue ClientState ContentOrder UdpTile TileReassembly ClientRepair.

(** ** Validation *)

Inductive ClientConfigValidationError :=
  | NoConfigError
  | MissingSession
  | MissingConnectionIdentity
  | MissingConfigurationEpoch
  | UnsupportedDisplayDimensions
  | UnsupportedFramebufferSize
  | UnsupportedTileGeometry
  | InconsistentTileGrid
  | UnsupportedPixelFormat
  | UnsupportedCompression
  | InvalidCapabilities
  | ServerConfigOutsideOffer
  | InvalidUdpPayloadTarget.
#[export] Instance ClientConfigValidationError_eq_dec : EqDecision ClientConfigValidationError.
Proof. solve_decision. Defined.

#[export] Instance wd_server_config_payload_eta : Eta wd_server_config_payload := fun s =>
  mk_wd_server_config_payload
    s.(sc_session_id) s.(sc_connection_token) s.(sc_config_epoch) s.(sc_content_epoch) s.(sc_server_udp_port)
    s.(sc_width) s.(sc_height) s.(sc_tile_width) s.(sc_tile_height) s.(sc_tiles_x) s.(sc_tiles_y) s.(sc_total_tiles)
    s.(sc_pixel_format) s.(sc_compression_mode) s.(sc_zstd_level) s.(sc_udp_payload_target) s.(sc_capabilities)
    s.(sc_video_codecs) s.(sc_video_transport) s.(sc_media_clock_id) s.(sc_audio_codec) s.(sc_audio_transport)
    s.(sc_audio_sample_rate) s.(sc_audio_channels) s.(sc_audio_reserved) s.(sc_audio_frame_samples)
    s.(sc_audio_target_latency_ms) s.(sc_audio_bitrate) s.(sc_link_rtt_ms) s.(sc_summary_retransmit_grace_ms)
    s.(sc_retransmit_request_interval_ms) s.(sc_retransmit_inflight_grace_ms) s.(sc_tile_reassembly_timeout_ms)
    s.(sc_active_summary_interval_ms) s.(sc_clean_summary_interval_ms).
#[export] Instance wd_server_config_payload_eq_dec : EqDecision wd_server_config_payload.
Proof. solve_decision. Defined.

Definition audio_fields_valid (config : wd_server_config_payload) : bool :=
  (config.(sc_audio_codec) =? WD_AUDIO_CODEC_OPUS) && (config.(sc_audio_transport) =? WD_AUDIO_TRANSPORT_TCP) &&
  (config.(sc_audio_sample_rate) =? WD_AUDIO_SAMPLE_RATE_DEFAULT) && negb (config.(sc_audio_channels) =? 0) &&
  (config.(sc_audio_channels) <=? WD_AUDIO_CHANNELS_MAX) && (config.(sc_audio_reserved) =? 0) &&
  wd_audio_frame_samples_is_valid config.(sc_audio_frame_samples) &&
  (config.(sc_audio_target_latency_ms) >=? WD_AUDIO_TARGET_LATENCY_MS_MIN) &&
  (config.(sc_audio_target_latency_ms) <=? WD_AUDIO_TARGET_LATENCY_MS_MAX) && negb (config.(sc_audio_bitrate) =? 0) &&
  negb (config.(sc_media_clock_id) =? 0).

Definition audio_fields_zero (config : wd_server_config_payload) : bool :=
  (config.(sc_audio_codec) =? 0) && (config.(sc_audio_transport) =? 0) && (config.(sc_audio_sample_rate) =? 0) &&
  (config.(sc_audio_channels) =? 0) && (config.(sc_audio_reserved) =? 0) && (config.(sc_audio_frame_samples) =? 0) &&
  (config.(sc_audio_target_latency_ms) =? 0) && (config.(sc_audio_bitrate) =? 0).

(** The part of the test that is about video and audio. *)
Definition media_fields_valid (config : wd_server_config_payload) : bool :=
  let video := flag config.(sc_capabilities) WD_SERVER_CAP_VIDEO_STREAM in
  let codecs := config.(sc_video_codecs) in
  let one_video_codec := negb (codecs =? 0) && (Z.land codecs (u32 (codecs - 1)) =? 0) in
  if (video && (negb one_video_codec || negb (config.(sc_video_transport) =? WD_VIDEO_TRANSPORT_TCP))) ||
     (negb video && (negb (codecs =? 0) || negb (config.(sc_video_transport) =? 0)))
  then false
  else
    let audio := flag config.(sc_capabilities) WD_SERVER_CAP_AUDIO_STREAM in
    let feedback := flag config.(sc_capabilities) WD_SERVER_CAP_VIDEO_FEEDBACK in
    if feedback && negb video then false
    else negb ((audio && negb (audio_fields_valid config)) || (negb audio && negb (audio_fields_zero config))).

(** The configuration, normalised, and the error; the C function's result is
    whether there is none. *)
Definition client_normalize_and_validate_server_config (config : wd_server_config_payload)
    : wd_server_config_payload * ClientConfigValidationError :=
  if config.(sc_session_id) =? 0 then (config, MissingSession)
  else if (config.(sc_connection_token) =? 0) || (config.(sc_content_epoch) =? 0) || (config.(sc_server_udp_port) =? 0)
  then (config, MissingConnectionIdentity)
  else if config.(sc_config_epoch) =? 0 then (config, MissingConfigurationEpoch)
  else if (config.(sc_width) =? 0) || (config.(sc_height) =? 0) || (config.(sc_width) >? WD_MAX_RENDER_WIDTH) ||
          (config.(sc_height) >? WD_MAX_RENDER_HEIGHT)
  then (config, UnsupportedDisplayDimensions)
  else
    let framebuffer_pixels := u64 (config.(sc_width) * config.(sc_height)) in
    let framebuffer_bytes := u64 (framebuffer_pixels * WD_BYTES_PER_PIXEL) in
    if (framebuffer_pixels >? UINT32_MAX) || (framebuffer_bytes >? WD_CLIENT_MAX_FRAMEBUFFER_BYTES) ||
       (framebuffer_bytes >? UINT32_MAX)
    then (config, UnsupportedFramebufferSize)
    else
      match wd_tile_size_code_for_dimensions config.(sc_tile_width) config.(sc_tile_height) with
      | None => (config, UnsupportedTileGeometry)
      | Some _ =>
          let expected_tiles_x := wd_tiles_for_width_with_tile config.(sc_width) config.(sc_tile_width) in
          let expected_tiles_y := wd_tiles_for_height_with_tile config.(sc_height) config.(sc_tile_height) in
          let expected_total := u64 (expected_tiles_x * expected_tiles_y) in
          if (expected_tiles_x =? 0) || (expected_tiles_y =? 0) || (expected_tiles_x >? UINT16_MAX) ||
             (expected_tiles_y >? UINT16_MAX) || (expected_total =? 0) || (expected_total >? UINT16_MAX) ||
             negb (config.(sc_tiles_x) =? expected_tiles_x) || negb (config.(sc_tiles_y) =? expected_tiles_y) ||
             negb (config.(sc_total_tiles) =? expected_total)
          then (config, InconsistentTileGrid)
          else if negb (config.(sc_pixel_format) =? WD_PIXEL_FORMAT_XRGB8888) then (config, UnsupportedPixelFormat)
          else if negb (config.(sc_compression_mode) =? WD_COMPRESSION_ZSTD) || (config.(sc_zstd_level) =? 0) ||
                  (config.(sc_zstd_level) >? 22)
          then (config, UnsupportedCompression)
          else if outside config.(sc_capabilities) WD_SERVER_CAP_MASK || outside config.(sc_video_codecs) WD_VIDEO_CODEC_MASK
          then (config, InvalidCapabilities)
          else if negb (media_fields_valid config) then (config, InvalidCapabilities)
          else
            let config := if config.(sc_udp_payload_target) =? 0
                          then config <| sc_udp_payload_target := WD_UDP_PAYLOAD_TARGET |> else config in
            if (config.(sc_udp_payload_target) <? WD_MIN_PROBED_UDP_PAYLOAD) ||
               (config.(sc_udp_payload_target) >? WD_UDP_TILE_PAYLOAD_MAX)
            then (config, InvalidUdpPayloadTarget)
            else (config, NoConfigError)
      end.

Definition client_server_config_matches_offer (config : wd_server_config_payload) (hello : wd_client_hello_payload)
    : ClientConfigValidationError :=
  let video := flag config.(sc_capabilities) WD_SERVER_CAP_VIDEO_STREAM in
  let feedback := flag config.(sc_capabilities) WD_SERVER_CAP_VIDEO_FEEDBACK in
  if (video && (negb (flag hello.(ch_capabilities) WD_CLIENT_CAP_VIDEO_STREAM) ||
                negb (Z.land config.(sc_video_codecs) hello.(ch_video_codecs) =? config.(sc_video_codecs)) ||
                negb (config.(sc_video_transport) =? hello.(ch_video_transport)))) ||
     (feedback && negb (flag hello.(ch_capabilities) WD_CLIENT_CAP_VIDEO_FEEDBACK))
  then ServerConfigOutsideOffer
  else
    let audio := flag config.(sc_capabilities) WD_SERVER_CAP_AUDIO_STREAM in
    if audio && (negb (flag hello.(ch_capabilities) WD_CLIENT_CAP_AUDIO_STREAM) ||
                 (Z.land hello.(ch_audio_codecs) config.(sc_audio_codec) =? 0) ||
                 negb (config.(sc_audio_transport) =? hello.(ch_audio_transport)) ||
                 (config.(sc_audio_channels) >? hello.(ch_audio_max_channels)) ||
                 (negb (hello.(ch_audio_target_latency_ms) =? 0) &&
                  negb (config.(sc_audio_target_latency_ms) =? hello.(ch_audio_target_latency_ms))))
    then ServerConfigOutsideOffer
    else NoConfigError.

(** ** Changes *)

Definition ClientConfigChangeNone : Z := 0.
Definition ClientConfigChangeGeometry : Z := Z.shiftl 1 0.
Definition ClientConfigChangeTransport : Z := Z.shiftl 1 1.
Definition ClientConfigChangeContent : Z := Z.shiftl 1 2.
Definition ClientConfigChangeFormat : Z := Z.shiftl 1 3.
Definition ClientConfigChangeVideo : Z := Z.shiftl 1 4.
Definition ClientConfigChangeTimers : Z := Z.shiftl 1 5.
Definition ClientConfigChangeEpoch : Z := Z.shiftl 1 6.
Definition ClientConfigChangeAudio : Z := Z.shiftl 1 7.

(** Whether one of the fields differs. *)
Definition differ (fields : list (wd_server_config_payload -> Z)) (current next : wd_server_config_payload) : bool :=
  existsb (fun field => negb (field current =? field next)) fields.

Definition add_change (changed : bool) (change flags : Z) : Z := if changed then Z.lor flags change else flags.

Definition video_cap_mask : Z := Z.lor WD_SERVER_CAP_VIDEO_STREAM WD_SERVER_CAP_VIDEO_FEEDBACK.

Definition client_classify_server_config_change (current next : wd_server_config_payload) : Z :=
  let flags := ClientConfigChangeNone in
  let flags := add_change (differ [sc_config_epoch] current next) ClientConfigChangeEpoch flags in
  let flags := add_change (differ [sc_width; sc_height; sc_tile_width; sc_tile_height; sc_tiles_x; sc_tiles_y; sc_total_tiles]
                             current next) ClientConfigChangeGeometry flags in
  let flags := add_change (differ [sc_session_id; sc_connection_token; sc_server_udp_port; sc_udp_payload_target]
                             current next) ClientConfigChangeTransport flags in
  let flags := add_change (differ [sc_content_epoch] current next) ClientConfigChangeContent flags in
  let flags := add_change (differ [sc_pixel_format; sc_compression_mode; sc_zstd_level] current next)
                 ClientConfigChangeFormat flags in
  let flags := add_change (differ [fun c => Z.land c.(sc_capabilities) video_cap_mask; sc_video_codecs; sc_video_transport]
                             current next) ClientConfigChangeVideo flags in
  let flags := add_change (differ [fun c => Z.land c.(sc_capabilities) WD_SERVER_CAP_AUDIO_STREAM; sc_media_clock_id;
                                   sc_audio_codec; sc_audio_transport; sc_audio_sample_rate; sc_audio_channels;
                                   sc_audio_frame_samples; sc_audio_target_latency_ms; sc_audio_bitrate]
                             current next) ClientConfigChangeAudio flags in
  add_change (differ [sc_link_rtt_ms; sc_summary_retransmit_grace_ms; sc_retransmit_request_interval_ms;
                      sc_retransmit_inflight_grace_ms; sc_tile_reassembly_timeout_ms; sc_active_summary_interval_ms;
                      sc_clean_summary_interval_ms] current next) ClientConfigChangeTimers flags.

Definition client_config_change_requires_stream_reset (flags : Z) : bool :=
  flag flags (Z.lor ClientConfigChangeGeometry (Z.lor ClientConfigChangeTransport
                (Z.lor ClientConfigChangeContent ClientConfigChangeFormat))).

(** ** Messages *)

(** [reset_video] of [store_server_config_update]. *)
Definition display_replaced (state : ClientState) (config : wd_server_config_payload) : bool :=
  (state.(cs_config).(sc_session_id) =? config.(sc_session_id)) &&
  (state.(cs_config).(sc_connection_token) =? config.(sc_connection_token)) &&
  (negb (state.(cs_config).(sc_width) =? config.(sc_width)) || negb (state.(cs_config).(sc_height) =? config.(sc_height)) ||
   negb (state.(cs_config).(sc_content_epoch) =? config.(sc_content_epoch))).

(** The newest configuration known for the connection of [config]. *)
Definition newest_server_config (state : ClientState) (config : wd_server_config_payload) : ptr wd_server_config_payload :=
  let same_connection (known : wd_server_config_payload) :=
    (known.(sc_session_id) =? config.(sc_session_id)) && (known.(sc_connection_token) =? config.(sc_connection_token)) in
  let newest := if same_connection state.(cs_config) then Some state.(cs_config) else NULL in
  let newest_config_epoch := match newest with Some known => known.(sc_config_epoch) | None => 0 end in
  if state.(cs_pending_config_valid) && same_connection state.(cs_pending_config) &&
     (state.(cs_pending_config).(sc_config_epoch) >=? newest_config_epoch)
  then Some state.(cs_pending_config) else newest.

(** The last result is whether the video decoder is reset. *)
Definition store_server_config_update (state : ClientState) (payload : ptr (list Z)) : ClientState * bool :=
  match payload with
  | None => (state, false)
  | Some payload =>
      if negb (zlen payload =? sizeof wd_server_config_payload) then (state, false)
      else
        match decode payload with
        | None => (state, false)
        | Some config =>
            let '(config, error) := client_normalize_and_validate_server_config config in
            if negb (bool_decide (error = NoConfigError)) then (state, false)
            else
              let newest_config := newest_server_config state config in
              let newest_config_epoch := match newest_config with Some known => known.(sc_config_epoch) | None => 0 end in
              if config.(sc_config_epoch) <? newest_config_epoch then (state, false)
              else if (config.(sc_config_epoch) =? newest_config_epoch) &&
                      match newest_config with Some known => negb (bool_decide (known = config)) | None => false end
              then (state, false)
              else if match newest_config with
                      | Some known => flag (client_classify_server_config_change known config)
                                        (Z.lor ClientConfigChangeVideo ClientConfigChangeAudio)
                      | None => false
                      end
              then (state <| cs_session_running := false |>, false)
              else
                let reset_video := display_replaced state config in
                let state := state <| cs_pending_config := config |> <| cs_pending_config_valid := true |> in
                (apply_link_timers_from_config state config, reset_video)
        end
  end.

(** The configuration a connection starts with: the part of
    [receive_server_config] after the message arrived. *)
Definition receive_server_config (state : ClientState) (config : wd_server_config_payload)
    (hello : wd_client_hello_payload) (now_ns : Z) : ClientState * bool :=
  let '(config, error) := client_normalize_and_validate_server_config config in
  let state := state <| cs_config := config |> in
  if negb (bool_decide (error = NoConfigError)) then (state, false)
  else if negb (bool_decide (client_server_config_matches_offer config hello = NoConfigError)) then (state, false)
  else
    let state := apply_link_timers_from_config state config in
    (state <| cs_media_clock_id := config.(sc_media_clock_id) |> <| cs_media_clock_local_origin_ns := now_ns |>, true).

Definition no_dirty_tiles : ClientDirtyTileGrid := mk_ClientDirtyTileGrid 0 0 0 0 0 0 0 [].

(** The retransmit tables for [total] tiles; the due queue is a parameter. *)
Definition reset_retransmit_tables (state : ClientState) (total : nat) (due : list ClientSummaryRepairDue) : ClientState :=
  state <| cs_retx_queue := [] |>
        <| cs_retx_queued_generation := replicate total 0 |>
        <| cs_retx_last_requested_generation := replicate total 0 |>
        <| cs_retx_last_request_ns := replicate total 0 |>
        <| cs_retx_inflight_generation := replicate total 0 |>
        <| cs_retx_inflight_since_ns := replicate total 0 |>
        <| cs_retx_summary_pending_generation := replicate total 0 |>
        <| cs_retx_summary_pending_since_ns := replicate total 0 |>
        <| cs_retx_summary_pending_tiles := [] |>
        <| cs_retx_summary_pending_position := replicate total UINT32_MAX |>
        <| cs_retx_summary_due_queue := due |>
        <| cs_retx_summary_pending_count := 0 |>
        <| cs_next_summary_promote_ns := 0 |>
        <| cs_summary_large_repair_not_before_ns := 0 |>
        <| cs_summary_repair_loss_signal_until_ns := 0 |>.

Definition udp_recv_buffer_size (config : wd_server_config_payload) : Z :=
  WD_UDP_TILE_HEADER_MAX_SIZE + config.(sc_udp_payload_target) + WD_CLIENT_UDP_RECV_SLACK_BYTES.

Definition cleared_framebuffer (pixels : Z) : list Z := replicate (Z.to_nat pixels) WD_CLIENT_FRAMEBUFFER_CLEAR_XRGB.

(** The tables of a new connection, made by [client_connect]. *)
Definition start_session_tables (state : ClientState) : ClientState * bool :=
  let config := state.(cs_config) in
  let total := Z.to_nat config.(sc_total_tiles) in
  let content := state.(cs_content) in
  let '(grid, ok) := configure_client_dirty_tile_grid content.(cc_pending_dirty_tiles) config.(sc_width) config.(sc_height)
                       config.(sc_tile_width) config.(sc_tile_height) in
  let content :=
    content <| cc_framebuffer := cleared_framebuffer (u32 (config.(sc_width) * config.(sc_height))) |>
            <| cc_presented_generation := replicate total 0 |>
            <| cc_pending_present_generation := replicate total 0 |>
            <| cc_pending_dirty_tiles := grid |> in
  let state := state <| cs_content := content |> <| cs_received_generation := replicate total 0 |> in
  if negb ok then (state, false)
  else
    let state := state <| cs_stats := forget_video_frame_ids WD_CLIENT_CONTENT_OWNER_VIDEO state.(cs_stats) |> in
    let '(state, _) := client_reset_content_epoch state config.(sc_content_epoch) WD_CLIENT_CONTENT_OWNER_TILES in
    let state := reset_retransmit_tables state total [] in
    (state <| cs_udp_recv_buffer := replicate (Z.to_nat (udp_recv_buffer_size config)) 0 |>, true).

(** ** Application of a pending configuration *)

Definition adopt_media_clock (state : ClientState) (config : wd_server_config_payload) (now_ns : Z) : ClientState :=
  if negb (state.(cs_media_clock_id) =? config.(sc_media_clock_id))
  then state <| cs_media_clock_id := config.(sc_media_clock_id) |> <| cs_media_clock_local_origin_ns := now_ns |>
  else state.

(** The commit under the locks. *)
Definition commit_server_config (state : ClientState) (config : wd_server_config_payload) (grid : ClientDirtyTileGrid)
    (now_ns : Z) : ClientState :=
  let total := Z.to_nat config.(sc_total_tiles) in
  let state := adopt_media_clock state config now_ns in
  let content := state.(cs_content) in
  let content :=
    content <| cc_framebuffer := cleared_framebuffer (u64 (config.(sc_width) * config.(sc_height))) |>
            <| cc_pending_dirty_tiles := grid |>
            <| cc_pending_dirty_rect_count := 0 |>
            <| cc_pending_dirty_epoch := 0 |>
            <| cc_tile_present_queue := present_queue_clear content.(cc_tile_present_queue) |>
            <| cc_pending_tile_upload_count := 0 |>
            <| cc_presented_generation := replicate total 0 |>
            <| cc_pending_present_generation := replicate total 0 |> in
  let state :=
    state <| cs_config := config |> <| cs_pending_config_valid := false |>
          <| cs_content := content |> <| cs_received_generation := replicate total 0 |> in
  let state := reset_retransmit_tables state total state.(cs_retx_summary_due_queue) in
  state <| cs_udp_recv_buffer := replicate (Z.to_nat (udp_recv_buffer_size config)) 0 |>
        <| cs_client_config_generation := u64 (state.(cs_client_config_generation) + 1) |>.

(** The message of [client_send_config_applied]; [connected] is whether there is
    a control channel. *)
Definition client_send_config_applied (state : ClientState) (connected : bool) (session_id config_epoch : Z)
    : ptr wd_config_applied_payload :=
  if negb connected || (session_id =? 0) || (config_epoch =? 0) then NULL
  else Some (mk_wd_config_applied_payload session_id state.(cs_config).(sc_connection_token) config_epoch).

(** The answers of SDL, the UDP transport and the control channel. *)
Record apply_answers := mk_apply_answers {
  aa_textures_created : bool;
  aa_transport_reconfigured : bool;
  aa_connected : bool;
  aa_sent : bool;
  aa_now_ns : Z;
}.

(** What other threads do where [apply_pending_server_config] holds no lock on the
    configuration: after it read the waiting configuration, after it found it
    still waiting, and after the commit. *)
Record other_threads := mk_other_threads {
  ot_read : ClientState -> ClientState;
  ot_checked : ClientState -> ClientState;
  ot_committed : ClientState -> ClientState;
}.

(** The last result is the acknowledgement sent to the server, if any. *)
Definition apply_pending_server_config (state : ClientState) (others : other_threads) (answers : apply_answers)
    : ClientState * bool * ptr wd_config_applied_payload :=
  if negb state.(cs_pending_config_valid) then (state, false, NULL)
  else
    let current_config := state.(cs_config) in
    let '(config, error) := client_normalize_and_validate_server_config state.(cs_pending_config) in
    let state := others.(ot_read) state in
    if negb (bool_decide (error = NoConfigError)) then (state, false, NULL)
    else
      let change_flags := client_classify_server_config_change current_config config in
      let superseded (state : ClientState) :=
        negb state.(cs_pending_config_valid) || negb (bool_decide (state.(cs_pending_config) = config)) in
      let acknowledge (state : ClientState) (result : bool) :=
        match client_send_config_applied state answers.(aa_connected) config.(sc_session_id) config.(sc_config_epoch) with
        | None => (state <| cs_session_running := false |>, false, NULL)
        | Some applied =>
            if negb answers.(aa_sent) then (state <| cs_session_running := false |>, false, NULL)
            else (state, result, Some applied)
        end in
      if negb (client_config_change_requires_stream_reset change_flags) then
        if superseded state then (state, false, NULL)
        else
          let state := adopt_media_clock state config answers.(aa_now_ns) in
          acknowledge (state <| cs_config := config |> <| cs_pending_config_valid := false |>) false
      else
        let '(grid, ok) := configure_client_dirty_tile_grid no_dirty_tiles config.(sc_width) config.(sc_height)
                             config.(sc_tile_width) config.(sc_tile_height) in
        if negb ok || negb answers.(aa_textures_created) then (state <| cs_session_running := false |>, false, NULL)
        else if superseded state then (state, false, NULL)
        else
          let state := others.(ot_checked) state in
          if flag change_flags ClientConfigChangeTransport && negb answers.(aa_transport_reconfigured)
          then (state <| cs_session_running := false |>, false, NULL)
          else
            let state := others.(ot_committed) (commit_server_config state config grid answers.(aa_now_ns)) in
            let '(state, _) := client_reset_content_epoch state config.(sc_content_epoch) WD_CLIENT_CONTENT_OWNER_TILES in
            acknowledge state true.

(** ** Well-formed configurations *)

Ltac config_simpl :=
  cbn [sc_session_id sc_connection_token sc_config_epoch sc_content_epoch sc_server_udp_port sc_width sc_height
    sc_tile_width sc_tile_height sc_tiles_x sc_tiles_y sc_total_tiles sc_pixel_format sc_compression_mode sc_zstd_level
    sc_udp_payload_target sc_capabilities sc_video_codecs set_field] in *.

(** What a validated configuration guarantees. *)
Record config_usable (c : wd_server_config_payload) : Prop := {
  cu_identity : c.(sc_session_id) <> 0 /\ c.(sc_connection_token) <> 0 /\ c.(sc_content_epoch) <> 0 /\
    c.(sc_server_udp_port) <> 0 /\ 0 < c.(sc_config_epoch);
  cu_display : 0 < c.(sc_width) <= WD_MAX_RENDER_WIDTH /\ 0 < c.(sc_height) <= WD_MAX_RENDER_HEIGHT;
  cu_tile : is_Some (wd_tile_size_code_for_dimensions c.(sc_tile_width) c.(sc_tile_height));
  cu_grid : c.(sc_tiles_x) = cdiv c.(sc_width) c.(sc_tile_width) /\ c.(sc_tiles_y) = cdiv c.(sc_height) c.(sc_tile_height) /\
    c.(sc_total_tiles) = c.(sc_tiles_x) * c.(sc_tiles_y);
  cu_format : c.(sc_pixel_format) = WD_PIXEL_FORMAT_XRGB8888 /\ c.(sc_compression_mode) = WD_COMPRESSION_ZSTD /\
    1 <= c.(sc_zstd_level) <= 22;
  cu_media : outside c.(sc_capabilities) WD_SERVER_CAP_MASK = false /\ outside c.(sc_video_codecs) WD_VIDEO_CODEC_MASK = false /\
    media_fields_valid c = true;
  cu_udp : WD_MIN_PROBED_UDP_PAYLOAD <= c.(sc_udp_payload_target) <= WD_UDP_TILE_PAYLOAD_MAX;
}.

Lemma tile_size_cases w h : is_Some (wd_tile_size_code_for_dimensions w h) ->
  (w = 128 /\ h = 64) \/ (w = 64 /\ h = 64) \/ (w = 32 /\ h = 32) \/ (w = 16 /\ h = 16).
Proof.
  intros [code H]. unfold wd_tile_size_code_for_dimensions in H. repeat case_if_in H; bool_cases; try done; lia.
Qed.

Lemma usable_tile_size c : config_usable c -> 16 <= c.(sc_tile_width) <= 128 /\ 16 <= c.(sc_tile_height) <= 64.
Proof. intros U. pose proof (tile_size_cases _ _ (cu_tile _ U)). lia. Qed.

Lemma tiles_cdiv w t : 0 < w <= WD_MAX_RENDER_WIDTH -> 16 <= t <= 128 ->
  wd_tiles_for_width_with_tile w t = cdiv w t /\ 0 < cdiv w t <= 256.
Proof.
  unfold WD_MAX_RENDER_WIDTH. intros Hw Ht.
  assert (0 < cdiv w t <= 256) as Hc.
  { split; [apply cdiv_pos; lia |]. unfold cdiv. apply Z.lt_succ_r, Z.div_lt_upper_bound; lia. }
  split; [| done]. unfold wd_tiles_for_width_with_tile.
  rewrite (proj2 (Z.eqb_neq w 0)), (proj2 (Z.eqb_neq t 0)) by lia. cbn [orb].
  rewrite (u64_small (w + t)), u64_small by mlia. fold (cdiv w t).
  rewrite (proj2 (Z.eqb_neq _ 0)), Z.gtb_ltb, (proj2 (Z.ltb_ge _ _)) by mlia. cbn [orb]. apply u16_small. mlia.
Qed.

(** 4096 x 2160 pixels in tiles of at least 16 x 16. *)
Lemma grid_counts c :
  0 < c.(sc_width) <= WD_MAX_RENDER_WIDTH -> 0 < c.(sc_height) <= WD_MAX_RENDER_HEIGHT ->
  is_Some (wd_tile_size_code_for_dimensions c.(sc_tile_width) c.(sc_tile_height)) ->
  0 < cdiv c.(sc_width) c.(sc_tile_width) <= 256 /\ 0 < cdiv c.(sc_height) c.(sc_tile_height) <= 135 /\
  wd_tiles_for_width_with_tile c.(sc_width) c.(sc_tile_width) = cdiv c.(sc_width) c.(sc_tile_width) /\
  wd_tiles_for_height_with_tile c.(sc_height) c.(sc_tile_height) = cdiv c.(sc_height) c.(sc_tile_height).
Proof.
  intros Hw Hh Ht%tile_size_cases.
  destruct (tiles_cdiv _ c.(sc_tile_width) Hw ltac:(lia)) as [Ex Bx].
  destruct (tiles_cdiv c.(sc_height) c.(sc_tile_height)) as [Ey By]; [| lia |].
  { unfold WD_MAX_RENDER_WIDTH, WD_MAX_RENDER_HEIGHT in *. lia. }
  rewrite tiles_for_height_same. split_and!; try done; try lia.
  unfold WD_MAX_RENDER_HEIGHT, cdiv in *. apply Z.lt_succ_r, Z.div_lt_upper_bound; lia.
Qed.

Lemma usable_tiles c : config_usable c ->
  0 < c.(sc_tiles_x) <= 256 /\ 0 < c.(sc_tiles_y) <= 256 /\ 0 < c.(sc_total_tiles) <= UINT16_MAX /\
  wd_tiles_for_width_with_tile c.(sc_width) c.(sc_tile_width) = c.(sc_tiles_x) /\
  wd_tiles_for_height_with_tile c.(sc_height) c.(sc_tile_height) = c.(sc_tiles_y).
Proof.
  intros U. destruct (cu_display _ U) as [Hw Hh], (cu_grid _ U) as (-> & -> & ->).
  destruct (grid_counts c Hw Hh (cu_tile _ U)) as (Bx & By & Ex & Ey). unfold UINT16_MAX. split_and!; try done; nia.
Qed.

Lemma payload_range c : WD_UDP_TILE_PAYLOAD_MAX <= UINT16_MAX -> config_usable c -> config_ranges c.
Proof.
  intros Hm U. destruct (cu_display _ U) as [Hw Hh]. pose proof (cu_udp _ U) as Hu.
  unfold config_ranges, WD_MAX_RENDER_WIDTH, WD_MAX_RENDER_HEIGHT, WD_MIN_PROBED_UDP_PAYLOAD in *. mlia.
Qed.

(** The fields of a configuration that was received are not negative. *)
Definition config_decoded (c : wd_server_config_payload) : Prop :=
  0 <= c.(sc_width) /\ 0 <= c.(sc_height) /\ 0 <= c.(sc_zstd_level) /\ 0 <= c.(sc_udp_payload_target) /\
  0 <= c.(sc_config_epoch).

Lemma decoded_config bs c : bytes_ok bs -> decode (A := wd_server_config_payload) bs = Some c -> config_decoded c.
Proof.
  intros Hb Hd. apply encode_decode in Hd as [_ [Hf _]]; [| done]. cbn in Hf.
  repeat match goal with H : Forall2 _ (_ :: _) _ |- _ => inversion_clear H end.
  unfold config_decoded, fits in *. lia.
Qed.

Lemma validate_usable c c' :
  config_decoded c -> client_normalize_and_validate_server_config c = (c', NoConfigError) -> config_usable c'.
Proof.
  intros (D1 & D2 & D3 & D4 & D5) H. unfold client_normalize_and_validate_server_config in H. cbv zeta in H.
  repeat (case_if_in H; [done |]).
  destruct (wd_tile_size_code_for_dimensions (sc_tile_width c) (sc_tile_height c)) as [code|] eqn:Ecode; [| done].
  pose proof (tile_size_cases _ _ (ex_intro _ _ Ecode : is_Some _)) as Hsize.
  repeat (case_if_in H; [done |]).
  set (d := if sc_udp_payload_target c =? 0 then _ else c) in *.
  assert (d = c <| sc_udp_payload_target := d.(sc_udp_payload_target) |>) as Ed
    by (unfold d; case_if; [done | by destruct c]).
  clearbody d. case_if_in H; [done |]. injection H as <-. rewrite Ed. bool_cases.
  clear Ed. set (p := sc_udp_payload_target d) in *.
  assert (config_decoded c) as Dc by done. clearbody p.
  assert (0 < c.(sc_width) <= WD_MAX_RENDER_WIDTH) as Hw by lia.
  assert (0 < c.(sc_height) <= WD_MAX_RENDER_HEIGHT) as Hh by lia.
  destruct (grid_counts c Hw Hh (ex_intro _ _ Ecode)) as (Bx & By & Ex & Ey).
  assert (0 < cdiv c.(sc_width) c.(sc_tile_width) * cdiv c.(sc_height) c.(sc_tile_height) <= 256 * 135)
    by (split; [nia | apply Z.mul_le_mono_nonneg; lia]).
  rewrite Ex, Ey, u64_small in H7 by mlia. rewrite Ex in H9. rewrite Ey in H8.
  constructor; config_simpl; split_and?; try done; try lia; try congruence.
Qed.

Lemma usable_validates c : config_usable c -> client_normalize_and_validate_server_config c = (c, NoConfigError).
Proof.
  intros U. pose proof (usable_tiles c U) as (Bx & By & Bt & Ex & Ey). destruct (cu_identity _ U) as (I1 & I2 & I3 & I4 & I5).
  destruct (cu_display _ U) as [Hw Hh], (cu_tile _ U) as [code Ecode], (cu_grid _ U) as (_ & _ & Et).
  destruct (cu_format _ U) as (F1 & F2 & F3), (cu_media _ U) as (M1 & M2 & M3). pose proof (cu_udp _ U) as Hu.
  unfold WD_MAX_RENDER_WIDTH, WD_MAX_RENDER_HEIGHT in *.
  assert (0 < c.(sc_width) * c.(sc_height) <= 4096 * 2160) by nia.
  unfold client_normalize_and_validate_server_config. cbv zeta.
  rewrite Ecode, Ex, Ey, <- Et, M1, M2, M3, F1, F2, !(u64_small (_ * _)) by mlia. cbn [negb orb].
  unfold WD_MIN_PROBED_UDP_PAYLOAD in *.
  rewrite (proj2 (Z.eqb_neq c.(sc_udp_payload_target) 0)) by lia. rewrite (u64_small (sc_total_tiles c)) by mlia.
  rewrite u64_small by (unfold WD_BYTES_PER_PIXEL; mlia). rewrite !Z.eqb_refl.
  unfold WD_CLIENT_MAX_FRAMEBUFFER_BYTES, WD_BYTES_PER_PIXEL, WD_MAX_RENDER_WIDTH, WD_MAX_RENDER_HEIGHT, UINT32_MAX, UINT16_MAX in *.
  repeat (case_if; [exfalso; bool_cases; lia |]). done.
Qed.

(** ** Well-formed sessions *)

(** The session's own fields of an updated state. *)
Ltac session_simpl :=
  cbn [cs_config cs_content cs_pending_config cs_pending_config_valid cs_udp_recv_buffer cs_received_generation
    cs_retx_summary_due_queue cc_pending_dirty_tiles cc_framebuffer cc_presented_generation cc_pending_present_generation
    cc_tile_present_queue set_field].

(** The tables of the receiver agree with the configuration in force; a waiting
    configuration passed the validation. *)
Record session_ok (s : ClientState) : Prop := {
  so_config : config_usable s.(cs_config);
  so_pending : s.(cs_pending_config_valid) = true -> config_usable s.(cs_pending_config);
  so_grid : dirty_grid_ok s.(cs_content).(cc_pending_dirty_tiles) /\
    dims s.(cs_content).(cc_pending_dirty_tiles) =
      (s.(cs_config).(sc_width), s.(cs_config).(sc_height), s.(cs_config).(sc_tile_width), s.(cs_config).(sc_tile_height),
       s.(cs_config).(sc_tiles_x), s.(cs_config).(sc_tiles_y));
  so_framebuffer : zlen s.(cs_content).(cc_framebuffer) = s.(cs_config).(sc_width) * s.(cs_config).(sc_height);
  so_generations : zlen s.(cs_content).(cc_presented_generation) = s.(cs_config).(sc_total_tiles) /\
    zlen s.(cs_content).(cc_pending_present_generation) = s.(cs_config).(sc_total_tiles);
  so_queue : present_queue_ok s.(cs_content).(cc_tile_present_queue);
  so_uploads : Forall (fun u => in_frame s.(cs_config).(sc_width) s.(cs_config).(sc_height) u.(tu_rect))
    s.(cs_content).(cc_tile_present_queue).(pq_uploads);
  so_buffer : zlen s.(cs_udp_recv_buffer) = udp_recv_buffer_size s.(cs_config);
  so_repair : repair_ok s;
}.

Lemma session_frame s s' :
  s'.(cs_config) = s.(cs_config) -> session_setup s' = session_setup s -> (repair_ok s -> repair_ok s') ->
  session_ok s -> session_ok s'.
Proof.
  intros Ec Es Er [A B C D F G H I J]. unfold session_setup in Es. injection Es as E1 E2 E3 E4.
  constructor; rewrite ?Ec, ?E1, ?E2, ?E3, ?E4; auto.
Qed.

Lemma grid_clear_ok g : dirty_grid_ok g -> dirty_grid_ok (grid_clear g) /\ dims (grid_clear g) = dims g.
Proof.
  intros [A B C D E F G H]. split; [| done]. unfold grid_clear.
  constructor; cbn [dg_frame_width dg_frame_height dg_tile_width dg_tile_height dg_tiles_x dg_tiles_y
    dg_dirty_tile_count dg_dirty_tiles set_field]; try done.
  - rewrite <- G. unfold zlen. by rewrite length_fmap.
  - symmetry. apply n_queued_zero. intros i Hi. rewrite (aget_fmap (fun _ : bool => false) false); [done |]. unfold zlen in *. by rewrite length_fmap in Hi.
Qed.

(** New content clears what waits to be presented. *)
Lemma take_content_ok s epoch owner : session_ok s -> session_ok (take_content s epoch owner).
Proof.
  intros [A B [C1 C2] D [F1 F2] G H I J]. destruct (grid_clear_ok _ C1) as [K1 K2].
  unfold take_content, reset_pending_content_locked. destruct (atomically _ _) as [local packed].
  constructor; session_simpl; try done.
  split; [done |]. rewrite <- F2. unfold zlen. by rewrite length_fmap.
Qed.

Lemma reset_content_ok s epoch owner : session_ok s -> session_ok (client_reset_content_epoch s epoch owner).1.
Proof.
  intros Hs. unfold client_reset_content_epoch. case_if; [done |]. apply take_content_ok. by apply (session_frame s).
Qed.

Lemma link_timers_ok s config : session_ok s -> session_ok (apply_link_timers_from_config s config).
Proof. intros Hs. by apply (session_frame s). Qed.

Lemma media_clock_ok s config now : session_ok s -> session_ok (adopt_media_clock s config now).
Proof. intros Hs. unfold adopt_media_clock. case_if; [by apply (session_frame s) | done]. Qed.

(** *** New tables *)

Lemma usable_grid c g0 : config_usable c -> exists g,
  configure_client_dirty_tile_grid g0 c.(sc_width) c.(sc_height) c.(sc_tile_width) c.(sc_tile_height) = (g, true) /\
  dirty_grid_ok g /\
  dims g = (c.(sc_width), c.(sc_height), c.(sc_tile_width), c.(sc_tile_height), c.(sc_tiles_x), c.(sc_tiles_y)).
Proof.
  intros U. pose proof (usable_tiles c U) as (Bx & By & _). destruct (usable_tile_size c U) as [Tw Th].
  destruct (cu_display _ U) as [Hw Hh], (cu_grid _ U) as (Ex & Ey & _).
  assert (0 < c.(sc_tiles_x) * c.(sc_tiles_y) <= 256 * 256) by (split; [nia | apply Z.mul_le_mono_nonneg; lia]).
  unfold WD_MAX_RENDER_WIDTH, WD_MAX_RENDER_HEIGHT in *.
  destruct (configure_client_dirty_tile_grid g0 (sc_width c) (sc_height c) (sc_tile_width c) (sc_tile_height c)) as [g ok] eqn:E.
  assert (ok = true) as ->.
  { revert E. unfold configure_client_dirty_tile_grid, grid_reset.
    rewrite !(u32_small (_ - 1)) by mlia. fold (cdiv (sc_width c) (sc_tile_width c)) (cdiv (sc_height c) (sc_tile_height c)).
    rewrite <- Ex, <- Ey, u64_small by mlia.
    case_if; [exfalso; bool_cases; mlia |]. case_if; [exfalso; bool_cases; mlia |]. by intros [= _ <-]. }
  exists g. rewrite Ex, Ey. split; [done |].
  destruct (grid_reset_ok g0 (sc_width c) (sc_height c) (sc_tile_width c) (sc_tile_height c) g) as (G1 & G2 & _);
    [mlia | mlia | lia | lia | done | done].
Qed.

Lemma cleared_queue_ok q : present_queue_ok q -> present_queue_ok (present_queue_clear q) /\ (present_queue_clear q).(pq_uploads) = [].
Proof.
  intros [K1 K2 K3 K4 K5]. split; [| done].
  constructor; cbn [present_queue_clear pq_max_items pq_max_bytes pq_bytes pq_uploads set_field fmap list_fmap]; try done; try constructor.
  all: unfold zlen; cbn; lia.
Qed.

Lemma zlen_replicate {A} n (x : A) : 0 <= n -> zlen (replicate (Z.to_nat n) x) = n.
Proof. intros Hn. unfold zlen. rewrite length_replicate. lia. Qed.

(** Where every table has just been made, only the queues matter. *)
Lemma new_tables_ok s c :
  config_usable c -> s.(cs_config) = c ->
  (s.(cs_pending_config_valid) = true -> config_usable s.(cs_pending_config)) ->
  dirty_grid_ok s.(cs_content).(cc_pending_dirty_tiles) ->
  dims s.(cs_content).(cc_pending_dirty_tiles) =
    (c.(sc_width), c.(sc_height), c.(sc_tile_width), c.(sc_tile_height), c.(sc_tiles_x), c.(sc_tiles_y)) ->
  zlen s.(cs_content).(cc_framebuffer) = c.(sc_width) * c.(sc_height) ->
  zlen s.(cs_content).(cc_presented_generation) = c.(sc_total_tiles) ->
  zlen s.(cs_content).(cc_pending_present_generation) = c.(sc_total_tiles) ->
  present_queue_ok s.(cs_content).(cc_tile_present_queue) -> s.(cs_content).(cc_tile_present_queue).(pq_uploads) = [] ->
  zlen s.(cs_udp_recv_buffer) = udp_recv_buffer_size c -> repair_ok s -> session_ok s.
Proof. intros U <- **. constructor; try done. rewrite H6. constructor. Qed.

Lemma commit_ok s c g now :
  session_ok s -> config_usable c -> dirty_grid_ok g ->
  dims g = (c.(sc_width), c.(sc_height), c.(sc_tile_width), c.(sc_tile_height), c.(sc_tiles_x), c.(sc_tiles_y)) ->
  session_ok (commit_server_config s c g now).
Proof.
  intros Hs U G D. apply (media_clock_ok s c now) in Hs. unfold commit_server_config. set (s0 := adopt_media_clock s c now) in *.
  clearbody s0. destruct (usable_tiles c U) as (_ & _ & Bt & _). destruct (cu_display _ U) as [Hw Hh].
  unfold WD_MAX_RENDER_WIDTH, WD_MAX_RENDER_HEIGHT in *.
  assert (0 <= c.(sc_width) * c.(sc_height) <= 4096 * 2160) by (split; [nia | apply Z.mul_le_mono_nonneg; lia]).
  pose proof (cu_udp _ U) as Hu. unfold WD_MIN_PROBED_UDP_PAYLOAD in *.
  destruct (cleared_queue_ok _ (so_queue _ Hs)) as [Q1 Q2]. pose proof (so_repair _ Hs) as R.
  apply (new_tables_ok _ c); unfold reset_retransmit_tables; cbv zeta; session_simpl; try done.
  - unfold cleared_framebuffer. rewrite u64_small by mlia. apply zlen_replicate. lia.
  - apply zlen_replicate. lia.
  - apply zlen_replicate. lia.
  - apply zlen_replicate. unfold udp_recv_buffer_size. assert (0 <= WD_UDP_TILE_HEADER_MAX_SIZE + WD_CLIENT_UDP_RECV_SLACK_BYTES) by by vm_compute. lia.
  - apply (fresh_tables_ok _ c.(sc_total_tiles)); try done; [lia |].
    pose proof (to_due _ _ R) as Hd. tables_simpl. rewrite list.Forall_forall. intros d Hin.
    apply (Hd d.(rd_tile_id) d.(rd_generation)). rewrite app_nil_r. unfold due_pairs.
    apply list_elem_of_In, list_elem_of_fmap. by exists d.
Qed.

(** *** The ways of taking over a configuration *)

Lemma receive_config_ok s config hello now s1 : config_decoded config ->
  receive_server_config s config hello now = (s1, true) ->
  config_usable s1.(cs_config) /\ s1.(cs_content) = s.(cs_content) /\ s1.(cs_pending_config_valid) = s.(cs_pending_config_valid).
Proof.
  intros D H. unfold receive_server_config in H.
  destruct (client_normalize_and_validate_server_config config) as [c error] eqn:E. cbv zeta in H.
  case_bool_decide as Ee; cbn [negb] in H; [subst error | done]. case_bool_decide; cbn [negb] in H; [| done].
  injection H as <-. split; [by apply (validate_usable config) | done].
Qed.

Lemma start_tables_ok s : config_usable s.(cs_config) -> s.(cs_pending_config_valid) = false ->
  present_queue_ok s.(cs_content).(cc_tile_present_queue) -> s.(cs_content).(cc_tile_present_queue).(pq_uploads) = [] ->
  exists s', start_session_tables s = (s', true) /\ session_ok s' /\ s'.(cs_config) = s.(cs_config).
Proof.
  intros U Hp Q E. destruct (usable_grid _ s.(cs_content).(cc_pending_dirty_tiles) U) as (g & Eg & G & D).
  destruct (usable_tiles _ U) as (_ & _ & Bt & _). destruct (cu_display _ U) as [Hw Hh].
  unfold WD_MAX_RENDER_WIDTH, WD_MAX_RENDER_HEIGHT in *. pose proof (cu_udp _ U) as Hu. unfold WD_MIN_PROBED_UDP_PAYLOAD in *.
  assert (0 <= s.(cs_config).(sc_width) * s.(cs_config).(sc_height) <= 4096 * 2160)
    by (split; [nia | apply Z.mul_le_mono_nonneg; lia]).
  destruct (cu_identity _ U) as (_ & _ & Hc & _). apply Z.eqb_neq in Hc.
  unfold start_session_tables, client_reset_content_epoch. rewrite Eg. cbn [negb]. rewrite Hc. cbv zeta.
  eexists. split; [reflexivity |]. unfold take_content, reset_pending_content_locked. destruct (atomically _ _) as [local packed].
  destruct (grid_clear_ok _ G) as [K1 K2]. split; [| done].
  apply (new_tables_ok _ s.(cs_config)); unfold reset_retransmit_tables; session_simpl; try done.
  - by rewrite Hp.
  - unfold cleared_framebuffer. rewrite u32_small by mlia. apply zlen_replicate. lia.
  - apply zlen_replicate. lia.
  - unfold zlen. rewrite length_fmap. apply zlen_replicate. lia.
  - apply zlen_replicate. unfold udp_recv_buffer_size.
    assert (0 <= WD_UDP_TILE_HEADER_MAX_SIZE + WD_CLIENT_UDP_RECV_SLACK_BYTES) by by vm_compute. lia.
  - apply (fresh_tables_ok _ s.(cs_config).(sc_total_tiles)); try done; lia.
Qed.

(** A configuration older than one known for its connection is not taken. *)
Definition epoch_fenced (s : ClientState) (c : wd_server_config_payload) : Prop :=
  forall known, known = s.(cs_config) \/ s.(cs_pending_config_valid) = true /\ known = s.(cs_pending_config) ->
    known.(sc_session_id) = c.(sc_session_id) -> known.(sc_connection_token) = c.(sc_connection_token) ->
    known.(sc_config_epoch) <= c.(sc_config_epoch).

Lemma newest_fences s c : 0 < s.(cs_config).(sc_config_epoch) ->
  match newest_server_config s c with Some known => known.(sc_config_epoch) | None => 0 end <= c.(sc_config_epoch) ->
  epoch_fenced s c.
Proof.
  intros H0 Hn known Hk Es Et. unfold newest_server_config in Hn.
  destruct Hk as [-> | [Hv ->]]; rewrite ?Hv in Hn; rewrite Es, Et, !Z.eqb_refl in Hn; cbn [andb] in Hn.
  - repeat case_if_in Hn; bool_cases; lia.
  - repeat case_if_in Hn; bool_cases; lia.
Qed.

Lemma store_update_ok s payload : session_ok s -> bytes_ok payload ->
  let s' := (store_server_config_update s (Some payload)).1 in
  session_ok s' /\ s'.(cs_config) = s.(cs_config) /\
  (s'.(cs_pending_config) = s.(cs_pending_config) \/ epoch_fenced s s'.(cs_pending_config)).
Proof.
  intros Hs Hb. cbv zeta. unfold store_server_config_update. case_if; [by split_and!; try left |].
  destruct (decode payload) as [config|] eqn:Ed; [| by split_and!; try left].
  destruct (client_normalize_and_validate_server_config config) as [c error] eqn:Ev.
  case_bool_decide as Ee; cbn [negb]; [subst error | by split_and!; try left].
  apply validate_usable in Ev as U; [| by apply (decoded_config payload)].
  case_if; [by split_and!; try left |]. bool_cases. case_if; [by split_and!; try left |].
  case_if; [cbn [fst]; split_and!; [by apply (session_frame s) | done | by left] |].
  cbn [fst]. split_and!; [apply link_timers_ok | done |].
  - destruct Hs. by constructor.
  - right. apply newest_fences; [by apply (cu_identity _ (so_config _ Hs)) | done].
Qed.

(** *** Changes that keep the stream *)

Lemma flag_add_change changed change flags mask :
  flag (add_change changed change flags) mask = flag flags mask || (changed && flag change mask).
Proof.
  unfold add_change, flag. destruct changed; cbn [andb]; [| by rewrite orb_false_r].
  rewrite Z.land_lor_distr_l, <- negb_andb. f_equal.
  destruct (Z.eqb_spec (Z.land flags mask) 0) as [->|Hf]; [by rewrite Z.lor_0_l |]. cbn [andb].
  apply Z.eqb_neq. intros E. by apply Z.lor_eq_0_iff in E as [? _].
Qed.

Lemma differ_same fields current next : differ fields current next = false ->
  Forall (fun field => field current = field next) fields.
Proof.
  unfold differ. induction fields as [|f fields IH]; cbn [existsb]; [constructor |].
  rewrite orb_false_iff, negb_false_iff, Z.eqb_eq. intros [? ?]. constructor; auto.
Qed.

(** What stays when the stream is not reset. *)
Lemma no_reset_same current next :
  client_config_change_requires_stream_reset (client_classify_server_config_change current next) = false ->
  next.(sc_width) = current.(sc_width) /\ next.(sc_height) = current.(sc_height) /\
  next.(sc_tile_width) = current.(sc_tile_width) /\ next.(sc_tile_height) = current.(sc_tile_height) /\
  next.(sc_tiles_x) = current.(sc_tiles_x) /\ next.(sc_tiles_y) = current.(sc_tiles_y) /\
  next.(sc_total_tiles) = current.(sc_total_tiles) /\ next.(sc_udp_payload_target) = current.(sc_udp_payload_target) /\
  next.(sc_session_id) = current.(sc_session_id) /\ next.(sc_connection_token) = current.(sc_connection_token) /\
  next.(sc_content_epoch) = current.(sc_content_epoch).
Proof.
  unfold client_config_change_requires_stream_reset, client_classify_server_config_change. cbv zeta.
  rewrite !flag_add_change, !orb_false_iff, !andb_false_iff.
  intros (((((((_ & Hg) & Ht) & Hc) & _) & _) & _) & _).
  destruct Hg as [Hg|Hg]; [apply differ_same in Hg | by vm_compute in Hg].
  destruct Ht as [Ht|Ht]; [apply differ_same in Ht | by vm_compute in Ht].
  destruct Hc as [Hc|Hc]; [apply differ_same in Hc | by vm_compute in Hc].
  repeat match goal with H : Forall _ (_ :: _) |- _ => inversion_clear H end. by split_and!.
Qed.

(** What a configuration that keeps the stream may replace. *)
Lemma session_same_shape s c :
  session_ok s -> config_usable c ->
  c.(sc_width) = s.(cs_config).(sc_width) -> c.(sc_height) = s.(cs_config).(sc_height) ->
  c.(sc_tile_width) = s.(cs_config).(sc_tile_width) -> c.(sc_tile_height) = s.(cs_config).(sc_tile_height) ->
  c.(sc_tiles_x) = s.(cs_config).(sc_tiles_x) -> c.(sc_tiles_y) = s.(cs_config).(sc_tiles_y) ->
  c.(sc_total_tiles) = s.(cs_config).(sc_total_tiles) ->
  c.(sc_udp_payload_target) = s.(cs_config).(sc_udp_payload_target) ->
  session_ok (s <| cs_config := c |> <| cs_pending_config_valid := false |>).
Proof.
  intros [A B C D F G H I J] U E1 E2 E3 E4 E5 E6 E7 E8. constructor; session_simpl; rewrite ?E1, ?E2, ?E3, ?E4, ?E5, ?E6, ?E7; try done.
  - rewrite I. unfold udp_recv_buffer_size. by rewrite E8.
  - unfold repair_ok, tables in *. cbn. by rewrite E7.
Qed.

(** What other threads may do: they keep the state well formed and leave the
    configuration in force to the renderer. *)
Definition well_behaved (f : ClientState -> ClientState) : Prop :=
  forall t, session_ok t -> session_ok (f t) /\ (f t).(cs_config) = t.(cs_config).

Definition others_behave (others : other_threads) : Prop :=
  well_behaved others.(ot_read) /\ well_behaved others.(ot_checked) /\ well_behaved others.(ot_committed).

(** The acknowledgement names the configuration in force. *)
Definition acknowledges (s : ClientState) (applied : ptr wd_config_applied_payload) : Prop :=
  forall a, applied = Some a ->
    a = mk_wd_config_applied_payload s.(cs_config).(sc_session_id) s.(cs_config).(sc_connection_token) s.(cs_config).(sc_config_epoch).

Lemma reset_content_config s epoch owner : (client_reset_content_epoch s epoch owner).1.(cs_config) = s.(cs_config).
Proof. unfold client_reset_content_epoch. by case_if. Qed.

Lemma apply_config_ok s others answers : session_ok s -> others_behave others ->
  let '(s', _, applied) := apply_pending_server_config s others answers in session_ok s' /\ acknowledges s' applied.
Proof.
  intros Hs (Hr & Hch & Hco). unfold apply_pending_server_config. destruct (cs_pending_config_valid s) eqn:Ev; cbn [negb]; [| done].
  pose proof (so_pending _ Hs Ev) as U. rewrite (usable_validates _ U). cbv zeta. set (config := cs_pending_config s) in *.
  destruct (Hr s Hs) as [Ht Em]. rewrite <- Em. set (t := ot_read others s) in *. clearbody t. clear Em.
  rewrite bool_decide_true by done. cbn [negb].
  destruct (usable_grid config no_dirty_tiles U) as (g & Eg & G & D).
  assert (forall t, session_ok t -> session_ok (t <| cs_session_running := false |>)) as Hstop
    by (intros t' Ht'; by apply (session_frame t')).
  assert (forall t b, session_ok t -> t.(cs_config) = config ->
    let '(s', _, applied) :=
      match client_send_config_applied t (aa_connected answers) (sc_session_id config) (sc_config_epoch config) with
      | Some applied => if negb (aa_sent answers) then (t <| cs_session_running := false |>, false, NULL) else (t, b, Some applied)
      | None => (t <| cs_session_running := false |>, false, NULL)
      end in session_ok s' /\ acknowledges s' applied) as Hack.
  { intros t' b Ht' Ec. unfold client_send_config_applied. rewrite Ec. case_if; [by split; [apply Hstop |] |].
    case_if; [by split; [apply Hstop |] |]. split; [done |]. intros a [= <-]. by rewrite Ec. }
  case_if; bool_cases.
  - case_if; [done |]. apply no_reset_same in E as (E1 & E2 & E3 & E4 & E5 & E6 & E7 & E8 & _). apply Hack; [| done].
    apply (media_clock_ok t config (aa_now_ns answers)) in Ht. apply session_same_shape; try done.
    all: unfold adopt_media_clock; by case_if.
  - rewrite Eg. cbn [negb orb]. case_if; [by split; [apply Hstop |] |]. case_if; [done |].
    destruct (Hch t Ht) as [Ht1 _]. case_if; [by split; [apply Hstop |] |].
    destruct (Hco _ (commit_ok _ config g (aa_now_ns answers) Ht1 U G D)) as [H1 Ec].
    set (t2 := ot_committed others _) in *.
    pose proof (reset_content_ok _ (sc_content_epoch config) WD_CLIENT_CONTENT_OWNER_TILES H1) as H2.
    pose proof (reset_content_config t2 (sc_content_epoch config) WD_CLIENT_CONTENT_OWNER_TILES) as Ec2.
    destruct (client_reset_content_epoch _ _ _) as [t' b]. apply Hack; [done |]. cbn [fst] in Ec2. by rewrite Ec2, Ec.
Qed.

(** ** Theorems *)

(** C27: The receiver's state is well formed from the first
    configuration on: a connection whose first configuration passes the tests
    gets tables of matching sizes, a later configuration message keeps the state
    well formed and is not taken when the connection has a newer one, and the
    application of a waiting configuration keeps it well formed whatever other
    threads do meanwhile, and acknowledges the configuration then in force. *)
Theorem configuration_well_formed s config hello now s1 s2 ok :
  config_decoded config -> s.(cs_pending_config_valid) = false ->
  present_queue_ok s.(cs_content).(cc_tile_present_queue) -> s.(cs_content).(cc_tile_present_queue).(pq_uploads) = [] ->
  receive_server_config s config hello now = (s1, true) -> start_session_tables s1 = (s2, ok) ->
  ok = true /\ session_ok s2 /\
  forall t, session_ok t ->
    (forall payload, bytes_ok payload -> let t' := (store_server_config_update t (Some payload)).1 in
      session_ok t' /\ t'.(cs_config) = t.(cs_config) /\
      (t'.(cs_pending_config) = t.(cs_pending_config) \/ epoch_fenced t t'.(cs_pending_config))) /\
    (forall others answers, others_behave others ->
      let '(t', _, applied) := apply_pending_server_config t others answers in session_ok t' /\ acknowledges t' applied).
Proof.
  intros D Hp Q E H1 H2. destruct (receive_config_ok _ _ _ _ _ D H1) as (U & Ec & Ep).
  destruct (start_tables_ok s1) as (s' & E' & Hs & _); [done | by rewrite Ep | by rewrite Ec | by rewrite Ec |].
  rewrite E' in H2. injection H2 as <- <-. split_and!; [done | done |].
  intros t Ht. split; [intros payload; by apply store_update_ok | intros others answers; by apply apply_config_ok].
Qed.

Definition demo_config (config_epoch content_epoch width tiles_x : Z) : wd_server_config_payload :=
  mk_wd_server_config_payload 3 99 config_epoch content_epoch 9000 width 32 16 16 tiles_x 2 (tiles_x * 2)
    WD_PIXEL_FORMAT_XRGB8888 WD_COMPRESSION_ZSTD 3 600 0 0 0 0 0 0 0 0 0 0 0 0 0 0 0 0 0 0 0.
Definition demo_hello : wd_client_hello_payload :=
  mk_wd_client_hello_payload 9001 60 64 32 0 0 0 0 0 0 0 0 0 0 0 0 0 0 0 0.
Definition demo_connected : ClientState := (receive_server_config sample_state (demo_config 1 7 64 4) demo_hello 5).1.
Definition demo_session : ClientState := (start_session_tables demo_connected).1.
Definition demo_resized : ClientState :=
  (store_server_config_update demo_session (Some (encode (demo_config 2 8 96 6)))).1.

Definition no_others : other_threads := mk_other_threads id id id.
Definition all_well : apply_answers := mk_apply_answers true true true true 9.

Lemma id_behaves : well_behaved id.
Proof. by intros t Ht. Qed.

(** A display of 64 x 32 pixels becomes 96 pixels wide. *)
Lemma configuration_well_formed_witness :
  session_ok demo_session /\
  let '(s, reset, applied) := apply_pending_server_config demo_resized no_others all_well in
  session_ok s /\ s.(cs_config).(sc_width) = 96 /\ zlen s.(cs_received_generation) = 12 /\
  reset = true /\ applied = Some (mk_wd_config_applied_payload 3 99 2).
Proof.
  destruct (configuration_well_formed sample_state (demo_config 1 7 64 4) demo_hello 5 demo_connected demo_session true)
    as (_ & H1 & H2); [repeat split; vm_compute; congruence | done | by apply new_queue_ok | done | by vm_compute | by vm_compute |].
  split; [done |].
  destruct (H2 demo_session H1) as [Hstore _]. destruct (Hstore (encode (demo_config 2 8 96 6)) (encode_ok _)) as (H3 & _).
  destruct (H2 _ H3) as [_ Happly]. specialize (Happly no_others all_well (conj id_behaves (conj id_behaves id_behaves))).
  fold demo_resized in Happly.
  assert ((let '(s, reset, applied) := apply_pending_server_config demo_resized no_others all_well in
    (s.(cs_config).(sc_width), zlen s.(cs_received_generation), reset, applied)) =
    (96, 12, true, Some (mk_wd_config_applied_payload 3 99 2))) as E by by vm_compute.
  destruct (apply_pending_server_config demo_resized no_others all_well) as [[s reset] applied].
  destruct Happly as [Hok _]. split; [done |]. by injection E.
Defined.

(** The network thread stores an update after the renderer found its own still
    waiting. *)
Definition store_between (payload : list Z) : other_threads :=
  mk_other_threads id (fun t => (store_server_config_update t (Some payload)).1) id.

(** C28: The test for a newer configuration and the commit hold the
    configuration's lock one after the other, not together: a newer configuration
    that is stored in between is kept as the pending one but no longer marked as
    waiting, so it is never applied nor acknowledged. *)
Theorem newer_configuration_dropped s payload newer :
  session_ok s -> s.(cs_pending_config_valid) = true ->
  client_config_change_requires_stream_reset (client_classify_server_config_change s.(cs_config) s.(cs_pending_config)) = true ->
  (store_server_config_update s (Some payload)).1.(cs_pending_config) = newer -> newer <> s.(cs_pending_config) ->
  let '(s', reset, applied) := apply_pending_server_config s (store_between payload) all_well in
  reset = true /\ acknowledges s' applied /\ s'.(cs_config) = s.(cs_pending_config) /\
  s'.(cs_pending_config) = newer /\ s'.(cs_pending_config_valid) = false /\
  forall others answers, apply_pending_server_config s' others answers = (s', false, NULL).
Proof.
  intros Hs Hv Hreset Hnew Hne. pose proof (so_pending _ Hs Hv) as U. destruct (cu_identity _ U) as (I1 & _ & Hce & _ & I5).
  unfold apply_pending_server_config at 1. rewrite Hv, (usable_validates _ U). cbn [negb store_between ot_read ot_checked ot_committed id].
  cbv zeta. rewrite bool_decide_true, Hreset by done. cbn [negb].
  destruct (usable_grid s.(cs_pending_config) no_dirty_tiles U) as (g & -> & _).
  cbn [negb orb andb all_well aa_textures_created aa_transport_reconfigured aa_connected aa_sent aa_now_ns].
  rewrite Hv, bool_decide_true by done. cbn [negb orb]. rewrite andb_false_r.
  set (s1 := (store_server_config_update s (Some payload)).1) in *. clearbody s1.
  unfold client_reset_content_epoch. apply Z.eqb_neq in Hce. rewrite Hce.
  unfold client_send_config_applied. rewrite (proj2 (Z.eqb_neq _ 0) I1), (proj2 (Z.eqb_neq _ 0)) by lia. cbn [negb orb].
  set (s2 := take_content _ _ _).
  assert (s2.(cs_config) = s.(cs_pending_config) /\ s2.(cs_pending_config) = newer /\ s2.(cs_pending_config_valid) = false)
    as (E1 & E2 & E3).
  { unfold s2, take_content, commit_server_config, reset_retransmit_tables, adopt_media_clock. rewrite <- Hnew. by case_if. }
  split_and!; try done. intros a [= <-]. by rewrite E1.
Qed.

(** While the display grows to 96 pixels, an update to 112 pixels arrives. *)
Lemma newer_configuration_dropped_witness :
  let '(s, _, applied) := apply_pending_server_config demo_resized (store_between (encode (demo_config 3 9 112 7))) all_well in
  applied = Some (mk_wd_config_applied_payload 3 99 2) /\ s.(cs_pending_config) = demo_config 3 9 112 7 /\
  s.(cs_pending_config_valid) = false.
Proof.
  assert (session_ok demo_resized) as Hs.
  { assert (receive_server_config sample_state (demo_config 1 7 64 4) demo_hello 5 = (demo_connected, true)) as E by by vm_compute.
    assert (config_decoded (demo_config 1 7 64 4)) as D by (repeat split; vm_compute; congruence).
    destruct (receive_config_ok _ _ _ _ _ D E) as (U & Ec & Ep).
    destruct (start_tables_ok demo_connected) as (s & Es & Hs & _);
      [done | by rewrite Ep | by rewrite Ec; apply new_queue_ok | by rewrite Ec |].
    unfold demo_resized. apply store_update_ok; [| apply encode_ok]. unfold demo_session. by rewrite Es. }
  pose proof (newer_configuration_dropped demo_resized (encode (demo_config 3 9 112 7)) (demo_config 3 9 112 7) Hs) as H.
  destruct (apply_pending_server_config demo_resized (store_between _) all_well) as [[s r] applied] eqn:E.
  destruct H as (_ & _ & _ & H4 & H5 & _); [by vm_compute | by vm_compute | by vm_compute | by vm_compute |].
  split_and!; [| done | done]. vm_compute in E. by injection E as <- _ <-.
Defined.
