(* ===== verification/ClientReceive.v ===== *)
(** * The receive thread of the client

    src/client/client_receive.cpp: from a datagram to a tile waiting for the
    renderer.  A datagram that passes the tests may advance the content epoch;
    the tile it completes is put into the queue before the renderer, or into the
    framebuffer when the queue is full, and its base tiles count as received.

    The datagrams taken from the asynchronous receiver are a list; the buffers
    the renderer gives back are an argument.  What the other threads do while a
    lock is released is part of the input: between the two critical sections of
    [remote_content_mutex] in [process_udp_datagram], and between the parts of a
    round, where [udp_processing_mutex] is not held.  Telemetry (the statistics batch, the
    timestamps of packets, [pending_tile_telemetry]) and wake-ups are left out.
    A write outside the framebuffer gives [None].  The library zstd is a
    parameter, as in TileReassembly.

    [client_memory_safe]: whatever is received, every table keeps its shape and
    nothing is written out of bounds.  [presented_tiles_current]: a tile the
    renderer accepts belongs to the newest content epoch, also when another
    thread replaces the content while the tile is completed. *)
From S2P Require Import Prelude CFloat Wire Config Structs Payload TileGrid RenderPlanning ClientOwnership PresentQueue ClientState ContentOrder UdpTile TileReassembly ClientRepair ClientConfig.

Record ClientReceiveState := mk_ClientReceiveState {
  rs_reassembler : TileReassembler;
  rs_observed_config_generation : Z;
}.
#[export] Instance ClientReceiveState_eta : Eta ClientReceiveState := fun s =>
  mk_ClientReceiveState s.(rs_reassembler) s.(rs_observed_config_generation).

(** ** A tile's place in the framebuffer *)

Definition tile_upload_geometry (config : wd_server_config_payload) (tile_id tile_width tile_height tile_bytes : Z)
    : option ClientDirtyRect :=
  let tiles_x := wd_tiles_for_width_with_tile config.(sc_width) tile_width in
  let tiles_y := wd_tiles_for_height_with_tile config.(sc_height) tile_height in
  let total_tiles := u32 (tiles_x * tiles_y) in
  if (tile_width =? 0) || (tile_height =? 0) || (tiles_x =? 0) || (tiles_y =? 0) || (tile_id >=? total_tiles) then None
  else
    let tile_x := tile_id mod tiles_x in
    let tile_y := tile_id / tiles_x in
    let dst_x := u32 (tile_x * tile_width) in
    let dst_y := u32 (tile_y * tile_height) in
    let expected_size := u64 (u64 (tile_width * tile_height) * WD_BYTES_PER_PIXEL) in
    if (tile_bytes <? expected_size) || (dst_x >=? config.(sc_width)) || (dst_y >=? config.(sc_height)) then None
    else
      let rect := mk_ClientDirtyRect (u16 dst_x) (u16 dst_y) (u16 (Z.min tile_width (u32 (config.(sc_width) - dst_x))))
                    (u16 (Z.min tile_height (u32 (config.(sc_height) - dst_y)))) in
      if (rect.(cr_w) =? 0) || (rect.(cr_h) =? 0) then None else Some rect.

(** [memcpy] of [w] pixels from byte [off] of the tile. *)
Definition pixel_row (tile_bytes : list Z) (off w : Z) : list Z :=
  (fun k => le_value (slice (off + k * WD_BYTES_PER_PIXEL) WD_BYTES_PER_PIXEL tile_bytes)) <$> zseq w.

Definition blit_row (config : wd_server_config_payload) (tile_width : Z) (tile_bytes : list Z) (rect : ClientDirtyRect)
    (framebuffer : list Z) (y : Z) : option (list Z) :=
  let src := u64 (u64 (y * tile_width) * WD_BYTES_PER_PIXEL) in
  let dst := u64 (u64 (u32 (rect.(cr_y) + y) * config.(sc_width)) + rect.(cr_x)) in
  if (src + rect.(cr_w) * WD_BYTES_PER_PIXEL <=? zlen tile_bytes) && (dst + rect.(cr_w) <=? zlen framebuffer)
  then Some (write_at dst (pixel_row tile_bytes src rect.(cr_w)) framebuffer) else None.

Definition blit_tile_xrgb8888 (config : wd_server_config_payload) (tile_width : Z) (tile_bytes : list Z)
    (rect : ClientDirtyRect) (framebuffer : list Z) : option (list Z * bool) :=
  if zlen framebuffer <? u64 (config.(sc_width) * config.(sc_height)) then Some (framebuffer, false)
  else
    framebuffer ← foldl (fun fb y => fb ← fb; blit_row config tile_width tile_bytes rect fb y) (Some framebuffer)
                    (zseq rect.(cr_h));
    Some (framebuffer, true).

Definition client_has_pending_server_config (state : ClientState) : bool := state.(cs_pending_config_valid).

Section zstd.
Context (ZSTD_compressBound : Z -> Z) (ZSTD_decompress : list Z -> Z -> option (list Z)).

Local Notation process_udp_packet := (process_udp_packet ZSTD_compressBound ZSTD_decompress).
Local Notation recycle := recycle_completed_tile_buffer.

(** ** A completed tile *)

Definition set_content (state : ClientState) (content : ClientContent) : ClientState := state <| cs_content := content |>.

Definition upload_of (completed : CompletedTile) (rect : ClientDirtyRect) (content : ClientContent) : ClientTileUpload :=
  mk_ClientTileUpload rect (client_tile_upload_epoch (ownership_of content)) completed.(ct_generation)
    (u32 (completed.(ct_tile_width) * WD_BYTES_PER_PIXEL)) completed.(ct_tile_bytes).(vec_data).

(** The fallback when the queue rejects the tile; the last result is false where
    the function returns early. *)
Definition blit_completed (state : ClientState) (tr : TileReassembler) (completed : CompletedTile) (rect : ClientDirtyRect)
    : option (ClientState * TileReassembler * bool) :=
  let content := state.(cs_content) in
  '(framebuffer, ok) ← blit_tile_xrgb8888 state.(cs_config) completed.(ct_tile_width) completed.(ct_tile_bytes).(vec_data)
                         rect content.(cc_framebuffer);
  let content := content <| cc_framebuffer := framebuffer |> in
  let tr := recycle tr completed.(ct_tile_bytes) in
  if negb ok then
    Some (fetch_add st_udp_invalid_blit 1 (fetch_add st_udp_ignored_invalid 1 (set_content state content)), tr, false)
  else
    let '(grid, marked) := mark_rect content.(cc_pending_dirty_tiles) rect in
    let content := content <| cc_pending_dirty_tiles := grid |> in
    if negb marked then
      Some (fetch_add st_udp_invalid_dirty_grid 1 (fetch_add st_udp_ignored_invalid 1 (set_content state content)), tr, false)
    else
      let content :=
        content <| cc_pending_dirty_rect_count := dirty_tile_count grid |>
                <| cc_pending_dirty_epoch := (ownership_of content).(os_epoch) |> in
      Some (set_content state content, tr, true).

(** The part of [process_udp_datagram] after the reassembler, under the content
    lock. *)
Definition present_completed (state : ClientState) (tr : TileReassembler) (completed : CompletedTile)
    : option (ClientState * TileReassembler) :=
  let content := state.(cs_content) in
  if negb (completed.(ct_content_epoch) =? content.(cc_remote_content_epoch)) ||
     negb (bool_decide (content.(cc_remote_content_owner) = WD_CLIENT_CONTENT_OWNER_TILES))
  then Some (fetch_add st_udp_ignored_stale_epoch 1 state, recycle tr completed.(ct_tile_bytes))
  else
    match tile_upload_geometry state.(cs_config) completed.(ct_tile_id) completed.(ct_tile_width) completed.(ct_tile_height)
            (zlen completed.(ct_tile_bytes).(vec_data)) with
    | None => Some (fetch_add st_udp_invalid_blit 1 (fetch_add st_udp_ignored_invalid 1 state),
                    recycle tr completed.(ct_tile_bytes))
    | Some rect =>
        let '(queue, push_result) := present_queue_push content.(cc_tile_present_queue) (upload_of completed rect content) in
        '(state, tr, present) ←
          match push_result with
          | Push_Queued =>
              Some (set_content state (content <| cc_tile_present_queue := queue |>
                                               <| cc_pending_tile_upload_count := zlen queue.(pq_uploads) |>), tr, true)
          | Push_Superseded => Some (state, recycle tr completed.(ct_tile_bytes), true)
          | Push_Rejected => blit_completed state tr completed rect
          end;
        Some (if (present : bool) then mark_completed_base_generations state completed else state, tr)
    end.

(** ** A datagram *)

(** [accepted] and [processed]: what the other threads did after the first
    section of the content lock (in [client_accept_content_epoch]) and after the
    reassembler, before the second section. *)
Definition process_udp_datagram (state : ClientState) (tr : TileReassembler) (packet : ptr (list Z))
    (now_ns repair_ns done_ns : Z) (accepted processed : ClientState -> ClientState)
    : option (ClientState * TileReassembler) :=
  match packet with
  | NULL => Some (fetch_add st_udp_invalid_short 1 (fetch_add st_udp_ignored_invalid 1 state), tr)
  | Some bytes =>
      if zlen bytes <? WD_UDP_TILE_HEADER_MIN_SIZE
      then Some (fetch_add st_udp_invalid_short 1 (fetch_add st_udp_ignored_invalid 1 state), tr)
      else
        match wd_udp_tile_packet_decode bytes with
        | None => Some (fetch_add st_udp_invalid_header 1 (fetch_add st_udp_ignored_invalid 1 state), tr)
        | Some udp_header =>
            if (udp_header.(ud_tile_id) =? WD_UDP_TILE_ID_MTU_PROBE) ||
               (udp_header.(ud_tile_id) =? WD_UDP_TILE_ID_THROUGHPUT_PROBE)
            then Some (fetch_add st_udp_ignored_probe 1 state, tr)
            else
              let config := state.(cs_config) in
              if (config.(sc_session_id) =? 0) || negb (udp_header.(ud_session_id) =? config.(sc_session_id)) ||
                 negb (udp_header.(ud_connection_token) =? config.(sc_connection_token))
              then Some (fetch_add st_udp_ignored_stale_session 1 state, tr)
              else
                let udp_payload_target :=
                  if negb (config.(sc_udp_payload_target) =? 0) then config.(sc_udp_payload_target) else WD_UDP_PAYLOAD_TARGET in
                match validate_tile_packet_header ZSTD_compressBound udp_header (zlen bytes) udp_payload_target config with
                | Identity => Some (fetch_add st_udp_ignored_stale_session 1 state, tr)
                | Geometry => Some (fetch_add st_udp_invalid_geometry 1 (fetch_add st_udp_ignored_invalid 1 state), tr)
                | Fragment => Some (fetch_add st_udp_invalid_fragment 1 (fetch_add st_udp_ignored_invalid 1 state), tr)
                | Valid =>
                    let '(state, content_decision) :=
                      client_accept_content_epoch state udp_header.(ud_content_epoch) WD_CLIENT_CONTENT_OWNER_TILES in
                    if bool_decide (content_decision = Stale)
                    then Some (fetch_add st_udp_ignored_stale_epoch 1 state, tr)
                    else
                      let state := accepted state in
                      tr ← if bool_decide (content_decision = Advanced) then reset ZSTD_compressBound tr else Some tr;
                      '(completed, state, tr) ← process_udp_packet state tr packet now_ns repair_ns done_ns;
                      let state := processed state in
                      if negb completed.(ct_valid) then Some (state, tr) else present_completed state tr completed
                end
        end
  end.

Definition handle_async_udp_packet (state : ClientState) (tr : TileReassembler) (packet : ptr (list Z))
    (now_ns repair_ns done_ns : Z) (accepted processed : ClientState -> ClientState)
    : option (ClientState * TileReassembler) :=
  if client_has_pending_server_config state then Some (state, tr)
  else process_udp_datagram state tr packet now_ns repair_ns done_ns accepted processed.

(** ** The other threads

    The control connection stores summaries and configurations, the decoder
    accepts video content, the renderer takes the waiting tiles and applies a
    configuration, a stream of video begins or ends. *)
Inductive other_event :=
  | Ev_announced (payload : list Z) (now_ns : Z)
  | Ev_update (payload : list Z)
  | Ev_content (epoch : Z) (owner : wd_client_content_owner)
  | Ev_stream (op : ownership_op)
  | Ev_drain
  | Ev_apply (others : other_threads) (answers : apply_answers).

Definition drained (s : ClientState) : ClientState :=
  set_content s (s.(cs_content) <| cc_tile_present_queue := (present_queue_drain s.(cs_content).(cc_tile_present_queue)).2 |>).

Definition run_event (sort_candidates : list SummaryRepairCandidate -> list SummaryRepairCandidate) (s : ClientState)
    (e : other_event) : ClientState :=
  match e with
  | Ev_announced payload now_ns => queue_retransmits_from_summary sort_candidates s payload now_ns
  | Ev_update payload => (store_server_config_update s (Some payload)).1
  | Ev_content epoch owner => (client_accept_content_epoch s epoch owner).1
  | Ev_stream op =>
      set_content s (s.(cs_content) <| cc_stream_ownership := (atomically op s.(cs_content).(cc_stream_ownership)).2 |>)
  | Ev_drain => drained s
  | Ev_apply others answers => (apply_pending_server_config s others answers).1.1
  end.

Definition run_events (sort_candidates : list SummaryRepairCandidate -> list SummaryRepairCandidate)
    (events : list other_event) (s : ClientState) : ClientState :=
  fold_left (run_event sort_candidates) events s.

(** [udp_processing_mutex], held while a datagram is handled, keeps a
    configuration from being applied. *)
Definition beside_datagram (e : other_event) : bool := match e with Ev_apply _ _ => false | _ => true end.

(** ** The receive thread *)

(** A datagram, the times read while it is handled, and what the other threads
    did meanwhile. *)
Record received_datagram := mk_received_datagram {
  dg_packet : list Z;
  dg_now_ns : Z;
  dg_repair_ns : Z;
  dg_done_ns : Z;
  dg_accepted : list other_event;
  dg_processed : list other_event;
}.

Definition drain_udp (sort_candidates : list SummaryRepairCandidate -> list SummaryRepairCandidate) (state : ClientState) (tr : TileReassembler) (recycled : list vec) (datagrams : list received_datagram)
    : option (ClientState * TileReassembler) :=
  foldl (fun acc d => '(state, tr) ← acc;
           handle_async_udp_packet state tr (Some d.(dg_packet)) d.(dg_now_ns) d.(dg_repair_ns) d.(dg_done_ns)
             (run_events sort_candidates d.(dg_accepted)) (run_events sort_candidates d.(dg_processed)))
    (Some (state, fold_left recycle recycled tr)) datagrams.

(** What a round of the service meets: buffers from the renderer, datagrams, the
    receiver's answer ([None] where there is no receiver), the times, the
    answer of the control channel, and what the other threads did after the test
    of the generation, the drain, the expiry and the promotion. *)
Record service_input := mk_service_input {
  si_recycled : list vec;
  si_datagrams : list received_datagram;
  si_receiver : option bool;
  si_expire_ns : Z;
  si_repair_ns : Z;
  si_now_ns : Z;
  si_connected : bool;
  si_sent : bool;
  si_checked : list other_event;
  si_emptied : list other_event;
  si_expired : list other_event;
  si_promoted : list other_event;
}.

Definition promote_when_due (sort_candidates : list SummaryRepairCandidate -> list SummaryRepairCandidate)
    (state : ClientState) (now_ns : Z) : ClientState :=
  if (state.(cs_next_summary_promote_ns) =? 0) || (now_ns >=? state.(cs_next_summary_promote_ns))
  then (client_promote_deferred_summary_retransmits sort_candidates state now_ns)
         <| cs_next_summary_promote_ns := u64 (now_ns + WD_CLIENT_SUMMARY_PROMOTE_INTERVAL_NS) |>
  else state.

Definition client_udp_next_deadline_ns (state : ClientState) (tr : TileReassembler) (now_ns : Z) : Z :=
  let deadline_ns := u64 (now_ns + WD_CLIENT_MAX_IDLE_WAIT_NS) in
  let reassembly_deadline_ns := next_expiry_deadline_ns tr state in
  let deadline_ns :=
    if negb (reassembly_deadline_ns =? 0) && (reassembly_deadline_ns <? deadline_ns) then reassembly_deadline_ns else deadline_ns in
  let promote_ns := state.(cs_next_summary_promote_ns) in
  let deadline_ns :=
    if (promote_ns =? 0) || (promote_ns <=? now_ns) then now_ns
    else if promote_ns <? deadline_ns then promote_ns else deadline_ns in
  if null state.(cs_retx_queue) then deadline_ns else now_ns.

Definition client_receive_state_create (state : ClientState) (tr : TileReassembler) : ClientReceiveState :=
  mk_ClientReceiveState tr state.(cs_client_config_generation).

Definition client_receive_udp_paused (state : ClientState) : bool := client_has_pending_server_config state.

Definition client_receive_udp_deadline_ns (state : ClientState) (receive_state : ClientReceiveState) (now_ns : Z) : Z :=
  if client_has_pending_server_config state then u64 (now_ns + WD_CLIENT_CONFIG_SYNC_WAIT_NS)
  else client_udp_next_deadline_ns state receive_state.(rs_reassembler) now_ns.

Definition client_receive_udp_service (sort_candidates : list SummaryRepairCandidate -> list SummaryRepairCandidate)
    (state : ClientState) (receive_state : ClientReceiveState) (input : service_input)
    : option (ClientState * ClientReceiveState * list wd_tile_repair_entry * bool) :=
  let current_generation := state.(cs_client_config_generation) in
  receive_state ←
    (if negb (current_generation =? receive_state.(rs_observed_config_generation)) then
       tr ← reset ZSTD_compressBound receive_state.(rs_reassembler); Some (mk_ClientReceiveState tr current_generation)
     else Some receive_state);
  let state := run_events sort_candidates input.(si_checked) state in
  if client_has_pending_server_config state then Some (state, receive_state, [], true)
  else
    match input.(si_receiver) with
    | None =>
        Some (state, receive_state <| rs_reassembler := fold_left recycle input.(si_recycled) receive_state.(rs_reassembler) |>,
              [], false)
    | Some drained =>
        '(state, tr) ← drain_udp sort_candidates state receive_state.(rs_reassembler) input.(si_recycled) input.(si_datagrams);
        if negb drained then Some (state, receive_state <| rs_reassembler := tr |>, [], false)
        else
          let state := run_events sort_candidates input.(si_emptied) state in
          '(state, tr) ← expire_stale_entries ZSTD_compressBound state tr input.(si_expire_ns) input.(si_repair_ns);
          let receive_state := receive_state <| rs_reassembler := tr |> in
          let state := run_events sort_candidates input.(si_expired) state in
          let state := promote_when_due sort_candidates state input.(si_now_ns) in
          let state := run_events sort_candidates input.(si_promoted) state in
          '(state, entries, _, ok) ← client_flush_retransmit_requests state input.(si_connected) input.(si_sent) input.(si_now_ns);
          Some (state, receive_state, entries, ok)
    end.

(** ** Tiles of the reassembler *)

(** The dimensions of an entry are those of its size code. *)
Definition tile_known (e : Entry) : Prop :=
  wd_tile_dimensions_for_size_code e.(en_tile_size) = Some (e.(en_tile_width), e.(en_tile_height)) /\ 0 <= e.(en_tile_id).

Definition reassembler_ok (tr : TileReassembler) : Prop := reasm_ok tr /\ Forall tile_known tr.(tr_active_entries).

Definition completed_known (c : CompletedTile) : Prop :=
  (exists code, wd_tile_dimensions_for_size_code code = Some (c.(ct_tile_width), c.(ct_tile_height))) /\ 0 <= c.(ct_tile_id).

Lemma dimension_cases code w h : wd_tile_dimensions_for_size_code code = Some (w, h) -> 16 <= w <= 128 /\ 16 <= h <= 128.
Proof.
  unfold wd_tile_dimensions_for_size_code. intros H. repeat case_if_in H; bool_cases; try done; injection H as <- <-;
    by vm_compute.
Qed.

Local Notation stored := (stored ZSTD_decompress).
Local Notation received := (received ZSTD_decompress).
Local Notation processed := (processed ZSTD_decompress).

Lemma Forall_sub {A} (P : A -> Prop) l k : (forall x, x ∈ l -> x ∈ k) -> Forall P k -> Forall P l.
Proof. rewrite !list.Forall_forall. auto. Qed.

Lemma stored_tile h payload target n e c o : stored h payload target n e c o -> tile_known e ->
  (c.(ct_valid) = true -> completed_known c) /\ (forall e', o = Some e' -> tile_known e').
Proof.
  assert (forall e, tile_known e -> tile_known (note_first h e)) as Hn by (intros e0 He; unfold note_first; by case_if).
  intros Hs He. specialize (Hn e He). destruct Hs; split; try done; try (by intros ? [= <-]).
  - intros ? [= <-]. by subst.
  - intros _. subst. destruct Hn as [H7 H8]. split; [by exists (en_tile_size (note_first h e)) | done].
Qed.

Lemma received_tiles h packet target w hh n now active c active' :
  decoded_ok h -> tile_dimensions_from_header h = Some (w, hh) -> Forall tile_known active ->
  received h packet target w hh n now active c active' ->
  Forall tile_known active' /\ (c.(ct_valid) = true -> completed_known c).
Proof.
  intros Hok Hdim HF Hr. rewrite list.Forall_forall in HF.
  inversion Hr as [a Hsub|active1 i e ? o Hi Hcur He Hsrc Hoth Hst]; subst.
  { split; [| done]. rewrite list.Forall_forall. auto. }
  assert (tile_known e) as Hk.
  { destruct Hsrc as [?|[cap ->]]; [by apply HF |]. split; [exact Hdim |].
    unfold decoded_ok, fits in Hok. destruct_and! Hok. cbn [fresh_entry en_tile_id]. mlia. }
  assert (forall x, x ∈ active1 -> tile_known x) as H1 by (intros x [->|Hx]%Hoth; auto).
  destruct (stored_tile _ _ _ _ _ _ _ Hst Hk) as [Hc Ho]. split; [| done].
  rewrite list.Forall_forall. destruct o as [e'|].
  - intros x [->|Hx]%elem_of_insert_inv; [by apply Ho | auto].
  - intros x Hx. apply H1. rewrite (swap_remove_perm _ _ _ Hi). by constructor.
Qed.

Lemma processed_tiles s tr packet now c s' tr' : processed s tr packet now c s' tr' ->
  Forall tile_known tr.(tr_active_entries) ->
  reassembler_ok tr' /\ (c.(ct_valid) = true -> completed_known c).
Proof.
  intros (R & _ & _ & _ & [[-> Hsub] | (bytes & h & w & hh & active & _ & _ & Hdim & F & Hsub & Hrec)]) HF.
  - split; [| done]. split; [done |]. rewrite list.Forall_forall in *. auto.
  - destruct (received_tiles _ _ _ _ _ _ _ _ _ _ (fr_header _ _ _ F) Hdim (Forall_sub _ _ _ Hsub HF) Hrec). by split; [split |].
Qed.

(** A tile belongs to the content epoch of the fragment that completed it. *)
Lemma stored_epoch h payload target n e c o : stored h payload target n e c o -> entry_current h e ->
  c.(ct_valid) = true -> c.(ct_content_epoch) = h.(ud_content_epoch).
Proof.
  intros Hs (_ & _ & Ee & _) Hv. destruct Hs; try done. subst e'. cbn [ct_content_epoch]. rewrite <- Ee.
  unfold add_fragment, note_first. by case_if.
Qed.

Lemma processed_epoch s tr bytes now c s' tr' : processed s tr (Some bytes) now c s' tr' -> c.(ct_valid) = true ->
  exists h, wd_udp_tile_packet_decode bytes = Some h /\ c.(ct_content_epoch) = h.(ud_content_epoch).
Proof.
  intros (_ & _ & _ & _ & [[-> _] | (bytes' & h & w & hh & active & [= <-] & Hd & _ & _ & _ & Hrec)]) Hv; [done |].
  exists h. split; [done |]. inversion Hrec; subst; [done |]. by eapply stored_epoch.
Qed.

(** What leaves the reassembler as it was, or smaller. *)
Lemma recycled_ok tr buffer : reassembler_ok tr -> reassembler_ok (recycle tr buffer).
Proof.
  intros [[S HF] HT]. destruct (recycle_buffer_ok tr buffer S) as (S' & _ & Ha).
  unfold reassembler_ok, reasm_ok. by rewrite Ha.
Qed.

Lemma recycled_all_ok recycled : forall tr, reassembler_ok tr -> reassembler_ok (fold_left recycle recycled tr).
Proof. induction recycled as [|b recycled IH]; intros tr R; [done |]. by apply IH, recycled_ok. Qed.

Lemma reset_some tr : reassembler_ok tr -> exists tr', reset ZSTD_compressBound tr = Some tr' /\ reassembler_ok tr'.
Proof.
  intros [[S _] _]. destruct (reassembler_reset_ok ZSTD_compressBound tr S) as (tr' & E & R & Ha). exists tr'.
  split; [done |]. split; [done |]. rewrite Ha. constructor.
Qed.

Lemma expired_ok s tr now ns : reassembler_ok tr -> exists s' tr',
  expire_stale_entries ZSTD_compressBound s tr now ns = Some (s', tr') /\ reassembler_ok tr' /\ same_view s s'.
Proof.
  intros [R HT]. destruct (expire_stale_ok ZSTD_compressBound s tr now ns R) as (s' & tr' & E & Hk & Hv). exists s', tr'.
  split_and!; [done | | done]. split; [split; [apply Hk |] |]; (eapply shrinks_entries; [done |]); [apply R | done].
Qed.

(** ** Writing a tile *)

Lemma u16_of_small a m : 0 <= a <= m -> m <= UINT16_MAX -> u16 a = a.
Proof. intros. apply u16_small. mlia. Qed.

(** The tile's rectangle is inside the display and inside the tile. *)
Lemma upload_geometry config id tw th bytes rect :
  config_usable config -> 0 <= id -> 16 <= tw <= 128 -> 16 <= th <= 128 ->
  tile_upload_geometry config id tw th bytes = Some rect ->
  in_frame config.(sc_width) config.(sc_height) rect /\ rect.(cr_w) <= tw /\ rect.(cr_h) <= th /\ tw * th * 4 <= bytes.
Proof.
  intros U Hid Hw Hh. destruct (cu_display _ U) as [Dw Dh]. unfold WD_MAX_RENDER_WIDTH, WD_MAX_RENDER_HEIGHT in *.
  unfold tile_upload_geometry. rewrite tiles_for_height_same.
  destruct (tiles_cdiv config.(sc_width) tw) as [Ex Bx]; [done | lia |].
  destruct (tiles_cdiv config.(sc_height) th) as [Ey By]; [unfold WD_MAX_RENDER_WIDTH; lia | lia |].
  rewrite Ex, Ey. set (nx := cdiv (sc_width config) tw) in *. set (ny := cdiv (sc_height config) th) in *.
  assert (0 < nx * ny <= 256 * 256) by (split; [nia | apply Z.mul_le_mono_nonneg; lia]).
  assert (0 < tw * th <= 128 * 128) by (split; [nia | apply Z.mul_le_mono_nonneg; lia]).
  rewrite (u32_small (nx * ny)), !(u64_small (tw * th)) by mlia. rewrite u64_small by (unfold WD_BYTES_PER_PIXEL; mlia).
  case_if; [done |]. bool_cases.
  assert (0 <= id mod nx < nx) as Hx by (apply Z.mod_pos_bound; lia).
  assert (0 <= id / nx < ny) as Hy by (split; [apply Z.div_pos; lia | apply Z.div_lt_upper_bound; lia]).
  assert ((nx - 1) * tw < sc_width config <= nx * tw) as Cx by (apply (proj1 (cdiv_spec _ tw nx ltac:(lia))); reflexivity).
  assert ((ny - 1) * th < sc_height config <= ny * th) as Cy by (apply (proj1 (cdiv_spec _ th ny ltac:(lia))); reflexivity).
  set (x := id mod nx) in *. set (y := id / nx) in *. clearbody x y nx ny.
  assert (forall a n t m, 0 <= a < n -> 0 < t -> (n - 1) * t < m -> 0 <= a * t < m) as Hin.
  { intros a n t m Ha Ht Hm. split; [by apply Z.mul_nonneg_nonneg; lia |].
    pose proof (Z.mul_le_mono_nonneg_r a (n - 1) t ltac:(lia) ltac:(lia)). lia. }
  pose proof (Hin x nx tw _ Hx ltac:(lia) (proj1 Cx)). pose proof (Hin y ny th _ Hy ltac:(lia) (proj1 Cy)). clear Hin.
  rewrite !(u32_small (_ * _)) by mlia. case_if; [done |]. bool_cases.
  rewrite !(u32_small (_ - _)) by mlia. rewrite !(u16_small _) by mlia. case_if; [done |]. bool_cases.
  intros [= <-]. unfold in_frame, WD_BYTES_PER_PIXEL in *. cbn [cr_x cr_y cr_w cr_h] in *. lia.
Qed.

(** [blit_row] stays inside the framebuffer. *)
Lemma blit_row_ok config tw tile rect fb y :
  0 < config.(sc_width) <= 4096 -> 0 < config.(sc_height) <= 2160 -> in_frame config.(sc_width) config.(sc_height) rect ->
  16 <= tw <= 128 -> rect.(cr_w) <= tw -> 0 <= y < rect.(cr_h) -> (y * tw + tw) * 4 <= zlen tile -> rect.(cr_h) <= 128 ->
  zlen fb = config.(sc_width) * config.(sc_height) ->
  exists fb', blit_row config tw tile rect fb y = Some fb' /\ zlen fb' = zlen fb.
Proof.
  intros Dw Dh (F1 & F2 & F3 & F4 & F5 & F6) Hw Hr Hy Ht H128 Hz. unfold blit_row.
  assert (0 <= y * tw <= 128 * 128) by (split; [nia | apply Z.mul_le_mono_nonneg; lia]).
  rewrite (u32_small (_ + _)), (u64_small (y * tw)) by mlia. unfold WD_BYTES_PER_PIXEL.
  assert (0 <= (cr_y rect + y) * sc_width config <= 2160 * 4096) by (split; [nia | apply Z.mul_le_mono_nonneg; lia]).
  rewrite (u64_small ((_ + _) * _)), (u64_small (_ * 4)), (u64_small (_ + _)) by mlia.
  assert ((cr_y rect + y) * sc_width config + cr_x rect + cr_w rect <= zlen fb) by (rewrite Hz; nia).
  rewrite (proj2 (Z.leb_le _ _)), (proj2 (Z.leb_le _ _)) by lia. cbn [andb]. eexists. split; [done |].
  assert (zlen (pixel_row tile (y * tw * 4) (cr_w rect)) = cr_w rect) as Hp.
  { unfold pixel_row, zlen. rewrite length_fmap. apply zlen_zseq. lia. }
  apply zlen_write_at; lia.
Qed.

Lemma blit_ok config tw th tile rect fb :
  config_usable config -> in_frame config.(sc_width) config.(sc_height) rect -> 16 <= tw <= 128 -> 16 <= th <= 128 ->
  rect.(cr_w) <= tw -> rect.(cr_h) <= th -> tw * th * 4 <= zlen tile -> zlen fb = config.(sc_width) * config.(sc_height) ->
  exists fb', blit_tile_xrgb8888 config tw tile rect fb = Some (fb', true) /\ zlen fb' = zlen fb.
Proof.
  intros U F Hw Hh Rw Rh Ht Hz. destruct (cu_display _ U) as [Dw Dh]. unfold WD_MAX_RENDER_WIDTH, WD_MAX_RENDER_HEIGHT in *.
  unfold blit_tile_xrgb8888. assert (0 < sc_width config * sc_height config <= 4096 * 2160)
    by (split; [nia | apply Z.mul_le_mono_nonneg; lia]).
  rewrite u64_small, (proj2 (Z.ltb_ge _ _)) by mlia.
  assert (forall ys fb0, Forall (fun y => 0 <= y < rect.(cr_h)) ys -> zlen fb0 = zlen fb -> exists fb',
    foldl (fun fb y => fb ← fb; blit_row config tw tile rect fb y) (Some fb0) ys = Some fb' /\ zlen fb' = zlen fb) as Hall.
  { induction ys as [|y ys IH]; intros fb0 Hys Hz0; cbn [foldl]; [by exists fb0 |].
    apply list.Forall_cons in Hys as [Hy Hys]. cbn [mbind option_bind].
    destruct (blit_row_ok config tw tile rect fb0 y) as (fb1 & -> & Hz1); try done; [nia | lia | congruence |].
    apply IH; [done | congruence]. }
  destruct (Hall (zseq rect.(cr_h)) fb) as (fb' & -> & Hz'); [| done |].
  - rewrite list.Forall_forall. intros y Hy. by apply elem_of_zseq, list_elem_of_In.
  - exists fb'. by cbn [mbind option_bind].
Qed.

(** ** How the content goes on

    [content_forward k]: at most [k] changes of ownership happened, each with an
    ownership epoch of its own; so as long as that epoch is the same, the content
    epoch and its owner are. *)
Definition word_epoch (s : ClientState) : Z := epoch_of s.(cs_content).(cc_stream_ownership).

Definition content_forward (k : Z) (s s' : ClientState) : Prop :=
  0 <= word_epoch s -> word_epoch s + k < 2 ^ 63 ->
  word_epoch s <= word_epoch s' <= word_epoch s + k /\
  (word_epoch s' = word_epoch s ->
   s'.(cs_content).(cc_remote_content_epoch) = s.(cs_content).(cc_remote_content_epoch) /\
   s'.(cs_content).(cc_remote_content_owner) = s.(cs_content).(cc_remote_content_owner)).

(** What every operation of the client promises. *)
Record forward (k : Z) (s s' : ClientState) : Prop := {
  fw_session : session_ok s -> session_ok s';
  fw_content : content_forward k s s';
}.

Lemma content_trans j k a b c : 0 <= j -> 0 <= k -> content_forward j a b -> content_forward k b c -> content_forward (j + k) a c.
Proof.
  intros Hj Hk C1 C2 H0 H1. destruct C1 as [E1 R1]; [done | lia |]. destruct C2 as [E2 R2]; [lia | lia |]. split; [lia |].
  intros He. destruct R1 as [? ?]; [lia |]. destruct R2 as [? ?]; [lia |]. split; congruence.
Qed.

Lemma content_more j k s s' : j <= k -> content_forward j s s' -> content_forward k s s'.
Proof. intros Hk C H0 H1. destruct C as [E R]; [done | lia |]. split; [lia | done]. Qed.

(** Content that only gained or lost what waits to be presented. *)
Lemma content_still s s' :
  s'.(cs_content).(cc_stream_ownership) = s.(cs_content).(cc_stream_ownership) ->
  s'.(cs_content).(cc_remote_content_epoch) = s.(cs_content).(cc_remote_content_epoch) ->
  s'.(cs_content).(cc_remote_content_owner) = s.(cs_content).(cc_remote_content_owner) -> content_forward 0 s s'.
Proof. intros E1 E2 E3 H0 H1. unfold word_epoch in *. rewrite E1. split; [lia | done]. Qed.

Lemma forward_trans j k a b c : 0 <= j -> 0 <= k -> forward j a b -> forward k b c -> forward (j + k) a c.
Proof. intros Hj Hk [S1 C1] [S2 C2]. split; [auto | by apply (content_trans j k a b)]. Qed.

Lemma forward_more j k s s' : j <= k -> forward j s s' -> forward k s s'.
Proof. intros Hk [S C]. split; [done | by apply (content_more j)]. Qed.

Lemma forward_still s s' : (session_ok s -> session_ok s') ->
  s'.(cs_content).(cc_stream_ownership) = s.(cs_content).(cc_stream_ownership) ->
  s'.(cs_content).(cc_remote_content_epoch) = s.(cs_content).(cc_remote_content_epoch) ->
  s'.(cs_content).(cc_remote_content_owner) = s.(cs_content).(cc_remote_content_owner) -> forward 0 s s'.
Proof. intros Hs E1 E2 E3. split; [done | by apply content_still]. Qed.

Lemma forward_refl s : forward 0 s s.
Proof. by apply forward_still. Qed.

Lemma forward_frame s s' : s'.(cs_config) = s.(cs_config) -> session_setup s' = session_setup s ->
  (repair_ok s -> repair_ok s') -> forward 0 s s'.
Proof.
  intros Ec Es Er. assert (s'.(cs_content) = s.(cs_content)) as Hc by (unfold session_setup in Es; congruence).
  apply forward_still; rewrite ?Hc; try done. by apply session_frame.
Qed.

Lemma view_forward s s' : same_view s s' -> forward 0 s s'.
Proof. intros Hv. pose proof Hv as (Ec & _ & Es & _). apply forward_frame; [done | done |]. intros R. by apply (reassembly_keeps s s' Hv). Qed.

Lemma take_content_forward s epoch owner : forward 1 s (take_content s epoch owner).
Proof.
  split; [apply take_content_ok |]. intros H0 H1. unfold word_epoch in *.
  destruct (take_content_epoch s epoch owner H0 H1) as (-> & _). split; lia.
Qed.

Lemma accept_forward s epoch owner :
  let '(s', decision) := client_accept_content_epoch s epoch owner in
  forward 1 s s' /\ s'.(cs_config) = s.(cs_config) /\
  s'.(cs_content).(cc_tile_present_queue) = s.(cs_content).(cc_tile_present_queue) /\
  (decision <> Stale -> s'.(cs_content).(cc_remote_content_epoch) = epoch).
Proof.
  pose proof (accept_cases s epoch owner) as Hc. destruct (client_accept_content_epoch s epoch owner) as [s' decision].
  assert (forward 1 s s) as H1 by (apply (forward_more 0); [lia | apply forward_refl]).
  destruct decision.
  - subst s'. by split_and!.
  - destruct Hc as (-> & -> & _). by split_and!.
  - destruct Hc as [-> _]. split_and!; [apply take_content_forward | done | | done].
    unfold take_content, reset_pending_content_locked. by destruct (atomically _ _).
Qed.

(** ** Completed tiles *)

Lemma clear_completed_frame s b : let s' := clear_completed_repair_tracking_locked s b in
  s'.(cs_config) = s.(cs_config) /\ session_setup s' = session_setup s.
Proof.
  cbv zeta. unfold clear_completed_repair_tracking_locked. case_if; [done |]. set (r := aget 0 _ b).
  assert (forall s0, (forget_queued s0 b r).(cs_config) = s0.(cs_config) /\ session_setup (forget_queued s0 b r) = session_setup s0) as H1
    by (intros; unfold forget_queued; by case_if).
  assert (forall s0, (forget_inflight s0 b r).(cs_config) = s0.(cs_config) /\ session_setup (forget_inflight s0 b r) = session_setup s0) as H2
    by (intros; unfold forget_inflight; by case_if).
  assert (forall s0, (forget_requested s0 b r).(cs_config) = s0.(cs_config) /\ session_setup (forget_requested s0 b r) = session_setup s0) as H3
    by (intros; unfold forget_requested; by case_if).
  assert (forall s0, (forget_pending s0 b r).(cs_config) = s0.(cs_config) /\ session_setup (forget_pending s0 b r) = session_setup s0) as H4
    by (intros; unfold forget_pending; by case_if).
  split; etrans; [apply H4 | etrans; [apply H3 | etrans; [apply H2 | apply H1]] | apply H4 |
    etrans; [apply H3 | etrans; [apply H2 | apply H1]]].
Qed.

Lemma zlen_raise l i v : zlen (raise_at l i v) = zlen l.
Proof. unfold raise_at. case_if; [apply zlen_aset | done]. Qed.

Lemma mark_base_frame g s b : let s' := mark_base_generation g s b in
  s'.(cs_config) = s.(cs_config) /\
  session_setup s' = session_setup (s <| cs_content := s.(cs_content) <| cc_pending_present_generation :=
    raise_at s.(cs_content).(cc_pending_present_generation) b g |> |>).
Proof. exact (clear_completed_frame _ b). Qed.

Lemma mark_base_session g s b : 0 <= b < s.(cs_config).(sc_total_tiles) -> session_ok s -> session_ok (mark_base_generation g s b).
Proof.
  intros Hb Hs. destruct (mark_base_frame g s b) as [Ec Es]. cbv zeta in *.
  destruct (mark_base_keeps s g b Hb (so_repair _ Hs)) as (R & _ & _).
  unfold session_setup in Es. injection Es as E1 E2 E3 E4. cbn in E1, E2, E3, E4.
  destruct Hs as [A B C D [F1 F2] G H I J]. constructor; rewrite ?Ec, ?E1, ?E2, ?E3, ?E4; session_simpl; try done.
  rewrite zlen_raise. done.
Qed.

Lemma mark_completed_forward s completed : let s' := mark_completed_base_generations s completed in
  forward 0 s s' /\ s'.(cs_config) = s.(cs_config) /\
  exists p, s'.(cs_content) = s.(cs_content) <| cc_pending_present_generation := p |>.
Proof.
  unfold mark_completed_base_generations. remember (cs_config s) as config eqn:Ec.
  assert (0 <= config.(sc_total_tiles) <= UINT16_MAX -> forall b, b ∈ completed_base_tiles config completed ->
    0 <= b < config.(sc_total_tiles)) as Hr.
  { intros T b Hb. apply (completed_base_range config completed b T). by apply list_elem_of_In. }
  revert Hr. generalize (completed_base_tiles config completed) as l. intros l. revert s Ec.
  induction l as [|b l IH]; intros s Ec Hr; cbn [fold_left]; [split_and!; [apply forward_refl | done |]; exists s.(cs_content).(cc_pending_present_generation); by destruct s as [? ? ? ? ? ? ? ? ? ? ? ? ? ? ? ? ? ? ? ? ? ? ? ? ? ? ? ? ? ? ? ? [] ?] |].
  destruct (mark_base_frame completed.(ct_generation) s b) as [Ec1 Es1]. cbv zeta in *.
  set (s1 := mark_base_generation _ s b) in *.
  assert (session_ok s -> session_ok s1) as Hs1.
  { intros Hs. apply mark_base_session; [| done]. rewrite <- Ec. apply Hr; [| by left]. rewrite Ec.
    apply (to_total _ _ (so_repair _ Hs)). }
  assert (s1.(cs_content) = s.(cs_content) <| cc_pending_present_generation :=
    raise_at s.(cs_content).(cc_pending_present_generation) b completed.(ct_generation) |>) as E1
    by (unfold session_setup in Es1; by injection Es1).
  assert (forward 0 s s1) as F1 by (by apply forward_still; rewrite ?E1).
  destruct (IH s1) as (F2 & E2 & p & Q2); [congruence | intros T b' Hb'; apply Hr; [done | by right] |].
  split_and!; [by apply (forward_trans 0 0 s s1) | congruence | exists p; by rewrite Q2, E1].
Qed.

(** The content in force is the tiles of [epoch]. *)
Definition shows_tiles (epoch : Z) (s : ClientState) : Prop :=
  s.(cs_content).(cc_remote_content_epoch) = epoch /\ s.(cs_content).(cc_remote_content_owner) = WD_CLIENT_CONTENT_OWNER_TILES.

(** The uploads that wait in [s'] waited in [s], or were made with the ownership
    epoch of [s'] while the tiles of [epoch] are shown. *)
Definition uploads_current (epoch : Z) (s s' : ClientState) : Prop :=
  forall u, u ∈ s'.(cs_content).(cc_tile_present_queue).(pq_uploads) ->
    u ∈ s.(cs_content).(cc_tile_present_queue).(pq_uploads) \/
    u.(tu_ownership_epoch) = word_epoch s' /\ shows_tiles epoch s'.

Record presents (epoch : Z) (s s' : ClientState) : Prop := {
  ps_forward : forward 0 s s';
  ps_config : s'.(cs_config) = s.(cs_config);
  ps_uploads : uploads_current epoch s s';
}.

Lemma presents_still epoch s s' : forward 0 s s' -> s'.(cs_config) = s.(cs_config) ->
  s'.(cs_content).(cc_tile_present_queue) = s.(cs_content).(cc_tile_present_queue) -> presents epoch s s'.
Proof. intros F Ec Eq. split; [done | done |]. intros u Hu. left. by rewrite <- Eq. Qed.

(** Counting changes nothing. *)
Lemma presents_counted epoch s s' counter `{!FieldSetter counter} n :
  presents epoch s s' -> presents epoch s (fetch_add counter n s').
Proof.
  intros [F Ec Hu]. split; [| done | exact Hu]. apply (forward_trans 0 0 _ s'); [done | done | done |].
  by apply forward_frame.
Qed.

Lemma in_frame_u16 w h rect : w <= 4096 -> h <= 2160 -> in_frame w h rect -> rect_u16 rect.
Proof. unfold in_frame, rect_u16. intros. mlia. Qed.

Lemma word_epoch_ownership s : (ownership_of s.(cs_content)).(os_epoch) = word_epoch s.
Proof. done. Qed.

(** The fallback into the framebuffer. *)
Lemma blit_completed_ok s tr completed rect :
  session_ok s -> reassembler_ok tr -> completed_known completed ->
  in_frame s.(cs_config).(sc_width) s.(cs_config).(sc_height) rect ->
  rect.(cr_w) <= completed.(ct_tile_width) -> rect.(cr_h) <= completed.(ct_tile_height) ->
  completed.(ct_tile_width) * completed.(ct_tile_height) * 4 <= zlen completed.(ct_tile_bytes).(vec_data) ->
  exists s' tr' present, blit_completed s tr completed rect = Some (s', tr', present) /\ reassembler_ok tr' /\
    presents completed.(ct_content_epoch) s s'.
Proof.
  intros Hs R [[code Hcode] _] F Rw Rh Hbytes. destruct (dimension_cases _ _ _ Hcode) as [Bw Bh].
  destruct (blit_ok (cs_config s) (ct_tile_width completed) (ct_tile_height completed) (vec_data (ct_tile_bytes completed)) rect
    (cc_framebuffer (cs_content s)) (so_config _ Hs) F Bw Bh Rw Rh Hbytes (so_framebuffer _ Hs)) as (fb & E & Hz).
  unfold blit_completed. rewrite E. cbn [mbind option_bind negb].
  destruct (so_grid _ Hs) as [G D]. destruct (cu_display _ (so_config _ Hs)) as [Dw Dh].
  unfold WD_MAX_RENDER_WIDTH, WD_MAX_RENDER_HEIGHT in *.
  destruct (mark_rect_ok _ rect G (in_frame_u16 _ _ _ (proj2 Dw) (proj2 Dh) F)) as (G' & D' & _).
  cbn [cc_pending_dirty_tiles set_field]. destruct (mark_rect (cc_pending_dirty_tiles (cs_content s)) rect) as [g marked].
  cbn [fst] in *.
  assert (forall c, c.(cc_framebuffer) = fb -> dirty_grid_ok c.(cc_pending_dirty_tiles) ->
    dims c.(cc_pending_dirty_tiles) = dims (s.(cs_content).(cc_pending_dirty_tiles)) ->
    c.(cc_presented_generation) = s.(cs_content).(cc_presented_generation) ->
    c.(cc_pending_present_generation) = s.(cs_content).(cc_pending_present_generation) ->
    c.(cc_tile_present_queue) = s.(cs_content).(cc_tile_present_queue) ->
    c.(cc_stream_ownership) = s.(cs_content).(cc_stream_ownership) ->
    c.(cc_remote_content_epoch) = s.(cs_content).(cc_remote_content_epoch) ->
    c.(cc_remote_content_owner) = s.(cs_content).(cc_remote_content_owner) ->
    presents completed.(ct_content_epoch) s (set_content s c)) as Hset.
  { intros c C1 C2 C3 C4 C5 C6 C7 C8 C9. apply presents_still; try done. apply forward_still; try done. intros _.
    destruct Hs as [A B [_ C] H I J K L M]. constructor; unfold set_content; session_simpl; rewrite ?C1, ?C4, ?C5, ?C6; try done.
    - split; [done |]. by rewrite C3.
    - by rewrite Hz. }
  destruct marked; cbn [negb].
  - do 3 eexists. split; [reflexivity |]. split; [by apply recycled_ok |]. by apply Hset.
  - do 3 eexists. split; [reflexivity |]. split; [by apply recycled_ok |]. do 2 apply presents_counted. by apply Hset.
Qed.

Lemma present_completed_ok s tr completed :
  session_ok s -> reassembler_ok tr -> completed_known completed ->
  exists s' tr', present_completed s tr completed = Some (s', tr') /\ reassembler_ok tr' /\
    presents completed.(ct_content_epoch) s s'.
Proof.
  intros Hs R Hk. unfold present_completed. pose proof (recycled_ok tr (ct_tile_bytes completed) R) as R1.
  assert (presents completed.(ct_content_epoch) s s) as Hrefl by (by apply presents_still; [apply forward_refl | ..]).
  case_if; [do 2 eexists; split_and!; [reflexivity | done | by apply presents_counted] |].
  assert (shows_tiles completed.(ct_content_epoch) s) as Hshown
    by (apply orb_false_iff in E as [?%negb_false_iff%Z.eqb_eq ?%negb_false_iff%bool_decide_eq_true]; by split).
  destruct (tile_upload_geometry _ _ _ _ _) as [rect|] eqn:Eg;
    [| do 2 eexists; split_and!; [reflexivity | done | by do 2 apply presents_counted]].
  pose proof Hk as [[code Hcode] Hid]. destruct (dimension_cases _ _ _ Hcode) as [Bw Bh].
  destruct (upload_geometry _ _ _ _ _ _ (so_config _ Hs) Hid Bw Bh Eg) as (F & Rw & Rh & Hbytes).
  set (upload := upload_of completed rect (cs_content s)).
  pose proof (present_queue_push_ok _ upload (so_queue _ Hs)) as Hp.
  destruct (present_queue_push _ upload) as [queue result]. destruct Hp as [Hq Hp].
  assert (forall s1 present, presents completed.(ct_content_epoch) s s1 ->
    presents completed.(ct_content_epoch) s (if (present : bool) then mark_completed_base_generations s1 completed else s1)) as Hmark.
  { intros s1 present P. destruct present; [| done]. destruct (mark_completed_forward s1 completed) as (F2 & E2 & p & Q2).
    destruct P as [P1 P2 P4]. split; [by apply (forward_trans 0 0 s s1) | congruence |].
    intros u Hu. specialize (P4 u). unfold word_epoch, shows_tiles in *. rewrite Q2 in Hu |- *. by apply P4. }
  destruct result.
  - cbn [mbind option_bind]. do 2 eexists. split_and!; [reflexivity | done |]. apply (Hmark _ true).
    rename Hp into Eq. split.
    + apply forward_still; try done. intros _. destruct Hs as [A B C D H I J K L].
      constructor; unfold set_content; session_simpl; try done. rewrite Eq.
      rewrite list.Forall_forall in *. intros u [Hu| ->]%elem_of_replace_target; [by apply J | done].
    + done.
    + intros u. unfold set_content. session_simpl. rewrite Eq. intros [Hu| ->]%elem_of_replace_target; [by left | by right].
  - cbn [mbind option_bind]. do 2 eexists. split_and!; [reflexivity | done |]. by apply (Hmark _ true).
  - destruct (blit_completed_ok s tr completed rect Hs R Hk F Rw Rh Hbytes) as (s' & tr' & present & -> & R' & P).
    cbn [mbind option_bind]. do 2 eexists. split_and!; [reflexivity | done |]. by apply Hmark.
Qed.

(** ** Datagrams *)

(** What the other threads do while a datagram is handled: at most [k] changes of
    ownership, no other configuration, no further upload. *)
Definition beside_ok (k : Z) (f : ClientState -> ClientState) : Prop :=
  0 <= k /\ forall s, session_ok s -> forward k s (f s) /\ (f s).(cs_config) = s.(cs_config) /\
    forall u, u ∈ (f s).(cs_content).(cc_tile_present_queue).(pq_uploads) -> u ∈ s.(cs_content).(cc_tile_present_queue).(pq_uploads).

(** What a datagram did: a new upload is marked with the ownership epoch in
    force while the content of the datagram's header is shown. *)
Record datagram_handled (k : Z) (bytes : list Z) (s : ClientState) (s' : ClientState) (tr' : TileReassembler) : Prop := {
  dh_reassembler : reassembler_ok tr';
  dh_forward : forward k s s';
  dh_config : s'.(cs_config) = s.(cs_config);
  dh_uploads : forall u, u ∈ s'.(cs_content).(cc_tile_present_queue).(pq_uploads) ->
    u ∈ s.(cs_content).(cc_tile_present_queue).(pq_uploads) \/
    u.(tu_ownership_epoch) = word_epoch s' /\ exists h, wd_udp_tile_packet_decode bytes = Some h /\
      shows_tiles h.(ud_content_epoch) s';
}.

Lemma still_handled k bytes s tr s' : 0 <= k -> reassembler_ok tr -> forward 0 s s' -> s'.(cs_config) = s.(cs_config) ->
  s'.(cs_content).(cc_tile_present_queue) = s.(cs_content).(cc_tile_present_queue) -> datagram_handled k bytes s s' tr.
Proof. intros Hk R F Ec Eq. split; [done | by apply (forward_more 0) | done |]. rewrite Eq. by left. Qed.

Lemma counted_forward s counter `{!FieldSetter counter} n : forward 0 s (fetch_add counter n s).
Proof. by apply forward_frame. Qed.

Lemma counted2_forward s counter counter' `{!FieldSetter counter} `{!FieldSetter counter'} n n' :
  forward 0 s (fetch_add counter n (fetch_add counter' n' s)).
Proof. by apply forward_frame. Qed.

Lemma usable_ranges c : config_usable c -> config_ranges c.
Proof. apply payload_range. by vm_compute. Qed.

(** From the accepted fragment on. *)
Lemma accepted_ok k s tr bytes now ns done processed : session_ok s -> reassembler_ok tr -> bytes_ok bytes ->
  beside_ok k processed ->
  exists c s1 tr1, process_udp_packet s tr (Some bytes) now ns done = Some (c, s1, tr1) /\
  exists s' tr', (if negb c.(ct_valid) then Some (processed s1, tr1) else present_completed (processed s1) tr1 c) = Some (s', tr') /\
    datagram_handled k bytes s s' tr'.
Proof.
  intros Hs R Hb [Hk Hproc].
  destruct (process_ok ZSTD_compressBound ZSTD_decompress s tr (Some bytes) now ns done (proj1 R)
    (usable_ranges _ (so_config _ Hs))) as (c & s1 & tr1 & E & P); [by intros ? [= <-] |].
  exists c, s1, tr1. split; [exact E |]. destruct (processed_tiles _ _ _ _ _ _ _ P (proj2 R)) as [R1 Hknown].
  pose proof (processed_epoch _ _ _ _ _ _ _ P) as Hepoch. destruct P as (_ & Hv & _).
  pose proof (view_forward _ _ Hv) as F1. pose proof (fw_session _ _ _ F1 Hs) as Hs1.
  destruct Hv as (E1 & _ & Es & _). assert (s1.(cs_content) = s.(cs_content)) as Ec by (unfold session_setup in Es; congruence).
  destruct (Hproc s1 Hs1) as (F2 & E2 & U2). rewrite Ec in U2.
  assert (forward k s (processed s1)) as F by (by apply (forward_trans 0 k s s1)).
  destruct (ct_valid c) eqn:Ev; cbn [negb].
  - destruct (present_completed_ok (processed s1) tr1 c (fw_session _ _ _ F2 Hs1) R1 (Hknown eq_refl))
      as (s3 & tr3 & -> & R3 & [F3 E3 U3]). do 2 eexists. split; [reflexivity |]. split; [done | | congruence |].
    + rewrite <- (Z.add_0_r k). by apply (forward_trans k 0 s (processed s1)).
    + intros u Hu. destruct (U3 u Hu) as [?|[He Hsh]]; [left; by apply U2 | right]. split; [done |].
      destruct (Hepoch eq_refl) as (h & Hd & Eh). exists h. split; [done |]. by rewrite <- Eh.
  - do 2 eexists. split; [reflexivity |]. split; [done | done | congruence |]. intros u Hu. left. by apply U2.
Qed.

Lemma datagram_ok j k s tr bytes now ns done accepted processed :
  session_ok s -> reassembler_ok tr -> bytes_ok bytes -> beside_ok j accepted -> beside_ok k processed ->
  exists s' tr', process_udp_datagram s tr (Some bytes) now ns done accepted processed = Some (s', tr') /\
    datagram_handled (1 + j + k) bytes s s' tr'.
Proof.
  intros Hs R Hb [Hj Hacc] Hproc. pose proof (proj1 Hproc) as Hk. unfold process_udp_datagram.
  assert (0 <= 1 + j + k) as Hsum by lia.
  case_if; [do 2 eexists; split; [reflexivity | apply still_handled; try done; apply counted2_forward] |].
  destruct (wd_udp_tile_packet_decode bytes) as [h|] eqn:Ed;
    [| do 2 eexists; split; [reflexivity | apply still_handled; try done; apply counted2_forward]].
  case_if; [do 2 eexists; split; [reflexivity | apply still_handled; try done; apply counted_forward] |].
  case_if; [do 2 eexists; split; [reflexivity | apply still_handled; try done; apply counted_forward] |].
  destruct (validate_tile_packet_header _ _ _ _ _);
    [| do 2 eexists; split; [reflexivity | apply still_handled; try done; (apply counted_forward || apply counted2_forward)] ..].
  pose proof (accept_forward s h.(ud_content_epoch) WD_CLIENT_CONTENT_OWNER_TILES) as Ha.
  destruct (client_accept_content_epoch s _ _) as [s1 decision]. destruct Ha as (F1 & Ec1 & Eq1 & _).
  case_bool_decide as Est.
  { do 2 eexists. split; [reflexivity |]. split; [done | | done | rewrite <- Eq1; by left].
    apply (forward_more 1); [lia |]. apply (forward_trans 1 0 s s1); [done | done | done | by apply forward_frame]. }
  pose proof (fw_session _ _ _ F1 Hs) as Hs1. destruct (Hacc s1 Hs1) as (F2 & Ec2 & U2).
  pose proof (fw_session _ _ _ F2 Hs1) as Hs2. set (s2 := accepted s1) in *. clearbody s2.
  assert (exists tr1, (if bool_decide (decision = Advanced) then reset ZSTD_compressBound tr else Some tr) = Some tr1 /\
    reassembler_ok tr1) as (tr1 & Etr & R1) by (case_bool_decide; [by apply reset_some | by exists tr]).
  rewrite Etr. cbn [mbind option_bind].
  destruct (accepted_ok k s2 tr1 bytes now ns done processed Hs2 R1 Hb Hproc) as (c & s3 & tr3 & -> & s' & tr' & E' & [D1 D2 D3 D4]).
  cbn [mbind option_bind]. rewrite E'. exists s', tr'. split; [done |]. split; [done | | congruence |].
  - apply (forward_trans (1 + j) k s s2); [lia | done | | done]. by apply (forward_trans 1 j s s1).
  - intros u Hu. destruct (D4 u Hu) as [Hu2|?]; [left | by right]. rewrite <- Eq1. by apply U2.
Qed.

(** ** The rounds of the service *)

Lemma forward_then k s s1 s2 : 0 <= k -> forward k s s1 -> forward 0 s1 s2 -> forward k s s2.
Proof. intros Hk F1 F2. rewrite <- (Z.add_0_r k). by apply (forward_trans k 0 s s1). Qed.

(** A state after an operation, with its reassembler. *)
Definition goes_on (k : Z) (s s' : ClientState) (tr' : TileReassembler) : Prop := reassembler_ok tr' /\ forward k s s'.

Lemma frame_forward s s' : repair_ok s' -> repair_frame s s' -> forward 0 s s' /\ s'.(cs_config) = s.(cs_config).
Proof.
  intros R (Ec & _ & _ & _ & _ & _ & _ & _ & _ & Es). split; [| done]. by apply forward_frame.
Qed.

Context (sort_candidates : list SummaryRepairCandidate -> list SummaryRepairCandidate).
Context (sort_permutes : forall l, sort_candidates l ≡ₚ l).

Lemma promote_forward s now : session_ok s ->
  forward 0 s (promote_when_due sort_candidates s now) /\ (promote_when_due sort_candidates s now).(cs_config) = s.(cs_config).
Proof.
  intros Hs. unfold promote_when_due. case_if; [| split; [apply forward_refl | done]].
  destruct (promote_ok sort_candidates sort_permutes s now (so_repair _ Hs)) as (R & _ & F & _).
  destruct (frame_forward _ _ R F) as [F1 E1]. split; [| exact E1].
  apply (forward_trans 0 0 s (client_promote_deferred_summary_retransmits sort_candidates s now)); [done | done | done |].
  by apply forward_frame.
Qed.

Lemma flush_forward s connected sent now : session_ok s ->
  exists s' entries message ok, client_flush_retransmit_requests s connected sent now = Some (s', entries, message, ok) /\
    forward 0 s s' /\ s'.(cs_config) = s.(cs_config).
Proof.
  intros Hs. destruct connected.
  - destruct (flush_ok s sent now (so_repair _ Hs)) as (s' & entries & message & E & R & Ec & Es & _).
    do 4 eexists. split; [exact E |]. split; [| done]. by apply forward_frame.
  - do 4 eexists. split; [reflexivity |]. split; [apply forward_refl | done].
Qed.


(** ** The other threads *)

Lemma summary_forward s payload now : session_ok s -> bytes_ok payload -> now <> 0 ->
  let s' := queue_retransmits_from_summary sort_candidates s payload now in
  forward 1 s s' /\ s'.(cs_config) = s.(cs_config) /\
  s'.(cs_content).(cc_tile_present_queue) = s.(cs_content).(cc_tile_present_queue).
Proof.
  intros Hs Hb Hnow. cbv zeta. unfold queue_retransmits_from_summary.
  pose proof (forward_more 0 1 _ _ ltac:(lia) (counted_forward s st_udp_ignored_invalid 1)) as Hcount.
  destruct (decode payload) as [summary|]; [| done]. case_if; [done |].
  case_if; [split; [apply (forward_more 0); [lia | apply forward_refl] | done] |]. case_if; [done |].
  set (total := sc_total_tiles (cs_config s)). set (entries := summary_payload_entries payload _).
  pose proof (summary_entries_range _ _ entries Hb eq_refl) as Hrange.
  destruct (forallb _ entries) eqn:Eall; cbn [negb]; [| done].
  pose proof (accept_forward s summary.(ts_content_epoch) WD_CLIENT_CONTENT_OWNER_TILES) as Ha.
  destruct (client_accept_content_epoch _ _ _) as [s1 decision]. destruct Ha as (F1 & Ec1 & Eq1 & _).
  case_bool_decide; [done |].
  destruct (Z.eq_dec total 0) as [Ez|Hnz]; [unfold announce_tiles; rewrite Ez; done |].
  assert (summary_in_range s1 entries) as Hr1.
  { unfold summary_in_range. rewrite Ec1, list.Forall_forall in *. intros e He. rewrite forallb_forall in Eall.
    pose proof (Eall e ltac:(by apply list_elem_of_In)) as Hlt. bool_cases. destruct (Hrange e He). unfold total in *. lia. }
  pose proof (fw_session _ _ _ F1 Hs) as Hs1. unfold total in *. rewrite <- Ec1 in Hnz |- *.
  destruct (announce_tiles_ok sort_candidates sort_permutes s1 entries now (so_repair _ Hs1) Hnow Hnz Hr1) as (R & F & _).
  destruct (frame_forward _ _ R F) as [F2 Ec2]. split; [by apply (forward_then 1 s s1) |]. split; [done |]. rewrite <- Eq1.
  destruct F as (_ & _ & _ & _ & _ & _ & _ & _ & _ & Es). unfold session_setup in Es. congruence.
Qed.

Lemma update_forward s payload : session_ok s -> bytes_ok payload ->
  let s' := (store_server_config_update s (Some payload)).1 in
  forward 0 s s' /\ s'.(cs_config) = s.(cs_config) /\ s'.(cs_content) = s.(cs_content).
Proof.
  intros Hs Hb. destruct (store_update_ok s payload Hs Hb) as (H1 & H2 & _).
  assert ((store_server_config_update s (Some payload)).1.(cs_content) = s.(cs_content)) as Hc.
  { unfold store_server_config_update. case_if; [done |]. destruct (decode payload) as [config|]; [| done].
    destruct (client_normalize_and_validate_server_config config) as [c error]. by repeat (case_if; [done |]). }
  split; [by apply forward_still; rewrite ?Hc | done].
Qed.

Lemma commit_content s config grid now : content_forward 0 s (commit_server_config s config grid now).
Proof. unfold commit_server_config, reset_retransmit_tables, adopt_media_clock. by case_if; apply content_still. Qed.

Lemma reset_content_forward s epoch owner : content_forward 1 s (client_reset_content_epoch s epoch owner).1.
Proof.
  unfold client_reset_content_epoch. case_if; [apply (content_more 0); [lia | by apply content_still] |]. cbn [fst].
  apply (content_trans 0 1 s (s <| cs_stats := s.(cs_stats) <| st_tile_content_epoch_presented := 0 |>
                                                          <| st_video_content_epoch_presented := 0 |> |>)); [done | done | by apply content_still |].
  apply (fw_content _ _ _ (take_content_forward _ epoch owner)).
Qed.

(** What the other threads do around an application changes the content at most
    [j] times. *)
Definition others_forward (j : Z) (others : other_threads) : Prop :=
  others_behave others /\ exists a b c, 0 <= a /\ 0 <= b /\ 0 <= c /\ j = a + b + c /\
    (forall u, content_forward a u (others.(ot_read) u)) /\ (forall u, content_forward b u (others.(ot_checked) u)) /\
    (forall u, content_forward c u (others.(ot_committed) u)).

Lemma apply_forward s others answers j : others_forward j others -> session_ok s ->
  forward (j + 1) s (apply_pending_server_config s others answers).1.1.
Proof.
  intros (Hbehave & a & b & c & Ha & Hb & Hc & -> & Fa & Fb & Fc) Hs. split.
  { intros _. pose proof (apply_config_ok s others answers Hs Hbehave) as H.
    destruct (apply_pending_server_config s others answers) as [[s' r] applied]. apply H. }
  destruct Hbehave as (Hr & Hch & Hco).
  unfold apply_pending_server_config. destruct (cs_pending_config_valid s) eqn:Ev; cbn [negb];
    [| apply (content_more 0); [lia | by apply content_still]].
  pose proof (so_pending _ Hs Ev) as U. rewrite (usable_validates _ U). cbv zeta. set (config := cs_pending_config s) in *.
  destruct (Hr s Hs) as [Ht _]. pose proof (Fa s) as Ca. set (t := ot_read others s) in *. clearbody t.
  rewrite bool_decide_true by done. cbn [negb].
  destruct (usable_grid config no_dirty_tiles U) as (g & Eg & G & D).
  assert (forall k t0 t', 0 <= k <= a + b + c + 1 -> content_forward k s t0 -> t'.(cs_content) = t0.(cs_content) ->
    content_forward (a + b + c + 1) s t') as Hstill.
  { intros k t0 t' Hk C0 Ec. apply (content_more (k + 0)); [lia |].
    apply (content_trans k 0 s t0); [lia | done | done |]. by apply content_still; rewrite Ec. }
  case_if.
  - case_if; [by apply (Hstill a t); [lia | |] |]. unfold client_send_config_applied, adopt_media_clock.
    repeat (case_if; try (by apply (Hstill a t); [lia | |])).
  - rewrite Eg. cbn [negb orb]. case_if; [by apply (Hstill a t); [lia | |] |]. case_if; [by apply (Hstill a t); [lia | |] |].
    destruct (Hch t Ht) as [Ht1 _]. pose proof (content_trans a b _ _ _ Ha Hb Ca (Fb t)) as Cb.
    set (t1 := ot_checked others t) in *. clearbody t1. case_if; [by apply (Hstill (a + b) t1); [lia | |] |].
    pose proof (commit_content t1 config g (aa_now_ns answers)) as C1. set (t2 := commit_server_config t1 config g (aa_now_ns answers)) in *.
    pose proof (Fc t2) as C2. set (t3 := ot_committed others t2) in *. clearbody t2 t3.
    pose proof (reset_content_forward t3 (sc_content_epoch config) WD_CLIENT_CONTENT_OWNER_TILES) as C3.
    destruct (client_reset_content_epoch t3 _ _) as [t4 r]. cbn [fst] in C3.
    assert (content_forward (a + b + c + 1) s t4) as C.
    { replace (a + b + c + 1) with ((a + b) + (0 + (c + 1))) by lia.
      apply (content_trans _ _ s t1); [lia | lia | done |]. apply (content_trans _ _ t1 t2); [lia | lia | done |].
      by apply (content_trans _ _ t2 t3). }
    unfold client_send_config_applied.
    repeat (case_if; try (by apply (Hstill (a + b + c + 1) t4); [lia | |])).
Qed.

Lemma stream_forward s op :
  forward 1 s (set_content s (s.(cs_content) <| cc_stream_ownership := (atomically op s.(cs_content).(cc_stream_ownership)).2 |>)).
Proof.
  split.
  { intros [A B C D F G H I J]. by constructor. }
  intros H0 H1. unfold word_epoch, set_content in *. session_simpl. cbn [cc_stream_ownership cc_remote_content_epoch cc_remote_content_owner set_field].
  destruct (atomically op _) as [e packed] eqn:E. cbn [snd]. destruct (atomically_epoch _ _ _ _ H0 H1 E) as (He & [-> |Hn] & _); split; try done; lia.
Qed.

Lemma drained_forward s : forward 0 s (drained s).
Proof.
  apply forward_still; try done. intros [A B C D F G H I J]. destruct (cleared_queue_ok _ G) as [Q1 Q2].
  constructor; unfold drained, set_content; session_simpl; try done.
Qed.

(** *** Events

    [event_ok k]: the input of the event is one that can occur, and it changes the
    ownership at most [k] times. *)
Definition event_ok (k : Z) (e : other_event) : Prop :=
  match e with
  | Ev_announced payload now_ns => bytes_ok payload /\ now_ns <> 0 /\ k = 1
  | Ev_update payload => bytes_ok payload /\ k = 0
  | Ev_content _ _ | Ev_stream _ => k = 1
  | Ev_drain => k = 0
  | Ev_apply others _ => exists j, others_forward j others /\ k = j + 1
  end.

Inductive events_ok : Z -> list other_event -> Prop :=
  | events_none : events_ok 0 []
  | events_more j k e events : event_ok j e -> events_ok k events -> events_ok (j + k) (e :: events).

Lemma event_forward k s e : event_ok k e -> session_ok s -> 0 <= k /\ forward k s (run_event sort_candidates s e).
Proof.
  intros He Hs. destruct e as [payload now|payload|epoch owner|op| |others answers]; cbn [event_ok run_event] in *.
  - destruct He as (Hb & Hn & ->). split; [done |]. by apply summary_forward.
  - destruct He as [Hb ->]. split; [done |]. by apply update_forward.
  - subst k. split; [done |]. pose proof (accept_forward s epoch owner) as Ha.
    destruct (client_accept_content_epoch s epoch owner). apply Ha.
  - subst k. split; [done | apply stream_forward].
  - subst k. split; [done | apply drained_forward].
  - destruct He as (j & Hj & ->). split; [| by apply apply_forward].
    destruct Hj as (_ & a & b & c & ? & ? & ? & -> & _). lia.
Qed.

Lemma events_forward k events : events_ok k events -> forall s, session_ok s ->
  0 <= k /\ forward k s (run_events sort_candidates events s).
Proof.
  induction 1 as [|j k e events He _ IH]; intros s Hs; [split; [done | apply forward_refl] |].
  destruct (event_forward j s e He Hs) as [Hj F1]. destruct (IH _ (fw_session _ _ _ F1 Hs)) as [Hk F2].
  split; [lia |]. by apply (forward_trans j k s (run_event sort_candidates s e)).
Qed.

Lemma events_nonneg k events : events_ok k events -> 0 <= k.
Proof.
  induction 1 as [|j k e events He _ IH]; [done |]. enough (0 <= j) by lia.
  destruct e; cbn [event_ok] in He; destruct_and?; try lia. destruct He as (i & (_ & a & b & c & ? & ? & ? & -> & _) & ->). lia.
Qed.

(** An event beside a datagram neither applies a configuration nor adds an
    upload. *)
Lemma event_beside k s e : event_ok k e -> beside_datagram e = true -> session_ok s ->
  let s' := run_event sort_candidates s e in s'.(cs_config) = s.(cs_config) /\
  forall u, u ∈ s'.(cs_content).(cc_tile_present_queue).(pq_uploads) -> u ∈ s.(cs_content).(cc_tile_present_queue).(pq_uploads).
Proof.
  intros He Hd Hs. destruct e as [payload now|payload|epoch owner|op| |others answers]; cbn [event_ok run_event] in *; try done.
  - destruct He as (Hb & Hn & ->). destruct (summary_forward s payload now Hs Hb Hn) as (_ & -> & ->). done.
  - destruct He as [Hb ->]. destruct (update_forward s payload Hs Hb) as (_ & -> & ->). done.
  - pose proof (accept_forward s epoch owner) as Ha. destruct (client_accept_content_epoch s epoch owner).
    destruct Ha as (_ & Ha & Hq & _). cbn [fst]. by rewrite Ha, Hq.
  - split; [done |]. intros u Hu. by apply elem_of_nil in Hu.
Qed.

Lemma beside_events k events : events_ok k events -> forallb beside_datagram events = true ->
  beside_ok k (run_events sort_candidates events).
Proof.
  intros He Hd. split; [by apply (events_nonneg _ _ He) |]. intros s Hs. split; [by apply (events_forward k) |].
  revert s Hs Hd. induction He as [|j k e events He _ IH]; intros s Hs Hd; [done |].
  cbn [forallb] in Hd. apply andb_true_iff in Hd as [Hd1 Hd2].
  destruct (event_beside j s e He Hd1 Hs) as [E1 U1]. destruct (event_forward j s e He Hs) as [_ F].
  destruct (IH (run_event sort_candidates s e) (fw_session _ _ _ F Hs) Hd2) as [E2 U2].
  split; [by rewrite <- E1 | intros u Hu; by apply U1, U2].
Qed.

(** ** The rounds of the receive thread *)

Definition datagram_in (k : Z) (d : received_datagram) : Prop :=
  exists a b, bytes_ok d.(dg_packet) /\ events_ok a d.(dg_accepted) /\ events_ok b d.(dg_processed) /\
    forallb beside_datagram d.(dg_accepted) = true /\ forallb beside_datagram d.(dg_processed) = true /\ k = 1 + a + b.

Inductive datagrams_ok : Z -> list received_datagram -> Prop :=
  | datagrams_none : datagrams_ok 0 []
  | datagrams_more j k d datagrams : datagram_in j d -> datagrams_ok k datagrams -> datagrams_ok (j + k) (d :: datagrams).

(** The input of a round in which the ownership changes at most [k] times. *)
Definition input_ok (k : Z) (input : service_input) : Prop :=
  exists a b c d e, events_ok a input.(si_checked) /\ datagrams_ok b input.(si_datagrams) /\
    events_ok c input.(si_emptied) /\ events_ok d input.(si_expired) /\ events_ok e input.(si_promoted) /\
    k = a + b + c + d + e.

Lemma async_packet_ok k s tr d : session_ok s -> reassembler_ok tr -> datagram_in k d ->
  0 <= k /\ exists s' tr', handle_async_udp_packet s tr (Some d.(dg_packet)) d.(dg_now_ns) d.(dg_repair_ns) d.(dg_done_ns)
    (run_events sort_candidates d.(dg_accepted)) (run_events sort_candidates d.(dg_processed)) = Some (s', tr') /\ goes_on k s s' tr'.
Proof.
  intros Hs R (a & b & Hb & Ha & Hp & Da & Dp & ->).
  pose proof (events_nonneg _ _ Ha). pose proof (events_nonneg _ _ Hp). split; [lia |].
  unfold handle_async_udp_packet. case_if.
  - exists s, tr. split; [done |]. split; [done | apply (forward_more 0); [lia | apply forward_refl]].
  - destruct (datagram_ok a b s tr d.(dg_packet) d.(dg_now_ns) d.(dg_repair_ns) d.(dg_done_ns) _ _ Hs R Hb
      (beside_events a _ Ha Da) (beside_events b _ Hp Dp)) as (s' & tr' & E' & [H1 H2 _ _]).
    exists s', tr'. by split.
Qed.

Lemma drain_ok k s tr recycled datagrams : session_ok s -> reassembler_ok tr -> datagrams_ok k datagrams ->
  0 <= k /\ exists s' tr', drain_udp sort_candidates s tr recycled datagrams = Some (s', tr') /\ goes_on k s s' tr'.
Proof.
  intros Hs R Hd. unfold drain_udp. apply (recycled_all_ok recycled) in R. revert R. generalize (fold_left recycle recycled tr).
  clear tr. revert s Hs. induction Hd as [|j k d datagrams Hb _ IH]; intros s Hs tr R; cbn [foldl].
  - split; [done |]. exists s, tr. split; [done |]. split; [done | apply forward_refl].
  - cbn [mbind option_bind]. destruct (async_packet_ok j s tr d Hs R Hb) as (Hj & s1 & tr1 & -> & R1 & F1).
    destruct (IH s1 (fw_session _ _ _ F1 Hs) tr1 R1) as (Hk & s2 & tr2 & E2 & R2 & F2).
    split; [lia |]. exists s2, tr2. split; [exact E2 |]. split; [done |]. by apply (forward_trans j k s s1).
Qed.

Lemma service_ok k s rs input :
  session_ok s -> reassembler_ok rs.(rs_reassembler) -> input_ok k input ->
  0 <= k /\ exists s' rs' entries ok, client_receive_udp_service sort_candidates s rs input = Some (s', rs', entries, ok) /\
    goes_on k s s' rs'.(rs_reassembler).
Proof.
  intros Hs R (a & b & c & d & e & Ha & Hb & Hc & Hd & He & ->). unfold client_receive_udp_service.
  assert (exists rs1, (if negb (cs_client_config_generation s =? rs_observed_config_generation rs) then
      tr ← reset ZSTD_compressBound (rs_reassembler rs); Some (mk_ClientReceiveState tr (cs_client_config_generation s))
    else Some rs) = Some rs1 /\ reassembler_ok rs1.(rs_reassembler)) as (rs1 & -> & R1).
  { case_if; [| by exists rs]. destruct (reset_some _ R) as (tr' & -> & R'). eexists. by split. }
  cbn [mbind option_bind].
  pose proof (events_nonneg _ _ Hc). pose proof (events_nonneg _ _ Hd). pose proof (events_nonneg _ _ He).
  destruct (events_forward a _ Ha s Hs) as [Ka F0]. set (s0 := run_events sort_candidates (si_checked input) s) in *.
  clearbody s0. pose proof (fw_session _ _ _ F0 Hs) as Hs0.
  destruct (drain_ok b s0 (rs_reassembler rs1) (si_recycled input) (si_datagrams input) Hs0 R1 Hb)
    as (Kb & s1 & tr1 & E1 & R2 & F1).
  split; [lia |].
  case_if; [do 4 eexists; split; [reflexivity |]; split; [done | by apply (forward_more a); [lia |]] |].
  destruct (si_receiver input) as [drained|];
    [| do 4 eexists; split; [reflexivity |]; split; [by apply recycled_all_ok | by apply (forward_more a); [lia |]]].
  rewrite E1. cbn [mbind option_bind]. pose proof (forward_trans _ _ _ _ _ Ka Kb F0 F1) as F01.
  pose proof (fw_session _ _ _ F1 Hs0) as Hs1.
  destruct drained; cbn [negb]; [| do 4 eexists; split; [reflexivity |]; split; [done | by apply (forward_more (a + b)); [lia |]]].
  destruct (events_forward c _ Hc s1 Hs1) as [_ F2]. set (s2 := run_events sort_candidates (si_emptied input) s1) in *.
  clearbody s2. pose proof (fw_session _ _ _ F2 Hs1) as Hs2.
  destruct (expired_ok s2 tr1 (si_expire_ns input) (si_repair_ns input) R2) as (s3 & tr2 & -> & R3 & Hv).
  cbn [mbind option_bind]. pose proof (view_forward _ _ Hv) as F3. pose proof (fw_session _ _ _ F3 Hs2) as Hs3.
  destruct (events_forward d _ Hd s3 Hs3) as [_ F4]. set (s4 := run_events sort_candidates (si_expired input) s3) in *.
  clearbody s4. pose proof (fw_session _ _ _ F4 Hs3) as Hs4.
  destruct (promote_forward s4 (si_now_ns input) Hs4) as [F5 _]. pose proof (fw_session _ _ _ F5 Hs4) as Hs5.
  destruct (events_forward e _ He _ Hs5) as [_ F6].
  destruct (flush_forward _ (si_connected input) (si_sent input) (si_now_ns input) (fw_session _ _ _ F6 Hs5))
    as (s7 & entries & message & ok & -> & F7 & _). cbn [mbind option_bind].
  do 4 eexists. split; [reflexivity |]. split; [done |].
  pose proof (forward_trans (a + b) c _ _ _ ltac:(lia) ltac:(lia) F01 F2) as G2.
  pose proof (forward_then (a + b + c) _ _ _ ltac:(lia) G2 F3) as G3.
  pose proof (forward_trans (a + b + c) d _ _ _ ltac:(lia) ltac:(lia) G3 F4) as G4.
  pose proof (forward_then (a + b + c + d) _ _ _ ltac:(lia) G4 F5) as G5.
  pose proof (forward_trans (a + b + c + d) e _ _ _ ltac:(lia) ltac:(lia) G5 F6) as G6.
  exact (forward_then (a + b + c + d + e) _ _ _ ltac:(lia) G6 F7).
Qed.

(** ** Histories of the session

    The index counts the changes of ownership a step may make. *)
Inductive client_step : Z -> ClientState * ClientReceiveState -> ClientState * ClientReceiveState -> Prop :=
  | step_service k s rs input s' rs' entries ok :
      input_ok k input ->
      client_receive_udp_service sort_candidates s rs input = Some (s', rs', entries, ok) ->
      client_step k (s, rs) (s', rs')
  | step_event k s rs e : event_ok k e -> client_step k (s, rs) (run_event sort_candidates s e, rs).

Inductive client_run : Z -> ClientState * ClientReceiveState -> ClientState * ClientReceiveState -> Prop :=
  | client_run_nil c : client_run 0 c c
  | client_run_step j k a b c : client_step j a b -> client_run k b c -> client_run (j + k) a c.

Definition client_ok (c : ClientState * ClientReceiveState) : Prop := session_ok c.1 /\ reassembler_ok c.2.(rs_reassembler).

Lemma client_step_ok k a b : client_step k a b -> client_ok a -> 0 <= k /\ client_ok b /\ forward k a.1 b.1.
Proof.
  intros Hstep [Hs R]. destruct Hstep as [k s rs input s' rs' entries ok Hi E | k s rs e He]; cbn [fst snd] in *.
  - destruct (service_ok k s rs input Hs R Hi) as (Hk & s2 & rs2 & e2 & ok2 & E2 & R2 & F2). rewrite E in E2.
    injection E2 as <- <- _ _. split_and!; [done | | done]. split; [by apply (fw_session _ _ _ F2) | done].
  - destruct (event_forward k s e He Hs) as [Hk F]. split_and!; [done | | done].
    split; [by apply (fw_session _ _ _ F) | done].
Qed.

Lemma client_run_ok k a b : client_run k a b -> client_ok a -> 0 <= k /\ client_ok b /\ forward k a.1 b.1.
Proof.
  induction 1 as [c | j k a b c Hs _ IH]; intros Ha; [split_and!; [done | done | apply forward_refl] |].
  destruct (client_step_ok _ _ _ Hs Ha) as (Hj & Hb & F1). destruct (IH Hb) as (Hk & Hc & F2).
  split_and!; [lia | done | by apply (forward_trans j k a.1 b.1)].
Qed.

Lemma new_reassembler_ok entries bytes : 1 <= bytes <= SIZE_MAX - UINT16_MAX ->
  reassembler_ok (new_TileReassembler entries bytes).
Proof. intros Hb. split; [by apply new_shape | constructor]. Qed.

(** C25: From the first configuration on, whatever datagrams,
    summaries, configurations and content changes arrive, in whatever order, a
    round of the receive thread never writes outside a table or the framebuffer,
    whatever the other threads do between its critical sections, and the session's
    tables, the present queue and the reassembler stay well
    formed. *)
Theorem client_memory_safe s config hello now s1 s2 entries bytes k s' rs' j input :
  config_decoded config -> s.(cs_pending_config_valid) = false ->
  present_queue_ok s.(cs_content).(cc_tile_present_queue) -> s.(cs_content).(cc_tile_present_queue).(pq_uploads) = [] ->
  1 <= bytes <= SIZE_MAX - UINT16_MAX ->
  receive_server_config s config hello now = (s1, true) -> start_session_tables s1 = (s2, true) ->
  client_run k (s2, client_receive_state_create s2 (new_TileReassembler entries bytes)) (s', rs') ->
  input_ok j input ->
  client_ok (s', rs') /\ exists result, client_receive_udp_service sort_candidates s' rs' input = Some result.
Proof.
  intros D Hp Q E Hb H1 H2 Hrun Hd. destruct (receive_config_ok _ _ _ _ _ D H1) as (U & Ec & Ep).
  destruct (start_tables_ok s1) as (t & Et & Hs & _); [done | by rewrite Ep | by rewrite Ec | by rewrite Ec |].
  rewrite H2 in Et. injection Et as <-.
  destruct (client_run_ok _ _ _ Hrun) as (_ & [Hs' R'] & _); [split; [done | by apply new_reassembler_ok] |]. split; [done |].
  destruct (service_ok j s' rs' input Hs' R' Hd) as (_ & s3 & rs3 & e3 & ok & -> & _). by eexists.
Qed.

(** C26: A tile that the renderer accepts is of the newest content.
    The content may be replaced by another thread while a datagram is handled, in
    the two places where [remote_content_mutex] is released; still, when the
    tile that a datagram put into the queue matches the ownership, after any
    further history of the session, then the content epoch in force is the one the
    datagram was sent for, and it shows tiles. *)
Theorem presented_tiles_current s tr bytes now ns done accepted processed i j s1 tr1 upload rs k s2 rs2 :
  session_ok s -> reassembler_ok tr -> bytes_ok bytes ->
  events_ok i accepted -> forallb beside_datagram accepted = true ->
  events_ok j processed -> forallb beside_datagram processed = true ->
  process_udp_datagram s tr (Some bytes) now ns done
    (run_events sort_candidates accepted) (run_events sort_candidates processed) = Some (s1, tr1) ->
  upload ∈ s1.(cs_content).(cc_tile_present_queue).(pq_uploads) ->
  upload ∉ s.(cs_content).(cc_tile_present_queue).(pq_uploads) ->
  client_run k (s1, rs <| rs_reassembler := tr1 |>) (s2, rs2) ->
  0 <= word_epoch s -> word_epoch s + 1 + i + j + k < 2 ^ 63 ->
  client_tile_upload_matches_ownership upload (ownership_of s2.(cs_content)) = true ->
  exists h, wd_udp_tile_packet_decode bytes = Some h /\
    s2.(cs_content).(cc_remote_content_epoch) = h.(ud_content_epoch) /\
    s2.(cs_content).(cc_remote_content_owner) = WD_CLIENT_CONTENT_OWNER_TILES.
Proof.
  intros Hs R Hb Ha Da Hp Dp E Hin Hout Hrun H0 H1 Hm.
  destruct (datagram_ok i j s tr bytes now ns done _ _ Hs R Hb (beside_events i _ Ha Da) (beside_events j _ Hp Dp))
    as (s3 & tr3 & E' & [R' F _ Hu]). rewrite E in E'. injection E' as <- <-.
  destruct (Hu upload Hin) as [?|(Hepoch & h & Hd & [Hr Ho])]; [done |]. exists h. split; [done |]. rewrite <- Hr, <- Ho.
  destruct (client_run_ok _ _ _ Hrun) as (Hk & _ & [_ C]); [by split; [apply (fw_session _ _ _ F) |] |].
  pose proof (events_nonneg _ _ Ha). pose proof (events_nonneg _ _ Hp).
  destruct (fw_content _ _ _ F) as [He _]; [done | lia |]. cbn [fst] in C.
  destruct C as [_ Hsame]; [lia | lia |]. apply Hsame.
  unfold client_tile_upload_matches_ownership in Hm. bool_cases. by rewrite <- Hepoch.
Qed.


End zstd.

Definition first_round : service_input :=
  mk_service_input [] [mk_received_datagram (raw_packet 0) 1000 0 1100 [] []] (Some true) 1200 1200 1300 true true
    [] [] [Ev_drain] [].
Definition second_round : service_input :=
  mk_service_input [] [mk_received_datagram (raw_packet 1) 1400 0 1500 [Ev_drain] []; mk_received_datagram [1; 2; 3] 1600 0 1600 [] []]
    (Some true) 1700 1700 1800 true true [] [Ev_content 9 WD_CLIENT_CONTENT_OWNER_VIDEO] [] [Ev_stream (TransitionTo WD_CLIENT_CONTENT_OWNER_VIDEO)].
Definition demo_receiver : ClientReceiveState := client_receive_state_create demo_session (new_TileReassembler 8 65536).

Local Notation service := (client_receive_udp_service (fun n => n) no_zstd demo_no_sort).

Lemma raw_packet_bytes i : i = 0 \/ i = 1 -> bytes_ok (raw_packet i).
Proof. intros [-> | ->]; eapply bool_decide_unpack; vm_compute; exact I. Qed.

(** The state after the first round, as the model computes it. *)
Definition after_first : ClientState * ClientReceiveState :=
  match service demo_session demo_receiver first_round with
  | Some (s, rs, _, _) => (s, rs)
  | None => (demo_session, demo_receiver)
  end.

Lemma datagram_alone packet now repair done : bytes_ok packet ->
  datagram_in 1 (mk_received_datagram packet now repair done [] []).
Proof. intros Hb. exists 0, 0. by split_and!; try constructor. Qed.

Lemma first_round_input : input_ok 1 first_round.
Proof.
  exists 0, (1 + 0), 0, (0 + 0), 0. split_and!; try constructor; try constructor; [| done ..].
  apply datagram_alone, raw_packet_bytes. by left.
Qed.

Lemma second_round_input : input_ok 4 second_round.
Proof.
  exists 0, (1 + (1 + 0)), (1 + 0), 0, (1 + 0). split_and!.
  - constructor.
  - constructor.
    + exists (0 + 0), 0. split_and!; try done; try (apply raw_packet_bytes; by right); repeat constructor.
    + constructor; [| constructor]. apply datagram_alone. eapply bool_decide_unpack; vm_compute; exact I.
  - by repeat constructor.
  - constructor.
  - by repeat constructor.
  - done.
Qed.

Lemma first_round_step : client_step (fun n => n) no_zstd demo_no_sort 1 (demo_session, demo_receiver) after_first.
Proof.
  unfold after_first. destruct (service demo_session demo_receiver first_round) as [[[[s rs] entries] ok]|] eqn:E.
  - apply (step_service _ _ _ 1 demo_session demo_receiver first_round s rs entries ok); [apply first_round_input | done].
  - assert (bool_decide (is_Some (service demo_session demo_receiver first_round)) = true) as Hs by by vm_compute.
    apply bool_decide_eq_true in Hs as [x Hx]. by rewrite E in Hx.
Qed.

Lemma demo_session_ok : session_ok demo_session.
Proof.
  assert (receive_server_config sample_state (demo_config 1 7 64 4) demo_hello 5 = (demo_connected, true)) as E by by vm_compute.
  assert (config_decoded (demo_config 1 7 64 4)) as D by (repeat split; vm_compute; congruence).
  destruct (receive_config_ok _ _ _ _ _ D E) as (U & Ec & Ep).
  destruct (start_tables_ok demo_connected) as (s & Es & Hs & _); [done | by rewrite Ep | by rewrite Ec; apply new_queue_ok | by rewrite Ec |].
  unfold demo_session. by rewrite Es.
Qed.

Lemma demo_permutes l : demo_no_sort l ≡ₚ l.
Proof. done. Qed.

Lemma first_round_ok : client_ok after_first.
Proof.
  destruct (client_step_ok _ _ _ demo_permutes _ _ _ first_round_step) as (_ & H & _); [| done].
  split; [apply demo_session_ok | by apply new_reassembler_ok].
Qed.

(** Two rounds, the second with the packet that completes the tile. *)
Lemma client_memory_safe_witness :
  client_ok after_first /\ exists result, service after_first.1 after_first.2 second_round = Some result.
Proof.
  rewrite (surjective_pairing after_first) at 1.
  apply (client_memory_safe (fun n => n) no_zstd demo_no_sort demo_permutes sample_state (demo_config 1 7 64 4) demo_hello 5
    demo_connected demo_session 8 65536 (1 + 0) _ _ 4).
  - repeat split; vm_compute; congruence.
  - done.
  - by apply new_queue_ok.
  - done.
  - mlia.
  - by vm_compute.
  - by vm_compute.
  - rewrite <- surjective_pairing. eapply client_run_step; [apply first_round_step | apply client_run_nil].
  - apply second_round_input.
Defined.

(** The datagram that completes the tile, after the first round, while the
    renderer takes the queue. *)
Definition presented_beside (processed : list other_event) : ClientState * TileReassembler :=
  match process_udp_datagram (fun n => n) no_zstd after_first.1 after_first.2.(rs_reassembler) (Some (raw_packet 1)) 1400 0 1500
          (run_events demo_no_sort [Ev_drain]) (run_events demo_no_sort processed) with
  | Some result => result
  | None => (demo_session, after_first.2.(rs_reassembler))
  end.
Definition presented : ClientState * TileReassembler := presented_beside [Ev_drain].

Local Notation waiting_uploads := (presented.1.(cs_content).(cc_tile_present_queue).(pq_uploads)).

Definition all_match : bool :=
  forallb (fun u => client_tile_upload_matches_ownership u (ownership_of (drained presented.1).(cs_content))) waiting_uploads.

Lemma drain_events : events_ok 0 [Ev_drain].
Proof. change 0 with (0 + 0) at 1. by repeat constructor. Qed.

Lemma presented_now : process_udp_datagram (fun n => n) no_zstd after_first.1 after_first.2.(rs_reassembler)
  (Some (raw_packet 1)) 1400 0 1500 (run_events demo_no_sort [Ev_drain]) (run_events demo_no_sort [Ev_drain]) = Some presented.
Proof.
  unfold presented, presented_beside. destruct first_round_ok as [Hs R].
  pose proof (beside_events demo_no_sort demo_permutes 0 [Ev_drain] drain_events eq_refl) as Hd.
  destruct (datagram_ok (fun n => n) no_zstd 0 0 after_first.1 after_first.2.(rs_reassembler) (raw_packet 1) 1400 0 1500 _ _
    Hs R (raw_packet_bytes 1 ltac:(by right)) Hd Hd) as (s' & tr' & -> & _). done.
Qed.

Lemma not_in_null {A} (l : list A) x : null l = true -> x ∉ l.
Proof. destruct l; [intros _; apply not_elem_of_nil | done]. Qed.

(** The tile waits, the renderer takes the queue and accepts it; had the decoder
    shown video before the second section of the content lock, nothing would
    wait. *)
Lemma presented_tiles_current_witness :
  zlen waiting_uploads = 1 /\
  (forall u, u ∈ waiting_uploads -> exists h, wd_udp_tile_packet_decode (raw_packet 1) = Some h /\
    (drained presented.1).(cs_content).(cc_remote_content_epoch) = h.(ud_content_epoch) /\
    (drained presented.1).(cs_content).(cc_remote_content_owner) = WD_CLIENT_CONTENT_OWNER_TILES) /\
  null (presented_beside [Ev_content 9 WD_CLIENT_CONTENT_OWNER_VIDEO]).1.(cs_content).(cc_tile_present_queue).(pq_uploads) = true.
Proof.
  split_and!; [by vm_compute | | by vm_compute]. intros u Hu. destruct first_round_ok as [Hs R].
  assert (all_match = true) as Hall by by vm_compute. unfold all_match in Hall. rewrite forallb_forall in Hall.
  assert (null after_first.1.(cs_content).(cc_tile_present_queue).(pq_uploads) = true) as Hnone by by vm_compute.
  apply (presented_tiles_current (fun n => n) no_zstd demo_no_sort demo_permutes after_first.1 after_first.2.(rs_reassembler)
    (raw_packet 1) 1400 0 1500 [Ev_drain] [Ev_drain] 0 0 presented.1 presented.2 u after_first.2 (0 + 0) (drained presented.1)
    (after_first.2 <| rs_reassembler := presented.2 |>) Hs R).
  - apply raw_packet_bytes. by right.
  - apply drain_events.
  - reflexivity.
  - apply drain_events.
  - reflexivity.
  - rewrite <- surjective_pairing. apply presented_now.
  - exact Hu.
  - exact (not_in_null _ u Hnone).
  - eapply client_run_step; [exact (step_event _ _ _ 0 presented.1 _ Ev_drain eq_refl) | apply client_run_nil].
  - by vm_compute.
  - by vm_compute.
  - exact (Hall u (proj1 (list_elem_of_In _ _) Hu)).
Defined.
