(* ===== verification/ClientVideo.v ===== *)
(** * Video on the client

    src/client/video_transition.c, video_decode_queue_policy.c,
    video_packet_validation.c, audio_video_sync.c and the clock conversions of
    include/waydisplay/wd_media_clock.h.  The decode queue itself is that of
    [enqueue_video_message] (src/client/client_net.cpp), which follows the plan
    of the policy; the verdict on a recovery keyframe is part of the packet
    ([pk_keyframe_valid]). *)
From S2P Require Import Prelude Config Structs Payload.

(** ** The phase of the decoder *)

Inductive wd_client_video_phase :=
  | WD_CLIENT_VIDEO_PHASE_TILES
  | WD_CLIENT_VIDEO_PHASE_AWAITING_KEYFRAME
  | WD_CLIENT_VIDEO_PHASE_VIDEO.
#[export] Instance wd_client_video_phase_eq_dec : EqDecision wd_client_video_phase.
Proof. solve_decision. Defined.

Record wd_client_video_transition_decision := mk_wd_client_video_transition_decision {
  td_next_phase : wd_client_video_phase;
  td_reset_decoder : bool;
  td_accept_payload : bool;
}.

(** The test for a value outside the enumeration has no counterpart: the phase
    is one of the three. *)
Definition wd_client_video_transition_decide (phase : wd_client_video_phase)
    (content_epoch_advanced end_of_stream is_resize keyframe has_payload : bool)
    : wd_client_video_transition_decision :=
  if is_resize then
    mk_wd_client_video_transition_decision WD_CLIENT_VIDEO_PHASE_AWAITING_KEYFRAME
      (bool_decide (phase = WD_CLIENT_VIDEO_PHASE_VIDEO)) false
  else if end_of_stream then
    mk_wd_client_video_transition_decision WD_CLIENT_VIDEO_PHASE_TILES
      (bool_decide (phase <> WD_CLIENT_VIDEO_PHASE_TILES)) false
  else
    let reset_decoder :=
      content_epoch_advanced && bool_decide (phase <> WD_CLIENT_VIDEO_PHASE_AWAITING_KEYFRAME) in
    let phase := if content_epoch_advanced then WD_CLIENT_VIDEO_PHASE_AWAITING_KEYFRAME else phase in
    if negb has_payload then mk_wd_client_video_transition_decision phase reset_decoder false
    else if bool_decide (phase <> WD_CLIENT_VIDEO_PHASE_VIDEO) && negb keyframe then
      mk_wd_client_video_transition_decision WD_CLIENT_VIDEO_PHASE_AWAITING_KEYFRAME reset_decoder false
    else mk_wd_client_video_transition_decision WD_CLIENT_VIDEO_PHASE_VIDEO reset_decoder true.

(** ** The decode queue *)

Inductive wd_client_video_decode_queue_action :=
  | WD_CLIENT_VIDEO_DECODE_QUEUE_ENQUEUE
  | WD_CLIENT_VIDEO_DECODE_QUEUE_DROP_UNTIL_KEYFRAME
  | WD_CLIENT_VIDEO_DECODE_QUEUE_RECOVER_OVERFLOW.

Record wd_client_video_decode_queue_plan := mk_wd_client_video_decode_queue_plan {
  dq_action : wd_client_video_decode_queue_action;
  dq_clear_queue : bool;
  dq_wait_for_keyframe : bool;
  dq_reset_decoder_before : bool;
}.

Definition wd_client_video_decode_queue_plan_compute (queued_packets capacity : Z)
    (waiting_for_keyframe keyframe control_frame : bool) : wd_client_video_decode_queue_plan :=
  if capacity =? 0 then
    mk_wd_client_video_decode_queue_plan WD_CLIENT_VIDEO_DECODE_QUEUE_RECOVER_OVERFLOW
      (negb (queued_packets =? 0)) true false
  else if control_frame then
    mk_wd_client_video_decode_queue_plan WD_CLIENT_VIDEO_DECODE_QUEUE_ENQUEUE true true false
  else if keyframe then
    mk_wd_client_video_decode_queue_plan WD_CLIENT_VIDEO_DECODE_QUEUE_ENQUEUE true false
      waiting_for_keyframe
  else if waiting_for_keyframe then
    mk_wd_client_video_decode_queue_plan WD_CLIENT_VIDEO_DECODE_QUEUE_DROP_UNTIL_KEYFRAME false
      waiting_for_keyframe false
  else if queued_packets >=? capacity then
    mk_wd_client_video_decode_queue_plan WD_CLIENT_VIDEO_DECODE_QUEUE_RECOVER_OVERFLOW true true false
  else
    mk_wd_client_video_decode_queue_plan WD_CLIENT_VIDEO_DECODE_QUEUE_ENQUEUE false
      waiting_for_keyframe false.

(** A message of the video channel, as far as the queue looks at it;
    [pk_position] is its position in the channel's stream. *)
Record video_packet := mk_video_packet {
  pk_position : Z;
  pk_flags : Z;
  pk_keyframe_valid : bool;   (* wd_client_video_keyframe_validate = VALID *)
}.

Definition pk_keyframe (p : video_packet) : bool := flag p.(pk_flags) WD_VIDEO_FRAME_KEYFRAME.
Definition pk_control (p : video_packet) : bool :=
  flag p.(pk_flags) (Z.lor WD_VIDEO_FRAME_END_OF_STREAM WD_VIDEO_FRAME_RESIZE).

(** The queue: packets with the request to reset the decoder before them. *)
Record video_queue := mk_video_queue {
  vq_packets : list (video_packet * bool);
  vq_wait_keyframe : bool;
}.

(** [enqueue_video_message] for a message whose buffer can be taken; one without
    a buffer ends the channel. *)
Definition enqueue_video_message (capacity : Z) (q : video_queue) (p : video_packet) : video_queue :=
  let keyframe := pk_keyframe p in
  let control := pk_control p in
  let depth := Z.min (zlen q.(vq_packets)) UINT16_MAX in
  if q.(vq_wait_keyframe) && keyframe && negb control && negb p.(pk_keyframe_valid) then q
  else
    let plan :=
      wd_client_video_decode_queue_plan_compute depth capacity q.(vq_wait_keyframe) keyframe control in
    let packets := if plan.(dq_clear_queue) then [] else q.(vq_packets) in
    match plan.(dq_action) with
    | WD_CLIENT_VIDEO_DECODE_QUEUE_ENQUEUE =>
        mk_video_queue (packets ++ [(p, plan.(dq_reset_decoder_before))]) plan.(dq_wait_for_keyframe)
    | _ => mk_video_queue packets plan.(dq_wait_for_keyframe)
    end.

(** ** Validation of a packet's header *)

Inductive wd_client_video_packet_validation_result :=
  | WD_CLIENT_VIDEO_PACKET_VALID
  | WD_CLIENT_VIDEO_PACKET_INVALID_PAYLOAD
  | WD_CLIENT_VIDEO_PACKET_INVALID_IDENTITY
  | WD_CLIENT_VIDEO_PACKET_INVALID_GEOMETRY.

Record wd_client_video_packet_expectation := mk_wd_client_video_packet_expectation {
  px_session_id : Z;
  px_connection_token : Z;
  px_width : Z;
  px_height : Z;
  px_codec : Z;
}.

(** The result and [*control_frame]. *)
Definition wd_client_video_packet_validate (header : ptr wd_video_frame_payload_header)
    (payload_size : Z) (expected : ptr wd_client_video_packet_expectation)
    : wd_client_video_packet_validation_result * bool :=
  match header, expected with
  | Some h, Some x =>
      if (negb (h.(vf_codec) =? WD_VIDEO_CODEC_H265) && negb (h.(vf_codec) =? WD_VIDEO_CODEC_H264) &&
          negb (h.(vf_codec) =? WD_VIDEO_CODEC_AV1)) ||
         negb (wd_video_frame_payload_size_is_valid header payload_size)
      then (WD_CLIENT_VIDEO_PACKET_INVALID_PAYLOAD, false)
      else
        let control := flag h.(vf_flags) (Z.lor WD_VIDEO_FRAME_END_OF_STREAM WD_VIDEO_FRAME_RESIZE) in
        if (h.(vf_data_size) =? 0) && negb control
        then (WD_CLIENT_VIDEO_PACKET_INVALID_PAYLOAD, false)
        else if negb (h.(vf_session_id) =? x.(px_session_id)) ||
                negb (h.(vf_connection_token) =? x.(px_connection_token))
        then (WD_CLIENT_VIDEO_PACKET_INVALID_IDENTITY, false)
        else if negb (h.(vf_codec) =? x.(px_codec))
        then (WD_CLIENT_VIDEO_PACKET_INVALID_PAYLOAD, false)
        else if (h.(vf_coded_width) >? WD_MAX_VIDEO_CODED_WIDTH) ||
                (h.(vf_coded_height) >? WD_MAX_VIDEO_CODED_HEIGHT)
        then (WD_CLIENT_VIDEO_PACKET_INVALID_GEOMETRY, false)
        else if negb control &&
                (negb (h.(vf_width) =? x.(px_width)) || negb (h.(vf_height) =? x.(px_height)) ||
                 (h.(vf_coded_width) <? h.(vf_width)) || (h.(vf_coded_height) <? h.(vf_height)))
        then (WD_CLIENT_VIDEO_PACKET_INVALID_GEOMETRY, false)
        else (WD_CLIENT_VIDEO_PACKET_VALID, control)
  | _, _ => (WD_CLIENT_VIDEO_PACKET_INVALID_PAYLOAD, false)
  end.

(** ** The media clock *)

Definition wd_media_delta_ns (now_ns origin_ns : Z) : Z :=
  if now_ns >? origin_ns then now_ns - origin_ns else 0.

Definition wd_media_ns_to_usec (now_ns origin_ns : Z) : Z := wd_media_delta_ns now_ns origin_ns / 1000.

Definition wd_media_ns_to_samples (now_ns origin_ns sample_rate : Z) : Z :=
  if sample_rate =? 0 then 0
  else
    let delta := wd_media_delta_ns now_ns origin_ns in
    let seconds := delta / 1000000000 in
    let remainder := delta mod 1000000000 in
    if seconds >? UINT64_MAX / sample_rate then UINT64_MAX
    else
      let whole := u64 (seconds * sample_rate) in
      let fraction := u64 (remainder * sample_rate) / 1000000000 in
      if UINT64_MAX - whole <? fraction then UINT64_MAX else u64 (whole + fraction).

Definition wd_media_usec_to_samples (pts_usec sample_rate : Z) : Z :=
  if sample_rate =? 0 then 0
  else
    let seconds := pts_usec / 1000000 in
    let remainder := pts_usec mod 1000000 in
    if seconds >? UINT64_MAX / sample_rate then UINT64_MAX
    else
      let whole := u64 (seconds * sample_rate) in
      let fraction := u64 (remainder * sample_rate) / 1000000 in
      if UINT64_MAX - whole <? fraction then UINT64_MAX else u64 (whole + fraction).

Definition wd_media_local_deadline_ns (local_origin_ns pts_usec : Z) : Z :=
  if pts_usec >? (UINT64_MAX - local_origin_ns) / 1000 then UINT64_MAX
  else u64 (local_origin_ns + u64 (pts_usec * 1000)).

(** ** Synchronisation with the audio *)

Inductive wd_client_audio_video_sync_decision :=
  | WD_CLIENT_AUDIO_VIDEO_SYNC_PRESENT
  | WD_CLIENT_AUDIO_VIDEO_SYNC_HOLD
  | WD_CLIENT_AUDIO_VIDEO_SYNC_DROP.
#[export] Instance wd_client_audio_video_sync_decision_eq_dec :
  EqDecision wd_client_audio_video_sync_decision.
Proof. solve_decision. Defined.

Record wd_client_audio_video_sync_plan := mk_wd_client_audio_video_sync_plan {
  av_decision : wd_client_audio_video_sync_decision;
  av_delta_samples : Z;
  av_retry_after_ms : Z;
}.

Definition wd_min_u64 (left right : Z) : Z := if left <? right then left else right.

(** The delay before the next attempt, for a picture [wait_samples] too early. *)
Definition hold_retry_ms (wait_samples sample_rate : Z) : Z :=
  let whole_seconds := wait_samples / sample_rate in
  let remainder_samples := wait_samples mod sample_rate in
  let whole_ms :=
    if whole_seconds >? UINT32_MAX / WD_MSEC_PER_SEC then UINT32_MAX
    else whole_seconds * WD_MSEC_PER_SEC in
  let remainder_ms := u64 (u64 (remainder_samples * WD_MSEC_PER_SEC) + sample_rate - 1) / sample_rate in
  let wait_ms := wd_min_u64 WD_CLIENT_VIDEO_AUDIO_MAX_RETRY_MS (u64 (whole_ms + remainder_ms)) in
  u32 (if wait_ms =? 0 then 1 else wait_ms).

Definition wd_client_audio_video_sync_plan_compute (video_pts_usec audio_playhead_samples
    sample_rate : Z) : wd_client_audio_video_sync_plan :=
  if sample_rate =? 0
  then mk_wd_client_audio_video_sync_plan WD_CLIENT_AUDIO_VIDEO_SYNC_PRESENT 0 0
  else
    let video_samples := wd_media_usec_to_samples video_pts_usec sample_rate in
    let early := u64 (sample_rate * WD_CLIENT_VIDEO_AUDIO_EARLY_MS) / WD_MSEC_PER_SEC in
    let late := u64 (sample_rate * WD_CLIENT_VIDEO_AUDIO_LATE_MS) / WD_MSEC_PER_SEC in
    let positive_delta :=
      if video_samples >=? audio_playhead_samples then video_samples - audio_playhead_samples
      else audio_playhead_samples - video_samples in
    let clamped_delta := wd_min_u64 positive_delta INT64_MAX in
    let delta_samples :=
      if video_samples >=? audio_playhead_samples then clamped_delta else - clamped_delta in
    if (video_samples >? audio_playhead_samples) &&
       (video_samples - audio_playhead_samples >? early)
    then
      mk_wd_client_audio_video_sync_plan WD_CLIENT_AUDIO_VIDEO_SYNC_HOLD delta_samples
        (hold_retry_ms (video_samples - audio_playhead_samples - early) sample_rate)
    else if (audio_playhead_samples >? video_samples) &&
            (audio_playhead_samples - video_samples >? late)
    then mk_wd_client_audio_video_sync_plan WD_CLIENT_AUDIO_VIDEO_SYNC_DROP delta_samples 0
    else mk_wd_client_audio_video_sync_plan WD_CLIENT_AUDIO_VIDEO_SYNC_PRESENT delta_samples 0.

Definition wd_client_audio_video_sync_decide (video_pts_usec audio_playhead_samples sample_rate : Z)
    : wd_client_audio_video_sync_decision :=
  (wd_client_audio_video_sync_plan_compute video_pts_usec audio_playhead_samples
     sample_rate).(av_decision).

Definition wd_client_audio_video_sync_should_drop (decision : wd_client_audio_video_sync_decision)
    (decoded_queue_depth : Z) : bool :=
  bool_decide (decision = WD_CLIENT_AUDIO_VIDEO_SYNC_DROP) && (decoded_queue_depth >? 1).

Inductive wd_client_audio_startup_gate_decision :=
  | WD_CLIENT_AUDIO_STARTUP_READY
  | WD_CLIENT_AUDIO_STARTUP_HOLD
  | WD_CLIENT_AUDIO_STARTUP_TIMEOUT.

Definition wd_client_audio_startup_gate_decide (configured playing waiting : bool)
    (wait_elapsed_ms max_wait_ms : Z) : wd_client_audio_startup_gate_decision :=
  if negb configured || playing || negb waiting then WD_CLIENT_AUDIO_STARTUP_READY
  else if negb (max_wait_ms =? 0) && (wait_elapsed_ms >=? max_wait_ms)
  then WD_CLIENT_AUDIO_STARTUP_TIMEOUT
  else WD_CLIENT_AUDIO_STARTUP_HOLD.

(** ** The life of the queue

    The network thread receives the packets of the stream in order; the decoder
    thread takes the front of the queue. *)

Inductive queue_event :=
  | Receive (flags : Z) (keyframe_valid : bool)
  | TakeFront.

Record queue_life := mk_queue_life {
  ql_queue : video_queue;
  ql_next : Z;                                  (* packets received so far *)
  ql_taken : list (video_packet * bool);
}.

Definition queue_live (capacity : Z) (l : queue_life) (e : queue_event) : queue_life :=
  match e with
  | Receive flags valid =>
      mk_queue_life (enqueue_video_message capacity l.(ql_queue) (mk_video_packet l.(ql_next) flags valid))
        (l.(ql_next) + 1) l.(ql_taken)
  | TakeFront =>
      match l.(ql_queue).(vq_packets) with
      | [] => l
      | x :: rest =>
          mk_queue_life (mk_video_queue rest l.(ql_queue).(vq_wait_keyframe)) l.(ql_next)
            (l.(ql_taken) ++ [x])
      end
  end.

Definition queue_lives (capacity : Z) (es : list queue_event) : queue_life :=
  fold_left (queue_live capacity) es (mk_queue_life (mk_video_queue [] false) 0 []).

(** [b] can be decoded right after [a]: it does not refer to earlier pictures,
    or [a] is the packet sent just before it. *)
Definition decodes_after (a b : video_packet) : Prop :=
  pk_keyframe b = true \/ pk_control b = true \/
  (b.(pk_position) = a.(pk_position) + 1 /\ pk_control a = false).

Fixpoint chained (l : list (video_packet * bool)) : Prop :=
  match l with
  | (a, _) :: ((b, _) :: _) as rest => decodes_after a b /\ chained rest
  | _ => True
  end.

Lemma chained_snoc l p r :
  chained (l ++ [(p, r)]) <->
  chained l /\ match list.last l with Some (a, _) => decodes_after a p | None => True end.
Proof.
  induction l as [|[a ra] l IH]; [cbn; tauto |]. destruct l as [|[b rb] l].
  - cbn. tauto.
  - change (decodes_after a b /\ chained (((b, rb) :: l) ++ [(p, r)]) <->
      (decodes_after a b /\ chained ((b, rb) :: l)) /\
      match list.last ((b, rb) :: l) with Some (c, _) => decodes_after c p | None => True end).
    rewrite IH. tauto.
Qed.

Lemma chained_app_l l k : chained (l ++ k) -> chained l.
Proof.
  revert l. induction k as [|[p r] k IH] using rev_ind; intros l; [by rewrite app_nil_r |].
  rewrite app_assoc, chained_snoc. intros [H _]. by apply IH.
Qed.

(** A request to reset the decoder comes with a self-contained keyframe. *)
Definition reset_justified (x : video_packet * bool) : Prop :=
  x.2 = true -> pk_keyframe x.1 = true /\ x.1.(pk_keyframe_valid) = true.

Record queue_ok (capacity : Z) (l : queue_life) : Prop := {
  qo_chained : chained (l.(ql_taken) ++ l.(ql_queue).(vq_packets));
  qo_size : zlen l.(ql_queue).(vq_packets) <= capacity;
  qo_resets : Forall reset_justified (l.(ql_taken) ++ l.(ql_queue).(vq_packets));
  qo_last : l.(ql_queue).(vq_wait_keyframe) = false ->
    match list.last (l.(ql_taken) ++ l.(ql_queue).(vq_packets)) with
    | Some (a, _) => a.(pk_position) = l.(ql_next) - 1 /\ pk_control a = false
    | None => True
    end;
}.

(** A packet that starts afresh joins the taken ones: the queue is cleared. *)
Lemma queue_ok_clear capacity l p r wait next :
  1 <= capacity -> queue_ok capacity l -> pk_keyframe p = true \/ pk_control p = true ->
  reset_justified (p, r) ->
  (wait = false -> p.(pk_position) = next - 1 /\ pk_control p = false) ->
  queue_ok capacity (mk_queue_life (mk_video_queue ([] ++ [(p, r)]) wait) next l.(ql_taken)).
Proof.
  intros Hc [H1 H2 H3 H4] Hp Hr Hw. apply chained_app_l in H1. apply Forall_app in H3 as [H3 _].
  constructor; cbn [ql_taken ql_queue vq_packets vq_wait_keyframe ql_next app].
  - apply chained_snoc. split; [done |]. destruct (list.last l.(ql_taken)) as [[a ra]|]; [| done].
    unfold decodes_after. tauto.
  - unfold zlen. cbn [length]. lia.
  - apply Forall_app. split; [done | by constructor].
  - intros E. rewrite last_snoc. by apply Hw.
Qed.

Lemma queue_live_ok capacity l e :
  1 <= capacity <= UINT16_MAX -> queue_ok capacity l -> queue_ok capacity (queue_live capacity l e).
Proof.
  intros Hc Hok. destruct e as [flags valid|]; cbn [queue_live].
  2: { destruct l as [[q w] next taken]. cbn [ql_queue vq_packets]. destruct q as [|x q]; [done |].
       destruct Hok as [H1 H2 H3 H4]. cbn [ql_queue vq_packets ql_taken ql_next vq_wait_keyframe] in *.
       constructor; cbn [ql_queue vq_packets ql_taken ql_next vq_wait_keyframe];
         rewrite <- ?(assoc (++)); cbn [app]; try done. unfold zlen in *. cbn [length] in *. lia. }
  set (p := mk_video_packet l.(ql_next) flags valid). unfold enqueue_video_message. cbv zeta.
  destruct Hok as [H1 H2 H3 H4] eqn:Eok. clear Eok.
  assert (forall packets, packets = l.(ql_queue).(vq_packets) \/ packets = [] ->
    queue_ok capacity (mk_queue_life (mk_video_queue packets true) (l.(ql_next) + 1) l.(ql_taken))) as Hwait.
  { intros packets Hp. constructor; cbn [ql_queue vq_packets ql_taken ql_next vq_wait_keyframe]; [| | | done].
    - destruct Hp as [->| ->]; [done | rewrite app_nil_r; by eapply chained_app_l].
    - destruct Hp as [->| ->]; [done | unfold zlen; cbn [length]; lia].
    - destruct Hp as [->| ->]; [done | rewrite app_nil_r; by apply Forall_app in H3 as [? _]]. }
  destruct (l.(ql_queue).(vq_wait_keyframe) && pk_keyframe p && negb (pk_control p) &&
    negb p.(pk_keyframe_valid)) eqn:Ev.
  { bool_cases. destruct l as [[q w] next taken]. cbn in *. subst w. apply Hwait. by left. }
  unfold wd_client_video_decode_queue_plan_compute. rewrite (proj2 (Z.eqb_neq capacity 0)) by lia.
  destruct (pk_control p) eqn:Ec; cbn [dq_action dq_clear_queue dq_wait_for_keyframe dq_reset_decoder_before].
  { apply (queue_ok_clear capacity l p false true); [lia | done | by right | intros [=] | done]. }
  destruct (pk_keyframe p) eqn:Ek; cbn [dq_action dq_clear_queue dq_wait_for_keyframe dq_reset_decoder_before].
  { apply (queue_ok_clear capacity l p _ false); [lia | done | by left | |].
    - intros E. cbn [snd fst] in *. rewrite E in Ev. cbn in Ev. split; [done |]. by apply negb_false_iff in Ev.
    - intros _. split; [subst p; cbn; lia | done]. }
  destruct (l.(ql_queue).(vq_wait_keyframe)) eqn:Ew;
    cbn [dq_action dq_clear_queue dq_wait_for_keyframe dq_reset_decoder_before]; [apply Hwait; by left |].
  destruct (Z.geb_spec (Z.min (zlen l.(ql_queue).(vq_packets)) UINT16_MAX) capacity);
    cbn [dq_action dq_clear_queue dq_wait_for_keyframe dq_reset_decoder_before]; [apply Hwait; by right |].
  constructor; cbn [ql_queue vq_packets ql_taken ql_next vq_wait_keyframe]; rewrite ?(assoc (++)).
  - apply chained_snoc. split; [done |]. specialize (H4 eq_refl).
    destruct (list.last (l.(ql_taken) ++ l.(ql_queue).(vq_packets))) as [[a ra]|]; [| done].
    right; right. destruct H4 as [H4 ?]. split; [subst p; cbn; lia | done].
  - rewrite zlen_app. unfold zlen at 2. cbn [length]. mlia.
  - apply Forall_app. split; [done | constructor; [intros [=] | done]].
  - intros _. rewrite last_snoc. split; [subst p; cbn; lia | done].
Qed.

(** C16: the decoder is fed a decodable stream. Whatever the stream holds
    and however the decoder lags behind, the queue stays within its capacity;
    each packet the decoder takes either starts afresh (a keyframe or a control
    frame) or is the packet sent right after the one taken before it, with
    nothing lost in between; and a packet that asks for a reset of the decoder
    is a keyframe with everything a fresh decoder needs. *)
Theorem decoder_input_chained capacity es :
  1 <= capacity <= UINT16_MAX ->
  let l := queue_lives capacity es in
  chained l.(ql_taken) /\ zlen l.(ql_queue).(vq_packets) <= capacity /\
  Forall reset_justified l.(ql_taken).
Proof.
  intros Hc l. assert (queue_ok capacity l) as [H1 H2 H3 _].
  { subst l. unfold queue_lives.
    assert (queue_ok capacity (mk_queue_life (mk_video_queue [] false) 0 [])) as H.
    { constructor; cbn [ql_taken ql_queue vq_packets app];
      [done | unfold zlen; cbn [length]; lia | constructor | done]. }
    revert H. generalize (mk_queue_life (mk_video_queue [] false) 0 []).
    induction es as [|e es IH]; intros s Hs; cbn [fold_left]; [done |]. by apply IH, queue_live_ok. }
  apply chained_app_l in H1. by apply Forall_app in H3 as [H3 _].
Qed.

(** A stream with a keyframe, two pictures and an overflow of a queue for two. *)
Lemma decoder_input_chained_witness :
  let l := queue_lives 2 [Receive WD_VIDEO_FRAME_KEYFRAME true; Receive 0 true; Receive 0 true;
                          Receive 0 true; Receive WD_VIDEO_FRAME_KEYFRAME false;
                          Receive WD_VIDEO_FRAME_KEYFRAME true; Receive 0 true; TakeFront; TakeFront] in
  chained l.(ql_taken) /\ (pk_position ∘ fst <$> l.(ql_taken)) = [5; 6].
Proof.
  split; [| vm_compute; reflexivity].
  apply (decoder_input_chained 2 [Receive WD_VIDEO_FRAME_KEYFRAME true; Receive 0 true; Receive 0 true;
                          Receive 0 true; Receive WD_VIDEO_FRAME_KEYFRAME false;
                          Receive WD_VIDEO_FRAME_KEYFRAME true; Receive 0 true; TakeFront; TakeFront]).
  mlia.
Defined.

(** ** Time *)

(** Scaling by parts is scaling: [whole] units of [m] and the remainder. *)
Lemma scaled_sum x m rate :
  0 <= x -> 0 < m -> 0 <= rate -> x * rate / m = x / m * rate + x mod m * rate / m.
Proof.
  intros Hx Hm Hr. rewrite (Z.div_mod x m) at 1 by lia.
  replace ((m * (x / m) + x mod m) * rate) with (x / m * rate * m + x mod m * rate) by ring.
  by rewrite Z.div_add_l by lia.
Qed.

(** The conversion of a video timestamp is exact, and saturates. *)
Lemma usec_to_samples_exact pts rate :
  u64_ok pts -> u32_ok rate ->
  wd_media_usec_to_samples pts rate = Z.min UINT64_MAX (pts * rate / 1000000).
Proof.
  intros Hp Hr. unfold wd_media_usec_to_samples. destruct (Z.eqb_spec rate 0) as [->|Hr0].
  { rewrite Z.mul_0_r. reflexivity. }
  rewrite (scaled_sum pts 1000000 rate) by mlia. cbv zeta.
  pose proof (Z.div_pos pts 1000000 ltac:(mlia) ltac:(lia)) as Hq.
  pose proof (Z.mod_pos_bound pts 1000000 ltac:(lia)) as Hm.
  set (q := pts / 1000000) in *. set (m := pts mod 1000000) in *. clearbody q m.
  assert (0 <= m * rate <= 1000000 * UINT32_MAX) as Hmr by (wd_bounds; nia).
  rewrite (u64_small (m * rate)) by mlia.
  pose proof (Z.div_pos (m * rate) 1000000 ltac:(lia) ltac:(lia)) as Hf.
  pose proof (Z.mul_div_le UINT64_MAX rate ltac:(mlia)) as Hd.
  pose proof (Z.mul_succ_div_gt UINT64_MAX rate ltac:(mlia)) as Hd'.
  set (d := UINT64_MAX / rate) in *. clearbody d. set (f := m * rate / 1000000) in *. clearbody f.
  destruct (Z.gtb_spec q d).
  - rewrite Z.min_l; [done |]. wd_bounds. nia.
  - assert (0 <= q * rate <= UINT64_MAX) by (wd_bounds; nia). rewrite (u64_small (q * rate)) by mlia.
    destruct (Z.ltb_spec (UINT64_MAX - q * rate) f); [lia | rewrite u64_small by mlia; lia].
Qed.

(** The delay of a held picture is its lead, rounded up to a millisecond and
    capped. *)
Lemma hold_retry_spec wait rate :
  0 < wait <= UINT64_MAX -> 0 < rate <= UINT32_MAX ->
  hold_retry_ms wait rate = Z.min 20 (cdiv (wait * 1000) rate).
Proof.
  intros Hw Hr. unfold hold_retry_ms. change WD_MSEC_PER_SEC with 1000.
  change WD_CLIENT_VIDEO_AUDIO_MAX_RETRY_MS with 20. cbv zeta.
  pose proof (Z.div_mod wait rate ltac:(lia)) as Ed. pose proof (Z.mod_pos_bound wait rate ltac:(lia)) as Hm.
  pose proof (Z.div_pos wait rate ltac:(lia) ltac:(lia)) as Hq.
  set (q := wait / rate) in *. set (m := wait mod rate) in *. clearbody q m.
  rewrite (u64_small (m * 1000)) by mlia. rewrite (u64_small (m * 1000 + rate - 1)) by mlia.
  fold (cdiv (m * 1000) rate). set (c := cdiv (m * 1000) rate).
  pose proof (proj1 (cdiv_spec (m * 1000) rate c ltac:(lia)) eq_refl) as Hc.
  assert (0 <= c <= 1000) as Hc2 by nia.
  assert (cdiv (wait * 1000) rate = q * 1000 + c) as -> by (apply cdiv_spec; nia).
  assert (0 < q * 1000 + c) by nia. clearbody c. clear Hc Ed.
  unfold wd_min_u64. change (UINT32_MAX / 1000) with 4294967.
  rewrite (u64_small (_ + c)) by (crush_if; mlia).
  destruct (Z.gtb_spec q 4294967).
  - rewrite (proj2 (Z.ltb_lt 20 (UINT32_MAX + c))) by mlia. rewrite Z.min_l by lia. done.
  - destruct (Z.ltb_spec 20 (q * 1000 + c)); [rewrite Z.min_l by lia; done |].
    rewrite (proj2 (Z.eqb_neq _ 0)) by lia. rewrite u32_small by mlia. lia.
Qed.

(** Pictures and sound. With [v] the picture's time in samples, exact up
    to saturation, a picture is held when it is more than 15 ms ahead of the
    sound, dropped when it is more than 30 ms behind and shown otherwise; a held
    picture is tried again after the time it is too early, at least one
    millisecond and at most 20 ms later. *)
Theorem av_sync_exact pts playhead rate :
  u64_ok pts -> u64_ok playhead -> 0 < rate <= UINT32_MAX ->
  let v := Z.min UINT64_MAX (pts * rate / 1000000) in
  let plan := wd_client_audio_video_sync_plan_compute pts playhead rate in
  let early := rate * 15 / 1000 in
  let late := rate * 30 / 1000 in
  (v > playhead + early ->
     plan.(av_decision) = WD_CLIENT_AUDIO_VIDEO_SYNC_HOLD /\
     plan.(av_retry_after_ms) = Z.min 20 (cdiv ((v - playhead - early) * 1000) rate)) /\
  (playhead > v + late -> plan.(av_decision) = WD_CLIENT_AUDIO_VIDEO_SYNC_DROP) /\
  (playhead - late <= v <= playhead + early ->
     plan.(av_decision) = WD_CLIENT_AUDIO_VIDEO_SYNC_PRESENT).
Proof.
  intros Hp Hh Hr. cbv zeta. unfold wd_client_audio_video_sync_plan_compute.
  rewrite (proj2 (Z.eqb_neq rate 0)) by lia. rewrite usec_to_samples_exact by mlia.
  assert (0 <= pts * rate / 1000000) by (apply Z.div_pos; [wd_bounds; nia | lia]).
  set (v := Z.min UINT64_MAX (pts * rate / 1000000)) in *.
  assert (0 <= v <= UINT64_MAX) as Hv by (subst v; mlia). clearbody v. cbv zeta.
  change WD_CLIENT_VIDEO_AUDIO_EARLY_MS with 15. change WD_CLIENT_VIDEO_AUDIO_LATE_MS with 30.
  change WD_MSEC_PER_SEC with 1000. rewrite !u64_small by mlia.
  pose proof (Z.div_pos (rate * 15) 1000 ltac:(lia) ltac:(lia)) as He.
  pose proof (Z.div_pos (rate * 30) 1000 ltac:(lia) ltac:(lia)) as Hl.
  set (early := rate * 15 / 1000) in *. set (late := rate * 30 / 1000) in *. clearbody early late.
  split_and!; intros Hcase.
  - rewrite (proj2 (Z.gtb_lt v playhead)), (proj2 (Z.gtb_lt (v - playhead) early)) by lia. cbn [andb].
    split; [done |]. cbn [av_retry_after_ms]. apply hold_retry_spec; mlia.
  - destruct (Z.gtb_spec v playhead); [lia |]. cbn [andb].
    rewrite (proj2 (Z.gtb_lt playhead v)), (proj2 (Z.gtb_lt (playhead - v) late)) by lia. done.
  - destruct (Z.gtb_spec v playhead), (Z.gtb_spec (v - playhead) early); cbn [andb]; try lia;
      destruct (Z.gtb_spec playhead v), (Z.gtb_spec (playhead - v) late); cbn [andb]; try lia; done.
Qed.

Lemma av_sync_exact_witness :
  (wd_client_audio_video_sync_plan_compute 1000000 47000 48000).(av_retry_after_ms) = 6.
Proof.
  destruct (av_sync_exact 1000000 47000 48000) as [H _]; [mlia | mlia | mlia |].
  destruct H as [_ H]; [vm_compute; reflexivity |]. rewrite H. vm_compute. reflexivity.
Defined.
