(* ===== verification/KeyframeRecovery.v ===== *)
(** * Recovery keyframes

    src/client/video_keyframe_recovery.c: the test that a packet which claims to
    be a keyframe is self-contained, on the bytes of the packet as the server
    sent them.  A read outside the packet is undefined in C and [None] here, and
    so is a loop that runs out of fuel; the fuel is the size of the packet, as
    every iteration advances, and eleven for the bytes of a length. *)
From Stdlib Require Import String.
From S2P Require Import Prelude Config.

Inductive wd_client_video_keyframe_result :=
  | WD_CLIENT_VIDEO_KEYFRAME_VALID
  | WD_CLIENT_VIDEO_KEYFRAME_INVALID_BITSTREAM
  | WD_CLIENT_VIDEO_KEYFRAME_MISSING_PARAMETER_SETS
  | WD_CLIENT_VIDEO_KEYFRAME_MISSING_RANDOM_ACCESS.

(** [data[pos]]. *)
Definition rd (data : list Z) (pos : Z) : option Z :=
  if 0 <=? pos then data !! Z.to_nat pos else None.

Definition wd_start_code_size (data : list Z) (pos : Z) : option Z :=
  let size := zlen data in
  if (pos >? size) || (size - pos <? 3) then Some 0
  else
    b0 ← rd data pos;
    if negb (b0 =? 0) then Some 0
    else
      b1 ← rd data (pos + 1);
      if negb (b1 =? 0) then Some 0
      else
        b2 ← rd data (pos + 2);
        if b2 =? 1 then Some 3
        else if (size - pos >=? 4) && (b2 =? 0) then
          b3 ← rd data (pos + 3);
          Some (if b3 =? 1 then 4 else 0)
        else Some 0.

(** ** AV1 *)

(** The size field of an OBU: [Some (inl tt)] when it is invalid, otherwise its
    value and the position after it. *)
Fixpoint obu_size (fuel : nat) (data : list Z) (pos shift payload_size : Z)
    : option (unit + Z * Z) :=
  match fuel with
  | O => None
  | S fuel =>
      if (pos >=? zlen data) || (shift >=? 64) then Some (inl tt)
      else
        part ← rd data pos;
        let pos := pos + 1 in
        let part_size := Z.land part 127 in
        if part_size >? Z.shiftr SIZE_MAX shift then Some (inl tt)
        else
          let payload_size := Z.lor payload_size (Z.shiftl part_size shift) in
          if flag part 128 then obu_size fuel data pos (shift + 7) payload_size
          else Some (inr (payload_size, pos))
  end.

Record av1_scan := mk_av1_scan {
  av_sequence : bool;
  av_key_header : bool;
  av_picture : bool;
}.

(** The header of an OBU at [pos]: its type, its payload's position and size. *)
Definition obu_header (data : list Z) (pos : Z) : option (unit + Z * Z * Z) :=
  let size := zlen data in
  header ← rd data pos;
  let pos := pos + 1 in
  if flag header 129 || (Z.land (Z.shiftr header 3) 15 =? 0) then Some (inl tt)
  else
    let type := Z.land (Z.shiftr header 3) 15 in
    extension ←
      (if flag header 4 then
         if pos >=? size then Some (inl tt)
         else
           b ← rd data pos;
           Some (if flag b 7 then inl tt else inr (pos + 1))
       else Some (inr pos));
    match extension with
    | inl tt => Some (inl tt)
    | inr pos =>
        if flag header 2 then
          field ← obu_size 11 data pos 0 0;
          match field with
          | inl tt => Some (inl tt)
          | inr (payload_size, pos) =>
              if payload_size >? size - pos then Some (inl tt)
              else Some (inr (type, pos, payload_size))
          end
        else Some (inr (type, pos, size - pos))
    end.

(** What one OBU adds, or the verdict it leads to. *)
Definition obu_scan (data : list Z) (s : av1_scan) (type pos payload_size : Z)
    : option (wd_client_video_keyframe_result + av1_scan) :=
  if type =? 1 then
    Some (if payload_size =? 0 then inl WD_CLIENT_VIDEO_KEYFRAME_INVALID_BITSTREAM
          else inr (mk_av1_scan true s.(av_key_header) s.(av_picture)))
  else if (type =? 3) || (type =? 6) then
    if payload_size =? 0 then Some (inl WD_CLIENT_VIDEO_KEYFRAME_INVALID_BITSTREAM)
    else if negb s.(av_sequence) then Some (inl WD_CLIENT_VIDEO_KEYFRAME_MISSING_PARAMETER_SETS)
    else
      first ← rd data pos;
      Some (if flag first 224 then inl WD_CLIENT_VIDEO_KEYFRAME_MISSING_RANDOM_ACCESS
            else inr (mk_av1_scan s.(av_sequence) true ((type =? 6) || s.(av_picture))))
  else if (type =? 4) && s.(av_key_header) then
    Some (inr (mk_av1_scan s.(av_sequence) s.(av_key_header) (negb (payload_size =? 0))))
  else Some (inr s).

Definition av1_verdict (s : av1_scan) : wd_client_video_keyframe_result :=
  if negb s.(av_sequence) then WD_CLIENT_VIDEO_KEYFRAME_MISSING_PARAMETER_SETS
  else if s.(av_key_header) && s.(av_picture) then WD_CLIENT_VIDEO_KEYFRAME_VALID
  else WD_CLIENT_VIDEO_KEYFRAME_MISSING_RANDOM_ACCESS.

Fixpoint av1_loop (fuel : nat) (data : list Z) (pos : Z) (s : av1_scan)
    : option wd_client_video_keyframe_result :=
  if pos <? zlen data then
    match fuel with
    | O => None
    | S fuel =>
        header ← obu_header data pos;
        match header with
        | inl tt => Some WD_CLIENT_VIDEO_KEYFRAME_INVALID_BITSTREAM
        | inr (type, pos, payload_size) =>
            scan ← obu_scan data s type pos payload_size;
            match scan with
            | inl result => Some result
            | inr s => av1_loop fuel data (pos + payload_size) s
            end
        end
    end
  else Some (av1_verdict s).

Definition wd_av1_keyframe_validate (data : list Z) : option wd_client_video_keyframe_result :=
  av1_loop (length data) data 0 (mk_av1_scan false false false).

(** ** H.264 and H.265 *)

(** The end of the NAL unit: the next start code, or the end of the packet. *)
Fixpoint nal_end (fuel : nat) (data : list Z) (next : Z) : option Z :=
  if next <? zlen data then
    match fuel with
    | O => None
    | S fuel =>
        prefix ← wd_start_code_size data next;
        if prefix =? 0 then nal_end fuel data (next + 1) else Some next
    end
  else Some next.

(** The parameter sets a NAL unit type stands for. *)
Definition parameter_set (hevc : bool) (type : Z) : Z :=
  if hevc then if type =? 32 then 1 else if type =? 33 then 2 else if type =? 34 then 4 else 0
  else if type =? 7 then 1 else if type =? 8 then 2 else 0.

Definition is_picture (hevc : bool) (type : Z) : bool :=
  if hevc then type <=? 31 else (type =? 1) || (type =? 5).

Definition is_random_access (hevc : bool) (type : Z) : bool :=
  if hevc then (16 <=? type) && (type <=? 21) else type =? 5.

Definition required_sets (hevc : bool) : Z := if hevc then 7 else 3.

(** One NAL unit of the given type: the sets present and whether a
    random-access picture was seen, or the verdict it leads to. *)
Definition nal_scan (hevc : bool) (present : Z) (random_access : bool) (type : Z)
    : wd_client_video_keyframe_result + Z * bool :=
  let required := required_sets hevc in
  let present := Z.lor present (parameter_set hevc type) in
  if is_picture hevc type then
    if negb (Z.land present required =? required) || negb (is_random_access hevc type)
    then inl (if negb (Z.land present required =? required)
              then WD_CLIENT_VIDEO_KEYFRAME_MISSING_PARAMETER_SETS
              else WD_CLIENT_VIDEO_KEYFRAME_MISSING_RANDOM_ACCESS)
    else inr (present, true)
  else inr (present, random_access).

Definition nal_type (hevc : bool) (b0 : Z) : Z :=
  if hevc then Z.land (Z.shiftr b0 1) 63 else Z.land b0 31.

(** The NAL unit at [nal .. next): its type, or none if its header is invalid. *)
Definition nal_header (hevc : bool) (data : list Z) (nal next : Z) : option (unit + Z) :=
  if next - nal <? (if hevc then 3 else 2) then Some (inl tt)
  else
    b0 ← rd data nal;
    if flag b0 128 then Some (inl tt)
    else if hevc then
      b1 ← rd data (nal + 1);
      Some (if negb (flag b1 7) then inl tt else inr (nal_type hevc b0))
    else Some (inr (nal_type hevc b0)).

Definition annexb_verdict (hevc : bool) (present : Z) (random_access : bool)
    : wd_client_video_keyframe_result :=
  if negb (Z.land present (required_sets hevc) =? required_sets hevc)
  then WD_CLIENT_VIDEO_KEYFRAME_MISSING_PARAMETER_SETS
  else if random_access then WD_CLIENT_VIDEO_KEYFRAME_VALID
  else WD_CLIENT_VIDEO_KEYFRAME_MISSING_RANDOM_ACCESS.

Fixpoint annexb_loop (fuel : nat) (hevc : bool) (data : list Z) (pos present : Z)
    (random_access : bool) : option wd_client_video_keyframe_result :=
  if pos <? zlen data then
    match fuel with
    | O => None
    | S fuel =>
        prefix ← wd_start_code_size data pos;
        if prefix =? 0 then
          b ← rd data pos;
          if negb (b =? 0) then Some WD_CLIENT_VIDEO_KEYFRAME_INVALID_BITSTREAM
          else annexb_loop fuel hevc data (pos + 1) present random_access
        else
          let nal := pos + prefix in
          next ← nal_end (length data) data nal;
          header ← nal_header hevc data nal next;
          match header with
          | inl tt => Some WD_CLIENT_VIDEO_KEYFRAME_INVALID_BITSTREAM
          | inr type =>
              match nal_scan hevc present random_access type with
              | inl result => Some result
              | inr (present, random_access) =>
                  annexb_loop fuel hevc data next present random_access
              end
          end
    end
  else Some (annexb_verdict hevc present random_access).

Definition wd_client_video_keyframe_validate (codec : Z) (data : ptr (list Z))
    : option wd_client_video_keyframe_result :=
  match data with
  | NULL => Some WD_CLIENT_VIDEO_KEYFRAME_INVALID_BITSTREAM
  | Some data =>
      if (zlen data =? 0) ||
         (negb (codec =? WD_VIDEO_CODEC_H264) && negb (codec =? WD_VIDEO_CODEC_H265) &&
          negb (codec =? WD_VIDEO_CODEC_AV1))
      then Some WD_CLIENT_VIDEO_KEYFRAME_INVALID_BITSTREAM
      else if codec =? WD_VIDEO_CODEC_AV1 then wd_av1_keyframe_validate data
      else annexb_loop (length data) (codec =? WD_VIDEO_CODEC_H265) data 0 0 false
  end.

Definition wd_client_video_keyframe_result_name (result : wd_client_video_keyframe_result) : string :=
  match result with
  | WD_CLIENT_VIDEO_KEYFRAME_VALID => "valid"
  | WD_CLIENT_VIDEO_KEYFRAME_INVALID_BITSTREAM => "invalid or truncated codec bitstream"
  | WD_CLIENT_VIDEO_KEYFRAME_MISSING_PARAMETER_SETS => "missing codec parameter sets"
  | WD_CLIENT_VIDEO_KEYFRAME_MISSING_RANDOM_ACCESS => "missing random-access picture"
  end%string.

(** ** Reads stay inside the packet *)

Lemma rd_some data pos : 0 <= pos < zlen data -> rd data pos = Some (aget 0 data pos).
Proof.
  intros H. unfold rd, aget. rewrite (proj2 (Z.leb_le 0 pos)) by lia. rewrite nth_lookup.
  destruct (lookup_lt_is_Some_2 data (Z.to_nat pos)) as [x ->]; [unfold zlen in H; lia | done].
Qed.

(** A start code lies inside the packet. *)
Lemma start_code_some data pos :
  0 <= pos -> exists n, wd_start_code_size data pos = Some n /\
    (n = 0 \/ ((n = 3 \/ n = 4) /\ pos + n <= zlen data)).
Proof.
  intros Hp. unfold wd_start_code_size. cbv zeta. case_if; [exists 0; by auto |]. bool_cases.
  rewrite (rd_some data pos) by lia. cbn [mbind option_bind].
  case_if; [exists 0; by auto |]. rewrite (rd_some data (pos + 1)) by lia. cbn [mbind option_bind].
  case_if; [exists 0; by auto |]. rewrite (rd_some data (pos + 2)) by lia. cbn [mbind option_bind].
  case_if; [exists 3; split; [done | right; lia] |].
  case_if; [| exists 0; by auto]. bool_cases. rewrite rd_some by lia. cbn [mbind option_bind].
  eexists. split; [done |]. case_if; [right; lia | by left].
Qed.

Lemma obu_size_some k fuel data pos acc :
  0 <= k -> 11 <= Z.of_nat fuel + k -> (0 < fuel)%nat -> 0 <= pos -> 0 <= acc ->
  exists r, obu_size fuel data pos (7 * k) acc = Some r /\
    match r with inl _ => True | inr (n, p) => 0 <= n /\ pos < p <= zlen data end.
Proof.
  revert k pos acc. induction fuel as [|fuel IH]; intros k pos acc Hk Hf Hf0 Hp Ha; [lia |].
  cbn [obu_size]. case_if; [by eexists |]. bool_cases. rewrite rd_some by lia. cbn [mbind option_bind].
  case_if; [by eexists |].
  assert (0 <= Z.lor acc (Z.shiftl (Z.land (aget 0 data pos) 127) (7 * k))).
  { apply Z.lor_nonneg. split; [done |]. apply Z.shiftl_nonneg, Z.land_nonneg. lia. }
  case_if.
  - replace (7 * k + 7) with (7 * (k + 1)) by lia.
    destruct (IH (k + 1) (pos + 1) (Z.lor acc (Z.shiftl (Z.land (aget 0 data pos) 127) (7 * k))))
      as (r & -> & Hr); [lia | lia | lia | lia | done |].
    eexists. split; [done |]. destruct r as [|[n p]]; [done | lia].
  - eexists. split; [done |]. split; [done | cbn; lia].
Qed.

Lemma obu_header_some data pos :
  0 <= pos < zlen data -> exists r, obu_header data pos = Some r /\
    match r with inl _ => True | inr (_, p, n) => pos < p /\ 0 <= n /\ p + n <= zlen data end.
Proof.
  intros Hp. unfold obu_header. cbv zeta. rewrite (rd_some data pos) by lia. cbn [mbind option_bind].
  case_if; [by eexists |].
  match goal with |- context [extension ← ?x; _] => assert (exists e, x = Some e /\
    match e with inl _ => True | inr p => pos < p <= zlen data end) as (e & -> & He) end.
  { destruct (flag (aget 0 data pos) 4); [| eexists; split; [done | cbn; lia]].
    destruct (Z.geb_spec (pos + 1) (zlen data)); [by eexists |].
    rewrite rd_some by lia. cbn [mbind option_bind]. eexists. split; [done |]. case_if; [done | cbn; lia]. }
  cbn [mbind option_bind]. destruct e as [[]|p]; [by eexists |].
  destruct (flag (aget 0 data pos) 2); [| eexists; split; [done | cbn; lia]].
  destruct (obu_size_some 0 11 data p 0) as (r & Er & Hr); [lia | lia | lia | lia | lia |].
  change (7 * 0) with 0 in Er. rewrite Er. cbn [mbind option_bind].
  destruct r as [[]|[n q]]; [by eexists |]. case_if; [by eexists |]. bool_cases.
  eexists. split; [done |]. cbn; lia.
Qed.

Lemma obu_scan_some data s type pos n :
  0 <= pos -> pos + n <= zlen data -> 0 <= n -> is_Some (obu_scan data s type pos n).
Proof.
  intros Hp Hn Hn0. unfold obu_scan. case_if; [by eexists |]. case_if; [| case_if; by eexists].
  case_if; [by eexists |]. bool_cases. case_if; [by eexists |].
  rewrite rd_some by lia. by eexists.
Qed.

Lemma av1_loop_some fuel data pos s :
  0 <= pos -> zlen data - pos <= Z.of_nat fuel -> is_Some (av1_loop fuel data pos s).
Proof.
  revert pos s. induction fuel as [|fuel IH]; intros pos s Hp Hf; cbn [av1_loop];
    destruct (Z.ltb_spec pos (zlen data)); try (by eexists); [lia |].
  destruct (obu_header_some data pos ltac:(lia)) as (r & -> & Hr). cbn [mbind option_bind].
  destruct r as [[]|[[type p] n]]; [by eexists |].
  destruct (obu_scan_some data s type p n) as [x ->]; [lia | lia | lia |]. cbn [mbind option_bind].
  destruct x as [|s']; [by eexists |]. apply IH; lia.
Qed.

Lemma nal_end_some fuel data next :
  0 <= next -> zlen data - next <= Z.of_nat fuel -> exists n, nal_end fuel data next = Some n /\
    next <= n /\ (n <= zlen data \/ n = next).
Proof.
  revert next. induction fuel as [|fuel IH]; intros next Hp Hf; cbn [nal_end];
    destruct (Z.ltb_spec next (zlen data)); try (eexists; split; [done | cbn; lia]); [lia |].
  destruct (start_code_some data next Hp) as (k & -> & _). cbn [mbind option_bind].
  case_if; [| eexists; split; [done | cbn; lia]].
  destruct (IH (next + 1) ltac:(lia) ltac:(lia)) as (n & -> & H1 & H2). eexists. split; [done |]. cbn; lia.
Qed.

Lemma annexb_loop_some fuel hevc data pos present ra :
  0 <= pos -> zlen data - pos <= Z.of_nat fuel -> is_Some (annexb_loop fuel hevc data pos present ra).
Proof.
  revert pos present ra. induction fuel as [|fuel IH]; intros pos present ra Hp Hf; cbn [annexb_loop];
    destruct (Z.ltb_spec pos (zlen data)); try (by eexists); [lia |].
  destruct (start_code_some data pos Hp) as (k & -> & Hk). cbn [mbind option_bind].
  case_if; bool_cases.
  { rewrite rd_some by lia. cbn [mbind option_bind]. case_if; [by eexists |]. apply IH; lia. }
  destruct (nal_end_some (length data) data (pos + k)) as (n & -> & Hn1 & Hn2); [lia | unfold zlen; lia |].
  cbn [mbind option_bind].
  assert (is_Some (nal_header hevc data (pos + k) n)) as [h ->].
  { unfold nal_header. destruct hevc; cbv iota.
    - destruct (Z.ltb_spec (n - (pos + k)) 3); [by eexists |].
      rewrite (rd_some data (pos + k)) by lia. cbn [mbind option_bind].
      destruct (flag _ 128); [by eexists |]. rewrite rd_some by lia. by eexists.
    - destruct (Z.ltb_spec (n - (pos + k)) 2); [by eexists |].
      rewrite rd_some by lia. cbn [mbind option_bind]. destruct (flag _ 128); by eexists. }
  cbn [mbind option_bind]. destruct h as [[]|type]; [by eexists |].
  destruct (nal_scan hevc present ra type) as [|[p' r']]; [by eexists |]. apply IH; lia.
Qed.

(** C19: the validation of a keyframe is safe on any bytes: for every codec
    and every packet it ends, with a verdict, and never reads outside the
    packet. *)
Theorem keyframe_validation_safe codec data :
  is_Some (wd_client_video_keyframe_validate codec data).
Proof.
  destruct data as [data|]; [| by eexists]. unfold wd_client_video_keyframe_validate.
  case_if; [by eexists |]. case_if; [apply av1_loop_some | apply annexb_loop_some]; unfold zlen; lia.
Qed.

(** ** AV1 temporal units

    A temporal unit as the standard writes it: a sequence of OBUs, each with a
    size field. *)

Record obu := mk_obu {
  ob_type : Z;
  ob_extension : option Z;
  ob_payload : list Z;
}.

Definition obu_ok (o : obu) : Prop :=
  1 <= o.(ob_type) <= 15 /\ zlen o.(ob_payload) <= INT64_MAX /\
  match o.(ob_extension) with Some b => flag b 7 = false | None => True end.

Fixpoint leb128 (fuel : nat) (n : Z) : list Z :=
  match fuel with
  | O => [n]
  | S fuel => if n <? 128 then [n] else (n mod 128 + 128) :: leb128 fuel (n / 128)
  end.

Definition encode_obu (o : obu) : list Z :=
  (o.(ob_type) * 8 + (match o.(ob_extension) with Some _ => 4 | None => 0 end) + 2) ::
  (match o.(ob_extension) with Some b => [b] | None => [] end) ++
  leb128 9 (zlen o.(ob_payload)) ++ o.(ob_payload).

Definition is_frame (o : obu) : bool := (o.(ob_type) =? 3) || (o.(ob_type) =? 6).

(** What the validation must make of an OBU. *)
Definition unit_scan (s : av1_scan) (o : obu) : wd_client_video_keyframe_result + av1_scan :=
  if o.(ob_type) =? 1 then
    match o.(ob_payload) with
    | [] => inl WD_CLIENT_VIDEO_KEYFRAME_INVALID_BITSTREAM
    | _ => inr (mk_av1_scan true s.(av_key_header) s.(av_picture))
    end
  else if is_frame o then
    match o.(ob_payload) with
    | [] => inl WD_CLIENT_VIDEO_KEYFRAME_INVALID_BITSTREAM
    | first :: _ =>
        if negb s.(av_sequence) then inl WD_CLIENT_VIDEO_KEYFRAME_MISSING_PARAMETER_SETS
        else if flag first 224 then inl WD_CLIENT_VIDEO_KEYFRAME_MISSING_RANDOM_ACCESS
        else inr (mk_av1_scan true true ((o.(ob_type) =? 6) || s.(av_picture)))
    end
  else if (o.(ob_type) =? 4) && s.(av_key_header) then
    inr (mk_av1_scan s.(av_sequence) true
      match o.(ob_payload) with [] => false | _ => true end)
  else inr s.

Fixpoint unit_verdict (s : av1_scan) (os : list obu) : wd_client_video_keyframe_result :=
  match os with
  | [] => av1_verdict s
  | o :: os => match unit_scan s o with inl r => r | inr s => unit_verdict s os end
  end.

(** *** Parsing what was encoded *)

Lemma rd_app pre l k : 0 <= k -> rd (pre ++ l) (zlen pre + k) = rd l k.
Proof.
  intros Hk. unfold rd, zlen. rewrite !(proj2 (Z.leb_le 0 _)) by lia.
  rewrite lookup_app_r by lia. f_equal. lia.
Qed.

Lemma rd_at pre x rest : rd (pre ++ x :: rest) (zlen pre) = Some x.
Proof. rewrite <- (Z.add_0_r (zlen pre)). by rewrite rd_app. Qed.

Lemma not_at_end {A} (pre : list A) x rest : (zlen pre >=? zlen (pre ++ x :: rest)) = false.
Proof.
  rewrite Z.geb_leb. apply Z.leb_gt. rewrite zlen_app, zlen_cons. pose proof (zlen_nonneg rest). lia.
Qed.

Lemma lor_shifted a b k : 0 <= k -> 0 <= a < 2 ^ k -> Z.lor a (Z.shiftl b k) = a + b * 2 ^ k.
Proof.
  intros Hk Ha. rewrite <- Z.shiftl_mul_pow2 by done. rewrite <- (Z.add_lor_land a).
  replace (Z.land a (Z.shiftl b k)) with 0; [lia |]. symmetry. apply Z.bits_inj'. intros n Hn.
  rewrite Z.land_spec, Z.bits_0, Z.shiftl_spec by done. destruct (Z.lt_ge_cases n k).
  - rewrite (Z.testbit_neg_r b) by lia. apply andb_false_r.
  - destruct (Z.eq_dec a 0) as [->|]; [by rewrite Z.bits_0 |].
    rewrite (Z.bits_above_log2 a); [done | lia |].
    assert (Z.log2 a < k) by (apply Z.log2_lt_pow2; lia). lia.
Qed.

Lemma low_seven m : 0 <= m < 128 ->
  (Z.land m 127 = m /\ flag m 128 = false) /\
  (Z.land (m + 128) 127 = m /\ flag (m + 128) 128 = true).
Proof.
  intros Hm. assert (Z.of_nat (Z.to_nat m) = m) as <- by lia.
  assert (Z.to_nat m < 128)%nat as H by lia. revert H. generalize (Z.to_nat m). clear m Hm. intros m Hm.
  assert (forallb (fun k => let m := Z.of_nat k in
    (Z.land m 127 =? m) && negb (flag m 128) && (Z.land (m + 128) 127 =? m) && flag (m + 128) 128)
    (seq 0 128) = true) as H by (vm_compute; reflexivity).
  rewrite forallb_forall in H. specialize (H m ltac:(apply in_seq; lia)). cbv zeta in H.
  bool_cases. done.
Qed.

Lemma zlen_leb128 f n : 0 < zlen (leb128 f n).
Proof.
  destruct f; cbn [leb128]; [done |]. destruct (n <? 128); [done |].
  rewrite zlen_cons. pose proof (zlen_nonneg (leb128 f (n / 128))). lia.
Qed.

Lemma obu_size_leb f k fuel n pre rest acc :
  0 <= k -> (f < fuel)%nat -> 0 <= n < 128 ^ Z.of_nat (S f) -> (k = 0 \/ 1 <= n) ->
  n * 2 ^ (7 * k) <= SIZE_MAX -> 0 <= acc < 2 ^ (7 * k) ->
  obu_size fuel (pre ++ leb128 f n ++ rest) (zlen pre) (7 * k) acc =
    Some (inr (acc + n * 2 ^ (7 * k), zlen pre + zlen (leb128 f n))).
Proof.
  revert k fuel n pre acc. induction f as [|f IH]; intros k fuel n pre acc Hk Hf Hn Hkn Hs Ha;
    (destruct fuel as [|fuel]; [lia |]);
    pose proof (Z.pow_pos_nonneg 2 (7 * k) ltac:(lia) ltac:(lia)) as Hp;
    assert (7 * k < 64) as Hk64 by
      (destruct Hkn as [->|Hn1]; [lia |]; apply Z.lt_nge; intros Hge;
       pose proof (Z.pow_le_mono_r 2 64 (7 * k) ltac:(lia) Hge); wd_bounds; nia);
    assert (forall m, 0 <= m <= n -> (m >? Z.shiftr SIZE_MAX (7 * k)) = false) as Hfit by
      (intros m Hm; rewrite Z.shiftr_div_pow2 by lia; rewrite Z.gtb_ltb; apply Z.ltb_ge;
       apply Z.div_le_lower_bound; nia);
    assert (forall x tl, ((zlen pre >=? zlen (pre ++ x :: tl)) || (7 * k >=? 64)) = false) as Hin by
      (intros x tl; rewrite not_at_end, Z.geb_leb; apply Z.leb_gt; lia).
  - cbn [leb128 app obu_size]. rewrite Hin, rd_at. cbn [mbind option_bind].
    destruct (low_seven n ltac:(cbn in Hn; lia)) as [[-> ->] _]. rewrite Hfit by lia.
    rewrite lor_shifted by lia. done.
  - cbn [leb128]. destruct (Z.ltb_spec n 128) as [Hlt|Hge].
    + cbn [app obu_size]. rewrite Hin, rd_at. cbn [mbind option_bind].
      destruct (low_seven n ltac:(lia)) as [[-> ->] _]. rewrite Hfit by lia.
      rewrite lor_shifted by lia. done.
    + cbn [app obu_size]. rewrite Hin, rd_at. cbn [mbind option_bind].
      pose proof (Z.mod_pos_bound n 128 ltac:(lia)) as Hm.
      pose proof (Z.div_mod n 128 ltac:(lia)) as Hd.
      destruct (low_seven (n mod 128) Hm) as [_ [-> ->]]. rewrite Hfit by lia. rewrite lor_shifted by lia.
      assert (1 <= n / 128) by (apply Z.div_le_lower_bound; lia).
      assert (2 ^ (7 * (k + 1)) = 128 * 2 ^ (7 * k)) as Ep.
      { replace (7 * (k + 1)) with (7 + 7 * k) by lia. by rewrite Z.pow_add_r by lia. }
      replace (7 * k + 7) with (7 * (k + 1)) by lia.
      replace (zlen pre + 1) with (zlen (pre ++ [n mod 128 + 128])) by (rewrite zlen_app; done).
      replace (pre ++ (n mod 128 + 128) :: leb128 f (n / 128) ++ rest)
        with ((pre ++ [n mod 128 + 128]) ++ leb128 f (n / 128) ++ rest) by (by rewrite <- (assoc (++))).
      rewrite IH; [| lia | lia | | by right | rewrite Ep; nia | rewrite Ep; nia].
      * do 3 f_equal; [rewrite Ep; nia |]. rewrite zlen_app, !zlen_cons. change (zlen (@nil Z)) with 0. lia.
      * split; [lia |]. apply Z.div_lt_upper_bound; [lia |]. rewrite <- Z.pow_succ_r by lia.
        replace (Z.succ (Z.of_nat (S f))) with (Z.of_nat (S (S f))) by lia. lia.
Qed.

Lemma header_bits type e :
  1 <= type <= 15 -> e = 0 \/ e = 4 ->
  let h := type * 8 + e + 2 in
  flag h 129 = false /\ Z.land (Z.shiftr h 3) 15 = type /\ flag h 4 = (e =? 4) /\ flag h 2 = true.
Proof.
  intros Ht He. assert (In type [1;2;3;4;5;6;7;8;9;10;11;12;13;14;15]) as Hin by (cbn; lia).
  cbn in Hin. repeat destruct Hin as [<-|Hin]; destruct He as [->| ->]; try done.
Qed.

Lemma obu_header_encoded o pre post :
  obu_ok o ->
  obu_header (pre ++ encode_obu o ++ post) (zlen pre) =
    Some (inr (o.(ob_type), zlen pre + zlen (encode_obu o) - zlen o.(ob_payload), zlen o.(ob_payload))).
Proof.
  intros (Ht & Hlen & Hx). destruct o as [type ext payload]. cbn [ob_type ob_extension ob_payload] in *.
  unfold obu_header, encode_obu. cbn [ob_type ob_extension ob_payload app]. cbv zeta.
  rewrite rd_at. cbn [mbind option_bind].
  destruct (header_bits type (match ext with Some _ => 4 | None => 0 end) Ht ltac:(destruct ext; lia))
    as (-> & -> & -> & ->).
  rewrite (proj2 (Z.eqb_neq type 0)) by lia. cbn [orb].
  set (hd := type * 8 + _ + 2). pose proof (zlen_leb128 9 (zlen payload)) as Hl.
  assert (forall pre', obu_size 11 (pre' ++ (leb128 9 (zlen payload) ++ payload) ++ post) (zlen pre') 0 0 =
    Some (inr (zlen payload, zlen pre' + zlen (leb128 9 (zlen payload))))) as Hsz.
  { intros pre'. rewrite <- (assoc (++)).
    pose proof (obu_size_leb 9 0 11 (zlen payload) pre' (payload ++ post) 0) as H.
    change (7 * 0) with 0 in H. change (2 ^ 0) with 1 in H. rewrite Z.mul_1_r, Z.add_0_l in H. apply H;
      [lia | lia | | by left | mlia | lia].
    pose proof (zlen_nonneg payload). change (128 ^ Z.of_nat 10) with (2 ^ 70). mlia. }
  assert (forall pre' q, q = zlen pre' + zlen (leb128 9 (zlen payload)) ->
    (if zlen payload >? zlen (pre' ++ (leb128 9 (zlen payload) ++ payload) ++ post) -
        (zlen pre' + zlen (leb128 9 (zlen payload)))
     then Some (inl tt)
     else Some (inr (type, zlen pre' + zlen (leb128 9 (zlen payload)), zlen payload))) =
    (Some (inr (type, q, zlen payload)) : option (unit + Z * Z * Z))) as Hend.
  { intros pre' q ->. rewrite Z.gtb_ltb, (proj2 (Z.ltb_ge _ _)); [done |]. rewrite !zlen_app.
    pose proof (zlen_nonneg post). lia. }
  destruct ext as [b|]; cbn [app].
  - replace (pre ++ hd :: b :: (leb128 9 (zlen payload) ++ payload) ++ post)
      with ((pre ++ [hd]) ++ b :: (leb128 9 (zlen payload) ++ payload) ++ post) by (by rewrite <- (assoc (++))).
    replace (zlen pre + 1) with (zlen (pre ++ [hd])) by (rewrite zlen_app; done).
    change (4 =? 4) with true. cbv iota. rewrite not_at_end, rd_at.
    cbn [mbind option_bind]. rewrite Hx.
    replace ((pre ++ [hd]) ++ b :: (leb128 9 (zlen payload) ++ payload) ++ post)
      with ((pre ++ [hd; b]) ++ (leb128 9 (zlen payload) ++ payload) ++ post) by (by rewrite <- !(assoc (++))).
    replace (zlen (pre ++ [hd]) + 1) with (zlen (pre ++ [hd; b]))
      by (rewrite !zlen_app, !zlen_cons; change (zlen (@nil Z)) with 0; lia).
    rewrite Hsz. cbn [mbind option_bind]. apply Hend.
    rewrite ?zlen_app, ?zlen_cons, ?zlen_app, ?zlen_cons. change (zlen (@nil Z)) with 0. lia.
  - change (0 =? 4) with false. cbv iota. cbn [mbind option_bind].
    replace (pre ++ hd :: (leb128 9 (zlen payload) ++ payload) ++ post)
      with ((pre ++ [hd]) ++ (leb128 9 (zlen payload) ++ payload) ++ post) by (by rewrite <- (assoc (++))).
    replace (zlen pre + 1) with (zlen (pre ++ [hd])) by (rewrite zlen_app; done).
    rewrite Hsz. cbn [mbind option_bind]. apply Hend.
    rewrite ?zlen_app, ?zlen_cons, ?zlen_app, ?zlen_cons. change (zlen (@nil Z)) with 0. lia.
Qed.

Lemma obu_scan_encoded s o pre post data p :
  obu_ok o -> data = pre ++ encode_obu o ++ post ->
  p = zlen pre + zlen (encode_obu o) - zlen o.(ob_payload) ->
  obu_scan data s o.(ob_type) p (zlen o.(ob_payload)) = Some (unit_scan s o).
Proof.
  intros Hok -> ->. destruct o as [type ext payload]. unfold obu_scan, unit_scan, is_frame.
  cbn [ob_type ob_payload] in *. destruct payload as [|x payload].
  { change (zlen (@nil Z) =? 0) with true. destruct (type =? 1); [done |].
    destruct ((type =? 3) || (type =? 6)); [done |]. destruct s as [seq [] pic]; destruct (type =? 4); done. }
  rewrite (proj2 (Z.eqb_neq (zlen (x :: payload)) 0)) by (rewrite zlen_cons; pose proof (zlen_nonneg payload); lia).
  cbn [negb]. destruct (type =? 1); [done |]. destruct ((type =? 3) || (type =? 6)).
  - destruct s as [seq key pic]. cbn [av_sequence av_picture]. destruct seq; cbn [negb]; [| done].
    replace (rd _ _) with (Some x); [done |]. symmetry.
    unfold encode_obu. cbn [ob_type ob_extension ob_payload].
    match goal with |- rd (pre ++ (?h :: ?e ++ ?l ++ x :: payload) ++ post) ?q = _ =>
      replace (pre ++ (h :: e ++ l ++ x :: payload) ++ post) with ((pre ++ h :: e ++ l) ++ x :: (payload ++ post))
        by (rewrite <- !(assoc (++)); cbn [app]; by rewrite <- !(assoc (++)));
      replace q with (zlen (pre ++ h :: e ++ l)); [apply rd_at |] end.
    rewrite !zlen_app, !zlen_cons, !zlen_app, !zlen_cons. lia.
  - destruct s as [seq [] pic]; cbn [av_key_header]; destruct (type =? 4); done.
Qed.

(** The validation of an encoded unit is the verdict on its OBUs. *)
Lemma av1_loop_encoded os fuel s pre :
  Forall obu_ok os -> (length os <= fuel)%nat ->
  av1_loop fuel (pre ++ concat (encode_obu <$> os)) (zlen pre) s = Some (unit_verdict s os).
Proof.
  revert fuel s pre. induction os as [|o os IH]; intros fuel s pre Hos Hf; cbn [fmap list_fmap concat].
  { rewrite app_nil_r. destruct fuel; cbn [av1_loop]; by rewrite Z.ltb_irrefl. }
  inversion Hos as [|? ? Ho Hos']; subst. destruct fuel as [|fuel]; cbn [length] in Hf; [lia |].
  cbn [av1_loop].
  replace (zlen pre <? zlen (pre ++ encode_obu o ++ concat (encode_obu <$> os))) with true.
  2: { symmetry. apply Z.ltb_lt. unfold encode_obu at 1. cbn [app]. rewrite zlen_app, zlen_cons.
       match goal with |- context [zlen (?a ++ ?b)] => pose proof (zlen_nonneg (a ++ b)) end. lia. }
  rewrite obu_header_encoded by done. cbn [mbind option_bind].
  rewrite (obu_scan_encoded s o pre (concat (encode_obu <$> os))) by done. cbn [mbind option_bind unit_verdict].
  destruct (unit_scan s o) as [r|s']; [done |].
  rewrite (assoc (++)). replace (_ + zlen o.(ob_payload)) with (zlen (pre ++ encode_obu o)) by (rewrite zlen_app; lia).
  apply IH; [done | lia].
Qed.

(** A frame OBU whose first bits say "new picture, key frame". *)
Definition key_frame (o : obu) : Prop :=
  exists first rest, o.(ob_payload) = first :: rest /\ flag first 224 = false.

Definition sequence_header (o : obu) : Prop := o.(ob_type) = 1 /\ o.(ob_payload) <> [].

Lemma unit_verdict_valid s os :
  unit_verdict s os = WD_CLIENT_VIDEO_KEYFRAME_VALID ->
  (s.(av_key_header) = true \/ exists k, In k os /\ is_frame k = true) /\
  forall a k b, os = a ++ k :: b -> is_frame k = true ->
    key_frame k /\ (s.(av_sequence) = true \/ exists q, In q a /\ sequence_header q).
Proof.
  revert s. induction os as [|o os IH]; intros s; cbn [unit_verdict].
  { unfold av1_verdict. destruct s as [[] [] []]; try done. intros _. split; [by left |].
    intros a k b E. by destruct a. }
  destruct (unit_scan s o) as [r|s'] eqn:Es.
  { unfold unit_scan in Es. intros ->. repeat case_match; simplify_eq. }
  intros H. destruct (IH s' H) as [IHk IHa]. clear IH H.
  assert (is_frame o = true -> key_frame o /\ s.(av_sequence) = true) as Hfr.
  { unfold unit_scan in Es. intros Ef. destruct (Z.eqb_spec o.(ob_type) 1) as [E1|].
    - unfold is_frame in Ef. rewrite E1 in Ef. done.
    - rewrite Ef in Es. destruct o.(ob_payload) as [|x rest] eqn:Ep; [done |].
      destruct s.(av_sequence); [| done]. cbn [negb] in Es. destruct (flag x 224) eqn:Ex; [done |].
      split; [by exists x, rest | done]. }
  assert (s'.(av_key_header) = true -> s.(av_key_header) = true \/ is_frame o = true) as Hk.
  { unfold unit_scan in Es. repeat case_match; simplify_eq; cbn; bool_cases; tauto. }
  assert (s'.(av_sequence) = true -> s.(av_sequence) = true \/ sequence_header o) as Hs.
  { unfold unit_scan in Es. unfold sequence_header. destruct (Z.eqb_spec o.(ob_type) 1) as [E1|].
    - destruct o.(ob_payload) eqn:Ep; [done | by right].
    - left. repeat case_match; simplify_eq; cbn in *; try done. by destruct s.(av_sequence). }
  split.
  - destruct IHk as [Hk'|(k & Hin & Hf)]; [| right; exists k; split; [by right | done]].
    destruct (Hk Hk') as [?|?]; [by left | right; exists o; split; [by left | done]].
  - intros a k b E Ef. destruct a as [|a0 a]; cbn in E; injection E as -> ->.
    + destruct (Hfr Ef). by split; [| left].
    + destruct (IHa a k b eq_refl Ef) as [Hkf [Hseq|(q & Hq & Hq')]]; (split; [done |]).
      * destruct (Hs Hseq); [by left | right; exists a0; split; [by left | done]].
      * right. exists q. split; [by right | done].
Qed.

Lemma length_encoded_units os : (length os <= length (concat (encode_obu <$> os)))%nat.
Proof.
  induction os as [|o os IH]; cbn [fmap list_fmap concat length]; [lia |]. rewrite length_app.
  unfold encode_obu at 1. cbn [length]. lia.
Qed.

(** C18: the verdict on an AV1 packet. For a temporal unit made of any OBUs,
    written with size fields, the validation parses exactly these OBUs and
    gives their verdict; and a unit found valid has a frame, every frame in it
    is a key frame, and a sequence header comes before each: a decoder that was
    just reset can start with it. *)
Theorem av1_keyframe_verdict os :
  Forall obu_ok os -> os <> [] ->
  let verdict := unit_verdict (mk_av1_scan false false false) os in
  wd_client_video_keyframe_validate WD_VIDEO_CODEC_AV1 (Some (concat (encode_obu <$> os))) = Some verdict /\
  (verdict = WD_CLIENT_VIDEO_KEYFRAME_VALID ->
     (exists k, In k os /\ is_frame k = true) /\
     forall a k b, os = a ++ k :: b -> is_frame k = true ->
       key_frame k /\ exists q, In q a /\ sequence_header q).
Proof.
  intros Hos Hne. cbv zeta. split.
  - unfold wd_client_video_keyframe_validate, wd_av1_keyframe_validate.
    pose proof (length_encoded_units os) as Hl. destruct os as [|o os]; [done |].
    rewrite (proj2 (Z.eqb_neq (zlen _) 0)) by (unfold zlen; cbn [length] in Hl; lia). cbn [orb].
    change (negb (WD_VIDEO_CODEC_AV1 =? WD_VIDEO_CODEC_H264) && negb (WD_VIDEO_CODEC_AV1 =? WD_VIDEO_CODEC_H265) &&
      negb (WD_VIDEO_CODEC_AV1 =? WD_VIDEO_CODEC_AV1)) with false.
    rewrite Z.eqb_refl. apply (av1_loop_encoded (o :: os) _ _ []); [done | exact Hl].
  - intros Hv. destruct (unit_verdict_valid _ _ Hv) as [[Hk|Hk] Ha]; [done |]. split; [done |].
    intros a k b E Ef. destruct (Ha a k b E Ef) as [H1 [H2|H2]]; done.
Qed.

(** A temporal delimiter, a sequence header and a frame. *)
Lemma av1_keyframe_verdict_witness :
  wd_client_video_keyframe_validate WD_VIDEO_CODEC_AV1
    (Some (concat (encode_obu <$> [mk_obu 2 None []; mk_obu 1 None [10; 11]; mk_obu 6 (Some 8) [16; 0; 5]]))) =
  Some WD_CLIENT_VIDEO_KEYFRAME_VALID.
Proof.
  destruct (av1_keyframe_verdict [mk_obu 2 None []; mk_obu 1 None [10; 11]; mk_obu 6 (Some 8) [16; 0; 5]])
    as [H _]; [| discriminate | rewrite H; vm_compute; reflexivity].
  repeat constructor; cbn; unfold zlen; cbn; mlia.
Defined.

(** ** Byte streams of NAL units

    A packet as Annex B of the standards writes it: NAL units, each after a
    start code of three or four bytes. *)

Record nal_unit := mk_nal_unit {
  nu_long : bool;
  nu_bytes : list Z;
}.

Definition start_code (n : nal_unit) : list Z := if n.(nu_long) then [0; 0; 0; 1] else [0; 0; 1].
Definition encode_nal (n : nal_unit) : list Z := start_code n ++ n.(nu_bytes).

(** The bytes of a unit hold nothing that looks like a start code, which the
    encoder's emulation prevention ensures, and do not end in a zero. *)
Record nal_ok (n : nal_unit) : Prop := {
  no_start_code : forall i, 0 <= i -> i + 2 < zlen n.(nu_bytes) ->
    aget 0 n.(nu_bytes) i = 0 -> aget 0 n.(nu_bytes) (i + 1) = 0 -> 2 <= aget 0 n.(nu_bytes) (i + 2);
  no_trailing_zero : aget 0 n.(nu_bytes) (zlen n.(nu_bytes) - 1) <> 0;
}.

(** The type of a unit, if it is long enough and its header is in order. *)
Definition unit_type (hevc : bool) (n : nal_unit) : option Z :=
  match n.(nu_bytes) with
  | b0 :: b1 :: rest =>
      if hevc then
        match rest with
        | _ :: _ => if flag b0 128 || negb (flag b1 7) then None else Some (nal_type hevc b0)
        | [] => None
        end
      else if flag b0 128 then None else Some (nal_type hevc b0)
  | _ => None
  end.

Fixpoint stream_verdict (hevc : bool) (present : Z) (random_access : bool) (ns : list nal_unit)
    : wd_client_video_keyframe_result :=
  match ns with
  | [] => annexb_verdict hevc present random_access
  | n :: ns =>
      match unit_type hevc n with
      | None => WD_CLIENT_VIDEO_KEYFRAME_INVALID_BITSTREAM
      | Some type =>
          match nal_scan hevc present random_access type with
          | inl r => r
          | inr (present, random_access) => stream_verdict hevc present random_access ns
          end
      end
  end.

(** *** Parsing what was encoded *)

Lemma start_code_app pre l : wd_start_code_size (pre ++ l) (zlen pre) = wd_start_code_size l 0.
Proof.
  unfold wd_start_code_size. cbv zeta. pose proof (zlen_nonneg pre). pose proof (zlen_nonneg l).
  replace (rd (pre ++ l) (zlen pre)) with (rd l 0) by (rewrite <- (Z.add_0_r (zlen pre)); by rewrite rd_app).
  rewrite !rd_app by lia. rewrite zlen_app.
  replace (zlen pre + zlen l - zlen pre) with (zlen l - 0) by lia.
  by replace (zlen pre >? zlen pre + zlen l) with (0 >? zlen l)
    by (destruct (Z.gtb_spec 0 (zlen l)), (Z.gtb_spec (zlen pre) (zlen pre + zlen l)); lia).
Qed.

Lemma start_code_found n pre rest :
  wd_start_code_size (pre ++ encode_nal n ++ rest) (zlen pre) = Some (zlen (start_code n)).
Proof.
  rewrite start_code_app. unfold encode_nal. rewrite <- (assoc (++)). unfold wd_start_code_size. cbv zeta.
  assert (zlen (start_code n) <= zlen (start_code n ++ n.(nu_bytes) ++ rest)) as Hl
    by (rewrite zlen_app; pose proof (zlen_nonneg (n.(nu_bytes) ++ rest)); lia).
  revert Hl. generalize (zlen (start_code n ++ n.(nu_bytes) ++ rest)). intros sz Hl.
  destruct n as [[] bytes]; unfold start_code in *; cbn [nu_long nu_bytes] in *.
  - change (4 <= sz) in Hl. destruct (Z.gtb_spec 0 sz); [lia |]. destruct (Z.ltb_spec (sz - 0) 3); [lia |].
    destruct (Z.geb_spec (sz - 0) 4); [reflexivity | lia].
  - change (3 <= sz) in Hl. destruct (Z.gtb_spec 0 sz); [lia |].
    destruct (Z.ltb_spec (sz - 0) 3); [lia | reflexivity].
Qed.

Lemma aget_mid (pre bs post : list Z) i :
  0 <= i < zlen bs -> aget 0 (pre ++ bs ++ post) (zlen pre + i) = aget 0 bs i.
Proof.
  intros Hi. rewrite aget_app_r, aget_app_l by lia. f_equal. lia.
Qed.

Lemma no_start_inside n pre post i :
  nal_ok n -> 0 <= i < zlen n.(nu_bytes) ->
  wd_start_code_size (pre ++ n.(nu_bytes) ++ post) (zlen pre + i) = Some 0.
Proof.
  intros [Hno Hlast] Hi. pose proof (zlen_nonneg pre). pose proof (zlen_nonneg post).
  set (data := pre ++ n.(nu_bytes) ++ post).
  assert (zlen data = zlen pre + zlen n.(nu_bytes) + zlen post) as Hd by (subst data; rewrite !zlen_app; lia).
  unfold wd_start_code_size. cbv zeta. case_if; [done |]. bool_cases.
  assert (forall j, 0 <= j -> i + j < zlen n.(nu_bytes) ->
    rd data (zlen pre + i + j) = Some (aget 0 n.(nu_bytes) (i + j))) as Hrd.
  { intros j Hj Hij. rewrite rd_some by lia. f_equal. rewrite <- Z.add_assoc. subst data. by apply aget_mid; lia. }
  pose proof (Hrd 0 ltac:(lia) ltac:(lia)) as Hr0. rewrite !Z.add_0_r in Hr0. rewrite Hr0. cbn [mbind option_bind].
  destruct (Z.eqb_spec (aget 0 n.(nu_bytes) i) 0) as [E0|]; cbn [negb]; [| done].
  destruct (Z.eq_dec (i + 1) (zlen n.(nu_bytes))) as [El|].
  { destruct Hlast. by replace (zlen n.(nu_bytes) - 1) with i by lia. }
  rewrite (Hrd 1) by lia. cbn [mbind option_bind].
  destruct (Z.eqb_spec (aget 0 n.(nu_bytes) (i + 1)) 0) as [E1|]; cbn [negb]; [| done].
  destruct (Z.eq_dec (i + 2) (zlen n.(nu_bytes))) as [El|].
  { destruct Hlast. by replace (zlen n.(nu_bytes) - 1) with (i + 1) by lia. }
  rewrite (Hrd 2) by lia. cbn [mbind option_bind]. pose proof (Hno i ltac:(lia) ltac:(lia) E0 E1).
  destruct (Z.eqb_spec (aget 0 n.(nu_bytes) (i + 2)) 1); [lia |].
  destruct (Z.eqb_spec (aget 0 n.(nu_bytes) (i + 2)) 0); [lia |]. by rewrite andb_false_r.
Qed.

(** The end of a unit is found: the next start code or the end. *)
Lemma nal_end_found n ns pre fuel i :
  nal_ok n -> 0 <= i <= zlen n.(nu_bytes) -> zlen n.(nu_bytes) - i < Z.of_nat fuel ->
  nal_end fuel (pre ++ n.(nu_bytes) ++ concat (encode_nal <$> ns)) (zlen pre + i) =
    Some (zlen pre + zlen n.(nu_bytes)).
Proof.
  intros Hok. set (data := pre ++ n.(nu_bytes) ++ concat (encode_nal <$> ns)).
  pose proof (zlen_nonneg (concat (encode_nal <$> ns))).
  assert (zlen data = zlen pre + zlen n.(nu_bytes) + zlen (concat (encode_nal <$> ns))) as Hd
    by (subst data; rewrite !zlen_app; lia).
  revert i. induction fuel as [|fuel IH]; intros i Hi Hf; [lia |]. cbn [nal_end].
  destruct (Z.ltb_spec (zlen pre + i) (zlen data)); [| f_equal; lia].
  destruct (Z.eq_dec i (zlen n.(nu_bytes))) as [->|].
  - destruct ns as [|m ns]; [change (zlen (concat (encode_nal <$> []))) with 0 in Hd; lia |].
    replace data with ((pre ++ n.(nu_bytes)) ++ encode_nal m ++ concat (encode_nal <$> ns))
      by (subst data; by rewrite <- (assoc (++))).
    replace (zlen pre + zlen n.(nu_bytes)) with (zlen (pre ++ n.(nu_bytes))) by apply zlen_app.
    rewrite start_code_found. cbn [mbind option_bind]. unfold start_code. by destruct m.(nu_long).
  - subst data. rewrite no_start_inside by (done || lia). cbn [mbind option_bind Z.eqb].
    rewrite <- Z.add_assoc. apply IH; lia.
Qed.

Lemma nal_header_found hevc n pre post :
  nal_header hevc (pre ++ n.(nu_bytes) ++ post) (zlen pre) (zlen pre + zlen n.(nu_bytes)) =
    Some (match unit_type hevc n with Some type => inr type | None => inl tt end).
Proof.
  unfold nal_header, unit_type. replace (zlen pre + zlen n.(nu_bytes) - zlen pre) with (zlen n.(nu_bytes)) by lia.
  destruct n.(nu_bytes) as [|b0 [|b1 rest]]; [by destruct hevc | by destruct hevc |].
  cbn [app]. rewrite rd_at. cbn [mbind option_bind].
  rewrite rd_app by lia. change (rd (b0 :: b1 :: rest ++ post) 1) with (Some b1).
  rewrite !zlen_cons. pose proof (zlen_nonneg rest). destruct hevc.
  - destruct rest as [|b2 rest]; [done |]. rewrite zlen_cons in *. pose proof (zlen_nonneg rest).
    destruct (Z.ltb_spec (1 + (1 + (1 + zlen rest))) 3); [lia |].
    destruct (flag b0 128); [done |]. cbn [orb mbind option_bind]. by destruct (flag b1 7).
  - destruct (Z.ltb_spec (1 + (1 + zlen rest)) 2); [lia |]. by destruct (flag b0 128).
Qed.

Lemma annexb_loop_encoded hevc ns fuel pre present ra :
  Forall nal_ok ns -> (length ns <= fuel)%nat ->
  annexb_loop fuel hevc (pre ++ concat (encode_nal <$> ns)) (zlen pre) present ra =
    Some (stream_verdict hevc present ra ns).
Proof.
  revert fuel pre present ra. induction ns as [|n ns IH]; intros fuel pre present ra Hns Hf;
    cbn [fmap list_fmap concat].
  { rewrite app_nil_r. destruct fuel; cbn [annexb_loop]; by rewrite Z.ltb_irrefl. }
  inversion Hns as [|? ? Hn Hns']; subst. destruct fuel as [|fuel]; cbn [length] in Hf; [lia |].
  set (rest := concat (encode_nal <$> ns)). cbn [annexb_loop].
  assert (0 < zlen (start_code n)) as Hsc by (unfold start_code; by destruct n.(nu_long)).
  pose proof (zlen_nonneg rest) as Hr0. pose proof (zlen_nonneg n.(nu_bytes)) as Hb0. pose proof (zlen_nonneg pre) as Hp0.
  destruct (Z.ltb_spec (zlen pre) (zlen (pre ++ encode_nal n ++ rest))) as [_|Hle].
  2: { unfold encode_nal in Hle. rewrite !zlen_app in Hle. lia. }
  rewrite start_code_found. cbn [mbind option_bind]. rewrite (proj2 (Z.eqb_neq _ 0)) by lia.
  assert (pre ++ encode_nal n ++ rest = (pre ++ start_code n) ++ n.(nu_bytes) ++ rest) as ->
    by (unfold encode_nal; by rewrite <- !(assoc (++))).
  rewrite <- zlen_app. set (pre' := pre ++ start_code n).
  pose proof (nal_end_found n ns pre' (length (pre' ++ n.(nu_bytes) ++ rest)) 0 Hn) as He.
  rewrite Z.add_0_r in He. fold rest in He. rewrite He; [| lia |].
  2: { assert (Z.of_nat (length (pre' ++ n.(nu_bytes) ++ rest)) =
         zlen pre + zlen (start_code n) + zlen n.(nu_bytes) + zlen rest) as ->; [| lia].
       fold (zlen (pre' ++ n.(nu_bytes) ++ rest)). subst pre'. rewrite !zlen_app. lia. }
  cbn [mbind option_bind]. rewrite nal_header_found. cbn [mbind option_bind stream_verdict].
  destruct (unit_type hevc n) as [type|]; [| done].
  destruct (nal_scan hevc present ra type) as [r|[p' r']]; [done |].
  rewrite <- zlen_app, (assoc (++)). apply IH; [done | lia].
Qed.

(** The parameter sets among some units. *)
Definition sets_of (hevc : bool) (ns : list nal_unit) : Z :=
  fold_left (fun acc n => Z.lor acc (from_option (parameter_set hevc) 0 (unit_type hevc n))) ns 0.

Definition picture_unit (hevc : bool) (n : nal_unit) : bool :=
  from_option (is_picture hevc) false (unit_type hevc n).

Lemma picture_not_set hevc type : is_picture hevc type = true -> parameter_set hevc type = 0.
Proof.
  unfold is_picture, parameter_set. destruct hevc; intros H.
  - bool_cases. rewrite !(proj2 (Z.eqb_neq type _)) by lia. done.
  - apply orb_true_iff in H. destruct H as [H|H]; bool_cases; subst type; done.
Qed.

Lemma stream_verdict_valid hevc present ra ns :
  stream_verdict hevc present ra ns = WD_CLIENT_VIDEO_KEYFRAME_VALID ->
  (ra = true \/ exists k, In k ns /\ picture_unit hevc k = true) /\
  forall a k b, ns = a ++ k :: b -> picture_unit hevc k = true ->
    from_option (is_random_access hevc) false (unit_type hevc k) = true /\
    Z.land (fold_left (fun acc n => Z.lor acc (from_option (parameter_set hevc) 0 (unit_type hevc n))) a present)
      (required_sets hevc) = required_sets hevc.
Proof.
  revert present ra. induction ns as [|n ns IH]; intros present ra; cbn [stream_verdict].
  { unfold annexb_verdict. case_if; [done |]. destruct ra; [| done]. intros _. split; [by left |].
    intros a k b Ea. by destruct a. }
  destruct (unit_type hevc n) as [type|] eqn:Et; [| done]. unfold nal_scan. cbv zeta.
  set (present' := Z.lor present (parameter_set hevc type)).
  destruct (is_picture hevc type) eqn:Ep.
  - destruct (Z.eqb_spec (Z.land present' (required_sets hevc)) (required_sets hevc)) as [Er|]; cbn [negb orb];
      [| done]. destruct (is_random_access hevc type) eqn:Era; cbn [negb]; [| done].
    intros H. destruct (IH present' true H) as [_ Ha]. split.
    { right. exists n. split; [by left |]. unfold picture_unit. by rewrite Et. }
    intros a k b E Ek. destruct a as [|a0 a]; cbn in E; injection E as -> ->.
    + rewrite Et. cbn. split; [done |]. subst present'. by rewrite (picture_not_set hevc type Ep), Z.lor_0_r in Er.
    + cbn [fold_left]. rewrite Et. by apply (Ha a k b).
  - intros H. destruct (IH present' ra H) as [Hk Ha]. split.
    { destruct Hk as [?|(k & ? & ?)]; [by left | right; exists k; split; [by right | done]]. }
    intros a k b E Ek. destruct a as [|a0 a]; cbn in E; injection E as -> ->.
    + unfold picture_unit in Ek. rewrite Et in Ek. cbn in Ek. congruence.
    + cbn [fold_left]. rewrite Et. by apply (Ha a k b).
Qed.

Lemma length_encoded_nals ns : (length ns <= length (concat (encode_nal <$> ns)))%nat.
Proof.
  induction ns as [|n ns IH]; cbn [fmap list_fmap concat length]; [lia |]. rewrite length_app.
  unfold encode_nal at 1, start_code. rewrite length_app. destruct n.(nu_long); cbn [length]; lia.
Qed.

(** C17: the verdict on an H.264 or H.265 packet. For a byte stream made
    of any NAL units, with short or long start codes, the validation finds
    exactly these units and gives their verdict; and a packet found valid has a
    picture, each of its pictures is a random-access one, and all parameter
    sets the codec needs come before it. *)
Theorem annexb_keyframe_verdict (hevc : bool) (ns : list nal_unit) :
  Forall nal_ok ns -> ns <> [] ->
  let codec := if hevc then WD_VIDEO_CODEC_H265 else WD_VIDEO_CODEC_H264 in
  let verdict := stream_verdict hevc 0 false ns in
  wd_client_video_keyframe_validate codec (Some (concat (encode_nal <$> ns))) = Some verdict /\
  (verdict = WD_CLIENT_VIDEO_KEYFRAME_VALID ->
     (exists k, In k ns /\ picture_unit hevc k = true) /\
     forall a k b, ns = a ++ k :: b -> picture_unit hevc k = true ->
       from_option (is_random_access hevc) false (unit_type hevc k) = true /\
       Z.land (sets_of hevc a) (required_sets hevc) = required_sets hevc).
Proof.
  intros Hns Hne. cbv zeta. split.
  - unfold wd_client_video_keyframe_validate. pose proof (length_encoded_nals ns) as Hl.
    destruct ns as [|n ns]; [done |].
    rewrite (proj2 (Z.eqb_neq (zlen _) 0)) by (unfold zlen; cbn [length] in Hl; lia). cbn [orb].
    destruct hevc.
    + change (negb (WD_VIDEO_CODEC_H265 =? WD_VIDEO_CODEC_H264) && negb (WD_VIDEO_CODEC_H265 =? WD_VIDEO_CODEC_H265) &&
        negb (WD_VIDEO_CODEC_H265 =? WD_VIDEO_CODEC_AV1)) with false.
      change (WD_VIDEO_CODEC_H265 =? WD_VIDEO_CODEC_AV1) with false. rewrite Z.eqb_refl.
      apply (annexb_loop_encoded true (n :: ns) _ []); [done | exact Hl].
    + change (negb (WD_VIDEO_CODEC_H264 =? WD_VIDEO_CODEC_H264) && negb (WD_VIDEO_CODEC_H264 =? WD_VIDEO_CODEC_H265) &&
        negb (WD_VIDEO_CODEC_H264 =? WD_VIDEO_CODEC_AV1)) with false.
      change (WD_VIDEO_CODEC_H264 =? WD_VIDEO_CODEC_AV1) with false.
      change (WD_VIDEO_CODEC_H264 =? WD_VIDEO_CODEC_H265) with false.
      apply (annexb_loop_encoded false (n :: ns) _ []); [done | exact Hl].
  - intros Hv. destruct (stream_verdict_valid _ _ _ _ Hv) as [[Hk|Hk] Ha]; [done | by split].
Qed.

(** A unit without zeros needs no emulation prevention. *)
Lemma nal_ok_nonzero n : Forall (fun b => b <> 0) n.(nu_bytes) -> n.(nu_bytes) <> [] -> nal_ok n.
Proof.
  intros Hnz Hne. assert (forall i, 0 <= i < zlen n.(nu_bytes) -> aget 0 n.(nu_bytes) i <> 0) as H.
  { intros i Hi. rewrite List.Forall_forall in Hnz. apply Hnz. by apply aget_In. }
  constructor.
  - intros i Hi Hi2 E. destruct (H i); [lia | done].
  - apply H. destruct n.(nu_bytes) as [|b bytes]; [done |]. rewrite zlen_cons. pose proof (zlen_nonneg bytes). lia.
Qed.

(** Sequence and picture parameter sets and a picture of H.264. *)
Lemma annexb_keyframe_verdict_witness :
  wd_client_video_keyframe_validate WD_VIDEO_CODEC_H264
    (Some (concat (encode_nal <$> [mk_nal_unit true [103; 66; 31]; mk_nal_unit false [104; 206];
                                   mk_nal_unit false [101; 136; 128]]))) =
  Some WD_CLIENT_VIDEO_KEYFRAME_VALID.
Proof.
  destruct (annexb_keyframe_verdict false [mk_nal_unit true [103; 66; 31]; mk_nal_unit false [104; 206];
                                   mk_nal_unit false [101; 136; 128]])
    as [H _]; [| discriminate | rewrite H; vm_compute; reflexivity].
  repeat first [apply Forall_cons_2; [apply nal_ok_nonzero; [repeat constructor; discriminate | discriminate] |]
               | apply Forall_nil_2].
Defined.
