(* ===== verification/TileServer.v ===== *)
(** * The server's tile queues

    The part of [struct wd_server] and [struct wd_net_state]
    (src/server/wd_server_internal.h) that tile work in src/server/wd_stream.c
    keeps: which base tiles are dirty, which the client asked for again, which
    are to be announced in the next summary, and the scheduler of dirty
    regions; with the operations on them.  The caller holds the lock: each
    operation is one step.  An array that is not allocated is the empty list;
    the clock and the outcome of allocations are parameters. *)
From S2P Require Import Prelude Config TileGrid TilePolicy StreamPolicy DirtyScheduler.

Record wd_tile_state := mk_wd_tile_state {
  ti_generation : Z;
  ti_timestamp_ns : Z;
  ti_input_sequence : Z;
}.

(** The display and its grid of base tiles, as the server and an encode job hold it. *)
Record tile_geometry := mk_tile_geometry {
  tg_display_width : Z;
  tg_display_height : Z;
  tg_tile_width : Z;
  tg_tile_height : Z;
  tg_tiles_x : Z;
  tg_tiles_y : Z;
  tg_total_tiles : Z;
}.
#[export] Instance tile_geometry_eta : Eta tile_geometry := fun s =>
  mk_tile_geometry
    s.(tg_display_width) s.(tg_display_height) s.(tg_tile_width) s.(tg_tile_height)
    s.(tg_tiles_x) s.(tg_tiles_y) s.(tg_total_tiles).

(** The counters of [struct wd_stats] that tile work changes. *)
Record tile_stats := mk_tile_stats {
  ss_udp_send_pressure_drops : Z;
  ss_udp_packets_sent : Z;
  ss_udp_bytes_sent : Z;
  ss_udp_async_send_failed : Z;
  ss_udp_send_ns : Z;
  ss_partial_tile_sends : Z;
  ss_partial_tile_packets_sent : Z;
  ss_udp_tiles_sent : Z;
  ss_udp_compressed_tiles_sent : Z;
  ss_udp_compressed_tile_bytes_sent : Z;
  ss_udp_uncompressed_tiles_sent : Z;
  ss_udp_uncompressed_tile_bytes_sent : Z;
  ss_retx_tiles_superseded_by_fresh : Z;
  ss_retx_req_ignored_live : Z;
  ss_retx_queue_age_samples : Z;
  ss_retx_queue_age_sum_ns : Z;
  ss_input_correlation_delivery_failed : Z;
  ss_input_to_first_fresh_tile_samples : Z;
  ss_input_to_first_fresh_tile_sum_ns : Z;
  ss_tile_choice_compressed : Z;
  ss_tile_choice_uncompressed : Z;
  ss_tile_size_128x64_sent : Z;
  ss_tile_size_64x64_sent : Z;
  ss_tile_size_32x32_sent : Z;
  ss_tile_size_16x16_sent : Z;
  ss_tile_choice_compressed_payload_sum : Z;
  ss_tile_choice_uncompressed_payload_sum : Z;
  ss_tile_choice_compressed_wire_sum : Z;
  ss_tile_choice_uncompressed_wire_sum : Z;
  ss_tile_choice_chosen_wire_sum : Z;
  ss_tile_choice_covered_base_tiles : Z;
  ss_tile_choice_saved_wire_sum : Z;
  ss_framebuffer_diff_candidates : Z;
  ss_framebuffer_diff_changed : Z;
  ss_framebuffer_diff_unchanged : Z;
  ss_framebuffer_diff_ns : Z;
  ss_framebuffer_diff_full_refreshes : Z;
  ss_tcp_budget_blocked : Z;
  ss_tcp_control_bytes_sent : Z;
  ss_tcp_control_bytes_refunded : Z;
  ss_dirty_budget_blocked : Z;
  ss_dirty_budget_blocked_full_refresh : Z;
  ss_encode_jobs_submitted : Z;
  ss_encode_jobs_stale : Z;
  ss_encode_jobs_completed : Z;
  ss_dirty_tiles : Z;
  ss_udp_fresh_tiles_sent : Z;
  ss_udp_fresh_bytes_sent : Z;
  ss_udp_retx_tiles_sent : Z;
  ss_udp_retx_bytes_sent : Z;
  ss_compression_attempts : Z;
  ss_compression_wins : Z;
  ss_compression_entropy_skips : Z;
  ss_compression_adaptive_skips : Z;
  ss_compression_nonwins : Z;
  ss_compression_forced_choices : Z;
  ss_compression_saved_wire_bytes : Z;
  ss_candidate_prediction_evaluations : Z;
  ss_candidate_prediction_skips : Z;
  ss_candidate_prediction_probes : Z;
  ss_retx_req_rx : Z;
  ss_retx_req_upgraded_generation : Z;
  ss_retx_tiles_req : Z;
  ss_tcp_summary_coalesced : Z;
  ss_tcp_async_send_failed : Z;
  ss_tcp_summary_full_tx : Z;
  ss_tcp_summary_delta_tx : Z;
  ss_tcp_summary_delta_tiles : Z;
  ss_tcp_summary_tx : Z;
  ss_input_to_summary_samples : Z;
  ss_input_to_summary_sum_ns : Z;
}.
#[export] Instance tile_stats_eta : Eta tile_stats := fun s =>
  mk_tile_stats
    s.(ss_udp_send_pressure_drops) s.(ss_udp_packets_sent) s.(ss_udp_bytes_sent)
    s.(ss_udp_async_send_failed) s.(ss_udp_send_ns) s.(ss_partial_tile_sends)
    s.(ss_partial_tile_packets_sent) s.(ss_udp_tiles_sent) s.(ss_udp_compressed_tiles_sent)
    s.(ss_udp_compressed_tile_bytes_sent) s.(ss_udp_uncompressed_tiles_sent)
    s.(ss_udp_uncompressed_tile_bytes_sent) s.(ss_retx_tiles_superseded_by_fresh)
    s.(ss_retx_req_ignored_live) s.(ss_retx_queue_age_samples) s.(ss_retx_queue_age_sum_ns)
    s.(ss_input_correlation_delivery_failed) s.(ss_input_to_first_fresh_tile_samples)
    s.(ss_input_to_first_fresh_tile_sum_ns) s.(ss_tile_choice_compressed)
    s.(ss_tile_choice_uncompressed) s.(ss_tile_size_128x64_sent) s.(ss_tile_size_64x64_sent)
    s.(ss_tile_size_32x32_sent) s.(ss_tile_size_16x16_sent)
    s.(ss_tile_choice_compressed_payload_sum) s.(ss_tile_choice_uncompressed_payload_sum)
    s.(ss_tile_choice_compressed_wire_sum) s.(ss_tile_choice_uncompressed_wire_sum)
    s.(ss_tile_choice_chosen_wire_sum) s.(ss_tile_choice_covered_base_tiles)
    s.(ss_tile_choice_saved_wire_sum) s.(ss_framebuffer_diff_candidates)
    s.(ss_framebuffer_diff_changed) s.(ss_framebuffer_diff_unchanged) s.(ss_framebuffer_diff_ns)
    s.(ss_framebuffer_diff_full_refreshes) s.(ss_tcp_budget_blocked)
    s.(ss_tcp_control_bytes_sent) s.(ss_tcp_control_bytes_refunded) s.(ss_dirty_budget_blocked)
    s.(ss_dirty_budget_blocked_full_refresh) s.(ss_encode_jobs_submitted)
    s.(ss_encode_jobs_stale) s.(ss_encode_jobs_completed) s.(ss_dirty_tiles)
    s.(ss_udp_fresh_tiles_sent) s.(ss_udp_fresh_bytes_sent) s.(ss_udp_retx_tiles_sent)
    s.(ss_udp_retx_bytes_sent) s.(ss_compression_attempts) s.(ss_compression_wins)
    s.(ss_compression_entropy_skips) s.(ss_compression_adaptive_skips)
    s.(ss_compression_nonwins) s.(ss_compression_forced_choices)
    s.(ss_compression_saved_wire_bytes) s.(ss_candidate_prediction_evaluations)
    s.(ss_candidate_prediction_skips) s.(ss_candidate_prediction_probes) s.(ss_retx_req_rx)
    s.(ss_retx_req_upgraded_generation) s.(ss_retx_tiles_req) s.(ss_tcp_summary_coalesced)
    s.(ss_tcp_async_send_failed) s.(ss_tcp_summary_full_tx) s.(ss_tcp_summary_delta_tx)
    s.(ss_tcp_summary_delta_tiles) s.(ss_tcp_summary_tx) s.(ss_input_to_summary_samples)
    s.(ss_input_to_summary_sum_ns).

(** The server's state of tile work. *)
Record wd_server := mk_wd_server {
  sv_geometry : tile_geometry;
  sv_framebuffer_generation : Z;
  sv_client_connected : bool;
  sv_tcp_fd : Z;
  sv_config_update_pending : bool;
  sv_connection_epoch : Z;
  sv_config_epoch : Z;
  sv_content_epoch : Z;
  sv_session_id : Z;
  sv_connection_token : Z;
  sv_udp_payload_target : Z;
  sv_udp_send_pressure_drops : Z;
  sv_udp_send_pressure_log_ns : Z;
  sv_last_input_sequence : Z;
  sv_last_input_inject_ns : Z;
  sv_input_since_last_fresh_tile : bool;
  sv_input_correlation_inflight_sequence : Z;
  sv_tiles : list wd_tile_state;
  sv_dirty_epochs : list Z;
  sv_dirty_queued : list bool;
  sv_dirty_queue_count : Z;
  sv_dirty_queue_enqueued_ns : list Z;
  sv_dirty_region_scheduler : ptr wd_dirty_region_scheduler;
  sv_dirty_region_count : Z;
  sv_dirty_region_cursor : Z;
  sv_retransmit_queue : list Z;
  sv_retransmit_queue_count : Z;
  sv_retransmit_queued : list bool;
  sv_retransmit_queue_enqueued_ns : list Z;
  sv_retransmit_requested_generation : list Z;
  sv_summary_dirty_tiles : list bool;
  sv_summary_dirty_queue : list Z;
  sv_summary_dirty_count : Z;
  sv_summary_epoch : Z;
  sv_summary_async_pending_count : Z;
  sv_summary_async_pending_full : bool;
  sv_input_since_last_summary : bool;
  sv_summary_input_sequence : Z;
  sv_stream_policy : wd_stream_policy;
  sv_stats : tile_stats;
}.
#[export] Instance wd_server_eta : Eta wd_server := fun s =>
  mk_wd_server
    s.(sv_geometry) s.(sv_framebuffer_generation) s.(sv_client_connected) s.(sv_tcp_fd)
    s.(sv_config_update_pending) s.(sv_connection_epoch) s.(sv_config_epoch)
    s.(sv_content_epoch) s.(sv_session_id) s.(sv_connection_token) s.(sv_udp_payload_target)
    s.(sv_udp_send_pressure_drops) s.(sv_udp_send_pressure_log_ns) s.(sv_last_input_sequence)
    s.(sv_last_input_inject_ns) s.(sv_input_since_last_fresh_tile)
    s.(sv_input_correlation_inflight_sequence) s.(sv_tiles) s.(sv_dirty_epochs)
    s.(sv_dirty_queued) s.(sv_dirty_queue_count) s.(sv_dirty_queue_enqueued_ns)
    s.(sv_dirty_region_scheduler) s.(sv_dirty_region_count) s.(sv_dirty_region_cursor)
    s.(sv_retransmit_queue) s.(sv_retransmit_queue_count) s.(sv_retransmit_queued)
    s.(sv_retransmit_queue_enqueued_ns) s.(sv_retransmit_requested_generation)
    s.(sv_summary_dirty_tiles) s.(sv_summary_dirty_queue) s.(sv_summary_dirty_count)
    s.(sv_summary_epoch) s.(sv_summary_async_pending_count) s.(sv_summary_async_pending_full)
    s.(sv_input_since_last_summary) s.(sv_summary_input_sequence) s.(sv_stream_policy)
    s.(sv_stats).

Definition zero_tile_stats : tile_stats :=
  mk_tile_stats 0 0 0 0 0 0 0 0 0 0 0 0 0 0 0 0 0 0 0 0 0 0 0 0 0 0 0 0 0 0 0 0 0 0 0 0 0 0 0 0 0 0 0 0 0 0 0 0 0 0 0 0 0 0 0 0 0 0 0 0 0 0 0 0 0 0 0 0 0 0 0.

(** [stats.counter += n]. *)
Definition count (counter : tile_stats -> Z) `{!FieldSetter counter} (n : Z) (server : wd_server)
    : wd_server :=
  server <| sv_stats := server.(sv_stats) <| counter := u64 (counter server.(sv_stats) + n) |> |>.

(** ** Geometry *)

(** [wd_stream_collect_wire_tile_base_ids] and the same function of an encode
    job: the base tiles under a wire tile, row by row. *)
Definition wd_stream_collect_wire_tile_base_ids (g : tile_geometry) (tile_id tile_width tile_height
    max_count : Z) : option (list Z) :=
  if (tile_width =? 0) || (tile_height =? 0) || (g.(tg_tile_width) =? 0) || (g.(tg_tile_height) =? 0)
  then None
  else
    let tiles_x := wd_tiles_for_width_with_tile g.(tg_display_width) tile_width in
    if tiles_x =? 0 then None
    else
      let x := wd_tile_start_x_for_tile tile_id tiles_x tile_width in
      let y := wd_tile_start_y_for_tile tile_id tiles_x tile_height in
      let w := wd_tile_visible_width_for_tile g.(tg_display_width) tile_id tiles_x tile_width in
      let h := wd_tile_visible_height_for_tile g.(tg_display_height) tile_id tiles_x tile_height in
      if (w =? 0) || (h =? 0) then None
      else
        let bx0 := x / g.(tg_tile_width) in
        let by0 := y / g.(tg_tile_height) in
        let bx1 := u32 (u32 (x + w) - 1) / g.(tg_tile_width) in
        let by1 := u32 (u32 (y + h) - 1) / g.(tg_tile_height) in
        let bx1 := if bx1 >=? g.(tg_tiles_x) then u32 (g.(tg_tiles_x) - 1) else bx1 in
        let by1 := if by1 >=? g.(tg_tiles_y) then u32 (g.(tg_tiles_y) - 1) else by1 in
        let ids := by' ← (fun k => by0 + k) <$> zseq (by1 - by0 + 1);
                   (fun k => u32 (u32 (by' * g.(tg_tiles_x)) + (bx0 + k))) <$> zseq (bx1 - bx0 + 1) in
        if existsb (fun base_id => base_id >=? g.(tg_total_tiles)) ids || (zlen ids >? max_count) ||
           null ids
        then None else Some ids.

Definition wd_stream_wire_tile_for_pixel (g : tile_geometry) (x y tile_width tile_height : Z)
    : option Z :=
  if (tile_width =? 0) || (tile_height =? 0) || (x >=? g.(tg_display_width)) ||
     (y >=? g.(tg_display_height)) then None
  else
    let tiles_x := wd_tiles_for_width_with_tile g.(tg_display_width) tile_width in
    let tiles_y := wd_tiles_for_height_with_tile g.(tg_display_height) tile_height in
    if (tiles_x =? 0) || (tiles_y =? 0) then None
    else
      let tx := x / tile_width in
      let ty := y / tile_height in
      let id := u32 (u32 (ty * tiles_x) + tx) in
      if (tx >=? tiles_x) || (ty >=? tiles_y) || (id >? UINT16_MAX) then None else Some id.

Definition wd_stream_top_region_for_base_tile (g : tile_geometry) (base_tile_id : Z) : option Z :=
  if (base_tile_id >=? g.(tg_total_tiles)) || (g.(tg_tiles_x) =? 0) then None
  else
    let bx := base_tile_id mod g.(tg_tiles_x) in
    let by' := base_tile_id / g.(tg_tiles_x) in
    let x := u32 (bx * g.(tg_tile_width)) in
    let y := u32 (by' * g.(tg_tile_height)) in
    wd_stream_wire_tile_for_pixel g x y WD_WIRE_TILE_MAX_WIDTH WD_WIRE_TILE_MAX_HEIGHT.

(** ** Dirty regions *)

Definition wd_stream_dirty_region_scheduler_locked (server : wd_server) (alloc_ok : bool) : wd_server :=
  match server.(sv_dirty_region_scheduler) with
  | Some _ => server
  | NULL =>
      let g := server.(sv_geometry) in
      let regions_x := wd_tiles_for_width_with_tile g.(tg_display_width) WD_WIRE_TILE_MAX_WIDTH in
      let regions_total := wd_total_tiles_for_size_with_tile g.(tg_display_width) g.(tg_display_height)
                             WD_WIRE_TILE_MAX_WIDTH WD_WIRE_TILE_MAX_HEIGHT in
      server <| sv_dirty_region_scheduler :=
                  wd_dirty_region_scheduler_create alloc_ok regions_total regions_x
                    WD_STREAM_DIRTY_REGION_STARVATION_NS |>
  end.

Definition wd_stream_sync_dirty_region_count_locked (server : wd_server) : wd_server :=
  server <| sv_dirty_region_count :=
    match server.(sv_dirty_region_scheduler) with
    | NULL => 0
    | Some s => wd_dirty_region_scheduler_count s
    end |>.

Definition wd_stream_mark_dirty_top_region_locked (server : wd_server) (base_tile_id now_ns : Z)
    (alloc_ok : bool) : wd_server :=
  match wd_stream_top_region_for_base_tile server.(sv_geometry) base_tile_id with
  | None => server
  | Some region_id =>
      let server := wd_stream_dirty_region_scheduler_locked server alloc_ok in
      match server.(sv_dirty_region_scheduler) with
      | NULL => server
      | Some s =>
          let '(_, s) := wd_dirty_region_scheduler_enqueue alloc_ok s region_id now_ns in
          wd_stream_sync_dirty_region_count_locked (server <| sv_dirty_region_scheduler := Some s |>)
      end
  end.

Definition wd_stream_remove_dirty_top_region_locked (server : wd_server) (region_id : Z) : wd_server :=
  match server.(sv_dirty_region_scheduler) with
  | NULL => server
  | Some s =>
      wd_stream_sync_dirty_region_count_locked
        (server <| sv_dirty_region_scheduler := Some (wd_dirty_region_scheduler_forget s region_id) |>)
  end.

Definition wd_stream_top_region_still_dirty_locked (server : wd_server) (region_id : Z) : bool :=
  if null server.(sv_dirty_queued) then false
  else
    match wd_stream_collect_wire_tile_base_ids server.(sv_geometry) region_id WD_WIRE_TILE_MAX_WIDTH
            WD_WIRE_TILE_MAX_HEIGHT WD_WIRE_TILE_MAX_BASE_TILES with
    | None => false
    | Some ids =>
        existsb (fun id => (id <? server.(sv_geometry).(tg_total_tiles)) &&
                           aget false server.(sv_dirty_queued) id) ids
    end.

Definition wd_stream_maybe_clear_dirty_top_region_for_base_locked (server : wd_server)
    (base_tile_id : Z) : wd_server :=
  match wd_stream_top_region_for_base_tile server.(sv_geometry) base_tile_id with
  | None => server
  | Some region_id =>
      if negb (wd_stream_top_region_still_dirty_locked server region_id)
      then wd_stream_remove_dirty_top_region_locked server region_id else server
  end.

Definition wd_stream_requeue_dirty_top_region_locked (server : wd_server) (top_region_id now_ns : Z)
    (alloc_ok : bool) : wd_server :=
  if negb (wd_stream_top_region_still_dirty_locked server top_region_id) then server
  else
    match wd_stream_collect_wire_tile_base_ids server.(sv_geometry) top_region_id
            WD_WIRE_TILE_MAX_WIDTH WD_WIRE_TILE_MAX_HEIGHT WD_WIRE_TILE_MAX_BASE_TILES with
    | Some (first :: _) => wd_stream_mark_dirty_top_region_locked server first now_ns alloc_ok
    | _ => server
    end.

(** ** The dirty queue *)

Definition wd_dirty_queue_note_cleared_locked (server : wd_server) (tile_id : Z) : wd_server :=
  if null server.(sv_dirty_queued) || (tile_id >=? server.(sv_geometry).(tg_total_tiles)) ||
     negb (aget false server.(sv_dirty_queued) tile_id) then server
  else
    server <| sv_dirty_queued := aset server.(sv_dirty_queued) tile_id false |>
           <| sv_dirty_queue_count :=
                if server.(sv_dirty_queue_count) >? 0 then server.(sv_dirty_queue_count) - 1
                else server.(sv_dirty_queue_count) |>
           <| sv_dirty_queue_enqueued_ns := aset server.(sv_dirty_queue_enqueued_ns) tile_id 0 |>.

(** The request is dropped from the marks; its queue slot stays until the
    queue is compacted. *)
Definition drop_retransmit_marks (server : wd_server) (tile_id : Z) : wd_server :=
  server <| sv_retransmit_queued := aset server.(sv_retransmit_queued) tile_id false |>
         <| sv_retransmit_queue_enqueued_ns := aset server.(sv_retransmit_queue_enqueued_ns) tile_id 0 |>
         <| sv_retransmit_requested_generation :=
              aset server.(sv_retransmit_requested_generation) tile_id 0 |>.

Definition wd_dirty_queue_push_locked (server : wd_server) (tile_id now_ns : Z) : wd_server * bool :=
  let total_tiles := server.(sv_geometry).(tg_total_tiles) in
  if (tile_id >=? total_tiles) || null server.(sv_dirty_queued) then (server, false)
  else if aget false server.(sv_dirty_queued) tile_id then (server, true)
  else if server.(sv_dirty_queue_count) >=? total_tiles then (server, false)
  else
    let server :=
      if negb (null server.(sv_retransmit_queued)) && aget false server.(sv_retransmit_queued) tile_id
      then count ss_retx_tiles_superseded_by_fresh 1 (drop_retransmit_marks server tile_id)
      else server in
    (server <| sv_dirty_queued := aset server.(sv_dirty_queued) tile_id true |>
            <| sv_dirty_queue_count := server.(sv_dirty_queue_count) + 1 |>
            <| sv_dirty_queue_enqueued_ns := aset server.(sv_dirty_queue_enqueued_ns) tile_id now_ns |>,
     true).

Definition bump_dirty_epoch (server : wd_server) (tile_id : Z) : wd_server :=
  if null server.(sv_dirty_epochs) then server
  else
    let epoch := u64 (aget 0 server.(sv_dirty_epochs) tile_id + 1) in
    server <| sv_dirty_epochs :=
      aset server.(sv_dirty_epochs) tile_id (if epoch =? 0 then 1 else epoch) |>.

Definition wd_detect_one_dirty_tile_into_queue_locked (server : wd_server) (tile_id now_ns : Z)
    (alloc_ok : bool) : wd_server :=
  if tile_id >=? server.(sv_geometry).(tg_total_tiles) then server
  else
    let server := bump_dirty_epoch server tile_id in
    let '(server, pushed) := wd_dirty_queue_push_locked server tile_id now_ns in
    if pushed then wd_stream_mark_dirty_top_region_locked server tile_id now_ns alloc_ok
    else if negb (null server.(sv_dirty_queued)) && aget false server.(sv_dirty_queued) tile_id
    then wd_stream_mark_dirty_top_region_locked server tile_id now_ns alloc_ok
    else server.

(** ** The retransmit queue *)

Definition wd_stream_queue_retransmit_tile_locked (server : wd_server)
    (tile_id requested_generation now_ns : Z) : wd_server * bool :=
  if tile_id >=? server.(sv_geometry).(tg_total_tiles) then (server, false)
  else if wd_stream_mode_video_owns_display server.(sv_stream_policy).(sp_stream_mode) then
    (count ss_retx_req_ignored_live 1 server, false)
  else if null server.(sv_retransmit_queue) || null server.(sv_retransmit_queued) then (server, false)
  else if negb (null server.(sv_dirty_queued)) && aget false server.(sv_dirty_queued) tile_id then
    (count ss_retx_tiles_superseded_by_fresh 1 server, false)
  else if aget false server.(sv_retransmit_queued) tile_id then
    (if negb (null server.(sv_retransmit_requested_generation)) &&
        (aget 0 server.(sv_retransmit_requested_generation) tile_id <? requested_generation)
     then server <| sv_retransmit_requested_generation :=
            aset server.(sv_retransmit_requested_generation) tile_id requested_generation |>
     else server, false)
  else if server.(sv_retransmit_queue_count) >=? server.(sv_geometry).(tg_total_tiles) then (server, false)
  else
    (server <| sv_retransmit_queue :=
                 aset server.(sv_retransmit_queue) server.(sv_retransmit_queue_count) tile_id |>
            <| sv_retransmit_queue_count := server.(sv_retransmit_queue_count) + 1 |>
            <| sv_retransmit_queued := aset server.(sv_retransmit_queued) tile_id true |>
            <| sv_retransmit_requested_generation :=
                 aset server.(sv_retransmit_requested_generation) tile_id requested_generation |>
            <| sv_retransmit_queue_enqueued_ns :=
                 aset server.(sv_retransmit_queue_enqueued_ns) tile_id now_ns |>, true).

Definition wd_stream_compact_retransmit_queue_locked (server : wd_server) : wd_server :=
  if null server.(sv_retransmit_queue) || null server.(sv_retransmit_queued) then server
  else
    let kept := List.filter (fun tile_id => (tile_id <? server.(sv_geometry).(tg_total_tiles)) &&
                                            aget false server.(sv_retransmit_queued) tile_id)
                  (take (Z.to_nat server.(sv_retransmit_queue_count)) server.(sv_retransmit_queue)) in
    server <| sv_retransmit_queue := kept ++ drop (length kept) server.(sv_retransmit_queue) |>
           <| sv_retransmit_queue_count := zlen kept |>.

Definition wd_stream_note_queue_age_locked (enqueued_ns now_ns : Z) (server : wd_server) : wd_server :=
  if (enqueued_ns =? 0) || (now_ns <? enqueued_ns) then server
  else count ss_retx_queue_age_sum_ns (now_ns - enqueued_ns) (count ss_retx_queue_age_samples 1 server).

Definition wd_stream_clear_retransmit_request_locked (server : wd_server) (tile_id now_ns : Z)
    : wd_server :=
  if tile_id >=? server.(sv_geometry).(tg_total_tiles) then server
  else if null server.(sv_retransmit_queued) || negb (aget false server.(sv_retransmit_queued) tile_id)
  then server
  else
    let server := wd_stream_note_queue_age_locked
                    (aget 0 server.(sv_retransmit_queue_enqueued_ns) tile_id) now_ns server in
    drop_retransmit_marks server tile_id.

Definition wd_stream_retransmit_tile_selected_locked (server : wd_server) (tile_id : Z) : bool :=
  if tile_id >=? server.(sv_geometry).(tg_total_tiles) then false
  else if null server.(sv_retransmit_queued) || negb (aget false server.(sv_retransmit_queued) tile_id)
  then false
  else if negb (null server.(sv_dirty_queued)) && aget false server.(sv_dirty_queued) tile_id then false
  else
    let requested_generation :=
      if null server.(sv_retransmit_requested_generation) then 0
      else aget 0 server.(sv_retransmit_requested_generation) tile_id in
    (requested_generation =? 0) ||
    ((aget (mk_wd_tile_state 0 0 0) server.(sv_tiles) tile_id).(ti_generation) >=? requested_generation).

(** ** Summaries, metadata and mode changes *)

Definition wd_stream_mark_summary_dirty_locked (server : wd_server) (tile_id : Z) : wd_server :=
  if tile_id >=? server.(sv_geometry).(tg_total_tiles) then server
  else if null server.(sv_summary_dirty_tiles) || null server.(sv_summary_dirty_queue) then server
  else if aget false server.(sv_summary_dirty_tiles) tile_id then server
  else if server.(sv_summary_dirty_count) >=? server.(sv_geometry).(tg_total_tiles) then server
  else server <| sv_summary_dirty_tiles := aset server.(sv_summary_dirty_tiles) tile_id true |>
              <| sv_summary_dirty_queue :=
                   aset server.(sv_summary_dirty_queue) server.(sv_summary_dirty_count) tile_id |>
              <| sv_summary_dirty_count := server.(sv_summary_dirty_count) + 1 |>.

Definition wd_stream_update_base_tile_metadata_locked (server : wd_server) (base_tile_id generation
    timestamp_ns input_sequence : Z) : wd_server * bool :=
  if base_tile_id >=? server.(sv_geometry).(tg_total_tiles) then (server, false)
  else (server <| sv_tiles := aset server.(sv_tiles) base_tile_id
                    (mk_wd_tile_state generation timestamp_ns input_sequence) |>, true).

Definition wd_stream_has_queued_framebuffer_work_locked (server : wd_server) : bool :=
  negb (server.(sv_dirty_queue_count) =? 0) || negb (server.(sv_dirty_region_count) =? 0) ||
  negb (server.(sv_retransmit_queue_count) =? 0).

Definition wd_stream_has_queued_tile_work_locked (server : wd_server) : bool :=
  wd_stream_has_queued_framebuffer_work_locked server || negb (server.(sv_summary_dirty_count) =? 0).

Definition wd_stream_collapse_tile_queues_for_video_locked (server : wd_server) : wd_server :=
  let clear {A} (v : A) (l : list A) := (fun _ => v) <$> l in
  server <| sv_dirty_queued := clear false server.(sv_dirty_queued) |>
         <| sv_dirty_queue_enqueued_ns := clear 0 server.(sv_dirty_queue_enqueued_ns) |>
         <| sv_dirty_queue_count := 0 |>
         <| sv_dirty_region_scheduler :=
              wd_dirty_region_scheduler_reset <$> server.(sv_dirty_region_scheduler) |>
         <| sv_dirty_region_count := 0 |>
         <| sv_retransmit_queued := clear false server.(sv_retransmit_queued) |>
         <| sv_retransmit_requested_generation := clear 0 server.(sv_retransmit_requested_generation) |>
         <| sv_retransmit_queue_enqueued_ns := clear 0 server.(sv_retransmit_queue_enqueued_ns) |>
         <| sv_retransmit_queue_count := 0 |>
         <| sv_summary_dirty_tiles := clear false server.(sv_summary_dirty_tiles) |>
         <| sv_summary_dirty_count := 0 |>.
