(* ===== verification/TileSend.v ===== *)
(** * Sending tiles

    src/server/wd_stream.c from the wire-size accounting to
    [wd_stream_send_tile_payload_sized_locked], and the classes of bandwidth a
    send is charged to.  The asynchronous sender is outside: its answer to
    each packet is an element of [statuses], in order, and the datagrams it
    accepted are the result [pg_out].  The encoded payload is its bytes; the
    clock is [now_ns], [end_ns] when a send is over. *)
From S2P Require Import Prelude Wire Config Structs UdpTile TileGrid Bandwidth TilePolicy StreamPolicy DirtyScheduler TileServer.

(** ** Wire sizes *)

Definition wd_stream_tile_wire_bytes_for_payload (payload_size udp_payload_target input_sequence : Z)
    (compressed_payload : bool) : Z :=
  let udp_payload_target := wd_tile_normalize_udp_payload_target udp_payload_target
                              WD_UDP_PAYLOAD_TARGET WD_UDP_TILE_PAYLOAD_MAX in
  wd_tile_wire_bytes_for_payload payload_size udp_payload_target WD_UDP_TILE_HEADER_MIN_SIZE
    (if negb (input_sequence =? 0) then WD_UDP_TILE_HEADER_MAX_SIZE else WD_UDP_TILE_HEADER_MIN_SIZE).

Definition wd_stream_use_compressed_tile_payload (compressed_size uncompressed_size udp_payload_target
    input_sequence : Z) : bool :=
  let udp_payload_target := wd_tile_normalize_udp_payload_target udp_payload_target
                              WD_UDP_PAYLOAD_TARGET WD_UDP_TILE_PAYLOAD_MAX in
  wd_tile_compression_is_worthwhile compressed_size uncompressed_size udp_payload_target
    WD_UDP_TILE_HEADER_MIN_SIZE
    (if negb (input_sequence =? 0) then WD_UDP_TILE_HEADER_MAX_SIZE else WD_UDP_TILE_HEADER_MIN_SIZE)
    WD_STREAM_TILE_COMPRESSION_MIN_SAVINGS_BYTES WD_STREAM_TILE_COMPRESSION_MIN_SAVINGS_PERCENT.

Definition wd_stream_note_tile_choice_locked (server : wd_server) (compressed_size uncompressed_size
    udp_payload_target input_sequence : Z) (compressed_payload : bool) (tile_width tile_height
    covered_base_tiles : Z) : wd_server :=
  let compressed_wire :=
    wd_stream_tile_wire_bytes_for_payload compressed_size udp_payload_target input_sequence true in
  let uncompressed_wire :=
    wd_stream_tile_wire_bytes_for_payload uncompressed_size udp_payload_target input_sequence false in
  let chosen_wire := if compressed_payload then compressed_wire else uncompressed_wire in
  let alternate_wire := if compressed_payload then uncompressed_wire else compressed_wire in
  let server := if compressed_payload then count ss_tile_choice_compressed 1 server
                else count ss_tile_choice_uncompressed 1 server in
  let server :=
    if (tile_width =? WD_TILE_SIZE_LARGE_WIDTH) && (tile_height =? WD_TILE_SIZE_LARGE_HEIGHT)
    then count ss_tile_size_128x64_sent 1 server
    else if (tile_width =? WD_TILE_SIZE_MEDIUM_WIDTH) && (tile_height =? WD_TILE_SIZE_MEDIUM_HEIGHT)
    then count ss_tile_size_64x64_sent 1 server
    else if (tile_width =? WD_TILE_SIZE_SMALL_WIDTH) && (tile_height =? WD_TILE_SIZE_SMALL_HEIGHT)
    then count ss_tile_size_32x32_sent 1 server
    else if (tile_width =? WD_TILE_SIZE_BASE_WIDTH) && (tile_height =? WD_TILE_SIZE_BASE_HEIGHT)
    then count ss_tile_size_16x16_sent 1 server
    else server in
  let server := count ss_tile_choice_compressed_payload_sum compressed_size server in
  let server := count ss_tile_choice_uncompressed_payload_sum uncompressed_size server in
  let server := count ss_tile_choice_compressed_wire_sum compressed_wire server in
  let server := count ss_tile_choice_uncompressed_wire_sum uncompressed_wire server in
  let server := count ss_tile_choice_chosen_wire_sum chosen_wire server in
  let server := count ss_tile_choice_covered_base_tiles covered_base_tiles server in
  if alternate_wire >? chosen_wire
  then count ss_tile_choice_saved_wire_sum (alternate_wire - chosen_wire) server else server.

(** ** Bandwidth classes *)

Inductive wd_stream_bandwidth_class :=
  | WD_STREAM_BANDWIDTH_FRESH
  | WD_STREAM_BANDWIDTH_REPAIR
  | WD_STREAM_BANDWIDTH_CONTROL.

Definition wd_stream_bandwidth_bucket (policy : wd_stream_policy) (traffic_class : wd_stream_bandwidth_class)
    : wd_bandwidth_bucket :=
  match traffic_class with
  | WD_STREAM_BANDWIDTH_FRESH => policy.(sp_fresh_tile_bucket)
  | WD_STREAM_BANDWIDTH_REPAIR => policy.(sp_repair_bucket)
  | WD_STREAM_BANDWIDTH_CONTROL => policy.(sp_control_bucket)
  end.

(** A write through the pointer [wd_stream_bandwidth_bucket] returns. *)
Definition set_bandwidth_bucket (policy : wd_stream_policy) (traffic_class : wd_stream_bandwidth_class)
    (bucket : ptr wd_bandwidth_bucket) : wd_stream_policy :=
  match bucket with
  | NULL => policy
  | Some bucket =>
      match traffic_class with
      | WD_STREAM_BANDWIDTH_FRESH => policy <| sp_fresh_tile_bucket := bucket |>
      | WD_STREAM_BANDWIDTH_REPAIR => policy <| sp_repair_bucket := bucket |>
      | WD_STREAM_BANDWIDTH_CONTROL => policy <| sp_control_bucket := bucket |>
      end
  end.

Definition wd_stream_bandwidth_rate (policy : wd_stream_policy) (traffic_class : wd_stream_bandwidth_class) : Z :=
  match traffic_class with
  | WD_STREAM_BANDWIDTH_FRESH => policy.(sp_adaptive_tile_fresh_bytes_per_second)
  | WD_STREAM_BANDWIDTH_REPAIR => policy.(sp_tile_repair_bytes_per_second)
  | WD_STREAM_BANDWIDTH_CONTROL => policy.(sp_control_bytes_per_second)
  end.

Definition wd_stream_class_budget_locked (policy : wd_stream_policy) (traffic_class
    borrow_class : wd_stream_bandwidth_class) (allow_borrow : bool) (now_ns : Z) : Z * wd_stream_policy :=
  let rate := wd_stream_bandwidth_rate policy traffic_class in
  let '(available, bucket) :=
    wd_bandwidth_bucket_available (Some (wd_stream_bandwidth_bucket policy traffic_class)) rate
      (wd_stream_byte_burst_cap_for_rate rate) now_ns in
  let policy := set_bandwidth_bucket policy traffic_class bucket in
  if negb allow_borrow then (available, policy)
  else
    let borrow_rate := wd_stream_bandwidth_rate policy borrow_class in
    let '(borrowed, bucket) :=
      wd_bandwidth_bucket_available (Some (wd_stream_bandwidth_bucket policy borrow_class)) borrow_rate
        (wd_stream_byte_burst_cap_for_rate borrow_rate) now_ns in
    let policy := set_bandwidth_bucket policy borrow_class bucket in
    (if UINT64_MAX - available <? borrowed then UINT64_MAX else available + borrowed, policy).

Definition wd_stream_class_consume_locked (policy : wd_stream_policy) (traffic_class
    borrow_class : wd_stream_bandwidth_class) (allow_borrow : bool) (bytes : Z) : wd_stream_policy :=
  let '(consumed, bucket) :=
    wd_bandwidth_bucket_consume (Some (wd_stream_bandwidth_bucket policy traffic_class)) bytes in
  let policy := set_bandwidth_bucket policy traffic_class bucket in
  if allow_borrow && (consumed <? bytes) then
    let '(_, bucket) :=
      wd_bandwidth_bucket_consume (Some (wd_stream_bandwidth_bucket policy borrow_class)) (bytes - consumed) in
    set_bandwidth_bucket policy borrow_class bucket
  else policy.

Definition wd_stream_class_refund_locked (policy : wd_stream_policy)
    (traffic_class : wd_stream_bandwidth_class) (bytes : Z) : wd_stream_policy :=
  let rate := wd_stream_bandwidth_rate policy traffic_class in
  set_bandwidth_bucket policy traffic_class
    (wd_bandwidth_bucket_refund (Some (wd_stream_bandwidth_bucket policy traffic_class)) bytes
       (wd_stream_byte_burst_cap_for_rate rate)).

(** Fresh tiles may borrow what repairs leave unused, and the other way round. *)
Definition tile_class (repair : bool) : wd_stream_bandwidth_class :=
  if repair then WD_STREAM_BANDWIDTH_REPAIR else WD_STREAM_BANDWIDTH_FRESH.
Definition allow_borrow (server : wd_server) (repair : bool) : bool :=
  if repair then server.(sv_dirty_queue_count) =? 0 else server.(sv_retransmit_queue_count) =? 0.

Definition wd_stream_tile_byte_budget_locked (server : wd_server) (repair : bool) (now_ns : Z)
    : Z * wd_server :=
  let '(budget, policy) :=
    wd_stream_class_budget_locked server.(sv_stream_policy) (tile_class repair) (tile_class (negb repair))
      (allow_borrow server repair) now_ns in
  (budget, server <| sv_stream_policy := policy |>).

Definition wd_stream_consume_tile_bytes_locked (server : wd_server) (repair : bool) (bytes : Z)
    : wd_server :=
  if bytes =? 0 then server
  else server <| sv_stream_policy :=
         wd_stream_class_consume_locked server.(sv_stream_policy) (tile_class repair)
           (tile_class (negb repair)) (allow_borrow server repair) bytes |>.

Definition wd_stream_account_tcp_control_bytes_locked (server : wd_server) (bytes : Z) : wd_server :=
  if bytes =? 0 then server
  else count ss_tcp_control_bytes_sent bytes
         (server <| sv_stream_policy :=
            wd_stream_class_consume_locked server.(sv_stream_policy) WD_STREAM_BANDWIDTH_CONTROL
              WD_STREAM_BANDWIDTH_CONTROL false bytes |>).

Definition wd_stream_try_consume_tcp_control_budget_locked (server : wd_server) (bytes now_ns : Z)
    : wd_server * bool :=
  if bytes =? 0 then (server, true)
  else
    let '(budget, policy) :=
      wd_stream_class_budget_locked server.(sv_stream_policy) WD_STREAM_BANDWIDTH_CONTROL
        WD_STREAM_BANDWIDTH_CONTROL false now_ns in
    let server := server <| sv_stream_policy := policy |> in
    if budget <? bytes then (count ss_tcp_budget_blocked 1 server, false)
    else (count ss_tcp_control_bytes_sent bytes
            (server <| sv_stream_policy :=
               wd_stream_class_consume_locked server.(sv_stream_policy) WD_STREAM_BANDWIDTH_CONTROL
                 WD_STREAM_BANDWIDTH_CONTROL false bytes |>), true).

Definition wd_stream_refund_tcp_control_budget_locked (server : wd_server) (bytes : Z) : wd_server :=
  if bytes =? 0 then server
  else count ss_tcp_control_bytes_refunded bytes
         (server <| sv_stream_policy :=
            wd_stream_class_refund_locked server.(sv_stream_policy) WD_STREAM_BANDWIDTH_CONTROL bytes |>).

(** ** Deliveries *)

Definition wd_log_rate_limit_should_log (last_log_ns now_ns interval_ns : Z) : Z * bool :=
  if (last_log_ns =? 0) || (u64 (now_ns - last_log_ns) >=? interval_ns) then (now_ns, true)
  else (last_log_ns, false).

Definition wd_note_udp_send_pressure_locked (server : wd_server) (now_ns : Z) : wd_server :=
  let server := count ss_udp_send_pressure_drops 1
    (server <| sv_udp_send_pressure_drops := u64 (server.(sv_udp_send_pressure_drops) + 1) |>) in
  let '(last, log) := wd_log_rate_limit_should_log server.(sv_udp_send_pressure_log_ns) now_ns
                        WD_LOG_RATE_LIMIT_INTERVAL_NS in
  let server := server <| sv_udp_send_pressure_log_ns := last |> in
  if log then server <| sv_udp_send_pressure_drops := 0 |> else server.

Record wd_stream_epoch_identity := mk_wd_stream_epoch_identity {
  ei_connection_epoch : Z;
  ei_config_epoch : Z;
  ei_content_epoch : Z;
  ei_framebuffer_generation : Z;
}.

Definition wd_stream_epoch_identity_equal (lhs rhs : ptr wd_stream_epoch_identity) : bool :=
  match lhs, rhs with
  | Some a, Some b =>
      (a.(ei_connection_epoch) =? b.(ei_connection_epoch)) &&
      (a.(ei_config_epoch) =? b.(ei_config_epoch)) &&
      (a.(ei_content_epoch) =? b.(ei_content_epoch)) &&
      (a.(ei_framebuffer_generation) =? b.(ei_framebuffer_generation))
  | _, _ => false
  end.

Definition current_epoch (server : wd_server) : wd_stream_epoch_identity :=
  mk_wd_stream_epoch_identity server.(sv_connection_epoch) server.(sv_config_epoch)
    server.(sv_content_epoch) server.(sv_framebuffer_generation).

Record wd_input_correlation_completion := mk_wd_input_correlation_completion {
  ic_matched_inflight : bool;
  ic_clear_pending : bool;
}.

Definition wd_input_correlation_select (input_pending : bool) (latest_sequence inflight_sequence : Z) : Z :=
  if input_pending && negb (latest_sequence =? 0) && (inflight_sequence =? 0) then latest_sequence else 0.

Definition wd_input_correlation_complete (inflight_sequence latest_sequence completed_sequence : Z)
    (success : bool) : wd_input_correlation_completion :=
  let matched := negb (completed_sequence =? 0) && (completed_sequence =? inflight_sequence) in
  mk_wd_input_correlation_completion matched (matched && success && (latest_sequence =? completed_sequence)).

Definition wd_stream_note_input_delivery_locked (server : wd_server) (input_sequence input_inject_ns
    delivery_ns : Z) (success : bool) : wd_server :=
  if input_sequence =? 0 then server
  else
    let completion := wd_input_correlation_complete server.(sv_input_correlation_inflight_sequence)
                        server.(sv_last_input_sequence) input_sequence success in
    if negb completion.(ic_matched_inflight) &&
       negb (server.(sv_input_correlation_inflight_sequence) =? 0) then server
    else
      let server := if completion.(ic_matched_inflight)
                    then server <| sv_input_correlation_inflight_sequence := 0 |> else server in
      if negb success then count ss_input_correlation_delivery_failed 1 server
      else
        let server :=
          if negb (input_inject_ns =? 0) && (delivery_ns >=? input_inject_ns)
          then count ss_input_to_first_fresh_tile_sum_ns (delivery_ns - input_inject_ns)
                 (count ss_input_to_first_fresh_tile_samples 1 server)
          else server in
        if completion.(ic_clear_pending) ||
           ((server.(sv_input_correlation_inflight_sequence) =? 0) &&
            (server.(sv_last_input_sequence) =? input_sequence))
        then server <| sv_input_since_last_fresh_tile := false |> else server.

Record wd_udp_tile_delivery := mk_wd_udp_tile_delivery {
  dl_status : wd_tile_delivery_status;
  dl_epoch : wd_stream_epoch_identity;
  dl_generation : Z;
  dl_input_sequence : Z;
  dl_input_inject_ns : Z;
  dl_covered_base_ids : list Z;
}.
#[export] Instance wd_udp_tile_delivery_eta : Eta wd_udp_tile_delivery := fun s =>
  mk_wd_udp_tile_delivery s.(dl_status) s.(dl_epoch) s.(dl_generation) s.(dl_input_sequence)
    s.(dl_input_inject_ns) s.(dl_covered_base_ids).

(** A failed delivery of current content makes the tiles it carried dirty
    again, unless they were sent anew meanwhile. *)
Definition wd_stream_finish_udp_tile_delivery (server : wd_server) (delivery : wd_udp_tile_delivery)
    (failed : bool) (now_ns : Z) (alloc_ok : bool) : wd_server :=
  if wd_stream_epoch_identity_equal (Some delivery.(dl_epoch)) (Some (current_epoch server)) then
    let server :=
      if negb (delivery.(dl_input_sequence) =? 0)
      then wd_stream_note_input_delivery_locked server delivery.(dl_input_sequence)
             delivery.(dl_input_inject_ns) now_ns (negb failed)
      else server in
    if failed then
      fold_left (fun server tile_id =>
          if (tile_id <? server.(sv_geometry).(tg_total_tiles)) && negb (null server.(sv_tiles)) &&
             ((aget (mk_wd_tile_state 0 0 0) server.(sv_tiles) tile_id).(ti_generation) <=?
              delivery.(dl_generation))
          then wd_detect_one_dirty_tile_into_queue_locked server tile_id now_ns alloc_ok
          else server) delivery.(dl_covered_base_ids) server
    else server
  else server.

(** The completion callback of one packet; [None] once the delivery is over. *)
Definition wd_stream_udp_tile_packet_completion (server : wd_server) (delivery : wd_udp_tile_delivery)
    (success : bool) (now_ns : Z) (alloc_ok : bool) : wd_server * option wd_udp_tile_delivery :=
  match wd_tile_delivery_status_complete (Some delivery.(dl_status)) success with
  | (Some failed, _) =>
      (wd_stream_finish_udp_tile_delivery server delivery failed now_ns alloc_ok, None)
  | (None, status) => (server, (fun s => delivery <| dl_status := s |>) <$> status)
  end.

Definition wd_stream_seal_udp_tile_delivery (server : wd_server) (delivery : wd_udp_tile_delivery)
    (failed : bool) (now_ns : Z) (alloc_ok : bool) : wd_server * option wd_udp_tile_delivery :=
  let s := delivery.(dl_status) in
  match wd_tile_delivery_status_seal
          (Some (mk_wd_tile_delivery_status s.(ds_pending) s.(ds_sealed) (s.(ds_failed) || failed))) with
  | (Some final_failed, _) =>
      (wd_stream_finish_udp_tile_delivery server delivery final_failed now_ns alloc_ok, None)
  | (None, status) => (server, (fun s => delivery <| dl_status := s |>) <$> status)
  end.

(** ** Packets *)

Inductive wd_async_udp_send_status :=
  | WD_ASYNC_UDP_SEND_FAILED
  | WD_ASYNC_UDP_SEND_QUEUED
  | WD_ASYNC_UDP_SEND_SATURATED.

Record wd_udp_tile_send_result := mk_wd_udp_tile_send_result {
  sr_any_packet_sent : bool;
  sr_all_packets_sent : bool;
  sr_send_blocked : bool;
  sr_packets_sent : Z;
  sr_bytes_sent : Z;
}.
#[export] Instance wd_udp_tile_send_result_eta : Eta wd_udp_tile_send_result := fun s =>
  mk_wd_udp_tile_send_result s.(sr_any_packet_sent) s.(sr_all_packets_sent) s.(sr_send_blocked)
    s.(sr_packets_sent) s.(sr_bytes_sent).

Definition wd_stream_init_send_result : wd_udp_tile_send_result :=
  mk_wd_udp_tile_send_result false false false 0 0.

(** The header of packet [packet_id] of a tile. *)
Definition tile_packet_header (server : wd_server) (tile_size tile_id generation input_sequence
    tile_payload_size packet_count packet_id payload_size : Z) (compressed_payload : bool)
    : wd_udp_tile_packet_decoded :=
  let flags := if compressed_payload then WD_UDP_TILE_FLAG_COMPRESSED else 0 in
  let first := (packet_id =? 0) && negb (input_sequence =? 0) in
  let flags := if first then Z.lor flags WD_UDP_TILE_FLAG_INPUT_SEQUENCE else flags in
  mk_wd_udp_tile_packet_decoded server.(sv_session_id) server.(sv_connection_token)
    server.(sv_content_epoch) flags tile_size (u8 packet_id) tile_id (u8 packet_count) payload_size
    (u16 tile_payload_size) generation (if first then input_sequence else 0)
    (wd_udp_tile_header_size_for_flags flags).

Record send_progress := mk_send_progress {
  pg_server : wd_server;
  pg_status : wd_tile_delivery_status;
  pg_result : wd_udp_tile_send_result;
  pg_packets_sent : Z;
  pg_fatal : bool;
  pg_out : list (list Z);
}.
#[export] Instance send_progress_eta : Eta send_progress := fun s =>
  mk_send_progress s.(pg_server) s.(pg_status) s.(pg_result) s.(pg_packets_sent) s.(pg_fatal) s.(pg_out).

Section packets.
Context (tile_id tile_width tile_height generation input_sequence : Z) (payload : list Z)
  (tile_payload_size : Z) (compressed_payload : bool) (udp_payload_target packet_count now_ns : Z).

(** The body of the packet loop for each id in turn; the loop ends early on
    saturation or failure.  A missing answer is a failure to submit. *)
Fixpoint send_packets (ids : list Z) (statuses : list wd_async_udp_send_status) (p : send_progress)
    : send_progress :=
  match ids with
  | [] => p
  | packet_id :: ids =>
      let offset := u32 (packet_id * udp_payload_target) in
      let remaining := u32 (tile_payload_size - offset) in
      let payload_size := u16 (if remaining >? udp_payload_target then udp_payload_target else remaining) in
      match wd_tile_size_code_for_dimensions tile_width tile_height with
      | None => p <| pg_fatal := true |>
      | Some tile_size =>
          let header := tile_packet_header p.(pg_server) tile_size tile_id generation input_sequence
                          tile_payload_size packet_count packet_id payload_size compressed_payload in
          match wd_udp_tile_packet_encode_header WD_UDP_TILE_HEADER_MAX_SIZE (Some header) with
          | None => p <| pg_fatal := true |>
          | Some header_buf =>
              let packet_wire_size := u32 (header.(ud_header_size) + payload_size) in
              let status := default p.(pg_status) (wd_tile_delivery_status_add (Some p.(pg_status))) in
              match default WD_ASYNC_UDP_SEND_FAILED (head statuses) with
              | WD_ASYNC_UDP_SEND_QUEUED =>
                  let sent := u16 (p.(pg_packets_sent) + 1) in
                  let result := p.(pg_result) <| sr_any_packet_sent := true |>
                    <| sr_packets_sent := sent |>
                    <| sr_bytes_sent := u32 (p.(pg_result).(sr_bytes_sent) + packet_wire_size) |> in
                  let server := count ss_udp_bytes_sent packet_wire_size
                                  (count ss_udp_packets_sent 1 p.(pg_server)) in
                  send_packets ids (tail statuses)
                    (mk_send_progress server status result sent p.(pg_fatal)
                       (p.(pg_out) ++ [header_buf ++ slice offset payload_size payload]))
              | WD_ASYNC_UDP_SEND_SATURATED =>
                  let status := default status (snd (wd_tile_delivery_status_complete (Some status) false)) in
                  p <| pg_status := status |>
                    <| pg_server := wd_note_udp_send_pressure_locked p.(pg_server) now_ns |>
                    <| pg_result := p.(pg_result) <| sr_send_blocked := true |> |>
              | WD_ASYNC_UDP_SEND_FAILED =>
                  let status := default status (snd (wd_tile_delivery_status_complete (Some status) true)) in
                  p <| pg_status := status |>
                    <| pg_server := count ss_udp_async_send_failed 1 p.(pg_server) |>
                    <| pg_fatal := true |>
              end
          end
      end
  end.

End packets.

(** The outcome of a send: the state, what the function returns, the result
    structure, the delivery still waiting for completions, the datagrams. *)
Record send_outcome := mk_send_outcome {
  so_server : wd_server;
  so_ok : bool;
  so_result : wd_udp_tile_send_result;
  so_delivery : option wd_udp_tile_delivery;
  so_packets : list (list Z);
}.

Definition wd_stream_send_tile_payload_sized_locked (server : wd_server) (tile_id tile_width tile_height
    generation input_sequence input_inject_ns : Z) (tile_payload : ptr (list Z)) (tile_payload_size : Z)
    (compressed_payload : bool) (statuses : list wd_async_udp_send_status) (now_ns end_ns : Z)
    (alloc_ok : bool) : send_outcome :=
  let g := server.(sv_geometry) in
  let result := wd_stream_init_send_result in
  let packet_tiles_x := wd_tiles_for_width_with_tile g.(tg_display_width) tile_width in
  let packet_tiles_y := wd_tiles_for_height_with_tile g.(tg_display_height) tile_height in
  let packet_total_tiles := u32 (packet_tiles_x * packet_tiles_y) in
  let stop ok := mk_send_outcome server ok result None [] in
  if (tile_width =? 0) || (tile_height =? 0) || (packet_tiles_x =? 0) || (packet_tiles_y =? 0) ||
     (tile_id >=? packet_total_tiles) || (packet_total_tiles >? UINT16_MAX)
  then stop false
  else
    match tile_payload with
    | NULL => stop true
    | Some payload =>
        if negb server.(sv_client_connected) || (tile_payload_size =? 0) then stop true
        else if zlen payload <? tile_payload_size then stop false
        else if negb alloc_ok then stop false
        else
          match wd_stream_collect_wire_tile_base_ids g tile_id tile_width tile_height
                  WD_WIRE_TILE_MAX_BASE_TILES with
          | None => stop false
          | Some covered =>
              let status := mk_wd_tile_delivery_status 0 false false in
              let delivery := mk_wd_udp_tile_delivery status (current_epoch server) generation 0 0 covered in
              let udp_payload_target := wd_tile_normalize_udp_payload_target server.(sv_udp_payload_target)
                                          WD_UDP_PAYLOAD_TARGET WD_UDP_TILE_PAYLOAD_MAX in
              let packet_count := wd_tile_packet_count_for_payload tile_payload_size udp_payload_target in
              if (packet_count =? 0) || (packet_count >? UINT8_MAX) || (tile_payload_size >? UINT16_MAX)
              then mk_send_outcome
                     (wd_stream_finish_udp_tile_delivery server delivery true now_ns alloc_ok)
                     false result None []
              else
                let '(server, delivery) :=
                  if negb (input_sequence =? 0) then
                    (server <| sv_input_correlation_inflight_sequence := input_sequence |>,
                     delivery <| dl_input_sequence := input_sequence |>
                              <| dl_input_inject_ns := input_inject_ns |>)
                  else (server, delivery) in
                let p := send_packets tile_id tile_width tile_height generation input_sequence payload
                           tile_payload_size compressed_payload udp_payload_target packet_count now_ns
                           (zseq packet_count) statuses
                           (mk_send_progress server status result 0 false []) in
                let incomplete := p.(pg_fatal) || negb (p.(pg_packets_sent) =? packet_count) in
                let '(server, pending) :=
                  wd_stream_seal_udp_tile_delivery p.(pg_server) (delivery <| dl_status := p.(pg_status) |>)
                    incomplete now_ns alloc_ok in
                let send_ns := u64 (end_ns - now_ns) in
                if p.(pg_fatal)
                then mk_send_outcome (count ss_udp_send_ns send_ns server) false p.(pg_result) pending p.(pg_out)
                else
                  let all := p.(pg_packets_sent) =? packet_count in
                  let result := p.(pg_result) <| sr_all_packets_sent := all |> in
                  let server :=
                    if result.(sr_any_packet_sent) && negb all
                    then count ss_partial_tile_packets_sent result.(sr_packets_sent)
                           (count ss_partial_tile_sends 1 server)
                    else server in
                  let server :=
                    if all then
                      let server := count ss_udp_tiles_sent 1 server in
                      let server :=
                        if compressed_payload
                        then count ss_udp_compressed_tile_bytes_sent tile_payload_size
                               (count ss_udp_compressed_tiles_sent 1 server)
                        else count ss_udp_uncompressed_tile_bytes_sent tile_payload_size
                               (count ss_udp_uncompressed_tiles_sent 1 server) in
                      if (tile_width =? g.(tg_tile_width)) && (tile_height =? g.(tg_tile_height))
                      then wd_stream_mark_summary_dirty_locked server tile_id else server
                    else server in
                  mk_send_outcome (count ss_udp_send_ns send_ns server) true result pending p.(pg_out)
          end
    end.
