(* ===== verification/TileTransport.v ===== *)
(** * Tiles from server to client

    The sender of src/server/wd_stream.c composed with the reassembler of
    src/client/tile_reassembly.cpp: the datagrams of one tile, handed over by
    the network in any order and with duplicates. *)
From S2P Require Import Prelude CFloat Wire Config Structs UdpTile TileGrid TilePolicy StreamPolicy DirtyScheduler TileServer TileSend ClientState TileReassembly.

#[local] Arguments aget : simpl never.

(** ** The datagrams of a tile *)

(** What the server needs to send a tile: an open session and values within
    their C types. *)
Record tile_ready (server : wd_server) (tile_size tile_id generation input_sequence target : Z)
    (payload : list Z) : Prop := {
  rt_session : 0 < server.(sv_session_id) <= UINT8_MAX;
  rt_token : 0 < server.(sv_connection_token) <= UINT64_MAX;
  rt_epoch : 0 < server.(sv_content_epoch) <= UINT64_MAX;
  rt_id : u16_ok tile_id;
  rt_generation : 0 < generation <= UINT64_MAX;
  rt_input : u64_ok input_sequence;
  rt_target : WD_MIN_PROBED_UDP_PAYLOAD <= target <= WD_UDP_TILE_PAYLOAD_MAX;
  rt_size : some_dimensions tile_size = true;
  rt_payload : 0 < zlen payload <= UINT16_MAX;
  rt_bytes : bytes_ok payload;
}.

Definition packets_of (payload : list Z) (target : Z) : Z := cdiv (zlen payload) target.

(** Packet [i] of a tile and its header. *)
Definition fragment_header (server : wd_server) (tile_size tile_id generation input_sequence : Z)
    (compressed : bool) (payload : list Z) (target i : Z) : wd_udp_tile_packet_decoded :=
  tile_packet_header server tile_size tile_id generation input_sequence (zlen payload)
    (packets_of payload target) i (Z.min target (zlen payload - i * target)) compressed.

Definition fragment_packet (server : wd_server) (tile_size tile_id generation input_sequence : Z)
    (compressed : bool) (payload : list Z) (target i : Z) : list Z :=
  let h := fragment_header server tile_size tile_id generation input_sequence compressed payload target i in
  default [] (wd_udp_tile_packet_encode_header WD_UDP_TILE_HEADER_MAX_SIZE (Some h)) ++
  slice (i * target) h.(ud_payload_size) payload.

Section fragments.
Context (server : wd_server) (tile_size tile_id generation input_sequence target : Z)
  (compressed : bool) (payload : list Z)
  (R : tile_ready server tile_size tile_id generation input_sequence target payload).

Let count := packets_of payload target.
Let header i := fragment_header server tile_size tile_id generation input_sequence compressed payload target i.

Lemma target_pos : 0 < target <= 65463.
Proof.
  pose proof (rt_target _ _ _ _ _ _ _ R) as H. revert H.
  unfold WD_MIN_PROBED_UDP_PAYLOAD. change WD_UDP_TILE_PAYLOAD_MAX with 65463. lia.
Qed.

Lemma count_bounds : (count - 1) * target < zlen payload <= count * target /\ 0 < count <= UINT8_MAX.
Proof.
  pose proof target_pos. pose proof (rt_payload _ _ _ _ _ _ _ R).
  pose proof (rt_target _ _ _ _ _ _ _ R) as Ht. unfold WD_MIN_PROBED_UDP_PAYLOAD in Ht.
  pose proof (proj1 (cdiv_spec (zlen payload) target count ltac:(lia)) eq_refl).
  wd_bounds. nia.
Qed.

Lemma fragment_bounds_i i : 0 <= i < count ->
  0 <= i * target /\ 0 < Z.min target (zlen payload - i * target) /\
  i * target + Z.min target (zlen payload - i * target) <= zlen payload /\ i * target < zlen payload.
Proof. intros Hi. pose proof target_pos. pose proof count_bounds. nia. Qed.

Lemma flags_cases i :
  let f := (header i).(ud_flags) in
  flag f WD_UDP_TILE_FLAG_COMPRESSED = compressed /\
  flag f WD_UDP_TILE_FLAG_INPUT_SEQUENCE = (i =? 0) && negb (input_sequence =? 0) /\
  outside f WD_UDP_TILE_FLAG_MASK = false /\ u8_ok f.
Proof.
  cbn [header fragment_header tile_packet_header ud_flags].
  destruct ((i =? 0) && negb (input_sequence =? 0)), compressed; vm_compute; split_and!; try done; congruence.
Qed.

Lemma header_fields i : 0 <= i < count ->
  (header i).(ud_tile_pkt_id) = i /\ (header i).(ud_tile_pkt_count) = count /\
  (header i).(ud_tile_payload_size) = zlen payload.
Proof.
  intros Hi. pose proof count_bounds. pose proof (rt_payload _ _ _ _ _ _ _ R).
  cbn [header fragment_header tile_packet_header ud_tile_pkt_id ud_tile_pkt_count ud_tile_payload_size].
  fold count. rewrite !u8_small, u16_small by mlia. done.
Qed.

Lemma header_decoded_ok i : 0 <= i < count -> decoded_ok (header i).
Proof.
  intros Hi. destruct (header_fields i Hi) as (E1 & E2 & E3). destruct (flags_cases i) as (_ & F2 & F3 & F4).
  destruct (fragment_bounds_i i Hi) as (B1 & B2 & B3 & B4). destruct count_bounds as [_ Hc].
  destruct R as [R1 R2 R3 R4 R5 R6 R7 R8 R9 R10].
  assert (0 <= tile_size < 4) as Hsz.
  { unfold some_dimensions in R8. destruct (wd_tile_dimensions_for_size_code tile_size) as [[w h]|] eqn:Ed; [| done].
    by eapply code_range. }
  unfold decoded_ok. rewrite E1, E2, E3.
  change (ud_session_id (header i)) with (sv_session_id server).
  change (ud_connection_token (header i)) with (sv_connection_token server).
  change (ud_content_epoch (header i)) with (sv_content_epoch server).
  change (ud_tile_size (header i)) with tile_size. change (ud_tile_id (header i)) with tile_id.
  change (ud_payload_size (header i)) with (Z.min target (zlen payload - i * target)).
  change (ud_tile_generation (header i)) with generation.
  change (ud_header_size (header i)) with (wd_udp_tile_header_size_for_flags (header i).(ud_flags)).
  rewrite header_size_cases by done.
  split_and!; try mlia; try done.
  - cbn. case_if; [done | mlia].
  - case_if; mlia.
Qed.

Lemma encode_fragment i : 0 <= i < count -> exists hdr,
  wd_udp_tile_packet_encode_header WD_UDP_TILE_HEADER_MAX_SIZE (Some (header i)) = Some hdr.
Proof.
  intros Hi. destruct (header_fields i Hi) as (E1 & E2 & E3). destruct (flags_cases i) as (_ & F2 & F3 & F4).
  destruct (fragment_bounds_i i Hi) as (B1 & B2 & B3 & B4). destruct count_bounds as [_ Hc].
  destruct R as [R1 R2 R3 R4 R5 R6 R7 R8 R9 R10].
  unfold wd_udp_tile_packet_encode_header. rewrite E1, E2, E3.
  change (ud_session_id (header i)) with (sv_session_id server).
  change (ud_connection_token (header i)) with (sv_connection_token server).
  change (ud_content_epoch (header i)) with (sv_content_epoch server).
  change (ud_tile_size (header i)) with tile_size.
  change (ud_payload_size (header i)) with (Z.min target (zlen payload - i * target)).
  change (ud_tile_generation (header i)) with generation.
  rewrite R8. case_if.
  { exfalso. repeat apply orb_true_iff in E as [E|E]; bool_cases; try done; mlia. }
  rewrite header_size_cases, F2 by done. change WD_UDP_TILE_HEADER_MAX_SIZE with 44.
  change (ud_input_sequence (header i)) with (if (i =? 0) && negb (input_sequence =? 0) then input_sequence else 0).
  destruct ((i =? 0) && negb (input_sequence =? 0)) eqn:Ef; cbn [andb orb Z.eqb Z.ltb Z.compare Pos.compare Pos.compare_cont].
  - bool_cases. rewrite (proj2 (Z.eqb_eq i 0)) by done. cbn [negb orb].
    rewrite (proj2 (Z.eqb_neq input_sequence 0)) by done. cbn [orb]. by eexists.
  - by eexists.
Qed.

Let packet i := fragment_packet server tile_size tile_id generation input_sequence compressed payload target i.

Lemma zlen_fragment i : 0 <= i < count ->
  zlen (slice (i * target) (header i).(ud_payload_size) payload) = (header i).(ud_payload_size).
Proof.
  intros Hi. destruct (fragment_bounds_i i Hi) as (B1 & B2 & B3 & B4).
  change (ud_payload_size (header i)) with (Z.min target (zlen payload - i * target)).
  apply zlen_slice; lia.
Qed.

Lemma encoded_length i hdr : 0 <= i < count ->
  wd_udp_tile_packet_encode_header WD_UDP_TILE_HEADER_MAX_SIZE (Some (header i)) = Some hdr ->
  zlen hdr = (header i).(ud_header_size) /\ bytes_ok hdr.
Proof.
  intros Hi Henc. pose proof (header_decoded_ok i Hi) as Hok.
  apply encode_header_inv in Henc. destruct_and! Henc. subst hdr.
  pose proof (wire_of_ok _ Hok) as Hw. pose proof (extension_ok _ Hok) as Hx.
  change (ud_header_size (header i)) with (wd_udp_tile_header_size_for_flags (header i).(ud_flags)).
  rewrite header_size_cases by done. rewrite zlen_app, encode_length by done.
  change (sizeof wd_udp_tile_packet_header) with 36. split.
  - case_if; [rewrite encode_length by done; reflexivity | done].
  - apply list.Forall_app. split; [apply encode_ok |]. case_if; [apply encode_ok | constructor].
Qed.

(** A datagram decodes to its header; its payload is the fragment. *)
Lemma decode_fragment i : 0 <= i < count ->
  wd_udp_tile_packet_decode (packet i) = Some (header i) /\
  slice (header i).(ud_header_size) (header i).(ud_payload_size) (packet i) =
    slice (i * target) (header i).(ud_payload_size) payload /\
  bytes_ok (packet i) /\ zlen (packet i) = (header i).(ud_header_size) + (header i).(ud_payload_size).
Proof.
  intros Hi. destruct (encode_fragment i Hi) as [hdr Henc]. pose proof (header_decoded_ok i Hi) as Hok.
  destruct (encoded_length i hdr Hi Henc) as [Hlen Hb]. pose proof (zlen_fragment i Hi) as Hf.
  assert (packet i = hdr ++ slice (i * target) (header i).(ud_payload_size) payload) as ->.
  { unfold packet, fragment_packet. fold (header i). by rewrite Henc. }
  destruct (fragment_bounds_i i Hi) as (B1 & B2 & B3 & B4). split_and!.
  - rewrite (udp_tile_decode_encode_fields _ _ _ _ Hok Henc Hf). f_equal. unfold with_wire_size.
    destruct (flags_cases i) as (_ & F2 & _). rewrite F2.
    unfold header, fragment_header, tile_packet_header. destruct ((i =? 0) && negb (input_sequence =? 0)); reflexivity.
  - unfold slice at 1. rewrite <- Hlen, drop_app_length' by (unfold zlen; lia).
    apply take_ge. unfold zlen in Hf. lia.
  - apply list.Forall_app. split; [done |]. apply Forall_slice, (rt_bytes _ _ _ _ _ _ _ R).
  - rewrite zlen_app. lia.
Qed.

(** The sent tile the datagrams carry. *)
Let tile : sent_tile :=
  mk_sent_tile tile_size tile_id generation server.(sv_content_epoch) input_sequence compressed payload.

Lemma fragment_carries i : 0 <= i < count ->
  carries target tile (header i) (slice (header i).(ud_header_size) (header i).(ud_payload_size) (packet i)).
Proof.
  intros Hi. destruct (decode_fragment i Hi) as (_ & Hs & _ & _).
  destruct (header_fields i Hi) as (E1 & E2 & E3). destruct (flags_cases i) as (F1 & _).
  unfold carries. rewrite E1, E3, Hs. split_and!; try done.
  intros ->. change (ud_input_sequence (header 0)) with
    (if (0 =? 0) && negb (input_sequence =? 0) then input_sequence else 0). change (sn_input_sequence tile) with input_sequence.
  destruct (input_sequence =? 0) eqn:Ez; bool_cases; cbn; lia.
Qed.

Lemma fragment_is_ok i : 0 <= i < count -> fragment_ok (header i) (packet i) target.
Proof.
  intros Hi. destruct (header_fields i Hi) as (E1 & E2 & E3). pose proof target_pos.
  destruct (decode_fragment i Hi) as (_ & _ & _ & Hz).
  split; rewrite ?E1, ?E2, ?E3; try done; try lia.
  - by apply header_decoded_ok.
  - mlia.
  - apply (rt_payload _ _ _ _ _ _ _ R).
Qed.

Lemma layout_accepts h size total : decoded_ok h -> fragment_ok h size target ->
  h.(ud_tile_payload_size) = total ->
  wd_udp_tile_fragment_layout_valid (Some h) (zlen size) target total = true.
Proof.
  intros Hok F <-. destruct (fragment_bounds _ _ _ F) as (B1 & B2 & B3 & B4 & B5 & B6 & B7 & B8).
  destruct F as [_ Ft Fc Fi Fz Fs Fp]. unfold wd_udp_tile_fragment_layout_valid.
  rewrite (proj2 (Z.eqb_neq target 0)), (proj2 (Z.eqb_neq (ud_tile_payload_size h) 0)), Z.eqb_refl,
    (proj2 (Z.eqb_eq _ _) Fp) by lia. cbn [negb orb].
  rewrite (u32_small (ud_tile_payload_size h + target)), u32_small by mlia.
  fold (cdiv (ud_tile_payload_size h) target). rewrite <- Fc.
  rewrite (proj2 (Z.eqb_neq (ud_tile_pkt_count h) 0)), Z.eqb_refl by lia.
  rewrite Z.gtb_ltb, (proj2 (Z.ltb_ge UINT8_MAX (ud_tile_pkt_count h))) by lia.
  rewrite Z.geb_leb, (proj2 (Z.leb_gt (ud_tile_pkt_count h) (ud_tile_pkt_id h))) by lia. cbn [negb orb].
  rewrite B5, u32_small by mlia. apply Z.eqb_eq. rewrite Fs.
  case_if; bool_cases; rewrite u16_small by mlia; lia.
Qed.

(** ** The client's side *)

Context (ZSTD_compressBound : Z -> Z) (ZSTD_decompress : list Z -> Z -> option (list Z)).

(** The client runs the configuration the server announced. *)
Record config_agrees (c : wd_server_config_payload) : Prop := {
  ag_session : c.(sc_session_id) = server.(sv_session_id);
  ag_token : c.(sc_connection_token) = server.(sv_connection_token);
  ag_width : c.(sc_width) = server.(sv_geometry).(tg_display_width);
  ag_height : c.(sc_height) = server.(sv_geometry).(tg_display_height);
  ag_target : c.(sc_udp_payload_target) = target;
  ag_ranges : config_ranges c;
}.

Context (w h : Z) (Hdims : wd_tile_dimensions_for_size_code tile_size = Some (w, h)).

Definition tile_size_ok : Prop :=
  if compressed then zlen payload <= ZSTD_compressBound (w * h * WD_BYTES_PER_PIXEL)
  else zlen payload = w * h * WD_BYTES_PER_PIXEL.

Definition tile_on_grid (c : wd_server_config_payload) : Prop :=
  tile_id < wd_tiles_for_width_with_tile c.(sc_width) w * wd_tiles_for_height_with_tile c.(sc_height) h <=
    UINT16_MAX.

Lemma fragment_validates s i : config_agrees s.(cs_config) -> tile_size_ok -> tile_on_grid s.(cs_config) ->
  0 <= i < count -> payload_target s = target /\
  validate_tile_packet_header ZSTD_compressBound (header i) (zlen (packet i)) target s.(cs_config) = Valid.
Proof.
  intros A Hz Hg Hi. destruct (header_fields i Hi) as (E1 & E2 & E3). pose proof target_pos.
  pose proof (fragment_is_ok i Hi) as F. destruct (fragment_bounds _ _ _ F) as (B1 & B2 & B3 & B4 & _ & B6 & B7 & _).
  destruct (flags_cases i) as (F1 & _). destruct (dims_small _ _ _ Hdims) as (Hw & Hh & Hn).
  unfold tile_on_grid in Hg. pose proof (tiles_range s.(cs_config).(sc_width) w) as T1.
  pose proof (tiles_range s.(cs_config).(sc_height) h) as T2. rewrite tiles_for_height_same in *.
  pose proof (rt_id _ _ _ _ _ _ _ R) as Hid.
  split.
  { unfold payload_target. rewrite (ag_target _ A). case_if; [bool_cases; lia | done]. }
  unfold validate_tile_packet_header, packet_header_validation_result, tile_dimensions_from_header.
  rewrite (ag_session _ A), (ag_token _ A).
  change (ud_session_id (header i)) with (sv_session_id server).
  change (ud_connection_token (header i)) with (sv_connection_token server).
  change (ud_tile_size (header i)) with tile_size. change (ud_tile_id (header i)) with tile_id.
  rewrite !Z.eqb_refl, Hdims. cbn [negb orb]. rewrite tiles_for_height_same.
  rewrite u32_small by (wd_bounds; nia).
  destruct (_ || _ || _ || _) eqn:E.
  { exfalso. repeat apply orb_true_iff in E as [E|E]; bool_cases; wd_bounds; nia. }
  destruct (_ || _ || _ || _) eqn:E' in |- *.
  { exfalso. rewrite E1, E2, E3 in *. repeat apply orb_true_iff in E' as [E'|E']; bool_cases; lia. }
  rewrite E3, Hn. change (wd_udp_tile_packet_is_compressed (Some (header i))) with
    (flag (header i).(ud_flags) WD_UDP_TILE_FLAG_COMPRESSED). rewrite F1.
  assert ((if compressed then zlen payload >? wd_zstd_compress_bound ZSTD_compressBound (w * h * WD_BYTES_PER_PIXEL)
    else negb (zlen payload =? w * h * WD_BYTES_PER_PIXEL)) = false) as ->.
  { unfold tile_size_ok in Hz. unfold wd_zstd_compress_bound. destruct compressed.
    - rewrite Z.gtb_ltb. apply Z.ltb_ge. done.
    - rewrite Hz, Z.eqb_refl. done. }
  rewrite (layout_accepts (header i) (packet i)); [done | by apply header_decoded_ok | done | done].
Qed.

(** A datagram of the tile reaches [receive_fragment]. *)
Lemma process_fragment s tr tr1 i now ns done :
  config_agrees s.(cs_config) -> tile_size_ok -> tile_on_grid s.(cs_config) -> 0 <= i < count ->
  generation_wanted s (header i) = true ->
  configure_entry_slots ZSTD_compressBound tr s.(cs_config) = Some (tr1, true) ->
  process_udp_packet ZSTD_compressBound ZSTD_decompress s tr (Some (packet i)) now ns done =
    receive_fragment ZSTD_compressBound ZSTD_decompress s tr1 (header i) (packet i) target w h
      (w * h * WD_BYTES_PER_PIXEL) now ns done.
Proof.
  intros A Hz Hg Hi Hgen Hconf. destruct (decode_fragment i Hi) as (Hd & _ & _ & Hlen).
  destruct (fragment_validates s i A Hz Hg Hi) as [Ht Hv]. destruct (dims_small _ _ _ Hdims) as (_ & _ & Hn).
  pose proof (header_decoded_ok i Hi) as Hok. destruct (flags_cases i) as (_ & _ & F3 & _).
  assert (36 <= (header i).(ud_header_size)) as Hhs.
  { change (ud_header_size (header i)) with (wd_udp_tile_header_size_for_flags (header i).(ud_flags)).
    rewrite header_size_cases by done. case_if; lia. }
  unfold process_udp_packet.
  destruct (zlen (packet i) <? WD_UDP_TILE_HEADER_MIN_SIZE) eqn:El.
  { change WD_UDP_TILE_HEADER_MIN_SIZE with 36 in El. bool_cases.
    unfold decoded_ok in Hok. destruct_and! Hok. mlia. }
  rewrite Hd. unfold tile_dimensions_from_header. change (ud_tile_size (header i)) with tile_size.
  rewrite Hdims. fold (payload_target s). rewrite Ht, Hv, Hgen. cbn [negb]. rewrite Hconf.
  cbn [mbind option_bind negb]. by rewrite Hn.
Qed.

(** ** What arrives of the tile *)

Context (bytes : list Z) (Hbytes : tile_bytes_of ZSTD_decompress tile (w * h * WD_BYTES_PER_PIXEL) = Some bytes).

(** The entry of the tile once the packets [ids] have arrived. *)
Record filling (ids : list Z) (first_ns : Z) (e : Entry) : Prop := {
  fi_genuine : genuine target tile e;
  fi_partial : entry_partial e;
  fi_first : e.(en_first_packet_ns) = first_ns;
  fi_bits : forall k, 0 <= k < count -> bit_received e.(en_received_bitmap) k = bool_decide (k ∈ ids);
}.

Lemma filling_current ids t0 e i : filling ids t0 e -> entry_current (header i) e.
Proof. intros [G _ _ _]. destruct G. by split_and!. Qed.

(** An honest fragment agrees with what was recorded. *)
Lemma filling_agrees ids t0 e i : filling ids t0 e -> 0 <= i < count ->
  first_agrees (header i) e /\ entry_matches (header i) e.
Proof.
  intros [G _ _ _] Hi. destruct (header_fields i Hi) as (E1 & E2 & E3).
  destruct (fragment_carries i Hi) as (_ & _ & _ & _ & C5 & C6 & C7 & _). split.
  - intros Hz Hs. rewrite (ge_input _ _ _ G Hs), C5; done.
  - split_and!; [rewrite E2; apply (ge_packets _ _ _ G) | rewrite E3; apply (ge_length _ _ _ G) |].
    rewrite C6. apply (ge_compressed _ _ _ G).
Qed.

Lemma filling_note_first ids t0 e i : filling ids t0 e -> 0 <= i < count ->
  filling ids t0 (note_first (header i) e).
Proof.
  intros L Hi.
  pose proof (note_first_genuine target (header i) _ tile e (fi_genuine _ _ _ L) (fragment_carries i Hi)) as G2.
  destruct (note_first_fields (header i) e) as (_ & _ & N3 & _ & _ & _ & N7 & N8 & _ & _ & _ & _ & N13).
  destruct L as [G [P1 P2] Ht Hb]. split; [done | | by rewrite N13 | by rewrite N7].
  split; [by apply note_first_ok | by rewrite N8, N3].
Qed.

(** The fragment itself: the entry with one more packet. *)
Lemma filling_add ids t0 e i : filling ids t0 e -> 0 <= i < count -> i ∉ ids ->
  let e' := add_fragment (header i) target
    (slice (header i).(ud_header_size) (header i).(ud_payload_size) (packet i)) (note_first (header i) e) in
  genuine target tile e' /\ entry_ok e' /\ e'.(en_first_packet_ns) = t0 /\
  (forall k, 0 <= k < count -> bit_received e'.(en_received_bitmap) k = bool_decide (k ∈ i :: ids)).
Proof.
  intros L Hi Hni e'. pose proof (filling_note_first _ _ _ _ L Hi) as L1.
  destruct (filling_agrees _ _ _ _ L1 Hi) as [_ M]. destruct (header_fields i Hi) as (E1 & _ & _).
  pose proof (fragment_is_ok i Hi) as F. destruct L1 as [G1 [O1 P1] T1 B1].
  destruct (fragment_bounds _ _ _ F) as (_ & _ & _ & _ & _ & _ & Hcnt & Hh0).
  assert (bit_received (note_first (header i) e).(en_received_bitmap) (header i).(ud_tile_pkt_id) = false) as Hbit.
  { rewrite E1, B1 by done. by apply bool_decide_eq_false. }
  destruct (fragment_carries i Hi) as (_ & _ & _ & _ & _ & _ & _ & C8).
  assert (zlen (slice (header i).(ud_header_size) (header i).(ud_payload_size) (packet i)) = (header i).(ud_payload_size)) as Hz.
  { destruct (decode_fragment i Hi) as (_ & -> & _). by apply zlen_fragment. }
  destruct (add_fragment_ok _ _ _ _ _ F Hz O1 M Hbit) as [O2 B2]. split_and!; [| done | done |].
  - apply add_fragment_genuine; try done. intros Hz0. unfold note_first. by rewrite Hz0.
  - intros k Hk. destruct count_bounds. rewrite B2, E1, B1 by (wd_bounds; lia).
    destruct (Z.eqb_spec k i) as [->|Hne].
    + symmetry. apply bool_decide_eq_true. by left.
    + cbn [orb]. apply bool_decide_ext. rewrite list.elem_of_cons. naive_solver.
Qed.

(** A complete entry gives the tile. *)
Lemma complete_output e : genuine target tile e -> entry_ok e ->
  e.(en_received_count) = e.(en_packet_count) -> tile_output ZSTD_decompress e (w * h * WD_BYTES_PER_PIXEL) = Some bytes.
Proof.
  intros G O Hall. pose proof target_pos as Ht.
  destruct (genuine_complete target tile e (proj1 Ht) O G Hall) as [Hd _].
  destruct (dims_small _ _ _ Hdims) as (Hw & Hh & _). pose proof (rt_payload _ _ _ _ _ _ _ R) as Hp.
  assert (0 < w * h * WD_BYTES_PER_PIXEL) as Hn by (unfold WD_BYTES_PER_PIXEL; nia).
  unfold tile_output. rewrite Hd, (ge_compressed _ _ _ G). revert Hbytes. unfold tile_bytes_of.
  change (sn_compressed tile) with compressed. change (sn_payload tile) with payload.
  assert (forall n, 0 <= n -> zlen (replicate (Z.to_nat n) 0) = n) as Hr
    by (intros; unfold zlen; rewrite length_replicate; lia).
  destruct compressed.
  - unfold wd_zstd_decompress. rewrite Hr by lia.
    rewrite (proj2 (Z.eqb_neq (zlen payload) 0)), (proj2 (Z.eqb_neq (w * h * _) 0)) by lia. cbn [orb].
    destruct (ZSTD_decompress _ _) as [out|]; [| done]. case_if; [| done]. bool_cases. intros [= ->].
    f_equal. unfold write_at. cbn [take Z.to_nat app].
    rewrite drop_ge by (rewrite length_replicate; unfold zlen in *; lia). by rewrite app_nil_r.
  - case_if; [| done]. bool_cases. intros [= <-]. f_equal. apply take_ge. unfold zlen in *. lia.
Qed.

(** Storing a fragment: the entry fills up, or the tile is there. *)
Lemma stored_filling ids t0 e i c o : filling ids t0 e -> 0 <= i < count ->
  stored ZSTD_decompress (header i) (slice (header i).(ud_header_size) (header i).(ud_payload_size) (packet i))
    target (w * h * WD_BYTES_PER_PIXEL) e c o ->
  (c = no_tile /\ exists e', o = Some e' /\ filling (i :: ids) t0 e') \/
  (c.(ct_valid) = true /\ delivers ZSTD_decompress tile c /\ o = None /\ forall k, 0 <= k < count -> k ∈ i :: ids).
Proof.
  intros L Hi Hst. destruct (filling_agrees _ _ _ _ L Hi) as [Ha M]. destruct (header_fields i Hi) as (E1 & E2 & _).
  assert (forall b, bit_received e.(en_received_bitmap) (header i).(ud_tile_pkt_id) = b -> b = bool_decide (i ∈ ids)) as Hb.
  { intros b <-. rewrite E1. by apply (fi_bits _ _ _ L). }
  inversion Hst as [Hz Hs Hne|? Hm|? ? Hbit Hne|? ? Hbit|e' ? ? Hbit -> Hlt|e' ? ? Hbit -> Hall Ho|e' out dn cap ? ? Hbit -> Hall Ho]; subst.
  - by specialize (Ha Hz Hs).
  - done.
  - exfalso. apply Hne. apply Hb in Hbit. pose proof (fi_genuine _ _ _ L) as G.
    destruct (fragment_carries i Hi) as (_ & _ & _ & _ & _ & _ & C7 & C8). rewrite C8.
    pose proof (fragment_bounds_i i Hi) as (B1 & B2 & B3 & B4). pose proof target_pos.
    pose proof (eo_bytes _ (proj1 (fi_partial _ _ _ L))) as Heb. unfold entry_bytes in Heb.
    rewrite (ge_length _ _ _ G) in Heb. change (sn_payload tile) with payload in *. rewrite E1.
    change (ud_payload_size (header i)) with (Z.min target (zlen payload - i * target)).
    apply (aget_ext 0); [rewrite !zlen_slice by lia; done |]. rewrite zlen_slice by lia. intros j Hj.
    rewrite !aget_slice by lia. apply (ge_data _ _ _ G i).
    + rewrite (ge_packets _ _ _ G). done.
    + rewrite (fi_bits _ _ _ L) by done. done.
    + change (sn_payload tile) with payload. lia.
  - left. split; [done |]. eexists. split; [done |]. destruct (filling_note_first _ _ _ _ L Hi) as [G P T B].
    apply Hb, eq_sym, bool_decide_eq_true in Hbit.
    split; try done. intros k Hk. rewrite B by done. apply bool_decide_ext. rewrite list.elem_of_cons.
    naive_solver.
  - apply Hb, eq_sym, bool_decide_eq_false in Hbit.
    destruct (filling_add _ _ _ _ L Hi Hbit) as (G' & O' & T' & B'). left. split; [done |]. by eexists.
  - apply Hb, eq_sym, bool_decide_eq_false in Hbit.
    destruct (filling_add _ _ _ _ L Hi Hbit) as (G' & O' & T' & B').
    by rewrite complete_output in Ho.
  - apply Hb, eq_sym, bool_decide_eq_false in Hbit.
    destruct (filling_add _ _ _ _ L Hi Hbit) as (G' & O' & T' & B').
    rewrite complete_output in Ho by done. injection Ho as <-. right. split; [done |].
    pose proof target_pos. destruct (genuine_complete target tile _ (proj1 target_pos) O' G' Hall) as [_ Hin].
    split_and!; [| done |].
    + unfold delivers. cbn [ct_tile_id ct_generation ct_content_epoch ct_input_sequence ct_tile_width
        ct_tile_height ct_compressed_size ct_tile_bytes vec_data].
      pose proof (ge_dims _ _ _ G') as Hd. change (sn_tile_size tile) with tile_size in Hd. rewrite Hdims in Hd.
      injection Hd as Ew Eh. destruct G'. split_and!; try done. etrans; [| exact Hbytes]. f_equal. cbn [add_fragment en_tile_width en_tile_height set_field] in Ew, Eh. rewrite Ew, Eh. done.
    + intros k Hk. apply (bool_decide_eq_true (k ∈ i :: ids)). rewrite <- B' by done.
      eapply all_received; [done | done |]. rewrite (ge_packets _ _ _ G'). done.
Qed.

(** *** The client's run over the arriving packets *)

(** A client that runs the server's configuration and still wants the tile. *)
Record client_ready (s : ClientState) (tr : TileReassembler) : Prop := {
  cr_table : reasm_ok tr;
  cr_frame : 0 < s.(cs_config).(sc_width) /\ tr.(tr_entry_frame_width) = s.(cs_config).(sc_width) /\
    tr.(tr_entry_frame_height) = s.(cs_config).(sc_height);
  cr_config : config_agrees s.(cs_config);
  cr_grid : tile_on_grid s.(cs_config);
  cr_wanted : generation_wanted s (header 0) = true;
  cr_budget : zlen payload <= tr.(tr_max_active_payload_bytes) /\ tr.(tr_max_active_entries) <= UINT32_MAX;
}.

Lemma ready_kept s tr s' tr' : client_ready s tr -> reasm_ok tr' -> same_setup tr tr' -> same_view s s' ->
  client_ready s' tr'.
Proof.
  intros [C1 C2 C3 C4 C5 C6] R' (U1 & U2 & U3 & U4 & U5) [V1 [V2 _]].
  split; rewrite ?V1, ?U1, ?U2, ?U3, ?U4; try done.
  revert C5. unfold generation_wanted. by rewrite V1, V2.
Qed.

Definition no_entry (tr : TileReassembler) : Prop :=
  forall e, e ∈ tr.(tr_active_entries) -> (e.(en_tile_size), e.(en_tile_id)) <> (tile_size, tile_id).

(** The packets [ids] have arrived, the first at [t0]. *)
Definition holds (ids : list Z) (t0 : Z) (tr : TileReassembler) : Prop :=
  match ids with
  | [] => no_entry tr
  | _ => exists j e, tr.(tr_active_entries) !! j = Some e /\ filling ids t0 e
  end.

Lemma ready_receive s tr i now ns done : client_ready s tr -> tile_size_ok -> 0 <= i < count ->
  process_udp_packet ZSTD_compressBound ZSTD_decompress s tr (Some (packet i)) now ns done =
    receive_fragment ZSTD_compressBound ZSTD_decompress s tr (header i) (packet i) target w h
      (w * h * WD_BYTES_PER_PIXEL) now ns done.
Proof.
  intros [C1 (C2 & C2' & C2'') C3 C4 C5 C6] Hz Hi. apply process_fragment; try done.
  unfold configure_entry_slots. rewrite C2', C2'', !Z.eqb_refl, (proj2 (Z.eqb_neq _ _)) by lia. done.
Qed.

Lemma ready_slot s tr : client_ready s tr -> slot_exists tr.(tr_entry_slots_by_size) tile_size tile_id = true.
Proof.
  intros [C1 (C2 & C2' & C2'') C3 C4 C5 C6]. pose proof (code_range _ _ _ Hdims) as Hcode.
  unfold slot_exists. rewrite (sh_frame _ (proj1 C1) ltac:(lia) _ _ _ Hdims), C2', C2''. unfold zlen.
  rewrite (tb_size _ _ (sh_table _ (proj1 C1))). apply andb_true_iff. rewrite !Z.ltb_lt.
  destruct C4. lia.
Qed.

(** What the client has after the packet [i]: the tile, or a fuller entry. *)
Definition after_packet (s : ClientState) (ids : list Z) (t0 i : Z)
    (r : option (CompletedTile * ClientState * TileReassembler)) : Prop :=
  exists c s' tr', r = Some (c, s', tr') /\ client_ready s' tr' /\
    ((c = no_tile /\ holds (i :: ids) t0 tr' /\ ~ (forall k, 0 <= k < count -> k ∈ i :: ids)) \/
     (c.(ct_valid) = true /\ delivers ZSTD_decompress tile c /\ forall k, 0 <= k < count -> k ∈ i :: ids)).

(** A partial entry misses a packet. *)
Lemma filling_misses ids t0 e : filling ids t0 e -> ~ (forall k, 0 <= k < count -> k ∈ ids).
Proof.
  intros [G [O P] _ B] Hall. pose proof (eo_received _ O) as Hr. unfold received_packets in Hr.
  pose proof (eo_packets _ O).
  replace (List.filter _ _) with (zseq (en_packet_count e)) in Hr.
  { rewrite zlen_zseq in Hr by lia. lia. }
  pose proof (ge_packets _ _ _ G) as Hpk. change (sn_payload tile) with payload in Hpk.
  fold (packets_of payload target) in Hpk. fold count in Hpk.
  assert (forall k, In k (zseq (en_packet_count e)) -> bit_received (en_received_bitmap e) k = true) as HF.
  { intros k Hk%elem_of_zseq. rewrite B by lia. apply bool_decide_eq_true, Hall. lia. }
  clear -HF. induction (zseq _) as [|x l IH]; [done |]. cbn [List.filter].
  rewrite (HF x) by by left. f_equal. apply IH. intros k Hk. apply HF. by right.
Qed.

Lemma store_step s tr i j e ids t0 ns done : client_ready s tr -> 0 <= i < count ->
  tr.(tr_active_entries) !! j = Some e -> filling ids t0 e ->
  after_packet s ids t0 i (store_fragment ZSTD_compressBound ZSTD_decompress s tr (header i) (packet i) target (Z.of_nat j)
    (w * h * WD_BYTES_PER_PIXEL) ns done).
Proof.
  intros C Hi Hj L. pose proof (fragment_is_ok i Hi) as F. destruct (cr_table _ _ C) as [Sh HF].
  destruct (store_fragment_ok ZSTD_compressBound ZSTD_decompress s tr (header i) (packet i) target j e
    (w * h * WD_BYTES_PER_PIXEL) ns done Sh Hj (fi_partial _ _ _ L) F)
    as (c & s' & tr' & o & -> & Hst & S' & Hu & Hv & Ha).
  pose proof (lookup_lt_Some _ _ _ Hj) as Hlt.
  assert (zlen (slice (header i).(ud_header_size) (header i).(ud_payload_size) (packet i)) = (header i).(ud_payload_size)) as Hz.
  { destruct (decode_fragment i Hi) as (_ & -> & _). by apply zlen_fragment. }
  exists c, s', tr'. split; [done |]. split.
  { apply (ready_kept s tr); try done. split; [done |]. rewrite Ha. destruct o as [e'|].
    - apply list.Forall_insert; [done |]. eapply stored_partial; [exact F | exact Hz | apply L | exact Hst].
    - rewrite list.Forall_forall in HF |- *. intros x Hx. apply HF. rewrite (swap_remove_perm _ _ _ Hj). by right. }
  destruct (stored_filling _ _ _ _ _ _ L Hi Hst) as [(-> & e' & -> & L')|(Hc & Hd & -> & Hall)].
  - left. split; [done |]. split; [| by eapply filling_misses].
    exists j, e'. split; [| done]. by rewrite Ha, list_lookup_insert_eq.
  - by right.
Qed.

(** The first packet opens the entry. *)
Lemma fresh_filling i now cap : 0 <= i < count -> filling [] now (fresh_entry (header i) w h now cap).
Proof.
  intros Hi. pose proof (fragment_is_ok i Hi) as F. destruct (header_fields i Hi) as (E1 & E2 & E3).
  destruct (fragment_bounds _ _ _ F) as (_ & _ & _ & _ & _ & Hm & Hcnt & _). destruct count_bounds.
  split; [| | done |].
  - by apply (fresh_genuine target (header i) (packet i)); [| apply fragment_carries |].
  - apply fresh_entry_partial; [| done]. pose proof (fr_total _ _ _ F). lia.
  - intros k Hk. rewrite bool_decide_eq_false_2 by apply not_elem_of_nil.
    apply empty_bits. wd_bounds. lia.
Qed.

Lemma packet_step s tr i ids t0 now ns done : client_ready s tr -> tile_size_ok -> 0 <= i < count ->
  holds ids t0 tr -> (ids = [] -> now = t0) -> t0 <= now <= t0 + WD_LINK_TILE_REASSEMBLY_MIN_NS ->
  after_packet s ids t0 i
    (process_udp_packet ZSTD_compressBound ZSTD_decompress s tr (Some (packet i)) now ns done).
Proof.
  intros C Hz Hi Hh Hfirst Hnow. rewrite ready_receive by done.
  pose proof (code_range _ _ _ Hdims) as Hcode. pose proof (rt_id _ _ _ _ _ _ _ R) as Hid.
  destruct (cr_table _ _ C) as [Sh HF]. destruct ids as [|i0 ids].
  - specialize (Hfirst eq_refl) as ->.
    destruct (find_entry_cases tr tile_size tile_id (sh_table _ Sh) ltac:(lia) ltac:(mlia))
      as [(Hf & _)|(j & e & _ & _ & Hj & Hes & Het)].
    2:{ exfalso. apply (Hh e); [by eapply list_elem_of_lookup_2 | congruence]. }
    destruct (fragment_bounds _ _ _ (fragment_is_ok i Hi)) as (_ & _ & _ & _ & _ & Hm & Hcnt & _).
    destruct (header_fields i Hi) as (E1 & E2 & E3).
    destruct (open_entry_ok ZSTD_compressBound s tr (header i) w h t0 ns Sh) as
      (s1 & tr1 & j & ok & Ho & S1 & Hu1 & Hv1 & _ & Hopen & Hok); try done.
    { rewrite E3. apply (rt_payload _ _ _ _ _ _ _ R). } { by eapply ready_slot. } { by apply Hcode. } { apply Hid. }
    rewrite E3 in Hok. rewrite (Hok (proj1 (cr_budget _ _ C)) (proj2 (cr_budget _ _ C))) in *.
    destruct (Hopen eq_refl) as (tr0 & cap & Hk & -> & Ha). clear Hopen Hok.
    unfold receive_fragment, is_entry. change (ud_tile_size (header i)) with tile_size.
    change (ud_tile_id (header i)) with tile_id. rewrite Hf, !Z.eqb_refl. cbn [mbind option_bind negb].
    rewrite !Z.eqb_refl. cbn [mbind option_bind negb]. rewrite Ho. cbn [mbind option_bind].
    assert (client_ready s1 tr1) as C1.
    { apply (ready_kept s tr); try done. split; [done |]. rewrite Ha. apply list.Forall_app.
      split; [by apply (shrinks_entries _ _ _ Hk) |]. apply list.Forall_singleton, (fi_partial _ _ _ (fresh_filling i t0 cap Hi)). }
    apply (store_step s1 tr1 i (length tr0.(tr_active_entries)) (fresh_entry (header i) w h t0 cap) []); try done.
    + by rewrite Ha, lookup_app_r, Nat.sub_diag by lia.
    + by apply fresh_filling.
  - destruct Hh as (j & e & Hj & L).
    rewrite (receive_current _ _ s tr (header i) (packet i) target w h _ now ns done j e).
    + by apply store_step with e.
    + apply Sh.
    + done.
    + by eapply filling_current.
    + apply Hcode.
    + apply Hid.
    + unfold entry_stale. rewrite (fi_first _ _ _ L). pose proof (current_timeout_min s).
      unfold WD_LINK_TILE_REASSEMBLY_MIN_NS in *. rewrite u64_small by mlia.
      apply andb_false_iff. right. rewrite Z.gtb_ltb. apply Z.ltb_ge. lia.
Qed.

(** What the network hands over: a packet of the tile, and the clock readings
    of [process_udp_packet]. *)
Record arrival := mk_arrival { ar_index : nat; ar_now : Z; ar_repair : Z; ar_done : Z }.

(** The network thread over the arriving packets, the completed tiles in
    order; [None] for a packet that is not there or an access out of bounds. *)
Fixpoint deliver (packets : list (list Z)) (s : ClientState) (tr : TileReassembler) (arrivals : list arrival)
    : option (list CompletedTile * ClientState * TileReassembler) :=
  match arrivals with
  | [] => Some ([], s, tr)
  | a :: arrivals =>
      p ← packets !! a.(ar_index);
      '(c, s, tr) ← process_udp_packet ZSTD_compressBound ZSTD_decompress s tr (Some p)
                      a.(ar_now) a.(ar_repair) a.(ar_done);
      '(done, s, tr) ← deliver packets s tr arrivals;
      Some ((if c.(ct_valid) then [c] else []) ++ done, s, tr)
  end.

Definition in_time (t0 : Z) (a : arrival) : Prop :=
  Z.of_nat a.(ar_index) < count /\ t0 <= a.(ar_now) <= t0 + WD_LINK_TILE_REASSEMBLY_MIN_NS.

Definition index_of (a : arrival) : Z := Z.of_nat a.(ar_index).

(** The first packet to arrive starts the clock. *)
Definition starts (t0 : Z) (ids : list Z) (arrivals : list arrival) : Prop :=
  ids = [] -> forall a, head arrivals = Some a -> a.(ar_now) = t0.

Lemma deliver_filling packets arrivals last s tr ids t0 :
  (forall i, 0 <= i < count -> packets !! Z.to_nat i = Some (packet i)) ->
  client_ready s tr -> tile_size_ok -> holds ids t0 tr -> starts t0 ids (arrivals ++ [last]) ->
  Forall (in_time t0) (arrivals ++ [last]) ->
  index_of last ∉ (index_of <$> arrivals) ++ ids ->
  (forall k, 0 <= k < count -> k ∈ (index_of <$> (arrivals ++ [last])) ++ ids) ->
  (exists s' tr', deliver packets s tr arrivals = Some ([], s', tr')) /\
  exists c s' tr', deliver packets s tr (arrivals ++ [last]) = Some ([c], s', tr') /\ client_ready s' tr' /\
    delivers ZSTD_decompress tile c.
Proof.
  intros Hpk. revert s tr ids. induction arrivals as [|a arrivals IH]; intros s tr ids C Hz Hh Hst Htime Hlast Hall.
  - split; [by do 2 eexists |]. cbn [app deliver]. apply list.Forall_singleton in Htime as [Hidx Hnow].
    assert (0 <= index_of last < count) as Hi by (unfold index_of; lia).
    pose proof (Hpk _ Hi) as Hp. unfold index_of in Hp at 1. rewrite Nat2Z.id in Hp. rewrite Hp. cbn [mbind option_bind].
    destruct (packet_step s tr (index_of last) ids t0 (ar_now last) (ar_repair last) (ar_done last))
      as (c & s' & tr' & -> & C' & [(-> & _ & Hmiss)|(Hv & Hd & _)]); try done.
    { intros ->. by apply Hst. }
    cbn [mbind option_bind]. rewrite Hv. by do 3 eexists.
  - cbn [app] in *. apply list.Forall_cons in Htime as [[Hidx Hnow] Htime].
    assert (0 <= index_of a < count) as Hi by (unfold index_of; lia).
    pose proof (Hpk _ Hi) as Hp. unfold index_of in Hp at 1. rewrite Nat2Z.id in Hp.
    cbn [deliver]. rewrite Hp. cbn [mbind option_bind].
    destruct (packet_step s tr (index_of a) ids t0 (ar_now a) (ar_repair a) (ar_done a))
      as (c & s' & tr' & -> & C' & [(-> & Hh' & _)|(_ & _ & Hfull)]); try done.
    { intros ->. by apply Hst. }
    + cbn [mbind option_bind]. change (ct_valid no_tile) with false. cbn match.
      destruct (IH s' tr' (index_of a :: ids)) as [(s1 & tr1 & ->) (c & s2 & tr2 & -> & C2 & Hd)]; try done.
      * revert Hlast. cbn [fmap list_fmap]. rewrite !elem_of_app, !list.elem_of_cons. naive_solver.
      * intros k Hk. specialize (Hall k Hk). revert Hall. cbn [fmap list_fmap].
        rewrite !elem_of_app, ?list.elem_of_cons, ?elem_of_app. naive_solver.
      * cbn [mbind option_bind app]. split; [by do 2 eexists | by do 3 eexists].
    + exfalso. apply Hlast. apply list.Forall_app in Htime as [_ [Hl _]%list.Forall_singleton].
      specialize (Hfull (index_of last) ltac:(unfold index_of; lia)).
      apply elem_of_app. apply list.elem_of_cons in Hfull as [->|?]; [left | by right].
      cbn [fmap list_fmap]. by left.
Qed.

End fragments.

(** ** The sender *)

Definition same_identity (server server' : wd_server) : Prop :=
  server'.(sv_session_id) = server.(sv_session_id) /\
  server'.(sv_connection_token) = server.(sv_connection_token) /\
  server'.(sv_content_epoch) = server.(sv_content_epoch).

Section sender.
Context (tile_id tile_width tile_height generation input_sequence : Z) (payload : list Z)
  (compressed : bool) (target packet_count now_ns tile_size : Z)
  (Hcode : wd_tile_size_code_for_dimensions tile_width tile_height = Some tile_size)
  (Htarget : 0 < target <= UINT16_MAX) (Hpayload : 0 < zlen payload <= UINT16_MAX)
  (Hcount : packet_count = cdiv (zlen payload) target).

Let send := send_packets tile_id tile_width tile_height generation input_sequence payload (zlen payload)
  compressed target packet_count now_ns.

(** The loop sends each packet at most once. *)
Lemma send_packets_at_most ids statuses p : 0 <= p.(pg_packets_sent) ->
  p.(pg_packets_sent) + zlen ids <= UINT16_MAX ->
  (send ids statuses p).(pg_packets_sent) <= p.(pg_packets_sent) + zlen ids.
Proof.
  revert statuses p. induction ids as [|i ids IH]; intros statuses p Hp Hb; subst send; cbn [send_packets].
  { change (zlen []) with 0. lia. }
  pose proof (zlen_nonneg ids). rewrite zlen_cons in *. rewrite Hcode.
  destruct (wd_udp_tile_packet_encode_header _ _); [| cbn [pg_packets_sent set_field]; lia].
  destruct (default WD_ASYNC_UDP_SEND_FAILED _); [cbn [pg_packets_sent set_field]; lia | | cbn [pg_packets_sent set_field]; lia].
  etrans; [apply IH |]; cbn [pg_packets_sent]; rewrite u16_small; mlia.
Qed.

(** When every packet was accepted, the datagrams are those of the tile. *)
Lemma send_packets_all server ids statuses p : same_identity server p.(pg_server) ->
  0 <= p.(pg_packets_sent) -> p.(pg_packets_sent) + zlen ids <= UINT16_MAX ->
  Forall (fun i => 0 <= i < packet_count) ids ->
  (send ids statuses p).(pg_packets_sent) = p.(pg_packets_sent) + zlen ids ->
  (send ids statuses p).(pg_out) = p.(pg_out) ++
    (fragment_packet server tile_size tile_id generation input_sequence compressed payload target <$> ids).
Proof.
  revert statuses p. induction ids as [|i ids IH]; intros statuses p Hid Hp Hb Hr Hall.
  { subst send. cbn. by rewrite app_nil_r. }
  apply list.Forall_cons in Hr as [Hi Hr]. pose proof (zlen_nonneg ids). rewrite zlen_cons in *.
  assert (i * target < zlen payload) as Hoff.
  { pose proof (proj1 (cdiv_spec (zlen payload) target packet_count ltac:(lia)) (eq_sym Hcount)). nia. }
  assert (u32 (i * target) = i * target) as E1 by (apply u32_small; wd_bounds; nia).
  assert (u16 (if u32 (zlen payload - i * target) >? target then target else u32 (zlen payload - i * target)) =
    Z.min target (zlen payload - i * target)) as E2.
  { rewrite u32_small by (wd_bounds; nia). rewrite u16_small; case_if; bool_cases; mlia. }
  assert (tile_packet_header p.(pg_server) tile_size tile_id generation input_sequence (zlen payload) packet_count i
    (Z.min target (zlen payload - i * target)) compressed =
    fragment_header server tile_size tile_id generation input_sequence compressed payload target i) as E3.
  { destruct Hid as (H1 & H2 & H3). unfold fragment_header, tile_packet_header. rewrite H1, H2, H3, Hcount. done. }
  subst send. cbn [send_packets] in *. rewrite Hcode, E1, E2, E3 in *.
  destruct (wd_udp_tile_packet_encode_header _ _) as [hdr|] eqn:Ee; [| cbn [pg_packets_sent set_field] in Hall; lia].
  destruct (default WD_ASYNC_UDP_SEND_FAILED _); [cbn [pg_packets_sent set_field] in Hall; lia | | cbn [pg_packets_sent set_field] in Hall; lia].
  set (p' := mk_send_progress _ _ _ _ _ _) in *.
  assert (pg_packets_sent p' = pg_packets_sent p + 1) as Es.
  { subst p'. cbn [pg_packets_sent]. apply u16_small. mlia. }
  assert (same_identity server p'.(pg_server)) as Hid' by (exact Hid).
  rewrite IH; rewrite ?Es; try done; try lia.
  subst p'. cbn [pg_out fmap list_fmap]. rewrite <- app_assoc. f_equal. cbn [app]. f_equal.
  unfold fragment_packet. cbv zeta. rewrite Ee. done.
Qed.

End sender.

Lemma code_dims w h size : wd_tile_size_code_for_dimensions w h = Some size ->
  wd_tile_dimensions_for_size_code size = Some (w, h).
Proof.
  unfold wd_tile_size_code_for_dimensions. intros H. repeat case_if_in H; bool_cases; try done; injection H as <-; subst; done.
Qed.

(** What a send that reports every packet sent has put on the wire. *)
Lemma send_tile_packets server tile_id w h generation input_sequence inject payload compressed statuses now end_ns
    size :
  let out := wd_stream_send_tile_payload_sized_locked server tile_id w h generation input_sequence inject
    (Some payload) (zlen payload) compressed statuses now end_ns true in
  let target := server.(sv_udp_payload_target) in
  wd_tile_size_code_for_dimensions w h = Some size ->
  tile_ready server size tile_id generation input_sequence target payload ->
  out.(so_ok) = true -> out.(so_result).(sr_all_packets_sent) = true ->
  out.(so_packets) = fragment_packet server size tile_id generation input_sequence compressed payload target <$>
    zseq (packets_of payload target).
Proof.
  intros out target Hcode R Hok Hsent. subst out.
  pose proof (target_pos _ _ _ _ _ _ _ R) as Ht. pose proof (rt_payload _ _ _ _ _ _ _ R) as Hp.
  destruct (count_bounds _ _ _ _ _ _ _ R) as [_ Hc].
  unfold wd_stream_send_tile_payload_sized_locked in *. cbn [negb] in *.
  case_if; [done |]. case_if; [done |]. case_if; [done |].
  destruct (wd_stream_collect_wire_tile_base_ids _ _ _ _ _) as [covered|]; [| done].
  assert (wd_tile_normalize_udp_payload_target server.(sv_udp_payload_target) WD_UDP_PAYLOAD_TARGET
    WD_UDP_TILE_PAYLOAD_MAX = target) as Hn.
  { pose proof (rt_target _ _ _ _ _ _ _ R) as Hr. fold target. unfold wd_tile_normalize_udp_payload_target.
    revert Hr. change WD_UDP_TILE_PAYLOAD_MAX with 65463. intros Hr.
    rewrite (proj2 (Z.ltb_ge target _)) by lia. rewrite Z.gtb_ltb, (proj2 (Z.ltb_ge 65463 target)) by lia. done. }
  rewrite Hn in *. rewrite packet_count_spec in * by mlia.
  fold (packets_of payload target) in *. rewrite (proj2 (Z.leb_le _ UINT16_MAX)) in * by mlia.
  destruct ((packets_of payload target =? 0) || _ || _) eqn:Eb; [done |].
  destruct (if negb (input_sequence =? 0) then _ else _) as [server1 delivery] eqn:Es.
  assert (same_identity server server1) as Hid by (destruct (negb (input_sequence =? 0)); injection Es as <- _; done).
  set (p := send_packets _ _ _ _ _ _ _ _ _ _ _ _ _ _) in *.
  destruct (wd_stream_seal_udp_tile_delivery _ _ _ _ _) as [server2 pending].
  destruct p.(pg_fatal); [done |]. cbn [so_packets so_result sr_all_packets_sent set_field] in *.
  bool_cases. subst p.
  rewrite (send_packets_all tile_id w h generation input_sequence payload compressed target
    (packets_of payload target) now size Hcode ltac:(mlia) ltac:(mlia) eq_refl server); try done.
  - cbn [pg_packets_sent]. rewrite zlen_zseq by lia. mlia.
  - apply List.Forall_forall. intros i Hi%elem_of_zseq. done.
  - cbn [pg_packets_sent]. rewrite zlen_zseq by lia. lia.
Qed.

(** The tile [server] sends. *)
Definition sent_by (server : wd_server) (size tile_id generation input_sequence : Z) (compressed : bool)
    (payload : list Z) : sent_tile :=
  mk_sent_tile size tile_id generation server.(sv_content_epoch) input_sequence compressed payload.

(** The packets of a send arrive within the reassembly timeout of the first,
    in any order and any number of times; with [last] all have arrived. *)
Record completes (packets : list (list Z)) (t0 : Z) (before : list arrival) (last : arrival) : Prop := {
  co_known : Forall (fun a => (a.(ar_index) < length packets)%nat) (before ++ [last]);
  co_time : Forall (fun a => t0 <= a.(ar_now) <= t0 + WD_LINK_TILE_REASSEMBLY_MIN_NS) (before ++ [last]);
  co_first : forall a, head (before ++ [last]) = Some a -> a.(ar_now) = t0;
  co_missing : last.(ar_index) ∉ ar_index <$> before;
  co_all : forall k, (k < length packets)%nat -> k ∈ ar_index <$> (before ++ [last]);
}.

(** C7: a tile the server reports as sent reaches the client:
    whatever the order of its datagrams and however often each is duplicated,
    the reassembler yields no tile while one is missing and with the last one
    exactly one tile, the one that was sent: its place, generation, epoch and
    input sequence, and the pixels its payload stands for. *)
Theorem tile_transport ZSTD_compressBound ZSTD_decompress server tile_id w h generation input_sequence inject
    payload compressed statuses now end_ns size bytes s tr t0 before last :
  let target := server.(sv_udp_payload_target) in
  let out := wd_stream_send_tile_payload_sized_locked server tile_id w h generation input_sequence inject
    (Some payload) (zlen payload) compressed statuses now end_ns true in
  let tile := sent_by server size tile_id generation input_sequence compressed payload in
  wd_tile_size_code_for_dimensions w h = Some size ->
  tile_ready server size tile_id generation input_sequence target payload ->
  out.(so_ok) = true -> out.(so_result).(sr_all_packets_sent) = true ->
  tile_size_ok compressed payload ZSTD_compressBound w h ->
  tile_bytes_of ZSTD_decompress tile (w * h * WD_BYTES_PER_PIXEL) = Some bytes ->
  client_ready server size tile_id generation input_sequence target compressed payload w h s tr ->
  no_entry size tile_id tr ->
  completes out.(so_packets) t0 before last ->
  (exists s' tr', deliver ZSTD_compressBound ZSTD_decompress out.(so_packets) s tr before = Some ([], s', tr')) /\
  exists c s' tr',
    deliver ZSTD_compressBound ZSTD_decompress out.(so_packets) s tr (before ++ [last]) = Some ([c], s', tr') /\
    delivers ZSTD_decompress tile c /\ c.(ct_tile_bytes).(vec_data) = bytes.
Proof.
  intros target out tile Hcode R Hok Hsent Hz Hb C Hno [K1 K2 K3 K4 K5].
  pose proof (code_dims _ _ _ Hcode) as Hdims.
  pose proof (send_tile_packets server tile_id w h generation input_sequence inject payload compressed statuses now
    end_ns size Hcode R Hok Hsent) as Hpk. fold out target in Hpk.
  destruct (count_bounds _ _ _ _ _ _ _ R) as [_ Hc].
  assert (Z.of_nat (length out.(so_packets)) = packets_of payload target) as Hlen.
  { rewrite Hpk, length_fmap. fold (zlen (zseq (packets_of payload target))). apply zlen_zseq. lia. }
  destruct (deliver_filling server size tile_id generation input_sequence target compressed payload R
    ZSTD_compressBound ZSTD_decompress w h Hdims bytes Hb out.(so_packets) before last s tr [] t0)
    as [Hpre (c & s' & tr' & Hd & _ & Hc')]; try done.
  - intros i Hi. rewrite Hpk, list_lookup_fmap, zseq_lookup by done. done.
  - intros _. exact K3.
  - apply list.Forall_forall. intros a Ha. rewrite list.Forall_forall in K1, K2.
    specialize (K1 a Ha). specialize (K2 a Ha). unfold in_time. lia.
  - rewrite app_nil_r. intros (a & Ha & Hin)%list_elem_of_fmap. apply K4. apply list_elem_of_fmap.
    exists a. split; [| done]. unfold index_of in Ha. lia.
  - intros k Hk. rewrite app_nil_r. specialize (K5 (Z.to_nat k) ltac:(lia)).
    apply list_elem_of_fmap in K5 as (a & Ha & Hin). apply list_elem_of_fmap. exists a. split; [| done].
    unfold index_of. lia.
  - split; [done |]. exists c, s', tr'. split_and!; [done | done |].
    destruct Hc' as (_ & _ & _ & _ & Hd' & _ & Hb'). cbn [sn_tile_size] in Hd'. rewrite Hdims in Hd'.
    injection Hd' as Ew Eh. rewrite <- Ew, <- Eh in Hb'. change (mk_sent_tile _ _ _ _ _ _ _) with tile in Hb'.
    rewrite Hb in Hb'. by injection Hb' as <-.
Qed.

(** *** A concrete run *)

Definition demo_server : wd_server :=
  mk_wd_server (mk_tile_geometry 64 32 16 16 4 2 8) 1 true 5 false 1 1 7 3 99 600 0 0 0 0 false 0 [] [] [] 0 []
    None 0 0 [] 0 [] [] [] [] [] 0 1 0 false false 0 zero_policy
    zero_tile_stats.

Definition demo_reassembler : TileReassembler :=
  default (new_TileReassembler 4 8192)
    (fst <$> configure_entry_slots (fun n => n) (new_TileReassembler 4 8192) sample_config).

Definition demo_before : list arrival := [mk_arrival 1 1000 0 0; mk_arrival 1 1200 0 0].
Definition demo_last : arrival := mk_arrival 0 1400 0 1500.

Lemma demo_reassembler_ok : reasm_ok demo_reassembler.
Proof.
  destruct (configure_ok (fun n => n) (new_TileReassembler 4 8192) sample_config) as (tr & ok & E & R & _).
  { apply new_shape. mlia. }
  unfold demo_reassembler. by rewrite E.
Qed.

Lemma tile_transport_witness :
  let payload := raw_tile.(sn_payload) in
  let out := wd_stream_send_tile_payload_sized_locked demo_server 5 16 16 12 41 0 (Some payload) 1024 false
    [WD_ASYNC_UDP_SEND_QUEUED; WD_ASYNC_UDP_SEND_QUEUED] 500 600 true in
  exists c s' tr', deliver (fun n => n) no_zstd out.(so_packets) sample_state demo_reassembler
    (demo_before ++ [demo_last]) = Some ([c], s', tr') /\ c.(ct_tile_bytes).(vec_data) = payload.
Proof.
  intros payload out.
  destruct (tile_transport (fun n => n) no_zstd demo_server 5 16 16 12 41 0 payload false
    [WD_ASYNC_UDP_SEND_QUEUED; WD_ASYNC_UDP_SEND_QUEUED] 500 600 WD_TILE_16x16 payload sample_state
    demo_reassembler 1000 demo_before demo_last) as [_ (c & s' & tr' & H & _ & Hb)].
  - reflexivity.
  - split; try (vm_compute; split; congruence); try reflexivity.
    eapply bool_decide_unpack; vm_compute; exact I.
  - vm_compute. reflexivity.
  - vm_compute. reflexivity.
  - vm_compute. reflexivity.
  - vm_compute. reflexivity.
  - split; try (vm_compute; split_and!; congruence); [apply demo_reassembler_ok | | vm_compute; reflexivity].
    split; try reflexivity. vm_compute. split_and!; congruence.
  - intros e He. exfalso. vm_compute in He. by apply elem_of_nil in He.
  - split.
    + repeat constructor; vm_compute; lia.
    + repeat constructor; vm_compute; congruence.
    + intros a [= <-]. reflexivity.
    + vm_compute. intros He. apply list.elem_of_cons in He as [|He]; [done |].
      apply list.elem_of_cons in He as [|He]; [done |]. by apply elem_of_nil in He.
    + intros k Hk. assert (k = 0 \/ k = 1)%nat as [-> | ->]; [| vm_compute ..].
      { vm_compute in Hk. lia. }
      { right. right. left. } { left. }
  - exists c, s', tr'. exact (conj H Hb).
Defined.
