(* ===== verification/WireGrid.v ===== *)
(** * Wire tiles over base tiles

    The server's display geometry ([wd_server_set_tile_size] and
    [wd_server_compute_geometry] of src/server/wd_server.c) and how tiles of
    the four wire sizes lie over its base tiles: each wire tile of a size is a
    block of base tiles, and the blocks partition the grid. *)
From S2P Require Import Prelude Config UdpTile TileGrid TileServer.

#[local] Arguments aget : simpl never.

(** ** The display geometry *)

Definition wd_server_set_tile_size (tile_width tile_height : Z) : option (Z * Z) :=
  if (tile_width =? 0) || (tile_height =? 0) then None
  else
    match wd_tile_size_code_for_dimensions tile_width tile_height with
    | None => None
    | Some _ =>
        let tile_bytes := u32 (u32 (tile_width * tile_height) * WD_BYTES_PER_PIXEL) in
        if (tile_bytes =? 0) || (tile_bytes >? WD_TCP_MAX_PAYLOAD_SIZE) then None
        else Some (tile_width, tile_height)
    end.

(** The snapshot applied to the server, with the server's tile size. *)
Definition wd_server_compute_geometry (tile_width tile_height width height : Z) : option tile_geometry :=
  if (width =? 0) || (height =? 0) || (width >? WD_MAX_RENDER_WIDTH) || (height >? WD_MAX_RENDER_HEIGHT) ||
     (tile_width =? 0) || (tile_height =? 0) then None
  else
    let tiles_x := wd_tiles_for_width_with_tile width tile_width in
    let tiles_y := wd_tiles_for_height_with_tile height tile_height in
    let total_tiles := u32 (tiles_x * tiles_y) in
    let base_tiles_x := wd_tiles_for_width_with_tile width WD_BASE_TILE_WIDTH in
    let base_tiles_y := wd_tiles_for_height_with_tile height WD_BASE_TILE_HEIGHT in
    let total_base_tiles := u32 (base_tiles_x * base_tiles_y) in
    let framebuffer_pixels := u64 (width * height) in
    let framebuffer_bytes := u64 (framebuffer_pixels * WD_BYTES_PER_PIXEL) in
    if (tiles_x =? 0) || (tiles_y =? 0) || (total_tiles =? 0) || (total_tiles >? UINT16_MAX) ||
       (base_tiles_x =? 0) || (base_tiles_y =? 0) || (total_base_tiles =? 0) ||
       (total_base_tiles >? UINT16_MAX) || (framebuffer_pixels >? UINT32_MAX) ||
       (framebuffer_bytes >? UINT32_MAX)
    then None
    else Some (mk_tile_geometry width height tile_width tile_height tiles_x tiles_y (u16 total_tiles)).

(** A grid of base tiles that covers the display. *)
Record grid_ok (g : tile_geometry) : Prop := {
  go_tile : g.(tg_tile_width) = WD_BASE_TILE_WIDTH /\ g.(tg_tile_height) = WD_BASE_TILE_HEIGHT;
  go_width : 0 < g.(tg_display_width) <= WD_MAX_RENDER_WIDTH;
  go_height : 0 < g.(tg_display_height) <= WD_MAX_RENDER_HEIGHT;
  go_x : g.(tg_tiles_x) = cdiv g.(tg_display_width) 16;
  go_y : g.(tg_tiles_y) = cdiv g.(tg_display_height) 16;
  go_total : g.(tg_total_tiles) = g.(tg_tiles_x) * g.(tg_tiles_y) /\ g.(tg_total_tiles) <= UINT16_MAX;
}.

Lemma compute_geometry_ok width height g : u32_ok width -> u32_ok height ->
  wd_server_compute_geometry WD_TILE_WIDTH WD_TILE_HEIGHT width height = Some g -> grid_ok g.
Proof.
  intros Hw Hh. unfold wd_server_compute_geometry. case_if; [done |]. bool_cases.
  unfold WD_MAX_RENDER_WIDTH, WD_MAX_RENDER_HEIGHT in *.
  rewrite tiles_for_height_same. change WD_TILE_WIDTH with 16. change WD_TILE_HEIGHT with 16.
  change WD_BASE_TILE_WIDTH with 16. change WD_BASE_TILE_HEIGHT with 16.
  set (tx := wd_tiles_for_width_with_tile width 16). set (ty := wd_tiles_for_width_with_tile height 16).
  destruct (_ || _) eqn:E; [done |]. bool_cases.
  destruct (tiles_for_width_spec width 16 tx) as (_ & _ & Hx & Hxb); [done | done | done | lia |].
  destruct (tiles_for_width_spec height 16 ty) as (_ & _ & Hy & Hyb); [done | done | done | lia |].
  intros [= <-]. rewrite (u32_small (tx * ty)) in * by (wd_bounds; nia).
  split; cbn [tg_tile_width tg_tile_height tg_display_width tg_display_height tg_tiles_x tg_tiles_y tg_total_tiles];
    unfold WD_MAX_RENDER_WIDTH, WD_MAX_RENDER_HEIGHT; try done; try mlia.
  rewrite u16_small by (wd_bounds; nia). split; lia.
Qed.

(** The sizes a tile has on the wire, as multiples of the base tile. *)
Definition wire_size (w h : Z) : Prop :=
  (w, h) ∈ [(WD_TILE_SIZE_LARGE_WIDTH, WD_TILE_SIZE_LARGE_HEIGHT);
            (WD_TILE_SIZE_MEDIUM_WIDTH, WD_TILE_SIZE_MEDIUM_HEIGHT);
            (WD_TILE_SIZE_SMALL_WIDTH, WD_TILE_SIZE_SMALL_HEIGHT);
            (WD_TILE_SIZE_BASE_WIDTH, WD_TILE_SIZE_BASE_HEIGHT)].

Lemma wire_size_factors w h : wire_size w h -> exists kx ky, w = 16 * kx /\ h = 16 * ky /\
  0 < kx <= 8 /\ 0 < ky <= 4.
Proof.
  unfold wire_size. rewrite !list.elem_of_cons.
  intros [[= -> ->]|[[= -> ->]|[[= -> ->]|[[= -> ->]|Hn]]]]; [| | | | by apply elem_of_nil in Hn].
  - by exists 8, 4. - by exists 4, 4. - by exists 2, 2. - by exists 1, 1.
Qed.

(** The last base tile, along one axis, of block [i] of [k] base tiles. *)
Lemma last_base D n k i : 0 < k -> 16 * (n - 1) < D <= 16 * n ->
  (i * (16 * k) + Z.min (16 * k) (D - i * (16 * k)) - 1) / 16 = Z.min (k * (i + 1)) n - 1.
Proof.
  intros Hk HD. symmetry.
  apply (Z.div_unique _ _ _ ((i * (16 * k) + Z.min (16 * k) (D - i * (16 * k)) - 1) mod 16)).
  - left. apply Z.mod_pos_bound. lia.
  - destruct (Z.min_spec (16 * k) (D - i * (16 * k))) as [[Hlt ->]|[Hge ->]].
    + rewrite Z.min_l by nia. replace (i * (16 * k) + 16 * k - 1) with (15 + (k * (i + 1) - 1) * 16) by ring.
      rewrite Z.mod_add by lia. change (15 mod 16) with 15. ring.
    + rewrite Z.min_r by nia.
      replace (i * (16 * k) + (D - i * (16 * k)) - 1) with ((D - 1 - 16 * (n - 1)) + (n - 1) * 16) by ring.
      rewrite Z.mod_add, Z.mod_small by lia. ring.
Qed.

Lemma in_block k i n x : 0 < k -> 0 <= x < n ->
  k * i <= x < Z.min (k * (i + 1)) n <-> x / k = i.
Proof.
  intros Hk Hx. split.
  - intros [Hl Hu]. symmetry. apply (Z.div_unique x k i (x - k * i)); lia.
  - intros <-. pose proof (Z.mul_div_le x k Hk). pose proof (Z.mul_succ_div_gt x k Hk). lia.
Qed.

Section grid.
Context (g : tile_geometry) (G : grid_ok g).

Let W := g.(tg_display_width).
Let H := g.(tg_display_height).
Let tx := g.(tg_tiles_x).
Let ty := g.(tg_tiles_y).

Lemma grid_bounds : 0 < W <= 4096 /\ 0 < H <= 2160 /\ 0 < tx <= 256 /\ 0 < ty <= 135 /\
  16 * (tx - 1) < W <= 16 * tx /\ 16 * (ty - 1) < H <= 16 * ty /\ g.(tg_total_tiles) = tx * ty.
Proof.
  destruct G as [_ Hw Hh Hx Hy [Ht _]]. unfold WD_MAX_RENDER_WIDTH, WD_MAX_RENDER_HEIGHT in *. fold W in Hw, Hx.
  fold H in Hh, Hy. fold tx in Hx, Ht. fold ty in Hy, Ht.
  pose proof (proj1 (cdiv_spec W 16 tx ltac:(lia)) (eq_sym Hx)).
  pose proof (proj1 (cdiv_spec H 16 ty ltac:(lia)) (eq_sym Hy)). lia.
Qed.

(** The base tile in column [bx] and row [by'], and back. *)
Definition base_at (bx by' : Z) : Z := by' * tx + bx.

Lemma base_at_coords bx by' : 0 <= bx < tx ->
  base_at bx by' mod tx = bx /\ base_at bx by' / tx = by'.
Proof.
  intros Hb. unfold base_at. split.
  - rewrite Z.add_comm, Z.mod_add by lia. by apply Z.mod_small.
  - rewrite Z.div_add_l by lia. rewrite Z.div_small by lia. lia.
Qed.

Lemma base_coords t : 0 <= t < g.(tg_total_tiles) ->
  0 <= t mod tx < tx /\ 0 <= t / tx < ty /\ t = base_at (t mod tx) (t / tx).
Proof.
  pose proof grid_bounds as B. intros Ht. pose proof (Z.mod_pos_bound t tx ltac:(lia)).
  pose proof (Z.div_mod t tx ltac:(lia)). unfold base_at.
  assert (0 <= t / tx < ty); [| lia]. split; [apply Z.div_pos; lia |].
  apply Z.div_lt_upper_bound; lia.
Qed.

Context (w h : Z) (HS : wire_size w h).

Let wx := wd_tiles_for_width_with_tile W w.
Let wy := wd_tiles_for_height_with_tile H h.

(** The wire tile that covers base tile [t]. *)
Definition wire_of (t : Z) : Z := (t / tx) / (h / 16) * wx + (t mod tx) / (w / 16).

Lemma wire_grid : exists kx ky, w = 16 * kx /\ h = 16 * ky /\ 0 < kx <= 8 /\ 0 < ky <= 4 /\
  kx * (wx - 1) < tx <= kx * wx /\ ky * (wy - 1) < ty <= ky * wy /\
  16 * kx * (wx - 1) < W <= 16 * kx * wx /\ 16 * ky * (wy - 1) < H <= 16 * ky * wy /\
  0 < wx <= 256 /\ 0 < wy <= 135.
Proof.
  destruct (wire_size_factors w h HS) as (kx & ky & Ew & Eh & Hkx & Hky). exists kx, ky.
  pose proof grid_bounds as B.
  assert (forall D k n, 0 < k <= 8 -> 0 < D <= 4096 -> n = wd_tiles_for_width_with_tile D (16 * k) ->
    16 * k * (n - 1) < D <= 16 * k * n /\ 0 < n <= 256) as Hn.
  { intros D k n Hk HD En. unfold wd_tiles_for_width_with_tile in En.
    rewrite (u64_small (D + 16 * k)), u64_small in En by mlia. fold (cdiv D (16 * k)) in En.
    pose proof (proj1 (cdiv_spec D (16 * k) _ ltac:(lia)) eq_refl) as Hq.
    pose proof (cdiv_pos D (16 * k) ltac:(lia) ltac:(lia)) as Hp.
    assert (cdiv D (16 * k) <= 256) by nia.
    rewrite (proj2 (Z.eqb_neq D 0)), (proj2 (Z.eqb_neq (16 * k) 0)),
      (proj2 (Z.eqb_neq (cdiv D (16 * k)) 0)) in En by lia.
    rewrite Z.gtb_ltb, (proj2 (Z.ltb_ge UINT16_MAX _)) in En by mlia. cbn [orb] in En.
    rewrite u16_small in En by mlia. subst n. lia. }
  destruct (Hn W kx wx Hkx) as [Hx1 Hx2]; [lia | by subst w |].
  destruct (Hn H ky wy) as [Hy1 Hy2]; [lia | lia | unfold wy; rewrite tiles_for_height_same; by subst h |].
  assert (0 < wy <= 135) by nia. split_and!; try lia; nia.
Qed.

Lemma wire_layout id : 0 <= id < wx * wy -> layout W H wx (wx * wy) id w h.
Proof.
  intros Hid. destruct wire_grid as (kx & ky & Ew & Eh & Hkx & Hky & _ & _ & Hx & Hy & Hwx & Hwy).
  pose proof grid_bounds as B.
  assert (cdiv W w = wx) as E1 by (apply cdiv_spec; nia).
  assert (cdiv H h = wy) as E2 by (apply cdiv_spec; nia).
  assert (wx * wy <= 256 * 135) by (apply Z.mul_le_mono_nonneg; lia).
  assert (kx * ky <= 8 * 4) by (apply Z.mul_le_mono_nonneg; lia).
  assert (W * H <= 4096 * 2160) by (apply Z.mul_le_mono_nonneg; lia).
  split; rewrite ?E1, ?E2.
  - mlia.
  - mlia.
  - mlia.
  - done.
  - subst w h. mlia.
  - change (SIZE_MAX / 4) with 4611686018427387903. lia.
Qed.

(** ** The base tiles of a wire tile *)

(** Columns and rows of base tiles under wire tile [id]. *)
Lemma wire_columns id kx : w = 16 * kx -> 0 < kx -> 0 <= id < wx * wy ->
  let i := id mod wx in
  let x := wd_tile_start_x_for_tile id wx w in
  let vw := wd_tile_visible_width_for_tile W id wx w in
  0 <= i < wx /\ 0 < vw /\ x / 16 = kx * i /\
  u32 (u32 (x + vw) - 1) / 16 = Z.min (kx * (i + 1)) tx - 1.
Proof.
  intros Ew Hk Hid i x vw. pose proof (wire_layout id Hid) as L. pose proof grid_bounds as B.
  destruct (tile_column _ _ _ _ _ _ _ L) as [Hi Hx]. fold i in Hi.
  subst x vw. rewrite (visible_width_eq _ _ _ _ _ _ _ L), (start_x_eq _ _ _ _ _ _ _ L).
  unfold tile_vw, tile_left in *. fold i in Hx |- *. split; [done |]. split; [lia |]. split.
  - rewrite Ew. replace (i * (16 * kx)) with (kx * i * 16) by ring. apply Z.div_mul. lia.
  - rewrite (u32_small (i * w + _)), u32_small by mlia.
    subst w. apply last_base; lia.
Qed.

Lemma wire_rows id ky : h = 16 * ky -> 0 < ky -> 0 <= id < wx * wy ->
  let j := id / wx in
  let y := wd_tile_start_y_for_tile id wx h in
  let vh := wd_tile_visible_height_for_tile H id wx h in
  0 <= j < wy /\ 0 < vh /\ y / 16 = ky * j /\
  u32 (u32 (y + vh) - 1) / 16 = Z.min (ky * (j + 1)) ty - 1.
Proof.
  intros Eh Hk Hid j y vh. pose proof (wire_layout id Hid) as L. pose proof grid_bounds as B.
  destruct wire_grid as (_ & _ & _ & _ & _ & _ & _ & _ & _ & _ & Hwx & _).
  destruct (tile_row _ _ _ _ _ _ _ L) as [_ Hy]. fold j in Hy.
  assert (0 <= j < wy) as Hj by (unfold j; split; [apply Z.div_pos; lia | apply Z.div_lt_upper_bound; lia]).
  subst y vh. rewrite (visible_height_eq _ _ _ _ _ _ _ L), (start_y_eq _ _ _ _ _ _ _ L).
  unfold tile_vh, tile_top in *. fold j in Hy |- *. split; [done |]. split; [lia |]. split.
  - rewrite Eh. replace (j * (16 * ky)) with (ky * j * 16) by ring. apply Z.div_mul. lia.
  - rewrite (u32_small (j * h + _)), u32_small by mlia.
    subst h. apply last_base; lia.
Qed.

(** The ids the loops write, row by row. *)
Lemma block_ids bx0 by0 nx ny : 0 <= bx0 -> 0 <= by0 -> bx0 + nx <= tx -> by0 + ny <= ty -> 0 <= nx -> 0 <= ny ->
  let ids := by' ← (fun k => by0 + k) <$> zseq ny; (fun k => u32 (u32 (by' * tx) + (bx0 + k))) <$> zseq nx in
  NoDup ids /\ zlen ids = nx * ny /\
  (forall t, t ∈ ids <-> 0 <= t < g.(tg_total_tiles) /\ bx0 <= t mod tx < bx0 + nx /\ by0 <= t / tx < by0 + ny).
Proof.
  intros H1 H2 H3 H4 H5 H6 ids. pose proof grid_bounds as B.
  assert (ids = (by' ← (fun k => by0 + k) <$> zseq ny; (fun k => base_at (bx0 + k) by') <$> zseq nx)) as ->.
  { subst ids. apply Forall_bind_ext, list.Forall_forall. intros by' (k' & -> & Hk')%list_elem_of_fmap.
    apply list_fmap_ext. intros i k Hk%list_elem_of_lookup_2. apply list_elem_of_In, elem_of_zseq in Hk, Hk'.
    unfold base_at. rewrite (u32_small ((by0 + k') * tx)), u32_small; wd_bounds; nia. }
  assert (forall t, t ∈ (by' ← (fun k => by0 + k) <$> zseq ny; (fun k => base_at (bx0 + k) by') <$> zseq nx) <->
    exists bx by', bx0 <= bx < bx0 + nx /\ by0 <= by' < by0 + ny /\ t = base_at bx by') as Hmem.
  { intros t. rewrite list_elem_of_bind. setoid_rewrite list_elem_of_fmap. split.
    - intros (by' & (k & -> & Hk) & (k' & -> & Hk')). apply list_elem_of_In, elem_of_zseq in Hk, Hk'.
      exists (bx0 + k), (by0 + k'). split_and!; lia.
    - intros (bx & by' & Hbx & Hby & ->). exists by'. split.
      + exists (bx - bx0). split; [f_equal; lia |]. apply list_elem_of_In, elem_of_zseq. lia.
      + exists (by' - by0). split; [lia |]. apply list_elem_of_In, elem_of_zseq. lia. }
  split_and!.
  - apply NoDup_bind.
    + intros y1 y2 t Hy1 Hy2. rewrite !list_elem_of_fmap. intros (k1 & -> & Hk1) (k2 & E & Hk2).
      apply list_elem_of_In, elem_of_zseq in Hk1, Hk2.
      destruct (base_at_coords (bx0 + k1) y1 ltac:(lia)) as [_ <-]. rewrite E.
      by destruct (base_at_coords (bx0 + k2) y2 ltac:(lia)) as [_ ->].
    + intros y _. apply NoDup_fmap_2_strong; [| apply NoDup_zseq]. intros a b _ _ E. unfold base_at in E. lia.
    + apply NoDup_fmap_2_strong; [| apply NoDup_zseq]. intros; lia.
  - rewrite (zlen_bind_const _ _ nx) by (intros; by rewrite zlen_fmap, zlen_zseq).
    rewrite zlen_fmap, zlen_zseq by lia. lia.
  - intros t. rewrite Hmem. split.
    + intros (bx & by' & Hbx & Hby & ->). destruct (base_at_coords bx by' ltac:(lia)) as [-> ->].
      split; [| lia]. unfold base_at. nia.
    + intros (Ht & Hx & Hy). destruct (base_coords t Ht) as (Cx & Cy & Et). by exists (t mod tx), (t / tx).
Qed.

(** [id]'s column and row of wire tiles, and the base tiles in it. *)
Lemma wire_of_coords id t : 0 <= id < wx * wy -> 0 <= t < g.(tg_total_tiles) ->
  wire_of t = id <-> (t mod tx) / (w / 16) = id mod wx /\ (t / tx) / (h / 16) = id / wx.
Proof.
  intros Hid Ht. destruct wire_grid as (kx & ky & Ew & Eh & Hkx & Hky & Htx & Hty & _ & _ & Hwx & Hwy).
  destruct (base_coords t Ht) as (Cx & Cy & _). unfold wire_of.
  assert (w / 16 = kx) as -> by (rewrite Ew, Z.mul_comm; apply Z.div_mul; lia).
  assert (h / 16 = ky) as -> by (rewrite Eh, Z.mul_comm; apply Z.div_mul; lia).
  assert (0 <= (t mod tx) / kx < wx) as Hc by (split; [apply Z.div_pos; lia | apply Z.div_lt_upper_bound; lia]).
  set (c := (t mod tx) / kx) in *. set (r := (t / tx) / ky). split.
  - intros <-. split.
    + rewrite Z.add_comm, Z.mod_add, Z.mod_small; lia.
    + rewrite Z.div_add_l, (Z.div_small c) by lia. lia.
  - intros [-> ->]. rewrite (Z.div_mod id wx) at 3 by lia. lia.
Qed.

(** [wd_stream_collect_wire_tile_base_ids] gives every base tile under the wire
    tile, once. *)
Lemma collect_spec id : 0 <= id < wx * wy -> exists ids,
  wd_stream_collect_wire_tile_base_ids g id w h WD_WIRE_TILE_MAX_BASE_TILES = Some ids /\
  NoDup ids /\ ids <> [] /\ zlen ids <= WD_WIRE_TILE_MAX_BASE_TILES /\
  (forall t, t ∈ ids <-> 0 <= t < g.(tg_total_tiles) /\ wire_of t = id).
Proof.
  intros Hid. destruct wire_grid as (kx & ky & Ew & Eh & Hkx & Hky & Htx & Hty & _ & _ & Hwx & Hwy).
  pose proof grid_bounds as B. destruct (go_tile _ G) as [Tw Th].
  destruct (wire_columns id kx Ew ltac:(lia) Hid) as (Hi & Hvw & Ex0 & Ex1).
  destruct (wire_rows id ky Eh ltac:(lia) Hid) as (Hj & Hvh & Ey0 & Ey1).
  set (i := id mod wx) in *. set (j := id / wx) in *.
  set (nx := Z.min (kx * (i + 1)) tx - kx * i). set (ny := Z.min (ky * (j + 1)) ty - ky * j).
  assert (0 <= kx * i <= kx * (wx - 1)) as Hki by (split; [| apply Z.mul_le_mono_nonneg_l]; lia).
  assert (0 <= ky * j <= ky * (wy - 1)) as Hkj by (split; [| apply Z.mul_le_mono_nonneg_l]; lia).
  assert (0 < nx <= kx) as Hnx by (unfold nx; lia). assert (0 < ny <= ky) as Hny by (unfold ny; lia).
  destruct (block_ids (kx * i) (ky * j) nx ny) as (Hnd & Hlen & Hmem);
    [lia | lia | unfold nx; lia | unfold ny; lia | lia | lia |].
  set (ids := mbind _ _) in Hnd, Hlen, Hmem. exists ids.
  assert (zlen ids <= WD_WIRE_TILE_MAX_BASE_TILES) as Hmax.
  { rewrite Hlen. change WD_WIRE_TILE_MAX_BASE_TILES with (8 * 4). apply Z.mul_le_mono_nonneg; lia. }
  assert (ids <> []) as Hne by (intros E; rewrite E in Hlen; change (zlen []) with 0 in Hlen; assert (0 < nx * ny) by (apply Z.mul_pos_pos; lia); lia).
  split_and!; try done.
  - unfold wd_stream_collect_wire_tile_base_ids. rewrite Tw, Th. fold W H tx ty wx.
    change WD_BASE_TILE_WIDTH with 16. change WD_BASE_TILE_HEIGHT with 16.
    rewrite Ex0, Ex1, Ey0, Ey1.
    rewrite (proj2 (Z.eqb_neq w 0)), (proj2 (Z.eqb_neq h 0)), (proj2 (Z.eqb_neq wx 0)),
      (proj2 (Z.eqb_neq (wd_tile_visible_width_for_tile W id wx w) 0)),
      (proj2 (Z.eqb_neq (wd_tile_visible_height_for_tile H id wx h) 0)) by lia.
    cbn [orb Z.eqb]. rewrite !Z.geb_leb, (proj2 (Z.leb_gt tx _)), (proj2 (Z.leb_gt ty _)) by lia.
    replace (Z.min (kx * (i + 1)) tx - 1 - kx * i + 1) with nx by (unfold nx; lia).
    replace (Z.min (ky * (j + 1)) ty - 1 - ky * j + 1) with ny by (unfold ny; lia). fold ids.
    rewrite Z.gtb_ltb, (proj2 (Z.ltb_ge WD_WIRE_TILE_MAX_BASE_TILES _)) by done.
    destruct (existsb _ ids) eqn:Ee.
    { exfalso. apply existsb_exists in Ee as (t & Hin & Ht). apply list_elem_of_In, Hmem in Hin.
      bool_cases. lia. }
    destruct ids; done.
  - intros t. rewrite Hmem. split.
    + intros (Ht & Hx & Hy). split; [done |]. destruct (base_coords t Ht) as (Cx & Cy & _).
      apply wire_of_coords; [done | done |]. subst w h. rewrite !(Z.mul_comm 16), !Z.div_mul by lia.
      split; [apply (in_block kx i tx); [lia | lia |] | apply (in_block ky j ty); [lia | lia |]]; unfold nx, ny in *; lia.
    + intros (Ht & Hw). split; [done |]. destruct (base_coords t Ht) as (Cx & Cy & _).
      apply wire_of_coords in Hw as [Hx Hy]; [| done | done].
      rewrite Ew, (Z.mul_comm 16), Z.div_mul in Hx by lia. rewrite Eh, (Z.mul_comm 16), Z.div_mul in Hy by lia.
      apply (in_block kx (id mod wx) tx) in Hx; [| lia | lia]. apply (in_block ky (id / wx) ty) in Hy; [| lia | lia].
      unfold nx, ny, i, j. lia.
Qed.

(** ** The wire tile at a pixel *)

Lemma wire_tile_for_pixel x y : 0 <= x < W -> 0 <= y < H ->
  wd_stream_wire_tile_for_pixel g x y w h = Some (y / h * wx + x / w) /\
  0 <= x / w < wx /\ 0 <= y / h < wy.
Proof.
  intros Hx Hy. destruct wire_grid as (kx & ky & Ew & Eh & Hkx & Hky & _ & _ & HW & HH & Hwx & Hwy).
  assert (0 <= x / w < wx) as Hc by (split; [apply Z.div_pos; lia | apply Z.div_lt_upper_bound; [lia |]; subst w; lia]).
  assert (0 <= y / h < wy) as Hr by (split; [apply Z.div_pos; lia | apply Z.div_lt_upper_bound; [lia |]; subst h; lia]).
  split; [| done]. unfold wd_stream_wire_tile_for_pixel. fold W H wx wy.
  assert (0 <= y / h * wx <= 134 * 256) as Hm by (split; [lia | apply Z.mul_le_mono_nonneg; lia]).
  rewrite (u32_small (y / h * wx)), u32_small by mlia.
  rewrite (proj2 (Z.eqb_neq w 0)), (proj2 (Z.eqb_neq h 0)), (proj2 (Z.eqb_neq wx 0)), (proj2 (Z.eqb_neq wy 0)) by lia.
  rewrite !Z.geb_leb, !(proj2 (Z.leb_gt _ _)) by lia. cbn [orb].
  by rewrite Z.gtb_ltb, (proj2 (Z.ltb_ge _ _)) by mlia.
Qed.

Lemma wire_of_range t : 0 <= t < g.(tg_total_tiles) -> 0 <= wire_of t < wx * wy.
Proof.
  intros Ht. destruct wire_grid as (kx & ky & Ew & Eh & Hkx & Hky & Htx & Hty & _ & _ & Hwx & Hwy).
  destruct (base_coords t Ht) as (Cx & Cy & _). unfold wire_of.
  rewrite Ew, Eh, !(Z.mul_comm 16), !Z.div_mul by lia.
  assert (0 <= (t mod tx) / kx < wx) as Hc by (split; [apply Z.div_pos; lia | apply Z.div_lt_upper_bound; lia]).
  assert (0 <= (t / tx) / ky < wy) as Hr by (split; [apply Z.div_pos; lia | apply Z.div_lt_upper_bound; lia]).
  nia.
Qed.

(** The pixel at a base tile's corner is in the wire tile that covers it. *)
Lemma wire_tile_of_base t : 0 <= t < g.(tg_total_tiles) ->
  wd_stream_wire_tile_for_pixel g (t mod tx * 16) (t / tx * 16) w h = Some (wire_of t).
Proof.
  intros Ht. destruct wire_grid as (kx & ky & Ew & Eh & Hkx & Hky & _).
  destruct (base_coords t Ht) as (Cx & Cy & _). pose proof grid_bounds as B.
  destruct (wire_tile_for_pixel (t mod tx * 16) (t / tx * 16)) as [-> _]; [lia | lia |].
  unfold wire_of. do 2 f_equal.
  - f_equal. rewrite Eh at 1. rewrite (Z.mul_comm 16), Z.div_mul_cancel_r by lia.
    by rewrite Eh, (Z.mul_comm 16), Z.div_mul by lia.
  - rewrite Ew at 1. rewrite (Z.mul_comm 16), Z.div_mul_cancel_r by lia.
    by rewrite Ew, (Z.mul_comm 16), Z.div_mul by lia.
Qed.

End grid.

(** The region of the dirty-region scheduler a base tile belongs to. *)
Lemma top_region_spec g t : grid_ok g -> 0 <= t < g.(tg_total_tiles) ->
  wd_stream_top_region_for_base_tile g t = Some (wire_of g WD_WIRE_TILE_MAX_WIDTH WD_WIRE_TILE_MAX_HEIGHT t).
Proof.
  intros G Ht. pose proof (grid_bounds g G) as B. destruct (base_coords g G t Ht) as (Cx & Cy & _).
  destruct (go_tile _ G) as [Tw Th]. unfold wd_stream_top_region_for_base_tile.
  rewrite Z.geb_leb, (proj2 (Z.leb_gt _ t)), (proj2 (Z.eqb_neq _ 0)) by lia. cbn [orb].
  rewrite Tw, Th. change WD_BASE_TILE_WIDTH with 16. change WD_BASE_TILE_HEIGHT with 16.
  rewrite !u32_small by mlia. apply wire_tile_of_base; [done | by left | done].
Qed.

(** ** Tiles within tiles *)

Lemma NoDup_omap {A B} (f : A -> option B) l :
  (forall x y c, x ∈ l -> y ∈ l -> f x = Some c -> f y = Some c -> x = y) -> NoDup l -> NoDup (omap f l).
Proof.
  intros Hf Hnd. induction Hnd as [|x l Hx Hnd IH]; [constructor |].
  assert (NoDup (omap f l)) as Hl by (apply IH; intros; eapply Hf; [by right | by right | done | done]).
  change (omap f (x :: l)) with (match f x with Some y => y :: omap f l | None => omap f l end).
  destruct (f x) as [y|] eqn:E; [| done]. constructor; [| done].
  intros (z & Hz & Ez)%list_elem_of_omap. apply Hx.
  rewrite (Hf x z y); [done | by left | by right | done | done].
Qed.

Section children.
Context (g : tile_geometry) (G : grid_ok g) (w h w2 h2 a b : Z)
  (HS : wire_size w h) (HS2 : wire_size w2 h2) (Hw : w = a * w2) (Hh : h = b * h2)
  (Ha : 0 < a) (Hb : 0 < b).

Let W := g.(tg_display_width).
Let H := g.(tg_display_height).
Let wx := wd_tiles_for_width_with_tile W w.
Let wy := wd_tiles_for_height_with_tile H h.
Let wx2 := wd_tiles_for_width_with_tile W w2.
Let wy2 := wd_tiles_for_height_with_tile H h2.

(** The pixel at the corner of child [(i, j)] of wire tile [id]. *)
Lemma child_at id i j : 0 <= id < wx * wy -> 0 <= i -> 0 <= j ->
  let x := (id mod wx) * w + i * w2 in
  let y := (id / wx) * h + j * h2 in
  (if (x <? W) && (y <? H) then wd_stream_wire_tile_for_pixel g x y w2 h2 else None) =
  if (a * (id mod wx) + i <? wx2) && (b * (id / wx) + j <? wy2)
  then Some ((b * (id / wx) + j) * wx2 + (a * (id mod wx) + i)) else None.
Proof.
  intros Hid Hi Hj x y. destruct (wire_grid g G w h HS) as (_ & _ & _ & _ & _ & _ & _ & _ & _ & _ & Hwx & _).
  destruct (wire_grid g G w2 h2 HS2) as (k2 & l2 & E2 & F2 & Hk2 & Hl2 & _ & _ & HW & HH & Hwx2 & Hwy2).
  fold W H wx2 wy2 wx in HW, HH, Hwx2, Hwy2, Hwx |- *.
  pose proof (Z.mod_pos_bound id wx ltac:(lia)) as Hc. assert (0 <= id / wx) as Hr by (apply Z.div_pos; lia).
  set (c := id mod wx) in *. set (r := id / wx) in *.
  assert (x = (a * c + i) * w2) as Ex by (unfold x; rewrite Hw; ring).
  assert (y = (b * r + j) * h2) as Ey by (unfold y; rewrite Hh; ring).
  assert (forall n k m, 0 < k <= 8 -> forall D, 16 * k * (m - 1) < D <= 16 * k * m -> 0 <= n ->
    (n * (16 * k) <? D) = (n <? m)) as Hlt.
  { intros n k m Hk D HD Hn. apply Bool.eq_true_iff_eq. rewrite !Z.ltb_lt. nia. }
  assert (0 <= a * c + i) by nia. assert (0 <= b * r + j) by nia.
  rewrite Ex, Ey, E2, F2. rewrite (Hlt (a * c + i) k2 wx2), (Hlt (b * r + j) l2 wy2) by (try done; lia).
  destruct (a * c + i <? wx2) eqn:E1, (b * r + j <? wy2) eqn:E3; try done. bool_cases. cbn [andb].
  rewrite <- E2, <- F2.
  destruct (wire_tile_for_pixel g G w2 h2 HS2 ((a * c + i) * w2) ((b * r + j) * h2)) as [-> _].
  - fold W. subst w2. nia.
  - fold H. subst h2. nia.
  - fold W wx2. by rewrite !Z.div_mul by lia.
Qed.

(** Base tile [t] is under the wire tile and in its child [(i, j)]. *)
Lemma child_of id t : 0 <= id < wx * wy -> 0 <= t < g.(tg_total_tiles) ->
  wire_of g w h t = id <-> exists i j, 0 <= i < a /\ 0 <= j < b /\
    wire_of g w2 h2 t = (b * (id / wx) + j) * wx2 + (a * (id mod wx) + i) /\
    a * (id mod wx) + i < wx2 /\ b * (id / wx) + j < wy2.
Proof.
  intros Hid Ht. destruct (base_coords g G t Ht) as (Cx & Cy & _). pose proof (grid_bounds g G) as B.
  rewrite (wire_of_coords g G w h HS id t Hid Ht). fold W wx.
  destruct (wire_grid g G w2 h2 HS2) as (k2 & l2 & E2 & F2 & Hk2 & Hl2 & Htx & Hty & _ & _ & Hwx2 & Hwy2).
  fold W H wx2 wy2 in Htx, Hty, Hwx2, Hwy2.
  pose proof (wire_of_range g G w2 h2 HS2 t Ht) as Hr2. fold W H wx2 wy2 in Hr2.
  destruct (wire_grid g G w h HS) as (_ & _ & _ & _ & _ & _ & _ & _ & _ & _ & Hwx & _).
  fold W wx in Hwx. pose proof (Z.mod_pos_bound id wx ltac:(lia)) as Hc.
  assert (0 <= id / wx) as Hr by (apply Z.div_pos; lia).
  assert (w / 16 = a * k2) as -> by (rewrite Hw, E2; replace (a * (16 * k2)) with (a * k2 * 16) by ring; apply Z.div_mul; lia).
  assert (h / 16 = b * l2) as -> by (rewrite Hh, F2; replace (b * (16 * l2)) with (b * l2 * 16) by ring; apply Z.div_mul; lia).
  rewrite !(Z.mul_comm _ k2), !(Z.mul_comm _ l2), <- !Z.div_div by lia.
  set (c := id mod wx) in *. set (r := id / wx) in *.
  set (p := (t mod tg_tiles_x g) / k2). set (q := (t / tg_tiles_x g) / l2).
  assert (0 <= p < wx2) as Hp by (split; [apply Z.div_pos; lia | apply Z.div_lt_upper_bound; lia]).
  assert (0 <= q < wy2) as Hq by (split; [apply Z.div_pos; lia | apply Z.div_lt_upper_bound; lia]).
  assert (wire_of g w2 h2 t = q * wx2 + p) as Ewt.
  { unfold wire_of. fold W wx2. by rewrite E2, F2, !(Z.mul_comm 16), !Z.div_mul by lia. }
  rewrite Ewt. split.
  - intros [Ec Er]. exists (p - a * c), (q - b * r). subst c r. rewrite <- Ec, <- Er.
    pose proof (Z.mul_div_le p a Ha). pose proof (Z.mul_succ_div_gt p a Ha).
    pose proof (Z.mul_div_le q b Hb). pose proof (Z.mul_succ_div_gt q b Hb).
    split_and!; try lia.
  - intros (i & j & Hi & Hj & E & Hlx & Hly).
    assert (q = b * r + j /\ p = a * c + i) as [-> ->].
    { apply (f_equal (fun n => (n / wx2, n mod wx2))) in E.
      rewrite !Z.div_add_l, (Z.div_small p), (Z.div_small (a * c + i)), !(Z.add_comm _ p), !(Z.add_comm _ (a * c + i)),
        !Z.mod_add, !Z.mod_small in E by nia. injection E as E1 E3'. lia. }
    split.
    + rewrite (Z.mul_comm a), Z.div_add_l, (Z.div_small i) by lia. lia.
    + rewrite (Z.mul_comm b), Z.div_add_l, (Z.div_small j) by lia. lia.
Qed.

(** The children at the offsets [offs], those outside the display left out. *)
Definition kid (id : Z) (off : Z * Z) : option Z :=
  let '(i, j) := off in
  if (a * (id mod wx) + i <? wx2) && (b * (id / wx) + j <? wy2)
  then Some ((b * (id / wx) + j) * wx2 + (a * (id mod wx) + i)) else None.

Lemma kid_inv id i j c : 0 <= id < wx * wy -> 0 <= i -> 0 <= j -> kid id (i, j) = Some c ->
  c mod wx2 = a * (id mod wx) + i /\ c / wx2 = b * (id / wx) + j /\ 0 <= c < wx2 * wy2.
Proof.
  intros Hid Hi Hj. unfold kid. case_if; [| done]. bool_cases. intros [= <-].
  destruct (wire_grid g G w h HS) as (_ & _ & _ & _ & _ & _ & _ & _ & _ & _ & Hwx & _). fold W wx in Hwx.
  destruct (wire_grid g G w2 h2 HS2) as (_ & _ & _ & _ & _ & _ & _ & _ & _ & _ & Hwx2 & Hwy2).
  fold W H wx2 wy2 in Hwx2, Hwy2.
  pose proof (Z.mod_pos_bound id wx ltac:(lia)) as Hc. assert (0 <= id / wx) as Hr by (apply Z.div_pos; lia).
  assert (0 <= a * (id mod wx) + i) by nia. assert (0 <= b * (id / wx) + j) by nia.
  rewrite Z.div_add_l, (Z.div_small (a * _ + i)) by lia.
  rewrite Z.add_comm, Z.mod_add, Z.mod_small by lia. split_and!; try lia; nia.
Qed.

Lemma kids_spec id offs : 0 <= id < wx * wy -> NoDup offs ->
  (forall i j, (i, j) ∈ offs <-> 0 <= i < a /\ 0 <= j < b) ->
  NoDup (omap (kid id) offs) /\ (forall c, c ∈ omap (kid id) offs -> 0 <= c < wx2 * wy2) /\
  (forall t, 0 <= t < g.(tg_total_tiles) -> wire_of g w h t = id <-> wire_of g w2 h2 t ∈ omap (kid id) offs).
Proof.
  intros Hid Hnd Hoffs. split_and!.
  - apply NoDup_omap; [| done]. intros [i j] [i' j'] c Hin Hin' E E'.
    apply Hoffs in Hin, Hin'. apply kid_inv in E as (E1 & E2 & _); [| lia ..].
    apply kid_inv in E' as (E1' & E2' & _); [| lia ..]. f_equal; lia.
  - intros c ([i j] & Hin & E)%list_elem_of_omap. apply Hoffs in Hin.
    by apply kid_inv in E as (_ & _ & E3); [| lia ..].
  - intros t Ht. rewrite (child_of id t Hid Ht), list_elem_of_omap. split.
    + intros (i & j & Hi & Hj & E & Hx & Hy). exists (i, j). split; [by apply Hoffs |].
      unfold kid. rewrite E, (proj2 (Z.ltb_lt _ _) Hx), (proj2 (Z.ltb_lt _ _) Hy). done.
    + intros ([i j] & Hin & E). apply Hoffs in Hin as [Hi Hj]. exists i, j. revert E. unfold kid.
      case_if; [| done]. bool_cases. intros [= <-]. done.
Qed.

End children.
