(* ===== verification/TileEncode.v ===== *)
(** * Encoding dirty regions

    The tile encoder of src/server/wd_stream.c (the functions of an encode job,
    from [wd_stream_candidate_allowed_for_job] to
    [wd_stream_parallel_encode_one_job]) with its selection snapshot
    (src/server/wd_tile_work_snapshot.c) and the compressor of
    src/common/wd_zstd.c.  A job is encoded by one worker thread; both are
    passed along.  [ZSTD_compressCCtx src capacity] is the library's result,
    [None] for an error code; [alloc_ok n] tells whether the buffer of the
    [n]-th result is allocated.  Times spent are not modelled. *)
From S2P Require Import Prelude CFloat Config Structs UdpTile TileGrid TilePolicy StreamPolicy DirtyScheduler TileServer TileSend WireGrid.

(** ** The selection snapshot *)

Record wd_tile_work_snapshot_entry := mk_wd_tile_work_snapshot_entry {
  se_base_tile_id : Z;
  se_dirty_epoch : Z;
  se_selected : bool;
}.

(** The first [count] entries of the array. *)
Definition wd_tile_work_snapshot := list wd_tile_work_snapshot_entry.

Definition wd_tile_work_snapshot_reset : wd_tile_work_snapshot := [].

Fixpoint snapshot_update (snapshot : wd_tile_work_snapshot) (base_tile_id : Z) (selected : bool)
    (dirty_epoch : Z) : option wd_tile_work_snapshot :=
  match snapshot with
  | [] => None
  | entry :: rest =>
      if entry.(se_base_tile_id) =? base_tile_id
      then Some (mk_wd_tile_work_snapshot_entry base_tile_id dirty_epoch selected :: rest)
      else rest ← snapshot_update rest base_tile_id selected dirty_epoch; Some (entry :: rest)
  end.

Definition wd_tile_work_snapshot_add (snapshot : wd_tile_work_snapshot) (base_tile_id : Z) (selected : bool)
    (dirty_epoch : Z) : option wd_tile_work_snapshot :=
  if zlen snapshot >=? WD_WIRE_TILE_MAX_BASE_TILES then None
  else
    match snapshot_update snapshot base_tile_id selected dirty_epoch with
    | Some snapshot => Some snapshot
    | None => Some (snapshot ++ [mk_wd_tile_work_snapshot_entry base_tile_id dirty_epoch selected])
    end.

Fixpoint wd_tile_work_snapshot_lookup (snapshot : wd_tile_work_snapshot) (base_tile_id : Z)
    : option (bool * Z) :=
  match snapshot with
  | [] => None
  | entry :: rest =>
      if entry.(se_base_tile_id) =? base_tile_id
      then Some (entry.(se_selected), entry.(se_dirty_epoch))
      else wd_tile_work_snapshot_lookup rest base_tile_id
  end.

Definition wd_tile_work_snapshot_any_selected (snapshot : wd_tile_work_snapshot) (base_tile_ids : list Z)
    : bool :=
  existsb (fun id => match wd_tile_work_snapshot_lookup snapshot id with
                     | Some (selected, _) => selected
                     | None => false
                     end) base_tile_ids.

(** ** Jobs, candidates and results *)

Record wd_wire_tile_candidate := mk_wd_wire_tile_candidate {
  ca_width : Z;
  ca_height : Z;
  ca_tile_id : Z;
  ca_covered_base_ids : list Z;
  ca_uncompressed_size : Z;
  ca_compressed_size : Z;
  ca_wire_size : Z;
  ca_compressed_payload : bool;
}.

Definition zero_candidate : wd_wire_tile_candidate := mk_wd_wire_tile_candidate 0 0 0 [] 0 0 0 false.

(** A valid result; the fields of an invalid one that are read are
    [top_region_id] and [budget_blocked]. *)
Record wd_parallel_encode_result := mk_wd_parallel_encode_result {
  rs_top_region_id : Z;
  rs_candidate : wd_wire_tile_candidate;
  rs_covered_dirty_epochs : list Z;
  rs_payload : list Z;
  rs_framebuffer_generation : Z;
}.

Record job_stats := mk_job_stats {
  jt_compression_attempts : Z;
  jt_compression_wins : Z;
  jt_compression_entropy_skips : Z;
  jt_compression_adaptive_skips : Z;
  jt_compression_nonwins : Z;
  jt_compression_forced_choices : Z;
  jt_compression_saved_wire_bytes : Z;
  jt_candidate_prediction_evaluations : Z;
  jt_candidate_prediction_skips : Z;
  jt_candidate_prediction_probes : Z;
}.
#[export] Instance job_stats_eta : Eta job_stats := fun s =>
  mk_job_stats s.(jt_compression_attempts) s.(jt_compression_wins) s.(jt_compression_entropy_skips)
    s.(jt_compression_adaptive_skips) s.(jt_compression_nonwins) s.(jt_compression_forced_choices)
    s.(jt_compression_saved_wire_bytes) s.(jt_candidate_prediction_evaluations)
    s.(jt_candidate_prediction_skips) s.(jt_candidate_prediction_probes).

Record wd_parallel_encode_job := mk_wd_parallel_encode_job {
  jb_framebuffer_xrgb8888 : ptr (list Z);
  jb_geometry : tile_geometry;
  jb_top_region_id : Z;
  jb_input_sequence : Z;
  jb_remaining_byte_budget : Z;
  jb_framebuffer_generation : Z;
  jb_udp_payload_target : Z;
  jb_compression_benchmark_mode : Z;
  jb_network_happy : bool;
  jb_work_snapshot : wd_tile_work_snapshot;
  jb_stats : job_stats;
  jb_result : list wd_parallel_encode_result;
  jb_result_capacity : Z;
  jb_budget_blocked : bool;
}.
#[export] Instance wd_parallel_encode_job_eta : Eta wd_parallel_encode_job := fun s =>
  mk_wd_parallel_encode_job s.(jb_framebuffer_xrgb8888) s.(jb_geometry) s.(jb_top_region_id)
    s.(jb_input_sequence) s.(jb_remaining_byte_budget) s.(jb_framebuffer_generation)
    s.(jb_udp_payload_target) s.(jb_compression_benchmark_mode) s.(jb_network_happy)
    s.(jb_work_snapshot) s.(jb_stats) s.(jb_result) s.(jb_result_capacity) s.(jb_budget_blocked).

Definition jcount (counter : job_stats -> Z) `{!FieldSetter counter} (n : Z) (job : wd_parallel_encode_job)
    : wd_parallel_encode_job :=
  job <| jb_stats := job.(jb_stats) <| counter := u64 (counter job.(jb_stats) + n) |> |>.

(** A worker's buffers and what it has learnt about each tile size. *)
Record wd_encoder_worker_state := mk_wd_encoder_worker_state {
  wk_tile_bytes : list Z;
  wk_compressed_capacity : Z;
  wk_compressor : bool;
  wk_compression_advisors : list wd_tile_compression_advisor;
  wk_payload_predictors : list wd_tile_payload_predictor;
}.
#[export] Instance wd_encoder_worker_state_eta : Eta wd_encoder_worker_state := fun s =>
  mk_wd_encoder_worker_state s.(wk_tile_bytes) s.(wk_compressed_capacity) s.(wk_compressor)
    s.(wk_compression_advisors) s.(wk_payload_predictors).

Definition wd_stream_compression_advisor_index (tile_width tile_height : Z) : Z :=
  if (tile_width =? WD_TILE_SIZE_LARGE_WIDTH) && (tile_height =? WD_TILE_SIZE_LARGE_HEIGHT) then 0
  else if (tile_width =? WD_TILE_SIZE_MEDIUM_WIDTH) && (tile_height =? WD_TILE_SIZE_MEDIUM_HEIGHT) then 1
  else if (tile_width =? WD_TILE_SIZE_SMALL_WIDTH) && (tile_height =? WD_TILE_SIZE_SMALL_HEIGHT) then 2
  else 3.

Definition wd_stream_candidate_allowed_for_job (job : wd_parallel_encode_job)
    (candidate : wd_wire_tile_candidate) : bool :=
  let g := job.(jb_geometry) in
  if (candidate.(ca_wire_size) =? 0) || (candidate.(ca_wire_size) >? job.(jb_remaining_byte_budget))
  then false
  else
    let one_packet_budget := u32 (job.(jb_udp_payload_target) + WD_UDP_TILE_HEADER_MAX_SIZE) in
    let is_max_tile := (candidate.(ca_width) =? WD_WIRE_TILE_MAX_WIDTH) &&
                       (candidate.(ca_height) =? WD_WIRE_TILE_MAX_HEIGHT) in
    if (candidate.(ca_width) =? g.(tg_tile_width)) && (candidate.(ca_height) =? g.(tg_tile_height)) then true
    else if negb (job.(jb_input_sequence) =? 0) then candidate.(ca_wire_size) <=? one_packet_budget
    else if is_max_tile && job.(jb_network_happy) then true
    else candidate.(ca_wire_size) <=? one_packet_budget.

Definition wd_stream_candidate_allowed_for_region_locked (server : wd_server)
    (candidate : wd_wire_tile_candidate) (remaining_byte_budget : Z) (network_happy prefer_one_packet : bool)
    : bool :=
  let g := server.(sv_geometry) in
  if (candidate.(ca_wire_size) =? 0) || (candidate.(ca_wire_size) >? remaining_byte_budget) then false
  else
    let one_packet_budget := u32 (server.(sv_udp_payload_target) + WD_UDP_TILE_HEADER_MAX_SIZE) in
    let is_max_tile := (candidate.(ca_width) =? WD_WIRE_TILE_MAX_WIDTH) &&
                       (candidate.(ca_height) =? WD_WIRE_TILE_MAX_HEIGHT) in
    if (candidate.(ca_width) =? g.(tg_tile_width)) && (candidate.(ca_height) =? g.(tg_tile_height)) then true
    else if prefer_one_packet then candidate.(ca_wire_size) <=? one_packet_budget
    else if is_max_tile && network_happy then true
    else candidate.(ca_wire_size) <=? one_packet_budget.

(** The copies of the server's functions that read the job's geometry. *)
Definition wd_stream_job_collect_wire_tile_base_ids (job : wd_parallel_encode_job)
    (tile_id tile_width tile_height max_count : Z) : option (list Z) :=
  wd_stream_collect_wire_tile_base_ids job.(jb_geometry) tile_id tile_width tile_height max_count.

Definition wd_stream_job_wire_tile_for_pixel (job : wd_parallel_encode_job) (x y tile_width tile_height : Z)
    : option Z :=
  wd_stream_wire_tile_for_pixel job.(jb_geometry) x y tile_width tile_height.

Definition wd_stream_snapshot_region_has_dirty (job : wd_parallel_encode_job)
    (wire_tile_id tile_width tile_height max_count : Z) : bool :=
  match wd_stream_job_collect_wire_tile_base_ids job wire_tile_id tile_width tile_height max_count with
  | None => false
  | Some ids => wd_tile_work_snapshot_any_selected job.(jb_work_snapshot) ids
  end.

Section encode.
Context (ZSTD_compressCCtx : list Z -> Z -> option (list Z)) (alloc_ok : Z -> bool).

(** ** One candidate tile *)

Definition wd_zstd_compress_with_context (compressor : bool) (src : list Z) (dst_capacity : Z)
    : option (list Z) :=
  if negb compressor || (zlen src =? 0) || (dst_capacity =? 0) then None
  else
    match ZSTD_compressCCtx src dst_capacity with
    | None => None
    | Some result => if zlen result >? UINT32_MAX then None else Some result
    end.

(** The compression of the tile in [tile_bytes]: the job, the advisor and the
    compressed bytes when they are to be sent; [compressed_size] is left by the
    last attempt. *)
Definition compress_candidate (job : wd_parallel_encode_job) (worker : wd_encoder_worker_state)
    (tile_bytes : list Z) (uncompressed_size tile_width tile_height : Z)
    : wd_parallel_encode_job * wd_encoder_worker_state * Z * option (list Z) :=
  let benchmark_mode := job.(jb_compression_benchmark_mode) in
  let auto := benchmark_mode =? WD_TILE_COMPRESSION_BENCH_AUTO in
  let entropy_ok := wd_tile_xrgb_payload_may_compress (Some tile_bytes) uncompressed_size in
  let index := wd_stream_compression_advisor_index tile_width tile_height in
  let advisor := aget (mk_wd_tile_compression_advisor 0 0) worker.(wk_compression_advisors) index in
  let store (a : ptr wd_tile_compression_advisor) worker :=
    worker <| wk_compression_advisors := aset worker.(wk_compression_advisors) index (default advisor a) |> in
  let '(advisor_ok, advisor') :=
    if auto && entropy_ok then wd_tile_compression_advisor_should_attempt (Some advisor)
    else (true, Some advisor) in
  let worker := store advisor' worker in
  if auto && negb entropy_ok then (jcount jt_compression_entropy_skips 1 job, worker, 0, None)
  else if auto && negb advisor_ok then (jcount jt_compression_adaptive_skips 1 job, worker, 0, None)
  else if wd_tile_compression_benchmark_should_attempt benchmark_mode entropy_ok advisor_ok then
    let job := jcount jt_compression_attempts 1 job in
    let result := wd_zstd_compress_with_context worker.(wk_compressor) tile_bytes
                    worker.(wk_compressed_capacity) in
    let compressed := match result with Some _ => true | None => false end in
    let compressed_size := match result with Some bytes => zlen bytes | None => 0 end in
    let worthwhile := compressed &&
      wd_stream_use_compressed_tile_payload compressed_size uncompressed_size job.(jb_udp_payload_target)
        job.(jb_input_sequence) in
    let compressed_payload :=
      wd_tile_compression_benchmark_choose_compressed benchmark_mode compressed worthwhile in
    let worker :=
      if auto then store (wd_tile_compression_advisor_record advisor' worthwhile) worker else worker in
    let job :=
      if worthwhile then
        let job := jcount jt_compression_wins 1 job in
        let compressed_wire := wd_stream_tile_wire_bytes_for_payload compressed_size
                                 job.(jb_udp_payload_target) job.(jb_input_sequence) true in
        let uncompressed_wire := wd_stream_tile_wire_bytes_for_payload uncompressed_size
                                   job.(jb_udp_payload_target) job.(jb_input_sequence) false in
        if uncompressed_wire >? compressed_wire
        then jcount jt_compression_saved_wire_bytes (uncompressed_wire - compressed_wire) job else job
      else
        let job := jcount jt_compression_nonwins 1 job in
        if compressed_payload then jcount jt_compression_forced_choices 1 job else job in
    (job, worker, compressed_size, if compressed_payload then result else None)
  else (job, worker, 0, None).

(** What [wd_stream_try_encode_candidate_for_snapshot] leaves: the candidate
    it has filled in, and on success the epochs and the bytes to send. *)
Record candidate_outcome := mk_candidate_outcome {
  co_job : wd_parallel_encode_job;
  co_worker : wd_encoder_worker_state;
  co_candidate : wd_wire_tile_candidate;
  co_encoded : option (list Z * list Z);
}.

Definition wd_stream_try_encode_candidate_for_snapshot (job : wd_parallel_encode_job)
    (worker : wd_encoder_worker_state) (wire_tile_id tile_width tile_height : Z)
    (allow_compression : bool) : candidate_outcome :=
  let g := job.(jb_geometry) in
  let fail := mk_candidate_outcome job worker zero_candidate None in
  match job.(jb_framebuffer_xrgb8888) with
  | NULL => fail
  | Some _ =>
      match wd_stream_job_collect_wire_tile_base_ids job wire_tile_id tile_width tile_height
              WD_WIRE_TILE_MAX_BASE_TILES with
      | None => fail
      | Some covered_ids =>
          let uncompressed_size := u32 (u32 (tile_width * tile_height) * WD_BYTES_PER_PIXEL) in
          let wire_tiles_x := wd_tiles_for_width_with_tile g.(tg_display_width) tile_width in
          let wire_total_tiles := wd_total_tiles_for_size_with_tile g.(tg_display_width)
                                    g.(tg_display_height) tile_width tile_height in
          match wd_extract_tile_xrgb8888_for_tile_sized job.(jb_framebuffer_xrgb8888)
                  g.(tg_display_width) g.(tg_display_height) wire_tiles_x wire_total_tiles wire_tile_id
                  tile_width tile_height (Some worker.(wk_tile_bytes))
                  (u64 (u64 (WD_WIRE_TILE_MAX_WIDTH * WD_WIRE_TILE_MAX_HEIGHT) * WD_BYTES_PER_PIXEL)) with
          | None => fail
          | Some tile_bytes =>
              let worker := worker <| wk_tile_bytes := tile_bytes |> in
              let source := take (Z.to_nat uncompressed_size) tile_bytes in
              let '(job, worker, compressed_size, compressed) :=
                if allow_compression
                then compress_candidate job worker source uncompressed_size tile_width tile_height
                else (job, worker, 0, None) in
              let payload := default source compressed in
              let compressed_payload := match compressed with Some _ => true | None => false end in
              let payload_size := if compressed_payload then compressed_size else uncompressed_size in
              let index := wd_stream_compression_advisor_index tile_width tile_height in
              let worker :=
                if job.(jb_compression_benchmark_mode) =? WD_TILE_COMPRESSION_BENCH_AUTO then
                  let predictor := aget (mk_wd_tile_payload_predictor 0 0 0) worker.(wk_payload_predictors) index in
                  worker <| wk_payload_predictors := aset worker.(wk_payload_predictors) index
                    (default predictor
                       (wd_tile_payload_predictor_record (Some predictor) payload_size uncompressed_size)) |>
                else worker in
              let candidate := mk_wd_wire_tile_candidate tile_width tile_height wire_tile_id covered_ids
                uncompressed_size compressed_size
                (wd_stream_tile_wire_bytes_for_payload payload_size job.(jb_udp_payload_target)
                   job.(jb_input_sequence) compressed_payload) compressed_payload in
              mk_candidate_outcome job worker candidate
                (match mapM (fun id => snd <$> wd_tile_work_snapshot_lookup job.(jb_work_snapshot) id) covered_ids with
                 | None => None
                 | Some epochs => Some (epochs, payload)
                 end)
          end
      end
  end.

Definition wd_stream_append_snapshot_result (job : wd_parallel_encode_job)
    (candidate : wd_wire_tile_candidate) (covered_epochs payload : list Z)
    : wd_parallel_encode_job * bool :=
  if zlen job.(jb_result) >=? job.(jb_result_capacity) then (job, false)
  else if negb (alloc_ok (zlen job.(jb_result))) then (job, false)
  else (job <| jb_result := job.(jb_result) ++
                 [mk_wd_parallel_encode_result job.(jb_top_region_id) candidate covered_epochs payload
                    job.(jb_framebuffer_generation)] |>, true).

Definition wd_stream_prediction_allows_candidate (job : wd_parallel_encode_job)
    (worker : wd_encoder_worker_state) (tile_width tile_height : Z) (is_base_tile : bool)
    : wd_parallel_encode_job * wd_encoder_worker_state * bool :=
  if is_base_tile || negb (job.(jb_compression_benchmark_mode) =? WD_TILE_COMPRESSION_BENCH_AUTO)
  then (job, worker, true)
  else
    let wire_limit := job.(jb_remaining_byte_budget) in
    let is_max_tile := (tile_width =? WD_WIRE_TILE_MAX_WIDTH) && (tile_height =? WD_WIRE_TILE_MAX_HEIGHT) in
    let wire_limit :=
      if negb (job.(jb_input_sequence) =? 0) || negb is_max_tile || negb job.(jb_network_happy) then
        let one_packet_limit := u64 (job.(jb_udp_payload_target) + WD_UDP_TILE_HEADER_MAX_SIZE) in
        if wire_limit >? one_packet_limit then one_packet_limit else wire_limit
      else wire_limit in
    let wire_limit := if wire_limit >? UINT32_MAX then UINT32_MAX else wire_limit in
    let uncompressed_size := u32 (u32 (tile_width * tile_height) * WD_BYTES_PER_PIXEL) in
    let normalized_payload := wd_tile_normalize_udp_payload_target job.(jb_udp_payload_target)
                                WD_UDP_PAYLOAD_TARGET WD_UDP_TILE_PAYLOAD_MAX in
    let index := wd_stream_compression_advisor_index tile_width tile_height in
    let predictor := aget (mk_wd_tile_payload_predictor 0 0 0) worker.(wk_payload_predictors) index in
    let job := jcount jt_candidate_prediction_evaluations 1 job in
    let '(attempt, probe, predictor') :=
      wd_tile_payload_predictor_should_attempt (Some predictor) uncompressed_size (u32 wire_limit)
        normalized_payload WD_UDP_TILE_HEADER_MIN_SIZE
        (if negb (job.(jb_input_sequence) =? 0) then WD_UDP_TILE_HEADER_MAX_SIZE
         else WD_UDP_TILE_HEADER_MIN_SIZE) in
    let worker := worker <| wk_payload_predictors :=
                    aset worker.(wk_payload_predictors) index (default predictor predictor') |> in
    let job := if probe then jcount jt_candidate_prediction_probes 1 job else job in
    let job := if attempt then job else jcount jt_candidate_prediction_skips 1 job in
    (job, worker, attempt).

(** ** The recursion over tile sizes *)

(** Where the children of a tile that is not sent whole start, and their size. *)
Definition child_tiles (job : wd_parallel_encode_job) (wire_tile_id tile_width tile_height : Z)
    : option (Z * Z * list Z) :=
  let g := job.(jb_geometry) in
  let parent_tiles_x := wd_tiles_for_width_with_tile g.(tg_display_width) tile_width in
  let start_x := wd_tile_start_x_for_tile wire_tile_id parent_tiles_x tile_width in
  let start_y := wd_tile_start_y_for_tile wire_tile_id parent_tiles_x tile_height in
  let at_pixels child_width child_height pixels :=
    (child_width, child_height,
     omap (fun '(x, y) =>
       if (x <? g.(tg_display_width)) && (y <? g.(tg_display_height))
       then wd_stream_job_wire_tile_for_pixel job x y child_width child_height else None) pixels) in
  let quad child_width child_height :=
    at_pixels child_width child_height
      [(start_x, start_y); (u32 (start_x + child_width), start_y);
       (start_x, u32 (start_y + child_height)); (u32 (start_x + child_width), u32 (start_y + child_height))] in
  if (tile_width =? WD_WIRE_TILE_MAX_WIDTH) && (tile_height =? WD_WIRE_TILE_MAX_HEIGHT) then
    Some (at_pixels WD_TILE_SIZE_MEDIUM_WIDTH WD_TILE_SIZE_MEDIUM_HEIGHT
            [(start_x, start_y); (u32 (start_x + WD_TILE_SIZE_MEDIUM_WIDTH), start_y)])
  else if (tile_width =? WD_TILE_SIZE_MEDIUM_WIDTH) && (tile_height =? WD_TILE_SIZE_MEDIUM_HEIGHT) then
    Some (quad WD_TILE_SIZE_SMALL_WIDTH WD_TILE_SIZE_SMALL_HEIGHT)
  else if (tile_width =? WD_TILE_SIZE_SMALL_WIDTH) && (tile_height =? WD_TILE_SIZE_SMALL_HEIGHT) then
    Some (quad g.(tg_tile_width) g.(tg_tile_height))
  else None.

(** The loop over the children, which ends when the results are full. *)
Fixpoint encode_children
    (encode : wd_parallel_encode_job -> wd_encoder_worker_state -> Z -> Z -> Z ->
              wd_parallel_encode_job * wd_encoder_worker_state * bool * bool)
    (child_width child_height : Z) (children : list Z) (job : wd_parallel_encode_job)
    (worker : wd_encoder_worker_state) (any_encoded any_blocked : bool)
    : wd_parallel_encode_job * wd_encoder_worker_state * bool * bool :=
  match children with
  | [] => (job, worker, any_encoded, any_blocked)
  | child :: children =>
      let '(job, worker, encoded, blocked) := encode job worker child child_width child_height in
      let any_encoded := any_encoded || encoded in
      let any_blocked := any_blocked || blocked in
      if zlen job.(jb_result) >=? job.(jb_result_capacity)
      then (job, worker, any_encoded, any_blocked)
      else encode_children encode child_width child_height children job worker any_encoded any_blocked
  end.

(** The job, the worker, whether something was encoded and whether the byte
    budget was too small.  The tile sizes bound the depth: four calls deep. *)
Fixpoint wd_stream_encode_region_recursive_snapshot (fuel : nat) (job : wd_parallel_encode_job)
    (worker : wd_encoder_worker_state) (wire_tile_id tile_width tile_height : Z)
    : wd_parallel_encode_job * wd_encoder_worker_state * bool * bool :=
  match fuel with
  | O => (job, worker, false, false)
  | S fuel =>
      let g := job.(jb_geometry) in
      if zlen job.(jb_result) >=? job.(jb_result_capacity) then (job, worker, false, false)
      else if negb (wd_stream_snapshot_region_has_dirty job wire_tile_id tile_width tile_height
                      WD_WIRE_TILE_MAX_BASE_TILES)
      then (job, worker, false, false)
      else
        let is_base_tile := (tile_width =? g.(tg_tile_width)) && (tile_height =? g.(tg_tile_height)) in
        let '(job, worker, attempt_candidate) :=
          wd_stream_prediction_allows_candidate job worker tile_width tile_height is_base_tile in
        let o :=
          if attempt_candidate
          then wd_stream_try_encode_candidate_for_snapshot job worker wire_tile_id tile_width tile_height true
          else mk_candidate_outcome job worker zero_candidate None in
        let '(job, worker) := (o.(co_job), o.(co_worker)) in
        let split :=
          if is_base_tile then
            (job, worker, false, o.(co_candidate).(ca_wire_size) >? job.(jb_remaining_byte_budget))
          else
            match child_tiles job wire_tile_id tile_width tile_height with
            | None => (job, worker, false, false)
            | Some (child_width, child_height, children) =>
                encode_children (wd_stream_encode_region_recursive_snapshot fuel) child_width child_height
                  children job worker false false
            end in
        match o.(co_encoded) with
        | Some (epochs, payload) =>
            if wd_stream_candidate_allowed_for_job job o.(co_candidate) then
              let '(job, appended) := wd_stream_append_snapshot_result job o.(co_candidate) epochs payload in
              (job, worker, appended, false)
            else split
        | None => split
        end
  end.

Definition encode_depth : nat := 4.

Definition wd_stream_parallel_encode_one_job (job : wd_parallel_encode_job)
    (worker : wd_encoder_worker_state) : wd_parallel_encode_job * wd_encoder_worker_state :=
  let job := job <| jb_result := [] |> <| jb_budget_blocked := false |> in
  let '(job, worker, encoded, blocked) :=
    wd_stream_encode_region_recursive_snapshot encode_depth job worker job.(jb_top_region_id)
      WD_WIRE_TILE_MAX_WIDTH WD_WIRE_TILE_MAX_HEIGHT in
  (if encoded then job else job <| jb_budget_blocked := blocked |>, worker).

End encode.

(** ** The pixels of a tile *)

Lemma copy_rows_app n off row a b :
  (forall y, 0 <= y < n -> 0 <= off y /\ off y + zlen (row y) <= zlen a) ->
  copy_rows n off row (a ++ b) = copy_rows n off row a ++ b.
Proof.
  intros Hin. unfold copy_rows.
  assert (forall y, y ∈ zseq n -> 0 <= off y /\ off y + zlen (row y) <= zlen a) as Hl
    by (intros y Hy; apply Hin, elem_of_zseq, list_elem_of_In, Hy).
  clear Hin. revert a Hl. induction (zseq n) as [|y l IH]; intros a Hl; [done |]. cbn [fold_left].
  destruct (Hl y ltac:(by left)) as [H1 H2].
  assert (write_at (off y) (row y) (a ++ b) = write_at (off y) (row y) a ++ b) as ->.
  { unfold write_at, zlen in *. rewrite take_app_le, drop_app_le by lia. by rewrite <- !app_assoc. }
  apply IH. intros z Hz. rewrite zlen_write_at; [| done | done]. apply Hl. by right.
Qed.

(** Extraction does not depend on what the buffer held before. *)
Lemma extract_prefix W H tx tot id tw th fb out cap :
  layout W H tx tot id tw th -> wd_tile_layout_is_valid W H tx tot id tw th = true -> zlen fb = W * H ->
  tw * th * 4 <= zlen out -> tw * th * 4 <= cap ->
  exists src,
    wd_extract_tile_xrgb8888_for_tile_sized (Some fb) W H tx tot id tw th
      (Some (replicate (Z.to_nat (tw * th * 4)) 0)) (tw * th * 4) = Some src /\ zlen src = tw * th * 4 /\
    wd_extract_tile_xrgb8888_for_tile_sized (Some fb) W H tx tot id tw th (Some out) cap =
      Some (src ++ drop (Z.to_nat (tw * th * 4)) out).
Proof.
  intros L Hv Hfb Hout Hcap. pose proof (visible_bounds W H tx tot id tw th L) as Hb.
  destruct (tile_capacity W H tx tot id tw th L) as [Hc1 Hc2].
  assert (0 <= tw * th * 4) as Hn by (destruct L; nia).
  assert (zlen (replicate (Z.to_nat (tw * th * 4)) 0) = tw * th * 4) as Hr
    by (unfold zlen; rewrite length_replicate; lia).
  destruct (extract_rows W H tx tot id tw th L Hv fb (replicate (Z.to_nat (tw * th * 4)) 0) (tw * th * 4))
    as (src & Es & Hls & _); [done | lia | lia |].
  exists src. split; [done |]. split; [lia |]. revert Es.
  unfold wd_extract_tile_xrgb8888_for_tile_sized. rewrite Hv, Hc1, Hc2.
  rewrite (proj2 (Z.ltb_ge cap _)), Z.ltb_irrefl by lia. cbn [negb orb].
  rewrite (start_x_eq W H tx tot id tw th L), (start_y_eq W H tx tot id tw th L),
    (visible_width_eq W H tx tot id tw th L), (visible_height_eq W H tx tot id tw th L).
  assert (forall m, tw * th * 4 <= zlen m -> write_at 0 (replicate (Z.to_nat (tw * th * 4)) 0) m =
    replicate (Z.to_nat (tw * th * 4)) 0 ++ drop (Z.to_nat (tw * th * 4)) m) as Hw.
  { intros m Hm. unfold write_at. cbn [Z.to_nat take app]. by rewrite length_replicate. }
  rewrite !Hw by lia. intros [= <-]. rewrite (drop_ge (replicate _ _)), app_nil_r by (rewrite length_replicate; lia). f_equal.
  apply copy_rows_app. intros y Hy.
  destruct (tile_byte_offsets W H tx tot id tw th L y Hy) as (-> & Ho & He & ->). split; [done |].
  rewrite Hr. unfold zlen. rewrite length_take. lia.
Qed.

(** The bytes of wire tile [id]: the framebuffer's pixels, zero outside it. *)
Definition tile_source (g : tile_geometry) (fb : list Z) (w h id : Z) : list Z :=
  default [] (wd_extract_tile_xrgb8888_for_tile_sized (Some fb) g.(tg_display_width) g.(tg_display_height)
    (wd_tiles_for_width_with_tile g.(tg_display_width) w)
    (wd_total_tiles_for_size_with_tile g.(tg_display_width) g.(tg_display_height) w h) id w h
    (Some (replicate (Z.to_nat (w * h * 4)) 0)) (w * h * 4)).

Definition wire_tiles (g : tile_geometry) (w h : Z) : Z :=
  wd_tiles_for_width_with_tile g.(tg_display_width) w * wd_tiles_for_height_with_tile g.(tg_display_height) h.

Lemma wire_valid g w h id : grid_ok g -> wire_size w h -> 0 <= id < wire_tiles g w h ->
  let W := g.(tg_display_width) in
  let H := g.(tg_display_height) in
  wd_total_tiles_for_size_with_tile W H w h = wire_tiles g w h /\
  layout W H (wd_tiles_for_width_with_tile W w) (wire_tiles g w h) id w h /\
  wd_tile_layout_is_valid W H (wd_tiles_for_width_with_tile W w) (wire_tiles g w h) id w h = true.
Proof.
  intros G HS Hid W H. unfold wire_tiles in *. fold W H in Hid |- *.
  pose proof (wire_layout g G w h HS id Hid) as L. fold W H in L.
  destruct (wire_grid g G w h HS) as (kx & ky & Ew & Eh & Hkx & Hky & _ & _ & _ & _ & Hwx & Hwy).
  fold W H in Hwx, Hwy. pose proof (grid_bounds g G) as B. fold W H in B.
  set (wx := wd_tiles_for_width_with_tile W w) in *. set (wy := wd_tiles_for_height_with_tile H h) in *.
  assert (0 < wx * wy <= 256 * 135) as Hm by (split; [lia | apply Z.mul_le_mono_nonneg; lia]).
  assert (wd_total_tiles_for_size_with_tile W H w h = wx * wy) as Et.
  { unfold wd_total_tiles_for_size_with_tile. fold wx wy. rewrite u32_small by mlia.
    rewrite (proj2 (Z.eqb_neq wx 0)), (proj2 (Z.eqb_neq wy 0)), (proj2 (Z.eqb_neq (wx * wy) 0)) by lia.
    rewrite Z.gtb_ltb, (proj2 (Z.ltb_ge _ _)) by mlia. cbn [orb]. apply u16_small. mlia. }
  split_and!; [done | done |]. unfold wd_tile_layout_is_valid, wd_tile_id_valid_for. fold wx. rewrite Et, !Z.eqb_refl.
  rewrite (proj2 (Z.ltb_lt id _)), (proj2 (Z.eqb_neq w 0)), (proj2 (Z.eqb_neq h 0)) by lia. cbn [orb negb].
  destruct (tile_capacity _ _ _ _ _ _ _ L) as [-> _]. pose proof (ly_bytes _ _ _ _ _ _ _ L).
  pose proof (ly_pixels _ _ _ _ _ _ _ L). rewrite u64_small by (split; [apply Z.mul_nonneg_nonneg; lia |];
    change (SIZE_MAX / 4) with 4611686018427387903 in *; mlia).
  apply andb_true_iff. rewrite !Z.leb_le. done.
Qed.

Lemma extract_source g fb w h id out cap : grid_ok g -> wire_size w h -> 0 <= id < wire_tiles g w h ->
  zlen fb = g.(tg_display_width) * g.(tg_display_height) -> 32768 <= zlen out -> 32768 <= cap ->
  wd_extract_tile_xrgb8888_for_tile_sized (Some fb) g.(tg_display_width) g.(tg_display_height)
    (wd_tiles_for_width_with_tile g.(tg_display_width) w)
    (wd_total_tiles_for_size_with_tile g.(tg_display_width) g.(tg_display_height) w h) id w h (Some out) cap =
    Some (tile_source g fb w h id ++ drop (Z.to_nat (w * h * 4)) out) /\
  zlen (tile_source g fb w h id) = w * h * 4 /\ 0 < w * h * 4 <= 32768.
Proof.
  intros G HS Hid Hfb Hout Hcap. destruct (wire_size_factors w h HS) as (kx & ky & Ew & Eh & Hkx & Hky).
  assert (0 < w * h * 4 <= 32768) as Hn.
  { assert (0 < kx * ky <= 8 * 4) by (split; [lia | apply Z.mul_le_mono_nonneg; lia]). subst w h. lia. }
  destruct (wire_valid g w h id G HS Hid) as (Et & L & Hv). unfold tile_source. rewrite Et.
  destruct (extract_prefix _ _ _ _ _ _ _ fb out cap L Hv Hfb ltac:(lia) ltac:(lia)) as (src & Es & Hl & Eo).
  rewrite Es. cbn [default]. done.
Qed.

(** ** What encoding a candidate does *)

Section encoding.
Context (ZSTD_compressCCtx : list Z -> Z -> option (list Z)) (alloc_ok : Z -> bool).

(** Only the job's counters change. *)
Definition recounted (job job' : wd_parallel_encode_job) : Prop := exists st, job' = job <| jb_stats := st |>.

#[local] Instance recounted_preorder : PreOrder recounted.
Proof.
  split.
  - intros job. exists job.(jb_stats). by destruct job.
  - intros a b c [s ->] [t ->]. by exists t.
Qed.

Ltac recount := first [reflexivity | eexists; reflexivity].

Lemma prediction_spec job worker w h base j wk ok :
  wd_stream_prediction_allows_candidate job worker w h base = (j, wk, ok) ->
  recounted job j /\ wk.(wk_tile_bytes) = worker.(wk_tile_bytes) /\ (base = true -> ok = true).
Proof.
  unfold wd_stream_prediction_allows_candidate. case_if.
  { intros [= <- <- <-]. split_and!; [recount | done | done]. }
  bool_cases. destruct (wd_tile_payload_predictor_should_attempt _ _ _ _ _ _) as [[attempt probe] p].
  intros [= <- <- <-]. split_and!; [| done | by intros ->].
  destruct attempt, probe; recount.
Qed.

Lemma wire_nonneg n target hs fhs : 0 <= wd_tile_wire_bytes_for_payload n target hs fhs <= UINT32_MAX.
Proof.
  unfold wd_tile_wire_bytes_for_payload. case_if; [mlia |]. case_if; [mlia |]. apply u32_range.
Qed.

Definition wire_bytes (job : wd_parallel_encode_job) (n : Z) (compressed : bool) : Z :=
  wd_stream_tile_wire_bytes_for_payload n job.(jb_udp_payload_target) job.(jb_input_sequence) compressed.

Lemma compress_spec job worker src n w h j wk size c :
  compress_candidate ZSTD_compressCCtx job worker src n w h = (j, wk, size, c) ->
  recounted job j /\ wk.(wk_tile_bytes) = worker.(wk_tile_bytes) /\
  match c with
  | None => True
  | Some p => ZSTD_compressCCtx src worker.(wk_compressed_capacity) = Some p /\ zlen p = size /\
      (job.(jb_compression_benchmark_mode) = WD_TILE_COMPRESSION_BENCH_AUTO ->
       0 < wire_bytes job size true <= wire_bytes job n false)
  end.
Proof.
  unfold compress_candidate.
  match goal with |- (let '(_, _) := ?e in _) = _ -> _ => destruct e as [advisor_ok advisor'] end.
  case_if. { intros [= <- <- <- <-]. split_and!; [recount | done | done]. }
  case_if. { intros [= <- <- <- <-]. split_and!; [recount | done | done]. }
  case_if; [| intros [= <- <- <- <-]; split_and!; [recount | done | done]].
  cbn [wk_compressor wk_compressed_capacity set_field].
  destruct (wd_zstd_compress_with_context _ _ _ _) as [p|] eqn:Ez.
  2:{ cbn [andb]. unfold wd_tile_compression_benchmark_choose_compressed. cbn [negb].
      intros [= <- <- <- <-]. split_and!; [recount | by case_if | done]. }
  unfold wd_zstd_compress_with_context in Ez. case_if_in Ez; [done |].
  destruct (ZSTD_compressCCtx src _) as [q|]; [| done]. case_if_in Ez; [done |]. injection Ez as ->.
  change (jb_udp_payload_target (jcount _ _ job)) with (jb_udp_payload_target job).
  change (jb_input_sequence (jcount _ _ job)) with (jb_input_sequence job). cbn [andb].
  set (worth := wd_stream_use_compressed_tile_payload _ _ _ _). intros [= <- <- <- <-].
  split_and!.
  - destruct worth; case_if; recount.
  - by case_if.
  - unfold wd_tile_compression_benchmark_choose_compressed. cbn [negb].
    match goal with |- match (if ?b then Some p else None) with _ => _ end => destruct b eqn:Ec; [| done] end. split_and!; [done | done |]. intros Hauto.
    rewrite Hauto in Ec. cbn in Ec.
    unfold worth, wd_stream_use_compressed_tile_payload, wd_tile_compression_is_worthwhile in Ec.
    unfold wire_bytes, wd_stream_tile_wire_bytes_for_payload.
    repeat case_if_in Ec; bool_cases; try done;
      match goal with |- 0 < wd_tile_wire_bytes_for_payload ?n ?t ?a ?b <= _ =>
        pose proof (wire_nonneg n t a b) end; lia.
Qed.

(** A job whose snapshot covers its region, on a framebuffer of the display's
    size. *)
Record job_ok (job : wd_parallel_encode_job) (fb : list Z) : Prop := {
  jo_grid : grid_ok job.(jb_geometry);
  jo_framebuffer : job.(jb_framebuffer_xrgb8888) = Some fb /\
    zlen fb = job.(jb_geometry).(tg_display_width) * job.(jb_geometry).(tg_display_height);
  jo_snapshot : forall t, 0 <= t < job.(jb_geometry).(tg_total_tiles) ->
    wire_of job.(jb_geometry) WD_WIRE_TILE_MAX_WIDTH WD_WIRE_TILE_MAX_HEIGHT t = job.(jb_top_region_id) ->
    is_Some (wd_tile_work_snapshot_lookup job.(jb_work_snapshot) t);
  jo_region : 0 <= job.(jb_top_region_id) <
    wire_tiles job.(jb_geometry) WD_WIRE_TILE_MAX_WIDTH WD_WIRE_TILE_MAX_HEIGHT;
  jo_capacity : job.(jb_result_capacity) = WD_STREAM_ENCODER_MAX_RESULTS_PER_JOB;
}.

Definition worker_ok (worker : wd_encoder_worker_state) : Prop :=
  zlen worker.(wk_tile_bytes) = 32768.

(** A wire tile of the job's region. *)
Definition in_region (job : wd_parallel_encode_job) (w h id : Z) : Prop :=
  wire_size w h /\ 0 <= id < wire_tiles job.(jb_geometry) w h /\
  forall t, 0 <= t < job.(jb_geometry).(tg_total_tiles) -> wire_of job.(jb_geometry) w h t = id ->
    wire_of job.(jb_geometry) WD_WIRE_TILE_MAX_WIDTH WD_WIRE_TILE_MAX_HEIGHT t = job.(jb_top_region_id).

(** What goes on the wire for the bytes [src]. *)
Definition encodes (src payload : list Z) (compressed : bool) : Prop :=
  if compressed then exists capacity, ZSTD_compressCCtx src capacity = Some payload else payload = src.

Record try_outcome (job : wd_parallel_encode_job) (fb : list Z) (w h id : Z) (o : candidate_outcome) : Prop := {
  to_job : recounted job o.(co_job);
  to_worker : worker_ok o.(co_worker);
  to_size : o.(co_candidate).(ca_width) = w /\ o.(co_candidate).(ca_height) = h /\ o.(co_candidate).(ca_tile_id) = id;
  to_covered : wd_stream_collect_wire_tile_base_ids job.(jb_geometry) id w h WD_WIRE_TILE_MAX_BASE_TILES =
    Some o.(co_candidate).(ca_covered_base_ids);
  to_encoded : exists epochs payload, o.(co_encoded) = Some (epochs, payload) /\
    Forall2 (fun t e => snd <$> wd_tile_work_snapshot_lookup job.(jb_work_snapshot) t = Some e)
      o.(co_candidate).(ca_covered_base_ids) epochs /\
    encodes (tile_source job.(jb_geometry) fb w h id) payload o.(co_candidate).(ca_compressed_payload) /\
    o.(co_candidate).(ca_wire_size) = wire_bytes job (zlen payload) o.(co_candidate).(ca_compressed_payload);
  to_wire : job.(jb_compression_benchmark_mode) = WD_TILE_COMPRESSION_BENCH_AUTO ->
    0 < wire_bytes job (w * h * 4) false -> 0 < o.(co_candidate).(ca_wire_size) <= wire_bytes job (w * h * 4) false;
}.

Lemma try_spec job worker fb w h id : job_ok job fb -> worker_ok worker -> in_region job w h id ->
  try_outcome job fb w h id (wd_stream_try_encode_candidate_for_snapshot ZSTD_compressCCtx job worker id w h true).
Proof.
  intros J K (HS & Hid & Hreg). pose proof (jo_grid _ _ J) as G. destruct (jo_framebuffer _ _ J) as [Ef Hfb].
  destruct (collect_spec _ G w h HS id Hid) as (ids & Ec & Hnd & Hne & _ & Hmem).
  unfold worker_ok in K.
  destruct (extract_source job.(jb_geometry) fb w h id worker.(wk_tile_bytes)
    (u64 (u64 (WD_WIRE_TILE_MAX_WIDTH * WD_WIRE_TILE_MAX_HEIGHT) * WD_BYTES_PER_PIXEL)) G HS Hid Hfb)
    as (Ee & Hl & Hn); [lia | done |].
  unfold wd_stream_try_encode_candidate_for_snapshot, wd_stream_job_collect_wire_tile_base_ids.
  rewrite Ec, Ef, Ee. set (src := tile_source _ fb w h id) in *.
  destruct (wire_size_factors w h HS) as (kx & ky & Ew & Eh & Hkx & Hky).
  assert (u32 (u32 (w * h) * WD_BYTES_PER_PIXEL) = w * h * 4) as ->.
  { unfold WD_BYTES_PER_PIXEL. rewrite (u32_small (w * h)), u32_small by mlia. done. }
  assert (take (Z.to_nat (w * h * 4)) (src ++ drop (Z.to_nat (w * h * 4)) (wk_tile_bytes worker)) = src) as ->
    by (apply take_app_length'; unfold zlen in Hl; lia).
  destruct (compress_candidate _ _ _ _ _ _ _) as [[[j wk] size] c] eqn:Eco.
  destruct (compress_spec _ _ _ _ _ _ _ _ _ _ Eco) as ([st ->] & Hwk & Hc).
  change (jb_compression_benchmark_mode (job <| jb_stats := st |>)) with (jb_compression_benchmark_mode job).
  change (jb_work_snapshot (job <| jb_stats := st |>)) with (jb_work_snapshot job).
  change (jb_udp_payload_target (job <| jb_stats := st |>)) with (jb_udp_payload_target job).
  change (jb_input_sequence (job <| jb_stats := st |>)) with (jb_input_sequence job).
  destruct (mapM _ ids) as [epochs|] eqn:Em.
  2:{ exfalso. apply mapM_None in Em. apply list.Exists_exists in Em as (t & Ht & Hno).
      apply Hmem in Ht as [Ht Hw]. destruct (jo_snapshot _ _ J t Ht (Hreg t Ht Hw)) as [[sel e] E]. by rewrite E in Hno. }
  apply mapM_Some in Em.
  split; cbn [co_job co_worker co_candidate co_encoded ca_width ca_height ca_tile_id ca_covered_base_ids
    ca_compressed_payload ca_wire_size]; try done.
  - recount.
  - unfold worker_ok. case_if; cbn [wk_tile_bytes set_field]; rewrite Hwk; cbn [wk_tile_bytes set_field];
      rewrite zlen_app, Hl; unfold zlen in *; rewrite length_drop; lia.
  - exists epochs, (default src c). split_and!; try done; destruct c as [p|]; cbn [from_option]; try done.
    + destruct Hc as [Hc _]. by eexists.
    + unfold wire_bytes, Datatypes.id. by rewrite (proj1 (proj2 Hc)).
    + unfold wire_bytes. by rewrite Hl.
  - intros Hauto Hpos. destruct c as [p|]; [| unfold wire_bytes in *; lia].
    apply Hc in Hauto. unfold wire_bytes in *. done.
Qed.

(** *** The children of a tile *)

Definition level (w h : Z) : nat :=
  if w =? WD_TILE_SIZE_LARGE_WIDTH then 4 else if w =? WD_TILE_SIZE_MEDIUM_WIDTH then 3
  else if w =? WD_TILE_SIZE_SMALL_WIDTH then 2 else 1.

Lemma kids_of_pixels job w h w2 h2 a b id offs : grid_ok job.(jb_geometry) -> wire_size w h -> wire_size w2 h2 ->
  w = a * w2 -> h = b * h2 -> 0 < a -> 0 < b -> 0 <= id < wire_tiles job.(jb_geometry) w h ->
  Forall (fun '(i, j) => 0 <= i < a /\ 0 <= j < b) offs ->
  let g := job.(jb_geometry) in
  let x0 := wd_tile_start_x_for_tile id (wd_tiles_for_width_with_tile g.(tg_display_width) w) w in
  let y0 := wd_tile_start_y_for_tile id (wd_tiles_for_width_with_tile g.(tg_display_width) w) h in
  omap (fun '(x, y) => if (x <? g.(tg_display_width)) && (y <? g.(tg_display_height))
                       then wd_stream_job_wire_tile_for_pixel job x y w2 h2 else None)
    ((fun '(i, j) => (u32 (x0 + i * w2), u32 (y0 + j * h2))) <$> offs) = omap (kid g w w2 h2 a b id) offs.
Proof.
  intros G HS HS2 Hw Hh Ha Hb Hid Hoffs g x0 y0. destruct (wire_valid _ w h id G HS Hid) as (_ & L & _).
  fold g in L. assert (x0 = (id mod wd_tiles_for_width_with_tile g.(tg_display_width) w) * w) as Ex
    by apply (start_x_eq _ _ _ _ _ _ _ L).
  assert (y0 = (id / wd_tiles_for_width_with_tile g.(tg_display_width) w) * h) as Ey
    by apply (start_y_eq _ _ _ _ _ _ _ L).
  pose proof (tile_column _ _ _ _ _ _ _ L) as [_ Hx]. pose proof (tile_row _ _ _ _ _ _ _ L) as [_ Hy].
  unfold tile_left, tile_top in Hx, Hy. rewrite <- Ex in Hx. rewrite <- Ey in Hy.
  pose proof (grid_bounds g G) as B. destruct (wire_size_factors w h HS) as (kx & ky & _ & _ & _ & _).
  destruct (wire_size_factors w2 h2 HS2) as (k2 & l2 & E2 & F2 & Hk2 & Hl2).
  assert (w <= 128 /\ h <= 64) as [Hw128 Hh64] by (destruct (wire_size_factors w h HS) as (? & ? & ? & ? & ? & ?); lia).
  apply list_omap_ext, Forall2_fmap_l, Forall_Forall2_diag, (list.Forall_impl _ _ _ Hoffs).
  intros [i j] [Hi Hj]. unfold compose. cbn beta iota. assert (0 <= i * w2 <= w) by nia. assert (0 <= j * h2 <= h) by nia.
  rewrite (u32_small (x0 + i * w2)), (u32_small (y0 + j * h2)) by mlia.
  unfold wd_stream_job_wire_tile_for_pixel. fold g. rewrite Ex, Ey.
  by rewrite (child_at g G w h w2 h2 a b HS HS2 Hw Hh Ha Hb id i j Hid) by lia.
Qed.

Definition children_of (g : tile_geometry) (w h id w2 h2 : Z) (kids : list Z) : Prop :=
  wire_size w2 h2 /\ (level w2 h2 < level w h)%nat /\ NoDup kids /\
  (forall c, c ∈ kids -> 0 <= c < wire_tiles g w2 h2) /\
  (forall t, 0 <= t < g.(tg_total_tiles) -> wire_of g w h t = id <-> wire_of g w2 h2 t ∈ kids).

Lemma child_tiles_spec job w h id : grid_ok job.(jb_geometry) -> wire_size w h ->
  0 <= id < wire_tiles job.(jb_geometry) w h ->
  (w, h) <> (WD_BASE_TILE_WIDTH, WD_BASE_TILE_HEIGHT) ->
  exists w2 h2 kids, child_tiles job id w h = Some (w2, h2, kids) /\
    children_of job.(jb_geometry) w h id w2 h2 kids.
Proof.
  intros G HS Hid Hbase.
  assert (wire_size 64 64 /\ wire_size 32 32 /\ wire_size 16 16) as (H64 & H32 & H16)
    by (unfold wire_size; split_and!; vm_compute; repeat constructor).
  destruct (go_tile _ G) as [Tw Th].
  assert (forall w2 h2 b offs, wire_size w2 h2 -> w = 2 * w2 -> h = b * h2 -> 0 < b -> (level w2 h2 < level w h)%nat ->
    NoDup offs -> (forall i j, (i, j) ∈ offs <-> 0 <= i < 2 /\ 0 <= j < b) ->
    children_of job.(jb_geometry) w h id w2 h2 (omap (kid job.(jb_geometry) w w2 h2 2 b id) offs)) as Hkids.
  { intros w2 h2 b offs HS2 Ew Eh Hb Hlv Hnd Hoffs.
    destruct (kids_spec job.(jb_geometry) G w h w2 h2 2 b HS HS2 Ew Eh ltac:(lia) Hb id offs Hid Hnd Hoffs)
      as (K1 & K2 & K3). by split_and!. }
  set (g := job.(jb_geometry)) in *.
  set (x0 := wd_tile_start_x_for_tile id (wd_tiles_for_width_with_tile g.(tg_display_width) w) w).
  set (y0 := wd_tile_start_y_for_tile id (wd_tiles_for_width_with_tile g.(tg_display_width) w) h).
  assert (u32 (x0 + 0) = x0 /\ u32 (y0 + 0) = y0) as [Ex Ey].
  { rewrite !Z.add_0_r. split; apply u32_small, u32_range. }
  assert (forall w2 h2 b (offs pixels : list (Z * Z)), wire_size w2 h2 -> w = 2 * w2 -> h = b * h2 -> 0 < b ->
    (forall i j, (i, j) ∈ offs <-> 0 <= i < 2 /\ 0 <= j < b) ->
    pixels = ((fun '(i, j) => (u32 (x0 + i * w2), u32 (y0 + j * h2))) <$> offs) ->
    omap (fun '(x, y) => if (x <? g.(tg_display_width)) && (y <? g.(tg_display_height))
                       then wd_stream_job_wire_tile_for_pixel job x y w2 h2 else None) pixels =
    omap (kid g w w2 h2 2 b id) offs) as Hpix.
  { intros w2 h2 b offs pixels HS2 Ew Eh Hb Hoffs ->.
    refine (kids_of_pixels job w h w2 h2 2 b id offs G HS HS2 Ew Eh ltac:(lia) Hb Hid _).
    apply list.Forall_forall. intros [i j] Hij. by apply Hoffs. }
  assert (forall i j, (i, j) ∈ [(0, 0); (1, 0); (0, 1); (1, 1)] <-> 0 <= i < 2 /\ 0 <= j < 2) as Hquad.
  { intros i j. rewrite !list.elem_of_cons, elem_of_nil. split; [intros Hc; repeat destruct Hc as [Hc|Hc]; first [injection Hc as -> ->; lia | done] |].
    intros [Hi Hj]. assert (i = 0 \/ i = 1) as [-> | ->] by lia; assert (j = 0 \/ j = 1) as [-> | ->] by lia; tauto. }
  assert (forall i j, (i, j) ∈ [(0, 0); (1, 0)] <-> 0 <= i < 2 /\ 0 <= j < 1) as Hpair.
  { intros i j. rewrite !list.elem_of_cons, elem_of_nil. split; [intros Hc; repeat destruct Hc as [Hc|Hc]; first [injection Hc as -> ->; lia | done] |].
    intros [Hi Hj]. assert (j = 0) as -> by lia. assert (i = 0 \/ i = 1) as [-> | ->] by lia; tauto. }
  assert (NoDup [(0, 0); (1, 0); (0, 1); (1, 1)] /\ NoDup [(0, 0); (1, 0)]) as [Nquad Npair]
    by (split; eapply bool_decide_unpack; vm_compute; exact I).
  unfold child_tiles. fold g x0 y0. rewrite Tw, Th.
  assert ((w, h) = (128, 64) \/ (w, h) = (64, 64) \/ (w, h) = (32, 32)) as [[= Ew Eh]|[[= Ew Eh]|[= Ew Eh]]].
  { revert HS. unfold wire_size. rewrite !list.elem_of_cons, elem_of_nil. naive_solver. }
  all: assert ((w =? WD_WIRE_TILE_MAX_WIDTH) = (w =? 128) /\ (h =? WD_WIRE_TILE_MAX_HEIGHT) = (h =? 64)) as [-> ->] by done.
  all: assert ((w =? WD_TILE_SIZE_MEDIUM_WIDTH) = (w =? 64) /\ (h =? WD_TILE_SIZE_MEDIUM_HEIGHT) = (h =? 64) /\
    (w =? WD_TILE_SIZE_SMALL_WIDTH) = (w =? 32) /\ (h =? WD_TILE_SIZE_SMALL_HEIGHT) = (h =? 32)) as (-> & -> & -> & ->) by done.
  all: assert ((w =? 128) = (match level w h with 4%nat => true | _ => false end)) as -> by (by rewrite Ew).
  all: assert ((w =? 64) = (match level w h with 3%nat => true | _ => false end)) as -> by (by rewrite Ew).
  all: assert ((w =? 32) = (match level w h with 2%nat => true | _ => false end)) as -> by (by rewrite Ew).
  all: assert ((h =? 64) = (match level w h with 2%nat => false | _ => true end)) as -> by (by rewrite Ew, Eh).
  all: assert ((h =? 32) = (match level w h with 2%nat => true | _ => false end)) as -> by (by rewrite Ew, Eh).
  1: assert (level w h = 4%nat) as -> by (by rewrite Ew). 2: assert (level w h = 3%nat) as -> by (by rewrite Ew).
  3: assert (level w h = 2%nat) as -> by (by rewrite Ew).
  all: cbn [andb]; do 3 eexists; (split; [reflexivity |]).
  - rewrite (Hpix WD_TILE_SIZE_MEDIUM_WIDTH WD_TILE_SIZE_MEDIUM_HEIGHT 1 [(0, 0); (1, 0)]); try done.
    + apply Hkids; try done. rewrite Ew, Eh. vm_compute. lia.
    + cbn [fmap list_fmap]. by rewrite !Z.mul_0_l, !Z.mul_1_l, Ex, Ey.
  - rewrite (Hpix WD_TILE_SIZE_SMALL_WIDTH WD_TILE_SIZE_SMALL_HEIGHT 2 [(0, 0); (1, 0); (0, 1); (1, 1)]); try done.
    + apply Hkids; try done. rewrite Ew, Eh. vm_compute. lia.
    + cbn [fmap list_fmap]. by rewrite !Z.mul_0_l, !Z.mul_1_l, Ex, Ey.
  - rewrite (Hpix WD_BASE_TILE_WIDTH WD_BASE_TILE_HEIGHT 2 [(0, 0); (1, 0); (0, 1); (1, 1)]); try done.
    + apply Hkids; try done. rewrite Ew, Eh. vm_compute. lia.
    + cbn [fmap list_fmap]. by rewrite !Z.mul_0_l, !Z.mul_1_l, Ex, Ey.
Qed.

(** *** What the recursion adds to a job *)

Definition covered_by (results : list wd_parallel_encode_result) : list Z :=
  results ≫= fun r => r.(rs_candidate).(ca_covered_base_ids).

Definition selected (job : wd_parallel_encode_job) (t : Z) : Prop :=
  exists e, wd_tile_work_snapshot_lookup job.(jb_work_snapshot) t = Some (true, e).

(** A base tile of the job's region. *)
Definition region_tile (job : wd_parallel_encode_job) (t : Z) : Prop :=
  0 <= t < job.(jb_geometry).(tg_total_tiles) /\
  wire_of job.(jb_geometry) WD_WIRE_TILE_MAX_WIDTH WD_WIRE_TILE_MAX_HEIGHT t = job.(jb_top_region_id).

(** A result: a wire tile of the region with a selected base tile under it, its
    base tiles with the epochs of the snapshot, its pixels, within the budget. *)
Record result_of (job : wd_parallel_encode_job) (fb : list Z) (w h id : Z) (r : wd_parallel_encode_result) : Prop := {
  ro_origin : r.(rs_top_region_id) = job.(jb_top_region_id) /\
    r.(rs_framebuffer_generation) = job.(jb_framebuffer_generation);
  ro_tile : r.(rs_candidate).(ca_width) = w /\ r.(rs_candidate).(ca_height) = h /\ r.(rs_candidate).(ca_tile_id) = id;
  ro_covered : wd_stream_collect_wire_tile_base_ids job.(jb_geometry) id w h WD_WIRE_TILE_MAX_BASE_TILES =
    Some r.(rs_candidate).(ca_covered_base_ids);
  ro_selected : exists t, t ∈ r.(rs_candidate).(ca_covered_base_ids) /\ selected job t;
  ro_epochs : Forall2 (fun t e => snd <$> wd_tile_work_snapshot_lookup job.(jb_work_snapshot) t = Some e)
    r.(rs_candidate).(ca_covered_base_ids) r.(rs_covered_dirty_epochs);
  ro_payload : encodes (tile_source job.(jb_geometry) fb w h id) r.(rs_payload)
    r.(rs_candidate).(ca_compressed_payload);
  ro_wire : r.(rs_candidate).(ca_wire_size) =
    wire_bytes job (zlen r.(rs_payload)) r.(rs_candidate).(ca_compressed_payload);
  ro_budget : 0 < r.(rs_candidate).(ca_wire_size) <= job.(jb_remaining_byte_budget);
}.

Definition tile_result (job : wd_parallel_encode_job) (fb : list Z) (r : wd_parallel_encode_result) : Prop :=
  exists w h id, in_region job w h id /\ result_of job fb w h id r.

Definition extends (job : wd_parallel_encode_job) (new : list wd_parallel_encode_result)
    (job' : wd_parallel_encode_job) : Prop :=
  exists st, job' = job <| jb_stats := st |> <| jb_result := job.(jb_result) ++ new |>.

Lemma extends_nil job job' : recounted job job' -> extends job [] job'.
Proof. intros [st ->]. exists st. rewrite app_nil_r. by destruct job. Qed.

Lemma extends_trans job new job1 new' job' : extends job new job1 -> extends job1 new' job' ->
  extends job (new ++ new') job'.
Proof. intros [s ->] [t ->]. exists t. cbn [jb_result set_field]. by rewrite app_assoc. Qed.

Lemma covered_by_app a b : covered_by (a ++ b) = covered_by a ++ covered_by b.
Proof. apply bind_app. Qed.

(** Results so far: disjoint, within the region. *)
Record results_ok (job : wd_parallel_encode_job) : Prop := {
  rk_nodup : NoDup (covered_by job.(jb_result));
  rk_region : forall t, t ∈ covered_by job.(jb_result) -> region_tile job t;
  rk_some : Forall (fun r => r.(rs_candidate).(ca_covered_base_ids) <> []) job.(jb_result);
}.

Lemma count_results (results : list wd_parallel_encode_result) :
  Forall (fun r => r.(rs_candidate).(ca_covered_base_ids) <> []) results ->
  (length results <= length (covered_by results))%nat.
Proof.
  induction 1 as [|r rs Hr _ IH]; [done |].
  change (covered_by (r :: rs)) with (r.(rs_candidate).(ca_covered_base_ids) ++ covered_by rs).
  rewrite length_app. cbn [length]. destruct (ca_covered_base_ids _); [done |]. cbn [length]. lia.
Qed.

(** While a base tile of the region is uncovered there is room for a result. *)
Lemma room_for_result job fb t : job_ok job fb -> results_ok job -> region_tile job t ->
  t ∉ covered_by job.(jb_result) -> zlen job.(jb_result) < job.(jb_result_capacity).
Proof.
  intros J [R1 R2 R3] Ht Hn. rewrite (jo_capacity _ _ J).
  destruct (collect_spec _ (jo_grid _ _ J) WD_WIRE_TILE_MAX_WIDTH WD_WIRE_TILE_MAX_HEIGHT ltac:(by left)
    job.(jb_top_region_id) (jo_region _ _ J)) as (ids & _ & Hnd & _ & Hlen & Hmem).
  pose proof (count_results _ R3) as Hc.
  assert (length (t :: covered_by job.(jb_result)) <= length ids)%nat as Hl.
  { apply submseteq_length, NoDup_submseteq; [by constructor |].
    intros x [->|Hx]%list.elem_of_cons; apply Hmem; [done | by apply R2]. }
  cbn [length] in Hl. unfold zlen in *. change WD_STREAM_ENCODER_MAX_RESULTS_PER_JOB with 32.
  change WD_WIRE_TILE_MAX_BASE_TILES with 32 in Hlen. lia.
Qed.

(** Enough budget for base tiles, and memory. *)
Definition ample (job : wd_parallel_encode_job) : Prop :=
  job.(jb_compression_benchmark_mode) = WD_TILE_COMPRESSION_BENCH_AUTO /\ (forall n, alloc_ok n = true) /\
  0 < wire_bytes job (WD_BASE_TILE_WIDTH * WD_BASE_TILE_HEIGHT * 4) false <= job.(jb_remaining_byte_budget).

(** The new results of a call on tile [id]: [under t] says that base tile [t]
    lies under it. *)
Record added (job : wd_parallel_encode_job) (fb : list Z) (under : Z -> Prop)
    (new : list wd_parallel_encode_result) : Prop := {
  ad_results : Forall (tile_result job fb) new;
  ad_nodup : NoDup (covered_by new);
  ad_under : forall t, t ∈ covered_by new -> 0 <= t < job.(jb_geometry).(tg_total_tiles) /\ under t;
  ad_complete : ample job -> results_ok job -> (forall t, t ∈ covered_by job.(jb_result) -> ~ under t) ->
    forall t, 0 <= t < job.(jb_geometry).(tg_total_tiles) -> under t -> selected job t -> t ∈ covered_by new;
}.

Lemma tile_result_some job fb r : job_ok job fb -> tile_result job fb r ->
  r.(rs_candidate).(ca_covered_base_ids) <> [].
Proof.
  intros J (w & h & id & (HS & Hid & _) & Hr).
  destruct (collect_spec _ (jo_grid _ _ J) w h HS id Hid) as (ids & Ec & _ & Hne & _).
  pose proof (ro_covered _ _ _ _ _ _ Hr) as E. rewrite Ec in E. by injection E as <-.
Qed.

Lemma results_extend job fb new job' under : job_ok job fb -> results_ok job -> extends job new job' ->
  added job fb under new -> (forall t, t ∈ covered_by job.(jb_result) -> ~ under t) ->
  (forall t, 0 <= t < job.(jb_geometry).(tg_total_tiles) -> under t -> region_tile job t) -> results_ok job'.
Proof.
  intros J [R1 R2 R3] [st ->] A Hdis Hreg. split; cbn [jb_result set_field]; rewrite ?covered_by_app.
  - apply list.NoDup_app. split_and!; [done | | apply A]. intros t Ht Hn. apply (Hdis t Ht), (ad_under _ _ _ _ A t Hn).
  - intros t [Ht|Ht]%elem_of_app; [by apply R2 |]. destruct (ad_under _ _ _ _ A t Ht). by apply Hreg.
  - apply list.Forall_app. split; [done |]. apply (list.Forall_impl _ _ _ (ad_results _ _ _ _ A)).
    intros r. by apply tile_result_some.
Qed.

Lemma tile_result_same job fb st rs r :
  tile_result (job <| jb_stats := st |> <| jb_result := rs |>) fb r -> tile_result job fb r.
Proof. intros (w & h & id & I & []). exists w, h, id. split; [exact I | by split]. Qed.

Lemma added_nil job fb (under : Z -> Prop) :
  (ample job -> results_ok job -> (forall t, t ∈ covered_by job.(jb_result) -> ~ under t) ->
   forall t, 0 <= t < job.(jb_geometry).(tg_total_tiles) -> under t -> ~ selected job t) ->
  added job fb under [].
Proof.
  intros Hn. split.
  - constructor.
  - constructor.
  - by intros t Ht%elem_of_nil.
  - intros. exfalso. by eapply Hn.
Qed.

(** One after the other. *)
Lemma added_app job fb under1 under2 new1 job1 new2 : job_ok job fb -> extends job new1 job1 ->
  added job fb under1 new1 -> added job1 fb under2 new2 -> (forall t, under1 t -> under2 t -> False) ->
  (forall t, 0 <= t < job.(jb_geometry).(tg_total_tiles) -> under1 t -> region_tile job t) ->
  added job fb (fun t => under1 t \/ under2 t) (new1 ++ new2).
Proof.
  intros J E A1 A2 Hdis Hreg. pose proof E as [st ->]. split; rewrite ?covered_by_app.
  - apply list.Forall_app. split; [apply A1 |]. apply (list.Forall_impl _ _ _ (ad_results _ _ _ _ A2)). intros r. apply tile_result_same.
  - apply list.NoDup_app. split_and!; [apply A1 | | apply A2]. intros t H1 H2.
    eapply Hdis; [apply (ad_under _ _ _ _ A1 t H1) | apply (ad_under _ _ _ _ A2 t H2)].
  - intros t [Ht|Ht]%elem_of_app.
    + destruct (ad_under _ _ _ _ A1 t Ht). auto.
    + destruct (ad_under _ _ _ _ A2 t Ht). auto.
  - intros Ham Hok Hno t Ht Hu Hs. apply elem_of_app.
    assert (forall t, t ∈ covered_by job.(jb_result) -> ~ under1 t) as Hno1 by (intros x Hx Hu'; eapply Hno; eauto).
    destruct Hu as [Hu|Hu]; [left; by apply (ad_complete _ _ _ _ A1) | right].
    apply (ad_complete _ _ _ _ A2).
    + exact Ham.
    + by eapply results_extend.
    + cbn [jb_result set_field]. rewrite covered_by_app. intros x [Hx|Hx]%elem_of_app Hu2.
      * eapply Hno; eauto.
      * eapply Hdis; [apply (ad_under _ _ _ _ A1 x Hx) | done].
    + exact Ht.
    + done.
    + exact Hs.
Qed.

Lemma added_weaken job fb (under under' : Z -> Prop) new :
  (forall t, 0 <= t < job.(jb_geometry).(tg_total_tiles) -> under t <-> under' t) ->
  added job fb under new -> added job fb under' new.
Proof.
  intros Heq A. split; [apply A | apply A | |].
  - intros t Ht. destruct (ad_under _ _ _ _ A t Ht) as [Hr Hu]. split; [done |]. by apply Heq.
  - intros Ham Hok Hno t Ht Hu Hs. apply (ad_complete _ _ _ _ A); try done; [| by apply Heq].
    intros x Hx Hux. apply (Hno x Hx). destruct (rk_region _ Hok x Hx). by apply Heq.
Qed.

(** A call's contract. *)
Definition encode_ok (encode : wd_parallel_encode_job -> wd_encoder_worker_state -> Z -> Z -> Z ->
      wd_parallel_encode_job * wd_encoder_worker_state * bool * bool) (fb : list Z) (w h : Z) : Prop :=
  forall job worker id j wk enc blk, job_ok job fb -> worker_ok worker -> in_region job w h id ->
    encode job worker id w h = (j, wk, enc, blk) ->
    exists new, extends job new j /\ worker_ok wk /\
      added job fb (fun t => wire_of job.(jb_geometry) w h t = id) new.

Lemma encode_children_ok encode fb w h kids job worker ae ab j wk enc blk :
  encode_ok encode fb w h -> job_ok job fb -> worker_ok worker -> NoDup kids ->
  (forall c, c ∈ kids -> in_region job w h c) ->
  encode_children encode w h kids job worker ae ab = (j, wk, enc, blk) ->
  exists new, extends job new j /\ worker_ok wk /\
    added job fb (fun t => wire_of job.(jb_geometry) w h t ∈ kids) new.
Proof.
  intros He. revert job worker ae ab. induction kids as [|c kids IH]; intros job worker ae ab J K Hnd Hkids; cbn [encode_children].
  { intros [= <- <- <- <-]. exists []. split_and!; [apply extends_nil; reflexivity | done |].
    apply added_nil. by intros ? ? ? ? ? ?%elem_of_nil. }
  destruct (encode job worker c w h) as [[[j1 wk1] enc1] blk1] eqn:E1.
  destruct (He job worker c j1 wk1 enc1 blk1 J K (Hkids c ltac:(by left)) E1) as (new1 & X1 & K1 & A1).
  apply list.NoDup_cons in Hnd as [Hc Hnd].
  assert (forall t, 0 <= t < job.(jb_geometry).(tg_total_tiles) -> wire_of job.(jb_geometry) w h t ∈ c :: kids ->
    region_tile job t) as Hreg.
  { intros t Ht Hin. split; [done |]. by apply (proj2 (proj2 (Hkids _ Hin))). }
  assert (forall t, wire_of (jb_geometry job) w h t = c \/ wire_of (jb_geometry job) w h t ∈ kids <->
    wire_of (jb_geometry job) w h t ∈ c :: kids) as Hsplit by (intros; by rewrite list.elem_of_cons).
  pose proof X1 as [st ->]. set (j1 := job <| jb_stats := st |> <| jb_result := _ |>) in *.
  assert (job_ok j1 fb) as J1 by (destruct J; by split).
  assert (forall new2, added j1 fb (fun t => wire_of (jb_geometry j1) w h t ∈ kids) new2 ->
    added job fb (fun t => wire_of (jb_geometry job) w h t ∈ c :: kids) (new1 ++ new2)) as Hboth.
  { intros new2 A2. apply (added_weaken job fb (fun t => wire_of (jb_geometry job) w h t = c \/ wire_of (jb_geometry job) w h t ∈ kids));
      [by intros; apply Hsplit |].
    eapply (added_app job fb _ _ new1 j1 new2 J X1 A1); [exact A2 | by intros t <- |].
    intros t Ht Hu. apply Hreg; [done |]. rewrite Hu. by left. }
  case_if.
  - intros [= <- <- <- <-]. exists (new1 ++ []). split_and!; [rewrite app_nil_r; done | done |].
    apply Hboth, added_nil. intros Ham Hok Hno t Ht Hu Hs. bool_cases.
    assert (zlen j1.(jb_result) < j1.(jb_result_capacity)); [| lia].
    apply (room_for_result j1 fb t); [done | done | |].
    + apply (Hreg t Ht). by right.
    + intros Hin. by apply (Hno t Hin).
  - intros Hrun. destruct (IH j1 wk1 (ae || enc1) (ab || blk1)) as (new2 & X2 & K2 & A2); try done.
    + intros x Hx. apply (Hkids x). by right.
    + exists (new1 ++ new2). split_and!; [by eapply extends_trans | done | by apply Hboth].
Qed.

Lemma has_dirty job w h id ids :
  wd_stream_collect_wire_tile_base_ids job.(jb_geometry) id w h WD_WIRE_TILE_MAX_BASE_TILES = Some ids ->
  wd_stream_snapshot_region_has_dirty job id w h WD_WIRE_TILE_MAX_BASE_TILES = true <->
  exists t, t ∈ ids /\ selected job t.
Proof.
  intros Ec. unfold wd_stream_snapshot_region_has_dirty, wd_stream_job_collect_wire_tile_base_ids,
    wd_tile_work_snapshot_any_selected. rewrite Ec, existsb_exists. split.
  - intros (t & Hin & Ht). exists t. split; [by apply list_elem_of_In |]. unfold selected.
    destruct (wd_tile_work_snapshot_lookup _ t) as [[[] e]|]; [by exists e | done | done].
  - intros (t & Hin & e & E). exists t. split; [by apply list_elem_of_In | by rewrite E].
Qed.

(** The tile is sent whole. *)
Lemma append_ok job fb w h id o epochs payload job' ok : job_ok job fb -> in_region job w h id ->
  try_outcome job fb w h id o -> o.(co_encoded) = Some (epochs, payload) ->
  wd_stream_candidate_allowed_for_job o.(co_job) o.(co_candidate) = true ->
  (exists t, t ∈ o.(co_candidate).(ca_covered_base_ids) /\ selected job t) ->
  wd_stream_append_snapshot_result alloc_ok o.(co_job) o.(co_candidate) epochs payload = (job', ok) ->
  exists new, extends job new job' /\ added job fb (fun t => wire_of job.(jb_geometry) w h t = id) new.
Proof.
  intros J I T Eenc Hallow Hsel. destruct (to_job _ _ _ _ _ _ T) as [st Ej]. rewrite Ej in *. destruct I as (HS & Hid & Hreg).
  destruct (collect_spec _ (jo_grid _ _ J) w h HS id Hid) as (ids & Ec & Hnd & Hne & _ & Hmem).
  pose proof (to_covered _ _ _ _ _ _ T) as Hcov. rewrite Ec in Hcov. injection Hcov as Eids.
  destruct (to_encoded _ _ _ _ _ _ T) as (ep & pl & Ee & Hep & Hpl & Hwire). rewrite Eenc in Ee. injection Ee as <- <-.
  unfold wd_stream_append_snapshot_result. cbn [jb_result jb_result_capacity jb_top_region_id jb_framebuffer_generation set_field].
  intros Hrun.
  assert ((ample job -> results_ok job -> (forall t, t ∈ covered_by job.(jb_result) ->
      wire_of job.(jb_geometry) w h t <> id) -> False) -> job' = job <| jb_stats := st |> ->
    exists new, extends job new job' /\ added job fb (fun t => wire_of job.(jb_geometry) w h t = id) new) as Hnone.
  { intros Hno ->. exists []. split; [apply extends_nil; by eexists |]. apply added_nil. intros; exfalso. by eapply Hno. }
  destruct Hsel as (t0 & Ht0 & Hs0). rewrite <- Eids in Ht0. apply Hmem in Ht0 as [Hr0 Hw0].
  case_if_in Hrun.
  { injection Hrun as <- <-. apply Hnone; [| done]. intros _ Hok Hno. bool_cases.
    assert (zlen job.(jb_result) < job.(jb_result_capacity)); [| lia].
    apply (room_for_result job fb t0 J Hok); [split; [done | by apply Hreg] |]. intros Hin. by apply (Hno t0 Hin). }
  case_if_in Hrun.
  { injection Hrun as <- <-. apply Hnone; [| done]. intros (_ & Hal & _) _ _.
    by rewrite Hal in *. }
  injection Hrun as <- <-. eexists. split; [exists st; reflexivity |].
  assert (0 < o.(co_candidate).(ca_wire_size) <= job.(jb_remaining_byte_budget)) as Hbud.
  { revert Hallow. unfold wd_stream_candidate_allowed_for_job.
    cbn [jb_geometry jb_remaining_byte_budget jb_udp_payload_target jb_input_sequence jb_network_happy set_field].
    case_if; [done |]. bool_cases. intros _. pose proof (wire_nonneg (zlen payload)
      (wd_tile_normalize_udp_payload_target (jb_udp_payload_target job) WD_UDP_PAYLOAD_TARGET WD_UDP_TILE_PAYLOAD_MAX)
      WD_UDP_TILE_HEADER_MIN_SIZE (if negb (jb_input_sequence job =? 0) then WD_UDP_TILE_HEADER_MAX_SIZE else WD_UDP_TILE_HEADER_MIN_SIZE)) as Hn.
    change (wd_tile_wire_bytes_for_payload _ _ _ _) with (wire_bytes job (zlen payload) o.(co_candidate).(ca_compressed_payload)) in Hn.
    rewrite <- Hwire in Hn. lia. }
  split.
  - apply list.Forall_singleton. exists w, h, id. split; [done |].
    split; cbn [rs_top_region_id rs_candidate rs_covered_dirty_epochs rs_payload rs_framebuffer_generation]; try done.
    + apply (to_size _ _ _ _ _ _ T).
    + by rewrite <- Eids.
    + exists t0. rewrite <- Eids. split; [by apply Hmem | done].
  - change (covered_by [_]) with (o.(co_candidate).(ca_covered_base_ids) ++ []). rewrite app_nil_r, <- Eids. done.
  - change (covered_by [_]) with (o.(co_candidate).(ca_covered_base_ids) ++ []). rewrite app_nil_r, <- Eids.
    intros t Ht. by apply Hmem.
  - intros _ _ _ t Ht Hw _. change (covered_by [_]) with (o.(co_candidate).(ca_covered_base_ids) ++ []).
    rewrite app_nil_r, <- Eids. by apply Hmem.
Qed.

Lemma added_recounted job job1 fb under new : recounted job job1 -> added job1 fb under new -> added job fb under new.
Proof.
  intros [st ->] A. split.
  - apply (list.Forall_impl _ _ _ (ad_results _ _ _ _ A)). intros r (w & h & id & I & []).
    exists w, h, id. split; [exact I | by split].
  - apply A.
  - exact (ad_under _ _ _ _ A).
  - intros Ham [] Hno. apply (ad_complete _ _ _ _ A); [exact Ham | by split | exact Hno].
Qed.

Lemma extends_recounted job job1 new job' : recounted job job1 -> extends job1 new job' -> extends job new job'.
Proof. intros [st ->] [st' ->]. by exists st'. Qed.

(** A base tile is always sent when the budget allows it uncompressed. *)
Lemma base_allowed job job1 fb id o : job_ok job fb -> ample job -> recounted job job1 ->
  try_outcome job1 fb WD_BASE_TILE_WIDTH WD_BASE_TILE_HEIGHT id o ->
  wd_stream_candidate_allowed_for_job o.(co_job) o.(co_candidate) = true.
Proof.
  intros J (Hauto & _ & Hb1 & Hb2) [st ->] T. destruct (to_job _ _ _ _ _ _ T) as [st' ->].
  destruct (go_tile _ (jo_grid _ _ J)) as [Tw Th]. destruct (to_size _ _ _ _ _ _ T) as (Ew & Eh & _).
  destruct (to_wire _ _ _ _ _ _ T Hauto Hb1) as [Hw1 Hw2].
  change (wire_bytes (job <| jb_stats := st |>) ?n false) with (wire_bytes job n false) in Hw2.
  unfold wd_stream_candidate_allowed_for_job.
  cbn [jb_geometry jb_remaining_byte_budget jb_udp_payload_target jb_input_sequence jb_network_happy set_field].
  rewrite Ew, Eh, Tw, Th, !Z.eqb_refl. rewrite (proj2 (Z.eqb_neq _ 0)) by lia.
  by rewrite Z.gtb_ltb, (proj2 (Z.ltb_ge _ _)) by lia.
Qed.

Lemma encode_region_ok fuel fb w h : wire_size w h -> (level w h <= fuel)%nat ->
  encode_ok (wd_stream_encode_region_recursive_snapshot ZSTD_compressCCtx alloc_ok fuel) fb w h.
Proof.
  revert w h. induction fuel as [|fuel IH]; intros w h HS Hlv job worker id j wk enc blk J K I.
  { exfalso. unfold level in Hlv. repeat case_match; lia. }
  cbn [wd_stream_encode_region_recursive_snapshot].
  destruct (collect_spec _ (jo_grid _ _ J) w h HS id (proj1 (proj2 I))) as (ids & Ec & _ & _ & _ & Hmem).
  assert (forall job1 worker1, recounted job job1 -> worker_ok worker1 -> (ample job -> results_ok job ->
      (forall t, t ∈ covered_by job.(jb_result) -> wire_of job.(jb_geometry) w h t <> id) ->
      forall t, 0 <= t < job.(jb_geometry).(tg_total_tiles) -> wire_of job.(jb_geometry) w h t = id -> ~ selected job t) ->
    exists new, extends job new job1 /\ worker_ok worker1 /\
      added job fb (fun t => wire_of job.(jb_geometry) w h t = id) new) as Hnone.
  { intros job1 worker1 Hr K1 Hno. exists []. split_and!; [by apply extends_nil | done | by apply added_nil]. }
  case_if.
  { intros [= <- <- <- <-]. apply Hnone; [reflexivity | done |]. intros _ Hok Hno t Ht Hu _. bool_cases.
    assert (zlen job.(jb_result) < job.(jb_result_capacity)); [| lia].
    apply (room_for_result job fb t J Hok); [split; [done | by apply I] |]. intros Hin. by apply (Hno t Hin). }
  destruct (wd_stream_snapshot_region_has_dirty _ _ _ _ _) eqn:Ed; cbn [negb].
  2:{ intros [= <- <- <- <-]. apply Hnone; [reflexivity | done |]. intros _ _ _ t Ht Hu Hs.
      assert (true = false); [| done]. rewrite <- Ed. symmetry. apply (has_dirty job w h id ids Ec). exists t. split; [by apply Hmem | done]. }
  apply (has_dirty job w h id ids Ec) in Ed.
  destruct (go_tile _ (jo_grid _ _ J)) as [Tw Th]. rewrite Tw, Th.
  set (base := (w =? WD_BASE_TILE_WIDTH) && (h =? WD_BASE_TILE_HEIGHT)).
  destruct (wd_stream_prediction_allows_candidate _ _ _ _ _) as [[j1 wk1] attempt] eqn:Ep.
  destruct (prediction_spec _ _ _ _ _ _ _ _ Ep) as ([st ->] & Hwk & Hatt). set (job1 := job <| jb_stats := st |>) in *.
  assert (job_ok job1 fb) as J1 by (destruct J; by split).
  assert (worker_ok wk1) as K1 by (unfold worker_ok; by rewrite Hwk).
  assert (in_region job1 w h id) as I1 by exact I.
  set (o := if attempt then _ else _).
  assert (recounted job o.(co_job) /\ worker_ok o.(co_worker) /\
    (attempt = true -> try_outcome job1 fb w h id o) /\ (o.(co_encoded) <> None -> attempt = true)) as (Hrec & K2 & Htry & Hat).
  { subst o. destruct attempt; [| by split_and!; [by eexists | ..]].
    pose proof (try_spec job1 wk1 fb w h id J1 K1 I1) as T. split_and!; try done; [| apply T].
    etrans; [by exists st | apply T]. }
  clearbody o. cbv beta zeta iota.
  set (split := if base then _ else _).
  assert (forall j wk enc blk, (co_encoded o <> None -> wd_stream_candidate_allowed_for_job o.(co_job) o.(co_candidate) = false) ->
    split = (j, wk, enc, blk) -> exists new, extends job new j /\ worker_ok wk /\
      added job fb (fun t => wire_of job.(jb_geometry) w h t = id) new) as Hsplit.
  { subst split. intros j' wk' enc' blk' Hblocked. destruct base eqn:Eb.
    - intros [= <- <- _ _]. apply Hnone; [done | done |]. intros Ham _ _ t _ _ _. exfalso.
      unfold base in Eb. bool_cases. subst w h. specialize (Htry (Hatt eq_refl)).
      destruct (to_encoded _ _ _ _ _ _ Htry) as (? & ? & Ee & _).
      rewrite (base_allowed job job1 fb id o J Ham) in Hblocked; [| by exists st | done]. rewrite Ee in Hblocked.
      by specialize (Hblocked ltac:(done)).
    - destruct Hrec as [st2 Ej]. set (job2 := o.(co_job)) in *.
      assert (jb_geometry job2 = jb_geometry job) as Eg by by rewrite Ej.
      destruct (child_tiles_spec job2 w h id) as (w2 & h2 & kids & -> & HS2 & Hlv2 & Hnd & Hkr & Hku).
      { rewrite Eg. apply J. } { done. } { rewrite Eg. apply I. }
      { intros [= -> ->]. unfold base in Eb. by rewrite !Z.eqb_refl in Eb. }
      rewrite Eg in Hkr, Hku. intros Hrun.
      destruct (encode_children_ok _ fb w2 h2 kids job2 o.(co_worker) false false j' wk' enc' blk'
        (IH w2 h2 HS2 ltac:(lia))) as (new & X & K3 & A); try done.
      { rewrite Ej. destruct J. by split. }
      { intros c Hc. split; [done |]. rewrite Ej. split; [by apply Hkr |]. intros t Ht Hw2. apply I; [done |].
        apply (Hku t Ht). change (wire_of (jb_geometry job) w2 h2 t = c) in Hw2. by rewrite Hw2. }
      assert (recounted job job2) as Hrec by by exists st2.
      exists new. split_and!; [by eapply extends_recounted | done |]. eapply added_recounted; [exact Hrec |].
      apply (added_weaken job2 fb (fun t => wire_of (jb_geometry job2) w2 h2 t ∈ kids)); [| done].
      rewrite Eg. intros t Ht. symmetry. by apply Hku. }
  destruct (co_encoded o) as [[epochs payload]|] eqn:Eo; [| by apply Hsplit].
  destruct (wd_stream_candidate_allowed_for_job _ _) eqn:Ea; [| by apply Hsplit].
  destruct (wd_stream_append_snapshot_result _ _ _ _ _) as [j2 ok] eqn:Eap. intros [= <- <- <- <-].
  assert (attempt = true) as Hat' by by apply Hat.
  destruct (append_ok job1 fb w h id o epochs payload j2 ok J1 I1 (Htry Hat') Eo Ea) as (new & X & A); [| done |].
  { pose proof (to_covered _ _ _ _ _ _ (Htry Hat')) as Hcov. change (jb_geometry job1) with (jb_geometry job) in Hcov.
    rewrite Ec in Hcov. by injection Hcov as <-. }
  exists new. split_and!; [| | eapply added_recounted; [by exists st | exact A]].
  - eapply extends_recounted; [by exists st | exact X].
  - apply (to_worker _ _ _ _ _ _ (Htry Hat')).
Qed.

End encoding.

(** ** A job from the server's state *)

Inductive wd_encode_selection_source := WD_ENCODE_SELECTION_FRESH | WD_ENCODE_SELECTION_RETRANSMIT.

(** Whether a base tile is to be sent, from the dirty or the repair queue. *)
Definition tile_selected (server : wd_server) (source : wd_encode_selection_source) (base_id : Z) : bool :=
  match source with
  | WD_ENCODE_SELECTION_RETRANSMIT => wd_stream_retransmit_tile_selected_locked server base_id
  | WD_ENCODE_SELECTION_FRESH => negb (null server.(sv_dirty_queued)) && aget false server.(sv_dirty_queued) base_id
  end.

Definition tile_epoch (server : wd_server) (base_id : Z) : Z :=
  if null server.(sv_dirty_epochs) then 0 else aget 0 server.(sv_dirty_epochs) base_id.

Definition wd_stream_capture_job_snapshot_locked (server : wd_server) (top_region_id : Z)
    (source : wd_encode_selection_source) : option wd_tile_work_snapshot :=
  ids ← wd_stream_collect_wire_tile_base_ids server.(sv_geometry) top_region_id WD_WIRE_TILE_MAX_WIDTH
          WD_WIRE_TILE_MAX_HEIGHT WD_WIRE_TILE_MAX_BASE_TILES;
  fold_left (fun acc base_id =>
    snapshot ← acc;
    wd_tile_work_snapshot_add snapshot base_id (tile_selected server source base_id) (tile_epoch server base_id))
    ids (Some wd_tile_work_snapshot_reset).

Definition wd_stream_init_encode_job_locked (server : wd_server) (framebuffer : list Z)
    (tile_compression_benchmark_mode top_region_id input_sequence remaining_byte_budget : Z)
    (network_happy : bool) (source : wd_encode_selection_source) (result_capacity : Z)
    : option wd_parallel_encode_job :=
  snapshot ← wd_stream_capture_job_snapshot_locked server top_region_id source;
  Some (mk_wd_parallel_encode_job (Some framebuffer) server.(sv_geometry) top_region_id input_sequence
          remaining_byte_budget server.(sv_framebuffer_generation) server.(sv_udp_payload_target)
          tile_compression_benchmark_mode network_happy snapshot (mk_job_stats 0 0 0 0 0 0 0 0 0 0) []
          result_capacity false).

Lemma snapshot_update_none snapshot id sel e :
  id ∉ se_base_tile_id <$> snapshot -> snapshot_update snapshot id sel e = None.
Proof.
  induction snapshot as [|x l IH]; [done |]. cbn [snapshot_update fmap list_fmap].
  rewrite list.not_elem_of_cons. intros [Hne Hn]. rewrite (proj2 (Z.eqb_neq _ _)) by congruence.
  by rewrite IH.
Qed.

Definition snapshot_of (server : wd_server) (source : wd_encode_selection_source) (ids : list Z)
    : wd_tile_work_snapshot :=
  (fun t => mk_wd_tile_work_snapshot_entry t (tile_epoch server t) (tile_selected server source t)) <$> ids.

Lemma capture_entries server source ids done : NoDup (done ++ ids) ->
  zlen (done ++ ids) <= WD_WIRE_TILE_MAX_BASE_TILES ->
  fold_left (fun acc base_id =>
    snapshot ← acc;
    wd_tile_work_snapshot_add snapshot base_id (tile_selected server source base_id) (tile_epoch server base_id))
    ids (Some (snapshot_of server source done)) = Some (snapshot_of server source (done ++ ids)).
Proof.
  revert done. induction ids as [|t ids IH]; intros done Hnd Hlen; [by rewrite app_nil_r |].
  cbn [fold_left mbind option_bind]. unfold wd_tile_work_snapshot_add.
  pose proof (zlen_nonneg ids). rewrite zlen_app, zlen_cons in Hlen.
  assert (zlen (snapshot_of server source done) = zlen done) as -> by apply zlen_fmap.
  rewrite Z.geb_leb, (proj2 (Z.leb_gt _ _)) by lia. rewrite snapshot_update_none.
  - rewrite (cons_middle t), (app_assoc done). rewrite <- IH; rewrite <- ?app_assoc; try done.
    + unfold snapshot_of. by rewrite fmap_app.
    + cbn [app]. rewrite zlen_app, zlen_cons. lia.
  - unfold snapshot_of. rewrite <- list_fmap_compose. cbn. rewrite list_fmap_id. intros Hin.
    apply list.NoDup_app in Hnd as (_ & Hdis & _). apply (Hdis t Hin). by left.
Qed.

Lemma snapshot_of_lookup server source ids t : t ∈ ids ->
  wd_tile_work_snapshot_lookup (snapshot_of server source ids) t =
    Some (tile_selected server source t, tile_epoch server t).
Proof.
  induction ids as [|x ids IH]; [by intros ?%elem_of_nil |]. intros Hin. cbn [snapshot_of fmap list_fmap wd_tile_work_snapshot_lookup].
  cbn [se_base_tile_id se_selected se_dirty_epoch]. destruct (Z.eqb_spec x t) as [->|Hne]; [done |].
  apply IH. by apply list.elem_of_cons in Hin as [->|].
Qed.

(** The job is well formed, and its snapshot is the queue at that moment. *)
Lemma init_job_ok server fb mode region seq budget happy source :
  grid_ok server.(sv_geometry) ->
  zlen fb = server.(sv_geometry).(tg_display_width) * server.(sv_geometry).(tg_display_height) ->
  0 <= region < wire_tiles server.(sv_geometry) WD_WIRE_TILE_MAX_WIDTH WD_WIRE_TILE_MAX_HEIGHT ->
  exists job, wd_stream_init_encode_job_locked server fb mode region seq budget happy source
      WD_STREAM_ENCODER_MAX_RESULTS_PER_JOB = Some job /\ job_ok job fb /\ job.(jb_geometry) = server.(sv_geometry) /\
    job.(jb_top_region_id) = region /\
    (forall t, region_tile job t -> selected job t <-> tile_selected server source t = true).
Proof.
  intros G Hfb Hreg. unfold wd_stream_init_encode_job_locked, wd_stream_capture_job_snapshot_locked.
  destruct (collect_spec _ G WD_WIRE_TILE_MAX_WIDTH WD_WIRE_TILE_MAX_HEIGHT ltac:(by left) region Hreg)
    as (ids & -> & Hnd & _ & Hlen & Hmem).
  pose proof (capture_entries server source ids [] Hnd Hlen) as E.
  change (snapshot_of server source []) with wd_tile_work_snapshot_reset in E. change (Some ids ≫= ?f) with (f ids). cbv beta. rewrite E. clear E.
  cbn [mbind option_bind app]. eexists. split; [reflexivity |].
  assert (forall t, 0 <= t < tg_total_tiles (sv_geometry server) ->
    wire_of (sv_geometry server) WD_WIRE_TILE_MAX_WIDTH WD_WIRE_TILE_MAX_HEIGHT t = region ->
    wd_tile_work_snapshot_lookup (snapshot_of server source ids) t =
      Some (tile_selected server source t, tile_epoch server t)) as Hl.
  { intros t Ht Hw. apply snapshot_of_lookup, Hmem. done. }
  split_and!; try done.
  - split; cbn [jb_geometry jb_framebuffer_xrgb8888 jb_work_snapshot jb_top_region_id jb_result_capacity]; try done.
    intros t Ht Hw. rewrite Hl by done. by eexists.
  - intros t [Ht Hw]. cbn [jb_geometry jb_top_region_id] in Ht, Hw. unfold selected. cbn [jb_work_snapshot].
    rewrite (Hl t Ht Hw). split; [by intros (e & [= -> _]) | intros ->; by eexists].
Qed.

(** The results of a job. *)
Lemma one_job_ok ZSTD_compressCCtx alloc_ok job fb worker : job_ok job fb -> worker_ok worker ->
  let job' := (wd_stream_parallel_encode_one_job ZSTD_compressCCtx alloc_ok job worker).1 in
  Forall (tile_result ZSTD_compressCCtx job fb) job'.(jb_result) /\ NoDup (covered_by job'.(jb_result)) /\
  (forall t, t ∈ covered_by job'.(jb_result) -> region_tile job t) /\
  (ample alloc_ok job -> forall t, region_tile job t -> selected job t -> t ∈ covered_by job'.(jb_result)) /\
  job'.(jb_top_region_id) = job.(jb_top_region_id).
Proof.
  intros J K. cbv zeta. unfold wd_stream_parallel_encode_one_job.
  set (job0 := job <| jb_result := [] |> <| jb_budget_blocked := false |>).
  assert (job_ok job0 fb) as J0 by (destruct J; by split).
  assert (in_region job0 WD_WIRE_TILE_MAX_WIDTH WD_WIRE_TILE_MAX_HEIGHT job0.(jb_top_region_id)) as I0.
  { split_and!; [by left | apply J0 | apply J0 | done]. }
  destruct (wd_stream_encode_region_recursive_snapshot _ _ _ _ _ _ _ _) as [[[j wk] enc] blk] eqn:E.
  destruct (encode_region_ok ZSTD_compressCCtx alloc_ok encode_depth fb _ _ ltac:(by left) ltac:(vm_compute; lia)
    job0 worker _ j wk enc blk J0 K I0 E) as (new & [st ->] & _ & A).
  set (j0 := job0 <| jb_stats := st |> <| jb_result := jb_result job0 ++ new |>).
  assert (forall b : bool, let j := if b then j0 else j0 <| jb_budget_blocked := blk |> in
    j.(jb_result) = new /\ j.(jb_top_region_id) = job.(jb_top_region_id)) as Hres by by intros [].
  cbn [fst]. destruct (Hres enc) as [-> ->]. split_and!; [| apply A | exact (ad_under _ _ _ _ _ _ A) | | done].
  - apply (list.Forall_impl _ _ _ (ad_results _ _ _ _ _ _ A)). intros r (w & h & id & I & []).
    exists w, h, id. split; [exact I | by split].
  - intros Ham t Ht Hs. apply (ad_complete _ _ _ _ _ _ A); try done; [| by intros ? ?%elem_of_nil | apply Ht | apply Ht].
    split; [constructor | by intros ? ?%elem_of_nil | constructor].
Qed.

(** C8: what a worker makes of a region.  For every content of
    the framebuffer and every result of the compressor, the tiles it produces
    lie in the region, carry the region's pixels (as they are or compressed),
    fit the byte budget, hold the epochs their base tiles had when the job was
    made, and cover each base tile at most once; and when the budget admits an
    uncompressed base tile and memory is not exhausted, together they cover
    every tile that was waiting to be sent. *)
Theorem region_encoded ZSTD_compressCCtx alloc_ok server fb mode region seq budget happy source worker :
  grid_ok server.(sv_geometry) ->
  zlen fb = server.(sv_geometry).(tg_display_width) * server.(sv_geometry).(tg_display_height) ->
  0 <= region < wire_tiles server.(sv_geometry) WD_WIRE_TILE_MAX_WIDTH WD_WIRE_TILE_MAX_HEIGHT ->
  worker_ok worker ->
  exists job, wd_stream_init_encode_job_locked server fb mode region seq budget happy source
      WD_STREAM_ENCODER_MAX_RESULTS_PER_JOB = Some job /\
    let results := (wd_stream_parallel_encode_one_job ZSTD_compressCCtx alloc_ok job worker).1.(jb_result) in
    Forall (tile_result ZSTD_compressCCtx job fb) results /\ NoDup (covered_by results) /\
    (forall t, t ∈ covered_by results -> region_tile job t) /\
    (ample alloc_ok job -> forall t, region_tile job t -> tile_selected server source t = true ->
       t ∈ covered_by results).
Proof.
  intros G Hfb Hreg K.
  destruct (init_job_ok server fb mode region seq budget happy source G Hfb Hreg) as (job & -> & J & Eg & Er & Hsel).
  exists job. split; [done |].
  destruct (one_job_ok ZSTD_compressCCtx alloc_ok job fb worker J K) as (H1 & H2 & H3 & H4 & _).
  split_and!; [done | done | done |]. intros Ham t Ht Hs. apply H4; [done | done |]. by apply (Hsel t Ht).
Qed.

(** *** A concrete region *)

Definition encode_server : wd_server :=
  mk_wd_server (mk_tile_geometry 40 20 16 16 3 2 6) 1 true 5 false 1 1 7 3 99 600 0 0 0 0 false 0 [] []
    [false; true; false; false; false; true] 2 [] None 0 0 [] 0 [] [] [] [] [] 0 1 0 false false 0 zero_policy
    zero_tile_stats.

Definition encode_worker : wd_encoder_worker_state :=
  mk_wd_encoder_worker_state (replicate 32768 0) 40000 true (replicate 4 (mk_wd_tile_compression_advisor 0 0))
    (replicate 4 (mk_wd_tile_payload_predictor 0 0 0)).

Lemma region_encoded_witness :
  exists job, wd_stream_init_encode_job_locked encode_server (replicate 800 7) 0 0 0 4000 true
      WD_ENCODE_SELECTION_FRESH WD_STREAM_ENCODER_MAX_RESULTS_PER_JOB = Some job /\
    5 ∈ covered_by (wd_stream_parallel_encode_one_job (fun src _ => Some (take 20 src)) (fun _ => true)
                      job encode_worker).1.(jb_result).
Proof.
  destruct (region_encoded (fun src _ => Some (take 20 src)) (fun _ => true) encode_server (replicate 800 7) 0 0 0
    4000 true WD_ENCODE_SELECTION_FRESH encode_worker) as (job & E & _ & _ & _ & Hall).
  - split; try (vm_compute; split; congruence); reflexivity.
  - reflexivity.
  - vm_compute. split; congruence.
  - vm_compute. reflexivity.
  - exists job. split; [exact E |]. apply Hall.
    + vm_compute in E. injection E as <-. split; [reflexivity |]. split; [done |]. vm_compute. split; congruence.
    + vm_compute in E. injection E as <-. vm_compute. split; [split; congruence | reflexivity].
    + reflexivity.
Defined.
