(* ===== verification/TileSummary.v ===== *)
(** * Summaries of tile generations

    The end of src/server/wd_stream.c: the messages that tell the client the
    generation of each tile (all of them, or those sent since), by which it
    finds the tiles it missed.  A summary travels on the control channel; the
    channel's sender is outside: the summaries it gave up unsent ([dropped]),
    whether it still holds one ([busy]) and whether it accepts the message
    ([accepted]) are arguments.  The message is the result's [su_payload]. *)
From S2P Require Import Prelude Wire Config Structs UdpTile TcpNet TilePolicy StreamPolicy TileServer TileSend.

Record wd_summary_completion := mk_wd_summary_completion {
  sc_full_summary : bool;
  sc_async_pending : bool;
  sc_input_sequence : Z;
  sc_server_timestamp_ns : Z;
  sc_input_inject_ns : Z;
  sc_summary_epoch : Z;
  sc_epoch : wd_stream_epoch_identity;
  sc_budget_bytes : Z;
  sc_entries : list wd_tile_generation_entry;
}.
#[export] Instance wd_summary_completion_eta : Eta wd_summary_completion := fun s =>
  mk_wd_summary_completion s.(sc_full_summary) s.(sc_async_pending) s.(sc_input_sequence)
    s.(sc_server_timestamp_ns) s.(sc_input_inject_ns) s.(sc_summary_epoch) s.(sc_epoch) s.(sc_budget_bytes)
    s.(sc_entries).

Definition wd_stream_rebuild_summary_dirty_queue_locked (server : wd_server) : wd_server :=
  if null server.(sv_summary_dirty_tiles) || null server.(sv_summary_dirty_queue)
  then server <| sv_summary_dirty_count := 0 |>
  else
    let kept := List.filter (aget false server.(sv_summary_dirty_tiles)) (zseq server.(sv_geometry).(tg_total_tiles)) in
    server <| sv_summary_dirty_queue := kept ++ drop (length kept) server.(sv_summary_dirty_queue) |>
           <| sv_summary_dirty_count := zlen kept |>.

(** The entries the client has: their marks go, unless the tile was sent again. *)
Definition clear_announced (server : wd_server) (entries : list wd_tile_generation_entry) : wd_server :=
  fold_left (fun server e =>
      if (e.(tg_tile_id) <? server.(sv_geometry).(tg_total_tiles)) &&
         ((aget (mk_wd_tile_state 0 0 0) server.(sv_tiles) e.(tg_tile_id)).(ti_generation) =? e.(tg_tile_generation))
      then server <| sv_summary_dirty_tiles := aset server.(sv_summary_dirty_tiles) e.(tg_tile_id) false |>
      else server) entries server.

Definition wd_stream_summary_completion (server : wd_server) (completion : wd_summary_completion)
    (success : bool) : wd_server :=
  let same_epoch := wd_stream_epoch_identity_equal (Some completion.(sc_epoch)) (Some (current_epoch server)) in
  let server :=
    if completion.(sc_async_pending) && (server.(sv_summary_async_pending_count) >? 0) then
      let server := server <| sv_summary_async_pending_count := server.(sv_summary_async_pending_count) - 1 |> in
      if server.(sv_summary_async_pending_count) =? 0
      then server <| sv_summary_async_pending_full := false |> else server
    else server in
  let server :=
    if same_epoch && negb success && negb (completion.(sc_budget_bytes) =? 0)
    then wd_stream_refund_tcp_control_budget_locked server completion.(sc_budget_bytes) else server in
  let server :=
    if same_epoch && success && negb (null server.(sv_summary_dirty_tiles)) &&
       (server.(sv_summary_epoch) =? completion.(sc_summary_epoch))
    then wd_stream_rebuild_summary_dirty_queue_locked (clear_announced server completion.(sc_entries))
    else server in
  if same_epoch && success && negb (completion.(sc_input_sequence) =? 0) &&
     negb (completion.(sc_input_inject_ns) =? 0) &&
     (completion.(sc_server_timestamp_ns) >=? completion.(sc_input_inject_ns))
  then
    let server := count ss_input_to_summary_sum_ns
      (completion.(sc_server_timestamp_ns) - completion.(sc_input_inject_ns))
      (count ss_input_to_summary_samples 1 server) in
    if server.(sv_input_since_last_summary) && (server.(sv_summary_input_sequence) =? completion.(sc_input_sequence))
    then server <| sv_input_since_last_summary := false |> else server
  else server.

(** The entries of a summary: every tile, or the marked ones in queue order. *)
Definition summary_entries (server : wd_server) (full_summary : bool) : list wd_tile_generation_entry :=
  let entry tile_id := mk_wd_tile_generation_entry tile_id
    (aget (mk_wd_tile_state 0 0 0) server.(sv_tiles) tile_id).(ti_generation) in
  if full_summary then entry <$> zseq server.(sv_geometry).(tg_total_tiles)
  else if null server.(sv_summary_dirty_tiles) || null server.(sv_summary_dirty_queue) then []
  else entry <$> List.filter (fun tile_id => (tile_id <? server.(sv_geometry).(tg_total_tiles)) &&
                                             aget false server.(sv_summary_dirty_tiles) tile_id)
                   (take (Z.to_nat server.(sv_summary_dirty_count)) server.(sv_summary_dirty_queue)).

Record summary_outcome := mk_summary_outcome {
  su_server : wd_server;
  su_ok : bool;
  su_payload : option (list Z);
  su_completion : option wd_summary_completion;
}.

Definition wd_stream_send_generation_summary_kind_locked (server : wd_server) (full_summary : bool)
    (dropped : list wd_summary_completion) (busy payload_alloc completion_alloc accepted : bool) (now_ns : Z)
    : summary_outcome :=
  let stop server ok := mk_summary_outcome server ok None None in
  if negb server.(sv_client_connected) || (server.(sv_tcp_fd) <? 0) then stop server true
  else if server.(sv_config_update_pending) then stop server false
  else
    let pending := negb (server.(sv_summary_async_pending_count) =? 0) in
    if pending && negb full_summary && server.(sv_summary_async_pending_full) then stop server false
    else
      let server :=
        if pending then
          let server := fold_left (fun server c => wd_stream_summary_completion server c false) dropped server in
          if negb (zlen dropped =? 0) then count ss_tcp_summary_coalesced (zlen dropped) server else server
        else server in
      if pending && busy then stop server false
      else
        let requested := if full_summary then server.(sv_geometry).(tg_total_tiles) else server.(sv_summary_dirty_count) in
        if requested =? 0 then stop server true
        else if negb payload_alloc then stop server false
        else
          let entries := summary_entries server full_summary in
          if null entries then stop (server <| sv_summary_dirty_count := 0 |>) true
          else
            let header := mk_wd_tile_summary_payload_header server.(sv_session_id) server.(sv_connection_token)
                            server.(sv_content_epoch) now_ns (zlen entries)
                            (if full_summary then 0 else WD_TILE_SUMMARY_DELTA) in
            let payload := encode header ++ (entries ≫= encode) in
            let frame_size := WD_TCP_HEADER_WIRE_SIZE + zlen payload in
            if frame_size >? UINT32_MAX then stop server false
            else
              let '(server, paid) := wd_stream_try_consume_tcp_control_budget_locked server frame_size now_ns in
              if negb paid then stop server false
              else if negb completion_alloc
              then stop (wd_stream_refund_tcp_control_budget_locked server frame_size) false
              else
                let input_sequence := if server.(sv_input_since_last_summary)
                                      then server.(sv_summary_input_sequence) else 0 in
                let completion := mk_wd_summary_completion full_summary false input_sequence now_ns
                  (if negb (input_sequence =? 0) && (input_sequence =? server.(sv_last_input_sequence))
                   then server.(sv_last_input_inject_ns) else 0)
                  server.(sv_summary_epoch) (current_epoch server) frame_size entries in
                if accepted then
                  let server := server <| sv_summary_async_pending_count :=
                                            u16 (server.(sv_summary_async_pending_count) + 1) |> in
                  let server := if full_summary then server <| sv_summary_async_pending_full := true |> else server in
                  let server := if full_summary then count ss_tcp_summary_full_tx 1 server
                                else count ss_tcp_summary_delta_tiles (zlen entries)
                                       (count ss_tcp_summary_delta_tx 1 server) in
                  mk_summary_outcome (count ss_tcp_summary_tx 1 server) true (Some payload)
                    (Some (completion <| sc_async_pending := true |>))
                else
                  stop (wd_stream_summary_completion (count ss_tcp_async_send_failed 1 server) completion false) false.

Definition wd_stream_send_generation_summary_locked (server : wd_server) :=
  if wd_stream_mode_video_owns_display server.(sv_stream_policy).(sp_stream_mode)
  then fun _ _ _ _ _ _ => mk_summary_outcome server false None None
  else wd_stream_send_generation_summary_kind_locked server true.

Definition wd_stream_send_pending_generation_summary_locked (server : wd_server) :=
  if wd_stream_mode_video_owns_display server.(sv_stream_policy).(sp_stream_mode)
  then fun _ _ _ _ _ _ => mk_summary_outcome server false None None
  else wd_stream_send_generation_summary_kind_locked server false.
