(* ===== verification/TileQueues.v ===== *)
(** * What happens to the tile queues

    The operations that change the queues of TileServer.v from outside the send
    pass: the network thread (a repair request, a new session, in
    src/server/wd_server_net.c), the compositor thread (a frame's analysis and
    input, a resize in src/server/wd_server.c), the sender's completions; and
    the invariant of the queues.  A call of the clock is a parameter. *)
From S2P Require Import Prelude Wire Config Structs Payload UdpTile TileGrid TilePolicy StreamPolicy DirtyScheduler TileServer TileSend TileSummary WireGrid.

(** ** The compositor's side *)

Definition wd_stream_invalidate_all_tiles_locked (server : wd_server) : wd_server :=
  server <| sv_tiles := (fun t => mk_wd_tile_state t.(ti_generation) t.(ti_timestamp_ns) 0) <$>
                          server.(sv_tiles) |>.

Record wd_stream_frame_analysis := mk_wd_stream_frame_analysis {
  fa_changed_tiles : ptr (list bool);
  fa_changed_tile_count : Z;
  fa_changed_base_tile_count : Z;
  fa_candidate_count : Z;
  fa_unchanged_count : Z;
  fa_diff_ns : Z;
  fa_full_refresh : bool;
}.

Definition wd_stream_apply_frame_analysis_locked (server : wd_server)
    (analysis : ptr wd_stream_frame_analysis) (now_ns : Z) (alloc_ok : bool) : wd_server * Z :=
  match analysis with
  | NULL => (server, 0)
  | Some a =>
      match a.(fa_changed_tiles) with
      | NULL => (server, 0)
      | Some changed_tiles =>
          let server := count ss_framebuffer_diff_candidates a.(fa_candidate_count) server in
          let server := count ss_framebuffer_diff_changed a.(fa_changed_base_tile_count) server in
          let server := count ss_framebuffer_diff_unchanged a.(fa_unchanged_count) server in
          let server := count ss_framebuffer_diff_ns a.(fa_diff_ns) server in
          let server := if a.(fa_full_refresh)
                        then count ss_framebuffer_diff_full_refreshes 1 server else server in
          (fold_left (fun server tile_id =>
               if aget false changed_tiles tile_id
               then wd_detect_one_dirty_tile_into_queue_locked server tile_id now_ns alloc_ok
               else server) (zseq server.(sv_geometry).(tg_total_tiles)) server,
           a.(fa_changed_tile_count))
      end
  end.

(** What an injected input leaves for the next fresh tile. *)
Definition wd_stats_note_pointer_input_inject_locked (server : wd_server) (server_rx_timestamp_ns
    inject_timestamp_ns : Z) : wd_server :=
  if (server_rx_timestamp_ns =? 0) || (inject_timestamp_ns =? 0) ||
     (inject_timestamp_ns <? server_rx_timestamp_ns) then server
  else server <| sv_last_input_inject_ns := inject_timestamp_ns |>
              <| sv_input_since_last_summary := true |>
              <| sv_summary_input_sequence := server.(sv_last_input_sequence) |>
              <| sv_input_since_last_fresh_tile := true |>.

Definition next_summary_epoch (server : wd_server) : wd_server :=
  let next := u64 (server.(sv_summary_epoch) + 1) in
  server <| sv_summary_epoch := if next =? 0 then 1 else next |>.

(** The arrays of [n] tiles as [calloc] returns them; the scheduler is created
    when the first region is marked. *)
Definition calloc_tile_queues (server : wd_server) (n : Z) : wd_server :=
  let zeros {A} (v : A) := replicate (Z.to_nat n) v in
  server <| sv_tiles := zeros (mk_wd_tile_state 0 0 0) |>
         <| sv_dirty_epochs := zeros 0 |>
         <| sv_dirty_queued := zeros false |>
         <| sv_dirty_queue_enqueued_ns := zeros 0 |>
         <| sv_retransmit_queue := zeros 0 |>
         <| sv_retransmit_queued := zeros false |>
         <| sv_retransmit_queue_enqueued_ns := zeros 0 |>
         <| sv_retransmit_requested_generation := zeros 0 |>
         <| sv_summary_dirty_tiles := zeros false |>
         <| sv_summary_dirty_queue := zeros 0 |>
         <| sv_dirty_region_scheduler := NULL |>.

Definition clear_queue_counts (server : wd_server) : wd_server :=
  server <| sv_dirty_region_cursor := 0 |>
         <| sv_dirty_region_count := 0 |>
         <| sv_dirty_queue_count := 0 |>
         <| sv_retransmit_queue_count := 0 |>
         <| sv_summary_dirty_count := 0 |>.

(** A resize, from the moment the encoder is idle.  [content_epoch] is what the
    reset of the video stream leaves. *)
Definition wd_server_apply_display_size (server : wd_server) (width height content_epoch : Z)
    (alloc_ok output_ok : bool) : wd_server * bool :=
  let g := server.(sv_geometry) in
  if (width =? 0) || (height =? 0) || (width >? WD_MAX_RENDER_WIDTH) || (height >? WD_MAX_RENDER_HEIGHT)
  then (server, false)
  else if (g.(tg_display_width) =? width) && (g.(tg_display_height) =? height) then (server, true)
  else
    match wd_server_compute_geometry g.(tg_tile_width) g.(tg_tile_height) width height with
    | None => (server, false)
    | Some next_geometry =>
        if negb alloc_ok || negb output_ok then (server, false)
        else
          let next_generation := u64 (server.(sv_framebuffer_generation) + 1) in
          let next_config := u64 (server.(sv_config_epoch) + 1) in
          let server := calloc_tile_queues server next_geometry.(tg_total_tiles) in
          let server :=
            server <| sv_geometry := next_geometry |>
                   <| sv_framebuffer_generation := if next_generation =? 0 then 1 else next_generation |>
                   <| sv_config_epoch := if next_config =? 0 then 1 else next_config |>
                   <| sv_input_correlation_inflight_sequence := 0 |>
                   <| sv_config_update_pending := true |> in
          let server := clear_queue_counts (next_summary_epoch server) in
          (wd_stream_invalidate_all_tiles_locked (server <| sv_content_epoch := content_epoch |>), true)
    end.

(** ** The network thread *)

(** The queues of a new session. *)
Definition reset_tile_queues (server : wd_server) : wd_server :=
  let clear {A} (v : A) (l : list A) := (fun _ => v) <$> l in
  let server :=
    server <| sv_dirty_region_scheduler :=
                wd_dirty_region_scheduler_reset <$> server.(sv_dirty_region_scheduler) |>
           <| sv_dirty_queued := clear false server.(sv_dirty_queued) |>
           <| sv_dirty_queue_enqueued_ns := clear 0 server.(sv_dirty_queue_enqueued_ns) |>
           <| sv_retransmit_queued := clear false server.(sv_retransmit_queued) |>
           <| sv_retransmit_queue_enqueued_ns := clear 0 server.(sv_retransmit_queue_enqueued_ns) |>
           <| sv_retransmit_requested_generation := clear 0 server.(sv_retransmit_requested_generation) |>
           <| sv_summary_dirty_tiles := clear false server.(sv_summary_dirty_tiles) |> in
  let server := wd_stream_invalidate_all_tiles_locked (clear_queue_counts (next_summary_epoch server)) in
  server <| sv_config_update_pending := false |>
         <| sv_input_since_last_summary := false |>
         <| sv_summary_input_sequence := 0 |>
         <| sv_input_since_last_fresh_tile := false |>
         <| sv_last_input_sequence := 0 |>
         <| sv_last_input_inject_ns := 0 |>
         <| sv_input_correlation_inflight_sequence := 0 |>.

Definition repair_tile (server : wd_server) (entry : wd_tile_repair_entry) (now_ns : Z) : wd_server * Z :=
  if entry.(re_tile_id) >=? server.(sv_geometry).(tg_total_tiles) then (server, 0)
  else
    let tile := aget (mk_wd_tile_state 0 0 0) server.(sv_tiles) entry.(re_tile_id) in
    let requested := entry.(re_requested_generation) in
    let '(server, requested) :=
      if negb (requested =? 0) && (tile.(ti_generation) >? requested)
      then (count ss_retx_req_upgraded_generation 1 server, 0) else (server, requested) in
    let '(server, accepted) :=
      wd_stream_queue_retransmit_tile_locked server entry.(re_tile_id) requested now_ns in
    (server, Z.b2z accepted).

(** A tile repair request as it arrives on the control channel of a session. *)
Definition receive_tile_repair_request (server : wd_server) (session_id connection_token : Z)
    (payload : list Z) (now_ns : Z) : wd_server :=
  let header_size := sizeof wd_tile_repair_request_payload_header in
  match decode (A := wd_tile_repair_request_payload_header) payload with
  | None => server
  | Some rh =>
      if (rh.(rr_session_id) =? session_id) && (rh.(rr_connection_token) =? connection_token) &&
         wd_counted_payload_size_is_valid (zlen payload) header_size rh.(rr_request_count)
           (sizeof wd_tile_repair_entry)
      then
        if negb (rh.(rr_content_epoch) =? server.(sv_content_epoch)) ||
           negb (wd_tile_repair_count_is_valid rh.(rr_request_count) server.(sv_geometry).(tg_total_tiles))
        then server
        else
          let '(server, accepted) :=
            fold_left (fun '(server, accepted) i =>
                match decode (slice (header_size + i * sizeof wd_tile_repair_entry)
                                (sizeof wd_tile_repair_entry) payload) with
                | None => (server, accepted)
                | Some entry =>
                    let '(server, n) := repair_tile server entry now_ns in (server, u64 (accepted + n))
                end) (zseq rh.(rr_request_count)) (count ss_retx_req_rx 1 server, 0) in
          count ss_retx_tiles_req accepted server
      else server
  end.

(** ** Steps of other threads *)

(** What other threads may do whenever the lock is free. *)
Inductive tile_op :=
  | DeliveryFinished (delivery : wd_udp_tile_delivery) (failed : bool) (now_ns : Z) (alloc_ok : bool)
  | RepairRequest (session_id connection_token : Z) (payload : list Z) (now_ns : Z)
  | InputInjected (server_rx_timestamp_ns inject_timestamp_ns : Z)
  | SendSummary (full_summary : bool) (dropped : list wd_summary_completion)
      (busy payload_alloc completion_alloc accepted : bool) (now_ns : Z)
  | SummaryFinished (completion : wd_summary_completion) (success : bool)
  | SessionReset.

Definition tile_op_step (server : wd_server) (op : tile_op) : wd_server :=
  match op with
  | DeliveryFinished delivery failed now_ns alloc_ok =>
      wd_stream_finish_udp_tile_delivery server delivery failed now_ns alloc_ok
  | RepairRequest session_id connection_token payload now_ns =>
      receive_tile_repair_request server session_id connection_token payload now_ns
  | InputInjected rx inject => wd_stats_note_pointer_input_inject_locked server rx inject
  | SendSummary full dropped busy pa ca accepted now_ns =>
      ((if full then wd_stream_send_generation_summary_locked server
        else wd_stream_send_pending_generation_summary_locked server) dropped busy pa ca accepted now_ns).(su_server)
  | SummaryFinished completion success => wd_stream_summary_completion server completion success
  | SessionReset => reset_tile_queues server
  end.

Definition tile_ops (ops : list tile_op) (server : wd_server) : wd_server :=
  fold_left tile_op_step ops server.

(** ** The invariant of the queues *)

(** Region [r] waits in scheduler [d]. *)
Definition waits (d : wd_dirty_region_scheduler) (r : Z) : Prop := waiting d.(ds_capacity) (queue_of d) r.

Lemma enqueue_waits d r now : sched_ok d -> 0 <= r < d.(ds_capacity) -> 0 <= now ->
  let d' := (wd_dirty_region_scheduler_enqueue true d r now).2 in
  sched_ok d' /\ d'.(ds_capacity) = d.(ds_capacity) /\ waits d' r /\ (forall r', waits d r' -> waits d' r').
Proof.
  intros Hd Hr Hn. pose proof (enqueue_ok true d r now Hd ltac:(lia) Hn) as E.
  destruct (wd_dirty_region_scheduler_enqueue true d r now) as [b d'] eqn:Ee.
  destruct E as (Hok & Hcap & _ & St). cbn [snd]. split; [done |]. split; [done |].
  unfold waits, waiting in *. rewrite Hcap. remember (queue_of d') as q' eqn:Eq'. clear Eq'.
  inversion St as [? ? ? ?|? ? ? Hw|? ? ? ? Hf| | | | | | |]; subst; [lia | |].
  - split; [done | by intros].
  - cbn [q_queued queue_of]. pose proof (sh_queued _ (ok_shape _ Hd)) as Hlen. split.
    + split; [done |]. apply aget_aset_eq. lia.
    + intros r' [Hr' Hw]. split; [done |]. destruct (Z.eq_dec r r') as [->|Hne].
      * apply aget_aset_eq. lia.
      * rewrite aget_aset_ne by lia. done.
Qed.

Lemma forget_waits d r : sched_ok d -> 0 <= r ->
  let d' := wd_dirty_region_scheduler_forget d r in
  sched_ok d' /\ d'.(ds_capacity) = d.(ds_capacity) /\ (forall r', waits d r' -> r' <> r -> waits d' r') /\
  d'.(ds_count) <= d.(ds_count).
Proof.
  intros Hd Hr d'. destruct (forget_ok d r Hd Hr) as [Hok St]. destruct (forget_const d r) as [Hcap _].
  fold d' in Hok, Hcap, St. split; [done |]. split; [done |].
  rewrite (ok_count _ Hok), (ok_count _ Hd). pose proof (sh_queued _ (ok_shape _ Hd)) as Hlen.
  unfold waits, waiting. rewrite Hcap. change (ds_queued d') with (queue_of d').(q_queued).
  remember (queue_of d') as q' eqn:Eq'. clear Eq'.
  inversion St as [| | | | | | | |? Hr2 |]; subst; [split; [done | cbn [queue_of q_queued]; lia] |].
  cbn [q_queued queue_of]. split.
  - intros r' [Hr' Hw] Hne. split; [done |]. rewrite aget_aset_ne by lia. done.
  - rewrite n_queued_aset by lia. destruct (aget false (ds_queued d) r); cbn [Z.b2z]; lia.
Qed.

Lemma take_waits d cursor now : sched_ok d -> u64_ok now ->
  let '(o, d') := wd_dirty_region_scheduler_take d cursor now in
  sched_ok d' /\ d'.(ds_capacity) = d.(ds_capacity) /\
  (forall r, waits d r -> o = Some r \/ waits d' r) /\ (forall r, o = Some r -> waits d r) /\
  (forall r, o = Some r -> d'.(ds_count) = d.(ds_count) - 1) /\ (o = None -> d'.(ds_count) = d.(ds_count)).
Proof.
  intros Hd Hn. pose proof (take_ok d cursor now Hd Hn) as T.
  destruct (wd_dirty_region_scheduler_take d cursor now) as [o d'].
  destruct T as (Hok & Hcap & _ & St). split; [done |]. split; [done |].
  assert (forall r, waits d r -> queue_of d' = dequeue (queue_of d) r ->
    (forall r', waits d r' -> Some r = Some r' \/ waits d' r') /\ d'.(ds_count) = d.(ds_count) - 1) as Hdeq.
  { intros r [Hr Hw] E. pose proof (sh_queued _ (ok_shape _ Hd)) as Hlen.
    assert (d'.(ds_queued) = aset d.(ds_queued) r false) as Eq by by injection E. split.
    - intros r' [Hr' Hw']. destruct (Z.eq_dec r r') as [->|Hne]; [by left | right].
      split; [by rewrite Hcap |]. cbn [queue_of q_queued]. rewrite Eq, aget_aset_ne by lia. done.
    - rewrite (ok_count _ Hok), (ok_count _ Hd), Eq, n_queued_aset by lia.
      cbn [queue_of q_queued] in Hw. rewrite Hw. cbn [Z.b2z]. lia. }
  remember (queue_of d') as q' eqn:Eq'.
  inversion St as [| | | |? ? Hno |? ? r Hs ? |? ? r Hw | | |]; subst.
  - split_and!; [| done | done |]; [intros r Hw; by destruct (Hno r) |]. intros _.
    rewrite (ok_count _ Hok), (ok_count _ Hd).
    change (n_queued (queue_of d').(q_queued) = n_queued (queue_of d).(q_queued)). congruence.
  - destruct (Hdeq r) as [H1 H2]; [apply Hs | done |]. split_and!; [done | | done | done].
    intros ? [= <-]. apply Hs.
  - destruct (Hdeq r) as [H1 H2]; [done | done |]. split_and!; [done | by intros ? [= <-] | done | done].
Qed.

Lemma reset_waits d : sched_ok d ->
  sched_ok (wd_dirty_region_scheduler_reset d) /\
  (wd_dirty_region_scheduler_reset d).(ds_capacity) = d.(ds_capacity) /\
  (wd_dirty_region_scheduler_reset d).(ds_count) = 0.
Proof. intros Hd. destruct (reset_ok d Hd) as [Hok _]. done. Qed.

(** The region of a base tile and the number of regions. *)
Definition region_of (g : tile_geometry) (t : Z) : Z :=
  wire_of g WD_WIRE_TILE_MAX_WIDTH WD_WIRE_TILE_MAX_HEIGHT t.
Definition region_total (g : tile_geometry) : Z :=
  wd_total_tiles_for_size_with_tile g.(tg_display_width) g.(tg_display_height)
    WD_WIRE_TILE_MAX_WIDTH WD_WIRE_TILE_MAX_HEIGHT.

Lemma top_size : wire_size WD_WIRE_TILE_MAX_WIDTH WD_WIRE_TILE_MAX_HEIGHT.
Proof. by left. Qed.

Lemma region_total_eq g : grid_ok g ->
  region_total g = wd_tiles_for_width_with_tile g.(tg_display_width) WD_WIRE_TILE_MAX_WIDTH *
                   wd_tiles_for_height_with_tile g.(tg_display_height) WD_WIRE_TILE_MAX_HEIGHT /\
  0 < region_total g <= UINT16_MAX /\
  0 < wd_tiles_for_width_with_tile g.(tg_display_width) WD_WIRE_TILE_MAX_WIDTH.
Proof.
  intros G. destruct (wire_grid g G _ _ top_size) as (kx & ky & _ & _ & _ & _ & _ & _ & _ & _ & Hx & Hy).
  unfold region_total, wd_total_tiles_for_size_with_tile.
  set (wx := wd_tiles_for_width_with_tile _ _) in *. set (wy := wd_tiles_for_height_with_tile _ _) in *.
  assert (0 < wx * wy <= 256 * 135) as Hb by nia. rewrite (u32_small (wx * wy)) by mlia.
  rewrite !(proj2 (Z.eqb_neq _ _)) by lia. rewrite Z.gtb_ltb, (proj2 (Z.ltb_ge _ _)) by mlia. cbn [orb].
  rewrite u16_small by mlia. mlia.
Qed.

Lemma region_of_range g t : grid_ok g -> 0 <= t < g.(tg_total_tiles) -> 0 <= region_of g t < region_total g.
Proof.
  intros G Ht. destruct (region_total_eq g G) as (-> & _). apply (wire_of_range g G _ _ top_size t Ht).
Qed.

(** The dirty tiles and their regions; [held r] when region [r] was taken from
    the scheduler by a pass that still has to give it back. *)
Record dirty_ok (held : Z -> Prop) (g : tile_geometry) (queued : list bool) (n : Z)
    (sched : ptr wd_dirty_region_scheduler) (regions : Z) : Prop := {
  do_length : zlen queued = g.(tg_total_tiles);
  do_count : n = n_queued queued;
  do_sched : forall d, sched = Some d -> sched_ok d /\ d.(ds_capacity) = region_total g;
  do_regions : regions = match sched with NULL => 0 | Some d => d.(ds_count) end;
  do_waits : forall t, 0 <= t < g.(tg_total_tiles) -> aget false queued t = true ->
    held (region_of g t) \/ exists d, sched = Some d /\ waits d (region_of g t);
}.

(** The repair queue: every mark has a slot, and no marked tile is dirty. *)
Record repair_ok (total : Z) (dirty marks : list bool) (slots : list Z) (n : Z) : Prop := {
  po_length : zlen marks = total /\ zlen slots = total;
  po_count : 0 <= n <= total;
  po_slots : Forall (fun t => 0 <= t) (take (Z.to_nat n) slots);
  po_marks : forall t, 0 <= t < total -> aget false marks t = true ->
    aget false dirty t = false /\ t ∈ take (Z.to_nat n) slots;
}.

(** The summary queue lists the marked tiles, each once. *)
Record summary_ok (total : Z) (marks : list bool) (slots : list Z) (n : Z) : Prop := {
  so_length : zlen marks = total /\ zlen slots = total;
  so_count : 0 <= n <= total;
  so_nodup : NoDup (take (Z.to_nat n) slots);
  so_marks : forall t, t ∈ take (Z.to_nat n) slots <-> 0 <= t < total /\ aget false marks t = true;
}.

Definition queues_ok (held : Z -> Prop) (s : wd_server) : Prop :=
  let total := s.(sv_geometry).(tg_total_tiles) in
  grid_ok s.(sv_geometry) /\
  dirty_ok held s.(sv_geometry) s.(sv_dirty_queued) s.(sv_dirty_queue_count) s.(sv_dirty_region_scheduler)
    s.(sv_dirty_region_count) /\
  repair_ok total s.(sv_dirty_queued) s.(sv_retransmit_queued) s.(sv_retransmit_queue) s.(sv_retransmit_queue_count) /\
  summary_ok total s.(sv_summary_dirty_tiles) s.(sv_summary_dirty_queue) s.(sv_summary_dirty_count) /\
  Forall (eq total) [zlen s.(sv_tiles); zlen s.(sv_dirty_epochs); zlen s.(sv_dirty_queue_enqueued_ns);
    zlen s.(sv_retransmit_queue_enqueued_ns); zlen s.(sv_retransmit_requested_generation)].

Lemma grid_total g : grid_ok g -> 0 < g.(tg_total_tiles).
Proof. intros G. pose proof (grid_bounds g G). nia. Qed.

Lemma zlen_not_null {A} (l : list A) : 0 < zlen l -> null l = false.
Proof. by destruct l. Qed.

Lemma held_weaken (held held' : Z -> Prop) s : (forall r, held r -> held' r) -> queues_ok held s -> queues_ok held' s.
Proof.
  intros Hw (G & D & R). split; [done |]. split; [| done]. destruct D as [D1 D2 D3 D4 D5]. split; try done.
  intros t Ht Hd. destruct (D5 t Ht Hd) as [?|?]; [left; by apply Hw | by right].
Qed.

(** Lengths and counters of the arrays that no queue depends on. *)
Ltac lengths := rewrite ?zlen_aset, ?zlen_fmap; done.

(** *** Regions *)

Lemma still_dirty_spec held s r : queues_ok held s -> 0 <= r < region_total s.(sv_geometry) ->
  wd_stream_top_region_still_dirty_locked s r = true <->
  exists t, 0 <= t < s.(sv_geometry).(tg_total_tiles) /\ region_of s.(sv_geometry) t = r /\
    aget false s.(sv_dirty_queued) t = true.
Proof.
  intros (G & D & _) Hr. unfold wd_stream_top_region_still_dirty_locked.
  rewrite zlen_not_null by (rewrite (do_length _ _ _ _ _ _ D); by apply grid_total).
  destruct (region_total_eq _ G) as (Er & _). rewrite Er in Hr.
  destruct (collect_spec _ G _ _ top_size r Hr) as (ids & -> & _ & _ & _ & Hmem).
  rewrite existsb_exists. split.
  - intros (t & Hin & Ht). bool_cases. apply list_elem_of_In, Hmem in Hin as [Hb Hw]. by exists t.
  - intros (t & Ht & Hw & Hd). exists t. split; [apply list_elem_of_In, Hmem; done |].
    rewrite Hd, (proj2 (Z.ltb_lt _ _)) by lia. done.
Qed.

Section regions.
Context (held : Z -> Prop) (s : wd_server).

(** Marking a region gives it back to the scheduler. *)
Lemma mark_region_ok t now : 0 <= t < s.(sv_geometry).(tg_total_tiles) -> 0 <= now ->
  queues_ok (fun r => held r \/ r = region_of s.(sv_geometry) t) s ->
  queues_ok held (wd_stream_mark_dirty_top_region_locked s t now true).
Proof.
  intros Ht Hn (G & D & R). unfold wd_stream_mark_dirty_top_region_locked.
  rewrite (top_region_spec _ _ G Ht). fold (region_of s.(sv_geometry) t).
  pose proof (region_of_range _ _ G Ht) as Hr. destruct D as [D1 D2 D3 D4 D5].
  assert (exists d, wd_stream_dirty_region_scheduler_locked s true = s <| sv_dirty_region_scheduler := Some d |> /\
    sched_ok d /\ d.(ds_capacity) = region_total s.(sv_geometry) /\
    forall r, (exists d, s.(sv_dirty_region_scheduler) = Some d /\ waits d r) -> waits d r) as (d & -> & Hd & Hc & Hkeep).
  { unfold wd_stream_dirty_region_scheduler_locked. destruct (sv_dirty_region_scheduler s) as [d|] eqn:E.
    - exists d. destruct (D3 d eq_refl). split_and!; try done; [| by intros r (? & [= <-] & ?)].
      rewrite <- E. by destruct s.
    - destruct (region_total_eq _ G) as (_ & Ht2 & Hx). unfold wd_dirty_region_scheduler_create.
      fold (region_total s.(sv_geometry)). rewrite !(proj2 (Z.eqb_neq _ _)) by lia. cbn [orb negb].
      eexists. split; [reflexivity |]. split_and!; [| done | by intros r (? & ? & _)].
      replace (region_total s.(sv_geometry) + 63) with (region_total s.(sv_geometry) + 64 - 1) by lia.
      apply empty_ok; try done; try lia. unfold zlen. rewrite length_replicate. lia. }
  cbn [sv_dirty_region_scheduler set_field].
  destruct (enqueue_waits d (region_of s.(sv_geometry) t) now Hd) as (Hd' & Hc' & Hw & Hk); [by rewrite Hc | done |].
  destruct (wd_dirty_region_scheduler_enqueue true d _ now) as [b d']. cbn [snd] in Hd', Hc', Hw, Hk.
  split; [done |]. split; [| done]. split; try done.
  - intros ? [= <-]. split; [done |]. by rewrite Hc'.
  - intros t' Ht' Hd2. destruct (D5 t' Ht' Hd2) as [[?|Eq]|?]; [by left | right | right].
    + exists d'. split; [done |]. change (waits d' (region_of s.(sv_geometry) t')). by rewrite Eq.
    + exists d'. split; [done |]. by apply Hk, Hkeep.
Qed.

(** Removing a region that has no dirty tile. *)
Lemma remove_region_ok r : 0 <= r < region_total s.(sv_geometry) ->
  wd_stream_top_region_still_dirty_locked s r = false ->
  queues_ok (fun r' => held r' \/ r' = r) s ->
  queues_ok held (wd_stream_remove_dirty_top_region_locked s r).
Proof.
  intros Hr Hs Q. assert (forall t, 0 <= t < s.(sv_geometry).(tg_total_tiles) ->
    aget false s.(sv_dirty_queued) t = true -> region_of s.(sv_geometry) t <> r) as Hne.
  { intros t Ht Hd E. apply not_true_iff_false in Hs. apply Hs, (still_dirty_spec _ _ r Q Hr). by exists t. }
  destruct Q as (G & [D1 D2 D3 D4 D5] & R). unfold wd_stream_remove_dirty_top_region_locked.
  destruct (sv_dirty_region_scheduler s) as [d|] eqn:Es.
  - destruct (D3 d eq_refl) as [Hd Hc]. destruct (forget_waits d r Hd ltac:(lia)) as (Hd' & Hc' & Hk & _).
    split; [done |]. split; [| done]. split; try done.
    + intros ? [= <-]. split; [done |]. by rewrite Hc'.
    + intros t Ht Hq. destruct (D5 t Ht Hq) as [[?|?]|(d0 & [= <-] & ?)]; [by left | by destruct (Hne t) | right].
      eexists. split; [reflexivity |]. apply Hk; [done | by apply Hne].
  - split; [done |]. split; [| done]. rewrite Es. split; try done.
    intros t Ht Hq. destruct (D5 t Ht Hq) as [[?|?]|?]; [by left | by destruct (Hne t) | by right].
Qed.

(** Taking a region: the pass holds it from now on. *)
Lemma take_region_ok d cursor now : s.(sv_dirty_region_scheduler) = Some d -> u64_ok now -> queues_ok held s ->
  let '(top, d') := wd_dirty_region_scheduler_take d cursor now in
  let s' := s <| sv_dirty_region_scheduler := Some d' |> in
  match top with
  | None => queues_ok held s'
  | Some r => let s' := wd_stream_sync_dirty_region_count_locked s' in
      queues_ok (fun x => held x \/ x = r) s' /\ 0 <= r < region_total s.(sv_geometry) /\
      s'.(sv_dirty_region_count) = s.(sv_dirty_region_count) - 1
  end.
Proof.
  intros Es Hn (G & [D1 D2 D3 D4 D5] & R). destruct (D3 d Es) as [Hd Hc]. rewrite Es in D4.
  pose proof (take_waits d cursor now Hd Hn) as T.
  destruct (wd_dirty_region_scheduler_take d cursor now) as [top d'].
  destruct T as (Hd' & Hc' & Hkeep & Hfrom & Hsome & Hnone).
  assert (forall x, Some d' = Some x -> sched_ok x /\ x.(ds_capacity) = region_total s.(sv_geometry)) as Hsch
    by (intros ? [= <-]; split; [done | by rewrite Hc']).
  assert (forall t, 0 <= t < s.(sv_geometry).(tg_total_tiles) -> aget false s.(sv_dirty_queued) t = true ->
    (held (region_of s.(sv_geometry) t) \/ top = Some (region_of s.(sv_geometry) t)) \/
    exists x, Some d' = Some x /\ waits x (region_of s.(sv_geometry) t)) as Hw.
  { intros t Ht Hdt. destruct (D5 t Ht Hdt) as [?|(d0 & E0 & Hw)]; [left; by left |].
    rewrite Es in E0. injection E0 as <-. destruct (Hkeep _ Hw); [left; by right | right; by exists d']. }
  destruct top as [r|]; cbv zeta.
  - split_and!; [| | | cbn [sv_dirty_region_count set_field wd_stream_sync_dirty_region_count_locked]].
    + split; [done |]. split; [| done]. split; try done.
      intros t Ht Hdt. destruct (Hw t Ht Hdt) as [[?|[= ->]]|?]; [left; by left | left; by right | by right].
    + destruct (Hfrom r eq_refl) as [Hr _]. lia.
    + destruct (Hfrom r eq_refl) as [Hr _]. rewrite Hc in Hr. apply Hr.
    + rewrite D4. exact (Hsome r eq_refl).
  - split; [done |]. split; [| done]. split; try done.
    + cbn [sv_dirty_region_count sv_dirty_region_scheduler set_field]. by rewrite Hnone.
    + intros t Ht Hdt. destruct (Hw t Ht Hdt) as [[?|?]|?]; [by left | done | by right].
Qed.

Lemma remove_region_count r : 0 <= r -> queues_ok held s ->
  (wd_stream_remove_dirty_top_region_locked s r).(sv_dirty_region_count) <= s.(sv_dirty_region_count).
Proof.
  intros Hr (G & [D1 D2 D3 D4 D5] & _). unfold wd_stream_remove_dirty_top_region_locked.
  destruct (sv_dirty_region_scheduler s) as [d|] eqn:Es; [| lia].
  destruct (forget_waits d r (proj1 (D3 d eq_refl)) Hr) as (_ & _ & _ & Hle). rewrite D4. exact Hle.
Qed.

Lemma maybe_clear_region_ok t : 0 <= t < s.(sv_geometry).(tg_total_tiles) ->
  queues_ok held s -> queues_ok held (wd_stream_maybe_clear_dirty_top_region_for_base_locked s t).
Proof.
  intros Ht Q. unfold wd_stream_maybe_clear_dirty_top_region_for_base_locked.
  rewrite (top_region_spec _ _ (proj1 Q) Ht). case_if; [| done]. bool_cases.
  apply remove_region_ok; [by apply region_of_range, Ht; apply Q | done |].
  revert Q. apply held_weaken. by left.
Qed.

Lemma requeue_region_ok r now : 0 <= r < region_total s.(sv_geometry) -> 0 <= now ->
  queues_ok (fun r' => held r' \/ r' = r) s ->
  queues_ok held (wd_stream_requeue_dirty_top_region_locked s r now true).
Proof.
  intros Hr Hn Q. pose proof (still_dirty_spec _ _ r Q Hr) as Hs. unfold wd_stream_requeue_dirty_top_region_locked.
  pose proof (proj1 Q) as G. destruct (region_total_eq _ G) as (Er & _).
  destruct (collect_spec _ G _ _ top_size r ltac:(rewrite Er in Hr; lia)) as (ids & -> & _ & Hne & _ & Hmem).
  destruct (wd_stream_top_region_still_dirty_locked s r); cbn [negb].
  - destruct ids as [|t ids]; [done |]. destruct (proj1 (Hmem t) ltac:(left)) as [Ht Hw].
    apply mark_region_ok; [done | done |]. revert Q. apply held_weaken. intros r' [?| ->]; [by left | by right].
  - destruct Q as (_ & [D1 D2 D3 D4 D5] & R). split; [done |]. split; [| done]. split; try done.
    intros t Ht Hq. destruct (D5 t Ht Hq) as [[?|E]|?]; [by left | | by right].
    destruct Hs as [_ Hs]. discriminate Hs. by exists t.
Qed.

End regions.

(** *** The dirty queue *)

Lemma n_queued_room l i : 0 <= i < zlen l -> aget false l i = false -> n_queued l < zlen l.
Proof.
  intros Hi Ha. pose proof (n_queued_range (aset l i true)) as Hr. rewrite zlen_aset, n_queued_aset, Ha in Hr by done.
  cbn [Z.b2z] in Hr. lia.
Qed.

Lemma note_cleared_ok held s t : 0 <= t < s.(sv_geometry).(tg_total_tiles) ->
  queues_ok held s -> queues_ok held (wd_dirty_queue_note_cleared_locked s t).
Proof.
  intros Ht (G & [D1 D2 D3 D4 D5] & [P1 P2 P3 P4] & S' & A). unfold wd_dirty_queue_note_cleared_locked.
  case_if; [done |]. bool_cases. split; [done |]. split_and!.
  - split; cbn [sv_dirty_queued sv_dirty_queue_count set_field]; try done.
    + by rewrite zlen_aset.
    + rewrite n_queued_aset by lia. rewrite H0, D2. pose proof (n_queued_pos (sv_dirty_queued s) t ltac:(lia) H0).
      rewrite Z.gtb_ltb, (proj2 (Z.ltb_lt _ _)) by lia. cbn [Z.b2z]. lia.
    + intros t' Ht'. destruct (Z.eq_dec t t') as [->|Hne].
      * rewrite aget_aset_eq by lia. done.
      * rewrite aget_aset_ne by lia. by apply D5.
  - split; try done. intros t' Ht' Hm. destruct (P4 t' Ht' Hm) as [Hd Hin]. split; [| done].
    cbn [sv_dirty_queued set_field]. destruct (Z.eq_dec t t') as [->|Hne].
    + rewrite aget_aset_eq by lia. done.
    + by rewrite aget_aset_ne by lia.
  - done.
  - revert A. rewrite !list.Forall_cons. cbn [sv_dirty_queue_enqueued_ns set_field]. by rewrite zlen_aset.
Qed.

Lemma drop_marks_ok s t dirty : let total := s.(sv_geometry).(tg_total_tiles) in
  0 <= t < total ->
  repair_ok total dirty s.(sv_retransmit_queued) s.(sv_retransmit_queue) s.(sv_retransmit_queue_count) ->
  repair_ok total (aset dirty t true) (aset s.(sv_retransmit_queued) t false) s.(sv_retransmit_queue)
    s.(sv_retransmit_queue_count) /\
  repair_ok total dirty (aset s.(sv_retransmit_queued) t false) s.(sv_retransmit_queue) s.(sv_retransmit_queue_count).
Proof.
  intros total Ht [[P1 P1'] P2 P3 P4].
  assert (forall t', 0 <= t' < total -> aget false (aset s.(sv_retransmit_queued) t false) t' = true ->
    t' <> t /\ aget false s.(sv_retransmit_queued) t' = true) as Hm.
  { intros t' Ht' Hq. destruct (Z.eq_dec t t') as [->|Hne].
    - rewrite aget_aset_eq in Hq by lia. done.
    - rewrite aget_aset_ne in Hq by lia. by split. }
  split; (split; [by rewrite zlen_aset | done | done |]); intros t' Ht' Hq; destruct (Hm t' Ht' Hq) as [Hne Hq'];
    destruct (P4 t' Ht' Hq') as [Hd Hin]; [| done].
  rewrite aget_aset_ne by lia. done.
Qed.

(** A pushed tile is dirty; its region is owed to the scheduler. *)
Lemma push_ok held s t now : 0 <= t < s.(sv_geometry).(tg_total_tiles) -> queues_ok held s ->
  let '(s', pushed) := wd_dirty_queue_push_locked s t now in
  pushed = true /\ s'.(sv_geometry) = s.(sv_geometry) /\
  queues_ok (fun r => held r \/ r = region_of s.(sv_geometry) t) s'.
Proof.
  intros Ht Q. pose proof Q as (G & [D1 D2 D3 D4 D5] & P & S' & A). unfold wd_dirty_queue_push_locked.
  rewrite Z.geb_leb, (proj2 (Z.leb_gt _ _)) by lia. rewrite (zlen_not_null (sv_dirty_queued s)) by lia.
  cbn [orb]. destruct (aget false (sv_dirty_queued s) t) eqn:Ed.
  { split_and!; try done. revert Q. apply held_weaken. by left. }
  pose proof (n_queued_room (sv_dirty_queued s) t ltac:(lia) Ed) as Hroom.
  rewrite Z.geb_leb, (proj2 (Z.leb_gt _ _)) by lia.
  assert (dirty_ok (fun r => held r \/ r = region_of s.(sv_geometry) t) s.(sv_geometry)
    (aset s.(sv_dirty_queued) t true) (s.(sv_dirty_queue_count) + 1) s.(sv_dirty_region_scheduler)
    s.(sv_dirty_region_count)) as Hdirty.
  { split; try done.
    - by rewrite zlen_aset.
    - rewrite n_queued_aset, Ed by lia. cbn [Z.b2z]. lia.
    - intros t' Ht' Hq. destruct (Z.eq_dec t t') as [->|Hne]; [left; by right |].
      rewrite aget_aset_ne in Hq by lia. destruct (D5 t' Ht' Hq) as [?|?]; [left; by left | by right]. }
  destruct (drop_marks_ok s t _ Ht P) as [P' _].
  destruct (negb (null s.(sv_retransmit_queued)) && aget false s.(sv_retransmit_queued) t) eqn:Em.
  - split; [done |]. split; [done |]. split; [done |]. split; [exact Hdirty |]. split; [exact P' |]. split; [done |].
    revert A. rewrite !list.Forall_cons. cbn. by rewrite !zlen_aset.
  - split; [done |]. split; [done |]. split; [done |]. split; [exact Hdirty |]. split; [| split; [done |]].
    + destruct P as [P1 P2 P3 P4]. split; try done. intros t' Ht' Hq.
      change (aget false (sv_retransmit_queued s) t' = true) in Hq. destruct (P4 t' Ht' Hq) as [Hd Hin].
      split; [| done]. cbn [sv_dirty_queued set_field]. rewrite aget_aset_ne; try lia; [done |].
      intros ->. rewrite zlen_not_null in Em by (rewrite (proj1 P1); lia). cbn [negb andb] in Em. congruence.
    + revert A. rewrite !list.Forall_cons. cbn. by rewrite !zlen_aset.
Qed.

Lemma bump_ok held s t : queues_ok held s ->
  queues_ok held (bump_dirty_epoch s t) /\ (bump_dirty_epoch s t).(sv_geometry) = s.(sv_geometry).
Proof.
  intros Q. unfold bump_dirty_epoch. destruct (null _); [done |]. split; [| done].
  destruct Q as (? & ? & ? & ? & A). split_and!; try done.
  revert A. rewrite !list.Forall_cons. cbn. by rewrite !zlen_aset.
Qed.

Lemma detect_ok held s t now : 0 <= t < s.(sv_geometry).(tg_total_tiles) -> 0 <= now ->
  queues_ok held s ->
  let s' := wd_detect_one_dirty_tile_into_queue_locked s t now true in
  queues_ok held s' /\ s'.(sv_geometry) = s.(sv_geometry).
Proof.
  intros Ht Hn Q s'. subst s'. unfold wd_detect_one_dirty_tile_into_queue_locked.
  rewrite Z.geb_leb, (proj2 (Z.leb_gt _ _)) by lia.
  destruct (bump_ok held s t Q) as [Q1 E1].
  pose proof (push_ok held (bump_dirty_epoch s t) t now) as Hp. rewrite E1 in Hp. specialize (Hp Ht Q1).
  destruct (wd_dirty_queue_push_locked _ t now) as [s1 pushed]. destruct Hp as (-> & E2 & Q2).
  assert (sv_geometry (wd_stream_mark_dirty_top_region_locked s1 t now true) = sv_geometry s1) as E3.
  { unfold wd_stream_mark_dirty_top_region_locked, wd_stream_dirty_region_scheduler_locked.
    destruct (wd_stream_top_region_for_base_tile _ _); [| done]. destruct (sv_dirty_region_scheduler s1) eqn:Es.
    - rewrite Es. by destruct (wd_dirty_region_scheduler_enqueue _ _ _ _).
    - cbn [sv_dirty_region_scheduler set_field]. destruct (wd_dirty_region_scheduler_create _ _ _ _); [| done].
      by destruct (wd_dirty_region_scheduler_enqueue _ _ _ _). }
  split; [| congruence]. apply mark_region_ok; [by rewrite E2 | done | by rewrite E2].
Qed.

Lemma fold_detect_ok held (f : wd_server -> Z -> bool) ids now : 0 <= now -> forall s,
  Forall (fun t => 0 <= t) ids -> queues_ok held s ->
  let s' := fold_left (fun s t => if f s t
      then wd_detect_one_dirty_tile_into_queue_locked s t now true else s) ids s in
  queues_ok held s' /\ s'.(sv_geometry) = s.(sv_geometry).
Proof.
  intros Hn. induction ids as [|t ids IH]; intros s Hids Q; [done |]. cbn [fold_left].
  apply list.Forall_cons in Hids as [Ht Hids]. destruct (f s t); [| by apply IH].
  destruct (Z.lt_ge_cases t s.(sv_geometry).(tg_total_tiles)) as [Hlt|Hge].
  - destruct (detect_ok held s t now ltac:(lia) Hn Q) as [Q' E]. destruct (IH _ Hids Q') as [Q2 E2].
    split; [done |]. by rewrite E2.
  - unfold wd_detect_one_dirty_tile_into_queue_locked at 2 4.
    rewrite Z.geb_leb, (proj2 (Z.leb_le _ _)) by lia. by apply IH.
Qed.

(** *** The repair queue *)

Lemma take_snoc_slot {A} (l : list A) n (x : A) : 0 <= n < zlen l ->
  take (Z.to_nat (n + 1)) (aset l n x) = take (Z.to_nat n) l ++ [x].
Proof.
  unfold zlen, aset. intros Hn. replace (Z.to_nat (n + 1)) with (S (Z.to_nat n)) by lia.
  rewrite (take_S_r _ _ x) by (apply list_lookup_insert_eq; lia). by rewrite take_insert_ge.
Qed.

Lemma clear_all {A B} (v : B) (l : list A) t : aget v ((fun _ => v) <$> l) t = v.
Proof.
  replace ((fun _ => v) <$> l) with (replicate (length l) v).
  - apply aget_replicate.
  - induction l as [|x l IH]; [done |]. cbn [length replicate fmap list_fmap]. by rewrite IH.
Qed.

Lemma queue_retransmit_ok held s t gen now : 0 <= t -> queues_ok held s ->
  let s' := (wd_stream_queue_retransmit_tile_locked s t gen now).1 in
  queues_ok held s' /\ s'.(sv_geometry) = s.(sv_geometry).
Proof.
  intros Ht Q. pose proof Q as (G & D & [[P1 P1'] P2 P3 P4] & S' & A). cbv zeta.
  unfold wd_stream_queue_retransmit_tile_locked. pose proof (grid_total _ G) as Htot.
  case_if; [done |]. case_if; [done |]. case_if; [done |]. case_if; [done |]. case_if.
  { cbn [fst]. case_if; [| done]. split; [| done]. split_and!; try done.
    revert A. rewrite !list.Forall_cons. cbn. by rewrite !zlen_aset. }
  case_if; [done |]. bool_cases. cbn [fst].
  assert (aget false s.(sv_dirty_queued) t = false) as Hd.
  { match goal with H : _ && aget false (sv_dirty_queued s) t = false |- _ => rename H into Hq end.
    rewrite zlen_not_null in Hq by (rewrite (do_length _ _ _ _ _ _ D); lia). exact Hq. }
  split; [| done]. split; [done |]. split; [done |]. split; [| split; [done |]].
  - assert (take (Z.to_nat (s.(sv_retransmit_queue_count) + 1))
      (aset s.(sv_retransmit_queue) s.(sv_retransmit_queue_count) t) =
      take (Z.to_nat s.(sv_retransmit_queue_count)) s.(sv_retransmit_queue) ++ [t]) as Etake
      by (apply take_snoc_slot; lia).
    split; cbn [sv_retransmit_queued sv_retransmit_queue sv_retransmit_queue_count sv_geometry set_field].
    + by rewrite !zlen_aset.
    + lia.
    + rewrite Etake. apply list.Forall_app. split; [done | by constructor].
    + intros t' Ht' Hm. rewrite Etake, elem_of_app, list_elem_of_singleton.
      destruct (Z.eq_dec t t') as [<-|Hne]; [split; [done | by right] |].
      rewrite aget_aset_ne in Hm by lia. destruct (P4 t' Ht' Hm). split; [done | by left].
  - revert A. rewrite !list.Forall_cons. cbn. by rewrite !zlen_aset.
Qed.

Lemma compact_ok held s : queues_ok held s ->
  let s' := wd_stream_compact_retransmit_queue_locked s in
  queues_ok held s' /\ s'.(sv_geometry) = s.(sv_geometry) /\
  s'.(sv_retransmit_queue_count) <= s.(sv_retransmit_queue_count).
Proof.
  intros Q. pose proof Q as (G & D & [[P1 P1'] P2 P3 P4] & S' & A). cbv zeta.
  unfold wd_stream_compact_retransmit_queue_locked. case_if; [split_and!; [done | done | lia] |].
  set (old := take (Z.to_nat (sv_retransmit_queue_count s)) (sv_retransmit_queue s)) in *.
  set (f := fun t => _ && _). set (kept := List.filter f old).
  assert (length kept <= length old)%nat as Hlen by apply filter_length_le.
  assert (zlen old = s.(sv_retransmit_queue_count)) as Hold by (unfold zlen, old in *; rewrite length_take; lia).
  assert (take (Z.to_nat (zlen kept)) (kept ++ drop (length kept) s.(sv_retransmit_queue)) = kept) as Etake
    by (unfold zlen; rewrite Nat2Z.id; apply take_app_length).
  split_and!; [| done | unfold zlen in *; cbn [sv_retransmit_queue_count set_field]; lia].
  split; [done |]. split; [done |]. split; [| done].
  split; cbn [sv_retransmit_queued sv_retransmit_queue sv_retransmit_queue_count sv_geometry set_field].
  - split; [done |]. rewrite zlen_app. unfold zlen in *. rewrite length_drop. lia.
  - unfold zlen in *. lia.
  - rewrite Etake. apply list.Forall_forall. intros t [Hin _]%list_elem_of_In%filter_In.
    rewrite list.Forall_forall in P3. by apply P3, list_elem_of_In.
  - intros t Ht Hm. destruct (P4 t Ht Hm) as [Hd Hin]. split; [done |]. rewrite Etake.
    apply list_elem_of_In, filter_In. split; [by apply list_elem_of_In |]. subst f. cbv beta.
    rewrite Hm, (proj2 (Z.ltb_lt _ _)) by lia. done.
Qed.

Lemma clear_request_ok held s t now : 0 <= t < s.(sv_geometry).(tg_total_tiles) -> queues_ok held s ->
  queues_ok held (wd_stream_clear_retransmit_request_locked s t now).
Proof.
  intros Ht Q. unfold wd_stream_clear_retransmit_request_locked. case_if; [done |]. case_if; [done |].
  assert (forall s', queues_ok held s' -> s'.(sv_geometry) = s.(sv_geometry) -> queues_ok held (drop_retransmit_marks s' t))
    as Hdrop.
  { intros s' (G & D & P & S' & A) Eg. split; [done |]. split; [done |]. split; [| split; [done |]].
    - refine (proj2 (drop_marks_ok s' t _ _ P)). by rewrite Eg.
    - revert A. rewrite !list.Forall_cons. cbn. by rewrite !zlen_aset. }
  unfold wd_stream_note_queue_age_locked. case_if; by apply Hdrop.
Qed.

(** *** Summaries *)

Lemma mark_summary_ok held s t : 0 <= t -> queues_ok held s ->
  queues_ok held (wd_stream_mark_summary_dirty_locked s t).
Proof.
  intros Ht (G & D & P & [[S1 S1'] S2 S3 S4] & A). unfold wd_stream_mark_summary_dirty_locked.
  case_if; [done |]. case_if; [done |]. case_if; [done |]. case_if; [done |]. bool_cases.
  split; [done |]. split; [done |]. split; [done |]. split; [| done].
  assert (take (Z.to_nat (s.(sv_summary_dirty_count) + 1))
    (aset s.(sv_summary_dirty_queue) s.(sv_summary_dirty_count) t) =
    take (Z.to_nat s.(sv_summary_dirty_count)) s.(sv_summary_dirty_queue) ++ [t]) as Etake
    by (apply take_snoc_slot; lia).
  split; cbn [sv_summary_dirty_tiles sv_summary_dirty_queue sv_summary_dirty_count sv_geometry set_field]; try lia.
  - by rewrite !zlen_aset.
  - rewrite Etake. apply list.NoDup_app. split; [done |]. split; [| apply list.NoDup_singleton].
    intros t' [_ Hm]%S4 ->%list_elem_of_singleton. congruence.
  - intros t'. rewrite Etake, elem_of_app, list_elem_of_singleton, S4. destruct (Z.eq_dec t t') as [<-|Hne].
    + rewrite aget_aset_eq by lia. split; [intros _; split; [lia | done] | by right].
    + split.
      * intros [[Hb Hm]|?]; [| congruence]. split; [done |]. by rewrite aget_aset_ne by lia.
      * intros [Hb Hm]. left. rewrite aget_aset_ne in Hm by lia. done.
Qed.

(** *** Queues emptied *)

Definition nothing_held (r : Z) : Prop := False.

Lemma empty_queues_ok s : let total := s.(sv_geometry).(tg_total_tiles) in
  grid_ok s.(sv_geometry) ->
  (forall t, aget false s.(sv_dirty_queued) t = false) -> zlen s.(sv_dirty_queued) = total ->
  (forall t, aget false s.(sv_retransmit_queued) t = false) -> zlen s.(sv_retransmit_queued) = total ->
  (forall t, aget false s.(sv_summary_dirty_tiles) t = false) -> zlen s.(sv_summary_dirty_tiles) = total ->
  zlen s.(sv_retransmit_queue) = total -> zlen s.(sv_summary_dirty_queue) = total ->
  s.(sv_dirty_queue_count) = 0 -> s.(sv_dirty_region_count) = 0 -> s.(sv_retransmit_queue_count) = 0 ->
  s.(sv_summary_dirty_count) = 0 ->
  (forall d, s.(sv_dirty_region_scheduler) = Some d ->
    sched_ok d /\ d.(ds_capacity) = region_total s.(sv_geometry) /\ d.(ds_count) = 0) ->
  Forall (eq total) [zlen s.(sv_tiles); zlen s.(sv_dirty_epochs); zlen s.(sv_dirty_queue_enqueued_ns);
    zlen s.(sv_retransmit_queue_enqueued_ns); zlen s.(sv_retransmit_requested_generation)] ->
  queues_ok nothing_held s.
Proof.
  intros total G Hd Ld Hr Lr Hs Ls Lq Lsq C1 C2 C3 C4 Hsch A. pose proof (grid_total _ G) as Ht. fold total in Ht.
  split; [done |]. split_and!; [| | | done].
  - split; try done.
    + symmetry. rewrite C1. apply n_queued_zero. intros t _. apply Hd.
    + intros d E. by destruct (Hsch d E) as (? & ? & _).
    + rewrite C2. destruct (sv_dirty_region_scheduler s) as [d|] eqn:E; [| done].
      by destruct (Hsch d eq_refl) as (_ & _ & ->).
    + intros t _ Hq. by rewrite Hd in Hq.
  - rewrite C3. split; try done.
    + fold total. lia.
    + intros t _ Hq. by rewrite Hr in Hq.
  - rewrite C4. split; try done.
    + fold total. lia.
    + constructor.
    + intros t. rewrite Hs. split; [by intros ?%elem_of_nil | by intros []].
Qed.

(** The two places that empty the queues. *)
Lemma collapse_ok held s : queues_ok held s ->
  queues_ok nothing_held (wd_stream_collapse_tile_queues_for_video_locked s).
Proof.
  intros (G & [D1 D2 D3 D4 D5] & [[P1 P1'] P2 P3 P4] & [[S1 S1'] S2 S3 S4] & A).
  apply empty_queues_ok; unfold wd_stream_collapse_tile_queues_for_video_locked; cbn -[zlen aget]; try done;
    try (intros t; apply clear_all); try (by rewrite zlen_fmap).
  - intros d. destruct (sv_dirty_region_scheduler s) as [d0|]; [| done]. intros [= <-].
    destruct (D3 d0 eq_refl) as [Hd Hc]. by destruct (reset_waits d0 Hd) as (? & -> & ?).
  - revert A. rewrite !list.Forall_cons, !zlen_fmap. done.
Qed.

Lemma session_reset_ok held s : queues_ok held s -> queues_ok nothing_held (reset_tile_queues s).
Proof.
  intros (G & [D1 D2 D3 D4 D5] & [[P1 P1'] P2 P3 P4] & [[S1 S1'] S2 S3 S4] & A).
  apply empty_queues_ok; unfold reset_tile_queues, wd_stream_invalidate_all_tiles_locked, clear_queue_counts, next_summary_epoch;
    cbn -[zlen aget]; try done; try (intros t; apply clear_all); try (by rewrite zlen_fmap).
  - intros d. destruct (sv_dirty_region_scheduler s) as [d0|]; [| done]. intros [= <-].
    destruct (D3 d0 eq_refl) as [Hd Hc]. by destruct (reset_waits d0 Hd) as (? & -> & ?).
  - revert A. rewrite !list.Forall_cons, !zlen_fmap. done.
Qed.

(** A server whose arrays were just allocated. *)
Lemma calloc_ok s : grid_ok s.(sv_geometry) ->
  queues_ok nothing_held
    (wd_stream_invalidate_all_tiles_locked (clear_queue_counts (calloc_tile_queues s s.(sv_geometry).(tg_total_tiles)))).
Proof.
  intros G. pose proof (grid_total _ G).
  apply empty_queues_ok; unfold wd_stream_invalidate_all_tiles_locked, clear_queue_counts, calloc_tile_queues;
    cbn -[zlen aget]; try done; try (intros t; apply aget_replicate);
    rewrite ?list.Forall_cons; rewrite ?zlen_fmap; unfold zlen; rewrite ?length_replicate; try lia.
  split_and!; try lia. constructor.
Qed.

Lemma resize_ok s w h ce a o : u32_ok w -> u32_ok h -> queues_ok nothing_held s ->
  queues_ok nothing_held (wd_server_apply_display_size s w h ce a o).1.
Proof.
  intros Hw Hh Q. unfold wd_server_apply_display_size. case_if; [done |]. case_if; [done |].
  destruct (go_tile _ (proj1 Q)) as [-> ->].
  destruct (wd_server_compute_geometry _ _ w h) as [g|] eqn:Eg; [| done]. case_if; [done |]. cbn [fst].
  exact (calloc_ok (s <| sv_geometry := g |>) (compute_geometry_ok _ _ _ Hw Hh Eg)).
Qed.

(** *** The steps of other threads *)

Lemma input_delivery_ok held s seq inj del ok : queues_ok held s ->
  queues_ok held (wd_stream_note_input_delivery_locked s seq inj del ok) /\
  (wd_stream_note_input_delivery_locked s seq inj del ok).(sv_geometry) = s.(sv_geometry).
Proof. intros Q. unfold wd_stream_note_input_delivery_locked. repeat case_if; done. Qed.

Lemma finish_delivery_ok held s d failed now : 0 <= now -> Forall (fun t => 0 <= t) d.(dl_covered_base_ids) ->
  queues_ok held s ->
  let s' := wd_stream_finish_udp_tile_delivery s d failed now true in
  queues_ok held s' /\ s'.(sv_geometry) = s.(sv_geometry).
Proof.
  intros Hn Hc Q. cbv zeta. unfold wd_stream_finish_udp_tile_delivery. case_if; [| done].
  set (s1 := if negb _ then _ else s).
  assert (queues_ok held s1 /\ s1.(sv_geometry) = s.(sv_geometry)) as [Q1 E1]
    by (subst s1; case_if; [by apply input_delivery_ok | done]).
  destruct failed; [| done]. destruct (fold_detect_ok held (fun s t =>
    (t <? s.(sv_geometry).(tg_total_tiles)) && negb (null s.(sv_tiles)) &&
    ((aget (mk_wd_tile_state 0 0 0) s.(sv_tiles) t).(ti_generation) <=? d.(dl_generation)))
    d.(dl_covered_base_ids) now Hn s1 Hc Q1) as [Q2 E2]. split; [exact Q2 |]. etransitivity; [exact E2 | exact E1].
Qed.

Lemma repair_tile_ok held s entry now : 0 <= entry.(re_tile_id) -> queues_ok held s ->
  queues_ok held (repair_tile s entry now).1.
Proof.
  intros Ht Q. unfold repair_tile. case_if; [done |]. case_if.
  - pose proof (queue_retransmit_ok held (count ss_retx_req_upgraded_generation 1 s) entry.(re_tile_id) 0 now Ht Q) as [Q' _].
    by destruct (wd_stream_queue_retransmit_tile_locked _ _ _ _).
  - pose proof (queue_retransmit_ok held s entry.(re_tile_id) entry.(re_requested_generation) now Ht Q) as [Q' _].
    by destruct (wd_stream_queue_retransmit_tile_locked _ _ _ _).
Qed.

Lemma repair_request_ok held s sid tok payload now : bytes_ok payload -> queues_ok held s ->
  queues_ok held (receive_tile_repair_request s sid tok payload now).
Proof.
  intros Hb Q. unfold receive_tile_repair_request. destruct (decode payload) as [rh|]; [| done].
  case_if; [| done]. case_if; [done |].
  assert (forall ids acc, queues_ok held acc.1 -> queues_ok held (fold_left (fun '(server, accepted) i =>
      match decode (slice (sizeof wd_tile_repair_request_payload_header + i * sizeof wd_tile_repair_entry)
                      (sizeof wd_tile_repair_entry) payload) with
      | None => (server, accepted)
      | Some entry => let '(server, n) := repair_tile server entry now in (server, u64 (accepted + n))
      end) ids acc).1) as Hfold.
  { induction ids as [|i ids IH]; intros [s' n] Q'; [done |]. cbn [fold_left]. apply IH.
    destruct (decode _) as [entry|] eqn:Ed; [| done].
    assert (0 <= entry.(re_tile_id)) as Ht.
    { apply encode_decode in Ed as [_ [Hf _]]; [| by apply Forall_slice].
      cbn [ws_fields ws_widths wd_tile_repair_entry_wire] in Hf. inversion Hf as [|? ? ? ? Hfit]; subst. apply Hfit. }
    pose proof (repair_tile_ok held s' entry now Ht Q'). by destruct (repair_tile s' entry now). }
  specialize (Hfold (zseq rh.(rr_request_count)) (count ss_retx_req_rx 1 s, 0) Q).
  destruct (fold_left _ _ _) as [s' n]. exact Hfold.
Qed.

(** *** Summaries *)

(** The steps of summaries change nothing of the dirty and repair queues. *)
Definition same_tiles (s s' : wd_server) : Prop :=
  s'.(sv_geometry) = s.(sv_geometry) /\ s'.(sv_tiles) = s.(sv_tiles) /\
  s'.(sv_dirty_queued) = s.(sv_dirty_queued) /\ s'.(sv_dirty_epochs) = s.(sv_dirty_epochs).

Lemma clear_announced_frame entries : forall s, exists marks,
  clear_announced s entries = s <| sv_summary_dirty_tiles := marks |> /\ zlen marks = zlen s.(sv_summary_dirty_tiles).
Proof.
  induction entries as [|e entries IH]; intros s; [exists s.(sv_summary_dirty_tiles); by destruct s |].
  cbn [clear_announced fold_left]. case_if.
  - destruct (IH (s <| sv_summary_dirty_tiles := aset s.(sv_summary_dirty_tiles) e.(tg_tile_id) false |>))
      as (marks & Em & Hl). exists marks. split; [exact Em |]. cbn in Hl. by rewrite zlen_aset in Hl.
  - apply IH.
Qed.

Lemma filter_zseq_NoDup (f : Z -> bool) n : NoDup (List.filter f (zseq n)).
Proof. apply NoDup_ListNoDup, List.NoDup_filter, NoDup_ListNoDup, NoDup_zseq. Qed.

Lemma rebuild_summary_ok held s marks : queues_ok held s -> zlen marks = zlen s.(sv_summary_dirty_tiles) ->
  queues_ok held (wd_stream_rebuild_summary_dirty_queue_locked (s <| sv_summary_dirty_tiles := marks |>)).
Proof.
  intros (G & D & P & [[S1 S1'] S2 S3 S4] & A) Hl. pose proof (grid_total _ G) as Htot.
  unfold wd_stream_rebuild_summary_dirty_queue_locked. cbn [sv_summary_dirty_tiles sv_summary_dirty_queue sv_geometry set_field].
  rewrite !zlen_not_null by lia. cbn [orb].
  set (kept := List.filter (aget false marks) (zseq s.(sv_geometry).(tg_total_tiles))).
  assert (zlen kept <= s.(sv_geometry).(tg_total_tiles)) as Hk.
  { pose proof (filter_length_le (aget false marks) (zseq s.(sv_geometry).(tg_total_tiles))) as H.
    rewrite <- (zlen_zseq s.(sv_geometry).(tg_total_tiles)) by lia. unfold zlen, kept. lia. }
  assert (take (Z.to_nat (zlen kept)) (kept ++ drop (length kept) s.(sv_summary_dirty_queue)) = kept) as E
    by (unfold zlen; rewrite Nat2Z.id; apply take_app_length).
  split; [done |]. split; [done |]. split; [done |]. split; [| done].
  split; cbn [sv_summary_dirty_tiles sv_summary_dirty_queue sv_summary_dirty_count sv_geometry set_field].
  - split; [lia |]. rewrite zlen_app. unfold zlen in *. rewrite length_drop. lia.
  - pose proof (zlen_nonneg kept). lia.
  - rewrite E. apply filter_zseq_NoDup.
  - intros t. rewrite E. unfold kept. rewrite list_elem_of_In, filter_In, elem_of_zseq. done.
Qed.

Lemma summary_completion_ok held s c ok : queues_ok held s ->
  queues_ok held (wd_stream_summary_completion s c ok) /\ same_tiles s (wd_stream_summary_completion s c ok).
Proof.
  intros Q. unfold wd_stream_summary_completion.
  match goal with |- context [if _ && (sv_summary_async_pending_count s >? 0) then ?a else s] =>
    set (s1 := if _ && (sv_summary_async_pending_count s >? 0) then a else s) end.
  assert (queues_ok held s1 /\ same_tiles s s1) as [Q1 K1] by (subst s1; repeat case_if; done). clearbody s1.
  match goal with |- context [wd_stream_refund_tcp_control_budget_locked s1 ?b] =>
    set (s2 := if _ && _ && _ then wd_stream_refund_tcp_control_budget_locked s1 b else s1) end.
  assert (queues_ok held s2 /\ same_tiles s s2) as [Q2 K2]
    by (subst s2; unfold wd_stream_refund_tcp_control_budget_locked; repeat case_if; done). clearbody s2.
  match goal with |- context [wd_stream_rebuild_summary_dirty_queue_locked ?b] =>
    set (s3 := if _ && _ && _ && _ then wd_stream_rebuild_summary_dirty_queue_locked b else s2) end.
  assert (queues_ok held s3 /\ same_tiles s s3) as [Q3 K3].
  { subst s3. case_if; [| done]. destruct (clear_announced_frame c.(sc_entries) s2) as (marks & -> & Hl).
    split; [by apply rebuild_summary_ok |]. unfold wd_stream_rebuild_summary_dirty_queue_locked. by case_if. }
  clearbody s3. repeat case_if; done.
Qed.

Lemma drop_summaries_ok held dropped : forall s, queues_ok held s ->
  let s' := fold_left (fun s c => wd_stream_summary_completion s c false) dropped s in
  queues_ok held s' /\ same_tiles s s'.
Proof.
  induction dropped as [|c dropped IH]; intros s Q; [done |]. cbn [fold_left].
  destruct (summary_completion_ok held s c false Q) as [Q1 (E1 & E2 & E3 & E4)].
  destruct (IH _ Q1) as [Q2 (F1 & F2 & F3 & F4)]. split; [done |]. split_and!; congruence.
Qed.

(** A summary that is due is not empty. *)
Lemma summary_entries_some held s (full : bool) : queues_ok held s ->
  (if full then s.(sv_geometry).(tg_total_tiles) else s.(sv_summary_dirty_count)) <> 0 ->
  null (summary_entries s full) = false.
Proof.
  intros (G & _ & _ & [[S1 S1'] S2 S3 S4] & _) Hne. pose proof (grid_total _ G) as Htot.
  unfold summary_entries. destruct full.
  - apply zlen_not_null. rewrite zlen_fmap, zlen_zseq; lia.
  - rewrite (zlen_not_null s.(sv_summary_dirty_tiles)), (zlen_not_null s.(sv_summary_dirty_queue)) by lia. cbn [orb].
    destruct (take (Z.to_nat (sv_summary_dirty_count s)) (sv_summary_dirty_queue s)) as [|t l] eqn:Et.
    + apply (f_equal length) in Et. rewrite length_take in Et. unfold zlen in *. cbn in Et. lia.
    + destruct (S4 t) as [Hm _]. destruct Hm as [Hb Hm]; [by left |]. cbn [List.filter].
      by rewrite Hm, (proj2 (Z.ltb_lt _ _)) by lia.
Qed.

Lemma send_summary_ok held s (full : bool) dropped busy pa ca acc now : queues_ok held s ->
  let s' := (wd_stream_send_generation_summary_kind_locked s full dropped busy pa ca acc now).(su_server) in
  queues_ok held s' /\ same_tiles s s'.
Proof.
  intros Q. cbv zeta. unfold wd_stream_send_generation_summary_kind_locked. case_if; [done |]. case_if; [done |].
  case_if; [done |].
  match goal with |- context [if negb (sv_summary_async_pending_count s =? 0) then ?a else s] =>
    set (s1 := if negb (sv_summary_async_pending_count s =? 0) then a else s) end.
  assert (queues_ok held s1 /\ same_tiles s s1) as [Q1 K1].
  { subst s1. case_if; [| done]. pose proof (drop_summaries_ok held dropped s Q) as H. cbv zeta in H.
    set (s0 := fold_left _ dropped s) in *. clearbody s0. case_if; exact H. }
  clearbody s1. case_if; [done |].
  match goal with |- context [(if full then ?a else ?b) =? 0] => destruct ((if full then a else b) =? 0) eqn:Ereq; [done |] end.
  apply Z.eqb_neq in Ereq. case_if; [done |].
  rewrite (summary_entries_some held s1 full Q1 Ereq). cbv match.
  set (frame_size := WD_TCP_HEADER_WIRE_SIZE + _). clearbody frame_size. case_if; [done |].
  match goal with |- context [wd_stream_try_consume_tcp_control_budget_locked s1 ?b ?n] =>
    assert (let '(s2, _) := wd_stream_try_consume_tcp_control_budget_locked s1 b n in
      queues_ok held s2 /\ same_tiles s s2) as H2; [| destruct (wd_stream_try_consume_tcp_control_budget_locked s1 b n) as [s2 paid]] end.
  { unfold wd_stream_try_consume_tcp_control_budget_locked. case_if; [done |].
    destruct (wd_stream_class_budget_locked _ _ _ _ _). case_if; done. }
  destruct H2 as [Q2 K2]. case_if; [done |]. case_if.
  { unfold wd_stream_refund_tcp_control_budget_locked. case_if; done. }
  case_if; [case_if; done |]. cbn [su_server].
  match goal with |- context [wd_stream_summary_completion ?a ?c false] =>
    destruct (summary_completion_ok held a c false Q2) as [Q3 (F1 & F2 & F3 & F4)] end.
  destruct K2 as (K21 & K22 & K23 & K24). split; [done |].
  split_and!; [by rewrite F1 | by rewrite F2 | by rewrite F3 | by rewrite F4].
Qed.

Lemma summary_step_ok held s (full : bool) dropped busy pa ca acc now : queues_ok held s ->
  let s' := ((if full then wd_stream_send_generation_summary_locked s
              else wd_stream_send_pending_generation_summary_locked s) dropped busy pa ca acc now).(su_server) in
  queues_ok held s' /\ same_tiles s s'.
Proof.
  intros Q. cbv zeta. unfold wd_stream_send_generation_summary_locked, wd_stream_send_pending_generation_summary_locked.
  destruct full; (case_if; [done | by apply send_summary_ok]).
Qed.


(** Arguments in the range of their types, allocations that succeed. *)
Definition tile_op_ok (op : tile_op) : Prop :=
  match op with
  | DeliveryFinished d _ now_ns alloc_ok =>
      0 <= now_ns /\ alloc_ok = true /\ Forall (fun t => 0 <= t) d.(dl_covered_base_ids)
  | RepairRequest _ _ payload _ => bytes_ok payload
  | InputInjected _ _ | SendSummary _ _ _ _ _ _ _ | SummaryFinished _ _ | SessionReset => True
  end.

Lemma tile_ops_ok held ops : forall s, Forall tile_op_ok ops -> queues_ok held s -> queues_ok held (tile_ops ops s).
Proof.
  induction ops as [|op ops IH]; intros s Hops Q; [done |]. apply list.Forall_cons in Hops as [Ho Hops].
  apply IH; [done |].
  destruct op as [d failed now a | sid tok payload now | rx inj | full dropped busy pa ca acc now | c ok |]; cbn [tile_op_step].
  - destruct Ho as (Hn & -> & Hc). by apply finish_delivery_ok.
  - by apply repair_request_ok.
  - unfold wd_stats_note_pointer_input_inject_locked. case_if; done.
  - by apply summary_step_ok.
  - by apply summary_completion_ok.
  - apply (held_weaken nothing_held); [by intros r [] | by apply (session_reset_ok held)].
Qed.

(** *** Dirty tiles stay dirty *)

(** Same grid, and every dirty tile still dirty. *)
Definition keeps_dirty (s s' : wd_server) : Prop :=
  s'.(sv_geometry) = s.(sv_geometry) /\
  forall t, 0 <= t < s.(sv_geometry).(tg_total_tiles) -> aget false s.(sv_dirty_queued) t = true ->
    aget false s'.(sv_dirty_queued) t = true.

#[export] Instance keeps_dirty_preorder : PreOrder keeps_dirty.
Proof.
  split; [by intros s; split |]. intros a b c [E1 H1] [E2 H2]. split; [congruence |].
  intros t Ht Hd. apply H2; [by rewrite E1 | by apply H1].
Qed.

Lemma mark_keeps_dirty s t now a : keeps_dirty s (wd_stream_mark_dirty_top_region_locked s t now a).
Proof.
  unfold wd_stream_mark_dirty_top_region_locked, wd_stream_dirty_region_scheduler_locked.
  destruct (wd_stream_top_region_for_base_tile _ _); [| done].
  assert (forall s' d r, keeps_dirty s s' -> keeps_dirty s (let '(_, d) := wd_dirty_region_scheduler_enqueue a d r now in
    wd_stream_sync_dirty_region_count_locked (s' <| sv_dirty_region_scheduler := Some d |>))) as H
    by (intros s' d r Hk; by destruct (wd_dirty_region_scheduler_enqueue a d r now)).
  destruct (sv_dirty_region_scheduler s) eqn:Es.
  - rewrite Es. by apply H.
  - cbn [sv_dirty_region_scheduler set_field]. destruct (wd_dirty_region_scheduler_create _ _ _ _); [by apply H | done].
Qed.

Lemma detect_keeps_dirty held s t now a : 0 <= t < s.(sv_geometry).(tg_total_tiles) -> queues_ok held s ->
  keeps_dirty s (wd_detect_one_dirty_tile_into_queue_locked s t now a).
Proof.
  intros Ht (G & D & _). pose proof (do_length _ _ _ _ _ _ D) as Hlen.
  unfold wd_detect_one_dirty_tile_into_queue_locked.
  rewrite Z.geb_leb, (proj2 (Z.leb_gt _ _)) by lia.
  assert (keeps_dirty s (wd_dirty_queue_push_locked (bump_dirty_epoch s t) t now).1) as Hp.
  { assert (keeps_dirty s (bump_dirty_epoch s t)) as Hb by (unfold bump_dirty_epoch; by destruct (null _)).
    assert (zlen (bump_dirty_epoch s t).(sv_dirty_queued) = zlen s.(sv_dirty_queued)) as Hl
      by (unfold bump_dirty_epoch; by destruct (null _)).
    etransitivity; [exact Hb |]. unfold wd_dirty_queue_push_locked. set (s1 := bump_dirty_epoch s t) in *.
    repeat (case_if; [done |]). cbn [fst].
    split; [by case_if |]. intros t' Ht' Hq. rewrite (proj1 Hb) in Ht'.
    assert (aget false (aset (sv_dirty_queued s1) t true) t' = true) as Hset.
    { destruct (Z.eq_dec t t') as [<-|Hne]; [apply aget_aset_eq; lia | by rewrite aget_aset_ne by lia]. }
    case_if; exact Hset. }
  destruct (wd_dirty_queue_push_locked _ t now) as [s1 pushed]. cbn [fst] in Hp.
  destruct pushed; [etransitivity; [exact Hp | apply mark_keeps_dirty] |].
  case_if; [etransitivity; [exact Hp | apply mark_keeps_dirty] | done].
Qed.

Lemma fold_detect_keeps held (f : wd_server -> Z -> bool) ids now : 0 <= now -> forall s,
  Forall (fun t => 0 <= t) ids -> queues_ok held s ->
  keeps_dirty s (fold_left (fun s t => if f s t
      then wd_detect_one_dirty_tile_into_queue_locked s t now true else s) ids s).
Proof.
  intros Hn. induction ids as [|t ids IH]; intros s Hids Q; [done |]. cbn [fold_left].
  apply list.Forall_cons in Hids as [Ht Hids]. destruct (f s t); [| by apply IH].
  destruct (Z.lt_ge_cases t s.(sv_geometry).(tg_total_tiles)) as [Hlt|Hge].
  - etransitivity; [apply (detect_keeps_dirty held s t now true ltac:(lia) Q) |]. apply IH; [done |].
    by apply detect_ok.
  - unfold wd_detect_one_dirty_tile_into_queue_locked at 2.
    rewrite Z.geb_leb, (proj2 (Z.leb_le _ _)) by lia. by apply IH.
Qed.

Lemma detect_marks held s t now : 0 <= t < s.(sv_geometry).(tg_total_tiles) -> queues_ok held s ->
  aget false (wd_detect_one_dirty_tile_into_queue_locked s t now true).(sv_dirty_queued) t = true.
Proof.
  intros Ht Q. unfold wd_detect_one_dirty_tile_into_queue_locked. rewrite Z.geb_leb, (proj2 (Z.leb_gt _ _)) by lia.
  destruct (bump_ok held s t Q) as [Q1 E1]. rewrite <- E1 in Ht. set (s1 := bump_dirty_epoch s t) in *. clearbody s1.
  pose proof (push_ok held s1 t now Ht Q1) as Hp.
  assert (aget false (wd_dirty_queue_push_locked s1 t now).1.(sv_dirty_queued) t = true) as Hd.
  { revert Hp. unfold wd_dirty_queue_push_locked. case_if; [by intros (? & _) |]. case_if; [done |].
    case_if; [by intros (? & _) |]. intros _. pose proof (do_length _ _ _ _ _ _ (proj1 (proj2 Q1))).
    case_if; cbn [fst sv_dirty_queued set_field]; apply aget_aset_eq; cbn; lia. }
  destruct (wd_dirty_queue_push_locked s1 t now) as [s2 pushed]. destruct Hp as (-> & E2 & _). cbn [fst] in Hd.
  apply (mark_keeps_dirty s2 t now true); [by rewrite E2 | done].
Qed.

Lemma fold_detect_marks held (f : wd_server -> Z -> bool) ids now t : 0 <= now -> forall s,
  Forall (fun t => 0 <= t) ids -> queues_ok held s -> t ∈ ids -> 0 <= t < s.(sv_geometry).(tg_total_tiles) ->
  (forall s, f s t = true) ->
  aget false (fold_left (fun s t => if f s t
      then wd_detect_one_dirty_tile_into_queue_locked s t now true else s) ids s).(sv_dirty_queued) t = true.
Proof.
  intros Hn. induction ids as [|u ids IH]; intros s Hids Q Hin Ht Hf; [by apply elem_of_nil in Hin |].
  pose proof Hids as [Hu Hids']%list.Forall_cons.
  assert (Forall (fun t => 0 <= t) [u]) as Hone by by constructor.
  pose proof (fold_detect_ok held f [u] now Hn s Hone Q) as [Q1 E1]. cbn [fold_left] in *.
  apply list.elem_of_cons in Hin as [->|Hin]; [| apply IH; try done; by rewrite E1].
  apply (fold_detect_keeps held f ids now Hn); [done | done | by rewrite E1 |].
  rewrite Hf. by apply (detect_marks held).
Qed.

Lemma finish_delivery_keeps held s d failed now : 0 <= now -> Forall (fun t => 0 <= t) d.(dl_covered_base_ids) ->
  queues_ok held s -> keeps_dirty s (wd_stream_finish_udp_tile_delivery s d failed now true).
Proof.
  intros Hn Hc Q. unfold wd_stream_finish_udp_tile_delivery. case_if; [| done].
  set (s1 := if negb _ then _ else s).
  assert (queues_ok held s1 /\ keeps_dirty s s1) as [Q1 K1].
  { subst s1. case_if; [| done]. split; [by apply input_delivery_ok |].
    unfold wd_stream_note_input_delivery_locked. repeat case_if; done. }
  destruct failed; [| done]. etransitivity; [exact K1 |].
  exact (fold_detect_keeps held (fun s t =>
    (t <? s.(sv_geometry).(tg_total_tiles)) && negb (null s.(sv_tiles)) &&
    ((aget (mk_wd_tile_state 0 0 0) s.(sv_tiles) t).(ti_generation) <=? d.(dl_generation)))
    d.(dl_covered_base_ids) now Hn s1 Hc Q1).
Qed.

Lemma queue_retransmit_keeps s t gen now :
  let s' := (wd_stream_queue_retransmit_tile_locked s t gen now).1 in keeps_dirty s s'.
Proof. cbv zeta. unfold wd_stream_queue_retransmit_tile_locked. repeat case_if; done. Qed.

Lemma repair_request_keeps s sid tok payload now :
  keeps_dirty s (receive_tile_repair_request s sid tok payload now).
Proof.
  unfold receive_tile_repair_request. destruct (decode payload) as [rh|]; [| done].
  case_if; [| done]. case_if; [done |].
  assert (forall ids acc, keeps_dirty s acc.1 -> keeps_dirty s (fold_left (fun '(server, accepted) i =>
      match decode (slice (sizeof wd_tile_repair_request_payload_header + i * sizeof wd_tile_repair_entry)
                      (sizeof wd_tile_repair_entry) payload) with
      | None => (server, accepted)
      | Some entry => let '(server, n) := repair_tile server entry now in (server, u64 (accepted + n))
      end) ids acc).1) as Hfold.
  { induction ids as [|i ids IH]; intros [s' n] K; [done |]. cbn [fold_left]. apply IH.
    destruct (decode _) as [entry|]; [| done]. unfold repair_tile.
    case_if; [done |]. case_if; match goal with |- context [wd_stream_queue_retransmit_tile_locked ?a ?b ?c ?d] =>
      pose proof (queue_retransmit_keeps a b c d); destruct (wd_stream_queue_retransmit_tile_locked a b c d) end;
      (etransitivity; [exact K | done]). }
  specialize (Hfold (zseq rh.(rr_request_count)) (count ss_retx_req_rx 1 s, 0) ltac:(done)).
  destruct (fold_left _ _ _) as [s' n]. exact Hfold.
Qed.

(** Only a new session forgets dirty tiles. *)
Lemma tile_ops_keep held ops : forall s, Forall tile_op_ok ops -> SessionReset ∉ ops -> queues_ok held s ->
  keeps_dirty s (tile_ops ops s).
Proof.
  induction ops as [|op ops IH]; intros s Hops Hno Q; [done |]. pose proof Hops as [Ho Hops']%list.Forall_cons.
  apply list.not_elem_of_cons in Hno as [Hne Hno].
  pose proof (tile_ops_ok held [op] s ltac:(by constructor) Q) as Q1.
  assert (keeps_dirty s (tile_op_step s op)) as K.
  { destruct op as [d failed now a | sid tok payload now | rx inj | full dropped busy pa ca acc now | c ok |];
      cbn [tile_op_step] in *.
    - destruct Ho as (Hn & -> & Hc). by apply (finish_delivery_keeps held).
    - apply repair_request_keeps.
    - unfold wd_stats_note_pointer_input_inject_locked. case_if; done.
    - destruct (summary_step_ok held s full dropped busy pa ca acc now Q) as [_ (E1 & _ & E3 & _)].
      split; [done |]. by rewrite E3.
    - destruct (summary_completion_ok held s c ok Q) as [_ (E1 & _ & E3 & _)]. split; [done |]. by rewrite E3.
    - done. }
  etransitivity; [exact K |]. by apply IH.
Qed.

(** ** A frame's analysis, and sending a tile *)

Lemma analysis_ok held s analysis now : 0 <= now -> queues_ok held s ->
  let s' := (wd_stream_apply_frame_analysis_locked s analysis now true).1 in
  queues_ok held s' /\ keeps_dirty s s'.
Proof.
  intros Hn Q. cbv zeta. unfold wd_stream_apply_frame_analysis_locked.
  destruct analysis as [a|]; [| done]. destruct (fa_changed_tiles a) as [changed|]; [| done]. cbn [fst].
  set (s1 := if fa_full_refresh a then _ else _).
  assert (queues_ok held s1 /\ keeps_dirty s s1) as [Q1 K1] by (subst s1; case_if; done).
  assert (Forall (fun t => 0 <= t) (zseq s1.(sv_geometry).(tg_total_tiles))) as Hz.
  { apply list.Forall_forall. intros t Ht%list_elem_of_In%elem_of_zseq. lia. }
  split; [apply (fold_detect_ok held (fun _ t => aget false changed t) _ now Hn s1 Hz Q1) |].
  etransitivity; [exact K1 |]. apply (fold_detect_keeps held (fun _ t => aget false changed t) _ now Hn s1 Hz Q1).
Qed.

Lemma send_packets_queues held s tid tw th gen seq payload size cmp target n now ids : forall statuses p,
  queues_ok held p.(pg_server) -> keeps_dirty s p.(pg_server) ->
  let p' := send_packets tid tw th gen seq payload size cmp target n now ids statuses p in
  queues_ok held p'.(pg_server) /\ keeps_dirty s p'.(pg_server).
Proof.
  induction ids as [|i ids IH]; intros statuses p Q K; [done |]. cbn [send_packets].
  destruct (wd_tile_size_code_for_dimensions tw th); [| done].
  destruct (wd_udp_tile_packet_encode_header _ _); [| done]. destruct (default _ (head statuses)).
  - done.
  - by apply IH.
  - cbn [pg_server set_field]. unfold wd_note_udp_send_pressure_locked.
    destruct (wd_log_rate_limit_should_log _ _ _) as [last log]. by destruct log.
Qed.

Lemma seal_delivery_ok held s s2 d failed now : 0 <= now -> Forall (fun t => 0 <= t) d.(dl_covered_base_ids) ->
  queues_ok held s2 -> keeps_dirty s s2 ->
  let '(s3, _) := wd_stream_seal_udp_tile_delivery s2 d failed now true in
  queues_ok held s3 /\ keeps_dirty s s3.
Proof.
  intros Hn Hc Q K. unfold wd_stream_seal_udp_tile_delivery.
  destruct (wd_tile_delivery_status_seal _) as [[final|] st]; [| done].
  split; [by apply finish_delivery_ok |]. etransitivity; [exact K |]. by apply (finish_delivery_keeps held).
Qed.

Lemma send_tile_ok held s tid tw th gen seq inj payload size cmp statuses now end_ns a :
  wire_size tw th -> 0 <= tid -> 0 <= now -> queues_ok held s ->
  let s' := (wd_stream_send_tile_payload_sized_locked s tid tw th gen seq inj payload size cmp statuses now end_ns a).(so_server) in
  queues_ok held s' /\ keeps_dirty s s'.
Proof.
  intros Hws Hid Hn Q. cbv zeta. unfold wd_stream_send_tile_payload_sized_locked. case_if; [done |]. bool_cases.
  destruct payload as [payload|]; [| done]. case_if; [done |]. case_if; [done |]. destruct a; [| done]. cbn [negb].
  destruct (wire_grid _ (proj1 Q) _ _ Hws) as (kx & ky & _ & _ & _ & _ & _ & _ & _ & _ & Hx & Hy).
  match goal with H : tid < u32 ?n |- _ => rewrite (u32_small n) in H by (wd_bounds; nia) end.
  destruct (collect_spec _ (proj1 Q) _ _ Hws tid ltac:(lia)) as (covered & -> & _ & _ & _ & Hmem).
  assert (Forall (fun t => 0 <= t) covered) as Hcov by (apply list.Forall_forall; intros t Ht%Hmem; lia).
  case_if; [split; [by apply finish_delivery_ok | by apply (finish_delivery_keeps held)] |].
  set (s1 := s <| sv_input_correlation_inflight_sequence := seq |>).
  assert (forall (p : bool) s3 size (all : bool), queues_ok held s3 /\ keeps_dirty s s3 -> let s4 := if all then
      let server := count ss_udp_tiles_sent 1 s3 in
      let server := if cmp then count ss_udp_compressed_tile_bytes_sent size (count ss_udp_compressed_tiles_sent 1 server)
                    else count ss_udp_uncompressed_tile_bytes_sent size (count ss_udp_uncompressed_tiles_sent 1 server) in
      if p then wd_stream_mark_summary_dirty_locked server tid else server else s3 in
      queues_ok held s4 /\ keeps_dirty s s4) as Hall.
  { intros p s3 sz all [Q3 K3]. destruct all; [| done]. cbv zeta. destruct p.
    - split; [apply mark_summary_ok; [done |]; by destruct cmp |]. etransitivity; [exact K3 |].
      unfold wd_stream_mark_summary_dirty_locked. destruct cmp; repeat case_if; done.
    - by destruct cmp. }
  set (s0 := if negb (seq =? 0) then s1 else s).
  assert (queues_ok held s0 /\ keeps_dirty s s0) as [Q0 K0] by (subst s0; by case_if).
  match goal with |- context [if negb (seq =? 0) then (?a, ?b) else (?c, ?d)] =>
    replace (if negb (seq =? 0) then (a, b) else (c, d)) with (s0, if negb (seq =? 0) then b else d)
      by (subst s0; by case_if) end.
  destruct (send_packets_queues held s tid tw th gen seq payload size cmp
    (wd_tile_normalize_udp_payload_target (sv_udp_payload_target s) WD_UDP_PAYLOAD_TARGET WD_UDP_TILE_PAYLOAD_MAX)
    (wd_tile_packet_count_for_payload size (wd_tile_normalize_udp_payload_target (sv_udp_payload_target s)
       WD_UDP_PAYLOAD_TARGET WD_UDP_TILE_PAYLOAD_MAX)) now
    (zseq (wd_tile_packet_count_for_payload size (wd_tile_normalize_udp_payload_target (sv_udp_payload_target s)
       WD_UDP_PAYLOAD_TARGET WD_UDP_TILE_PAYLOAD_MAX))) statuses
    (mk_send_progress s0 (mk_wd_tile_delivery_status 0 false false) wd_stream_init_send_result 0 false []) Q0 K0) as [Q1 K1].
  set (p := send_packets _ _ _ _ _ _ _ _ _ _ _ _ _ _) in *.
  match goal with |- context [wd_stream_seal_udp_tile_delivery ?a ?d ?ip ?ni true] =>
    pose proof (seal_delivery_ok held s a d ip ni Hn ltac:(by case_if) Q1 K1) as Hs; destruct (wd_stream_seal_udp_tile_delivery a d ip ni true) as [s3 pending] end.
  destruct (pg_fatal p); [done |]. cbn [so_server].
  set (s5 := if _ && _ then _ else s3).
  assert (queues_ok held s5 /\ keeps_dirty s s5) as H5 by (subst s5; by case_if).
  exact (Hall _ s5 size _ H5).
Qed.
