(* ===== verification/TilePass.v ===== *)
(** * The send pass

    The tile half of [wd_stream_send_tiles] in src/server/wd_stream.c: dirty
    regions are taken from the scheduler in batches, encoded by the worker
    threads, and the results sent as they complete; then the tiles the client
    asked for again.

    The pass holds the lock except while it starts a batch, waits for a
    completion and ends the batch; what other threads do meanwhile are the
    [tile_op]s of the inputs.  The inputs also hold the readings of the clock,
    the outcome of allocations, the answers of the sender, the client's reports,
    which job completes next and the worker that encoded it.  A worker only
    reads its job and the framebuffer, so its result is computed when it
    completes.  [framebuffer] and [mode] (the compression benchmark) do not
    change during a pass: the thread that runs it is the one that writes the
    framebuffer, and a resize waits until the encoder is idle. *)
From S2P Require Import Prelude CFloat Config Structs UdpTile Bandwidth TileGrid TilePolicy StreamPolicy DirtyScheduler TileServer TileSend WireGrid TileEncode TileQueues.

(** ** Results *)

Definition wd_stream_encode_result_stale_locked (server : wd_server) (result : wd_parallel_encode_result) : bool :=
  negb (result.(rs_framebuffer_generation) =? server.(sv_framebuffer_generation)) ||
  existsb (fun '(covered_id, epoch) =>
      (covered_id >=? server.(sv_geometry).(tg_total_tiles)) ||
      (negb (null server.(sv_dirty_epochs)) && negb (aget 0 server.(sv_dirty_epochs) covered_id =? epoch)))
    (combine result.(rs_candidate).(ca_covered_base_ids) result.(rs_covered_dirty_epochs)).

Definition wd_stream_next_generation_for_result_locked (server : wd_server)
    (result : wd_parallel_encode_result) : Z :=
  fold_left (fun next covered_id =>
      let generation := (aget (mk_wd_tile_state 0 0 0) server.(sv_tiles) covered_id).(ti_generation) in
      if (covered_id <? server.(sv_geometry).(tg_total_tiles)) && (generation >=? next)
      then u64 (generation + 1) else next)
    result.(rs_candidate).(ca_covered_base_ids) 1.

Definition wd_stream_note_encode_job_stats_locked (server : wd_server) (stats : job_stats) : wd_server :=
  let server := count ss_compression_attempts stats.(jt_compression_attempts) server in
  let server := count ss_compression_wins stats.(jt_compression_wins) server in
  let server := count ss_compression_entropy_skips stats.(jt_compression_entropy_skips) server in
  let server := count ss_compression_adaptive_skips stats.(jt_compression_adaptive_skips) server in
  let server := count ss_compression_nonwins stats.(jt_compression_nonwins) server in
  let server := count ss_compression_forced_choices stats.(jt_compression_forced_choices) server in
  let server := count ss_compression_saved_wire_bytes stats.(jt_compression_saved_wire_bytes) server in
  let server := count ss_candidate_prediction_evaluations stats.(jt_candidate_prediction_evaluations) server in
  let server := count ss_candidate_prediction_skips stats.(jt_candidate_prediction_skips) server in
  count ss_candidate_prediction_probes stats.(jt_candidate_prediction_probes) server.

Definition wd_stream_encode_batch_capacity (available_jobs workers : Z) : Z :=
  wd_tile_encode_pipeline_capacity available_jobs workers WD_STREAM_ENCODER_QUEUE_WAVES.

(** What the environment contributes while one result is handled. *)
Record result_input := mk_result_input {
  ri_reports : wd_stats;
  ri_budget_ns : Z;
  ri_send_now : Z;
  ri_start_ns : Z;
  ri_end_ns : Z;
  ri_statuses : list wd_async_udp_send_status;
  ri_delivery_alloc : bool;
  ri_region_alloc : bool;
}.

(** A result of which every packet was handed to the sender. *)
Record sent_result := mk_sent_result {
  sx_result : wd_parallel_encode_result;
  sx_generation : Z;
  sx_outcome : send_outcome;
}.

(** The state of a running pass. *)
Record pass := mk_pass {
  pa_server : wd_server;
  pa_stop_sending : bool;
  pa_pending_input_sequence : Z;
  pa_pending_input_inject_ns : Z;
  pa_sent : list sent_result;
}.
#[export] Instance pass_eta : Eta pass := fun s =>
  mk_pass s.(pa_server) s.(pa_stop_sending) s.(pa_pending_input_sequence) s.(pa_pending_input_inject_ns) s.(pa_sent).

Definition client_happy (server : wd_server) (reports : wd_stats) : bool :=
  negb (wd_stream_client_reporting_tile_loss_locked server.(sv_stream_policy) reports).

Section results.
Context (inp : result_input).

(** A base tile of a fresh tile that was sent. *)
Definition fresh_tile_sent (generation input_sequence : Z) (server : wd_server) (covered : Z * Z) : wd_server :=
  let '(covered_id, epoch) := covered in
  if covered_id >=? server.(sv_geometry).(tg_total_tiles) then server
  else
    let '(server, _) := wd_stream_update_base_tile_metadata_locked server covered_id generation
                          inp.(ri_send_now) input_sequence in
    let server :=
      if null server.(sv_dirty_epochs) || (aget 0 server.(sv_dirty_epochs) covered_id =? epoch)
      then wd_dirty_queue_note_cleared_locked server covered_id else server in
    let server := wd_stream_maybe_clear_dirty_top_region_for_base_locked server covered_id in
    wd_stream_mark_summary_dirty_locked server covered_id.

(** A base tile of a repaired tile that was sent. *)
Definition repaired_tile_sent (generation : Z) (server : wd_server) (covered : Z * Z) : wd_server :=
  let '(covered_id, epoch) := covered in
  if covered_id >=? server.(sv_geometry).(tg_total_tiles) then server
  else
    let '(server, _) := wd_stream_update_base_tile_metadata_locked server covered_id generation
                          inp.(ri_send_now) 0 in
    let server := wd_stream_clear_retransmit_request_locked server covered_id inp.(ri_end_ns) in
    let server :=
      if negb (null server.(sv_dirty_epochs)) && (aget 0 server.(sv_dirty_epochs) covered_id =? epoch)
      then wd_stream_maybe_clear_dirty_top_region_for_base_locked
             (wd_dirty_queue_note_cleared_locked server covered_id) covered_id
      else server in
    wd_stream_mark_summary_dirty_locked server covered_id.

Definition note_choice (server : wd_server) (input_sequence : Z) (c : wd_wire_tile_candidate) : wd_server :=
  wd_stream_note_tile_choice_locked server c.(ca_compressed_size) c.(ca_uncompressed_size)
    server.(sv_udp_payload_target) input_sequence c.(ca_compressed_payload) c.(ca_width) c.(ca_height)
    (zlen c.(ca_covered_base_ids)).

Definition send_result_payload (server : wd_server) (result : wd_parallel_encode_result)
    (generation input_sequence input_inject_ns : Z) : send_outcome :=
  let c := result.(rs_candidate) in
  wd_stream_send_tile_payload_sized_locked server c.(ca_tile_id) c.(ca_width) c.(ca_height) generation
    input_sequence input_inject_ns (Some result.(rs_payload)) (zlen result.(rs_payload))
    c.(ca_compressed_payload) inp.(ri_statuses) inp.(ri_start_ns) inp.(ri_end_ns) inp.(ri_delivery_alloc).

(** One result of a job of fresh tiles; the boolean tells whether the loop over
    the job's results goes on. *)
Definition send_fresh_result (result : wd_parallel_encode_result) (p : pass) : pass * bool :=
  let server := p.(pa_server) in
  let requeue server := wd_stream_requeue_dirty_top_region_locked server result.(rs_top_region_id)
                          inp.(ri_end_ns) inp.(ri_region_alloc) in
  if wd_stream_encode_result_stale_locked server result
  then (p <| pa_server := requeue (count ss_encode_jobs_stale 1 server) |>, true)
  else
    let input_sequence := p.(pa_pending_input_sequence) in
    let '(current_budget, server) := wd_stream_tile_byte_budget_locked server false inp.(ri_budget_ns) in
    if negb (wd_stream_candidate_allowed_for_region_locked server result.(rs_candidate) current_budget
               (client_happy server inp.(ri_reports)) (negb (input_sequence =? 0)))
    then (p <| pa_server := requeue (count ss_dirty_budget_blocked 1 server) |> <| pa_stop_sending := true |>, false)
    else
      let generation := wd_stream_next_generation_for_result_locked server result in
      let o := send_result_payload server result generation input_sequence p.(pa_pending_input_inject_ns) in
      let bytes := o.(so_result).(sr_bytes_sent) in
      if negb o.(so_ok) then (p <| pa_server := requeue o.(so_server) |>, true)
      else if negb o.(so_result).(sr_all_packets_sent) then
        let server := if o.(so_result).(sr_any_packet_sent)
                      then wd_stream_consume_tile_bytes_locked o.(so_server) false bytes else o.(so_server) in
        (p <| pa_server := requeue server |> <| pa_stop_sending := true |>, false)
      else
        let p := if negb (input_sequence =? 0)
                 then p <| pa_pending_input_sequence := 0 |> <| pa_pending_input_inject_ns := 0 |> else p in
        let server := note_choice o.(so_server) input_sequence result.(rs_candidate) in
        let server := fold_left (fresh_tile_sent generation input_sequence)
                        (combine result.(rs_candidate).(ca_covered_base_ids) result.(rs_covered_dirty_epochs)) server in
        let server := count ss_dirty_tiles 1 server in
        let server := count ss_udp_fresh_tiles_sent 1 server in
        let server := count ss_udp_fresh_bytes_sent bytes server in
        let server := count ss_encode_jobs_completed 1 server in
        let server := wd_stream_consume_tile_bytes_locked server false bytes in
        let sent := mk_sent_result result generation o in
        (p <| pa_server := server |> <| pa_sent := p.(pa_sent) ++ [sent] |>
           <| pa_stop_sending := o.(so_result).(sr_send_blocked) |>,
         negb o.(so_result).(sr_send_blocked)).

(** One result of a job of tiles to be sent again. *)
Definition send_repair_result (result : wd_parallel_encode_result) (p : pass) : pass * bool :=
  let server := p.(pa_server) in
  if wd_stream_encode_result_stale_locked server result
  then (p <| pa_server := count ss_encode_jobs_stale 1 server |>, true)
  else
    let '(current_budget, server) := wd_stream_tile_byte_budget_locked server true inp.(ri_budget_ns) in
    if negb (wd_stream_candidate_allowed_for_region_locked server result.(rs_candidate) current_budget
               (client_happy server inp.(ri_reports)) false)
    then (p <| pa_server := server |> <| pa_stop_sending := true |>, false)
    else
      let generation := wd_stream_next_generation_for_result_locked server result in
      let o := send_result_payload server result generation 0 0 in
      let bytes := o.(so_result).(sr_bytes_sent) in
      if negb o.(so_ok) then (p <| pa_server := o.(so_server) |>, true)
      else if negb o.(so_result).(sr_all_packets_sent) then
        let server := if o.(so_result).(sr_any_packet_sent)
                      then wd_stream_consume_tile_bytes_locked o.(so_server) true bytes else o.(so_server) in
        (p <| pa_server := server |> <| pa_stop_sending := true |>, false)
      else
        let server := note_choice o.(so_server) 0 result.(rs_candidate) in
        let server := fold_left (repaired_tile_sent generation)
                        (combine result.(rs_candidate).(ca_covered_base_ids) result.(rs_covered_dirty_epochs)) server in
        let server := count ss_udp_retx_tiles_sent 1 server in
        let server := count ss_udp_retx_bytes_sent bytes server in
        let server := wd_stream_consume_tile_bytes_locked server true bytes in
        let sent := mk_sent_result result generation o in
        (p <| pa_server := server |> <| pa_sent := p.(pa_sent) ++ [sent] |>
           <| pa_stop_sending := o.(so_result).(sr_send_blocked) |>,
         negb o.(so_result).(sr_send_blocked)).

End results.

(** ** Jobs *)

(** A completed job: what other threads did while the pass waited for it, which
    job of the batch it is, the worker that encoded it, the outcome of the
    allocations of its results and the inputs of each. *)
Record completion_input := mk_completion_input {
  ci_ops : list tile_op;
  ci_job : nat;
  ci_worker : wd_encoder_worker_state;
  ci_alloc : Z -> bool;
  ci_results : Z -> result_input;
}.

Section pass.
Context (ZSTD_compressCCtx : list Z -> Z -> option (list Z)) (framebuffer : list Z) (mode : Z).

(** The loop over the results of a job, from result [i] on. *)
Fixpoint send_results (source : wd_encode_selection_source) (inputs : Z -> result_input) (i : Z)
    (results : list wd_parallel_encode_result) (p : pass) : pass :=
  match results with
  | [] => p
  | result :: results =>
      let '(p, go_on) :=
        match source with
        | WD_ENCODE_SELECTION_FRESH => send_fresh_result (inputs i) result p
        | WD_ENCODE_SELECTION_RETRANSMIT => send_repair_result (inputs i) result p
        end in
      if go_on then send_results source inputs (i + 1) results p else p
  end.

(** A job that produced no tile. *)
Definition no_result (source : wd_encode_selection_source) (inp : result_input) (job : wd_parallel_encode_job)
    (p : pass) : pass :=
  match source with
  | WD_ENCODE_SELECTION_FRESH =>
      let p := if job.(jb_budget_blocked) && (p.(pa_server).(sv_dirty_region_count) >? 0)
               then p <| pa_server := count ss_dirty_budget_blocked 1 p.(pa_server) |> <| pa_stop_sending := true |>
               else p in
      p <| pa_server := wd_stream_requeue_dirty_top_region_locked p.(pa_server) job.(jb_top_region_id)
                          inp.(ri_end_ns) inp.(ri_region_alloc) |>
  | WD_ENCODE_SELECTION_RETRANSMIT => if job.(jb_budget_blocked) then p <| pa_stop_sending := true |> else p
  end.

Definition job_completed (source : wd_encode_selection_source) (c : completion_input)
    (job : wd_parallel_encode_job) (p : pass) : pass :=
  let job := (wd_stream_parallel_encode_one_job ZSTD_compressCCtx c.(ci_alloc) job c.(ci_worker)).1 in
  let p := p <| pa_server := wd_stream_note_encode_job_stats_locked p.(pa_server) job.(jb_stats) |> in
  if p.(pa_stop_sending) then p
  else
    match job.(jb_result) with
    | [] => no_result source (c.(ci_results) 0) job p
    | results => send_results source c.(ci_results) 0 results p
    end.

(** The completions of a batch in their order; each job completes once. *)
Fixpoint completions (source : wd_encode_selection_source) (jobs : list wd_parallel_encode_job)
    (completed : list nat) (cs : list completion_input) (p : pass) : pass :=
  match cs with
  | [] => p
  | c :: cs =>
      let p := p <| pa_server := tile_ops c.(ci_ops) p.(pa_server) |> in
      match jobs !! c.(ci_job) with
      | None => p
      | Some job =>
          if bool_decide (c.(ci_job) ∈ completed) then p
          else completions source jobs (c.(ci_job) :: completed) cs (job_completed source c job p)
      end
  end.

(** What the environment contributes to one batch. *)
Record batch_input := mk_batch_input {
  bt_reports : wd_stats;
  bt_budget_ns : Z;
  bt_workers : Z;
  bt_workspace : bool;
  bt_take_ns : Z -> Z;
  bt_start_ops : list tile_op;
  bt_started : bool;
  bt_completions : list completion_input;
  bt_end_ops : list tile_op;
  bt_requeue_ns : Z;
  bt_region_alloc : bool;
}.

(** ** Fresh tiles *)

(** The loop that takes regions until the batch is full; every turn takes one. *)
Fixpoint take_jobs (fuel : nat) (b : batch_input) (k : Z) (capacity input_sequence remaining_byte_budget : Z)
    (network_happy : bool) (server : wd_server) (jobs : list wd_parallel_encode_job)
    : wd_server * list wd_parallel_encode_job :=
  match fuel with
  | O => (server, jobs)
  | S fuel =>
      if (zlen jobs <? capacity) && (server.(sv_dirty_region_count) >? 0) then
        match server.(sv_dirty_region_scheduler) with
        | NULL => (server, jobs)
        | Some d =>
            let '(top, d) := wd_dirty_region_scheduler_take d server.(sv_dirty_region_cursor) (b.(bt_take_ns) k) in
            let server := server <| sv_dirty_region_scheduler := Some d |> in
            match top with
            | None => (server, jobs)
            | Some top_id =>
                let server := wd_stream_sync_dirty_region_count_locked server in
                let next := take_jobs fuel b (k + 1) capacity input_sequence remaining_byte_budget network_happy in
                if negb (wd_stream_top_region_still_dirty_locked server top_id)
                then next (wd_stream_remove_dirty_top_region_locked server top_id) jobs
                else
                  let server := server <| sv_dirty_region_cursor := top_id |> in
                  match wd_stream_init_encode_job_locked server framebuffer mode top_id input_sequence
                          remaining_byte_budget network_happy WD_ENCODE_SELECTION_FRESH
                          WD_STREAM_ENCODER_MAX_RESULTS_PER_JOB with
                  | Some job => next server (jobs ++ [job])
                  | None => next server jobs
                  end
            end
        end
      else (server, jobs)
  end.

Definition requeue_jobs (b : batch_input) (jobs : list wd_parallel_encode_job) (server : wd_server) : wd_server :=
  fold_left (fun server job =>
      wd_stream_requeue_dirty_top_region_locked server job.(jb_top_region_id) b.(bt_requeue_ns) b.(bt_region_alloc))
    jobs server.

(** One turn of the loop over batches of fresh tiles. *)
Definition fresh_batch (b : batch_input) (server : wd_server) : wd_server * list sent_result * bool :=
  let '(remaining_byte_budget, server) := wd_stream_tile_byte_budget_locked server false b.(bt_budget_ns) in
  let input_sequence := wd_input_correlation_select server.(sv_input_since_last_fresh_tile)
                          server.(sv_last_input_sequence) server.(sv_input_correlation_inflight_sequence) in
  let input_inject_ns :=
    if negb (input_sequence =? 0) && (input_sequence =? server.(sv_last_input_sequence))
    then server.(sv_last_input_inject_ns) else 0 in
  let g := server.(sv_geometry) in
  let base_uncompressed_bytes := u32 (g.(tg_tile_width) * g.(tg_tile_height) * WD_BYTES_PER_PIXEL) in
  let minimum_wire_bytes := wd_stream_tile_wire_bytes_for_payload base_uncompressed_bytes
                              server.(sv_udp_payload_target) input_sequence false in
  if (minimum_wire_bytes =? 0) || (minimum_wire_bytes >? remaining_byte_budget)
  then (count ss_dirty_budget_blocked 1 server, [], false)
  else
    let capacity := wd_stream_encode_batch_capacity server.(sv_dirty_region_count) b.(bt_workers) in
    if (capacity =? 0) || negb b.(bt_workspace) then (server, [], false)
    else
      let '(server, jobs) :=
        take_jobs (Z.to_nat server.(sv_dirty_region_count)) b 0 capacity input_sequence remaining_byte_budget
          (client_happy server b.(bt_reports)) server [] in
      match jobs with
      | [] => (server, [], false)
      | _ =>
          let server := count ss_encode_jobs_submitted (zlen jobs) server in
          let server := tile_ops b.(bt_start_ops) server in
          if negb b.(bt_started) then (requeue_jobs b jobs server, [], false)
          else
            let p := completions WD_ENCODE_SELECTION_FRESH jobs [] b.(bt_completions)
                       (mk_pass server false input_sequence input_inject_ns []) in
            let server := requeue_jobs b jobs (tile_ops b.(bt_end_ops) p.(pa_server)) in
            (server, p.(pa_sent), negb p.(pa_stop_sending))
      end.

(** The loop over batches, for as many turns as there are inputs. *)
Fixpoint send_fresh (batches : list batch_input) (server : wd_server) : wd_server * list sent_result :=
  match batches with
  | [] => (server, [])
  | b :: batches =>
      if server.(sv_dirty_region_count) >? 0 then
        let '(server, sent, go_on) := fresh_batch b server in
        if go_on then let '(server, more) := send_fresh batches server in (server, sent ++ more)
        else (server, sent)
      else (server, [])
  end.

(** ** Repairs *)

(** One slot of the repair queue: the regions to encode, in order. *)
Definition collect_repair (acc : wd_server * list Z) (tile_id : Z) : wd_server * list Z :=
  let '(server, regions) := acc in
  if (tile_id >=? server.(sv_geometry).(tg_total_tiles)) || negb (aget false server.(sv_retransmit_queued) tile_id)
  then (server, regions)
  else if negb (null server.(sv_dirty_queued)) && aget false server.(sv_dirty_queued) tile_id
  then (count ss_retx_tiles_superseded_by_fresh 1 (drop_retransmit_marks server tile_id), regions)
  else
    let requested := if null server.(sv_retransmit_requested_generation) then 0
                     else aget 0 server.(sv_retransmit_requested_generation) tile_id in
    if negb (requested =? 0) &&
       ((aget (mk_wd_tile_state 0 0 0) server.(sv_tiles) tile_id).(ti_generation) <? requested)
    then (server, regions)
    else
      match wd_stream_top_region_for_base_tile server.(sv_geometry) tile_id with
      | None => (server, regions)
      | Some region_id =>
          (server, if existsb (Z.eqb region_id) regions then regions else regions ++ [region_id])
      end.

(** The jobs of the first [capacity] regions that can be made. *)
Fixpoint repair_jobs (capacity remaining_byte_budget : Z) (network_happy : bool) (server : wd_server)
    (regions : list Z) (jobs : list wd_parallel_encode_job) : list wd_parallel_encode_job :=
  match regions with
  | [] => jobs
  | region :: regions =>
      if zlen jobs <? capacity then
        match wd_stream_init_encode_job_locked server framebuffer mode region 0 remaining_byte_budget network_happy
                WD_ENCODE_SELECTION_RETRANSMIT WD_STREAM_ENCODER_MAX_RESULTS_PER_JOB with
        | Some job => repair_jobs capacity remaining_byte_budget network_happy server regions (jobs ++ [job])
        | None => repair_jobs capacity remaining_byte_budget network_happy server regions jobs
        end
      else jobs
  end.

(** One turn of the loop over batches of repairs. *)
Definition repair_batch (b : batch_input) (server : wd_server) : wd_server * list sent_result * bool :=
  let '(token_budget, server) := wd_stream_tile_byte_budget_locked server true b.(bt_budget_ns) in
  if (token_budget =? 0) || negb b.(bt_workspace) then (server, [], false)
  else
    let slots := take (Z.to_nat server.(sv_retransmit_queue_count)) server.(sv_retransmit_queue) in
    let '(server, regions) := fold_left collect_repair slots (server, []) in
    let server := wd_stream_compact_retransmit_queue_locked server in
    let capacity := wd_stream_encode_batch_capacity (zlen regions) b.(bt_workers) in
    if (zlen regions =? 0) || (capacity =? 0) then (server, [], false)
    else
      match repair_jobs capacity token_budget (client_happy server b.(bt_reports)) server regions [] with
      | [] => (server, [], false)
      | jobs =>
          let server := tile_ops b.(bt_start_ops) server in
          let '(server, sent, stop_sending) :=
            if b.(bt_started) then
              let p := completions WD_ENCODE_SELECTION_RETRANSMIT jobs [] b.(bt_completions)
                         (mk_pass server false 0 0 []) in
              (tile_ops b.(bt_end_ops) p.(pa_server), p.(pa_sent), p.(pa_stop_sending))
            else (server, [], true) in
          (wd_stream_compact_retransmit_queue_locked server, sent, negb stop_sending)
      end.

Fixpoint send_repairs (batches : list batch_input) (server : wd_server) : wd_server * list sent_result :=
  match batches with
  | [] => (server, [])
  | b :: batches =>
      if server.(sv_retransmit_queue_count) >? 0 then
        let '(server, sent, go_on) := repair_batch b server in
        if go_on then let '(server, more) := send_repairs batches server in (server, sent ++ more)
        else (server, sent)
      else (server, [])
  end.

Definition wd_stream_send_retransmits_locked (batches : list batch_input) (server : wd_server)
    : wd_server * list sent_result :=
  if (server.(sv_retransmit_queue_count) =? 0) || null server.(sv_retransmit_queued) then (server, [])
  else send_repairs batches server.

(** ** The pass *)

Record pass_input := mk_pass_input {
  pi_process_new_damage : bool;
  pi_analysis : ptr wd_stream_frame_analysis;
  pi_analysis_ns : Z;
  pi_analysis_alloc : bool;
  pi_reports : wd_stats;
  pi_early_repairs : list batch_input;
  pi_fresh : list batch_input;
  pi_repairs : list batch_input;
}.

(** From the point where tiles own the display to the end of the repairs. *)
Definition send_tiles (i : pass_input) (server : wd_server) : wd_server * list sent_result :=
  let blocked_at_start := server.(sv_stats).(ss_dirty_budget_blocked) in
  let refreshes_at_start := server.(sv_stats).(ss_framebuffer_diff_full_refreshes) in
  let server :=
    if i.(pi_process_new_damage)
    then fst (wd_stream_apply_frame_analysis_locked server i.(pi_analysis) i.(pi_analysis_ns) i.(pi_analysis_alloc))
    else server in
  let '(server, early) :=
    if negb (client_happy server i.(pi_reports)) && (server.(sv_retransmit_queue_count) >? 0)
    then wd_stream_send_retransmits_locked i.(pi_early_repairs) server else (server, []) in
  let '(server, fresh) := send_fresh i.(pi_fresh) server in
  let '(server, repaired) :=
    if negb (wd_stream_mode_video_owns_display server.(sv_stream_policy).(sp_stream_mode))
    then wd_stream_send_retransmits_locked i.(pi_repairs) server else (server, []) in
  let blocked_now := u64 (server.(sv_stats).(ss_dirty_budget_blocked) - blocked_at_start) in
  let server :=
    if i.(pi_process_new_damage) && negb (server.(sv_stats).(ss_dirty_budget_blocked) =? blocked_at_start) &&
       negb (server.(sv_stats).(ss_framebuffer_diff_full_refreshes) =? refreshes_at_start)
    then count ss_dirty_budget_blocked_full_refresh blocked_now server else server in
  (server, early ++ fresh ++ repaired).

End pass.

(** ** What a pass keeps *)

(** Same queues, other rates and counters. *)
Lemma budget_frame s repair now :
  exists p, (wd_stream_tile_byte_budget_locked s repair now).2 = s <| sv_stream_policy := p |>.
Proof. unfold wd_stream_tile_byte_budget_locked. destruct (wd_stream_class_budget_locked _ _ _ _ _). by eexists. Qed.

Lemma consume_frame s repair bytes :
  exists p, wd_stream_consume_tile_bytes_locked s repair bytes = s <| sv_stream_policy := p |>.
Proof. unfold wd_stream_consume_tile_bytes_locked. case_if; [exists s.(sv_stream_policy); by destruct s | by eexists]. Qed.

Lemma note_choice_frame s seq c : exists st, note_choice s seq c = s <| sv_stats := st |>.
Proof. unfold note_choice, wd_stream_note_tile_choice_locked. repeat case_if; by eexists. Qed.

Lemma note_job_frame s stats : exists st, wd_stream_note_encode_job_stats_locked s stats = s <| sv_stats := st |>.
Proof. unfold wd_stream_note_encode_job_stats_locked, count. by eexists. Qed.

Lemma remove_keeps_dirty s r : keeps_dirty s (wd_stream_remove_dirty_top_region_locked s r).
Proof. unfold wd_stream_remove_dirty_top_region_locked. by destruct (sv_dirty_region_scheduler s). Qed.

Lemma maybe_clear_keeps s t : keeps_dirty s (wd_stream_maybe_clear_dirty_top_region_for_base_locked s t).
Proof.
  unfold wd_stream_maybe_clear_dirty_top_region_for_base_locked.
  destruct (wd_stream_top_region_for_base_tile _ _); [| done]. case_if; [apply remove_keeps_dirty | done].
Qed.

Lemma requeue_keeps s r now a : keeps_dirty s (wd_stream_requeue_dirty_top_region_locked s r now a).
Proof.
  unfold wd_stream_requeue_dirty_top_region_locked. case_if; [done |].
  destruct (wd_stream_collect_wire_tile_base_ids _ _ _ _ _) as [[|first ids]|]; [done | apply mark_keeps_dirty | done].
Qed.

Lemma mark_summary_keeps s t : keeps_dirty s (wd_stream_mark_summary_dirty_locked s t).
Proof. unfold wd_stream_mark_summary_dirty_locked. repeat case_if; done. Qed.

Lemma clear_request_keeps s t now : keeps_dirty s (wd_stream_clear_retransmit_request_locked s t now).
Proof.
  unfold wd_stream_clear_retransmit_request_locked, wd_stream_note_queue_age_locked. repeat case_if; done.
Qed.

(** Every dirty tile of [s] is still dirty or among [ids]. *)
Definition dirty_but (ids : list Z) (s s' : wd_server) : Prop :=
  s'.(sv_geometry) = s.(sv_geometry) /\
  forall t, 0 <= t < s.(sv_geometry).(tg_total_tiles) -> aget false s.(sv_dirty_queued) t = true ->
    aget false s'.(sv_dirty_queued) t = true \/ t ∈ ids.

Lemma dirty_but_trans ids ids' a b c : dirty_but ids a b -> dirty_but ids' b c -> dirty_but (ids ++ ids') a c.
Proof.
  intros [E1 H1] [E2 H2]. split; [congruence |]. intros t Ht Hd. rewrite elem_of_app.
  destruct (H1 t Ht Hd) as [Hb|?]; [| right; by left]. rewrite <- E1 in Ht. destruct (H2 t Ht Hb); [by left | right; by right].
Qed.

Lemma keeps_dirty_but ids s s' : keeps_dirty s s' -> dirty_but ids s s'.
Proof. intros [E H]. split; [done |]. intros t Ht Hd. left. by apply H. Qed.

Lemma note_cleared_but held s t : 0 <= t < s.(sv_geometry).(tg_total_tiles) -> queues_ok held s ->
  dirty_but [t] s (wd_dirty_queue_note_cleared_locked s t).
Proof.
  intros Ht (G & D & _). unfold wd_dirty_queue_note_cleared_locked. case_if; [by apply keeps_dirty_but |].
  split; [done |]. intros t' Ht' Hd. destruct (Z.eq_dec t t') as [->|Hne]; [right; by apply list_elem_of_singleton | left].
  cbn [sv_dirty_queued set_field]. rewrite aget_aset_ne by lia. done.
Qed.

Lemma metadata_ok held s t gen ts seq : 0 <= t < s.(sv_geometry).(tg_total_tiles) -> queues_ok held s ->
  let s' := (wd_stream_update_base_tile_metadata_locked s t gen ts seq).1 in
  queues_ok held s' /\ keeps_dirty s s'.
Proof.
  intros Ht Q. cbv zeta. unfold wd_stream_update_base_tile_metadata_locked. case_if; [done |]. split; [| done].
  destruct Q as (? & ? & ? & ? & A). split_and!; try done. revert A. rewrite !list.Forall_cons. cbn. by rewrite zlen_aset.
Qed.

Section base_tiles.
Context (held : Z -> Prop) (inp : result_input) (generation : Z).

Lemma fresh_tile_ok seq s t e : 0 <= t -> queues_ok held s ->
  let s' := fresh_tile_sent inp generation seq s (t, e) in queues_ok held s' /\ dirty_but [t] s s'.
Proof.
  intros Ht0 Q. cbv zeta. unfold fresh_tile_sent. case_if; [split; [done | by apply keeps_dirty_but] |]. bool_cases.
  assert (0 <= t < s.(sv_geometry).(tg_total_tiles)) as Ht by lia.
  pose proof (metadata_ok held s t generation inp.(ri_send_now) seq Ht Q) as [Q1 K1].
  destruct (wd_stream_update_base_tile_metadata_locked _ _ _ _ _) as [s1 b]. cbn [fst] in Q1, K1.
  rewrite <- (proj1 K1) in Ht.
  match goal with |- context [wd_stream_maybe_clear_dirty_top_region_for_base_locked ?x t] => set (s2 := x) end.
  assert (queues_ok held s2 /\ dirty_but [t] s1 s2) as [Q2 K2].
  { subst s2. case_if; [split; [by apply note_cleared_ok | by apply (note_cleared_but held)] |].
    split; [done | by apply keeps_dirty_but]. }
  rewrite <- (proj1 K2) in Ht. pose proof (maybe_clear_region_ok held s2 t Ht Q2) as Q3.
  split; [by apply mark_summary_ok |].
  apply (dirty_but_trans [] [t] s s1); [by apply keeps_dirty_but |].
  rewrite <- (app_nil_r [t]). apply (dirty_but_trans [t] [] s1 s2); [done |]. apply keeps_dirty_but.
  etransitivity; [apply maybe_clear_keeps | apply mark_summary_keeps].
Qed.

Lemma repaired_tile_ok s t e : 0 <= t -> queues_ok held s ->
  let s' := repaired_tile_sent inp generation s (t, e) in queues_ok held s' /\ dirty_but [t] s s'.
Proof.
  intros Ht0 Q. cbv zeta. unfold repaired_tile_sent. case_if; [split; [done | by apply keeps_dirty_but] |]. bool_cases.
  assert (0 <= t < s.(sv_geometry).(tg_total_tiles)) as Ht by lia.
  pose proof (metadata_ok held s t generation inp.(ri_send_now) 0 Ht Q) as [Q1 K1].
  destruct (wd_stream_update_base_tile_metadata_locked _ _ _ _ _) as [s1 b]. cbn [fst] in Q1, K1.
  rewrite <- (proj1 K1) in Ht. pose proof (clear_request_ok held s1 t inp.(ri_end_ns) Ht Q1) as Q2.
  pose proof (clear_request_keeps s1 t inp.(ri_end_ns)) as K2.
  set (s2 := wd_stream_clear_retransmit_request_locked s1 t _) in *. rewrite <- (proj1 K2) in Ht.
  match goal with |- context [wd_stream_mark_summary_dirty_locked ?x t] => set (s3 := x) end.
  assert (queues_ok held s3 /\ dirty_but [t] s2 s3) as [Q3 K3].
  { subst s3. case_if; [| split; [done | by apply keeps_dirty_but]].
    pose proof (note_cleared_but held s2 t Ht Q2) as K. pose proof (note_cleared_ok held s2 t Ht Q2) as Q'.
    split; [apply maybe_clear_region_ok; [by rewrite (proj1 K) | done] |].
    rewrite <- (app_nil_r [t]). apply (dirty_but_trans [t] [] _ _ _ K), keeps_dirty_but, maybe_clear_keeps. }
  split; [by apply mark_summary_ok |].
  apply (dirty_but_trans [] [t] s s2); [apply keeps_dirty_but; by etransitivity |].
  rewrite <- (app_nil_r [t]). apply (dirty_but_trans [t] [] s2 s3); [done |]. apply keeps_dirty_but, mark_summary_keeps.
Qed.

(** All base tiles of a sent tile. *)
Lemma fold_sent_ok (step : wd_server -> Z * Z -> wd_server) :
  (forall s t e, 0 <= t -> queues_ok held s -> queues_ok held (step s (t, e)) /\ dirty_but [t] s (step s (t, e))) ->
  forall ids epochs s, Forall (fun t => 0 <= t) ids -> queues_ok held s ->
    let s' := fold_left step (combine ids epochs) s in queues_ok held s' /\ dirty_but ids s s'.
Proof.
  intros Hstep. induction ids as [|t ids IH]; intros [|e epochs] s Hids Q; cbn [combine fold_left];
    try (split; [done | by apply keeps_dirty_but]).
  apply list.Forall_cons in Hids as [Ht Hids]. destruct (Hstep s t e Ht Q) as [Q1 K1].
  destruct (IH epochs (step s (t, e)) Hids Q1) as [Q2 K2]. split; [done |].
  exact (dirty_but_trans [t] ids _ _ _ K1 K2).
Qed.

End base_tiles.

Section pass_ok.
Context (ZSTD_compressCCtx : list Z -> Z -> option (list Z)) (fb : list Z) (mode : Z).
(** [quiet]: no new session begins while the pass runs. *)
Context (quiet : Prop).

(** A tile of grid [g] with its pixels, its base tiles and their epochs. *)
Record result_ok (g : tile_geometry) (r : wd_parallel_encode_result) : Prop := {
  rt_region : 0 <= r.(rs_top_region_id) < region_total g;
  rt_epochs : length r.(rs_covered_dirty_epochs) = length r.(rs_candidate).(ca_covered_base_ids);
  rt_size : wire_size r.(rs_candidate).(ca_width) r.(rs_candidate).(ca_height);
  rt_tile : 0 <= r.(rs_candidate).(ca_tile_id) < wire_tiles g r.(rs_candidate).(ca_width) r.(rs_candidate).(ca_height);
  rt_covered : wd_stream_collect_wire_tile_base_ids g r.(rs_candidate).(ca_tile_id) r.(rs_candidate).(ca_width)
    r.(rs_candidate).(ca_height) WD_WIRE_TILE_MAX_BASE_TILES = Some r.(rs_candidate).(ca_covered_base_ids);
  rt_pixels : encodes ZSTD_compressCCtx
    (tile_source g fb r.(rs_candidate).(ca_width) r.(rs_candidate).(ca_height) r.(rs_candidate).(ca_tile_id))
    r.(rs_payload) r.(rs_candidate).(ca_compressed_payload);
}.

Lemma result_covered g r : grid_ok g -> result_ok g r -> Forall (fun t => 0 <= t) r.(rs_candidate).(ca_covered_base_ids).
Proof.
  intros G R. destruct (collect_spec g G _ _ (rt_size _ _ R) _ (rt_tile _ _ R)) as (ids & E & _ & _ & _ & Hmem).
  rewrite (rt_covered _ _ R) in E. injection E as ->. apply list.Forall_forall. intros t Ht%Hmem. lia.
Qed.

(** A tile that was sent: it was handed over whole, and holds what the
    framebuffer shows. *)
Definition sent_ok (g : tile_geometry) (x : sent_result) : Prop :=
  result_ok g x.(sx_result) /\ x.(sx_outcome).(so_ok) = true /\
  x.(sx_outcome).(so_result).(sr_all_packets_sent) = true /\
  exists inp server seq inj, server.(sv_geometry) = g /\
    x.(sx_outcome) = send_result_payload inp server x.(sx_result) x.(sx_generation) seq inj.

Definition sent_tiles (sent : list sent_result) : list Z :=
  sent ≫= fun x => x.(sx_result).(rs_candidate).(ca_covered_base_ids).

Record pass_ok (held : Z -> Prop) (s0 : wd_server) (s : wd_server) (sent : list sent_result) : Prop := {
  ps_queues : queues_ok held s;
  ps_geometry : s.(sv_geometry) = s0.(sv_geometry);
  ps_sent : Forall (sent_ok s0.(sv_geometry)) sent;
  ps_dirty : quiet -> dirty_but (sent_tiles sent) s0 s;
}.

Lemma pass_ok_refl held s : queues_ok held s -> pass_ok held s s [].
Proof. intros Q. split; try done. intros _. by apply keeps_dirty_but. Qed.

(** A step that sends nothing. *)
Lemma pass_ok_step held held' s0 s s' sent : pass_ok held s0 s sent -> queues_ok held' s' ->
  s'.(sv_geometry) = s.(sv_geometry) -> (quiet -> keeps_dirty s s') -> pass_ok held' s0 s' sent.
Proof.
  intros [P1 P2 P3 P4] Q E K. split; [done | congruence | done |]. intros Hq.
  rewrite <- (app_nil_r (sent_tiles sent)). apply (dirty_but_trans _ _ _ s); [by apply P4 |].
  by apply keeps_dirty_but, K.
Qed.

(** A step that sends a tile. *)
Lemma pass_ok_sent held s0 s s' sent x : pass_ok held s0 s sent -> queues_ok held s' -> sent_ok s0.(sv_geometry) x ->
  dirty_but x.(sx_result).(rs_candidate).(ca_covered_base_ids) s s' -> pass_ok held s0 s' (sent ++ [x]).
Proof.
  intros [P1 P2 P3 P4] Q X K. split; [done | by rewrite (proj1 K) | |].
  - apply list.Forall_app. split; [done | by constructor].
  - intros Hq. unfold sent_tiles. rewrite bind_app. cbn [mbind list_bind]. rewrite app_nil_r.
    by apply (dirty_but_trans _ _ _ s); [apply P4 |].
Qed.

Definition result_input_ok (inp : result_input) : Prop :=
  0 <= inp.(ri_start_ns) /\ 0 <= inp.(ri_end_ns) /\ inp.(ri_region_alloc) = true.

Section results.
Context (held : Z -> Prop) (s0 : wd_server) (inp : result_input) (result : wd_parallel_encode_result).
Context (Hinp : result_input_ok inp) (R : result_ok s0.(sv_geometry) result).

Lemma requeue_step s s' sent : pass_ok held s0 s sent -> queues_ok held s' -> keeps_dirty s s' ->
  pass_ok held s0 (wd_stream_requeue_dirty_top_region_locked s' result.(rs_top_region_id) inp.(ri_end_ns)
    inp.(ri_region_alloc)) sent.
Proof.
  intros P Q K. destruct Hinp as (_ & Hn & ->).
  pose proof (requeue_keeps s' result.(rs_top_region_id) inp.(ri_end_ns) true) as K'.
  apply (pass_ok_step held held s0 s _ _ P).
  - apply requeue_region_ok; [| done |].
    + rewrite (proj1 K), (ps_geometry _ _ _ _ P). apply (rt_region _ _ R).
    + revert Q. apply held_weaken. by left.
  - by rewrite (proj1 K'), (proj1 K).
  - intros _. by etransitivity.
Qed.

(** The send itself, from a state with the same queues. *)
Lemma send_payload_ok s gen seq inj : queues_ok held s -> s.(sv_geometry) = s0.(sv_geometry) ->
  let s' := (send_result_payload inp s result gen seq inj).(so_server) in queues_ok held s' /\ keeps_dirty s s'.
Proof.
  intros Q E. destruct Hinp as (Hn & _ & _). apply send_tile_ok; try done; [apply R |].
  destruct (rt_tile _ _ R). lia.
Qed.

Lemma fresh_result_ok p : pass_ok held s0 p.(pa_server) p.(pa_sent) ->
  let p' := (send_fresh_result inp result p).1 in pass_ok held s0 p'.(pa_server) p'.(pa_sent).
Proof.
  intros P. cbv zeta. unfold send_fresh_result. pose proof (ps_queues _ _ _ _ P) as Q.
  destruct (wd_stream_encode_result_stale_locked _ _).
  { by apply (requeue_step p.(pa_server)). }
  destruct (budget_frame p.(pa_server) false inp.(ri_budget_ns)) as [pol Eb].
  destruct (wd_stream_tile_byte_budget_locked _ _ _) as [budget s1]. cbn [snd] in Eb. subst s1.
  set (s1 := p.(pa_server) <| sv_stream_policy := pol |>). assert (queues_ok held s1) as Q1 by done.
  assert (keeps_dirty p.(pa_server) s1) as K1 by done.
  destruct (wd_stream_candidate_allowed_for_region_locked _ _ _ _ _); cbn [negb].
  2:{ by apply (requeue_step p.(pa_server)). }
  set (gen := wd_stream_next_generation_for_result_locked s1 result).
  destruct (send_payload_ok s1 gen p.(pa_pending_input_sequence) p.(pa_pending_input_inject_ns) Q1 (ps_geometry _ _ _ _ P))
    as [Q2 K2].
  set (o := send_result_payload inp s1 result gen _ _) in *.
  assert (keeps_dirty p.(pa_server) o.(so_server)) as K12 by by etransitivity.
  destruct (so_ok o) eqn:Eok; cbn [negb]; [| by apply (requeue_step p.(pa_server))].
  destruct (sr_all_packets_sent (so_result o)) eqn:Eall; cbn [negb].
  2:{ case_if; [| by apply (requeue_step p.(pa_server))].
      destruct (consume_frame o.(so_server) false o.(so_result).(sr_bytes_sent)) as [pol' ->].
      by apply (requeue_step p.(pa_server)). }
  set (p1 := if negb _ then _ else p).
  assert (pa_server p1 = pa_server p /\ pa_sent p1 = pa_sent p) as [E1 E2] by (subst p1; by case_if).
  cbn [fst pa_server pa_sent set_field].
  destruct (note_choice_frame o.(so_server) p.(pa_pending_input_sequence) result.(rs_candidate)) as [st ->].
  set (s3 := o.(so_server) <| sv_stats := st |>). assert (queues_ok held s3) as Q3 by done.
  destruct (fold_sent_ok held (fresh_tile_sent inp gen p.(pa_pending_input_sequence))
    (fun s t e => fresh_tile_ok held inp gen _ s t e) result.(rs_candidate).(ca_covered_base_ids)
    result.(rs_covered_dirty_epochs) s3) as [Q4 K4];
    [apply (result_covered s0.(sv_geometry)); [rewrite <- (ps_geometry _ _ _ _ P); apply Q | done] | done |].
  set (s4 := fold_left _ _ s3) in *.
  destruct (consume_frame (count ss_encode_jobs_completed 1 (count ss_udp_fresh_bytes_sent o.(so_result).(sr_bytes_sent)
    (count ss_udp_fresh_tiles_sent 1 (count ss_dirty_tiles 1 s4)))) false o.(so_result).(sr_bytes_sent)) as [pol' ->].
  rewrite E2. apply (pass_ok_sent held s0 p.(pa_server)); [done | done | |].
  - split; [done |]. split; [done |]. split; [done |]. exists inp, s1, p.(pa_pending_input_sequence), p.(pa_pending_input_inject_ns).
    split; [apply (ps_geometry _ _ _ _ P) | done].
  - apply (dirty_but_trans [] _ _ o.(so_server)); [by apply keeps_dirty_but | done].
Qed.

Lemma repair_result_ok p : pass_ok held s0 p.(pa_server) p.(pa_sent) ->
  let p' := (send_repair_result inp result p).1 in pass_ok held s0 p'.(pa_server) p'.(pa_sent).
Proof.
  intros P. cbv zeta. unfold send_repair_result. pose proof (ps_queues _ _ _ _ P) as Q.
  destruct (wd_stream_encode_result_stale_locked _ _).
  { by apply (pass_ok_step held held s0 p.(pa_server)). }
  destruct (budget_frame p.(pa_server) true inp.(ri_budget_ns)) as [pol Eb].
  destruct (wd_stream_tile_byte_budget_locked _ _ _) as [budget s1]. cbn [snd] in Eb. subst s1.
  set (s1 := p.(pa_server) <| sv_stream_policy := pol |>). assert (queues_ok held s1) as Q1 by done.
  assert (keeps_dirty p.(pa_server) s1) as K1 by done.
  destruct (wd_stream_candidate_allowed_for_region_locked _ _ _ _ _); cbn [negb].
  2:{ by apply (pass_ok_step held held s0 p.(pa_server)). }
  set (gen := wd_stream_next_generation_for_result_locked s1 result).
  destruct (send_payload_ok s1 gen 0 0 Q1 (ps_geometry _ _ _ _ P)) as [Q2 K2].
  set (o := send_result_payload inp s1 result gen _ _) in *.
  assert (keeps_dirty p.(pa_server) o.(so_server)) as K12 by by etransitivity.
  assert (forall pol, pass_ok held s0 (o.(so_server) <| sv_stream_policy := pol |>) p.(pa_sent)) as Hp
    by (intros; apply (pass_ok_step held held s0 p.(pa_server)); [done | done | apply K12 | by intros _]).
  destruct (so_ok o) eqn:Eok; cbn [negb].
  2:{ apply (pass_ok_step held held s0 p.(pa_server)); [done | done | apply K12 | by intros _]. }
  destruct (sr_all_packets_sent (so_result o)) eqn:Eall; cbn [negb].
  2:{ case_if; [| apply (pass_ok_step held held s0 p.(pa_server)); [done | done | apply K12 | by intros _]].
      destruct (consume_frame o.(so_server) true o.(so_result).(sr_bytes_sent)) as [pol' ->]. apply Hp. }
  cbn [fst pa_server pa_sent set_field].
  destruct (note_choice_frame o.(so_server) 0 result.(rs_candidate)) as [st ->].
  set (s3 := o.(so_server) <| sv_stats := st |>). assert (queues_ok held s3) as Q3 by done.
  destruct (fold_sent_ok held (repaired_tile_sent inp gen)
    (fun s t e => repaired_tile_ok held inp gen s t e) result.(rs_candidate).(ca_covered_base_ids)
    result.(rs_covered_dirty_epochs) s3) as [Q4 K4];
    [apply (result_covered s0.(sv_geometry)); [rewrite <- (ps_geometry _ _ _ _ P); apply Q | done] | done |].
  set (s4 := fold_left _ _ s3) in *.
  destruct (consume_frame (count ss_udp_retx_bytes_sent o.(so_result).(sr_bytes_sent)
    (count ss_udp_retx_tiles_sent 1 s4)) true o.(so_result).(sr_bytes_sent)) as [pol' ->].
  apply (pass_ok_sent held s0 p.(pa_server)); [done | done | |].
  - split; [done |]. split; [done |]. split; [done |]. exists inp, s1, 0, 0.
    split; [apply (ps_geometry _ _ _ _ P) | done].
  - apply (dirty_but_trans [] _ _ o.(so_server)); [by apply keeps_dirty_but | done].
Qed.

End results.

(** *** Jobs and completions *)

Definition job_of (g : tile_geometry) (job : wd_parallel_encode_job) : Prop := job_ok job fb /\ job.(jb_geometry) = g.

Lemma job_region g job : job_of g job -> 0 <= job.(jb_top_region_id) < region_total g.
Proof. intros [J <-]. destruct (region_total_eq _ (jo_grid _ _ J)) as (-> & _). apply (jo_region _ _ J). Qed.

Lemma job_result_ok g job r : job_of g job -> tile_result ZSTD_compressCCtx job fb r -> result_ok g r.
Proof.
  intros Hj (w & h & id & (HS & Hid & _) & Hr). pose proof (job_region g job Hj) as Hreg. destruct Hj as [J <-].
  destruct Hr as [[Ho _] (<- & <- & <-) Hc _ He Hp _ _]. split; try done.
  - by rewrite Ho.
  - symmetry. by apply Forall2_length in He.
Qed.

Definition ops_ok (ops : list tile_op) : Prop := Forall tile_op_ok ops /\ (quiet -> SessionReset ∉ ops).

Definition completion_ok (c : completion_input) : Prop :=
  ops_ok c.(ci_ops) /\ worker_ok c.(ci_worker) /\ (forall i, result_input_ok (c.(ci_results) i)).

Lemma tile_ops_geometry held ops s : Forall tile_op_ok ops -> queues_ok held s ->
  (tile_ops ops s).(sv_geometry) = s.(sv_geometry).
Proof.
  revert s. induction ops as [|op ops IH]; intros s Hops Q; [done |]. pose proof Hops as [Ho Hops']%list.Forall_cons.
  pose proof (tile_ops_ok held [op] s ltac:(by constructor) Q) as Q1.
  change (tile_ops (op :: ops) s) with (tile_ops ops (tile_op_step s op)). rewrite IH by done.
  destruct op as [d failed now a | sid tok payload now | rx inj | full dropped busy pa ca acc now | c ok |];
    cbn [tile_op_step].
  - destruct Ho as (Hn & -> & Hc). by apply (finish_delivery_ok held).
  - apply repair_request_keeps.
  - unfold wd_stats_note_pointer_input_inject_locked. by case_if.
  - by apply (summary_step_ok held).
  - by apply (summary_completion_ok held).
  - done.
Qed.

Lemma ops_step held s0 s sent ops : ops_ok ops -> pass_ok held s0 s sent -> pass_ok held s0 (tile_ops ops s) sent.
Proof.
  intros [Ho Hq] P. apply (pass_ok_step held held s0 s); [done | | |].
  - apply tile_ops_ok; [done | apply P].
  - apply (tile_ops_geometry held); [done | apply P].
  - intros Q. apply (tile_ops_keep held); [done | by apply Hq | apply P].
Qed.

Section jobs.
Context (held : Z -> Prop) (s0 : wd_server) (source : wd_encode_selection_source).

Lemma send_results_ok inputs results : (forall i, result_input_ok (inputs i)) ->
  Forall (result_ok s0.(sv_geometry)) results -> forall i p, pass_ok held s0 p.(pa_server) p.(pa_sent) ->
  let p' := send_results source inputs i results p in pass_ok held s0 p'.(pa_server) p'.(pa_sent).
Proof.
  intros Hin Hres. induction Hres as [|r results R _ IH]; intros i p P; [done |]. cbn [send_results].
  destruct source.
  - pose proof (fresh_result_ok held s0 (inputs i) r (Hin i) R p P) as P1.
    destruct (send_fresh_result (inputs i) r p) as [p1 []]; [by apply IH | done].
  - pose proof (repair_result_ok held s0 (inputs i) r (Hin i) R p P) as P1.
    destruct (send_repair_result (inputs i) r p) as [p1 []]; [by apply IH | done].
Qed.

Lemma job_completed_ok c job p : completion_ok c -> job_of s0.(sv_geometry) job ->
  pass_ok held s0 p.(pa_server) p.(pa_sent) ->
  let p' := job_completed ZSTD_compressCCtx source c job p in pass_ok held s0 p'.(pa_server) p'.(pa_sent).
Proof.
  intros (_ & Hw & Hin) Hj P. cbv zeta. unfold job_completed.
  destruct (one_job_ok ZSTD_compressCCtx c.(ci_alloc) job fb c.(ci_worker) (proj1 Hj) Hw) as (H1 & _ & _ & _ & Hr).
  set (job' := (wd_stream_parallel_encode_one_job _ _ _ _).1) in *. clearbody job'.
  destruct (note_job_frame p.(pa_server) job'.(jb_stats)) as [st ->]. set (p1 := p <| pa_server := _ |>).
  assert (pass_ok held s0 p1.(pa_server) p1.(pa_sent)) as P1
    by (apply (pass_ok_step held held s0 p.(pa_server)); [done | apply P | done | done]).
  case_if; [done |]. destruct (jb_result job') as [|r results] eqn:Eres.
  - unfold no_result. destruct source; [| by case_if].
    set (p2 := if _ && _ then _ else p1).
    assert (pass_ok held s0 p2.(pa_server) p2.(pa_sent)) as P2.
    { subst p2. case_if; [| done]. apply (pass_ok_step held held s0 p1.(pa_server)); [done | apply P1 | done | done]. }
    cbn [pa_server pa_sent set_field]. destruct (Hin 0) as (_ & Hn & ->). rewrite Hr.
    pose proof (requeue_keeps p2.(pa_server) job.(jb_top_region_id) (ci_results c 0).(ri_end_ns) true) as K.
    apply (pass_ok_step held held s0 p2.(pa_server)); [done | | apply K | done].
    apply requeue_region_ok; [rewrite (ps_geometry _ _ _ _ P2); by apply job_region | done |].
    apply (held_weaken held); [by left | apply P2].
  - apply send_results_ok; [done | | done].
    apply (list.Forall_impl _ _ _ H1). intros r'. by apply job_result_ok.
Qed.

Lemma completions_ok jobs cs : Forall (job_of s0.(sv_geometry)) jobs -> Forall completion_ok cs ->
  forall completed p, pass_ok held s0 p.(pa_server) p.(pa_sent) ->
  let p' := completions ZSTD_compressCCtx source jobs completed cs p in pass_ok held s0 p'.(pa_server) p'.(pa_sent).
Proof.
  intros Hjobs Hcs. induction Hcs as [|c cs Hc _ IH]; intros completed p P; [done |]. cbn [completions].
  assert (pass_ok held s0 (tile_ops c.(ci_ops) p.(pa_server)) p.(pa_sent)) as P1 by (apply ops_step; [apply Hc | done]).
  destruct (jobs !! ci_job c) as [job|] eqn:Ej; [| done]. case_if; [done |].
  apply IH, job_completed_ok; [done | | done]. by apply (Forall_lookup_1 _ _ _ _ Hjobs Ej).
Qed.

End jobs.

(** *** Batches *)

Definition batch_ok (b : batch_input) : Prop :=
  ops_ok b.(bt_start_ops) /\ ops_ok b.(bt_end_ops) /\ Forall completion_ok b.(bt_completions) /\
  (forall k, u64_ok (b.(bt_take_ns) k)) /\ 0 <= b.(bt_requeue_ns) /\ b.(bt_region_alloc) = true.

(** The regions of a batch. *)
Definition held_by (held : Z -> Prop) (jobs : list wd_parallel_encode_job) (r : Z) : Prop :=
  held r \/ r ∈ jb_top_region_id <$> jobs.

Lemma requeue_jobs_ok b held s0 jobs : batch_ok b -> Forall (job_of s0.(sv_geometry)) jobs -> forall s sent,
  pass_ok (held_by held jobs) s0 s sent -> pass_ok held s0 (requeue_jobs b jobs s) sent.
Proof.
  intros (_ & _ & _ & _ & Hn & Ha) Hjobs. unfold requeue_jobs. rewrite Ha.
  induction Hjobs as [|job jobs Hj _ IH]; intros s sent P.
  - apply (pass_ok_step _ _ _ _ _ _ P); [| done | done]. apply (held_weaken (held_by held [])); [| apply P].
    intros r [?|?%elem_of_nil]; done.
  - cbn [fold_left]. apply IH. pose proof (requeue_keeps s job.(jb_top_region_id) b.(bt_requeue_ns) true) as K.
    apply (pass_ok_step _ _ _ _ _ _ P); [| apply K | done].
    apply requeue_region_ok; [rewrite (ps_geometry _ _ _ _ P); by apply job_region | done |].
    apply (held_weaken (held_by held (job :: jobs))); [| apply P].
    intros r [?|[->|?]%list.elem_of_cons]; [left; by left | by right | left; by right].
Qed.

Definition framebuffer_of (g : tile_geometry) : Prop := zlen fb = g.(tg_display_width) * g.(tg_display_height).

Lemma new_job s region seq budget happy source : grid_ok s.(sv_geometry) -> framebuffer_of s.(sv_geometry) ->
  0 <= region < region_total s.(sv_geometry) ->
  exists job, wd_stream_init_encode_job_locked s fb mode region seq budget happy source
    WD_STREAM_ENCODER_MAX_RESULTS_PER_JOB = Some job /\ job_of s.(sv_geometry) job /\ job.(jb_top_region_id) = region.
Proof.
  intros G Hfb Hr. destruct (region_total_eq _ G) as (Et & _). rewrite Et in Hr.
  destruct (init_job_ok s fb mode region seq budget happy source G Hfb Hr) as (job & E & J & Eg & Er & _). by exists job.
Qed.

(** Each turn takes a region from the scheduler: either it has no dirty tile
    left, or the batch now holds it. *)
Lemma take_jobs_ok b capacity seq budget happy s0 : batch_ok b -> framebuffer_of s0.(sv_geometry) ->
  forall fuel k s jobs, s.(sv_geometry) = s0.(sv_geometry) -> keeps_dirty s0 s ->
  Forall (job_of s0.(sv_geometry)) jobs -> queues_ok (held_by nothing_held jobs) s ->
  let '(s', jobs') := take_jobs fb mode fuel b k capacity seq budget happy s jobs in
  keeps_dirty s0 s' /\ Forall (job_of s0.(sv_geometry)) jobs' /\ queues_ok (held_by nothing_held jobs') s'.
Proof.
  intros (_ & _ & _ & Hclk & _ & _) Hfb. induction fuel as [|fuel IH]; intros k s jobs Eg K Hjobs Q; [done |].
  cbn [take_jobs]. case_if; [| done]. destruct (sv_dirty_region_scheduler s) as [d|] eqn:Es; [| done].
  pose proof (take_region_ok _ _ d s.(sv_dirty_region_cursor) (b.(bt_take_ns) k) Es (Hclk k) Q) as T.
  destruct (wd_dirty_region_scheduler_take d _ _) as [[top|] d']; cbv zeta in T; [| done].
  destruct T as (Q1 & Ht & _). set (s1 := wd_stream_sync_dirty_region_count_locked _) in *.
  destruct (wd_stream_top_region_still_dirty_locked s1 top) eqn:Ed; cbn [negb].
  - destruct (new_job (s1 <| sv_dirty_region_cursor := top |>) top seq budget happy WD_ENCODE_SELECTION_FRESH)
      as (job & -> & Hj & Er); [apply Q | by rewrite <- Eg in Hfb | done |].
    apply IH; try done.
    + apply list.Forall_app. split; [done |]. constructor; [| done]. by rewrite <- Eg.
    + change (queues_ok (held_by nothing_held (jobs ++ [job])) s1). revert Q1. apply held_weaken. unfold held_by. intros x. rewrite fmap_app, elem_of_app.
      intros [[?|?]| ->]; [by left | right; by left | right; right]. rewrite <- Er. by left.
  - pose proof (remove_keeps_dirty s1 top) as Kr. apply IH; try done.
    by apply remove_region_ok.
Qed.

(** The fuel is enough: with one turn for each waiting region the loop ends by
    itself, and more turns change nothing. *)
Lemma take_jobs_ends b capacity seq budget happy : batch_ok b -> forall fuel held k s jobs,
  framebuffer_of s.(sv_geometry) -> queues_ok held s -> s.(sv_dirty_region_count) <= Z.of_nat fuel ->
  take_jobs fb mode (S fuel) b k capacity seq budget happy s jobs =
  take_jobs fb mode fuel b k capacity seq budget happy s jobs.
Proof.
  intros (_ & _ & _ & Hclk & _ & _) fuel. induction fuel as [|fuel IH]; intros held k s jobs Hfb Q Hc; cbn [take_jobs].
  { case_if; [| done]. bool_cases. lia. }
  case_if; [| done]. destruct (sv_dirty_region_scheduler s) as [d|] eqn:Es; [| done].
  pose proof (take_region_ok _ _ d s.(sv_dirty_region_cursor) (b.(bt_take_ns) k) Es (Hclk k) Q) as T.
  destruct (wd_dirty_region_scheduler_take d _ _) as [[top|] d']; cbv zeta in T; [| done].
  destruct T as (Q1 & Ht & Hc1). set (s1 := wd_stream_sync_dirty_region_count_locked _) in *.
  destruct (wd_stream_top_region_still_dirty_locked s1 top) eqn:Ed; cbn [negb].
  - destruct (new_job (s1 <| sv_dirty_region_cursor := top |>) top seq budget happy WD_ENCODE_SELECTION_FRESH)
      as (job & -> & _ & _); [apply Q | done | done |].
    apply (IH (fun x => held x \/ x = top)); [done | exact Q1 |].
    change (s1.(sv_dirty_region_count) <= Z.of_nat fuel). lia.
  - pose proof (remove_region_count _ s1 top ltac:(lia) Q1) as Hle.
    apply (IH held); [| by apply remove_region_ok | lia].
    by rewrite (proj1 (remove_keeps_dirty s1 top)).
Qed.

(** One batch leaves nothing held, and accounts for the tiles it cleared. *)
Lemma pass_ok_trans s0 s sent s' sent' : pass_ok nothing_held s0 s sent -> pass_ok nothing_held s s' sent' ->
  pass_ok nothing_held s0 s' (sent ++ sent').
Proof.
  intros [P1 P2 P3 P4] [R1 R2 R3 R4]. rewrite P2 in R3. split; [done | congruence | by apply list.Forall_app |].
  intros Hq. unfold sent_tiles. rewrite bind_app. apply (dirty_but_trans _ _ _ s); [by apply P4 | by apply R4].
Qed.

Lemma fresh_batch_ok b s : batch_ok b -> framebuffer_of s.(sv_geometry) -> queues_ok nothing_held s ->
  let '(s', sent, _) := fresh_batch ZSTD_compressCCtx fb mode b s in pass_ok nothing_held s s' sent.
Proof.
  intros Hb Hfb Q. unfold fresh_batch. destruct (budget_frame s false b.(bt_budget_ns)) as [pol Eb].
  destruct (wd_stream_tile_byte_budget_locked _ _ _) as [budget s1]. cbn [snd] in Eb. subst s1.
  set (s1 := s <| sv_stream_policy := pol |>). assert (queues_ok nothing_held s1) as Q1 by exact Q.
  assert (forall s', queues_ok nothing_held s' -> keeps_dirty s s' -> pass_ok nothing_held s s' []) as Hstop.
  { intros s' Q' K. apply (pass_ok_step nothing_held nothing_held s s); [by apply pass_ok_refl | done | apply K | done]. }
  case_if; [apply Hstop; [exact Q1 | done] |]. case_if; [apply Hstop; [exact Q1 | done] |].
  set (seq := wd_input_correlation_select _ _ _). set (inj := if _ && _ then _ else 0).
  pose proof (take_jobs_ok b (wd_stream_encode_batch_capacity s1.(sv_dirty_region_count) b.(bt_workers)) seq budget
    (client_happy s1 b.(bt_reports)) s Hb Hfb (Z.to_nat s1.(sv_dirty_region_count)) 0 s1 [] eq_refl) as T.
  destruct (take_jobs _ _ _ _ _ _ _ _ _ _ _) as [s2 jobs].
  destruct T as (K2 & Hjobs & Q2);
    [done | done | revert Q1; apply held_weaken; by left |].
  assert (pass_ok (held_by nothing_held jobs) s s2 []) as P2.
  { split; [done | apply K2 | done |]. intros _. by apply keeps_dirty_but. }
  destruct jobs as [|job jobs].
  { apply Hstop; [| done]. revert Q2. apply held_weaken. by intros r [?|?%elem_of_nil]. }
  set (js := job :: jobs) in *. set (s3 := tile_ops _ _).
  assert (pass_ok (held_by nothing_held js) s s3 []) as P3.
  { apply ops_step; [apply Hb |]. apply (pass_ok_step _ _ _ _ _ _ P2); [exact Q2 | done | done]. }
  case_if; [by apply requeue_jobs_ok |].
  pose proof (completions_ok (held_by nothing_held js) s WD_ENCODE_SELECTION_FRESH js b.(bt_completions) Hjobs
    (proj1 (proj2 (proj2 Hb))) [] (mk_pass s3 false seq inj []) P3) as P4. cbv zeta in P4.
  set (p := completions _ _ _ _ _ _) in *. apply requeue_jobs_ok; [done | done |]. apply ops_step; [apply Hb | done].
Qed.

Lemma send_fresh_ok batches : Forall batch_ok batches -> forall s,
  framebuffer_of s.(sv_geometry) -> queues_ok nothing_held s ->
  let '(s', sent) := send_fresh ZSTD_compressCCtx fb mode batches s in pass_ok nothing_held s s' sent.
Proof.
  induction 1 as [|b batches Hb _ IH]; intros s Hfb Q; cbn [send_fresh]; [by apply pass_ok_refl |].
  case_if; [| by apply pass_ok_refl]. pose proof (fresh_batch_ok b s Hb Hfb Q) as P.
  destruct (fresh_batch _ _ _ b s) as [[s1 sent] go_on]. destruct go_on; [| done].
  specialize (IH s1). destruct (send_fresh _ _ _ batches s1) as [s2 more].
  apply (pass_ok_trans _ s1); [done |]. apply IH; [by rewrite (ps_geometry _ _ _ _ P) | apply P].
Qed.

(** *** Repairs *)

Lemma collect_repair_ok slots : Forall (fun t => 0 <= t) slots -> forall s regions,
  queues_ok nothing_held s -> Forall (fun r => 0 <= r < region_total s.(sv_geometry)) regions ->
  let '(s', regions') := fold_left collect_repair slots (s, regions) in
  queues_ok nothing_held s' /\ keeps_dirty s s' /\
  Forall (fun r => 0 <= r < region_total s.(sv_geometry)) regions'.
Proof.
  induction 1 as [|t slots Ht _ IH]; intros s regions Q Hr; [done |]. cbn [fold_left].
  assert (let '(s', regions') := collect_repair (s, regions) t in queues_ok nothing_held s' /\ keeps_dirty s s' /\
    Forall (fun r => 0 <= r < region_total s.(sv_geometry)) regions') as Hs.
  { unfold collect_repair. case_if; [done |]. bool_cases.
    assert (0 <= t < s.(sv_geometry).(tg_total_tiles)) as Hin by lia. case_if.
    - split_and!; [| done | done]. destruct Q as (G & D & P & S' & A). split; [done |]. split; [done |].
      split; [exact (proj2 (drop_marks_ok s t _ Hin P)) |]. split; [done |].
      revert A. rewrite !list.Forall_cons. cbn. by rewrite !zlen_aset.
    - set (requested := if null _ then 0 else _). destruct (negb (requested =? 0) && _); [done |].
      rewrite (top_region_spec _ _ (proj1 Q) Hin). split_and!; [done | done |].
      case_if; [done |]. apply list.Forall_app. split; [done |]. constructor; [| done].
      apply region_of_range; [apply Q | done]. }
  destruct (collect_repair (s, regions) t) as [s1 regions1]. destruct Hs as (Q1 & K1 & R1).
  specialize (IH s1 regions1 Q1). rewrite (proj1 K1) in IH. specialize (IH R1).
  destruct (fold_left collect_repair slots (s1, regions1)) as [s2 regions2]. destruct IH as (Q2 & K2 & R2).
  split_and!; [done | by etransitivity | done].
Qed.

Lemma repair_jobs_ok capacity budget happy s regions : grid_ok s.(sv_geometry) -> framebuffer_of s.(sv_geometry) ->
  Forall (fun r => 0 <= r < region_total s.(sv_geometry)) regions -> forall jobs,
  Forall (job_of s.(sv_geometry)) jobs ->
  Forall (job_of s.(sv_geometry)) (repair_jobs fb mode capacity budget happy s regions jobs).
Proof.
  intros G Hfb. induction 1 as [|r regions Hr _ IH]; intros jobs Hj; cbn [repair_jobs]; [done |]. case_if; [| done].
  destruct (new_job s r 0 budget happy WD_ENCODE_SELECTION_RETRANSMIT G Hfb Hr) as (job & -> & Hjob & _).
  apply IH, list.Forall_app. split; [done | by constructor].
Qed.

Lemma compact_step s0 s sent : pass_ok nothing_held s0 s sent ->
  pass_ok nothing_held s0 (wd_stream_compact_retransmit_queue_locked s) sent.
Proof.
  intros P. destruct (compact_ok nothing_held s (ps_queues _ _ _ _ P)) as (Q & E & _).
  apply (pass_ok_step _ _ _ _ _ _ P); [done | done |]. intros _. split; [done |]. intros t _ Hd.
  unfold wd_stream_compact_retransmit_queue_locked. by case_if.
Qed.

Lemma repair_batch_ok b s : batch_ok b -> framebuffer_of s.(sv_geometry) -> queues_ok nothing_held s ->
  let '(s', sent, _) := repair_batch ZSTD_compressCCtx fb mode b s in pass_ok nothing_held s s' sent.
Proof.
  intros Hb Hfb Q. unfold repair_batch. destruct (budget_frame s true b.(bt_budget_ns)) as [pol Eb].
  destruct (wd_stream_tile_byte_budget_locked _ _ _) as [budget s1]. cbn [snd] in Eb. subst s1.
  set (s1 := s <| sv_stream_policy := pol |>). assert (queues_ok nothing_held s1) as Q1 by exact Q.
  assert (pass_ok nothing_held s s1 []) as P1
    by (apply (pass_ok_step nothing_held nothing_held s s); [by apply pass_ok_refl | done | done | done]).
  case_if; [exact P1 |]. pose proof (proj1 (proj2 (proj2 Q1))) as R1.
  pose proof (collect_repair_ok _ (po_slots _ _ _ _ _ R1) s1 [] Q1 ltac:(constructor)) as C.
  destruct (fold_left collect_repair _ _) as [s2 regions]. destruct C as (Q2 & K2 & Hr).
  assert (pass_ok nothing_held s s2 []) as P2
    by (apply (pass_ok_step _ _ _ _ _ _ P1); [done | apply K2 | done]).
  pose proof (compact_step _ _ _ P2) as P3. set (s3 := wd_stream_compact_retransmit_queue_locked s2) in *.
  case_if; [done |].
  pose proof (repair_jobs_ok (wd_stream_encode_batch_capacity (zlen regions) b.(bt_workers)) budget
    (client_happy s3 b.(bt_reports)) s3 regions) as Hjobs. rewrite (ps_geometry _ _ _ _ P3) in Hjobs.
  specialize (Hjobs (proj1 Q) Hfb Hr [] ltac:(constructor)).
  destruct (repair_jobs _ _ _ _ _ _ _ _) as [|job jobs]; [done |]. set (js := job :: jobs) in *.
  assert (pass_ok nothing_held s (tile_ops b.(bt_start_ops) s3) []) as P4 by (apply ops_step; [apply Hb | done]).
  case_if; [| by apply compact_step]. apply compact_step, ops_step; [apply Hb |].
  apply (completions_ok nothing_held s WD_ENCODE_SELECTION_RETRANSMIT js b.(bt_completions) Hjobs
    (proj1 (proj2 (proj2 Hb))) [] (mk_pass (tile_ops b.(bt_start_ops) s3) false 0 0 []) P4).
Qed.

Lemma send_repairs_ok batches : Forall batch_ok batches -> forall s,
  framebuffer_of s.(sv_geometry) -> queues_ok nothing_held s ->
  let '(s', sent) := send_repairs ZSTD_compressCCtx fb mode batches s in pass_ok nothing_held s s' sent.
Proof.
  induction 1 as [|b batches Hb _ IH]; intros s Hfb Q; cbn [send_repairs]; [by apply pass_ok_refl |].
  case_if; [| by apply pass_ok_refl]. pose proof (repair_batch_ok b s Hb Hfb Q) as P.
  destruct (repair_batch _ _ _ b s) as [[s1 sent] go_on]. destruct go_on; [| done].
  specialize (IH s1). destruct (send_repairs _ _ _ batches s1) as [s2 more].
  apply (pass_ok_trans _ s1); [done |]. apply IH; [by rewrite (ps_geometry _ _ _ _ P) | apply P].
Qed.

Lemma retransmits_ok batches s : Forall batch_ok batches -> framebuffer_of s.(sv_geometry) -> queues_ok nothing_held s ->
  let '(s', sent) := wd_stream_send_retransmits_locked ZSTD_compressCCtx fb mode batches s in
  pass_ok nothing_held s s' sent.
Proof.
  intros. unfold wd_stream_send_retransmits_locked. case_if; [by apply pass_ok_refl | by apply send_repairs_ok].
Qed.

(** *** The whole pass *)

Definition pass_input_ok (i : pass_input) : Prop :=
  0 <= i.(pi_analysis_ns) /\ i.(pi_analysis_alloc) = true /\
  Forall batch_ok (i.(pi_early_repairs) ++ i.(pi_fresh) ++ i.(pi_repairs)).

(** After the frame's damage is queued. *)
Definition damaged (i : pass_input) (s : wd_server) : wd_server :=
  if i.(pi_process_new_damage)
  then fst (wd_stream_apply_frame_analysis_locked s i.(pi_analysis) i.(pi_analysis_ns) i.(pi_analysis_alloc)) else s.

Lemma send_tiles_ok i s : pass_input_ok i -> framebuffer_of s.(sv_geometry) -> queues_ok nothing_held s ->
  let '(s', sent) := send_tiles ZSTD_compressCCtx fb mode i s in
  keeps_dirty s (damaged i s) /\ pass_ok nothing_held (damaged i s) s' sent.
Proof.
  intros (Hn & Ha & Hall) Hfb Q. rewrite !list.Forall_app in Hall. destruct Hall as (He & Hf & Hr).
  unfold send_tiles. fold (damaged i s).
  assert (queues_ok nothing_held (damaged i s) /\ keeps_dirty s (damaged i s)) as [Q1 K1].
  { unfold damaged. case_if; [| done]. rewrite Ha. by apply analysis_ok. }
  set (s1 := damaged i s) in *. clearbody s1. rewrite <- (proj1 K1) in Hfb.
  match goal with |- context [if negb (client_happy s1 _) && _ then ?a else ?b] =>
    assert (let '(s', sent) := if negb (client_happy s1 i.(pi_reports)) && (sv_retransmit_queue_count s1 >? 0) then a else b in
      pass_ok nothing_held s1 s' sent) as P2 by (case_if; [by apply retransmits_ok | by apply pass_ok_refl]);
    destruct (if negb (client_happy s1 _) && _ then a else b) as [s2 early] end.
  pose proof (send_fresh_ok i.(pi_fresh) Hf s2) as P3. destruct (send_fresh _ _ _ _ s2) as [s3 fresh].
  specialize (P3 ltac:(by rewrite (ps_geometry _ _ _ _ P2)) (ps_queues _ _ _ _ P2)).
  pose proof (pass_ok_trans _ _ _ _ _ P2 P3) as P23.
  match goal with |- context [if negb (wd_stream_mode_video_owns_display ?m) then ?a else ?b] =>
    assert (let '(s', sent) := if negb (wd_stream_mode_video_owns_display m) then a else b in
      pass_ok nothing_held s3 s' sent) as P4;
    [case_if; [apply retransmits_ok; [done | by rewrite (ps_geometry _ _ _ _ P23) | apply P3] | apply pass_ok_refl, P3] |];
    destruct (if negb (wd_stream_mode_video_owns_display m) then a else b) as [s4 repaired] end.
  pose proof (pass_ok_trans _ _ _ _ _ P23 P4) as P. rewrite <- app_assoc in P. split; [done |].
  case_if; [| done]. apply (pass_ok_step _ _ _ _ _ _ P); [apply P | done | done].
Qed.

(** What the frame's analysis found changed is queued. *)
Lemma damage_marked held s analysis changed now t : 0 <= now -> queues_ok held s ->
  analysis.(fa_changed_tiles) = Some changed -> 0 <= t < s.(sv_geometry).(tg_total_tiles) ->
  aget false changed t = true ->
  aget false (wd_stream_apply_frame_analysis_locked s (Some analysis) now true).1.(sv_dirty_queued) t = true.
Proof.
  intros Hn Q Ec Ht Hc. unfold wd_stream_apply_frame_analysis_locked. rewrite Ec. cbn [fst].
  set (s1 := if fa_full_refresh analysis then _ else _).
  assert (queues_ok held s1 /\ s1.(sv_geometry) = s.(sv_geometry)) as [Q1 E1] by (subst s1; by case_if).
  clearbody s1. rewrite <- E1 in Ht.
  apply (fold_detect_marks held (fun _ t => aget false changed t) _ now t Hn s1); [| done | | done | by intros].
  - apply list.Forall_forall. intros t' Ht'%list_elem_of_In%elem_of_zseq. lia.
  - by apply list_elem_of_In, elem_of_zseq.
Qed.

End pass_ok.

(** ** Every history of the queues *)

(** The states of a server whose tile queues were allocated: the network
    thread's steps, passes, the video stream taking the display over, resizes. *)
Inductive reachable (ZSTD_compressCCtx : list Z -> Z -> option (list Z)) : wd_server -> Prop :=
  | reach_start s : grid_ok s.(sv_geometry) ->
      reachable ZSTD_compressCCtx
        (wd_stream_invalidate_all_tiles_locked (clear_queue_counts (calloc_tile_queues s s.(sv_geometry).(tg_total_tiles))))
  | reach_op s op : reachable ZSTD_compressCCtx s -> tile_op_ok op ->
      reachable ZSTD_compressCCtx (tile_op_step s op)
  | reach_pass s fb mode i : reachable ZSTD_compressCCtx s -> framebuffer_of fb s.(sv_geometry) ->
      pass_input_ok False i -> reachable ZSTD_compressCCtx (send_tiles ZSTD_compressCCtx fb mode i s).1
  | reach_video s : reachable ZSTD_compressCCtx s ->
      reachable ZSTD_compressCCtx (wd_stream_collapse_tile_queues_for_video_locked s)
  | reach_resize s width height content_epoch alloc_ok output_ok : reachable ZSTD_compressCCtx s ->
      u32_ok width -> u32_ok height ->
      reachable ZSTD_compressCCtx (wd_server_apply_display_size s width height content_epoch alloc_ok output_ok).1.

Lemma reachable_ok ZSTD_compressCCtx s : reachable ZSTD_compressCCtx s -> queues_ok nothing_held s.
Proof.
  induction 1 as [s G | s op _ Q Ho | s fb mode i _ Q Hfb Hi | s _ Q | s w h ce a o _ Q Hw Hh].
  - by apply calloc_ok.
  - apply (tile_ops_ok nothing_held [op]); [by constructor | done].
  - pose proof (send_tiles_ok ZSTD_compressCCtx fb mode False i s Hi Hfb Q) as H.
    destruct (send_tiles _ _ _ _ _) as [s' sent]. apply H.
  - by apply (collapse_ok nothing_held).
  - by apply resize_ok.
Qed.

(** C10: the tile queues agree, whatever happens to them.
    From the allocation of the queues, through any sequence of deliveries,
    repair requests, injected inputs, summaries, new sessions, send passes
    (interrupted by any of these between their steps), takeovers by the video
    stream and resizes in which the region scheduler gets its memory: the count of dirty tiles is exact; the region of every
    dirty tile waits in the scheduler, whose size is the region count, so no
    dirty tile is stranded; a tile marked for repair has a slot in the repair
    queue and is not dirty as well; and the summary queue lists exactly the
    tiles marked for the next summary, each once. Hence a dirty tile or a tile
    marked for repair always shows as queued work. *)
Theorem tile_queues_consistent ZSTD_compressCCtx s : reachable ZSTD_compressCCtx s ->
  s.(sv_dirty_queue_count) = n_queued s.(sv_dirty_queued) /\
  s.(sv_dirty_region_count) = match s.(sv_dirty_region_scheduler) with NULL => 0 | Some d => d.(ds_count) end /\
  let total := s.(sv_geometry).(tg_total_tiles) in
  let repairs := take (Z.to_nat s.(sv_retransmit_queue_count)) s.(sv_retransmit_queue) in
  let announced := take (Z.to_nat s.(sv_summary_dirty_count)) s.(sv_summary_dirty_queue) in
  NoDup announced /\
  (forall t, t ∈ announced <-> 0 <= t < total /\ aget false s.(sv_summary_dirty_tiles) t = true) /\
  forall t, 0 <= t < total ->
    (aget false s.(sv_dirty_queued) t = true ->
       wd_stream_has_queued_framebuffer_work_locked s = true /\
       exists d, s.(sv_dirty_region_scheduler) = Some d /\ waits d (region_of s.(sv_geometry) t)) /\
    (aget false s.(sv_retransmit_queued) t = true ->
       wd_stream_has_queued_framebuffer_work_locked s = true /\
       t ∈ repairs /\ aget false s.(sv_dirty_queued) t = false).
Proof.
  intros (_ & [D1 D2 D3 D4 D5] & [P1 P2 P3 P4] & [S1 S2 S3 S4] & _)%reachable_ok.
  split; [done |]. split; [done |]. split; [done |]. split; [done |]. intros t Ht.
  unfold wd_stream_has_queued_framebuffer_work_locked. split; intros H.
  - destruct (D5 t Ht H) as [[]|Hw]. split; [| done].
    pose proof (n_queued_pos s.(sv_dirty_queued) t ltac:(lia) H).
    rewrite (proj2 (Z.eqb_neq s.(sv_dirty_queue_count) 0)) by lia. done.
  - destruct (P4 t Ht H) as [Hd Hin]. split; [| done].
    destruct (sv_retransmit_queue_count s =? 0) eqn:E; [| by rewrite !orb_true_r].
    apply Z.eqb_eq in E. rewrite E in Hin. by apply elem_of_nil in Hin.
Qed.

(** C9: no damage is forgotten. When a pass starts from
    consistent queues and no new session begins while it runs, every base tile
    that was dirty, or that the frame's analysis found changed, is afterwards
    still dirty or was covered by a tile handed to the sender whole, whose
    payload is (the compression of) what the framebuffer shows there. This
    holds for every schedule of the encoder's workers, every budget, every
    status of the sender, and any deliveries, repair requests and summaries in
    between. *)
Theorem cleared_tiles_sent ZSTD_compressCCtx fb mode i s t : pass_input_ok True i ->
  zlen fb = s.(sv_geometry).(tg_display_width) * s.(sv_geometry).(tg_display_height) ->
  queues_ok nothing_held s -> 0 <= t < s.(sv_geometry).(tg_total_tiles) ->
  aget false s.(sv_dirty_queued) t = true \/
  i.(pi_process_new_damage) = true /\ (exists a changed, i.(pi_analysis) = Some a /\
    a.(fa_changed_tiles) = Some changed /\ aget false changed t = true) ->
  let '(s', sent) := send_tiles ZSTD_compressCCtx fb mode i s in
  aget false s'.(sv_dirty_queued) t = true \/
  exists x, x ∈ sent /\ let c := x.(sx_result).(rs_candidate) in
    t ∈ c.(ca_covered_base_ids) /\
    wd_stream_collect_wire_tile_base_ids s.(sv_geometry) c.(ca_tile_id) c.(ca_width) c.(ca_height)
      WD_WIRE_TILE_MAX_BASE_TILES = Some c.(ca_covered_base_ids) /\
    x.(sx_outcome).(so_ok) = true /\ x.(sx_outcome).(so_result).(sr_all_packets_sent) = true /\
    encodes ZSTD_compressCCtx (tile_source s.(sv_geometry) fb c.(ca_width) c.(ca_height) c.(ca_tile_id))
      x.(sx_result).(rs_payload) c.(ca_compressed_payload).
Proof.
  intros Hi Hfb Q Ht Hd. pose proof (send_tiles_ok ZSTD_compressCCtx fb mode True i s Hi Hfb Q) as H.
  destruct (send_tiles _ _ _ _ _) as [s' sent]. destruct H as [[Eg Hk] [_ _ Hsent Hdirty]].
  assert (aget false (damaged i s).(sv_dirty_queued) t = true) as Hd1.
  { destruct Hd as [Hd|(Hp & a & changed & Ea & Ec & Hc)]; [by apply Hk |]. destruct Hi as (Hn & Ha & _).
    unfold damaged. rewrite Hp, Ea, Ha. by apply (damage_marked nothing_held _ _ changed). }
  destruct (Hdirty I) as [_ Hb]. rewrite Eg in Hb. destruct (Hb t Ht Hd1) as [?|Hin]; [by left | right].
  apply list_elem_of_bind in Hin as (x & Hin & Hx). rewrite Eg in Hsent. rewrite list.Forall_forall in Hsent.
  destruct (Hsent x Hx) as (R & Hok & Hall & _). exists x. split; [done |]. cbv zeta. split_and!; try done; apply R.
Qed.

(** *** A concrete pass *)

(** Two tiles of [encode_server] change: the queues are allocated, and the
    tiles are found by the analysis of the frame. *)
Definition pass_policy : wd_stream_policy :=
  zero_policy <| sp_adaptive_tile_fresh_bytes_per_second := 4000000 |>
              <| sp_fresh_tile_bucket := mk_wd_bandwidth_bucket (double_of_Z 0) 1 |>.

Definition pass_server : wd_server :=
  wd_stream_invalidate_all_tiles_locked
    (clear_queue_counts (calloc_tile_queues (encode_server <| sv_stream_policy := pass_policy |>) 6)).

Definition pass_result (k : Z) : result_input :=
  mk_result_input zero_stats 1000000000 1000000000 1000000000 1000000500 (replicate 8 WD_ASYNC_UDP_SEND_QUEUED) true true.

Definition pass_batch (ops : list tile_op) : batch_input :=
  mk_batch_input zero_stats 1000000000 1 true (fun _ => 1000000000) ops true
    [mk_completion_input [] 0 encode_worker (fun _ => true) pass_result] [] 1000001000 true.

Definition pass_damage : pass_input :=
  mk_pass_input true
    (Some (mk_wd_stream_frame_analysis (Some [false; true; false; false; false; true]) 2 2 6 4 500 true))
    999999000 true zero_stats [] [pass_batch []] [].

Lemma pass_damage_ok quiet : pass_input_ok quiet pass_damage.
Proof.
  assert (ops_ok quiet []) as Hnil by (split; [constructor | by intros _ ?%elem_of_nil]).
  split; [done |]. split; [done |]. constructor; [| constructor]. split; [done |]. split; [done |].
  split; [| done]. constructor; [| constructor]. split; [done |]. split; [reflexivity | done].
Qed.

Lemma encode_grid_ok : grid_ok (encode_server <| sv_stream_policy := pass_policy |>).(sv_geometry).
Proof. split; try (vm_compute; split; congruence); reflexivity. Qed.

Lemma pass_server_ok : queues_ok nothing_held pass_server.
Proof. exact (calloc_ok (encode_server <| sv_stream_policy := pass_policy |>) encode_grid_ok). Qed.

Definition first_20 (src : list Z) (_ : Z) : option (list Z) := Some (take 20 src).

Lemma tile_queues_consistent_witness :
  let s := tile_op_step (send_tiles first_20 (replicate 800 7) 0 pass_damage pass_server).1 (InputInjected 5 6) in
  s.(sv_summary_dirty_count) = 6 /\ NoDup (take 6 s.(sv_summary_dirty_queue)).
Proof.
  assert (reachable first_20
    (tile_op_step (send_tiles first_20 (replicate 800 7) 0 pass_damage pass_server).1 (InputInjected 5 6))) as R.
  { apply reach_op; [| exact I]. apply reach_pass; [| reflexivity | apply pass_damage_ok].
    exact (reach_start first_20 (encode_server <| sv_stream_policy := pass_policy |>) encode_grid_ok). }
  pose proof (tile_queues_consistent first_20 _ R) as (_ & _ & N & _). cbv zeta.
  assert (sv_summary_dirty_count (tile_op_step (send_tiles first_20 (replicate 800 7) 0 pass_damage pass_server).1
    (InputInjected 5 6)) = 6) as E by (vm_compute; reflexivity).
  split; [exact E |]. rewrite E in N. exact N.
Defined.

Lemma cleared_tiles_sent_witness :
  let '(s', sent) := send_tiles first_20 (replicate 800 7) 0 pass_damage pass_server in
  aget false s'.(sv_dirty_queued) 5 = false /\
  exists x, x ∈ sent /\ x.(sx_outcome).(so_result).(sr_all_packets_sent) = true /\
    5 ∈ x.(sx_result).(rs_candidate).(ca_covered_base_ids).
Proof.
  pose proof (cleared_tiles_sent first_20 (replicate 800 7) 0 pass_damage pass_server 5 (pass_damage_ok True) eq_refl
    pass_server_ok) as H.
  assert (aget false (sv_dirty_queued (send_tiles first_20 (replicate 800 7) 0 pass_damage pass_server).1) 5 = false)
    as E by (vm_compute; reflexivity).
  destruct (send_tiles first_20 (replicate 800 7) 0 pass_damage pass_server) as [s' sent]. cbn [fst] in E.
  split; [exact E |]. destruct H as [Hd | (x & Hx & Hc & _ & _ & Hall & _)].
  - vm_compute. split; congruence.
  - right. split; [reflexivity |]. eexists _, _. split; [reflexivity |]. split; reflexivity.
  - rewrite E in Hd. discriminate Hd.
  - exists x. split; [exact Hx |]. split; [exact Hall | exact Hc].
Defined.
